(* ===== verification/_CoqProject ===== *)
-Q . S2P
Prelude.v
ListH.v
PhyMem.v
DivMer.v
DivMerInv.v
DivMerOps.v
DivMerAlloc.v
DivMerFree.v
Marea.v
MareaInit.v
MareaBoot.v
DivMerSpec.v
PageIf.v
Boot.v
BootSpec.v
BootPages.v
BootCorrect.v
Mmu.v
MmuInv.v
MmuOps.v
MmuSpec.v
MmuLife.v
MmuCorrect.v
Sched.v
SchedInv.v
SchedMoves.v
SchedOps.v
SchedSpec.v
SchedCorrect.v
SchedWindow.v
ObjIf.v
Kmsob.v
KmsobInv.v
KmsobOps.v
KmsobPool.v
KmsobDestroy.v
KmsobSpec.v
Kmempool.v
Vma.v
VmaInv.v
VmaSpace.v
VmaIv.v
VmaAlloc.v
VmaBox.v
VmaFree.v
VmaFault.v
VmaCorrect.v
Bytes.v
MemIf.v
Rfs.v
RfsMem.v
RfsBlk.v
RfsDir.v
RfsOps.v
RfsFiles.v
RfsFmat.v
RfsCorrect.v
RfsSpec.v
Intr.v
Kbd.v
Device.v
DeviceSpec.v
Service.v
ServiceInv.v
ServiceSpec.v
SelfTest.v
Kernel.v
KernelSpec.v
IntrSpec.v
KbdSpec.v
KbdEntry.v
Print.v
Console.v
ConsoleSpec.v
Lib.v
LibSpec.v
Loader.v
LoaderMem.v
LoaderSpec.v
LoaderCorrect.v
