(* ===== verification/Prelude.v ===== *)
(** * Verification of the myTinyOS (Cosmos) kernel

    myTinyOS is a small x86-64 kernel in C.  This development models its memory
    management, from the firmware's memory map to the page faults of a process, its
    scheduler, its devices with the file system in memory, its interrupts and its
    system calls, and proves the theorems that make them correct.

    ** The program and the files that model it

    - Physical page allocator (src/hal/x86/memdivmer.c).  One descriptor
      [msadsc_t] per page frame, three areas (hardware, kernel, process) with 52
      lists of free blocks of 2^k pages each.  Allocation takes the first list
      that fits and splits the block; release merges it with its neighbours.
      PhyMem.v: the structures, the state [mmst] (counters, areas, lists and the
      descriptor array as finite maps indexed as the C arrays are) and accesses.
      DivMer.v: every routine of memdivmer.c.  DivMerInv.v: the invariant [Inv]
      (the free blocks and the blocks handed out partition the managed pages;
      the link fields agree with the lists) and its change under each kind of
      update.  DivMerOps.v: page accounting, symbolic execution, linking and
      unlinking.  DivMerAlloc.v and DivMerFree.v: allocation and release.
      DivMerSpec.v: the theorems and an abstract allocator that they refine.
    - Memory areas (src/hal/x86/memarea.c).  Boot groups runs of adjacent free
      frames into blocks.  Marea.v: the routines.  MareaInit.v: one run is cut
      into blocks.  MareaBoot.v: all areas; the allocator invariant holds.
    - Memory discovery (src/hal/x86/halplatform.c, halmm.c, msadsc.c,
      memmgrinit.c).  The firmware's map becomes a sorted array of ranges, then
      one descriptor per usable frame; the kernel's own pages are marked and its
      page tables built.  Boot.v: the routines.  BootSpec.v: their behaviour.
      BootPages.v: the page tables under the processor's walk.  BootCorrect.v:
      the theorems.
    - Loader (src/initldr/uefi/ldrkrl: bstartparm.c, fs.c, chkcpmm.c, graph.c,
      inithead.c).  Loader.v: checks, the files of the image and their places, the
      memory map, page tables and the machine information block, on the bytes of
      physical memory.  LoaderMem.v: stores, copies, tables.  LoaderSpec.v: what it
      reads and each stage, and [move_img2maxpadr], with which the kernel moves the
      image to the top of memory before its memory discovery.  LoaderCorrect.v: the
      theorems, up to the kernel's memory discovery.
    - Interfaces.  PageIf.v: what the other components use of the page
      allocator, as a class of operations and a class of their laws; memdivmer.c
      is the instance.  ObjIf.v: the same for the allocator of small objects;
      kmsob.c is the instance.  The theorems on page tables and address spaces
      are proved against these classes.
    - Page tables of processes (src/hal/x86/halmmu.c).  Mmu.v: tables as words of
      physical memory, mapping and unmapping level by level, creation and
      destruction.  MmuInv.v: the invariant, over a ghost map of tables and
      entries.  MmuOps.v, MmuSpec.v, MmuLife.v: one level, whole walks, creation
      and destruction.  MmuCorrect.v: the theorems, against the processor's walk.
    - Object allocator (src/hal/x86/kmsob.c).  Kmsob.v: 64 classes of pools; a
      pool is a block of pages cut into objects, extended by further blocks and
      destroyed when all its objects are free.  KmsobInv.v: the invariant, over
      ghost regions.  KmsobOps.v, KmsobPool.v, KmsobDestroy.v: objects, pools,
      destruction.  KmsobSpec.v: the theorems and the instance of ObjIf.v.
    - Kernel memory pool (src/kernel/krlpagempol.c, krlmm.c).  Kmempool.v: small
      sizes go to the object allocator, larger ones take whole blocks of pages.
    - Virtual address spaces (src/kernel/krlvadrsmem.c, krlsvemm.c, the page-fault
      branch of src/hal/x86/halintupt.c).  Vma.v: intervals, boxes of pages,
      page faults, services.  VmaInv.v: the invariant, over a ghost map from the
      mapped pages to descriptor, frame and box.  VmaSpace.v: the calls to tables,
      pages and objects.  VmaIv.v: the sorted list.  VmaAlloc.v, VmaBox.v,
      VmaFree.v, VmaFault.v: handing out, boxes, giving back, page faults.
      VmaCorrect.v: creation, runs and the theorems.
    - Scheduler, wait lists, semaphores, threads (src/kernel/krlsched.c,
      krlwaitlist.c, krlsem.c, krlthread.c, krlcpuidle.c).  Sched.v: descriptors,
      lists, operations and the switch, over the state [sys].  SchedInv.v: the
      invariant: every thread is in exactly one place (ready, current of its
      class, asleep on one semaphore, exited, idle) with the matching status.
      SchedMoves.v: each operation as a move between places.  SchedOps.v: the
      operations make these moves.  SchedSpec.v: runs of the system as a step
      relation, round robin, start-up, kernel threads, handles.
      SchedCorrect.v: semaphores and round robin.  SchedWindow.v: the routines cut
      into critical sections, with interrupts between any two of them; safety.

    - File system (src/drivers/drvrfs.c).  Bytes.v: memory as arrays of bytes and the
      fields of packed structures.  MemIf.v: the kernel memory pool as an interface;
      Kmempool.v is the instance.  Rfs.v: superblock, bitmap, directory, files and
      the requests of the driver, on the bytes of the device.  RfsMem.v, RfsBlk.v,
      RfsDir.v, RfsOps.v, RfsFiles.v, RfsFmat.v: buffers, blocks and bitmap, the
      directory, one file, all files, formatting.  RfsCorrect.v, RfsSpec.v: requests
      as steps of an abstract file system; the theorems.  SelfTest.v: the test that
      the driver runs at every start.
    - Devices (src/kernel/krldevice.c, krlobjnode.c, krlintupt.c, src/drivers/drvtick.c,
      drvuart.c and the registration part of drvrfs.c).  Kbd.v: the key codes, the
      table of scan codes and the keyboard's buffer.  Device.v: the device table,
      request packets, handlers, dispatch, the functions of the serial driver, which
      serves the keyboard.  DeviceSpec.v: the table's invariant and theorems.
      KbdSpec.v: keys and their readers, up to the kernel's interrupt path.
      KbdEntry.v: what the driver's entry leaves.
    - Interrupts (src/hal/x86/i8259.c, halgdtidt.c, halintupt.c, kernel.asm).  Intr.v:
      the controller and timer chips, the tables of gates and segments, what each
      entry point calls.  IntrSpec.v: the processor's view of them; the theorems.
    - Services (src/kernel/krlsve*.c).  Service.v: the services behind the system
      calls.  ServiceInv.v: the invariant that ties handle tables, packets, device
      table and file system.  ServiceSpec.v: calls as steps on handles and files.
    - The whole kernel (src/hal/x86/halintupt.c, src/kernel/krlservice.c, krlglobal.c,
      krltime.c, user threads of krlthread.c, file lookup of halplatform.c).
      Kernel.v: one state in which the components share memory, threads with their
      address spaces, the service table, interrupts and faults.  KernelSpec.v: the
      theorems on the ways into the kernel.
    - User library (src/lib/lapi*.c, lib*.c, src/include/libinc/lapinrentry.h, the macro
      EXI_SCALL of src/include/halinc/kernel.inc).  Lib.v: registers, the frame on the
      kernel's stack, the calls, the functions on the clock device.  LibSpec.v: calls
      from the program's side; the clock functions always fail (a defect).

    - Console (src/hal/x86/halprint.c, bdvideo.c).  Print.v: formatting into the
      buffer of [kprint], with its theorems.  Console.v: UTF-8, glyphs and lines on
      the frame buffer, the background, the graphics modes.  ConsoleSpec.v: the
      theorems.

    - Intrusive lists (src/include/bastypeinc/list.h).  ListH.v: the pointer
      operations over a memory of [prev] and [next] fields, and the proof that
      they act on the rings in memory as the operations on sequences act.

    Boot (Boot.v, Marea.v) establishes the invariants of the allocator, which
    serves the rest of the kernel: page tables, objects and, on both, address
    spaces and the memory pool.  The file system and the device table take their
    memory from the pool; the services reach them through packets; the clock
    interrupt and the semaphores drive the scheduler.

    ** How code is modelled

    A routine is a function in the state and error monad [M] of this file.  It
    returns normally, halts ([system_error], [hal_sysdie]: the machine prints
    and stops), faults (an access through a pointer to no object) or runs out of
    fuel.  [wp] is total correctness: a theorem stated with it says that the
    routine returns normally.  [wph] says that it returns, or halts with one of the
    messages named, where the source halts on purpose (lack of memory, an open that
    the driver refuses).  64-bit words are integers with explicit
    wrap-around ([u64], [+u], [-u]); bit fields are truncated where they are
    written.  Intrusive doubly linked lists are sequences, which ListH.v
    justifies for a node that is added only when it is in no list and for a
    node in no list that is unlinked; adding a node that is still linked is a
    fault in the scheduler's model.

    Fuel: loops that walk an array take its length; the splitting and merging
    loops take the number of orders (52), each round changing the order by one;
    the loop over a memory range takes its number of pages plus one; waking all
    sleepers takes the length of the list; cutting a block takes its size over the
    smallest object plus one; releasing the blocks of a pool and the tables of a
    space takes the length of their lists; unmapping a range takes its number of
    pages plus one; the search of a directory takes 33, one more than the entries of
    a block; printing a number takes 64, more than the digits of a word; printing a
    text takes its bytes, and the background takes a depth of one; the loops of the
    loader take their number of rounds.  The theorems prove that it suffices.

    ** What the theorems show

    - Page allocator: an allocation returns a free block of the first fitting
      order with exactly the pages it reports, and fails only when no list fits;
      a release frees exactly its pages and merges completely with its
      neighbours; any sequence of requests from boot runs without a halt or a
      fault and the blocks held are disjoint; allocate and release round trip;
      wrong releases are refused without effect; every operation is a step of an
      abstract allocator over sets of pages.  The memory behind the descriptor array
      is taken to be readable and not free, since boot reads one descriptor of it (a
      defect).
    - Boot: the descriptors are exactly the usable frames, once each and in
      order; the kernel's segments are marked; the page tables realise the
      linear map; the counters add up; when the frames are a multiple of 512 the
      boot halts (a defect of the overlap test).
    - Loader: it ends with the files in place, the map copied, the tables right and
      nothing else changed; the kernel moves the image to the top of memory and its
      memory discovery runs on what they leave; a kernel of whole pages stops the
      loader (a defect).
    - Scheduler: with interrupts between any two critical sections, no reachable
      state lets an enabled action halt, fault or tangle a list, and nobody sleeps
      on an available semaphore, as long as no interrupt between the choice of a
      thread and the switch to it reschedules; one that does can resume a sleeping
      thread and halt the machine (a defect).  Semaphores count and exclude; the
      next thread is of the highest priority, in turn.

    - Page tables: mapping and unmapping change exactly one translation of the
      processor's walk, give their table pages back on failure and when a table
      becomes empty, and never touch the kernel half; a space refines a finite map
      from page numbers to frames.
    - Objects and kernel memory: an object handed out is apart from all others
      and inside pages of the allocator, failure has no effect, a release frees
      exactly the object and gives the pages of an empty pool back, and this holds
      in every reachable state; blocks of other than a power of two of pages cannot
      be given back (a defect).
    - Address spaces: a range handed out was free; a range given back is exactly
      what becomes free, with its pages; a page fault maps a fresh frame and
      changes no other translation; in every run of services and faults the
      intervals are sorted and disjoint, the boxes counted and the kernel's own
      check passes, if each free that is accepted is page-aligned and does not wrap
      around.  The service does not test this: two examples show that other frees are
      accepted too and leave a space that is not well-formed (a defect).
    - Files: every request to the driver is a step of an abstract file system of named
      files and open handles; what was written is read back; formatting makes an
      empty file system of any device; the self-test passes and harms no file.
    - Devices and services: a registered device is found under its id and an id in
      use is refused; every file call of a thread is a step on handles and files, in
      the services and end to end from the library function through registers, frame
      and service table; opening a missing file halts the machine (a defect).
    - Keyboard: the entry registers device, handler and interrupt line; a reader sleeps
      until the next key, which wakes it and is what it reads; of a burst of keys only
      the last is kept, and it is read as often as keys came (a defect).
    - Interrupts: every vector leads to the handler with its own number, programs can
      raise three of them; exactly the lines asked for are open and reach their
      handler; the clock interrupt is one step of the scheduler; a fault ends its
      thread only.
    - Console: a format is expanded to the text that decimal and hexadecimal notation
      give, and leaves its buffer exactly when the text is too long (nothing tests it);
      in VBE mode a text whose characters have glyphs is printed in finite time with
      stores into the frame buffers only, a glyph sets exactly its pixels, and decoding
      undoes encoding.  The background has 769 lines: on a screen of 768 lines the
      frame needs memory for one more, and the picture is read one line too far (a
      defect); a byte that starts no character is printed for ever (a defect).
    - Lists: any sequence of list operations keeps the memory a set of disjoint
      rings, and they are the sequences that the abstract operations give; the
      tests and loops see the nodes in order.

    ** What is not modelled

    Spin locks: what a lock encloses is atomic, which it is on the single processor
    ([CPUCORE_MAX] is 1), since the locks mask interrupts.  SchedWindow.v has the
    interrupts between the critical sections of the scheduler; in the other files each
    operation is atomic as a whole.  The memory behind
    the descriptor array is one extra descriptor that must not look free
    ([marray]): memarea.c reads it.  The address field of a page table entry is shifted
    at 64 bits, where gcc keeps 40: addresses from 2^40 on differ.  The services'
    invariant has handles of files only: a thread that holds a handle of the keyboard or
    of the clock is outside of it, although the services themselves serve it.
    Messages that the other components print,
    self-test routines other than the file system's, the move of the frame
    buffer, the general registers of a switch and the macros of kernel.inc that save
    them there.  Vma.v has one address space at a time; Kernel.v keeps all of them.
    Contents of user pages: only the copies from a program's file are recorded, so
    that printf.c of the library, which works on such pages, is left out.  A call that
    sleeps in the driver of the keyboard is modelled pass by pass ([uart_read_try]); for
    the services, which call it as a whole, it does not return ([NoFuel]).  Of the
    loader: its messages, what nothing calls, and the variant for the BIOS.  The
    demonstration program and the third-party network stack are out of scope.

    ** This file

    Machine integers, the monad and its weakest preconditions, loops, shared
    tactics, and lemmas on lists, finite maps and powers of two. *)

From stdpp Require Export base tactics numbers list gmap strings option sorting.
From Stdlib Require Export ZArith Lia ZifyBool.

#[global] Open Scope Z_scope.
#[export] Set Default Goal Selector "!".

(** ** Machine integers *)

Declare Scope c_scope.
Delimit Scope c_scope with C.

(** [uint_t], [u64_t], [adr_t] and [size_t] are 64-bit; arithmetic wraps. *)
Definition u64max : Z := 2 ^ 64.
Definition u64 (x : Z) : Z := x mod u64max.

Notation "x '+u' y" := (u64 (x + y)) (at level 50, left associativity) : c_scope.
Notation "x '-u' y" := (u64 (x - y)) (at level 50, left associativity) : c_scope.
Notation "x '<<u' y" := (u64 (Z.shiftl x y)) (at level 40, left associativity) : c_scope.
#[global] Open Scope c_scope.

(** [~0UL] *)
Definition ones64 : Z := u64max - 1.

Lemma u64_small x : 0 <= x < u64max -> u64 x = x.
Proof. apply Z.mod_small. Qed.

Lemma u64_range x : 0 <= u64 x < u64max.
Proof. apply Z.mod_pos_bound. done. Qed.

Lemma u64max_val : u64max = 18446744073709551616.
Proof. reflexivity. Qed.

Lemma shl12 x : Z.shiftl x 12 = 4096 * x.
Proof. rewrite Z.shiftl_mul_pow2; lia. Qed.

Lemma pow2_pos k : 0 <= k -> 0 < 2 ^ k.
Proof. intros; apply Z.pow_pos_nonneg; lia. Qed.

Lemma pow2_S k : 0 <= k -> 2 ^ (k + 1) = 2 * 2 ^ k.
Proof. intros; rewrite Z.pow_add_r; lia. Qed.

Lemma pow2_le j k : 0 <= j <= k -> 2 ^ j <= 2 ^ k.
Proof. intros; apply Z.pow_le_mono_r; lia. Qed.

Lemma pow2_lt j k : 0 <= j < k -> 2 ^ j < 2 ^ k.
Proof. intros; apply Z.pow_lt_mono_r; lia. Qed.

Lemma pow2_inj j k : 0 <= j -> 0 <= k -> 2 ^ j = 2 ^ k -> j = k.
Proof. intros; eapply Z.pow_inj_r; [ | | | eassumption]; lia. Qed.

(** ** Effects: state, [system_error] and invalid memory accesses

    A kernel routine is a state transformer with three abnormal outcomes:
    [Halt] is [system_error]/[hal_sysdie] (which print and loop for ever),
    [Fault] is an access through a pointer that designates no object, and
    [NoFuel] marks a fuelled loop whose fuel was exhausted.  *)

Inductive outcome (A : Type) : Type :=
| Ret (a : A)
| Halt (msg : string)
| Fault
| NoFuel.
Arguments Ret {A} a.
Arguments Halt {A} msg.
Arguments Fault {A}.
Arguments NoFuel {A}.

Definition M (S A : Type) : Type := S -> outcome (A * S).

#[global] Instance M_ret {S} : MRet (M S) := fun A a s => Ret (a, s).
#[global] Instance M_bind {S} : MBind (M S) := fun A B f m s =>
  match m s with
  | Ret (a, s') => f a s'
  | Halt e => Halt e
  | Fault => Fault
  | NoFuel => NoFuel
  end.

Definition halt {S A} (msg : string) : M S A := fun _ => Halt msg.
Definition fault {S A} : M S A := fun _ => Fault.
Definition nofuel {S A} : M S A := fun _ => NoFuel.
Definition gets {S A} (f : S -> A) : M S A := fun s => Ret (f s, s).
Definition modify {S} (f : S -> S) : M S unit := fun s => Ret (tt, f s).

(** [if (c) system_error(msg);] *)
Definition die_if {S} (c : bool) (msg : string) : M S unit :=
  if c then halt msg else mret tt.


(** [for (x in l) if ((r = f(x)) found) return r;] *)
Fixpoint find_first {S A} (l : list Z) (f : Z -> M S (option A)) : M S (option A) :=
  match l with
  | [] => mret None
  | x :: l' => r ← f x; match r with Some a => mret (Some a) | None => find_first l' f end
  end.

(** [for (x in l) f(x);] *)
Fixpoint for_each {S A} (l : list A) (f : A -> M S unit) : M S unit :=
  match l with
  | [] => mret tt
  | x :: l' => f x ;; for_each l' f
  end.

(** ** Weakest preconditions (total correctness)

    [wp m s Q]: run from [s], [m] returns normally and [Q] holds of the
    result and the final state.  Halting, faulting and running out of fuel
    all falsify it. *)

Definition wp {S A} (m : M S A) (s : S) (Q : A -> S -> Prop) : Prop :=
  match m s with Ret (a, s') => Q a s' | _ => False end.

(** Running a sequence whose first part is known to return. *)
Lemma bind_eq {S A B} (m : M S A) (f : A -> M S B) s a s' : m s = Ret (a, s') -> (m ≫= f) s = f a s'.
Proof. intros H. unfold mbind, M_bind. by rewrite H. Qed.
Lemma bind_inv {T A B} (m : M T A) (f : A -> M T B) s r : (m ≫= f) s = Ret r -> exists a s', m s = Ret (a, s') /\ f a s' = Ret r.
Proof. unfold mbind, M_bind. destruct (m s) as [[a s']| | |]; [|done..]. intros H. by exists a, s'. Qed.

Section wp.
Context {S : Type}.
Implicit Types s : S.

Lemma wp_ret {A} (a : A) s Q : Q a s -> wp (mret a) s Q.
Proof. done. Qed.

Lemma wp_bind {A B} (m : M S A) (f : A -> M S B) s Q :
  wp m s (fun a s' => wp (f a) s' Q) -> wp (m ≫= f) s Q.
Proof. unfold wp, mbind, M_bind. destruct (m s) as [[a s']| | |]; done. Qed.

Lemma wp_bind_inv {A B} (m : M S A) (f : A -> M S B) s Q :
  wp (m ≫= f) s Q -> wp m s (fun a s' => wp (f a) s' Q).
Proof. unfold wp, mbind, M_bind. destruct (m s) as [[a s']| | |]; done. Qed.

Lemma wp_mono {A} (m : M S A) s (Q Q' : A -> S -> Prop) :
  wp m s Q -> (forall a s', Q a s' -> Q' a s') -> wp m s Q'.
Proof. unfold wp. destruct (m s) as [[a s']| | |]; naive_solver. Qed.

Lemma wp_gets {A} (f : S -> A) s (Q : A -> S -> Prop) : Q (f s) s -> wp (gets f) s Q.
Proof. done. Qed.

Lemma wp_modify (f : S -> S) s (Q : unit -> S -> Prop) : Q tt (f s) -> wp (modify f) s Q.
Proof. done. Qed.

Lemma wp_die_if (c : bool) msg s (Q : unit -> S -> Prop) :
  c = false -> Q tt s -> wp (die_if c msg) s Q.
Proof. intros ->. done. Qed.

Lemma wp_det {A} (m : M S A) s a s' Q : m s = Ret (a, s') -> wp m s Q <-> Q a s'.
Proof. unfold wp. intros ->. done. Qed.

Lemma wp_run {A} (m : M S A) s Q :
  wp m s Q <-> exists a s', m s = Ret (a, s') /\ Q a s'.
Proof.
  unfold wp. split.
  - destruct (m s) as [[a s']| | |]; naive_solver.
  - intros (a & s' & -> & H). done.
Qed.

(** Searching loops: a decision on each element that leaves the state alone. *)
Lemma wp_find_first_pure {A} (f : Z -> M S (option A)) (g : Z -> option A) l s Q :
  (forall x, x ∈ l -> f x s = Ret (g x, s)) ->
  Q (List.hd_error (omap g l)) s ->
  wp (find_first l f) s Q.
Proof.
  induction l as [|x l IH]; intros Hf HQ; [done|].
  apply wp_bind. rewrite (wp_det _ _ _ _ _ (Hf x ltac:(set_solver))).
  simpl in HQ. destruct (g x) as [a|] eqn:E; [done|].
  apply IH; [intros; apply Hf; set_solver | done].
Qed.
(** A loop keeps what each round keeps. *)
Lemma wp_for_each_inv {A} (P : S -> Prop) (l : list A) (f : A -> M S unit) s :
  P s -> (forall x s, x ∈ l -> P s -> wp (f x) s (fun _ s' => P s')) -> wp (for_each l f) s (fun _ s' => P s').
Proof.
  revert s. induction l as [|x l IH]; intros s Hs Hf; cbn [for_each]; [done|]. apply wp_bind. eapply wp_mono; [by apply Hf; [left|]|].
  cbn. intros _ s' Hs'. apply IH; [done|]. intros y t' Hy. apply Hf. by right.
Qed.
End wp.

(** ** Runs that return or halt *)

(** [wph m s Q E]: run from [s], [m] returns with [Q] or halts with [E]. *)
Definition wph {T A} (m : M T A) (s : T) (Q : A -> T -> Prop) (E : string -> Prop) : Prop :=
  match m s with Ret (a, s') => Q a s' | Halt e => E e | _ => False end.

Section wph.
Context {T : Type}.
Implicit Types s : T.

Lemma wph_wp {A} (m : M T A) s Q E : wp m s Q -> wph m s Q E.
Proof. unfold wp, wph. by destruct (m s) as [[a s']| | |]. Qed.

Lemma wph_ret {A} (a : A) s (Q : A -> T -> Prop) (E : string -> Prop) : Q a s -> wph (mret a) s Q E.
Proof. done. Qed.

Lemma wph_bind {A B} (m : M T A) (f : A -> M T B) s Q E : wph m s (fun a s' => wph (f a) s' Q E) E -> wph (m ≫= f) s Q E.
Proof. unfold wph, mbind, M_bind. by destruct (m s) as [[a s']| | |]. Qed.

Lemma wph_mono {A} (m : M T A) s (Q Q' : A -> T -> Prop) (E E' : string -> Prop) :
  wph m s Q E -> (forall a s', Q a s' -> Q' a s') -> (forall e, E e -> E' e) -> wph m s Q' E'.
Proof. unfold wph. destruct (m s) as [[a s']| | |]; naive_solver. Qed.

Lemma wph_det {A} (m : M T A) s a s' Q E : m s = Ret (a, s') -> wph m s Q E <-> Q a s'.
Proof. unfold wph. by intros ->. Qed.

(** A loop keeps what each round keeps. *)
Lemma wph_for_each {A} (P : T -> Prop) (l : list A) (f : A -> M T unit) s (E : string -> Prop) :
  P s -> (forall x s, x ∈ l -> P s -> wph (f x) s (fun _ s' => P s') E) -> wph (for_each l f) s (fun _ s' => P s') E.
Proof.
  revert s. induction l as [|x l IH]; intros s Hs Hf; cbn [for_each]; [done|]. apply wph_bind.
  eapply wph_mono; [by apply Hf; [left|]| |done]. cbn. intros _ s' Hs'. apply IH; [done|]. intros y t Hy. apply Hf. by right.
Qed.

Lemma wph_halt {A} msg s (Q : A -> T -> Prop) (E : string -> Prop) : E msg -> wph (halt msg) s Q E.
Proof. done. Qed.

Lemma wph_die_if (c : bool) msg s (Q : unit -> T -> Prop) (E : string -> Prop) : (c = true -> E msg) -> (c = false -> Q tt s) -> wph (die_if c msg) s Q E.
Proof. destruct c; unfold wph; cbn; auto. Qed.
End wph.

(** ** Parts of the state that a routine does not change *)

Definition stable {S T A} (view : S -> T) (m : M S A) : Prop := forall s a s', m s = Ret (a, s') -> view s' = view s.

Create HintDb stable.

Section stable.
Context {S T : Type} (view : S -> T).

Lemma stable_ret {A} (a : A) : stable view (mret a).
Proof. by intros s a' s' [= _ <-]. Qed.
Lemma stable_gets {A} (f : S -> A) : stable view (gets f).
Proof. by intros s a' s' [= _ <-]. Qed.
Lemma stable_halt {A} e : stable view (A := A) (halt e).
Proof. done. Qed.
Lemma stable_fault {A} : stable view (A := A) fault.
Proof. done. Qed.
Lemma stable_nofuel {A} : stable view (A := A) nofuel.
Proof. done. Qed.
Lemma stable_bind {A B} (m : M S A) (f : A -> M S B) :
  stable view m -> (forall a, stable view (f a)) -> stable view (m ≫= f).
Proof.
  intros Hm Hf s b s'. unfold mbind, M_bind. destruct (m s) as [[a s1]| | |] eqn:E; try done.
  intros H. by rewrite (Hf _ _ _ _ H), (Hm _ _ _ E).
Qed.
Lemma stable_modify f : (forall s, view (f s) = view s) -> stable view (modify f).
Proof. by intros H s a s' [= _ <-]. Qed.
Lemma stable_die_if c e : stable view (die_if c e).
Proof. destruct c; [apply stable_halt|apply stable_ret]. Qed.
Lemma stable_find_first {A} l (f : Z -> M S (option A)) : (forall x, stable view (f x)) -> stable view (find_first l f).
Proof.
  intros Hf. induction l as [|x l IH]; [apply stable_ret|]. apply stable_bind; [apply Hf|]. intros [a|]; [apply stable_ret|done].
Qed.

(** A view that a routine keeps can be added to what is known of its result. *)
Lemma wp_stable {A} (m : M S A) s (Q : A -> S -> Prop) :
  stable view m -> wp m s Q -> wp m s (fun a s' => Q a s' /\ view s' = view s).
Proof. unfold wp. intros Hm. destruct (m s) as [[a s']| | |] eqn:E; [|done..]. intros HQ. split; [done|]. by eapply Hm. Qed.
End stable.

#[export] Hint Resolve stable_ret stable_gets stable_halt stable_fault stable_nofuel stable_die_if : stable.

(** Walks through the text of a routine. *)
Ltac stable_step :=
  match goal with
  | |- stable _ (_ ≫= _) => apply stable_bind; [|intros ?]
  | |- stable _ (find_first _ _) => apply stable_find_first; intros ?
  | |- stable _ (match ?x with _ => _ end) => destruct x
  | |- stable _ (let '_ := ?x in _) => destruct x
  | |- stable _ _ => solve [auto with stable]
  end.
Ltac stable_tac := repeat stable_step.

(** ** Automation *)

Create HintDb cosmos.

(** Turn boolean comparisons in the context into propositions. *)
Ltac bool_to_prop :=
  repeat match goal with
    | H : (_ && _) = true |- _ => apply andb_true_iff in H as [? ?]
    | H : (_ || _) = false |- _ => apply orb_false_iff in H as [? ?]
    | H : (_ =? _) = true |- _ => apply Z.eqb_eq in H
    | H : (_ =? _) = false |- _ => apply Z.eqb_neq in H
    | H : (_ <? _) = true |- _ => apply Z.ltb_lt in H
    | H : (_ <? _) = false |- _ => apply Z.ltb_ge in H
    | H : (_ <=? _) = true |- _ => apply Z.leb_le in H
    | H : (_ <=? _) = false |- _ => apply Z.leb_gt in H
    | H : bool_decide _ = true |- _ => apply bool_decide_eq_true in H
    | H : bool_decide _ = false |- _ => apply bool_decide_eq_false in H
    | H : negb _ = true |- _ => apply negb_true_iff in H
    | H : negb _ = false |- _ => apply negb_false_iff in H
    end.

(** Decide the outermost conditional of the goal with [lia]. *)
Ltac if_lia :=
  match goal with
  | |- context [if ?b then _ else _] =>
      first [ replace b with true by (symmetry; lia)
            | replace b with false by (symmetry; lia) ]
  end.

(** ** Lists: removal of an element ([list_del]) *)

Section remove.
Context {A : Type} `{EqDecision A}.
Implicit Types (x : A) (l : list A).

Lemma filter_ne_notin x l : x ∉ l -> filter (fun y => y <> x) l = l.
Proof.
  induction l as [|y l IH]; intros H; [done|]. apply not_elem_of_cons in H as [??].
  rewrite filter_cons_True by congruence. by rewrite IH.
Qed.

Lemma filter_ne_head x l : NoDup (x :: l) -> filter (fun y => y <> x) (x :: l) = l.
Proof.
  intros [Hi Hnd]%NoDup_cons. rewrite filter_cons_False by (intros H; by apply H).
  by apply filter_ne_notin.
Qed.

Lemma filter_ne_app x l1 l2 :
  NoDup (l1 ++ x :: l2) -> filter (fun y => y <> x) (l1 ++ x :: l2) = l1 ++ l2.
Proof.
  intros H. rewrite filter_app. apply NoDup_app in H as (_ & Hd & Hnd).
  rewrite filter_ne_head by done. rewrite filter_ne_notin; [done|]. intros Hin. apply (Hd x Hin). by left.
Qed.

Lemma elem_of_filter_ne x y l : y ∈ filter (fun y => y <> x) l <-> y ∈ l /\ y <> x.
Proof. rewrite list_elem_of_filter. tauto. Qed.

Lemma length_filter_ne x l :
  NoDup l -> x ∈ l -> Z.of_nat (length (filter (fun y => y <> x) l)) = Z.of_nat (length l) - 1.
Proof.
  intros Hnd (l1 & l2 & ->)%list_elem_of_split. rewrite filter_ne_app by done.
  rewrite !length_app. simpl. lia.
Qed.
End remove.

(** Distinct elements of a finite map's domain are no more than the map is large. *)
Lemma NoDup_dom_length {A} (l : list Z) (g : gmap Z A) :
  NoDup l -> (forall x, x ∈ l -> is_Some (g !! x)) -> (length l <= size g)%nat.
Proof.
  intros Hnd H. rewrite <- size_dom. rewrite <- (size_list_to_set (C := gset Z) l) by done.
  apply subseteq_size. intros x Hx%elem_of_list_to_set. by apply elem_of_dom, H.
Qed.

(** ** Counting loops that search: [for (k = a; k < a + n; k++) if (g k) return ...;] *)

Lemma seqZ_nil a n : n <= 0 -> seqZ a n = [].
Proof. intros H. unfold seqZ. by replace (Z.to_nat n) with 0%nat by lia. Qed.

Lemma seqZ_step a n : 0 < n -> seqZ a n = a :: seqZ (a + 1) (n - 1).
Proof. intros H. rewrite seqZ_cons by lia. unfold Z.succ, Z.pred. done. Qed.

Lemma omap_fmap {A} (g : Z -> option A) (f : Z -> Z) (l : list Z) : omap g (f <$> l) = omap (g ∘ f) l.
Proof.
  induction l as [|x l IH]; [done|].
  change (match g (f x) with Some y => y :: omap g (f <$> l) | None => omap g (f <$> l) end
          = match g (f x) with Some y => y :: omap (g ∘ f) l | None => omap (g ∘ f) l end).
  by rewrite IH.
Qed.

Lemma hd_omap_seqZ {A} (g : Z -> option A) n : forall a,
  (List.hd_error (omap g (seqZ a n)) = None /\ forall k, a <= k < a + n -> g k = None) \/
  (exists d v, List.hd_error (omap g (seqZ a n)) = Some v /\ g d = Some v /\
     a <= d < a + n /\ forall k, a <= k < d -> g k = None).
Proof.
  assert (exists m, Z.to_nat n = m) as [m Hm] by eauto. revert n Hm. induction m as [|m IH]; intros n Hm a.
  { left. rewrite seqZ_nil by lia. split; [done|lia]. }
  rewrite seqZ_step by lia. simpl.
  destruct (g a) as [v|] eqn:Ha.
  - right. exists a, v. split_and!; [done..|lia|lia|lia].
  - destruct (IH (n - 1) ltac:(lia) (a + 1)) as [[H1 H2]|(d & v & H1 & H2 & H3 & H4)].
    + left. split; [done|]. intros k Hk. destruct (decide (k = a)) as [->|]; [done|]. apply H2. lia.
    + right. exists d, v. split_and!; [done..|lia|lia|]. intros k Hk.
      destruct (decide (k = a)) as [->|]; [done|]. apply H4. lia.
Qed.

(** ** Rounding up to powers of two *)

Lemma land_pred_pow2 k : 0 <= k -> Z.land (2 ^ k) (2 ^ k - 1) = 0.
Proof.
  intros Hk. replace (2 ^ k - 1) with (Z.ones k) by (rewrite Z.ones_equiv; lia).
  rewrite Z.land_ones by done. apply Z_mod_same_full.
Qed.

(** [p & (p - 1)] tests whether [p] is a power of two. *)
Lemma land_pred_zero p : 0 < p -> Z.land p (p - 1) = 0 <-> p = 2 ^ Z.log2 p.
Proof.
  intros Hp. pose proof (Z.log2_nonneg p) as Hk. split; [|intros E; rewrite E; by apply land_pred_pow2].
  intros H0. destruct (Z.log2_spec p Hp) as [H1 H2]. destruct (decide (p = 2 ^ Z.log2 p)) as [|Hne]; [done|exfalso].
  assert (Hl : Z.log2 (p - 1) = Z.log2 p) by (apply Z.log2_unique; lia).
  assert (Hb : Z.testbit (Z.land p (p - 1)) (Z.log2 p) = true).
  { rewrite Z.land_spec, Z.bit_log2 by done. rewrite <- Hl at 1.
    rewrite Z.bit_log2; [done|]. pose proof (pow2_pos (Z.log2 p) Hk). lia. }
  rewrite H0, Z.bits_0 in Hb. done.
Qed.

Lemma log2_up_succ p : 0 < p -> p <> 2 ^ Z.log2 p -> Z.log2_up p = Z.log2 p + 1.
Proof.
  intros Hp Hne. pose proof (Z.log2_nonneg p). destruct (Z.log2_spec p Hp) as [H1 H2].
  pose proof (pow2_pos (Z.log2 p) ltac:(lia)).
  rewrite Z.log2_up_eqn by lia. rewrite (Z.log2_unique (Z.pred p) (Z.log2 p)); lia.
Qed.

(** Masking the low [k] bits of a 64-bit word. *)
Lemma land_high k x : 0 <= k <= 64 -> 0 <= x < u64max -> Z.land x (Z.shiftl (Z.ones (64 - k)) k) = 2 ^ k * (x / 2 ^ k).
Proof.
  intros Hk Hx. rewrite <- Z.shiftr_div_pow2 by lia. rewrite Z.mul_comm, <- Z.shiftl_mul_pow2 by lia.
  apply Z.bits_inj'. intros n Hn. rewrite Z.land_spec, !Z.shiftl_spec by done.
  destruct (decide (n < k)) as [|Hge].
  { rewrite !(Z.testbit_neg_r _ (n - k)) by lia. apply andb_false_r. }
  rewrite Z.shiftr_spec by lia. replace (n - k + k) with n by lia.
  rewrite Z.testbit_ones_nonneg by lia. destruct (n - k <? 64 - k) eqn:E; [apply andb_true_r|]. apply Z.ltb_ge in E.
  rewrite andb_false_r. symmetry. apply Z.bits_above_log2; [lia|].
  destruct (decide (x = 0)) as [->|]; [simpl; lia|].
  assert (Z.log2 x < 64) by (apply Z.log2_lt_pow2; [lia|]; apply Hx). lia.
Qed.

(** ** Arrays given by a function *)

Definition tabulate {A} (f : Z -> A) (n : Z) : gmap Z A := list_to_map ((fun i => (i, f i)) <$> seqZ 0 n).

Lemma lookup_tabulate {A} (f : Z -> A) n j :
  tabulate f n !! j = if (0 <=? j) && (j <? n) then Some (f j) else None.
Proof.
  unfold tabulate. destruct (_ && _) eqn:E.
  - apply elem_of_list_to_map_1.
    + rewrite <- list_fmap_compose. unfold compose. simpl. rewrite list_fmap_id. apply NoDup_seqZ.
    + apply list_elem_of_fmap. exists j. split; [done|]. apply elem_of_seqZ. lia.
  - apply not_elem_of_list_to_map_1. rewrite <- list_fmap_compose. intros (x & -> & Hx)%list_elem_of_fmap.
    apply elem_of_seqZ in Hx. simpl in *. lia.
Qed.

Lemma size_tabulate {A} (f : Z -> A) n : 0 <= n -> Z.of_nat (size (tabulate f n)) = n.
Proof.
  intros Hn. rewrite <- size_dom. replace (dom (tabulate f n)) with (list_to_set (C := gset Z) (seqZ 0 n)).
  - rewrite size_list_to_set by apply NoDup_seqZ. rewrite length_seqZ. lia.
  - apply set_eq. intros j. rewrite elem_of_list_to_set, elem_of_seqZ, elem_of_dom, lookup_tabulate.
    destruct (_ && _) eqn:E; split; intros H; [eauto|lia|lia|by destruct H].
Qed.
