(* ===== verification/ListH.v ===== *)
(** * Intrusive lists

    include/bastypeinc/list.h: circular doubly linked lists whose nodes are
    embedded in the objects they link.  A node is its address; memory is the
    two fields [prev] and [next] of every node.  The theorems of this file show
    that on disjoint rings the pointer operations are operations on the
    sequences of their nodes, which is how the other files model lists. *)

From S2P Require Import Prelude.

(** ** list.h *)

Record list_h_t := ListMem { prev : gmap Z Z; next : gmap Z Z }.
Abbreviation LM A := (M list_h_t A).

Definition get_prev (n : Z) : LM Z := fun s => match prev s !! n with Some x => Ret (x, s) | None => Fault end.
Definition get_next (n : Z) : LM Z := fun s => match next s !! n with Some x => Ret (x, s) | None => Fault end.
Definition set_prev (n x : Z) : LM unit := fun s =>
  match prev s !! n with Some _ => Ret (tt, ListMem (<[n := x]> (prev s)) (next s)) | None => Fault end.
Definition set_next (n x : Z) : LM unit := fun s =>
  match next s !! n with Some _ => Ret (tt, ListMem (prev s) (<[n := x]> (next s))) | None => Fault end.

Definition list_init (list : Z) : LM unit := set_prev list list ;; set_next list list.

Definition __list_del (prv nxt : Z) : LM unit := set_prev nxt prv ;; set_next prv nxt.

Definition __list_add (new prv nxt : Z) : LM unit :=
  set_prev nxt new ;; set_next new nxt ;; set_prev new prv ;; set_next prv new.

Definition list_add (new head : Z) : LM unit := n ← get_next head; __list_add new head n.
Definition list_add_tail (new head : Z) : LM unit := p ← get_prev head; __list_add new p head.

Definition __list_del_entry (entry : Z) : LM unit := p ← get_prev entry; n ← get_next entry; __list_del p n.
Definition list_del (entry : Z) : LM unit := p ← get_prev entry; n ← get_next entry; __list_del p n ;; list_init entry.

Definition list_move (list head : Z) : LM unit := list_del list ;; list_add list head.
Definition list_move_tail (list head : Z) : LM unit := list_del list ;; list_add_tail list head.

Definition list_is_empty (head : Z) : LM bool := n ← get_next head; mret (n =? head).
Definition list_is_first (list head : Z) : LM bool := p ← get_prev list; mret (p =? head).
Definition list_is_last (list head : Z) : LM bool := n ← get_next list; mret (n =? head).
Definition list_is_empty_careful (head : Z) : LM bool :=
  nxt ← get_next head; p ← get_prev head; mret ((nxt =? head) && (nxt =? p)).

(** [list_for_each(pos, head)] and [list_for_each_head_dell(pos, head)]: loops
    whose body updates [acc] and may change the links.  The first goes on from
    [pos->next], read after the body; the second from [head->next]. *)
Fixpoint for_each_loop {A} (fuel : nat) (body : A -> Z -> LM A) (head pos : Z) (acc : A) : LM A :=
  if pos =? head then mret acc else
  match fuel with
  | O => nofuel
  | S fuel' => acc' ← body acc pos; n ← get_next pos; for_each_loop fuel' body head n acc'
  end.
Definition list_for_each {A} (fuel : nat) (body : A -> Z -> LM A) (head : Z) (acc : A) : LM A :=
  pos ← get_next head; for_each_loop fuel body head pos acc.

Fixpoint head_dell_loop {A} (fuel : nat) (body : A -> Z -> LM A) (head pos : Z) (acc : A) : LM A :=
  if pos =? head then mret acc else
  match fuel with
  | O => nofuel
  | S fuel' => acc' ← body acc pos; n ← get_next head; head_dell_loop fuel' body head n acc'
  end.
Definition list_for_each_head_dell {A} (fuel : nat) (body : A -> Z -> LM A) (head : Z) (acc : A) : LM A :=
  pos ← get_next head; head_dell_loop fuel body head pos acc.

(** ** Rings *)

(** Consecutive nodes point to each other. *)
Fixpoint chain (s : list_h_t) (l : list Z) : Prop :=
  match l with
  | a :: (b :: _) as t => next s !! a = Some b /\ prev s !! b = Some a /\ chain s t
  | _ => True
  end.

(** The ring of head [h] links the nodes [l]. *)
Definition ring (s : list_h_t) (h : Z) (l : list Z) : Prop := NoDup (h :: l) /\ chain s (h :: l ++ [h]).

(** A node linked to itself only, as [list_init] leaves it. *)
Definition alone (s : list_h_t) (x : Z) : Prop := ring s x [].

Lemma chain_app s l1 x l2 : chain s (l1 ++ x :: l2) <-> chain s (l1 ++ [x]) /\ chain s (x :: l2).
Proof.
  induction l1 as [|a l1 IH]; [simpl; tauto|]. destruct l1 as [|b l1]; simpl in *; tauto.
Qed.

Lemma chain_cons s a b l : chain s (a :: b :: l) <-> next s !! a = Some b /\ prev s !! b = Some a /\ chain s (b :: l).
Proof. done. Qed.

(** A chain keeps holding when the fields it uses are unchanged: [next] of all
    nodes but the last, [prev] of all but the first. *)
Lemma chain_frame s s' l x :
  chain s (l ++ [x]) -> (forall y, y ∈ l -> next s' !! y = next s !! y) ->
  (forall y, y ∈ tail (l ++ [x]) -> prev s' !! y = prev s !! y) -> chain s' (l ++ [x]).
Proof.
  induction l as [|a l IH]; intros Hc Hn Hp; [done|].
  assert (Hstep : forall b t, l ++ [x] = b :: t -> chain s' ((a :: l) ++ [x])).
  { intros b t E. cbn [app] in *. rewrite E in *. apply chain_cons in Hc as (H1 & H2 & H3). apply chain_cons.
    rewrite Hn, Hp by (cbn [tail]; by left). split_and!; [done|done|]. apply IH; [done|intros; apply Hn; by right|].
    intros y Hy. apply Hp. cbn [tail]. right. done. }
  destruct l; [by apply (Hstep x [])|by eapply Hstep].
Qed.

(** ** Cutting a ring in two *)

(** The ring of [h] cut after [a]: [p ++ [c]] is the path from the head to the
    cut, [n :: q] the path from the cut back to the head. *)
Record cut (h : Z) (a b p q : list Z) (c n : Z) : Prop := {
  cut_left : h :: a = p ++ [c];
  cut_right : b ++ [h] = n :: q
}.

Lemma cut_exists h a b : exists p q c n, cut h a b p q c n.
Proof.
  destruct (exists_last (l := h :: a) ltac:(done)) as (p & c & Hp).
  destruct (b ++ [h]) as [|n q] eqn:Hq; [by apply app_eq_nil in Hq as [_ ?]|]. by exists p, q, c, n.
Qed.

Section cut.
Context {h : Z} {a b p q : list Z} {c n : Z} (Hcut : cut h a b p q c n) (Hnd : NoDup (h :: a ++ b)).

Lemma cut_nodup : NoDup (h :: a) /\ NoDup (h :: b) /\ forall y, y ∈ a -> y ∉ b.
Proof.
  apply NoDup_cons in Hnd as [Hh Hn]. apply NoDup_app in Hn as (H1 & H2 & H3).
  rewrite elem_of_app in Hh. split_and!; [constructor; tauto|constructor; tauto|done].
Qed.

Lemma cut_c_elem : c ∈ h :: a.
Proof. rewrite (cut_left _ _ _ _ _ _ _ Hcut). apply elem_of_app. right. by left. Qed.

Lemma cut_n_elem y : y ∈ n :: q <-> y ∈ h :: b.
Proof. rewrite <- (cut_right _ _ _ _ _ _ _ Hcut), elem_of_app, list_elem_of_singleton, elem_of_cons. tauto. Qed.

(** [c] is only at the end of the first path, [n] only at the start of the second. *)
Lemma cut_c_notin : c ∉ p.
Proof.
  destruct cut_nodup as (H & _ & _). rewrite (cut_left _ _ _ _ _ _ _ Hcut) in H. apply NoDup_app in H as (_ & H & _).
  intros Hin. apply (H c Hin). by left.
Qed.

Lemma cut_n_notin_q : n ∉ q.
Proof.
  destruct cut_nodup as (_ & H & _). apply NoDup_cons in H as [Hh H]. pose proof (cut_right _ _ _ _ _ _ _ Hcut) as E.
  destruct b as [|b0 b']; cbn [app] in E; injection E as <- <-; [by intros ?%elem_of_nil|].
  apply NoDup_cons in H as [H _]. rewrite elem_of_app, list_elem_of_singleton. intros [?| ->]; [done|apply Hh; by left].
Qed.

Lemma cut_n_notin_p : n ∉ tail (p ++ [c]).
Proof.
  destruct cut_nodup as (H1 & _ & H2). rewrite <- (cut_left _ _ _ _ _ _ _ Hcut). cbn [tail]. apply NoDup_cons in H1 as [Hh _].
  intros Hin. assert (Hn : n ∈ h :: b) by (apply cut_n_elem; by left). apply elem_of_cons in Hn as [->|Hn]; [done|by apply (H2 n)].
Qed.

Lemma cut_c_notin_b : c ∉ b.
Proof.
  destruct cut_nodup as (_ & H1 & H2). apply NoDup_cons in H1 as [Hh _].
  pose proof cut_c_elem as [->|Hc]%elem_of_cons; [done|by apply H2].
Qed.

Lemma cut_chain s (m : list Z) : chain s (h :: (a ++ m ++ b) ++ [h]) <-> chain s (p ++ [c] ++ m ++ n :: q).
Proof.
  rewrite <- !app_assoc, (cut_right _ _ _ _ _ _ _ Hcut). change (h :: a ++ m ++ n :: q) with ((h :: a) ++ m ++ n :: q).
  by rewrite (cut_left _ _ _ _ _ _ _ Hcut), <- app_assoc.
Qed.

(** Both paths survive an update that only sets [next] of [c] and of nodes off
    the ring, and [prev] of [n] and of nodes off the ring. *)
Lemma cut_frame s s' :
  chain s (p ++ [c]) -> chain s (n :: q) ->
  (forall y, y <> c -> y ∈ h :: a ++ b -> next s' !! y = next s !! y) ->
  (forall y, y <> n -> y ∈ h :: a ++ b -> prev s' !! y = prev s !! y) ->
  chain s' (p ++ [c]) /\ chain s' (n :: q).
Proof.
  intros H1 H2 Hn Hpv. pose proof (cut_left _ _ _ _ _ _ _ Hcut) as El. pose proof (cut_right _ _ _ _ _ _ _ Hcut) as Er.
  assert (Hl : forall y, y ∈ p ++ [c] -> y ∈ h :: a ++ b).
  { intros y. rewrite <- El, !elem_of_cons, elem_of_app. tauto. }
  assert (Hr : forall y, y ∈ n :: q -> y ∈ h :: a ++ b).
  { intros y. rewrite cut_n_elem, !elem_of_cons, elem_of_app. tauto. }
  split.
  - apply (chain_frame s); [done| |].
    + intros y Hy. apply Hn; [intros ->; by apply cut_c_notin|]. apply Hl, elem_of_app. by left.
    + intros y Hy. apply Hpv; [intros ->; by apply cut_n_notin_p|]. apply Hl. destruct p; [by apply elem_of_nil in Hy|by right].
  - rewrite <- Er in *. apply (chain_frame s); [done| |].
    + intros y Hy. apply Hn; [intros ->; by apply cut_c_notin_b|]. apply Hr, elem_of_app. by left.
    + rewrite Er in *. intros y Hy. apply Hpv; [intros ->; by apply cut_n_notin_q|]. apply Hr. by right.
Qed.
End cut.

(** ** Inserting and removing *)

Lemma insert_spec s h a b p q c n new : cut h a b p q c n -> ring s h (a ++ b) -> new ∉ h :: a ++ b ->
  is_Some (prev s !! new) -> is_Some (next s !! new) ->
  exists s', __list_add new c n s = Ret (tt, s') /\ ring s' h (a ++ new :: b) /\
    forall x, x ∉ new :: h :: a ++ b -> prev s' !! x = prev s !! x /\ next s' !! x = next s !! x.
Proof.
  intros Hcut [Hnd Hc] Hnew [vp Hvp] [vn Hvn].
  apply (cut_chain Hcut s []) in Hc. cbn [app] in Hc. apply chain_app in Hc as [Hc1 Hc2].
  apply chain_cons in Hc2 as (H1 & H2 & Hc2).
  assert (Hcin : c ∈ h :: a ++ b).
  { pose proof (cut_c_elem Hcut). rewrite elem_of_cons, elem_of_app in *. tauto. }
  assert (Hnin : n ∈ h :: a ++ b).
  { assert (n ∈ h :: b) by (apply (cut_n_elem Hcut); by left). rewrite elem_of_cons, elem_of_app in *. tauto. }
  assert (Hcn : c <> new) by (by intros ->). assert (Hnn : n <> new) by (by intros ->).
  set (s' := ListMem (<[new := c]> (<[n := new]> (prev s))) (<[c := new]> (<[new := n]> (next s)))). exists s'. split_and!.
  - unfold __list_add, set_prev, set_next, mbind, M_bind. rewrite H2. cbn [prev next]. rewrite Hvn. cbn [prev next].
    rewrite lookup_insert_ne by done. rewrite Hvp. cbn [prev next]. rewrite lookup_insert_ne by done. by rewrite H1.
  - split.
    + change (h :: a ++ new :: b) with ((h :: a) ++ new :: b). rewrite <- Permutation_middle. by constructor.
    + apply (cut_chain Hcut s' [new]). cbn [app]. destruct (cut_frame Hcut Hnd s s' Hc1 Hc2) as [Hl Hr].
      * intros y Hy Hin. simpl. rewrite !lookup_insert_ne by (congruence || (intros ->; done)). done.
      * intros y Hy Hin. simpl. rewrite !lookup_insert_ne by (congruence || (intros ->; done)). done.
      * rewrite chain_app. split; [done|]. rewrite !chain_cons. split_and!; [| | | |done]; simpl;
          rewrite ?lookup_insert_eq, ?lookup_insert_ne, ?lookup_insert_eq by done; done.
  - intros x Hx. rewrite elem_of_cons in Hx. simpl. rewrite !lookup_insert_ne by (intros ->; tauto). done.
Qed.

(** The links at the cut, as the memory has them. *)
Lemma cut_links s h a b p q c n : cut h a b p q c n -> ring s h (a ++ b) -> next s !! c = Some n /\ prev s !! n = Some c.
Proof.
  intros Hcut [_ Hc]. apply (cut_chain Hcut s []) in Hc. cbn [app] in Hc. apply chain_app in Hc as [_ Hc].
  by apply chain_cons in Hc as (? & ? & _).
Qed.

Lemma remove_spec s h a b x : ring s h (a ++ x :: b) ->
  exists s', list_del x s = Ret (tt, s') /\ ring s' h (a ++ b) /\ alone s' x /\
    forall y, y ∉ h :: a ++ x :: b -> prev s' !! y = prev s !! y /\ next s' !! y = next s !! y.
Proof.
  intros [Hnd Hc]. destruct (cut_exists h a b) as (p & q & c & n & Hcut).
  apply (cut_chain Hcut s [x]) in Hc. cbn [app] in Hc. apply chain_app in Hc as [Hc1 Hc2].
  rewrite !chain_cons in Hc2. destruct Hc2 as (H1 & H2 & H3 & H4 & Hc2).
  assert (Hxn : x ∉ h :: a ++ b /\ NoDup (h :: a ++ b)).
  { change (h :: a ++ x :: b) with ((h :: a) ++ x :: b) in Hnd. rewrite <- Permutation_middle in Hnd.
    by apply NoDup_cons in Hnd. }
  destruct Hxn as [Hx Hnd'].
  assert (Hcx : c <> x).
  { intros ->. apply Hx. pose proof (cut_c_elem Hcut). rewrite elem_of_cons, elem_of_app in *. tauto. }
  assert (Hnx : n <> x).
  { intros ->. apply Hx. assert (x ∈ h :: b) by (apply (cut_n_elem Hcut); by left). rewrite elem_of_cons, elem_of_app in *. tauto. }
  set (s' := ListMem (<[x := x]> (<[n := c]> (prev s))) (<[x := x]> (<[c := n]> (next s)))). exists s'. split_and!.
  - unfold list_del, __list_del, list_init, get_prev, get_next, set_prev, set_next, mbind, M_bind.
    rewrite H2, H3, H4. cbn [prev next]. rewrite H1. cbn [prev next]. rewrite lookup_insert_ne, H2 by done. cbn [prev next].
    by rewrite lookup_insert_ne, H3 by done.
  - split; [done|]. apply (cut_chain Hcut s' []). cbn [app]. destruct (cut_frame Hcut Hnd' s s' Hc1 Hc2) as [Hl Hr].
    + intros y Hy Hin. simpl. rewrite !lookup_insert_ne by (congruence || (intros ->; done)). done.
    + intros y Hy Hin. simpl. rewrite !lookup_insert_ne by (congruence || (intros ->; done)). done.
    + rewrite chain_app. split; [done|]. rewrite chain_cons. split_and!; [| |done]; simpl;
        rewrite lookup_insert_ne by done; apply lookup_insert_eq.
  - split; [apply NoDup_singleton|]. simpl. by rewrite !lookup_insert_eq.
  - intros y Hy. rewrite elem_of_cons, elem_of_app, elem_of_cons in Hy. simpl.
    assert (y <> c).
    { intros ->. pose proof (cut_c_elem Hcut) as Hi. rewrite elem_of_cons in Hi. tauto. }
    assert (y <> n).
    { intros ->. assert (Hi : n ∈ h :: b) by (apply (cut_n_elem Hcut); by left). rewrite elem_of_cons in Hi. tauto. }
    rewrite !lookup_insert_ne by (congruence || (intros ->; tauto)). done.
Qed.

(** ** Several lists at once *)

(** The abstract state: the nodes of every list, by the list's head.  A node in
    no list is the head of an empty one, which is what [list_init] makes. *)
Abbreviation lists := (gmap Z (list Z)).

Definition owns (R : lists) (h y : Z) : Prop := exists l, R !! h = Some l /\ y ∈ h :: l.

(** [N] is the set of addresses that hold a node. *)
Record rings (N : gset Z) (s : list_h_t) (R : lists) : Prop := {
  rings_prev : N ⊆ dom (prev s);
  rings_next : N ⊆ dom (next s);
  rings_ring : forall h l, R !! h = Some l -> ring s h l;
  rings_once : forall h1 h2 y, owns R h1 y -> owns R h2 y -> h1 = h2
}.

(** The commands of list.h and what they do to the sequences. *)
Inductive lcmd := CInit (x : Z) | CAdd (x h : Z) | CAddTail (x h : Z) | CDel (x : Z) | CMove (x h : Z) | CMoveTail (x h : Z).

Definition run_cmd (c : lcmd) : LM unit :=
  match c with
  | CInit x => list_init x
  | CAdd x h => list_add x h
  | CAddTail x h => list_add_tail x h
  | CDel x => list_del x
  | CMove x h => list_move x h
  | CMoveTail x h => list_move_tail x h
  end.

Fixpoint run_cmds (cs : list lcmd) : LM unit :=
  match cs with [] => mret tt | c :: cs' => run_cmd c ;; run_cmds cs' end.

(** A node may be initialised when it is in no list but possibly its own empty
    one; it may be added when it is in no list. *)
Inductive lstep (N : gset Z) : lcmd -> lists -> lists -> Prop :=
  | l_init R x : x ∈ N -> (forall h l, R !! h = Some l -> x ∈ h :: l -> l = []) -> lstep N (CInit x) R (<[x := []]> R)
  | l_add R x h l : R !! x = Some [] -> R !! h = Some l -> x <> h -> lstep N (CAdd x h) R (<[h := x :: l]> (delete x R))
  | l_add_tail R x h l : R !! x = Some [] -> R !! h = Some l -> x <> h ->
      lstep N (CAddTail x h) R (<[h := l ++ [x]]> (delete x R))
  | l_del R x h a b : R !! h = Some (a ++ x :: b) -> lstep N (CDel x) R (<[x := []]> (<[h := a ++ b]> R))
  | l_del_alone R x : R !! x = Some [] -> lstep N (CDel x) R R
  | l_move R R1 R2 x h : lstep N (CDel x) R R1 -> lstep N (CAdd x h) R1 R2 -> lstep N (CMove x h) R R2
  | l_move_tail R R1 R2 x h : lstep N (CDel x) R R1 -> lstep N (CAddTail x h) R1 R2 -> lstep N (CMoveTail x h) R R2.

Inductive lsteps (N : gset Z) : list lcmd -> lists -> lists -> Prop :=
  | lsteps_nil R : lsteps N [] R R
  | lsteps_cons R R1 R2 c cs : lstep N c R R1 -> lsteps N cs R1 R2 -> lsteps N (c :: cs) R R2.

(** No command allocates or frees a node. *)
Definition keeps {A} (m : LM A) : Prop := forall s a s', m s = Ret (a, s') -> dom (prev s') = dom (prev s) /\ dom (next s') = dom (next s).

Lemma keeps_get_prev n : keeps (get_prev n).
Proof. intros s a s'. unfold get_prev. destruct (prev s !! n); [by intros [= <- <-]|done]. Qed.
Lemma keeps_get_next n : keeps (get_next n).
Proof. intros s a s'. unfold get_next. destruct (next s !! n); [by intros [= <- <-]|done]. Qed.
Lemma keeps_set_prev n x : keeps (set_prev n x).
Proof.
  intros s a s'. unfold set_prev. destruct (prev s !! n) eqn:E; [|done]. intros [= <- <-]. cbn [prev next].
  split; [|done]. rewrite dom_insert_lookup_L; [done|by eexists].
Qed.
Lemma keeps_set_next n x : keeps (set_next n x).
Proof.
  intros s a s'. unfold set_next. destruct (next s !! n) eqn:E; [|done]. intros [= <- <-]. cbn [prev next].
  split; [done|]. rewrite dom_insert_lookup_L; [done|by eexists].
Qed.
Lemma keeps_bind {A B} (m : LM A) (f : A -> LM B) : keeps m -> (forall a, keeps (f a)) -> keeps (m ≫= f).
Proof.
  intros Hm Hf s b s' H. unfold mbind, M_bind in H. destruct (m s) as [[a s1]| | |] eqn:E; try done.
  apply Hm in E as [<- <-]. by apply Hf in H.
Qed.

Create HintDb keep.
#[export] Hint Resolve keeps_get_prev keeps_get_next keeps_set_prev keeps_set_next : keep.
#[export] Hint Extern 2 (keeps (_ ≫= _)) => (apply keeps_bind; [|intros ?]) : keep.

Lemma keeps_cmd c : keeps (run_cmd c).
Proof.
  destruct c; cbn [run_cmd]; unfold list_move, list_move_tail, list_del, list_add, list_add_tail, list_init, __list_add, __list_del;
    auto 20 with keep.
Qed.

(** ** Each command on the sequences *)

Lemma ring_frame s s' h l :
  ring s h l -> (forall y, y ∈ h :: l -> prev s' !! y = prev s !! y /\ next s' !! y = next s !! y) -> ring s' h l.
Proof.
  intros [Hn Hc] Hf. split; [done|]. apply (chain_frame s s' (h :: l) h); [done|intros y Hy; by apply Hf|].
  cbn [tail app]. intros y Hy. apply Hf. rewrite elem_of_app, list_elem_of_singleton in Hy. rewrite elem_of_cons. tauto.
Qed.

Lemma ring_nodes N s R h l y : rings N s R -> R !! h = Some l -> y ∈ h :: l -> is_Some (prev s !! y) /\ is_Some (next s !! y).
Proof.
  intros HR Hl Hy. pose proof (rings_ring _ _ _ HR h l Hl) as [_ Hc].
  assert (Hy' : y ∈ h :: l ++ [h]) by (rewrite !elem_of_cons, elem_of_app in *; tauto).
  apply list_elem_of_split in Hy as (a & b & E).
  assert (E2 : h :: l ++ [h] = a ++ y :: b ++ [h]) by (change (h :: l ++ [h]) with ((h :: l) ++ [h]); by rewrite E, <- app_assoc).
  rewrite E2 in Hc. apply chain_app in Hc as [Hc1 Hc2]. split; [|destruct b; apply chain_cons in Hc2 as (? & _); by eexists].
  destruct a as [|a0 a] using rev_ind.
  - injection E as <- ->. change (h :: b ++ [h]) with ((h :: b) ++ [h]) in Hc2.
    destruct (exists_last (l := h :: b) ltac:(done)) as (p & c & Ep). rewrite Ep, <- app_assoc in Hc2.
    apply chain_app in Hc2 as [_ (_ & ? & _)%chain_cons]. by eexists.
  - rewrite <- app_assoc in Hc1. apply chain_app in Hc1 as [_ (_ & ? & _)%chain_cons]. by eexists.
Qed.

Lemma owns_insert R k l h y : owns (<[k := l]> R) h y <-> (h = k /\ y ∈ k :: l) \/ (h <> k /\ owns R h y).
Proof.
  unfold owns. destruct (decide (h = k)) as [->|Hne].
  - rewrite lookup_insert_eq. split; [intros (? & [= <-] & ?); by left|intros [[_ ?]|[? _]]; [by exists l|done]].
  - rewrite lookup_insert_ne by done. naive_solver.
Qed.

Lemma owns_delete R k h y : owns (delete k R) h y <-> h <> k /\ owns R h y.
Proof.
  unfold owns. destruct (decide (h = k)) as [->|Hne]; [rewrite lookup_delete_eq; naive_solver|].
  rewrite lookup_delete_ne by done. naive_solver.
Qed.

(** A list the update does not touch stays as it is. *)
Lemma rings_untouched N s s' R h l (W : list Z) : rings N s R -> R !! h = Some l ->
  (forall y, y ∉ W -> prev s' !! y = prev s !! y /\ next s' !! y = next s !! y) ->
  (forall y, y ∈ W -> ~ owns R h y) -> ring s' h l.
Proof.
  intros HR Hl Hf HW. apply (ring_frame s); [by apply (rings_ring _ _ _ HR)|]. intros y Hy. apply Hf. intros Hin.
  apply (HW y Hin). by exists l.
Qed.

(** Linking the unlinked node [x] at a cut of the list of [h]. *)
Lemma link_rings N s R x h a b p q c n : rings N s R -> R !! x = Some [] -> R !! h = Some (a ++ b) -> x <> h ->
  cut h a b p q c n ->
  exists s', __list_add x c n s = Ret (tt, s') /\ (dom (prev s') = dom (prev s) -> dom (next s') = dom (next s) ->
    rings N s' (<[h := a ++ x :: b]> (delete x R))).
Proof.
  intros HR Hx Hh Hne Hcut. pose proof (rings_once _ _ _ HR) as Honce.
  assert (Hox : owns R x x) by (exists []; split; [done|by left]).
  assert (Hoh : forall y, y ∈ h :: a ++ b -> owns R h y) by (intros y Hy; by exists (a ++ b)).
  assert (Hnot : x ∉ h :: a ++ b) by (intros Hy; apply Hne; apply (Honce _ _ x); auto).
  destruct (ring_nodes N s R x [] x HR Hx ltac:(by left)) as [Hvp Hvn].
  destruct (insert_spec s h a b p q c n x Hcut (rings_ring _ _ _ HR h _ Hh) Hnot Hvp Hvn) as (s' & E & Hr & Hf).
  exists s'. split; [done|]. intros D1 D2. split; [rewrite D1; apply HR|rewrite D2; apply HR| |].
  - intros k l [[<- <-]|[Hk Hl]]%lookup_insert_Some; [done|]. apply lookup_delete_Some in Hl as [Hkx Hl].
    apply (rings_untouched N s s' R k l (x :: h :: a ++ b)); [done|done|done|].
    intros y [->|Hy]%elem_of_cons Ho; [apply Hkx; by apply (Honce _ _ x)|]. apply Hk. apply (Honce _ _ y); auto.
  - assert (Hnew : forall k y, owns (<[h := a ++ x :: b]> (delete x R)) k y -> (k = h /\ y = x) \/ (k <> x /\ owns R k y /\ y <> x)).
    { intros k y. rewrite owns_insert, owns_delete. intros [[-> Hy]|(Hk & Hkx & Ho)].
      - destruct (decide (y = x)) as [->|Hyx]; [by left|right]. split_and!; [done| |done]. apply Hoh.
        rewrite elem_of_cons, elem_of_app, elem_of_cons in Hy. rewrite elem_of_cons, elem_of_app. tauto.
      - right. split_and!; [done|done|]. intros ->. apply Hkx. by apply (Honce _ _ x). }
    intros k1 k2 y [[-> ->]|(? & ? & ?)]%Hnew [[-> ?]|(? & ? & ?)]%Hnew; try done. by apply (Honce _ _ y).
Qed.

Lemma list_add_rings N s R x h l : rings N s R -> R !! x = Some [] -> R !! h = Some l -> x <> h ->
  exists s', list_add x h s = Ret (tt, s') /\ rings N s' (<[h := x :: l]> (delete x R)).
Proof.
  intros HR Hx Hh Hne. destruct (l ++ [h]) as [|n q] eqn:Eq; [by apply app_eq_nil in Eq as [_ ?]|].
  assert (Hcut : cut h [] l [] q h n) by done.
  destruct (link_rings N s R x h [] l [] q h n HR Hx Hh Hne Hcut) as (s' & E & Hs).
  destruct (cut_links s h [] l [] q h n Hcut (rings_ring _ _ _ HR h l Hh)) as [Hn _]. exists s'.
  assert (E' : list_add x h s = Ret (tt, s')) by (unfold list_add, get_next, mbind, M_bind; by rewrite Hn).
  split; [done|]. destruct (keeps_cmd (CAdd x h) _ _ _ E') as [D1 D2]. by apply Hs.
Qed.

Lemma list_add_tail_rings N s R x h l : rings N s R -> R !! x = Some [] -> R !! h = Some l -> x <> h ->
  exists s', list_add_tail x h s = Ret (tt, s') /\ rings N s' (<[h := l ++ [x]]> (delete x R)).
Proof.
  intros HR Hx Hh Hne. destruct (exists_last (l := h :: l) ltac:(done)) as (p & c & Ep).
  assert (Hcut : cut h l [] p [] c h) by done. rewrite <- (app_nil_r l) in Hh.
  destruct (link_rings N s R x h l [] p [] c h HR Hx Hh Hne Hcut) as (s' & E & Hs).
  destruct (cut_links s h l [] p [] c h Hcut (rings_ring _ _ _ HR h _ Hh)) as [_ Hp]. exists s'.
  assert (E' : list_add_tail x h s = Ret (tt, s')) by (unfold list_add_tail, get_prev, mbind, M_bind; by rewrite Hp).
  split; [done|]. destruct (keeps_cmd (CAddTail x h) _ _ _ E') as [D1 D2]. by apply Hs.
Qed.

Lemma list_del_rings N s R x h a b : rings N s R -> R !! h = Some (a ++ x :: b) ->
  exists s', list_del x s = Ret (tt, s') /\ rings N s' (<[x := []]> (<[h := a ++ b]> R)).
Proof.
  intros HR Hh. pose proof (rings_once _ _ _ HR) as Honce.
  destruct (remove_spec s h a b x (rings_ring _ _ _ HR h _ Hh)) as (s' & E & Hr & Hal & Hf).
  assert (Hoh : forall y, y ∈ h :: a ++ x :: b -> owns R h y) by (intros y Hy; by exists (a ++ x :: b)).
  assert (Hxin : x ∈ h :: a ++ x :: b) by (rewrite elem_of_cons, elem_of_app, elem_of_cons; tauto).
  assert (Hxh : x ∉ h :: a ++ b).
  { destruct (rings_ring _ _ _ HR h _ Hh) as [Hnd _]. change (h :: a ++ x :: b) with ((h :: a) ++ x :: b) in Hnd.
    rewrite <- Permutation_middle in Hnd. by apply NoDup_cons in Hnd as [? _]. }
  exists s'. split; [done|]. destruct (keeps_cmd (CDel x) _ _ _ E) as [D1 D2].
  split; [rewrite D1; apply HR|rewrite D2; apply HR| |].
  - intros k l [[<- <-]|[Hk [[<- <-]|[Hkh Hl]]%lookup_insert_Some]]%lookup_insert_Some; [done|done|].
    apply (rings_untouched N s s' R k l (h :: a ++ x :: b)); [done|done|done|].
    intros y Hy Ho. apply Hkh. apply (Honce _ _ y); auto.
  - assert (Hnew : forall k y, owns (<[x := []]> (<[h := a ++ b]> R)) k y -> (k = x /\ y = x) \/ (owns R k y /\ y <> x)).
    { intros k y. rewrite !owns_insert. intros [[-> Hy]|(Hk & [[-> Hy]|[Hkh Ho]])].
      - apply list_elem_of_singleton in Hy as ->. by left.
      - right. split; [|intros ->; done]. apply Hoh. rewrite !elem_of_cons, elem_of_app, ?elem_of_cons in *. tauto.
      - right. split; [done|]. intros ->. apply Hkh. apply (Honce _ _ x); auto. }
    intros k1 k2 y [[-> ->]|[? ?]]%Hnew [[-> ?]|[? ?]]%Hnew; try done. by apply (Honce _ _ y).
Qed.

(** Unlinking a node that is in no list changes nothing. *)
Lemma list_del_alone_rings s x : ring s x [] -> list_del x s = Ret (tt, s).
Proof.
  intros [_ (Hn & Hp & _)%chain_cons]. destruct s as [pv nx]. cbn [prev next] in *.
  unfold list_del, __list_del, list_init, get_prev, get_next, set_prev, set_next, mbind, M_bind.
  repeat progress (cbn [prev next]; rewrite ?Hp, ?Hn, ?lookup_insert_eq, ?insert_insert_eq).
  do 3 f_equal; by apply insert_id.
Qed.

Lemma list_init_rings N s R x : rings N s R -> x ∈ N -> (forall h l, R !! h = Some l -> x ∈ h :: l -> l = []) ->
  exists s', list_init x s = Ret (tt, s') /\ rings N s' (<[x := []]> R).
Proof.
  intros HR Hx Hfree. destruct (proj1 (elem_of_dom _ _) (rings_prev _ _ _ HR x Hx)) as [vp Hvp].
  destruct (proj1 (elem_of_dom _ _) (rings_next _ _ _ HR x Hx)) as [vn Hvn].
  set (s' := ListMem (<[x := x]> (prev s)) (<[x := x]> (next s))).
  assert (E : list_init x s = Ret (tt, s')).
  { unfold list_init, set_prev, set_next, mbind, M_bind. rewrite Hvp. cbn [prev next]. by rewrite Hvn. }
  exists s'. split; [done|]. destruct (keeps_cmd (CInit x) _ _ _ E) as [D1 D2].
  assert (Hown : forall k, owns R k x -> k = x).
  { intros k (l & Hl & Hin). rewrite (Hfree k l Hl Hin) in Hin. by apply list_elem_of_singleton in Hin. }
  split; [rewrite D1; apply HR|rewrite D2; apply HR| |].
  - intros k l [[<- <-]|[Hk Hl]]%lookup_insert_Some.
    + split; [apply NoDup_singleton|]. simpl. by rewrite !lookup_insert_eq.
    + apply (rings_untouched N s s' R k l [x]); [done|done| |].
      * intros y Hy. rewrite list_elem_of_singleton in Hy. simpl. by rewrite !lookup_insert_ne by done.
      * intros y ->%list_elem_of_singleton Ho. by apply Hk, eq_sym, Hown.
  - intros k1 k2 y. rewrite !owns_insert, list_elem_of_singleton.
    intros [[-> ->]|[? H1]] [[-> E2]|[? H2]]; [done|by apply Hown in H2|subst; by apply Hown in H1|by apply (rings_once _ _ _ HR _ _ y)].
Qed.

(** ** The list operations refine operations on sequences *)

Lemma lstep_sound N c R R' : lstep N c R R' -> forall s, rings N s R -> exists s', run_cmd c s = Ret (tt, s') /\ rings N s' R'.
Proof.
  induction 1 as [R x Hx Hf|R x h l Hx Hh Hne|R x h l Hx Hh Hne|R x h a b Hh|R x Hx|R R1 R2 x h _ IH1 _ IH2|R R1 R2 x h _ IH1 _ IH2];
    intros s HR; cbn [run_cmd].
  - by apply list_init_rings.
  - by apply list_add_rings.
  - by apply list_add_tail_rings.
  - by apply list_del_rings.
  - exists s. split; [|done]. apply list_del_alone_rings. by apply (rings_ring _ _ _ HR).
  - destruct (IH1 s HR) as (s1 & E1 & HR1). destruct (IH2 s1 HR1) as (s2 & E2 & HR2). exists s2. split; [|done].
    unfold list_move. by erewrite bind_eq by done.
  - destruct (IH1 s HR) as (s1 & E1 & HR1). destruct (IH2 s1 HR1) as (s2 & E2 & HR2). exists s2. split; [|done].
    unfold list_move_tail. by erewrite bind_eq by done.
Qed.

(** C15: any sequence of the operations of list.h on any number of disjoint
    circular lists (initialise a node, add at the head or at the tail of a list,
    unlink, move between lists) returns without touching memory outside the
    nodes, and leaves in memory exactly the lists that the same operations make
    of the abstract sequences of nodes. *)
Theorem list_ops_refine N cs s R R' : rings N s R -> lsteps N cs R R' ->
  exists s', run_cmds cs s = Ret (tt, s') /\ rings N s' R'.
Proof.
  intros HR H. revert s HR. induction H as [R|R R1 R2 c cs Hc _ IH]; intros s HR; [by exists s|].
  destruct (lstep_sound N c R R1 Hc s HR) as (s1 & E1 & HR1). destruct (IH s1 HR1) as (s2 & E2 & HR2). exists s2.
  split; [|done]. cbn [run_cmds]. by erewrite bind_eq by done.
Qed.

(** ** Tests and loops *)

Lemma ring_first s h l : ring s h l -> next s !! h = Some (default h (head l)).
Proof. intros [_ Hc]. destruct l; apply chain_cons in Hc as (? & _); done. Qed.

Lemma ring_last s h l : ring s h l -> prev s !! h = Some (default h (last l)).
Proof.
  intros [_ Hc]. destruct l as [|x l] using rev_ind; [by apply chain_cons in Hc as (_ & ? & _)|].
  rewrite last_snoc, <- app_assoc in *. change (h :: l ++ [x] ++ [h]) with ((h :: l) ++ x :: [h]) in Hc.
  by apply chain_app in Hc as [_ (_ & ? & _)%chain_cons].
Qed.

(** The neighbours of a node of the list. *)
Lemma ring_mid s h a x b : ring s h (a ++ x :: b) ->
  prev s !! x = Some (default h (last a)) /\ next s !! x = Some (default h (head b)) /\ x <> h.
Proof.
  intros [Hnd Hc]. rewrite <- app_assoc in Hc. change (h :: a ++ (x :: b) ++ [h]) with ((h :: a) ++ x :: b ++ [h]) in Hc.
  apply chain_app in Hc as [Hc1 Hc2]. split_and!.
  - destruct a as [|y a] using rev_ind; [by apply chain_cons in Hc1 as (_ & ? & _)|].
    rewrite last_snoc. change (h :: a ++ [y]) with ((h :: a) ++ [y]) in Hc1. rewrite <- app_assoc in Hc1.
    by apply chain_app in Hc1 as [_ (_ & ? & _)%chain_cons].
  - destruct b; by apply chain_cons in Hc2 as (? & _).
  - apply NoDup_cons in Hnd as [Hnd _]. intros ->. apply Hnd, elem_of_app. right. by left.
Qed.

(** Comparing with the head tells whether there is a node. *)
Lemma default_head_test h (l : list Z) (o : option Z) : h ∉ l -> (forall y, o = Some y -> y ∈ l) -> (o = None -> l = []) ->
  (default h o =? h) = bool_decide (l = []).
Proof.
  intros Hnd Ho Hnone. destruct o as [y|]; simpl.
  - rewrite bool_decide_false by (intros ->; by apply (elem_of_nil y), Ho). apply Z.eqb_neq. intros ->. by apply Hnd, Ho.
  - rewrite bool_decide_true by (by apply Hnone). apply Z.eqb_refl.
Qed.

Lemma first_test h (l : list Z) : h ∉ l -> (default h (head l) =? h) = bool_decide (l = []).
Proof. intros Hh. apply default_head_test; [done| |by destruct l]. destruct l; simpl; intros y [= <-]. by left. Qed.

Lemma last_test h (l : list Z) : h ∉ l -> (default h (last l) =? h) = bool_decide (l = []).
Proof.
  intros Hh. apply default_head_test; [done| |by intros ?%last_None]. intros y (l' & ->)%last_Some.
  apply elem_of_app. right. by left.
Qed.

Lemma list_tests_ring s h l : ring s h l ->
  list_is_empty h s = Ret (bool_decide (l = []), s) /\ list_is_empty_careful h s = Ret (bool_decide (l = []), s) /\
  forall a x b, l = a ++ x :: b ->
    list_is_first x h s = Ret (bool_decide (a = []), s) /\ list_is_last x h s = Ret (bool_decide (b = []), s).
Proof.
  intros Hr. pose proof (ring_first s h l Hr) as Hf. pose proof (ring_last s h l Hr) as Hl.
  assert (Hh : h ∉ l) by (destruct Hr as [Hnd _]; by apply NoDup_cons in Hnd as [? _]). split_and!.
  - unfold list_is_empty, get_next, mbind, M_bind. rewrite Hf. by rewrite first_test.
  - unfold list_is_empty_careful, get_next, get_prev, mbind, M_bind. rewrite Hf, Hl. unfold mret, M_ret.
    rewrite first_test by done. destruct l; [simpl; by rewrite Z.eqb_refl|done].
  - intros a x b ->. destruct (ring_mid s h a x b Hr) as (Hp & Hn & _).
    rewrite elem_of_app, elem_of_cons in Hh. split.
    + unfold list_is_first, get_prev, mbind, M_bind. rewrite Hp. by rewrite last_test by tauto.
    + unfold list_is_last, get_next, mbind, M_bind. rewrite Hn. by rewrite first_test by tauto.
Qed.

(** A loop over a list that its body does not change. *)
Lemma for_each_loop_ring {A} s h a b fuel (body : A -> Z -> LM A) (f : A -> Z -> A) acc :
  ring s h (a ++ b) -> (length b <= fuel)%nat -> (forall c x, x ∈ b -> body c x s = Ret (f c x, s)) ->
  for_each_loop fuel body h (default h (head b)) acc s = Ret (foldl f acc b, s).
Proof.
  revert a fuel acc. induction b as [|x b IH]; intros a fuel acc Hr Hfuel Hb.
  - destruct fuel; cbn [for_each_loop head default]; simpl; by rewrite Z.eqb_refl.
  - destruct (ring_mid s h a x b Hr) as (_ & Hn & Hx). destruct fuel as [|fuel]; [simpl in Hfuel; lia|].
    cbn [for_each_loop]. change (default h (head (x :: b))) with x. rewrite (proj2 (Z.eqb_neq x h) Hx).
    erewrite bind_eq by (apply Hb; by left). erewrite bind_eq by (unfold get_next; by rewrite Hn).
    rewrite cons_middle, app_assoc in Hr. apply (IH (a ++ [x])); [done|simpl in Hfuel; lia|]. intros c y Hy. apply Hb. by right.
Qed.

Lemma head_dell_loop_rings {A} N h fuel (f : A -> Z -> A) l : forall s R acc,
  rings N s R -> R !! h = Some l -> (length l <= fuel)%nat ->
  exists s', head_dell_loop fuel (fun c x => list_del x ;; mret (f c x)) h (default h (head l)) acc s = Ret (foldl f acc l, s') /\
    rings N s' (foldl (fun R x => <[x := []]> R) (<[h := []]> R) l).
Proof.
  revert fuel. induction l as [|x l IH]; intros fuel s R acc HR Hh Hfuel.
  - exists s. split; [destruct fuel; simpl; by rewrite Z.eqb_refl|]. simpl. by rewrite insert_id.
  - pose proof (rings_ring _ _ _ HR h _ Hh) as Hr. destruct (ring_mid s h [] x l Hr) as (_ & _ & Hx).
    destruct fuel as [|fuel]; [simpl in Hfuel; lia|]. destruct (list_del_rings N s R x h [] l HR Hh) as (s1 & E1 & HR1).
    assert (Hh1 : <[x := []]> (<[h := l]> R) !! h = Some l) by (by rewrite lookup_insert_ne, lookup_insert_eq by done).
    destruct (IH fuel s1 _ (f acc x) HR1 Hh1 ltac:(simpl in Hfuel; lia)) as (s2 & E2 & HR2). exists s2. split.
    + cbn [head_dell_loop]. change (default h (head (x :: l))) with x. rewrite (proj2 (Z.eqb_neq x h) Hx).
      erewrite bind_eq by (erewrite bind_eq by done; done).
      erewrite bind_eq; [done|]. unfold get_next. by rewrite (ring_first s1 h l (rings_ring _ _ _ HR1 h l Hh1)).
    + cbn [foldl]. by rewrite insert_insert_ne, insert_insert_eq in HR2 by done.
Qed.

(** C39: on memory that holds the lists [R], the tests of list.h tell whether a
    list is empty and whether a node is its first or its last one; the loop
    [list_for_each] with a body that leaves the links alone runs it once per
    node, in order; the loop [list_for_each_head_dell] with a body that unlinks
    its node visits every node in order, and then the list is empty and each of
    its nodes is alone.  Both loops end within the length of the list. *)
Theorem list_tests_and_loops N s R h l : rings N s R -> R !! h = Some l ->
  (list_is_empty h s = Ret (bool_decide (l = []), s) /\ list_is_empty_careful h s = Ret (bool_decide (l = []), s)) /\
  (forall a x b, l = a ++ x :: b ->
    list_is_first x h s = Ret (bool_decide (a = []), s) /\ list_is_last x h s = Ret (bool_decide (b = []), s)) /\
  (forall A fuel (body : A -> Z -> LM A) f acc, (length l <= fuel)%nat -> (forall c x, x ∈ l -> body c x s = Ret (f c x, s)) ->
    list_for_each fuel body h acc s = Ret (foldl f acc l, s)) /\
  (forall A fuel (f : A -> Z -> A) acc, (length l <= fuel)%nat ->
    exists s', list_for_each_head_dell fuel (fun c x => list_del x ;; mret (f c x)) h acc s = Ret (foldl f acc l, s') /\
      rings N s' (foldl (fun R x => <[x := []]> R) (<[h := []]> R) l)).
Proof.
  intros HR Hh. pose proof (rings_ring _ _ _ HR h l Hh) as Hr. pose proof (ring_first s h l Hr) as Hn.
  destruct (list_tests_ring s h l Hr) as (H1 & H2 & H3). split_and!; [done|done|done| |].
  - intros A fuel body f acc Hf Hb. unfold list_for_each. erewrite bind_eq by (unfold get_next; by rewrite Hn).
    by apply (for_each_loop_ring s h []).
  - intros A fuel f acc Hf. unfold list_for_each_head_dell. erewrite bind_eq by (unfold get_next; by rewrite Hn).
    by apply head_dell_loop_rings.
Qed.

(** Four nodes of memory whose fields are not initialised. *)
Definition mem0 : list_h_t :=
  let m := list_to_map [(16, 0); (32, 0); (48, 0); (64, 0)] in ListMem m m.
Definition nodes0 : gset Z := {[16; 32; 48; 64]}.

Lemma mem0_rings : rings nodes0 mem0 ∅.
Proof.
  split; [by apply (bool_decide_eq_true_1 _); vm_compute|by apply (bool_decide_eq_true_1 _); vm_compute| |].
  - intros h l H. by rewrite lookup_empty in H.
  - intros h1 h2 y (l & H & _). by rewrite lookup_empty in H.
Qed.

Lemma list_ops_refine_witness :
  exists s', run_cmds [CInit 16; CInit 64; CInit 32; CInit 48; CAddTail 32 16; CAdd 48 16; CMoveTail 32 64; CDel 48] mem0 = Ret (tt, s') /\
    rings nodes0 s' (list_to_map [(16, []); (48, []); (64, [32])]).
Proof.
  apply (list_ops_refine nodes0 _ mem0 ∅); [apply mem0_rings|].
  assert (Hinit : forall (R : lists) x, x ∈ nodes0 -> map_Forall (fun _ l => l = []) R -> lstep nodes0 (CInit x) R (<[x := []]> R)).
  { intros R x Hx HR. apply l_init; [done|]. intros h l Hl _. exact (HR h l Hl). }
  do 4 (eapply lsteps_cons; [apply Hinit; by apply (bool_decide_eq_true_1 _); vm_compute|]).
  eapply lsteps_cons; [by apply (l_add_tail _ _ 32 16 [])|].
  eapply lsteps_cons; [by apply (l_add _ _ 48 16 [32])|].
  eapply lsteps_cons; [eapply l_move_tail; [by apply (l_del _ _ 32 16 [48] [])|by apply (l_add_tail _ _ 32 64 [])]|].
  eapply lsteps_cons; [by apply (l_del _ _ 48 16 [] [])|]. vm_compute. apply lsteps_nil.
Defined.

(** The ring 16, 32, 48. *)
Definition mem1 : list_h_t :=
  ListMem (list_to_map [(16, 48); (32, 16); (48, 32)]) (list_to_map [(16, 32); (32, 48); (48, 16)]).

Lemma mem1_rings : rings {[16; 32; 48]} mem1 {[16 := [32; 48]]}.
Proof.
  split; [by apply (bool_decide_eq_true_1 _); vm_compute|by apply (bool_decide_eq_true_1 _); vm_compute| |].
  - intros h l [<- <-]%lookup_singleton_Some. split; [by apply (bool_decide_eq_true_1 _); vm_compute|by vm_compute].
  - intros h1 h2 y (l & [<- _]%lookup_singleton_Some & _) (l' & [<- _]%lookup_singleton_Some & _). done.
Qed.

Lemma list_tests_and_loops_witness :
  list_is_empty 16 mem1 = Ret (false, mem1) /\ list_for_each 2 (fun c x => mret (x :: c)) 16 [] mem1 = Ret ([48; 32], mem1).
Proof.
  destruct (list_tests_and_loops {[16; 32; 48]} mem1 {[16 := [32; 48]]} 16 [32; 48] mem1_rings eq_refl) as ([H1 _] & _ & H2 & _).
  split; [exact H1|]. by rewrite (H2 (list Z) 2%nat _ (fun c x => x :: c)) by (simpl; lia || done).
Defined.
