(* ===== verification/PhyMem.v ===== *)
(** * Physical memory: data model

    The structures of include/halinc/msadsc_t.h, memarea_t.h and
    memmgrinit_t.h, and the typed store in which the physical memory manager
    works.

    - A [msadsc_t] (one per page frame) is identified by its index in the
      descriptor array [mo_msadscstat]; [msadsc_t*] arithmetic and comparison
      are arithmetic and comparison of indices, and a nullable pointer is an
      [option Z].
    - A [bafhlst_t] is identified by the [memarea_t] that embeds it and its
      place there ([bafhp]): the element [li] of [dm_mdmlielst], or
      [dm_onemsalst].
    - A [memarea_t] is identified by its index in [mo_mareastat].
    - [md_odlink], a [void*], is [NULL], a descriptor or a [bafhlst_t]
      ([odlink]); using it at the other type is a [Fault].
    - The intrusive list [af_frelst] is the list of the descriptors linked in
      it through [md_list], in list order (ListH proves that the operations of
      list.h implement list operations on this view). *)

From S2P Require Import Prelude.

(** ** Constants *)

Definition PSHRSIZE : Z := 12.
Definition PAGESIZE : Z := 4096.

Definition MF_OLKTY_INIT : Z := 0.
Definition MF_OLKTY_ODER : Z := 1.
Definition MF_OLKTY_BAFH : Z := 2.
Definition MF_LSTTY_LIST : Z := 0.
Definition MF_MOCTY_FREE : Z := 0.
Definition MF_MOCTY_KRNL : Z := 1.
Definition MF_UINDX_INIT : Z := 0.
Definition MF_UINDX_MAX : Z := 0xffffff.
Definition MF_MARTY_INIT : Z := 0.
Definition MF_MARTY_HWD : Z := 1.
Definition MF_MARTY_KRL : Z := 2.
Definition MF_MARTY_PRC : Z := 3.

Definition PAF_NO_ALLOC : Z := 0.
Definition PAF_ALLOC : Z := 1.

Definition BAFH_STUS_INIT : Z := 0.
Definition BAFH_STUS_ONEM : Z := 1.
Definition BAFH_STUS_DIVP : Z := 2.
Definition BAFH_STUS_DIVM : Z := 3.

Definition MDIVMER_ARR_LMAX : Z := 52.

Definition MA_TYPE_INIT : Z := 0.
Definition MA_TYPE_HWAD : Z := 1.
Definition MA_TYPE_KRNL : Z := 2.
Definition MA_TYPE_PROC : Z := 3.
Definition MA_TYPE_SHAR : Z := 4.
Definition MEMAREA_MAX : Z := 4.
Definition MA_HWAD_LSTART : Z := 0.
Definition MA_HWAD_LSZ : Z := 0x2000000.
Definition MA_HWAD_LEND : Z := MA_HWAD_LSTART + MA_HWAD_LSZ - 1.
Definition MA_KRNL_LSTART : Z := 0x2000000.
Definition MA_KRNL_LSZ : Z := 0x400000000 - 0x2000000.
Definition MA_KRNL_LEND : Z := MA_KRNL_LSTART + MA_KRNL_LSZ - 1.
Definition MA_PROC_LSTART : Z := 0x400000000.
Definition MA_PROC_LSZ : Z := 0xffffffffffffffff - 0x400000000.
Definition MA_PROC_LEND : Z := MA_PROC_LSTART + MA_PROC_LSZ.

Definition DMF_RELDIV : Z := 0.
Definition DMF_MAXDIV : Z := 1.

(** ** Pointers into the memory manager's structures *)

(** A [bafhlst_t*]: [&mo_mareastat[mi].ma_mdmdata.dm_mdmlielst[li]] or
    [&mo_mareastat[mi].ma_mdmdata.dm_onemsalst]. *)
Inductive bafhp : Set :=
| BLie (mi li : Z)
| BOne (mi : Z).

#[global] Instance bafhp_eq_dec : EqDecision bafhp.
Proof. solve_decision. Defined.

Definition bafhp_enc (b : bafhp) : Z * Z + Z :=
  match b with BLie mi li => inl (mi, li) | BOne mi => inr mi end.
Definition bafhp_dec (x : Z * Z + Z) : bafhp :=
  match x with inl (mi, li) => BLie mi li | inr mi => BOne mi end.

#[global] Instance bafhp_countable : Countable bafhp.
Proof. apply (inj_countable' bafhp_enc bafhp_dec). by intros []. Defined.

(** [md_odlink] *)
Inductive odlink : Set :=
| OL_NULL
| OL_MSA (i : Z)
| OL_BAFH (b : bafhp).

#[global] Instance odlink_eq_dec : EqDecision odlink.
Proof. solve_decision. Defined.

(** ** Structures *)

Record msadflgs_t := MsadFlgs {
  mf_olkty : Z;   (** 2 bits *)
  mf_lstty : Z;   (** 1 bit *)
  mf_mocty : Z;   (** 2 bits *)
  mf_marty : Z;   (** 3 bits *)
  mf_uindx : Z    (** 24 bits *)
}.

Record phyadrflgs_t := PhyAdrFlgs {
  paf_alloc : Z;
  paf_shared : Z;
  paf_swap : Z;
  paf_cache : Z;
  paf_kmap : Z;
  paf_lock : Z;
  paf_dirty : Z;
  paf_busy : Z;
  paf_rv2 : Z;    (** 4 bits *)
  paf_padrs : Z   (** 52 bits: page frame number *)
}.

Record msadsc_t := Msadsc {
  md_indxflgs : msadflgs_t;
  md_phyadrs : phyadrflgs_t;
  md_odlink : odlink
}.

Record bafhlst_t := Bafhlst {
  af_stus : Z;
  af_oder : Z;
  af_oderpnr : Z;
  af_fobjnr : Z;
  af_mobjnr : Z;
  af_alcindx : Z;
  af_freindx : Z;
  af_frelst : list Z;
  af_alclst : list Z;
  af_ovelst : list Z
}.

Record memarea_t := Memarea {
  ma_stus : Z;
  ma_flgs : Z;
  ma_type : Z;
  ma_maxpages : Z;
  ma_allocpages : Z;
  ma_freepages : Z;
  ma_resvpages : Z;
  ma_horizline : Z;
  ma_logicstart : Z;
  ma_logicend : Z;
  ma_logicsz : Z;
  ma_allmsadscnr : Z
}.

(** The physical memory manager: the page counters of [memmgrob], the array
    of areas, the [bafhlst_t]s embedded in them and the descriptor array. *)
Record mmst := Mmst {
  mo_maxpages : Z;
  mo_freepages : Z;
  mo_alocpages : Z;
  mo_mareanr : Z;
  mo_msanr : Z;
  mareas : gmap Z memarea_t;
  bafs : gmap bafhp bafhlst_t;
  msas : gmap Z msadsc_t
}.

Abbreviation MM A := (M mmst A).

(** ** Field updates *)

Definition set_olkty (v : Z) (m : msadsc_t) : msadsc_t :=
  let f := md_indxflgs m in
  Msadsc (MsadFlgs v (mf_lstty f) (mf_mocty f) (mf_marty f) (mf_uindx f)) (md_phyadrs m) (md_odlink m).
Definition set_mocty (v : Z) (m : msadsc_t) : msadsc_t :=
  let f := md_indxflgs m in
  Msadsc (MsadFlgs (mf_olkty f) (mf_lstty f) v (mf_marty f) (mf_uindx f)) (md_phyadrs m) (md_odlink m).
Definition set_marty (v : Z) (m : msadsc_t) : msadsc_t :=
  let f := md_indxflgs m in
  Msadsc (MsadFlgs (mf_olkty f) (mf_lstty f) (mf_mocty f) v (mf_uindx f)) (md_phyadrs m) (md_odlink m).
(** [mf_uindx] is a 24-bit field: what is stored in it is truncated. *)
Definition set_uindx (v : Z) (m : msadsc_t) : msadsc_t :=
  let f := md_indxflgs m in
  Msadsc (MsadFlgs (mf_olkty f) (mf_lstty f) (mf_mocty f) (mf_marty f) (v mod 2 ^ 24))
         (md_phyadrs m) (md_odlink m).
Definition set_alloc (v : Z) (m : msadsc_t) : msadsc_t :=
  let p := md_phyadrs m in
  Msadsc (md_indxflgs m)
    (PhyAdrFlgs v (paf_shared p) (paf_swap p) (paf_cache p) (paf_kmap p) (paf_lock p)
       (paf_dirty p) (paf_busy p) (paf_rv2 p) (paf_padrs p)) (md_odlink m).
Definition set_padrs (v : Z) (m : msadsc_t) : msadsc_t :=
  let p := md_phyadrs m in
  Msadsc (md_indxflgs m)
    (PhyAdrFlgs (paf_alloc p) (paf_shared p) (paf_swap p) (paf_cache p) (paf_kmap p) (paf_lock p)
       (paf_dirty p) (paf_busy p) (paf_rv2 p) v) (md_odlink m).
Definition set_odlink (v : odlink) (m : msadsc_t) : msadsc_t :=
  Msadsc (md_indxflgs m) (md_phyadrs m) v.

(** Shorthands for the fields of a descriptor the allocator uses. *)
Definition olkty (m : msadsc_t) : Z := mf_olkty (md_indxflgs m).
Definition mocty (m : msadsc_t) : Z := mf_mocty (md_indxflgs m).
Definition marty (m : msadsc_t) : Z := mf_marty (md_indxflgs m).
Definition uindx (m : msadsc_t) : Z := mf_uindx (md_indxflgs m).
Definition alloc (m : msadsc_t) : Z := paf_alloc (md_phyadrs m).
Definition padrs (m : msadsc_t) : Z := paf_padrs (md_phyadrs m).

(** [paf_padrs << PSHRSIZE], the physical address of the page frame. *)
Definition phyadr (m : msadsc_t) : Z := padrs m <<u PSHRSIZE.

Definition set_frelst (l : list Z) (b : bafhlst_t) : bafhlst_t :=
  Bafhlst (af_stus b) (af_oder b) (af_oderpnr b) (af_fobjnr b) (af_mobjnr b) (af_alcindx b)
          (af_freindx b) l (af_alclst b) (af_ovelst b).
Definition set_fobjnr (v : Z) (b : bafhlst_t) : bafhlst_t :=
  Bafhlst (af_stus b) (af_oder b) (af_oderpnr b) v (af_mobjnr b) (af_alcindx b)
          (af_freindx b) (af_frelst b) (af_alclst b) (af_ovelst b).
Definition set_mobjnr (v : Z) (b : bafhlst_t) : bafhlst_t :=
  Bafhlst (af_stus b) (af_oder b) (af_oderpnr b) (af_fobjnr b) v (af_alcindx b)
          (af_freindx b) (af_frelst b) (af_alclst b) (af_ovelst b).
Definition set_alcindx (v : Z) (b : bafhlst_t) : bafhlst_t :=
  Bafhlst (af_stus b) (af_oder b) (af_oderpnr b) (af_fobjnr b) (af_mobjnr b) v
          (af_freindx b) (af_frelst b) (af_alclst b) (af_ovelst b).
Definition set_freindx (v : Z) (b : bafhlst_t) : bafhlst_t :=
  Bafhlst (af_stus b) (af_oder b) (af_oderpnr b) (af_fobjnr b) (af_mobjnr b) (af_alcindx b)
          v (af_frelst b) (af_alclst b) (af_ovelst b).

Definition set_ma_pages (mx al fr nr : Z) (a : memarea_t) : memarea_t :=
  Memarea (ma_stus a) (ma_flgs a) (ma_type a) mx al fr (ma_resvpages a) (ma_horizline a)
          (ma_logicstart a) (ma_logicend a) (ma_logicsz a) nr.
Definition set_ma_logic (ty st en sz : Z) (a : memarea_t) : memarea_t :=
  Memarea (ma_stus a) (ma_flgs a) ty (ma_maxpages a) (ma_allocpages a) (ma_freepages a)
          (ma_resvpages a) (ma_horizline a) st en sz (ma_allmsadscnr a).

Definition with_msas (g : gmap Z msadsc_t) (s : mmst) : mmst :=
  Mmst (mo_maxpages s) (mo_freepages s) (mo_alocpages s) (mo_mareanr s) (mo_msanr s)
       (mareas s) (bafs s) g.
Definition with_bafs (g : gmap bafhp bafhlst_t) (s : mmst) : mmst :=
  Mmst (mo_maxpages s) (mo_freepages s) (mo_alocpages s) (mo_mareanr s) (mo_msanr s)
       (mareas s) g (msas s).
Definition with_mareas (g : gmap Z memarea_t) (s : mmst) : mmst :=
  Mmst (mo_maxpages s) (mo_freepages s) (mo_alocpages s) (mo_mareanr s) (mo_msanr s)
       g (bafs s) (msas s).
Definition with_pages (mx fr al : Z) (s : mmst) : mmst :=
  Mmst mx fr al (mo_mareanr s) (mo_msanr s) (mareas s) (bafs s) (msas s).

(** ** Memory accesses *)

Definition get_msa (i : Z) : MM msadsc_t := fun s =>
  match msas s !! i with Some m => Ret (m, s) | None => Fault end.
Definition upd_msa (i : Z) (f : msadsc_t -> msadsc_t) : MM unit := fun s =>
  match msas s !! i with
  | Some m => Ret (tt, with_msas (<[i := f m]> (msas s)) s)
  | None => Fault
  end.
Definition get_baf (b : bafhp) : MM bafhlst_t := fun s =>
  match bafs s !! b with Some x => Ret (x, s) | None => Fault end.
Definition upd_baf (b : bafhp) (f : bafhlst_t -> bafhlst_t) : MM unit := fun s =>
  match bafs s !! b with
  | Some x => Ret (tt, with_bafs (<[b := f x]> (bafs s)) s)
  | None => Fault
  end.
Definition get_ma (i : Z) : MM memarea_t := fun s =>
  match mareas s !! i with Some a => Ret (a, s) | None => Fault end.
Definition upd_ma (i : Z) (f : memarea_t -> memarea_t) : MM unit := fun s =>
  match mareas s !! i with
  | Some a => Ret (tt, with_mareas (<[i := f a]> (mareas s)) s)
  | None => Fault
  end.

(** [(msadsc_t * )md_odlink]: the pointer is used as a descriptor. *)
Definition as_msa (o : odlink) : MM (option Z) :=
  match o with
  | OL_NULL => mret None
  | OL_MSA i => mret (Some i)
  | OL_BAFH _ => fault
  end.

(** [list_add(&msa->md_list, &bafh->af_frelst)] *)
Definition baf_list_add (b : bafhp) (i : Z) : MM unit :=
  upd_baf b (fun x => set_frelst (i :: af_frelst x) x).

(** [list_del(&msa->md_list)] for a descriptor linked in [bafh->af_frelst] *)
Definition baf_list_del (b : bafhp) (i : Z) : MM unit :=
  upd_baf b (fun x => set_frelst (filter (fun j => j <> i) (af_frelst x)) x).

(** [list_is_empty_careful(&bafh->af_frelst)] *)
Definition list_empty {A} (l : list A) : bool :=
  match l with [] => true | _ => false end.

(** ** Access rules *)

Lemma wp_get_msa i m s Q : msas s !! i = Some m -> Q m s -> wp (get_msa i) s Q.
Proof. intros H. unfold wp, get_msa. by rewrite H. Qed.

Lemma wp_upd_msa i f m s (Q : unit -> mmst -> Prop) :
  msas s !! i = Some m -> Q tt (with_msas (<[i := f m]> (msas s)) s) -> wp (upd_msa i f) s Q.
Proof. intros H. unfold wp, upd_msa. by rewrite H. Qed.

Lemma wp_get_baf b x s Q : bafs s !! b = Some x -> Q x s -> wp (get_baf b) s Q.
Proof. intros H. unfold wp, get_baf. by rewrite H. Qed.

Lemma wp_upd_baf b f x s (Q : unit -> mmst -> Prop) :
  bafs s !! b = Some x -> Q tt (with_bafs (<[b := f x]> (bafs s)) s) -> wp (upd_baf b f) s Q.
Proof. intros H. unfold wp, upd_baf. by rewrite H. Qed.

Lemma wp_get_ma i a s Q : mareas s !! i = Some a -> Q a s -> wp (get_ma i) s Q.
Proof. intros H. unfold wp, get_ma. by rewrite H. Qed.

Lemma wp_upd_ma i f a s (Q : unit -> mmst -> Prop) :
  mareas s !! i = Some a -> Q tt (with_mareas (<[i := f a]> (mareas s)) s) -> wp (upd_ma i f) s Q.
Proof. intros H. unfold wp, upd_ma. by rewrite H. Qed.

(** ** Normal form of updated states

    Successive writes are kept as one update of each store:
    [with_msas g (with_bafs h s)]. *)

Lemma with_msas_msas g h s : with_msas g (with_msas h s) = with_msas g s.
Proof. done. Qed.
Lemma with_bafs_bafs g h s : with_bafs g (with_bafs h s) = with_bafs g s.
Proof. done. Qed.
Lemma with_bafs_msas g h s : with_bafs h (with_msas g s) = with_msas g (with_bafs h s).
Proof. done. Qed.
Lemma msas_with_msas g s : msas (with_msas g s) = g.
Proof. done. Qed.
Lemma bafs_with_msas g s : bafs (with_msas g s) = bafs s.
Proof. done. Qed.
Lemma msas_with_bafs g s : msas (with_bafs g s) = msas s.
Proof. done. Qed.
Lemma bafs_with_bafs g s : bafs (with_bafs g s) = g.
Proof. done. Qed.
Lemma with_msas_id s : with_msas (msas s) s = s.
Proof. by destruct s. Qed.
Lemma with_bafs_id s : with_bafs (bafs s) s = s.
Proof. by destruct s. Qed.

Lemma insert_insert_mid {A} (g : gmap Z A) i j x y z :
  i <> j -> <[i := x]> (<[j := y]> (<[i := z]> g)) = <[j := y]> (<[i := x]> g).
Proof. intros H. rewrite (insert_insert_ne _ i j) by done. by rewrite insert_insert_eq. Qed.

(** A block of one page has its two ends at the same descriptor. *)
Lemma insert_twice {A} (g : gmap Z A) i x : <[i := x]> g = <[i := x]> (<[i := x]> g).
Proof. by rewrite insert_insert_eq. Qed.

Ltac norm_state :=
  repeat first
    [ rewrite with_msas_msas | rewrite with_bafs_bafs | rewrite with_bafs_msas
    | rewrite msas_with_msas | rewrite bafs_with_msas | rewrite msas_with_bafs | rewrite bafs_with_bafs
    | rewrite insert_insert_eq | rewrite insert_insert_mid by lia ].
