(* ===== verification/DivMer.v ===== *)
(** * Page allocator: hal/x86/memdivmer.c

    Allocation ("division") and release ("merge") of runs of physical pages:
    one definition per C function, in the order of the file.  Out-parameters
    ([*retrelpnr], [**retmstat], ...) are results; the [NULL] checks on the
    addresses of out-parameters, always taken of locals, have no counterpart.
    Spin locks are not modelled (see Prelude). *)

From S2P Require Import Prelude PhyMem.

(** [search_64rlbits]: one plus the index of the highest set bit ([bsrq]; 0
    for 0, where the instruction leaves the initial -1 in place). *)
Definition search_64rlbits (val : Z) : Z :=
  if val =? 0 then 0 else Z.log2 val + 1.

Definition retn_divoder (pages : Z) : Z :=
  let pbits := search_64rlbits pages - 1 in
  if negb (Z.land pages (pages -u 1) =? 0) then pbits + 1 else pbits.

Definition mm_update_memmgrob (realpnr flgs : Z) : MM unit :=
  (if flgs =? 0 then
     modify (fun s => with_pages (mo_maxpages s) (mo_freepages s -u realpnr) (mo_alocpages s +u realpnr) s)
   else mret tt) ;;
  (if flgs =? 1 then
     modify (fun s => with_pages (mo_maxpages s) (mo_freepages s +u realpnr) (mo_alocpages s -u realpnr) s)
   else mret tt).

Definition mm_update_memarea (malokp : option Z) (pgnr flgs : Z) : MM unit :=
  match malokp with
  | None => mret tt
  | Some mi =>
      (if flgs =? 0 then
         upd_ma mi (fun a => set_ma_pages (ma_maxpages a) (ma_allocpages a +u pgnr)
                               (ma_freepages a -u pgnr) (ma_allmsadscnr a) a)
       else mret tt) ;;
      (if flgs =? 1 then
         upd_ma mi (fun a => set_ma_pages (ma_maxpages a) (ma_allocpages a -u pgnr)
                               (ma_freepages a +u pgnr) (ma_allmsadscnr a) a)
       else mret tt)
  end.

Definition onfrmsa_retn_fpagenr (freemsa : option Z) : MM Z :=
  match freemsa with
  | None => mret 0
  | Some f =>
      m ← get_msa f;
      if bool_decide (md_odlink m = OL_NULL) then mret 0 else
      fmend ← as_msa (md_odlink m);
      match fmend with
      | None => mret 0
      | Some fmend => if fmend <? f then mret 0 else mret (u64 (fmend - f) +u 1)
      end
  end.

(** [for (mi = 0; mi < mo_mareanr; mi++) if (type matches) return &mo_mareastat[mi];] *)
Definition find_marea (test : memarea_t -> bool) : MM (option Z) :=
  nr ← gets mo_mareanr;
  find_first (seqZ 0 nr) (fun mi => a ← get_ma mi; mret (if test a then Some mi else None)).

Definition onfrmsa_retn_marea (freemsa freepgs : Z) : MM (option Z) :=
  m ← get_msa freemsa;
  if negb (olkty m =? MF_OLKTY_ODER) || bool_decide (md_odlink m = OL_NULL) then mret None else
  fmend ← as_msa (md_odlink m);
  match fmend with
  | None => mret None
  | Some fmend =>
      if negb (u64 (fmend - freemsa) +u 1 =? freepgs) then mret None else
      e ← get_msa fmend;
      if negb (marty m =? marty e) then mret None else
      find_marea (fun a => marty m =? ma_type a)
  end.

Definition onmrtype_retn_marea (mrtype : Z) : MM (option Z) :=
  find_marea (fun a => ma_type a =? mrtype).

Definition onma_retn_maxbafhlst (malckp : Z) : MM (option bafhp) :=
  find_first (reverse (seqZ 0 MDIVMER_ARR_LMAX))
    (fun li => b ← get_baf (BLie malckp li);
               mret (if 0 <? af_fobjnr b then Some (BLie malckp li) else None)).

Definition mm_divpages_opmsadsc (msastat : option Z) (mnr : Z) : MM (option Z) :=
  match msastat with
  | None => mret None
  | Some st =>
      if mnr =? 0 then mret None else
      m ← get_msa st;
      die_if ((negb (MF_OLKTY_ODER =? olkty m) && negb (MF_OLKTY_BAFH =? olkty m))
              || bool_decide (md_odlink m = OL_NULL)
              || negb (PAF_NO_ALLOC =? alloc m)) "mm_divpages_opmsadsc err1" ;;
      mend ← (if MF_OLKTY_BAFH =? olkty m then mret (Some st) else as_msa (md_odlink m));
      match mend with
      | None => fault
      | Some mend =>
          die_if (mend <? st) "mm_divpages_opmsadsc err2" ;;
          die_if (negb (u64 ((mend - st) + 1) =? mnr)) "mm_divpages_opmsadsc err3" ;;
          e ← get_msa mend;
          die_if ((MF_UINDX_MAX - 1 <? uindx m) || (MF_UINDX_MAX - 1 <? uindx e)
                  || negb (uindx m =? uindx e)) "mm_divpages_opmsadsc err4" ;;
          if st =? mend then
            upd_msa st (fun x => set_uindx (uindx x + 1) x) ;;
            upd_msa st (set_alloc PAF_ALLOC) ;;
            upd_msa st (set_olkty MF_OLKTY_ODER) ;;
            upd_msa st (set_odlink (OL_MSA mend)) ;;
            mret (Some st)
          else
            upd_msa st (fun x => set_uindx (uindx x + 1) x) ;;
            upd_msa st (set_alloc PAF_ALLOC) ;;
            upd_msa mend (fun x => set_uindx (uindx x + 1) x) ;;
            upd_msa mend (set_alloc PAF_ALLOC) ;;
            upd_msa st (set_olkty MF_OLKTY_ODER) ;;
            upd_msa st (set_odlink (OL_MSA mend)) ;;
            mret (Some st)
      end
  end.

Definition mm_merpages_opmsadsc (bafh : option bafhp) (freemsa : option Z) (freepgs : Z) : MM Z :=
  match bafh, freemsa with
  | Some bafh, Some f =>
      if freepgs <? 1 then mret 0 else
      m ← get_msa f;
      die_if (negb (MF_OLKTY_ODER =? olkty m) || bool_decide (md_odlink m = OL_NULL))
        "mm_merpages_opmsadsc err1" ;;
      fmend ← as_msa (md_odlink m);
      match fmend with
      | None => fault
      | Some fmend =>
          die_if (fmend <? f) "mm_merpages_opmsadsc err2" ;;
          b ← get_baf bafh;
          die_if (negb (af_oderpnr b =? freepgs) || negb (u64 (fmend - f) +u 1 =? freepgs))
            "mm_merpages_opmsadsc err3" ;;
          die_if ((PAF_NO_ALLOC =? alloc m) || (uindx m <? 1)) "mm_merpages_opmsadsc err4" ;;
          e ← get_msa fmend;
          die_if ((PAF_NO_ALLOC =? alloc e) || (uindx e <? 1)) "mm_merpages_opmsadsc err5" ;;
          die_if (negb (uindx m =? uindx e)) "mm_merpages_opmsadsc err6" ;;
          if f =? fmend then
            upd_msa f (fun x => set_uindx (uindx x - 1) x) ;;
            m' ← get_msa f;
            if 0 <? uindx m' then mret 1 else
            upd_msa f (set_alloc PAF_NO_ALLOC) ;;
            upd_msa f (set_olkty MF_OLKTY_BAFH) ;;
            upd_msa f (set_odlink (OL_BAFH bafh)) ;;
            mret 2
          else
            upd_msa f (fun x => set_uindx (uindx x - 1) x) ;;
            upd_msa fmend (fun x => set_uindx (uindx x - 1) x) ;;
            m' ← get_msa f;
            if 0 <? uindx m' then mret 1 else
            upd_msa f (set_alloc PAF_NO_ALLOC) ;;
            upd_msa fmend (set_alloc PAF_NO_ALLOC) ;;
            upd_msa f (set_olkty MF_OLKTY_ODER) ;;
            upd_msa f (set_odlink (OL_MSA fmend)) ;;
            upd_msa fmend (set_olkty MF_OLKTY_BAFH) ;;
            upd_msa fmend (set_odlink (OL_BAFH bafh)) ;;
            mret 2
      end
  | _, _ => mret 0
  end.

(** The two results are the order asked for and the order that has a free
    block, as [bafhlst_t*]; both [None] on failure. *)
Definition onmpgs_retn_bafhlst (malckp : option Z) (pages : Z) : MM (bool * option bafhp * option bafhp) :=
  match malckp with
  | None => mret (false, None, None)
  | Some mi =>
      if pages <? 1 then mret (false, None, None) else
      let dividx := retn_divoder pages in
      if (dividx <? 0) || (MDIVMER_ARR_LMAX <=? dividx) then mret (false, None, None) else
      b ← get_baf (BLie mi dividx);
      if af_oderpnr b <? pages then mret (false, None, None) else
      r ← find_first (seqZ dividx (MDIVMER_ARR_LMAX - dividx))
            (fun idx => x ← get_baf (BLie mi idx);
               mret (if (pages <=? af_oderpnr x) && (0 <? af_fobjnr x) then Some idx else None));
      match r with
      | Some idx => mret (true, Some (BLie mi dividx), Some (BLie mi idx))
      | None => mret (false, None, None)
      end
  end.

Definition onfpgs_retn_bafhlst (malckp : option Z) (freepgs : Z) : MM (bool * option bafhp * option bafhp) :=
  match malckp with
  | None => mret (false, None, None)
  | Some mi =>
      if freepgs <? 1 then mret (false, None, None) else
      let dividx := retn_divoder freepgs in
      if (dividx <? 0) || (MDIVMER_ARR_LMAX <=? dividx) then mret (false, None, None) else
      b ← get_baf (BLie mi dividx);
      die_if (ones64 <=? af_mobjnr b) "onfpgs_retn_bafhlst af_mobjnr max" ;;
      die_if (ones64 <=? af_fobjnr b) "onfpgs_retn_bafhlst af_fobjnr max" ;;
      if negb (af_oderpnr b =? freepgs) then mret (false, None, None) else
      mret (true, Some (BLie mi dividx), Some (BLie mi (MDIVMER_ARR_LMAX - 1)))
  end.

Definition mm_divipages_onbafhlst (bafhp : option bafhp) : MM (option Z) :=
  match bafhp with
  | None => mret None
  | Some bp =>
      b ← get_baf bp;
      if af_fobjnr b <? 1 then mret None else
      match af_frelst b with
      | [] => mret None
      | tmp :: _ =>
          baf_list_del bp tmp ;;
          upd_msa tmp (fun x => set_uindx (uindx x + 1) x) ;;
          upd_msa tmp (set_alloc PAF_ALLOC) ;;
          upd_baf bp (fun b => set_fobjnr (af_fobjnr b -u 1) b) ;;
          upd_baf bp (fun b => set_mobjnr (af_mobjnr b -u 1) b) ;;
          upd_baf bp (fun b => set_alcindx (af_alcindx b +u 1) b) ;;
          mret (Some tmp)
      end
  end.

Definition mm_retnmsaob_onbafhlst (bafhp : option bafhp) : MM (bool * option Z * option Z) :=
  match bafhp with
  | None => mret (false, None, None)
  | Some bp =>
      b ← get_baf bp;
      if (af_mobjnr b <? 1) || (af_fobjnr b <? 1) then mret (false, None, None) else
      match af_frelst b with
      | [] => mret (false, None, None)
      | tmp :: _ =>
          baf_list_del bp tmp ;;
          upd_baf bp (fun b => set_mobjnr (af_mobjnr b -u 1) b) ;;
          upd_baf bp (fun b => set_fobjnr (af_fobjnr b -u 1) b) ;;
          upd_baf bp (fun b => set_freindx (af_freindx b +u 1) b) ;;
          m ← get_msa tmp;
          retmend ← (if olkty m =? MF_OLKTY_BAFH then mret (Some tmp) else as_msa (md_odlink m));
          mret (true, Some tmp, retmend)
      end
  end.

Definition scan_mapgsalloc_ok (malckp : option Z) (pages : Z) : MM bool :=
  match malckp with
  | None => mret false
  | Some mi =>
      if pages <? 1 then mret false else
      a ← get_ma mi;
      mret ((pages <=? ma_freepages a) && (pages <=? ma_maxpages a))
  end.

Definition mm_maxdivpages_onmarea (malckp : Z) : MM (option Z * Z) :=
  bafhp ← onma_retn_maxbafhlst malckp;
  match bafhp with
  | None => mret (None, 0)
  | Some bp =>
      r ← mm_retnmsaob_onbafhlst (Some bp);
      match r with
      | (true, Some retmstat, Some _) =>
          b ← get_baf bp;
          retmsa ← mm_divpages_opmsadsc (Some retmstat) (af_oderpnr b);
          match retmsa with
          | None => mret (None, 0)
          | Some retmsa => b ← get_baf bp; mret (Some retmsa, af_oderpnr b)
          end
      | _ => mret (None, 0)
      end
  end.

Definition mrdmb_add_msa_bafh (bafhp : option bafhp) (msastat msaend : option Z) : MM bool :=
  match bafhp, msastat, msaend with
  | Some bp, Some st, Some en =>
      let mnr := u64 ((en - st) + 1) in
      b ← get_baf bp;
      if negb (af_oderpnr b =? mnr) then mret false else
      m ← get_msa st;
      e ← get_msa en;
      if (0 <? uindx m) || (0 <? uindx e) then mret false else
      if negb (PAF_NO_ALLOC =? alloc m) || negb (PAF_NO_ALLOC =? alloc e) then mret false else
      if (st =? en) && negb (1 =? mnr) && negb (1 =? af_oderpnr b) then mret false else
      upd_msa st (set_olkty MF_OLKTY_ODER) ;;
      upd_msa st (set_odlink (OL_MSA en)) ;;
      upd_msa en (set_olkty MF_OLKTY_BAFH) ;;
      upd_msa en (set_odlink (OL_BAFH bp)) ;;
      baf_list_add bp st ;;
      upd_baf bp (fun b => set_mobjnr (af_mobjnr b +u 1) b) ;;
      upd_baf bp (fun b => set_fobjnr (af_fobjnr b +u 1) b) ;;
      mret true
  | _, _, _ => mret false
  end.

(** Address order and arithmetic of the [bafhlst_t]s of one area:
    [dm_onemsalst] follows [dm_mdmlielst[MDIVMER_ARR_LMAX - 1]]. *)
Definition bafhp_area (b : bafhp) : Z := match b with BLie mi _ | BOne mi => mi end.
Definition bafhp_idx (b : bafhp) : Z := match b with BLie _ li => li | BOne _ => MDIVMER_ARR_LMAX end.
Definition bafhp_add (b : bafhp) (n : Z) : bafhp := BLie (bafhp_area b) (bafhp_idx b + n).

(** The splitting loop: [n] iterations from [tmpbfl] downwards; the result is
    the final [divnr]. *)
Fixpoint mm_reldpgsdivmsa_loop (n : nat) (tmpbfl : bafhp) (retmstat divnr : Z) : MM Z :=
  match n with
  | O => mret divnr
  | S n' =>
      b ← get_baf tmpbfl;
      m ← get_msa retmstat;
      en ← as_msa (md_odlink m);
      r ← mrdmb_add_msa_bafh (Some tmpbfl) (Some (retmstat + af_oderpnr b)) en;
      die_if (negb r) "mrdmb_add_msa_bafh fail" ;;
      b ← get_baf tmpbfl;
      upd_msa retmstat (set_odlink (OL_MSA (retmstat + (af_oderpnr b - 1)))) ;;
      mm_reldpgsdivmsa_loop n' (bafhp_add tmpbfl (-1)) retmstat (divnr -u af_oderpnr b)
  end.

Definition mm_reldpgsdivmsa_bafhl (malckp : option Z) (pages : Z)
    (relbfl divbfl : option bafhp) : MM (option Z * Z) :=
  match malckp, relbfl, divbfl with
  | Some _, Some relbfl, Some divbfl =>
      if pages <? 1 then mret (None, 0) else
      if bafhp_idx divbfl <? bafhp_idx relbfl then mret (None, 0) else
      if bool_decide (relbfl = divbfl) then
        r ← mm_retnmsaob_onbafhlst (Some relbfl);
        match r with
        | (true, Some retmstat, Some retmend) =>
            b ← get_baf relbfl;
            if negb (u64 ((retmend - retmstat) + 1) =? af_oderpnr b) then mret (None, 0) else
            retmsa ← mm_divpages_opmsadsc (Some retmstat) (af_oderpnr b);
            match retmsa with
            | None => mret (None, 0)
            | Some retmsa => b ← get_baf relbfl; mret (Some retmsa, af_oderpnr b)
            end
        | _ => mret (None, 0)
        end
      else
        r ← mm_retnmsaob_onbafhlst (Some divbfl);
        match r with
        | (true, Some retmstat, Some retmend) =>
            b ← get_baf divbfl;
            if negb (u64 ((retmend - retmstat) + 1) =? af_oderpnr b) then mret (None, 0) else
            divnr ← mm_reldpgsdivmsa_loop (Z.to_nat (bafhp_idx divbfl - bafhp_idx relbfl))
                      (bafhp_add divbfl (-1)) retmstat (af_oderpnr b);
            retmsa ← mm_divpages_opmsadsc (Some retmstat) divnr;
            match retmsa with
            | None => mret (None, 0)
            | Some retmsa => b ← get_baf relbfl; mret (Some retmsa, af_oderpnr b)
            end
        | _ => mret (None, 0)
        end
  | _, _, _ => mret (None, 0)
  end.

Definition mm_reldivpages_onmarea (malckp : option Z) (pages : Z) : MM (option Z * Z) :=
  match malckp with
  | None => mret (None, 0)
  | Some _ =>
      if pages <? 1 then mret (None, 0) else
      ok ← scan_mapgsalloc_ok malckp pages;
      if negb ok then mret (None, 0) else
      r ← onmpgs_retn_bafhlst malckp pages;
      match r with
      | (true, retrelbhl, retdivbhl) =>
          x ← mm_reldpgsdivmsa_bafhl malckp pages retrelbhl retdivbhl;
          match x with
          | (None, _) => mret (None, 0)
          | (Some retmsa, retpnr) => mret (Some retmsa, retpnr)
          end
      | (false, _, _) => mret (None, 0)
      end
  end.

Definition mm_prcdivpages_onmarea (malckp : option Z) (pages : Z) : MM (option Z * Z) :=
  match malckp with
  | None => mret (None, 0)
  | Some mi =>
      if negb (1 =? pages) then mret (None, 0) else
      a ← get_ma mi;
      if negb (MA_TYPE_PROC =? ma_type a) then mret (None, 0) else
      ok ← scan_mapgsalloc_ok malckp pages;
      if negb ok then mret (None, 0) else
      let prcbfh := BOne mi in
      r ← mm_retnmsaob_onbafhlst (Some prcbfh);
      match r with
      | (true, Some retmstat, Some retmend) =>
          b ← get_baf prcbfh;
          if negb (u64 ((retmend - retmstat) + 1) =? af_oderpnr b) then mret (None, 0) else
          retmsa ← mm_divpages_opmsadsc (Some retmstat) (af_oderpnr b);
          match retmsa with
          | None => mret (None, 0)
          | Some retmsa => b ← get_baf prcbfh; mret (Some retmsa, af_oderpnr b)
          end
      | _ => mret (None, 0)
      end
  end.

Definition mm_divpages_core (mareap pages flgs : Z) : MM (option Z * Z) :=
  if negb (flgs =? DMF_RELDIV) && negb (flgs =? DMF_MAXDIV) then mret (None, 0) else
  a ← get_ma mareap;
  if negb (ma_type a =? MA_TYPE_KRNL) && negb (ma_type a =? MA_TYPE_HWAD) then mret (None, 0) else
  r ← (if flgs =? DMF_MAXDIV then mm_maxdivpages_onmarea mareap
       else if flgs =? DMF_RELDIV then mm_reldivpages_onmarea (Some mareap) pages
       else mret (None, 0));
  let '(retmsa, retpnr) := r in
  (if bool_decide (retmsa <> None) && negb (retpnr =? 0) then
     mm_update_memarea (Some mareap) retpnr 0 ;;
     mm_update_memmgrob retpnr 0
   else mret tt) ;;
  mret (retmsa, retpnr).

Definition mm_divpages_fmwk (pages mrtype flgs : Z) : MM (option Z * Z) :=
  marea ← onmrtype_retn_marea mrtype;
  match marea with
  | None => mret (None, 0)
  | Some marea =>
      r ← mm_divpages_core marea pages flgs;
      match r with
      | (None, _) => mret (None, 0)
      | (Some retmsa, retpnr) => mret (Some retmsa, retpnr)
      end
  end.

Definition mm_division_pages (pages mrtype flgs : Z) : MM (option Z * Z) :=
  if mrtype =? 0 then mret (None, 0) else
  r ← mm_divpages_fmwk pages mrtype flgs;
  match r with
  | (None, _) => mret (None, 0)
  | (Some retmsa, retpnr) => mret (Some retmsa, retpnr)
  end.

Definition retn_procmarea : MM (option Z) :=
  find_marea (fun a => MA_TYPE_PROC =? ma_type a).

Definition divpages_procmarea_core (pages : Z) : MM (option Z * Z) :=
  if negb (1 =? pages) then mret (None, 0) else
  marp ← retn_procmarea;
  match marp with
  | None => mret (None, 0)
  | Some marp =>
      ok ← scan_mapgsalloc_ok (Some marp) pages;
      if negb ok then mret (None, 0) else
      r ← mm_prcdivpages_onmarea (Some marp) pages;
      let '(retmsa, retpnr) := r in
      if bool_decide (retmsa <> None) && negb (retpnr =? 0) then
        mm_update_memarea (Some marp) retpnr 0 ;;
        mm_update_memmgrob retpnr 0 ;;
        mret (retmsa, retpnr)
      else mret (None, 0)
  end.

Definition mm_divpages_procmarea (pages : Z) : MM (option Z * Z) :=
  if negb (1 =? pages) then mret (None, 0) else
  r ← divpages_procmarea_core pages;
  match r with
  | (Some retmsa, retpnr) => mret (Some retmsa, retpnr)
  | (None, _) =>
      r ← mm_division_pages pages MA_TYPE_KRNL DMF_RELDIV;
      match r with
      | (None, _) => mret (None, 0)
      | (Some retmsa, retpnr) => mret (Some retmsa, retpnr)
      end
  end.

Definition scan_freemsa_isok (freemsa : option Z) (freepgs : Z) : MM bool :=
  match freemsa with
  | None => mret false
  | Some f =>
      if freepgs <? 1 then mret false else
      m ← get_msa f;
      if negb (olkty m =? MF_OLKTY_ODER) || bool_decide (md_odlink m = OL_NULL) || (uindx m <? 1)
      then mret false else
      en ← as_msa (md_odlink m);
      match en with
      | None => mret false
      | Some en =>
          e ← get_msa en;
          if negb (alloc m =? PAF_ALLOC) || negb (alloc e =? PAF_ALLOC) || (uindx e <? 1)
          then mret false else
          mret (u64 ((en - f) + 1) =? freepgs)
      end
  end.

Definition mm_cmsa1blk_isok (bafh : option bafhp) (_1ms _1me : option Z) : MM Z :=
  match bafh, _1ms, _1me with
  | Some bafh, Some ms, Some me =>
      if me <? ms then mret 0 else
      if ms =? me then
        e ← get_msa me;
        if negb (MF_OLKTY_BAFH =? olkty e) then mret 0 else
        if bool_decide (md_odlink e <> OL_BAFH bafh) then mret 0 else
        if negb (PAF_NO_ALLOC =? alloc e) then mret 0 else
        if negb (0 =? uindx e) then mret 0 else
        s ← get_msa ms;
        if negb (padrs e -u padrs s =? u64 (me - ms)) then mret 0 else
        mret 2
      else
        s ← get_msa ms;
        if negb (MF_OLKTY_ODER =? olkty s) then mret 0 else
        if bool_decide (md_odlink s <> OL_MSA me) then mret 0 else
        if negb (PAF_NO_ALLOC =? alloc s) then mret 0 else
        if negb (0 =? uindx s) then mret 0 else
        e ← get_msa me;
        if negb (MF_OLKTY_BAFH =? olkty e) then mret 0 else
        if bool_decide (md_odlink e <> OL_BAFH bafh) then mret 0 else
        if negb (PAF_NO_ALLOC =? alloc e) then mret 0 else
        if negb (0 =? uindx e) then mret 0 else
        if negb (padrs e -u padrs s =? u64 (me - ms)) then mret 0 else
        mret 2
  | _, _, _ => mret 0
  end.

Definition mm_cmsa2blk_isok (bafh : option bafhp) (_1ms _1me _2ms _2me : option Z) : MM Z :=
  match bafh, _1ms, _1me, _2ms, _2me with
  | Some bafh, Some s1, Some e1, Some s2, Some e2 =>
      if (s1 =? s2) || (e1 =? e2) then mret 0 else
      ret1s ← mm_cmsa1blk_isok (Some bafh) (Some s1) (Some e1);
      die_if (0 =? ret1s) "mm_cmsa1blk_isok ret1s == 0" ;;
      ret2s ← mm_cmsa1blk_isok (Some bafh) (Some s2) (Some e2);
      die_if (0 =? ret2s) "mm_cmsa1blk_isok ret2s == 0" ;;
      if (2 =? ret1s) && (2 =? ret2s) then
        if (s1 <? s2) && (e1 <? e2) then
          if negb (e1 + 1 =? s2) then mret 1 else
          me1 ← get_msa e1;
          ms2 ← get_msa s2;
          if negb (padrs me1 +u 1 =? padrs ms2) then mret 1 else mret 2
        else if (s2 <? s1) && (e2 <? e1) then
          if negb (e2 + 1 =? s1) then mret 1 else
          me2 ← get_msa e2;
          ms1 ← get_msa s1;
          if negb (padrs me2 +u 1 =? padrs ms1) then mret 1 else mret 4
        else mret 0
      else mret 0
  | _, _, _, _, _ => mret 0
  end.

Definition chek_cl2molkflg (bafh : option bafhp) (_1ms _1me _2ms _2me : option Z) : MM bool :=
  match bafh, _1ms, _1me, _2ms, _2me with
  | Some bafh, Some s1, Some e1, Some s2, Some e2 =>
      if (s1 =? s2) || (e1 =? e2) then mret false else
      b ← get_baf bafh;
      if negb (u64 (e2 - s1) +u 1 =? af_oderpnr b) then mret false else
      ms1 ← get_msa s1;
      me1 ← get_msa e1;
      ms2 ← get_msa s2;
      me2 ← get_msa e2;
      if (s1 =? e1) && (s2 =? e2) then
        if negb (MF_OLKTY_ODER =? olkty ms1) || bool_decide (md_odlink ms1 <> OL_MSA e2) then mret false else
        if negb (MF_OLKTY_BAFH =? olkty me2) || bool_decide (md_odlink me2 <> OL_BAFH bafh) then mret false else
        mret true
      else
        if negb (MF_OLKTY_ODER =? olkty ms1) || bool_decide (md_odlink ms1 <> OL_MSA e2) then mret false else
        if negb (MF_OLKTY_INIT =? olkty me1) || bool_decide (md_odlink me1 <> OL_NULL) then mret false else
        if negb (MF_OLKTY_INIT =? olkty ms2) || bool_decide (md_odlink ms2 <> OL_NULL) then mret false else
        if negb (MF_OLKTY_BAFH =? olkty me2) || bool_decide (md_odlink me2 <> OL_BAFH bafh) then mret false else
        mret true
  | _, _, _, _, _ => mret false
  end.

Definition mm_clear_2msaolflg (bafh : option bafhp) (_1ms _1me _2ms _2me : option Z) : MM bool :=
  match bafh, _1ms, _1me, _2ms, _2me with
  | Some bafh, Some s1, Some e1, Some s2, Some e2 =>
      if (s1 =? s2) || (e1 =? e2) then mret false else
      upd_msa e1 (set_olkty MF_OLKTY_INIT) ;;
      upd_msa e1 (set_odlink OL_NULL) ;;
      upd_msa s2 (set_olkty MF_OLKTY_INIT) ;;
      upd_msa s2 (set_odlink OL_NULL) ;;
      upd_msa s1 (set_olkty MF_OLKTY_ODER) ;;
      upd_msa s1 (set_odlink (OL_MSA e2)) ;;
      upd_msa e2 (set_olkty MF_OLKTY_BAFH) ;;
      upd_msa e2 (set_odlink (OL_BAFH bafh)) ;;
      mret true
  | _, _, _, _, _ => mret false
  end.

(** The [list_for_each] of [mm_find_cmsa2blk]: the last [rets], and the block
    that was unlinked when it is 2 or 4. *)
Fixpoint find_cmsa2blk_scan (fbafh : bafhp) (freemstat freemend : Z) (l : list Z) (rets : Z) : MM (Z * option Z) :=
  match l with
  | [] => mret (rets, None)
  | tmpmsa :: l' =>
      b ← get_baf fbafh;
      rets ← mm_cmsa2blk_isok (Some fbafh) (Some freemstat) (Some freemend)
               (Some tmpmsa) (Some (tmpmsa + (af_oderpnr b - 1)));
      if (2 =? rets) || (4 =? rets) then
        baf_list_del fbafh tmpmsa ;;
        upd_baf fbafh (fun b => set_fobjnr (af_fobjnr b -u 1) b) ;;
        upd_baf fbafh (fun b => set_mobjnr (af_mobjnr b -u 1) b) ;;
        mret (rets, Some tmpmsa)
      else find_cmsa2blk_scan fbafh freemstat freemend l' rets
  end.

(** The result is the C result and the new values of [*rfnms], [*rfnme]. *)
Definition mm_find_cmsa2blk (fbafh : bafhp) (rfnms rfnme : Z) : MM (Z * Z * Z) :=
  let freemstat := rfnms in
  let freemend := rfnme in
  b ← get_baf fbafh;
  if af_fobjnr b <? 1 then mret (1, rfnms, rfnme) else
  r ← find_cmsa2blk_scan fbafh freemstat freemend (af_frelst b) 0;
  match r with
  | (rets, blk) =>
      if (0 =? rets) || (1 =? rets) then mret (1, rfnms, rfnme) else
      match blk with
      | None => mret (0, rfnms, rfnme)
      | Some blkms =>
          b ← get_baf fbafh;
          let blkme := blkms + (af_oderpnr b - 1) in
          if 2 =? rets then
            ok ← mm_clear_2msaolflg (Some (bafhp_add fbafh 1)) (Some freemstat) (Some freemend) (Some blkms) (Some blkme);
            if (ok : bool) then
              ck ← chek_cl2molkflg (Some (bafhp_add fbafh 1)) (Some freemstat) (Some freemend) (Some blkms) (Some blkme);
              die_if (negb ck) "chek_cl2molkflg err1" ;;
              mret (2, freemstat, blkme)
            else mret (0, rfnms, rfnme)
          else if 4 =? rets then
            ok ← mm_clear_2msaolflg (Some (bafhp_add fbafh 1)) (Some blkms) (Some blkme) (Some freemstat) (Some freemend);
            if (ok : bool) then
              ck ← chek_cl2molkflg (Some (bafhp_add fbafh 1)) (Some blkms) (Some blkme) (Some freemstat) (Some freemend);
              die_if (negb ck) "chek_cl2molkflg err2" ;;
              mret (2, blkms, freemend)
            else mret (0, rfnms, rfnme)
          else mret (0, rfnms, rfnme)
      end
  end.

Definition mpobf_add_msadsc (bafhp : option bafhp) (freemstat freemend : option Z) : MM bool :=
  match bafhp, freemstat, freemend with
  | Some bp, Some st, Some en =>
      if en <? st then mret false else
      b ← get_baf bp;
      if negb (af_oderpnr b =? u64 (en - st) +u 1) then mret false else
      die_if ((ones64 <=? af_fobjnr b) || (ones64 <=? af_mobjnr b)) "(~0UL)<=bafhp->af_fobjnr" ;;
      upd_msa st (set_olkty MF_OLKTY_ODER) ;;
      upd_msa st (set_odlink (OL_MSA en)) ;;
      upd_msa en (set_olkty MF_OLKTY_BAFH) ;;
      upd_msa en (set_odlink (OL_BAFH bp)) ;;
      baf_list_add bp st ;;
      upd_baf bp (fun b => set_fobjnr (af_fobjnr b +u 1) b) ;;
      upd_baf bp (fun b => set_mobjnr (af_mobjnr b +u 1) b) ;;
      mret true
  | _, _, _ => mret false
  end.

(** The merging loop: [n] orders are left below [merbf]; the result is the
    final [tmpbf], [mnxs], [mnxe]. *)
Fixpoint mm_merpages_loop (n : nat) (tmpbf : bafhp) (mnxs mnxe : Z) : MM (bafhp * Z * Z) :=
  match n with
  | O => mret (tmpbf, mnxs, mnxe)
  | S n' =>
      r ← mm_find_cmsa2blk tmpbf mnxs mnxe;
      let '(rets, mnxs, mnxe) := r in
      if rets =? 1 then mret (tmpbf, mnxs, mnxe) else
      die_if (rets =? 0) "mm_find_cmsa2blk retn 0" ;;
      mm_merpages_loop n' (bafhp_add tmpbf 1) mnxs mnxe
  end.

Definition mm_merpages_onbafhlst (freemsa freepgs : Z) (relbf merbf : bafhp) : MM bool :=
  r ← mm_merpages_loop (Z.to_nat (bafhp_idx merbf - bafhp_idx relbf)) relbf
        freemsa (freemsa + (freepgs - 1));
  let '(tmpbf, mnxs, mnxe) := r in
  mpobf_add_msadsc (Some tmpbf) (Some mnxs) (Some mnxe).

Definition mm_merpages_onmarea (malckp freemsa : option Z) (freepgs : Z) : MM bool :=
  match malckp, freemsa with
  | Some mi, Some f =>
      if freepgs <? 1 then mret false else
      a ← get_ma mi;
      if ma_type a =? MA_TYPE_PROC then
        let prcbf := BOne mi in
        pocs ← mm_merpages_opmsadsc (Some prcbf) freemsa freepgs;
        if pocs =? 2 then
          ok ← mpobf_add_msadsc (Some prcbf) (Some f) (Some (f + (freepgs - 1)));
          die_if (negb ok) "mm_merpages_onmarea proc memarea merge fail" ;;
          mm_update_memarea malckp freepgs 1 ;;
          mm_update_memmgrob freepgs 1 ;;
          mret true
        else if pocs =? 1 then mret true
        else mret false
      else
        r ← onfpgs_retn_bafhlst malckp freepgs;
        match r with
        | (true, Some retrelbf, Some retmerbf) =>
            mopms ← mm_merpages_opmsadsc (Some retrelbf) freemsa freepgs;
            if mopms =? 2 then
              rets ← mm_merpages_onbafhlst f freepgs retrelbf retmerbf;
              if (rets : bool) then
                mm_update_memarea malckp freepgs 1 ;;
                mm_update_memmgrob freepgs 1 ;;
                mret rets
              else mret false
            else if mopms =? 1 then mret true
            else mret false
        | _ => mret false
        end
  | _, _ => mret false
  end.

Definition mm_merpages_core (marea freemsa : option Z) (freepgs : Z) : MM bool :=
  match marea, freemsa with
  | Some _, Some _ =>
      if freepgs <? 1 then mret false else
      ok ← scan_freemsa_isok freemsa freepgs;
      if negb ok then mret false else
      mm_merpages_onmarea marea freemsa freepgs
  | _, _ => mret false
  end.

Definition mm_merpages_fmwk (freemsa freepgs : Z) : MM bool :=
  marea ← onfrmsa_retn_marea freemsa freepgs;
  match marea with
  | None => mret false
  | Some _ => mm_merpages_core marea (Some freemsa) freepgs
  end.

Definition mm_merge_pages (freemsa : option Z) (freepgs : Z) : MM bool :=
  match freemsa with
  | None => mret false
  | Some f => if freepgs <? 1 then mret false else mm_merpages_fmwk f freepgs
  end.

#[global] Arguments mm_update_memmgrob : simpl never.
#[global] Arguments mm_update_memarea : simpl never.
#[global] Arguments mm_divpages_opmsadsc : simpl never.
#[global] Arguments mm_merpages_opmsadsc : simpl never.
#[global] Arguments onmpgs_retn_bafhlst : simpl never.
#[global] Arguments onfpgs_retn_bafhlst : simpl never.
#[global] Arguments mm_retnmsaob_onbafhlst : simpl never.
#[global] Arguments scan_mapgsalloc_ok : simpl never.
#[global] Arguments mrdmb_add_msa_bafh : simpl never.
#[global] Arguments mm_reldpgsdivmsa_bafhl : simpl never.
#[global] Arguments mm_reldivpages_onmarea : simpl never.
#[global] Arguments mm_prcdivpages_onmarea : simpl never.
#[global] Arguments scan_freemsa_isok : simpl never.
#[global] Arguments mm_cmsa1blk_isok : simpl never.
#[global] Arguments mm_cmsa2blk_isok : simpl never.
#[global] Arguments chek_cl2molkflg : simpl never.
#[global] Arguments mm_clear_2msaolflg : simpl never.
#[global] Arguments mpobf_add_msadsc : simpl never.
#[global] Arguments mm_merpages_onmarea : simpl never.
#[global] Arguments mm_merpages_core : simpl never.
