(* ===== verification/DivMerInv.v ===== *)
(** * Page allocator: invariant

    The well-formedness of the allocator's structures, stated over the state
    and a ghost map of the blocks that are not on a free list: allocated
    blocks, and blocks "in limbo" while an operation has taken them off a
    list and not yet put them elsewhere.  Every block -- free, allocated or
    in limbo -- is an interval of descriptors, and the invariant says that
    the intervals are pairwise disjoint and that the descriptors of each
    have the shape its status demands.  The elementary steps of the allocator
    (unlink, link, split, join, mark) are shown to preserve it through one
    lemma, [inv_replace], which replaces the blocks of a region. *)

From S2P Require Import Prelude PhyMem DivMer.

(** ** Blocks *)

(** Pages per block of a [bafhlst_t]. *)
Definition bsize (b : bafhp) : Z := match b with BLie _ k => 2 ^ k | BOne _ => 1 end.

Definition valid_bafhp (s : mmst) (b : bafhp) : Prop :=
  is_Some (mareas s !! bafhp_area b) /\
  match b with BLie _ k => 0 <= k < MDIVMER_ARR_LMAX | BOne _ => True end.

Inductive gkind := GAlloc | GLimbo.
Record gblk := GBlk { g_kind : gkind; g_area : Z; g_len : Z }.
Abbreviation ghost := (gmap Z gblk).

(** The status of a block. *)
Inductive tag := TFree (b : bafhp) | TGhost (g : gblk).

#[global] Instance gkind_eq_dec : EqDecision gkind.
Proof. solve_decision. Defined.
#[global] Instance gblk_eq_dec : EqDecision gblk.
Proof. solve_decision. Defined.
#[global] Instance tag_eq_dec : EqDecision tag.
Proof. solve_decision. Defined.

Definition tsize (t : tag) : Z :=
  match t with TFree b => bsize b | TGhost g => g_len g end.

(** The block that starts at descriptor [i] has status [t]. *)
Definition has (s : mmst) (G : ghost) (i : Z) (t : tag) : Prop :=
  match t with
  | TFree b => exists bf, bafs s !! b = Some bf /\ i ∈ af_frelst bf
  | TGhost g => G !! i = Some g
  end.

(** ** Shape of a block *)

Definition idle (m : msadsc_t) : Prop := uindx m = 0 /\ alloc m = PAF_NO_ALLOC.
Definition busy (m : msadsc_t) : Prop := uindx m = 1 /\ alloc m = PAF_ALLOC.

(** Descriptors [i .. i+n-1] exist, belong to area type [ty], and describe
    consecutive page frames. *)
Definition pagerun (g : gmap Z msadsc_t) (ty i n : Z) : Prop :=
  0 < n /\ exists p, forall j, i <= j < i + n ->
    exists m, g !! j = Some m /\ marty m = ty /\ padrs m = p + (j - i).

Definition allpages (g : gmap Z msadsc_t) (i n : Z) (P : msadsc_t -> Prop) : Prop :=
  forall j, i <= j < i + n -> forall m, g !! j = Some m -> P m.

(** The links of a free block: the first descriptor points to the last, the
    last to the list's head; a block of one page only has the latter. *)
Definition free_links (g : gmap Z msadsc_t) (b : bafhp) (i n : Z) : Prop :=
  exists ms me, g !! i = Some ms /\ g !! (i + n - 1) = Some me /\
    olkty me = MF_OLKTY_BAFH /\ md_odlink me = OL_BAFH b /\
    (1 < n -> olkty ms = MF_OLKTY_ODER /\ md_odlink ms = OL_MSA (i + n - 1)).

(** An allocated block: its two ends are marked in use, its first
    descriptor points to its last. *)
Definition alloc_marks (g : gmap Z msadsc_t) (i n : Z) : Prop :=
  exists ms me, g !! i = Some ms /\ g !! (i + n - 1) = Some me /\
    busy ms /\ busy me /\ olkty ms = MF_OLKTY_ODER /\ md_odlink ms = OL_MSA (i + n - 1) /\
    allpages g (i + 1) (n - 2) idle.

Definition area_type (s : mmst) (mi ty : Z) : Prop :=
  exists a, mareas s !! mi = Some a /\ ma_type a = ty.

(** The sizes of allocated blocks: single pages in the process area,
    powers of two in the others. *)
Definition alloc_len (ty n : Z) : Prop :=
  if ty =? MA_TYPE_PROC then n = 1 else exists k, 0 <= k < MDIVMER_ARR_LMAX /\ n = 2 ^ k.

Definition tag_ok (s : mmst) (i : Z) (t : tag) : Prop :=
  match t with
  | TFree b =>
      exists ty, area_type s (bafhp_area b) ty /\
        pagerun (msas s) ty i (bsize b) /\ allpages (msas s) i (bsize b) idle /\
        free_links (msas s) b i (bsize b)
  | TGhost (GBlk GAlloc mi n) =>
      exists ty, area_type s mi ty /\ alloc_len ty n /\
        pagerun (msas s) ty i n /\ alloc_marks (msas s) i n
  | TGhost (GBlk GLimbo mi n) =>
      exists ty, area_type s mi ty /\ pagerun (msas s) ty i n /\ allpages (msas s) i n idle
  end.

(** ** Free lists *)

Definition baf_ok (b : bafhp) (bf : bafhlst_t) : Prop :=
  af_oderpnr bf = bsize b /\
  af_fobjnr bf = Z.of_nat (length (af_frelst bf)) /\
  af_mobjnr bf = Z.of_nat (length (af_frelst bf)) /\
  NoDup (af_frelst bf) /\
  af_stus bf = match b with BLie _ _ => BAFH_STUS_DIVM | BOne _ => BAFH_STUS_ONEM end.

(** ** The invariant *)

Record Inv (s : mmst) (G : ghost) : Prop := {
  inv_padrs i m : msas s !! i = Some m -> 0 <= padrs m < 2 ^ 52;
  inv_size : Z.of_nat (size (msas s)) <= 2 ^ 52;
  inv_nr mi : is_Some (mareas s !! mi) <-> 0 <= mi < mo_mareanr s;
  inv_types mi mj ty : area_type s mi ty -> area_type s mj ty -> mi = mj;
  inv_dom b : is_Some (bafs s !! b) <-> valid_bafhp s b;
  inv_baf b bf : bafs s !! b = Some bf -> baf_ok b bf;
  inv_has i t : has s G i t -> tag_ok s i t;
  inv_disj i t j u : has s G i t -> has s G j u ->
    (i = j /\ t = u) \/ i + tsize t <= j \/ j + tsize u <= i
}.

(** No operation is in progress. *)
Definition settled (G : ghost) : Prop := forall i g, G !! i = Some g -> g_kind g = GAlloc.

(** ** Basic facts *)

Lemma bsize_pos s b : valid_bafhp s b -> 0 < bsize b.
Proof. intros [_ H]. destruct b; simpl in *; [apply pow2_pos; lia | lia]. Qed.

Lemma area_type_frame s s' mi ty : mareas s' = mareas s -> area_type s' mi ty <-> area_type s mi ty.
Proof. intros H. unfold area_type. by rewrite H. Qed.

Lemma area_type_fun s mi ty ty' : area_type s mi ty -> area_type s mi ty' -> ty = ty'.
Proof. intros (a & H & <-) (a' & H' & <-). congruence. Qed.

Lemma pagerun_lookup g ty i n j :
  pagerun g ty i n -> i <= j < i + n -> exists m, g !! j = Some m /\ marty m = ty.
Proof. intros (_ & p & H) Hj. destruct (H j Hj) as (m & ? & ? & ?). eauto. Qed.

Lemma pagerun_padrs g ty i n j m k m' :
  pagerun g ty i n -> i <= j < i + n -> i <= k < i + n ->
  g !! j = Some m -> g !! k = Some m' -> padrs m' - padrs m = k - j.
Proof.
  intros (_ & p & H) Hj Hk Em Em'.
  destruct (H j Hj) as (x & ? & ? & ?), (H k Hk) as (y & ? & ? & ?).
  simplify_eq. lia.
Qed.

Lemma pagerun_sub g ty i n j l :
  pagerun g ty i n -> i <= j -> 0 < l -> j + l <= i + n -> pagerun g ty j l.
Proof.
  intros (Hn & p & H) Hj Hl Hle. split; [done|]. exists (p + (j - i)). intros k Hk.
  destruct (H k ltac:(lia)) as (m & ? & ? & ?). exists m. repeat split; auto. lia.
Qed.

Lemma pagerun_join g ty i n l m m' :
  pagerun g ty i n -> pagerun g ty (i + n) l ->
  g !! (i + n - 1) = Some m -> g !! (i + n) = Some m' -> padrs m' = padrs m + 1 ->
  pagerun g ty i (n + l).
Proof.
  intros (Hn & p & H) (Hl & q & H') Em Em' Hp.
  destruct (H (i + n - 1) ltac:(lia)) as (x & ? & ? & ?).
  destruct (H' (i + n) ltac:(lia)) as (y & ? & ? & ?). simplify_eq.
  split; [lia|]. exists p. intros j Hj.
  destruct (decide (j < i + n)).
  - apply H; lia.
  - destruct (H' j ltac:(lia)) as (z & ? & ? & ?). exists z. repeat split; auto. lia.
Qed.

Lemma pagerun_frame g g' ty i n :
  (forall j m, g !! j = Some m -> exists m', g' !! j = Some m' /\ marty m' = marty m /\ padrs m' = padrs m) ->
  pagerun g ty i n -> pagerun g' ty i n.
Proof.
  intros Hf (Hn & p & H). split; [done|]. exists p. intros j Hj.
  destruct (H j Hj) as (x & Hx & ? & ?). destruct (Hf j x Hx) as (m' & ? & ? & ?).
  exists m'. repeat split; auto; congruence.
Qed.

(** Shapes only depend on the descriptors of the block. *)
Lemma tag_ok_frame s s' i t :
  mareas s' = mareas s ->
  (forall j, i <= j < i + tsize t -> msas s' !! j = msas s !! j) ->
  tag_ok s i t -> tag_ok s' i t.
Proof.
  intros Ha Hg.
  assert (Hpr : forall ty n, n = tsize t -> pagerun (msas s) ty i n -> pagerun (msas s') ty i n).
  { intros ty n -> (Hn & p & H). split; [done|]. exists p. intros j Hj.
    rewrite Hg by lia. apply H; lia. }
  assert (Hall : forall j n P, i <= j -> j + n <= i + tsize t ->
             allpages (msas s) j n P -> allpages (msas s') j n P).
  { intros j n P H1 H2 H k Hk m. rewrite Hg by lia. apply H; lia. }
  destruct t as [b|[[|] mi n]]; simpl in *.
  - intros (ty & H1 & H2 & H3 & ms & me & H4 & H5 & H6).
    exists ty. rewrite area_type_frame by done. split_and!; auto.
    + apply Hall; auto; lia.
    + destruct H2 as [? _]. exists ms, me. rewrite !Hg by lia. done.
  - intros (ty & H1 & H2 & H3 & ms & me & H4 & H5 & H6 & H7 & H8 & H9 & H10).
    exists ty. rewrite area_type_frame by done. split_and!; auto.
    destruct H3 as [? _].
    exists ms, me. rewrite !Hg by lia. split_and!; auto. apply Hall; auto; lia.
  - intros (ty & H1 & H2 & H3).
    exists ty. rewrite area_type_frame by done. split_and!; auto. apply Hall; auto; lia.
Qed.

Lemma has_size_pos s G i t : Inv s G -> has s G i t -> 0 < tsize t.
Proof.
  intros HI H. apply (inv_has _ _ HI) in H.
  destruct t as [b|[[|] mi n]]; simpl in *; destruct H as (? & ? & H); [| destruct H as [_ H] |];
    destruct H as [[? _] _]; done.
Qed.

(** A descriptor lies in at most one block. *)
Lemma has_unique s G i t j u k :
  Inv s G -> has s G i t -> has s G j u ->
  i <= k < i + tsize t -> j <= k < j + tsize u -> i = j /\ t = u.
Proof. intros HI Hi Hj ? ?. destruct (inv_disj _ _ HI _ _ _ _ Hi Hj) as [?|[?|?]]; [done|lia|lia]. Qed.

(** ** Replacing the blocks of a region *)

Lemma inv_replace s G s' G' lo hi :
  Inv s G ->
  mareas s' = mareas s -> mo_mareanr s' = mo_mareanr s ->
  size (msas s') = size (msas s) ->
  (forall i m, msas s' !! i = Some m -> 0 <= padrs m < 2 ^ 52) ->
  (forall j, ~ (lo <= j < hi) -> msas s' !! j = msas s !! j) ->
  (forall b, is_Some (bafs s' !! b) <-> is_Some (bafs s !! b)) ->
  (forall b bf, bafs s' !! b = Some bf -> baf_ok b bf) ->
  (forall i t, has s' G' i t ->
     (has s G i t /\ (i + tsize t <= lo \/ hi <= i)) \/
     (lo <= i /\ i + tsize t <= hi /\ tag_ok s' i t)) ->
  (forall i t j u, has s' G' i t -> has s' G' j u ->
     lo <= i -> i + tsize t <= hi -> lo <= j -> j + tsize u <= hi ->
     (i = j /\ t = u) \/ i + tsize t <= j \/ j + tsize u <= i) ->
  Inv s' G'.
Proof.
  intros HI Ha Hnr Hsz Hp Hg Hdom Hbaf Hnew Hdisj. split.
  - done.
  - rewrite Hsz. apply (inv_size _ _ HI).
  - intros mi. rewrite Ha, Hnr. apply (inv_nr _ _ HI).
  - intros mi mj ty. rewrite !(area_type_frame s s') by done. apply (inv_types _ _ HI).
  - intros b. rewrite Hdom, (inv_dom _ _ HI). unfold valid_bafhp. by rewrite Ha.
  - done.
  - intros i t Ht. destruct (Hnew i t Ht) as [[Hold Hout]|(_ & _ & ?)]; [|done].
    apply (tag_ok_frame s); [done| |by apply (inv_has _ _ HI)].
    intros j Hj. apply Hg. lia.
  - intros i t j u Ht Hu.
    destruct (Hnew i t Ht) as [[Hi Hio]|(Hi1 & Hi2 & _)], (Hnew j u Hu) as [[Hj Hjo]|(Hj1 & Hj2 & _)].
    + by apply (inv_disj _ _ HI).
    + pose proof (has_size_pos _ _ _ _ HI Hi). lia.
    + pose proof (has_size_pos _ _ _ _ HI Hj). lia.
    + by apply Hdisj.
Qed.

(** The same, the blocks being given by what is removed and what is added. *)
Lemma inv_subst s G s' G' lo hi (old new : list (Z * tag)) :
  Inv s G ->
  mareas s' = mareas s -> mo_mareanr s' = mo_mareanr s ->
  size (msas s') = size (msas s) ->
  (forall i m, msas s' !! i = Some m -> 0 <= padrs m < 2 ^ 52) ->
  (forall j, ~ (lo <= j < hi) -> msas s' !! j = msas s !! j) ->
  (forall b, is_Some (bafs s' !! b) <-> is_Some (bafs s !! b)) ->
  (forall b bf, bafs s' !! b = Some bf -> baf_ok b bf) ->
  (forall j u, has s G j u -> (j, u) ∉ old -> j + tsize u <= lo \/ hi <= j) ->
  (forall j u, has s' G' j u -> (has s G j u /\ (j, u) ∉ old) \/ (j, u) ∈ new) ->
  (forall j u, (j, u) ∈ new -> lo <= j /\ j + tsize u <= hi /\ tag_ok s' j u) ->
  (forall i t j u, (i, t) ∈ new -> (j, u) ∈ new ->
     (i = j /\ t = u) \/ i + tsize t <= j \/ j + tsize u <= i) ->
  Inv s' G'.
Proof.
  intros HI Ha Hnr Hsz Hp Hg Hdom Hbaf Hold Hnew Hok Hdisj.
  apply (inv_replace s G s' G' lo hi); auto.
  - intros i t Ht. destruct (Hnew i t Ht) as [[? ?]|Hin]; [left|right]; auto.
  - intros i t j u Hi Hj ? ? ? ?.
    destruct (Hnew i t Hi) as [[Hi1 Hi2]|Hi1], (Hnew j u Hj) as [[Hj1 Hj2]|Hj1]; auto.
    + by apply (inv_disj _ _ HI).
    + pose proof (has_size_pos _ _ _ _ HI Hi1). specialize (Hold _ _ Hi1 Hi2). lia.
    + pose proof (has_size_pos _ _ _ _ HI Hj1). specialize (Hold _ _ Hj1 Hj2). lia.
Qed.

(** ** Elementary steps *)

Section steps.
Context (s : mmst) (G : ghost) (HI : Inv s G).

Lemma inv_valid b bf : bafs s !! b = Some bf -> valid_bafhp s b.
Proof using HI. intros H. apply (inv_dom _ _ HI). by eexists. Qed.

Lemma has_ghost i g : G !! i = Some g -> has s G i (TGhost g).
Proof. done. Qed.

Lemma has_other i t j u :
  has s G i t -> has s G j u -> (j, u) ∉ [(i, t)] -> j + tsize u <= i \/ i + tsize t <= j.
Proof using HI.
  intros H1 H2 Hne. destruct (inv_disj _ _ HI _ _ _ _ H1 H2) as [[-> ->]|[?|?]]; [set_solver|lia|lia].
Qed.

Lemma has_other2 i t k v j u :
  has s G i t -> has s G k v -> k = i + tsize t -> has s G j u -> (j, u) ∉ [(i, t); (k, v)] ->
  j + tsize u <= i \/ k + tsize v <= j.
Proof using HI.
  intros H1 H2 -> H3 Hne.
  destruct (has_other i t j u) as [?|?]; [done|done|set_solver|lia|].
  destruct (has_other (i + tsize t) v j u) as [?|?]; [done|done|set_solver| |lia].
  pose proof (has_size_pos _ _ _ _ HI H3). lia.
Qed.

(** Free blocks and ghost blocks start at different descriptors. *)
Lemma free_not_ghost i b : has s G i (TFree b) -> G !! i = None.
Proof using HI.
  intros Hh. destruct (G !! i) as [g|] eqn:Hg; [exfalso|done].
  destruct (has_unique _ _ _ _ _ _ i HI Hh (has_ghost _ _ Hg)) as [_ ?]; [| |done].
  - pose proof (has_size_pos _ _ _ _ HI Hh). lia.
  - pose proof (has_size_pos _ _ _ _ HI (has_ghost _ _ Hg)). lia.
Qed.

Lemma bafs_dom_insert b bf bf' c :
  bafs s !! b = Some bf -> is_Some (<[b := bf']> (bafs s) !! c) <-> is_Some (bafs s !! c).
Proof. intros H. destruct (decide (c = b)) as [->|]; simplify_map_eq; [split; eauto|done]. Qed.

Lemma bafs_ok_insert b bf' c bc :
  baf_ok b bf' -> <[b := bf']> (bafs s) !! c = Some bc -> baf_ok c bc.
Proof using HI.
  intros Hok. destruct (decide (c = b)) as [->|]; intros; simplify_map_eq; [done|].
  by apply (inv_baf _ _ HI).
Qed.

Lemma limbo_inv i mi n :
  G !! i = Some (GBlk GLimbo mi n) ->
  exists ty, area_type s mi ty /\ pagerun (msas s) ty i n /\ allpages (msas s) i n idle.
Proof using HI. intros H. apply (inv_has _ _ HI _ _ (has_ghost _ _ H)). Qed.

(** Unlink a free block. *)
Lemma inv_unlink b bf bf' i :
  bafs s !! b = Some bf -> i ∈ af_frelst bf -> baf_ok b bf' ->
  (forall x, x ∈ af_frelst bf' <-> x ∈ af_frelst bf /\ x <> i) ->
  Inv (with_bafs (<[b := bf']> (bafs s)) s) (<[i := GBlk GLimbo (bafhp_area b) (bsize b)]> G).
Proof using HI.
  intros Hb Hi Hok Hl.
  assert (Hh : has s G i (TFree b)) by (exists bf; done).
  apply (inv_subst s G _ _ i (i + bsize b) [(i, TFree b)]
           [(i, TGhost (GBlk GLimbo (bafhp_area b) (bsize b)))]); simpl; auto.
  - apply (inv_padrs _ _ HI).
  - intros c. eapply bafs_dom_insert; eauto.
  - intros c bc. by apply bafs_ok_insert.
  - intros j u. apply (has_other i (TFree b)); done.
  - intros j [c|g] Ht; simpl in *.
    + destruct Ht as (bc & Hc & Hin). left. destruct (decide (c = b)) as [->|]; simplify_map_eq.
      * apply Hl in Hin as [??]. split; [by exists bf|set_solver].
      * split; [by exists bc|set_solver].
    + destruct (decide (j = i)) as [->|]; simplify_map_eq; [right; set_solver|left; set_solver].
  - intros j u ?. assert ((j, u) = (i, TGhost (GBlk GLimbo (bafhp_area b) (bsize b)))) as [= -> ->] by set_solver.
    simpl. split_and!; [lia..|]. destruct (inv_has _ _ HI _ _ Hh) as (ty & ? & ? & ? & _). by exists ty.
  - intros i' t j u ? ?. left. set_solver.
Qed.

(** Link a block in limbo whose descriptors are set up. *)
Lemma inv_link b bf bf' i :
  G !! i = Some (GBlk GLimbo (bafhp_area b) (bsize b)) ->
  free_links (msas s) b i (bsize b) ->
  bafs s !! b = Some bf -> baf_ok b bf' ->
  (forall x, x ∈ af_frelst bf' <-> x ∈ af_frelst bf \/ x = i) ->
  Inv (with_bafs (<[b := bf']> (bafs s)) s) (delete i G).
Proof using HI.
  intros HG Hfl Hb Hok Hl. pose proof (has_ghost _ _ HG) as Hh.
  apply (inv_subst s G _ _ i (i + bsize b) [(i, TGhost (GBlk GLimbo (bafhp_area b) (bsize b)))]
           [(i, TFree b)]); simpl; auto.
  - apply (inv_padrs _ _ HI).
  - intros c. eapply bafs_dom_insert; eauto.
  - intros c bc. by apply bafs_ok_insert.
  - intros j u. apply (has_other i (TGhost (GBlk GLimbo (bafhp_area b) (bsize b)))); done.
  - intros j [c|g] Ht; simpl in *.
    + destruct Ht as (bc & Hc & Hin). destruct (decide (c = b)) as [->|]; simplify_map_eq.
      * apply Hl in Hin as [?| ->]; [left; split; [by exists bf|set_solver] | right; set_solver].
      * left. split; [by exists bc|set_solver].
    + left. destruct (decide (j = i)) as [->|]; simplify_map_eq. set_solver.
  - intros j u ?. assert ((j, u) = (i, TFree b)) as [= -> ->] by set_solver.
    simpl. split_and!; [lia..|]. destruct (limbo_inv _ _ _ HG) as (ty & ? & ? & ?). by exists ty.
  - intros i' t j u ? ?. left. set_solver.
Qed.

(** Cut a block in limbo in two. *)
Lemma inv_split i mi n1 n2 :
  G !! i = Some (GBlk GLimbo mi (n1 + n2)) -> 0 < n1 -> 0 < n2 ->
  Inv s (<[i + n1 := GBlk GLimbo mi n2]> (<[i := GBlk GLimbo mi n1]> G)).
Proof using HI.
  intros HG H1 H2. pose proof (has_ghost _ _ HG) as Hh.
  destruct (limbo_inv _ _ _ HG) as (ty & Hty & Hpr & Hid).
  apply (inv_subst s G _ _ i (i + (n1 + n2)) [(i, TGhost (GBlk GLimbo mi (n1 + n2)))]
           [(i, TGhost (GBlk GLimbo mi n1)); (i + n1, TGhost (GBlk GLimbo mi n2))]); simpl; auto.
  - apply (inv_padrs _ _ HI).
  - apply (inv_baf _ _ HI).
  - intros j u. apply (has_other i (TGhost (GBlk GLimbo mi (n1 + n2)))); done.
  - intros j [c|g] Ht; simpl in *; [left; split; [done|set_solver]|].
    destruct (decide (j = i + n1)) as [->|]; simplify_map_eq; [right; set_solver|].
    destruct (decide (j = i)) as [->|]; simplify_map_eq; [right; set_solver|left; set_solver].
  - intros j u Hin. apply elem_of_cons in Hin as [[= -> ->]|Hin]; simpl.
    + split_and!; [lia..|]. exists ty. split_and!; [done| |].
      * eapply pagerun_sub; eauto; lia.
      * intros k Hk. apply Hid; lia.
    + apply list_elem_of_singleton in Hin as [= -> ->]. simpl.
      split_and!; [lia..|]. exists ty. split_and!; [done| |].
      * eapply pagerun_sub; eauto; lia.
      * intros k Hk. apply Hid; lia.
  - intros j t k u Hj Hk.
    apply elem_of_cons in Hj as [[= -> ->]|Hj]; apply elem_of_cons in Hk as [[= -> ->]|Hk];
      try apply list_elem_of_singleton in Hj as [= -> ->];
      try apply list_elem_of_singleton in Hk as [= -> ->]; simpl; auto; lia.
Qed.

(** Join two adjacent blocks in limbo whose page frames are adjacent. *)
Lemma inv_join i mi n1 n2 m m' :
  G !! i = Some (GBlk GLimbo mi n1) -> G !! (i + n1) = Some (GBlk GLimbo mi n2) ->
  msas s !! (i + n1 - 1) = Some m -> msas s !! (i + n1) = Some m' -> padrs m' = padrs m + 1 ->
  Inv s (<[i := GBlk GLimbo mi (n1 + n2)]> (delete (i + n1) G)).
Proof using HI.
  intros HG1 HG2 Hm Hm' Hp. pose proof (has_ghost _ _ HG1) as Hh1. pose proof (has_ghost _ _ HG2) as Hh2.
  destruct (limbo_inv _ _ _ HG1) as (ty & Hty & Hpr1 & Hid1).
  destruct (limbo_inv _ _ _ HG2) as (ty' & Hty' & Hpr2 & Hid2).
  pose proof (area_type_fun _ _ _ _ Hty Hty') as <-.
  pose proof (has_size_pos _ _ _ _ HI Hh1) as Hn1. pose proof (has_size_pos _ _ _ _ HI Hh2) as Hn2. simpl in *.
  apply (inv_subst s G _ _ i (i + n1 + n2)
           [(i, TGhost (GBlk GLimbo mi n1)); (i + n1, TGhost (GBlk GLimbo mi n2))]
           [(i, TGhost (GBlk GLimbo mi (n1 + n2)))]); simpl; auto.
  - apply (inv_padrs _ _ HI).
  - apply (inv_baf _ _ HI).
  - intros j u ? ?. apply (has_other2 i (TGhost (GBlk GLimbo mi n1)) (i + n1) (TGhost (GBlk GLimbo mi n2)) j u); done.
  - intros j [c|g] Ht; simpl in *; [left; split; [done|set_solver]|].
    destruct (decide (j = i)) as [->|]; simplify_map_eq; [right; set_solver|left].
    destruct (decide (j = i + n1)) as [->|]; simplify_map_eq. set_solver.
  - intros j u Hin. apply list_elem_of_singleton in Hin as [= -> ->]. simpl. split_and!; [lia..|].
    exists ty. split_and!; [done| |].
    + eapply pagerun_join; eauto.
    + intros k Hk. destruct (decide (k < i + n1)); [apply Hid1; lia|apply Hid2; lia].
  - intros j t k u Hj Hk. left. set_solver.
Qed.

(** Change descriptors inside one ghost block. *)
Lemma inv_update i g g' ms' :
  G !! i = Some g -> g_len g' = g_len g ->
  dom ms' = dom (msas s) ->
  (forall j m, ms' !! j = Some m -> exists m0, msas s !! j = Some m0 /\ padrs m = padrs m0) ->
  (forall j, ~ (i <= j < i + g_len g) -> ms' !! j = msas s !! j) ->
  tag_ok (with_msas ms' s) i (TGhost g') ->
  Inv (with_msas ms' s) (<[i := g']> G).
Proof using HI.
  intros HG Hlen Hdom Hp Hfr Hok. pose proof (has_ghost _ _ HG) as Hh.
  apply (inv_subst s G _ _ i (i + g_len g) [(i, TGhost g)] [(i, TGhost g')]); simpl; auto.
  - rewrite <- !size_dom. by rewrite Hdom.
  - intros j m Hm. destruct (Hp j m Hm) as (m0 & H0 & ->). by eapply inv_padrs.
  - apply (inv_baf _ _ HI).
  - intros j u. apply (has_other i (TGhost g)); done.
  - intros j [c|g0] Ht; simpl in *; [left; split; [done|set_solver]|].
    destruct (decide (j = i)) as [->|]; simplify_map_eq; [right; set_solver|left; set_solver].
  - intros j u Hin. apply list_elem_of_singleton in Hin as [= -> ->]. simpl. rewrite Hlen. split_and!; [lia..|done].
  - intros j t k u Hj Hk. left. set_solver.
Qed.

(** Pages of different ghost blocks are different. *)
Lemma ghost_page_ne i g j h k :
  G !! i = Some g -> G !! j = Some h -> i <> j ->
  i <= k < i + g_len g -> ~ (j <= k < j + g_len h).
Proof using HI.
  intros Hg Hh Hne Hk Hk'.
  destruct (has_unique _ _ _ _ _ _ k HI (has_ghost _ _ Hg) (has_ghost _ _ Hh)); done.
Qed.
End steps.

#[global] Arguments has : simpl never.
#[global] Arguments tag_ok : simpl never.
