(* ===== verification/DivMerOps.v ===== *)
(** * Page allocator: behaviour of the elementary routines

    Accounting of free pages, the tactics that execute the routines of
    DivMer symbolically, and the specifications of the routines that unlink,
    link, split, mark and merge blocks. *)

From S2P Require Import Prelude PhyMem DivMer DivMerInv.

(** ** Accounting *)

Definition sumz (l : list Z) : Z := foldr Z.add 0 l.

Definition area_bafs (mi : Z) : list bafhp := BOne mi :: (BLie mi <$> seqZ 0 MDIVMER_ARR_LMAX).

(** Pages on a free list, and on the free lists of an area. *)
Definition bsum (bs : gmap bafhp bafhlst_t) (b : bafhp) : Z :=
  match bs !! b with Some bf => bsize b * Z.of_nat (length (af_frelst bf)) | None => 0 end.
Definition freesum (bs : gmap bafhp bafhlst_t) (mi : Z) : Z := sumz (bsum bs <$> area_bafs mi).

(** Pages of the allocated blocks of an area. *)
Definition ghostsum (G : ghost) (mi : Z) : Z :=
  map_fold (fun _ g acc => (if g_area g =? mi then g_len g else 0) + acc) 0 G.

(** The page counters of the areas agree with the blocks. *)
Definition acct (s : mmst) (G : ghost) : Prop :=
  forall mi a, mareas s !! mi = Some a ->
    ma_freepages a = freesum (bafs s) mi /\ ma_allocpages a = ghostsum G mi /\
    ma_maxpages a = freesum (bafs s) mi + ghostsum G mi /\ ma_maxpages a <= 2 ^ 52.

(** The page with descriptor [i] is free in area [mi]. *)
Definition freepg (s : mmst) (mi i : Z) : Prop :=
  exists b bf st, bafhp_area b = mi /\ bafs s !! b = Some bf /\ st ∈ af_frelst bf /\
    st <= i < st + bsize b.

(** Everything outside the free lists and the descriptors is unchanged. *)
Definition sframe (s s' : mmst) : Prop :=
  mareas s' = mareas s /\ mo_mareanr s' = mo_mareanr s /\ mo_msanr s' = mo_msanr s /\
  mo_maxpages s' = mo_maxpages s /\ mo_freepages s' = mo_freepages s /\
  mo_alocpages s' = mo_alocpages s.

Lemma sframe_refl s : sframe s s.
Proof. done. Qed.
Lemma sframe_trans s1 s2 s3 : sframe s1 s2 -> sframe s2 s3 -> sframe s1 s3.
Proof. unfold sframe. intuition congruence. Qed.
#[export] Hint Resolve sframe_refl sframe_trans : cosmos.

Lemma sumz_cons (f : bafhp -> Z) b l : sumz (f <$> b :: l) = f b + sumz (f <$> l).
Proof. done. Qed.

Lemma sumz_update (f g : bafhp -> Z) b l :
  NoDup l -> b ∈ l -> (forall c, c <> b -> g c = f c) ->
  sumz (g <$> l) = sumz (f <$> l) + g b - f b.
Proof.
  intros Hnd Hin Hf. induction Hnd as [|c l Hc Hnd IH]; [set_solver|]. rewrite !sumz_cons.
  destruct (decide (c = b)) as [->|Hne].
  - assert (g <$> l = f <$> l) as ->; [|lia].
    apply list_fmap_ext. intros i x Hx. apply Hf. intros ->. apply Hc, list_elem_of_lookup. eauto.
  - rewrite IH by set_solver. rewrite Hf by done. lia.
Qed.

Lemma sumz_nonneg (f : bafhp -> Z) l : (forall b, 0 <= f b) -> 0 <= sumz (f <$> l).
Proof. intros H. induction l as [|b l IH]; [done|]. rewrite sumz_cons. specialize (H b). lia. Qed.

Lemma sumz_le (f : bafhp -> Z) b l : (forall b, 0 <= f b) -> b ∈ l -> f b <= sumz (f <$> l).
Proof.
  intros H Hin. induction l as [|c l IH]; [set_solver|]. rewrite sumz_cons.
  apply elem_of_cons in Hin as [->|Hin]; [pose proof (sumz_nonneg f l H); lia|].
  specialize (IH Hin). specialize (H c). lia.
Qed.

Lemma area_bafs_NoDup mi : NoDup (area_bafs mi).
Proof.
  apply NoDup_cons. split.
  - intros (x & ? & _)%list_elem_of_fmap. done.
  - apply NoDup_fmap_2; [intros ??; congruence|apply NoDup_seqZ].
Qed.

Lemma elem_of_area_bafs s b : valid_bafhp s b -> b ∈ area_bafs (bafhp_area b).
Proof.
  intros [_ H]. destruct b as [mi k|mi]; simpl; [|by left].
  right. apply list_elem_of_fmap. exists k. split; [done|]. apply elem_of_seqZ. lia.
Qed.

Lemma area_bafs_area b mi : b ∈ area_bafs mi -> bafhp_area b = mi.
Proof.
  intros [->|Hin]%elem_of_cons; [done|]. by apply list_elem_of_fmap in Hin as (x & -> & _).
Qed.

Lemma bsize_nonneg b : 0 <= bsize b.
Proof. destruct b; simpl; [apply Z.pow_nonneg; lia|lia]. Qed.

Lemma bsum_nonneg bs b : 0 <= bsum bs b.
Proof. unfold bsum. pose proof (bsize_nonneg b). destruct (bs !! b); [nia|lia]. Qed.

Lemma bsum_insert bs b bf : bsum (<[b := bf]> bs) b = bsize b * Z.of_nat (length (af_frelst bf)).
Proof. unfold bsum. by rewrite lookup_insert_eq. Qed.

Lemma freesum_insert s b bf bf' mi :
  valid_bafhp s b -> bafs s !! b = Some bf ->
  freesum (<[b := bf']> (bafs s)) mi =
    freesum (bafs s) mi + (if bafhp_area b =? mi then
      bsize b * (Z.of_nat (length (af_frelst bf')) - Z.of_nat (length (af_frelst bf))) else 0).
Proof.
  intros Hv Hb. unfold freesum. destruct (bafhp_area b =? mi) eqn:E; bool_to_prop.
  - subst mi. rewrite (sumz_update (bsum (bafs s)) _ b).
    + rewrite bsum_insert. unfold bsum. rewrite Hb. lia.
    + apply area_bafs_NoDup.
    + by eapply elem_of_area_bafs.
    + intros c Hc. unfold bsum. by rewrite lookup_insert_ne by congruence.
  - rewrite Z.add_0_r. f_equal. apply list_fmap_ext. intros i c Hc.
    assert (c <> b).
    { intros ->. apply E, area_bafs_area, list_elem_of_lookup. eauto. }
    unfold bsum. by rewrite lookup_insert_ne by congruence.
Qed.

Lemma freesum_ge s b : valid_bafhp s b -> bsum (bafs s) b <= freesum (bafs s) (bafhp_area b).
Proof. intros Hv. apply sumz_le; [apply bsum_nonneg|by eapply elem_of_area_bafs]. Qed.

Lemma freesum_nonneg bs mi : 0 <= freesum bs mi.
Proof. apply sumz_nonneg, bsum_nonneg. Qed.

Lemma ghostsum_insert G i g mi :
  G !! i = None -> ghostsum (<[i := g]> G) mi = (if g_area g =? mi then g_len g else 0) + ghostsum G mi.
Proof.
  intros H. unfold ghostsum. rewrite map_fold_insert_L; [done| |done].
  intros. lia.
Qed.

Lemma ghostsum_delete G i g mi :
  G !! i = Some g -> ghostsum (delete i G) mi = ghostsum G mi - (if g_area g =? mi then g_len g else 0).
Proof.
  intros H. rewrite <- (insert_delete_id G i g) at 2 by done.
  rewrite ghostsum_insert by apply lookup_delete_eq. lia.
Qed.

Lemma freepg_insert s b bf bf' mi j :
  bafs s !! b = Some bf ->
  freepg (with_bafs (<[b := bf']> (bafs s)) s) mi j <->
  (bafhp_area b = mi /\ exists st, st ∈ af_frelst bf' /\ st <= j < st + bsize b) \/
  (exists c bc st, c <> b /\ bafhp_area c = mi /\ bafs s !! c = Some bc /\ st ∈ af_frelst bc /\
     st <= j < st + bsize c).
Proof.
  intros Hb. unfold freepg. simpl. split.
  - intros (c & bc & st & ? & Hc & ? & ?). destruct (decide (c = b)) as [->|]; simplify_map_eq.
    + left. eauto.
    + right. eauto 10.
  - intros [(? & st & ? & ?)|(c & bc & st & ? & ? & ? & ? & ?)].
    + exists b, bf', st. by simplify_map_eq.
    + exists c, bc, st. by simplify_map_eq.
Qed.

Lemma freepg_insert_id s b bf mi j :
  bafs s !! b = Some bf ->
  freepg s mi j <->
  (bafhp_area b = mi /\ exists st, st ∈ af_frelst bf /\ st <= j < st + bsize b) \/
  (exists c bc st, c <> b /\ bafhp_area c = mi /\ bafs s !! c = Some bc /\ st ∈ af_frelst bc /\
     st <= j < st + bsize c).
Proof.
  intros Hb. rewrite <- (freepg_insert s b bf bf) by done. by rewrite insert_id.
Qed.

(** Unlinking a block removes exactly its pages. *)
Lemma freepg_unlink s G b bf bf' i mi j :
  Inv s G -> bafs s !! b = Some bf -> i ∈ af_frelst bf ->
  (forall x, x ∈ af_frelst bf' <-> x ∈ af_frelst bf /\ x <> i) ->
  freepg (with_bafs (<[b := bf']> (bafs s)) s) mi j <-> freepg s mi j /\ ~ (i <= j < i + bsize b).
Proof.
  intros HI Hb Hi Hl. assert (Hh : has s G i (TFree b)) by (exists bf; done).
  rewrite (freepg_insert s b bf) by done. rewrite (freepg_insert_id s b bf mi j) by done. split.
  - intros [(? & st & Hst & ?)|(c & bc & st & ? & ? & Hc & Hst & ?)].
    + apply Hl in Hst as [Hst Hne]. split; [left; eauto|]. intros Hj.
      destruct (has_unique _ _ i (TFree b) st (TFree b) j HI Hh) as [? _]; [by exists bf|done..|]. congruence.
    + split; [right; eauto 10|]. intros Hj.
      destruct (has_unique _ _ i (TFree b) st (TFree c) j HI Hh) as [_ ?]; [by exists bc|done..|]. congruence.
  - intros [[(? & st & Hst & ?)|(c & bc & st & ? & ? & Hc & Hst & ?)] Hn].
    + left. split; [done|]. exists st. split; [|done]. apply Hl. split; [done|]. intros ->. done.
    + right. eauto 10.
Qed.

(** Linking a block adds exactly its pages. *)
Lemma freepg_link s b bf bf' i mi j :
  bafs s !! b = Some bf ->
  (forall x, x ∈ af_frelst bf' <-> x ∈ af_frelst bf \/ x = i) ->
  freepg (with_bafs (<[b := bf']> (bafs s)) s) mi j <->
  freepg s mi j \/ (bafhp_area b = mi /\ i <= j < i + bsize b).
Proof.
  intros Hb Hl. rewrite (freepg_insert s b bf) by done. rewrite (freepg_insert_id s b bf mi j) by done.
  split.
  - intros [(? & st & Hst & ?)|?]; [|auto]. apply Hl in Hst as [Hst| ->]; [left; left; eauto|right; auto].
  - intros [[(? & st & Hst & ?)|?]|[? ?]]; [left|by right|left].
    + split; [done|]. exists st. rewrite Hl. auto.
    + split; [done|]. exists i. rewrite Hl. auto.
Qed.

(** ** Symbolic execution *)

Ltac mm_unfold :=
  cbv [olkty mocty marty uindx alloc padrs set_olkty set_mocty set_marty set_uindx set_alloc set_padrs
       set_odlink set_frelst set_fobjnr set_mobjnr set_alcindx set_freindx
       with_msas with_bafs with_mareas with_pages set_ma_pages
       MF_OLKTY_INIT MF_OLKTY_ODER MF_OLKTY_BAFH PAF_NO_ALLOC PAF_ALLOC MF_UINDX_MAX
       MDIVMER_ARR_LMAX MA_TYPE_INIT MA_TYPE_HWAD MA_TYPE_KRNL MA_TYPE_PROC MA_TYPE_SHAR
       BAFH_STUS_ONEM BAFH_STUS_DIVP BAFH_STUS_DIVM MF_MOCTY_FREE MF_MARTY_INIT MF_MARTY_HWD MF_MARTY_KRL MF_MARTY_PRC
       DMF_RELDIV DMF_MAXDIV idle busy bafhp_idx bafhp_area] in *;
  cbn [mf_olkty mf_lstty mf_mocty mf_marty mf_uindx paf_alloc paf_shared paf_swap paf_cache paf_kmap
       paf_lock paf_dirty paf_busy paf_rv2 paf_padrs md_indxflgs md_phyadrs md_odlink
       af_stus af_oder af_oderpnr af_fobjnr af_mobjnr af_alcindx af_freindx af_frelst af_alclst af_ovelst
       ma_stus ma_flgs ma_type ma_maxpages ma_allocpages ma_freepages ma_resvpages ma_horizline
       ma_logicstart ma_logicend ma_logicsz ma_allmsadscnr
       mo_maxpages mo_freepages mo_alocpages mo_mareanr mo_msanr mareas bafs msas] in *.

(** Lookups in the stores of the current state. *)
Ltac lk :=
  cbn [msas bafs mareas with_msas with_bafs with_mareas];
  repeat first [ rewrite lookup_insert_eq | rewrite lookup_insert_ne by (lia || congruence) ];
  first [ eassumption | reflexivity ].

(** Boolean conditions. *)
Ltac bd :=
  repeat match goal with
    | |- context [bool_decide ?P] =>
        first [ rewrite (bool_decide_eq_false_2 P) by congruence
              | rewrite (bool_decide_eq_true_2 P) by congruence ]
    end.
Ltac wrap :=
  repeat match goal with
    | |- context [u64 ?x] => rewrite (u64_small x) by (rewrite u64max_val; lia)
    end.
Ltac cond := mm_unfold; bd; wrap; unfold ones64; rewrite ?u64max_val; first [reflexivity | lia].

Ltac decide_if :=
  match goal with
  | |- wp (if ?b then _ else _) _ _ =>
      first [ let H := fresh in assert (H : b = false) by cond; rewrite H; clear H
            | let H := fresh in assert (H : b = true) by cond; rewrite H; clear H ]
  end.

Ltac step :=
  lazymatch goal with
  | |- wp (mret _) _ _ => apply wp_ret
  | |- wp (mbind _ _) _ _ => apply wp_bind
  | |- wp (gets _) _ _ => apply wp_gets
  | |- wp (modify _) _ _ => apply wp_modify
  | |- wp (get_msa _) _ _ => eapply wp_get_msa; [lk|]
  | |- wp (upd_msa _ _) _ _ => eapply wp_upd_msa; [lk|norm_state]
  | |- wp (get_baf _) _ _ => eapply wp_get_baf; [lk|]
  | |- wp (upd_baf _ _) _ _ => eapply wp_upd_baf; [lk|norm_state]
  | |- wp (baf_list_add _ _) _ _ => unfold baf_list_add; eapply wp_upd_baf; [lk|norm_state]
  | |- wp (baf_list_del _ _) _ _ => unfold baf_list_del; eapply wp_upd_baf; [lk|norm_state]
  | |- wp (get_ma _) _ _ => eapply wp_get_ma; [lk|]
  | |- wp (upd_ma _ _) _ _ => eapply wp_upd_ma; [lk|norm_state]
  | |- wp (die_if _ _) _ _ => apply wp_die_if; [cond|]
  | |- wp (if _ then _ else _) _ _ => decide_if
  | |- wp (let _ := _ in _) _ _ => cbv zeta
  | |- wp (as_msa (OL_MSA _)) _ _ => cbn [as_msa]; apply wp_ret
  | |- wp (match ?x with _ => _ end) _ _ => progress cbn beta iota
  end.
Ltac steps := repeat step.

(** ** Unlinking *)

Lemma bsize_bound s b : valid_bafhp s b -> 0 < bsize b <= 2 ^ 51.
Proof.
  intros Hv. split; [by eapply bsize_pos|]. destruct Hv as [_ Hv]. destruct b as [mi k|mi]; simpl; [|lia].
  apply pow2_le. unfold MDIVMER_ARR_LMAX in Hv. lia.
Qed.

(** The free list after [list_del] and the decrement of the two counters. *)
Definition baf_removed (b : bafhp) (bf bf' : bafhlst_t) (i : Z) : Prop :=
  baf_ok b bf' /\ af_oderpnr bf' = af_oderpnr bf /\
  af_frelst bf' = filter (fun j => j <> i) (af_frelst bf).

Lemma baf_removed_elem b bf bf' i x :
  baf_removed b bf bf' i -> x ∈ af_frelst bf' <-> x ∈ af_frelst bf /\ x <> i.
Proof. intros (_ & _ & ->). apply elem_of_filter_ne. Qed.

Lemma baf_removed_length b bf bf' i :
  baf_ok b bf -> i ∈ af_frelst bf -> baf_removed b bf bf' i ->
  Z.of_nat (length (af_frelst bf')) = Z.of_nat (length (af_frelst bf)) - 1.
Proof. intros (_ & _ & _ & Hnd & _) Hi (_ & _ & ->). by apply length_filter_ne. Qed.

Lemma frelst_length s G b bf :
  Inv s G -> bafs s !! b = Some bf -> Z.of_nat (length (af_frelst bf)) <= 2 ^ 52.
Proof.
  intros HI Hb. destruct (inv_baf _ _ HI _ _ Hb) as (_ & _ & _ & Hnd & _).
  etrans; [|apply (inv_size _ _ HI)]. apply Nat2Z.inj_le, NoDup_dom_length; [done|].
  intros x Hx. assert (Hh : has s G x (TFree b)) by (by exists bf).
  pose proof (has_size_pos _ _ _ _ HI Hh). simpl in *.
  destruct (inv_has _ _ HI _ _ Hh) as (ty & _ & Hpr & _).
  destruct (pagerun_lookup _ _ _ _ x Hpr) as (m & ? & _); [lia|eauto].
Qed.

(** The end of a free block, as [mm_retnmsaob_onbafhlst] and
    [mm_divpages_opmsadsc] read it off the first descriptor. *)
Lemma free_end s G b i :
  Inv s G -> has s G i (TFree b) -> exists m, msas s !! i = Some m /\ idle m /\
    ((olkty m = MF_OLKTY_BAFH /\ bsize b = 1) \/
     (olkty m = MF_OLKTY_ODER /\ 1 < bsize b /\ md_odlink m = OL_MSA (i + bsize b - 1))).
Proof.
  intros HI Hh. pose proof (has_size_pos _ _ _ _ HI Hh) as Hpos. simpl in Hpos.
  destruct (inv_has _ _ HI _ _ Hh) as (ty & _ & Hpr & Hid & ms & me & H1 & H2 & H3 & H4 & H5).
  exists ms. split; [done|]. split; [apply (Hid i); [lia|done]|].
  destruct (decide (1 < bsize b)) as [Hlt|]; [right; naive_solver|left].
  replace (i + bsize b - 1) with i in H2 by lia. simplify_eq. split; [done|lia].
Qed.

Lemma mm_retnmsaob_onbafhlst_spec s G b bf i l :
  Inv s G -> bafs s !! b = Some bf -> af_frelst bf = i :: l ->
  wp (mm_retnmsaob_onbafhlst (Some b)) s (fun r s' =>
    r = (true, Some i, Some (i + bsize b - 1)) /\
    exists bf', baf_removed b bf bf' i /\ s' = with_bafs (<[b := bf']> (bafs s)) s).
Proof.
  intros HI Hb Hl. pose proof (inv_baf _ _ HI _ _ Hb) as (Hpnr & Hf & Hm & Hnd & Hst).
  pose proof (frelst_length _ _ _ _ HI Hb) as Hlen.
  assert (Hh : has s G i (TFree b)) by (exists bf; rewrite Hl; set_solver).
  destruct (free_end _ _ _ _ HI Hh) as (m & Hi & _ & Hend).
  assert (Hl' : Z.of_nat (length (af_frelst bf)) = Z.of_nat (length l) + 1) by (rewrite Hl; simpl; lia).
  unfold mm_retnmsaob_onbafhlst. step. step. step. rewrite Hl. steps.
  assert (Hrm : baf_removed b bf
     (set_freindx (af_freindx bf +u 1) (set_fobjnr (af_fobjnr bf -u 1) (set_mobjnr (af_mobjnr bf -u 1)
        (set_frelst (filter (fun j => j <> i) (af_frelst bf)) bf)))) i).
  { unfold baf_removed, baf_ok. simpl. rewrite Hf, Hm, Hl in *. rewrite filter_ne_head by done.
    rewrite !u64_small by (rewrite u64max_val; simpl length in *; lia).
    simpl length in *. apply NoDup_cons in Hnd as [? ?]. split_and!; auto; lia. }
  destruct Hend as [[Ho Hs1]|(Ho & Hs1 & Hod)]; rewrite Ho; simpl; [|rewrite Hod; simpl]; steps.
  - rewrite Hs1. split; [do 3 f_equal; lia|]. eexists. split; [done|].
    rewrite ?insert_insert_eq. done.
  - split; [done|]. eexists. split; [done|]. rewrite ?insert_insert_eq. done.
Qed.

(** ** Marking a block as allocated *)

(** How the first descriptor of a block in limbo gives its end. *)
Definition limbo_head (s : mmst) (i n : Z) : Prop :=
  exists m, msas s !! i = Some m /\
    ((olkty m = MF_OLKTY_BAFH /\ n = 1 /\ md_odlink m <> OL_NULL) \/
     (olkty m = MF_OLKTY_ODER /\ md_odlink m = OL_MSA (i + n - 1))).

(** Updating the two ends of a block, keeping areas and page frames. *)
Section ends.
Context (g : gmap Z msadsc_t) (i e : Z) (ms me a b : msadsc_t).
Context (Hi : g !! i = Some ms) (He : g !! e = Some me).
Context (Ha : marty a = marty ms /\ padrs a = padrs ms) (Hb : marty b = marty me /\ padrs b = padrs me).

Abbreviation g' := (<[e := b]> (<[i := a]> g)).

Lemma ends_dom : dom g' = dom g.
Proof using All.
  rewrite !dom_insert_L. apply (elem_of_dom_2 g) in Hi, He. set_solver.
Qed.

Lemma ends_lookup j m : g' !! j = Some m -> exists m0, g !! j = Some m0 /\ padrs m = padrs m0.
Proof using All.
  destruct Ha as [? ?], Hb as [? ?]. destruct (decide (j = e)) as [->|]; [|destruct (decide (j = i)) as [->|]]; intros; simplify_map_eq; eauto.
Qed.

Lemma ends_padrs j : padrs <$> g' !! j = padrs <$> g !! j.
Proof using All.
  destruct Ha as [? ?], Hb as [? ?].
  destruct (decide (j = e)) as [->|]; [|destruct (decide (j = i)) as [->|]]; simplify_map_eq; congruence.
Qed.

Lemma ends_pagerun ty k n : pagerun g ty k n -> pagerun g' ty k n.
Proof using All.
  destruct Ha as [? ?], Hb as [? ?]. intros (Hn & p & Hr). split; [done|].
  exists p. intros j Hj. destruct (Hr j Hj) as (m & Hm & ? & ?).
  destruct (decide (j = e)) as [->|]; [|destruct (decide (j = i)) as [->|]]; simplify_map_eq;
    eexists; (split; [done|]); split; congruence || lia.
Qed.

Lemma ends_allpages k n (P : msadsc_t -> Prop) :
  allpages g k n P -> (k <= i < k + n -> P a) -> (k <= e < k + n -> P b) -> allpages g' k n P.
Proof using All.
  intros H HPa HPb j Hj m Hm.
  destruct (decide (j = e)) as [->|]; [|destruct (decide (j = i)) as [->|]]; simplify_map_eq; eauto.
Qed.

Lemma ends_allpages_in n (P : msadsc_t -> Prop) :
  e = i + n - 1 -> allpages g (i + 1) (n - 2) P -> P a -> P b -> allpages g' i n P.
Proof using All.
  intros -> H HPa HPb j Hj m Hm. destruct (decide (j = i + n - 1)) as [->|]; simplify_map_eq; [done|].
  destruct (decide (j = i)) as [->|]; simplify_map_eq; [done|]. eapply H; eauto. lia.
Qed.
End ends.

(** A ghost block whose two ends are updated. *)
Lemma inv_ends s G i e ms me a b x g' :
  Inv s G -> G !! i = Some x -> g_len g' = g_len x -> i <= e < i + g_len x ->
  msas s !! i = Some ms -> msas s !! e = Some me ->
  marty a = marty ms /\ padrs a = padrs ms -> marty b = marty me /\ padrs b = padrs me ->
  tag_ok (with_msas (<[e := b]> (<[i := a]> (msas s))) s) i (TGhost g') ->
  Inv (with_msas (<[e := b]> (<[i := a]> (msas s))) s) (<[i := g']> G).
Proof.
  intros HI HG Hl He Hi Hme Ha Hb Hok. apply (inv_update s G HI i x); auto.
  - by eapply ends_dom.
  - intros j m. by eapply ends_lookup.
  - intros j Hj. rewrite !lookup_insert_ne by lia. done.
Qed.

(** The usage count and the allocation bit of a descriptor marked in use. *)
Lemma busy_set m m' :
  uindx m' = (uindx m + 1) mod 2 ^ 24 -> uindx m = 0 -> alloc m' = PAF_ALLOC -> busy m'.
Proof. intros H' H ?. split; [|done]. by rewrite H', H. Qed.

Lemma mm_divpages_opmsadsc_spec s G i mi n ty :
  Inv s G -> G !! i = Some (GBlk GLimbo mi n) -> limbo_head s i n ->
  area_type s mi ty -> alloc_len ty n -> n <= 2 ^ 51 ->
  wp (mm_divpages_opmsadsc (Some i) n) s (fun r s' =>
    r = Some i /\ exists g, s' = with_msas g s /\ Inv s' (<[i := GBlk GAlloc mi n]> G)).
Proof.
  intros HI HG (m & Hi & Hhead) Hty Hlen Hn.
  destruct (limbo_inv _ _ HI _ _ _ HG) as (ty' & Hty' & Hpr & Hid).
  pose proof (area_type_fun _ _ _ _ Hty Hty') as <-.
  pose proof (has_size_pos _ _ _ _ HI (has_ghost _ _ _ _ HG)) as Hpos. simpl in Hpos.
  assert (Hidm : idle m) by (apply (Hid i); [lia|done]). destruct Hidm as [Hu Ha].
  destruct (pagerun_lookup _ _ _ _ (i + n - 1) Hpr) as (e & He & _); [lia|].
  assert (Hide : idle e) by (apply (Hid (i + n - 1)); [lia|done]). destruct Hide as [Hue Hae].
  assert (Hend : wp (if MF_OLKTY_BAFH =? olkty m then mret (Some i) else as_msa (md_odlink m)) s
             (fun r s' => r = Some (i + n - 1) /\ s' = s)).
  { destruct Hhead as [(-> & -> & _)|(-> & ->)]; [split; [f_equal; lia|done]|done]. }
  unfold mm_divpages_opmsadsc. steps.
  apply wp_die_if; [destruct Hhead as [(? & ? & ?)|(? & ?)]; cond|].
  step. eapply wp_mono; [apply Hend|]. intros r s' [-> ->]. steps.
  destruct (decide (n = 1)) as [->|Hne].
  - replace (i + 1 - 1) with i in * by lia. steps. split; [done|]. eexists. split; [done|].
    rewrite insert_twice.
    eapply inv_ends; eauto; simpl; [lia|].
    exists ty. split_and!; [done..| |]; [by eapply ends_pagerun|].
    simplify_eq. eexists _, _. split; [apply lookup_insert_eq|]. rewrite Z.add_simpl_r.
    split; [apply lookup_insert_eq|].
    split_and!; try done; try (by eapply busy_set). intros j Hj. lia.
  - steps. split; [done|]. eexists. split; [done|].
    eapply inv_ends; eauto; simpl; [lia|].
    exists ty. split_and!; [done..| |]; [by eapply ends_pagerun|].
    eexists _, _. rewrite msas_with_msas.
    split; [rewrite lookup_insert_ne by lia; apply lookup_insert_eq|]. split; [apply lookup_insert_eq|].
    split_and!; try done; try (by eapply busy_set).
    eapply ends_allpages; eauto; [|lia..]. intros j Hj. apply Hid. lia.
Qed.

(** ** Linking *)

Definition baf_added (b : bafhp) (bf bf' : bafhlst_t) (i : Z) : Prop :=
  baf_ok b bf' /\ af_oderpnr bf' = af_oderpnr bf /\ af_frelst bf' = i :: af_frelst bf.

Lemma baf_added_elem b bf bf' i x :
  baf_added b bf bf' i -> x ∈ af_frelst bf' <-> x ∈ af_frelst bf \/ x = i.
Proof. intros (_ & _ & ->). set_solver. Qed.

(** What the two linking routines share: block [i] of order [b], in limbo, is
    put on the free list of [b]; descriptors outside it are not touched. *)
Definition linked (b : bafhp) (i : Z) (s : mmst) (G : ghost) (s' : mmst) : Prop :=
  exists g bf bf', bafs s !! b = Some bf /\ baf_added b bf bf' i /\
    s' = with_msas g (with_bafs (<[b := bf']> (bafs s)) s) /\
    (forall j, ~ (i <= j < i + bsize b) -> g !! j = msas s !! j) /\
    (forall j, padrs <$> g !! j = padrs <$> msas s !! j) /\
    Inv s' (delete i G).

Section link.
Context (s : mmst) (G : ghost) (b : bafhp) (bf : bafhlst_t) (i : Z).
Context (HI : Inv s G) (HG : G !! i = Some (GBlk GLimbo (bafhp_area b) (bsize b))) (Hb : bafs s !! b = Some bf).

Lemma baf_added_ok bf' :
  af_oderpnr bf' = af_oderpnr bf -> af_frelst bf' = i :: af_frelst bf -> af_stus bf' = af_stus bf ->
  af_fobjnr bf' = af_fobjnr bf +u 1 -> af_mobjnr bf' = af_mobjnr bf +u 1 -> baf_added b bf bf' i.
Proof using All.
  intros H1 H2 H3 H4 H5. pose proof (inv_baf _ _ HI _ _ Hb) as (? & Hf & Hm & Hnd & Hst).
  pose proof (frelst_length _ _ _ _ HI Hb) as Hlen.
  split; [|done]. unfold baf_ok. rewrite H1, H2, H3, H4, H5, Hf, Hm.
  rewrite u64_small by (rewrite u64max_val; lia). simpl length. split_and!; auto; try lia.
  apply NoDup_cons. split; [|done]. intros Hin.
  pose proof (free_not_ghost s G HI i b ltac:(by exists bf)). congruence.
Qed.

Lemma limbo_ends :
  0 < bsize b /\ exists ms me, msas s !! i = Some ms /\ msas s !! (i + bsize b - 1) = Some me /\ idle ms /\ idle me.
Proof using HI HG.
  pose proof (has_size_pos _ _ _ _ HI (has_ghost _ _ _ _ HG)) as Hpos. simpl in Hpos.
  destruct (limbo_inv _ _ HI _ _ _ HG) as (ty & Hty & Hpr & Hid). split; [done|].
  destruct (pagerun_lookup _ _ _ _ i Hpr) as (ms & Hms & _); [lia|].
  destruct (pagerun_lookup _ _ _ _ (i + bsize b - 1) Hpr) as (me & Hme & _); [lia|].
  exists ms, me. split_and!; auto; eapply Hid; eauto; lia.
Qed.

Lemma link_step bf' ms me a c :
  msas s !! i = Some ms -> msas s !! (i + bsize b - 1) = Some me ->
  marty a = marty ms /\ padrs a = padrs ms -> marty c = marty me /\ padrs c = padrs me ->
  idle a -> idle c -> olkty c = MF_OLKTY_BAFH -> md_odlink c = OL_BAFH b ->
  (1 < bsize b -> olkty a = MF_OLKTY_ODER /\ md_odlink a = OL_MSA (i + bsize b - 1)) ->
  baf_added b bf bf' i ->
  linked b i s G (with_msas (<[i + bsize b - 1 := c]> (<[i := a]> (msas s))) (with_bafs (<[b := bf']> (bafs s)) s)).
Proof using All.
  intros Hi He Ha Hc Hia Hic Hc1 Hc2 Ha1 Had. destruct limbo_ends as [Hpos _].
  destruct (limbo_inv _ _ HI _ _ _ HG) as (ty & Hty & Hpr & Hid).
  eexists _, bf, bf'. split_and!; [done..| | |].
  { intros j Hj. rewrite !lookup_insert_ne by lia. done. }
  { by eapply ends_padrs. }
  rewrite <- with_bafs_msas.
  assert (HI' : Inv (with_msas (<[i + bsize b - 1 := c]> (<[i := a]> (msas s))) s) G).
  { rewrite <- (insert_id G i _ HG). eapply inv_ends; eauto; simpl; [lia|].
    exists ty. split_and!; [done|by eapply ends_pagerun|by eapply ends_allpages]. }
  apply (inv_link _ _ HI' b bf); auto.
  - exists (if decide (bsize b = 1) then c else a), c. rewrite msas_with_msas.
    split_and!; auto; [|apply lookup_insert_eq|].
    + destruct (decide (bsize b = 1)) as [E|].
      * replace (i + bsize b - 1) with i by lia. apply lookup_insert_eq.
      * rewrite lookup_insert_ne by lia. apply lookup_insert_eq.
    + intros Hlt. rewrite decide_False by lia. auto.
  - apply Had.
  - intros x. by eapply baf_added_elem.
Qed.

Lemma link_step1 bf' ms c :
  bsize b = 1 -> msas s !! i = Some ms -> marty c = marty ms /\ padrs c = padrs ms ->
  idle c -> olkty c = MF_OLKTY_BAFH -> md_odlink c = OL_BAFH b ->
  baf_added b bf bf' i ->
  linked b i s G (with_msas (<[i := c]> (msas s)) (with_bafs (<[b := bf']> (bafs s)) s)).
Proof using All.
  intros E Hi Hc Hid H1 H2 Hadd.
  replace (<[i := c]> (msas s)) with (<[i + bsize b - 1 := c]> (<[i := c]> (msas s)))
    by (rewrite E, Z.add_simpl_r; apply insert_insert_eq).
  apply (link_step bf' ms ms c c); auto; [|lia]. by rewrite E, Z.add_simpl_r.
Qed.
End link.

Lemma mrdmb_add_msa_bafh_spec s G b bf i e :
  Inv s G -> G !! i = Some (GBlk GLimbo (bafhp_area b) (bsize b)) -> bafs s !! b = Some bf ->
  e = i + bsize b - 1 ->
  wp (mrdmb_add_msa_bafh (Some b) (Some i) (Some e)) s (fun r s' => r = true /\ linked b i s G s').
Proof.
  intros HI HG Hb ->. destruct (limbo_ends s G b i HI HG) as (Hpos & ms & me & Hi & He & [Hu Ha] & [Hu' Ha']).
  pose proof (inv_baf _ _ HI _ _ Hb) as (Hpnr & _). pose proof (bsize_bound _ _ (inv_valid _ _ HI _ _ Hb)) as Hbd.
  unfold mrdmb_add_msa_bafh. steps.
  destruct (decide (bsize b = 1)) as [E|].
  - replace (i + bsize b - 1) with i in * by lia. steps. split; [done|]. simplify_eq.
    eapply link_step1; eauto; try done. by eapply baf_added_ok.
  - steps. split; [done|]. eapply link_step; eauto; try done. by eapply baf_added_ok.
Qed.

Lemma mpobf_add_msadsc_spec s G b bf i e :
  Inv s G -> G !! i = Some (GBlk GLimbo (bafhp_area b) (bsize b)) -> bafs s !! b = Some bf ->
  e = i + bsize b - 1 ->
  wp (mpobf_add_msadsc (Some b) (Some i) (Some e)) s (fun r s' => r = true /\ linked b i s G s').
Proof.
  intros HI HG Hb ->. destruct (limbo_ends s G b i HI HG) as (Hpos & ms & me & Hi & He & [Hu Ha] & [Hu' Ha']).
  pose proof (inv_baf _ _ HI _ _ Hb) as (Hpnr & Hf & Hm & _). pose proof (frelst_length _ _ _ _ HI Hb).
  pose proof (bsize_bound _ _ (inv_valid _ _ HI _ _ Hb)) as Hbd.
  unfold mpobf_add_msadsc. steps.
  destruct (decide (bsize b = 1)) as [E|].
  - replace (i + bsize b - 1) with i in * by lia. steps. split; [done|]. simplify_eq.
    eapply link_step1; eauto; try done. by eapply baf_added_ok.
  - steps. split; [done|]. eapply link_step; eauto; try done. by eapply baf_added_ok.
Qed.
