(* ===== verification/DivMerAlloc.v ===== *)
(** * Page allocator: allocation

    Behaviour of [mm_division_pages] and [mm_divpages_procmarea]: the blocks
    they return, the free pages they consume and when they fail. *)

From S2P Require Import Prelude PhyMem DivMer DivMerInv DivMerOps.

(** ** Effects on the free pages *)

(** The pages [lo .. hi-1] of area [mi] become free; nothing else changes but
    descriptors. *)
Definition frees (s s' : mmst) (mi lo hi : Z) : Prop :=
  sframe s s' /\
  (forall mj, freesum (bafs s') mj = freesum (bafs s) mj + (if mi =? mj then hi - lo else 0)) /\
  (forall mj j, freepg s' mj j <-> freepg s mj j \/ (mi = mj /\ lo <= j < hi)).

(** The pages [lo .. hi-1] of area [mi], free until now, are taken. *)
Definition takes (s s' : mmst) (mi lo hi : Z) : Prop :=
  sframe s s' /\
  (forall mj, freesum (bafs s') mj = freesum (bafs s) mj - (if mi =? mj then hi - lo else 0)) /\
  (forall mj j, freepg s' mj j <-> freepg s mj j /\ ~ (lo <= j < hi)) /\
  (forall mj j, lo <= j < hi -> freepg s mj j <-> mj = mi).

Lemma frees_msas s s' mi lo hi g : frees s s' mi lo hi -> frees s (with_msas g s') mi lo hi.
Proof. done. Qed.

Lemma takes_msas s s' mi lo hi g : takes s s' mi lo hi -> takes s (with_msas g s') mi lo hi.
Proof. done. Qed.

Lemma frees_refl s mi lo : frees s s mi lo lo.
Proof.
  split_and!; [done| |].
  - intros mj. destruct (mi =? mj); lia.
  - intros mj j. split; [auto|]. intros [?|[_ ?]]; [done|lia].
Qed.

(** Freeing the two halves of a range. *)
Lemma frees_app s1 s2 s3 mi lo mid hi :
  lo <= mid <= hi -> frees s1 s2 mi mid hi -> frees s2 s3 mi lo mid -> frees s1 s3 mi lo hi.
Proof.
  intros Hm (Hf & Hs & Hp) (Hf' & Hs' & Hp'). split_and!; [eauto with cosmos| |].
  - intros mj. rewrite Hs', Hs. destruct (mi =? mj); lia.
  - intros mj j. rewrite Hp', Hp. split; [intuition lia|]. intros [?|[? ?]]; [auto|].
    destruct (decide (j < mid)); intuition lia.
Qed.

Lemma linked_frees b i s G s' :
  Inv s G -> linked b i s G s' -> frees s s' (bafhp_area b) i (i + bsize b).
Proof.
  intros HI (g & bf & bf' & Hb & Had & -> & _ & _ & _). pose proof (inv_valid _ _ HI _ _ Hb) as Hv.
  split_and!; [done| |].
  - intros mj. simpl. rewrite (freesum_insert s b bf) by done. destruct Had as (_ & _ & ->).
    simpl length. destruct (_ =? _); lia.
  - intros mj j. apply (freepg_link s b bf bf' i mj j Hb). intros x. by eapply baf_added_elem.
Qed.

Lemma removed_takes b bf bf' i s G :
  Inv s G -> bafs s !! b = Some bf -> i ∈ af_frelst bf -> baf_removed b bf bf' i ->
  takes s (with_bafs (<[b := bf']> (bafs s)) s) (bafhp_area b) i (i + bsize b).
Proof.
  intros HI Hb Hi Hrm. pose proof (inv_valid _ _ HI _ _ Hb) as Hv. split_and!; [done| | |].
  - intros mj. simpl. rewrite (freesum_insert s b bf) by done.
    rewrite (baf_removed_length b bf bf' i) by (try done; by eapply inv_baf).
    destruct (_ =? _); lia.
  - intros mj j. apply (freepg_unlink s G b bf bf' i); auto. intros x. by eapply baf_removed_elem.
  - intros mj j Hj. split; [|intros ->; by exists b, bf, i].
    intros (c & bc & st & <- & Hc & Hst & ?).
    destruct (has_unique s G st (TFree c) i (TFree b) j) as [_ [= ->]]; [done|by exists bc|by exists bf|done..].
Qed.

(** Taking a range and giving its tail back takes its head. *)
Lemma takes_frees s1 s2 s3 mi lo mid hi :
  lo <= mid <= hi -> takes s1 s2 mi lo hi -> frees s2 s3 mi mid hi -> takes s1 s3 mi lo mid.
Proof.
  intros Hm (Hf & Hs & Hp & Ha) (Hf' & Hs' & Hp'). split_and!; [eauto with cosmos| | |].
  - intros mj. rewrite Hs', Hs. destruct (mi =? mj); lia.
  - intros mj j. rewrite Hp', Hp. split.
    + intros [[? ?]|[<- ?]]; [split; [done|lia]|split; [apply Ha; [lia|done]|lia]].
    + intros [? ?]. destruct (decide (lo <= j < hi)); [|auto]. right. split; [|lia].
      symmetry. by apply (Ha mj j).
  - intros mj j Hj. apply Ha. lia.
Qed.

(** ** Choosing an order *)

Lemma retn_divoder_log2_up p : 1 <= p < u64max -> retn_divoder p = Z.log2_up p.
Proof.
  intros Hp. unfold retn_divoder, search_64rlbits. if_lia. rewrite Z.add_simpl_r.
  rewrite u64_small by lia.
  destruct (Z.land p (p - 1) =? 0) eqn:E; simpl; bool_to_prop.
  - apply land_pred_zero in E; [|lia]. rewrite E at 2. symmetry. apply Z.log2_up_pow2, Z.log2_nonneg.
  - symmetry. apply log2_up_succ; [lia|]. intros H. apply E, land_pred_zero; [lia|done].
Qed.

Definition no_free_from (s : mmst) (mi r : Z) : Prop :=
  forall k bf, r <= k < MDIVMER_ARR_LMAX -> bafs s !! BLie mi k = Some bf -> af_frelst bf = [].

(** [d] is the smallest order from [r] on with a free block, and [i] heads its list. *)
Definition first_fit (s : mmst) (mi r d i : Z) : Prop :=
  r <= d < MDIVMER_ARR_LMAX /\
  (exists bf l, bafs s !! BLie mi d = Some bf /\ af_frelst bf = i :: l) /\
  (forall k bf, r <= k < d -> bafs s !! BLie mi k = Some bf -> af_frelst bf = []).

Lemma baf_lookup s G mi k : Inv s G -> is_Some (mareas s !! mi) -> 0 <= k < MDIVMER_ARR_LMAX ->
  exists bf, bafs s !! BLie mi k = Some bf /\ baf_ok (BLie mi k) bf.
Proof.
  intros HI Ha Hk. destruct (proj2 (inv_dom _ _ HI (BLie mi k))) as [bf Hb]; [done|].
  exists bf. split; [done|]. by apply (inv_baf _ _ HI).
Qed.

Lemma length_pos_cons {A} (l : list A) : (0 <? Z.of_nat (length l)) = negb (list_empty l).
Proof. destruct l; simpl; lia. Qed.

Lemma onmpgs_retn_bafhlst_spec s G mi pages :
  Inv s G -> is_Some (mareas s !! mi) -> 1 <= pages < u64max ->
  wp (onmpgs_retn_bafhlst (Some mi) pages) s (fun x s' => s' = s /\
    let r := Z.log2_up pages in
    ((exists d i, x = (true, Some (BLie mi r), Some (BLie mi d)) /\ first_fit s mi r d i) \/
     (x = (false, None, None) /\ no_free_from s mi r))).
Proof.
  intros HI Ha Hp. unfold onmpgs_retn_bafhlst. steps. rewrite retn_divoder_log2_up by done.
  set (r := Z.log2_up pages). assert (Hr : 0 <= r) by apply Z.log2_up_nonneg.
  assert (Hpr : pages <= 2 ^ r).
  { destruct (decide (pages = 1)) as [->|]; [done|]. by apply Z.log2_up_spec; lia. }
  destruct (decide (r < MDIVMER_ARR_LMAX)) as [Hlt|Hge].
  2:{ if_lia. apply wp_ret. split; [done|]. right. split; [done|]. intros k bf Hk. lia. }
  if_lia. destruct (baf_lookup s G mi r HI Ha ltac:(lia)) as (bf & Hb & Hpnr & _). simpl in Hpnr. steps.
  pose (g := fun idx => match bafs s !! BLie mi idx with
                        | Some x => if negb (list_empty (af_frelst x)) then Some idx else None
                        | None => None end).
  apply (wp_find_first_pure _ g).
  { intros k Hk%elem_of_seqZ. destruct (baf_lookup s G mi k HI Ha ltac:(lia)) as (bk & Hbk & Hpk & Hfk & _).
    unfold mbind, M_bind, get_baf. subst g. simpl. rewrite Hbk. simpl in Hpk. rewrite Hpk, Hfk, length_pos_cons.
    pose proof (pow2_le r k ltac:(lia)). by replace (pages <=? 2 ^ k) with true by lia. }
  destruct (hd_omap_seqZ g (MDIVMER_ARR_LMAX - r) r) as [[-> Hnone]|(d & v & -> & Hg & Hd & Hnone)];
    apply wp_ret; (split; [done|]).
  - right. split; [done|]. intros k bk Hk Hbk. specialize (Hnone k ltac:(lia)). unfold g in Hnone.
    rewrite Hbk in Hnone. by destruct (af_frelst bk).
  - left. unfold g in Hg. destruct (bafs s !! BLie mi d) as [bd|] eqn:Hbd; [|done].
    destruct (af_frelst bd) as [|i l] eqn:Hl; simplify_eq/=. exists v, i. split; [done|].
    split_and!; [lia|lia|eauto|]. intros k bk Hk Hbk. specialize (Hnone k ltac:(lia)). unfold g in Hnone.
    rewrite Hbk in Hnone. by destruct (af_frelst bk).
Qed.

(** ** The splitting loop *)

(** The first descriptor of a block of several pages points to its last. *)
Definition head_at (s : mmst) (i n : Z) : Prop :=
  exists m, msas s !! i = Some m /\ olkty m = MF_OLKTY_ODER /\ md_odlink m = OL_MSA (i + n - 1).

Lemma ghost_inner s G i g j : Inv s G -> G !! i = Some g -> i < j < i + g_len g -> G !! j = None.
Proof.
  intros HI Hi Hj. destruct (G !! j) as [h|] eqn:Hh; [exfalso|done].
  pose proof (has_size_pos _ _ _ _ HI (has_ghost s G _ _ Hh)).
  apply (ghost_page_ne s G HI i g j h j); auto; simpl in *; lia.
Qed.

(** Moving the end that the first descriptor of a block in limbo records. *)
Lemma inv_set_end s G i mi n m o :
  Inv s G -> G !! i = Some (GBlk GLimbo mi n) -> msas s !! i = Some m ->
  Inv (with_msas (<[i := set_odlink o m]> (msas s)) s) G.
Proof.
  intros HI HG Hi. destruct (limbo_inv _ _ HI _ _ _ HG) as (ty & Hty & Hpr & Hid).
  pose proof (has_size_pos _ _ _ _ HI (has_ghost _ _ _ _ HG)) as Hpos. simpl in Hpos.
  rewrite <- (insert_id G i _ HG), insert_twice.
  eapply inv_ends; eauto; simpl; [lia|].
  assert (idle (set_odlink o m)) by exact (Hid i ltac:(lia) m Hi).
  exists ty. split_and!; [done|by eapply ends_pagerun|by eapply ends_allpages].
Qed.

(** One iteration: the upper half of the block in limbo becomes free. *)
Lemma split_step s G mi k i bf :
  Inv s G -> G !! i = Some (GBlk GLimbo mi (2 ^ (k + 1))) -> 0 <= k ->
  bafs s !! BLie mi k = Some bf ->
  wp (mrdmb_add_msa_bafh (Some (BLie mi k)) (Some (i + 2 ^ k)) (Some (i + 2 ^ (k + 1) - 1))) s
    (fun r s' => r = true /\ frees s s' mi (i + 2 ^ k) (i + 2 ^ (k + 1)) /\
       Inv s' (<[i := GBlk GLimbo mi (2 ^ k)]> G) /\ msas s' !! i = msas s !! i /\
       exists bf', bafs s' !! BLie mi k = Some bf' /\ af_oderpnr bf' = 2 ^ k).
Proof.
  intros HI HG Hk Hb. pose proof (pow2_pos k Hk) as Hp. rewrite pow2_S in * by done.
  pose proof (inv_split s G HI i mi (2 ^ k) (2 ^ k)) as HI'. rewrite <- Z.add_diag in HG |- *.
  specialize (HI' HG Hp Hp).
  eapply wp_mono; [apply (mrdmb_add_msa_bafh_spec s _ (BLie mi k) bf (i + 2 ^ k) _ HI'); [|done|]|].
  - by rewrite lookup_insert_eq.
  - simpl. lia.
  - intros r s' [-> Hl]. split; [done|]. pose proof (linked_frees _ _ _ _ _ HI' Hl) as Hf. simpl in Hf.
    destruct Hl as (g & bf0 & bf' & Hb0 & Had & -> & Hout & _ & Hinv). split_and!.
    + by replace (i + (2 ^ k + 2 ^ k)) with (i + 2 ^ k + 2 ^ k) by lia.
    + rewrite delete_insert_id in Hinv; [done|]. rewrite lookup_insert_ne by lia.
      eapply (ghost_inner s G i); eauto. simpl. lia.
    + rewrite msas_with_msas. apply Hout. simpl. lia.
    + exists bf'. split; [apply lookup_insert_eq|]. destruct Had as [[? _] _]. done.
Qed.

Lemma mm_reldpgsdivmsa_loop_spec cnt : forall s G mi r i,
  Inv s G -> G !! i = Some (GBlk GLimbo mi (2 ^ (r + Z.of_nat cnt))) -> 0 <= r ->
  r + Z.of_nat cnt < MDIVMER_ARR_LMAX -> head_at s i (2 ^ (r + Z.of_nat cnt)) ->
  wp (mm_reldpgsdivmsa_loop cnt (BLie mi (r + Z.of_nat cnt - 1)) i (2 ^ (r + Z.of_nat cnt))) s
    (fun d s' => d = 2 ^ r /\ frees s s' mi (i + 2 ^ r) (i + 2 ^ (r + Z.of_nat cnt)) /\
       Inv s' (<[i := GBlk GLimbo mi (2 ^ r)]> G) /\ head_at s' i (2 ^ r)).
Proof.
  induction cnt as [|cnt IH]; intros s G mi r i HI HG Hr Hmax Hh; cbn [mm_reldpgsdivmsa_loop].
  { rewrite Z.add_0_r in *. apply wp_ret. split_and!; [done|apply frees_refl| |done]. by rewrite insert_id. }
  set (k := r + Z.of_nat cnt). replace (r + Z.of_nat (S cnt)) with (k + 1) in * by lia.
  rewrite Z.add_simpl_r. pose proof (pow2_pos k ltac:(lia)) as Hp. pose proof (pow2_S k ltac:(lia)) as HS.
  assert (2 ^ (k + 1) <= 2 ^ 51) by (apply pow2_le; unfold MDIVMER_ARR_LMAX in *; lia).
  assert (exists bf, bafs s !! BLie mi k = Some bf) as [bf Hb].
  { apply (inv_dom _ _ HI). split; [|lia]. destruct (limbo_inv _ _ HI _ _ _ HG) as (ty & (a & ? & _) & _). eauto. }
  pose proof (inv_baf _ _ HI _ _ Hb) as (Hpnr & _). simpl in Hpnr.
  destruct Hh as (m & Hi & Ho & Hod). steps. rewrite Hod. steps. rewrite Hpnr.
  eapply wp_mono; [apply (split_step s G mi k i bf); auto; lia|].
  intros r' s1 (-> & Hf & HI1 & Hi1 & bf1 & Hb1 & Hpnr1). rewrite Hi in Hi1.
  steps. rewrite Hpnr1. rewrite (u64_small _) by (rewrite u64max_val; lia).
  replace (2 ^ (k + 1) - 2 ^ k) with (2 ^ k) by lia.
  change (bafhp_add (BLie mi k) (-1)) with (BLie mi (k - 1)).
  set (s2 := with_msas _ s1).
  assert (HI2 : Inv s2 (<[i := GBlk GLimbo mi (2 ^ k)]> G)).
  { eapply inv_set_end; eauto. apply lookup_insert_eq. }
  eapply wp_mono; [apply (IH s2 _ mi r i HI2); [apply lookup_insert_eq|lia|lia|]|].
  - eexists. split; [apply lookup_insert_eq|]. split; [done|]. cbn [md_odlink set_odlink]. f_equal. subst k. lia.
  - intros d s' (-> & Hf' & HI' & Hh'). rewrite insert_insert_eq in HI'. split_and!; auto.
    eapply (frees_app s s2); [|exact Hf|done]. pose proof (pow2_le r k ltac:(lia)). lia.
Qed.

(** ** Taking a block off a list *)

Lemma take_block s G b bf i l :
  Inv s G -> bafs s !! b = Some bf -> af_frelst bf = i :: l ->
  wp (mm_retnmsaob_onbafhlst (Some b)) s (fun r s' =>
    r = (true, Some i, Some (i + bsize b - 1)) /\ G !! i = None /\
    takes s s' (bafhp_area b) i (i + bsize b) /\
    Inv s' (<[i := GBlk GLimbo (bafhp_area b) (bsize b)]> G) /\
    limbo_head s' i (bsize b) /\ (1 < bsize b -> head_at s' i (bsize b)) /\
    exists bf', bafs s' !! b = Some bf' /\ af_oderpnr bf' = bsize b).
Proof.
  intros HI Hb Hl. assert (Hin : i ∈ af_frelst bf) by (rewrite Hl; set_solver).
  assert (Hh : has s G i (TFree b)) by (by exists bf).
  eapply wp_mono; [by eapply mm_retnmsaob_onbafhlst_spec|]. intros r s' (-> & bf' & Hrm & ->).
  destruct (free_end s G b i HI Hh) as (m & Hi & Hid & Hend).
  destruct (inv_has _ _ HI _ _ Hh) as (_ & _ & _ & _ & ms & me & Hms & Hme & Hbf & Hod & _).
  assert (msas s !! i = Some ms) by done. simplify_eq. split_and!.
  - done.
  - by eapply free_not_ghost.
  - by eapply removed_takes.
  - eapply inv_unlink; eauto; [apply Hrm|]. intros x. by eapply baf_removed_elem.
  - exists m. split; [done|]. destruct Hend as [[? E]|(? & ? & ?)]; [left|by right].
    split_and!; [done..|]. rewrite E, Z.add_simpl_r in Hme. congruence.
  - intros ?. exists m. split; [done|]. destruct Hend as [[? ?]|(? & ? & ?)]; [lia|done].
  - exists bf'. split; [apply lookup_insert_eq|]. apply Hrm.
Qed.

Lemma alloc_len_pow ty k : ty <> MA_TYPE_PROC -> 0 <= k < MDIVMER_ARR_LMAX -> alloc_len ty (2 ^ k).
Proof. intros. unfold alloc_len. if_lia. eauto. Qed.

Lemma pow2_lt_u64 k : 0 <= k < MDIVMER_ARR_LMAX -> 0 < 2 ^ k <= 2 ^ 51.
Proof. intros. split; [apply pow2_pos; lia|apply pow2_le; unfold MDIVMER_ARR_LMAX in *; lia]. Qed.

(** The block [mm_reldpgsdivmsa_bafhl] and its callers return: [n] pages from
    descriptor [i] of area [mi]. *)
Definition allocated (s : mmst) (G : ghost) (mi i n : Z) (s' : mmst) : Prop :=
  G !! i = None /\ takes s s' mi i (i + n) /\ Inv s' (<[i := GBlk GAlloc mi n]> G).

Lemma mm_reldpgsdivmsa_bafhl_spec s G mi ty pages r d bf i l :
  Inv s G -> area_type s mi ty -> ty <> MA_TYPE_PROC -> 1 <= pages ->
  0 <= r <= d -> d < MDIVMER_ARR_LMAX -> bafs s !! BLie mi d = Some bf -> af_frelst bf = i :: l ->
  wp (mm_reldpgsdivmsa_bafhl (Some mi) pages (Some (BLie mi r)) (Some (BLie mi d))) s
    (fun x s' => x = (Some i, 2 ^ r) /\ allocated s G mi i (2 ^ r) s').
Proof.
  intros HI Hty Hne Hpg Hr Hd Hb Hl. unfold mm_reldpgsdivmsa_bafhl. step. steps.
  pose proof (pow2_lt_u64 r ltac:(lia)) as Hr2. pose proof (pow2_lt_u64 d ltac:(lia)) as Hd2.
  destruct (decide (r = d)) as [->|Hrd].
  - rewrite bool_decide_eq_true_2 by done. step.
    eapply wp_mono; [by eapply take_block|]. intros x s1 (-> & HG & Htk & HI1 & Hhd & _ & bf1 & Hb1 & Hp1).
    simpl bsize in *. steps. rewrite Hp1. steps.
    eapply wp_mono; [eapply mm_divpages_opmsadsc_spec; [done|apply lookup_insert_eq|done| |apply alloc_len_pow; [done|lia]|lia]|].
    { destruct Htk as [[Ha _] _]. by rewrite area_type_frame. }
    intros x s2 (-> & g & -> & HI2). steps. rewrite Hp1. split; [done|]. split; [done|].
    rewrite insert_insert_eq in HI2. done.
  - rewrite bool_decide_eq_false_2 by congruence. step.
    eapply wp_mono; [by eapply take_block|]. intros x s1 (-> & HG & Htk & HI1 & _ & Hhd & bf1 & Hb1 & Hp1).
    simpl bsize in *. steps. rewrite Hp1. steps.
    cbn [bafhp_area bafhp_idx] in *. destruct (Z_of_nat_complete (d - r)) as [cnt Hcnt]; [lia|].
    replace (Z.to_nat (d - r)) with cnt by lia. assert (d = r + Z.of_nat cnt) as -> by lia.
    pose proof (pow2_lt r (r + Z.of_nat cnt) ltac:(lia)).
    assert (1 < 2 ^ (r + Z.of_nat cnt)) by lia.
    eapply wp_mono; [apply (mm_reldpgsdivmsa_loop_spec cnt s1 _ mi r i HI1); [apply lookup_insert_eq|lia..|auto]|].
    intros dv s2 (-> & Hfr & HI2 & m & Hi & Hhd2).
    assert (Htk2 : takes s s2 mi i (i + 2 ^ r)) by (eapply takes_frees; eauto; lia).
    assert (Hty2 : area_type s2 mi ty) by (destruct Htk2 as [[Ha _] _]; by rewrite area_type_frame).
    rewrite insert_insert_eq in HI2. step.
    eapply wp_mono; [eapply mm_divpages_opmsadsc_spec;
      [done|apply lookup_insert_eq|exists m; auto|done|apply alloc_len_pow; [done|lia]|lia]|].
    intros x s3 (-> & g & -> & HI3). rewrite insert_insert_eq in HI3.
    destruct (baf_lookup s2 _ mi r HI2) as (bf2 & Hb2 & Hp2 & _); [|lia|].
    { destruct Hty2 as (a & ? & _). eauto. }
    steps. rewrite Hp2. done.
Qed.

(** ** Areas and counters *)

Lemma find_marea_spec s G test ty :
  Inv s G -> (forall a, test a = (ma_type a =? ty)) ->
  wp (find_marea test) s (fun r s' => s' = s /\
    match r with Some mi => area_type s mi ty | None => forall mi, ~ area_type s mi ty end).
Proof.
  intros HI Ht. unfold find_marea. steps.
  pose (g := fun mi => match mareas s !! mi with
                       | Some a => if ma_type a =? ty then Some mi else None | None => None end).
  apply (wp_find_first_pure _ g).
  { intros mi Hmi%elem_of_seqZ. destruct (proj2 (inv_nr _ _ HI mi)) as [a Ha]; [lia|].
    unfold mbind, M_bind, get_ma, g. rewrite Ha, Ht. done. }
  destruct (hd_omap_seqZ g (mo_mareanr s) 0) as [[-> Hnone]|(d & v & -> & Hg & Hd & _)]; (split; [done|]).
  - intros mi (a & Ha & Hty). specialize (Hnone mi). unfold g in Hnone. rewrite Ha in Hnone.
    rewrite (proj2 (Z.eqb_eq _ _) Hty) in Hnone. discriminate Hnone. apply (inv_nr _ _ HI). eauto.
  - unfold g in Hg. destruct (mareas s !! d) as [a|] eqn:Ha; [|done].
    destruct (ma_type a =? ty) eqn:E; simplify_eq. exists a. split; [done|lia].
Qed.

(** Changing the counters of an area and of the manager. *)
Definition counted (s : mmst) (mi : Z) (a' : memarea_t) (fr al : Z) : mmst :=
  with_pages (mo_maxpages s) fr al (with_mareas (<[mi := a']> (mareas s)) s).

Lemma area_type_counted s mi a a' fr al mj ty :
  mareas s !! mi = Some a -> ma_type a' = ma_type a ->
  area_type (counted s mi a' fr al) mj ty <-> area_type s mj ty.
Proof.
  intros Ha Hty. unfold area_type. simpl. destruct (decide (mj = mi)) as [->|]; simplify_map_eq; [|done].
  split; intros (x & ? & ?); eexists; (split; [done|]); congruence.
Qed.

Lemma inv_counted s G mi a a' fr al :
  Inv s G -> mareas s !! mi = Some a -> ma_type a' = ma_type a -> Inv (counted s mi a' fr al) G.
Proof.
  intros HI Ha Hty.
  assert (Hat : forall mj ty, area_type (counted s mi a' fr al) mj ty <-> area_type s mj ty)
    by (intros mj ty; by apply (area_type_counted s mi a)).
  assert (Hsome : forall mj, is_Some (<[mi := a']> (mareas s) !! mj) <-> is_Some (mareas s !! mj)).
  { intros mj. destruct (decide (mj = mi)) as [->|]; simplify_map_eq; [split; eauto|done]. }
  split; try apply HI.
  - intros mj. simpl. rewrite Hsome. apply HI.
  - intros mj mk ty. rewrite !Hat. apply HI.
  - intros b. rewrite (inv_dom _ _ HI). unfold valid_bafhp. simpl. by rewrite Hsome.
  - intros i t Hh. apply (inv_has _ _ HI) in Hh. unfold tag_ok in *.
    destruct t as [b|[[|] mj n]]; destruct Hh as (ty & Hty' & Hh); exists ty; rewrite Hat; done.
Qed.

(** The state of the allocator between two operations: [G] is the set of
    allocated blocks. *)
Definition Ok (s : mmst) (G : ghost) : Prop := Inv s G /\ settled G /\ acct s G.

Definition add_pages (d : Z) (a : memarea_t) : memarea_t :=
  set_ma_pages (ma_maxpages a) (ma_allocpages a -u d) (ma_freepages a +u d) (ma_allmsadscnr a) a.
Definition sub_pages (d : Z) (a : memarea_t) : memarea_t :=
  set_ma_pages (ma_maxpages a) (ma_allocpages a +u d) (ma_freepages a -u d) (ma_allmsadscnr a) a.

Lemma ghostsum_nonneg G mi : (forall i g, G !! i = Some g -> 0 <= g_len g) -> 0 <= ghostsum G mi.
Proof.
  induction G as [|i g G Hi IH] using map_ind; [done|]. intros H. rewrite ghostsum_insert by done.
  pose proof (H i g (lookup_insert_eq _ _ _)).
  specialize (IH ltac:(intros j h Hj; apply (H j h); rewrite lookup_insert_ne; congruence)).
  destruct (_ =? _); lia.
Qed.

Lemma inv_ghostsum_nonneg s G mi : Inv s G -> 0 <= ghostsum G mi.
Proof.
  intros HI. apply ghostsum_nonneg. intros i g Hg.
  pose proof (has_size_pos _ _ _ _ HI (has_ghost s G _ _ Hg)). simpl in *. lia.
Qed.

(** An allocation leaves a consistent state once the counters are updated. *)
Lemma allocated_ok s G mi a i n s' fr al :
  Ok s G -> mareas s !! mi = Some a -> 0 < n -> allocated s G mi i n s' ->
  Ok (counted s' mi (sub_pages n a) fr al) (<[i := GBlk GAlloc mi n]> G).
Proof.
  intros (HI & Hset & Hac) Ha Hn (HG & ((Hma & _) & Hsum & _) & HI'). split_and!.
  - apply (inv_counted s' _ mi a); [done|by rewrite Hma|done].
  - intros j g. destruct (decide (j = i)) as [->|]; intros; simplify_map_eq; eauto.
  - intros mj aj. simpl. rewrite Hma. rewrite ghostsum_insert, Hsum by done. simpl.
    pose proof (freesum_nonneg (bafs s') mj) as Hnn. rewrite Hsum in Hnn.
    pose proof (inv_ghostsum_nonneg s G mj HI) as Hgn.
    destruct (decide (mj = mi)) as [->|]; intros; simplify_map_eq.
    + destruct (Hac mi a Ha) as (H1 & H2 & H3 & H4). rewrite Z.eqb_refl in *. simpl. rewrite H1, H2, H3 in *.
      rewrite !u64_small by (rewrite u64max_val; lia). split_and!; lia.
    + replace (mi =? mj) with false by lia. rewrite Z.sub_0_r, Z.add_0_l. by apply Hac.
Qed.

(** ** Allocation in an area *)

Lemma freesum_block s G b bf i l :
  Inv s G -> bafs s !! b = Some bf -> af_frelst bf = i :: l -> bsize b <= freesum (bafs s) (bafhp_area b).
Proof.
  intros HI Hb Hl. pose proof (freesum_ge s b (inv_valid _ _ HI _ _ Hb)) as H.
  unfold bsum in H. rewrite Hb, Hl in H. simpl length in H. pose proof (bsize_nonneg b). nia.
Qed.

Lemma log2_up_bound p : 1 <= p -> p <= 2 ^ Z.log2_up p.
Proof. intros H. destruct (decide (p = 1)) as [->|]; [done|]. by apply Z.log2_up_spec; lia. Qed.

(** A free block large enough passes the test on the counters of the area. *)
Lemma first_fit_fits s G mi a pages d i :
  Ok s G -> mareas s !! mi = Some a -> 1 <= pages -> first_fit s mi (Z.log2_up pages) d i ->
  pages <= ma_freepages a /\ pages <= ma_maxpages a.
Proof.
  intros (HI & _ & Hac) Ha Hp (Hd & (bf & l & Hb & Hl) & _).
  pose proof (freesum_block _ _ _ _ _ _ HI Hb Hl) as H. simpl in H.
  pose proof (log2_up_bound pages Hp). pose proof (Z.log2_up_nonneg pages).
  pose proof (pow2_le (Z.log2_up pages) d ltac:(lia)).
  destruct (Hac mi a Ha) as (-> & _ & -> & _). pose proof (inv_ghostsum_nonneg s G mi HI). lia.
Qed.

Lemma mm_reldivpages_onmarea_spec s G mi ty pages :
  Ok s G -> area_type s mi ty -> ty <> MA_TYPE_PROC -> 1 <= pages < u64max ->
  let r := Z.log2_up pages in
  wp (mm_reldivpages_onmarea (Some mi) pages) s (fun x s' =>
    (exists d i, first_fit s mi r d i /\ x = (Some i, 2 ^ r) /\ allocated s G mi i (2 ^ r) s') \/
    (x = (None, 0) /\ s' = s /\ no_free_from s mi r)).
Proof.
  intros HOk Hty Hne Hp r. pose proof HOk as (HI & Hset & Hac). destruct Hty as (a & Ha & Hta).
  unfold mm_reldivpages_onmarea. steps. unfold scan_mapgsalloc_ok. steps.
  pose proof (onmpgs_retn_bafhlst_spec s G mi pages HI ltac:(eauto) Hp) as Hsel. fold r in Hsel.
  apply wp_run in Hsel as (x & s1 & Hrun & -> & Hsel).
  destruct ((pages <=? ma_freepages a) && (pages <=? ma_maxpages a)) eqn:E; simpl.
  - step. rewrite (wp_det _ _ _ _ _ Hrun). destruct Hsel as [(d & i & -> & Hff)|[-> Hno]]; [|apply wp_ret; auto].
    pose proof Hff as (Hd & (bf & l & Hb & Hl) & _). steps.
    eapply wp_mono; [eapply mm_reldpgsdivmsa_bafhl_spec; eauto|].
    + by exists a.
    + lia.
    + pose proof (Z.log2_up_nonneg pages). lia.
    + lia.
    + intros x s2 (-> & Hall). steps. eauto 10.
  - apply wp_ret. right. split_and!; [done..|]. intros k bf Hk Hb. destruct (af_frelst bf) as [|i l] eqn:Hl; [done|exfalso].
    destruct Hsel as [(d & j & _ & Hff)|[_ Hno]].
    + pose proof (first_fit_fits s G mi a pages d j HOk Ha ltac:(lia) Hff). lia.
    + rewrite (Hno k bf Hk Hb) in Hl. done.
Qed.

Lemma mm_update_memarea_take s mi a n :
  mareas s !! mi = Some a ->
  wp (mm_update_memarea (Some mi) n 0) s (fun _ s' => s' = with_mareas (<[mi := sub_pages n a]> (mareas s)) s).
Proof. intros Ha. unfold mm_update_memarea. steps. done. Qed.

Lemma mm_update_memarea_give s mi a n :
  mareas s !! mi = Some a ->
  wp (mm_update_memarea (Some mi) n 1) s (fun _ s' => s' = with_mareas (<[mi := add_pages n a]> (mareas s)) s).
Proof. intros Ha. unfold mm_update_memarea. steps. done. Qed.

(** The state after a successful allocation of the block [i], [n]. *)
Definition alloc_post (s : mmst) (G : ghost) (mi i n : Z) (s' : mmst) : Prop :=
  G !! i = None /\ Ok s' (<[i := GBlk GAlloc mi n]> G) /\
  (forall j, i <= j < i + n -> freepg s mi j) /\
  (forall mj j, freepg s' mj j <-> freepg s mj j /\ ~ (i <= j < i + n)) /\
  (forall mj ty, area_type s' mj ty <-> area_type s mj ty) /\
  mo_freepages s' = mo_freepages s -u n /\ mo_alocpages s' = mo_alocpages s +u n.

Lemma take_counters s G mi a i n s1 (Q : unit -> mmst -> Prop) :
  Ok s G -> mareas s !! mi = Some a -> 0 < n -> allocated s G mi i n s1 ->
  (forall s', alloc_post s G mi i n s' -> Q tt s') ->
  wp (mm_update_memarea (Some mi) n 0) s1 (fun _ s2 => wp (mm_update_memmgrob n 0) s2 Q).
Proof.
  intros HOk Ha Hn Hall HQ. pose proof Hall as (HG & ((Hma & Hnr & Hmsa & Hmx & Hfr & Hal) & Hsum & Hpg & Hwas) & HI').
  eapply wp_mono; [apply (mm_update_memarea_take s1 mi a n); by rewrite Hma|]. intros _ s2 ->.
  unfold mm_update_memmgrob. steps. apply HQ. split_and!; [done| | |done| |by simpl; rewrite Hfr|by simpl; rewrite Hal].
  - by apply (allocated_ok s G mi a i n s1 (mo_freepages s1 -u n) (mo_alocpages s1 +u n)).
  - intros j Hj. by apply Hwas.
  - intros mj ty. rewrite (area_type_counted s1 mi a (sub_pages n a) (mo_freepages s1 -u n) (mo_alocpages s1 +u n)) by (done || by rewrite Hma).
    by rewrite area_type_frame.
Qed.

Lemma take_counters_k {A} s G mi a i n s1 (k : MM A) (Q : A -> mmst -> Prop) :
  Ok s G -> mareas s !! mi = Some a -> 0 < n -> allocated s G mi i n s1 ->
  (forall s', alloc_post s G mi i n s' -> wp k s' Q) ->
  wp (mm_update_memarea (Some mi) n 0) s1 (fun _ s2 => wp (mm_update_memmgrob n 0 ;; k) s2 Q).
Proof.
  intros HOk Ha Hn Hall HQ. eapply wp_mono; [by eapply (take_counters s G mi a i n s1 (fun _ s' => wp k s' Q))|].
  intros ? s2 Hw. by apply wp_bind.
Qed.

(** ** [DMF_RELDIV] *)

Lemma mm_divpages_core_rel s G mi ty pages :
  Ok s G -> area_type s mi ty -> ty = MA_TYPE_HWAD \/ ty = MA_TYPE_KRNL -> 1 <= pages < u64max ->
  let r := Z.log2_up pages in
  wp (mm_divpages_core mi pages DMF_RELDIV) s (fun x s' =>
    (exists d i, first_fit s mi r d i /\ x = (Some i, 2 ^ r) /\ alloc_post s G mi i (2 ^ r) s') \/
    (x = (None, 0) /\ s' = s /\ no_free_from s mi r)).
Proof.
  intros HOk Hty Hk Hp r. pose proof Hty as (a & Ha & Hta). unfold mm_divpages_core.
  steps.
  eapply wp_mono; [apply (mm_reldivpages_onmarea_spec s G mi ty); auto; unfold MA_TYPE_PROC, MA_TYPE_HWAD, MA_TYPE_KRNL in *; lia|].
  fold r. intros x s1 [(d & i & Hff & -> & Hall)|(-> & -> & Hno)].
  - assert (Hr0 : 0 < 2 ^ r) by (apply pow2_pos, Z.log2_up_nonneg).
    cbn beta iota. steps.
    eapply take_counters; eauto. intros s2 Hpost. apply wp_ret. left. by exists d, i.
  - cbn beta iota. step. rewrite bool_decide_eq_false_2 by naive_solver. apply wp_ret, wp_ret. auto.
Qed.

(** ** [DMF_MAXDIV] *)

(** [d] is the largest order with a free block, and [i] heads its list. *)
Definition last_fit (s : mmst) (mi d i : Z) : Prop :=
  0 <= d < MDIVMER_ARR_LMAX /\
  (exists bf l, bafs s !! BLie mi d = Some bf /\ af_frelst bf = i :: l) /\
  (forall k bf, d < k < MDIVMER_ARR_LMAX -> bafs s !! BLie mi k = Some bf -> af_frelst bf = []).

Lemma onma_retn_maxbafhlst_spec s G mi :
  Inv s G -> is_Some (mareas s !! mi) ->
  wp (onma_retn_maxbafhlst mi) s (fun x s' => s' = s /\
    ((exists d i, x = Some (BLie mi d) /\ last_fit s mi d i) \/ (x = None /\ no_free_from s mi 0))).
Proof.
  intros HI Ha. unfold onma_retn_maxbafhlst.
  replace (reverse (seqZ 0 MDIVMER_ARR_LMAX)) with ((fun t => 51 - t) <$> seqZ 0 MDIVMER_ARR_LMAX) by reflexivity.
  pose (g := fun li => match bafs s !! BLie mi li with
                       | Some x => if negb (list_empty (af_frelst x)) then Some (BLie mi li) else None
                       | None => None end).
  apply (wp_find_first_pure _ g).
  { intros k (t & -> & Ht%elem_of_seqZ)%list_elem_of_fmap. unfold MDIVMER_ARR_LMAX in Ht.
    destruct (baf_lookup s G mi (51 - t) HI Ha) as (bk & Hbk & Hpk & Hfk & _); [unfold MDIVMER_ARR_LMAX; lia|].
    unfold mbind, M_bind, get_baf, g. rewrite Hbk, Hfk, length_pos_cons. done. }
  rewrite omap_fmap. unfold no_free_from, last_fit, MDIVMER_ARR_LMAX.
  destruct (hd_omap_seqZ (g ∘ (fun t => 51 - t)) 52 0) as [[-> Hnone]|(d & v & -> & Hg & Hd & Hnone)]; (split; [done|]).
  - right. split; [done|]. intros k bk Hk Hbk. specialize (Hnone (51 - k) ltac:(lia)). unfold g, compose in Hnone.
    replace (51 - (51 - k)) with k in Hnone by lia. rewrite Hbk in Hnone. by destruct (af_frelst bk).
  - left. unfold g, compose in Hg. destruct (bafs s !! BLie mi (51 - d)) as [bd|] eqn:Hbd; [|done].
    destruct (af_frelst bd) as [|i l] eqn:Hl; simplify_eq/=. exists (51 - d), i. split; [done|].
    split_and!; [lia|lia|eauto|]. intros k bk Hk Hbk. specialize (Hnone (51 - k) ltac:(lia)). unfold g, compose in Hnone.
    replace (51 - (51 - k)) with k in Hnone by lia. rewrite Hbk in Hnone. by destruct (af_frelst bk).
Qed.

(** Taking the first block of a list and marking it. *)
Lemma take_and_mark s G b bf i l ty :
  Inv s G -> bafs s !! b = Some bf -> af_frelst bf = i :: l -> area_type s (bafhp_area b) ty -> alloc_len ty (bsize b) ->
  wp (mm_retnmsaob_onbafhlst (Some b)) s (fun r s1 => r = (true, Some i, Some (i + bsize b - 1)) /\
    (exists bf1, bafs s1 !! b = Some bf1 /\ af_oderpnr bf1 = bsize b) /\
    wp (mm_divpages_opmsadsc (Some i) (bsize b)) s1 (fun x s' =>
      x = Some i /\ bafs s' = bafs s1 /\ allocated s G (bafhp_area b) i (bsize b) s')).
Proof.
  intros HI Hb Hl Hty Hlen. eapply wp_mono; [by eapply take_block|].
  intros x s1 (-> & HG & Htk & HI1 & Hhd & _ & Hb1). split_and!; [done..|].
  pose proof (bsize_bound _ _ (inv_valid _ _ HI _ _ Hb)).
  eapply wp_mono; [eapply mm_divpages_opmsadsc_spec; [done|apply lookup_insert_eq|done| |done|lia]|].
  { destruct Htk as [[Ha _] _]. by rewrite area_type_frame. }
  intros x s2 (-> & g & -> & HI2). rewrite insert_insert_eq in HI2. done.
Qed.

Lemma mm_divpages_core_max s G mi ty pages :
  Ok s G -> area_type s mi ty -> ty = MA_TYPE_HWAD \/ ty = MA_TYPE_KRNL ->
  wp (mm_divpages_core mi pages DMF_MAXDIV) s (fun x s' =>
    (exists d i, last_fit s mi d i /\ x = (Some i, 2 ^ d) /\ alloc_post s G mi i (2 ^ d) s') \/
    (x = (None, 0) /\ s' = s /\ no_free_from s mi 0)).
Proof.
  intros HOk Hty Hk. pose proof HOk as (HI & _). pose proof Hty as (a & Ha & Hta). unfold mm_divpages_core.
  steps. unfold mm_maxdivpages_onmarea. steps.
  eapply wp_mono; [eapply onma_retn_maxbafhlst_spec; eauto|].
  intros x s1 (-> & [(d & i & -> & Hlf)|[-> Hno]]).
  - pose proof Hlf as (Hd & (bf & l & Hb & Hl) & _). pose proof (pow2_pos d ltac:(lia)). steps.
    eapply wp_mono; [eapply (take_and_mark s G (BLie mi d)); eauto|].
    { apply alloc_len_pow; [|done]. unfold MA_TYPE_PROC, MA_TYPE_HWAD, MA_TYPE_KRNL in *. lia. }
    intros x s2 (-> & (bf1 & Hb1 & Hp1) & Hw). simpl bsize in *. steps. rewrite Hp1.
    eapply wp_mono; [apply Hw|]. intros x s3 (-> & Hbs & Hall). rewrite <- Hbs in Hb1. steps. cbn beta iota. steps.
    rewrite Hp1. eapply take_counters; eauto. intros s4 Hpost. apply wp_ret. left. by exists d, i.
  - steps. cbn beta iota. steps. right. auto.
Qed.

(** ** [mm_division_pages] *)

Lemma onmrtype_retn_marea_spec s G mi ty :
  Inv s G -> area_type s mi ty -> wp (onmrtype_retn_marea ty) s (fun r s' => s' = s /\ r = Some mi).
Proof.
  intros HI Hty. eapply wp_mono; [by apply (find_marea_spec s G _ ty HI)|].
  intros [mj|] s' [-> H]; (split; [done|]); [f_equal; eapply (inv_types _ _ HI); eauto|].
  exfalso. by apply (H mi).
Qed.

(** The callers of [mm_divpages_core] pass its result on. *)
Lemma mm_division_pages_fwd s G mi ty pages flgs (Q : option Z * Z -> mmst -> Prop) :
  Inv s G -> area_type s mi ty -> ty = MA_TYPE_HWAD \/ ty = MA_TYPE_KRNL ->
  (forall n s', Q (None, n) s' -> n = 0) ->
  wp (mm_divpages_core mi pages flgs) s Q -> wp (mm_division_pages pages ty flgs) s Q.
Proof.
  intros HI Hty Hk HQ Hw. unfold mm_division_pages, mm_divpages_fmwk.
  replace (ty =? 0) with false by (unfold MA_TYPE_HWAD, MA_TYPE_KRNL in *; lia). steps.
  eapply wp_mono; [by eapply onmrtype_retn_marea_spec|]. intros r s1 [-> ->]. steps.
  eapply wp_mono; [apply Hw|]. intros [[i|] n] s2 H; [done|]. apply wp_ret, wp_ret. by rewrite <- (HQ _ _ H).
Qed.

Lemma mm_division_pages_rel s G mi ty pages :
  Ok s G -> area_type s mi ty -> ty = MA_TYPE_HWAD \/ ty = MA_TYPE_KRNL -> 1 <= pages < u64max ->
  let r := Z.log2_up pages in
  wp (mm_division_pages pages ty DMF_RELDIV) s (fun x s' =>
    (exists d i, first_fit s mi r d i /\ x = (Some i, 2 ^ r) /\ alloc_post s G mi i (2 ^ r) s') \/
    (x = (None, 0) /\ s' = s /\ no_free_from s mi r)).
Proof.
  intros HOk Hty Hk Hp r. eapply mm_division_pages_fwd; eauto; [apply HOk| |by eapply mm_divpages_core_rel].
  intros n s' [(d & i & _ & ? & _)|([= ->] & _)]; done.
Qed.

Lemma mm_division_pages_max s G mi ty pages :
  Ok s G -> area_type s mi ty -> ty = MA_TYPE_HWAD \/ ty = MA_TYPE_KRNL ->
  wp (mm_division_pages pages ty DMF_MAXDIV) s (fun x s' =>
    (exists d i, last_fit s mi d i /\ x = (Some i, 2 ^ d) /\ alloc_post s G mi i (2 ^ d) s') \/
    (x = (None, 0) /\ s' = s /\ no_free_from s mi 0)).
Proof.
  intros HOk Hty Hk. eapply mm_division_pages_fwd; eauto; [apply HOk| |by eapply mm_divpages_core_max].
  intros n s' [(d & i & _ & ? & _)|([= ->] & _)]; done.
Qed.

(** ** The process area *)

Definition proc_head (s : mmst) (mi i : Z) : Prop :=
  area_type s mi MA_TYPE_PROC /\ exists bf l, bafs s !! BOne mi = Some bf /\ af_frelst bf = i :: l.

Definition proc_empty (s : mmst) : Prop :=
  forall mi bf, area_type s mi MA_TYPE_PROC -> bafs s !! BOne mi = Some bf -> af_frelst bf = [].

Lemma mm_retnmsaob_onbafhlst_empty s b bf :
  bafs s !! b = Some bf -> af_frelst bf = [] ->
  wp (mm_retnmsaob_onbafhlst (Some b)) s (fun x s' => x = (false, None, None) /\ s' = s).
Proof.
  intros Hb Hl. unfold mm_retnmsaob_onbafhlst. step. step.
  destruct ((af_mobjnr bf <? 1) || (af_fobjnr bf <? 1)); [done|]. by rewrite Hl.
Qed.

Lemma scan_mapgsalloc_ok_spec s mi a pages :
  mareas s !! mi = Some a -> 1 <= pages ->
  wp (scan_mapgsalloc_ok (Some mi) pages) s
    (fun ok s' => s' = s /\ ok = (pages <=? ma_freepages a) && (pages <=? ma_maxpages a)).
Proof. intros Ha Hp. unfold scan_mapgsalloc_ok. steps. done. Qed.

Lemma proc_head_fits s G mi a i :
  Ok s G -> mareas s !! mi = Some a -> proc_head s mi i ->
  (1 <=? ma_freepages a) && (1 <=? ma_maxpages a) = true.
Proof.
  intros (HI & _ & Hac) Ha (_ & bf & l & Hb & Hl).
  pose proof (freesum_block _ _ _ _ _ _ HI Hb Hl) as H. simpl in H.
  destruct (Hac mi a Ha) as (-> & _ & -> & _). pose proof (inv_ghostsum_nonneg s G mi HI). lia.
Qed.

Lemma mm_prcdivpages_onmarea_spec s G mi i :
  Ok s G -> proc_head s mi i ->
  wp (mm_prcdivpages_onmarea (Some mi) 1) s (fun x s' => x = (Some i, 1) /\ allocated s G mi i 1 s').
Proof.
  intros HOk Hph. pose proof HOk as (HI & _ & _). pose proof Hph as ((a & Ha & Hta) & bf & l & Hb & Hl).
  unfold mm_prcdivpages_onmarea. steps.
  eapply wp_mono; [by apply (scan_mapgsalloc_ok_spec s mi a)|]. intros ok s1 [-> ->].
  rewrite (proc_head_fits s G mi a i) by done. steps.
  eapply wp_mono; [eapply (take_and_mark s G (BOne mi)); eauto; [by exists a|done]|].
  intros x s2 (-> & (bf1 & Hb1 & Hp1) & Hw). simpl bsize in *. steps.
  rewrite Hp1. eapply wp_mono; [apply Hw|]. intros x s3 (-> & Hbs & Hall). rewrite <- Hbs in Hb1. steps. by rewrite Hp1.
Qed.

Lemma divpages_procmarea_core_spec s G :
  Ok s G ->
  wp (divpages_procmarea_core 1) s (fun x s' =>
    (exists mi i, proc_head s mi i /\ x = (Some i, 1) /\ alloc_post s G mi i 1 s') \/
    (x = (None, 0) /\ s' = s /\ proc_empty s)).
Proof.
  intros HOk. pose proof HOk as (HI & _ & _). unfold divpages_procmarea_core, retn_procmarea. steps.
  eapply wp_mono; [apply (find_marea_spec s G _ MA_TYPE_PROC HI); intros; apply Z.eqb_sym|].
  intros [mi|] s1 [-> Hty].
  2:{ apply wp_ret. right. split_and!; [done..|]. intros mi bf H. by apply Hty in H. }
  pose proof Hty as (a & Ha & Hta). steps.
  eapply wp_mono; [by apply (scan_mapgsalloc_ok_spec s mi a)|]. intros ok s1 [-> ->].
  destruct (proj2 (inv_dom _ _ HI (BOne mi))) as [bf Hb]; [split; [eauto|done]|].
  destruct (af_frelst bf) as [|i l] eqn:Hl.
  - assert (Hemp : proc_empty s).
    { intros mj bj Hj Hbj. assert (mj = mi) as -> by (by eapply (inv_types _ _ HI)). congruence. }
    destruct (_ && _) eqn:E; [|apply wp_ret; auto]. cbn [negb]. step.
    unfold mm_prcdivpages_onmarea. steps.
    eapply wp_mono; [by apply (scan_mapgsalloc_ok_spec s mi a)|]. intros ok s1 [-> ->]. rewrite E. cbn [negb]. step.
    eapply wp_mono; [by eapply mm_retnmsaob_onbafhlst_empty|]. intros x s1 [-> ->]. steps. cbn beta iota. steps. auto.
  - assert (Hph : proc_head s mi i) by (split; eauto).
    rewrite (proc_head_fits s G mi a i) by done. steps.
    eapply wp_mono; [by apply mm_prcdivpages_onmarea_spec|]. intros x s1 [-> Hall]. cbn beta iota. steps.
    eapply take_counters_k; eauto; [lia|]. intros s2 Hpost. apply wp_ret. left. by exists mi, i.
Qed.

Lemma mm_divpages_procmarea_spec s G km :
  Ok s G -> area_type s km MA_TYPE_KRNL ->
  wp (mm_divpages_procmarea 1) s (fun x s' =>
    (exists mi i, proc_head s mi i /\ x = (Some i, 1) /\ alloc_post s G mi i 1 s') \/
    (proc_empty s /\ exists d i, first_fit s km 0 d i /\ x = (Some i, 1) /\ alloc_post s G km i 1 s') \/
    (x = (None, 0) /\ s' = s /\ proc_empty s /\ no_free_from s km 0)).
Proof.
  intros HOk Hkm. unfold mm_divpages_procmarea. steps.
  eapply wp_mono; [by apply divpages_procmarea_core_spec|].
  intros x s1 [(mi & i & Hh & -> & Hpost)|(-> & -> & Hemp)]; cbn beta iota; [apply wp_ret; left; eauto|]. step.
  eapply wp_mono; [apply (mm_division_pages_rel s G km MA_TYPE_KRNL 1); auto; by rewrite u64max_val|].
  change (Z.log2_up 1) with 0. change (2 ^ 0) with 1.
  intros x s1 [(d & i & Hff & -> & Hpost)|(-> & -> & Hno)]; cbn beta iota; apply wp_ret; eauto 10.
Qed.
