(* ===== verification/DivMerFree.v ===== *)
(** * Page allocator: release

    Behaviour of [mm_merge_pages]: the checks on the block, the unmarking of
    its ends, the merging with free neighbours and the effect on the free
    pages. *)

From S2P Require Import Prelude PhyMem DivMer DivMerInv DivMerOps DivMerAlloc.

(** ** Checks on an allocated block *)

Section freed.
Context (s : mmst) (G : ghost) (i mi n : Z) (HI : Inv s G) (HG : G !! i = Some (GBlk GAlloc mi n)).

Lemma alloc_inv : exists ty ms me,
  area_type s mi ty /\ alloc_len ty n /\ pagerun (msas s) ty i n /\ 0 < n <= 2 ^ 51 /\
  msas s !! i = Some ms /\ msas s !! (i + n - 1) = Some me /\ marty ms = ty /\ marty me = ty /\
  busy ms /\ busy me /\ olkty ms = MF_OLKTY_ODER /\ md_odlink ms = OL_MSA (i + n - 1) /\
  allpages (msas s) (i + 1) (n - 2) idle.
Proof using HI HG.
  destruct (inv_has _ _ HI _ _ (has_ghost s _ _ _ HG)) as (ty & Hty & Hlen & Hpr & ms & me & H1 & H2 & H3 & H4 & H5 & H6 & H7).
  exists ty, ms, me. pose proof Hpr as [Hn _].
  destruct (pagerun_lookup _ _ _ _ i Hpr) as (ms' & ? & ?); [lia|].
  destruct (pagerun_lookup _ _ _ _ (i + n - 1) Hpr) as (me' & ? & ?); [lia|]. simplify_eq.
  split_and!; auto. unfold alloc_len in Hlen. destruct (_ =? _); [lia|].
  destruct Hlen as (k & Hk & ->). by apply pow2_lt_u64.
Qed.

Lemma scan_freemsa_isok_spec : wp (scan_freemsa_isok (Some i) n) s (fun r s' => r = true /\ s' = s).
Proof using HI HG.
  destruct alloc_inv as (ty & ms & me & _ & _ & _ & Hn & Hs & He & _ & _ & [? ?] & [? ?] & Ho & Hod & _).
  unfold scan_freemsa_isok. steps. rewrite Hod. steps. split; [|done]. wrap. lia.
Qed.

Lemma onfrmsa_retn_marea_spec : wp (onfrmsa_retn_marea i n) s (fun r s' => r = Some mi /\ s' = s).
Proof using HI HG.
  destruct alloc_inv as (ty & ms & me & Hty & _ & _ & Hn & Hs & He & Hms & Hme & _ & _ & Ho & Hod & _).
  unfold onfrmsa_retn_marea. steps. rewrite Hod. steps.
  eapply wp_mono; [apply (find_marea_spec s G _ ty HI); intros; rewrite Hms; apply Z.eqb_sym|].
  intros [mj|] s' [-> H]; (split; [|done]); [f_equal; by eapply (inv_types _ _ HI)|]. exfalso. by apply (H mi).
Qed.
End freed.

Lemma onfpgs_retn_bafhlst_spec s G mi k :
  Inv s G -> is_Some (mareas s !! mi) -> 0 <= k < MDIVMER_ARR_LMAX ->
  wp (onfpgs_retn_bafhlst (Some mi) (2 ^ k)) s (fun x s' =>
    x = (true, Some (BLie mi k), Some (BLie mi (MDIVMER_ARR_LMAX - 1))) /\ s' = s).
Proof.
  intros HI Ha Hk. pose proof (pow2_lt_u64 k Hk). unfold onfpgs_retn_bafhlst.
  rewrite retn_divoder_log2_up by (rewrite u64max_val; lia). rewrite Z.log2_up_pow2 by lia.
  destruct (baf_lookup s G mi k HI Ha Hk) as (bf & Hb & Hpnr & Hf & Hm & _).
  pose proof (frelst_length _ _ _ _ HI Hb). simpl in Hpnr. steps. done.
Qed.

(** ** Unmarking the ends of a block *)

Lemma idle_set m m' :
  uindx m' = (uindx m - 1) mod 2 ^ 24 -> uindx m = 1 -> alloc m' = PAF_NO_ALLOC -> idle m'.
Proof. intros H' H ?. split; [|done]. by rewrite H', H. Qed.

Lemma mm_merpages_opmsadsc_spec s G i b bf :
  Inv s G -> G !! i = Some (GBlk GAlloc (bafhp_area b) (bsize b)) -> bafs s !! b = Some bf ->
  wp (mm_merpages_opmsadsc (Some b) (Some i) (bsize b)) s (fun x s' =>
    x = 2 /\ exists g, s' = with_msas g s /\ free_links g b i (bsize b) /\
      Inv s' (<[i := GBlk GLimbo (bafhp_area b) (bsize b)]> G)).
Proof.
  intros HI HG Hb. destruct (inv_baf _ _ HI _ _ Hb) as (Hpnr & _).
  destruct (alloc_inv s G i _ _ HI HG) as (ty & ms & me & Hty & _ & Hpr & Hn & Hs & He & Hms & Hme & [Hu Ha] & [Hu' Ha'] & Ho & Hod & Hin).
  unfold mm_merpages_opmsadsc. steps. rewrite Hod. steps.
  destruct (decide (bsize b = 1)) as [E|].
  - replace (i + bsize b - 1) with i in * by lia. assert (me = ms) as -> by congruence. steps.
    assert (Hz : uindx (set_uindx (uindx ms - 1) ms) = 0) by (unfold set_uindx, uindx; simpl; fold (uindx ms); rewrite Hu; done).
    rewrite Hz. cbn [Z.ltb Z.compare]. steps. split; [done|]. eexists. split; [done|]. split.
    + eexists _, _. split; [apply lookup_insert_eq|]. rewrite E, Z.add_simpl_r. split; [apply lookup_insert_eq|].
      split_and!; [done..|lia].
    + rewrite insert_twice. eapply inv_ends; eauto; simpl; [lia|].
      exists ty. split_and!; [done|by eapply ends_pagerun|].
      eapply (ends_allpages_in (msas s) i i ms ms); try done; [lia|by eapply idle_set..].
  - steps.
    assert (Hz : uindx (set_uindx (uindx ms - 1) ms) = 0) by (unfold set_uindx, uindx; simpl; fold (uindx ms); rewrite Hu; done).
    rewrite Hz. cbn [Z.ltb Z.compare]. steps. split; [done|]. eexists. split; [done|]. split.
    + eexists _, _. split; [rewrite lookup_insert_ne by lia; apply lookup_insert_eq|]. split; [apply lookup_insert_eq|].
      split_and!; done.
    + eapply inv_ends; eauto; simpl; [lia|].
      exists ty. split_and!; [done|by eapply ends_pagerun|].
      eapply (ends_allpages_in (msas s) i _ ms me); try done; by eapply idle_set.
Qed.

(** ** Comparing two blocks *)

(** A block as the merging routines see it: idle, contiguous and linked for
    the order [b]. *)
Definition blockat (g : gmap Z msadsc_t) (b : bafhp) (i : Z) : Prop :=
  (exists ty, pagerun g ty i (bsize b)) /\ allpages g i (bsize b) idle /\ free_links g b i (bsize b).

(** The page frame of descriptor [k] immediately follows that of [j]. *)
Definition pgnext (g : gmap Z msadsc_t) (j k : Z) : bool :=
  match g !! j, g !! k with Some m, Some m' => padrs m + 1 =? padrs m' | _, _ => false end.

(** What [mm_cmsa2blk_isok] answers about two blocks of [n] pages. *)
Definition cmsa2blk (g : gmap Z msadsc_t) (n i t : Z) : Z :=
  if (t =? i + n) && pgnext g (i + n - 1) t then 2
  else if (i =? t + n) && pgnext g (t + n - 1) i then 4 else 1.

Lemma blockat_ends g b i : blockat g b i ->
  0 < bsize b /\ exists ms me, g !! i = Some ms /\ g !! (i + bsize b - 1) = Some me /\ idle ms /\ idle me /\
    olkty me = MF_OLKTY_BAFH /\ md_odlink me = OL_BAFH b /\
    (1 < bsize b -> olkty ms = MF_OLKTY_ODER /\ md_odlink ms = OL_MSA (i + bsize b - 1)) /\
    padrs me - padrs ms = bsize b - 1.
Proof.
  intros ([ty Hpr] & Hid & ms & me & H1 & H2 & H3 & H4 & H5). pose proof Hpr as [Hn _].
  split; [done|]. exists ms, me. split_and!; auto; [by eapply Hid; eauto; lia..|].
  rewrite (pagerun_padrs _ _ _ _ i ms (i + bsize b - 1) me Hpr) by (auto; lia). lia.
Qed.

Lemma mm_cmsa1blk_isok_spec s b i :
  blockat (msas s) b i ->
  wp (mm_cmsa1blk_isok (Some b) (Some i) (Some (i + bsize b - 1))) s (fun r s' => r = 2 /\ s' = s).
Proof.
  intros Hb. destruct (blockat_ends _ _ _ Hb) as (Hn & ms & me & Hs & He & [Hu Ha] & [Hu' Ha'] & Ho & Hod & Hh & Hp).
  unfold mm_cmsa1blk_isok. steps. destruct (decide (bsize b = 1)) as [E|].
  - replace (i + bsize b - 1) with i in * by lia. steps. done.
  - destruct Hh as [Ho1 Hod1]; [lia|]. steps.
    replace (padrs me - padrs ms) with (i + bsize b - 1 - i) by lia. rewrite Z.eqb_refl. steps. done.
Qed.

Lemma mm_cmsa2blk_isok_spec s G b i t :
  Inv s G -> blockat (msas s) b i -> blockat (msas s) b t ->
  i + bsize b <= t \/ t + bsize b <= i ->
  wp (mm_cmsa2blk_isok (Some b) (Some i) (Some (i + bsize b - 1)) (Some t) (Some (t + bsize b - 1))) s
    (fun r s' => r = cmsa2blk (msas s) (bsize b) i t /\ s' = s).
Proof.
  intros HI Hi Ht Hd.
  destruct (blockat_ends _ _ _ Hi) as (Hn & msi & mei & Hsi & Hei & _).
  destruct (blockat_ends _ _ _ Ht) as (_ & mst & met & Hst & Het & _).
  pose proof (inv_padrs _ _ HI _ _ Hei). pose proof (inv_padrs _ _ HI _ _ Het).
  unfold mm_cmsa2blk_isok. steps.
  eapply wp_mono; [by apply mm_cmsa1blk_isok_spec|]. intros r s' [-> ->]. steps.
  eapply wp_mono; [by apply mm_cmsa1blk_isok_spec|]. intros r s' [-> ->]. steps.
  cbn [Z.eqb Pos.eqb andb]. unfold cmsa2blk, pgnext. rewrite Hei, Hst, Het, Hsi.
  destruct (decide (i < t)).
  - steps. replace (i =? t + bsize b) with false by lia. cbn [andb].
    destruct (decide (t = i + bsize b)) as [->|].
    + replace (i + bsize b - 1 + 1) with (i + bsize b) by lia. rewrite Z.eqb_refl. cbn [negb andb]. steps.
      wrap. destruct (_ =? _); done.
    + replace (t =? i + bsize b) with false by lia. steps. done.
  - replace ((i <? t) && _) with false by lia. steps. replace (t =? i + bsize b) with false by lia. cbn [andb].
    destruct (decide (i = t + bsize b)) as [->|].
    + replace (t + bsize b - 1 + 1) with (t + bsize b) by lia. rewrite Z.eqb_refl. cbn [negb andb]. steps.
      wrap. destruct (_ =? _); done.
    + replace (i =? t + bsize b) with false by lia. steps. done.
Qed.

(** ** Rewriting the links of two blocks *)

(** Changes of the links only: everything else of each descriptor is kept. *)
Definition core (m : msadsc_t) : Z * Z * Z * Z := (marty m, padrs m, uindx m, alloc m).
Definition relink (g g' : gmap Z msadsc_t) : Prop := forall j, core <$> g' !! j = core <$> g !! j.

Section relink.
Context (g g' : gmap Z msadsc_t).

Lemma relink_refl : relink g g.
Proof. done. Qed.

Lemma relink_insert j m m' : relink g g' -> g' !! j = Some m -> core m' = core m -> relink g (<[j := m']> g').
Proof.
  intros H Hj Hc k. destruct (decide (k = j)) as [->|]; [|by rewrite lookup_insert_ne].
  rewrite lookup_insert_eq, <- H, Hj. simpl. by rewrite Hc.
Qed.

Context (H : relink g g').

Lemma relink_lookup j m' : g' !! j = Some m' -> exists m, g !! j = Some m /\ core m' = core m.
Proof using H. intros Hj. specialize (H j). rewrite Hj in H. destruct (g !! j) as [m|]; [|done]. apply (inj Some) in H. eauto. Qed.

Lemma relink_lookup_inv j m : g !! j = Some m -> exists m', g' !! j = Some m' /\ core m' = core m.
Proof using H. intros Hj. specialize (H j). rewrite Hj in H. destruct (g' !! j) as [m'|]; [|done]. apply (inj Some) in H. eauto. Qed.

Lemma relink_dom : dom g' = dom g.
Proof using H.
  apply set_eq. intros j. rewrite !elem_of_dom. split; intros [m Hm].
  - apply relink_lookup in Hm as (? & ? & _). eauto.
  - apply relink_lookup_inv in Hm as (? & ? & _). eauto.
Qed.

Lemma relink_pagerun ty i n : pagerun g ty i n -> pagerun g' ty i n.
Proof using H.
  apply pagerun_frame. intros j m Hm. destruct (relink_lookup_inv j m Hm) as (m' & ? & [= ? ? ? ?]). eauto.
Qed.

Lemma relink_idle i n : allpages g i n idle -> allpages g' i n idle.
Proof using H.
  intros Hid j Hj m' Hm'. destruct (relink_lookup j m' Hm') as (m & Hm & [= ? ? Hu Ha]).
  unfold idle. rewrite Hu, Ha. by apply (Hid j).
Qed.
End relink.

(** Relinking inside a block in limbo. *)
Lemma inv_relink s G i mi n g :
  Inv s G -> G !! i = Some (GBlk GLimbo mi n) -> relink (msas s) g ->
  (forall j, ~ (i <= j < i + n) -> g !! j = msas s !! j) -> Inv (with_msas g s) G.
Proof.
  intros HI HG Hr Hout. destruct (limbo_inv _ _ HI _ _ _ HG) as (ty & Hty & Hpr & Hid).
  rewrite <- (insert_id G i _ HG). apply (inv_update s G HI i (GBlk GLimbo mi n)); auto.
  - by apply relink_dom.
  - intros j m Hm. destruct (relink_lookup _ _ Hr j m Hm) as (m0 & ? & [= ? ? ? ?]). eauto.
  - exists ty. split_and!; [done|by eapply relink_pagerun|by eapply relink_idle].
Qed.

Ltac relink_tac := repeat (first [apply relink_refl | eapply relink_insert; [|lk|reflexivity]]).

Lemma mm_clear_2msaolflg_spec s b' lo n :
  0 < n -> (forall j, lo <= j < lo + 2 * n -> is_Some (msas s !! j)) ->
  wp (mm_clear_2msaolflg (Some b') (Some lo) (Some (lo + n - 1)) (Some (lo + n)) (Some (lo + n + n - 1))) s
    (fun r s' => r = true /\ exists g, s' = with_msas g s /\ relink (msas s) g /\
      (forall j, ~ (lo <= j < lo + 2 * n) -> g !! j = msas s !! j) /\
      free_links g b' lo (2 * n) /\
      (1 < n -> forall j m, j = lo + n - 1 \/ j = lo + n -> g !! j = Some m ->
         olkty m = MF_OLKTY_INIT /\ md_odlink m = OL_NULL)).
Proof.
  intros Hn Hex.
  destruct (Hex lo ltac:(lia)) as [m1 H1]. destruct (Hex (lo + n - 1) ltac:(lia)) as [m2 H2].
  destruct (Hex (lo + n) ltac:(lia)) as [m3 H3]. destruct (Hex (lo + n + n - 1) ltac:(lia)) as [m4 H4].
  unfold mm_clear_2msaolflg. steps. destruct (decide (n = 1)) as [->|].
  - replace (lo + 1 - 1) with lo in * by lia. replace (lo + 1 + 1 - 1) with (lo + 1) in * by lia.
    assert (m2 = m1) as -> by congruence. assert (m4 = m3) as -> by congruence. clear H2 H4.
    steps. split; [done|]. eexists. split_and!; [done|relink_tac| | |lia].
    + intros j Hj. by rewrite !lookup_insert_ne by lia.
    + eexists _, _. replace (lo + 2 * 1 - 1) with (lo + 1) by lia.
      split; [lk|]. split; [lk|]. done.
  - steps. split; [done|]. eexists. split_and!; [done|relink_tac| | |].
    + intros j Hj. by rewrite !lookup_insert_ne by lia.
    + eexists _, _. replace (lo + 2 * n - 1) with (lo + n + n - 1) by lia.
      split; [lk|]. split; [lk|]. done.
    + intros _ j m [-> | ->]; repeat first [rewrite lookup_insert_eq | rewrite lookup_insert_ne by lia];
        intros [= <-]; done.
Qed.

Lemma chek_cl2molkflg_spec s b' bf lo n :
  0 < n <= 2 ^ 51 -> (forall j, lo <= j < lo + 2 * n -> is_Some (msas s !! j)) ->
  bafs s !! b' = Some bf -> af_oderpnr bf = 2 * n -> free_links (msas s) b' lo (2 * n) ->
  (1 < n -> forall j m, j = lo + n - 1 \/ j = lo + n -> msas s !! j = Some m ->
     olkty m = MF_OLKTY_INIT /\ md_odlink m = OL_NULL) ->
  wp (chek_cl2molkflg (Some b') (Some lo) (Some (lo + n - 1)) (Some (lo + n)) (Some (lo + n + n - 1))) s
    (fun r s' => r = true /\ s' = s).
Proof.
  intros Hn Hex Hb Hpnr (ms & me & H1 & H4 & Ho & Hod & Hms) Hin.
  destruct Hms as [Ho1 Hod1]; [lia|]. replace (lo + 2 * n - 1) with (lo + n + n - 1) in * by lia.
  destruct (Hex (lo + n - 1) ltac:(lia)) as [m2 H2]. destruct (Hex (lo + n) ltac:(lia)) as [m3 H3].
  unfold chek_cl2molkflg. steps. destruct (decide (n = 1)) as [->|].
  - steps. done.
  - destruct (Hin ltac:(lia) _ m2 (or_introl eq_refl) H2) as [? ?].
    destruct (Hin ltac:(lia) _ m3 (or_intror eq_refl) H3) as [? ?]. steps. done.
Qed.

(** Joining two adjacent blocks in limbo. *)
Lemma join_two s G R mi lo n :
  Inv s G -> G !! lo = Some (GBlk GLimbo mi n) -> G !! (lo + n) = Some (GBlk GLimbo mi n) ->
  pgnext (msas s) (lo + n - 1) (lo + n) = true ->
  <[lo := GBlk GLimbo mi (2 * n)]> (delete (lo + n) G) = R ->
  Inv s R /\ forall j, lo <= j < lo + 2 * n -> is_Some (msas s !! j).
Proof.
  intros HI H1 H2 Hn <-. unfold pgnext in Hn.
  destruct (msas s !! (lo + n - 1)) as [m|] eqn:Em, (msas s !! (lo + n)) as [m'|] eqn:Em'; try done.
  pose proof (inv_join s G HI lo mi n n m m' H1 H2 Em Em' ltac:(lia)) as HI'.
  replace (n + n) with (2 * n) in HI' by lia. split; [done|].
  intros j Hj. destruct (limbo_inv _ _ HI' lo mi (2 * n)) as (ty & _ & Hpr & _); [apply lookup_insert_eq|].
  destruct (pagerun_lookup _ _ _ _ j Hpr Hj) as (x & ? & _). eauto.
Qed.

(** The links rewritten and checked, as [mm_find_cmsa2blk] does. *)
Lemma relink_two {A} s R mi k lo b' (msg : string) (no : MM A) (yes : MM A) (Q : A -> mmst -> Prop) :
  Inv s (<[lo := GBlk GLimbo mi (2 * 2 ^ k)]> R) -> 0 <= k -> k + 1 < MDIVMER_ARR_LMAX -> b' = BLie mi (k + 1) ->
  (forall j, lo <= j < lo + 2 * 2 ^ k -> is_Some (msas s !! j)) ->
  (forall g, Inv (with_msas g s) (<[lo := GBlk GLimbo mi (2 * 2 ^ k)]> R) -> blockat g b' lo ->
     wp yes (with_msas g s) Q) ->
  let e1 := lo + 2 ^ k - 1 in let s2 := lo + 2 ^ k in let e2 := lo + 2 ^ k + 2 ^ k - 1 in
  wp (ok ← mm_clear_2msaolflg (Some b') (Some lo) (Some e1) (Some s2) (Some e2);
      if (ok : bool) then
        ck ← chek_cl2molkflg (Some b') (Some lo) (Some e1) (Some s2) (Some e2);
        die_if (negb ck) msg ;; yes
      else no) s Q.
Proof.
  intros HI Hk0 Hk -> Hex HQ e1 s2 e2. pose proof (pow2_lt_u64 k ltac:(lia)) as Hp.
  destruct (limbo_inv _ _ HI lo mi (2 * 2 ^ k)) as (ty & Hty & Hpr & Hid); [apply lookup_insert_eq|].
  step. eapply wp_mono; [apply (mm_clear_2msaolflg_spec s (BLie mi (k + 1)) lo (2 ^ k)); [lia|done]|].
  intros r s' (-> & g & -> & Hr & Hout & Hfl & Hin). step.
  assert (HI' : Inv (with_msas g s) (<[lo := GBlk GLimbo mi (2 * 2 ^ k)]> R)).
  { eapply inv_relink; eauto. apply lookup_insert_eq. }
  destruct (baf_lookup _ _ mi (k + 1) HI') as (bf' & Hb' & Hpnr & _); [|lia|].
  { destruct Hty as (a & ? & _). eauto. }
  simpl in Hpnr. rewrite pow2_S in Hpnr by lia.
  eapply wp_mono; [eapply (chek_cl2molkflg_spec _ _ bf' lo (2 ^ k)); eauto|].
  { intros j Hj. destruct (Hex j Hj) as [m Hm]. destruct (relink_lookup_inv _ _ Hr j m Hm) as (? & ? & _). eauto. }
  intros r s' [-> ->]. steps. apply HQ; [done|]. unfold blockat. simpl. rewrite pow2_S by lia.
  split_and!; [exists ty; by eapply relink_pagerun|by eapply relink_idle|done].
Qed.

(** ** Looking for a neighbour *)

Section find.
Context (s : mmst) (R : ghost) (b : bafhp) (bf : bafhlst_t) (i : Z).
Abbreviation n := (bsize b).
Abbreviation G := (<[i := GBlk GLimbo (bafhp_area b) n]> R).
Context (HI : Inv s G) (Hi : blockat (msas s) b i) (HR : R !! i = None) (Hb : bafs s !! b = Some bf).

Lemma free_blockat t : t ∈ af_frelst bf -> blockat (msas s) b t /\ (i + n <= t \/ t + n <= i).
Proof using All.
  intros Ht. assert (Hh : has s G t (TFree b)) by (by exists bf).
  destruct (inv_has _ _ HI _ _ Hh) as (ty & _ & Hpr & Hid & Hl). split; [split_and!; eauto|].
  assert (HG : G !! i = Some (GBlk GLimbo (bafhp_area b) n)) by apply lookup_insert_eq.
  destruct (inv_disj _ _ HI _ _ _ _ Hh (has_ghost s _ _ _ HG)) as [[_ ?]|[?|?]]; simpl in *; [done|lia|lia].
Qed.

(** A neighbour [t] of block [i], with the code [r] of its side. *)
Definition neighbour (r t : Z) : Prop :=
  cmsa2blk (msas s) n i t = r /\ (r = 2 /\ t = i + n \/ r = 4 /\ i = t + n).

Lemma cmsa2blk_cases t : cmsa2blk (msas s) n i t = 1 \/ exists r, neighbour r t.
Proof.
  unfold neighbour, cmsa2blk. destruct ((t =? _) && _) eqn:E1; [right; exists 2; lia|].
  destruct ((i =? _) && _) eqn:E2; [right; exists 4; lia|]. by left.
Qed.

Lemma find_cmsa2blk_scan_spec l r0 : r0 = 0 \/ r0 = 1 ->
  (forall t, t ∈ l -> t ∈ af_frelst bf) ->
  wp (find_cmsa2blk_scan b i (i + n - 1) l r0) s (fun x s' =>
    (exists r, (r = 0 \/ r = 1) /\ x = (r, None) /\ s' = s /\ (forall t, t ∈ l -> cmsa2blk (msas s) n i t = 1)) \/
    (exists r t bf', neighbour r t /\ x = (r, Some t) /\ t ∈ af_frelst bf /\ baf_removed b bf bf' t /\
       s' = with_bafs (<[b := bf']> (bafs s)) s)).
Proof using All.
  pose proof (inv_baf _ _ HI _ _ Hb) as (Hpnr & Hf & Hm & Hnd & Hst). pose proof (frelst_length _ _ _ _ HI Hb) as Hlen.
  revert r0. induction l as [|t l IH]; intros r0 Hr0 Hl; cbn [find_cmsa2blk_scan].
  { apply wp_ret. left. exists r0. split_and!; auto. set_solver. }
  destruct (free_blockat t ltac:(apply Hl; set_solver)) as [Ht Hd]. steps. rewrite Hpnr.
  replace (t + (n - 1)) with (t + n - 1) by lia.
  eapply wp_mono; [by apply (mm_cmsa2blk_isok_spec s G)|]. intros r s' [-> ->].
  destruct (cmsa2blk_cases t) as [E|[r Hnb]]; [rewrite E|].
  - cbn [Z.eqb Pos.eqb orb]. eapply wp_mono; [apply (IH 1); [auto|set_solver]|].
    intros x s' [(r & Hr & -> & -> & Hall)|Hfound]; [left|by right]. exists r. split_and!; auto. intros t' [->|?]%elem_of_cons; auto.
  - assert (Htin : t ∈ af_frelst bf) by (apply Hl; set_solver).
    pose proof Hnb as [-> Hcase]. replace ((2 =? r) || (4 =? r)) with true by lia. steps.
    right. eexists r, t, _. split_and!; [done..| |done]. split; [|done]. unfold baf_ok. simpl.
    rewrite length_filter_ne by done. apply list_elem_of_lookup_1 in Htin as Htin'. destruct Htin' as [kk Hkk%lookup_lt_Some].
    rewrite Hf, Hm. rewrite !u64_small by (rewrite u64max_val; lia). split_and!; auto. by apply NoDup_filter.
Qed.
End find.

Lemma mm_find_cmsa2blk_spec s R mi k bf i :
  let b := BLie mi k in
  let n := 2 ^ k in
  Inv s (<[i := GBlk GLimbo mi n]> R) -> blockat (msas s) b i -> R !! i = None -> bafs s !! b = Some bf ->
  0 <= k -> k + 1 < MDIVMER_ARR_LMAX ->
  wp (mm_find_cmsa2blk b i (i + n - 1)) s (fun x s' =>
    (x = (1, i, i + n - 1) /\ s' = s /\ forall t, t ∈ af_frelst bf -> cmsa2blk (msas s) n i t = 1) \/
    (exists lo t, x = (2, lo, lo + 2 * n - 1) /\ (lo = i /\ t = i + n \/ lo = t /\ i = t + n) /\
       takes s s' mi t (t + n) /\ Inv s' (<[lo := GBlk GLimbo mi (2 * n)]> R) /\ R !! lo = None /\
       blockat (msas s') (BLie mi (k + 1)) lo)).
Proof.
  intros b n HI Hi HR Hb Hk0 Hk. pose proof (pow2_pos k Hk0) as Hp. fold n in Hp.
  pose proof (inv_baf _ _ HI _ _ Hb) as (Hpnr & Hf & _). simpl in Hpnr.
  unfold mm_find_cmsa2blk. step. step. destruct (af_fobjnr bf <? 1) eqn:E.
  { apply wp_ret. left. split_and!; [done..|]. destruct (af_frelst bf); [set_solver|simpl in *; lia]. }
  step. eapply wp_mono; [apply (find_cmsa2blk_scan_spec s R b bf i HI Hi HR Hb); auto|].
  intros x s1 [(r & Hr & -> & -> & Hno)|(r & t & bf' & [Hcm Hside] & -> & Ht & Hrm & ->)].
  { replace ((0 =? r) || (1 =? r)) with true by lia. apply wp_ret. left. done. }
  set (G := <[i := GBlk GLimbo mi n]> R) in *.
  pose proof (removed_takes b bf bf' t s G HI Hb Ht Hrm) as Htk.
  pose proof (free_not_ghost s G HI t b ltac:(by exists bf)) as HGt.
  assert (HI1 : Inv (with_bafs (<[b := bf']> (bafs s)) s) (<[t := GBlk GLimbo mi n]> G)).
  { eapply (inv_unlink s G HI b bf bf'); eauto; [apply Hrm|]. intros x. by eapply baf_removed_elem. }
  set (s1 := with_bafs _ s) in *.
  assert (t <> i) by (intros ->; unfold G in HGt; by rewrite lookup_insert_eq in HGt).
  assert (HRt : R !! t = None) by (unfold G in HGt; by rewrite lookup_insert_ne in HGt).
  assert (Hb1 : bafs s1 !! b = Some bf') by apply lookup_insert_eq.
  assert (Hpnr1 : af_oderpnr bf' = n) by apply Hrm.
  unfold cmsa2blk in Hcm. change (bsize b) with n in *.
  destruct Hside as [[-> ->]|[-> Hit]]; cbn [Z.eqb Pos.eqb orb]; step; step; rewrite Hpnr1; cbn [Z.eqb Pos.eqb].
  - rewrite Z.eqb_refl in Hcm. destruct (pgnext (msas s) (i + n - 1) (i + n)) eqn:Hpg; [|cbn [andb] in Hcm; by destruct (_ && _)].
    destruct (join_two s1 _ (<[i := GBlk GLimbo mi (2 * n)]> R) mi i n HI1) as [HI2 Hex]; [|apply lookup_insert_eq|done| |].
    { rewrite lookup_insert_ne by lia. apply lookup_insert_eq. }
    { rewrite delete_insert_id by done. apply insert_insert_eq. }
    replace (i + n + (n - 1)) with (i + n + n - 1) by lia.
    apply (relink_two s1 R mi k i); auto. intros g HI3 Hbl. apply wp_ret. right. exists i, (i + n).
    split_and!; auto. do 2 f_equal. lia.
  - replace (t =? i + n) with false in Hcm by lia. rewrite Hit, Z.eqb_refl in Hcm. cbn [andb] in Hcm.
    destruct (pgnext (msas s) (t + n - 1) (t + n)) eqn:Hpg; [|done].
    destruct (join_two s1 _ (<[t := GBlk GLimbo mi (2 * n)]> R) mi t n HI1) as [HI2 Hex]; [apply lookup_insert_eq| |done| |].
    { rewrite lookup_insert_ne by lia. rewrite <- Hit. apply lookup_insert_eq. }
    { rewrite <- Hit, delete_insert_ne by done. rewrite insert_insert_eq. unfold G. by rewrite delete_insert_id. }
    replace (t + (n - 1)) with (t + n - 1) by lia. rewrite Hit.
    apply (relink_two s1 R mi k t); auto. intros g HI3 Hbl. apply wp_ret. right. exists t, t.
    split_and!; auto. do 2 f_equal. lia.
Qed.

(** ** The merging loop *)

(** From [s0], in which the [n0] pages at [i0] are in use, the block
    [lo .. hi-1] around them has been gathered from free blocks. *)
Definition merged (s0 s : mmst) (mi i0 n0 lo hi : Z) : Prop :=
  sframe s0 s /\ lo <= i0 /\ 0 <= n0 /\ i0 + n0 <= hi /\
  (forall mj, freesum (bafs s) mj = freesum (bafs s0) mj - (if mi =? mj then hi - lo - n0 else 0)) /\
  (forall mj j, freepg s mj j <-> freepg s0 mj j /\ ~ (lo <= j < hi)) /\
  (forall mj j, lo <= j < hi -> ~ (i0 <= j < i0 + n0) -> freepg s0 mj j <-> mj = mi) /\
  (forall mj j, i0 <= j < i0 + n0 -> ~ freepg s0 mj j).

Lemma merged_step s0 s s' mi i0 n0 lo hi t n lo' hi' :
  0 <= n -> merged s0 s mi i0 n0 lo hi -> takes s s' mi t (t + n) ->
  lo' = lo /\ t = hi /\ hi' = hi + n \/ lo' = t /\ lo = t + n /\ hi' = hi ->
  merged s0 s' mi i0 n0 lo' hi'.
Proof.
  intros Hn (Hf & Hlo & Hn0 & Hhi & Hs & Hp & Ha & Hna) (Hf' & Hs' & Hp' & Ha') Hc.
  split_and!; [eauto with cosmos|lia..| | | |done].
  - intros mj. rewrite Hs', Hs. destruct (mi =? mj); lia.
  - intros mj j. rewrite Hp', Hp. split; [intros [[? ?] ?]|intros [? ?]]; (split_and!; [done|lia..]).
  - intros mj j Hj Hout. destruct (decide (lo <= j < hi)); [by apply Ha|].
    rewrite <- (Ha' mj j) by lia. rewrite Hp. tauto.
Qed.

Lemma merged_frees s0 s s' mi i0 n0 lo hi :
  merged s0 s mi i0 n0 lo hi -> frees s s' mi lo hi -> frees s0 s' mi i0 (i0 + n0).
Proof.
  intros (Hf & Hlo & Hn0 & Hhi & Hs & Hp & Ha & Hna) (Hf' & Hs' & Hp'). split_and!; [eauto with cosmos| |].
  - intros mj. rewrite Hs', Hs. destruct (mi =? mj); lia.
  - intros mj j. rewrite Hp', Hp. split.
    + intros [[? ?]|[<- Hj]]; [auto|]. destruct (decide (i0 <= j < i0 + n0)); [auto|left]. by apply (Ha mi j).
    + intros [?|[<- ?]]; [|right; split; [done|lia]].
      destruct (decide (lo <= j < hi)); [|auto]. right. split; [|done].
      destruct (decide (i0 <= j < i0 + n0)); [|symmetry; by apply (Ha mj j)].
      exfalso. by apply (Hna mj j).
Qed.

Section merge.
Context (R : ghost) (mi : Z) (s0 : mmst) (i0 n0 : Z).

(** Loop invariant: the block gathered so far is the order-[k] block [lo]. *)
Definition gathered (s : mmst) (k lo : Z) : Prop :=
  0 <= k < MDIVMER_ARR_LMAX /\ Inv s (<[lo := GBlk GLimbo mi (2 ^ k)]> R) /\ R !! lo = None /\
  blockat (msas s) (BLie mi k) lo /\ merged s0 s mi i0 n0 lo (lo + 2 ^ k).

(** No free block of the same order is physically adjacent. *)
Definition isolated (s : mmst) (k lo : Z) : Prop :=
  forall bf t, bafs s !! BLie mi k = Some bf -> t ∈ af_frelst bf -> cmsa2blk (msas s) (2 ^ k) lo t = 1.

Lemma gathered_baf s k lo : gathered s k lo -> exists bf, bafs s !! BLie mi k = Some bf.
Proof.
  intros (Hk & HI & _). destruct (limbo_inv _ _ HI lo mi (2 ^ k)) as (ty & (a & Ha & _) & _); [apply lookup_insert_eq|].
  destruct (baf_lookup s _ mi k HI ltac:(eauto) Hk) as (bf & ? & _). eauto.
Qed.

Lemma mm_merpages_loop_spec cnt : forall s k lo,
  gathered s k lo -> Z.of_nat cnt = MDIVMER_ARR_LMAX - 1 - k ->
  wp (mm_merpages_loop cnt (BLie mi k) lo (lo + 2 ^ k - 1)) s (fun x s' => exists k' lo',
    x = (BLie mi k', lo', lo' + 2 ^ k' - 1) /\ gathered s' k' lo' /\ k <= k' /\
    (k' < MDIVMER_ARR_LMAX - 1 -> isolated s' k' lo')).
Proof.
  induction cnt as [|cnt IH]; intros s k lo Hg Hcnt; cbn [mm_merpages_loop].
  { apply wp_ret. exists k, lo. split_and!; auto; lia. }
  destruct (gathered_baf _ _ _ Hg) as [bf Hb]. pose proof Hg as (Hk & HI & HR & Hbl & Hm).
  pose proof (pow2_pos k ltac:(lia)). step.
  eapply wp_mono; [apply (mm_find_cmsa2blk_spec s R mi k bf lo); auto; lia|].
  intros x s' [(-> & -> & Hno)|(lo' & t & -> & Hside & Htk & HI' & HR' & Hbl')]; cbn beta iota.
  - cbn [Z.eqb Pos.eqb]. apply wp_ret. exists k, lo. split_and!; auto; [lia|].
    intros _ bf' t Hbf'. simplify_eq. auto.
  - cbn [Z.eqb Pos.eqb]. steps. change (bafhp_add (BLie mi k) 1) with (BLie mi (k + 1)).
    rewrite <- (pow2_S k) in * by lia.
    eapply wp_mono; [apply (IH s' (k + 1) lo'); [|lia]|].
    + split_and!; auto; [lia..|].
      eapply merged_step; [|apply Hm|apply Htk|]; [lia|]. rewrite pow2_S by lia.
      destruct Hside as [[-> ->]|[-> ->]]; [left|right]; lia.
    + intros x s2 (k' & lo2 & -> & Hg2 & ? & Hiso). exists k', lo2. split_and!; auto. lia.
Qed.
End merge.

Lemma cmsa2blk_frame g g' n i t :
  (forall j, padrs <$> g' !! j = padrs <$> g !! j) -> cmsa2blk g' n i t = cmsa2blk g n i t.
Proof.
  intros H. assert (Hp : forall j k, pgnext g' j k = pgnext g j k).
  { intros j k. unfold pgnext. pose proof (H j). pose proof (H k).
    destruct (g !! j), (g' !! j), (g !! k), (g' !! k); simplify_eq/=; congruence. }
  unfold cmsa2blk. by rewrite !Hp.
Qed.

(** The pages [i .. i+n-1] are part of a free block that no free block of its
    order adjoins (unless it has the largest order). *)
Definition coalesced (s : mmst) (mi i n : Z) : Prop :=
  exists k lo bf, 0 <= k < MDIVMER_ARR_LMAX /\ lo <= i /\ i + n <= lo + 2 ^ k /\
    bafs s !! BLie mi k = Some bf /\ lo ∈ af_frelst bf /\
    (k < MDIVMER_ARR_LMAX - 1 -> forall t, t ∈ af_frelst bf -> t <> lo -> cmsa2blk (msas s) (2 ^ k) lo t = 1).

(** Releasing one page run: the gathered block is linked. *)
Lemma mm_merpages_onbafhlst_spec s0 s R mi k i :
  gathered R mi s0 i (2 ^ k) s k i ->
  wp (mm_merpages_onbafhlst i (2 ^ k) (BLie mi k) (BLie mi (MDIVMER_ARR_LMAX - 1))) s (fun x s' =>
    x = true /\ frees s0 s' mi i (i + 2 ^ k) /\ Inv s' R /\ coalesced s' mi i (2 ^ k)).
Proof.
  intros Hg. unfold mm_merpages_onbafhlst. step. replace (i + (2 ^ k - 1)) with (i + 2 ^ k - 1) by lia.
  pose proof Hg as (Hk & _). cbn [bafhp_idx].
  eapply wp_mono; [apply (mm_merpages_loop_spec R mi s0 i (2 ^ k)); [done|lia]|].
  intros x s1 (k' & lo & -> & Hg' & _ & Hiso). cbn beta iota.
  destruct (gathered_baf _ _ _ _ _ _ _ _ Hg') as [bf Hb]. destruct Hg' as (Hk' & HI' & HR & _ & Hm).
  eapply wp_mono; [apply (mpobf_add_msadsc_spec s1 _ (BLie mi k') bf lo _ HI'); [apply lookup_insert_eq|done..]|].
  intros x s2 [-> Hl]. split; [done|]. pose proof (linked_frees _ _ _ _ _ HI' Hl) as Hf.
  destruct Hl as (g & bf0 & bf' & Hb0 & Had & -> & _ & Hpa & HI2). split_and!.
  - by eapply merged_frees.
  - by rewrite delete_insert_id in HI2.
  - exists k', lo, bf'. destruct Hm as (_ & ? & _ & ? & _). destruct Had as (_ & _ & Hfl).
    split_and!; auto; [apply Hk'|apply Hk'|apply lookup_insert_eq|rewrite Hfl; set_solver|].
    intros Hlt t Ht Hne. rewrite (cmsa2blk_frame (msas s1)) by done.
    apply (Hiso Hlt bf0); [done|]. rewrite Hfl in Ht. set_solver.
Qed.

(** ** [mm_merge_pages] *)

(** The state after the release of the block [i] of [n] pages. *)
Definition free_post (s : mmst) (G : ghost) (mi i n : Z) (s' : mmst) : Prop :=
  Ok s' (delete i G) /\
  (forall mj j, freepg s' mj j <-> freepg s mj j \/ (mi = mj /\ i <= j < i + n)) /\
  (forall mj ty, area_type s' mj ty <-> area_type s mj ty) /\
  mo_freepages s' = mo_freepages s +u n /\ mo_alocpages s' = mo_alocpages s -u n.

Lemma ghostsum_ge s G i g : Inv s G -> G !! i = Some g -> g_len g <= ghostsum G (g_area g).
Proof.
  intros HI Hg. pose proof (ghostsum_delete G i g (g_area g) Hg) as H. rewrite Z.eqb_refl in H.
  assert (0 <= ghostsum (delete i G) (g_area g)); [|lia].
  apply ghostsum_nonneg. intros j h Hh%lookup_delete_Some.
  pose proof (has_size_pos _ _ _ _ HI (has_ghost s G _ _ (proj2 Hh))). simpl in *. lia.
Qed.

Lemma freed_ok s G mi a i n s' fr al :
  Ok s G -> mareas s !! mi = Some a -> G !! i = Some (GBlk GAlloc mi n) ->
  frees s s' mi i (i + n) -> Inv s' (delete i G) ->
  Ok (counted s' mi (add_pages n a) fr al) (delete i G).
Proof.
  intros (HI & Hset & Hac) Ha HG ((Hma & _) & Hsum & _) HI'.
  pose proof (has_size_pos _ _ _ _ HI (has_ghost s G _ _ HG)) as Hpos. simpl in Hpos. split_and!.
  - apply (inv_counted s' _ mi a); [done|by rewrite Hma|done].
  - intros j g [_ Hj]%lookup_delete_Some. eauto.
  - intros mj aj. simpl. rewrite Hma. rewrite (ghostsum_delete G i _ mj HG), Hsum. simpl.
    pose proof (freesum_nonneg (bafs s) mj) as Hnn.
    pose proof (ghostsum_ge s G i _ HI HG) as Hge. simpl in Hge.
    destruct (decide (mj = mi)) as [->|]; intros; simplify_map_eq.
    + destruct (Hac mi a Ha) as (H1 & H2 & H3 & H4). rewrite Z.eqb_refl in *. simpl. rewrite H1, H2, H3 in *.
      rewrite !u64_small by (rewrite u64max_val; lia). split_and!; lia.
    + replace (mi =? mj) with false by lia. rewrite Z.sub_0_r, Z.add_0_r. by apply Hac.
Qed.

Lemma give_counters {A} s G mi a i n s1 (k : MM A) (Q : A -> mmst -> Prop) :
  Ok s G -> mareas s !! mi = Some a -> G !! i = Some (GBlk GAlloc mi n) ->
  frees s s1 mi i (i + n) -> Inv s1 (delete i G) ->
  (forall s', free_post s G mi i n s' -> bafs s' = bafs s1 -> msas s' = msas s1 -> wp k s' Q) ->
  wp (mm_update_memarea (Some mi) n 1) s1 (fun _ s2 => wp (mm_update_memmgrob n 1 ;; k) s2 Q).
Proof.
  intros HOk Ha HG Hfr HI1 HQ. pose proof Hfr as ((Hma & _ & _ & _ & Hfp & Hal) & _ & Hpg).
  eapply wp_mono; [apply (mm_update_memarea_give s1 mi a n); by rewrite Hma|]. intros _ s2 ->.
  step. unfold mm_update_memmgrob. steps. apply HQ; [|done..]. split_and!; [|done| |by simpl; rewrite Hfp|by simpl; rewrite Hal].
  - by apply (freed_ok s G mi a i n s1 (mo_freepages s1 +u n) (mo_alocpages s1 -u n)).
  - intros mj ty. rewrite (area_type_counted s1 mi a (add_pages n a) (mo_freepages s1 +u n) (mo_alocpages s1 -u n)) by (done || by rewrite Hma).
    by rewrite area_type_frame.
Qed.

(** The pages of an allocated block are not free. *)
Lemma ghost_not_free s G i g mj j : Inv s G -> G !! i = Some g -> i <= j < i + g_len g -> ~ freepg s mj j.
Proof.
  intros HI HG Hj (b & bf & st & _ & Hb & Hst & Hr).
  destruct (has_unique s G i (TGhost g) st (TFree b) j HI) as [_ ?]; [done|by exists bf|done..].
Qed.

Lemma gathered_init s G mi i k g :
  Inv s G -> G !! i = Some (GBlk GAlloc mi (2 ^ k)) -> 0 <= k < MDIVMER_ARR_LMAX ->
  free_links g (BLie mi k) i (2 ^ k) -> Inv (with_msas g s) (<[i := GBlk GLimbo mi (2 ^ k)]> G) ->
  gathered (delete i G) mi s i (2 ^ k) (with_msas g s) k i.
Proof.
  intros HI HG Hk Hfl HI1. pose proof (pow2_pos k ltac:(lia)).
  destruct (limbo_inv _ _ HI1 i mi (2 ^ k)) as (ty & Hty & Hpr & Hid); [apply lookup_insert_eq|].
  split_and!; [lia|lia|by rewrite insert_delete_eq|apply lookup_delete_eq| |].
  - split_and!; [by exists ty|done|done].
  - assert (Hna : forall mj j, i <= j < i + 2 ^ k -> ~ freepg s mj j).
    { intros mj j Hj. by apply (ghost_not_free s G i (GBlk GAlloc mi (2 ^ k))). }
    split_and!; [done|lia..| | |lia|done].
    + intros mj. rewrite Z.add_simpl_l, Z.sub_diag. destruct (_ =? _); simpl; lia.
    + intros mj j. split; [|by intros [? _]]. intros Hf. split; [done|]. intros Hj. by apply (Hna mj j).
Qed.

Lemma mm_merpages_onmarea_spec s G mi i n :
  Ok s G -> G !! i = Some (GBlk GAlloc mi n) ->
  wp (mm_merpages_onmarea (Some mi) (Some i) n) s (fun x s' =>
    x = true /\ free_post s G mi i n s' /\ (area_type s mi MA_TYPE_PROC \/ coalesced s' mi i n)).
Proof.
  intros HOk HG. pose proof HOk as (HI & _ & _).
  destruct (alloc_inv s G i mi n HI HG) as (ty & _ & _ & (a & Ha & Hta) & Hlen & _ & Hn & _).
  unfold mm_merpages_onmarea. steps. unfold alloc_len in Hlen. rewrite Hta.
  destruct (ty =? MA_TYPE_PROC) eqn:E; bool_to_prop.
  - subst n. destruct (proj2 (inv_dom _ _ HI (BOne mi))) as [bf Hb]; [split; [eauto|done]|]. steps.
    eapply wp_mono; [by apply (mm_merpages_opmsadsc_spec s G i (BOne mi) bf)|].
    intros x s1 (-> & g & -> & Hfl & HI1). cbn [Z.eqb Pos.eqb]. steps.
    eapply wp_mono; [apply (mpobf_add_msadsc_spec _ _ (BOne mi) bf i _ HI1); [apply lookup_insert_eq|done|simpl; lia]|].
    intros x s2 [-> Hl]. pose proof (linked_frees _ _ _ _ _ HI1 Hl) as Hf. simpl in Hf.
    destruct Hl as (g2 & bf0 & bf' & _ & _ & -> & _ & _ & HI2). rewrite delete_insert_eq in HI2. steps.
    eapply give_counters; eauto. intros s3 Hpost _ _. apply wp_ret. split_and!; [done..|left]. exists a. split; [done|lia].
  - destruct Hlen as (k & Hk & ->). step.
    eapply wp_mono; [by apply (onfpgs_retn_bafhlst_spec s G mi k); eauto|]. intros x s1 [-> ->]. steps.
    destruct (baf_lookup s G mi k HI ltac:(eauto) Hk) as (bf & Hb & _).
    eapply wp_mono; [by apply (mm_merpages_opmsadsc_spec s G i (BLie mi k) bf)|].
    intros x s1 (-> & g & -> & Hfl & HI1). cbn [Z.eqb Pos.eqb]. step.
    eapply wp_mono; [eapply mm_merpages_onbafhlst_spec, gathered_init; eauto|].
    intros x s2 (-> & Hf & HI2 & Hco). step.
    eapply give_counters; eauto. intros s3 Hpost Hbs Hms. apply wp_ret. split_and!; [done..|right].
    destruct Hco as (k' & lo & bf' & Hco). exists k', lo, bf'. rewrite Hbs, Hms. done.
Qed.

Lemma mm_merge_pages_spec s G mi i n :
  Ok s G -> G !! i = Some (GBlk GAlloc mi n) ->
  wp (mm_merge_pages (Some i) n) s (fun x s' =>
    x = true /\ free_post s G mi i n s' /\ (area_type s mi MA_TYPE_PROC \/ coalesced s' mi i n)).
Proof.
  intros HOk HG. pose proof HOk as (HI & _ & _).
  pose proof (has_size_pos _ _ _ _ HI (has_ghost s G _ _ HG)) as Hpos. simpl in Hpos.
  unfold mm_merge_pages, mm_merpages_fmwk. steps.
  eapply wp_mono; [by apply (onfrmsa_retn_marea_spec s G i mi n)|]. intros x s1 [-> ->].
  unfold mm_merpages_core. steps.
  eapply wp_mono; [by apply (scan_freemsa_isok_spec s G i mi n)|]. intros x s1 [-> ->]. steps.
  by apply mm_merpages_onmarea_spec.
Qed.
