(* ===== verification/Marea.v ===== *)
(** * Memory areas: hal/x86/memarea.c

    Construction of the areas and of their free lists at boot.  The pointers
    of the C code into the descriptor array are indices into [msas]; the
    out-parameters are results.  The spin locks, the ARC lists and the
    [mafuncobjs_t] table, which nothing reads, are left out. *)

From S2P Require Import Prelude PhyMem DivMer.

Definition MMSTUS_ERR : Z := 0.

Definition bafhlst_t_init (stus oder oderpnr : Z) : bafhlst_t :=
  Bafhlst stus oder oderpnr 0 0 0 0 [] [] [].

Definition put_baf (b : bafhp) (x : bafhlst_t) : MM unit :=
  modify (fun s => with_bafs (<[b := x]> (bafs s)) s).
Definition put_ma (mi : Z) (a : memarea_t) : MM unit :=
  modify (fun s => with_mareas (<[mi := a]> (mareas s)) s).

Definition memdivmer_t_init (mi : Z) : MM unit :=
  for_each (seqZ 0 MDIVMER_ARR_LMAX) (fun li =>
    put_baf (BLie mi li) (bafhlst_t_init BAFH_STUS_DIVM li (1 <<u li))) ;;
  put_baf (BOne mi) (bafhlst_t_init BAFH_STUS_ONEM 0 1).

Definition memarea0 : memarea_t := Memarea 0 0 MA_TYPE_INIT 0 0 0 0 0 0 0 0 0.

Definition memarea_t_init (mi : Z) : MM unit :=
  put_ma mi memarea0 ;; memdivmer_t_init mi.

(** The body of [init_memarea_core] once the place of the array is checked. *)
Definition init_memarea_areas : MM unit :=
  for_each (seqZ 0 MEMAREA_MAX) memarea_t_init ;;
  upd_ma 0 (set_ma_logic MA_TYPE_HWAD MA_HWAD_LSTART MA_HWAD_LEND MA_HWAD_LSZ) ;;
  upd_ma 1 (set_ma_logic MA_TYPE_KRNL MA_KRNL_LSTART MA_KRNL_LEND MA_KRNL_LSZ) ;;
  upd_ma 2 (set_ma_logic MA_TYPE_PROC MA_PROC_LSTART MA_PROC_LEND MA_PROC_LSZ) ;;
  upd_ma 3 (fun a => set_ma_logic MA_TYPE_SHAR (ma_logicstart a) (ma_logicend a) (ma_logicsz a) a).

(** ** Runs of free descriptors *)

(** The [switch (mareap->ma_type)] that builds [mdfp]: the value of
    [mdfp->mf_marty], [None] for the default case. *)
Definition area_marty (ty : Z) : option Z :=
  if ty =? MA_TYPE_HWAD then Some MF_MARTY_HWD
  else if ty =? MA_TYPE_KRNL then Some MF_MARTY_KRL
  else if ty =? MA_TYPE_PROC then Some MF_MARTY_PRC
  else None.

(** The test of one descriptor that the scanning routines share. *)
Definition msa_is_free (m : msadsc_t) (cmp : Z) : bool :=
  (marty m =? cmp) && (0 =? uindx m) && (MF_MOCTY_FREE =? mocty m) && (PAF_NO_ALLOC =? alloc m).

Definition continumsadsc_is_ok (prevmsa nextmsa : msadsc_t) (cmp : Z) : Z :=
  if msa_is_free prevmsa cmp then
    if msa_is_free nextmsa cmp then
      if phyadr nextmsa -u phyadr prevmsa =? PAGESIZE then 2 else 1
    else 1
  else 0.

(** The loop of [scan_len_msadsc], [n] iterations from [mstat[tmdx]]: the
    result and [*retmnr]. *)
Fixpoint scan_len_loop (n : nat) (mstat cmp tmdx retnr : Z) : MM (bool * Z) :=
  match n with
  | O => mret (true, retnr)
  | S n' =>
      p ← get_msa (mstat + tmdx);
      q ← get_msa (mstat + (tmdx + 1));
      let retclok := continumsadsc_is_ok p q cmp in
      if retclok =? 0 then mret (false, 0) else
      if retclok =? 1 then mret (true, retnr) else
      scan_len_loop n' mstat cmp (tmdx + 1) (retnr + 1)
  end.

Definition scan_len_msadsc (mstat cmp mnr : Z) : MM (bool * Z) :=
  if mnr =? 0 then mret (false, 0) else scan_len_loop (Z.to_nat (mnr - 1)) mstat cmp 0 0.

(** The loop of [check_continumsadsc]: [None] is the early [return 0]. *)
Fixpoint check_continu_loop (n : nat) (ms cmp ok : Z) : MM (option Z) :=
  match n with
  | O => mret (Some ok)
  | S n' =>
      p ← get_msa ms;
      q ← get_msa (ms + 1);
      if negb (marty p =? cmp) || negb (marty q =? cmp) then mret None else
      if negb (MF_MOCTY_FREE =? mocty p) || negb (MF_MOCTY_FREE =? mocty q) then mret None else
      if negb (uindx p =? 0) || negb (uindx q =? 0) then mret None else
      if negb (PAF_NO_ALLOC =? alloc p) || negb (PAF_NO_ALLOC =? alloc q) then mret None else
      if negb (PAGESIZE =? phyadr q -u phyadr p) then mret None else
      check_continu_loop n' (ms + 1) cmp (ok + 1)
  end.

Definition check_continumsadsc (mareap stat en fmnr : Z) : MM Z :=
  if (fmnr =? 0) || (en <? stat) then mret 0 else
  a ← get_ma mareap;
  match area_marty (ma_type a) with
  | None => mret 0
  | Some cmp =>
      if stat =? en then
        m ← get_msa stat;
        if negb (uindx m =? 0) then mret 0 else
        if negb (marty m =? cmp) then mret 0 else
        if negb (MF_MOCTY_FREE =? mocty m) then mret 0 else
        if negb (PAF_NO_ALLOC =? alloc m) then mret 0 else
        if negb (1 =? fmnr) then mret 0 else mret 1
      else
        r ← check_continu_loop (Z.to_nat (en - stat)) stat cmp 0;
        match r with
        | None => mret 0
        | Some ok => if ok =? 0 then mret 0 else if negb (ok + 1 =? fmnr) then mret 0 else mret ok
        end
  end.

(** The loop of [merlove_scan_continumsadsc]: the first descriptor from
    [tmidx] on that is free in the area. *)
Fixpoint scan_first_free (n : nat) (fmstat cmp tmidx : Z) : MM (option Z) :=
  match n with
  | O => mret None
  | S n' =>
      m ← get_msa (fmstat + tmidx);
      if msa_is_free m cmp then mret (Some tmidx) else scan_first_free n' fmstat cmp (tmidx + 1)
  end.

(** The results are the C result and [*fntmsanr], [*retmsastatp],
    [*retmsaendp], [*retfmnr]. *)
Definition merlove_scan_continumsadsc (mareap fmstat fntmsanr fmsanr : Z)
    : MM (bool * Z * option Z * option Z * Z) :=
  if (fmsanr =? 0) || (fmsanr <=? fntmsanr) then mret (false, fntmsanr, None, None, 0) else
  a ← get_ma mareap;
  match area_marty (ma_type a) with
  | None => mret (false, fntmsanr, None, None, 0)
  | Some cmp =>
      r ← scan_first_free (Z.to_nat (fmsanr - fntmsanr)) fmstat cmp fntmsanr;
      match r with
      | Some tmidx =>
          x ← scan_len_msadsc (fmstat + tmidx) cmp fmsanr;
          let '(rets, retfindmnr) := x in
          die_if (negb rets) "scan_len_msadsc err" ;;
          mret (true, tmidx + retfindmnr + 1, Some (fmstat + tmidx), Some (fmstat + tmidx + retfindmnr),
                retfindmnr + 1)
      | None => mret (true, fmsanr, None, None, 0)
      end
  end.

(** ** Assigning descriptors to areas *)

Definition in_area (a : memarea_t) (m : msadsc_t) : bool :=
  (ma_logicstart a <=? phyadr m) && (phyadr m +u PAGESIZE -u 1 <=? ma_logicend a).

Fixpoint setallmarflgs_loop (n : nat) (mstat mix : Z) (a : memarea_t) (cmp retnr : Z) : MM Z :=
  match n with
  | O => mret retnr
  | S n' =>
      m ← get_msa (mstat + mix);
      if (MF_MARTY_INIT =? marty m) && in_area a m then
        upd_msa (mstat + mix) (set_marty cmp) ;;
        setallmarflgs_loop n' mstat (mix + 1) a cmp (retnr + 1)
      else setallmarflgs_loop n' mstat (mix + 1) a cmp retnr
  end.

Definition merlove_setallmarflgs_onmemarea (mareap mstat msanr : Z) : MM Z :=
  if msanr =? 0 then mret ones64 else
  a ← get_ma mareap;
  if ma_type a =? MA_TYPE_SHAR then mret 0 else
  match area_marty (ma_type a) with
  | None => mret ones64
  | Some cmp => setallmarflgs_loop (Z.to_nat msanr) mstat 0 a cmp 0
  end.

Fixpoint test_setflgs_loop (n : nat) (mstat mix : Z) (a : memarea_t) (cmp retnr : Z) : MM Z :=
  match n with
  | O => mret retnr
  | S n' =>
      m ← get_msa (mstat + mix);
      test_setflgs_loop n' mstat (mix + 1) a cmp
        (if in_area a m && (marty m =? cmp) then retnr + 1 else retnr)
  end.

Definition test_setflgs (mareap mstat msanr : Z) : MM Z :=
  if msanr =? 0 then mret ones64 else
  a ← get_ma mareap;
  if ma_type a =? MA_TYPE_SHAR then mret 0 else
  match area_marty (ma_type a) with
  | None => mret ones64
  | Some cmp => test_setflgs_loop (Z.to_nat msanr) mstat 0 a cmp 0
  end.

(** ** Filling the free lists *)

(** The [for] loop of [find_continumsa_inbafhlst] from order [li]: the last
    order that fits, and [in]. *)
Fixpoint find_continumsa_loop (n : nat) (mareap fmnr li : Z) (ret : option bafhp) (cnt : Z) : MM (option bafhp * Z) :=
  match n with
  | O => mret (ret, cnt)
  | S n' =>
      b ← get_baf (BLie mareap li);
      if af_oderpnr b <=? fmnr then find_continumsa_loop n' mareap fmnr (li + 1) (Some (BLie mareap li)) (cnt + 1)
      else find_continumsa_loop n' mareap fmnr (li + 1) ret cnt
  end.

Definition find_continumsa_inbafhlst (mareap fmnr : Z) : MM (option bafhp) :=
  if fmnr =? 0 then mret None else
  a ← get_ma mareap;
  if MA_TYPE_PROC =? ma_type a then mret (Some (BOne mareap)) else
  if MA_TYPE_SHAR =? ma_type a then mret None else
  r ← find_continumsa_loop (Z.to_nat MDIVMER_ARR_LMAX) mareap fmnr 0 None 0;
  let '(retbafhp, cnt) := r in
  if MDIVMER_ARR_LMAX <=? cnt then mret None else mret retbafhp.

Definition bump_ma (n : Z) (a : memarea_t) : memarea_t :=
  set_ma_pages (ma_maxpages a +u n) (ma_allocpages a) (ma_freepages a +u n) (ma_allmsadscnr a +u n) a.

Fixpoint add_procmareabafh_loop (n : nat) (mareap : Z) (bp : bafhp) (fstat tmpnr : Z) : MM unit :=
  match n with
  | O => mret tt
  | S n' =>
      upd_msa (fstat + tmpnr) (set_olkty MF_OLKTY_BAFH) ;;
      upd_msa (fstat + tmpnr) (set_odlink (OL_BAFH bp)) ;;
      baf_list_add bp (fstat + tmpnr) ;;
      upd_baf bp (fun b => set_fobjnr (af_fobjnr b +u 1) b) ;;
      upd_baf bp (fun b => set_mobjnr (af_mobjnr b +u 1) b) ;;
      upd_ma mareap (bump_ma 1) ;;
      add_procmareabafh_loop n' mareap bp fstat (tmpnr + 1)
  end.

Definition continumsadsc_add_procmareabafh (mareap : Z) (bp : bafhp) (fstat fend fmnr : Z) : MM bool :=
  if fmnr =? 0 then mret false else
  b ← get_baf bp;
  a ← get_ma mareap;
  if negb (BAFH_STUS_ONEM =? af_stus b) || negb (MA_TYPE_PROC =? ma_type a) then mret false else
  if negb (af_oderpnr b =? 1) then mret false else
  if negb (fstat + (fmnr - 1) =? fend) then mret false else
  add_procmareabafh_loop (Z.to_nat fmnr) mareap bp fstat 0 ;;
  mret true.

Definition continumsadsc_add_bafhlst (mareap : Z) (bp : bafhp) (fstat fend fmnr : Z) : MM bool :=
  if fmnr =? 0 then mret false else
  b ← get_baf bp;
  if negb (af_oderpnr b =? fmnr) then mret false else
  if negb (fstat + (fmnr - 1) =? fend) then mret false else
  upd_msa fstat (set_olkty MF_OLKTY_ODER) ;;
  upd_msa fstat (set_odlink (OL_MSA fend)) ;;
  upd_msa fend (set_olkty MF_OLKTY_BAFH) ;;
  upd_msa fend (set_odlink (OL_BAFH bp)) ;;
  baf_list_add bp fstat ;;
  upd_baf bp (fun b => set_fobjnr (af_fobjnr b +u 1) b) ;;
  upd_baf bp (fun b => set_mobjnr (af_mobjnr b +u 1) b) ;;
  upd_ma mareap (bump_ma fmnr) ;;
  mret true.

(** The results are the C result and [*rfstat], [*rfend], [*rfmnr]. *)
Definition continumsadsc_mareabafh_core (mareap mstat : Z) (mend : option Z) (rfmnr : Z)
    : MM (bool * Z * option Z * Z) :=
  let fail := (false, mstat, mend, rfmnr) in
  if rfmnr <? 1 then mret fail else
  bafhp ← find_continumsa_inbafhlst mareap rfmnr;
  match bafhp with
  | None => mret fail
  | Some bp =>
      b ← get_baf bp;
      if rfmnr <? af_oderpnr b then mret fail else
      a ← get_ma mareap;
      if ((BAFH_STUS_DIVP =? af_stus b) || (BAFH_STUS_DIVM =? af_stus b)) && negb (MA_TYPE_PROC =? ma_type a) then
        let tmpmnr := rfmnr -u af_oderpnr b in
        ok ← continumsadsc_add_bafhlst mareap bp mstat (mstat + (af_oderpnr b - 1)) (af_oderpnr b);
        if negb ok then mret fail else
        if tmpmnr =? 0 then mret (true, mstat, None, tmpmnr) else
        b ← get_baf bp;
        mret (true, mstat + af_oderpnr b, mend, tmpmnr)
      else if (BAFH_STUS_ONEM =? af_stus b) && (MA_TYPE_PROC =? ma_type a) then
        match mend with
        | None => mret fail
        | Some me =>
            ok ← continumsadsc_add_procmareabafh mareap bp mstat me rfmnr;
            if negb ok then mret fail else mret (true, mstat, None, 0)
        end
      else mret fail
  end.

Fixpoint merlove_continu_loop (fuel : nat) (mareap fstat : Z) (fend : option Z) (mnridx : Z) : MM unit :=
  if (0 <? mnridx) && bool_decide (fend <> None) then
    match fuel with
    | O => nofuel
    | S fuel' =>
        r ← continumsadsc_mareabafh_core mareap fstat fend mnridx;
        let '(ok, fstat, fend, mnridx) := r in
        die_if (negb ok) "continumsadsc_mareabafh_core fail" ;;
        merlove_continu_loop fuel' mareap fstat fend mnridx
    end
  else mret tt.

Definition merlove_continumsadsc_mareabafh (mareap mstat mend mnr : Z) : MM bool :=
  if mnr =? 0 then mret false else
  merlove_continu_loop (Z.to_nat mnr) mareap mstat (Some mend) mnr ;;
  mret true.

Fixpoint merlove_mem_loop (fuel : nat) (mareap mstat msanr fntmnr : Z) : MM unit :=
  if fntmnr <? msanr then
    match fuel with
    | O => nofuel
    | S fuel' =>
        r ← merlove_scan_continumsadsc mareap mstat fntmnr msanr;
        let '(retscan, fntmnr, st, en, retfindmnr) := r in
        die_if (negb retscan) "merlove_scan_continumsadsc fail" ;;
        match st, en with
        | Some st, Some en =>
            c ← check_continumsadsc mareap st en retfindmnr;
            die_if (c =? 0) "check_continumsadsc fail" ;;
            ok ← merlove_continumsadsc_mareabafh mareap st en retfindmnr;
            die_if (negb ok) "merlove_continumsadsc_mareabafh fail" ;;
            merlove_mem_loop fuel' mareap mstat msanr fntmnr
        | _, _ => merlove_mem_loop fuel' mareap mstat msanr fntmnr
        end
    end
  else mret tt.

Definition merlove_mem_onmemarea (mareap mstat msanr : Z) : MM bool :=
  if msanr =? 0 then mret false else
  a ← get_ma mareap;
  if MA_TYPE_SHAR =? ma_type a then mret true else
  if MA_TYPE_INIT =? ma_type a then mret false else
  merlove_mem_loop (Z.to_nat msanr) mareap mstat msanr 0 ;;
  mret true.

(** [for (mi in l) if (f(mi) == FALSE) return FALSE; return TRUE;] *)
Fixpoint all_areas (l : list Z) (f : Z -> MM bool) : MM bool :=
  match l with
  | [] => mret true
  | mi :: l' => ok ← f mi; if (ok : bool) then all_areas l' f else mret false
  end.

Definition merlove_mem_core (mb_memmapnr mb_memznnr : Z) : MM bool :=
  ok ← all_areas (seqZ 0 mb_memznnr) (fun mi =>
         sretf ← merlove_setallmarflgs_onmemarea mi 0 mb_memmapnr;
         if sretf =? ones64 then mret false else
         tretf ← test_setflgs mi 0 mb_memmapnr;
         if tretf =? ones64 then mret false else
         mret (sretf =? tretf));
  if negb ok then mret false else
  all_areas (seqZ 0 mb_memznnr) (fun maidx => merlove_mem_onmemarea maidx 0 mb_memmapnr).

(** ** Consistency check of the free lists *)

Fixpoint check_multi_loop (n : nat) (mstat mi : Z) (a : memarea_t) (idx : Z) : MM Z :=
  match n with
  | O => mret (idx + 1)
  | S n' =>
      p ← get_msa (mstat + mi);
      q ← get_msa (mstat + (mi + 1));
      if negb (marty p =? ma_type a) then mret 0 else
      if negb (PAF_NO_ALLOC =? alloc p) || negb (0 =? uindx p) then mret 0 else
      if negb (PAF_NO_ALLOC =? alloc q) || negb (0 =? uindx q) then mret 0 else
      if negb (phyadr p +u PAGESIZE =? phyadr q) then mret 0 else
      if (phyadr p <? ma_logicstart a) || (ma_logicend a <? phyadr q +u PAGESIZE -u 1) then mret 0 else
      check_multi_loop n' mstat (mi + 1) a (idx + 1)
  end.

Definition check_multi_msadsc (mstat : Z) (bafhp : bafhp) (mareap : Z) : MM Z :=
  m ← get_msa mstat;
  if negb (MF_OLKTY_ODER =? olkty m) && negb (MF_OLKTY_BAFH =? olkty m) then mret 0 else
  if bool_decide (md_odlink m = OL_NULL) then mret 0 else
  mend ← (if MF_OLKTY_BAFH =? olkty m then mret (Some mstat) else as_msa (md_odlink m));
  match mend with
  | None => mret 0
  | Some mend =>
      let mnr := u64 (mend - mstat + 1) in
      b ← get_baf bafhp;
      if negb (mnr =? af_oderpnr b) then mret 0 else
      e ← get_msa mend;
      if negb (MF_OLKTY_BAFH =? olkty e) then mret 0 else
      if bool_decide (md_odlink e <> OL_BAFH bafhp) then mret 0 else
      a ← get_ma mareap;
      if mnr =? 1 then
        if negb (marty m =? ma_type a) then mret 0 else
        if negb (PAF_NO_ALLOC =? alloc m) || negb (0 =? uindx m) then mret 0 else
        if (phyadr m <? ma_logicstart a) || (ma_logicend a <? phyadr m +u PAGESIZE -u 1) then mret 0 else
        mret 1
      else check_multi_loop (Z.to_nat (mnr - 1)) mstat 0 a 0
  end.

Fixpoint check_frelst (l : list Z) (bafhp : bafhp) (mareap lindx : Z) : MM (option Z) :=
  match l with
  | [] => mret (Some lindx)
  | msap :: l' =>
      b ← get_baf bafhp;
      c ← check_multi_msadsc msap bafhp mareap;
      if negb (af_oderpnr b =? c) then mret None else check_frelst l' bafhp mareap (lindx + 1)
  end.

Definition check_one_bafhlst (bafhp : bafhp) (mareap : Z) : MM bool :=
  b ← get_baf bafhp;
  if (af_mobjnr b <? 1) && (af_fobjnr b <? 1) then mret true else
  r ← check_frelst (af_frelst b) bafhp mareap 0;
  match r with
  | None => mret false
  | Some lindx => mret ((lindx =? af_fobjnr b) && (lindx =? af_mobjnr b))
  end.

Definition check_one_memarea (mareap : Z) : MM bool :=
  a ← get_ma mareap;
  if ma_maxpages a <? 1 then mret true else
  ok ← all_areas (seqZ 0 MDIVMER_ARR_LMAX) (fun li => check_one_bafhlst (BLie mareap li) mareap);
  if negb ok then mret false else
  check_one_bafhlst (BOne mareap) mareap.

Definition mem_check_mareadata (mb_memznnr : Z) : MM unit :=
  for_each (seqZ 0 mb_memznnr) (fun maidx =>
    ok ← check_one_memarea maidx; die_if (negb ok) "check_one_memarea fail").

Definition init_merlove_mem (mb_memmapnr mb_memznnr : Z) : MM unit :=
  ok ← merlove_mem_core mb_memmapnr mb_memznnr;
  die_if (negb ok) "merlove_mem_core fail" ;;
  mem_check_mareadata mb_memznnr.
