(* ===== verification/MareaInit.v ===== *)
(** * Memory areas: the boot-time construction establishes the invariant

    [init_memarea] and [init_merlove_mem] turn an array of fresh descriptors
    into a consistent allocator state whose free pages are exactly the free
    descriptors of each area. *)

From S2P Require Import Prelude PhyMem DivMer DivMerInv DivMerOps DivMerAlloc Marea.

(** ** A run of free descriptors becomes a block *)

Lemma inv_adopt s G i mi n ty :
  Inv s G -> area_type s mi ty -> pagerun (msas s) ty i n -> allpages (msas s) i n idle ->
  (forall j t, has s G j t -> j + tsize t <= i \/ i + n <= j) ->
  G !! i = None /\ Inv s (<[i := GBlk GLimbo mi n]> G).
Proof.
  intros HI Hty Hpr Hid Hd. pose proof Hpr as [Hn _]. assert (HG : G !! i = None).
  { destruct (G !! i) as [g|] eqn:Hg; [exfalso|done]. pose proof (has_ghost s G i g Hg) as Hh.
    pose proof (has_size_pos _ _ _ _ HI Hh). specialize (Hd _ _ Hh). lia. }
  split; [done|].
  apply (inv_subst s G _ _ i (i + n) [] [(i, TGhost (GBlk GLimbo mi n))]); auto; [apply HI|apply HI| | |].
  - intros j [b|g] Hh; [left; split; [done|set_solver]|]. unfold has in Hh.
    destruct (decide (j = i)) as [->|]; simplify_map_eq; [right; set_solver|left; split; [done|set_solver]].
  - intros j u Hin. apply list_elem_of_singleton in Hin as [= -> ->]. simpl. split_and!; [lia..|]. by exists ty.
  - intros j t k u Hj Hk. left. set_solver.
Qed.

(** Raising the counters of an area. *)
Definition raised (s : mmst) (mi : Z) (a' : memarea_t) : mmst := with_mareas (<[mi := a']> (mareas s)) s.

Lemma inv_raised s G mi a a' :
  Inv s G -> mareas s !! mi = Some a -> ma_type a' = ma_type a -> Inv (raised s mi a') G.
Proof.
  intros HI Ha Hty. pose proof (inv_counted s G mi a a' (mo_freepages s) (mo_alocpages s) HI Ha Hty) as H.
  unfold counted, raised in *. by destruct s.
Qed.

Lemma continumsadsc_add_bafhlst_spec s G mi a b bf i :
  Inv s G -> G !! i = Some (GBlk GLimbo mi (bsize b)) -> bafhp_area b = mi ->
  bafs s !! b = Some bf -> mareas s !! mi = Some a ->
  wp (continumsadsc_add_bafhlst mi b i (i + (bsize b - 1)) (bsize b)) s (fun r s' =>
    r = true /\ exists s1, linked b i s G s1 /\ s' = raised s1 mi (bump_ma (bsize b) a)).
Proof.
  intros HI HG <- Hb Ha. destruct (limbo_ends s G b i HI HG) as (Hpos & ms & me & Hi & He & [Hu Hal] & [Hu' Hal']).
  pose proof (inv_baf _ _ HI _ _ Hb) as (Hpnr & _).
  replace (i + (bsize b - 1)) with (i + bsize b - 1) by lia.
  unfold continumsadsc_add_bafhlst. steps. destruct (decide (bsize b = 1)) as [E|].
  - replace (i + bsize b - 1) with i in * by lia. steps. split; [done|]. assert (me = ms) as -> by congruence.
    eexists. split; [|reflexivity]. eapply link_step1; eauto; try done. by eapply baf_added_ok.
  - steps. split; [done|]. eexists. split; [|reflexivity].
    eapply link_step; eauto; try done. by eapply baf_added_ok.
Qed.

(** ** Filling a free list *)

Lemma u64_add_l x y : u64 (u64 x + y) = u64 (x + y).
Proof. unfold u64. by rewrite Zplus_mod_idemp_l. Qed.

(** The free run [lo .. hi-1] has been put on the lists of area [mi]. *)
Definition fills (s s' : mmst) (mi lo hi : Z) : Prop :=
  (exists a, mareas s !! mi = Some a /\ mareas s' = <[mi := bump_ma (hi - lo) a]> (mareas s)) /\
  mo_mareanr s' = mo_mareanr s /\
  (forall mj, freesum (bafs s') mj = freesum (bafs s) mj + (if mi =? mj then hi - lo else 0)) /\
  (forall mj j, freepg s' mj j <-> freepg s mj j \/ (mi = mj /\ lo <= j < hi)) /\
  (forall j, ~ (lo <= j < hi) -> msas s' !! j = msas s !! j) /\
  (forall j, padrs <$> msas s' !! j = padrs <$> msas s !! j).

Lemma fills_app s1 s2 s3 mi lo mid hi :
  lo <= mid <= hi -> fills s1 s2 mi lo mid -> fills s2 s3 mi mid hi -> fills s1 s3 mi lo hi.
Proof.
  intros Hm ((a & Ha & Hma) & Hnr & Hs & Hp & Ho & Hpa) ((a' & Ha' & Hma') & Hnr' & Hs' & Hp' & Ho' & Hpa'). split_and!.
  - exists a. split; [done|]. rewrite Hma', Hma, insert_insert_eq. f_equal. rewrite Hma, lookup_insert_eq in Ha'.
    simplify_eq. unfold bump_ma, set_ma_pages. simpl. rewrite !u64_add_l. f_equal; f_equal; lia.
  - congruence.
  - intros mj. rewrite Hs', Hs. destruct (mi =? mj); lia.
  - intros mj j. rewrite Hp', Hp. split; [intuition lia|]. intros [?|[? ?]]; [auto|].
    destruct (decide (j < mid)); intuition lia.
  - intros j Hj. rewrite Ho', Ho by lia. done.
  - intros j. by rewrite Hpa', Hpa.
Qed.

Lemma linked_fills b i s G s1 a :
  Inv s G -> linked b i s G s1 -> mareas s !! bafhp_area b = Some a ->
  let s' := raised s1 (bafhp_area b) (bump_ma (bsize b) a) in
  fills s s' (bafhp_area b) i (i + bsize b) /\ Inv s' (delete i G).
Proof.
  intros HI Hl Ha s'. pose proof (linked_frees _ _ _ _ _ HI Hl) as ((Hma & Hnr & _) & Hs & Hp).
  destruct Hl as (g & bf & bf' & Hb & Had & -> & Hout & Hpa & HI'). split; [split_and!|].
  - exists a. split; [done|]. simpl. by rewrite Z.add_simpl_l.
  - done.
  - done.
  - done.
  - done.
  - done.
  - by apply (inv_raised _ _ _ a).
Qed.

(** Cutting the head [m] off a run of [n] pages in limbo. *)
Definition rest (R : ghost) (mi i n : Z) : ghost :=
  if n =? 0 then R else <[i := GBlk GLimbo mi n]> R.

Lemma cut_head s R mi i n m :
  Inv s (<[i := GBlk GLimbo mi n]> R) -> R !! i = None -> 0 < m <= n ->
  exists G, Inv s G /\ G !! i = Some (GBlk GLimbo mi m) /\ delete i G = rest R mi (i + m) (n - m) /\
    (m < n -> R !! (i + m) = None).
Proof.
  intros HI HR Hm. unfold rest. destruct (decide (m = n)) as [->|].
  - exists (<[i := GBlk GLimbo mi n]> R). replace (n - n =? 0) with true by lia.
    split_and!; [done|apply lookup_insert_eq|by rewrite delete_insert_id|lia].
  - pose proof (inv_split s _ HI i mi m (n - m)) as HI'. rewrite Zplus_minus in HI'.
    specialize (HI' (lookup_insert_eq _ _ _) ltac:(lia) ltac:(lia)). rewrite insert_insert_eq in HI'.
    eexists. replace (n - m =? 0) with false by lia.
    pose proof (ghost_inner s _ i (GBlk GLimbo mi n) (i + m) HI (lookup_insert_eq _ _ _)) as Hin. simpl in Hin.
    rewrite lookup_insert_ne in Hin by lia. split_and!; [exact HI'| | |intros; apply Hin; lia].
    + rewrite lookup_insert_ne by lia. apply lookup_insert_eq.
    + rewrite delete_insert_ne by lia. by rewrite delete_insert_id.
Qed.

(** ** Choosing the order *)

Lemma find_continumsa_loop_spec cnt : forall s G mi fmnr li ret c,
  Inv s G -> is_Some (mareas s !! mi) -> 1 <= fmnr -> 0 <= li -> li + Z.of_nat cnt = MDIVMER_ARR_LMAX ->
  c = Z.min li (Z.log2 fmnr + 1) -> ret = (if li =? 0 then None else Some (BLie mi (Z.min (li - 1) (Z.log2 fmnr)))) ->
  wp (find_continumsa_loop cnt mi fmnr li ret c) s (fun x s' =>
    s' = s /\ x = (Some (BLie mi (Z.min (MDIVMER_ARR_LMAX - 1) (Z.log2 fmnr))), Z.min MDIVMER_ARR_LMAX (Z.log2 fmnr + 1))).
Proof.
  induction cnt as [|cnt IH]; intros s G mi fmnr li ret c HI Ha Hf Hli Hsum -> ->; cbn [find_continumsa_loop].
  { replace li with MDIVMER_ARR_LMAX by lia. apply wp_ret. done. }
  destruct (baf_lookup s G mi li HI Ha ltac:(lia)) as (bf & Hb & Hpnr & _). simpl in Hpnr. steps. rewrite Hpnr.
  pose proof (Z.log2_nonneg fmnr). destruct (2 ^ li <=? fmnr) eqn:E; bool_to_prop.
  - apply Z.log2_le_pow2 in E; [|lia].
    apply (IH s G); auto; try lia. replace (li + 1 =? 0) with false by lia. do 2 f_equal. lia.
  - assert (Z.log2 fmnr < li) by (apply Z.log2_lt_pow2; lia).
    apply (IH s G); auto; try lia. replace (li + 1 =? 0) with false by lia. if_lia. do 2 f_equal. lia.
Qed.

Lemma find_continumsa_inbafhlst_spec s G mi a n :
  Inv s G -> mareas s !! mi = Some a -> ma_type a = MA_TYPE_HWAD \/ ma_type a = MA_TYPE_KRNL ->
  0 < n < 2 ^ 51 ->
  wp (find_continumsa_inbafhlst mi n) s (fun x s' => s' = s /\ x = Some (BLie mi (Z.log2 n))).
Proof.
  intros HI Ha Hty Hn. unfold find_continumsa_inbafhlst. steps.
  assert (Hl : Z.log2 n < 51) by (apply Z.log2_lt_pow2; lia). pose proof (Z.log2_nonneg n).
  eapply wp_mono; [eapply (find_continumsa_loop_spec _ s G); eauto; try lia|].
  intros x s' [-> ->]. cbn beta iota. unfold MDIVMER_ARR_LMAX. rewrite !Z.min_r by lia. if_lia. done.
Qed.

(** ** Filling an area other than the process area *)

Section fill.
Context (R : ghost) (mi : Z).

(** One step takes the largest power of two off the run. *)
Lemma continumsadsc_mareabafh_core_spec s a i n e :
  Inv s (<[i := GBlk GLimbo mi n]> R) -> R !! i = None -> mareas s !! mi = Some a ->
  ma_type a = MA_TYPE_HWAD \/ ma_type a = MA_TYPE_KRNL -> 0 < n < 2 ^ 51 ->
  let m := 2 ^ Z.log2 n in
  wp (continumsadsc_mareabafh_core mi i (Some e) n) s (fun x s' =>
    (exists fstat, x = (true, fstat, (if n =? m then None else Some e), n - m) /\ (n <> m -> fstat = i + m)) /\
    0 < m <= n /\ fills s s' mi i (i + m) /\ Inv s' (rest R mi (i + m) (n - m)) /\ (m < n -> R !! (i + m) = None)).
Proof.
  intros HI HR Ha Hty Hn m. destruct (Z.log2_spec n ltac:(lia)) as [Hm _]. fold m in Hm.
  assert (Hl : Z.log2 n < 51) by (apply Z.log2_lt_pow2; lia). pose proof (Z.log2_nonneg n) as Hl0.
  pose proof (pow2_pos (Z.log2 n) Hl0) as Hm0. fold m in Hm0.
  unfold continumsadsc_mareabafh_core. steps.
  eapply wp_mono; [by eapply find_continumsa_inbafhlst_spec|]. intros x s1 [-> ->].
  destruct (baf_lookup s _ mi (Z.log2 n) HI ltac:(eauto)) as (bf & Hb & Hpnr & _ & _ & _ & Hst); [unfold MDIVMER_ARR_LMAX; lia|].
  simpl in Hpnr, Hst. fold m in Hpnr. steps.
  destruct (cut_head s R mi i n m HI HR ltac:(lia)) as (G & HI1 & HG & Hdel & Hnext). rewrite Hpnr.
  eapply wp_mono; [apply (continumsadsc_add_bafhlst_spec s G mi a (BLie mi (Z.log2 n)) bf i); auto|].
  intros x s1 (-> & s2 & Hl2 & ->). pose proof (linked_fills _ _ _ _ _ a HI1 Hl2 Ha) as [Hfill HI2].
  rewrite Hdel in HI2. simpl bsize in *. simpl bafhp_area in *. fold m in Hfill, HI2 |- *. steps.
  rewrite (u64_small (n - m)) by (rewrite u64max_val; lia).
  destruct (n - m =? 0) eqn:E; bool_to_prop.
  - apply wp_ret. split_and!; auto. exists i. replace (n =? m) with true by lia. split; [done|lia].
  - destruct (baf_lookup _ _ mi (Z.log2 n) HI2) as (bf' & Hb' & Hpnr' & _);
      [simpl; rewrite lookup_insert_eq; eauto|unfold MDIVMER_ARR_LMAX; lia|].
    simpl in Hpnr'. fold m in Hpnr'. steps. rewrite Hpnr'. split_and!; auto. eexists.
    replace (n =? m) with false by lia. split; [done|done].
Qed.

Lemma merlove_continu_loop_spec fuel : forall s a i n e,
  Inv s (<[i := GBlk GLimbo mi n]> R) -> R !! i = None -> mareas s !! mi = Some a ->
  ma_type a = MA_TYPE_HWAD \/ ma_type a = MA_TYPE_KRNL -> 0 < n < 2 ^ 51 -> n <= Z.of_nat fuel ->
  wp (merlove_continu_loop fuel mi i (Some e) n) s (fun _ s' => fills s s' mi i (i + n) /\ Inv s' R).
Proof.
  induction fuel as [|fuel IH]; intros s a i n e HI HR Ha Hty Hn Hf; [lia|]. cbn [merlove_continu_loop].
  rewrite bool_decide_eq_true_2 by done. replace (0 <? n) with true by lia. cbn [andb]. step.
  eapply wp_mono; [by eapply continumsadsc_mareabafh_core_spec|]. cbn zeta. set (m := 2 ^ Z.log2 n).
  intros x s1 ((fstat & -> & Hfs) & Hm & Hfill & HI1 & HR1). cbn beta iota. steps.
  unfold rest in HI1. destruct (n =? m) eqn:E; bool_to_prop.
  - replace (n - m =? 0) with true in HI1 by lia.
    destruct fuel; cbn [merlove_continu_loop]; (rewrite bool_decide_eq_false_2 by tauto);
      rewrite andb_false_r; apply wp_ret; replace (i + n) with (i + m) by lia; done.
  - replace (n - m =? 0) with false in HI1 by lia. rewrite Hfs by done.
    destruct Hfill as ((a0 & Ha0 & Hma) & Hrest). simplify_eq.
    eapply wp_mono; [apply (IH s1 (bump_ma (i + m - i) a) (i + m) (n - m) e); auto; try lia|].
    + apply HR1. lia.
    + rewrite Hma. apply lookup_insert_eq.
    + intros x s2 [Hfill2 HI2]. split; [|done]. replace (i + n) with (i + m + (n - m)) by lia.
      eapply (fills_app s s1); [|split; [by exists a|done]|done]. lia.
Qed.
End fill.

(** ** Filling the process area *)

Section fill_proc.
Context (R : ghost) (mi : Z).

Lemma proc_step s a bf i n :
  Inv s (<[i := GBlk GLimbo mi n]> R) -> R !! i = None -> mareas s !! mi = Some a -> bafs s !! BOne mi = Some bf -> 0 < n ->
  exists ms, msas s !! i = Some ms /\
    let c := set_odlink (OL_BAFH (BOne mi)) (set_olkty MF_OLKTY_BAFH ms) in
    let bf' := set_mobjnr (af_mobjnr bf +u 1) (set_fobjnr (af_fobjnr bf +u 1) (set_frelst (i :: af_frelst bf) bf)) in
    let s' := raised (with_msas (<[i := c]> (msas s)) (with_bafs (<[BOne mi := bf']> (bafs s)) s)) mi (bump_ma 1 a) in
    fills s s' mi i (i + 1) /\ Inv s' (rest R mi (i + 1) (n - 1)) /\ (1 < n -> R !! (i + 1) = None).
Proof.
  intros HI HR Ha Hb Hn.
  destruct (cut_head s R mi i n 1 HI HR ltac:(lia)) as (G & HI1 & HG & Hdel & Hnext).
  destruct (limbo_ends s G (BOne mi) i HI1 HG) as (_ & ms & _ & Hi & _ & [Hu Hal] & _).
  exists ms. split; [done|]. intros c bf' s'.
  assert (Had : baf_added (BOne mi) bf bf' i) by (by eapply (baf_added_ok s G)).
  assert (Hl : linked (BOne mi) i s G (with_msas (<[i := c]> (msas s)) (with_bafs (<[BOne mi := bf']> (bafs s)) s)))
    by (by eapply link_step1).
  destruct (linked_fills _ _ _ _ _ a HI1 Hl Ha) as [Hfill HI2]. rewrite Hdel in HI2. done.
Qed.

Lemma add_procmareabafh_loop_spec cnt : forall s a fstat tmpnr,
  let i := fstat + tmpnr in
  Inv s (<[i := GBlk GLimbo mi (Z.of_nat cnt)]> R) -> R !! i = None -> (0 < cnt)%nat -> mareas s !! mi = Some a ->
  wp (add_procmareabafh_loop cnt mi (BOne mi) fstat tmpnr) s (fun _ s' =>
    fills s s' mi i (i + Z.of_nat cnt) /\ Inv s' R).
Proof.
  induction cnt as [|cnt IH]; intros s a fstat tmpnr i HI HR Hc Ha; [lia|]. cbn [add_procmareabafh_loop]. fold i.
  destruct (proj2 (inv_dom _ _ HI (BOne mi))) as [bf Hb]; [split; [eauto|done]|].
  destruct (proc_step s a bf i _ HI HR Ha Hb ltac:(lia)) as (ms & Hi & Hfill & HI1 & HR1). steps.
  change (with_mareas _ _) with (raised (with_msas (<[i := set_odlink (OL_BAFH (BOne mi)) (set_olkty MF_OLKTY_BAFH ms)]> (msas s))
    (with_bafs (<[BOne mi := set_mobjnr (af_mobjnr bf +u 1) (set_fobjnr (af_fobjnr bf +u 1)
       (set_frelst (i :: af_frelst bf) bf))]> (bafs s)) s)) mi (bump_ma 1 a)).
  set (s1 := raised _ _ _) in *. unfold rest in HI1. destruct cnt as [|cnt].
  - apply wp_ret. done.
  - replace (Z.of_nat (S (S cnt)) - 1 =? 0) with false in HI1 by lia.
    eapply wp_mono; [apply (IH s1 (bump_ma 1 a) fstat (tmpnr + 1))|]; rewrite ?Z.add_assoc; fold i.
    + by replace (Z.of_nat (S cnt)) with (Z.of_nat (S (S cnt)) - 1) by lia.
    + apply HR1. lia.
    + lia.
    + simpl. apply lookup_insert_eq.
    + intros _ s2 [Hfill2 HI2]. split; [|done].
      replace (i + Z.of_nat (S (S cnt))) with (i + 1 + Z.of_nat (S cnt)) by lia.
      eapply (fills_app s s1); [|done..]. lia.
Qed.
End fill_proc.

Definition usable_type (ty : Z) : Prop := ty = MA_TYPE_HWAD \/ ty = MA_TYPE_KRNL \/ ty = MA_TYPE_PROC.

Lemma merlove_continumsadsc_mareabafh_spec s R mi a i n :
  Inv s (<[i := GBlk GLimbo mi n]> R) -> R !! i = None -> mareas s !! mi = Some a -> usable_type (ma_type a) ->
  0 < n < 2 ^ 51 ->
  wp (merlove_continumsadsc_mareabafh mi i (i + n - 1) n) s (fun x s' => x = true /\ fills s s' mi i (i + n) /\ Inv s' R).
Proof.
  intros HI HR Ha Hty Hn. unfold merlove_continumsadsc_mareabafh. steps.
  destruct (decide (ma_type a = MA_TYPE_PROC)) as [Hp|].
  - destruct (Z_of_nat_complete n) as [cnt Hcnt]; [lia|]. replace (Z.to_nat n) with (S (pred cnt)) by lia.
    cbn [merlove_continu_loop]. rewrite bool_decide_eq_true_2 by done. replace (0 <? n) with true by lia. cbn [andb]. step.
    unfold continumsadsc_mareabafh_core. steps. unfold find_continumsa_inbafhlst. steps.
    destruct (proj2 (inv_dom _ _ HI (BOne mi))) as [bf Hb]; [split; [eauto|done]|].
    pose proof (inv_baf _ _ HI _ _ Hb) as (Hpnr & _ & _ & _ & Hst). simpl in Hpnr. steps.
    unfold continumsadsc_add_procmareabafh. steps.
    eapply wp_mono; [apply (add_procmareabafh_loop_spec R mi (Z.to_nat n) s a i 0); rewrite ?Z.add_0_r|].
    + by replace (Z.of_nat (Z.to_nat n)) with n by lia.
    + done.
    + lia.
    + done.
    + rewrite Z.add_0_r, Z2Nat.id by lia. intros _ s1 [Hfill HI1]. steps. cbn beta iota. steps.
      destruct (pred cnt); steps; done.
  - eapply wp_mono; [eapply merlove_continu_loop_spec; eauto; [|lia]|].
    + destruct Hty as [?|[?|?]]; auto. done.
    + intros x s1 [? ?]. steps. done.
Qed.

(** ** Scanning the descriptor array *)

(** Descriptor [j] is free for area type [cmp]. *)
Definition freeat (g : gmap Z msadsc_t) (cmp j : Z) : bool :=
  match g !! j with Some m => msa_is_free m cmp | None => false end.

(** The descriptor array and the descriptor-sized memory behind it, which the
    scan reads: it must not look like a descriptor of an area.  Frame numbers
    are those of 52-bit physical addresses. *)
Definition marray (g : gmap Z msadsc_t) (n : Z) : Prop :=
  (forall j, 0 <= j <= n -> is_Some (g !! j)) /\
  (forall j m, g !! j = Some m -> 0 <= padrs m < 2 ^ 40) /\
  (forall m, g !! n = Some m -> marty m = MF_MARTY_INIT).

Lemma marray_end g n cmp : marray g n -> 0 < cmp -> freeat g cmp n = false.
Proof.
  intros (_ & _ & Hend) Hc. unfold freeat. destruct (g !! n) as [m|] eqn:E; [|done].
  unfold msa_is_free. rewrite (Hend m eq_refl). unfold MF_MARTY_INIT. by replace (0 =? cmp) with false by lia.
Qed.

(** The free run [t .. t+d] of page frames. *)
Definition freerun (g : gmap Z msadsc_t) (cmp t d : Z) : Prop :=
  forall j, t <= j <= t + d -> freeat g cmp j = true /\
    forall m m', j < t + d -> g !! j = Some m -> g !! (j + 1) = Some m' -> padrs m' = padrs m + 1.

Lemma phyadr_small m : 0 <= padrs m < 2 ^ 40 -> phyadr m = 4096 * padrs m.
Proof. intros H. unfold phyadr, PSHRSIZE. rewrite shl12. apply u64_small. rewrite u64max_val. lia. Qed.

Lemma phyadr_next m m' : 0 <= padrs m < 2 ^ 40 -> 0 <= padrs m' < 2 ^ 40 ->
  (phyadr m' -u phyadr m =? PAGESIZE) = (padrs m' =? padrs m + 1).
Proof.
  intros H H'. rewrite !phyadr_small by done. unfold PAGESIZE.
  destruct (decide (padrs m <= padrs m')).
  - rewrite u64_small by (rewrite u64max_val; lia). lia.
  - unfold u64. rewrite <- (Z_mod_plus_full _ 1), Z.mul_1_l.
    rewrite Z.mod_small by (rewrite u64max_val; lia). rewrite u64max_val. lia.
Qed.

Section scan.
Context (s : mmst) (n cmp : Z) (Harr : marray (msas s) n) (Hcmp : 0 < cmp).
Abbreviation g := (msas s).

Lemma freeat_some j : freeat g cmp j = true -> exists m, g !! j = Some m /\ msa_is_free m cmp = true.
Proof. unfold freeat. destruct (g !! j); naive_solver. Qed.

Lemma freeat_bound j : freeat g cmp j = true -> 0 <= j <= n -> j < n.
Proof using Harr Hcmp.
  intros H Hj. destruct (decide (j = n)) as [->|]; [|lia]. rewrite (marray_end _ n cmp) in H; done.
Qed.

Lemma scan_first_free_spec cnt : forall t, 0 <= t -> t + Z.of_nat cnt <= n ->
  wp (scan_first_free cnt 0 cmp t) s (fun r s' => s' = s /\
    match r with
    | Some j => t <= j < t + Z.of_nat cnt /\ freeat g cmp j = true /\ forall k, t <= k < j -> freeat g cmp k = false
    | None => forall k, t <= k < t + Z.of_nat cnt -> freeat g cmp k = false
    end).
Proof using Harr.
  induction cnt as [|cnt IH]; intros t Ht Hn; cbn [scan_first_free]; [apply wp_ret; split; [done|lia]|].
  destruct (proj1 Harr t ltac:(lia)) as [m Hm]. steps. destruct (msa_is_free m cmp) eqn:E.
  - apply wp_ret. split_and!; [done|lia|lia| |lia]. unfold freeat. by rewrite Hm.
  - assert (Hf : freeat g cmp t = false) by (unfold freeat; by rewrite Hm).
    eapply wp_mono; [apply (IH (t + 1)); lia|]. intros [j|] s' [-> H]; (split; [done|]).
    + destruct H as (? & ? & H). split_and!; [lia|lia|done|]. intros k Hk.
      destruct (decide (k = t)) as [->|]; [done|]. apply H. lia.
    + intros k Hk. destruct (decide (k = t)) as [->|]; [done|]. apply H. lia.
Qed.

Lemma scan_len_loop_spec cnt : forall st t r, 0 <= st + t <= n -> freeat g cmp (st + t) = true ->
  wp (scan_len_loop cnt st cmp t r) s (fun x s' => s' = s /\
    exists d, x = (true, r + d) /\ 0 <= d /\ st + t + d < n /\ freerun g cmp (st + t) d).
Proof using Harr Hcmp.
  assert (Hone : forall t, freeat g cmp t = true -> freerun g cmp t 0).
  { intros t Ht j Hj. assert (j = t) as -> by lia. split; [done|lia]. }
  induction cnt as [|cnt IH]; intros st t r Ht Hf; cbn [scan_len_loop].
  { apply wp_ret. split; [done|]. exists 0. rewrite !Z.add_0_r. pose proof (freeat_bound _ Hf Ht). auto with lia. }
  pose proof (freeat_bound _ Hf Ht) as Hlt.
  destruct (freeat_some _ Hf) as (p & Hp & Hpf). destruct (proj1 Harr (st + (t + 1)) ltac:(lia)) as [q Hq].
  pose proof (proj1 (proj2 Harr) _ _ Hp) as Hpp. pose proof (proj1 (proj2 Harr) _ _ Hq) as Hqq.
  steps. unfold continumsadsc_is_ok. rewrite Hpf, phyadr_next by done.
  destruct (msa_is_free q cmp) eqn:Eq; [destruct (padrs q =? padrs p + 1) eqn:En|]; cbn [Z.eqb Pos.eqb]; bool_to_prop.
  - assert (Hfq : freeat g cmp (st + (t + 1)) = true) by (unfold freeat; by rewrite Hq).
    eapply wp_mono; [apply (IH st (t + 1) (r + 1)); [lia|done]|].
    intros x s' (-> & d & -> & Hd & Hbd & Hrun). split; [done|]. exists (d + 1). split_and!; [f_equal; lia|lia|lia|].
    intros j Hj. destruct (decide (j = st + t)) as [->|].
    + split; [done|]. intros m m' _ Hm Hm'. rewrite <- Z.add_assoc in Hm'. simplify_eq. lia.
    + destruct (Hrun j ltac:(lia)) as [? Hnx]. split; [done|]. intros m m' Hjd. apply Hnx. lia.
  - apply wp_ret. split; [done|]. exists 0. rewrite !Z.add_0_r. auto with lia.
  - apply wp_ret. split; [done|]. exists 0. rewrite !Z.add_0_r. auto with lia.
Qed.

Lemma check_continu_loop_spec cnt : forall t ok, freerun g cmp t (Z.of_nat cnt) ->
  wp (check_continu_loop cnt t cmp ok) s (fun x s' => s' = s /\ x = Some (ok + Z.of_nat cnt)).
Proof using Harr.
  induction cnt as [|cnt IH]; intros t ok Hrun; cbn [check_continu_loop].
  { apply wp_ret. split; [done|]. f_equal. lia. }
  destruct (Hrun t ltac:(lia)) as [Hf Hnx]. destruct (Hrun (t + 1) ltac:(lia)) as [Hf1 _].
  destruct (freeat_some _ Hf) as (p & Hp & Hpf). destruct (freeat_some _ Hf1) as (q & Hq & Hqf).
  pose proof (proj1 (proj2 Harr) _ _ Hp) as Hpp. pose proof (proj1 (proj2 Harr) _ _ Hq) as Hqq.
  specialize (Hnx p q ltac:(lia) Hp Hq). unfold msa_is_free in Hpf, Hqf. bool_to_prop. steps.
  rewrite Z.eqb_sym, phyadr_next, Hnx, Z.eqb_refl by done. cbn [negb].
  eapply wp_mono; [apply (IH (t + 1) (ok + 1))|].
  - intros j Hj. destruct (Hrun j ltac:(lia)) as [? Hn]. split; [done|]. intros m m' ?. apply Hn. lia.
  - intros x s' [-> ->]. split; [done|]. f_equal. lia.
Qed.

Lemma freerun_pagerun t d : 0 <= d -> freerun g cmp t d ->
  pagerun g cmp t (d + 1) /\ allpages g t (d + 1) idle.
Proof using Hcmp.
  intros Hd Hrun. split.
  - split; [lia|]. destruct (Hrun t ltac:(lia)) as [Hf _]. destruct (freeat_some _ Hf) as (m0 & Hm0 & _).
    exists (padrs m0). intros j Hj.
    assert (exists k, j = t + Z.of_nat k) as [k ->] by (exists (Z.to_nat (j - t)); lia).
    clear Hf. induction k as [|k IH].
    + destruct (Hrun t ltac:(lia)) as [Hf _]. destruct (freeat_some _ Hf) as (m & Hm & Hmf).
      unfold msa_is_free in Hmf. bool_to_prop. exists m. rewrite Z.add_0_r. simplify_eq. split_and!; auto; lia.
    + destruct IH as (m & Hm & _ & Hpm); [lia|].
      destruct (Hrun (t + Z.of_nat (S k)) ltac:(lia)) as [Hf _]. destruct (freeat_some _ Hf) as (m' & Hm' & Hmf).
      destruct (Hrun (t + Z.of_nat k) ltac:(lia)) as [_ Hnx].
      unfold msa_is_free in Hmf. bool_to_prop. exists m'. split_and!; auto.
      rewrite (Hnx m m'); [lia|lia|done|]. by replace (t + Z.of_nat k + 1) with (t + Z.of_nat (S k)) by lia.
  - intros j Hj m Hm. destruct (Hrun j ltac:(lia)) as [Hf _]. destruct (freeat_some _ Hf) as (m' & Hm' & Hmf).
    simplify_eq. unfold msa_is_free in Hmf. bool_to_prop. done.
Qed.
End scan.

(** ** One area *)

Lemma area_marty_usable ty : usable_type ty -> area_marty ty = Some ty /\ 0 < ty.
Proof. by intros [->|[->| ->]]. Qed.

Lemma merlove_scan_spec s n mi a fnt :
  marray (msas s) n -> mareas s !! mi = Some a -> usable_type (ma_type a) -> 0 <= fnt < n ->
  wp (merlove_scan_continumsadsc mi 0 fnt n) s (fun x s' => s' = s /\
    ((exists t d, x = (true, t + d + 1, Some t, Some (t + d), d + 1) /\ fnt <= t /\ 0 <= d /\ t + d < n /\
        freerun (msas s) (ma_type a) t d /\ forall k, fnt <= k < t -> freeat (msas s) (ma_type a) k = false) \/
     (x = (true, n, None, None, 0) /\ forall k, fnt <= k < n -> freeat (msas s) (ma_type a) k = false))).
Proof.
  intros Harr Ha Hty Hf. destruct (area_marty_usable _ Hty) as [Hmt Hpos].
  unfold merlove_scan_continumsadsc. steps. rewrite Hmt. step.
  eapply wp_mono; [apply (scan_first_free_spec s n (ma_type a) Harr); lia|]. rewrite Z2Nat.id by lia.
  intros [t|] s' [-> H]; cbn beta iota.
  - destruct H as (Ht & Hft & Hbefore). step. unfold scan_len_msadsc. steps. rewrite Z.add_0_l.
    eapply wp_mono; [apply (scan_len_loop_spec s n (ma_type a) Harr Hpos); rewrite Z.add_0_r; [lia|done]|].
    rewrite Z.add_0_r. intros x s' (-> & d & -> & Hd & Hb & Hrun). cbn beta iota. steps. split; [done|]. left.
    exists t, d. rewrite !Z.add_0_l. split_and!; auto; lia.
  - apply wp_ret. split; [done|]. right. split; [done|]. intros k Hk. apply H. lia.
Qed.

Lemma check_continumsadsc_spec s n mi a t d :
  marray (msas s) n -> mareas s !! mi = Some a -> usable_type (ma_type a) -> 0 <= d -> freerun (msas s) (ma_type a) t d ->
  wp (check_continumsadsc mi t (t + d) (d + 1)) s (fun x s' => s' = s /\ 0 < x).
Proof.
  intros Harr Ha Hty Hd Hrun. destruct (area_marty_usable _ Hty) as [Hmt Hpos].
  unfold check_continumsadsc. steps. rewrite Hmt. destruct (decide (d = 0)) as [->|].
  - rewrite Z.add_0_r, Z.eqb_refl. destruct (Hrun t ltac:(lia)) as [Hf _].
    destruct (freeat_some _ _ _ Hf) as (p & Hp & Hpf). unfold msa_is_free in Hpf. bool_to_prop. steps. done.
  - replace (t =? t + d) with false by lia. step.
    eapply wp_mono; [apply (check_continu_loop_spec s n (ma_type a) Harr); by rewrite Z2Nat.id, Z.add_simpl_l by lia|].
    intros x s' [-> ->]. rewrite Z2Nat.id by lia. steps. split; [done|lia].
Qed.

(** After the descriptors below [fnt] have been looked at. *)
Definition progress (s0 s : mmst) (mi cmp fnt : Z) : Prop :=
  Inv s ∅ /\ acct s ∅ /\ area_type s mi cmp /\ mo_mareanr s = mo_mareanr s0 /\
  (forall mj ty, area_type s mj ty <-> area_type s0 mj ty) /\
  freesum (bafs s) mi <= fnt /\ (forall mj, mj <> mi -> freesum (bafs s) mj = freesum (bafs s0) mj) /\
  (forall mj j, freepg s mj j <-> freepg s0 mj j \/ (mj = mi /\ 0 <= j < fnt /\ freeat (msas s0) cmp j = true)) /\
  (forall j, fnt <= j \/ freeat (msas s0) cmp j = false -> msas s !! j = msas s0 !! j) /\
  (forall j, padrs <$> msas s !! j = padrs <$> msas s0 !! j).

Lemma freesum_zero_none s G mi j : Inv s G -> freesum (bafs s) mi = 0 -> ~ freepg s mi j.
Proof.
  intros HI Hz (b & bf & st & <- & Hb & Hst & _). destruct (af_frelst bf) as [|x l] eqn:Hl; [set_solver|].
  pose proof (freesum_block _ _ _ _ _ _ HI Hb Hl). pose proof (bsize_bound _ _ (inv_valid _ _ HI _ _ Hb)). lia.
Qed.

(** A new run overlaps no block. *)
Lemma progress_fresh s0 s mi cmp fnt t d :
  progress s0 s mi cmp fnt -> freesum (bafs s0) mi = 0 -> Inv s0 ∅ -> fnt <= t -> 0 <= d ->
  pagerun (msas s) cmp t (d + 1) ->
  forall j u, has s ∅ j u -> j + tsize u <= t \/ t + (d + 1) <= j.
Proof.
  intros (HI & _ & Hty & _ & _ & _ & _ & Hfp & _ & _) Hz HI0 Hft Hd Hpr j [b|g] Hh; [|by unfold has in Hh; rewrite lookup_empty in Hh].
  pose proof (has_size_pos _ _ _ _ HI Hh) as Hpos. simpl in *. pose proof (inv_has _ _ HI _ _ Hh) as (ty & Htb & Hprb & _).
  destruct (decide (bafhp_area b = mi)) as [<-|Hne].
  - left. destruct Hh as (bf & Hb & Hj).
    assert (Hl : freepg s (bafhp_area b) (j + bsize b - 1)) by (exists b, bf, j; split_and!; auto; lia).
    apply Hfp in Hl as [Hl|(_ & ? & _)]; [|lia]. exfalso. by eapply freesum_zero_none in Hl.
  - destruct (decide (j + bsize b <= t)); [auto|]. destruct (decide (t + (d + 1) <= j)); [auto|exfalso].
    destruct (pagerun_lookup _ _ _ _ (Z.max j t) Hpr) as (m & Hm & Hmt); [lia|].
    destruct (pagerun_lookup _ _ _ _ (Z.max j t) Hprb) as (m' & Hm' & Hmt'); [lia|].
    simplify_eq. apply Hne. by eapply (inv_types _ _ HI).
Qed.

Lemma progress_marray s0 s mi cmp fnt n :
  progress s0 s mi cmp fnt -> 0 < cmp -> marray (msas s0) n -> marray (msas s) n.
Proof.
  intros (_ & _ & _ & _ & _ & _ & _ & _ & Hsame & Hpa) Hc Harr. pose proof Harr as (Hex & Hpad & Hend). split_and!.
  - intros j Hj. destruct (Hex j Hj) as [m Hm]. specialize (Hpa j). rewrite Hm in Hpa. by destruct (msas s !! j).
  - intros j m Hm. specialize (Hpa j). rewrite Hm in Hpa. destruct (msas s0 !! j) as [m0|] eqn:E; [|done].
    simplify_eq/=. rewrite Hpa. by eapply Hpad.
  - intros m. rewrite Hsame by (right; by apply marray_end). apply Hend.
Qed.

Lemma ghostsum_empty mi : ghostsum ∅ mi = 0.
Proof. apply map_fold_empty. Qed.

Lemma progress_step s0 s s' mi cmp fnt t d n :
  progress s0 s mi cmp fnt -> 0 <= fnt <= t -> 0 <= d -> t + d < n -> n < 2 ^ 51 ->
  freerun (msas s) cmp t d -> (forall k, fnt <= k < t -> freeat (msas s) cmp k = false) ->
  fills s s' mi t (t + (d + 1)) -> Inv s' ∅ ->
  progress s0 s' mi cmp (t + d + 1).
Proof.
  intros (HI & Hac & Hty & Hnr & Htys & Hsum & Hsums & Hfp & Hsame & Hpa) Hft Hd Hn Hmax Hrun Hskip
    ((a & Ha & Hma) & Hnr' & Hs' & Hp' & Ho' & Hpa') HI'.
  assert (Hfree0 : forall j, fnt <= j -> freeat (msas s) cmp j = freeat (msas s0) cmp j).
  { intros j Hj. unfold freeat. by rewrite Hsame by lia. }
  assert (Hty' : forall mj ty, area_type s' mj ty <-> area_type s mj ty).
  { intros mj ty. unfold area_type. rewrite Hma. destruct (decide (mj = mi)) as [->|]; simplify_map_eq; [|done].
    split; intros (x & ? & <-); simplify_eq; eauto. }
  split_and!; auto.
  - intros mj aj. rewrite Hma, Hs'. intros Haj. destruct (decide (mj = mi)) as [->|].
    + rewrite lookup_insert_eq in Haj. simplify_eq. destruct (Hac mi a Ha) as (H1 & H2 & H3 & _).
      pose proof (freesum_nonneg (bafs s) mi). rewrite Z.eqb_refl. simpl. rewrite H1, H2, H3, ghostsum_empty.
      rewrite !u64_small by (rewrite u64max_val; lia). split_and!; lia.
    + rewrite lookup_insert_ne in Haj by done. replace (mi =? mj) with false by lia. rewrite Z.add_0_r. by apply Hac.
  - by rewrite Hty'.
  - congruence.
  - intros mj ty. by rewrite Hty'.
  - rewrite Hs', Z.eqb_refl. lia.
  - intros mj Hne. rewrite Hs', Hsums by done. replace (mi =? mj) with false by lia. lia.
  - intros mj j. rewrite Hp', Hfp. split.
    + intros [[?|(-> & ? & ?)]|[-> Hj]]; [by left|right; split_and!; [done|lia..|done]|].
      right. split_and!; [done|lia..|]. rewrite <- Hfree0 by lia. apply Hrun. lia.
    + intros [?|(-> & Hj & Hf)]; [auto|]. destruct (decide (t <= j)); [right; split; [done|lia]|].
      left. right. split_and!; [done|lia| |done]. destruct (decide (j < fnt)); [done|].
      rewrite <- Hfree0, Hskip in Hf by lia. done.
  - intros j Hj. assert (~ (t <= j < t + (d + 1))).
    { intros Hr. destruct Hj as [?|Hj]; [lia|]. rewrite <- Hfree0 in Hj by lia. destruct (Hrun j ltac:(lia)). congruence. }
    rewrite Ho' by done. apply Hsame. destruct Hj; [left; lia|by right].
  - intros j. by rewrite Hpa', Hpa.
Qed.

Lemma progress_skip s0 s mi cmp fnt n :
  progress s0 s mi cmp fnt -> 0 <= fnt <= n -> (forall k, fnt <= k < n -> freeat (msas s) cmp k = false) ->
  progress s0 s mi cmp n.
Proof.
  intros (HI & Hac & Hty & Hnr & Htys & Hsum & Hsums & Hfp & Hsame & Hpa) Hn Hskip. split_and!; auto; [lia| |].
  - intros mj j. rewrite Hfp. split; (intros [?|(-> & Hj & Hf)]; [auto|right; split_and!; [done|lia..| |done]]); [lia|].
    destruct (decide (j < fnt)); [done|]. unfold freeat in Hf. rewrite <- Hsame in Hf by lia.
    fold (freeat (msas s) cmp j) in Hf. rewrite Hskip in Hf by lia. done.
  - intros j Hj. apply Hsame. destruct Hj; [left; lia|by right].
Qed.

Lemma merlove_mem_loop_spec fuel : forall s0 s mi cmp n fnt,
  progress s0 s mi cmp fnt -> usable_type cmp -> freesum (bafs s0) mi = 0 -> Inv s0 ∅ -> marray (msas s0) n ->
  0 <= fnt <= n -> n < 2 ^ 51 -> n - fnt <= Z.of_nat fuel ->
  wp (merlove_mem_loop fuel mi 0 n fnt) s (fun _ s' => progress s0 s' mi cmp n).
Proof.
  induction fuel as [|fuel IH]; intros s0 s mi cmp n fnt Hpr Hus Hz HI0 Harr0 Hf Hmax Hfuel.
  { simpl. replace (fnt <? n) with false by lia. apply wp_ret. by replace n with fnt by lia. }
  cbn [merlove_mem_loop]. destruct (fnt <? n) eqn:E; bool_to_prop; [|apply wp_ret; by replace n with fnt by lia].
  destruct (area_marty_usable _ Hus) as [_ Hc].
  pose proof (progress_marray _ _ _ _ _ _ Hpr Hc Harr0) as Harr.
  pose proof Hpr as (HI & _ & (a & Ha & Hta) & _). subst cmp. step.
  eapply wp_mono; [apply (merlove_scan_spec s n mi a fnt); auto; lia|].
  intros x s1 (-> & [(t & d & -> & Hft & Hd & Hb & Hrun & Hskip)|[-> Hskip]]); cbn beta iota; steps.
  - eapply wp_mono; [by eapply check_continumsadsc_spec|]. intros c s1 [-> Hx]. steps.
    destruct (freerun_pagerun s _ Hc t d Hd Hrun) as [Hprun Hidle].
    destruct (inv_adopt s ∅ t mi (d + 1) (ma_type a) HI) as [_ HI1]; [by exists a|done..| |].
    { by eapply progress_fresh. }
    replace (t + d) with (t + (d + 1) - 1) by lia.
    eapply wp_mono; [apply (merlove_continumsadsc_mareabafh_spec s ∅ mi a t (d + 1)); auto; lia|].
    intros ok s1 (-> & Hfill & HI2). steps. replace (t + (d + 1) - 1 + 1) with (t + d + 1) by lia.
    apply (IH s0); auto; try lia. apply (progress_step s0 s s1 mi (ma_type a) fnt t d n); auto. lia.
  - apply (IH s0); auto; try lia. by eapply progress_skip.
Qed.
