(* ===== verification/MareaBoot.v ===== *)
(** * Memory areas: the state after boot

    The marking of descriptors with their area, the initial areas, and the
    state in which [init_memarea] and [merlove_mem_core] leave the allocator. *)

From S2P Require Import Prelude PhyMem DivMer DivMerInv DivMerOps DivMerAlloc Marea MareaInit.

(** ** Marking the descriptors with their area *)

Definition mark (a : memarea_t) (cmp : Z) (m : msadsc_t) : msadsc_t :=
  if (MF_MARTY_INIT =? marty m) && in_area a m then set_marty cmp m else m.

(** Count over [n] descriptors from [t]. *)
Fixpoint countm (g : gmap Z msadsc_t) (f : msadsc_t -> bool) (n : nat) (t : Z) : Z :=
  match n with
  | O => 0
  | S n' => (match g !! t with Some m => if f m then 1 else 0 | None => 0 end) + countm g f n' (t + 1)
  end.

Lemma countm_ext g g' f f' n : forall t,
  (forall j, t <= j < t + Z.of_nat n -> match g !! j, g' !! j with
     | Some m, Some m' => f m = f' m' | None, None => True | _, _ => False end) ->
  countm g f n t = countm g' f' n t.
Proof.
  induction n as [|n IH]; intros t H; [done|]. simpl. rewrite (IH (t + 1)) by (intros; apply H; lia).
  specialize (H t ltac:(lia)). destruct (g !! t), (g' !! t); try done. by rewrite H.
Qed.

Lemma countm_range g f n : forall t, 0 <= countm g f n t <= Z.of_nat n.
Proof.
  induction n as [|n IH]; intros t; [simpl; lia|]. cbn [countm]. specialize (IH (t + 1)).
  destruct (g !! t) as [m|]; [destruct (f m)|]; lia.
Qed.

Lemma setallmarflgs_loop_spec cnt : forall s t a cmp r,
  (forall j, t <= j < t + Z.of_nat cnt -> is_Some (msas s !! j)) ->
  wp (setallmarflgs_loop cnt 0 t a cmp r) s (fun x s' =>
    x = r + countm (msas s) (fun m => (MF_MARTY_INIT =? marty m) && in_area a m) cnt t /\
    exists g, s' = with_msas g s /\
      forall j, g !! j = if (t <=? j) && (j <? t + Z.of_nat cnt) then mark a cmp <$> msas s !! j else msas s !! j).
Proof.
  induction cnt as [|cnt IH]; intros s t a cmp r Hex; cbn [setallmarflgs_loop countm].
  { apply wp_ret. split; [lia|]. exists (msas s). split; [by rewrite with_msas_id|]. intros j.
    by replace (_ && _) with false by lia. }
  destruct (Hex t ltac:(lia)) as [m Hm]. rewrite Hm. steps.
  destruct ((MF_MARTY_INIT =? marty m) && in_area a m) eqn:E; steps.
  - eapply wp_mono; [apply IH|].
    { intros j Hj. rewrite msas_with_msas, lookup_insert_ne by lia. apply Hex. lia. }
    rewrite msas_with_msas. intros x s' (-> & g & -> & Hg). split.
    + rewrite (countm_ext _ (msas s) _ (fun m => (MF_MARTY_INIT =? marty m) && in_area a m)); [lia|].
      intros j Hj. rewrite lookup_insert_ne by lia. by destruct (msas s !! j).
    + exists g. split; [done|]. intros j. rewrite Hg. destruct (decide (j = t)) as [->|].
      * rewrite lookup_insert_eq, Hm. replace (t + 1 <=? t) with false by lia. cbn [andb].
        replace (_ && _) with true by lia. simpl. unfold mark. by rewrite E.
      * rewrite !lookup_insert_ne by done. by replace ((t + 1 <=? j) && _) with ((t <=? j) && (j <? t + Z.of_nat (S cnt))) by lia.
  - eapply wp_mono; [apply IH; intros; apply Hex; lia|]. intros x s' (-> & g & -> & Hg). split; [lia|].
    exists g. split; [done|]. intros j. rewrite Hg. destruct (decide (j = t)) as [->|].
    + rewrite Hm. replace (t + 1 <=? t) with false by lia. cbn [andb]. replace (_ && _) with true by lia.
      simpl. unfold mark. by rewrite E.
    + by replace ((t + 1 <=? j) && _) with ((t <=? j) && (j <? t + Z.of_nat (S cnt))) by lia.
Qed.

Lemma test_setflgs_loop_spec cnt : forall s t a cmp r,
  (forall j, t <= j < t + Z.of_nat cnt -> is_Some (msas s !! j)) ->
  wp (test_setflgs_loop cnt 0 t a cmp r) s (fun x s' =>
    x = r + countm (msas s) (fun m => in_area a m && (marty m =? cmp)) cnt t /\ s' = s).
Proof.
  induction cnt as [|cnt IH]; intros s t a cmp r Hex; cbn [test_setflgs_loop countm].
  { apply wp_ret. split; [lia|done]. }
  destruct (Hex t ltac:(lia)) as [m Hm]. rewrite Hm. steps.
  eapply wp_mono; [apply IH; intros; apply Hex; lia|]. intros x s' [-> ->]. split; [|done]. destruct (_ && _); lia.
Qed.

Lemma mark_in_area a a' cmp m : in_area a (mark a' cmp m) = in_area a m.
Proof. unfold mark. by destruct (_ && _). Qed.

(** The two passes over the array for one area agree. *)
Lemma mark_area_spec s mi a n :
  mareas s !! mi = Some a -> usable_type (ma_type a) -> 0 < n < 2 ^ 51 ->
  (forall j, 0 <= j < n -> is_Some (msas s !! j)) ->
  (forall j m, 0 <= j < n -> msas s !! j = Some m -> marty m <> ma_type a) ->
  wp (sretf ← merlove_setallmarflgs_onmemarea mi 0 n;
      if sretf =? ones64 then mret false else
      tretf ← test_setflgs mi 0 n;
      if tretf =? ones64 then mret false else mret (sretf =? tretf)) s (fun ok s' =>
    ok = true /\ exists g, s' = with_msas g s /\
      forall j, g !! j = if (0 <=? j) && (j <? n) then mark a (ma_type a) <$> msas s !! j else msas s !! j).
Proof.
  intros Ha Hus Hn Hex Hnew. destruct (area_marty_usable _ Hus) as [Hmt Hpos].
  assert (Hsh : ma_type a <> MA_TYPE_SHAR) by (unfold usable_type, MA_TYPE_HWAD, MA_TYPE_KRNL, MA_TYPE_PROC, MA_TYPE_SHAR in *; lia).
  unfold merlove_setallmarflgs_onmemarea, test_setflgs. steps. rewrite Hmt.
  eapply wp_mono; [apply setallmarflgs_loop_spec; intros; apply Hex; lia|].
  rewrite Z2Nat.id, !Z.add_0_l by lia. intros x s' (-> & g & -> & Hg).
  set (f := fun m => _). pose proof (countm_range (msas s) f (Z.to_nat n) 0) as Hc.
  replace (_ =? ones64) with false by (unfold ones64; rewrite u64max_val; lia). steps. rewrite Hmt.
  eapply wp_mono; [apply test_setflgs_loop_spec|].
  { intros j Hj. rewrite msas_with_msas, Hg. destruct (_ && _); [|apply Hex; lia].
    destruct (Hex j ltac:(lia)) as [m ->]. simpl. eauto. }
  intros x s' [-> ->]. rewrite msas_with_msas, Z.add_0_l.
  replace (countm g _ _ _) with (countm (msas s) f (Z.to_nat n) 0).
  - replace (_ =? ones64) with false by (unfold ones64; rewrite u64max_val; lia). rewrite Z.eqb_refl. steps. eauto.
  - apply countm_ext. intros j Hj. rewrite Hg. replace (_ && _) with true by lia.
    destruct (msas s !! j) as [m|] eqn:Hm; [simpl|done]. rewrite mark_in_area.
    specialize (Hnew j m ltac:(lia) Hm). unfold f, mark. destruct ((MF_MARTY_INIT =? marty m) && in_area a m) eqn:E.
    + apply andb_true_iff in E as [_ ->]. simpl. symmetry. apply Z.eqb_eq. done.
    + replace (marty m =? ma_type a) with false by lia. by rewrite andb_false_r.
Qed.

(** ** The areas *)

Definition boot_areas : gmap Z memarea_t :=
  <[0 := Memarea 0 0 MA_TYPE_HWAD 0 0 0 0 0 MA_HWAD_LSTART MA_HWAD_LEND MA_HWAD_LSZ 0]>
  (<[1 := Memarea 0 0 MA_TYPE_KRNL 0 0 0 0 0 MA_KRNL_LSTART MA_KRNL_LEND MA_KRNL_LSZ 0]>
  (<[2 := Memarea 0 0 MA_TYPE_PROC 0 0 0 0 0 MA_PROC_LSTART MA_PROC_LEND MA_PROC_LSZ 0]>
  {[3 := Memarea 0 0 MA_TYPE_SHAR 0 0 0 0 0 0 0 0 0]})).

Definition boot_bafs : gmap bafhp bafhlst_t :=
  list_to_map ((fun b => (b, match b with
                             | BLie _ li => bafhlst_t_init BAFH_STUS_DIVM li (2 ^ li)
                             | BOne _ => bafhlst_t_init BAFH_STUS_ONEM 0 1
                             end)) <$> (seqZ 0 MEMAREA_MAX ≫= area_bafs)).

#[global] Instance bafhlst_eq_dec : EqDecision bafhlst_t.
Proof. solve_decision. Defined.
#[global] Instance memarea_eq_dec : EqDecision memarea_t.
Proof. solve_decision. Defined.

(** The free lists of one area, as [memdivmer_t_init] writes them. *)
Definition put_bafs (mi : Z) (bs : gmap bafhp bafhlst_t) : gmap bafhp bafhlst_t :=
  <[BOne mi := bafhlst_t_init BAFH_STUS_ONEM 0 1]>
    (foldl (fun bs li => <[BLie mi li := bafhlst_t_init BAFH_STUS_DIVM li (1 <<u li)]> bs) bs (seqZ 0 MDIVMER_ARR_LMAX)).

Lemma for_each_put mi l : forall s,
  for_each l (fun li => put_baf (BLie mi li) (bafhlst_t_init BAFH_STUS_DIVM li (1 <<u li))) s =
  Ret (tt, with_bafs (foldl (fun bs li => <[BLie mi li := bafhlst_t_init BAFH_STUS_DIVM li (1 <<u li)]> bs) (bafs s) l) s).
Proof.
  induction l as [|li l IH]; intros s; [simpl; by rewrite with_bafs_id|]. simpl for_each.
  unfold mbind at 1, M_bind at 1. simpl. rewrite IH. done.
Qed.

Lemma memarea_t_init_eq mi B A s :
  memarea_t_init mi (with_bafs B (with_mareas A s)) =
  Ret (tt, with_bafs (put_bafs mi B) (with_mareas (<[mi := memarea0]> A) s)).
Proof.
  unfold memarea_t_init, memdivmer_t_init, mbind, M_bind, put_ma, modify. cbv beta iota. rewrite for_each_put. done.
Qed.

Lemma upd_ma_eq i f a B A s : A !! i = Some a ->
  upd_ma i f (with_bafs B (with_mareas A s)) = Ret (tt, with_bafs B (with_mareas (<[i := f a]> A) s)).
Proof. intros H. unfold upd_ma. simpl. rewrite H. done. Qed.

Lemma init_memarea_areas_eq s :
  mareas s = ∅ -> bafs s = ∅ ->
  init_memarea_areas s = Ret (tt, with_bafs boot_bafs (with_mareas boot_areas s)).
Proof.
  intros Hm Hb. replace (init_memarea_areas s) with (init_memarea_areas (with_bafs ∅ (with_mareas ∅ s)))
    by (rewrite <- Hm at 1; rewrite <- Hb; by destruct s).
  unfold init_memarea_areas. change (seqZ 0 MEMAREA_MAX) with [0; 1; 2; 3]. cbn [for_each]. unfold mbind, M_bind.
  rewrite !memarea_t_init_eq. cbn [mret M_ret].
  repeat (rewrite (upd_ma_eq _ _ memarea0) by (repeat first [apply lookup_insert_eq | rewrite lookup_insert_ne by lia])).
  assert (EB : put_bafs 3 (put_bafs 2 (put_bafs 1 (put_bafs 0 ∅))) = boot_bafs)
    by (apply (bool_decide_unpack _); vm_compute; exact I).
  rewrite EB. do 3 f_equal.
Qed.

Definition boot_baf_check (b : bafhp) (bf : bafhlst_t) : bool :=
  (af_oderpnr bf =? bsize b) && (af_fobjnr bf =? 0) && (af_mobjnr bf =? 0) && list_empty (af_frelst bf) &&
  (0 <=? bafhp_area b) && (bafhp_area b <? 4) &&
  match b with
  | BLie _ k => (0 <=? k) && (k <? MDIVMER_ARR_LMAX) && (af_stus bf =? BAFH_STUS_DIVM)
  | BOne _ => af_stus bf =? BAFH_STUS_ONEM
  end.

Lemma boot_bafs_check b bf : boot_bafs !! b = Some bf -> boot_baf_check b bf = true.
Proof.
  intros H. assert (Hall : forallb (fun p => boot_baf_check p.1 p.2) (map_to_list boot_bafs) = true) by (vm_compute; reflexivity).
  rewrite List.forallb_forall in Hall. apply (Hall (b, bf)), list_elem_of_In, elem_of_map_to_list, H.
Qed.

Lemma boot_bafs_ok b bf : boot_bafs !! b = Some bf -> baf_ok b bf /\ af_frelst bf = [].
Proof.
  intros H%boot_bafs_check. unfold boot_baf_check in H. bool_to_prop.
  assert (Hl : af_frelst bf = []) by (by destruct (af_frelst bf)). split; [|done].
  unfold baf_ok. rewrite Hl. destruct b; bool_to_prop; split_and!; try done; apply NoDup_nil_2.
Qed.

Lemma boot_areas_lookup mi : is_Some (boot_areas !! mi) <-> 0 <= mi < 4.
Proof.
  unfold boot_areas. split.
  - intros [a H]. repeat (apply lookup_insert_Some in H as [[? _]|[_ H]]; [lia|]).
    apply lookup_singleton_Some in H. lia.
  - intros H. assert (mi = 0 \/ mi = 1 \/ mi = 2 \/ mi = 3) as [->|[->|[->| ->]]] by lia; eauto.
Qed.

Lemma boot_bafs_dom s b : mareas s = boot_areas -> is_Some (boot_bafs !! b) <-> valid_bafhp s b.
Proof.
  intros Hs. unfold valid_bafhp. rewrite Hs, boot_areas_lookup. split.
  - intros [bf H%boot_bafs_check]. unfold boot_baf_check in H. destruct b; bool_to_prop; (split; [simpl in *; lia|done]).
  - intros [Ha Hk]. assert (Hin : b ∈ seqZ 0 MEMAREA_MAX ≫= area_bafs).
    { apply list_elem_of_bind. exists (bafhp_area b). split; [|apply elem_of_seqZ; unfold MEMAREA_MAX; lia].
      destruct b as [mi k|mi]; [right|by left]. apply list_elem_of_fmap. exists k. split; [done|]. apply elem_of_seqZ. lia. }
    destruct (boot_bafs !! b) eqn:E; [eauto|]. apply not_elem_of_list_to_map_2 in E. exfalso. apply E.
    rewrite <- list_fmap_compose. apply list_elem_of_fmap. exists b. done.
Qed.

Lemma boot_freesum mi : freesum boot_bafs mi = 0.
Proof.
  unfold freesum. assert (H : forall b, bsum boot_bafs b = 0).
  { intros b. unfold bsum. destruct (boot_bafs !! b) as [bf|] eqn:E; [|done].
    destruct (boot_bafs_ok b bf E) as [_ ->]. simpl. lia. }
  induction (area_bafs mi) as [|b l IH]; [done|]. rewrite sumz_cons, H, IH. done.
Qed.

Lemma boot_area_cases mi a : boot_areas !! mi = Some a ->
  (mi = 3 /\ ma_type a = MA_TYPE_SHAR) \/ (0 <= mi < 3 /\ ma_type a = mi + 1).
Proof.
  intros H. assert (0 <= mi < 4) as Hr by (apply boot_areas_lookup; eauto).
  assert (mi = 0 \/ mi = 1 \/ mi = 2 \/ mi = 3) as [->|[->|[->| ->]]] by lia; vm_compute in H; simplify_eq; auto.
Qed.

(** The areas with empty lists satisfy the invariant. *)
Lemma boot_inv s :
  mareas s = boot_areas -> bafs s = boot_bafs -> mo_mareanr s = MEMAREA_MAX ->
  Z.of_nat (size (msas s)) <= 2 ^ 52 -> (forall i m, msas s !! i = Some m -> 0 <= padrs m < 2 ^ 52) ->
  Inv s ∅ /\ acct s ∅.
Proof.
  intros Ha Hb Hnr Hsz Hp.
  assert (Hno : forall i t, ~ has s ∅ i t).
  { intros i [b|g] H; unfold has in H; [|by rewrite lookup_empty in H]. destruct H as (bf & H & Hi). rewrite Hb in H.
    apply boot_bafs_ok in H as [_ H]. rewrite H in Hi. set_solver. }
  assert (Hty : forall mi ty, area_type s mi ty -> mi = ty - 1).
  { intros mi ty (a & H & <-). rewrite Ha in H. destruct (boot_area_cases _ _ H) as [[-> ->]|[? ->]]; [done|lia]. }
  split; [split|].
  - done.
  - done.
  - intros mi. by rewrite Ha, Hnr, boot_areas_lookup.
  - intros mi mj ty ->%Hty ->%Hty. done.
  - intros b. rewrite Hb. by apply boot_bafs_dom.
  - intros b bf. rewrite Hb. intros H. by apply boot_bafs_ok.
  - intros i t H. by apply Hno in H.
  - intros i t j u H. by apply Hno in H.
  - intros mi a H. rewrite Hb, boot_freesum, ghostsum_empty. rewrite Ha in H.
    assert (0 <= mi < 4) as Hr by (apply boot_areas_lookup; eauto).
    assert (mi = 0 \/ mi = 1 \/ mi = 2 \/ mi = 3) as [->|[->|[->| ->]]] by lia; vm_compute in H; simplify_eq; done.
Qed.

(** ** The state after boot *)

(** The area in which a page frame lies. *)
Definition area_of (m : msadsc_t) : option Z :=
  let t mi := match boot_areas !! mi with Some a => in_area a m | None => false end in
  if t 0 then Some 0 else if t 1 then Some 1 else if t 2 then Some 2 else None.

Definition bootfree (m : msadsc_t) : bool :=
  (0 =? uindx m) && (MF_MOCTY_FREE =? mocty m) && (PAF_NO_ALLOC =? alloc m).

(** What the boot code finds: [n] fresh descriptors and the memory behind. *)
Definition fresh_array (s : mmst) (n : Z) : Prop :=
  0 < n < 2 ^ 51 /\ Z.of_nat (size (msas s)) <= 2 ^ 52 /\ marray (msas s) n /\
  (forall j m, 0 <= j < n -> msas s !! j = Some m -> marty m = MF_MARTY_INIT).

Definition mark_all (m : msadsc_t) : msadsc_t :=
  match area_of m with Some mi => set_marty (mi + 1) m | None => m end.

Definition hwad_area : memarea_t := Memarea 0 0 MA_TYPE_HWAD 0 0 0 0 0 MA_HWAD_LSTART MA_HWAD_LEND MA_HWAD_LSZ 0.
Definition krnl_area : memarea_t := Memarea 0 0 MA_TYPE_KRNL 0 0 0 0 0 MA_KRNL_LSTART MA_KRNL_LEND MA_KRNL_LSZ 0.
Definition proc_area : memarea_t := Memarea 0 0 MA_TYPE_PROC 0 0 0 0 0 MA_PROC_LSTART MA_PROC_LEND MA_PROC_LSZ 0.

Lemma mark_mark_all m : marty m = MF_MARTY_INIT ->
  mark proc_area 3 (mark krnl_area 2 (mark hwad_area 1 m)) = mark_all m.
Proof.
  intros Hm. unfold mark_all, area_of.
  change (boot_areas !! 0) with (Some hwad_area). change (boot_areas !! 1) with (Some krnl_area).
  change (boot_areas !! 2) with (Some proc_area). cbv beta iota zeta.
  unfold mark at 3. rewrite Hm. cbn [MF_MARTY_INIT Z.eqb andb]. destruct (in_area hwad_area m) eqn:E0; [done|].
  unfold mark at 2. rewrite Hm. cbn [MF_MARTY_INIT Z.eqb andb]. destruct (in_area krnl_area m) eqn:E1; [done|].
  unfold mark. rewrite Hm. cbn [MF_MARTY_INIT Z.eqb andb]. by destruct (in_area proc_area m).
Qed.

Lemma mark_marty a cmp m : marty (mark a cmp m) = marty m \/ marty (mark a cmp m) = cmp.
Proof. unfold mark. destruct (_ && _); auto. Qed.

(** [g] is the array of [g0] with [f] applied to its [n] descriptors. *)
Definition mapped (g0 g : gmap Z msadsc_t) (n : Z) (f : msadsc_t -> msadsc_t) : Prop :=
  forall j, g !! j = if (0 <=? j) && (j <? n) then f <$> g0 !! j else g0 !! j.

Lemma mapped_some g0 g n f :
  mapped g0 g n f -> (forall j, 0 <= j < n -> is_Some (g0 !! j)) -> forall j, 0 <= j < n -> is_Some (g !! j).
Proof.
  intros Hg Hex j Hj. rewrite Hg. replace (_ && _) with true by lia. destruct (Hex j Hj) as [m ->]. simpl. eauto.
Qed.

Lemma mapped_val g0 g n f j m :
  mapped g0 g n f -> 0 <= j < n -> g !! j = Some m -> exists m0, g0 !! j = Some m0 /\ m = f m0.
Proof.
  intros Hg Hj. rewrite Hg. replace (_ && _) with true by lia. destruct (g0 !! j) as [m0|]; [|done].
  simpl. intros [= <-]. eauto.
Qed.

Lemma mapped_compose g0 g1 g2 n f f' :
  mapped g0 g1 n f -> mapped g1 g2 n f' -> mapped g0 g2 n (f' ∘ f).
Proof. intros H1 H2 j. rewrite H2, !H1. destruct (_ && _); [by rewrite option_fmap_compose|done]. Qed.

(** The first loop of [merlove_mem_core]. *)
Definition mark_pass (n : Z) : Z -> MM bool := fun mi =>
  sretf ← merlove_setallmarflgs_onmemarea mi 0 n;
  if sretf =? ones64 then mret false else
  tretf ← test_setflgs mi 0 n;
  if tretf =? ones64 then mret false else
  mret (sretf =? tretf).

Lemma mark_pass_spec s n :
  mareas s = boot_areas -> fresh_array s n ->
  wp (all_areas (seqZ 0 MEMAREA_MAX) (mark_pass n)) s (fun ok s' => ok = true /\ exists g, s' = with_msas g s /\
    mapped (msas s) g n mark_all).
Proof.
  intros Hma (Hn & _ & (Hex' & _ & _) & Hinit). change (seqZ 0 MEMAREA_MAX) with [0; 1; 2; 3]. cbn [all_areas].
  assert (Hex : forall j, 0 <= j < n -> is_Some (msas s !! j)) by (intros; apply Hex'; lia).
  step. eapply wp_mono; [apply (mark_area_spec s 0 hwad_area n); [by rewrite Hma|by left|done|done|]|].
  { intros j m Hj Hm. rewrite (Hinit j m Hj Hm). done. }
  intros ok s' (-> & g1 & -> & Hg1).
  step. eapply wp_mono; [apply (mark_area_spec _ 1 krnl_area n); [by simpl; rewrite Hma|by right; left|done|by eapply mapped_some|]|].
  { intros j m Hj Hm. destruct (mapped_val _ _ _ _ j m Hg1 Hj Hm) as (m0 & H0 & ->).
    destruct (mark_marty hwad_area (ma_type hwad_area) m0) as [->| ->]; [by rewrite (Hinit j m0 Hj H0)|done]. }
  intros ok s' (-> & g2 & -> & Hg2). pose proof (mapped_compose _ _ _ _ _ _ Hg1 Hg2) as Hg2'.
  step. eapply wp_mono; [apply (mark_area_spec _ 2 proc_area n); [by simpl; rewrite Hma|by right; right|done|by eapply mapped_some|]|].
  { intros j m Hj Hm. destruct (mapped_val _ _ _ _ j m Hg2' Hj Hm) as (m0 & H0 & ->). unfold compose.
    destruct (mark_marty krnl_area (ma_type krnl_area) (mark hwad_area (ma_type hwad_area) m0)) as [->| ->]; [|done].
    destruct (mark_marty hwad_area (ma_type hwad_area) m0) as [->| ->]; [by rewrite (Hinit j m0 Hj H0)|done]. }
  intros ok s' (-> & g3 & -> & Hg3). pose proof (mapped_compose _ _ _ _ _ _ Hg2' Hg3) as Hg3'.
  unfold mark_pass, merlove_setallmarflgs_onmemarea, test_setflgs. steps.
  eapply wp_get_ma; [simpl; rewrite Hma; reflexivity|]. cbn [ma_type]. steps.
  eapply wp_get_ma; [simpl; rewrite Hma; reflexivity|]. cbn [ma_type]. steps.
  split; [done|]. exists g3. split; [done|]. intros j. rewrite Hg3'.
  destruct (_ && _) eqn:E; [|done]. destruct (msas s !! j) as [m|] eqn:Hm; [|done]. simpl. f_equal.
  apply mark_mark_all. apply (Hinit j); [lia|done].
Qed.

Lemma merlove_mem_onmemarea_spec s mi a n :
  Inv s ∅ -> acct s ∅ -> mareas s !! mi = Some a -> usable_type (ma_type a) -> freesum (bafs s) mi = 0 ->
  marray (msas s) n -> 0 < n < 2 ^ 51 ->
  wp (merlove_mem_onmemarea mi 0 n) s (fun ok s' => ok = true /\ progress s s' mi (ma_type a) n).
Proof.
  intros HI Hac Ha Hus Hz Harr Hn. destruct (area_marty_usable _ Hus) as [_ Hpos].
  assert (ma_type a <> MA_TYPE_SHAR) by (unfold usable_type, MA_TYPE_HWAD, MA_TYPE_KRNL, MA_TYPE_PROC, MA_TYPE_SHAR in *; lia).
  unfold merlove_mem_onmemarea. steps.
  eapply wp_mono; [apply (merlove_mem_loop_spec _ s s mi (ma_type a) n 0); auto; try lia|].
  - split_and!; try done; [by exists a|lia|]. intros mj j. split; [by left|]. intros [?|(_ & ? & _)]; [done|lia].
  - intros x s' Hp. steps. done.
Qed.

Lemma freeat_marty g cmp j m : g !! j = Some m -> freeat g cmp j = true -> marty m = cmp.
Proof. intros Hm. unfold freeat, msa_is_free. rewrite Hm. intros. bool_to_prop. done. Qed.

(** Filling an area does not change what is free for the others. *)
Lemma progress_freeat s0 s mi cmp cmp' n j :
  progress s0 s mi cmp n -> cmp' <> cmp -> 0 <= j -> freeat (msas s) cmp' j = freeat (msas s0) cmp' j.
Proof.
  intros (HI & _ & Hty & _ & _ & _ & _ & Hfp & Hsame & Hpa) Hne Hj.
  destruct (freeat (msas s0) cmp j) eqn:E; [|unfold freeat; by rewrite Hsame by auto].
  destruct (decide (n <= j)); [unfold freeat; by rewrite Hsame by auto|].
  assert (Hnot : forall g m, g !! j = Some m -> marty m = cmp -> freeat g cmp' j = false).
  { intros g m Hm Hmt. destruct (freeat g cmp' j) eqn:E'; [|done]. pose proof (freeat_marty _ _ _ _ Hm E'). congruence. }
  destruct (freeat_some s0 _ _ E) as (m0 & Hm0 & _). rewrite (Hnot _ _ Hm0) by (by eapply freeat_marty).
  assert (freepg s mi j) as (b & bf & st & Hb & Hbf & Hst & Hr) by (apply Hfp; right; split_and!; [done|lia..|done]).
  assert (Hh : has s ∅ st (TFree b)) by (by exists bf).
  destruct (inv_has _ _ HI _ _ Hh) as (ty & Htb & Hpr & _). destruct (pagerun_lookup _ _ _ _ j Hpr Hr) as (m & Hm & Hmt).
  apply (Hnot _ m Hm). rewrite Hb in Htb. rewrite Hmt. by eapply area_type_fun.
Qed.

(** After the first [k] areas have been filled, from the marked state [s1]. *)
Definition filled (s1 s : mmst) (n k : Z) : Prop :=
  Inv s ∅ /\ acct s ∅ /\ (forall mi ty, area_type s mi ty <-> area_type s1 mi ty) /\
  (forall mi, k <= mi -> freesum (bafs s) mi = 0) /\
  (forall mi j, freepg s mi j <-> 0 <= mi < k /\ 0 <= j < n /\ freeat (msas s1) (mi + 1) j = true) /\
  (forall cmp j, k < cmp -> 0 <= j -> freeat (msas s) cmp j = freeat (msas s1) cmp j) /\
  marray (msas s) n.

Lemma filled_step s1 s n k :
  filled s1 s n k -> 0 <= k < 3 -> area_type s1 k (k + 1) -> 0 < n < 2 ^ 51 ->
  wp (merlove_mem_onmemarea k 0 n) s (fun ok s' => ok = true /\ filled s1 s' n (k + 1)).
Proof.
  intros (HI & Hac & Hty & Hz & Hfp & Hfa & Harr) Hk Hka Hn. pose proof (proj2 (Hty k (k + 1)) Hka) as (a & Ha & Hta).
  assert (Hus : usable_type (ma_type a)) by (rewrite Hta; unfold usable_type, MA_TYPE_HWAD, MA_TYPE_KRNL, MA_TYPE_PROC; lia).
  eapply wp_mono; [apply (merlove_mem_onmemarea_spec s k a n); auto; apply Hz; lia|].
  rewrite Hta. intros ok s' [-> Hpr]. split; [done|].
  pose proof Hpr as (HI' & Hac' & _ & _ & Hty' & _ & Hsums & Hfp' & _). split_and!; auto.
  - intros mi ty. by rewrite Hty', Hty.
  - intros mi Hmi. rewrite Hsums by lia. apply Hz. lia.
  - intros mi j. rewrite Hfp', Hfp. split.
    + intros [(? & ? & ?)|(-> & ? & Hf)]; (split_and!; [lia..|]); [done|]. rewrite <- Hfa by lia. done.
    + intros (Hmi & Hj & Hf). destruct (decide (mi = k)) as [->|]; [right|left; split_and!; [lia..|done]].
      split_and!; [done|lia..|]. rewrite Hfa by lia. done.
  - intros cmp j Hc Hj. rewrite (progress_freeat s s' k (k + 1) cmp n j) by (auto; lia). apply Hfa; lia.
  - eapply progress_marray; eauto. lia.
Qed.

(** The descriptor array once marked. *)
Lemma mapped_marray g0 g n : marray g0 n -> mapped g0 g n mark_all -> marray g n.
Proof.
  intros (Hex & Hpad & Hend) Hg.
  assert (Hp : forall m, padrs (mark_all m) = padrs m) by (intros m; unfold mark_all; by destruct (area_of m)). split_and!.
  - intros j Hj. rewrite Hg. destruct (Hex j Hj) as [m ->]. destruct (_ && _); simpl; eauto.
  - intros j m. rewrite Hg. destruct (_ && _); [|apply Hpad]. destruct (g0 !! j) as [m0|] eqn:E; [|done].
    simpl. intros [= <-]. rewrite Hp. by eapply Hpad.
  - intros m. rewrite Hg. replace (n <? n) with false by lia. rewrite andb_false_r. apply Hend.
Qed.

Lemma mapped_freeat g0 g n mi j :
  mapped g0 g n mark_all -> (forall j m, 0 <= j < n -> g0 !! j = Some m -> marty m = MF_MARTY_INIT) ->
  0 <= mi -> 0 <= j < n ->
  freeat g (mi + 1) j = true <-> exists m, g0 !! j = Some m /\ bootfree m = true /\ area_of m = Some mi.
Proof.
  intros Hg Hinit Hmi Hj. unfold freeat. rewrite Hg. replace (_ && _) with true by lia.
  destruct (g0 !! j) as [m|] eqn:Hm; [|naive_solver]. simpl. specialize (Hinit j m Hj Hm).
  unfold msa_is_free, bootfree, mark_all. destruct (area_of m) as [mj|] eqn:E.
  - split; intros H.
    + exists m. bool_to_prop. split_and!; [done| |].
      * rewrite !andb_true_iff, !Z.eqb_eq. done.
      * rewrite E. f_equal. change (mj + 1 = mi + 1) in H. lia.
    + destruct H as (m' & [= <-] & Hb & Ha). simplify_eq. bool_to_prop. rewrite !andb_true_iff, !Z.eqb_eq. done.
  - split; intros H.
    + bool_to_prop. unfold MF_MARTY_INIT in *. lia.
    + destruct H as (m' & [= <-] & _ & Ha). congruence.
Qed.

(** The boot code builds a consistent allocator whose free pages are the free
    descriptors, each in the area of its address. *)
Lemma boot_areas_spec s0 n :
  mareas s0 = ∅ -> bafs s0 = ∅ -> mo_mareanr s0 = MEMAREA_MAX -> fresh_array s0 n ->
  wp (init_memarea_areas ;; merlove_mem_core n MEMAREA_MAX) s0 (fun ok s =>
    ok = true /\ Ok s ∅ /\ (forall mi ty, area_type s mi ty <-> exists a, boot_areas !! mi = Some a /\ ma_type a = ty) /\
    forall mi j, freepg s mi j <->
      0 <= j < n /\ exists m, msas s0 !! j = Some m /\ bootfree m = true /\ area_of m = Some mi).
Proof.
  intros Hma Hba Hnr Hfr. pose proof Hfr as (Hn & Hsz & Harr & Hinit).
  step. rewrite (wp_det _ _ _ _ _ (init_memarea_areas_eq s0 Hma Hba)). unfold merlove_mem_core. step.
  eapply wp_mono; [by apply (mark_pass_spec _ n)|]. intros ok s' (-> & g & -> & Hg). simpl in Hg. steps.
  set (s1 := with_msas g _). pose proof (mapped_marray _ _ _ Harr Hg) as Harr1.
  assert (Hdom : dom g = dom (msas s0)).
  { apply set_eq. intros j. rewrite !elem_of_dom, Hg. destruct (_ && _); [apply fmap_is_Some|done]. }
  destruct (boot_inv s1) as [HI1 Hac1]; [done|done|done| | |].
  { simpl. rewrite <- size_dom, Hdom, size_dom. done. }
  { intros i m Hm. pose proof (proj1 (proj2 Harr1) i m Hm). lia. }
  assert (H0 : filled s1 s1 n 0).
  { split_and!; auto; [intros; apply boot_freesum|]. intros mi j. split; [|lia]. intros Hf. exfalso.
    by eapply freesum_zero_none in Hf; [|done|apply boot_freesum]. }
  assert (Hat : forall k, 0 <= k < 3 -> area_type s1 k (k + 1)).
  { intros k Hk. assert (k = 0 \/ k = 1 \/ k = 2) as [->|[->| ->]] by lia; eexists; (split; [reflexivity|done]). }
  change (seqZ 0 MEMAREA_MAX) with [0; 1; 2; 3]. cbn [all_areas].
  step. eapply wp_mono; [apply (filled_step s1 s1 n 0); [done|lia|apply Hat; lia|done]|]. intros ok s2 [-> H1].
  step. eapply wp_mono; [apply (filled_step s1 s2 n 1); [done|lia|apply Hat; lia|done]|]. intros ok s3 [-> H2].
  step. eapply wp_mono; [apply (filled_step s1 s3 n 2); [done|lia|apply Hat; lia|done]|]. intros ok s4 [-> H3].
  destruct H3 as (HI & Hac & Hty & _ & Hfp & _ & _).
  destruct (proj2 (Hty 3 MA_TYPE_SHAR)) as (a3 & Ha3 & Hta3); [eexists; split; [reflexivity|done]|].
  unfold merlove_mem_onmemarea. steps. split_and!; [done|split_and!; [done| |done]| |].
  - intros i x Hi. by rewrite lookup_empty in Hi.
  - intros mi ty. by rewrite Hty.
  - intros mi j. rewrite Hfp. split.
    + intros (Hmi & Hj & Hf). split; [done|]. apply (mapped_freeat (msas s0) g n mi j Hg Hinit); [lia|lia|done].
    + intros (Hj & m & Hm & Hb & Hao). assert (Hmi : 0 <= mi < 3).
      { unfold area_of in Hao. repeat case_match; simplify_eq; lia. }
      split_and!; [lia..|]. apply (mapped_freeat (msas s0) g n mi j Hg Hinit); [lia|lia|eauto].
Qed.
