(* ===== verification/DivMerSpec.v ===== *)
(** * Page allocator: contract

    The correctness theorems of the physical page allocator: what an
    allocation and a release do, when they fail, that boot establishes the
    invariant, that no sequence of requests can break it, and that the
    allocator refines an abstract allocator over sets of pages. *)

From S2P Require Import Prelude PhyMem DivMer DivMerInv DivMerOps DivMerAlloc DivMerFree Marea MareaInit MareaBoot.

(** ** A small machine: 20 page frames across the first two areas *)

Definition demo_frame (i : Z) : Z := if i <? 3 then 0x1ffe + i else 0x2000 + i.

Definition demo_msa (i : Z) : msadsc_t :=
  Msadsc (MsadFlgs MF_OLKTY_INIT MF_LSTTY_LIST MF_MOCTY_FREE MF_MARTY_INIT MF_UINDX_INIT)
    (PhyAdrFlgs PAF_NO_ALLOC 0 0 0 0 0 0 0 0 (if i =? 20 then 0 else demo_frame i)) OL_NULL.

Definition demo0 : mmst := Mmst 20 20 0 MEMAREA_MAX 20 ∅ ∅ (tabulate demo_msa 21).

Definition demo : mmst :=
  match (init_memarea_areas ;; merlove_mem_core 20 MEMAREA_MAX) demo0 with Ret (_, s) => s | _ => demo0 end.

Lemma demo_msa_lookup j m : msas demo0 !! j = Some m -> 0 <= j < 21 /\ m = demo_msa j.
Proof.
  change (msas demo0) with (tabulate demo_msa 21). rewrite lookup_tabulate.
  destruct (_ && _) eqn:E; [|done]. intros [= <-]. split; [lia|done].
Qed.

Lemma demo0_fresh : fresh_array demo0 20.
Proof.
  assert (Hp : forall j, 0 <= padrs (demo_msa j) < 2 ^ 40 \/ ~ (0 <= j < 21)).
  { intros j. destruct (decide (0 <= j < 21)); [left|by right]. unfold padrs, demo_msa, demo_frame. simpl.
    destruct (j =? 20); [lia|]. destruct (j <? 3); lia. }
  split_and!; [lia|lia| |split_and!|].
  - change (msas demo0) with (tabulate demo_msa 21). rewrite size_tabulate by lia. lia.
  - intros j Hj. change (msas demo0) with (tabulate demo_msa 21). rewrite lookup_tabulate.
    replace (_ && _) with true by lia. eauto.
  - intros j m Hm. apply demo_msa_lookup in Hm as [? ->]. by destruct (Hp j).
  - intros m Hm. by apply demo_msa_lookup in Hm as [_ ->].
  - intros j m Hj Hm. by apply demo_msa_lookup in Hm as [_ ->].
Qed.

(** The state a computation from a given state ends in. *)
Lemma wp_final {A} (m : MM A) s (Q : A -> mmst -> Prop) :
  wp m s Q -> exists a, Q a (match m s with Ret (_, s') => s' | _ => s end).
Proof. unfold wp. destruct (m s) as [[a s']| | |]; [eauto|done..]. Qed.

Lemma demo_ok : Ok demo ∅.
Proof.
  destruct (wp_final _ _ _ (boot_areas_spec demo0 20 eq_refl eq_refl eq_refl demo0_fresh)) as (ok & _ & HOk & _).
  exact HOk.
Qed.

Lemma demo_krnl : area_type demo 1 MA_TYPE_KRNL.
Proof. eexists. split; vm_compute; reflexivity. Qed.

(** ** Any request *)

Lemma mm_divpages_core_any s G mi ty pages :
  Ok s G -> area_type s mi ty -> 0 <= pages < u64max ->
  wp (mm_divpages_core mi pages DMF_RELDIV) s (fun x s' =>
    (exists i n, x = (Some i, n) /\ 0 < n /\ pages <= n /\ alloc_post s G mi i n s') \/ (x = (None, 0) /\ s' = s)).
Proof.
  intros HOk Hty Hp. pose proof Hty as (a & Ha & Hta).
  destruct (decide (ty = MA_TYPE_HWAD \/ ty = MA_TYPE_KRNL)) as [Hk|Hk].
  - destruct (decide (1 <= pages)) as [Hp1|].
    + eapply wp_mono; [apply (mm_divpages_core_rel s G mi ty pages); auto; lia|].
      pose proof (log2_up_bound pages Hp1). pose proof (pow2_pos (Z.log2_up pages) (Z.log2_up_nonneg _)).
      intros x s1 [(d & i & _ & -> & Hpost)|(-> & -> & _)]; [left|by right]. eauto 10.
    + unfold mm_divpages_core, mm_reldivpages_onmarea. steps. cbn beta iota. steps. auto.
  - unfold mm_divpages_core. steps. auto.
Qed.

(** [mm_division_pages] with arbitrary arguments either allocates in the area
    of the type asked for or reports failure and changes nothing. *)
Lemma mm_division_pages_any s G pages ty :
  Ok s G -> 0 <= pages < u64max ->
  wp (mm_division_pages pages ty DMF_RELDIV) s (fun x s' =>
    (exists mi i n, x = (Some i, n) /\ area_type s mi ty /\ 0 < n /\ pages <= n /\ alloc_post s G mi i n s') \/
    (x = (None, 0) /\ s' = s)).
Proof.
  intros HOk Hp. unfold mm_division_pages, mm_divpages_fmwk, onmrtype_retn_marea.
  destruct (ty =? 0) eqn:E0; [apply wp_ret; auto|]. steps.
  eapply wp_mono; [apply (find_marea_spec s G _ ty); [apply HOk|done]|].
  intros [mi|] s1 [-> Hty]; cbn beta iota; [|steps; auto]. step.
  eapply wp_mono; [by apply (mm_divpages_core_any s G mi ty)|].
  intros x s1 [(i & n & -> & Hn & Hpn & Hpost)|[-> ->]]; cbn beta iota; steps; [left; eauto 10|auto].
Qed.

(** ** Clients *)

(** A client's requests: pages of an area type, a page for a process, or the
    release of the [k]-th block it holds. *)
Inductive req :=
| RqAlloc (pages mrtype : Z)
| RqProc
| RqFree (k : nat).

Definition req_ok (r : req) : Prop :=
  match r with RqAlloc pages _ => 0 <= pages < u64max | _ => True end.

(** The blocks ([descriptor], [pages]) the client holds after its requests. *)
Fixpoint serve (reqs : list req) (live : list (Z * Z)) : MM (list (Z * Z)) :=
  match reqs with
  | [] => mret live
  | RqAlloc pages mrtype :: reqs' =>
      r ← mm_division_pages pages mrtype DMF_RELDIV;
      match r with
      | (Some i, n) => serve reqs' ((i, n) :: live)
      | (None, _) => serve reqs' live
      end
  | RqProc :: reqs' =>
      r ← mm_divpages_procmarea 1;
      match r with
      | (Some i, n) => serve reqs' ((i, n) :: live)
      | (None, _) => serve reqs' live
      end
  | RqFree k :: reqs' =>
      match live !! k with
      | Some (i, n) =>
          ok ← mm_merge_pages (Some i) n;
          die_if (negb ok) "release refused" ;;
          serve reqs' (delete k live)
      | None => serve reqs' live
      end
  end.

(** The client holds exactly the allocated blocks. *)
Definition holds (G : ghost) (live : list (Z * Z)) : Prop :=
  NoDup live.*1 /\ (forall i n, (i, n) ∈ live <-> exists mi, G !! i = Some (GBlk GAlloc mi n)).

Lemma holds_cons s G mi i n s' live :
  alloc_post s G mi i n s' -> holds G live -> holds (<[i := GBlk GAlloc mi n]> G) ((i, n) :: live).
Proof.
  intros (HG & _) [Hnd Hin]. split.
  - simpl. apply NoDup_cons. split; [|done]. intros ([i' n'] & -> & Hi)%list_elem_of_fmap. simpl in HG.
    apply Hin in Hi as [mj Hi]. congruence.
  - intros j m. rewrite elem_of_cons, Hin. destruct (decide (j = i)) as [->|Hne].
    + rewrite lookup_insert_eq. split; [|intros [mj [= -> ->]]; by left].
      intros [[= ->]|[mj Hj]]; [eauto|congruence].
    + rewrite lookup_insert_ne by done. split; [intros [[= -> ->]|?]; done|by right].
Qed.

Lemma holds_delete G live k i n :
  holds G live -> live !! k = Some (i, n) -> holds (delete i G) (delete k live).
Proof.
  intros [Hnd Hin] Hk. pose proof (take_drop_middle live k _ Hk) as Hsplit.
  rewrite delete_take_drop. rewrite <- Hsplit in Hnd, Hin.
  rewrite fmap_app, fmap_cons in Hnd. split; [rewrite fmap_app; by apply NoDup_app in Hnd as (? & ? & [? ?]%NoDup_cons);
    apply NoDup_app; set_solver|].
  intros j m. destruct (decide (j = i)) as [->|Hne].
  - rewrite lookup_delete_eq. split; [|by intros [? ?]]. intros Hj. exfalso.
    assert (Hj' : i ∈ (take k live ++ drop (S k) live).*1) by (apply list_elem_of_fmap; by exists (i, m)).
    rewrite fmap_app in Hj'. apply NoDup_app in Hnd as (_ & Hd & [Hnd _]%NoDup_cons).
    apply elem_of_app in Hj' as [Hj'|Hj']; [apply (Hd i Hj'); by left|done].
  - rewrite lookup_delete_ne by done. rewrite <- Hin, !elem_of_app, elem_of_cons.
    split; [tauto|]. intros [?|[[= -> ->]|?]]; auto; done.
Qed.

(** The page is managed by the allocator: free, or part of a block. *)
Definition covered (s : mmst) (G : ghost) (j : Z) : Prop :=
  (exists mi, freepg s mi j) \/ (exists i g, G !! i = Some g /\ i <= j < i + g_len g).

Lemma covered_alloc s G mi i n s' j :
  alloc_post s G mi i n s' -> covered s' (<[i := GBlk GAlloc mi n]> G) j <-> covered s G j.
Proof.
  intros (HG & _ & Hwas & Hfp & _). unfold covered. split.
  - intros [[mj [H _]%Hfp]|(k & g & Hk & Hj)]; [left; eauto|]. destruct (decide (k = i)) as [->|]; simplify_map_eq.
    + left. eauto.
    + right. eauto.
  - intros [[mj H]|(k & g & Hk & Hj)].
    + destruct (decide (i <= j < i + n)); [right|left].
      * exists i, (GBlk GAlloc mi n). by rewrite lookup_insert_eq.
      * exists mj. by apply Hfp.
    + right. exists k, g. rewrite lookup_insert_ne by congruence. done.
Qed.

Lemma covered_free s G mi i n s' j :
  G !! i = Some (GBlk GAlloc mi n) -> free_post s G mi i n s' -> covered s' (delete i G) j <-> covered s G j.
Proof.
  intros HG (_ & Hfp & _). unfold covered. split.
  - intros [[mj [H|[-> H]]%Hfp]|(k & g & [_ Hk]%lookup_delete_Some & Hj)]; [left; eauto|right; eauto..].
  - intros [[mj H]|(k & g & Hk & Hj)]; [left; exists mj; apply Hfp; auto|].
    destruct (decide (k = i)) as [->|]; [left; exists mi; apply Hfp; simplify_eq; auto|right].
    exists k, g. by rewrite lookup_delete_ne by done.
Qed.

Lemma serve_spec reqs : forall s G live km,
  Ok s G -> holds G live -> area_type s km MA_TYPE_KRNL -> Forall req_ok reqs ->
  wp (serve reqs live) s (fun live' s' => exists G', Ok s' G' /\ holds G' live' /\ forall j, covered s' G' j <-> covered s G j).
Proof.
  induction reqs as [|r reqs IH]; intros s G live km HOk Hh Hkm Hreq; cbn [serve].
  { apply wp_ret. eauto. }
  apply Forall_cons in Hreq as [Hr Hreq].
  assert (Hnext : forall mi i n s', alloc_post s G mi i n s' ->
    wp (serve reqs ((i, n) :: live)) s' (fun live' s'' => exists G', Ok s'' G' /\ holds G' live' /\
      forall j, covered s'' G' j <-> covered s G j)).
  { intros mi i n s' Hpost. eapply wp_mono; [eapply (IH s' (<[i := GBlk GAlloc mi n]> G) _ km);
      [apply Hpost|by eapply holds_cons|by apply Hpost|done]|].
    intros live' s'' (G' & HOk' & Hh' & Hc). exists G'. split_and!; auto. intros j. rewrite Hc. by eapply covered_alloc. }
  destruct r as [pages ty| |k]; cbn [serve]; [step|step|].
  - eapply wp_mono; [by apply (mm_division_pages_any s G)|].
    intros x s' [(mi & i & n & -> & _ & _ & _ & Hpost)|[-> ->]]; cbn beta iota; [by eapply Hnext|by eapply IH].
  - eapply wp_mono; [by apply (mm_divpages_procmarea_spec s G km)|].
    intros x s' [(mi & i & _ & -> & Hpost)|[(_ & d & i & _ & -> & Hpost)|(-> & -> & _)]]; cbn beta iota;
      [by eapply Hnext|by eapply Hnext|by eapply IH].
  - destruct (live !! k) as [[i n]|] eqn:Hk; [|by eapply IH].
    destruct (proj1 (proj2 Hh i n) (list_elem_of_lookup_2 _ _ _ Hk)) as [mi HG]. step.
    eapply wp_mono; [by apply (mm_merge_pages_spec s G mi i n)|]. intros x s' (-> & Hpost & _). steps.
    eapply wp_mono; [eapply (IH s' (delete i G) _ km); [apply Hpost|by apply holds_delete with n|by apply Hpost|done]|].
    intros live' s'' (G' & HOk' & Hh' & Hc). exists G'. split_and!; auto. intros j. rewrite Hc. by eapply covered_free.
Qed.

(** Blocks held by a client do not overlap and are not free. *)
Lemma holds_disjoint s G live k l i n j m :
  Inv s G -> holds G live -> live !! k = Some (i, n) -> live !! l = Some (j, m) -> k <> l ->
  i + n <= j \/ j + m <= i.
Proof.
  intros HI [Hnd Hin] Hk Hl Hne.
  destruct (proj1 (Hin i n) (list_elem_of_lookup_2 _ _ _ Hk)) as [mi Hi].
  destruct (proj1 (Hin j m) (list_elem_of_lookup_2 _ _ _ Hl)) as [mj Hj].
  destruct (inv_disj _ _ HI _ _ _ _ (has_ghost s _ _ _ Hi) (has_ghost s _ _ _ Hj)) as [[<- _]|[?|?]]; simpl in *; [|lia|lia].
  exfalso. apply Hne. eapply (NoDup_lookup live.*1 k l i); [done| |]; rewrite list_lookup_fmap; [by rewrite Hk|by rewrite Hl].
Qed.

(** ** Releases that are refused *)

(** Releasing a block that is free, whatever the size given, changes nothing. *)
Lemma free_block_refused s G i b n :
  Inv s G -> has s G i (TFree b) -> wp (mm_merge_pages (Some i) n) s (fun x s' => x = false /\ s' = s).
Proof.
  intros HI Hh. destruct (free_end s G b i HI Hh) as (m & Hi & [Hu Ha] & Hend).
  unfold mm_merge_pages, mm_merpages_fmwk. destruct (n <? 1) eqn:E; [done|]. step. bool_to_prop.
  assert (Hm : wp (onfrmsa_retn_marea i n) s (fun r s' => s' = s)).
  { unfold onfrmsa_retn_marea. step. step. destruct Hend as [[Ho _]|(Ho & H1 & Hod)].
    - steps. done.
    - steps. rewrite Hod. steps. destruct (negb _); [done|].
      destruct (inv_has _ _ HI _ _ Hh) as (ty & _ & Hpr & _ & _ & me & _ & Hme & _). steps.
      destruct (negb _); [done|]. eapply wp_mono; [by apply (find_marea_spec s G _ (marty m) HI); intros; apply Z.eqb_sym|].
      intros r s' [-> _]. done. }
  eapply wp_mono; [apply Hm|]. intros [mi|] s' ->; [|done].
  unfold mm_merpages_core. step. step. unfold scan_freemsa_isok. steps. done.
Qed.

(** Releasing an allocated block with another size changes nothing. *)
Lemma wrong_size_refused s G i mi n n' :
  Inv s G -> G !! i = Some (GBlk GAlloc mi n) -> n' <> n -> wp (mm_merge_pages (Some i) n') s (fun x s' => x = false /\ s' = s).
Proof.
  intros HI HG Hne. unfold mm_merge_pages, mm_merpages_fmwk. destruct (n' <? 1) eqn:E; [done|]. step.
  destruct (alloc_inv s G i mi n HI HG) as (ty & ms & me & Hty & _ & _ & Hn & Hs & He & Hms & Hme & _ & _ & Ho & Hod & _).
  unfold onfrmsa_retn_marea. steps. rewrite Hod. steps. done.
Qed.

(** The small machine after the allocation of three pages. *)
Definition demo1 : mmst :=
  match mm_division_pages 3 MA_TYPE_KRNL DMF_RELDIV demo with Ret (_, s) => s | _ => demo end.
Definition demo1_blocks : ghost := <[3 := GBlk GAlloc 1 4]> ∅.

Lemma alloc_state s G mi ty pages i n :
  Ok s G -> area_type s mi ty -> ty = MA_TYPE_HWAD \/ ty = MA_TYPE_KRNL -> 1 <= pages < u64max ->
  match mm_division_pages pages ty DMF_RELDIV s with Ret (x, _) => x | _ => (None, 0) end = (Some i, n) ->
  Ok (match mm_division_pages pages ty DMF_RELDIV s with Ret (_, s') => s' | _ => s end) (<[i := GBlk GAlloc mi n]> G).
Proof.
  intros HOk Hty Hk Hp Hres. pose proof (mm_division_pages_rel s G mi ty pages HOk Hty Hk Hp) as H. unfold wp in H.
  destruct (mm_division_pages pages ty DMF_RELDIV s) as [[x s']| | |]; [|done..].
  subst x. destruct H as [(d & j & _ & [= <- ->] & Hpost)|[H _]]; [|done]. apply Hpost.
Qed.

Lemma demo1_ok : Ok demo1 demo1_blocks.
Proof.
  apply (alloc_state demo ∅ 1 MA_TYPE_KRNL 3 3 4 demo_ok demo_krnl (or_intror eq_refl)).
  - rewrite u64max_val. lia.
  - vm_compute. reflexivity.
Qed.

(** ** Correctness of the allocator *)

(** C1: allocation.  A request for [pages] pages (between 1 and 2^64-1) in
    the hardware or kernel area takes the head of the smallest non-empty list
    that is large enough, and returns the first descriptor and the size
    2^ceil(log2 pages) of a block all of whose pages were free; exactly those
    pages stop being free, the other blocks, the free lists and the counters
    stay consistent.  It fails, changing nothing, exactly when no list of
    that order or above has a block.  It never halts and never makes an
    invalid access. *)
Theorem alloc_correct s G mi ty pages :
  Ok s G -> area_type s mi ty -> ty = MA_TYPE_HWAD \/ ty = MA_TYPE_KRNL -> 1 <= pages < u64max ->
  let r := Z.log2_up pages in
  wp (mm_division_pages pages ty DMF_RELDIV) s (fun x s' =>
    (exists d i, first_fit s mi r d i /\ x = (Some i, 2 ^ r) /\ alloc_post s G mi i (2 ^ r) s') \/
    (x = (None, 0) /\ s' = s /\ no_free_from s mi r)).
Proof. intros HOk Hty Hk Hp. by eapply mm_division_pages_rel. Qed.

Lemma alloc_correct_witness :
  wp (mm_division_pages 3 MA_TYPE_KRNL DMF_RELDIV) demo (fun x s' =>
    (exists d i, first_fit demo 1 2 d i /\ x = (Some i, 4) /\ alloc_post demo ∅ 1 i 4 s') \/
    (x = (None, 0) /\ s' = demo /\ no_free_from demo 1 2)).
Proof. apply (alloc_correct demo ∅ 1 MA_TYPE_KRNL 3 demo_ok demo_krnl (or_intror eq_refl)). rewrite u64max_val. lia. Defined.

(** C2: release.  Releasing an allocated block succeeds; exactly its pages
    become free, the other blocks and the counters stay consistent, and
    outside the process area the pages end up in a free block that no free
    block of the same order physically adjoins (unless it has the largest
    order): merging is complete. *)
Theorem free_correct s G mi i n :
  Ok s G -> G !! i = Some (GBlk GAlloc mi n) ->
  wp (mm_merge_pages (Some i) n) s (fun x s' =>
    x = true /\ free_post s G mi i n s' /\ (area_type s mi MA_TYPE_PROC \/ coalesced s' mi i n)).
Proof. apply mm_merge_pages_spec. Qed.

Lemma free_correct_witness :
  wp (mm_merge_pages (Some 3) 4) demo1 (fun x s' =>
    x = true /\ free_post demo1 demo1_blocks 1 3 4 s' /\ (area_type demo1 1 MA_TYPE_PROC \/ coalesced s' 1 3 4)).
Proof. apply (free_correct demo1 demo1_blocks 1 3 4 demo1_ok). reflexivity. Defined.

(** Boot.  From an array of [n] fresh descriptors (and a non-descriptor
    behind it), building the areas and sorting the descriptors into them
    succeeds and establishes the allocator invariant with nothing allocated;
    the free pages are exactly the descriptors not taken by the kernel, each
    in the area its address belongs to. *)
Theorem boot_correct s0 n :
  mareas s0 = ∅ -> bafs s0 = ∅ -> mo_mareanr s0 = MEMAREA_MAX -> fresh_array s0 n ->
  wp (init_memarea_areas ;; merlove_mem_core n MEMAREA_MAX) s0 (fun ok s =>
    ok = true /\ Ok s ∅ /\ (forall mi ty, area_type s mi ty <-> exists a, boot_areas !! mi = Some a /\ ma_type a = ty) /\
    forall mi j, freepg s mi j <->
      0 <= j < n /\ exists m, msas s0 !! j = Some m /\ bootfree m = true /\ area_of m = Some mi).
Proof. apply boot_areas_spec. Qed.

Lemma boot_correct_witness :
  wp (init_memarea_areas ;; merlove_mem_core 20 MEMAREA_MAX) demo0 (fun ok s =>
    ok = true /\ Ok s ∅ /\ (forall mi ty, area_type s mi ty <-> exists a, boot_areas !! mi = Some a /\ ma_type a = ty) /\
    forall mi j, freepg s mi j <->
      0 <= j < 20 /\ exists m, msas demo0 !! j = Some m /\ bootfree m = true /\ area_of m = Some mi).
Proof. apply (boot_correct demo0 20 eq_refl eq_refl eq_refl demo0_fresh). Defined.

(** The block [(i, n)] consists of pages that were free at boot. *)
Definition boot_pages (s0 : mmst) (n : Z) (blk : Z * Z) : Prop :=
  forall j, blk.1 <= j < blk.1 + blk.2 ->
    0 <= j < n /\ exists m, msas s0 !! j = Some m /\ bootfree m = true /\ area_of m <> None.

(** Without a descriptor behind the array the scan of the free pages reads out
    of it (memarea.c:393 passes the length of the whole array, not what is left
    of it): this is why [fresh_array] speaks of the memory at index [n]. *)
Definition demo_exact : mmst := Mmst 20 20 0 MEMAREA_MAX 20 ∅ ∅ (tabulate demo_msa 20).

Lemma scan_reads_behind_array : (init_memarea_areas ;; merlove_mem_core 20 MEMAREA_MAX) demo_exact = Fault.
Proof. vm_compute. reflexivity. Qed.

(** C3: safety of every execution.  Given that the memory right behind the
    descriptor array, which the scan of memarea.c:393 reads, is readable and
    does not look like a descriptor of an area ([fresh_array]), from boot any
    sequence of allocations (with any page count and area type) and releases of
    held blocks runs to the end without halting and, that one read apart,
    without an access outside the array; whatever the client then holds is made
    of pages that were free at boot, the blocks are pairwise disjoint and none
    of their pages is free. *)
Theorem boot_serve_safe s0 n reqs :
  mareas s0 = ∅ -> bafs s0 = ∅ -> mo_mareanr s0 = MEMAREA_MAX -> fresh_array s0 n -> Forall req_ok reqs ->
  wp (init_memarea_areas ;; merlove_mem_core n MEMAREA_MAX ;; serve reqs []) s0 (fun live s =>
    Forall (boot_pages s0 n) live /\
    (forall k l i p j q, live !! k = Some (i, p) -> live !! l = Some (j, q) -> k <> l -> i + p <= j \/ j + q <= i) /\
    (forall i p mi j, (i, p) ∈ live -> i <= j < i + p -> ~ freepg s mi j)).
Proof.
  intros Hma Hba Hnr Hfr Hreq. pose proof (boot_areas_spec s0 n Hma Hba Hnr Hfr) as Hb.
  apply wp_bind_inv in Hb. apply wp_bind. eapply wp_mono; [apply Hb|]. intros u s1 Hb1. apply wp_bind.
  eapply wp_mono; [apply Hb1|]. intros ok s2 (_ & HOk & Hty & Hfp).
  eapply wp_mono; [eapply (serve_spec reqs s2 ∅ [] 1); auto|].
  - split; [by apply NoDup_nil|]. intros i p. split; [by intros ?%not_elem_of_nil|]. intros [mi H]. by rewrite lookup_empty in H.
  - apply Hty. eexists. split; [reflexivity|done].
  - intros live s (G & (HI & _ & _) & Hh & Hc). split_and!.
    + apply Forall_forall. intros [i p] Hin j Hj. destruct (proj1 (proj2 Hh i p) Hin) as [mi HG]. simpl in Hj.
      destruct (proj1 (Hc j)) as [[mj Hf]|(k & g & Hg & _)]; [right; eauto| |by rewrite lookup_empty in Hg].
      apply Hfp in Hf as (? & m & Hm & Hbf & Ha). split; [done|]. exists m. split_and!; [done..|]. by rewrite Ha.
    + intros k l i p j q. by eapply holds_disjoint.
    + intros i p mi j Hin Hj. destruct (proj1 (proj2 Hh i p) Hin) as [mk HG]. by eapply ghost_not_free.
Qed.

Lemma boot_serve_safe_witness :
  wp (init_memarea_areas ;; merlove_mem_core 20 MEMAREA_MAX ;;
      serve [RqAlloc 3 MA_TYPE_KRNL; RqAlloc 1 MA_TYPE_HWAD; RqProc; RqFree 1; RqAlloc 9 MA_TYPE_KRNL] []) demo0 (fun live s =>
    Forall (boot_pages demo0 20) live /\
    (forall k l i p j q, live !! k = Some (i, p) -> live !! l = Some (j, q) -> k <> l -> i + p <= j \/ j + q <= i) /\
    (forall i p mi j, (i, p) ∈ live -> i <= j < i + p -> ~ freepg s mi j)).
Proof.
  apply (boot_serve_safe demo0 20 _ eq_refl eq_refl eq_refl demo0_fresh).
  repeat constructor; simpl; rewrite ?u64max_val; lia.
Defined.

(** Round trip.  Allocating and releasing again leaves the free pages and
    the page counters of the memory manager as they were. *)
Theorem alloc_free_roundtrip s G mi ty pages :
  Ok s G -> area_type s mi ty -> ty = MA_TYPE_HWAD \/ ty = MA_TYPE_KRNL -> 1 <= pages < u64max ->
  0 <= mo_freepages s < u64max -> 0 <= mo_alocpages s < u64max ->
  wp (x ← mm_division_pages pages ty DMF_RELDIV;
      match x with (Some i, n) => mm_merge_pages (Some i) n | _ => mret true end) s (fun ok s' =>
    ok = true /\ Ok s' G /\ (forall mj j, freepg s' mj j <-> freepg s mj j) /\
    mo_freepages s' = mo_freepages s /\ mo_alocpages s' = mo_alocpages s).
Proof.
  intros HOk Hty Hk Hp Hfr Hal. step. eapply wp_mono; [by apply (mm_division_pages_rel s G mi ty)|].
  set (n := 2 ^ _). intros x s1 [(d & i & _ & -> & Hpost)|(-> & -> & _)]; cbn beta iota; [|by apply wp_ret].
  destruct Hpost as (HG & HOk1 & Hwas & Hfp & _ & Hfr1 & Hal1).
  eapply wp_mono; [apply (mm_merge_pages_spec s1 _ mi i n HOk1); apply lookup_insert_eq|].
  intros ok s2 (-> & (HOk2 & Hfp2 & _ & Hfr2 & Hal2) & _). rewrite delete_insert_id in HOk2 by done.
  split_and!; [done|done| | |].
  - intros mj j. rewrite Hfp2, Hfp. split; [intros [[? _]|[<- ?]]; auto|]. intros Hf.
    destruct (decide (i <= j < i + n)) as [Hj|]; [right|by left]. split; [|done].
    destruct HOk as (HI & _). destruct (Hwas j Hj) as (b & bf & st & Hb & Hbf & Hst & Hr), Hf as (c & cf & ct & Hc & Hcf & Hct & Hcr).
    destruct (has_unique s G st (TFree b) ct (TFree c) j HI) as [_ [= ->]]; [by exists bf|by exists cf|done..|]. congruence.
  - rewrite Hfr2, Hfr1, u64_add_l, Z.sub_add. by apply u64_small.
  - rewrite Hal2, Hal1. unfold u64. rewrite Zminus_mod_idemp_l, Z.add_simpl_r. by apply Z.mod_small.
Qed.

Lemma alloc_free_roundtrip_witness :
  wp (x ← mm_division_pages 3 MA_TYPE_KRNL DMF_RELDIV;
      match x with (Some i, n) => mm_merge_pages (Some i) n | _ => mret true end) demo (fun ok s' =>
    ok = true /\ Ok s' ∅ /\ (forall mj j, freepg s' mj j <-> freepg demo mj j) /\
    mo_freepages s' = mo_freepages demo /\ mo_alocpages s' = mo_alocpages demo).
Proof.
  apply (alloc_free_roundtrip demo ∅ 1 MA_TYPE_KRNL 3 demo_ok demo_krnl (or_intror eq_refl));
    [rewrite u64max_val; lia|vm_compute; by split..].
Defined.

(** Refused releases.  Releasing a block that is already free, with any
    size, or an allocated block with a size other than its own, answers FALSE
    and leaves the whole state unchanged. *)
Theorem bad_free_refused s G i n :
  Ok s G -> (exists b, has s G i (TFree b)) \/ (exists mi m, G !! i = Some (GBlk GAlloc mi m) /\ m <> n) ->
  wp (mm_merge_pages (Some i) n) s (fun x s' => x = false /\ s' = s).
Proof.
  intros (HI & _) [[b Hb]|(mi & m & HG & Hne)]; [by eapply free_block_refused|]. eapply wrong_size_refused; eauto.
Qed.

Lemma bad_free_refused_witness : wp (mm_merge_pages (Some 3) 3) demo1 (fun x s' => x = false /\ s' = demo1).
Proof. apply (bad_free_refused demo1 demo1_blocks 3 3 demo1_ok). right. exists 1, 4. split; [reflexivity|lia]. Defined.

(** Largest block.  With DMF_MAXDIV the allocator hands out, unsplit, the
    head of the largest non-empty list of the area, and fails exactly when
    the area has no free block. *)
Theorem alloc_max_correct s G mi ty pages :
  Ok s G -> area_type s mi ty -> ty = MA_TYPE_HWAD \/ ty = MA_TYPE_KRNL ->
  wp (mm_division_pages pages ty DMF_MAXDIV) s (fun x s' =>
    (exists d i, last_fit s mi d i /\ x = (Some i, 2 ^ d) /\ alloc_post s G mi i (2 ^ d) s') \/
    (x = (None, 0) /\ s' = s /\ no_free_from s mi 0)).
Proof. apply mm_division_pages_max. Qed.

Lemma alloc_max_correct_witness :
  wp (mm_division_pages 1 MA_TYPE_KRNL DMF_MAXDIV) demo (fun x s' =>
    (exists d i, last_fit demo 1 d i /\ x = (Some i, 2 ^ d) /\ alloc_post demo ∅ 1 i (2 ^ d) s') \/
    (x = (None, 0) /\ s' = demo /\ no_free_from demo 1 0)).
Proof. apply (alloc_max_correct demo ∅ 1 MA_TYPE_KRNL 1 demo_ok demo_krnl (or_intror eq_refl)). Defined.

(** Process pages.  A single-page request for a process is served from
    the process area's page list; when that list is empty it falls back to
    the kernel area, and fails only when both have nothing. *)
Theorem alloc_proc_correct s G km :
  Ok s G -> area_type s km MA_TYPE_KRNL ->
  wp (mm_divpages_procmarea 1) s (fun x s' =>
    (exists mi i, proc_head s mi i /\ x = (Some i, 1) /\ alloc_post s G mi i 1 s') \/
    (proc_empty s /\ exists d i, first_fit s km 0 d i /\ x = (Some i, 1) /\ alloc_post s G km i 1 s') \/
    (x = (None, 0) /\ s' = s /\ proc_empty s /\ no_free_from s km 0)).
Proof. apply mm_divpages_procmarea_spec. Qed.

Lemma alloc_proc_correct_witness :
  wp (mm_divpages_procmarea 1) demo (fun x s' =>
    (exists mi i, proc_head demo mi i /\ x = (Some i, 1) /\ alloc_post demo ∅ mi i 1 s') \/
    (proc_empty demo /\ exists d i, first_fit demo 1 0 d i /\ x = (Some i, 1) /\ alloc_post demo ∅ 1 i 1 s') \/
    (x = (None, 0) /\ s' = demo /\ proc_empty demo /\ no_free_from demo 1 0)).
Proof. apply (alloc_proc_correct demo ∅ 1 demo_ok demo_krnl). Defined.

(** Orders.  For every 64-bit page count, [retn_divoder] is the least
    order whose block size is at least the count. *)
Theorem retn_divoder_least pages :
  1 <= pages < u64max ->
  let k := retn_divoder pages in
  0 <= k <= 64 /\ pages <= 2 ^ k /\ (forall j, 0 <= j -> pages <= 2 ^ j -> k <= j).
Proof.
  intros Hp k. unfold k. rewrite retn_divoder_log2_up by done. split_and!.
  - apply Z.log2_up_nonneg.
  - apply Z.log2_up_le_pow2; [lia|]. unfold u64max in Hp. lia.
  - apply log2_up_bound. lia.
  - intros j Hj Hle. apply Z.log2_up_le_pow2; [lia|done].
Qed.

Lemma retn_divoder_least_witness :
  0 <= retn_divoder 5 <= 64 /\ 5 <= 2 ^ retn_divoder 5 /\ (forall j, 0 <= j -> 5 <= 2 ^ j -> retn_divoder 5 <= j).
Proof. apply (retn_divoder_least 5). rewrite u64max_val. lia. Defined.

(** ** Refinement of an abstract allocator *)

(** An abstract allocator knows which pages of which area are free and which
    blocks are handed out. *)
Record apages := APages { ap_free : Z -> Z -> Prop; ap_blocks : gmap Z (Z * Z) }.

Inductive aevent :=
| AAlloc (pages mrtype : Z) (res : option (Z * Z))
| AFree (i n : Z) (ok : bool).

(** Its steps: any run of free pages that is long enough may be handed out,
    an allocation may fail, and a block handed out may be returned. *)
Inductive astep : apages -> aevent -> apages -> Prop :=
| as_alloc A A' pages ty mi i n :
    pages <= n -> 0 < n -> ap_blocks A !! i = None -> (forall j, i <= j < i + n -> ap_free A mi j) ->
    (forall mj j, ap_free A' mj j <-> ap_free A mj j /\ ~ (i <= j < i + n)) ->
    ap_blocks A' = <[i := (mi, n)]> (ap_blocks A) ->
    astep A (AAlloc pages ty (Some (i, n))) A'
| as_fail A pages ty : astep A (AAlloc pages ty None) A
| as_free A A' mi i n :
    ap_blocks A !! i = Some (mi, n) ->
    (forall mj j, ap_free A' mj j <-> ap_free A mj j \/ (mi = mj /\ i <= j < i + n)) ->
    ap_blocks A' = delete i (ap_blocks A) ->
    astep A (AFree i n true) A'
| as_refuse A i n : (forall mi, ap_blocks A !! i <> Some (mi, n)) -> astep A (AFree i n false) A.

Definition abstr (s : mmst) (G : ghost) : apages :=
  APages (freepg s) ((fun g => (g_area g, g_len g)) <$> G).

(** The operations of the allocator as events. *)
Inductive aop := OAlloc (pages mrtype : Z) | OFree (i n : Z).

Definition exec (o : aop) : MM aevent :=
  match o with
  | OAlloc pages ty =>
      r ← mm_division_pages pages ty DMF_RELDIV;
      mret (AAlloc pages ty (match r with (Some i, n) => Some (i, n) | _ => None end))
  | OFree i n => ok ← mm_merge_pages (Some i) n; mret (AFree i n ok)
  end.

(** What a caller may ask: any allocation; the release of a block boundary. *)
Definition aop_pre (s : mmst) (G : ghost) (o : aop) : Prop :=
  match o with
  | OAlloc pages _ => 0 <= pages < u64max
  | OFree i n => (exists b, has s G i (TFree b)) \/ is_Some (G !! i)
  end.

(** C14: refinement.  Every operation of the allocator on a consistent state
    terminates normally in a consistent state and is matched by a step of the
    abstract allocator with the same arguments and result. *)
Theorem allocator_refines s G o :
  Ok s G -> aop_pre s G o ->
  wp (exec o) s (fun ev s' => exists G', Ok s' G' /\ astep (abstr s G) ev (abstr s' G')).
Proof.
  intros HOk Hpre. pose proof HOk as (HI & Hset & _). destruct o as [pages ty|i n]; simpl in Hpre; unfold exec; step.
  - eapply wp_mono; [by apply (mm_division_pages_any s G)|].
    intros x s' [(mi & i & n & -> & _ & Hn & Hpn & Hpost)|[-> ->]]; step.
    + destruct Hpost as (HG & HOk' & Hwas & Hfp & _). exists (<[i := GBlk GAlloc mi n]> G). split; [done|].
      apply (as_alloc _ _ _ _ mi); auto; simpl; [by rewrite lookup_fmap, HG|by rewrite fmap_insert].
    + exists G. split; [done|]. apply as_fail.
  - assert (Hc : (exists mi, G !! i = Some (GBlk GAlloc mi n)) \/ ~ (exists mi, G !! i = Some (GBlk GAlloc mi n))).
    { destruct (G !! i) as [[k mi m]|]; [|right; naive_solver]. destruct (decide (m = n)) as [->|]; [|right; naive_solver].
      destruct k; [left; eauto|right; naive_solver]. }
    destruct Hc as [[mi HG]|Hno].
    + eapply wp_mono; [by apply (mm_merge_pages_spec s G mi i n)|]. intros x s' (-> & (HOk' & Hfp & _) & _). step.
      exists (delete i G). split; [done|].
      apply (as_free _ _ mi); auto; simpl; [by rewrite lookup_fmap, HG|by rewrite fmap_delete].
    + assert (Hw : wp (mm_merge_pages (Some i) n) s (fun x s' => x = false /\ s' = s)).
      { destruct Hpre as [[b Hb]|[[k mi m] HG]]; [by eapply free_block_refused|].
        pose proof (Hset i _ HG) as Hk. simpl in Hk. subst k. eapply wrong_size_refused; eauto. naive_solver. }
      eapply wp_mono; [apply Hw|]. intros x s' [-> ->]. step. exists G. split; [done|]. apply as_refuse. simpl.
      intros mi. rewrite lookup_fmap. destruct (G !! i) as [[k mj m]|] eqn:HG; [|done]. simpl. intros [= -> ->].
      pose proof (Hset i _ HG) as Hk. simpl in Hk. subst k. naive_solver.
Qed.

Lemma allocator_refines_witness :
  wp (exec (OFree 3 4)) demo1 (fun ev s' => exists G', Ok s' G' /\ astep (abstr demo1 demo1_blocks) ev (abstr s' G')).
Proof. apply (allocator_refines demo1 demo1_blocks (OFree 3 4) demo1_ok). right. eexists. reflexivity. Defined.
