(* ===== verification/PageIf.v ===== *)
(** * The page allocator as a service

    What the rest of the kernel uses of the physical page allocator: four calls
    ([PageOps]) and what they promise ([PageAlloc]).  The page tables and the
    address spaces are modelled and proved against this interface; the second
    half of the file shows that the allocator of DivMer.v meets it. *)

From S2P Require Import Prelude PhyMem DivMer DivMerInv DivMerOps DivMerAlloc DivMerFree Marea MareaInit MareaBoot DivMerSpec.

(** ** The interface *)

Class PageOps (S : Type) := {
  (** [mm_division_pages(&memmgrob, pages, &retpnr, MA_TYPE_KRNL, DMF_RELDIV)] *)
  pg_division : Z -> M S (option Z * Z);
  (** [mm_divpages_procmarea(&memmgrob, 1, &retpnr)] *)
  pg_procpage : M S (option Z * Z);
  (** [mm_merge_pages(&memmgrob, msa, pages)] *)
  pg_merge : Z -> Z -> M S bool;
  (** [onfrmsa_retn_fpagenr(msa)] *)
  pg_fpagenr : Z -> M S Z;
  (** [msadsc_ret_addr(msa)] *)
  pg_addr : Z -> M S Z
}.

(** The blocks a client holds: descriptor, physical address, pages. *)
Abbreviation blocks := (gmap Z (Z * Z)).

Definition block_apart (b c : Z * Z) : Prop := b.1 + 4096 * b.2 <= c.1 \/ c.1 + 4096 * c.2 <= b.1.

(** Blocks of the kernel's area lie in its linear map, all pages above the
    hardware area and below 2^40: a page's address then fits the 40-bit fields it
    is kept in also when the compiler shifts them at their own width. *)
Definition krnl_block (b : Z * Z) : Prop := b.1 + 4096 * b.2 <= 2 ^ 34.
Definition page_block (b : Z * Z) : Prop := b.1 mod 4096 = 0 /\ 0x2000000 <= b.1 /\ 0 < b.2 /\ b.1 + 4096 * b.2 <= 2 ^ 40.

(** [pg_held s P A]: the client holds [A]; [P] is the set of the pages that the
    allocator manages, which never changes. *)
Class PageAlloc (S : Type) `{PageOps S} := {
  pg_held : S -> (Z -> Prop) -> blocks -> Prop;
  pg_division_spec s P A pages : pg_held s P A -> 1 <= pages < u64max ->
    wp (pg_division pages) s (fun r s' =>
      (exists i p n, r = (Some i, n) /\ n = 2 ^ Z.log2_up pages /\ A !! i = None /\ krnl_block (p, n) /\ pg_held s' P (<[i := (p, n)]> A)) \/
      (r = (None, 0) /\ s' = s));
  pg_procpage_spec s P A : pg_held s P A ->
    wp pg_procpage s (fun r s' =>
      (exists i p, r = (Some i, 1) /\ A !! i = None /\ pg_held s' P (<[i := (p, 1)]> A)) \/ (r = (None, 0) /\ s' = s));
  pg_merge_spec s P A i p n : pg_held s P A -> A !! i = Some (p, n) ->
    wp (pg_merge i n) s (fun r s' => r = true /\ pg_held s' P (delete i A));
  pg_fpagenr_spec s P A i p n : pg_held s P A -> A !! i = Some (p, n) -> pg_fpagenr i s = Ret (n, s);
  pg_addr_spec s P A i p n : pg_held s P A -> A !! i = Some (p, n) -> pg_addr i s = Ret (p, s);
  pg_block s P A i b : pg_held s P A -> A !! i = Some b -> page_block b;
  pg_apart s P A i j b c : pg_held s P A -> A !! i = Some b -> A !! j = Some c -> i <> j -> block_apart b c;
  pg_pool s P A i p n k : pg_held s P A -> A !! i = Some (p, n) -> 0 <= k < n -> P (p + 4096 * k)
}.

(** ** The allocator keeps the frames of the descriptors *)

Definition frames (s : mmst) : gmap Z (Z * Z) := (fun m => (padrs m, marty m)) <$> msas s.

Lemma stable_get_msa i : stable frames (get_msa i).
Proof. intros s a s'. unfold get_msa. destruct (msas s !! i); [by intros [= _ <-]|done]. Qed.
Lemma stable_get_baf i : stable frames (get_baf i).
Proof. intros s a s'. unfold get_baf. destruct (bafs s !! i); [by intros [= _ <-]|done]. Qed.
Lemma stable_get_ma i : stable frames (get_ma i).
Proof. intros s a s'. unfold get_ma. destruct (mareas s !! i); [by intros [= _ <-]|done]. Qed.
Lemma stable_upd_baf i f : stable frames (upd_baf i f).
Proof. intros s a s'. unfold upd_baf. destruct (bafs s !! i); [by intros [= _ <-]|done]. Qed.
Lemma stable_upd_ma i f : stable frames (upd_ma i f).
Proof. intros s a s'. unfold upd_ma. destruct (mareas s !! i); [by intros [= _ <-]|done]. Qed.
Lemma stable_upd_msa i f : (forall m, padrs (f m) = padrs m /\ marty (f m) = marty m) -> stable frames (upd_msa i f).
Proof.
  intros Hf s a s'. unfold upd_msa. destruct (msas s !! i) as [m|] eqn:E; [|done]. intros [= _ <-].
  unfold frames. cbn [msas with_msas]. rewrite fmap_insert. apply insert_id. rewrite lookup_fmap, E. cbn.
  by destruct (Hf m) as [-> ->].
Qed.
Lemma stable_as_msa o : stable frames (as_msa o).
Proof. destruct o; cbn [as_msa]; auto with stable. Qed.

#[export] Hint Resolve stable_get_msa stable_get_baf stable_get_ma stable_upd_baf stable_upd_ma stable_as_msa : stable.
#[export] Hint Extern 1 (stable frames (upd_msa _ _)) => (apply stable_upd_msa; done) : stable.
#[export] Hint Extern 1 (stable frames (modify _)) => (apply stable_modify; done) : stable.
#[export] Hint Extern 1 (stable frames (baf_list_add _ _)) => (unfold baf_list_add; auto with stable) : stable.
#[export] Hint Extern 1 (stable frames (baf_list_del _ _)) => (unfold baf_list_del; auto with stable) : stable.

Ltac head_of t := lazymatch t with ?f _ => head_of f | _ => t end.
Ltac stable_deep := repeat first [stable_step | match goal with |- stable _ ?m => let h := head_of m in unfold h end].

Lemma stable_mm_reldpgsdivmsa_loop n : forall b st nr, stable frames (mm_reldpgsdivmsa_loop n b st nr).
Proof. induction n as [|n IH]; intros b st nr; cbn [mm_reldpgsdivmsa_loop]; stable_deep. Qed.

Lemma stable_find_cmsa2blk_scan b st en l : forall r, stable frames (find_cmsa2blk_scan b st en l r).
Proof. induction l as [|x l IH]; intros r; cbn [find_cmsa2blk_scan]; stable_deep. Qed.

#[export] Hint Resolve stable_mm_reldpgsdivmsa_loop stable_find_cmsa2blk_scan : stable.

Lemma stable_mm_merpages_loop n : forall b st en, stable frames (mm_merpages_loop n b st en).
Proof. induction n as [|n IH]; intros b st en; cbn [mm_merpages_loop]; stable_deep. Qed.

#[export] Hint Resolve stable_mm_merpages_loop : stable.

Lemma stable_mm_division_pages pages ty flgs : stable frames (mm_division_pages pages ty flgs).
Proof. stable_deep. Qed.

#[export] Hint Resolve stable_mm_division_pages : stable.

Lemma stable_mm_divpages_procmarea pages : stable frames (mm_divpages_procmarea pages).
Proof. stable_deep. Qed.

Lemma stable_mm_merge_pages f n : stable frames (mm_merge_pages f n).
Proof. stable_deep. Qed.

(** ** The allocator meets the interface *)

(** msadsc.h *)
Definition msadsc_ret_addr (msa : option Z) : MM Z :=
  match msa with None => mret 0 | Some i => m ← get_msa i; mret (phyadr m) end.

#[global] Instance mm_page_ops : PageOps mmst := {
  pg_division pages := mm_division_pages pages MA_TYPE_KRNL DMF_RELDIV;
  pg_procpage := mm_divpages_procmarea 1;
  pg_merge i n := mm_merge_pages (Some i) n;
  pg_fpagenr i := onfrmsa_retn_fpagenr (Some i);
  pg_addr i := msadsc_ret_addr (Some i)
}.

Definition pooled (t : Z) : Prop := t = MA_TYPE_KRNL \/ t = MA_TYPE_PROC.

(** Descriptors of the kernel's and of the processes' area describe distinct
    page frames of the area's range, below 1 TiB. *)
Record frames_ok (f : gmap Z (Z * Z)) : Prop := {
  fr_krnl i a : f !! i = Some (a, MA_TYPE_KRNL) -> 0x2000 <= a < 0x400000;
  fr_proc i a : f !! i = Some (a, MA_TYPE_PROC) -> 0x400000 <= a < 2 ^ 28;
  fr_inj i j a t t' : f !! i = Some (a, t) -> f !! j = Some (a, t') -> pooled t -> pooled t' -> i = j
}.

(** Block [(p, n)] of descriptor [i] is allocated, in the kernel's or the
    processes' area. *)
Definition owned (s : mmst) (G : ghost) (i : Z) (b : Z * Z) : Prop :=
  exists mi a t, G !! i = Some (GBlk GAlloc mi b.2) /\ frames s !! i = Some (a, t) /\ pooled t /\ b.1 = 4096 * a.

Definition managed (s : mmst) (G : ghost) (p : Z) : Prop :=
  exists j a t, covered s G j /\ frames s !! j = Some (a, t) /\ p = 4096 * a.

Definition mm_held (s : mmst) (P : Z -> Prop) (A : blocks) : Prop :=
  exists G, Ok s G /\ (exists km, area_type s km MA_TYPE_KRNL) /\ frames_ok (frames s) /\
    (forall i b, A !! i = Some b -> owned s G i b) /\ (forall p, P p <-> managed s G p).

Lemma frames_lookup s i m : msas s !! i = Some m -> frames s !! i = Some (padrs m, marty m).
Proof. intros H. unfold frames. by rewrite lookup_fmap, H. Qed.

(** The frames of an allocated block are consecutive and of one area type. *)
Lemma owned_run s G i mi n : Inv s G -> G !! i = Some (GBlk GAlloc mi n) ->
  exists ty a, area_type s mi ty /\ 0 < n /\ forall k, 0 <= k < n -> frames s !! (i + k) = Some (a + k, ty).
Proof.
  intros HI HG. destruct (inv_has _ _ HI _ _ (has_ghost s _ _ _ HG)) as (ty & Hty & _ & (Hn & a & Hr) & _).
  exists ty, a. split_and!; [done|done|]. intros k Hk. destruct (Hr (i + k) ltac:(lia)) as (m & Hm & <- & Hp).
  rewrite (frames_lookup _ _ _ Hm), Hp. do 2 f_equal. lia.
Qed.

Lemma owned_frames s G i b : Inv s G -> owned s G i b ->
  exists a t, pooled t /\ b.1 = 4096 * a /\ 0 < b.2 /\ forall k, 0 <= k < b.2 -> frames s !! (i + k) = Some (a + k, t).
Proof.
  intros HI (mi & a & t & HG & Hi & Ht & Hb). destruct (owned_run s G i mi b.2 HI HG) as (ty & a' & _ & Hn & Hr).
  pose proof (Hr 0 ltac:(lia)) as H0. rewrite !Z.add_0_r, Hi in H0. injection H0 as <- <-. by exists a, t.
Qed.

Lemma frame_bound f i a t : frames_ok f -> f !! i = Some (a, t) -> pooled t -> 0x2000 <= a < 2 ^ 28.
Proof. intros Hf Hi [->| ->]; [pose proof (fr_krnl _ Hf _ _ Hi)|pose proof (fr_proc _ Hf _ _ Hi)]; lia. Qed.

Lemma owned_block s G i b : Inv s G -> frames_ok (frames s) -> owned s G i b -> page_block b.
Proof.
  intros HI Hf (a & t & Ht & Hb & Hn & Hr)%owned_frames; [|done]. unfold page_block. rewrite Hb, Z.mul_comm.
  pose proof (frame_bound _ _ _ _ Hf (Hr 0 ltac:(lia)) Ht). pose proof (frame_bound _ _ _ _ Hf (Hr (b.2 - 1) ltac:(lia)) Ht).
  split_and!; [by apply Z.mod_mul|lia|lia|lia].
Qed.

Lemma owned_apart s G i j b c : Inv s G -> frames_ok (frames s) -> owned s G i b -> owned s G j c -> i <> j -> block_apart b c.
Proof.
  intros HI Hf Hi Hj Hne. pose proof Hi as (mi & _ & _ & Gi & _). pose proof Hj as (mj & _ & _ & Gj & _).
  apply owned_frames in Hi as (a & t & Ht & Hb & Hn & Hr); [|done]. apply owned_frames in Hj as (a' & t' & Ht' & Hc & Hm & Hr'); [|done].
  unfold block_apart. rewrite Hb, Hc.
  destruct (decide (a + b.2 <= a' \/ a' + c.2 <= a)) as [|Hov]; [lia|]. exfalso.
  pose (x := Z.max a a'). assert (E : i + (x - a) = j + (x - a')).
  { apply (fr_inj _ Hf _ _ x t t'); [rewrite Hr by lia; do 2 f_equal; lia|rewrite Hr' by lia; do 2 f_equal; lia|done|done]. }
  destruct (inv_disj _ _ HI _ _ _ _ (has_ghost s _ _ _ Gi) (has_ghost s _ _ _ Gj)) as [[? _]|H]; [done|]. simpl in H. lia.
Qed.

Lemma owned_frame s s' G G' i b : frames s' = frames s -> G' !! i = G !! i -> owned s G i b -> owned s' G' i b.
Proof. intros Hf Hg (mi & a & t & H). exists mi, a, t. by rewrite Hf, Hg. Qed.

Lemma managed_frame s s' G G' p : frames s' = frames s -> (forall j, covered s' G' j <-> covered s G j) -> managed s' G' p <-> managed s G p.
Proof. intros Hf Hc. unfold managed. setoid_rewrite Hf. by setoid_rewrite Hc. Qed.

(** A new block joins the blocks held. *)
Lemma held_alloc s G P A mi ty i n s' : Ok s G -> frames_ok (frames s) ->
  (exists km, area_type s km MA_TYPE_KRNL) ->
  (forall i b, A !! i = Some b -> owned s G i b) -> (forall p, P p <-> managed s G p) ->
  area_type s mi ty -> pooled ty -> alloc_post s G mi i n s' -> frames s' = frames s ->
  exists p, A !! i = None /\ (ty = MA_TYPE_KRNL -> krnl_block (p, n)) /\ mm_held s' P (<[i := (p, n)]> A).
Proof.
  intros HOk Hf [km Hkm] HA HP Hty Hpl Hpost Hfs. pose proof Hpost as (HG & HOk' & _ & _ & Hat & _).
  assert (HGi : <[i := GBlk GAlloc mi n]> G !! i = Some (GBlk GAlloc mi n)) by apply lookup_insert_eq.
  destruct (owned_run s' _ i mi n (proj1 HOk') HGi) as (ty' & a & Hty' & Hn & Hr). apply Hat in Hty'.
  pose proof (area_type_fun _ _ _ _ Hty Hty') as <-. exists (4096 * a). split_and!.
  - destruct (A !! i) as [b|] eqn:E; [|done]. destruct (HA i b E) as (? & ? & ? & HGi' & _). congruence.
  - intros ->. unfold krnl_block. simpl. pose proof (Hr (n - 1) ltac:(lia)) as Hl. rewrite Hfs in Hl.
    pose proof (fr_krnl _ Hf _ _ Hl). lia.
  - exists (<[i := GBlk GAlloc mi n]> G). split_and!; [done|exists km; by apply Hat|by rewrite Hfs| |].
    + intros j b [[<- <-]|[Hne Hj]]%lookup_insert_Some.
      * exists mi, a, ty. split_and!; [done| |done|done]. by specialize (Hr 0 ltac:(lia)); rewrite !Z.add_0_r in Hr.
      * apply (owned_frame s s' G); [done|by rewrite lookup_insert_ne|by apply HA].
    + intros p. rewrite HP. symmetry. apply managed_frame; [done|]. intros j. by eapply covered_alloc.
Qed.

Lemma mm_division_spec s P A pages : mm_held s P A -> 1 <= pages < u64max ->
  wp (pg_division pages) s (fun r s' =>
    (exists i p n, r = (Some i, n) /\ n = 2 ^ Z.log2_up pages /\ A !! i = None /\ krnl_block (p, n) /\ mm_held s' P (<[i := (p, n)]> A)) \/
    (r = (None, 0) /\ s' = s)).
Proof.
  intros (G & HOk & [km Hkm] & Hf & HA & HP) Hp.
  eapply wp_mono; [eapply wp_stable; [apply stable_mm_division_pages|];
    apply (mm_division_pages_rel s G km MA_TYPE_KRNL pages HOk Hkm ltac:(by right) Hp)|].
  intros r s' [[(d & i & _ & -> & Hpost)|(-> & -> & _)] Hfs]; [left|by right].
  destruct (held_alloc s G P A km MA_TYPE_KRNL i _ s' HOk Hf ltac:(eauto) HA HP Hkm ltac:(by left) Hpost Hfs) as (p & H1 & H2 & H3).
  exists i, p, (2 ^ Z.log2_up pages). by split_and!; auto.
Qed.

Lemma mm_procpage_spec s P A : mm_held s P A ->
  wp pg_procpage s (fun r s' =>
    (exists i p, r = (Some i, 1) /\ A !! i = None /\ mm_held s' P (<[i := (p, 1)]> A)) \/ (r = (None, 0) /\ s' = s)).
Proof.
  intros (G & HOk & [km Hkm] & Hf & HA & HP).
  assert (Hgo : forall mi ty i s', area_type s mi ty -> pooled ty -> alloc_post s G mi i 1 s' -> frames s' = frames s ->
    exists i' p, (Some i, 1) = (Some i', 1) /\ A !! i' = None /\ mm_held s' P (<[i' := (p, 1)]> A)).
  { intros mi ty i s' Hty Hpl Hpost Hfs.
    destruct (held_alloc s G P A mi ty i 1 s' HOk Hf ltac:(eauto) HA HP Hty Hpl Hpost Hfs) as (p & H1 & _ & H3). eauto. }
  eapply wp_mono; [eapply wp_stable; [apply stable_mm_divpages_procmarea|]; apply (mm_divpages_procmarea_spec s G km HOk Hkm)|].
  intros r s' [[(mi & i & [Hty _] & -> & Hpost)|[(_ & d & i & _ & -> & Hpost)|(-> & -> & _)]] Hfs]; [left|left|by right].
  - eapply Hgo; eauto. by right.
  - eapply Hgo; eauto. by left.
Qed.

Lemma mm_merge_spec s P A i p n : mm_held s P A -> A !! i = Some (p, n) ->
  wp (pg_merge i n) s (fun r s' => r = true /\ mm_held s' P (delete i A)).
Proof.
  intros (G & HOk & [km Hkm] & Hf & HA & HP) Hi. destruct (HA _ _ Hi) as (mi & a & t & HG & _). cbn in HG.
  eapply wp_mono; [eapply wp_stable; [apply stable_mm_merge_pages|]; apply (mm_merge_pages_spec s G mi i n HOk HG)|].
  intros r s' [(-> & Hpost & _) Hfs]. split; [done|]. pose proof Hpost as (HOk' & _ & Hat & _).
  exists (delete i G). split_and!; [done|exists km; by apply Hat|by rewrite Hfs| |].
  - intros j b [Hne Hj]%lookup_delete_Some. apply (owned_frame s s' G); [done|by rewrite lookup_delete_ne|by apply HA].
  - intros q. rewrite HP. symmetry. apply managed_frame; [done|]. intros j. by eapply covered_free.
Qed.

Lemma mm_fpagenr_spec s P A i p n : mm_held s P A -> A !! i = Some (p, n) -> pg_fpagenr i s = Ret (n, s).
Proof.
  intros (G & HOk & _ & _ & HA & _) Hi. destruct (HA _ _ Hi) as (mi & a & t & HG & _). cbn in HG.
  destruct (alloc_inv s G i mi n (proj1 HOk) HG) as (ty & ms & me & _ & _ & _ & Hn & Hs & _ & _ & _ & _ & _ & _ & Hod & _).
  unfold pg_fpagenr, mm_page_ops, onfrmsa_retn_fpagenr, get_msa, mbind, M_bind. rewrite Hs, Hod.
  rewrite bool_decide_false by done. cbn [as_msa]. unfold mret, M_ret. replace (i + n - 1 <? i) with false by lia.
  rewrite (u64_small (i + n - 1 - i)) by (rewrite u64max_val; lia). rewrite u64_small by (rewrite u64max_val; lia).
  do 2 f_equal. lia.
Qed.

Lemma mm_addr_spec s P A i p n : mm_held s P A -> A !! i = Some (p, n) -> pg_addr i s = Ret (p, s).
Proof.
  intros (G & HOk & _ & Hf & HA & _) Hi. destruct (HA _ _ Hi) as (mi & a & t & _ & Hfr & Ht & Hp). cbn in Hp.
  unfold frames in Hfr. rewrite lookup_fmap in Hfr. destruct (msas s !! i) as [m|] eqn:Hm; [|done]. cbn in Hfr. injection Hfr as Ha Hmt.
  unfold pg_addr, mm_page_ops, msadsc_ret_addr, get_msa, mbind, M_bind. rewrite Hm. unfold phyadr. rewrite Ha, Hp.
  pose proof (frame_bound _ i a t Hf) as Hb. unfold frames in Hb. rewrite lookup_fmap, Hm in Hb. cbn in Hb.
  specialize (Hb ltac:(congruence) Ht). rewrite Z.shiftl_mul_pow2 by (unfold PSHRSIZE; lia).
  unfold PSHRSIZE. change (2 ^ 12) with 4096. rewrite Z.mul_comm, u64_small by (rewrite u64max_val; lia). done.
Qed.

#[global] Instance mm_page_alloc : PageAlloc mmst.
Proof.
  refine {| pg_held := mm_held |}.
  - apply mm_division_spec.
  - apply mm_procpage_spec.
  - apply mm_merge_spec.
  - apply mm_fpagenr_spec.
  - apply mm_addr_spec.
  - intros s P A i b (G & HOk & _ & Hf & HA & _) Hi. apply (owned_block s G i); [apply HOk|done|by apply HA].
  - intros s P A i j b c (G & HOk & _ & Hf & HA & _) Hi Hj. apply (owned_apart s G); [apply HOk|done|by apply HA|by apply HA].
  - intros s P A i p n k (G & HOk & _ & _ & HA & HP) Hi Hk. apply HP.
    destruct (HA _ _ Hi) as (mi & a0 & t0 & HG & H0 & _ & Hp0).
    destruct (owned_frames s G i (p, n) (proj1 HOk) (HA _ _ Hi)) as (a & t & Ht & Hp & Hn & Hr). cbn in *.
    exists (i + k), (a + k), t. split_and!; [|by apply Hr|lia]. right. exists i, (GBlk GAlloc mi n). split; [done|simpl; lia].
Defined.
