(* ===== verification/Boot.v ===== *)
(** * Boot-time memory discovery

    hal/x86/halplatform.c (address checks and translation), halmm.c (the
    e820 map becomes the sorted [phymmarge_t] array), msadsc.c (one
    descriptor per usable page frame, kernel pages marked) and memmgrinit.c
    ([init_memmgrob]).  Arrays are lists or, for descriptors, the [msas] store
    of PhyMem; the machine information block is the record [machbstart_t]
    restricted to the fields these routines use. *)

From S2P Require Import Prelude PhyMem Marea.

(** ** Machine information *)

Record machbstart_t := Machbstart {
  mb_krlinitstack : Z; mb_krlitstacksz : Z;
  mb_imgpadr : Z; mb_imgsz : Z;
  mb_krlimgpadr : Z; mb_krlsz : Z;
  mb_nextwtpadr : Z;
  mb_bfontpadr : Z; mb_bfontsz : Z;
  mb_e820padr : Z; mb_e820nr : Z; mb_e820sz : Z;
  mb_e820expadr : Z; mb_e820exnr : Z; mb_e820exsz : Z;
  mb_memznpadr : Z; mb_memznnr : Z; mb_memznsz : Z;
  mb_memmappadr : Z; mb_memmapnr : Z; mb_memmapsz : Z;
  mb_kpmapphymemsz : Z;
  mb_pml4padr : Z; mb_subpageslen : Z
}.

Record e820map_t := E820 { saddr : Z; lsize : Z; type : Z }.

Definition RAM_USABLE : Z := 1.
Definition RAM_RESERV : Z := 2.
Definition RAM_ACPIREC : Z := 3.
Definition RAM_ACPINVS : Z := 4.
Definition RAM_AREACON : Z := 5.
Definition RAM_MEGER : Z := 6.
Definition PMR_T_OSAPUSERRAM : Z := 1.
Definition PMR_T_RESERVRAM : Z := 2.
Definition PMR_T_HWUSERRAM : Z := 8.
Definition PMR_T_BUGRAM : Z := 0xff.
Definition PMR_F_X86_64 : Z := 2.

Record phymmarge_t := Phymmarge {
  pmr_type : Z; pmr_stype : Z; pmr_dtype : Z; pmr_flgs : Z; pmr_stus : Z;
  pmr_saddr : Z; pmr_lsize : Z; pmr_end : Z; pmr_rrvmsaddr : Z; pmr_rrvmend : Z
}.

Definition KRNL_MAP_PHYADDRESS_END : Z := 0x400000000.
Definition KRNL_MAP_VIRTADDRESS_SIZE : Z := 0x400000000.
Definition KRNL_MAP_VIRTADDRESS_START : Z := 0xffff800000000000.
Definition KRNL_MAP_VIRTADDRESS_END : Z := KRNL_MAP_VIRTADDRESS_START + KRNL_MAP_VIRTADDRESS_SIZE.

(** [ALIGN(x, PAGESIZE)] *)
Definition PAGE_ALIGN (x : Z) : Z := Z.land (x +u PAGESIZE -u 1) (u64 (Z.lnot (PAGESIZE - 1))).

(** sizeof(phymmarge_t), sizeof(msadsc_t) *)
Definition SZ_phymmarge_t : Z := 80.
Definition SZ_msadsc_t : Z := 40.

(** The boot state: machine information, the two maps, the memory manager and
    the 64-bit words of the page tables by physical address. *)
Record bootst := Bootst {
  kmachbsp : machbstart_t;
  e820 : list e820map_t;
  pmarge : list phymmarge_t;
  mm : mmst;
  pgwords : gmap Z Z
}.
Abbreviation BM A := (M bootst A).

Definition with_mb (mb : machbstart_t) (s : bootst) : bootst := Bootst mb (e820 s) (pmarge s) (mm s) (pgwords s).
Definition with_pmarge (l : list phymmarge_t) (s : bootst) : bootst := Bootst (kmachbsp s) (e820 s) l (mm s) (pgwords s).
Definition with_pgwords (g : gmap Z Z) (s : bootst) : bootst := Bootst (kmachbsp s) (e820 s) (pmarge s) (mm s) g.

(** A routine of the memory manager run during boot. *)
Definition lift_mm {A} (m : MM A) : BM A := fun s =>
  match m (mm s) with
  | Ret (a, t) => Ret (a, Bootst (kmachbsp s) (e820 s) (pmarge s) t (pgwords s))
  | Halt e => Halt e
  | Fault => Fault
  | NoFuel => NoFuel
  end.

(** ** halplatform.c *)

Definition viradr_to_phyadr {S} (kviradr : Z) : M S Z :=
  if (kviradr <? KRNL_MAP_VIRTADDRESS_START) || (KRNL_MAP_VIRTADDRESS_END <? kviradr)
  then halt "virtadr_to_phyadr err" else mret (kviradr -u KRNL_MAP_VIRTADDRESS_START).

Definition phyadr_to_viradr {S} (kphyadr : Z) : M S Z :=
  if KRNL_MAP_PHYADDRESS_END <=? kphyadr
  then halt "phyadr_to_viradr err" else mret (kphyadr +u KRNL_MAP_VIRTADDRESS_START).

Definition adrzone_is_ok (sadr slen kadr klen : Z) : Z :=
  if (sadr <=? kadr) && (kadr <=? sadr +u slen) then -1
  else if (kadr <=? sadr) && (sadr <=? kadr +u klen) then -2
  else 0.

Definition initchkadr_is_ok (mbsp : machbstart_t) (chkadr cksz : Z) : Z :=
  if negb (adrzone_is_ok (mb_krlinitstack mbsp -u mb_krlitstacksz mbsp) (mb_krlitstacksz mbsp) chkadr cksz =? 0) then -1 else
  if negb (adrzone_is_ok (mb_imgpadr mbsp) (mb_imgsz mbsp) chkadr cksz =? 0) then -2 else
  if negb (adrzone_is_ok (mb_krlimgpadr mbsp) (mb_krlsz mbsp) chkadr cksz =? 0) then -3 else
  if negb (adrzone_is_ok (mb_bfontpadr mbsp) (mb_bfontsz mbsp) chkadr cksz =? 0) then -4 else
  if negb (adrzone_is_ok (mb_e820padr mbsp) (mb_e820sz mbsp) chkadr cksz =? 0) then -5 else
  if negb (adrzone_is_ok (mb_memznpadr mbsp) (mb_memznsz mbsp) chkadr cksz =? 0) then -6 else
  if negb (adrzone_is_ok (mb_memmappadr mbsp) (mb_memmapsz mbsp) chkadr cksz =? 0) then -7 else
  if negb (adrzone_is_ok (mb_e820expadr mbsp) (mb_e820exsz mbsp) chkadr cksz =? 0) then -8 else
  if mb_kpmapphymemsz mbsp <=? chkadr +u cksz then -9 else 0.

(** The scans of the e820 map ([for] loops with the running maximum). *)
Fixpoint maxmappadr_scan (mappadr : Z) (l : list e820map_t) (maxadr : Z) (ret : option e820map_t) : option e820map_t :=
  match l with
  | [] => ret
  | e :: l' =>
      if (type e =? RAM_USABLE) && ((maxadr <? saddr e) && (saddr e +u lsize e <? mappadr))
      then maxmappadr_scan mappadr l' (saddr e) (Some e)
      else maxmappadr_scan mappadr l' maxadr ret
  end.

Definition get_maxmappadr_e820map (emp : list e820map_t) (mappadr : Z) : option (option e820map_t) :=
  match emp with
  | [] => None
  | e0 :: _ => Some (maxmappadr_scan mappadr emp (saddr e0) None)
  end.

Fixpoint kmaxmpadrcmpsz_scan (mappadr cpsz : Z) (l : list e820map_t) (maxadr : Z) (ret : option e820map_t) : option e820map_t :=
  match l with
  | [] => ret
  | e :: l' =>
      if (type e =? RAM_USABLE) && ((maxadr <=? saddr e) && (saddr e +u lsize e <? mappadr) && (cpsz <=? lsize e))
      then kmaxmpadrcmpsz_scan mappadr cpsz l' (saddr e) (Some e)
      else kmaxmpadrcmpsz_scan mappadr cpsz l' maxadr ret
  end.

(** The result is read through [retemp] even when the scan found nothing. *)
Definition ret_kmaxmpadrcmpsz_e820map {S} (emp : list e820map_t) (mappadr cpsz : Z) : M S (option e820map_t) :=
  match emp with
  | [] => fault
  | e0 :: _ =>
      match kmaxmpadrcmpsz_scan mappadr cpsz emp (saddr e0) None with
      | None => fault
      | Some e => mret (if (saddr e +u lsize e <? mappadr) && (cpsz <=? lsize e) then Some e else None)
      end
  end.

(** ** halmm.c *)

Definition phymmarge_t_init : phymmarge_t := Phymmarge 0 0 0 0 0 0 0 0 0 0.

Definition init_one_pmrge (e8p : e820map_t) : bool * phymmarge_t :=
  let r :=
    if type e8p =? RAM_USABLE then Some (PMR_T_OSAPUSERRAM, RAM_USABLE)
    else if type e8p =? RAM_RESERV then Some (PMR_T_RESERVRAM, RAM_RESERV)
    else if type e8p =? RAM_ACPIREC then Some (PMR_T_HWUSERRAM, RAM_ACPIREC)
    else if type e8p =? RAM_ACPINVS then Some (PMR_T_HWUSERRAM, RAM_ACPINVS)
    else if type e8p =? RAM_AREACON then Some (PMR_T_BUGRAM, RAM_AREACON)
    else if type e8p =? RAM_MEGER then Some (PMR_T_BUGRAM, RAM_MEGER)
    else None in
  match r with
  | None => (false, phymmarge_t_init)
  | Some (ptype, pstype) =>
      (true, Phymmarge ptype pstype 0 PMR_F_X86_64 0 (saddr e8p) (lsize e8p) (saddr e8p +u lsize e8p -u 1) 0 0)
  end.

(** The number of entries converted and the array written so far. *)
Fixpoint initpmrge_core (e8sp : list e820map_t) : Z * list phymmarge_t :=
  match e8sp with
  | [] => (0, [])
  | e :: l =>
      match init_one_pmrge e with
      | (false, p) => (0, [p])
      | (true, p) => let '(n, ps) := initpmrge_core l in (n + 1, p :: ps)
      end
  end.

Definition phymmarge_swap (l : list phymmarge_t) (i j : nat) : list phymmarge_t :=
  match l !! i, l !! j with
  | Some a, Some b => <[j := a]> (<[i := b]> l)
  | _, _ => l
  end.

(** The inner loop: [n] comparisons from index [i]. *)
Fixpoint sort_pass (n : nat) (i : nat) (l : list phymmarge_t) : list phymmarge_t :=
  match n with
  | O => l
  | S n' =>
      sort_pass n' (S i)
        (match l !! i, l !! S i with
         | Some a, Some b => if pmr_saddr b <? pmr_saddr a then phymmarge_swap l i (S i) else l
         | _, _ => l
         end)
  end.

(** The outer loop: passes of [m], [m-1], ..., 1 comparisons. *)
Fixpoint sort_loop (m : nat) (l : list phymmarge_t) : list phymmarge_t :=
  match m with
  | O => l
  | S m' => sort_loop m' (sort_pass m 0 l)
  end.

(** Called with at least one range. *)
Definition phymmarge_sort (argp : list phymmarge_t) : list phymmarge_t :=
  sort_loop (pred (length argp)) argp.

(** [*retpmrvadr] and [*retpmrsz]; both 0 when there is no map or no room. *)
Definition ret_phymmarge_adrandsz (mbsp : machbstart_t) : Z * Z :=
  if (mb_e820sz mbsp =? 0) || (mb_e820padr mbsp =? 0) || (mb_e820nr mbsp =? 0) then (0, 0) else
  let tmpsz := u64 (mb_e820nr mbsp * SZ_phymmarge_t) in
  let tmpphyadr := mb_nextwtpadr mbsp in
  if negb (initchkadr_is_ok mbsp tmpphyadr tmpsz =? 0) then (0, 0) else (tmpphyadr, tmpsz).

Definition set_e820ex (padr nr sz nx : Z) (b : machbstart_t) : machbstart_t :=
  Machbstart (mb_krlinitstack b) (mb_krlitstacksz b) (mb_imgpadr b) (mb_imgsz b) (mb_krlimgpadr b) (mb_krlsz b) nx
    (mb_bfontpadr b) (mb_bfontsz b) (mb_e820padr b) (mb_e820nr b) (mb_e820sz b) padr nr sz
    (mb_memznpadr b) (mb_memznnr b) (mb_memznsz b) (mb_memmappadr b) (mb_memmapnr b) (mb_memmapsz b) (mb_kpmapphymemsz b)
    (mb_pml4padr b) (mb_subpageslen b).
Definition set_memmap (padr nr sz nx : Z) (b : machbstart_t) : machbstart_t :=
  Machbstart (mb_krlinitstack b) (mb_krlitstacksz b) (mb_imgpadr b) (mb_imgsz b) (mb_krlimgpadr b) (mb_krlsz b) nx
    (mb_bfontpadr b) (mb_bfontsz b) (mb_e820padr b) (mb_e820nr b) (mb_e820sz b) (mb_e820expadr b) (mb_e820exnr b) (mb_e820exsz b)
    (mb_memznpadr b) (mb_memznnr b) (mb_memznsz b) padr nr sz (mb_kpmapphymemsz b) (mb_pml4padr b) (mb_subpageslen b).
Definition set_memzn (padr nr sz nx : Z) (b : machbstart_t) : machbstart_t :=
  Machbstart (mb_krlinitstack b) (mb_krlitstacksz b) (mb_imgpadr b) (mb_imgsz b) (mb_krlimgpadr b) (mb_krlsz b) nx
    (mb_bfontpadr b) (mb_bfontsz b) (mb_e820padr b) (mb_e820nr b) (mb_e820sz b) (mb_e820expadr b) (mb_e820exnr b) (mb_e820exsz b)
    padr nr sz (mb_memmappadr b) (mb_memmapnr b) (mb_memmapsz b) (mb_kpmapphymemsz b)
    (mb_pml4padr b) (mb_subpageslen b).

Definition set_pml4 (padr len mapsz nx : Z) (b : machbstart_t) : machbstart_t :=
  Machbstart (mb_krlinitstack b) (mb_krlitstacksz b) (mb_imgpadr b) (mb_imgsz b) (mb_krlimgpadr b) (mb_krlsz b) nx
    (mb_bfontpadr b) (mb_bfontsz b) (mb_e820padr b) (mb_e820nr b) (mb_e820sz b) (mb_e820expadr b) (mb_e820exnr b) (mb_e820exsz b)
    (mb_memznpadr b) (mb_memznnr b) (mb_memznsz b) (mb_memmappadr b) (mb_memmapnr b) (mb_memmapsz b) mapsz padr len.

Definition init_phymmarge : BM unit :=
  mbsp ← gets kmachbsp;
  let '(pmarge_adr, pmrge_sz) := ret_phymmarge_adrandsz mbsp in
  die_if ((pmarge_adr =? 0) || (pmrge_sz =? 0)) "init_phymmarge->NULL==pmarge_adr||0==pmrgesz" ;;
  let tmp_pmrphyadr := mb_nextwtpadr mbsp in
  die_if (negb (tmp_pmrphyadr =? pmarge_adr)) "init_phymmarge->tmppmrphyadr!=pmarge_adr2phyadr" ;;
  e8p ← gets e820;
  let '(ipmgnr, ps) := initpmrge_core (take (Z.to_nat (mb_e820nr mbsp)) e8p) in
  die_if (ipmgnr =? 0) "init_phymmarge->initpmrge_core ret 0" ;;
  die_if (negb (u64 (ipmgnr * SZ_phymmarge_t) =? pmrge_sz)) "init_phymmarge->ipmgnr*sizeof(phymmarge_t))!=pmrgesz" ;;
  let exsz := u64 (ipmgnr * SZ_phymmarge_t) in
  modify (with_mb (set_e820ex tmp_pmrphyadr ipmgnr exsz (PAGE_ALIGN (tmp_pmrphyadr +u exsz)) mbsp)) ;;
  modify (with_pmarge (phymmarge_sort ps)).

(** ** msadsc.c *)

Definition msadsc_t_init : msadsc_t :=
  Msadsc (MsadFlgs MF_OLKTY_INIT MF_LSTTY_LIST MF_MOCTY_FREE MF_MARTY_INIT MF_UINDX_INIT)
    (PhyAdrFlgs PAF_NO_ALLOC 0 0 0 0 0 0 0 0 0) OL_NULL.

(** [paf_padrs] is the upper 52 bits of the address. *)
Definition write_one_msadsc (phyadr : Z) : msadsc_t := set_padrs (Z.shiftr phyadr 12) msadsc_t_init.

Definition put_msa (i : Z) (m : msadsc_t) : MM unit :=
  modify (fun s => with_msas (<[i := m]> (msas s)) s).

(** The inner loop of [init_msadsc_core] over one usable range; [mdidx] is
    the index of the next descriptor. *)
Fixpoint msadsc_range (fuel : nat) (start pmrend mdidx : Z) : MM Z :=
  if start <? pmrend then
    match fuel with
    | O => nofuel
    | S fuel' =>
        if start +u 4096 -u 1 <=? pmrend then
          put_msa mdidx (write_one_msadsc start) ;;
          msadsc_range fuel' (start +u 4096) pmrend (mdidx + 1)
        else msadsc_range fuel' (start +u 4096) pmrend mdidx
    end
  else mret mdidx.

Fixpoint init_msadsc_core (pmagep : list phymmarge_t) (mdidx : Z) : MM Z :=
  match pmagep with
  | [] => mret mdidx
  | p :: l =>
      if pmr_type p =? PMR_T_OSAPUSERRAM then
        mdidx ← msadsc_range (S (Z.to_nat (Z.shiftr (pmr_lsize p) 12))) (pmr_saddr p) (pmr_end p) mdidx;
        init_msadsc_core l mdidx
      else init_msadsc_core l mdidx
  end.

(** The two sums of [ret_msadsc_vadrandsz]: [usrmemsz] and [msadnr]. *)
Fixpoint usable_sums (l : list phymmarge_t) (usrmemsz msadnr : Z) : Z * Z :=
  match l with
  | [] => (usrmemsz, msadnr)
  | p :: l' =>
      if PMR_T_OSAPUSERRAM =? pmr_type p
      then usable_sums l' (usrmemsz +u pmr_lsize p) (msadnr +u Z.shiftr (pmr_lsize p) 12)
      else usable_sums l' usrmemsz msadnr
  end.

Definition ret_msadsc_vadrandsz : BM (bool * Z * Z) :=
  mbsp ← gets kmachbsp;
  if (mb_e820exnr mbsp <? 1) || (mb_e820expadr mbsp =? 0)
     || negb (u64 (mb_e820exnr mbsp * SZ_phymmarge_t) =? mb_e820exsz mbsp) then mret (false, 0, 0) else
  _ ← phyadr_to_viradr (mb_e820expadr mbsp);
  pmagep ← gets pmarge;
  let '(usrmemsz, msadnr) := usable_sums (take (Z.to_nat (mb_e820exnr mbsp)) pmagep) 0 0 in
  if (usrmemsz =? 0) || (Z.shiftr usrmemsz 12 <? 1) || (msadnr <? 1) then mret (false, 0, 0) else
  die_if (negb (initchkadr_is_ok mbsp (mb_nextwtpadr mbsp) (u64 (msadnr * SZ_msadsc_t)) =? 0))
    "ret_msadsc_vadrandsz initchkadr_is_ok err" ;;
  v ← phyadr_to_viradr (mb_nextwtpadr mbsp);
  mret (true, v, msadnr).

Definition init_msadsc : BM unit :=
  r ← ret_msadsc_vadrandsz;
  let '(ok, msadscvp, msadscnr) := r in
  die_if (negb ok) "init_msadsc ret_msadsc_vadrandsz err" ;;
  mbsp ← gets kmachbsp;
  pmagep ← gets pmarge;
  _ ← phyadr_to_viradr (mb_e820expadr mbsp);
  coremdnr ← lift_mm (init_msadsc_core (take (Z.to_nat (mb_e820exnr mbsp)) pmagep) 0);
  die_if (negb (coremdnr =? msadscnr)) "init_msadsc init_msadsc_core err" ;;
  padr ← viradr_to_phyadr msadscvp;
  let sz := u64 (coremdnr * SZ_msadsc_t) in
  modify (with_mb (set_memmap padr coremdnr sz (PAGE_ALIGN (padr +u sz)) mbsp)).

(** The first loop of [search_segment_occupymsadsc]. *)
Fixpoint find_frame (n : nat) (mnr ocpystat : Z) : MM (option Z) :=
  match n with
  | O => mret None
  | S n' =>
      m ← get_msa mnr;
      if phyadr m =? ocpystat then mret (Some mnr) else find_frame n' (mnr + 1) ocpystat
  end.

(** The second loop: [None] is the early [return 0]. *)
Fixpoint occupy_loop (fuel : nat) (fstatmp tmpadr ocpyend fsmsnr : Z) : MM (option Z) :=
  if tmpadr <? ocpyend then
    match fuel with
    | O => nofuel
    | S fuel' =>
        m ← get_msa (fstatmp + fsmsnr);
        if negb (phyadr m =? tmpadr) then mret None else
        if negb (MF_MOCTY_FREE =? mocty m) || negb (0 =? uindx m) || negb (PAF_NO_ALLOC =? alloc m) then mret None else
        upd_msa (fstatmp + fsmsnr) (set_mocty MF_MOCTY_KRNL) ;;
        upd_msa (fstatmp + fsmsnr) (fun x => set_uindx (uindx x + 1) x) ;;
        upd_msa (fstatmp + fsmsnr) (set_alloc PAF_ALLOC) ;;
        occupy_loop fuel' fstatmp (tmpadr +u PAGESIZE) ocpyend (fsmsnr + 1)
    end
  else mret (Some fsmsnr).

Definition search_segment_occupymsadsc (msanr ocpystat ocpyend : Z) : MM Z :=
  f ← find_frame (Z.to_nat msanr) 0 ocpystat;
  match f with
  | None => mret 0
  | Some fstatmp =>
      r ← occupy_loop (S (Z.to_nat (Z.shiftr (ocpyend - ocpystat) 12))) fstatmp ocpystat ocpyend 0;
      match r with
      | None => mret 0
      | Some fsmsnr =>
          let ocpysz := ocpyend -u ocpystat in
          if negb (Z.land ocpysz 0xfff =? 0) then
            if negb (Z.shiftr ocpysz PSHRSIZE +u 1 =? fsmsnr) then mret 0 else mret fsmsnr
          else if negb (Z.shiftr ocpysz PSHRSIZE =? fsmsnr) then mret 0 else mret fsmsnr
      end
  end.

Definition search_krloccupymsadsc_core (mbsp : machbstart_t) : MM bool :=
  _ ← phyadr_to_viradr (mb_memmappadr mbsp);
  let msanr := mb_memmapnr mbsp in
  r ← search_segment_occupymsadsc msanr 0 0x1000;
  if r =? 0 then mret false else
  r ← search_segment_occupymsadsc msanr (Z.land (mb_krlinitstack mbsp) (u64 (Z.lnot 0xfff))) (mb_krlinitstack mbsp);
  if r =? 0 then mret false else
  r ← search_segment_occupymsadsc msanr (mb_krlimgpadr mbsp) (mb_nextwtpadr mbsp);
  if r =? 0 then mret false else
  r ← search_segment_occupymsadsc msanr (mb_imgpadr mbsp) (mb_imgpadr mbsp +u mb_imgsz mbsp);
  if r =? 0 then mret false else
  mret true.

Definition init_search_krloccupymm (mbsp : machbstart_t) : MM unit :=
  ok ← search_krloccupymsadsc_core mbsp;
  die_if (negb ok) "search_krloccupymsadsc_core fail".

(** ** memarea.c: [init_memarea] *)

Definition init_memarea_core (SZ_memarea_t : Z) : BM bool :=
  mbsp ← gets kmachbsp;
  let phymarea := mb_nextwtpadr mbsp in
  let sz := u64 (SZ_memarea_t * MEMAREA_MAX) in
  if negb (initchkadr_is_ok mbsp phymarea sz =? 0) then mret false else
  _ ← phyadr_to_viradr phymarea;
  lift_mm init_memarea_areas ;;
  modify (with_mb (set_memzn phymarea MEMAREA_MAX sz (PAGE_ALIGN (phymarea +u sz)) mbsp)) ;;
  mret true.

Definition init_memarea (SZ_memarea_t : Z) : BM unit :=
  ok ← init_memarea_core SZ_memarea_t;
  die_if (negb ok) "init_memarea_core fail".

(** ** memmgrinit.c *)

(** [mobp->...]: the counters of the memory manager from the machine data. *)
Fixpoint count_krnl (n : nat) (i aidx : Z) : MM Z :=
  match n with
  | O => mret aidx
  | S n' =>
      m ← get_msa i;
      count_krnl n' (i + 1)
        (if (1 =? uindx m) && (MF_MOCTY_KRNL =? mocty m) && (PAF_ALLOC =? alloc m) then aidx + 1 else aidx)
  end.

Definition init_memmgrob : BM unit :=
  mbsp ← gets kmachbsp;
  die_if ((mb_e820expadr mbsp =? 0) || (mb_e820exnr mbsp =? 0)) "mbsp->mb_e820expadr==NULL" ;;
  die_if ((mb_memmappadr mbsp =? 0) || (mb_memmapnr mbsp =? 0)) "mbsp->mb_memmappadr==NULL" ;;
  die_if ((mb_memznpadr mbsp =? 0) || (mb_memznnr mbsp =? 0)) "mbsp->mb_memznpadr==NULL" ;;
  _ ← phyadr_to_viradr (mb_e820expadr mbsp);
  _ ← phyadr_to_viradr (mb_memmappadr mbsp);
  _ ← phyadr_to_viradr (mb_memznpadr mbsp);
  lift_mm (modify (fun s => Mmst (mb_memmapnr mbsp) 0 0 (mb_memznnr mbsp) (mb_memmapnr mbsp) (mareas s) (bafs s) (msas s))) ;;
  aidx ← lift_mm (count_krnl (Z.to_nat (mb_memmapnr mbsp)) 0 0);
  lift_mm (modify (fun s => with_pages (mo_maxpages s) (mo_maxpages s -u aidx) aidx s)).

(** ** The kernel's page tables: [copy_pages_data] *)

Definition KPML4_P : Z := Z.shiftl 1 0.
Definition KPML4_RW : Z := Z.shiftl 1 1.
Definition KPDPTE_P : Z := Z.shiftl 1 0.
Definition KPDPTE_RW : Z := Z.shiftl 1 1.
Definition KPDE_P : Z := Z.shiftl 1 0.
Definition KPDE_RW : Z := Z.shiftl 1 1.
Definition KPDE_PS : Z := Z.shiftl 1 7.
Definition KPML4_SHIFT : Z := 39.
Definition PGENTY_SIZE : Z := 512.

(** [p[i] = v] for a [uint_t *] into the kernel's linear map. *)
Definition put_word (p i v : Z) : BM unit :=
  modify (fun s => with_pgwords (<[p +u 8 * i -u KRNL_MAP_VIRTADDRESS_START := v]> (pgwords s)) s).

(** [for (mi = 0; mi < PGENTY_SIZE; mi++)], the last [n] rounds. *)
Fixpoint clear_tables (n : nat) (p pdpte mi : Z) : BM unit :=
  match n with
  | O => mret tt
  | S n' => put_word p mi 0 ;; put_word pdpte mi 0 ;; clear_tables n' p pdpte (mi + 1)
  end.

(** The inner loop over one page directory; the result is [adr]. *)
Fixpoint fill_pde (n : nat) (pde pdeii adr : Z) : BM Z :=
  match n with
  | O => mret adr
  | S n' =>
      put_word pde pdeii (Z.lor (Z.lor (Z.lor (Z.lor 0 adr) KPDE_PS) KPDE_RW) KPDE_P) ;;
      fill_pde n' pde (pdeii + 1) (adr +u 0x200000)
  end.

(** The outer loop over the 16 directories. *)
Fixpoint fill_pdpte (n : nat) (pdpte pde pdei adr : Z) : BM unit :=
  match n with
  | O => mret tt
  | S n' =>
      pdepd ← viradr_to_phyadr pde;
      put_word pdpte pdei (Z.lor (Z.lor pdepd KPDPTE_RW) KPDPTE_P) ;;
      adr ← fill_pde (Z.to_nat PGENTY_SIZE) pde 0 adr;
      fill_pdpte n' pdpte (pde +u 0x1000) (pdei + 1) adr
  end.

Definition copy_pages_data : BM bool :=
  mbsp ← gets kmachbsp;
  let topgadr := mb_nextwtpadr mbsp in
  if negb (initchkadr_is_ok mbsp topgadr (mb_subpageslen mbsp) =? 0) then mret false else
  p ← phyadr_to_viradr topgadr;
  let pdpte := p +u 0x1000 in
  let pde := p +u 0x2000 in
  clear_tables (Z.to_nat PGENTY_SIZE) p pdpte 0 ;;
  fill_pdpte 16 pdpte pde 0 0 ;;
  pdptepd ← viradr_to_phyadr pdpte;
  put_word p (Z.land (Z.shiftr KRNL_MAP_VIRTADDRESS_START KPML4_SHIFT) 0x1ff) (Z.lor (Z.lor pdptepd KPML4_RW) KPML4_P) ;;
  let subpageslen := 0x1000 * 16 + 0x2000 in
  modify (fun s => with_mb (set_pml4 topgadr subpageslen 0x400000000 (PAGE_ALIGN (topgadr +u subpageslen)) (kmachbsp s)) s) ;;
  mret true.
