(* ===== verification/BootSpec.v ===== *)
(** * Boot-time memory discovery: theorems

    The range array is sorted (Sort), the address checks and translations are
    exact, the descriptor array has one descriptor per usable page frame, and
    the kernel's own pages are marked before the free lists are built. *)

From S2P Require Import Prelude PhyMem Marea DivMerOps Boot.

(** ** The bubble sort of the range array *)

Module Sort.

Abbreviation key := pmr_saddr.

(** Everything after position [m] is in its final place. *)
Definition settled (m : nat) (l : list phymmarge_t) : Prop :=
  forall i j a b, (i < j)%nat -> (m < j)%nat -> l !! i = Some a -> l !! j = Some b -> key a <= key b.

(** Position [i] holds a maximum of the prefix up to it. *)
Definition prefmax (i : nat) (l : list phymmarge_t) : Prop :=
  forall k a b, (k < i)%nat -> l !! k = Some a -> l !! i = Some b -> key a <= key b.

Definition cmpswap (i : nat) (l : list phymmarge_t) : list phymmarge_t :=
  match l !! i, l !! S i with
  | Some a, Some b => if pmr_saddr b <? pmr_saddr a then phymmarge_swap l i (S i) else l
  | _, _ => l
  end.

Lemma sort_pass_S n i l : sort_pass (S n) i l = sort_pass n (S i) (cmpswap i l).
Proof. done. Qed.

(** A comparison keeps the other positions and leaves the two keys in order. *)
Lemma cmpswap_lookup i l :
  (S i < length l)%nat ->
  exists a b, l !! i = Some a /\ l !! S i = Some b /\
    (forall k, k <> i -> k <> S i -> cmpswap i l !! k = l !! k) /\
    exists a' b', cmpswap i l !! i = Some a' /\ cmpswap i l !! S i = Some b' /\ key a' <= key b' /\
      ((a' = a /\ b' = b) \/ (a' = b /\ b' = a)).
Proof.
  intros Hl. destruct (lookup_lt_is_Some_2 l i ltac:(lia)) as [a Ha].
  destruct (lookup_lt_is_Some_2 l (S i) Hl) as [b Hb]. exists a, b. unfold cmpswap, phymmarge_swap. rewrite Ha, Hb.
  destruct (_ <? _) eqn:E; bool_to_prop.
  - split_and!; [done..| |].
    + intros k ??. by rewrite !list_lookup_insert_ne by done.
    + exists b, a. split_and!; [| |lia|by right].
      * rewrite list_lookup_insert_ne by lia. apply list_lookup_insert_eq. lia.
      * apply list_lookup_insert_eq. rewrite length_insert. lia.
  - split_and!; [done..|]. exists a, b. split_and!; [done..|lia|by left].
Qed.

Lemma cmpswap_perm i l : Permutation (cmpswap i l) l.
Proof.
  unfold cmpswap. destruct (l !! i) as [a|] eqn:Ha; [|done]. destruct (l !! S i) as [b|] eqn:Hb; [|done].
  destruct (_ <? _); [|done]. unfold phymmarge_swap. rewrite Ha, Hb.
  by apply Permutation_insert_swap.
Qed.

Lemma cmpswap_prefmax i l : (S i < length l)%nat -> prefmax i l -> prefmax (S i) (cmpswap i l).
Proof.
  intros Hl HP k x y Hk Hx Hy.
  destruct (cmpswap_lookup i l Hl) as (a & b & Ha & Hb & Ho & a' & b' & Ha' & Hb' & Hab & Hcase).
  rewrite Hb' in Hy. injection Hy as <-. destruct (decide (k = i)) as [->|].
  { rewrite Ha' in Hx. by injection Hx as <-. }
  rewrite Ho in Hx by lia. pose proof (HP k x a ltac:(lia) Hx Ha).
  destruct Hcase as [[-> ->]|[-> ->]]; lia.
Qed.

Lemma cmpswap_settled i m l : (S i < length l)%nat -> (S i <= m)%nat -> settled m l -> settled m (cmpswap i l).
Proof.
  intros Hl Hm HS k j x y Hkj Hj Hx Hy.
  destruct (cmpswap_lookup i l Hl) as (a & b & Ha & Hb & Ho & a' & b' & Ha' & Hb' & Hab & Hcase).
  rewrite Ho in Hy by lia. destruct (decide (k = i)) as [->|]; [|destruct (decide (k = S i)) as [->|]].
  - rewrite Ha' in Hx. injection Hx as <-.
    destruct Hcase as [[-> ->]|[-> ->]]; [apply (HS i j)|apply (HS (S i) j)]; (done || lia).
  - rewrite Hb' in Hx. injection Hx as <-.
    destruct Hcase as [[-> ->]|[-> ->]]; [apply (HS (S i) j)|apply (HS i j)]; (done || lia).
  - rewrite Ho in Hx by done. apply (HS k j); (done || lia).
Qed.

Lemma sort_pass_perm n : forall i l, Permutation (sort_pass n i l) l.
Proof.
  induction n as [|n IH]; intros i l; [done|]. rewrite sort_pass_S.
  etransitivity; [apply IH|apply cmpswap_perm].
Qed.

Lemma sort_pass_settled n : forall i l,
  (i + n < length l)%nat -> prefmax i l -> settled (i + n) l -> settled (pred (i + n)) (sort_pass n i l).
Proof.
  induction n as [|n IH]; intros i l Hl HP HS.
  - simpl. rewrite Nat.add_0_r in *. intros k j a b Hkj Hj Ha Hb.
    destruct (decide (j = i)) as [->|]; [by eapply HP|]. apply (HS k j); (done || lia).
  - rewrite sort_pass_S. replace (i + S n)%nat with (S i + n)%nat by lia. apply IH.
    + rewrite (Permutation_length (cmpswap_perm i l)). lia.
    + apply cmpswap_prefmax; [lia|done].
    + apply cmpswap_settled; [lia|lia|]. by replace (S i + n)%nat with (i + S n)%nat by lia.
Qed.

Lemma sort_loop_spec m : forall l,
  (m < length l \/ m = 0)%nat -> settled m l -> settled 0 (sort_loop m l) /\ Permutation (sort_loop m l) l.
Proof.
  induction m as [|m IH]; intros l Hl HS; [done|]. cbn [sort_loop].
  pose proof (sort_pass_perm (S m) 0 l) as Hp.
  destruct (IH (sort_pass (S m) 0 l)) as [H1 H2].
  - rewrite (Permutation_length Hp). lia.
  - apply (sort_pass_settled (S m) 0 l); [lia|intros k; lia|done].
  - split; [done|]. by etransitivity.
Qed.

Lemma settled_sorted l : settled 0 l -> StronglySorted (fun a b => key a <= key b) l.
Proof.
  induction l as [|a l IH]; intros HS; constructor.
  - apply IH. intros i j x y Hij Hj Hx Hy. apply (HS (S i) (S j) x y); [lia|lia|done|done].
  - apply Forall_lookup. intros i x Hx. apply (HS 0%nat (S i) a x); [lia|lia|done|done].
Qed.

Lemma sort_spec l : StronglySorted (fun a b => key a <= key b) (phymmarge_sort l) /\ Permutation (phymmarge_sort l) l.
Proof.
  unfold phymmarge_sort. destruct (sort_loop_spec (pred (length l)) l) as [H1 H2].
  - destruct l; simpl; lia.
  - intros i j a b Hij Hj Ha Hb. apply lookup_lt_Some in Hb. lia.
  - split; [by apply settled_sorted|done].
Qed.

End Sort.

(** ** Addresses *)

(** [adrzone_is_ok] accepts two zones that do not wrap iff they have no point
    in common, end points included. *)
Lemma adrzone_disjoint sadr slen kadr klen :
  0 <= sadr -> 0 <= slen -> sadr + slen < u64max -> 0 <= kadr -> 0 <= klen -> kadr + klen < u64max ->
  adrzone_is_ok sadr slen kadr klen = 0 <->
  forall x, ~ (sadr <= x <= sadr + slen /\ kadr <= x <= kadr + klen).
Proof.
  intros. unfold adrzone_is_ok. rewrite !u64_small by lia.
  destruct ((sadr <=? kadr) && _) eqn:E1; [|destruct ((kadr <=? sadr) && _) eqn:E2]; bool_to_prop.
  - split; [done|]. intros Hd. destruct (Hd kadr). lia.
  - split; [done|]. intros Hd. destruct (Hd sadr). lia.
  - split; [|done]. intros _ x [??]. lia.
Qed.

(** ** Descriptors *)

(** The page frames of a range, and of the usable ranges of the array. *)
Definition range_pages (p : phymmarge_t) : Z := Z.shiftr (pmr_lsize p) 12.
Definition range_frames (p : phymmarge_t) : list Z :=
  (fun k => Z.shiftr (pmr_saddr p + 4096 * k) 12) <$> seqZ 0 (range_pages p).
Definition usable (p : phymmarge_t) : bool := pmr_type p =? PMR_T_OSAPUSERRAM.
Definition frames (l : list phymmarge_t) : list Z :=
  concat (range_frames <$> filter (fun p => Is_true (usable p)) l).

(** What [init_one_pmrge] writes for a range that ends below 2^64 - 4096. *)
Definition range_ok (p : phymmarge_t) : Prop :=
  0 <= pmr_saddr p /\ 0 < pmr_lsize p /\ pmr_end p = pmr_saddr p + pmr_lsize p - 1 /\ pmr_end p + 4096 < u64max.

Definition frame_msa (f : Z) : msadsc_t := set_padrs f msadsc_t_init.

(** [g] with the descriptors of the frames [fs] written from index [i]. *)
Fixpoint put_frames (i : Z) (fs : list Z) (g : gmap Z msadsc_t) : gmap Z msadsc_t :=
  match fs with
  | [] => g
  | f :: fs => put_frames (i + 1) fs (<[i := frame_msa f]> g)
  end.

Lemma put_frames_app fs1 : forall i fs2 g,
  put_frames i (fs1 ++ fs2) g = put_frames (i + Z.of_nat (length fs1)) fs2 (put_frames i fs1 g).
Proof.
  induction fs1 as [|f fs1 IH]; intros i fs2 g; simpl; [by rewrite Z.add_0_r|].
  rewrite IH. by replace (i + 1 + Z.of_nat (length fs1)) with (i + Z.of_nat (S (length fs1))) by lia.
Qed.

Lemma put_frames_lookup fs : forall i g j,
  put_frames i fs g !! j =
    if (i <=? j) && (j <? i + Z.of_nat (length fs)) then frame_msa <$> fs !! Z.to_nat (j - i) else g !! j.
Proof.
  induction fs as [|f fs IH]; intros i g j; cbn [put_frames length].
  { by replace (_ && _) with false by lia. }
  rewrite IH. destruct (decide (j = i)) as [->|].
  - replace (_ && _) with false by lia. replace (_ && _) with true by lia.
    rewrite lookup_insert_eq. by rewrite Z.sub_diag.
  - rewrite lookup_insert_ne by done. destruct (_ && _) eqn:E; bool_to_prop.
    + replace (_ && _) with true by lia. by replace (Z.to_nat (j - i)) with (S (Z.to_nat (j - (i + 1)))) by lia.
    + by replace (_ && _) with false by lia.
Qed.

(** The loop over one range, from the [k]-th page on. *)
Lemma msadsc_range_spec p fuel : range_ok p -> forall k i s,
  0 <= k <= range_pages p -> (Z.to_nat (range_pages p - k) < fuel)%nat ->
  msadsc_range fuel (pmr_saddr p + 4096 * k) (pmr_end p) i s =
    Ret (i + (range_pages p - k),
         with_msas (put_frames i ((fun k => Z.shiftr (pmr_saddr p + 4096 * k) 12) <$> seqZ k (range_pages p - k)) (msas s)) s).
Proof.
  intros (Hs & Hl & He & Hw). unfold range_pages. rewrite u64max_val in Hw.
  induction fuel as [|fuel IH]; intros k i s Hk Hf; [lia|]. cbn [msadsc_range].
  assert (Hdiv : 4096 * Z.shiftr (pmr_lsize p) 12 <= pmr_lsize p < 4096 * Z.shiftr (pmr_lsize p) 12 + 4096).
  { rewrite Z.shiftr_div_pow2 by lia. change (2 ^ 12) with 4096. 
    pose proof (Z.div_mod (pmr_lsize p) 4096). pose proof (Z.mod_pos_bound (pmr_lsize p) 4096). lia. }
  destruct (decide (k = Z.shiftr (pmr_lsize p) 12)) as [->|Hne].
  - rewrite Z.sub_diag, Z.add_0_r. rewrite seqZ_nil by lia. simpl. rewrite with_msas_id.
    destruct (_ <? _) eqn:E; [|done]. bool_to_prop. rewrite !(u64_small (_ + 4096)) by (rewrite u64max_val; lia).
    rewrite u64_small by (rewrite u64max_val; lia). replace (_ <=? _) with false by lia.
    destruct fuel; simpl; replace (_ <? _) with false by lia; done.
  - replace (_ <? _) with true by lia. rewrite !(u64_small (_ + 4096)) by (rewrite u64max_val; lia).
    rewrite u64_small by (rewrite u64max_val; lia). replace (_ <=? _) with true by lia.
    rewrite (seqZ_step k) by lia. cbn [fmap list_fmap put_frames].
    unfold mbind, M_bind, put_msa, modify.
    replace (pmr_saddr p + 4096 * k + 4096) with (pmr_saddr p + 4096 * (k + 1)) by lia.
    rewrite IH by lia. set (P := Z.shiftr (pmr_lsize p) 12).
    replace (i + 1 + (P - (k + 1))) with (i + (P - k)) by lia. by replace (P - (k + 1)) with (P - k - 1) by lia.
Qed.

Lemma init_msadsc_core_spec l : Forall range_ok l -> forall i s,
  init_msadsc_core l i s =
    Ret (i + Z.of_nat (length (frames l)), with_msas (put_frames i (frames l) (msas s)) s).
Proof.
  induction 1 as [|p l Hp _ IH]; intros i s; cbn [init_msadsc_core].
  { simpl. by rewrite Z.add_0_r, with_msas_id. }
  unfold frames. destruct (pmr_type p =? PMR_T_OSAPUSERRAM) eqn:E.
  - assert (Hn : 0 <= range_pages p) by (destruct Hp as (_ & ? & _); apply Z.shiftr_nonneg; lia).
    rewrite filter_cons_True by (unfold usable; by rewrite E). cbn [fmap list_fmap concat].
    pose proof (msadsc_range_spec p (S (Z.to_nat (range_pages p))) Hp 0 i s ltac:(lia) ltac:(lia)) as H.
    rewrite Z.mul_0_r, Z.add_0_r, Z.sub_0_r in H. unfold mbind, M_bind. unfold range_pages in H at 1. rewrite H.
    rewrite IH. fold (frames l). rewrite put_frames_app, length_app.
    assert (Hlen : Z.of_nat (length (range_frames p)) = range_pages p).
    { unfold range_frames. rewrite length_fmap, length_seqZ. lia. }
    by rewrite Nat2Z.inj_add, Hlen, Z.add_assoc.
  - rewrite filter_cons_False by (unfold usable; rewrite E; tauto). apply IH.
Qed.

(** The two sums, when they do not wrap. *)
Definition usable_bytes (l : list phymmarge_t) : Z :=
  foldr (fun p n => (if usable p then pmr_lsize p else 0) + n) 0 l.

Lemma usable_sums_spec l : Forall range_ok l -> forall a b,
  0 <= a -> 0 <= b -> a + usable_bytes l < u64max -> b + usable_bytes l < u64max ->
  usable_sums l a b = (a + usable_bytes l, b + Z.of_nat (length (frames l))) /\
  4096 * Z.of_nat (length (frames l)) <= usable_bytes l.
Proof.
  induction 1 as [|p l Hp Hl IH]; intros a b Ha Hb Hwa Hwb; cbn [usable_sums usable_bytes foldr].
  { simpl. by rewrite !Z.add_0_r. }
  assert (Hnn : 0 <= usable_bytes l).
  { clear -Hl. induction Hl as [|q l (_ & ? & _) _ IH]; cbn [usable_bytes foldr]; [lia|]. fold (usable_bytes l).
    destruct (usable q); lia. }
  cbn [usable_bytes foldr] in Hwa, Hwb. fold (usable_bytes l) in *. unfold frames. rewrite Z.eqb_sym. fold (usable p).
  destruct (usable p) eqn:E.
  - destruct Hp as (? & ? & ? & ?). rewrite filter_cons_True by (by rewrite E). cbn [fmap list_fmap concat].
    rewrite length_app. fold (frames l). unfold range_frames, range_pages. rewrite length_fmap, length_seqZ.
    assert (Hdiv : 0 <= Z.shiftr (pmr_lsize p) 12 /\ 4096 * Z.shiftr (pmr_lsize p) 12 <= pmr_lsize p).
    { rewrite Z.shiftr_div_pow2 by lia. change (2 ^ 12) with 4096. split; [apply Z.div_pos; lia|].
      apply Z.mul_div_le; lia. }
    rewrite !u64_small by lia. destruct (IH (a + pmr_lsize p) (b + Z.shiftr (pmr_lsize p) 12)) as [-> IH2]; [lia..|].
    split; [f_equal; lia|lia].
  - rewrite filter_cons_False by (rewrite E; tauto). fold (frames l).
    destruct (IH a b) as [-> IH2]; [lia..|]. done.
Qed.

(** [PAGE_ALIGN] rounds up to the next page boundary. *)
Lemma page_align_up x : 0 <= x -> x + 4095 < u64max -> PAGE_ALIGN x = 4096 * ((x + 4095) / 4096).
Proof.
  intros Hx Hw. unfold PAGE_ALIGN, PAGESIZE.
  assert (E : u64 (Z.lnot (4096 - 1)) = Z.shiftl (Z.ones 52) 12) by reflexivity. rewrite E.
  replace (u64 (u64 (x + 4096) - 1)) with (x + 4095).
  2:{ destruct (decide (x + 4096 = u64max)) as [Hm|].
      - rewrite Hm. unfold u64. rewrite Z_mod_same_full. rewrite u64max_val in *. 
        replace (x + 4095) with 18446744073709551615 by lia. reflexivity.
      - rewrite (u64_small (x + 4096)) by lia. rewrite u64_small; lia. }
  apply (land_high 12); lia.
Qed.

(** The map the ranges of [l] give after the kernel has placed it at [nx]. *)
Definition map_ready (s : bootst) (l : list phymmarge_t) (n : Z) : Prop :=
  let mb := kmachbsp s in
  l = take (Z.to_nat (mb_e820exnr mb)) (pmarge s) /\ n = Z.of_nat (length (frames l)) /\
  1 <= mb_e820exnr mb /\ 0 < mb_e820expadr mb < KRNL_MAP_PHYADDRESS_END /\
  u64 (mb_e820exnr mb * SZ_phymmarge_t) = mb_e820exsz mb /\
  Forall range_ok l /\ usable_bytes l < u64max /\ 0 < n /\
  0 <= mb_nextwtpadr mb < KRNL_MAP_PHYADDRESS_END /\
  initchkadr_is_ok mb (mb_nextwtpadr mb) (n * SZ_msadsc_t) = 0.

Lemma init_msadsc_spec s l n : map_ready s l n ->
  init_msadsc s = Ret (tt,
    let mb := kmachbsp s in
    Bootst (set_memmap (mb_nextwtpadr mb) n (n * SZ_msadsc_t) (PAGE_ALIGN (mb_nextwtpadr mb +u n * SZ_msadsc_t)) mb)
      (e820 s) (pmarge s) (with_msas (put_frames 0 (frames l) (msas (mm s))) (mm s)) (pgwords s)).
Proof.
  intros (Hl & Hn & Hnr & Hex & Hsz & Hok & Hby & Hpos & Hnx & Hchk).
  destruct (usable_sums_spec l Hok 0 0 ltac:(lia) ltac:(lia) ltac:(lia) ltac:(lia)) as [Hs Hle].
  rewrite <- Hn in *. rewrite !Z.add_0_l in Hs. rewrite u64max_val in Hby. unfold KRNL_MAP_PHYADDRESS_END in *.
  assert (Hnz : u64 (n * SZ_msadsc_t) = n * SZ_msadsc_t) by (apply u64_small; unfold SZ_msadsc_t; rewrite u64max_val; lia).
  assert (Hu : 1 <= Z.shiftr (usable_bytes l) 12).
  { rewrite Z.shiftr_div_pow2 by lia. apply Z.div_le_lower_bound; lia. }
  unfold init_msadsc, ret_msadsc_vadrandsz, mbind, M_bind, gets, phyadr_to_viradr, KRNL_MAP_PHYADDRESS_END. 
  rewrite Hsz, Z.eqb_refl. replace (_ || _) with false by (simpl; lia).
  replace (_ <=? mb_e820expadr _) with false by lia. cbn [mret M_ret]. rewrite <- Hl.
  rewrite Hs. replace (_ || _) with false by lia. rewrite Hnz, Hchk. simpl.
  replace (_ <=? mb_nextwtpadr _) with false by lia. simpl.
  replace (_ <=? mb_e820expadr _) with false by lia. rewrite <- Hl. unfold lift_mm. cbn [mret M_ret].
  rewrite (init_msadsc_core_spec l Hok), <- Hn, Z.add_0_l, Z.eqb_refl. simpl.
  unfold viradr_to_phyadr, KRNL_MAP_VIRTADDRESS_END, KRNL_MAP_VIRTADDRESS_START, KRNL_MAP_VIRTADDRESS_SIZE.
  rewrite (u64_small (mb_nextwtpadr _ + _)) by (rewrite u64max_val; lia). replace (_ || _) with false by lia.
  simpl. rewrite Hnz. replace (_ + 18446603336221196288 - 18446603336221196288) with (mb_nextwtpadr (kmachbsp s)) by lia.
  rewrite !(u64_small (mb_nextwtpadr (kmachbsp s))) by (rewrite u64max_val; lia). done.
Qed.

(** ** Pages the kernel occupies *)

Definition occupy (m : msadsc_t) : msadsc_t :=
  set_alloc PAF_ALLOC (set_uindx (uindx m + 1) (set_mocty MF_MOCTY_KRNL m)).

Definition unused (m : msadsc_t) : bool :=
  (MF_MOCTY_FREE =? mocty m) && (0 =? uindx m) && (PAF_NO_ALLOC =? alloc m).

(** The descriptors from [k] on are the [p] unused frames from address [a], and
    [k] is the first descriptor with that address. *)
Definition segment (g : gmap Z msadsc_t) (k a p : Z) : Prop :=
  0 <= k /\
  (forall j, 0 <= j < k -> exists m, g !! j = Some m /\ phyadr m <> a) /\
  (forall j, 0 <= j < p -> exists m, g !! (k + j) = Some m /\ phyadr m = a + 4096 * j /\ unused m = true).

Definition seg_pages (a e : Z) : Z := (e - a + 4095) / 4096.

Lemma seg_pages_lt a e f : f < seg_pages a e <-> a + 4096 * f < e.
Proof.
  unfold seg_pages. pose proof (Z.div_mod (e - a + 4095) 4096 ltac:(lia)).
  pose proof (Z.mod_pos_bound (e - a + 4095) 4096 ltac:(lia)). lia.
Qed.

Lemma find_frame_found g s a k : msas s = g ->
  (forall j, 0 <= j < k -> exists m, g !! j = Some m /\ phyadr m <> a) ->
  (exists m, g !! k = Some m /\ phyadr m = a) ->
  forall n i, 0 <= i <= k -> (Z.to_nat (k - i) < n)%nat -> find_frame n i a s = Ret (Some k, s).
Proof.
  intros <- Hne (mk & Hk & Hak). induction n as [|n IH]; intros i Hi Hn; [lia|]. cbn [find_frame].
  unfold mbind, M_bind, get_msa. destruct (decide (i = k)) as [->|].
  - rewrite Hk. by replace (phyadr mk =? a) with true by lia.
  - destruct (Hne i ltac:(lia)) as (m & -> & Hm). replace (phyadr m =? a) with false by lia. apply IH; lia.
Qed.

Lemma find_frame_none s a : forall n i,
  (forall j, i <= j < i + Z.of_nat n -> exists m, msas s !! j = Some m /\ phyadr m <> a) ->
  find_frame n i a s = Ret (None, s).
Proof.
  induction n as [|n IH]; intros i Hne; [done|]. cbn [find_frame].
  unfold mbind, M_bind, get_msa. destruct (Hne i ltac:(lia)) as (m & -> & Hm).
  replace (phyadr m =? a) with false by lia. apply IH. intros j Hj. apply Hne. lia.
Qed.

Section occupy.
Context (k a e : Z).
Context (Ha : 0 <= a) (Hae : a < e) (He : e + 4096 < u64max).
Let p := seg_pages a e.

Lemma occupy_loop_spec : forall fuel f s,
  0 <= f <= p -> (Z.to_nat (p - f) <= fuel)%nat ->
  (forall j, f <= j < p -> exists m, msas s !! (k + j) = Some m /\ phyadr m = a + 4096 * j /\ unused m = true) ->
  wp (occupy_loop fuel k (a + 4096 * f) e f) s (fun r s' => r = Some p /\ exists g, s' = with_msas g s /\
    forall i, g !! i = if (k + f <=? i) && (i <? k + p) then occupy <$> msas s !! i else msas s !! i).
Proof.
  pose proof He as He'. rewrite u64max_val in He'. induction fuel as [|fuel IH]; intros f s Hf Hfu Hseg; cbn [occupy_loop];
    pose proof (seg_pages_lt a e f) as Hlt; fold p in Hlt.
  - replace (_ <? e) with false by lia. apply wp_ret. split; [f_equal; lia|].
    exists (msas s). split; [by rewrite with_msas_id|]. intros i. by replace (_ && _) with false by lia.
  - destruct (decide (f = p)) as [->|].
    { replace (_ <? e) with false by lia. apply wp_ret. split; [done|].
      exists (msas s). split; [by rewrite with_msas_id|]. intros i. by replace (_ && _) with false by lia. }
    replace (_ <? e) with true by lia. destruct (Hseg f ltac:(lia)) as (m & Hm & Hpm & Hum).
    apply wp_bind, (wp_get_msa _ m); [done|]. replace (negb (_ =? _)) with false by lia.
    unfold unused in Hum. replace (_ || _) with false by lia.
    apply wp_bind, (wp_upd_msa _ _ m); [done|]. apply wp_bind. eapply wp_upd_msa; [apply lookup_insert_eq|].
    apply wp_bind. eapply wp_upd_msa; [apply lookup_insert_eq|]. norm_state.
    unfold PAGESIZE. rewrite u64_small by (rewrite u64max_val; lia).
    replace (a + 4096 * f + 4096) with (a + 4096 * (f + 1)) by lia.
    eapply wp_mono; [apply IH; [lia|lia|]|].
    + intros j Hj. simpl. rewrite lookup_insert_ne by lia. apply Hseg. lia.
    + intros r s' (-> & g & -> & Hg). split; [done|]. exists g. split; [done|]. intros i. rewrite Hg. simpl.
      destruct (decide (i = k + f)) as [->|].
      * rewrite lookup_insert_eq, Hm. replace (_ && _) with false by lia. by replace (_ && _) with true by lia.
      * rewrite lookup_insert_ne by done. 
        replace ((k + (f + 1) <=? i) && (i <? k + p)) with ((k + f <=? i) && (i <? k + p)) by lia. done.
Qed.

Lemma search_segment_spec s msanr : segment (msas s) k a p -> k < msanr ->
  wp (search_segment_occupymsadsc msanr a e) s (fun r s' => r = p /\ exists g, s' = with_msas g s /\
    forall i, g !! i = if (k <=? i) && (i <? k + p) then occupy <$> msas s !! i else msas s !! i).
Proof.
  intros (Hk & Hne & Hseg) Hmn. pose proof (seg_pages_lt a e 0) as Hp0. fold p in Hp0. pose proof He as He'. rewrite u64max_val in He'.
  unfold search_segment_occupymsadsc. apply wp_bind. eapply wp_det.
  { apply (find_frame_found _ s a k eq_refl Hne); [|lia|lia].
    destruct (Hseg 0 ltac:(lia)) as (m & Hm & Hpm & _). rewrite Z.add_0_r in Hm. exists m. split; [done|lia]. }
  cbn beta iota. apply wp_bind.
  pose proof (occupy_loop_spec (S (Z.to_nat (Z.shiftr (e - a) 12))) 0 s) as Hloop.
  rewrite Z.mul_0_r, !Z.add_0_r in Hloop. rewrite Z.shiftr_div_pow2 in * by lia. change (2 ^ 12) with 4096 in *.
  pose proof (Z.div_mod (e - a) 4096 ltac:(lia)) as Hdm. pose proof (Z.mod_pos_bound (e - a) 4096 ltac:(lia)) as Hmb.
  assert (Hpc : p = if (e - a) mod 4096 =? 0 then (e - a) / 4096 else (e - a) / 4096 + 1).
  { unfold p, seg_pages. destruct (_ =? 0) eqn:E; bool_to_prop; symmetry.
    - apply (Z.div_unique _ _ _ 4095); lia.
    - apply (Z.div_unique _ _ _ ((e - a) mod 4096 - 1)); lia. }
  eapply wp_mono; [apply Hloop; [lia| |done]|].
  { destruct (_ =? 0); lia. }
  intros r s' (-> & Hg). cbn beta iota. rewrite u64_small by (rewrite u64max_val; lia).
  replace (Z.land (e - a) 0xfff) with ((e - a) mod 4096) by (symmetry; apply (Z.land_ones _ 12); lia).
  rewrite Z.shiftr_div_pow2 by (unfold PSHRSIZE; lia). change (2 ^ PSHRSIZE) with 4096.
  destruct ((e - a) mod 4096 =? 0); cbn [negb].
  - replace (_ =? p) with true by lia. cbn [negb]. by apply wp_ret.
  - rewrite u64_small by (rewrite u64max_val; lia). replace (_ =? p) with true by lia. cbn [negb]. by apply wp_ret.
Qed.
End occupy.

(** ** From the e820 map to the descriptors *)

Definition known_type (e : e820map_t) : bool := (RAM_USABLE <=? type e) && (type e <=? RAM_MEGER).
Definition range_of (e : e820map_t) : phymmarge_t := (init_one_pmrge e).2.

(** A firmware map: known types, no empty or wrapping range, usable ranges on
    page boundaries, no overlap. *)
Definition entry_ok (e : e820map_t) : Prop :=
  known_type e = true /\ 0 <= saddr e /\ 0 < lsize e /\ saddr e + lsize e + 4096 < u64max /\
  (type e = RAM_USABLE -> saddr e mod 4096 = 0).
Definition apart (e e' : e820map_t) : Prop := saddr e + lsize e <= saddr e' \/ saddr e' + lsize e' <= saddr e.
Definition firmware_map (es : list e820map_t) : Prop :=
  Forall entry_ok es /\ forall i j e e', i <> j -> es !! i = Some e -> es !! j = Some e' -> apart e e'.

(** Page frame [f] lies inside a usable range. *)
Definition usable_frame (es : list e820map_t) (f : Z) : Prop :=
  exists e, e ∈ es /\ type e = RAM_USABLE /\ saddr e <= 4096 * f /\ 4096 * f + 4096 <= saddr e + lsize e.

Lemma init_one_known e : known_type e = true -> init_one_pmrge e = (true, range_of e).
Proof.
  unfold range_of, init_one_pmrge, known_type. intros H.
  repeat match goal with |- context [if ?b then _ else _] => destruct b eqn:?; [done|] end.
  unfold RAM_USABLE, RAM_RESERV, RAM_ACPIREC, RAM_ACPINVS, RAM_AREACON, RAM_MEGER in *. lia.
Qed.

Lemma range_of_fields e : entry_ok e ->
  pmr_saddr (range_of e) = saddr e /\ pmr_lsize (range_of e) = lsize e /\ range_ok (range_of e) /\
  usable (range_of e) = (type e =? RAM_USABLE).
Proof.
  intros (Hk & Hs & Hl & Hw & _). rewrite u64max_val in Hw. unfold range_of, init_one_pmrge, range_ok, usable, known_type in *.
  repeat match goal with |- context [if ?b then _ else _] => destruct b eqn:? end; simpl;
    rewrite ?u64max_val, ?(u64_small (saddr e + lsize e)) by (rewrite u64max_val; lia);
    rewrite ?u64_small by (rewrite u64max_val; lia); split_and!; try (lia || done);
    unfold RAM_USABLE, RAM_RESERV, RAM_ACPIREC, RAM_ACPINVS, RAM_AREACON, RAM_MEGER in *; lia.
Qed.

Lemma initpmrge_core_spec es : Forall entry_ok es ->
  initpmrge_core es = (Z.of_nat (length es), range_of <$> es).
Proof.
  induction 1 as [|e es He _ IH]; [done|]. simpl. rewrite init_one_known by apply He. rewrite IH. f_equal. lia.
Qed.

Lemma range_frames_elem e f : entry_ok e -> type e = RAM_USABLE ->
  f ∈ range_frames (range_of e) <-> saddr e <= 4096 * f /\ 4096 * f + 4096 <= saddr e + lsize e.
Proof.
  intros He Hty. destruct (range_of_fields e He) as (Hs & Hl & _ & _). destruct He as (_ & H0 & Hl0 & _ & Hal).
  specialize (Hal Hty). unfold range_frames, range_pages. rewrite Hs, Hl, list_elem_of_fmap.
  setoid_rewrite elem_of_seqZ. rewrite Z.shiftr_div_pow2 by lia. change (2 ^ 12) with 4096.
  pose proof (Z.div_mod (lsize e) 4096 ltac:(lia)). pose proof (Z.mod_pos_bound (lsize e) 4096 ltac:(lia)).
  apply Z.mod_divide in Hal as [q Hq]; [|lia].
  assert (Hsh : forall k, Z.shiftr (saddr e + 4096 * k) 12 = q + k).
  { intros k. rewrite Z.shiftr_div_pow2 by lia. rewrite Hq. symmetry. apply (Z.div_unique_exact _ 4096); lia. }
  split.
  - intros (k & -> & Hk). rewrite Hsh. lia.
  - intros Hf. exists (f - q). rewrite Hsh. lia.
Qed.

Lemma range_frames_sorted e : entry_ok e -> type e = RAM_USABLE -> StronglySorted Z.lt (range_frames (range_of e)).
Proof.
  intros He Hty. destruct (range_of_fields e He) as (Hs & Hl & _ & _). destruct He as (_ & H0 & Hl0 & _ & _).
  unfold range_frames. generalize (range_pages (range_of e)) as n. intros n. generalize 0 as a.
  assert (exists m, Z.to_nat n = m) as [m Hm] by eauto. revert n Hm. induction m as [|m IH]; intros n Hm a.
  { rewrite seqZ_nil by lia. constructor. }
  rewrite seqZ_step by lia. cbn. constructor; [apply IH; lia|]. apply Forall_forall. intros f Hf.
  apply list_elem_of_fmap in Hf as (k & -> & Hk%elem_of_seqZ). rewrite !Z.shiftr_div_pow2 by lia. change (2 ^ 12) with 4096.
  rewrite !(Z.mul_comm 4096), !Z.div_add by lia. lia.
Qed.

Lemma frames_cons e es : entry_ok e ->
  frames (range_of <$> e :: es) =
    (if type e =? RAM_USABLE then range_frames (range_of e) else []) ++ frames (range_of <$> es).
Proof.
  intros He. destruct (range_of_fields e He) as (_ & _ & _ & Hu). unfold frames. rewrite fmap_cons.
  destruct (type e =? RAM_USABLE).
  - by rewrite filter_cons_True by (by rewrite Hu).
  - by rewrite filter_cons_False by (rewrite Hu; tauto).
Qed.

Lemma frames_elem es f : Forall entry_ok es -> f ∈ frames (range_of <$> es) <-> usable_frame es f.
Proof.
  induction 1 as [|e es He Hes IH].
  { split; [by intros ?%elem_of_nil|]. intros (e & He%elem_of_nil & _). done. }
  rewrite frames_cons by done. rewrite elem_of_app, IH. unfold usable_frame. setoid_rewrite elem_of_cons.
  destruct (type e =? RAM_USABLE) eqn:E; bool_to_prop.
  - rewrite range_frames_elem by done. split.
    + intros [H|(e' & H)]; [exists e; tauto|exists e'; tauto].
    + intros (e' & [->|H] & H'); [left; apply H'|right; by exists e'].
  - split.
    + intros [H%elem_of_nil|(e' & H)]; [done|exists e'; tauto].
    + intros (e' & [->|H] & H'); [by destruct H'|right; by exists e'].
Qed.

Lemma firmware_map_tail e es : firmware_map (e :: es) -> firmware_map es.
Proof.
  intros [H1 H2]. apply Forall_cons in H1 as [_ H1]. split; [done|].
  intros i j a b Hij Ha Hb. apply (H2 (S i) (S j) a b); [lia|done|done].
Qed.

Lemma firmware_map_perm es es' : es ≡ₚ es' -> firmware_map es' -> firmware_map es.
Proof.
  intros Hp [H1 H2]. split; [by rewrite Hp|].
  apply Permutation_inj in Hp as (_ & f & Hf & Hl). intros i j a b Hij Ha Hb.
  rewrite Hl in Ha, Hb. eapply (H2 (f i) (f j)); [|done|done]. intros Hn. by apply Hij, Hf.
Qed.

Lemma frames_sorted es : firmware_map es -> StronglySorted (fun a b => saddr a <= saddr b) es ->
  StronglySorted Z.lt (frames (range_of <$> es)).
Proof.
  intros Hm Hs. induction Hs as [|e es Hs IH Hle]; [constructor|].
  pose proof (firmware_map_tail _ _ Hm) as Hm'. pose proof Hm as [[He Hes]%Forall_cons Hap].
  rewrite frames_cons by done. apply StronglySorted_app_2; [|destruct (type e =? RAM_USABLE) eqn:E|by apply IH].
  - intros f f' Hf Hf'. destruct (type e =? RAM_USABLE) eqn:E; [|by apply elem_of_nil in Hf]. bool_to_prop.
    apply range_frames_elem in Hf; [|done|done]. apply frames_elem in Hf' as (e' & He' & _ & Hb1 & _); [|done].
    rewrite Forall_forall in Hle. specialize (Hle e' He'). apply list_elem_of_lookup in He' as [i Hi].
    rewrite Forall_lookup in Hes. destruct (Hes i e' Hi) as (_ & _ & Hpos & _).
    destruct (Hap 0%nat (S i) e e') as [Ha|Ha]; [done|done|done|lia|lia].
  - bool_to_prop. by apply range_frames_sorted.
  - constructor.
Qed.

Lemma sorted_ranges es : firmware_map es -> exists es', es' ≡ₚ es /\ firmware_map es' /\
  phymmarge_sort (range_of <$> es) = range_of <$> es' /\ StronglySorted Z.lt (frames (range_of <$> es')).
Proof.
  intros Hm. destruct (Sort.sort_spec (range_of <$> es)) as [Hs Hp].
  destruct (Permutation_map_inv _ _ Hp) as (es' & He' & Hp'). exists es'.
  assert (Hm' : firmware_map es') by (eapply firmware_map_perm; [symmetry; exact Hp'|done]).
  split_and!; [by symmetry|done|done|]. apply frames_sorted; [done|].
  rewrite He' in Hs. clear -Hs Hm'. induction es' as [|e es IH]; [constructor|].
  change (map range_of (e :: es)) with (range_of e :: (range_of <$> es)) in Hs.
  apply StronglySorted_cons in Hs as [Hs1 Hs2]. pose proof Hm' as [[He Hes]%Forall_cons _].
  constructor; [apply IH; [exact Hs2|by eapply firmware_map_tail]|].
  apply Forall_forall. intros e' He'. rewrite Forall_forall in Hs1. rewrite Forall_forall in Hes.
  specialize (Hs1 (range_of e')). destruct (range_of_fields e He) as (E1 & _).
  destruct (range_of_fields e' (Hes e' He')) as (E2 & _). rewrite E1, E2 in Hs1. apply Hs1. by apply (list_elem_of_fmap_2 range_of).
Qed.

(** ** Counting the kernel's pages *)

Definition krnl_page (m : msadsc_t) : bool := (1 =? uindx m) && (MF_MOCTY_KRNL =? mocty m) && (PAF_ALLOC =? alloc m).

(** How many of the [n] descriptors from [i] are marked as the kernel's. *)
Definition krnl_count (g : gmap Z msadsc_t) (i n : Z) : Z :=
  Z.of_nat (length (filter (fun j => Is_true (match g !! j with Some m => krnl_page m | None => false end)) (seqZ i n))).

Lemma count_krnl_spec s : forall n i a,
  (forall j, i <= j < i + Z.of_nat n -> is_Some (msas s !! j)) ->
  count_krnl n i a s = Ret (a + krnl_count (msas s) i (Z.of_nat n), s).
Proof.
  induction n as [|n IH]; intros i a Hex.
  { unfold krnl_count. rewrite seqZ_nil by lia. simpl. by rewrite Z.add_0_r. }
  cbn [count_krnl]. destruct (Hex i ltac:(lia)) as [m Hm]. unfold mbind, M_bind, get_msa. rewrite Hm.
  rewrite IH by (intros; apply Hex; lia). unfold krnl_count. rewrite (seqZ_step i) by lia. fold (krnl_page m).
  replace (Z.of_nat (S n) - 1) with (Z.of_nat n) by lia. destruct (krnl_page m) eqn:E.
  - rewrite filter_cons_True by (by rewrite Hm, E). cbn [length]. do 2 f_equal. lia.
  - rewrite filter_cons_False by (rewrite Hm, E; tauto). done.
Qed.

Lemma krnl_count_bound g i n : 0 <= n -> 0 <= krnl_count g i n <= n.
Proof.
  intros Hn. unfold krnl_count. match goal with |- context [length (filter ?P ?l)] => pose proof (length_filter P l) as H end.
  rewrite length_seqZ in H. lia.
Qed.

(** ** Discovery *)

(** What the loader leaves: a firmware map of [length es] entries, and room
    for the range array at [mb_nextwtpadr] and for the descriptors behind it. *)
Definition after_ranges (s : bootst) (es : list e820map_t) : machbstart_t :=
  let mb := kmachbsp s in let nr := Z.of_nat (length es) in
  set_e820ex (mb_nextwtpadr mb) nr (nr * SZ_phymmarge_t) (PAGE_ALIGN (mb_nextwtpadr mb +u nr * SZ_phymmarge_t)) mb.

Definition loader_ready (s : bootst) (es : list e820map_t) (n : Z) : Prop :=
  let mb := kmachbsp s in let nr := Z.of_nat (length es) in let mb' := after_ranges s es in
  e820 s = es /\ mb_e820nr mb = nr /\ 1 <= nr < 2 ^ 32 /\ mb_e820sz mb <> 0 /\ mb_e820padr mb <> 0 /\
  firmware_map es /\ usable_bytes (range_of <$> es) < u64max /\
  n = Z.of_nat (length (frames (range_of <$> es))) /\ 0 < n /\
  0 < mb_nextwtpadr mb < KRNL_MAP_PHYADDRESS_END /\
  initchkadr_is_ok mb (mb_nextwtpadr mb) (nr * SZ_phymmarge_t) = 0 /\
  0 <= mb_nextwtpadr mb' < KRNL_MAP_PHYADDRESS_END /\
  initchkadr_is_ok mb' (mb_nextwtpadr mb') (n * SZ_msadsc_t) = 0.

Lemma init_phymmarge_spec s es n : loader_ready s es n ->
  init_phymmarge s = Ret (tt, Bootst (after_ranges s es) es (phymmarge_sort (range_of <$> es)) (mm s) (pgwords s)).
Proof.
  intros (He & Hnr & Hlen & Hsz & Hpa & Hm & _ & _ & _ & Hnx & Hchk & _).
  assert (H80 : u64 (Z.of_nat (length es) * SZ_phymmarge_t) = Z.of_nat (length es) * SZ_phymmarge_t).
  { apply u64_small. unfold SZ_phymmarge_t. rewrite u64max_val. lia. }
  unfold init_phymmarge, ret_phymmarge_adrandsz, mbind, M_bind, gets. replace (_ || _) with false by lia.
  rewrite Hnr, H80, Hchk. cbn [negb Z.eqb]. unfold die_if. unfold SZ_phymmarge_t in *. replace (_ || _) with false by lia.
  rewrite Z.eqb_refl. cbn [negb mret M_ret]. rewrite He, Nat2Z.id, firstn_all, (initpmrge_core_spec es) by apply Hm.
  replace (_ =? 0) with false by lia. rewrite H80, Z.eqb_refl. cbn [negb mret M_ret]. by rewrite <- He.
Qed.

Lemma usable_bytes_perm l l' : l ≡ₚ l' -> usable_bytes l = usable_bytes l'.
Proof.
  intros H. unfold usable_bytes. apply (foldr_permutation (=) _ 0); [|done]. intros j1 a1 j2 a2 b _ _ _. lia.
Qed.

Lemma frames_perm_length l l' : l ≡ₚ l' -> length (frames l) = length (frames l').
Proof.
  intros H. unfold frames. apply Permutation_length. rewrite H. done.
Qed.

Lemma discovery_spec s es n : loader_ready s es n ->
  wp (init_phymmarge ;; init_msadsc) s (fun _ s' =>
    mb_memmapnr (kmachbsp s') = n /\
    exists fs, n = Z.of_nat (length fs) /\ StronglySorted Z.lt fs /\ (forall f, f ∈ fs <-> usable_frame es f) /\
      forall j, msas (mm s') !! j = if (0 <=? j) && (j <? n) then frame_msa <$> fs !! Z.to_nat j else msas (mm s) !! j).
Proof.
  intros Hr. step. rewrite (wp_det _ _ _ _ _ (init_phymmarge_spec s es n Hr)).
  destruct Hr as (He & Hnr & Hlen & Hsz & Hpa & Hm & Hby & Hn & Hpos & Hnx & Hchk & Hnx' & Hchk').
  destruct (sorted_ranges es Hm) as (es' & Hp & Hm' & -> & Hsort).
  set (s1 := Bootst _ _ _ _ _).
  assert (Hp' : range_of <$> es' ≡ₚ range_of <$> es) by (by rewrite Hp).
  assert (Hready : map_ready s1 (range_of <$> es') n).
  { unfold map_ready. simpl. rewrite Nat2Z.id, (usable_bytes_perm _ _ Hp'), (frames_perm_length _ _ Hp').
    rewrite take_ge by (rewrite length_fmap, Hp; lia). unfold SZ_phymmarge_t in *.
    split_and!; [done|done|lia|lia|lia| | |done|lia|apply Hnx'|apply Hnx'|done].
    - apply u64_small. rewrite u64max_val. lia.
    - apply Forall_fmap. eapply Forall_impl; [apply Hm'|]. intros e Hok. apply (range_of_fields e Hok). }
  rewrite (wp_det _ _ _ _ _ (init_msadsc_spec s1 _ n Hready)).
  simpl. split; [done|]. exists (frames (range_of <$> es')). split_and!; [|done| |].
  - by rewrite (frames_perm_length _ _ Hp').
  - intros f. rewrite frames_elem by apply Hm'. unfold usable_frame. by setoid_rewrite Hp.
  - intros j. rewrite put_frames_lookup. rewrite Z.add_0_l, (frames_perm_length _ _ Hp'), <- Hn, Z.sub_0_r. done.
Qed.
