(* ===== verification/BootPages.v ===== *)
(** * The kernel's page tables

    [copy_pages_data] builds four-level tables for the kernel's linear map.
    The theorem of this file runs the hardware's table walk on the words it
    wrote: every address of the 16 GiB window is translated to the physical
    address [viradr_to_phyadr] computes for it. *)

From S2P Require Import Prelude PhyMem Boot BootSpec.

(** ** The hardware walk (2 MiB pages) *)

Definition ENT_P : Z := 1.
Definition ENT_PS : Z := 128.
Definition TBL_MASK : Z := Z.shiftl (Z.ones 40) 12.
Definition PG2M_MASK : Z := Z.shiftl (Z.ones 31) 21.

Definition entry (g : gmap Z Z) (tbl idx : Z) : option Z :=
  e ← g !! (tbl + 8 * Z.land idx 0x1ff);
  if Z.land e ENT_P =? 0 then None else Some e.

Definition walk (g : gmap Z Z) (cr3 v : Z) : option Z :=
  e4 ← entry g cr3 (Z.shiftr v 39);
  e3 ← entry g (Z.land e4 TBL_MASK) (Z.shiftr v 30);
  e2 ← entry g (Z.land e3 TBL_MASK) (Z.shiftr v 21);
  if Z.land e2 ENT_PS =? 0 then None else Some (Z.land e2 PG2M_MASK + v mod 2 ^ 21).

(** ** Writing the tables *)

Abbreviation base := KRNL_MAP_VIRTADDRESS_START.

Lemma put_word_eq D i v s : 0 <= D -> 0 <= i < 512 -> D < 2 ^ 34 ->
  put_word (D + base) i v s = Ret (tt, with_pgwords (<[D + 8 * i := v]> (pgwords s)) s).
Proof.
  intros. unfold put_word, modify, base.
  rewrite (u64_small (_ + 8 * i)) by (rewrite u64max_val; lia). rewrite u64_small by (rewrite u64max_val; lia).
  by replace (D + 18446603336221196288 + 8 * i - 18446603336221196288) with (D + 8 * i) by lia.
Qed.

(** [g'] is [g] with the words [i .. i+n-1] of table [D] set to [f]. *)
Definition filled (D i n : Z) (f : Z -> Z) (g g' : gmap Z Z) : Prop :=
  (forall k, i <= k < i + n -> g' !! (D + 8 * k) = Some (f k)) /\
  (forall x, (forall k, i <= k < i + n -> x <> D + 8 * k) -> g' !! x = g !! x).

Definition pde_ent (adr : Z) : Z := Z.lor (Z.lor (Z.lor (Z.lor 0 adr) KPDE_PS) KPDE_RW) KPDE_P.
Definition tbl_ent (pd : Z) : Z := Z.lor (Z.lor pd KPDPTE_RW) KPDPTE_P.

Lemma fill_pde_spec D (HD : 0 <= D < 2 ^ 34) : forall n i adr s,
  0 <= i -> i + Z.of_nat n <= 512 -> 0 <= adr -> adr + 2 ^ 21 * Z.of_nat n <= 2 ^ 34 ->
  wp (fill_pde n (D + base) i adr) s (fun a s' => a = adr + 2 ^ 21 * Z.of_nat n /\
    exists g, s' = with_pgwords g s /\ filled D i (Z.of_nat n) (fun k => pde_ent (adr + 2 ^ 21 * (k - i))) (pgwords s) g).
Proof.
  induction n as [|n IH]; intros i adr s Hi Hn Ha Hb; cbn [fill_pde].
  { apply wp_ret. split; [lia|]. exists (pgwords s). split; [by destruct s|]. split; [lia|done]. }
  apply wp_bind. rewrite (wp_det _ _ _ _ _ (put_word_eq D i _ s ltac:(lia) ltac:(lia) ltac:(lia))).
  rewrite u64_small by (rewrite u64max_val; lia).
  eapply wp_mono; [apply IH; lia|]. intros a s' (-> & g & -> & Hg1 & Hg2). split; [lia|].
  exists g. split; [done|]. split.
  - intros k Hk. destruct (decide (k = i)) as [->|].
    + rewrite Hg2 by (intros; lia). simpl. rewrite lookup_insert_eq. f_equal. unfold pde_ent. by rewrite Z.sub_diag, Z.add_0_r.
    + rewrite Hg1 by lia. do 2 f_equal. lia.
  - intros x Hx. rewrite Hg2 by (intros; apply Hx; lia). simpl. apply lookup_insert_ne. intros E. apply (Hx i); lia.
Qed.

Lemma clear_tables_spec D (HD : 0 <= D <= 2 ^ 34 - 73728) : forall n i s,
  0 <= i -> i + Z.of_nat n <= 512 ->
  wp (clear_tables n (D + base) (D + 4096 + base) i) s (fun _ s' =>
    exists g, s' = with_pgwords g s /\
      forall x, g !! x = pgwords s !! x \/ g !! x = Some 0).
Proof.
  induction n as [|n IH]; intros i s Hi Hn; cbn [clear_tables].
  { apply wp_ret. exists (pgwords s). split; [by destruct s|]. by left. }
  apply wp_bind. rewrite (wp_det _ _ _ _ _ (put_word_eq D i _ s ltac:(lia) ltac:(lia) ltac:(lia))).
  apply wp_bind. rewrite (wp_det _ _ _ _ _ (put_word_eq (D + 4096) i _ _ ltac:(lia) ltac:(lia) ltac:(lia))).
  eapply wp_mono; [apply IH; lia|]. intros _ s' (g & -> & Hg). exists g. split; [done|].
  intros x. destruct (Hg x) as [->| ->]; [|by right]. simpl.
  destruct (decide (x = D + 4096 + 8 * i)) as [->|]; [rewrite lookup_insert_eq; by right|].
  rewrite lookup_insert_ne by done. destruct (decide (x = D + 8 * i)) as [->|]; [rewrite lookup_insert_eq; by right|].
  rewrite lookup_insert_ne by done. by left.
Qed.

(** Directory [i] of the tables at [T] and its entry in the table above. *)
Definition dir_done (T i : Z) (g : gmap Z Z) : Prop :=
  g !! (T + 4096 + 8 * i) = Some (tbl_ent (T + 8192 + 4096 * i)) /\
  forall k, 0 <= k < 512 -> g !! (T + 8192 + 4096 * i + 8 * k) = Some (pde_ent (2 ^ 30 * i + 2 ^ 21 * k)).

Lemma fill_pdpte_spec T (HT : 0 <= T <= 2 ^ 34 - 73728) : forall n i s,
  0 <= i -> i + Z.of_nat n = 16 -> (forall d, 0 <= d < i -> dir_done T d (pgwords s)) ->
  wp (fill_pdpte n (T + 4096 + base) (T + 8192 + 4096 * i + base) i (2 ^ 30 * i)) s (fun _ s' =>
    exists g, s' = with_pgwords g s /\ forall d, 0 <= d < 16 -> dir_done T d g).
Proof.
  induction n as [|n IH]; intros i s Hi Hn Hd; cbn [fill_pdpte].
  { apply wp_ret. exists (pgwords s). split; [by destruct s|]. intros d ?. apply Hd. lia. }
  apply wp_bind. unfold viradr_to_phyadr, KRNL_MAP_VIRTADDRESS_END, KRNL_MAP_VIRTADDRESS_SIZE, base.
  replace (_ || _) with false by lia. apply wp_ret.
  replace (_ + 18446603336221196288 - 18446603336221196288) with (T + 8192 + 4096 * i) by lia.
  rewrite (u64_small (T + 8192 + 4096 * i)) by (rewrite u64max_val; lia).
  apply wp_bind. rewrite (wp_det _ _ _ _ _ (put_word_eq (T + 4096) i _ s ltac:(lia) ltac:(lia) ltac:(lia))).
  apply wp_bind. eapply wp_mono; [apply (fill_pde_spec (T + 8192 + 4096 * i)); unfold PGENTY_SIZE; lia|].
  intros a s' (-> & g & -> & Hg1 & Hg2). cbn [pgwords with_pgwords] in Hg2.
  change (Z.of_nat (Z.to_nat PGENTY_SIZE)) with 512 in *. rewrite u64_small by (rewrite u64max_val; lia).
  replace (T + 8192 + 4096 * i + 18446603336221196288 + 4096) with (T + 8192 + 4096 * (i + 1) + base) by (unfold base; lia).
  replace (2 ^ 30 * i + 2 ^ 21 * 512) with (2 ^ 30 * (i + 1)) by lia.
  eapply wp_mono; [apply IH; [lia|lia|]|].
  - intros d Hdi. simpl. destruct (decide (d = i)) as [->|].
    + split; [rewrite Hg2 by (intros; lia); apply lookup_insert_eq|].
      intros k Hk. rewrite Hg1 by lia. do 3 f_equal. lia.
    + destruct (Hd d ltac:(lia)) as [H1 H2]. split.
      * rewrite Hg2 by (intros; lia). rewrite lookup_insert_ne by lia. done.
      * intros k Hk. rewrite Hg2 by (intros; lia). rewrite lookup_insert_ne by lia. by apply H2.
  - intros _ s' (g' & -> & Hg'). by exists g'.
Qed.

(** ** Reading an entry back *)

Lemma tbl_ent_addr q : 0 <= q < 2 ^ 40 -> Z.land (tbl_ent (4096 * q)) TBL_MASK = 4096 * q.
Proof.
  intros Hq. unfold tbl_ent, TBL_MASK. rewrite !Z.land_lor_distr_l, !Z.lor_assoc || rewrite !Z.land_lor_distr_l.
  rewrite <- shl12, <- Z.shiftl_land, Z.land_ones, Z.mod_small by lia.
  change (Z.land KPDPTE_RW (Z.shiftl (Z.ones 40) 12)) with 0. change (Z.land KPDPTE_P (Z.shiftl (Z.ones 40) 12)) with 0.
  by rewrite !Z.lor_0_r.
Qed.

Lemma pde_ent_addr q : 0 <= q < 2 ^ 31 -> Z.land (pde_ent (2 ^ 21 * q)) PG2M_MASK = 2 ^ 21 * q.
Proof.
  intros Hq. unfold pde_ent, PG2M_MASK. rewrite !Z.land_lor_distr_l.
  replace (2 ^ 21 * q) with (Z.shiftl q 21) by (rewrite Z.shiftl_mul_pow2; lia).
  rewrite <- (Z.shiftl_land q), Z.land_ones, Z.mod_small by lia. rewrite Z.land_0_l, Z.lor_0_l.
  change (Z.land KPDE_PS (Z.shiftl (Z.ones 31) 21)) with 0. change (Z.land KPDE_RW (Z.shiftl (Z.ones 31) 21)) with 0.
  change (Z.land KPDE_P (Z.shiftl (Z.ones 31) 21)) with 0. by rewrite !Z.lor_0_r.
Qed.

Lemma lor_bit_set x m : 0 < m -> Z.land (Z.lor x m) m <> 0.
Proof. intros Hm. rewrite Z.land_lor_distr_l, Z.land_diag, Z.lor_eq_0_iff. lia. Qed.

Lemma tbl_ent_present pd : Z.land (tbl_ent pd) ENT_P <> 0.
Proof. by apply lor_bit_set. Qed.

Lemma pde_ent_present adr : Z.land (pde_ent adr) ENT_P <> 0.
Proof. by apply lor_bit_set. Qed.

Lemma pde_ent_big adr : Z.land (pde_ent adr) ENT_PS <> 0.
Proof.
  unfold pde_ent. rewrite <- !Z.lor_assoc, (Z.lor_assoc adr), (Z.lor_comm adr), <- (Z.lor_assoc KPDE_PS), Z.lor_comm, <- Z.lor_assoc, Z.lor_comm.
  by apply lor_bit_set.
Qed.

(** ** The walk *)

Lemma entry_some g tbl idx e :
  g !! (tbl + 8 * Z.land idx 0x1ff) = Some e -> Z.land e ENT_P <> 0 -> entry g tbl idx = Some e.
Proof. intros H Hp. unfold entry. rewrite H. simpl. by replace (_ =? 0) with false by lia. Qed.

Lemma land_1ff x : Z.land x 0x1ff = x mod 512.
Proof. apply (Z.land_ones _ 9). lia. Qed.

(** The indices of the [j]-th 2 MiB page of the window. *)
Lemma window_index off : 0 <= off < 2 ^ 34 ->
  Z.land (Z.shiftr (base + off) 39) 0x1ff = 256 /\
  Z.land (Z.shiftr (base + off) 30) 0x1ff = off / 2 ^ 30 /\
  Z.land (Z.shiftr (base + off) 21) 0x1ff = (off / 2 ^ 21) mod 512 /\
  (base + off) mod 2 ^ 21 = off mod 2 ^ 21.
Proof.
  intros Ho. rewrite !land_1ff, !Z.shiftr_div_pow2 by lia. unfold base.
  split_and!.
  - rewrite <- (Z.div_unique (18446603336221196288 + off) (2 ^ 39) 33554176 off) by lia. reflexivity.
  - replace (18446603336221196288 + off) with (off + 17179738112 * 2 ^ 30) by lia. rewrite Z.div_add by lia.
    replace (off / 2 ^ 30 + 17179738112) with (off / 2 ^ 30 + 33554176 * 512) by lia. rewrite Z.mod_add by lia.
    apply Z.mod_small. split; [apply Z.div_pos; lia|]. apply Z.div_lt_upper_bound; lia.
  - replace (18446603336221196288 + off) with (off + 8796025913344 * 2 ^ 21) by lia. rewrite Z.div_add by lia.
    replace (off / 2 ^ 21 + 8796025913344) with (off / 2 ^ 21 + 17179738112 * 512) by lia. by rewrite Z.mod_add by lia.
  - replace (18446603336221196288 + off) with (off + 8796025913344 * 2 ^ 21) by lia. by rewrite Z.mod_add by lia.
Qed.

(** An address whose lower indices are those of [off], by way of entry [j] of the root *)
Lemma walk_index g T q off v j : T = 4096 * q -> 0 <= T <= 2 ^ 34 - 73728 ->
  g !! (T + 8 * j) = Some (tbl_ent (T + 4096)) -> (forall d, 0 <= d < 16 -> dir_done T d g) -> 0 <= off < 2 ^ 34 ->
  Z.land (Z.shiftr v 39) 0x1ff = j -> Z.land (Z.shiftr v 30) 0x1ff = off / 2 ^ 30 -> Z.land (Z.shiftr v 21) 0x1ff = (off / 2 ^ 21) mod 512 -> v mod 2 ^ 21 = off mod 2 ^ 21 ->
  walk g T v = Some off.
Proof.
  intros Hq HT H4 Hd Ho I4 I3 I2 Im. unfold walk.
  assert (Hi : 0 <= off / 2 ^ 30 < 16) by (split; [apply Z.div_pos; lia|apply Z.div_lt_upper_bound; lia]).
  pose proof (Z.mod_pos_bound (off / 2 ^ 21) 512 ltac:(lia)) as Hk. destruct (Hd _ Hi) as [H3 H2].
  rewrite (entry_some _ _ _ (tbl_ent (T + 4096))); [|by rewrite I4|apply tbl_ent_present]. simpl.
  replace (T + 4096) with (4096 * (q + 1)) in * by lia. rewrite tbl_ent_addr by lia.
  rewrite (entry_some _ _ _ (tbl_ent (T + 8192 + 4096 * (off / 2 ^ 30)))); [|by rewrite I3|apply tbl_ent_present]. simpl.
  replace (T + 8192 + 4096 * (off / 2 ^ 30)) with (4096 * (q + 2 + off / 2 ^ 30)) in * by lia. rewrite tbl_ent_addr by lia.
  rewrite (entry_some _ _ _ (pde_ent (2 ^ 30 * (off / 2 ^ 30) + 2 ^ 21 * ((off / 2 ^ 21) mod 512))));
    [|rewrite I2; by apply H2|apply pde_ent_present]. simpl.
  pose proof (pde_ent_big (2 ^ 30 * (off / 2 ^ 30) + 2 ^ 21 * ((off / 2 ^ 21) mod 512))) as Hb.
  replace (_ =? 0) with false by lia. rewrite Im. f_equal.
  replace (2 ^ 30 * (off / 2 ^ 30) + 2 ^ 21 * ((off / 2 ^ 21) mod 512)) with (2 ^ 21 * (off / 2 ^ 21)).
  - rewrite pde_ent_addr by (split; [apply Z.div_pos; lia|apply Z.div_lt_upper_bound; lia]).
    symmetry. apply Z.div_mod. lia.
  - replace (2 ^ 30) with (2 ^ 21 * 512) by lia. rewrite <- Z.div_div by lia.
    pose proof (Z.div_mod (off / 2 ^ 21) 512 ltac:(lia)). lia.
Qed.

Lemma walk_window g T q off : T = 4096 * q -> 0 <= T <= 2 ^ 34 - 73728 ->
  g !! (T + 8 * 256) = Some (tbl_ent (T + 4096)) -> (forall d, 0 <= d < 16 -> dir_done T d g) ->
  0 <= off < 2 ^ 34 -> walk g T (base + off) = Some off.
Proof. intros Hq HT H4 Hd Ho. destruct (window_index off Ho) as (I4 & I3 & I2 & Im). by eapply walk_index. Qed.

(** The same tables under entry 0 of the root *)
Lemma walk_low g T q off : T = 4096 * q -> 0 <= T <= 2 ^ 34 - 73728 ->
  g !! (T + 8 * 0) = Some (tbl_ent (T + 4096)) -> (forall d, 0 <= d < 16 -> dir_done T d g) ->
  0 <= off < 2 ^ 34 -> walk g T off = Some off.
Proof.
  intros Hq HT H4 Hd Ho. apply (walk_index g T q off off 0); [done|done|done|done|done| | | |done]; rewrite land_1ff, Z.shiftr_div_pow2 by lia.
  - by rewrite (Z.div_small off) by lia.
  - apply Z.mod_small. split; [apply Z.div_pos; lia|apply Z.div_lt_upper_bound; lia].
  - done.
Qed.

Lemma copy_pages_spec s q :
  let T := mb_nextwtpadr (kmachbsp s) in
  T = 4096 * q -> 0 <= T <= 2 ^ 34 - 73728 ->
  initchkadr_is_ok (kmachbsp s) T (mb_subpageslen (kmachbsp s)) = 0 ->
  wp copy_pages_data s (fun ok s' => ok = true /\ mb_pml4padr (kmachbsp s') = T /\
    mb_nextwtpadr (kmachbsp s') = T + 73728 /\ mb_kpmapphymemsz (kmachbsp s') = 2 ^ 34 /\
    pmarge s' = pmarge s /\ mm s' = mm s /\
    forall off, 0 <= off < 2 ^ 34 -> walk (pgwords s') T (base + off) = Some off).
Proof.
  intros T Hq HT Hchk. unfold copy_pages_data. apply wp_bind, wp_gets. fold T. rewrite Hchk. cbn [negb Z.eqb].
  unfold phyadr_to_viradr, KRNL_MAP_PHYADDRESS_END. apply wp_bind.
  replace (_ <=? T) with false by lia. apply wp_ret. cbv zeta.
  assert (HB : T + base < u64max - 2 ^ 46) by (unfold base; rewrite u64max_val; lia).
  rewrite (u64_small (T + base)) by (unfold base in *; lia).
  rewrite (u64_small (T + base + 0x1000)), (u64_small (T + base + 0x2000)) by (unfold base in *; lia).
  replace (T + base + 0x1000) with (T + 4096 + base) by lia. replace (T + base + 0x2000) with (T + 8192 + 4096 * 0 + base) by lia.
  apply wp_bind. eapply wp_mono; [apply clear_tables_spec; unfold PGENTY_SIZE; lia|]. intros ? s1 (g1 & -> & _).
  apply wp_bind. eapply wp_mono; [apply (fill_pdpte_spec T HT 16 0); lia|]. intros ? s2 (g2 & -> & Hg2).
  apply wp_bind. unfold viradr_to_phyadr, KRNL_MAP_VIRTADDRESS_END, KRNL_MAP_VIRTADDRESS_SIZE.
  replace (_ || _) with false by (unfold base; lia). apply wp_ret.
  replace (T + 4096 + base - base) with (T + 4096) by lia. rewrite (u64_small (T + 4096)) by (rewrite u64max_val; lia).
  change (Z.land (Z.shiftr base KPML4_SHIFT) 0x1ff) with 256.
  apply wp_bind. rewrite (wp_det _ _ _ _ _ (put_word_eq T 256 _ _ ltac:(lia) ltac:(lia) ltac:(lia))).
  apply wp_bind, wp_modify, wp_ret. simpl. split_and!; [done|done| |done|done|done|].
  - rewrite u64_small by (rewrite u64max_val; lia). rewrite page_align_up by (rewrite ?u64max_val; lia).
    rewrite Hq. replace (4096 * q + (4096 * 16 + 8192) + 4095) with (4095 + (q + 18) * 4096) by lia.
    rewrite Z.div_add by lia. change (4095 / 4096) with 0. lia.
  - intros off Ho. apply (walk_window _ T q); [done|done| | |done].
    + apply lookup_insert_eq.
    + intros d Hd. destruct (Hg2 d Hd) as [H1 H2]. split; [|intros k Hk]; rewrite lookup_insert_ne by lia; auto.
Qed.
