(* ===== verification/BootCorrect.v ===== *)
(** * Boot-time memory discovery: contract

    The correctness theorems of halplatform.c, halmm.c, msadsc.c and
    memmgrinit.c, each applied to a small machine. *)

From S2P Require Import Prelude PhyMem DivMerOps Marea Boot BootSpec BootPages.

(** ** A machine with three ranges, listed out of order *)

Definition demo_map : list e820map_t :=
  [E820 0x100000 0x7f800 RAM_USABLE; E820 0x9fc00 0x400 RAM_RESERV; E820 0 0x9f000 RAM_USABLE].

Definition demo_mb (nr : Z) : machbstart_t :=
  Machbstart 0x90000 0x1000 0x4000000 0x1000 0x2000000 0x10000 0x2100000 0 0 0x10000 nr (nr * 20) 0 0 0 0 0 0 0 0 0
    0x400000000 0 0.

Definition empty_mm : mmst := Mmst 0 0 0 0 0 ∅ ∅ ∅.
Definition demo_boot : bootst := Bootst (demo_mb 3) demo_map [] empty_mm ∅.

Lemma demo_map_firmware : firmware_map demo_map.
Proof.
  split.
  - repeat constructor; vm_compute; congruence.
  - intros i j e e' Hij Hi Hj. unfold apart.
    destruct i as [|[|[|i]]]; [injection Hi as <-..|done];
      (destruct j as [|[|[|j]]]; [injection Hj as <-..|done]); simpl; lia.
Qed.

Lemma demo_ready : loader_ready demo_boot demo_map 286.
Proof.
  unfold loader_ready. split_and!;
    [reflexivity|reflexivity|vm_compute; congruence|vm_compute; congruence|vm_compute; congruence|vm_compute; congruence
    |exact demo_map_firmware|reflexivity|vm_compute; reflexivity|lia|vm_compute; congruence|vm_compute; congruence
    |vm_compute; reflexivity|vm_compute; congruence|vm_compute; congruence|vm_compute; reflexivity].
Qed.

(** ** Theorems *)

(** The range array the kernel keeps is the firmware's ranges in ascending
    order of address: [phymmarge_sort] returns a sorted permutation. *)
Theorem ranges_sorted l :
  StronglySorted (fun a b => pmr_saddr a <= pmr_saddr b) (phymmarge_sort l) /\ Permutation (phymmarge_sort l) l.
Proof. apply Sort.sort_spec. Qed.

(** C6: memory discovery: from a firmware map, [init_phymmarge] and
    [init_msadsc] run without a halt, the two counts of page frames agree, and
    the descriptors [0 .. n-1] are, in ascending order and once each, exactly
    the frames inside usable ranges; no other descriptor is written. *)
Theorem memory_discovered s es n :
  loader_ready s es n ->
  wp (init_phymmarge ;; init_msadsc) s (fun _ s' =>
    mb_memmapnr (kmachbsp s') = n /\
    exists fs, n = Z.of_nat (length fs) /\ StronglySorted Z.lt fs /\ (forall f, f ∈ fs <-> usable_frame es f) /\
      forall j, msas (mm s') !! j = if (0 <=? j) && (j <? n) then frame_msa <$> fs !! Z.to_nat j else msas (mm s) !! j).
Proof. apply discovery_spec. Qed.

Lemma memory_discovered_witness :
  wp (init_phymmarge ;; init_msadsc) demo_boot (fun _ s' => mb_memmapnr (kmachbsp s') = 286).
Proof.
  eapply wp_mono; [apply (memory_discovered demo_boot demo_map 286); exact demo_ready|]. intros ? s' [H _]. exact H.
Defined.

(** Marking a segment [a .. e) the kernel occupies: when the descriptors
    from the first one for [a] are its unused frames, the routine returns their
    number, marks exactly them as kernel pages and touches nothing else; when
    no descriptor has the start address it returns 0 and changes nothing. *)
Theorem kernel_pages_reserved s msanr a e :
  0 <= a -> a < e -> e + 4096 < u64max ->
  (forall k, segment (msas s) k a (seg_pages a e) -> k < msanr ->
     wp (search_segment_occupymsadsc msanr a e) s (fun r s' => r = seg_pages a e /\ exists g, s' = with_msas g s /\
       forall i, g !! i = if (k <=? i) && (i <? k + seg_pages a e) then occupy <$> msas s !! i else msas s !! i)) /\
  ((forall j, 0 <= j < msanr -> exists m, msas s !! j = Some m /\ phyadr m <> a) ->
     search_segment_occupymsadsc msanr a e s = Ret (0, s)).
Proof.
  intros Ha Hae He. split.
  - intros k Hseg Hk. by apply search_segment_spec.
  - intros Hne. unfold search_segment_occupymsadsc, mbind, M_bind. rewrite find_frame_none; [done|].
    intros j Hj. apply Hne. lia.
Qed.

Definition seg_mm : mmst := with_msas (put_frames 0 [0; 1; 2; 3; 4] ∅) empty_mm.

Lemma kernel_pages_reserved_witness :
  wp (search_segment_occupymsadsc 5 0x1000 0x3800) seg_mm (fun r _ => r = 3).
Proof.
  destruct (kernel_pages_reserved seg_mm 5 0x1000 0x3800) as [H _]; [lia|lia|rewrite u64max_val; lia|].
  eapply wp_mono; [apply (H 1); [|lia]|].
  - split_and!; [lia| |].
    + intros j Hj. assert (j = 0) as -> by lia. exists (frame_msa 0). split; [reflexivity|discriminate].
    + change (seg_pages 0x1000 0x3800) with 3. intros j Hj.
      assert (j = 0 \/ j = 1 \/ j = 2) as [->|[->| ->]] by lia;
        [exists (frame_msa 1)|exists (frame_msa 2)|exists (frame_msa 3)]; split_and!; reflexivity.
  - intros r s' [-> _]. reflexivity.
Defined.

(** C28: the page tables of the kernel translate every address of its 16 GiB
    window to the physical address [viradr_to_phyadr] computes: the processor's
    walk of the words [copy_pages_data] wrote, from the table it recorded in
    [mb_pml4padr], yields the offset in the window. *)
Theorem kernel_map_walk s q :
  let T := mb_nextwtpadr (kmachbsp s) in
  T = 4096 * q -> 0 <= T <= 2 ^ 34 - 73728 ->
  initchkadr_is_ok (kmachbsp s) T (mb_subpageslen (kmachbsp s)) = 0 ->
  wp copy_pages_data s (fun ok s' => ok = true /\
    forall v, KRNL_MAP_VIRTADDRESS_START <= v < KRNL_MAP_VIRTADDRESS_END ->
      exists pa, viradr_to_phyadr v s' = Ret (pa, s') /\ walk (pgwords s') (mb_pml4padr (kmachbsp s')) v = Some pa).
Proof.
  intros T Hq HT Hchk. eapply wp_mono; [by apply (copy_pages_spec s q)|].
  intros ok s' (-> & -> & _ & _ & _ & _ & Hw). split; [done|]. intros v Hv. exists (v - base).
  unfold viradr_to_phyadr, KRNL_MAP_VIRTADDRESS_END, KRNL_MAP_VIRTADDRESS_SIZE, base in *. split.
  - replace (_ || _) with false by lia. rewrite u64_small by (rewrite u64max_val; lia). done.
  - rewrite <- (Hw (v - 18446603336221196288)) by lia. f_equal. lia.
Qed.

Lemma kernel_map_walk_witness :
  wp copy_pages_data demo_boot (fun ok s' => ok = true /\
    exists pa, viradr_to_phyadr 0xffff8000000b8000 s' = Ret (pa, s') /\
      walk (pgwords s') (mb_pml4padr (kmachbsp s')) 0xffff8000000b8000 = Some pa).
Proof.
  eapply wp_mono; [apply (kernel_map_walk demo_boot 0x2100)|].
  - reflexivity.
  - vm_compute. split; congruence.
  - vm_compute. reflexivity.
  - intros ok s' [H Hw]. split; [exact H|apply Hw; vm_compute; split; congruence].
Defined.

(** Addresses of the linear map: [phyadr_to_viradr] and
    [viradr_to_phyadr] are inverse on every physical address below 16 GiB, and
    the former halts on every other one. *)
Theorem linear_map_roundtrip (s : bootst) p :
  0 <= p < u64max ->
  if p <? KRNL_MAP_PHYADDRESS_END
  then (v ← phyadr_to_viradr p; viradr_to_phyadr v) s = Ret (p, s)
  else phyadr_to_viradr p s = Halt "phyadr_to_viradr err".
Proof.
  intros Hp. unfold phyadr_to_viradr, viradr_to_phyadr, KRNL_MAP_VIRTADDRESS_END, KRNL_MAP_VIRTADDRESS_SIZE,
    KRNL_MAP_VIRTADDRESS_START, KRNL_MAP_PHYADDRESS_END. rewrite u64max_val in Hp.
  destruct (p <? _) eqn:E; bool_to_prop.
  - replace (_ <=? p) with false by lia. unfold mbind, M_bind. cbn [mret M_ret].
    rewrite (u64_small (p + _)) by (rewrite u64max_val; lia). replace (_ || _) with false by lia.
    unfold mret, M_ret. do 2 f_equal. rewrite u64_small by (rewrite u64max_val; lia). lia.
  - by replace (_ <=? p) with true by lia.
Qed.

Lemma linear_map_roundtrip_witness :
  (v ← phyadr_to_viradr 0xb8000; viradr_to_phyadr v) demo_boot = Ret (0xb8000, demo_boot).
Proof. exact (linear_map_roundtrip demo_boot 0xb8000 ltac:(vm_compute; split; congruence)). Defined.

(** The overlap test of the boot allocator is exact for zones that do not
    wrap: it accepts two zones iff they share no address, both ends counted,
    so a zone that begins where another one ends is refused. *)
Theorem adrzone_exact sadr slen kadr klen :
  0 <= sadr -> 0 <= slen -> sadr + slen < u64max -> 0 <= kadr -> 0 <= klen -> kadr + klen < u64max ->
  adrzone_is_ok sadr slen kadr klen = 0 <->
  forall x, ~ (sadr <= x <= sadr + slen /\ kadr <= x <= kadr + klen).
Proof. apply adrzone_disjoint. Qed.

Lemma adrzone_exact_witness : adrzone_is_ok 0x1000 0x1000 0x3000 0x10 = 0.
Proof. apply adrzone_exact; [lia|lia|rewrite u64max_val; lia|lia|lia|rewrite u64max_val; lia|]. intros x. lia. Defined.

Lemma initchk_memmap mb a sz :
  initchkadr_is_ok mb a sz = 0 -> adrzone_is_ok (mb_memmappadr mb) (mb_memmapsz mb) a sz = 0.
Proof.
  unfold initchkadr_is_ok. intros H.
  repeat match type of H with (if negb ?b then _ else _) = _ => destruct b eqn:?; cbn [negb] in H; [|done] end.
  by apply Z.eqb_eq.
Qed.

(** When the number of page frames is a multiple of 512 the descriptor
    array ends on a page boundary, [mb_nextwtpadr] is that boundary, and the
    closed-interval overlap test makes [init_memarea] halt the machine. *)
Theorem memarea_halts_on_boundary s l n SZ_memarea_t :
  map_ready s l n -> n mod 512 = 0 -> mb_nextwtpadr (kmachbsp s) mod 4096 = 0 ->
  mb_nextwtpadr (kmachbsp s) + n * SZ_msadsc_t + 4096 < u64max ->
  (init_msadsc ;; init_memarea SZ_memarea_t) s = Halt "init_memarea_core fail".
Proof.
  intros Hr [q Hq]%Z.mod_divide [r Hr4]%Z.mod_divide Hw; [|lia|lia]. unfold mbind, M_bind.
  pose proof Hr as (_ & _ & _ & _ & _ & _ & _ & Hpos & Hnx & _).
  rewrite (init_msadsc_spec s l n Hr). unfold init_memarea, init_memarea_core, mbind, M_bind, gets. cbv zeta.
  unfold SZ_msadsc_t in *. rewrite u64max_val in Hw. set (a := mb_nextwtpadr (kmachbsp s)) in *.
  rewrite (u64_small (a + n * 40)) by (rewrite u64max_val; lia).
  rewrite page_align_up by (rewrite ?u64max_val; lia).
  replace (4096 * ((a + n * 40 + 4095) / 4096)) with (a + n * 40).
  2:{ rewrite Hr4, Hq. replace (r * 4096 + q * 512 * 40 + 4095) with (4095 + (r + 5 * q) * 4096) by lia.
      rewrite Z.div_add by lia. change (4095 / 4096) with 0. lia. }
  cbn [kmachbsp]. set (mb := set_memmap _ _ _ _ _).
  assert (Hc : initchkadr_is_ok mb (mb_nextwtpadr mb) (u64 (SZ_memarea_t * MEMAREA_MAX)) <> 0).
  { intros H%initchk_memmap. unfold mb, adrzone_is_ok in H. simpl in H.
    rewrite (u64_small (a + n * 40)) in H by (rewrite u64max_val; lia).
    replace (_ && _) with true in H by lia. done. }
  replace (negb _) with true by lia. done.
Qed.

Definition boundary_boot : bootst :=
  Bootst (set_e820ex 0x2100000 1 80 0x2101000 (demo_mb 1)) [] [range_of (E820 0x100000 0x200000 RAM_USABLE)] empty_mm ∅.

Lemma memarea_halts_on_boundary_witness :
  (init_msadsc ;; init_memarea 1000) boundary_boot = Halt "init_memarea_core fail".
Proof.
  apply (memarea_halts_on_boundary boundary_boot [range_of (E820 0x100000 0x200000 RAM_USABLE)] 512).
  - unfold map_ready. split_and!;
      [reflexivity|vm_compute; reflexivity|vm_compute; congruence|vm_compute; congruence|vm_compute; congruence|reflexivity
      | |vm_compute; congruence|lia|vm_compute; congruence|vm_compute; congruence|vm_compute; reflexivity].
    repeat constructor; vm_compute; congruence.
  - reflexivity.
  - reflexivity.
  - vm_compute. reflexivity.
Defined.

(** The counters of the memory manager after boot: every descriptor is
    counted, the allocated pages are exactly the descriptors marked as the
    kernel's, and free plus allocated pages make up all pages. *)
Theorem memmgrob_counted s :
  let mb := kmachbsp s in let n := mb_memmapnr mb in
  0 < mb_e820expadr mb < KRNL_MAP_PHYADDRESS_END -> mb_e820exnr mb <> 0 ->
  0 < mb_memmappadr mb < KRNL_MAP_PHYADDRESS_END -> 0 < n < 2 ^ 52 ->
  0 < mb_memznpadr mb < KRNL_MAP_PHYADDRESS_END -> mb_memznnr mb <> 0 ->
  (forall j, 0 <= j < n -> is_Some (msas (mm s) !! j)) ->
  wp init_memmgrob s (fun _ s' =>
    mo_msanr (mm s') = n /\ mo_maxpages (mm s') = n /\ mo_mareanr (mm s') = mb_memznnr mb /\
    mo_alocpages (mm s') = krnl_count (msas (mm s)) 0 n /\
    mo_freepages (mm s') + mo_alocpages (mm s') = mo_maxpages (mm s') /\ msas (mm s') = msas (mm s)).
Proof.
  intros mb n He Hen Hm Hn Hz Hzn Hex. unfold KRNL_MAP_PHYADDRESS_END in *.
  unfold init_memmgrob, phyadr_to_viradr, KRNL_MAP_PHYADDRESS_END. step. step. fold mb. step. step. step. step. step. step.
  step. replace (_ <=? mb_e820expadr _) with false by lia. step. step. replace (_ <=? mb_memmappadr _) with false by lia.
  step. step. replace (_ <=? mb_memznpadr _) with false by lia. step. step. unfold lift_mm, wp at 1, modify at 1.
  step. unfold wp at 1. rewrite count_krnl_spec by (simpl; intros; apply Hex; lia).
  rewrite Z2Nat.id by lia. simpl. fold n.
  pose proof (krnl_count_bound (msas (mm s)) 0 n ltac:(lia)) as Hle.
  split_and!; [done..| |done]. simpl. rewrite ?Z.add_0_l. rewrite u64_small; [lia|]. rewrite u64max_val. lia.
Qed.

Definition counted_boot : bootst :=
  Bootst (set_memzn 0x2103000 4 4000 0x2104000 (set_memmap 0x2102000 5 200 0x2103000
    (set_e820ex 0x2100000 3 240 0x2101000 (demo_mb 3)))) demo_map [] seg_mm ∅.

Lemma memmgrob_counted_witness : wp init_memmgrob counted_boot (fun _ s' => mo_maxpages (mm s') = 5).
Proof.
  eapply wp_mono; [apply (memmgrob_counted counted_boot)|]; try (vm_compute; repeat split; congruence).
  - intros j Hj. change (msas (mm counted_boot)) with (put_frames 0 [0; 1; 2; 3; 4] ∅). rewrite put_frames_lookup.
    simpl in Hj. replace (_ && _) with true by (simpl; lia). apply fmap_is_Some, lookup_lt_is_Some_2. simpl. lia.
  - intros ? s' (_ & H & _). exact H.
Defined.
