(* ===== verification/Mmu.v ===== *)
(** * Page tables of processes

    src/hal/x86/halmmu.c and include/halinc/halmmu.h: the four-level page tables
    of an address space.  The state is the page allocator (through its
    interface), the words of memory that hold page tables (by physical address),
    the [mmudsc_t] in use and the register CR3.

    The four levels (t, s, i, m) have copies of the same routines; a copy is here
    the common text at a level [lvl].  A table is its virtual address in the
    kernel's linear map, [NULL] is 0; the tests for a [NULL] [mmudsc_t] are left
    out, a descriptor is an index and a nullable one an [option]. *)

From S2P Require Import Prelude PhyMem Boot PageIf.

(** ** Data *)

Inductive lvl := LT | LS | LI | LM.

#[global] Instance lvl_eq_dec : EqDecision lvl.
Proof. solve_decision. Defined.
#[global] Instance lvl_countable : Countable lvl.
Proof.
  apply (inj_countable' (fun l => match l with LT => 0 | LS => 1 | LI => 2 | LM => 3 end)%nat
    (fun n => match n with 0 => LT | 1 => LS | 2 => LI | _ => LM end)%nat). by intros [].
Defined.

Record mmudsc_t := Mmudsc {
  mud_stus : Z;
  mud_flag : Z;
  mud_tdirearr : Z;
  mud_cr3 : Z;
  mud_tdirhead : list Z;
  mud_sdirhead : list Z;
  mud_idirhead : list Z;
  mud_mdirhead : list Z;
  mud_tdirmsanr : Z;
  mud_sdirmsanr : Z;
  mud_idirmsanr : Z;
  mud_mdirmsanr : Z
}.

Definition dirhead (l : lvl) (d : mmudsc_t) : list Z :=
  match l with LT => mud_tdirhead d | LS => mud_sdirhead d | LI => mud_idirhead d | LM => mud_mdirhead d end.
Definition dirmsanr (l : lvl) (d : mmudsc_t) : Z :=
  match l with LT => mud_tdirmsanr d | LS => mud_sdirmsanr d | LI => mud_idirmsanr d | LM => mud_mdirmsanr d end.

Definition map_dirhead (f : lvl -> list Z -> list Z) (d : mmudsc_t) : mmudsc_t :=
  Mmudsc (mud_stus d) (mud_flag d) (mud_tdirearr d) (mud_cr3 d)
    (f LT (mud_tdirhead d)) (f LS (mud_sdirhead d)) (f LI (mud_idirhead d)) (f LM (mud_mdirhead d))
    (mud_tdirmsanr d) (mud_sdirmsanr d) (mud_idirmsanr d) (mud_mdirmsanr d).
Definition map_dirmsanr (f : lvl -> Z -> Z) (d : mmudsc_t) : mmudsc_t :=
  Mmudsc (mud_stus d) (mud_flag d) (mud_tdirearr d) (mud_cr3 d)
    (mud_tdirhead d) (mud_sdirhead d) (mud_idirhead d) (mud_mdirhead d)
    (f LT (mud_tdirmsanr d)) (f LS (mud_sdirmsanr d)) (f LI (mud_idirmsanr d)) (f LM (mud_mdirmsanr d)).
Definition set_tdirearr (v : Z) (d : mmudsc_t) : mmudsc_t :=
  Mmudsc (mud_stus d) (mud_flag d) v (mud_cr3 d) (mud_tdirhead d) (mud_sdirhead d) (mud_idirhead d) (mud_mdirhead d)
    (mud_tdirmsanr d) (mud_sdirmsanr d) (mud_idirmsanr d) (mud_mdirmsanr d).
Definition set_mud_cr3 (v : Z) (d : mmudsc_t) : mmudsc_t :=
  Mmudsc (mud_stus d) (mud_flag d) (mud_tdirearr d) v (mud_tdirhead d) (mud_sdirhead d) (mud_idirhead d) (mud_mdirhead d)
    (mud_tdirmsanr d) (mud_sdirmsanr d) (mud_idirmsanr d) (mud_mdirmsanr d).

Definition mmudsc_t_init : mmudsc_t := Mmudsc 0 0 0 0 [] [] [] [] 0 0 0 0.

(** [m_pml4] is [kmachbsp.mb_pml4padr], [m_cr3] the register. *)
Record mst (S : Type) := Mst { m_pa : S; m_words : gmap Z Z; m_mmu : mmudsc_t; m_cr3 : Z; m_pml4 : Z }.
Arguments Mst {S} m_pa m_words m_mmu m_cr3 m_pml4.
Arguments m_pa {S} m.
Arguments m_words {S} m.
Arguments m_mmu {S} m.
Arguments m_cr3 {S} m.
Arguments m_pml4 {S} m.

(** ** Entries and indices *)

Definition DIRE_IV_BITMASK : Z := 0x1ff.
Definition DIRE_MAX : nat := 512.

Definition iv_rshtbit (l : lvl) : Z := match l with LT => 39 | LS => 30 | LI => 21 | LM => 12 end.
Definition dire_index (l : lvl) (vadrs : Z) : Z := Z.land (Z.shiftr vadrs (iv_rshtbit l)) DIRE_IV_BITMASK.
Definition mmu_tdire_index := dire_index LT.
Definition mmu_sdire_index := dire_index LS.
Definition mmu_idire_index := dire_index LI.
Definition mmu_mdire_index := dire_index LM.

(** The 40-bit field [t_sdir], [s_idir], [i_mdir] or [m_msa] of an entry. *)
Definition dire_field (e : Z) : Z := Z.land (Z.shiftr e 12) (Z.ones 40).
Definition dire_is_have (e : Z) : bool := 0 <? dire_field e.
(** The shift at the width of the field's declared type [u64_t].  gcc gives the expression
    the 40 bits of the field: the two agree for addresses below 2^40 ([padr_40_bits]). *)
Definition dire_ret_padr (e : Z) : Z := dire_field e <<u 12.

Definition sdire_is_have := dire_is_have.
Definition idire_is_have := dire_is_have.
Definition mdire_is_have := dire_is_have.
Definition mmumsa_is_have := dire_is_have.
Definition sdire_ret_padr := dire_ret_padr.
Definition idire_ret_padr := dire_ret_padr.
Definition mdire_ret_padr := dire_ret_padr.
Definition mmumsa_ret_padr := dire_ret_padr.

Section mmu.
Context {S : Type} `{PageOps S}.
Abbreviation KM A := (M (mst S) A).

Definition sdire_ret_vadr (e : Z) : KM Z := phyadr_to_viradr (sdire_ret_padr e).
Definition idire_ret_vadr (e : Z) : KM Z := phyadr_to_viradr (idire_ret_padr e).
Definition mdire_ret_vadr (e : Z) : KM Z := phyadr_to_viradr (mdire_ret_padr e).
Definition tdire_ret_sdirearr (e : Z) : KM Z := sdire_ret_vadr e.
Definition sdire_ret_idirearr (e : Z) : KM Z := idire_ret_vadr e.
Definition idire_ret_mdirearr (e : Z) : KM Z := mdire_ret_vadr e.

(** ** Accesses *)

Definition on_pa {A} (m : M S A) : KM A := fun s =>
  match m (m_pa s) with
  | Ret (a, pa) => Ret (a, Mst pa (m_words s) (m_mmu s) (m_cr3 s) (m_pml4 s))
  | Halt e => Halt e
  | Fault => Fault
  | NoFuel => NoFuel
  end.

(** The word [i] of the table at the virtual address [p]. *)
Definition ent_adr (p i : Z) : Z := p +u 8 * i -u KRNL_MAP_VIRTADDRESS_START.
Definition get_ent (p i : Z) : KM Z := fun s =>
  match m_words s !! ent_adr p i with Some e => Ret (e, s) | None => Fault end.
Definition put_ent (p i e : Z) : KM unit :=
  modify (fun s => Mst (m_pa s) (<[ent_adr p i := e]> (m_words s)) (m_mmu s) (m_cr3 s) (m_pml4 s)).
Definition upd_mmu (f : mmudsc_t -> mmudsc_t) : KM unit :=
  modify (fun s => Mst (m_pa s) (m_words s) (f (m_mmu s)) (m_cr3 s) (m_pml4 s)).
Definition read_cr3 : KM Z := gets m_cr3.
Definition write_cr3 (c : Z) : KM unit := modify (fun s => Mst (m_pa s) (m_words s) (m_mmu s) c (m_pml4 s)).

Definition msadsc_ret_vaddr (msa : Z) : KM Z := p ← on_pa (pg_addr msa); phyadr_to_viradr p.

(** [hal_memset(p, 0, 4096)] and [hal_memcpy(src, dst, 4096)], word by word. *)
Fixpoint clear_ents (n : nat) (p i : Z) : KM unit :=
  match n with O => mret tt | Datatypes.S n' => put_ent p i 0 ;; clear_ents n' p (i + 1) end.
Fixpoint copy_ents (n : nat) (src dst i : Z) : KM unit :=
  match n with
  | O => mret tt
  | Datatypes.S n' => e ← get_ent src i; put_ent dst i e ;; copy_ents n' src dst (i + 1)
  end.

Definition direarr_t_init (p : Z) : KM unit := if p =? 0 then mret tt else clear_ents DIRE_MAX p 0.
Definition tdirearr_t_init := direarr_t_init.
Definition sdirearr_t_init := direarr_t_init.
Definition idirearr_t_init := direarr_t_init.
Definition mdirearr_t_init := direarr_t_init.

(** [for (i = 0; i < 512; i++) if (0 != arr[i]) return FALSE; return TRUE;] *)
Fixpoint allzero_loop (n : nat) (p i : Z) : KM bool :=
  match n with
  | O => mret true
  | Datatypes.S n' => e ← get_ent p i; if negb (0 =? e) then mret false else allzero_loop n' p (i + 1)
  end.
Definition direarr_is_allzero (p : Z) : KM bool := allzero_loop DIRE_MAX p 0.
Definition sdirearr_is_allzero := direarr_is_allzero.
Definition idirearr_is_allzero := direarr_is_allzero.
Definition mdirearr_is_allzero := direarr_is_allzero.

(** [list_add(&msa->md_list, &mmu->mud_?dirhead)], [list_del(&msa->md_list)]
    from the list of table pages it is in, [mud_?dirmsanr++] and [--]. *)
Definition dir_link (l : lvl) (msa : Z) : KM unit :=
  upd_mmu (map_dirhead (fun k x => if decide (k = l) then msa :: x else x)).
Definition dir_unlink (msa : Z) : KM unit := upd_mmu (map_dirhead (fun _ => filter (fun j => j <> msa))).
Definition dir_count (l : lvl) (n : Z) : KM unit := upd_mmu (map_dirmsanr (fun k x => if decide (k = l) then x +u n else x)).

(** ** Table pages *)

Definition mmu_new_direarr (l : lvl) : KM (option Z) :=
  r ← on_pa (pg_division 1);
  match r.1 with
  | None => mret None
  | Some msa =>
      direarr ← msadsc_ret_vaddr msa;
      direarr_t_init direarr ;;
      dir_link l msa ;;
      dir_count l 1 ;;
      mret (Some msa)
  end.
Definition mmu_new_sdirearr := mmu_new_direarr LS.
Definition mmu_new_idirearr := mmu_new_direarr LI.
Definition mmu_new_mdirearr := mmu_new_direarr LM.

Definition mmu_new_tdirearr : KM (option Z) :=
  r ← on_pa (pg_division 1);
  match r.1 with
  | None => mret None
  | Some msa =>
      tdirearr ← msadsc_ret_vaddr msa;
      tdirearr_t_init tdirearr ;;
      dir_link LT msa ;;
      dir_count LT 1 ;;
      upd_mmu (set_tdirearr tdirearr) ;;
      mret (Some msa)
  end.

(** [list_del(&msa->md_list); if (mm_merge_pages(...) == FALSE) system_error(...);
    mud_?dirmsanr--; return TRUE;] *)
Definition del_dirpage (l : lvl) (msa : Z) : KM bool :=
  dir_unlink msa ;;
  n ← on_pa (pg_fpagenr msa);
  ok ← on_pa (pg_merge msa n);
  die_if (negb ok) "mmu_del_tdirearr err" ;;
  dir_count l (-1) ;;
  mret true.

Definition mmu_del_direarr (l : lvl) (direarr : Z) (msa : option Z) : KM bool :=
  if direarr =? 0 then mret false else
  tblphyadr ← viradr_to_phyadr direarr;
  hit ← match msa with Some m => a ← on_pa (pg_addr m); mret (if a =? tblphyadr then Some m else None) | None => mret None end;
  match hit with
  | Some m => del_dirpage l m
  | None =>
      d ← gets m_mmu;
      r ← find_first (dirhead l d) (fun tmpmsa =>
            a ← on_pa (pg_addr tmpmsa); mret (if a =? tblphyadr then Some tmpmsa else None));
      match r with Some tmpmsa => del_dirpage l tmpmsa | None => mret false end
  end.
Definition mmu_del_tdirearr := mmu_del_direarr LT.
Definition mmu_del_sdirearr := mmu_del_direarr LS.
Definition mmu_del_idirearr := mmu_del_direarr LI.
Definition mmu_del_mdirearr := mmu_del_direarr LM.

(** ** Mapping and unmapping, level by level *)

Definition mmu_untransform_msa (mdirearr vadrs : Z) : KM Z :=
  if mdirearr =? 0 then mret 0 else
  let mindex := mmu_mdire_index vadrs in
  mdire ← get_ent mdirearr mindex;
  if negb (mmumsa_is_have mdire) then mret 0 else
  put_ent mdirearr mindex 0 ;;
  mret (mmumsa_ret_padr mdire).

Definition mmu_transform_msa (mdirearr vadrs padrs flags : Z) : KM bool :=
  if mdirearr =? 0 then mret false else
  put_ent mdirearr (mmu_mdire_index vadrs) (Z.lor padrs flags) ;;
  mret true.

(** The table of level [l'] below an entry of a table of level [l]. *)
Definition mmu_untransform_dire (l l' : lvl) (direarr : Z) (msa : option Z) (vadrs : Z) : KM bool :=
  if direarr =? 0 then mret false else
  let index := dire_index l vadrs in
  dire ← get_ent direarr index;
  if negb (dire_is_have dire) then mret true else
  sub ← phyadr_to_viradr (dire_ret_padr dire);
  z ← direarr_is_allzero sub;
  if negb z then mret true else
  ok ← mmu_del_direarr l' sub msa;
  if negb ok then mret false else
  put_ent direarr index 0 ;;
  mret true.
Definition mmu_untransform_sdire := mmu_untransform_dire LT LS.
Definition mmu_untransform_idire := mmu_untransform_dire LS LI.
Definition mmu_untransform_mdire := mmu_untransform_dire LI LM.

(** The result is the table and [*outmsa]. *)
Definition mmu_transform_dire (l l' : lvl) (direarr vadrs flags : Z) : KM (Z * option Z) :=
  if direarr =? 0 then mret (0, None) else
  let index := dire_index l vadrs in
  dire ← get_ent direarr index;
  if dire_is_have dire then
    sub ← phyadr_to_viradr (dire_ret_padr dire); mret (sub, None)
  else
  r ← mmu_new_direarr l';
  match r with
  | None => mret (0, None)
  | Some msa =>
      adr ← on_pa (pg_addr msa);
      sub ← phyadr_to_viradr adr;
      put_ent direarr index (Z.lor adr flags) ;;
      mret (sub, Some msa)
  end.
Definition mmu_transform_sdire := mmu_transform_dire LT LS.
Definition mmu_transform_idire := mmu_transform_dire LS LI.
Definition mmu_transform_mdire := mmu_transform_dire LI LM.

(** Reload CR3: the processor forgets its cached translations. *)
Definition hal_mmu_refresh : KM unit := c ← read_cr3; write_cr3 c.

Definition hal_mmu_transform_core (vadrs padrs flags : Z) : KM bool :=
  d ← gets m_mmu;
  let tdirearr := mud_tdirearr d in
  if tdirearr =? 0 then mret false else
  '(sdirearr, smsa) ← mmu_transform_sdire tdirearr vadrs flags;
  if sdirearr =? 0 then
    mmu_untransform_sdire tdirearr smsa vadrs ;; mret false
  else
  '(idirearr, imsa) ← mmu_transform_idire sdirearr vadrs flags;
  if idirearr =? 0 then
    mmu_untransform_idire sdirearr imsa vadrs ;;
    mmu_untransform_sdire tdirearr smsa vadrs ;; mret false
  else
  '(mdirearr, mmsa) ← mmu_transform_mdire idirearr vadrs flags;
  if mdirearr =? 0 then
    mmu_untransform_mdire idirearr mmsa vadrs ;;
    mmu_untransform_idire sdirearr imsa vadrs ;;
    mmu_untransform_sdire tdirearr smsa vadrs ;; mret false
  else
  rets ← mmu_transform_msa mdirearr vadrs padrs flags;
  if Bool.eqb rets true then hal_mmu_refresh ;; mret true else
  mmu_untransform_msa mdirearr vadrs ;;
  mmu_untransform_mdire idirearr mmsa vadrs ;;
  mmu_untransform_idire sdirearr imsa vadrs ;;
  mmu_untransform_sdire tdirearr smsa vadrs ;; mret false.

Definition hal_mmu_transform (vadrs padrs flags : Z) : KM bool := hal_mmu_transform_core vadrs padrs flags.

(** ** Looking up *)

Definition mmu_find_msaadr (mdirearr vadrs : Z) : KM Z :=
  if mdirearr =? 0 then mret 0 else
  dire ← get_ent mdirearr (mmu_mdire_index vadrs);
  mret (if mmumsa_is_have dire then mmumsa_ret_padr dire else 0).

Definition mmu_find_direarr (l : lvl) (direarr vadrs : Z) : KM Z :=
  if direarr =? 0 then mret 0 else
  dire ← get_ent direarr (dire_index l vadrs);
  if negb (dire_is_have dire) then mret 0 else phyadr_to_viradr (dire_ret_padr dire).
Definition mmu_find_sdirearr := mmu_find_direarr LT.
Definition mmu_find_idirearr := mmu_find_direarr LS.
Definition mmu_find_mdirearr := mmu_find_direarr LI.

Definition hal_mmu_untransform_core (vadrs : Z) : KM Z :=
  d ← gets m_mmu;
  let tdirearr := mud_tdirearr d in
  sdirearr ← mmu_find_sdirearr tdirearr vadrs;
  if sdirearr =? 0 then hal_mmu_refresh ;; mret 0 else
  idirearr ← mmu_find_idirearr sdirearr vadrs;
  if idirearr =? 0 then
    mmu_untransform_sdire tdirearr None vadrs ;; hal_mmu_refresh ;; mret 0
  else
  mdirearr ← mmu_find_mdirearr idirearr vadrs;
  if mdirearr =? 0 then
    mmu_untransform_idire sdirearr None vadrs ;;
    mmu_untransform_sdire tdirearr None vadrs ;; hal_mmu_refresh ;; mret 0
  else
  retadr ← mmu_untransform_msa mdirearr vadrs;
  mmu_untransform_mdire idirearr None vadrs ;;
  mmu_untransform_idire sdirearr None vadrs ;;
  mmu_untransform_sdire tdirearr None vadrs ;;
  hal_mmu_refresh ;;
  mret retadr.

Definition hal_mmu_untransform (vadrs : Z) : KM Z := hal_mmu_untransform_core vadrs.

(** ** Loading, creating and destroying an address space *)

Definition hal_mmu_load : KM unit :=
  d ← gets m_mmu;
  if (mud_tdirearr d =? 0) || negb (Z.land (mud_tdirearr d) 0xfff =? 0) then mret tt else
  c ← viradr_to_phyadr (mud_tdirearr d);
  upd_mmu (set_mud_cr3 c) ;;
  write_cr3 c.

Definition hal_mmu_init : KM bool :=
  r ← mmu_new_tdirearr;
  match r with
  | None => mret false
  | Some _ =>
      pml4 ← gets m_pml4;
      vcr3 ← phyadr_to_viradr pml4;
      d ← gets m_mmu;
      copy_ents DIRE_MAX vcr3 (mud_tdirearr d) 0 ;;
      c ← viradr_to_phyadr (mud_tdirearr d);
      upd_mmu (set_mud_cr3 c) ;;
      put_ent (mud_tdirearr d) 0 0 ;;
      mret true
  end.

(** [list_for_each_head_dell]: every round takes the first page off the list. *)
Fixpoint clean_direarr_loop (fuel : nat) (l : lvl) : KM bool :=
  d ← gets m_mmu;
  match dirhead l d with
  | [] => mret true
  | msa :: _ =>
      match fuel with
      | O => nofuel
      | Datatypes.S fuel' =>
          dir_unlink msa ;;
          n ← on_pa (pg_fpagenr msa);
          ok ← on_pa (pg_merge msa n);
          die_if (negb ok) "mmu_clean_direarrmsas" ;;
          dir_count l (-1) ;;
          clean_direarr_loop fuel' l
      end
  end.
Definition mmu_clean_direarrmsas (l : lvl) : KM bool := d ← gets m_mmu; clean_direarr_loop (length (dirhead l d)) l.
Definition mmu_clean_tdirearrmsas := mmu_clean_direarrmsas LT.
Definition mmu_clean_sdirearrmsas := mmu_clean_direarrmsas LS.
Definition mmu_clean_idirearrmsas := mmu_clean_direarrmsas LI.
Definition mmu_clean_mdirearrmsas := mmu_clean_direarrmsas LM.

Definition hal_mmu_clean : KM bool :=
  cr3 ← read_cr3;
  let pcr3 := dire_field cr3 <<u 12 in
  vcr3 ← phyadr_to_viradr pcr3;
  d ← gets m_mmu;
  if vcr3 =? mud_tdirearr d then mret false else
  ok ← mmu_clean_mdirearrmsas; if negb ok then mret false else
  ok ← mmu_clean_idirearrmsas; if negb ok then mret false else
  ok ← mmu_clean_sdirearrmsas; if negb ok then mret false else
  ok ← mmu_clean_tdirearrmsas; if negb ok then mret false else
  mret true.

End mmu.
