(* ===== verification/MmuInv.v ===== *)
(** * Page tables: representation

    The processor's walk of the tables, the ghost view of an address space (its
    table pages [Tab] and the non-zero entries [E], by level and address prefix)
    and the invariant that ties the view to the words of memory, to the lists of
    the [mmudsc_t] and to the page allocator. *)

From S2P Require Import Prelude PhyMem Boot BootSpec BootPages PageIf Mmu.

(** ** The processor's walk, for pages of 4 KiB, 2 MiB and 1 GiB *)

Definition PG1G_MASK : Z := Z.shiftl (Z.ones 22) 30.

Definition hw_walk (g : gmap Z Z) (cr3 v : Z) : option Z :=
  e4 ← entry g cr3 (Z.shiftr v 39);
  e3 ← entry g (Z.land e4 TBL_MASK) (Z.shiftr v 30);
  if negb (Z.land e3 ENT_PS =? 0) then Some (Z.land e3 PG1G_MASK + v mod 2 ^ 30) else
  e2 ← entry g (Z.land e3 TBL_MASK) (Z.shiftr v 21);
  if negb (Z.land e2 ENT_PS =? 0) then Some (Z.land e2 PG2M_MASK + v mod 2 ^ 21) else
  e1 ← entry g (Z.land e2 TBL_MASK) (Z.shiftr v 12);
  Some (Z.land e1 TBL_MASK + v mod 2 ^ 12).

(** ** Addresses, keys and entries *)

(** An address of the user half. *)
Definition uaddr (v : Z) : Prop := 0 <= v < 2 ^ 47.

(** The level of the tables that the entries of level [l] point to. *)
Definition child (l : lvl) : option lvl := match l with LT => Some LS | LS => Some LI | LI => Some LM | LM => None end.

(** The entry of level [l] that translates [v], and the table it is in. *)
Definition key (l : lvl) (v : Z) : Z := v / 2 ^ iv_rshtbit l.
Definition tkey (l : lvl) (v : Z) : Z := key l v / 512.

Lemma iv_pos l : 0 <= iv_rshtbit l.
Proof. by destruct l. Qed.

Lemma dire_index_mod l v : dire_index l v = key l v mod 512.
Proof.
  unfold dire_index, key, DIRE_IV_BITMASK. rewrite Z.shiftr_div_pow2 by apply iv_pos. apply (Z.land_ones _ 9). lia.
Qed.

Lemma dire_index_range l v : 0 <= dire_index l v < 512.
Proof. rewrite dire_index_mod. apply Z.mod_pos_bound. lia. Qed.

Lemma key_split l v : key l v = 512 * tkey l v + dire_index l v.
Proof. rewrite dire_index_mod. unfold tkey. apply Z.div_mod. lia. Qed.

Lemma tkey_child l l' v : child l = Some l' -> tkey l' v = key l v.
Proof.
  intros Hc. unfold tkey, key. destruct l; cbn in Hc; try done; injection Hc as <-; cbn [iv_rshtbit]; by rewrite Z.div_div by lia.
Qed.

Lemma tkey_top v : uaddr v -> tkey LT v = 0 /\ 0 <= key LT v < 256.
Proof. unfold uaddr, tkey, key. cbn [iv_rshtbit]. intros Hv. split; [|split; [apply Z.div_pos; lia|apply Z.div_lt_upper_bound; lia]].
  rewrite Z.div_div by lia. apply Z.div_small. lia. Qed.

Lemma top_index v : uaddr v -> dire_index LT v = key LT v.
Proof. intros Hv. pose proof (key_split LT v). destruct (tkey_top v Hv) as [? _]. lia. Qed.

(** Flags an entry may carry: those of the processor below bit 12, present, and
    not the large-page bit. *)
Definition flags_ok (f : Z) : Prop := 0 <= f < 4096 /\ Z.land f ENT_P <> 0 /\ Z.land f ENT_PS = 0.

(** A page address that fits an entry. *)
Definition page_adr (p : Z) : Prop := p mod 4096 = 0 /\ 0 < p < 2 ^ 52.

Definition dir_entry (e : Z) : Prop := Z.land e ENT_P <> 0 /\ Z.land e ENT_PS = 0.

Lemma lor_page p f : p mod 4096 = 0 -> 0 <= f < 4096 -> Z.lor p f = p + f.
Proof.
  intros Hp Hf. assert (Hd : Z.land p f = 0).
  { apply Z.bits_inj'. intros n Hn. rewrite Z.land_spec, Z.bits_0. destruct (decide (n < 12)).
    - rewrite (Z.mod_divide p 4096) in Hp by lia. destruct Hp as [q ->]. change 4096 with (2 ^ 12).
      by rewrite Z.mul_pow2_bits_low by lia.
    - rewrite <- (Z.mod_small f (2 ^ 12)), Z.mod_pow2_bits_high by lia. by rewrite andb_false_r. }
  rewrite <- Z.add_lor_land, Hd. lia.
Qed.

Section entry.
Context (p f : Z) (Hp : page_adr p) (Hf : 0 <= f < 4096).

Lemma ent_field : dire_field (Z.lor p f) = p / 4096.
Proof using Hp Hf.
  destruct Hp as [Hm Hb]. unfold dire_field. rewrite lor_page, Z.shiftr_div_pow2, Z.land_ones by (done || lia).
  change (2 ^ 12) with 4096. rewrite (Z.div_mod p 4096) at 1 by lia. rewrite Hm, Z.add_0_r, Z.mul_comm, Z.div_add_l by lia.
  rewrite (Z.div_small f) by lia. rewrite Z.add_0_r. apply Z.mod_small. split; [apply Z.div_pos; lia|apply Z.div_lt_upper_bound; lia].
Qed.

Lemma ent_padr : dire_ret_padr (Z.lor p f) = p.
Proof using Hp Hf.
  unfold dire_ret_padr. rewrite ent_field. destruct Hp as [Hm Hb]. rewrite Z.shiftl_mul_pow2 by lia. change (2 ^ 12) with 4096.
  rewrite Z.mul_comm. pose proof (Z.div_mod p 4096 ltac:(lia)) as E. rewrite Hm, Z.add_0_r in E. rewrite <- E. apply u64_small.
  rewrite u64max_val. lia.
Qed.

Lemma ent_have : dire_is_have (Z.lor p f) = true.
Proof using Hp Hf.
  unfold dire_is_have. rewrite ent_field. destruct Hp as [Hm Hb]. pose proof (Z.div_mod p 4096 ltac:(lia)). lia.
Qed.

Lemma ent_bit m : 0 <= m < 4096 -> Z.land (Z.lor p f) m = Z.land f m.
Proof using Hp Hf.
  intros Hm. rewrite Z.land_lor_distr_l. destruct Hp as [Hpm _].
  pose proof (lor_page p m Hpm Hm) as E. rewrite <- Z.add_lor_land in E.
  replace (Z.land p m) with 0 by lia. done.
Qed.
End entry.

Lemma dir_entry_flags p f : page_adr p -> flags_ok f -> dir_entry (Z.lor p f).
Proof. intros Hp (Hf & H1 & H2). unfold dir_entry. by rewrite !ent_bit by (done || (unfold ENT_P, ENT_PS; lia)). Qed.

(** The address field as the processor masks it. *)
Lemma padr_mask e : 0 <= e -> dire_ret_padr e = Z.land e TBL_MASK.
Proof.
  intros He. unfold dire_ret_padr, dire_field, TBL_MASK. rewrite u64_small.
  - apply Z.bits_inj'. intros n Hn. rewrite Z.land_spec, !Z.shiftl_spec, Z.land_spec by lia.
    destruct (decide (n < 12)).
    + rewrite !(Z.testbit_neg_r _ (n - 12)) by lia. by rewrite !andb_false_r.
    + rewrite Z.shiftr_spec by lia. by replace (n - 12 + 12) with n by lia.
  - rewrite Z.land_ones, Z.shiftl_mul_pow2 by lia. pose proof (Z.mod_pos_bound (Z.shiftr e 12) (2 ^ 40) ltac:(lia)). rewrite u64max_val. lia.
Qed.

(** A compiler that shifts the 40-bit field at its own width gives the same address for
    entries of memory below 2^40. *)
Lemma padr_40_bits e : dire_field e < 2 ^ 28 -> Z.shiftl (dire_field e) 12 mod 2 ^ 40 = dire_ret_padr e.
Proof.
  intros Hf. assert (0 <= dire_field e) by (unfold dire_field; rewrite Z.land_ones by lia; apply Z.mod_pos_bound; lia). unfold dire_ret_padr.
  rewrite Z.shiftl_mul_pow2, u64_small by (rewrite ?u64max_val; lia). apply Z.mod_small. lia.
Qed.

Lemma padr_page e : dire_is_have e = true -> page_adr (dire_ret_padr e).
Proof.
  unfold dire_is_have, dire_ret_padr, page_adr. intros H. assert (Hb : dire_field e < 2 ^ 40).
  { unfold dire_field. rewrite Z.land_ones by lia. apply Z.mod_pos_bound. lia. }
  rewrite Z.shiftl_mul_pow2, u64_small by (rewrite ?u64max_val; lia). change (2 ^ 12) with 4096. split; [by apply Z.mod_mul|lia].
Qed.

Lemma have_nonzero e : dire_is_have e = true -> e <> 0.
Proof. by intros H ->. Qed.

(** ** The invariant *)

Abbreviation tables := (gmap (lvl * Z) (Z * Z)).
Abbreviation entries := (gmap (lvl * Z) Z).

(** No entry of the table of key [k] at level [l]. *)
Definition tempty (E : entries) (l : lvl) (k : Z) : Prop := forall x, 0 <= x < 512 -> E !! (l, 512 * k + x) = None.

(** The blocks held are the table pages and the blocks [O] of others. *)
Definition split_blocks (A O : blocks) (Tab : tables) : Prop :=
  (forall j b, A !! j = Some b <-> O !! j = Some b \/ exists a, Tab !! a = Some (j, b.1) /\ b.2 = 1) /\
  (forall j b a p, O !! j = Some b -> Tab !! a <> Some (j, p)).

Section inv.
Context {S : Type} `{PageAlloc S}.
Implicit Types (s : mst S) (Tab : tables) (E : entries) (X : option (lvl * Z)).

(** [X] is a table that may be empty although it is not the root. *)
Record MInv X s (P : Z -> Prop) (O : blocks) Tab E : Prop := {
  mi_held : exists A, pg_held (m_pa s) P A /\ split_blocks A O Tab;
  mi_root : exists i R, Tab !! (LT, 0) = Some (i, R) /\ mud_tdirearr (m_mmu s) = R + base;
  mi_top k t : Tab !! (LT, k) = Some t -> k = 0;
  mi_krnl a i p : Tab !! a = Some (i, p) -> krnl_block (p, 1);
  mi_inj a b i p q : Tab !! a = Some (i, p) -> Tab !! b = Some (i, q) -> a = b;
  mi_word l k i p x : Tab !! (l, k) = Some (i, p) -> 0 <= x < 512 -> (l = LT -> x < 256) ->
    m_words s !! (p + 8 * x) = Some (default 0 (E !! (l, 512 * k + x)));
  mi_kern i p x : Tab !! (LT, 0) = Some (i, p) -> 256 <= x < 512 -> is_Some (m_words s !! (p + 8 * x));
  mi_dir l l' k e : child l = Some l' -> E !! (l, k) = Some e ->
    dir_entry e /\ exists i, Tab !! (l', k) = Some (i, dire_ret_padr e);
  mi_tab l l' k t : child l = Some l' -> Tab !! (l', k) = Some t -> is_Some (E !! (l, k));
  mi_par l k e : E !! (l, k) = Some e -> is_Some (Tab !! (l, k / 512)) /\ (l = LT -> 0 <= k < 256);
  mi_have l k e : E !! (l, k) = Some e -> 0 <= e /\ dire_is_have e = true;
  mi_ne l k t : Tab !! (l, k) = Some t -> l <> LT -> X <> Some (l, k) -> ~ tempty E l k;
  mi_list l i : i ∈ dirhead l (m_mmu s) <-> exists k p, Tab !! (l, k) = Some (i, p);
  mi_nodup l : NoDup (dirhead l (m_mmu s));
  mi_cnt l : dirmsanr l (m_mmu s) = u64 (Z.of_nat (length (dirhead l (m_mmu s))))
}.

(** Words that belong to others: outside the allocator's pages, in blocks [O], or
    in the kernel half of the root table [R]. *)
Definition foreign (P : Z -> Prop) (O : blocks) (R x : Z) : Prop :=
  (forall q, P q -> ~ (q <= x < q + 4096)) \/
  (exists j b, O !! j = Some b /\ b.1 <= x < b.1 + 4096 * b.2) \/
  (exists y, 256 <= y < 512 /\ x = R + 8 * y).

(** What an operation on the address space leaves alone. *)
Record mframe (P : Z -> Prop) (O : blocks) (R : Z) s s' : Prop := {
  fr_words x : foreign P O R x -> m_words s' !! x = m_words s !! x;
  fr_cr3 : m_cr3 s' = m_cr3 s;
  fr_pml4 : m_pml4 s' = m_pml4 s;
  fr_root : mud_tdirearr (m_mmu s') = mud_tdirearr (m_mmu s);
  fr_mcr3 : mud_cr3 (m_mmu s') = mud_cr3 (m_mmu s)
}.

#[global] Instance mframe_preorder P O R : PreOrder (mframe P O R).
Proof.
  split; [by intros s|]. intros s1 s2 s3 [W1 ? ? ? ?] [W2 ? ? ? ?].
  split; [|congruence..]. intros x Hx. by rewrite W2, W1.
Qed.

Section facts.
Context {X s P O Tab E} (HI : MInv X s P O Tab E).

Lemma table_block a i p : Tab !! a = Some (i, p) -> page_block (p, 1) /\ krnl_block (p, 1) /\ P p.
Proof using HI.
  intros Ha. destruct (mi_held _ _ _ _ _ _ HI) as (A & HA & Hs & _).
  assert (Hi : A !! i = Some (p, 1)) by (apply Hs; right; by exists a).
  split_and!; [by apply (pg_block _ _ _ _ _ HA Hi)|by eapply (mi_krnl _ _ _ _ _ _ HI)|].
  pose proof (pg_pool _ _ _ _ _ _ 0 HA Hi ltac:(lia)) as HP. by rewrite Z.mul_0_r, Z.add_0_r in HP.
Qed.

Lemma table_adr a i p : Tab !! a = Some (i, p) -> page_adr p /\ 0 < p <= 2 ^ 34 - 4096.
Proof using HI.
  intros (Hb & Hk & _)%table_block. unfold page_block, krnl_block, page_adr in *. simpl in *. lia.
Qed.

Lemma table_apart a b i j p q : Tab !! a = Some (i, p) -> Tab !! b = Some (j, q) -> a <> b -> p + 4096 <= q \/ q + 4096 <= p.
Proof using HI.
  intros Ha Hb Hne. destruct (mi_held _ _ _ _ _ _ HI) as (A & HA & Hs & _).
  assert (Hi : A !! i = Some (p, 1)) by (apply Hs; right; by exists a).
  assert (Hj : A !! j = Some (q, 1)) by (apply Hs; right; by exists b).
  destruct (decide (i = j)) as [->|Hij]; [by destruct (Hne (mi_inj _ _ _ _ _ _ HI _ _ _ _ _ Ha Hb))|].
  pose proof (pg_apart _ _ _ _ _ _ _ HA Hi Hj Hij) as Hap. unfold block_apart in Hap. simpl in Hap. lia.
Qed.

(** A word of a table page other than the kernel half of the root is not foreign. *)
Lemma table_not_foreign l k i p R iR x : Tab !! (l, k) = Some (i, p) -> Tab !! (LT, 0) = Some (iR, R) ->
  0 <= x < 512 -> (l = LT -> x < 256) -> ~ foreign P O R (p + 8 * x).
Proof using HI.
  intros Ha HR Hx Hl. destruct (table_block _ _ _ Ha) as (_ & _ & HP).
  intros [Hf|[(j & b & Hj & Hb)|(y & Hy & E1)]].
  - apply (Hf p HP). lia.
  - destruct (mi_held _ _ _ _ _ _ HI) as (A & HA & Hs & Hd).
    assert (Hi : A !! i = Some (p, 1)) by (apply Hs; right; by exists (l, k)).
    assert (Hj' : A !! j = Some b) by (apply Hs; by left).
    assert (Hij : i <> j) by (intros ->; by apply (Hd j b (l, k) p)).
    pose proof (pg_apart _ _ _ _ _ _ _ HA Hi Hj' Hij) as Hap. unfold block_apart in Hap. simpl in Hap. lia.
  - destruct (decide ((l, k) = (LT, 0))) as [[= -> ->]|Hne].
    + specialize (Hl eq_refl). simplify_eq. lia.
    + pose proof (table_apart _ _ _ _ _ _ Ha HR Hne). lia.
Qed.

(** The table that holds an entry, and the entry's word. *)
Lemma get_entry l k i p x : Tab !! (l, k) = Some (i, p) -> 0 <= x < 512 -> (l = LT -> x < 256) ->
  get_ent (p + base) x s = Ret (default 0 (E !! (l, 512 * k + x)), s).
Proof using HI.
  intros Ha Hx Hl. destruct (table_adr _ _ _ Ha) as [_ Hp]. unfold get_ent, ent_adr, base.
  rewrite (u64_small (_ + 8 * x)) by (rewrite u64max_val; lia). rewrite u64_small by (rewrite u64max_val; lia).
  replace (_ - _) with (p + 8 * x) by lia. by rewrite (mi_word _ _ _ _ _ _ HI l k i p x).
Qed.
End facts.
End inv.
