(* ===== verification/MmuOps.v ===== *)
(** * Page tables: operations

    The specification of each step of halmmu.c on the view of MmuInv.v: the walk
    reads the view; new tables, their release, and the steps of mapping and
    unmapping update it. *)

From S2P Require Import Prelude PhyMem Boot BootSpec BootPages PageIf Mmu MmuInv.

Lemma dirhead_map f l d : dirhead l (map_dirhead f d) = f l (dirhead l d).
Proof. by destruct l. Qed.
Lemma dirmsanr_map f l d : dirmsanr l (map_dirmsanr f d) = f l (dirmsanr l d).
Proof. by destruct l. Qed.
Lemma dirhead_map_msanr f l d : dirhead l (map_dirmsanr f d) = dirhead l d.
Proof. by destruct l. Qed.
Lemma dirmsanr_map_head f l d : dirmsanr l (map_dirhead f d) = dirmsanr l d.
Proof. by destruct l. Qed.

#[export] Hint Rewrite dirhead_map dirmsanr_map dirhead_map_msanr dirmsanr_map_head : mmudsc.

Lemma child_ne l l' : child l = Some l' -> l <> l' /\ l' <> LT.
Proof. destruct l; cbn; intros [= <-]; done. Qed.

Section ops.
Context {S : Type} `{PageAlloc S}.
Implicit Types (s : mst S) (Tab : tables) (E : entries) (X : option (lvl * Z)).

(** ** The walk reads the view *)

Definition present (e : Z) : option Z := if Z.land e ENT_P =? 0 then None else Some e.

Lemma entry_view X s P O Tab E l i p u : MInv X s P O Tab E -> uaddr u -> Tab !! (l, tkey l u) = Some (i, p) ->
  entry (m_words s) p (Z.shiftr u (iv_rshtbit l)) = E !! (l, key l u) ≫= present.
Proof.
  intros HI Hu Ht. unfold entry. change (Z.land (Z.shiftr u (iv_rshtbit l)) 0x1ff) with (dire_index l u).
  rewrite (mi_word _ _ _ _ _ _ HI l (tkey l u) i p); [|done|apply dire_index_range|].
  - cbn. rewrite <- key_split. by destruct (E !! (l, key l u)).
  - intros ->. rewrite top_index by done. by apply tkey_top.
Qed.

Lemma entry_dir X s P O Tab E l l' i p u : MInv X s P O Tab E -> uaddr u -> child l = Some l' -> Tab !! (l, tkey l u) = Some (i, p) ->
  entry (m_words s) p (Z.shiftr u (iv_rshtbit l)) = E !! (l, key l u) /\
  forall e, E !! (l, key l u) = Some e -> Z.land e ENT_PS = 0 /\ exists i', Tab !! (l', tkey l' u) = Some (i', Z.land e TBL_MASK).
Proof.
  intros HI Hu Hc Ht. rewrite (entry_view X s P O Tab E l i p u) by done.
  destruct (E !! (l, key l u)) as [e|] eqn:He; [|done]. cbn.
  destruct (mi_dir _ _ _ _ _ _ HI l l' _ _ Hc He) as ((H1 & H2) & i' & Ht'). destruct (mi_have _ _ _ _ _ _ HI _ _ _ He) as [He0 _].
  split; [unfold present; by rewrite (proj2 (Z.eqb_neq _ 0) H1)|]. intros e' [= <-]. split; [done|].
  rewrite (tkey_child l l') by done. rewrite <- padr_mask by done. by exists i'.
Qed.

(** The page that the view maps [u] to. *)
Definition view_walk E (u : Z) : option Z :=
  e ← E !! (LM, key LM u) ≫= present; Some (dire_ret_padr e + u mod 2 ^ 12).

Lemma view_dirs X s P O Tab E l l' u e : MInv X s P O Tab E -> child l = Some l' -> E !! (l', key l' u) = Some e -> is_Some (E !! (l, key l u)).
Proof.
  intros HI Hc He. destruct (mi_par _ _ _ _ _ _ HI _ _ _ He) as [[t Ht] _]. fold (tkey l' u) in Ht.
  rewrite (tkey_child l l') in Ht by done. by apply (mi_tab _ _ _ _ _ _ HI l l' _ t).
Qed.

Lemma walk_view X s P O Tab E i R u : MInv X s P O Tab E -> Tab !! (LT, 0) = Some (i, R) -> uaddr u ->
  hw_walk (m_words s) R u = view_walk E u.
Proof.
  intros HI HR Hu. unfold hw_walk, view_walk.
  assert (Hno : forall l l', child l = Some l' -> E !! (l, key l u) = None -> E !! (l', key l' u) = None).
  { intros l l' Hc Hn. destruct (E !! (l', key l' u)) as [e|] eqn:He; [|done].
    destruct (view_dirs _ _ _ _ _ _ l l' u e HI Hc He) as [? ?]. congruence. }
  rewrite <- (proj1 (tkey_top u Hu)) in HR.
  destruct (entry_dir _ _ _ _ _ _ LT LS _ _ u HI Hu eq_refl HR) as [E4 T4]. cbn [iv_rshtbit] in E4. rewrite E4.
  destruct (E !! (LT, key LT u)) as [e4|] eqn:H4; [|by rewrite (Hno LI LM eq_refl (Hno LS LI eq_refl (Hno LT LS eq_refl H4)))].
  destruct (T4 e4 eq_refl) as (_ & i3 & R3). cbn [mbind option_bind].
  destruct (entry_dir _ _ _ _ _ _ LS LI _ _ u HI Hu eq_refl R3) as [E3 T3]. cbn [iv_rshtbit] in E3. rewrite E3.
  destruct (E !! (LS, key LS u)) as [e3|] eqn:H3; [|by rewrite (Hno LI LM eq_refl (Hno LS LI eq_refl H3))].
  destruct (T3 e3 eq_refl) as (PS3 & i2 & R2). cbn [mbind option_bind]. rewrite PS3. cbn [Z.eqb negb].
  destruct (entry_dir _ _ _ _ _ _ LI LM _ _ u HI Hu eq_refl R2) as [E2 T2]. cbn [iv_rshtbit] in E2. rewrite E2.
  destruct (E !! (LI, key LI u)) as [e2|] eqn:H2; [|by rewrite (Hno LI LM eq_refl H2)].
  destruct (T2 e2 eq_refl) as (PS2 & i1 & R1). cbn [mbind option_bind]. rewrite PS2. cbn [Z.eqb negb].
  rewrite (entry_view _ _ _ _ _ _ LM _ _ u HI Hu R1 : entry _ _ (Z.shiftr u 12) = _).
  destruct (E !! (LM, key LM u)) as [e|] eqn:H1; [|done]. cbn. unfold present. destruct (_ =? 0); [done|]. cbn.
  by rewrite padr_mask by apply (mi_have _ _ _ _ _ _ HI _ _ _ H1).
Qed.

(** ** Writing one entry *)

Definition wr (a e : Z) s : mst S := Mst (m_pa s) (<[a := e]> (m_words s)) (m_mmu s) (m_cr3 s) (m_pml4 s).

Lemma put_ent_wr p x e s : 0 <= p <= 2 ^ 34 - 4096 -> 0 <= x < 512 -> put_ent (p + base) x e s = Ret (tt, wr (p + 8 * x) e s).
Proof.
  intros Hp Hx. unfold put_ent, modify, ent_adr, wr, base. rewrite (u64_small (_ + 8 * x)) by (rewrite u64max_val; lia).
  rewrite u64_small by (rewrite u64max_val; lia). by replace (_ - _) with (p + 8 * x) by lia.
Qed.

Lemma key_cell (l l' : lvl) k k' x x' : 0 <= x < 512 -> 0 <= x' < 512 -> (l, 512 * k + x) = (l', 512 * k' + x') -> l = l' /\ k = k' /\ x = x'.
Proof. intros ? ? [= -> ?]. split; [done|lia]. Qed.

(** The words of the tables after a write into one of them. *)
Lemma words_write X s P O Tab E E' l k i p x : MInv X s P O Tab E -> Tab !! (l, k) = Some (i, p) -> 0 <= x < 512 -> (l = LT -> x < 256) ->
  (forall a, a <> (l, 512 * k + x) -> E' !! a = E !! a) ->
  let g := <[p + 8 * x := default 0 (E' !! (l, 512 * k + x))]> (m_words s) in
  (forall l2 k2 j q y, Tab !! (l2, k2) = Some (j, q) -> 0 <= y < 512 -> (l2 = LT -> y < 256) ->
    g !! (q + 8 * y) = Some (default 0 (E' !! (l2, 512 * k2 + y)))) /\
  (forall j q y, Tab !! (LT, 0) = Some (j, q) -> 256 <= y < 512 -> is_Some (g !! (q + 8 * y))).
Proof.
  intros HI Ha Hx Hl HE g.
  assert (Hcell : forall l2 k2 j q y, Tab !! (l2, k2) = Some (j, q) -> 0 <= y < 512 -> p + 8 * x = q + 8 * y -> (l2, k2) = (l, k) /\ y = x).
  { intros l2 k2 j q y Hq Hy Heq. destruct (decide ((l2, k2) = (l, k))) as [Heq'|Hne].
    - rewrite Heq' in Hq. simplify_eq. split; [done|lia].
    - pose proof (table_apart HI _ _ _ _ _ _ Hq Ha Hne). lia. }
  split.
  - intros l2 k2 j q y Hq Hy Hl2. unfold g. destruct (decide (p + 8 * x = q + 8 * y)) as [Heq|Hne].
    + destruct (Hcell _ _ _ _ _ Hq Hy Heq) as [[= -> ->] ->]. rewrite Heq. apply lookup_insert_eq.
    + rewrite lookup_insert_ne by done. rewrite (mi_word _ _ _ _ _ _ HI l2 k2 j q y) by done. rewrite HE; [done|].
      intros (-> & -> & ->)%key_cell; [|done..]. rewrite Ha in Hq. by simplify_eq.
  - intros j q y Hq Hy. unfold g. destruct (decide (p + 8 * x = q + 8 * y)) as [Heq|Hne]; [rewrite Heq, lookup_insert_eq; by eexists|].
    rewrite lookup_insert_ne by done. by apply (mi_kern _ _ _ _ _ _ HI j q y).
Qed.

Lemma wr_frame X s P O Tab E l k i p x iR R e : MInv X s P O Tab E -> Tab !! (l, k) = Some (i, p) -> Tab !! (LT, 0) = Some (iR, R) ->
  0 <= x < 512 -> (l = LT -> x < 256) -> mframe P O R s (wr (p + 8 * x) e s).
Proof.
  intros HI Ha HR Hx Hl. split; [|done..]. intros y Hy. simpl. apply lookup_insert_ne. intros <-.
  by apply (table_not_foreign HI l k i p R iR x).
Qed.

(** A table with an entry is not empty. *)
Lemma not_tempty E l k x : 0 <= x < 512 -> is_Some (E !! (l, 512 * k + x)) -> ~ tempty E l k.
Proof. intros Hx [e He] Hem. by rewrite (Hem x Hx) in He. Qed.

Lemma tempty_ext E E' l k : (forall x, 0 <= x < 512 -> E' !! (l, 512 * k + x) = E !! (l, 512 * k + x)) -> tempty E' l k -> tempty E l k.
Proof. intros HE Hem x Hx. rewrite <- HE by done. by apply Hem. Qed.

(** Entering a page in a lowest-level table. *)
Lemma minv_set_leaf X s P O Tab E k i p x e : MInv X s P O Tab E -> Tab !! (LM, k) = Some (i, p) -> 0 <= x < 512 ->
  X = None \/ X = Some (LM, k) -> 0 <= e -> dire_is_have e = true ->
  MInv None (wr (p + 8 * x) e s) P O Tab (<[(LM, 512 * k + x) := e]> E).
Proof.
  intros HI Ha Hx HX He0 He. destruct (words_write X s P O Tab E (<[(LM, 512 * k + x) := e]> E) LM k i p x) as [W1 W2]; try done.
  { intros a Hne. by rewrite lookup_insert_ne by congruence. }
  rewrite lookup_insert_eq in W1, W2. cbn [default] in W1, W2.
  assert (Hdirs : forall l l' k', child l = Some l' -> <[(LM, 512 * k + x) := e]> E !! (l, k') = E !! (l, k')).
  { intros l l' k' Hc. rewrite lookup_insert_ne; [done|]. intros [= <- _]. done. }
  pose proof (mi_ne _ _ _ _ _ _ HI) as Hne0. destruct HI. split; try done.
  - intros l l' k' e' Hc. rewrite (Hdirs l l') by done. eauto.
  - intros l l' k' t Hc. rewrite (Hdirs l l') by done. eauto.
  - intros l k' e' [[[= <- <-] <-]|[_ Hk]]%lookup_insert_Some; [|eauto].
    replace ((512 * k + x) / 512) with k by (apply (Z.div_unique _ _ _ x); lia). split; [by rewrite Ha|done].
  - intros l k' e' [[[= <- <-] <-]|[_ Hk]]%lookup_insert_Some; eauto.
  - intros l k' t Ht Hl _. destruct (decide ((l, k') = (LM, k))) as [[= -> ->]|Hne].
    + apply (not_tempty _ LM k x Hx). by rewrite lookup_insert_eq.
    + intros Hem. apply (Hne0 l k' t Ht Hl); [destruct HX as [->| ->]; congruence|]. intros y Hy.
      specialize (Hem y Hy). by apply lookup_insert_None in Hem as [? _].
Qed.

(** Removing a page from a lowest-level table. *)
Lemma minv_del_leaf s P O Tab E k i p x : MInv None s P O Tab E -> Tab !! (LM, k) = Some (i, p) -> 0 <= x < 512 ->
  MInv (Some (LM, k)) (wr (p + 8 * x) 0 s) P O Tab (delete (LM, 512 * k + x) E).
Proof.
  intros HI Ha Hx. destruct (words_write None s P O Tab E (delete (LM, 512 * k + x) E) LM k i p x) as [W1 W2]; try done.
  { intros a Hne. by rewrite lookup_delete_ne by congruence. }
  rewrite lookup_delete_eq in W1, W2. cbn [default] in W1, W2.
  assert (Hdirs : forall l l' k', child l = Some l' -> delete (LM, 512 * k + x) E !! (l, k') = E !! (l, k')).
  { intros l l' k' Hc. rewrite lookup_delete_ne; [done|]. intros [= <- _]. done. }
  pose proof (mi_ne _ _ _ _ _ _ HI) as Hne0. destruct HI. split; try done.
  - intros l l' k' e' Hc. rewrite (Hdirs l l') by done. eauto.
  - intros l l' k' t Hc. rewrite (Hdirs l l') by done. eauto.
  - intros l k' e' [_ Hk]%lookup_delete_Some. eauto.
  - intros l k' e' [_ Hk]%lookup_delete_Some. eauto.
  - intros l k' t Ht Hl HX Hem. apply (Hne0 l k' t Ht Hl); [done|]. intros y Hy. specialize (Hem y Hy).
    rewrite lookup_delete_ne in Hem; [done|]. intros (<- & <- & _)%key_cell; done.
Qed.

(** ** A new table *)

(** [g'] is [g] with the page [p] cleared. *)
Definition cleared (p : Z) (g g' : gmap Z Z) : Prop :=
  (forall y, 0 <= y < 512 -> g' !! (p + 8 * y) = Some 0) /\ (forall a, ~ (p <= a < p + 4096) -> g' !! a = g !! a).

Lemma clear_ents_spec p : 0 <= p <= 2 ^ 34 - 4096 -> forall n x s, 0 <= x -> x + Z.of_nat n <= 512 ->
  exists g, clear_ents n (p + base) x s = Ret (tt, Mst (m_pa s) g (m_mmu s) (m_cr3 s) (m_pml4 s)) /\
    (forall y, x <= y < x + Z.of_nat n -> g !! (p + 8 * y) = Some 0) /\
    (forall a, (forall y, x <= y < x + Z.of_nat n -> a <> p + 8 * y) -> g !! a = m_words s !! a).
Proof.
  intros Hp n. induction n as [|n IH]; intros x s Hx Hn; cbn [clear_ents].
  - exists (m_words s). split; [by destruct s|]. split; [lia|done].
  - erewrite bind_eq by (apply put_ent_wr; lia). destruct (IH (x + 1) (wr (p + 8 * x) 0 s)) as (g & -> & Hg1 & Hg2); [lia|lia|].
    exists g. split; [done|]. split.
    + intros y Hy. destruct (decide (y = x)) as [->|]; [|apply Hg1; lia]. rewrite Hg2 by (intros; lia). apply lookup_insert_eq.
    + intros a Ha. rewrite Hg2 by (intros y Hy; apply Ha; lia). apply lookup_insert_ne. intros <-. apply (Ha x); lia.
Qed.

Lemma on_pa_eq {A} (m : M S A) s a pa : m (m_pa s) = Ret (a, pa) -> on_pa m s = Ret (a, Mst pa (m_words s) (m_mmu s) (m_cr3 s) (m_pml4 s)).
Proof. intros E. unfold on_pa. by rewrite E. Qed.

Lemma wp_on_pa {A} (m : M S A) s Q : wp m (m_pa s) (fun a pa => Q a (Mst pa (m_words s) (m_mmu s) (m_cr3 s) (m_pml4 s))) -> wp (on_pa m) s Q.
Proof. unfold wp, on_pa. destruct (m (m_pa s)) as [[a pa]| | |]; done. Qed.

Lemma to_vir s p : 0 <= p <= 2 ^ 34 - 4096 -> phyadr_to_viradr p s = Ret (p + base, s).
Proof.
  intros Hp. unfold phyadr_to_viradr, KRNL_MAP_PHYADDRESS_END, base. replace (_ <=? p) with false by lia.
  rewrite u64_small by (rewrite u64max_val; lia). done.
Qed.

Lemma to_phy s p : 0 <= p <= 2 ^ 34 - 4096 -> viradr_to_phyadr (p + base) s = Ret (p, s).
Proof.
  intros Hp. unfold viradr_to_phyadr, KRNL_MAP_VIRTADDRESS_END, KRNL_MAP_VIRTADDRESS_SIZE, base. replace (_ || _) with false by lia.
  rewrite u64_small by (rewrite u64max_val; lia). unfold mret, M_ret. do 2 f_equal. lia.
Qed.

Lemma base_nonzero p : 0 <= p -> (p + base =? 0) = false.
Proof. unfold base. lia. Qed.

(** The state after a page was taken, cleared and put on the list of level [l]. *)
Definition fresh_table (P : Z -> Prop) (A : blocks) (l : lvl) (i p : Z) s s' : Prop :=
  A !! i = None /\ krnl_block (p, 1) /\ pg_held (m_pa s') P (<[i := (p, 1)]> A) /\ cleared p (m_words s) (m_words s') /\
  m_mmu s' = map_dirmsanr (fun k x => if decide (k = l) then x +u 1 else x)
               (map_dirhead (fun k x => if decide (k = l) then i :: x else x) (m_mmu s)) /\
  m_cr3 s' = m_cr3 s /\ m_pml4 s' = m_pml4 s.

Lemma fresh_adr P A i p pa : pg_held pa P (<[i := (p, 1)]> A) -> krnl_block (p, 1) -> page_adr p /\ 0 < p <= 2 ^ 34 - 4096.
Proof.
  intros Hh Hk. pose proof (pg_block _ _ _ i _ Hh (lookup_insert_eq _ _ _)) as Hb.
  unfold page_block, krnl_block, page_adr in *. simpl in *. lia.
Qed.

Lemma mmu_new_direarr_spec s P A l : pg_held (m_pa s) P A ->
  wp (mmu_new_direarr l) s (fun r s' => (r = None /\ s' = s) \/ exists i p, r = Some i /\ fresh_table P A l i p s s').
Proof.
  intros HA. unfold mmu_new_direarr. apply wp_bind, wp_on_pa.
  eapply wp_mono; [apply (pg_division_spec (m_pa s) P A 1 HA); by rewrite u64max_val|].
  intros r pa [(i & p & n & -> & -> & Hi & Hk & Hh)|[-> ->]]; [|left; split; [done|by destruct s]].
  change (2 ^ Z.log2_up 1) with 1 in *. cbn [fst]. destruct (fresh_adr _ _ _ _ _ Hh Hk) as [Hpg Hp].
  unfold msadsc_ret_vaddr. set (s1 := Mst pa (m_words s) (m_mmu s) (m_cr3 s) (m_pml4 s)).
  destruct (clear_ents_spec p ltac:(lia) 512 0 s1 ltac:(lia) ltac:(lia)) as (g & Eg & Hg1 & Hg2). unfold wp.
  erewrite bind_eq by (erewrite bind_eq by (apply on_pa_eq; by apply (pg_addr_spec _ _ _ _ _ _ Hh (lookup_insert_eq _ _ _))); apply to_vir; lia).
  unfold direarr_t_init. rewrite base_nonzero by lia. erewrite bind_eq by exact Eg. unfold dir_link, dir_count, upd_mmu, modify.
  cbn. right. exists i, p. split; [done|]. split_and!; [done|done|done| |done|done|done]. split.
  - intros y Hy. apply Hg1. lia.
  - intros a Ha. apply Hg2. intros y Hy. simpl in *. lia.
Qed.

Section grow.
Context {X s P O Tab E} (HI : MInv X s P O Tab E) {A : blocks} (HA : pg_held (m_pa s) P A) (Hsp : split_blocks A O Tab).
Context {l l' : lvl} {k ip pp x : Z} (Hc : child l = Some l') (Hpar : Tab !! (l, k) = Some (ip, pp)) (Hx : 0 <= x < 512) (Hl : l = LT -> x < 256)
  (Hnew : E !! (l, 512 * k + x) = None) (HX : X = None \/ X = Some (l, k)).
Context {i p f : Z} {s1 : mst S} (Hfr : fresh_table P A l' i p s s1) (Hf : flags_ok f).

Abbreviation kk := (512 * k + x).
Abbreviation Tab' := (<[(l', kk) := (i, p)]> Tab).
Abbreviation E' := (<[(l, kk) := Z.lor p f]> E).

Lemma grow_tab_none : Tab !! (l', kk) = None.
Proof using HI Hc Hnew.
  destruct (Tab !! (l', kk)) as [t|] eqn:Ht; [|done]. destruct (mi_tab _ _ _ _ _ _ HI l l' kk t Hc Ht) as [e He]. congruence.
Qed.

Lemma grow_empty : tempty E l' kk.
Proof using HI Hc Hnew.
  intros y Hy. destruct (E !! (l', 512 * kk + y)) as [e|] eqn:He; [|done].
  destruct (mi_par _ _ _ _ _ _ HI _ _ _ He) as [[t Ht] _].
  replace ((512 * kk + y) / 512) with kk in Ht by (apply (Z.div_unique _ _ _ y); lia). by rewrite grow_tab_none in Ht.
Qed.

Lemma grow_fresh a j q : Tab !! a = Some (j, q) -> j <> i /\ (q + 4096 <= p \/ p + 4096 <= q).
Proof using HI HA Hsp Hfr.
  intros Ha. destruct Hfr as (Hi & _ & Hh & _). assert (Hj : A !! j = Some (q, 1)) by (apply Hsp; right; by exists a).
  assert (Hne : j <> i) by congruence. split; [done|].
  pose proof (pg_apart _ _ _ j i _ _ Hh ltac:(by rewrite lookup_insert_ne) (lookup_insert_eq _ _ _) Hne) as Hap.
  unfold block_apart in Hap. simpl in Hap. lia.
Qed.

Lemma grow_adr : page_adr p /\ 0 < p <= 2 ^ 34 - 4096.
Proof using Hfr. destruct Hfr as (_ & Hk & Hh & _). by apply (fresh_adr _ _ _ _ _ Hh). Qed.

Lemma grow_foreign R y : foreign P O R y -> Tab !! (LT, 0) = Some (default 0 (fst <$> Tab !! (LT, 0)), R) -> ~ (p <= y < p + 4096).
Proof using HI HA Hsp Hfr.
  intros Hfo HR Hy. pose proof Hfr as (Hi & _ & Hh & _). destruct Hfo as [Hf0|[(j & b & Hj & Hb)|(z & Hz & ->)]].
  - apply (Hf0 p); [|lia]. pose proof (pg_pool _ _ _ i p 1 0 Hh (lookup_insert_eq _ _ _) ltac:(lia)) as HP. by rewrite Z.mul_0_r, Z.add_0_r in HP.
  - assert (HAj : A !! j = Some b) by (apply Hsp; by left). assert (Hne : j <> i) by congruence.
    pose proof (pg_apart _ _ _ j i _ _ Hh ltac:(by rewrite lookup_insert_ne) (lookup_insert_eq _ _ _) Hne) as Hap.
    unfold block_apart in Hap. simpl in Hap. lia.
  - destruct (grow_fresh _ _ _ HR) as [_ ?]. lia.
Qed.

Lemma grow_words : let g := <[pp + 8 * x := Z.lor p f]> (m_words s1) in
  (forall l2 k2 j q y, Tab' !! (l2, k2) = Some (j, q) -> 0 <= y < 512 -> (l2 = LT -> y < 256) ->
    g !! (q + 8 * y) = Some (default 0 (E' !! (l2, 512 * k2 + y)))) /\
  (forall j q y, Tab' !! (LT, 0) = Some (j, q) -> 256 <= y < 512 -> is_Some (g !! (q + 8 * y))).
Proof using HI HA Hsp Hc Hpar Hx Hl Hnew Hfr.
  destruct (words_write X s P O Tab E E' l k ip pp x HI Hpar Hx Hl) as [W1 W2].
  { intros a Ha. by rewrite lookup_insert_ne by congruence. }
  rewrite lookup_insert_eq in W1, W2. cbn [default] in W1, W2. pose proof (child_ne _ _ Hc) as [Hll HlT].
  destruct Hfr as (_ & _ & _ & (Hz & Hsame) & _).
  assert (Hold : forall a j q y, Tab !! a = Some (j, q) -> 0 <= y < 512 ->
    <[pp + 8 * x := Z.lor p f]> (m_words s1) !! (q + 8 * y) = <[pp + 8 * x := Z.lor p f]> (m_words s) !! (q + 8 * y)).
  { intros a j q y Ha Hy. destruct (grow_fresh _ _ _ Ha) as [_ Hap].
    destruct (decide (pp + 8 * x = q + 8 * y)) as [->|Hne]; [by rewrite !lookup_insert_eq|]. rewrite !lookup_insert_ne by done. apply Hsame. lia. }
  split.
  - intros l2 k2 j q y [[[= <- <-] [= <- <-]]|[Hne Ht]]%lookup_insert_Some Hy Hl2.
    + rewrite (lookup_insert_ne E) by congruence. rewrite (grow_empty y Hy). cbn.
      rewrite lookup_insert_ne; [by apply Hz|]. destruct (grow_fresh _ _ _ Hpar) as [_ ?]. lia.
    + rewrite (Hold (l2, k2) j q y Ht Hy). by apply (W1 l2 k2 j q y).
  - intros j q y Ht Hy. rewrite lookup_insert_ne in Ht by congruence. rewrite (Hold (LT, 0) j q y Ht) by lia. by apply (W2 j q y).
Qed.

Lemma grow_frame iR R : Tab !! (LT, 0) = Some (iR, R) -> mframe P O R s (wr (pp + 8 * x) (Z.lor p f) s1).
Proof using HI HA Hsp Hc Hpar Hx Hl Hfr.
  intros HR. pose proof Hfr as (_ & _ & _ & (_ & Hsame) & Hmmu & Hcr3 & Hpml4).
  split; [|by simpl|by simpl|cbn; by rewrite Hmmu|cbn; by rewrite Hmmu].
  intros y Hy. simpl. rewrite lookup_insert_ne; [|intros <-; by apply (table_not_foreign HI l k ip pp R iR x)].
  apply Hsame. apply (grow_foreign R y Hy). rewrite HR. done.
Qed.

Lemma grow_blocks : split_blocks (<[i := (p, 1)]> A) O Tab'.
Proof using HI HA Hsp Hc Hnew Hfr.
  pose proof grow_tab_none as Htn. pose proof Hfr as (Hi & _). destruct Hsp as [H1 H2]. split.
  + intros j b. destruct (decide (j = i)) as [->|Hne].
    * rewrite lookup_insert_eq. split; [intros [= <-]; right; exists (l', kk); by rewrite lookup_insert_eq|].
      intros [Hj|(a & [[<- [= Hb1]]|[_ Ha]]%lookup_insert_Some & Hb)].
      -- exfalso. assert (A !! i = Some b) by (apply H1; by left). congruence.
      -- destruct b; simpl in *; by subst.
      -- by destruct (grow_fresh _ _ _ Ha).
    * rewrite lookup_insert_ne by done. rewrite H1. split; (intros [?|(a & Ha & Hb)]; [by left|right; exists a]).
      -- rewrite lookup_insert_ne by congruence. done.
      -- by apply lookup_insert_Some in Ha as [[_ [= -> _]]|[_ ?]].
  + intros j b a q Hj [[_ [= -> _]]|[_ Ha]]%lookup_insert_Some; [|by apply (H2 j b a q)].
    assert (A !! j = Some b) by (apply H1; by left). congruence.
Qed.

Lemma grow_minv : MInv (Some (l', kk)) (wr (pp + 8 * x) (Z.lor p f) s1) P O Tab' E'.
Proof using HI HA Hsp Hc Hpar Hx Hl Hnew HX Hfr Hf.
  destruct grow_words as [W1 W2]. pose proof (child_ne _ _ Hc) as [Hll HlT]. destruct grow_adr as [Hpg Hp].
  pose proof (ent_have p f Hpg (proj1 Hf)) as Hhave. pose proof (dir_entry_flags p f Hpg Hf) as Hdir.
  pose proof (ent_padr p f Hpg (proj1 Hf)) as Hpadr.
  assert (Hpos : 0 <= Z.lor p f) by (apply Z.lor_nonneg; destruct Hf; lia).
  pose proof grow_tab_none as Htn. pose proof grow_empty as Hem0. pose proof Hfr as (Hi & Hk & Hh & _ & Hmmu & _ & _).
  split; cbn [m_pa m_words m_mmu wr]; try done.
  - exists (<[i := (p, 1)]> A). split; [done|apply grow_blocks].
  - destruct (mi_root _ _ _ _ _ _ HI) as (iR & R & HR & Hm). exists iR, R. rewrite lookup_insert_ne by congruence. by rewrite Hmmu.
  - intros k2 t. rewrite lookup_insert_ne by congruence. apply (mi_top _ _ _ _ _ _ HI).
  - intros a j q [[_ [= <- <-]]|[_ Ha]]%lookup_insert_Some; [done|by apply (mi_krnl _ _ _ _ _ _ HI a j)].
  - intros a b j q r [[<- [= <- <-]]|[_ Ha]]%lookup_insert_Some [[<- Hjr]|[_ Hb]]%lookup_insert_Some.
    + done.
    + by destruct (grow_fresh _ _ _ Hb).
    + destruct (grow_fresh _ _ _ Ha). congruence.
    + by apply (mi_inj _ _ _ _ _ _ HI a b j q r).
  - intros l2 l2' k2 e Hc2 [[[= <- <-] <-]|[Hne He]]%lookup_insert_Some.
    + assert (l2' = l') as -> by congruence. rewrite Hpadr, lookup_insert_eq. split; [done|by exists i].
    + destruct (mi_dir _ _ _ _ _ _ HI l2 l2' k2 e Hc2 He) as (Hd & j & Ht). split; [done|]. exists j.
      rewrite lookup_insert_ne; [done|]. intros [= <- <-]. congruence.
  - intros l2 l2' k2 t Hc2 [[[= <- <-] _]|[_ Ht]]%lookup_insert_Some.
    + assert (l2 = l) as -> by (destruct l, l2; cbn in *; congruence). rewrite lookup_insert_eq. by eexists.
    + destruct (decide ((l, kk) = (l2, k2))) as [[= <- <-]|]; [rewrite lookup_insert_eq; by eexists|].
      rewrite lookup_insert_ne by done. by apply (mi_tab _ _ _ _ _ _ HI l2 l2' k2 t).
  - intros l2 k2 e [[[= <- <-] _]|[_ He]]%lookup_insert_Some.
    + replace (kk / 512) with k by (apply (Z.div_unique _ _ _ x); lia). rewrite lookup_insert_ne by congruence. split; [by rewrite Hpar|].
      intros ->. specialize (Hl eq_refl). pose proof (mi_top _ _ _ _ _ _ HI k _ Hpar). lia.
    + destruct (mi_par _ _ _ _ _ _ HI _ _ _ He) as [Ht HT]. split; [|done]. by apply lookup_insert_is_Some'; right.
  - intros l2 k2 e [[_ <-]|[_ He]]%lookup_insert_Some; [done|by apply (mi_have _ _ _ _ _ _ HI l2 k2)].
  - intros l2 k2 t [[Heq _]|[_ Ht]]%lookup_insert_Some HlT2 HX2; [congruence|]. intros Hem.
    destruct (decide ((l2, k2) = (l, k))) as [[= -> ->]|Hne].
    + specialize (Hem x Hx). by rewrite lookup_insert_eq in Hem.
    + apply (mi_ne _ _ _ _ _ _ HI l2 k2 t Ht HlT2); [destruct HX as [->| ->]; congruence|].
      intros y Hy. specialize (Hem y Hy). by apply lookup_insert_None in Hem as [? _].
  - intros l2 j. rewrite Hmmu. autorewrite with mmudsc. destruct (decide (l2 = l')) as [->|Hne].
    + rewrite elem_of_cons, (mi_list _ _ _ _ _ _ HI). split.
      * intros [->|(k2 & q & Ht)]; [exists kk, p; by rewrite lookup_insert_eq|]. exists k2, q. rewrite lookup_insert_ne; [done|congruence].
      * intros (k2 & q & [[_ [= <- _]]|[_ Ht]]%lookup_insert_Some); [by left|right; by exists k2, q].
    + rewrite (mi_list _ _ _ _ _ _ HI). split; intros (k2 & q & Ht); exists k2, q; [by rewrite lookup_insert_ne by congruence|].
      by rewrite lookup_insert_ne in Ht by congruence.
  - intros l2. rewrite Hmmu. autorewrite with mmudsc. destruct (decide (l2 = l')) as [->|]; [|apply (mi_nodup _ _ _ _ _ _ HI)].
    constructor; [|apply (mi_nodup _ _ _ _ _ _ HI)]. intros (k2 & q & Ht)%(mi_list _ _ _ _ _ _ HI). by destruct (grow_fresh _ _ _ Ht).
  - intros l2. rewrite Hmmu. autorewrite with mmudsc. rewrite (mi_cnt _ _ _ _ _ _ HI). destruct (decide (l2 = l')); [|done].
    cbn [length]. rewrite Nat2Z.inj_succ. unfold u64. by rewrite Zplus_mod_idemp_l.
Qed.
End grow.

(** The table that may be empty is not, or is the root. *)
Lemma minv_settle X s P O Tab E : MInv X s P O Tab E -> (forall l k, X = Some (l, k) -> l <> LT -> ~ tempty E l k) -> MInv None s P O Tab E.
Proof.
  intros HI HX. pose proof (mi_ne _ _ _ _ _ _ HI) as Hne. destruct HI. split; try done. intros l k t Ht Hl _.
  destruct (decide (X = Some (l, k))) as [->|]; [by apply HX|by eapply Hne].
Qed.

Lemma minv_loosen X s P O Tab E : MInv None s P O Tab E -> MInv X s P O Tab E.
Proof. intros HI. pose proof (mi_ne _ _ _ _ _ _ HI) as Hne. destruct HI. split; try done. intros l k t Ht Hl _. by eapply Hne. Qed.

Lemma mmu_transform_dire_spec X s P O Tab E l l' i p v f iR R :
  MInv X s P O Tab E -> Tab !! (LT, 0) = Some (iR, R) -> uaddr v -> child l = Some l' -> Tab !! (l, tkey l v) = Some (i, p) ->
  X = None \/ X = Some (l, tkey l v) -> flags_ok f ->
  wp (mmu_transform_dire l l' (p + base) v f) s (fun r s' =>
    (exists i' p', Tab !! (l', key l v) = Some (i', p') /\ r = (p' + base, None) /\ s' = s /\ MInv None s P O Tab E) \/
    (E !! (l, key l v) = None /\ r = (0, None) /\ s' = s) \/
    (E !! (l, key l v) = None /\ Tab !! (l', key l v) = None /\ exists i' p', r = (p' + base, Some i') /\ mframe P O R s s' /\
      MInv (Some (l', key l v)) s' P O (<[(l', key l v) := (i', p')]> Tab) (<[(l, key l v) := Z.lor p' f]> E))).
Proof.
  intros HI HR Hv Hc Ht HX Hf. destruct (table_adr HI _ _ _ Ht) as [_ Hp]. pose proof (dire_index_range l v) as Hx.
  assert (HlT : l = LT -> dire_index l v < 256) by (intros ->; rewrite top_index by done; by apply tkey_top).
  unfold mmu_transform_dire. rewrite base_nonzero by lia. unfold wp.
  erewrite bind_eq by (by apply (get_entry HI l (tkey l v) i p)). rewrite <- key_split.
  destruct (E !! (l, key l v)) as [e|] eqn:He.
  - destruct (mi_have _ _ _ _ _ _ HI _ _ _ He) as [_ Hhave]. change (default 0 (Some e)) with e. rewrite Hhave.
    destruct (mi_dir _ _ _ _ _ _ HI l l' _ _ Hc He) as (_ & i' & Ht'). destruct (table_adr HI _ _ _ Ht') as [_ Hp'].
    erewrite bind_eq by (apply to_vir; lia). cbn. left. exists i', (dire_ret_padr e). split_and!; [done..|].
    apply (minv_settle X); [done|]. intros l2 k2 HX2 _. destruct HX as [->|HX]; [done|]. rewrite HX in HX2. simplify_eq.
    apply (not_tempty _ _ _ (dire_index l2 v) Hx). rewrite <- key_split. by rewrite He.
  - change (dire_is_have (default 0 None)) with false. cbn iota. destruct (mi_held _ _ _ _ _ _ HI) as (A & HA & Hsp).
    apply (wp_bind (mmu_new_direarr l')). eapply wp_mono; [by apply (mmu_new_direarr_spec s P A l')|].
    intros r s1 [[-> ->]|(i' & p' & -> & Hfr)]; [right; left; done|].
    rewrite key_split in He. destruct (grow_adr Hfr) as [_ Hp']. unfold wp. pose proof Hfr as (_ & _ & Hh & _).
    erewrite bind_eq by (apply on_pa_eq; by apply (pg_addr_spec _ _ _ _ _ _ Hh (lookup_insert_eq _ _ _))).
    erewrite bind_eq by (apply to_vir; lia). erewrite bind_eq by (apply put_ent_wr; lia). cbn. right. right.
    replace (Mst (m_pa s1) (m_words s1) (m_mmu s1) (m_cr3 s1) (m_pml4 s1)) with s1 by (by destruct s1).
    rewrite key_split. split_and!; [done|by apply (grow_tab_none HI Hc He)|]. exists i', p'. split_and!; [done| |].
    + by apply (grow_frame HI HA Hsp Hc Ht Hx HlT Hfr iR).
    + by apply (grow_minv HI HA Hsp Hc Ht Hx HlT He HX Hfr Hf).
Qed.

(** ** Releasing a table *)

(** The state after the page of descriptor [i] left the list of level [l] and was
    given back. *)
Definition freed_table (P : Z -> Prop) (A : blocks) (l : lvl) (i : Z) s s' : Prop :=
  pg_held (m_pa s') P (delete i A) /\ m_words s' = m_words s /\
  m_mmu s' = map_dirmsanr (fun k x => if decide (k = l) then x +u -1 else x)
               (map_dirhead (fun _ => filter (fun j => j <> i)) (m_mmu s)) /\
  m_cr3 s' = m_cr3 s /\ m_pml4 s' = m_pml4 s.

Lemma del_dirpage_spec s P A l i p n : pg_held (m_pa s) P A -> A !! i = Some (p, n) ->
  wp (del_dirpage l i) s (fun r s' => r = true /\ freed_table P A l i s s').
Proof.
  intros HA Hi. unfold del_dirpage, dir_unlink, upd_mmu. apply wp_bind. cbn. unfold wp.
  erewrite bind_eq by (apply on_pa_eq; by apply (pg_fpagenr_spec _ _ _ _ _ _ HA Hi)). cbn [m_pa m_words m_mmu m_cr3 m_pml4].
  apply (wp_bind (on_pa (pg_merge i n))). apply wp_on_pa. eapply wp_mono; [by apply (pg_merge_spec _ _ _ _ _ _ HA Hi)|].
  intros r pa [-> Hh]. cbn. done.
Qed.

Lemma find_first_hit {T} (s : T) (L : list Z) (f : Z -> M T (option Z)) i :
  (forall j, j ∈ L -> f j s = Ret (if decide (j = i) then Some i else None, s)) -> i ∈ L -> find_first L f s = Ret (Some i, s).
Proof.
  induction L as [|j L IH]; intros Hf Hi; [by apply elem_of_nil in Hi|]. cbn [find_first].
  erewrite bind_eq by (apply Hf; by left). destruct (decide (j = i)) as [->|Hne]; [done|].
  apply IH; [intros; apply Hf; by right|]. by apply elem_of_cons in Hi as [->|].
Qed.

Lemma mmu_del_direarr_spec X s P O Tab E A l k i p msa : MInv X s P O Tab E -> pg_held (m_pa s) P A -> split_blocks A O Tab ->
  Tab !! (l, k) = Some (i, p) -> msa = None \/ msa = Some i ->
  wp (mmu_del_direarr l (p + base) msa) s (fun r s' => r = true /\ freed_table P A l i s s').
Proof.
  intros HI HA Hsp Ht Hmsa. destruct (table_adr HI _ _ _ Ht) as [_ Hp].
  assert (Hadr : forall a j q, Tab !! a = Some (j, q) -> on_pa (pg_addr j) s = Ret (q, s)).
  { intros a j q Ha. rewrite (on_pa_eq _ _ q (m_pa s)); [by destruct s|]. apply (pg_addr_spec _ P A j q 1 HA). apply Hsp. right. by exists a. }
  assert (Hi : A !! i = Some (p, 1)) by (apply Hsp; right; by exists (l, k)).
  unfold mmu_del_direarr. rewrite base_nonzero by lia. unfold wp. erewrite bind_eq by (apply to_phy; lia).
  destruct Hmsa as [->| ->].
  - erewrite bind_eq by done. cbn iota. unfold gets. erewrite bind_eq by done.
    rewrite (bind_eq _ _ s (Some i) s); [by apply (del_dirpage_spec s P A l i p 1)|]. apply find_first_hit.
    + intros j (k2 & q & Hj)%(mi_list _ _ _ _ _ _ HI). erewrite bind_eq by (by eapply Hadr). unfold mret, M_ret. do 2 f_equal.
      destruct (decide (j = i)) as [->|Hne].
      * pose proof (mi_inj _ _ _ _ _ _ HI _ _ _ _ _ Hj Ht) as [= ->]. rewrite Hj in Ht. simplify_eq. by rewrite Z.eqb_refl.
      * assert (Hkk : (l, k2) <> (l, k)) by (intros [= ->]; congruence). pose proof (table_apart HI _ _ _ _ _ _ Hj Ht Hkk).
        by replace (q =? p) with false by lia.
    + apply (mi_list _ _ _ _ _ _ HI). by exists k, p.
  - erewrite bind_eq by (erewrite bind_eq by (by eapply Hadr); done). rewrite Z.eqb_refl. by apply (del_dirpage_spec s P A l i p 1).
Qed.

Section shrink.
Context {s : mst S} {P O Tab E} {l l' : lvl} {k ip pp x i p e : Z} (HI : MInv (Some (l', 512 * k + x)) s P O Tab E)
  {A : blocks} (HA : pg_held (m_pa s) P A) (Hsp : split_blocks A O Tab).
Context (Hc : child l = Some l') (Hpar : Tab !! (l, k) = Some (ip, pp)) (Hx : 0 <= x < 512) (Hl : l = LT -> x < 256)
  (He : E !! (l, 512 * k + x) = Some e) (Ht : Tab !! (l', 512 * k + x) = Some (i, p)) (Hem : tempty E l' (512 * k + x)).
Context {s1 : mst S} (Hfr : freed_table P A l' i s s1).

Abbreviation kk := (512 * k + x).
Abbreviation Tab' := (delete (l', kk) Tab).
Abbreviation E' := (delete (l, kk) E).

Lemma shrink_other a j q : Tab' !! a = Some (j, q) -> Tab !! a = Some (j, q) /\ j <> i.
Proof using HI Ht.
  intros [Hne Ha]%lookup_delete_Some. split; [done|]. intros ->. apply Hne. by apply (mi_inj _ _ _ _ _ _ HI _ _ _ _ _ Ht Ha).
Qed.

Lemma shrink_blocks : split_blocks (delete i A) O Tab'.
Proof using HI Hsp Ht.
  destruct Hsp as [H1 H2]. split.
  - intros j b. rewrite lookup_delete_Some, H1. split.
    + intros [Hne [?|(a & Ha & Hb)]]; [by left|]. right. exists a. rewrite lookup_delete_ne; [done|]. intros <-. congruence.
    + intros [Hj|(a & [Ha Hne]%shrink_other & Hb)]; [|split; [done|right; by exists a]]. split; [|by left]. intros <-. by apply (H2 i b (l', kk) p).
  - intros j b a q Hj [Ha _]%shrink_other. by apply (H2 j b a q).
Qed.

Lemma shrink_frame iR R : Tab !! (LT, 0) = Some (iR, R) -> mframe P O R s (wr (pp + 8 * x) 0 s1).
Proof using HI Hpar Hx Hl Hfr.
  intros HR. destruct Hfr as (_ & Hw & Hm & H3 & H4). split; cbn; [|done|done|by rewrite Hm|by rewrite Hm].
  intros y Hy. rewrite Hw. apply lookup_insert_ne. intros <-. by apply (table_not_foreign HI l k ip pp R iR x).
Qed.

Lemma shrink_minv : MInv (Some (l, k)) (wr (pp + 8 * x) 0 s1) P O Tab' E'.
Proof using HI HA Hsp Hc Hpar Hx Hl He Ht Hem Hfr.
  destruct (words_write _ s P O Tab E E' l k ip pp x HI Hpar Hx Hl) as [W1 W2].
  { intros a Ha. by rewrite lookup_delete_ne by congruence. }
  rewrite lookup_delete_eq in W1, W2. cbn [default] in W1, W2. pose proof (child_ne _ _ Hc) as [Hll HlT].
  destruct Hfr as (Hh & Hw & Hmmu & _). split; cbn [m_pa m_words m_mmu wr]; rewrite ?Hw; try done.
  - exists (delete i A). split; [done|apply shrink_blocks].
  - destruct (mi_root _ _ _ _ _ _ HI) as (iR & R & HR & Hm). exists iR, R. rewrite lookup_delete_ne by congruence. by rewrite Hmmu.
  - intros k2 t. rewrite lookup_delete_ne by congruence. apply (mi_top _ _ _ _ _ _ HI).
  - intros a j q [Ha _]%shrink_other. by apply (mi_krnl _ _ _ _ _ _ HI a j).
  - intros a b j q r [Ha _]%shrink_other [Hb _]%shrink_other. by apply (mi_inj _ _ _ _ _ _ HI a b j q r).
  - intros l2 k2 j q y [Ha _]%shrink_other. by apply (W1 l2 k2 j).
  - intros j q y [Ha _]%shrink_other. by apply (W2 j).
  - intros l2 l2' k2 e2 Hc2 [Hne He2]%lookup_delete_Some.
    destruct (mi_dir _ _ _ _ _ _ HI l2 l2' k2 e2 Hc2 He2) as (Hd & j & Hj). split; [done|]. exists j.
    rewrite lookup_delete_ne; [done|]. intros [= <- <-]. apply Hne. f_equal. destruct l, l2; cbn in *; congruence.
  - intros l2 l2' k2 t Hc2 [Hne Ht2]%lookup_delete_Some. rewrite lookup_delete_ne; [by apply (mi_tab _ _ _ _ _ _ HI l2 l2' k2 t)|].
    intros [= <- <-]. congruence.
  - intros l2 k2 e2 [Hne He2]%lookup_delete_Some. destruct (mi_par _ _ _ _ _ _ HI _ _ _ He2) as [Ht2 HT]. split; [|done].
    rewrite lookup_delete_ne; [done|]. intros [= <- Hk2]. pose proof (Hem (k2 mod 512) (Z.mod_pos_bound k2 512 ltac:(lia))) as Hn.
    rewrite Hk2, <- (Z.div_mod k2 512) in Hn by lia. congruence.
  - intros l2 k2 e2 [Hne He2]%lookup_delete_Some. by apply (mi_have _ _ _ _ _ _ HI l2 k2).
  - intros l2 k2 t [Hne Ht2]%lookup_delete_Some Hl2 HX Hem2. apply (mi_ne _ _ _ _ _ _ HI l2 k2 t Ht2 Hl2); [congruence|].
    intros y Hy. specialize (Hem2 y Hy). rewrite lookup_delete_ne in Hem2; [done|]. intros (<- & <- & _)%key_cell; done.
  - intros l2 j. rewrite Hmmu. autorewrite with mmudsc. rewrite elem_of_filter_ne, (mi_list _ _ _ _ _ _ HI). split.
    + intros [(k2 & q & Ht2) Hne]. exists k2, q. rewrite lookup_delete_ne; [done|]. intros [= <- <-]. congruence.
    + intros (k2 & q & [Ht2 Hne]%shrink_other). split; [by exists k2, q|done].
  - intros l2. rewrite Hmmu. autorewrite with mmudsc. apply NoDup_filter, (mi_nodup _ _ _ _ _ _ HI).
  - intros l2. rewrite Hmmu. autorewrite with mmudsc. rewrite (mi_cnt _ _ _ _ _ _ HI). destruct (decide (l2 = l')) as [->|Hne].
    + rewrite length_filter_ne; [|apply (mi_nodup _ _ _ _ _ _ HI)|apply (mi_list _ _ _ _ _ _ HI); by exists kk, p].
      unfold u64. by rewrite Zplus_mod_idemp_l.
    + rewrite filter_ne_notin; [done|]. intros (k2 & q & Ht2)%(mi_list _ _ _ _ _ _ HI).
      pose proof (mi_inj _ _ _ _ _ _ HI _ _ _ _ _ Ht Ht2). congruence.
Qed.
End shrink.

End ops.
