(* ===== verification/MmuSpec.v ===== *)
(** * Page tables: mapping and unmapping

    The two operations on an address space, [hal_mmu_transform] and
    [hal_mmu_untransform], level by level: how far a new table is built, how a
    failed mapping is undone, and how emptied tables are released. *)

From S2P Require Import Prelude PhyMem Boot BootSpec BootPages PageIf Mmu MmuInv MmuOps.

Section spec.
Context {S : Type} `{PageAlloc S}.
Implicit Types (s : mst S) (Tab : tables) (E : entries) (X : option (lvl * Z)).

(** ** Releasing an empty table *)

Lemma allzero_loop_spec X s P O Tab E l k i p : MInv X s P O Tab E -> Tab !! (l, k) = Some (i, p) -> l <> LT ->
  forall n x, 0 <= x -> x + Z.of_nat n <= 512 ->
  exists b, allzero_loop n (p + base) x s = Ret (b, s) /\ (b = true <-> forall y, x <= y < x + Z.of_nat n -> E !! (l, 512 * k + y) = None).
Proof.
  intros HI Ht Hl n. induction n as [|n IH]; intros x Hx Hn; cbn [allzero_loop].
  - exists true. split; [done|]. split; [intros _ y Hy; lia|done].
  - erewrite bind_eq by (by apply (get_entry HI l k i p); [| lia |]).
    destruct (E !! (l, 512 * k + x)) as [e|] eqn:He.
    + destruct (mi_have _ _ _ _ _ _ HI _ _ _ He) as [_ Hh]. apply have_nonzero in Hh. change (default 0 (Some e)) with e.
      replace (negb (0 =? e)) with true by lia. exists false. split; [done|]. split; [done|]. intros Hall.
      rewrite (Hall x) in He by lia. done.
    + change (negb (0 =? default 0 None)) with false. cbn iota. destruct (IH (x + 1) ltac:(lia) ltac:(lia)) as (b & -> & Hb). exists b.
      split; [done|]. rewrite Hb. split; intros Hall y Hy; [|apply Hall; lia]. destruct (decide (y = x)) as [->|]; [done|apply Hall; lia].
Qed.

Lemma allzero_spec X s P O Tab E l k i p : MInv X s P O Tab E -> Tab !! (l, k) = Some (i, p) -> l <> LT ->
  exists b, direarr_is_allzero (p + base) s = Ret (b, s) /\ (b = true <-> tempty E l k).
Proof.
  intros HI Ht Hl. destruct (allzero_loop_spec X s P O Tab E l k i p HI Ht Hl 512 0) as (b & Hb & Hiff); [lia|lia|].
  exists b. split; [done|]. rewrite Hiff. done.
Qed.

Lemma at_index l v : uaddr v -> 0 <= dire_index l v < 512 /\ (l = LT -> dire_index l v < 256).
Proof. intros Hv. split; [apply dire_index_range|]. intros ->. rewrite top_index by done. by apply tkey_top. Qed.

Section at_entry.
Context {X s P O Tab E} (HI : MInv X s P O Tab E) {iR R : Z} (HR : Tab !! (LT, 0) = Some (iR, R)).
Context {l l' : lvl} {v i p : Z} (Hv : uaddr v) (Hc : child l = Some l') (Ht : Tab !! (l, tkey l v) = Some (i, p)).

Lemma at_read : (p + base =? 0) = false /\ get_ent (p + base) (dire_index l v) s = Ret (default 0 (E !! (l, key l v)), s).
Proof using HI Hv Ht.
  destruct (table_adr HI _ _ _ Ht) as [_ Hp]. destruct (at_index l v Hv) as [H1 H2]. split; [apply base_nonzero; lia|].
  rewrite (get_entry HI l (tkey l v) i p) by done. by rewrite <- key_split.
Qed.

(** Nothing below the entry: there is nothing to release. *)
Lemma untransform_absent msa : E !! (l, key l v) = None -> mmu_untransform_dire l l' (p + base) msa v s = Ret (true, s).
Proof using HI Hv Ht.
  intros He. destruct at_read as [Hnz Hg]. unfold mmu_untransform_dire. rewrite Hnz. erewrite bind_eq by exact Hg. by rewrite He.
Qed.

Lemma untransform_dire_spec msa : X = Some (l', key l v) ->
  msa = None \/ (exists j q, Tab !! (l', key l v) = Some (j, q) /\ msa = Some j) ->
  wp (mmu_untransform_dire l l' (p + base) msa v) s (fun r s' => r = true /\ mframe P O R s s' /\
    ((s' = s /\ MInv None s P O Tab E) \/
     (tempty E l' (key l v) /\ is_Some (Tab !! (l', key l v)) /\
      MInv (Some (l, tkey l v)) s' P O (delete (l', key l v) Tab) (delete (l, key l v) E)))).
Proof using HI HR Hv Hc Ht.
  intros HX Hmsa. destruct (child_ne _ _ Hc) as [Hll HlT]. destruct at_read as [Hnz Hg]. destruct (at_index l v Hv) as [Hx1 Hx2].
  destruct (table_adr HI _ _ _ Ht) as [_ Hp]. unfold wp.
  destruct (E !! (l, key l v)) as [e|] eqn:He.
  2:{ rewrite untransform_absent by done. split_and!; [done|done|]. left. split; [done|]. subst X.
      pose proof (mi_ne _ _ _ _ _ _ HI) as Hne. pose proof (mi_tab _ _ _ _ _ _ HI l l' (key l v)) as Htab.
      destruct HI. split; try done. intros l2 k2 t Ht2 Hl2 _. apply (Hne l2 k2 t Ht2 Hl2). intros [= <- <-].
      destruct (Htab t Hc Ht2). congruence. }
  destruct (mi_dir _ _ _ _ _ _ HI l l' _ _ Hc He) as (_ & i' & Ht'). destruct (mi_have _ _ _ _ _ _ HI _ _ _ He) as [_ Hhave].
  destruct (table_adr HI _ _ _ Ht') as [_ Hp']. destruct (allzero_spec _ _ _ _ _ _ _ _ _ _ HI Ht' HlT) as (b & Eb & Hb).
  unfold mmu_untransform_dire. rewrite Hnz. erewrite bind_eq by exact Hg. change (default 0 (Some e)) with e. rewrite Hhave. cbn [negb].
  erewrite bind_eq by (apply to_vir; lia). erewrite bind_eq by exact Eb. destruct b; cbn [negb].
  2:{ split_and!; [done|done|]. left. split; [done|]. apply (minv_settle X); [done|]. intros l2 k2 HX2 _ Hem. subst X. simplify_eq.
      by apply Hb in Hem. }
  destruct (mi_held _ _ _ _ _ _ HI) as (A & HA & Hsp). apply (wp_bind (mmu_del_direarr l' (dire_ret_padr e + base) msa)).
  eapply wp_mono; [apply (mmu_del_direarr_spec X s P O Tab E A l' (key l v) i' (dire_ret_padr e) msa HI HA Hsp Ht')|].
  { destruct Hmsa as [->|(j & q & Hj & ->)]; [by left|right]. congruence. }
  intros r s1 [-> Hfr]. cbn [negb]. unfold wp. erewrite bind_eq by (apply put_ent_wr; lia). cbn.
  pose proof (proj1 Hb eq_refl) as Hem. rewrite HX in HI. rewrite (key_split l v) in HI, He, Ht', Hem |- *. split_and!; [done| |].
  - by apply (shrink_frame HI Ht Hx1 Hx2 Hfr iR R HR).
  - right. split_and!; [done|by rewrite Ht'|]. by apply (shrink_minv HI HA Hsp Hc Ht Hx1 Hx2 He Ht' Hem Hfr).
Qed.
End at_entry.

(** ** Mapping *)

Definition tables_used Tab E : Prop := forall l k t, Tab !! (l, k) = Some t -> l <> LT -> ~ tempty E l k.

Lemma minv_used s P O Tab E : MInv None s P O Tab E -> tables_used Tab E.
Proof. intros HI l k t Ht Hl. by apply (mi_ne _ _ _ _ _ _ HI l k t). Qed.

(** The entry of [v] in a table of level [l] has a table below it: it was there,
    or it is new and empty. *)
Inductive built (v : Z) (l l' : lvl) Tab E : tables -> entries -> option Z -> Prop :=
  | built_old : tables_used Tab E -> built v l l' Tab E Tab E None
  | built_new i p e : Tab !! (l', key l v) = None -> E !! (l, key l v) = None -> tempty E l' (key l v) ->
      built v l l' Tab E (<[(l', key l v) := (i, p)]> Tab) (<[(l, key l v) := e]> E) (Some i).

Lemma built_leaf v l l' Tab E Tab' E' m k : child l = Some l' -> built v l l' Tab E Tab' E' m -> E' !! (LM, k) = E !! (LM, k).
Proof. intros Hc []; [done|]. apply lookup_insert_ne. by intros [= -> _]. Qed.

Lemma built_table v l l' Tab E Tab' E' m a : built v l l' Tab E Tab' E' m -> is_Some (Tab !! a) -> Tab' !! a = Tab !! a.
Proof. intros [] [t Ht]; [done|]. apply lookup_insert_ne. congruence. Qed.

Lemma build_step X s P O Tab E l l' i p v f iR R :
  MInv X s P O Tab E -> Tab !! (LT, 0) = Some (iR, R) -> uaddr v -> child l = Some l' -> Tab !! (l, tkey l v) = Some (i, p) ->
  X = None \/ X = Some (l, tkey l v) -> flags_ok f ->
  wp (mmu_transform_dire l l' (p + base) v f) s (fun r s' =>
    (E !! (l, key l v) = None /\ r = (0, None) /\ s' = s) \/
    (exists Tab' E' i' p' m, r = (p' + base, m) /\ built v l l' Tab E Tab' E' m /\ mframe P O R s s' /\
      MInv (Some (l', tkey l' v)) s' P O Tab' E' /\ Tab' !! (l', tkey l' v) = Some (i', p'))).
Proof.
  intros HI HR Hv Hc Ht HX Hf. rewrite (tkey_child l l') by done. destruct (child_ne _ _ Hc) as [Hll _].
  eapply wp_mono; [by apply (mmu_transform_dire_spec X s P O Tab E l l' i p v f iR R)|].
  intros r s' [(i' & p' & Ht' & -> & -> & HI')|[Hno|(He & Ht' & i' & p' & -> & Hfr & HI')]]; [right|by left|right].
  - exists Tab, E, i', p', None. split_and!; [done| |done|by apply minv_loosen|done]. constructor. by eapply minv_used.
  - exists (<[(l', key l v) := (i', p')]> Tab), (<[(l, key l v) := Z.lor p' f]> E), i', p', (Some i'). split_and!; [done| |done|done|apply lookup_insert_eq].
    constructor; [done|done|]. rewrite (key_split l v) in He |- *. by apply (grow_empty HI Hc He).
Qed.

(** Undoing a step restores the view. *)
Lemma undo_step s P O Tab E Tab' E' m l l' i p v iR R :
  MInv (Some (l', tkey l' v)) s P O Tab' E' -> Tab' !! (LT, 0) = Some (iR, R) -> uaddr v -> child l = Some l' ->
  built v l l' Tab E Tab' E' m -> Tab !! (l, tkey l v) = Some (i, p) ->
  wp (mmu_untransform_dire l l' (p + base) m v) s (fun r s' => r = true /\ mframe P O R s s' /\ MInv (Some (l, tkey l v)) s' P O Tab E).
Proof.
  intros HI HR Hv Hc Hb Ht. rewrite (tkey_child l l') in HI by done. destruct (child_ne _ _ Hc) as [Hll HlT].
  assert (Ht' : Tab' !! (l, tkey l v) = Some (i, p)) by (rewrite (built_table _ _ _ _ _ _ _ _ _ Hb); [done|by rewrite Ht]).
  eapply wp_mono; [apply (untransform_dire_spec HI HR Hv Hc Ht'); [done|]|].
  { destruct Hb as [|i' p' e]; [by left|right]. exists i', p'. by rewrite lookup_insert_eq. }
  intros r s' (-> & Hfr & Hres). split_and!; [done|done|]. destruct Hb as [Hused|i' p' e Hn1 Hn2 Hem].
  - destruct Hres as [[-> HI']|(Hem & [t Htt] & _)]; [by apply minv_loosen|]. by destruct (Hused _ _ _ Htt HlT).
  - destruct Hres as [[-> HI']|(_ & _ & HI')].
    + exfalso. apply (mi_ne _ _ _ _ _ _ HI' l' (key l v) (i', p')); [apply lookup_insert_eq|done|done|]. intros y Hy.
      rewrite lookup_insert_ne by congruence. by apply Hem.
    + by rewrite !delete_insert_id in HI' by done.
Qed.

Lemma minv_top s P O Tab E k : MInv (Some (LT, k)) s P O Tab E -> MInv None s P O Tab E.
Proof. intros HI. apply (minv_settle _ _ _ _ _ _ HI). by intros l k' [= <- _]. Qed.

Lemma tdirearr_root X s P O Tab E iR R : MInv X s P O Tab E -> Tab !! (LT, 0) = Some (iR, R) ->
  mud_tdirearr (m_mmu s) = R + base /\ (R + base =? 0) = false.
Proof.
  intros HI HR. destruct (mi_root _ _ _ _ _ _ HI) as (i & R' & HR' & Hm). rewrite HR in HR'. simplify_eq. split; [done|].
  destruct (table_adr HI _ _ _ HR) as [_ ?]. apply base_nonzero. lia.
Qed.

Lemma table_nonzero X s P O Tab E a i p : MInv X s P O Tab E -> Tab !! a = Some (i, p) -> (p + base =? 0) = false.
Proof. intros HI Ha. destruct (table_adr HI _ _ _ Ha) as [_ ?]. apply base_nonzero. lia. Qed.

Lemma refresh_spec s (Q : unit -> mst S -> Prop) : Q tt s -> wp hal_mmu_refresh s Q.
Proof. unfold wp, hal_mmu_refresh, read_cr3, write_cr3, gets, modify, mbind, M_bind. by destruct s. Qed.

Section transform.
Context {s : mst S} {P O Tab E} (HI : MInv None s P O Tab E) {iR R : Z} (HR : Tab !! (LT, 0) = Some (iR, R)).
Context {v padr f : Z} (Hv : uaddr v) (Hpa : page_adr padr) (Hf : flags_ok f).

Lemma transform_root : Tab !! (LT, tkey LT v) = Some (iR, R).
Proof using HR Hv. by rewrite (proj1 (tkey_top v Hv)). Qed.

(** Entering the page once the tables are there. *)
Lemma transform_msa_spec s1 Tab1 E1 i p : MInv (Some (LM, tkey LM v)) s1 P O Tab1 E1 -> Tab1 !! (LM, tkey LM v) = Some (i, p) ->
  Tab1 !! (LT, 0) = Some (iR, R) ->
  wp (mmu_transform_msa (p + base) v padr f) s1 (fun r s' => r = true /\ mframe P O R s1 s' /\
    MInv None s' P O Tab1 (<[(LM, key LM v) := Z.lor padr f]> E1)).
Proof using Hpa Hf Hv.
  intros HI1 Ht HR1. unfold mmu_transform_msa. rewrite (table_nonzero _ _ _ _ _ _ _ _ _ HI1 Ht).
  destruct (table_adr HI1 _ _ _ Ht) as [_ Hp]. pose proof (dire_index_range LM v) as Hx. unfold wp, mmu_mdire_index.
  erewrite bind_eq by (apply put_ent_wr; lia). cbn. split_and!; [done|by apply (wr_frame _ _ _ _ _ _ LM (tkey LM v) i p _ iR R _ HI1)|].
  rewrite key_split. apply (minv_set_leaf _ _ _ _ _ _ _ i _ _ _ HI1); [done|done|by right| |by apply ent_have; destruct Hf].
  apply Z.lor_nonneg. unfold page_adr in Hpa. destruct Hf. lia.
Qed.

Lemma hal_mmu_transform_spec : wp (hal_mmu_transform v padr f) s (fun r s' => mframe P O R s s' /\
  ((r = true /\ exists Tab' E', MInv None s' P O Tab' E' /\ Tab' !! (LT, 0) = Some (iR, R) /\
      forall k, E' !! (LM, k) = if decide (k = key LM v) then Some (Z.lor padr f) else E !! (LM, k)) \/
   (r = false /\ MInv None s' P O Tab E))).
Proof using HI HR Hv Hpa Hf.
  destruct (tdirearr_root _ _ _ _ _ _ _ _ HI HR) as [Hroot Hnz]. pose proof transform_root as HR0.
  unfold hal_mmu_transform, hal_mmu_transform_core. apply wp_bind. cbn. rewrite Hroot, Hnz. apply wp_bind.
  eapply wp_mono; [apply (build_step None s P O Tab E LT LS iR R v f iR R HI HR Hv eq_refl HR0); auto|].
  intros r1 s1 [(He & -> & ->)|(T1 & E1 & i1 & p1 & m1 & -> & B1 & F1 & I1 & t1)].
  { cbn. apply wp_bind. unfold wp. unfold mmu_untransform_sdire. rewrite (untransform_absent HI Hv HR0) by done. split; [done|by right]. }
  assert (R1 : T1 !! (LT, 0) = Some (iR, R)) by (rewrite (built_table _ _ _ _ _ _ _ _ _ B1); [done|by rewrite HR]).
  rewrite (table_nonzero _ _ _ _ _ _ _ _ _ I1 t1). apply wp_bind.
  (* undoing the first step *)
  assert (U1 : forall s2 (Q : bool -> mst S -> Prop), mframe P O R s s2 -> MInv (Some (LS, tkey LS v)) s2 P O T1 E1 ->
    (forall s3, mframe P O R s s3 -> MInv None s3 P O Tab E -> Q false s3) -> wp (mmu_untransform_sdire (R + base) m1 v ;; mret false) s2 Q).
  { intros s2 Q F2 I2 HQ. apply wp_bind. eapply wp_mono; [by apply (undo_step s2 P O Tab E T1 E1 m1 LT LS iR R v iR R)|].
    intros r3 s3 (-> & F3 & I3). apply HQ; [by transitivity s2|by eapply minv_top]. }
  eapply wp_mono; [apply (build_step _ s1 P O T1 E1 LS LI i1 p1 v f iR R I1 R1 Hv eq_refl t1); auto|].
  intros r2 s2 [(He & -> & ->)|(T2 & E2 & i2 & p2 & m2 & -> & B2 & F2 & I2 & t2)].
  { cbn. apply wp_bind. unfold wp. unfold mmu_untransform_idire. rewrite (untransform_absent I1 Hv t1) by done.
    apply U1; [done|done|]. auto. }
  assert (R2 : T2 !! (LT, 0) = Some (iR, R)) by (rewrite (built_table _ _ _ _ _ _ _ _ _ B2); [done|by rewrite R1]).
  rewrite (table_nonzero _ _ _ _ _ _ _ _ _ I2 t2). apply wp_bind.
  eapply wp_mono; [apply (build_step _ s2 P O T2 E2 LI LM i2 p2 v f iR R I2 R2 Hv eq_refl t2); auto|].
  intros r3 s3 [(He & -> & ->)|(T3 & E3 & i3 & p3 & m3 & -> & B3 & F3 & I3 & t3)].
  { cbn. apply wp_bind. unfold wp. unfold mmu_untransform_mdire. rewrite (untransform_absent I2 Hv t2) by done.
    apply (wp_bind (mmu_untransform_idire (p1 + base) m2 v)).
    eapply wp_mono; [by apply (undo_step s2 P O T1 E1 T2 E2 m2 LS LI i1 p1 v iR R)|].
    intros r4 s4 (-> & F4 & I4). apply U1; [by transitivity s1; [|transitivity s2]|done|]. auto. }
  assert (R3 : T3 !! (LT, 0) = Some (iR, R)) by (rewrite (built_table _ _ _ _ _ _ _ _ _ B3); [done|by rewrite R2]).
  rewrite (table_nonzero _ _ _ _ _ _ _ _ _ I3 t3). apply wp_bind.
  eapply wp_mono; [by apply (transform_msa_spec s3 T3 E3 i3 p3)|]. intros r4 s4 (-> & F4 & I4). cbn [Bool.eqb]. apply wp_bind, refresh_spec, wp_ret.
  split; [by transitivity s1; [|transitivity s2; [|transitivity s3]]|]. left. split; [done|].
  exists T3, (<[(LM, key LM v) := Z.lor padr f]> E3). split_and!; [done|done|]. intros k. destruct (decide (k = key LM v)) as [->|Hne].
  - apply lookup_insert_eq.
  - rewrite lookup_insert_ne by congruence. rewrite (built_leaf v LI LM _ _ _ _ _ k eq_refl B3), (built_leaf v LS LI _ _ _ _ _ k eq_refl B2).
    apply (built_leaf v LT LS _ _ _ _ _ k eq_refl B1).
Qed.
End transform.

(** ** Unmapping *)

Lemma find_direarr_spec X s P O Tab E l l' v i p : MInv X s P O Tab E -> uaddr v -> child l = Some l' -> Tab !! (l, tkey l v) = Some (i, p) ->
  (E !! (l, key l v) = None /\ mmu_find_direarr l (p + base) v s = Ret (0, s)) \/
  (exists i' p', Tab !! (l', tkey l' v) = Some (i', p') /\ mmu_find_direarr l (p + base) v s = Ret (p' + base, s) /\ (p' + base =? 0) = false).
Proof.
  intros HI Hv Hc Ht. destruct (at_read HI Hv Ht) as [Hnz Hg]. unfold mmu_find_direarr. rewrite Hnz, (bind_eq _ _ _ _ _ Hg).
  destruct (E !! (l, key l v)) as [e|] eqn:He; [right|by left]. change (default 0 (Some e)) with e.
  destruct (mi_have _ _ _ _ _ _ HI _ _ _ He) as [_ ->]. destruct (mi_dir _ _ _ _ _ _ HI l l' _ _ Hc He) as (_ & i' & Ht').
  destruct (table_adr HI _ _ _ Ht') as [_ Hp']. exists i', (dire_ret_padr e). rewrite (tkey_child l l') by done.
  split_and!; [done|apply to_vir; lia|apply base_nonzero; lia].
Qed.

Section untransform.
Context {P : Z -> Prop} {O : blocks} {iR R v : Z} (Hv : uaddr v).

(** Where every table is in use there is nothing to release. *)
Lemma release_none s Tab E l l' i p : MInv None s P O Tab E -> Tab !! (LT, 0) = Some (iR, R) -> child l = Some l' ->
  Tab !! (l, tkey l v) = Some (i, p) -> wp (mmu_untransform_dire l l' (p + base) None v) s (fun r s' => r = true /\ s' = s).
Proof using Hv.
  intros HI HR Hc Ht. destruct (child_ne _ _ Hc) as [_ HlT].
  eapply wp_mono; [apply (untransform_dire_spec (minv_loosen (Some (l', key l v)) _ _ _ _ _ HI) HR Hv Hc Ht); [done|by left]|].
  intros r s' (-> & _ & [[-> _]|(Hem & [t Htt] & _)]); [done|]. by destruct (minv_used _ _ _ _ _ HI _ _ _ Htt HlT).
Qed.

Lemma release_step s Tab E l l' i p : MInv (Some (l', tkey l' v)) s P O Tab E -> Tab !! (LT, 0) = Some (iR, R) -> child l = Some l' ->
  Tab !! (l, tkey l v) = Some (i, p) ->
  wp (mmu_untransform_dire l l' (p + base) None v) s (fun r s' => mframe P O R s s' /\ exists Tab' E',
    MInv (Some (l, tkey l v)) s' P O Tab' E' /\ (forall k, E' !! (LM, k) = E !! (LM, k)) /\ (forall k a, k <> l' -> Tab' !! (k, a) = Tab !! (k, a))).
Proof using Hv.
  intros HI HR Hc Ht. rewrite (tkey_child l l') in HI by done.
  eapply wp_mono; [apply (untransform_dire_spec HI HR Hv Hc Ht); [done|by left]|].
  intros r s' (_ & Hfr & [[-> HI']|(_ & _ & HI')]); (split; [done|]).
  - exists Tab, E. split_and!; [by apply minv_loosen|done|done].
  - exists (delete (l', key l v) Tab), (delete (l, key l v) E). split_and!; [done| |].
    + intros k. apply lookup_delete_ne. by intros [= -> _].
    + intros k a Hk. apply lookup_delete_ne. congruence.
Qed.

Context {s : mst S} {Tab E} (HI : MInv None s P O Tab E) (HR : Tab !! (LT, 0) = Some (iR, R)).

Lemma untransform_msa_spec i p : Tab !! (LM, tkey LM v) = Some (i, p) ->
  wp (mmu_untransform_msa (p + base) v) s (fun r s' => mframe P O R s s' /\
    match E !! (LM, key LM v) with
    | Some e => r = dire_ret_padr e /\ MInv (Some (LM, tkey LM v)) s' P O Tab (delete (LM, key LM v) E)
    | None => r = 0 /\ s' = s
    end).
Proof using HI HR Hv.
  intros Ht. destruct (at_read HI Hv Ht) as [Hnz Hg]. destruct (table_adr HI _ _ _ Ht) as [_ Hp]. pose proof (dire_index_range LM v) as Hx.
  unfold mmu_untransform_msa, wp, mmu_mdire_index. rewrite Hnz, (bind_eq _ _ _ _ _ Hg). destruct (E !! (LM, key LM v)) as [e|] eqn:He; [|done].
  change (default 0 (Some e)) with e. unfold mmumsa_is_have. rewrite (proj2 (mi_have _ _ _ _ _ _ HI _ _ _ He)). cbn [negb].
  erewrite bind_eq by (apply put_ent_wr; lia). cbn. split; [by apply (wr_frame None s P O Tab E LM (tkey LM v) i p _ iR)|].
  split; [done|]. rewrite (key_split LM v). by apply (minv_del_leaf _ _ _ _ _ _ i).
Qed.

(** The three releases after the page left its table. *)
Lemma release_chain s1 E1 i1 p1 i2 p2 (r : Z) : MInv (Some (LM, tkey LM v)) s1 P O Tab E1 ->
  Tab !! (LS, tkey LS v) = Some (i1, p1) -> Tab !! (LI, tkey LI v) = Some (i2, p2) ->
  wp (mmu_untransform_mdire (p2 + base) None v ;; mmu_untransform_idire (p1 + base) None v ;;
      mmu_untransform_sdire (R + base) None v ;; hal_mmu_refresh ;; mret r) s1 (fun r' s' => r' = r /\ mframe P O R s1 s' /\ exists Tab' E',
    MInv None s' P O Tab' E' /\ Tab' !! (LT, 0) = Some (iR, R) /\ (forall k, E' !! (LM, k) = E1 !! (LM, k))).
Proof using HR Hv.
  intros I1 t1 t2. apply wp_bind.
  eapply wp_mono; [by apply (release_step s1 Tab E1 LI LM i2 p2)|]. intros _ s2 (F2 & T2 & E2 & I2 & L2 & K2).
  apply wp_bind. eapply wp_mono; [apply (release_step s2 T2 E2 LS LI i1 p1); [done|by rewrite K2|done|by rewrite K2]|].
  intros _ s3 (F3 & T3 & E3 & I3 & L3 & K3).
  apply wp_bind. eapply wp_mono; [apply (release_step s3 T3 E3 LT LS iR R); [done|by rewrite K3, K2|done|]|].
  { rewrite (proj1 (tkey_top v Hv)). by rewrite K3, K2. }
  intros _ s4 (F4 & T4 & E4 & I4 & L4 & K4). apply wp_bind, refresh_spec, wp_ret. split; [done|]. split; [by transitivity s2; [|transitivity s3]|].
  exists T4, E4. split_and!; [by eapply minv_top|by rewrite K4, K3, K2|]. intros k. by rewrite L4, L3, L2.
Qed.

Lemma hal_mmu_untransform_spec : wp (hal_mmu_untransform v) s (fun r s' => mframe P O R s s' /\
  r = default 0 (dire_ret_padr <$> E !! (LM, key LM v)) /\ exists Tab' E', MInv None s' P O Tab' E' /\ Tab' !! (LT, 0) = Some (iR, R) /\
    forall k, E' !! (LM, k) = if decide (k = key LM v) then None else E !! (LM, k)).
Proof using HI HR Hv.
  destruct (tdirearr_root _ _ _ _ _ _ _ _ HI HR) as [Hroot Hnz].
  assert (HR0 : Tab !! (LT, tkey LT v) = Some (iR, R)) by (by rewrite (proj1 (tkey_top v Hv))).
  assert (Hno : E !! (LM, key LM v) = None -> mframe P O R s s /\
    0 = default 0 (dire_ret_padr <$> E !! (LM, key LM v)) /\ exists Tab' E', MInv None s P O Tab' E' /\ Tab' !! (LT, 0) = Some (iR, R) /\
    forall k, E' !! (LM, k) = if decide (k = key LM v) then None else E !! (LM, k)).
  { intros He. rewrite He. split_and!; [done|done|]. exists Tab, E. split_and!; [done|done|]. intros k. by destruct (decide _) as [->|]. }
  assert (Hup : forall l l', child l = Some l' -> E !! (l, key l v) = None -> E !! (l', key l' v) = None).
  { intros l l' Hc Hn. destruct (E !! (l', key l' v)) as [e|] eqn:He; [|done].
    destruct (view_dirs _ _ _ _ _ _ l l' v e HI Hc He) as [? ?]. congruence. }
  unfold hal_mmu_untransform, hal_mmu_untransform_core. apply wp_bind. cbn [gets wp]. rewrite Hroot. unfold wp at 1. cbn.
  destruct (find_direarr_spec _ _ _ _ _ _ LT LS v _ _ HI Hv eq_refl HR0) as [[H4 F]|(i1 & p1 & t1 & F & N1)]; apply wp_bind; unfold mmu_find_sdirearr, wp at 1; rewrite F.
  { cbn. apply wp_bind, refresh_spec, wp_ret, Hno. by apply (Hup LI LM), (Hup LS LI), (Hup LT LS). }
  rewrite N1. destruct (find_direarr_spec _ _ _ _ _ _ LS LI v _ _ HI Hv eq_refl t1) as [[H4 F2]|(i2 & p2 & t2 & F2 & N2)]; apply wp_bind; unfold mmu_find_idirearr, wp at 1; rewrite F2.
  { cbn. apply wp_bind. eapply wp_mono; [by apply (release_none s Tab E LT LS iR R)|]. intros _ s' [_ ->].
    apply wp_bind, refresh_spec, wp_ret, Hno. by apply (Hup LI LM), (Hup LS LI). }
  rewrite N2. destruct (find_direarr_spec _ _ _ _ _ _ LI LM v _ _ HI Hv eq_refl t2) as [[H4 F3]|(i3 & p3 & t3 & F3 & N3)]; apply wp_bind; unfold mmu_find_mdirearr, wp at 1; rewrite F3.
  { cbn. apply wp_bind. eapply wp_mono; [by apply (release_none s Tab E LS LI i1 p1)|]. intros _ s' [_ ->].
    apply wp_bind. eapply wp_mono; [by apply (release_none s Tab E LT LS iR R)|]. intros _ s' [_ ->].
    apply wp_bind, refresh_spec, wp_ret, Hno. by apply (Hup LI LM). }
  rewrite N3. apply wp_bind. eapply wp_mono; [by apply (untransform_msa_spec i3 p3)|]. intros r s1 [Fr Hr].
  assert (Hgo : exists E1, MInv (Some (LM, tkey LM v)) s1 P O Tab E1 /\ r = default 0 (dire_ret_padr <$> E !! (LM, key LM v)) /\
    forall k, E1 !! (LM, k) = if decide (k = key LM v) then None else E !! (LM, k)).
  { destruct (E !! (LM, key LM v)) as [e|] eqn:He; destruct Hr as [-> Hr].
    - exists (delete (LM, key LM v) E). split_and!; [done|done|]. intros k.
      destruct (decide _) as [->|]; [apply lookup_delete_eq|apply lookup_delete_ne; congruence].
    - exists E. subst s1. split_and!; [by apply minv_loosen|done|]. intros k. by destruct (decide _) as [->|]. }
  destruct Hgo as (E1 & I1 & -> & L1). eapply wp_mono; [by apply (release_chain s1 E1 i1 p1 i2 p2)|].
  intros r' s' (-> & F' & T' & E' & I' & R' & L'). split_and!; [by transitivity s1|done|]. exists T', E'. split_and!; [done|done|].
  intros k. by rewrite L', L1.
Qed.
End untransform.

End spec.
