(* ===== verification/MmuLife.v ===== *)
(** * Page tables: creating and destroying an address space

    [hal_mmu_init] makes a space whose kernel half is that of the boot tables and
    whose user half is empty; [hal_mmu_clean] gives every table page back.  The
    translations of the kernel half survive every operation on the space. *)

From S2P Require Import Prelude PhyMem Boot BootSpec BootPages PageIf Mmu MmuInv MmuOps MmuSpec.

(** ** Translations that memory outside the tables determines *)

Lemma entry_mono (g g' : gmap Z Z) t t' i e :
  (forall w, g !! (t + 8 * Z.land i 0x1ff) = Some w -> g' !! (t' + 8 * Z.land i 0x1ff) = Some w) -> entry g t i = Some e -> entry g' t' i = Some e.
Proof.
  unfold entry. intros Hw. destruct (g !! _) as [w|] eqn:Hg; [|done]. by rewrite (Hw w eq_refl).
Qed.

(** A translation found in part of the memory is found in all of it, also from
    another root with the same top entry. *)
Lemma hw_walk_mono (g g' : gmap Z Z) c c' v a : g ⊆ g' ->
  (forall e, g !! (c + 8 * dire_index LT v) = Some e -> g' !! (c' + 8 * dire_index LT v) = Some e) ->
  hw_walk g c v = Some a -> hw_walk g' c' v = Some a.
Proof.
  intros Hsub Htop. unfold hw_walk.
  assert (Hm : forall t i e, entry g t i = Some e -> entry g' t i = Some e).
  { intros t i e. apply entry_mono. intros w Hw. by apply (lookup_weaken _ _ _ _ Hw). }
  destruct (entry g c (Z.shiftr v 39)) as [e4|] eqn:H4; [|done]. rewrite (entry_mono g g' c c' (Z.shiftr v 39) e4 Htop H4). cbn [mbind option_bind].
  destruct (entry g _ (Z.shiftr v 30)) as [e3|] eqn:H3; [|done]. rewrite (Hm _ _ _ H3). cbn [mbind option_bind].
  destruct (negb _); [done|]. destruct (entry g _ (Z.shiftr v 21)) as [e2|] eqn:H2; [|done]. rewrite (Hm _ _ _ H2). cbn [mbind option_bind].
  destruct (negb _); [done|]. destruct (entry g _ (Z.shiftr v 12)) as [e1|] eqn:H1; [|done]. by rewrite (Hm _ _ _ H1).
Qed.

(** An address whose top-level entry is in the kernel half. *)
Definition kaddr (v : Z) : Prop := 256 <= dire_index LT v.

Section life.
Context {S : Type} `{PageAlloc S}.
Implicit Types (s : mst S) (Tab : tables) (E : entries).

(** [g0]: tables of the kernel, outside the allocator's pages, with root [B]; the
    kernel half of the root [R] has their entries. *)
Record kernel_half (P : Z -> Prop) (g0 : gmap Z Z) (B R : Z) s : Prop := {
  kh_out x : is_Some (g0 !! x) -> forall q, P q -> ~ (q <= x < q + 4096);
  kh_sub : g0 ⊆ m_words s;
  kh_top y e : 256 <= y < 512 -> g0 !! (B + 8 * y) = Some e -> m_words s !! (R + 8 * y) = Some e
}.

Lemma kernel_half_frame P O g0 B R s s' : kernel_half P g0 B R s -> mframe P O R s s' -> kernel_half P g0 B R s'.
Proof.
  intros [H1 H2 H3] Hf. split; [done| |].
  - apply map_subseteq_spec. intros x w Hx. rewrite (fr_words _ _ _ _ _ Hf); [by apply (lookup_weaken _ _ _ _ Hx)|].
    left. apply H1. by rewrite Hx.
  - intros y e Hy He. rewrite (fr_words _ _ _ _ _ Hf); [by apply H3|]. right. right. by exists y.
Qed.

Lemma kernel_half_walk P g0 B R s v a : kernel_half P g0 B R s -> kaddr v -> hw_walk g0 B v = Some a -> hw_walk (m_words s) R v = Some a.
Proof.
  intros [_ H2 H3] Hv. apply hw_walk_mono; [done|]. intros e. apply H3. pose proof (dire_index_range LT v). unfold kaddr in Hv. lia.
Qed.

(** ** Creation *)

Lemma copy_ents_spec b r : 0 <= b <= 2 ^ 34 - 4096 -> 0 <= r <= 2 ^ 34 - 4096 -> b + 4096 <= r \/ r + 4096 <= b ->
  forall n x s, 0 <= x -> x + Z.of_nat n <= 512 -> (forall y, x <= y < x + Z.of_nat n -> is_Some (m_words s !! (b + 8 * y))) ->
  exists g, copy_ents n (b + base) (r + base) x s = Ret (tt, Mst (m_pa s) g (m_mmu s) (m_cr3 s) (m_pml4 s)) /\
    (forall y, x <= y < x + Z.of_nat n -> g !! (r + 8 * y) = m_words s !! (b + 8 * y)) /\
    (forall a, (forall y, x <= y < x + Z.of_nat n -> a <> r + 8 * y) -> g !! a = m_words s !! a).
Proof.
  intros Hb Hr Hap n. induction n as [|n IH]; intros x s Hx Hn Hw; cbn [copy_ents].
  - exists (m_words s). split; [by destruct s|]. split; [lia|done].
  - destruct (Hw x ltac:(lia)) as [e He].
    erewrite bind_eq by (unfold get_ent, ent_adr, base; rewrite (u64_small (_ + 8 * x)), u64_small by (rewrite u64max_val; lia);
      replace (_ - _) with (b + 8 * x) by lia; by rewrite He).
    erewrite bind_eq by (apply put_ent_wr; lia).
    destruct (IH (x + 1) (wr (r + 8 * x) e s)) as (g & -> & Hg1 & Hg2); [lia|lia| |].
    { intros y Hy. simpl. rewrite lookup_insert_ne by lia. apply Hw. lia. }
    exists g. split; [done|]. split.
    + intros y Hy. destruct (decide (y = x)) as [->|].
      * rewrite Hg2 by (intros; lia). simpl. by rewrite lookup_insert_eq, He.
      * rewrite Hg1 by lia. simpl. rewrite lookup_insert_ne by lia. done.
    + intros a Ha. rewrite Hg2 by (intros y Hy; apply Ha; lia). simpl. apply lookup_insert_ne. intros <-. apply (Ha x); lia.
Qed.

(** The boot tables: a root page outside the allocator's pages, without entries
    in the user half but for the first, which is dropped. *)
Record boot_root (P : Z -> Prop) s : Prop := {
  br_adr : 0 <= m_pml4 s <= 2 ^ 34 - 4096;
  br_out x q : m_pml4 s <= x < m_pml4 s + 4096 -> P q -> ~ (q <= x < q + 4096);
  br_words y : 0 <= y < 512 -> is_Some (m_words s !! (m_pml4 s + 8 * y));
  br_user y : 1 <= y < 256 -> m_words s !! (m_pml4 s + 8 * y) = Some 0
}.

Lemma mmu_new_tdirearr_spec s P A : pg_held (m_pa s) P A ->
  wp mmu_new_tdirearr s (fun r s' => (r = None /\ s' = s) \/ exists i p s1, r = Some i /\ fresh_table P A LT i p s s1 /\
    s' = Mst (m_pa s1) (m_words s1) (set_tdirearr (p + base) (m_mmu s1)) (m_cr3 s1) (m_pml4 s1)).
Proof.
  intros HA. unfold mmu_new_tdirearr. apply wp_bind, wp_on_pa.
  eapply wp_mono; [apply (pg_division_spec (m_pa s) P A 1 HA); by rewrite u64max_val|].
  intros r pa [(i & p & n & -> & -> & Hi & Hk & Hh)|[-> ->]]; [|left; split; [done|by destruct s]].
  change (2 ^ Z.log2_up 1) with 1 in *. cbn [fst]. destruct (fresh_adr _ _ _ _ _ Hh Hk) as [Hpg Hp].
  unfold msadsc_ret_vaddr. set (s1 := Mst pa (m_words s) (m_mmu s) (m_cr3 s) (m_pml4 s)).
  destruct (clear_ents_spec p ltac:(lia) 512 0 s1 ltac:(lia) ltac:(lia)) as (g & Eg & Hg1 & Hg2). unfold wp.
  erewrite bind_eq by (erewrite bind_eq by (apply on_pa_eq; by apply (pg_addr_spec _ _ _ _ _ _ Hh (lookup_insert_eq _ _ _))); apply to_vir; lia).
  unfold tdirearr_t_init, direarr_t_init. rewrite base_nonzero by lia. erewrite bind_eq by exact Eg.
  unfold dir_link, dir_count, upd_mmu, modify. cbn. right. eexists i, p, (Mst pa g _ (m_cr3 s) (m_pml4 s)). split; [done|]. split; [|done].
  split_and!; [done|done|done| |done|done|done]. split.
  - intros y Hy. apply Hg1. lia.
  - intros a Ha. apply Hg2. intros y Hy. simpl in *. lia.
Qed.
(** The descriptor as [mmudsc_t_init] leaves it. *)
Definition fresh_dsc (d : mmudsc_t) : Prop := forall l, dirhead l d = [] /\ dirmsanr l d = 0.

(** Memory outside the new root table and the blocks of others stays. *)
Record new_space (P : Z -> Prop) (O : blocks) (R : Z) s s' : Prop := {
  ns_kern y : 256 <= y < 512 -> m_words s' !! (R + 8 * y) = m_words s !! (m_pml4 s + 8 * y);
  ns_words x : (forall q, P q -> ~ (q <= x < q + 4096)) \/ (exists j b, O !! j = Some b /\ b.1 <= x < b.1 + 4096 * b.2) ->
    m_words s' !! x = m_words s !! x;
  ns_cr3 : m_cr3 s' = m_cr3 s;
  ns_pml4 : m_pml4 s' = m_pml4 s;
  ns_mcr3 : mud_cr3 (m_mmu s') = R
}.

Section init.
Context {s s1 : mst S} {P O} {i R : Z} {g : gmap Z Z} {d : mmudsc_t} (HO : pg_held (m_pa s) P O) (Hd : fresh_dsc (m_mmu s)) (Hb : boot_root P s)
  (Hfr : fresh_table P O LT i R s s1).
Context (Hg1 : forall y, 0 <= y < 512 -> g !! (R + 8 * y) = m_words s !! (m_pml4 s + 8 * y))
  (Hg2 : forall a, (forall y, 0 <= y < 512 -> a <> R + 8 * y) -> g !! a = m_words s1 !! a).

Abbreviation s2 := (Mst (m_pa s1) (<[R + 8 * 0 := 0]> g) (set_mud_cr3 R (set_tdirearr (R + base) (m_mmu s1))) (m_cr3 s1) (m_pml4 s1)).

Lemma init_page : P R /\ page_adr R /\ 0 < R <= 2 ^ 34 - 4096 /\ (m_pml4 s + 4096 <= R \/ R + 4096 <= m_pml4 s).
Proof using Hb Hfr.
  destruct Hfr as (_ & Hk & Hh & _). destruct (fresh_adr _ _ _ _ _ Hh Hk) as [Hpg HR].
  pose proof (pg_pool _ _ _ i R 1 0 Hh (lookup_insert_eq _ _ _) ltac:(lia)) as HP. rewrite Z.mul_0_r, Z.add_0_r in HP.
  split_and!; [done|done|lia|lia|]. pose proof (br_out _ _ Hb (Z.max R (m_pml4 s)) R) as Ho. pose proof (br_adr _ _ Hb).
  destruct (decide (m_pml4 s + 4096 <= R)); [by left|]. destruct (decide (R + 4096 <= m_pml4 s)); [by right|]. exfalso. apply Ho; [lia|done|lia].
Qed.

Lemma init_minv : MInv None s2 P O {[(LT, 0) := (i, R)]} ∅.
Proof using HO Hd Hb Hfr Hg1 Hg2.
  destruct init_page as (HP & Hpg & HR & Hap). pose proof Hfr as (Hi & Hk & Hh & _ & Hmmu & _).
  split; cbn [m_pa m_words m_mmu]; try done.
  - exists (<[i := (R, 1)]> O). split; [done|]. split.
    + intros j b. rewrite lookup_insert_Some. split.
      * intros [[<- <-]|[_ Hj]]; [right; exists (LT, 0); by rewrite lookup_singleton_eq|by left].
      * intros [Hj|(a & [_ [= -> Hb1]]%lookup_singleton_Some & Hb2)]; [right; split; [congruence|done]|]. left. split; [done|]. destruct b; simpl in *; by subst.
    + intros j b a p Hj [_ [= -> _]]%lookup_singleton_Some. congruence.
  - exists i, R. by rewrite lookup_singleton_eq.
  - by intros k t [[= <-] _]%lookup_singleton_Some.
  - by intros a j p [_ [= <- <-]]%lookup_singleton_Some.
  - intros a b j p q [<- _]%lookup_singleton_Some [<- _]%lookup_singleton_Some. done.
  - intros l k j p x [[= <- <-] [= <- <-]]%lookup_singleton_Some Hx Hl. specialize (Hl eq_refl). rewrite lookup_empty. cbn.
    destruct (decide (x = 0)) as [->|Hx0]; [apply lookup_insert_eq|]. rewrite lookup_insert_ne by lia. rewrite Hg1 by lia.
    apply (br_user _ _ Hb). lia.
  - intros j p x [_ [= <- <-]]%lookup_singleton_Some Hx. rewrite lookup_insert_ne by lia. rewrite Hg1 by lia. apply (br_words _ _ Hb). lia.
  - intros l l' k t Hc [[= <- _] _]%lookup_singleton_Some. by destruct (child_ne _ _ Hc).
  - intros l k t [[= <- _] _]%lookup_singleton_Some Hl. done.
  - intros l j. rewrite Hmmu. cbn [dirhead]. destruct (Hd l) as [Hl _]. destruct l; cbn in *; rewrite Hl; split.
    1:{ intros ->%list_elem_of_singleton. exists 0, R. by rewrite lookup_singleton_eq. }
    1:{ intros (k & p & [_ [= -> _]]%lookup_singleton_Some). by left. }
    all: first [by intros ?%elem_of_nil|by intros (k & p & [[= ?] _]%lookup_singleton_Some)].
  - intros l. rewrite Hmmu. destruct (Hd l) as [Hl _]. destruct l; cbn in *; rewrite Hl; [apply NoDup_singleton|constructor..].
  - intros l. rewrite Hmmu. destruct (Hd l) as [Hl Hn]. destruct l; cbn in *; by rewrite Hl, Hn.
Qed.

Lemma init_new_space : new_space P O R s s2.
Proof using HO Hb Hfr Hg1 Hg2.
  destruct init_page as (HP & Hpg & HR & Hap). pose proof Hfr as (Hi & Hk & Hh & [_ Hsame] & Hmmu & Hc & Hp).
  split; cbn [m_words m_cr3 m_pml4 m_mmu]; try done.
  - intros y Hy. rewrite lookup_insert_ne by lia. apply Hg1. lia.
  - intros x Hx. assert (Hout : ~ (R <= x < R + 4096)).
    { destruct Hx as [Hx|(j & b & Hj & Hbx)]; [by apply Hx|]. assert (Hne : j <> i) by congruence.
      pose proof (pg_apart _ _ _ j i _ _ Hh ltac:(by rewrite lookup_insert_ne) (lookup_insert_eq _ _ _) Hne) as Hba.
      unfold block_apart in Hba. simpl in Hba. lia. }
    rewrite lookup_insert_ne by lia. rewrite Hg2 by lia. by apply Hsame.
Qed.
End init.

Lemma hal_mmu_init_spec s P O : pg_held (m_pa s) P O -> fresh_dsc (m_mmu s) -> boot_root P s ->
  wp hal_mmu_init s (fun r s' => (r = false /\ s' = s) \/
    (r = true /\ exists i R, MInv None s' P O {[(LT, 0) := (i, R)]} ∅ /\ new_space P O R s s')).
Proof.
  intros HO Hd Hb. unfold hal_mmu_init. apply wp_bind. eapply wp_mono; [by apply mmu_new_tdirearr_spec|].
  intros r s' [[-> ->]|(i & R & s1 & -> & Hfr & ->)]; [apply wp_ret; by left|].
  destruct (init_page Hb Hfr) as (HP & Hpg & HR & Hap). pose proof (br_adr _ _ Hb) as HB. pose proof Hfr as (_ & _ & _ & [_ Hsame] & _ & _ & Hp).
  unfold gets. unfold wp. erewrite bind_eq by done. cbn [m_pml4]. rewrite Hp. erewrite bind_eq by (apply to_vir; lia). erewrite bind_eq by done.
  cbn [m_mmu set_tdirearr mud_tdirearr].
  destruct (copy_ents_spec (m_pml4 s) R HB ltac:(lia) Hap 512 0 (Mst (m_pa s1) (m_words s1) (set_tdirearr (R + base) (m_mmu s1)) (m_cr3 s1) (m_pml4 s1)))
    as (g & Eg & Hg1 & Hg2); [lia|lia| |].
  { intros y Hy. cbn. rewrite Hsame by lia. apply (br_words _ _ Hb). lia. }
  rewrite ?Hp in Eg. cbn [m_pa m_mmu m_cr3 m_pml4] in Eg. erewrite bind_eq by exact Eg. erewrite bind_eq by (apply to_phy; lia).
  erewrite bind_eq by done. erewrite bind_eq by (apply put_ent_wr; lia). cbn [m_words m_pa m_mmu m_cr3 m_pml4 wr] in *.
  assert (Hg1' : forall y, 0 <= y < 512 -> g !! (R + 8 * y) = m_words s !! (m_pml4 s + 8 * y)).
  { intros y Hy. rewrite Hg1 by lia. apply Hsame. lia. }
  assert (Hg2' : forall a, (forall y, 0 <= y < 512 -> a <> R + 8 * y) -> g !! a = m_words s1 !! a).
  { intros a Ha. apply Hg2. intros y Hy. apply Ha. lia. }
  right. split; [done|]. exists i, R. rewrite <- Hp. split; [by apply (init_minv HO Hd Hb Hfr Hg1' Hg2')|by apply (init_new_space HO Hb Hfr Hg1' Hg2')].
Qed.
(** ** Destruction *)

(** While a space is torn down: the blocks held are those of others and the pages
    still on a list, each on one list. *)
Record CInv s (P : Z -> Prop) (O A : blocks) : Prop := {
  ci_held : pg_held (m_pa s) P A;
  ci_blocks j b : A !! j = Some b <-> O !! j = Some b \/ exists l, j ∈ dirhead l (m_mmu s) /\ A !! j = Some b;
  ci_apart j b l : O !! j = Some b -> j ∉ dirhead l (m_mmu s);
  ci_page l j : j ∈ dirhead l (m_mmu s) -> exists p, A !! j = Some (p, 1);
  ci_once l l' j : j ∈ dirhead l (m_mmu s) -> j ∈ dirhead l' (m_mmu s) -> l = l';
  ci_nodup l : NoDup (dirhead l (m_mmu s));
  ci_cnt l : dirmsanr l (m_mmu s) = u64 (Z.of_nat (length (dirhead l (m_mmu s))))
}.

Lemma minv_cinv X s P O Tab E : MInv X s P O Tab E -> exists A, CInv s P O A.
Proof.
  intros HI. destruct (mi_held _ _ _ _ _ _ HI) as (A & HA & H1 & H2). pose proof (mi_list _ _ _ _ _ _ HI) as Hl.
  exists A. split; [done| | | | |apply (mi_nodup _ _ _ _ _ _ HI)|apply (mi_cnt _ _ _ _ _ _ HI)].
  - intros j b. split; [|intros [?|(l & _ & ?)]; [apply H1; by left|done]]. intros Hj. pose proof (proj1 (H1 j b) Hj) as [?|([l k] & Ha & _)]; [by left|].
    right. exists l. split; [|done]. apply Hl. by exists k, b.1.
  - intros j b l Hj (k & p & Ht)%Hl. by apply (H2 j b (l, k) p).
  - intros l j (k & p & Ht)%Hl. exists p. apply H1. right. by exists (l, k).
  - intros l l' j (k & p & Ht)%Hl (k' & p' & Ht')%Hl. by pose proof (mi_inj _ _ _ _ _ _ HI _ _ _ _ _ Ht Ht') as [= -> _].
Qed.

(** The state after the first page of the list of level [l] was given back. *)
Lemma cinv_pop s s' P O A l i L : CInv s P O A -> dirhead l (m_mmu s) = i :: L -> freed_table P A l i s s' ->
  CInv s' P O (delete i A) /\ dirhead l (m_mmu s') = L /\ (forall l', l' <> l -> dirhead l' (m_mmu s') = dirhead l' (m_mmu s)).
Proof.
  intros HC Hl (Hh & _ & Hm & _). pose proof (ci_nodup _ _ _ _ HC l) as Hnd. rewrite Hl in Hnd.
  assert (Hi : i ∈ dirhead l (m_mmu s)) by (rewrite Hl; by left).
  assert (Hd : forall l', dirhead l' (m_mmu s') = filter (fun j => j <> i) (dirhead l' (m_mmu s))) by (intros l'; rewrite Hm; by autorewrite with mmudsc).
  assert (Hother : forall l', l' <> l -> dirhead l' (m_mmu s') = dirhead l' (m_mmu s)).
  { intros l' Hne. rewrite Hd. apply filter_ne_notin. intros Hin. apply Hne. by apply (ci_once _ _ _ _ HC l' l i). }
  assert (Hin : forall l' j, j ∈ dirhead l' (m_mmu s') <-> j ∈ dirhead l' (m_mmu s) /\ j <> i) by (intros l' j; by rewrite Hd, elem_of_filter_ne).
  split_and!; [|by rewrite Hd, Hl, filter_ne_head|done]. split; [done| | | | | |].
  - intros j b. setoid_rewrite lookup_delete_Some. setoid_rewrite Hin. rewrite (ci_blocks _ _ _ _ HC j b). split.
    + intros [Hne [?|(l' & ? & ?)]]; [by left|right]. by exists l'.
    + intros [Hj|(l' & [? ?] & Hne & ?)]; [|split; [done|right; by exists l']]. split; [|by left]. intros <-. by apply (ci_apart _ _ _ _ HC i b l).
  - intros j b l' Hj [Hj' _]%Hin. by apply (ci_apart _ _ _ _ HC j b l').
  - intros l' j [Hj Hne]%Hin. destruct (ci_page _ _ _ _ HC l' j Hj) as [p Hp]. exists p. by rewrite lookup_delete_ne.
  - intros l1 l2 j [Hj1 _]%Hin [Hj2 _]%Hin. by apply (ci_once _ _ _ _ HC l1 l2 j).
  - intros l'. rewrite Hd. apply NoDup_filter, (ci_nodup _ _ _ _ HC).
  - intros l'. destruct (decide (l' = l)) as [->|Hne].
    + rewrite Hd, length_filter_ne by (done || apply (ci_nodup _ _ _ _ HC)). rewrite Hm. autorewrite with mmudsc.
      rewrite decide_True by done. rewrite (ci_cnt _ _ _ _ HC). unfold u64. by rewrite Zplus_mod_idemp_l.
    + rewrite Hother by done. rewrite Hm. autorewrite with mmudsc. rewrite decide_False by done. apply (ci_cnt _ _ _ _ HC).
Qed.

Definition keeps_rest s s' : Prop := m_words s' = m_words s /\ m_cr3 s' = m_cr3 s /\ m_pml4 s' = m_pml4 s.

Lemma clean_loop_spec P O l n : forall s A, CInv s P O A -> length (dirhead l (m_mmu s)) = n ->
  wp (clean_direarr_loop n l) s (fun r s' => r = true /\ keeps_rest s s' /\ dirhead l (m_mmu s') = [] /\ (exists A', CInv s' P O A') /\
    forall l', l' <> l -> dirhead l' (m_mmu s') = dirhead l' (m_mmu s)).
Proof.
  induction n as [|n IH]; intros s A HC Hn; cbn [clean_direarr_loop]; apply wp_bind; unfold gets, wp at 1; cbn.
  - apply nil_length_inv in Hn. rewrite Hn. apply wp_ret. split_and!; [done|done|done|by exists A|done].
  - destruct (dirhead l (m_mmu s)) as [|i L] eqn:Hl; [done|]. destruct (ci_page _ _ _ _ HC l i ltac:(rewrite Hl; by left)) as [p Hp].
    pose proof (del_dirpage_spec s P A l i p 1 (ci_held _ _ _ _ HC) Hp) as Hdel. unfold del_dirpage in Hdel.
    apply wp_bind_inv in Hdel. apply wp_bind. eapply wp_mono; [exact Hdel|]. intros ? s1 Hd1.
    apply wp_bind_inv in Hd1. apply wp_bind. eapply wp_mono; [exact Hd1|]. intros k s2 Hd2.
    apply wp_bind_inv in Hd2. apply wp_bind. eapply wp_mono; [exact Hd2|]. intros ok s3 Hd3.
    apply wp_bind_inv in Hd3. destruct ok; cbn [negb] in *; [|done]. apply wp_bind. eapply wp_mono; [exact Hd3|]. intros ? s4 Hd4.
    apply wp_bind_inv in Hd4. apply wp_bind. eapply wp_mono; [exact Hd4|]. intros ? s5 [_ Hfr].
    destruct (cinv_pop s s5 P O A l i L HC Hl Hfr) as (HC5 & Hl5 & Ho5). pose proof Hfr as (_ & Hw & _ & Hc & Hp4).
    eapply wp_mono; [apply (IH s5 _ HC5); rewrite Hl5; simpl in Hn; lia|].
    intros r s6 (-> & (K1 & K2 & K3) & Hl6 & HC6 & Ho6). split_and!; [done| |done|done|].
    + unfold keeps_rest. by rewrite K1, K2, K3.
    + intros l' Hne. by rewrite Ho6, Ho5.
Qed.
Lemma cinv_done s P O A : CInv s P O A -> (forall l, dirhead l (m_mmu s) = []) -> pg_held (m_pa s) P O /\ fresh_dsc (m_mmu s).
Proof.
  intros HC Hl. split.
  - replace O with A; [apply (ci_held _ _ _ _ HC)|]. apply map_eq. intros j. apply option_eq. intros b. rewrite (ci_blocks _ _ _ _ HC).
    split; [|by left]. intros [?|(l & Hj & _)]; [done|]. rewrite Hl in Hj. by apply elem_of_nil in Hj.
  - intros l. split; [done|]. by rewrite (ci_cnt _ _ _ _ HC), Hl.
Qed.

(** The root table that the register CR3 holds. *)
Definition cr3_root s : Z := dire_ret_padr (m_cr3 s).

Lemma hal_mmu_clean_spec X s P O Tab E i R : MInv X s P O Tab E -> Tab !! (LT, 0) = Some (i, R) -> cr3_root s <= 2 ^ 34 - 4096 ->
  wp hal_mmu_clean s (fun r s' =>
    (cr3_root s = R /\ r = false /\ s' = s) \/
    (cr3_root s <> R /\ r = true /\ pg_held (m_pa s') P O /\ fresh_dsc (m_mmu s') /\ keeps_rest s s')).
Proof.
  intros HI HR Hc. destruct (tdirearr_root _ _ _ _ _ _ _ _ HI HR) as [Hroot _]. destruct (minv_cinv _ _ _ _ _ _ HI) as [A HC].
  assert (Hc0 : 0 <= cr3_root s) by (apply Z.mod_pos_bound; rewrite u64max_val; lia).
  unfold hal_mmu_clean, read_cr3, gets. apply wp_bind. cbn [wp]. apply wp_bind. unfold wp at 1.
  change (dire_field (m_cr3 s) <<u 12) with (cr3_root s). rewrite to_vir by lia. apply wp_bind. unfold wp at 1. rewrite Hroot.
  destruct (decide (cr3_root s = R)) as [->|Hne]; [rewrite Z.eqb_refl; apply wp_ret; by left|].
  replace (_ =? _) with false by lia.
  assert (Hlvl : forall l s1 A1, CInv s1 P O A1 -> wp (mmu_clean_direarrmsas l) s1 (fun r s' => r = true /\ keeps_rest s1 s' /\
    dirhead l (m_mmu s') = [] /\ (exists A', CInv s' P O A') /\ forall l', l' <> l -> dirhead l' (m_mmu s') = dirhead l' (m_mmu s1))).
  { intros l s1 A1 HC1. unfold mmu_clean_direarrmsas, gets. apply wp_bind. unfold wp at 1. by apply (clean_loop_spec P O l _ s1 A1). }
  apply wp_bind. eapply wp_mono; [by apply (Hlvl LM s A)|]. intros r s1 (-> & (K1 & L1 & M1) & D1 & [A1 C1] & O1). cbn [negb].
  apply wp_bind. eapply wp_mono; [by apply (Hlvl LI s1 A1)|]. intros r s2 (-> & (K2 & L2 & M2) & D2 & [A2 C2] & O2). cbn [negb].
  apply wp_bind. eapply wp_mono; [by apply (Hlvl LS s2 A2)|]. intros r s3 (-> & (K3 & L3 & M3) & D3 & [A3 C3] & O3). cbn [negb].
  apply wp_bind. eapply wp_mono; [by apply (Hlvl LT s3 A3)|]. intros r s4 (-> & (K4 & L4 & M4) & D4 & [A4 C4] & O4). cbn [negb].
  apply wp_ret. right. split_and!; [done|done| | |unfold keeps_rest; split_and!; congruence].
  all: apply (cinv_done s4 P O A4 C4); intros []; [done|by rewrite O4|by rewrite O4, O3|by rewrite O4, O3, O2].
Qed.
End life.
