(* ===== verification/MmuCorrect.v ===== *)
(** * Page tables: correctness

    What mapping, unmapping, creating and destroying an address space do, seen
    through the processor's walk, for any page allocator that keeps the promises
    of PageIf.v; the instances are the kernel's own allocator. *)

From S2P Require Import Prelude PhyMem DivMer DivMerInv DivMerOps DivMerAlloc DivMerFree Marea MareaInit MareaBoot DivMerSpec Boot BootSpec BootPages PageIf Mmu MmuInv MmuOps MmuSpec MmuLife.

(** The result and the final state of a run. *)
Definition result {T A} (d : A) (m : M T A) (s : T) : A := match m s with Ret (a, _) => a | _ => d end.
Definition final {T A} (m : M T A) (s : T) : T := match m s with Ret (_, s') => s' | _ => s end.

Lemma wp_result {T A} (d : A) (m : M T A) s Q : wp m s Q -> Q (result d m s) (final m s).
Proof. unfold wp, result, final. by destruct (m s) as [[a s']| | |]. Qed.

Section correct.
Context {S : Type} `{PageAlloc S}.
Implicit Types (s : mst S) (Tab : tables) (E : entries) (F : gmap Z Z).

(** ** The abstract address space: pages by page number *)

Definition shows E F : Prop := forall k, F !! k = dire_ret_padr <$> E !! (LM, k) /\ forall e, E !! (LM, k) = Some e -> Z.land e ENT_P <> 0.

(** [s] holds a well-formed space of root [R] that maps the pages [F]. *)
Definition space s (P : Z -> Prop) (O : blocks) (R : Z) F : Prop :=
  exists Tab E i, MInv None s P O Tab E /\ Tab !! (LT, 0) = Some (i, R) /\ shows E F.

Definition translate F (u : Z) : option Z := (fun p => p + u mod 4096) <$> F !! (u / 4096).

Lemma space_walk s P O R F u : space s P O R F -> uaddr u -> hw_walk (m_words s) R u = translate F u.
Proof.
  intros (Tab & E & i & HI & HR & HF) Hu. rewrite (walk_view _ _ _ _ _ _ _ _ _ HI HR Hu). unfold view_walk, translate.
  destruct (HF (u / 4096)) as [-> Hp]. unfold key. cbn [iv_rshtbit]. change (2 ^ 12) with 4096.
  destruct (E !! (LM, u / 4096)) as [e|] eqn:He; [|done]. cbn. unfold present. by rewrite (proj2 (Z.eqb_neq _ 0) (Hp e eq_refl)).
Qed.

(** A mapping that failed took no table page for good. *)
Lemma same_tables_count s s' P O Tab E l : MInv None s P O Tab E -> MInv None s' P O Tab E -> dirmsanr l (m_mmu s') = dirmsanr l (m_mmu s).
Proof.
  intros H1 H2. rewrite (mi_cnt _ _ _ _ _ _ H1), (mi_cnt _ _ _ _ _ _ H2). do 2 f_equal. apply Permutation_length.
  apply NoDup_Permutation; [apply (mi_nodup _ _ _ _ _ _ H2)|apply (mi_nodup _ _ _ _ _ _ H1)|].
  intros j. by rewrite (mi_list _ _ _ _ _ _ H1), (mi_list _ _ _ _ _ _ H2).
Qed.

Lemma map_step s P O R F v padr f : space s P O R F -> uaddr v -> page_adr padr -> flags_ok f ->
  wp (hal_mmu_transform v padr f) s (fun r s' => mframe P O R s s' /\
    ((r = true /\ space s' P O R (<[v / 4096 := padr]> F)) \/
     (r = false /\ space s' P O R F /\ forall l, dirmsanr l (m_mmu s') = dirmsanr l (m_mmu s)))).
Proof.
  intros (Tab & E & i & HI & HR & HF) Hv Hp Hf. eapply wp_mono; [apply (hal_mmu_transform_spec HI HR Hv Hp Hf)|].
  intros r s' [Hfr [(-> & Tab' & E' & HI' & HR' & HE)|[-> HI']]]; (split; [done|]).
  - left. split; [done|]. exists Tab', E', i. split_and!; [done|done|]. intros k. rewrite HE. unfold key. cbn [iv_rshtbit].
    change (2 ^ 12) with 4096. destruct (decide (k = v / 4096)) as [->|Hne].
    + rewrite lookup_insert_eq. cbn. rewrite ent_padr by (done || apply Hf). split; [done|]. intros e [= <-]. by apply dir_entry_flags.
    + rewrite lookup_insert_ne by done. apply HF.
  - right. split_and!; [done|by exists Tab, E, i|]. intros l. by apply (same_tables_count s s' P O Tab E).
Qed.

Lemma unmap_step s P O R F v : space s P O R F -> uaddr v ->
  wp (hal_mmu_untransform v) s (fun r s' => mframe P O R s s' /\ r = default 0 (F !! (v / 4096)) /\ space s' P O R (delete (v / 4096) F)).
Proof.
  intros (Tab & E & i & HI & HR & HF) Hv. eapply wp_mono; [apply (hal_mmu_untransform_spec Hv HI HR)|].
  intros r s' (Hfr & -> & Tab' & E' & HI' & HR' & HE). unfold key in *. cbn [iv_rshtbit] in *. change (2 ^ 12) with 4096 in *.
  split_and!; [done|by rewrite (proj1 (HF (v / 4096)))|]. exists Tab', E', i. split_and!; [done|done|]. intros k. rewrite HE.
  destruct (decide (k = v / 4096)) as [->|Hne]; [by rewrite lookup_delete_eq|]. rewrite lookup_delete_ne by done. apply HF.
Qed.

(** Every table page is in use: when nothing is mapped, only the root is left. *)
Lemma empty_space s P O R : space s P O R ∅ -> exists i, dirhead LT (m_mmu s) = [i] /\ forall l, l <> LT -> dirhead l (m_mmu s) = [].
Proof.
  intros (Tab & E & i & HI & HR & HF).
  assert (HM : forall k, E !! (LM, k) = None).
  { intros k. destruct (HF k) as [Hk _]. rewrite lookup_empty in Hk. by destruct (E !! (LM, k)). }
  assert (Hno : forall l, (forall k, E !! (l, k) = None) -> l <> LT -> forall k, Tab !! (l, k) = None).
  { intros l Hl HlT k. destruct (Tab !! (l, k)) as [t|] eqn:Ht; [|done]. exfalso. apply (mi_ne _ _ _ _ _ _ HI l k t Ht HlT); [done|]. by intros x _. }
  assert (Hup : forall l l', child l = Some l' -> (forall k, Tab !! (l', k) = None) -> forall k, E !! (l, k) = None).
  { intros l l' Hc Hl k. destruct (E !! (l, k)) as [e|] eqn:He; [|done]. destruct (mi_dir _ _ _ _ _ _ HI l l' k e Hc He) as (_ & j & Hj). by rewrite Hl in Hj. }
  assert (TM := Hno LM HM ltac:(done)). assert (TI := Hno LI (Hup LI LM eq_refl TM) ltac:(done)). assert (TS := Hno LS (Hup LS LI eq_refl TI) ltac:(done)).
  assert (Hnil : forall l, (forall k, Tab !! (l, k) = None) -> dirhead l (m_mmu s) = []).
  { intros l Hl. destruct (dirhead l (m_mmu s)) as [|j L] eqn:Hd; [done|]. assert (Hj : j ∈ dirhead l (m_mmu s)) by (rewrite Hd; by left).
    apply (mi_list _ _ _ _ _ _ HI) in Hj as (k & p & Hk). by rewrite Hl in Hk. }
  exists i. split; [|intros [] Hl; [done|by apply Hnil..]]. pose proof (mi_nodup _ _ _ _ _ _ HI LT) as Hnd.
  assert (Hin : forall j, j ∈ dirhead LT (m_mmu s) <-> j = i).
  { intros j. rewrite (mi_list _ _ _ _ _ _ HI). split; [|intros ->; by exists 0, R].
    intros (k & p & Hk). rewrite (mi_top _ _ _ _ _ _ HI _ _ Hk), HR in Hk. by simplify_eq. }
  apply Permutation_singleton_r. apply NoDup_Permutation; [done|apply NoDup_singleton|]. intros j. rewrite Hin. by rewrite list_elem_of_singleton.
Qed.

Lemma init_space s P O : pg_held (m_pa s) P O -> fresh_dsc (m_mmu s) -> boot_root P s -> result false hal_mmu_init s = true ->
  space (final hal_mmu_init s) P O (mud_tdirearr (m_mmu (final hal_mmu_init s)) - base) ∅.
Proof.
  intros HO Hd Hb Hr. pose proof (wp_result false _ _ _ (hal_mmu_init_spec s P O HO Hd Hb)) as Hi. rewrite Hr in Hi.
  destruct Hi as [[Hi _]|(_ & i & R & HI & _)]; [done|].
  assert (HR : {[(LT, 0) := (i, R)]} !! (LT, 0) = Some (i, R)) by (by rewrite lookup_singleton_eq).
  destruct (tdirearr_root _ _ _ _ _ _ _ _ HI HR) as [Hm _]. rewrite Hm. replace (R + base - base) with R by lia.
  exists {[(LT, 0) := (i, R)]}, ∅, i. split_and!; [done|done|]. intros k. by rewrite !lookup_empty.
Qed.

(** ** Runs *)

Inductive mop := MMap (v padr f : Z) | MUnmap (v : Z).

Definition mop_ok (o : mop) : Prop :=
  match o with MMap v padr f => uaddr v /\ page_adr padr /\ flags_ok f | MUnmap v => uaddr v end.

(** A new space, then operations on it; the results are those of the calls
    ([TRUE] is 1). *)
Fixpoint run_mops (ops : list mop) : M (mst S) (list Z) :=
  match ops with
  | [] => mret []
  | MMap v padr f :: ops' => r ← hal_mmu_transform v padr f; rs ← run_mops ops'; mret ((if r : bool then 1 else 0) :: rs)
  | MUnmap v :: ops' => r ← hal_mmu_untransform v; rs ← run_mops ops'; mret (r :: rs)
  end.

Definition new_and_run (ops : list mop) : M (mst S) (option (list Z)) :=
  ok ← hal_mmu_init; if ok : bool then rs ← run_mops ops; mret (Some rs) else mret None.

(** What the operations do to the pages mapped, given their results. *)
Inductive aruns : list mop -> list Z -> gmap Z Z -> gmap Z Z -> Prop :=
  | ar_nil F : aruns [] [] F F
  | ar_map v padr f ops rs F F' : aruns ops rs (<[v / 4096 := padr]> F) F' -> aruns (MMap v padr f :: ops) (1 :: rs) F F'
  | ar_full v padr f ops rs F F' : aruns ops rs F F' -> aruns (MMap v padr f :: ops) (0 :: rs) F F'
  | ar_unmap v ops rs F F' : aruns ops rs (delete (v / 4096) F) F' -> aruns (MUnmap v :: ops) (default 0 (F !! (v / 4096)) :: rs) F F'.

Lemma run_mops_spec P O R ops : forall s F, Forall mop_ok ops -> space s P O R F ->
  wp (run_mops ops) s (fun rs s' => mframe P O R s s' /\ exists F', aruns ops rs F F' /\ space s' P O R F').
Proof.
  induction ops as [|o ops IH]; intros s F Hops HS; cbn [run_mops].
  { apply wp_ret. split; [done|]. exists F. split; [constructor|done]. }
  apply Forall_cons in Hops as [Ho Hops]. destruct o as [v padr f|v]; cbn in Ho; apply wp_bind.
  - destruct Ho as (Hv & Hp & Hf). eapply wp_mono; [by apply (map_step s P O R F)|]. intros r s1 [Hfr [[-> HS1]|(-> & HS1 & _)]];
      (apply wp_bind; eapply wp_mono; [by eapply IH|]; intros rs s' (Hfr' & F' & HF & HS'); apply wp_ret; split; [by transitivity s1|];
       exists F'; split; [|done]); by constructor.
  - eapply wp_mono; [by apply (unmap_step s P O R F)|]. intros r s1 (Hfr & -> & HS1).
    apply wp_bind. eapply wp_mono; [by eapply IH|]. intros rs s' (Hfr' & F' & HF & HS'). apply wp_ret. split; [by transitivity s1|].
    exists F'. split; [by constructor|done].
Qed.

(** C20: mapping a page.  [hal_mmu_transform] on a well-formed space, for an
    address of the user half, a page address and valid flags, returns without a
    halt or an invalid access.  When it answers [TRUE] the processor's walk
    gives the page at every address of the virtual page, and elsewhere in the
    user half what it gave before.  When it answers [FALSE] (no page for a table)
    no translation has changed and every table page it took has been given back.
    In both cases the kernel half, the blocks of others and memory outside the
    allocator are untouched. *)
Theorem mmu_map_correct s P O R F v padr f :
  space s P O R F -> uaddr v -> page_adr padr -> flags_ok f ->
  wp (hal_mmu_transform v padr f) s (fun r s' => mframe P O R s s' /\
    ((r = true /\ space s' P O R (<[v / 4096 := padr]> F) /\ forall u, uaddr u ->
        hw_walk (m_words s') R u = if decide (u / 4096 = v / 4096) then Some (padr + u mod 4096) else hw_walk (m_words s) R u) \/
     (r = false /\ space s' P O R F /\ (forall u, uaddr u -> hw_walk (m_words s') R u = hw_walk (m_words s) R u) /\
        forall l, dirmsanr l (m_mmu s') = dirmsanr l (m_mmu s)))).
Proof.
  intros HS Hv Hp Hf. eapply wp_mono; [by apply (map_step s P O R F)|]. intros r s' [Hfr [[-> HS']|(-> & HS' & Hn)]]; (split; [done|]).
  - left. split_and!; [done|done|]. intros u Hu. rewrite (space_walk _ _ _ _ _ _ HS' Hu), (space_walk _ _ _ _ _ _ HS Hu). unfold translate.
    destruct (decide (u / 4096 = v / 4096)) as [->|Hne]; [by rewrite lookup_insert_eq|by rewrite lookup_insert_ne].
  - right. split_and!; [done|done| |done]. intros u Hu. by rewrite (space_walk _ _ _ _ _ _ HS' Hu), (space_walk _ _ _ _ _ _ HS Hu).
Qed.

(** C21: unmapping a page.  [hal_mmu_untransform] returns the page that was mapped
    at the address, or 0; afterwards the walk finds nothing in that virtual page
    and what it found before elsewhere in the user half; a table that became empty
    is released, so that a space without pages holds only its root table. *)
Theorem mmu_unmap_correct s P O R F v :
  space s P O R F -> uaddr v ->
  wp (hal_mmu_untransform v) s (fun r s' => mframe P O R s s' /\ r = default 0 (F !! (v / 4096)) /\
    space s' P O R (delete (v / 4096) F) /\
    (forall u, uaddr u -> hw_walk (m_words s') R u = if decide (u / 4096 = v / 4096) then None else hw_walk (m_words s) R u) /\
    (delete (v / 4096) F = ∅ -> exists i, dirhead LT (m_mmu s') = [i] /\ forall l, l <> LT -> dirhead l (m_mmu s') = [])).
Proof.
  intros HS Hv. eapply wp_mono; [by apply (unmap_step s P O R F)|]. intros r s' (Hfr & -> & HS'). split_and!; [done|done|done| |].
  - intros u Hu. rewrite (space_walk _ _ _ _ _ _ HS' Hu), (space_walk _ _ _ _ _ _ HS Hu). unfold translate.
    destruct (decide (u / 4096 = v / 4096)) as [->|Hne]; [by rewrite lookup_delete_eq|by rewrite lookup_delete_ne].
  - intros HF. rewrite HF in HS'. by apply (empty_space s' P O R).
Qed.

(** C19: an address space refines a finite map from page numbers to pages.  After
    [hal_mmu_init] any sequence of mappings and unmappings runs without a halt or
    an invalid access; their results are those of the abstract map; the
    processor's walk over the user half is the lookup in that map; and every
    translation of the kernel half that the boot tables give holds in the new
    space throughout.  [hal_mmu_init] fails only by answering [FALSE], without
    effect. *)
Theorem mmu_space_refines s P O g0 ops :
  pg_held (m_pa s) P O -> fresh_dsc (m_mmu s) -> boot_root P s -> kernel_half P g0 (m_pml4 s) (m_pml4 s) s -> Forall mop_ok ops ->
  wp (new_and_run ops) s (fun r s' =>
    match r with
    | None => s' = s
    | Some rs => exists R F, aruns ops rs ∅ F /\ space s' P O R F /\ mud_tdirearr (m_mmu s') = R + base /\
        (forall u, uaddr u -> hw_walk (m_words s') R u = translate F u) /\
        (forall u a, kaddr u -> hw_walk g0 (m_pml4 s) u = Some a -> hw_walk (m_words s') R u = Some a)
    end).
Proof.
  intros HO Hd Hb Hk Hops. unfold new_and_run. apply wp_bind. eapply wp_mono; [by apply (hal_mmu_init_spec s P O)|].
  intros r s1 [[-> ->]|(-> & i & R & HI & HN)]; [by apply wp_ret|]. apply wp_bind.
  assert (HS : space s1 P O R ∅) by (exists {[(LT, 0) := (i, R)]}, ∅, i; split_and!; [done|by rewrite lookup_singleton_eq|]; intros k; by rewrite lookup_empty).
  assert (HK : kernel_half P g0 (m_pml4 s) R s1).
  { destruct Hk as [K1 K2 K3]. split; [done| |].
    - apply map_subseteq_spec. intros x w Hx. rewrite (ns_words _ _ _ _ _ HN); [by apply (lookup_weaken _ _ _ _ Hx)|]. left. apply K1. by rewrite Hx.
    - intros y e Hy He. rewrite (ns_kern _ _ _ _ _ HN) by done. by apply (lookup_weaken _ _ _ _ He). }
  eapply wp_mono; [by apply (run_mops_spec P O R ops s1 ∅)|]. intros rs s' (Hfr & F & HF & HS'). apply wp_ret.
  exists R, F. split_and!; [done|done| | |].
  - destruct HS' as (Tab' & E' & i' & HI' & HR' & _). by apply (tdirearr_root _ _ _ _ _ _ _ _ HI' HR').
  - intros u Hu. by apply (space_walk s' P O R F).
  - intros u a. apply (kernel_half_walk P). by apply (kernel_half_frame P O _ _ _ s1).
Qed.

(** Destroying an address space.  [hal_mmu_clean] refuses the space that CR3
    holds; any other one gives every table page back to the allocator, exactly
    the blocks of others staying allocated, and leaves its lists empty and its
    counters zero. *)
Theorem mmu_clean_correct s P O R F :
  space s P O R F -> cr3_root s <= 2 ^ 34 - 4096 ->
  wp hal_mmu_clean s (fun r s' =>
    (cr3_root s = R /\ r = false /\ s' = s) \/
    (cr3_root s <> R /\ r = true /\ pg_held (m_pa s') P O /\ fresh_dsc (m_mmu s') /\ keeps_rest s s')).
Proof. intros (Tab & E & i & HI & HR & _) Hc. by apply (hal_mmu_clean_spec None s P O Tab E i). Qed.
End correct.

(** ** The small machine of DivMerSpec.v with boot tables *)

Definition frames_okb (f : gmap Z (Z * Z)) : bool :=
  bool_decide (map_Forall (fun i x => (x.2 = MA_TYPE_KRNL -> 0x2000 <= x.1 < 0x400000) /\ (x.2 = MA_TYPE_PROC -> 0x400000 <= x.1 < 2 ^ 28) /\
    map_Forall (fun j y => x.1 = y.1 -> (x.2 = MA_TYPE_KRNL \/ x.2 = MA_TYPE_PROC) -> (y.2 = MA_TYPE_KRNL \/ y.2 = MA_TYPE_PROC) -> i = j) f) f).

Lemma frames_okb_ok f : frames_okb f = true -> frames_ok f.
Proof.
  intros Hf%bool_decide_eq_true_1. split.
  - intros i a Hi. by apply (Hf i _ Hi).
  - intros i a Hi. by apply (Hf i _ Hi).
  - intros i j a t t' Hi Hj Ht Ht'. destruct (Hf i _ Hi) as (_ & _ & H3). by apply (H3 j _ Hj).
Qed.

Definition demo_pool : Z -> Prop := managed demo ∅.

Lemma demo_held : mm_held demo demo_pool ∅.
Proof.
  exists ∅. split_and!; [apply demo_ok|exists 1; apply demo_krnl|apply frames_okb_ok; by vm_compute| |done].
  intros i b Hi. by rewrite lookup_empty in Hi.
Qed.

(** The root at 0x1000: its entry 256 leads to a table at 0x2000, whose first entry
    is a page of 1 GiB. *)
Definition demo_words : gmap Z Z :=
  <[0x2000 := 0x83]> (list_to_map ((fun y => (0x1000 + 8 * Z.of_nat y, if decide (y = 256%nat) then 0x2003 else 0)) <$> seq 0 512)).
Definition demo_m : mst mmst := Mst demo demo_words mmudsc_t_init 0x1000 0x1000.

Lemma demo_m_held : pg_held (m_pa demo_m) demo_pool ∅.
Proof. exact demo_held. Qed.

Lemma demo_words_at y : 0 <= y < 512 -> demo_words !! (0x1000 + 8 * y) = Some (if decide (y = 256) then 0x2003 else 0).
Proof.
  intros Hy. assert (Hall : forallb (fun n => bool_decide (demo_words !! (0x1000 + 8 * Z.of_nat n) = Some (if decide (n = 256%nat) then 0x2003 else 0))) (seq 0 512) = true)
    by (by vm_compute).
  rewrite forallb_forall in Hall. specialize (Hall (Z.to_nat y) (proj2 (in_seq 512 0 (Z.to_nat y)) ltac:(lia))). apply bool_decide_eq_true_1 in Hall.
  rewrite Z2Nat.id in Hall by lia. rewrite Hall. f_equal. clear Hall.
  destruct (decide (Z.to_nat y = 256%nat)), (decide (y = 256)); lia.
Qed.

Lemma demo_words_dom x : is_Some (demo_words !! x) -> 0x1000 <= x < 0x3000.
Proof.
  intros [e He]. assert (Hall : map_Forall (fun x _ => 0x1000 <= x < 0x3000) demo_words) by (apply (bool_decide_eq_true_1 _); by vm_compute).
  by apply (Hall x e).
Qed.

Lemma demo_pool_out x q : 0x1000 <= x < 0x3000 -> demo_pool q -> ~ (q <= x < q + 4096).
Proof.
  intros Hx (j & a & t & _ & Hj & ->).
  assert (Hall : map_Forall (fun _ (y : Z * Z) => y.1 = 0 \/ 0x1000 <= y.1) (frames demo)) by (apply (bool_decide_eq_true_1 _); by vm_compute).
  specialize (Hall j _ Hj). simpl in Hall. lia.
Qed.

Lemma demo_boot_root : boot_root demo_pool demo_m.
Proof.
  split; cbn [m_pml4 m_words demo_m].
  - lia.
  - intros x q Hx. apply demo_pool_out. lia.
  - intros y Hy. rewrite demo_words_at by done. by eexists.
  - intros y Hy. rewrite demo_words_at by lia. rewrite decide_False by lia. done.
Qed.

Lemma demo_kernel_half : kernel_half demo_pool demo_words 0x1000 0x1000 demo_m.
Proof. split; [intros x Hx q; by apply demo_pool_out, demo_words_dom|done|done]. Qed.

Lemma demo_fresh_dsc : fresh_dsc (m_mmu demo_m).
Proof. by intros []. Qed.

Abbreviation demo_space := (final hal_mmu_init demo_m).
Abbreviation demo_root := (mud_tdirearr (m_mmu demo_space) - base).

Lemma demo_init_true : result false hal_mmu_init demo_m = true.
Proof. vm_compute. reflexivity. Qed.

Lemma demo_space_ok : space demo_space demo_pool ∅ demo_root ∅.
Proof. exact (init_space demo_m demo_pool ∅ demo_m_held demo_fresh_dsc demo_boot_root demo_init_true). Qed.

Lemma mmu_map_correct_witness :
  wp (hal_mmu_transform 0x400000 0x5000000 7) demo_space (fun r s' => r = false \/ hw_walk (m_words s') demo_root 0x400123 = Some 0x5000123).
Proof.
  eapply wp_mono; [apply (mmu_map_correct demo_space demo_pool ∅ demo_root ∅ 0x400000 0x5000000 7 demo_space_ok); vm_compute; intuition congruence|].
  intros r s' [_ [(_ & _ & Hw)|[-> _]]]; [right|by left]. rewrite Hw by (vm_compute; intuition congruence). reflexivity.
Defined.

Lemma mmu_unmap_correct_witness :
  wp (hal_mmu_untransform 0x400000) demo_space (fun r s' => r = 0 /\ hw_walk (m_words s') demo_root 0x400123 = None).
Proof.
  eapply wp_mono; [apply (mmu_unmap_correct demo_space demo_pool ∅ demo_root ∅ 0x400000 demo_space_ok); vm_compute; intuition congruence|].
  intros r s' (_ & -> & _ & Hw & _). split; [reflexivity|]. rewrite Hw by (vm_compute; intuition congruence). reflexivity.
Defined.

Lemma mmu_space_refines_witness :
  wp (new_and_run [MMap 0x400000 0x5000000 7; MUnmap 0x400000]) demo_m (fun r s' => r = None \/
    exists R, hw_walk (m_words s') R (base + 5) = Some 5).
Proof.
  eapply wp_mono; [apply (mmu_space_refines demo_m demo_pool ∅ demo_words _ demo_m_held demo_fresh_dsc demo_boot_root demo_kernel_half)|].
  - repeat constructor; vm_compute; intuition congruence.
  - intros [rs|] s' H; [right|by left]. destruct H as (R & F & _ & _ & _ & _ & Hk). exists R. apply Hk; [|reflexivity]. vm_compute. congruence.
Defined.

Lemma mmu_clean_correct_witness :
  wp hal_mmu_clean demo_space (fun r s' => (cr3_root demo_space = demo_root /\ r = false /\ s' = demo_space) \/
    (cr3_root demo_space <> demo_root /\ r = true /\ mm_held (m_pa s') demo_pool ∅ /\ fresh_dsc (m_mmu s') /\ keeps_rest demo_space s')).
Proof. apply (mmu_clean_correct demo_space demo_pool ∅ demo_root ∅ demo_space_ok). vm_compute. congruence. Defined.
