(* ===== verification/Sched.v ===== *)
(** * Threads, scheduler, wait lists and semaphores

    kernel/krlsched.c, krlwaitlist.c, krlsem.c and the thread descriptors of
    krlthread.c and krlcpuidle.c.  A thread is named by the address of its
    descriptor, a wait list by the address of the semaphore it belongs to.
    [td_list] links a thread in at most one list: a ready list, a wait list or
    the list of exited threads.  The lists are sequences; [list_del] takes a
    node out of the list it is in and leaves it linked to itself, and adding a
    node that is still linked (which would tangle two lists) is a fault.
    [CPUCORE_MAX] is 1 and [hal_retn_cpuid] returns 0, so there is one
    [schdata_t].  [cpu] is the thread whose context the processor runs. *)

From S2P Require Import Prelude.

(** ** Constants *)

Definition TDSTUS_RUN : Z := 0.
Definition TDSTUS_WAIT : Z := 4.
Definition TDSTUS_NEW : Z := 5.
Definition TDSTUS_EXIT : Z := 12.
Definition TDFLAG_FREE : Z := 1.
Definition TDRUN_TICK : Z := 20.
Definition PRITY_MAX : Z := 64.
Definition PRITY_MIN : Z := 0.
Definition PRILG_SYS : Z := 0.
Definition PRILG_USR : Z := 5.
Definition TD_HAND_MAX : Z := 8.
Definition NO_HAND : Z := -1.
Definition NOTS_SCHED_FLGS : Z := 0.
Definition NEED_SCHED_FLGS : Z := 1.
Definition NEED_START_CPUILDE_SCHED_FLGS : Z := 2.
Definition PMPT_FLGS : Z := 0.
Definition CPUCORE_MAX : Z := 1.
Definition K_CS_IDX : Z := 0x08.
Definition K_DS_IDX : Z := 0x10.
Definition U_CS_IDX : Z := 0x1b.
Definition U_DS_IDX : Z := 0x23.

(** ** Structures *)

(** The frame [iretq] returns through; the general registers are zero. *)
Record intstkregs_t := Intstkregs {
  r_gs : Z; r_fs : Z; r_es : Z; r_ds : Z;
  r_rip_old : Z; r_cs_old : Z; r_rflgs : Z; r_rsp_old : Z; r_ss_old : Z
}.

Record thread_t := Thread {
  td_flgs : Z;
  td_stus : Z;
  td_id : Z;
  td_tick : Z;
  td_sumtick : Z;
  td_privilege : Z;
  td_priority : Z;
  td_krlstktop : Z;
  td_krlstkstart : Z;
  td_usrstktop : Z;
  td_usrstkstart : Z;
  td_mmdsc : Z;
  ctx_nextrip : Z;
  ctx_nextrsp : Z;
  td_handtbl : list (option Z)
}.

Record thrdlst_t := Thrdlst {
  tdl_lsth : list Z;
  tdl_curruntd : option Z;
  tdl_nr : Z
}.

Record schdata_t := Schdata {
  sda_schdflgs : Z;
  sda_premptidx : Z;
  sda_threadnr : Z;
  sda_prityidx : Z;
  sda_cpuidle : option Z;
  sda_currtd : option Z;
  sda_thdlst : gmap Z thrdlst_t;
  sda_exitlist : list Z
}.

Record kwlst_t := Kwlst { wl_tdnr : Z; wl_list : list Z }.
Record sem_t := Sem { sem_flg : Z; sem_count : Z; sem_waitlst : kwlst_t }.

(** [osschedcls], the thread descriptors, semaphores and stack frames, and the
    registers a switch loads. *)
Record sys := Sys {
  schda : schdata_t;
  scls_threadnr : Z;
  thds : gmap Z thread_t;
  sems : gmap Z sem_t;
  frames : gmap Z intstkregs_t;
  cpu : option Z;
  tss_rsp0 : Z;
  mmu_cur : Z
}.

Abbreviation SM A := (M sys A).

(** ** Updates *)

Definition with_schda (d : schdata_t) (s : sys) : sys :=
  Sys d (scls_threadnr s) (thds s) (sems s) (frames s) (cpu s) (tss_rsp0 s) (mmu_cur s).
Definition with_thds (g : gmap Z thread_t) (s : sys) : sys :=
  Sys (schda s) (scls_threadnr s) g (sems s) (frames s) (cpu s) (tss_rsp0 s) (mmu_cur s).
Definition with_sems (g : gmap Z sem_t) (s : sys) : sys :=
  Sys (schda s) (scls_threadnr s) (thds s) g (frames s) (cpu s) (tss_rsp0 s) (mmu_cur s).
Definition with_cpu (c : option Z) (rsp0 mmu : Z) (s : sys) : sys :=
  Sys (schda s) (scls_threadnr s) (thds s) (sems s) (frames s) c rsp0 mmu.

Definition set_thdlst (g : gmap Z thrdlst_t) (d : schdata_t) : schdata_t :=
  Schdata (sda_schdflgs d) (sda_premptidx d) (sda_threadnr d) (sda_prityidx d) (sda_cpuidle d) (sda_currtd d) g (sda_exitlist d).
Definition set_exitlist (l : list Z) (d : schdata_t) : schdata_t :=
  Schdata (sda_schdflgs d) (sda_premptidx d) (sda_threadnr d) (sda_prityidx d) (sda_cpuidle d) (sda_currtd d) (sda_thdlst d) l.
Definition set_schdflgs (v : Z) (d : schdata_t) : schdata_t :=
  Schdata v (sda_premptidx d) (sda_threadnr d) (sda_prityidx d) (sda_cpuidle d) (sda_currtd d) (sda_thdlst d) (sda_exitlist d).
Definition set_threadnr (v : Z) (d : schdata_t) : schdata_t :=
  Schdata (sda_schdflgs d) (sda_premptidx d) v (sda_prityidx d) (sda_cpuidle d) (sda_currtd d) (sda_thdlst d) (sda_exitlist d).
Definition set_prityidx (v : Z) (d : schdata_t) : schdata_t :=
  Schdata (sda_schdflgs d) (sda_premptidx d) (sda_threadnr d) v (sda_cpuidle d) (sda_currtd d) (sda_thdlst d) (sda_exitlist d).
Definition set_currtd (v : option Z) (d : schdata_t) : schdata_t :=
  Schdata (sda_schdflgs d) (sda_premptidx d) (sda_threadnr d) (sda_prityidx d) (sda_cpuidle d) v (sda_thdlst d) (sda_exitlist d).

Definition set_td_stus (v : Z) (t : thread_t) : thread_t :=
  Thread (td_flgs t) v (td_id t) (td_tick t) (td_sumtick t) (td_privilege t) (td_priority t) (td_krlstktop t) (td_krlstkstart t)
    (td_usrstktop t) (td_usrstkstart t) (td_mmdsc t) (ctx_nextrip t) (ctx_nextrsp t) (td_handtbl t).
Definition set_td_ticks (v w : Z) (t : thread_t) : thread_t :=
  Thread (td_flgs t) (td_stus t) (td_id t) v w (td_privilege t) (td_priority t) (td_krlstktop t) (td_krlstkstart t)
    (td_usrstktop t) (td_usrstkstart t) (td_mmdsc t) (ctx_nextrip t) (ctx_nextrsp t) (td_handtbl t).
Definition set_td_stack (ktop utop rip rsp : Z) (t : thread_t) : thread_t :=
  Thread (td_flgs t) (td_stus t) (td_id t) (td_tick t) (td_sumtick t) (td_privilege t) (td_priority t) ktop (td_krlstkstart t)
    utop (td_usrstkstart t) (td_mmdsc t) rip rsp (td_handtbl t).
Definition set_td_handtbl (l : list (option Z)) (t : thread_t) : thread_t :=
  Thread (td_flgs t) (td_stus t) (td_id t) (td_tick t) (td_sumtick t) (td_privilege t) (td_priority t) (td_krlstktop t) (td_krlstkstart t)
    (td_usrstktop t) (td_usrstkstart t) (td_mmdsc t) (ctx_nextrip t) (ctx_nextrsp t) l.

Definition set_lsth (l : list Z) (L : thrdlst_t) : thrdlst_t := Thrdlst l (tdl_curruntd L) (tdl_nr L).
Definition set_curruntd (c : option Z) (L : thrdlst_t) : thrdlst_t := Thrdlst (tdl_lsth L) c (tdl_nr L).
Definition set_tdl_nr (n : Z) (L : thrdlst_t) : thrdlst_t := Thrdlst (tdl_lsth L) (tdl_curruntd L) n.
Definition set_waitlst (w : kwlst_t) (x : sem_t) : sem_t := Sem (sem_flg x) (sem_count x) w.
Definition set_count (c : Z) (x : sem_t) : sem_t := Sem (sem_flg x) c (sem_waitlst x).

(** ** Accesses *)

Definition get_td (t : Z) : SM thread_t := fun s => match thds s !! t with Some x => Ret (x, s) | None => Fault end.
Definition upd_td (t : Z) (f : thread_t -> thread_t) : SM unit := fun s =>
  match thds s !! t with Some x => Ret (tt, with_thds (<[t := f x]> (thds s)) s) | None => Fault end.
(** [schdap->sda_thdlst[p]]; an index out of the array is a fault. *)
Definition get_tl (p : Z) : SM thrdlst_t := fun s =>
  match sda_thdlst (schda s) !! p with Some x => Ret (x, s) | None => Fault end.
Definition upd_tl (p : Z) (f : thrdlst_t -> thrdlst_t) : SM unit := fun s =>
  match sda_thdlst (schda s) !! p with
  | Some x => Ret (tt, with_schda (set_thdlst (<[p := f x]> (sda_thdlst (schda s))) (schda s)) s)
  | None => Fault
  end.
Definition get_sem (w : Z) : SM sem_t := fun s => match sems s !! w with Some x => Ret (x, s) | None => Fault end.
Definition upd_sem (w : Z) (f : sem_t -> sem_t) : SM unit := fun s =>
  match sems s !! w with Some x => Ret (tt, with_sems (<[w := f x]> (sems s)) s) | None => Fault end.
Definition upd_schda (f : schdata_t -> schdata_t) : SM unit := modify (fun s => with_schda (f (schda s)) s).

(** ** The [td_list] links *)

Definition del_node (t : Z) (l : list Z) : list Z := filter (fun u => u <> t) l.

(** [list_del(&t->td_list)] *)
Definition list_del (t : Z) : SM unit := modify (fun s =>
  with_sems ((fun x => set_waitlst (Kwlst (wl_tdnr (sem_waitlst x)) (del_node t (wl_list (sem_waitlst x)))) x) <$> sems s)
    (with_schda (set_exitlist (del_node t (sda_exitlist (schda s)))
       (set_thdlst ((fun L => set_lsth (del_node t (tdl_lsth L)) L) <$> sda_thdlst (schda s)) (schda s))) s)).

(** [t->td_list] is in some list. *)
Definition in_ready (s : sys) (t : Z) : Prop := map_Exists (fun _ L => t ∈ tdl_lsth L) (sda_thdlst (schda s)).
Definition in_wait (s : sys) (t : Z) : Prop := map_Exists (fun _ x => t ∈ wl_list (sem_waitlst x)) (sems s).
Definition linked (s : sys) (t : Z) : Prop := in_ready s t \/ in_wait s t \/ t ∈ sda_exitlist (schda s).

#[global] Instance linked_dec s t : Decision (linked s t).
Proof. unfold linked, in_ready, in_wait. apply _. Defined.

Definition need_free (t : Z) : SM unit := fun s => if decide (linked s t) then Fault else Ret (tt, s).

Definition list_add_tail_ready (t p : Z) : SM unit := need_free t ;; upd_tl p (fun L => set_lsth (tdl_lsth L ++ [t]) L).
Definition list_add_ready (t p : Z) : SM unit := need_free t ;; upd_tl p (fun L => set_lsth (t :: tdl_lsth L) L).
Definition list_add_exit (t : Z) : SM unit := need_free t ;; upd_schda (fun d => set_exitlist (t :: sda_exitlist d) d).

(** ** krlsched.c: initialisation *)

Definition thrdlst_t_init : thrdlst_t := Thrdlst [] None 0.
Definition schdata_t_init : schdata_t :=
  Schdata NOTS_SCHED_FLGS 0 0 0 None None (tabulate (fun _ => thrdlst_t_init) PRITY_MAX) [].
Definition schedclass_t_init (s : sys) : sys :=
  Sys schdata_t_init 0 (thds s) (sems s) (frames s) (cpu s) (tss_rsp0 s) (mmu_cur s).
Definition init_krlsched : SM unit := modify schedclass_t_init.

(** ** krlwaitlist.c: the lists *)

Definition kwlst_t_init : kwlst_t := Kwlst 0 [].

Definition krlwlst_add_thread (wlst tdp : Z) : SM unit :=
  need_free tdp ;;
  upd_sem wlst (fun x => set_waitlst (Kwlst (wl_tdnr (sem_waitlst x)) (tdp :: wl_list (sem_waitlst x))) x) ;;
  upd_sem wlst (fun x => set_waitlst (Kwlst (wl_tdnr (sem_waitlst x) +u 1) (wl_list (sem_waitlst x))) x).

Definition krlwlst_del_thread (wlst : Z) : SM (option Z) :=
  x ← get_sem wlst;
  match wl_list (sem_waitlst x) with
  | [] => mret None
  | tdp :: _ =>
      if wl_tdnr (sem_waitlst x) <? 1 then mret None else
      list_del tdp ;;
      upd_sem wlst (fun x => set_waitlst (Kwlst (wl_tdnr (sem_waitlst x) -u 1) (wl_list (sem_waitlst x))) x) ;;
      mret (Some tdp)
  end.

(** ** krlsched.c *)

Definition krlsched_retn_currthread : SM Z :=
  d ← gets schda;
  match sda_currtd d with None => halt "schdap->sda_currtd NULL" | Some t => mret t end.

Definition krlsched_retn_schedflgs : SM Z := gets (fun s => sda_schdflgs (schda s)).

Definition krlsched_wait (wlst : option Z) : SM unit :=
  tdp ← krlsched_retn_currthread;
  t ← get_td tdp;
  let pity := td_priority t in
  match wlst with
  | None => halt "krlsched_wait err"
  | Some w =>
      if PRITY_MAX <=? pity then halt "krlsched_wait err" else
      L ← get_tl pity;
      if tdl_nr L <? 1 then halt "krlsched_wait err" else
      upd_td tdp (set_td_stus TDSTUS_WAIT) ;;
      list_del tdp ;;
      L ← get_tl pity;
      (if decide (tdl_curruntd L = Some tdp) then upd_tl pity (set_curruntd None) else mret tt) ;;
      upd_tl pity (fun L => set_tdl_nr (tdl_nr L -u 1) L) ;;
      krlwlst_add_thread w tdp
  end.

Definition krlsched_up (wlst : option Z) : SM unit :=
  match wlst with
  | None => halt "krlsched_up err"
  | Some w =>
      r ← krlwlst_del_thread w;
      match r with
      | None => halt "krlsched_up err"
      | Some tdp =>
          t ← get_td tdp;
          let pity := td_priority t in
          if PRITY_MAX <=? pity then halt "krlsched_up err" else
          upd_td tdp (set_td_stus TDSTUS_RUN) ;;
          list_add_tail_ready tdp pity ;;
          upd_tl pity (fun L => set_tdl_nr (tdl_nr L +u 1) L)
      end
  end.

Definition krlsched_retn_idlethread : SM Z :=
  d ← gets schda;
  match sda_cpuidle d with None => halt "schdap->sda_cpuidle NULL" | Some t => mret t end.

Definition krlsched_set_schedflgs : SM unit := upd_schda (set_schdflgs NEED_SCHED_FLGS).
Definition krlsched_set_schedflgs_ex (flags : Z) : SM unit := upd_schda (set_schdflgs flags).

(** [list_for_each] of [krlsched_select_thread]: the first runnable thread. *)
Fixpoint first_runnable (l : list Z) : SM (option Z) :=
  match l with
  | [] => mret None
  | u :: l' =>
      t ← get_td u;
      if (td_stus t =? TDSTUS_RUN) || (td_stus t =? TDSTUS_NEW) then mret (Some u) else first_runnable l'
  end.

(** The loop over the [n] priorities from [pity]. *)
Fixpoint select_loop (n : nat) (pity : Z) : SM (option Z) :=
  match n with
  | O => mret None
  | S n' =>
      L ← get_tl pity;
      r ← first_runnable (tdl_lsth L);
      match r with
      | Some tdtmp =>
          list_del tdtmp ;;
          L ← get_tl pity;
          match tdl_curruntd L with
          | Some cur => list_add_tail_ready cur pity
          | None => mret tt
          end ;;
          upd_tl pity (set_curruntd (Some tdtmp)) ;;
          mret (Some tdtmp)
      | None =>
          L ← get_tl pity;
          match tdl_curruntd L with
          | Some cur => mret (Some cur)
          | None => select_loop n' (pity + 1)
          end
      end
  end.

Definition krlsched_select_thread : SM Z :=
  r ← select_loop (Z.to_nat PRITY_MAX) 0;
  match r with
  | Some t => mret t
  | None => upd_schda (set_prityidx PRITY_MIN) ;; krlsched_retn_idlethread
  end.

(** The processor continues in the thread's saved context. *)
Definition retnfrom_first_sched (t : Z) : SM unit :=
  _ ← get_td t; modify (fun s => with_cpu (Some t) (tss_rsp0 s) (mmu_cur s) s).

Definition __to_new_context (next prev : Z) : SM unit :=
  upd_schda (set_currtd (Some next)) ;;
  t ← get_td next;
  modify (fun s => with_cpu (cpu s) (td_krlstktop t) (td_mmdsc t) s) ;;
  if td_stus t =? TDSTUS_NEW then
    upd_td next (set_td_stus TDSTUS_RUN) ;;
    retnfrom_first_sched next
  else mret tt.

(** Saves the registers of [prev], takes the stack of [next]. *)
Definition save_to_new_context (next prev : Z) : SM unit :=
  _ ← get_td prev;
  modify (fun s => with_cpu (Some next) (tss_rsp0 s) (mmu_cur s) s) ;;
  __to_new_context next prev.

(** The whole routine, undisturbed; SchedWindow cuts it where interrupts are on
    again, between the choice and the switch. *)
Definition krlschedul : SM unit :=
  f ← krlsched_retn_schedflgs;
  if f =? NEED_START_CPUILDE_SCHED_FLGS then
    krlsched_set_schedflgs_ex NOTS_SCHED_FLGS ;;
    idle ← krlsched_retn_idlethread;
    retnfrom_first_sched idle
  else
    prev ← krlsched_retn_currthread;
    next ← krlsched_select_thread;
    save_to_new_context next prev.

Definition krlsched_chkneed_pmptsched : SM unit :=
  d ← gets schda;
  schd ← (if (sda_schdflgs d =? NEED_SCHED_FLGS) && (sda_premptidx d =? PMPT_FLGS)
          then upd_schda (set_schdflgs NOTS_SCHED_FLGS) ;; mret 1 else mret 0);
  d ← gets schda;
  let schd := if sda_schdflgs d =? NEED_START_CPUILDE_SCHED_FLGS then 1 else schd in
  if schd =? 1 then krlschedul else mret tt.

Definition krlschdclass_del_thread_addexit (thdp : Z) : SM unit :=
  t ← get_td thdp;
  let p := td_priority t in
  upd_tl p (fun L => set_tdl_nr (tdl_nr L -u 1) L) ;;
  upd_schda (fun d => set_threadnr (sda_threadnr d -u 1) d) ;;
  L ← get_tl p;
  (if decide (tdl_curruntd L = Some thdp) then upd_tl p (set_curruntd None) else mret tt) ;;
  list_del thdp ;;
  upd_td thdp (set_td_stus TDSTUS_EXIT) ;;
  list_add_exit thdp.

Definition krlsched_exit : SM unit :=
  tdp ← krlsched_retn_currthread;
  idle ← krlsched_retn_idlethread;
  if tdp =? idle then halt "krlsched_exit" else
  t ← get_td tdp;
  if PRITY_MAX <=? td_priority t then halt "krlsched_wait err" else
  L ← get_tl (td_priority t);
  if tdl_nr L <? 1 then halt "krlsched_wait err" else
  krlschdclass_del_thread_addexit tdp.

Definition krlschdclass_add_thread (thdp : Z) : SM unit :=
  t ← get_td thdp;
  list_add_ready thdp (td_priority t) ;;
  upd_tl (td_priority t) (fun L => set_tdl_nr (tdl_nr L +u 1) L) ;;
  upd_schda (fun d => set_threadnr (sda_threadnr d +u 1) d) ;;
  modify (fun s => Sys (schda s) (scls_threadnr s +u 1) (thds s) (sems s) (frames s) (cpu s) (tss_rsp0 s) (mmu_cur s)).

(** ** krlwaitlist.c: waking *)

Definition krlwlst_wait (wlst : Z) : SM unit := krlsched_wait (Some wlst).

Definition krlwlst_up (wlst : Z) : SM unit :=
  x ← get_sem wlst;
  if decide (wl_list (sem_waitlst x) = []) then mret tt else krlsched_up (Some wlst).

(** [while (the list is not empty) krlsched_up(wlst);] *)
Fixpoint allup_loop (fuel : nat) (wlst : Z) : SM unit :=
  x ← get_sem wlst;
  if decide (wl_list (sem_waitlst x) = []) then mret tt else
  match fuel with
  | O => nofuel
  | S fuel' => krlsched_up (Some wlst) ;; allup_loop fuel' wlst
  end.

(** Each round wakes one thread: the length of the list is enough. *)
Definition krlwlst_allup (wlst : Z) : SM unit :=
  x ← get_sem wlst; allup_loop (length (wl_list (sem_waitlst x))) wlst.

(** ** krlsem.c *)

Definition krlsem_t_init : sem_t := Sem 0 0 kwlst_t_init.

Definition krlsem_set_sem (setsem flg conut : Z) : SM unit :=
  upd_sem setsem (fun x => Sem flg conut (sem_waitlst x)).

(** One pass of [krlsem_down] from [start_step]: [true] when the semaphore was
    taken, [false] when the thread sleeps and the processor has gone to
    another thread; the sleeper goes back to [start_step] when it runs again. *)
Definition krlsem_down_try (sem : Z) : SM bool :=
  x ← get_sem sem;
  if sem_count x <? 1 then
    krlwlst_wait sem ;;
    krlschedul ;;
    mret false
  else
    upd_sem sem (fun x => set_count (sem_count x - 1) x) ;;
    mret true.

(** [sem_count] is signed; the increment of the largest value wraps. *)
Definition sint (x : Z) : Z := (x + 2 ^ 63) mod 2 ^ 64 - 2 ^ 63.

Definition krlsem_up (sem : Z) : SM unit :=
  upd_sem sem (fun x => set_count (sint (sem_count x + 1)) x) ;;
  x ← get_sem sem;
  die_if (sem_count x <? 1) "sem up err" ;;
  krlwlst_allup sem ;;
  krlsched_set_schedflgs.

(** ** krlthread.c: descriptors *)

Definition thread_t_init (adr initmmadrsdsc : Z) : thread_t :=
  Thread TDFLAG_FREE TDSTUS_NEW adr 0 0 PRILG_USR PRITY_MIN 0 0 0 0 initmmadrsdsc 0 0 (replicate (Z.to_nat TD_HAND_MAX) None).

Definition krlthd_inc_tick (thdp : Z) : SM unit :=
  upd_td thdp (fun t => set_td_ticks (td_tick t +u 1) (td_sumtick t) t) ;;
  upd_td thdp (fun t => set_td_ticks (td_tick t) (td_sumtick t +u 1) t) ;;
  t ← get_td thdp;
  if TDRUN_TICK <? td_tick t then
    upd_td thdp (fun t => set_td_ticks 0 (td_sumtick t) t) ;;
    krlsched_set_schedflgs
  else mret tt.

Definition krlthread_sumtick (thdp : option Z) : SM Z :=
  match thdp with None => mret 0 | Some t => x ← get_td t; mret (td_sumtick x) end.

Definition krlthd_curr_sumtick : SM Z := t ← krlsched_retn_currthread; krlthread_sumtick (Some t).

(** [for (hand = 0; hand < TD_HAND_MAX; hand++)] over the handle table. *)
Fixpoint null_hand (tbl : list (option Z)) (hand : Z) : Z :=
  match tbl with
  | [] => NO_HAND
  | None :: _ => hand
  | Some _ :: tbl' => null_hand tbl' (hand + 1)
  end.

Definition krlthd_retn_nullhand (thdp : Z) : SM Z := t ← get_td thdp; mret (null_hand (td_handtbl t) 0).

Definition krlthd_add_objnode (thdp ondp : Z) : SM Z :=
  t ← get_td thdp;
  let rethd := null_hand (td_handtbl t) 0 in
  if rethd =? NO_HAND then mret NO_HAND else
  upd_td thdp (fun t => set_td_handtbl (<[Z.to_nat rethd := Some ondp]> (td_handtbl t)) t) ;;
  mret rethd.

Definition krlthd_del_objnode (thdp hand : Z) : SM Z :=
  if (TD_HAND_MAX <=? hand) || (hand <=? NO_HAND) then mret NO_HAND else
  t ← get_td thdp;
  match td_handtbl t !! Z.to_nat hand with
  | Some (Some _) =>
      upd_td thdp (fun t => set_td_handtbl (<[Z.to_nat hand := None]> (td_handtbl t)) t) ;;
      mret hand
  | _ => mret NO_HAND
  end.

Definition krlthd_retn_objnode (thdp hand : Z) : SM (option Z) :=
  if (TD_HAND_MAX <=? hand) || (hand <=? NO_HAND) then mret None else
  t ← get_td thdp;
  mret (mjoin (td_handtbl t !! Z.to_nat hand)).

(** sizeof(intstkregs_t): 24 words *)
Definition SZ_intstkregs_t : Z := 192.
Definition align16 (x : Z) : Z := Z.land x (u64 (Z.lnot 0xf)).

Definition krlthread_kernstack_init (thdp runadr cpuflags : Z) : SM unit :=
  t ← get_td thdp;
  let ktop := align16 (td_krlstktop t) in
  let utop := align16 (td_usrstktop t) in
  let arp := ktop -u SZ_intstkregs_t in
  modify (fun s => Sys (schda s) (scls_threadnr s) (thds s) (sems s)
    (<[arp := Intstkregs K_DS_IDX K_DS_IDX K_DS_IDX K_DS_IDX runadr K_CS_IDX cpuflags ktop 0]> (frames s))
    (cpu s) (tss_rsp0 s) (mmu_cur s)) ;;
  upd_td thdp (set_td_stack ktop utop runadr arp).

Definition krlthread_userstack_init (thdp runadr cpuflags : Z) : SM unit :=
  t ← get_td thdp;
  let ktop := align16 (td_krlstktop t) in
  let utop := align16 (td_usrstktop t) in
  let arp := ktop -u SZ_intstkregs_t in
  modify (fun s => Sys (schda s) (scls_threadnr s) (thds s) (sems s)
    (<[arp := Intstkregs U_DS_IDX U_DS_IDX U_DS_IDX U_DS_IDX runadr U_CS_IDX cpuflags utop U_DS_IDX]> (frames s))
    (cpu s) (tss_rsp0 s) (mmu_cur s)) ;;
  upd_td thdp (set_td_stack ktop utop runadr arp).

(** ** Creating kernel threads

    The heap ([krlnew]) is not part of this state: what its two calls returned
    for the stack and for the descriptor are arguments, [None] for [NULL].  The
    name of a thread and the release of the stack on failure are left out. *)

Definition KMOD_EFLAGS : Z := 0x202.
Definition DAFT_TDUSRSTKSZ : Z := 0x8000.
Definition DAFT_TDKRLSTKSZ : Z := 0x8000.
Definition KERNTHREAD_FLG : Z := 0.
Definition USERTHREAD_FLG : Z := 3.

Definition set_td_new (prilg prity ktop kstart : Z) (t : thread_t) : thread_t :=
  Thread (td_flgs t) (td_stus t) (td_id t) (td_tick t) (td_sumtick t) prilg prity ktop kstart
    (td_usrstktop t) (td_usrstkstart t) (td_mmdsc t) (ctx_nextrip t) (ctx_nextrsp t) (td_handtbl t).

Definition krlnew_kern_thread_core (stk td : option Z) (initmm filerun prilg prity krlstksz : Z) : SM (option Z) :=
  match stk with
  | None => mret None
  | Some krlstkadr =>
      match td with
      | None => mret None
      | Some ret_td =>
          modify (fun s => with_thds (<[ret_td := thread_t_init ret_td initmm]> (thds s)) s) ;;
          upd_td ret_td (set_td_new prilg prity (krlstkadr +u (krlstksz -u 1)) krlstkadr) ;;
          krlthread_kernstack_init ret_td filerun KMOD_EFLAGS ;;
          krlschdclass_add_thread ret_td ;;
          mret (Some ret_td)
      end
  end.

(** [krlnew_thread] for kernel threads: the checks and the stack size. *)
Definition krlnew_kern_thread (stk td : option Z) (initmm filerun prilg prity usrstksz krlstksz : Z) : SM (option Z) :=
  if (filerun =? 0) || (DAFT_TDUSRSTKSZ <? usrstksz) || (DAFT_TDKRLSTKSZ <? krlstksz) then mret None else
  if (negb (prilg =? PRILG_USR) && negb (prilg =? PRILG_SYS)) || (PRITY_MAX <=? prity) then mret None else
  let tkstksz := if krlstksz <? DAFT_TDKRLSTKSZ then DAFT_TDKRLSTKSZ else krlstksz in
  krlnew_kern_thread_core stk td initmm filerun prilg prity tkstksz.

(** ** krlcpuidle.c *)

Definition new_cpuidle_thread (stk td : option Z) (initmm krlcpuidle_main : Z) : SM (option Z) :=
  match stk with
  | None => mret None
  | Some krlstkadr =>
      match td with
      | None => mret None
      | Some ret_td =>
          modify (fun s => with_thds (<[ret_td := thread_t_init ret_td initmm]> (thds s)) s) ;;
          upd_td ret_td (set_td_new PRILG_SYS PRITY_MIN (krlstkadr +u (DAFT_TDKRLSTKSZ - 1)) krlstkadr) ;;
          krlthread_kernstack_init ret_td krlcpuidle_main KMOD_EFLAGS ;;
          upd_schda (fun d => Schdata (sda_schdflgs d) (sda_premptidx d) (sda_threadnr d) (sda_prityidx d) (Some ret_td)
                       (sda_currtd d) (sda_thdlst d) (sda_exitlist d)) ;;
          upd_schda (set_currtd (Some ret_td)) ;;
          mret (Some ret_td)
      end
  end.

Definition new_cpuidle (stk td : option Z) (initmm krlcpuidle_main : Z) : SM unit :=
  thp ← new_cpuidle_thread stk td initmm krlcpuidle_main;
  match thp with None => halt "newcpuilde err" | Some _ => mret tt end.

(** The first switch: the boot stack is left for the idle thread. *)
Definition krlcpuidle_start : SM unit :=
  d ← gets schda;
  match sda_cpuidle d with
  | None => fault
  | Some tdp =>
      t ← get_td tdp;
      modify (fun s => with_cpu (cpu s) (td_krlstktop t) (mmu_cur s) s) ;;
      upd_td tdp (set_td_stus TDSTUS_RUN) ;;
      retnfrom_first_sched tdp
  end.
