(* ===== verification/SchedInv.v ===== *)
(** * Scheduler invariant

    Every thread descriptor is in exactly one place: ready in its priority
    class, the class's current thread, asleep on one semaphore, exited, or the
    idle thread.  [SInv] states this with a map [P] from threads to places,
    together with the counters, the statuses and the semaphores. *)

From S2P Require Import Prelude Sched.

(** ** Places *)

Inductive place :=
| PReady (p : Z)
| PCurr (p : Z)
| PWait (w : Z)
| PExit
| PIdle.

#[global] Instance place_eq_dec : EqDecision place.
Proof. solve_decision. Defined.

Definition at_place (s : sys) (t : Z) (q : place) : Prop :=
  match q with
  | PReady p => exists L, sda_thdlst (schda s) !! p = Some L /\ t ∈ tdl_lsth L
  | PCurr p => exists L, sda_thdlst (schda s) !! p = Some L /\ tdl_curruntd L = Some t
  | PWait w => exists x, sems s !! w = Some x /\ t ∈ wl_list (sem_waitlst x)
  | PExit => t ∈ sda_exitlist (schda s)
  | PIdle => sda_cpuidle (schda s) = Some t
  end.

(** What the descriptor of a thread in place [q] says. *)
Definition status_ok (q : place) (x : thread_t) : Prop :=
  match q with
  | PReady p | PCurr p => td_priority x = p /\ (td_stus x = TDSTUS_RUN \/ td_stus x = TDSTUS_NEW)
  | PWait _ => 0 <= td_priority x < PRITY_MAX /\ td_stus x = TDSTUS_WAIT
  | PExit => td_stus x = TDSTUS_EXIT
  | PIdle => True
  end.

Definition live (q : place) : Prop := match q with PReady _ | PCurr _ | PWait _ => True | _ => False end.
#[global] Instance live_dec q : Decision (live q).
Proof. destruct q; simpl; apply _. Defined.

(** The threads the scheduler counts. *)
Definition live_count (P : gmap Z place) : Z := Z.of_nat (size (filter (fun tq : Z * place => live tq.2) P)).

Definition tl_ok (L : thrdlst_t) : Prop :=
  NoDup (tdl_lsth L) /\
  tdl_nr L = Z.of_nat (length (tdl_lsth L)) + (match tdl_curruntd L with Some _ => 1 | None => 0 end).

Definition sem_ok (x : sem_t) : Prop :=
  NoDup (wl_list (sem_waitlst x)) /\ wl_tdnr (sem_waitlst x) = Z.of_nat (length (wl_list (sem_waitlst x))) /\
  0 <= sem_count x < 2 ^ 63.

(** Nobody sleeps on a semaphore that is available. *)
Definition no_idle_sem (s : sys) : Prop :=
  forall w x, sems s !! w = Some x -> 1 <= sem_count x -> wl_list (sem_waitlst x) = [].

(** Everything but the position of the processor. *)
Record SQueues (s : sys) (P : gmap Z place) : Prop := {
  sq_place : forall t q, at_place s t q <-> P !! t = Some q;
  sq_status : forall t q, P !! t = Some q -> exists x, thds s !! t = Some x /\ status_ok q x;
  sq_total : forall t x, thds s !! t = Some x -> is_Some (P !! t);
  sq_classes : forall p, is_Some (sda_thdlst (schda s) !! p) <-> 0 <= p < PRITY_MAX;
  sq_tl : forall p L, sda_thdlst (schda s) !! p = Some L -> tl_ok L;
  sq_sem : forall w x, sems s !! w = Some x -> sem_ok x;
  sq_exit : NoDup (sda_exitlist (schda s));
  sq_nr : sda_threadnr (schda s) = live_count P;
  sq_idle : is_Some (sda_cpuidle (schda s));
  sq_flgs : sda_schdflgs (schda s) = NOTS_SCHED_FLGS \/ sda_schdflgs (schda s) = NEED_SCHED_FLGS;
  sq_size : Z.of_nat (size (thds s)) < 2 ^ 62
}.

(** The running thread is the idle thread or the current one of its class, and
    the processor runs its context. *)
Definition running (s : sys) (P : gmap Z place) (c : Z) : Prop :=
  sda_currtd (schda s) = Some c /\ cpu s = Some c /\ (P !! c = Some PIdle \/ exists p, P !! c = Some (PCurr p)).

Definition SInv (s : sys) : Prop := exists P c, SQueues s P /\ running s P c /\ no_idle_sem s.

(** ** Consequences *)

Lemma place_linked s P t : SQueues s P ->
  linked s t <-> exists q, P !! t = Some q /\ match q with PCurr _ | PIdle => False | _ => True end.
Proof.
  intros HS. pose proof (sq_place _ _ HS t) as Hp. unfold linked, in_ready, in_wait. split.
  - intros [(p & L & HL & Ht)|[(w & x & Hx & Ht)|Ht]].
    + exists (PReady p). rewrite <- Hp. simpl. eauto.
    + exists (PWait w). rewrite <- Hp. simpl. eauto.
    + exists PExit. rewrite <- Hp. done.
  - intros (q & Hq & Hm). rewrite <- Hp in Hq. destruct q as [p|p|w| |]; simpl in Hq; [|done| | |done].
    + destruct Hq as (L & HL & Ht). left. exists p, L. done.
    + destruct Hq as (x & Hx & Ht). right; left. exists w, x. done.
    + by right; right.
Qed.

Lemma unlinked_curr s P t q : SQueues s P -> P !! t = Some q -> (exists p, q = PCurr p) \/ q = PIdle -> ~ linked s t.
Proof.
  intros HS Hq Hc Hl. apply (place_linked s P t HS) in Hl as (q' & Hq' & Hm). rewrite Hq in Hq'. injection Hq' as <-.
  destruct Hc as [[p ->]| ->]; done.
Qed.

Lemma live_bound s P : SQueues s P -> 0 <= live_count P < 2 ^ 62.
Proof.
  intros HS. unfold live_count. split; [lia|].
  assert (size (filter (fun tq : Z * place => live tq.2) P) <= size (thds s))%nat.
  { rewrite <- !size_dom. apply subseteq_size. intros t Ht. apply elem_of_dom in Ht as [q Hq].
    apply map_lookup_filter_Some in Hq as [Hq _]. destruct (sq_status _ _ HS t q Hq) as (x & Hx & _).
    apply elem_of_dom. eauto. }
  pose proof (sq_size _ _ HS). lia.
Qed.

Lemma queue_length s P (l : list Z) : SQueues s P -> NoDup l -> (forall t, t ∈ l -> is_Some (P !! t)) ->
  Z.of_nat (length l) < 2 ^ 62.
Proof.
  intros HS Hnd Hl. assert (length l <= size (thds s))%nat.
  { apply NoDup_dom_length; [done|]. intros t Ht. destruct (Hl t Ht) as [q Hq].
    destruct (sq_status _ _ HS t q Hq) as (x & Hx & _). eauto. }
  pose proof (sq_size _ _ HS). lia.
Qed.

Lemma tl_length s P p L : SQueues s P -> sda_thdlst (schda s) !! p = Some L -> Z.of_nat (length (tdl_lsth L)) < 2 ^ 62.
Proof.
  intros HS HL. apply (queue_length s P); [done|by destruct (sq_tl _ _ HS p L HL)|].
  intros t Ht. exists (PReady p). apply (sq_place _ _ HS). simpl. eauto.
Qed.

Lemma wl_length s P w x : SQueues s P -> sems s !! w = Some x -> Z.of_nat (length (wl_list (sem_waitlst x))) < 2 ^ 62.
Proof.
  intros HS Hx. apply (queue_length s P); [done|by destruct (sq_sem _ _ HS w x Hx)|].
  intros t Ht. exists (PWait w). apply (sq_place _ _ HS). simpl. eauto.
Qed.

(** ** Taking a node out of its list *)

Lemma fmap_unchanged {A} (f : A -> A) (g : gmap Z A) : (forall k x, g !! k = Some x -> f x = x) -> f <$> g = g.
Proof.
  intros H. apply map_eq. intros k. rewrite lookup_fmap. destruct (g !! k) as [x|] eqn:E; [simpl; by rewrite (H k x E)|done].
Qed.

Lemma fmap_changed {A} (f : A -> A) (g : gmap Z A) k x :
  g !! k = Some x -> (forall k' x', k' <> k -> g !! k' = Some x' -> f x' = x') -> f <$> g = <[k := f x]> g.
Proof.
  intros Hk H. apply map_eq. intros j. rewrite lookup_fmap. destruct (decide (j = k)) as [->|].
  - by rewrite Hk, lookup_insert_eq.
  - rewrite lookup_insert_ne by done. destruct (g !! j) as [y|] eqn:E; [simpl; by rewrite (H j y)|done].
Qed.

Lemma del_tl_id t L : t ∉ tdl_lsth L -> set_lsth (del_node t (tdl_lsth L)) L = L.
Proof. intros H. unfold del_node. rewrite filter_ne_notin by done. by destruct L. Qed.

Lemma del_wl_id t x : t ∉ wl_list (sem_waitlst x) ->
  set_waitlst (Kwlst (wl_tdnr (sem_waitlst x)) (del_node t (wl_list (sem_waitlst x)))) x = x.
Proof. intros H. unfold del_node. rewrite filter_ne_notin by done. by destruct x as [? ? []]. Qed.

Lemma not_ready_elem s t p L : ~ in_ready s t -> sda_thdlst (schda s) !! p = Some L -> t ∉ tdl_lsth L.
Proof. intros H HL Hin. apply H. exists p, L. done. Qed.
Lemma not_wait_elem s t w x : ~ in_wait s t -> sems s !! w = Some x -> t ∉ wl_list (sem_waitlst x).
Proof. intros H HL Hin. apply H. exists w, x. done. Qed.

Lemma sys_eta s : with_sems (sems s) (with_schda (set_exitlist (sda_exitlist (schda s)) (set_thdlst (sda_thdlst (schda s)) (schda s))) s) = s.
Proof. by destruct s as [[] ? ? ? ? ? ? ?]. Qed.

Lemma list_del_unlinked s t : ~ linked s t -> list_del t s = Ret (tt, s).
Proof.
  unfold linked. intros H. unfold list_del, modify. do 2 f_equal.
  rewrite (fmap_unchanged _ (sda_thdlst _)) by (intros p L HL; apply del_tl_id; apply (not_ready_elem s t p L); [tauto|done]).
  rewrite (fmap_unchanged _ (sems s)) by (intros w x Hx; apply del_wl_id; apply (not_wait_elem s t w x); [tauto|done]).
  unfold del_node. rewrite filter_ne_notin by tauto. apply sys_eta.
Qed.

Lemma list_del_ready s P t p L : SQueues s P -> P !! t = Some (PReady p) -> sda_thdlst (schda s) !! p = Some L ->
  list_del t s = Ret (tt, with_schda (set_thdlst (<[p := set_lsth (del_node t (tdl_lsth L)) L]> (sda_thdlst (schda s))) (schda s)) s).
Proof.
  intros HS HP HL. assert (Hu : forall q, at_place s t q -> q = PReady p).
  { intros q Hq. apply (sq_place _ _ HS) in Hq. congruence. }
  unfold list_del, modify. do 2 f_equal.
  rewrite (fmap_changed _ (sda_thdlst _) p L HL).
  2:{ intros p' L' Hp' HL'. apply del_tl_id. intros Hin. apply Hp'.
      assert (PReady p' = PReady p) by (apply Hu; simpl; eauto). congruence. }
  rewrite (fmap_unchanged _ (sems s)).
  2:{ intros w x Hx. apply del_wl_id. intros Hin. assert (PWait w = PReady p) by (apply Hu; simpl; eauto). congruence. }
  replace (del_node t (sda_exitlist (schda s))) with (sda_exitlist (schda s)).
  2:{ symmetry. apply filter_ne_notin. intros Hin. specialize (Hu PExit Hin). congruence. }
  by destruct s as [[] ? ? ? ? ? ? ?].
Qed.

Lemma list_del_wait s P t w x : SQueues s P -> P !! t = Some (PWait w) -> sems s !! w = Some x ->
  list_del t s = Ret (tt, with_sems (<[w := set_waitlst (Kwlst (wl_tdnr (sem_waitlst x)) (del_node t (wl_list (sem_waitlst x)))) x]> (sems s)) s).
Proof.
  intros HS HP HL. assert (Hu : forall q, at_place s t q -> q = PWait w).
  { intros q Hq. apply (sq_place _ _ HS) in Hq. congruence. }
  unfold list_del, modify. do 2 f_equal.
  rewrite (fmap_changed _ (sems s) w x HL).
  2:{ intros p' L' Hp' HL'. apply del_wl_id. intros Hin. apply Hp'.
      assert (PWait p' = PWait w) by (apply Hu; simpl; eauto). congruence. }
  rewrite (fmap_unchanged _ (sda_thdlst _)).
  2:{ intros p L Hx. apply del_tl_id. intros Hin. assert (PReady p = PWait w) by (apply Hu; simpl; eauto). congruence. }
  replace (del_node t (sda_exitlist (schda s))) with (sda_exitlist (schda s)).
  2:{ symmetry. apply filter_ne_notin. intros Hin. specialize (Hu PExit Hin). congruence. }
  by destruct s as [[] ? ? ? ? ? ? ?].
Qed.
