(* ===== verification/SchedMoves.v ===== *)
(** * Scheduler: moves between places

    Each operation of the scheduler moves threads between places.  This file
    writes each move as an update of the state and shows that it keeps the
    queues consistent. *)

From S2P Require Import Prelude Sched SchedInv.

Definition put_tl (p : Z) (L : thrdlst_t) (s : sys) : sys :=
  with_schda (set_thdlst (<[p := L]> (sda_thdlst (schda s))) (schda s)) s.
Definition put_td (t : Z) (x : thread_t) (s : sys) : sys := with_thds (<[t := x]> (thds s)) s.
Definition put_sem (w : Z) (x : sem_t) (s : sys) : sys := with_sems (<[w := x]> (sems s)) s.
Definition put_exit (l : list Z) (s : sys) : sys := with_schda (set_exitlist l (schda s)) s.
Definition put_nr (n : Z) (s : sys) : sys := with_schda (set_threadnr n (schda s)) s.

(** ** Places after an update *)

Lemma at_put_tl p L s t q :
  at_place (put_tl p L s) t q <->
    match q with
    | PReady p' => if decide (p = p') then t ∈ tdl_lsth L else at_place s t q
    | PCurr p' => if decide (p = p') then tdl_curruntd L = Some t else at_place s t q
    | _ => at_place s t q
    end.
Proof.
  destruct q as [p'|p'|w| |]; simpl; try done; rewrite lookup_insert; case_decide; try done;
    (split; [intros (? & [= <-] & ?); done|eauto]).
Qed.

Lemma at_put_td t' x s t q : at_place (put_td t' x s) t q <-> at_place s t q.
Proof. by destruct q. Qed.

Lemma at_put_nr n s t q : at_place (put_nr n s) t q <-> at_place s t q.
Proof. by destruct q. Qed.

Lemma at_put_sem w y s t q :
  at_place (put_sem w y s) t q <->
    match q with
    | PWait w' => if decide (w = w') then t ∈ wl_list (sem_waitlst y) else at_place s t q
    | _ => at_place s t q
    end.
Proof.
  destruct q as [p'|p'|w'| |]; simpl; try done; rewrite lookup_insert; case_decide; try done.
  split; [intros (? & [= <-] & ?); done|eauto].
Qed.

Lemma at_put_exit l s t q :
  at_place (put_exit l s) t q <-> match q with PExit => t ∈ l | _ => at_place s t q end.
Proof. by destruct q. Qed.

(** ** Counting live threads *)

Lemma live_count_fresh P t q : P !! t = None ->
  live_count (<[t := q]> P) = live_count P + (if decide (live q) then 1 else 0).
Proof.
  intros Ht. unfold live_count. set (F := fun tq : Z * place => live tq.2).
  assert (Hd : (filter F P : gmap Z place) !! t = None) by (apply map_lookup_filter_None; by left).
  case_decide.
  - rewrite map_filter_insert_True by done. rewrite map_size_insert_None by done. lia.
  - rewrite map_filter_insert_False by done. rewrite delete_id by done. lia.
Qed.

Lemma live_count_insert P t q q0 : P !! t = Some q0 ->
  live_count (<[t := q]> P) = live_count P - (if decide (live q0) then 1 else 0) + (if decide (live q) then 1 else 0).
Proof.
  intros Ht. rewrite <- (insert_delete_id P t q0 Ht) at 2. rewrite <- (insert_delete_eq P t q).
  rewrite !live_count_fresh by apply lookup_delete_eq. lia.
Qed.

(** ** The moves *)

(** The lists in terms of the places. *)
Lemma in_lsth s P p L t : SQueues s P -> sda_thdlst (schda s) !! p = Some L -> t ∈ tdl_lsth L <-> P !! t = Some (PReady p).
Proof.
  intros HS HL. rewrite <- (sq_place _ _ HS). simpl. split; [eauto|]. intros (L' & HL' & Ht). congruence.
Qed.
Lemma in_curr s P p L t : SQueues s P -> sda_thdlst (schda s) !! p = Some L -> tdl_curruntd L = Some t <-> P !! t = Some (PCurr p).
Proof.
  intros HS HL. rewrite <- (sq_place _ _ HS). simpl. split; [eauto|]. intros (L' & HL' & Ht). congruence.
Qed.
Lemma in_wl s P w x t : SQueues s P -> sems s !! w = Some x -> t ∈ wl_list (sem_waitlst x) <-> P !! t = Some (PWait w).
Proof.
  intros HS HL. rewrite <- (sq_place _ _ HS). simpl. split; [eauto|]. intros (L' & HL' & Ht). congruence.
Qed.

(** The place equivalence after an update, by cases on the place. *)
Ltac places HS :=
  let t := fresh "t" in let q := fresh "q" in
  intros t q; destruct q; rewrite ?lookup_insert;
  repeat first
    [ (rewrite at_put_sem || rewrite at_put_tl || rewrite at_put_td || rewrite at_put_exit || rewrite at_put_nr);
      cbn beta iota; cbn [tdl_lsth tdl_curruntd wl_list sem_waitlst set_waitlst]
    | case_decide; subst ];
  repeat rewrite (sq_place _ _ HS);
  repeat (rewrite elem_of_app || rewrite list_elem_of_singleton || rewrite elem_of_cons);
  repeat match goal with H : forall u, _ <-> _ !! u = _ |- _ => rewrite H end;
  (split; [intros|intros]; destruct_or?; simplify_eq; try done; auto; try congruence;
    try match goal with Hc : (forall u, _ = Some u <-> _), H : _ !! _ = Some (PCurr _) |- _ => apply Hc in H; congruence end).

Lemma status_insert (g : gmap Z thread_t) (P : gmap Z place) t x q :
  (forall u r, P !! u = Some r -> exists y, g !! u = Some y /\ status_ok r y) -> status_ok q x ->
  forall u r, <[t := q]> P !! u = Some r -> exists y, <[t := x]> g !! u = Some y /\ status_ok r y.
Proof.
  intros H Hx u r. rewrite !lookup_insert. case_decide; [|apply H]. intros [= <-]. eauto.
Qed.

Lemma total_insert (g : gmap Z thread_t) (P : gmap Z place) t x q :
  (forall u y, g !! u = Some y -> is_Some (P !! u)) ->
  forall u y, <[t := x]> g !! u = Some y -> is_Some (<[t := q]> P !! u).
Proof. intros H u y. rewrite !lookup_insert. case_decide; eauto. Qed.

Lemma size_insert_same (g : gmap Z thread_t) t x y : g !! t = Some y -> size (<[t := x]> g) = size g.
Proof. intros H. apply map_size_insert_Some. eauto. Qed.

Lemma classes_insert (g : gmap Z thrdlst_t) p L (R : Z -> Prop) :
  is_Some (g !! p) -> (forall p', is_Some (g !! p') <-> R p') -> forall p', is_Some (<[p := L]> g !! p') <-> R p'.
Proof. intros Hp H p'. rewrite lookup_insert. case_decide; [subst; rewrite <- H; split; eauto|apply H]. Qed.

Lemma forall_insert {A} (g : gmap Z A) k x (R : A -> Prop) :
  R x -> (forall k' y, g !! k' = Some y -> R y) -> forall k' y, <[k := x]> g !! k' = Some y -> R y.
Proof. intros Hx H k' y. rewrite lookup_insert. case_decide; [intros [= <-]; done|apply H]. Qed.

(** Membership in what is left of a list. *)
Ltac rest Hinl :=
  match goal with
  | H : _ ∈ _ |- _ => apply Hinl in H as [? ?]; (done || congruence)
  | |- _ ∈ _ => by apply Hinl
  | |- _ ∈ _ \/ _ => left; by apply Hinl
  end.

(** A class's current thread falls asleep on a semaphore. *)
Definition sleep (c p w : Z) (x : thread_t) (L : thrdlst_t) (y : sem_t) (s : sys) : sys :=
  put_sem w (set_waitlst (Kwlst (wl_tdnr (sem_waitlst y) + 1) (c :: wl_list (sem_waitlst y))) y)
    (put_tl p (Thrdlst (tdl_lsth L) None (tdl_nr L - 1)) (put_td c (set_td_stus TDSTUS_WAIT x) s)).

Lemma sleep_queues s P c p w x L y : SQueues s P ->
  P !! c = Some (PCurr p) -> thds s !! c = Some x -> sda_thdlst (schda s) !! p = Some L -> sems s !! w = Some y ->
  SQueues (sleep c p w x L y s) (<[c := PWait w]> P).
Proof.
  intros HS HP Hx HL Hy. pose proof (sq_place _ _ HS) as Hpl.
  destruct (sq_tl _ _ HS p L HL) as [Hnd Hnr]. destruct (sq_sem _ _ HS w y Hy) as (Hwnd & Hwn & Hcnt).
  pose proof (fun t => in_lsth s P p L t HS HL) as HinL. pose proof (fun t => in_wl s P w y t HS Hy) as Hinw.
  pose proof (fun t => in_curr s P p L t HS HL) as HcurL. assert (HcL : tdl_curruntd L = Some c) by (by apply HcurL).
  assert (Hcw : c ∉ wl_list (sem_waitlst y)) by (rewrite Hinw; congruence).
  destruct (sq_status _ _ HS c _ HP) as (x' & Hx' & Hpx & _). rewrite Hx in Hx'. injection Hx' as <-.
  split; simpl.
  - clear Hpx. unfold sleep. places HS.
  - apply status_insert; [apply HS|]. pose proof (proj1 (sq_classes _ _ HS p) (ex_intro _ L HL)). simpl. split; [lia|done].
  - apply total_insert, HS.
  - apply classes_insert; [eauto|apply HS].
  - apply forall_insert; [|apply HS]. split; [done|]. simpl. rewrite Hnr, HcL. lia.
  - apply forall_insert; [|apply HS]. unfold sem_ok. simpl. split_and!; [by constructor|lia|lia|lia].
  - apply HS.
  - rewrite (live_count_insert P c _ _ HP). simpl. rewrite (sq_nr _ _ HS). lia.
  - apply HS.
  - apply HS.
  - rewrite (size_insert_same _ _ _ x) by done. apply HS.
Qed.

(** The head of a wait list becomes ready at the tail of its class. *)
Definition wake (t w p : Z) (x : thread_t) (L : thrdlst_t) (y : sem_t) (l : list Z) (s : sys) : sys :=
  put_tl p (Thrdlst (tdl_lsth L ++ [t]) (tdl_curruntd L) (tdl_nr L + 1))
    (put_td t (set_td_stus TDSTUS_RUN x) (put_sem w (set_waitlst (Kwlst (wl_tdnr (sem_waitlst y) - 1) l) y) s)).

Lemma wake_queues s P t w p x L y l : SQueues s P ->
  sems s !! w = Some y -> wl_list (sem_waitlst y) = t :: l -> thds s !! t = Some x -> td_priority x = p ->
  sda_thdlst (schda s) !! p = Some L -> SQueues (wake t w p x L y l s) (<[t := PReady p]> P).
Proof.
  intros HS Hy Hl Hx Hp HL.
  destruct (sq_tl _ _ HS p L HL) as [Hnd Hnr]. destruct (sq_sem _ _ HS w y Hy) as (Hwnd & Hwn & Hcnt).
  pose proof (fun t => in_lsth s P p L t HS HL) as HinL. pose proof (fun t => in_wl s P w y t HS Hy) as Hinw.
  pose proof (fun t => in_curr s P p L t HS HL) as HcurL.
  assert (HP : P !! t = Some (PWait w)) by (apply Hinw; rewrite Hl; by left).
  rewrite Hl in Hwnd, Hwn, Hinw. apply NoDup_cons in Hwnd as [Htl Hwnd].
  assert (Hinl : forall u, u ∈ l <-> P !! u = Some (PWait w) /\ u <> t).
  { intros u. rewrite <- Hinw, elem_of_cons. split; [intros Hu; split; [by right|by intros ->]|intros [[->|?] ?]; done]. }
  assert (HtL : t ∉ tdl_lsth L) by (rewrite HinL; congruence).
  split; simpl.
  - clear Hp. unfold wake. places HS; rest Hinl.
  - apply status_insert; [apply HS|]. simpl. auto.
  - apply total_insert, HS.
  - apply classes_insert; [eauto|apply HS].
  - apply forall_insert; [|apply HS]. split; simpl.
    + apply NoDup_app. split_and!; [done| |apply NoDup_singleton]. intros u Hu ->%list_elem_of_singleton. done.
    + rewrite length_app. simpl. lia.
  - apply forall_insert; [|apply HS]. unfold sem_ok. simpl. simpl in Hwn. split_and!; [done|lia|lia|lia].
  - apply HS.
  - rewrite (live_count_insert P t _ _ HP). simpl. rewrite (sq_nr _ _ HS). lia.
  - apply HS.
  - apply HS.
  - rewrite (size_insert_same _ _ _ x) by done. apply HS.
Qed.

(** The head of a class's ready list becomes its current thread; the former
    current thread goes to the tail. *)
Definition opt_list (o : option Z) : list Z := match o with Some c => [c] | None => [] end.
Definition rotate (t p : Z) (l : list Z) (L : thrdlst_t) (s : sys) : sys :=
  put_tl p (Thrdlst (l ++ opt_list (tdl_curruntd L)) (Some t) (tdl_nr L)) s.
Definition rotate_places (t p : Z) (L : thrdlst_t) (P : gmap Z place) : gmap Z place :=
  <[t := PCurr p]> (match tdl_curruntd L with Some c => <[c := PReady p]> P | None => P end).

Lemma rotate_queues s P t p l L : SQueues s P ->
  sda_thdlst (schda s) !! p = Some L -> tdl_lsth L = t :: l -> SQueues (rotate t p l L s) (rotate_places t p L P).
Proof.
  intros HS HL Hl. destruct (sq_tl _ _ HS p L HL) as [Hnd Hnr].
  pose proof (fun t => in_lsth s P p L t HS HL) as HinL. pose proof (fun t => in_curr s P p L t HS HL) as HcurL.
  assert (HP : P !! t = Some (PReady p)) by (apply HinL; rewrite Hl; by left).
  rewrite Hl in Hnd, Hnr, HinL. apply NoDup_cons in Hnd as [Htl Hnd].
  assert (Hinl : forall u, u ∈ l <-> P !! u = Some (PReady p) /\ u <> t).
  { intros u. rewrite <- HinL, elem_of_cons. split; [intros Hu; split; [by right|by intros ->]|intros [[->|?] ?]; done]. }
  destruct (sq_status _ _ HS t _ HP) as (x & Hx & Hpx & Hstx).
  assert (Hcur : match tdl_curruntd L with
                 | Some c => P !! c = Some (PCurr p) /\ c <> t /\ c ∉ l | None => True end).
  { destruct (tdl_curruntd L) as [c|] eqn:E; [|done]. assert (Hc : P !! c = Some (PCurr p)) by (by apply HcurL).
    split_and!; [done|congruence|rewrite Hinl; intros [? _]; congruence]. }
  unfold rotate, rotate_places. destruct (tdl_curruntd L) as [c|] eqn:E; simpl.
  - destruct Hcur as (Hc & Hct & Hcl). destruct (sq_status _ _ HS c _ Hc) as (xc & Hxc & Hpc & Hstc).
    split; simpl.
    + clear Hpx Hpc HinL. places HS; rest Hinl.
    + intros u r. rewrite !lookup_insert. repeat case_decide; subst; [intros [= <-]; exists x; simpl; auto
        |intros [= <-]; exists xc; simpl; auto|apply HS].
    + intros u y Hu. rewrite !lookup_insert. repeat case_decide; eauto. by apply (sq_total _ _ HS u y).
    + apply classes_insert; [eauto|apply HS].
    + apply forall_insert; [|apply HS]. split; simpl.
      * apply NoDup_app. split_and!; [done| |apply NoDup_singleton]. intros u Hu ->%list_elem_of_singleton. done.
      * rewrite length_app. simpl in *. lia.
    + apply HS.
    + apply HS.
    + rewrite (live_count_insert _ t _ (PReady p)) by (by rewrite lookup_insert_ne).
      rewrite (live_count_insert P c _ _ Hc). simpl. rewrite (sq_nr _ _ HS). lia.
    + apply HS.
    + apply HS.
    + apply HS.
  - split; simpl.
    + clear Hpx HinL. places HS; rewrite ?elem_of_nil in *; try tauto; rest Hinl.
    + intros u r. rewrite !lookup_insert. repeat case_decide; subst; [intros [= <-]; exists x; simpl; auto|apply HS].
    + intros u y Hu. rewrite !lookup_insert. repeat case_decide; eauto. by apply (sq_total _ _ HS u y).
    + apply classes_insert; [eauto|apply HS].
    + apply forall_insert; [|apply HS]. split; simpl; rewrite app_nil_r; [done|]. simpl in *. lia.
    + apply HS.
    + apply HS.
    + rewrite (live_count_insert P t _ _ HP). simpl. rewrite (sq_nr _ _ HS). lia.
    + apply HS.
    + apply HS.
    + apply HS.
Qed.

(** A class's current thread exits. *)
Definition leave (c p : Z) (x : thread_t) (L : thrdlst_t) (s : sys) : sys :=
  put_exit (c :: sda_exitlist (schda s)) (put_td c (set_td_stus TDSTUS_EXIT x)
    (put_nr (sda_threadnr (schda s) - 1) (put_tl p (Thrdlst (tdl_lsth L) None (tdl_nr L - 1)) s))).

Lemma leave_queues s P c p x L : SQueues s P ->
  P !! c = Some (PCurr p) -> thds s !! c = Some x -> sda_thdlst (schda s) !! p = Some L ->
  SQueues (leave c p x L s) (<[c := PExit]> P).
Proof.
  intros HS HP Hx HL. destruct (sq_tl _ _ HS p L HL) as [Hnd Hnr].
  pose proof (fun t => in_lsth s P p L t HS HL) as HinL. pose proof (fun t => in_curr s P p L t HS HL) as HcurL.
  assert (HcL : tdl_curruntd L = Some c) by (by apply HcurL).
  assert (Hexit : forall u, u ∈ sda_exitlist (schda s) <-> P !! u = Some PExit) by (intros u; by rewrite <- (sq_place _ _ HS)).
  split; simpl.
  - unfold leave. places HS.
  - apply status_insert; [apply HS|done].
  - apply total_insert, HS.
  - apply classes_insert; [eauto|apply HS].
  - apply forall_insert; [|apply HS]. split; [done|]. simpl. rewrite Hnr, HcL. lia.
  - apply HS.
  - constructor; [rewrite Hexit; congruence|apply HS].
  - rewrite (live_count_insert P c _ _ HP). simpl. rewrite (sq_nr _ _ HS). lia.
  - apply HS.
  - apply HS.
  - rewrite (size_insert_same _ _ _ x) by done. apply HS.
Qed.

(** A new thread joins the head of its class. *)
Definition join (t p : Z) (x : thread_t) (L : thrdlst_t) (s : sys) : sys :=
  put_nr (sda_threadnr (schda s) + 1) (put_tl p (Thrdlst (t :: tdl_lsth L) (tdl_curruntd L) (tdl_nr L + 1)) (put_td t x s)).

Lemma join_queues s P t p x L : SQueues s P ->
  thds s !! t = None -> td_priority x = p -> td_stus x = TDSTUS_NEW -> sda_thdlst (schda s) !! p = Some L ->
  Z.of_nat (size (thds s)) + 1 < 2 ^ 62 -> SQueues (join t p x L s) (<[t := PReady p]> P).
Proof.
  intros HS Hx Hp Hst HL Hsz. destruct (sq_tl _ _ HS p L HL) as [Hnd Hnr].
  pose proof (fun t => in_lsth s P p L t HS HL) as HinL. pose proof (fun t => in_curr s P p L t HS HL) as HcurL.
  assert (HP : P !! t = None).
  { destruct (P !! t) as [q|] eqn:E; [|done]. destruct (sq_status _ _ HS t q E) as (y & Hy & _). congruence. }
  split; simpl.
  - clear Hp. unfold join. places HS.
  - apply status_insert; [apply HS|]. simpl. auto.
  - apply total_insert, HS.
  - apply classes_insert; [eauto|apply HS].
  - apply forall_insert; [|apply HS]. split; simpl; [constructor; [rewrite HinL; congruence|done]|lia].
  - apply HS.
  - apply HS.
  - rewrite (live_count_fresh P t _ HP). simpl. rewrite (sq_nr _ _ HS). done.
  - apply HS.
  - apply HS.
  - rewrite map_size_insert_None by done. lia.
Qed.

(** A thread that is not asleep or exited has its status set to running, or its
    ticks counted: neither changes a queue. *)
Lemma touch_queues s P t x x' : SQueues s P -> thds s !! t = Some x ->
  td_priority x' = td_priority x ->
  td_stus x' = td_stus x \/ (td_stus x = TDSTUS_NEW /\ td_stus x' = TDSTUS_RUN) -> SQueues (put_td t x' s) P.
Proof.
  intros HS Hx Hp Hst. split; simpl; [intros u q; rewrite at_put_td; apply HS| | |apply HS..|].
  - intros u q Hq. destruct (sq_status _ _ HS u q Hq) as (y & Hy & Hok). rewrite lookup_insert.
    case_decide; subst; [|eauto]. exists x'. split; [done|]. rewrite Hx in Hy. injection Hy as <-.
    destruct q; simpl in *; rewrite ?Hp; [| | | |done].
    + destruct Hok as [? Hok]. split; [done|]. destruct Hst as [->|[E ->]]; auto.
    + destruct Hok as [? Hok]. split; [done|]. destruct Hst as [->|[E ->]]; auto.
    + destruct Hok as [? Hok]. split; [done|]. destruct Hst as [->|[E ->]]; [done|]. rewrite E in Hok. discriminate.
    + destruct Hst as [->|[E ->]]; [done|]. rewrite E in Hok. discriminate.
  - intros u y. rewrite lookup_insert. case_decide; [subst; intros _; eapply (sq_total _ _ HS); eassumption|apply HS].
  - rewrite (size_insert_same _ _ _ x) by done. apply HS.
Qed.

(** Counters, flags and the processor's registers are in no queue. *)
Definition same_queues (s s' : sys) : Prop :=
  thds s' = thds s /\ sems s' = sems s /\ sda_thdlst (schda s') = sda_thdlst (schda s) /\
  sda_exitlist (schda s') = sda_exitlist (schda s) /\ sda_threadnr (schda s') = sda_threadnr (schda s) /\
  sda_cpuidle (schda s') = sda_cpuidle (schda s).

Lemma same_queues_ok s s' P : SQueues s P -> same_queues s s' ->
  sda_schdflgs (schda s') = NOTS_SCHED_FLGS \/ sda_schdflgs (schda s') = NEED_SCHED_FLGS -> SQueues s' P.
Proof.
  intros HS (H1 & H2 & H3 & H4 & H5 & H6) Hf. split; rewrite ?H1, ?H2, ?H3, ?H4, ?H5, ?H6; try apply HS; [|done].
  intros t q. rewrite <- (sq_place _ _ HS). destruct q; simpl; by rewrite ?H2, ?H3, ?H4, ?H6.
Qed.
