(* ===== verification/SchedOps.v ===== *)
(** * Scheduler: the operations

    Each operation of krlsched.c, krlwaitlist.c and krlsem.c runs without a
    halt or a fault on consistent queues, and what it does is one of the moves
    of SchedMoves. *)

From S2P Require Import Prelude Sched SchedInv SchedMoves.

(** ** Access rules *)

Lemma upd_td_put t f x s : thds s !! t = Some x -> upd_td t f s = Ret (tt, put_td t (f x) s).
Proof. intros H. unfold upd_td. by rewrite H. Qed.
Lemma upd_tl_put p f L s : sda_thdlst (schda s) !! p = Some L -> upd_tl p f s = Ret (tt, put_tl p (f L) s).
Proof. intros H. unfold upd_tl. by rewrite H. Qed.
Lemma upd_sem_put w f x s : sems s !! w = Some x -> upd_sem w f s = Ret (tt, put_sem w (f x) s).
Proof. intros H. unfold upd_sem. by rewrite H. Qed.
Lemma get_td_eq t x s : thds s !! t = Some x -> get_td t s = Ret (x, s).
Proof. intros H. unfold get_td. by rewrite H. Qed.
Lemma get_tl_eq p L s : sda_thdlst (schda s) !! p = Some L -> get_tl p s = Ret (L, s).
Proof. intros H. unfold get_tl. by rewrite H. Qed.
Lemma get_sem_eq w x s : sems s !! w = Some x -> get_sem w s = Ret (x, s).
Proof. intros H. unfold get_sem. by rewrite H. Qed.
Lemma need_free_eq t s : ~ linked s t -> need_free t s = Ret (tt, s).
Proof. intros H. unfold need_free. by rewrite decide_False. Qed.

Lemma put_tl_tl p L L' s : put_tl p L (put_tl p L' s) = put_tl p L s.
Proof. unfold put_tl. simpl. unfold set_thdlst. simpl. by rewrite insert_insert_eq. Qed.
Lemma put_sem_sem w x x' s : put_sem w x (put_sem w x' s) = put_sem w x s.
Proof. unfold put_sem. simpl. by rewrite insert_insert_eq. Qed.
Lemma tl_put_tl p L s : sda_thdlst (schda (put_tl p L s)) !! p = Some L.
Proof. apply lookup_insert_eq. Qed.
Lemma sem_put_sem w x s : sems (put_sem w x s) !! w = Some x.
Proof. apply lookup_insert_eq. Qed.
Lemma td_put_td t x s : thds (put_td t x s) !! t = Some x.
Proof. apply lookup_insert_eq. Qed.

(** One call of a sequence whose effect is known. *)
Ltac run H := erewrite bind_eq by (apply H; eassumption); cbv beta.

(** Links depend on the lists only. *)
Lemma linked_put_td t x s u : linked (put_td t x s) u <-> linked s u.
Proof. done. Qed.
Lemma linked_put_nr n s u : linked (put_nr n s) u <-> linked s u.
Proof. done. Qed.

Lemma linked_put_tl p L L' s u :
  sda_thdlst (schda s) !! p = Some L -> tdl_lsth L' = tdl_lsth L -> linked (put_tl p L' s) u <-> linked s u.
Proof.
  intros HL E. unfold linked, in_ready, in_wait, map_Exists. simpl.
  assert (H : (exists i x, <[p := L']> (sda_thdlst (schda s)) !! i = Some x /\ u ∈ tdl_lsth x) <->
              (exists i x, sda_thdlst (schda s) !! i = Some x /\ u ∈ tdl_lsth x)).
  { split; intros (i & x & Hi & Hu).
    - rewrite lookup_insert in Hi. case_decide; [|eauto]. simplify_eq. rewrite E in Hu. eauto.
    - destruct (decide (p = i)) as [->|].
      + exists i, L'. rewrite lookup_insert_eq. simplify_eq. by rewrite E.
      + exists i, x. by rewrite lookup_insert_ne. }
  tauto.
Qed.

(** ** Sleeping *)

Lemma krlsched_wait_eq s P c p w x L y : SQueues s P ->
  sda_currtd (schda s) = Some c -> P !! c = Some (PCurr p) ->
  thds s !! c = Some x -> sda_thdlst (schda s) !! p = Some L -> sems s !! w = Some y ->
  krlsched_wait (Some w) s = Ret (tt, sleep c p w x L y s).
Proof.
  intros HS Hc HP Hx HL Hy.
  destruct (sq_status _ _ HS c _ HP) as (x' & Hx' & Hpx & _). rewrite Hx in Hx'. injection Hx' as <-.
  destruct (sq_tl _ _ HS p L HL) as [Hnd Hnr]. assert (HcL : tdl_curruntd L = Some c) by (by apply (in_curr s P p L c)).
  pose proof (proj1 (sq_classes _ _ HS p) (ex_intro _ L HL)) as Hp. pose proof (tl_length s P p L HS HL) as Hlen.
  destruct (sq_sem _ _ HS w y Hy) as (_ & Hwn & _). pose proof (wl_length s P w y HS Hy) as Hwlen.
  assert (Hfree : ~ linked s c) by (apply (unlinked_curr s P c _ HS HP); eauto).
  unfold krlsched_wait, krlsched_retn_currthread.
  rewrite (bind_eq _ _ _ c s) by (unfold mbind, M_bind, gets; by rewrite Hc).
  rewrite (bind_eq _ _ _ x s) by (by apply get_td_eq). cbv zeta. rewrite Hpx. unfold PRITY_MAX in *.
  replace (_ <=? p) with false by lia. rewrite (bind_eq _ _ _ L s) by (by apply get_tl_eq).
  rewrite HcL in Hnr. replace (_ <? 1) with false by lia.
  erewrite bind_eq by (by apply upd_td_put). erewrite bind_eq by (by apply list_del_unlinked).
  rewrite (bind_eq _ _ _ L _) by (by apply get_tl_eq). rewrite decide_True by done.
  erewrite bind_eq by (by apply upd_tl_put). erewrite bind_eq by (apply upd_tl_put, tl_put_tl).
  rewrite put_tl_tl. simpl. rewrite u64_small by (rewrite u64max_val; lia).
  unfold krlwlst_add_thread.
  erewrite bind_eq by (apply need_free_eq; rewrite linked_put_tl by done; rewrite linked_put_td; done).
  erewrite bind_eq by (by apply upd_sem_put). erewrite upd_sem_put by (apply sem_put_sem).
  rewrite put_sem_sem. simpl. rewrite u64_small by (rewrite u64max_val; lia). done.
Qed.

(** ** Waking *)

Lemma krlwlst_del_eq s P t w y l : SQueues s P -> sems s !! w = Some y -> wl_list (sem_waitlst y) = t :: l ->
  krlwlst_del_thread w s = Ret (Some t, put_sem w (set_waitlst (Kwlst (wl_tdnr (sem_waitlst y) - 1) l) y) s).
Proof.
  intros HS Hy Hl. destruct (sq_sem _ _ HS w y Hy) as (Hwnd & Hwn & _). pose proof (wl_length s P w y HS Hy) as Hwlen.
  assert (HP : P !! t = Some (PWait w)) by (apply (in_wl s P w y t HS Hy); rewrite Hl; by left).
  rewrite Hl in Hwnd, Hwn, Hwlen. simpl in Hwn, Hwlen. unfold krlwlst_del_thread.
  rewrite (bind_eq _ _ _ y s) by (by apply get_sem_eq). rewrite Hl. replace (_ <? 1) with false by lia.
  erewrite bind_eq by (by apply (list_del_wait s P t w y)). rewrite Hl. unfold del_node. rewrite filter_ne_head by done.
  set (y1 := set_waitlst _ y). change (with_sems _ s) with (put_sem w y1 s).
  erewrite bind_eq by (apply upd_sem_put, sem_put_sem). rewrite put_sem_sem. simpl.
  rewrite u64_small by (rewrite u64max_val; lia). done.
Qed.

Lemma krlsched_up_eq s P t w p x L y l : SQueues s P ->
  sems s !! w = Some y -> wl_list (sem_waitlst y) = t :: l -> thds s !! t = Some x -> td_priority x = p ->
  sda_thdlst (schda s) !! p = Some L ->
  krlsched_up (Some w) s = Ret (tt, wake t w p x L y l s).
Proof.
  intros HS Hy Hl Hx Hp HL.
  destruct (sq_tl _ _ HS p L HL) as [Hnd Hnr]. pose proof (tl_length s P p L HS HL) as Hlen.
  destruct (sq_sem _ _ HS w y Hy) as (Hwnd & Hwn & _). pose proof (wl_length s P w y HS Hy) as Hwlen. rewrite Hl in *. simpl in Hwn, Hwlen.
  pose proof (proj1 (sq_classes _ _ HS p) (ex_intro _ L HL)) as Hpr. unfold PRITY_MAX in *.
  assert (HP : P !! t = Some (PWait w)) by (apply (in_wl s P w y t HS Hy); rewrite Hl; by left).
  unfold krlsched_up. erewrite bind_eq by (by apply (krlwlst_del_eq s P t w y l)). cbv beta iota. set (y' := set_waitlst _ _).
  rewrite (bind_eq _ _ _ x _) by (by apply get_td_eq). cbv zeta. rewrite Hp. unfold PRITY_MAX. replace (_ <=? p) with false by lia.
  erewrite bind_eq by (by apply upd_td_put). unfold list_add_tail_ready.
  erewrite bind_eq.
  2:{ erewrite bind_eq.
      2:{ apply need_free_eq. rewrite linked_put_td. intros [Hr|[Hw|He]].
          - assert (linked s t) as (q & Hq & _)%(place_linked s P t HS) by (by left).
            destruct Hr as (p' & L' & HL' & Hin). pose proof (proj1 (in_lsth s P p' L' t HS HL') Hin). congruence.
          - destruct Hw as (w' & z & Hz & Hin). simpl in Hz. rewrite lookup_insert in Hz. case_decide.
            + simplify_eq. simpl in Hin. apply NoDup_cons in Hwnd. tauto.
            + pose proof (proj1 (in_wl s P w' z t HS Hz) Hin). congruence.
          - assert (P !! t = Some PExit) by (by apply (sq_place _ _ HS t PExit)). congruence. }
      by apply upd_tl_put. }
  erewrite upd_tl_put by apply tl_put_tl. rewrite put_tl_tl. simpl. rewrite u64_small; [done|].
  rewrite u64max_val. destruct (tdl_curruntd L); lia.
Qed.

(** The parts of the state a wake-up leaves alone. *)
Definition same_cpu (s s' : sys) : Prop :=
  sda_currtd (schda s') = sda_currtd (schda s) /\ cpu s' = cpu s /\ sda_cpuidle (schda s') = sda_cpuidle (schda s) /\
  sda_schdflgs (schda s') = sda_schdflgs (schda s) /\ sda_premptidx (schda s') = sda_premptidx (schda s).

(** Every sleeper of [w] is ready, everyone else is where it was. *)
Definition woken (w : Z) (y : sem_t) (s : sys) (P : gmap Z place) (s' : sys) (P' : gmap Z place) : Prop :=
  sems s' = <[w := set_waitlst kwlst_t_init y]> (sems s) /\ same_cpu s s' /\ dom (thds s') = dom (thds s) /\
  (forall t, t ∈ wl_list (sem_waitlst y) -> exists p, P' !! t = Some (PReady p)) /\
  (forall t, t ∉ wl_list (sem_waitlst y) -> P' !! t = P !! t).

Lemma sleeper s P w y t l : SQueues s P -> sems s !! w = Some y -> wl_list (sem_waitlst y) = t :: l ->
  exists x p L, thds s !! t = Some x /\ td_priority x = p /\ sda_thdlst (schda s) !! p = Some L.
Proof.
  intros HS Hy Hl. assert (HP : P !! t = Some (PWait w)) by (apply (in_wl s P w y t HS Hy); rewrite Hl; by left).
  destruct (sq_status _ _ HS t _ HP) as (x & Hx & Hp & _). destruct (proj2 (sq_classes _ _ HS (td_priority x)) Hp) as [L HL].
  exists x, (td_priority x), L. done.
Qed.

Lemma allup_spec w : forall l fuel s P y, SQueues s P ->
  sems s !! w = Some y -> wl_list (sem_waitlst y) = l -> (length l <= fuel)%nat ->
  wp (allup_loop fuel w) s (fun _ s' => exists P', SQueues s' P' /\ woken w y s P s' P').
Proof.
  induction l as [|t l IH]; intros fuel s P y HS Hy Hl Hf.
  - destruct (sq_sem _ _ HS w y Hy) as (_ & Hn & _). rewrite Hl in Hn. simpl in Hn.
    destruct fuel; simpl; apply wp_bind; rewrite (wp_det _ _ _ _ _ (get_sem_eq w y s Hy)); rewrite decide_True by done;
      apply wp_ret; exists P; (split; [done|]); (split_and!; [|done|done|rewrite Hl; by intros t Ht%elem_of_nil|done]);
      rewrite insert_id; try done; destruct y as [? ? [? ?]]; simpl in *; subst; done.
  - destruct fuel as [|fuel]; [simpl in Hf; lia|]. cbn [allup_loop]. apply wp_bind.
    rewrite (wp_det _ _ _ _ _ (get_sem_eq w y s Hy)). rewrite decide_False by (by rewrite Hl). apply wp_bind.
    destruct (sleeper s P w y t l HS Hy Hl) as (x & p & L & Hx & Hp & HL).
    rewrite (wp_det _ _ _ _ _ (krlsched_up_eq s P t w p x L y l HS Hy Hl Hx Hp HL)).
    pose proof (wake_queues s P t w p x L y l HS Hy Hl Hx Hp HL) as HS'.
    eapply wp_mono; [eapply (IH _ _ _ _ HS'); [apply lookup_insert_eq|done|simpl in Hf; lia]|].
    intros ? s' (P' & HSq & Hsem & Hcpu & Hdom & Hin & Hout). exists P'. split; [done|]. simpl in *.
    destruct (sq_sem _ _ HS w y Hy) as (Hnd & _). rewrite Hl in Hnd. apply NoDup_cons in Hnd as [Htl _].
    split_and!.
    + rewrite Hsem. unfold set_waitlst. simpl. by rewrite insert_insert_eq.
    + done.
    + rewrite Hdom. apply dom_insert_lookup_L. eauto.
    + rewrite Hl. intros u [->|Hu]%elem_of_cons; [|by apply Hin]. rewrite Hout by done. rewrite lookup_insert_eq. eauto.
    + rewrite Hl. intros u [Hut Hu]%not_elem_of_cons. rewrite Hout by done. by rewrite lookup_insert_ne.
Qed.

Lemma krlwlst_allup_spec s P w y : SQueues s P -> sems s !! w = Some y ->
  wp (krlwlst_allup w) s (fun _ s' => exists P', SQueues s' P' /\ woken w y s P s' P').
Proof.
  intros HS Hy. unfold krlwlst_allup. apply wp_bind. rewrite (wp_det _ _ _ _ _ (get_sem_eq w y s Hy)).
  by apply (allup_spec w (wl_list (sem_waitlst y))).
Qed.

(** ** Selecting *)

Definition class_empty (s : sys) (p : Z) : Prop :=
  exists L, sda_thdlst (schda s) !! p = Some L /\ tdl_lsth L = [] /\ tdl_curruntd L = None.

(** Thread [t] is picked from the first class that has one, in turn. *)
Definition picked (s : sys) (p t : Z) (s' : sys) : Prop :=
  exists L, sda_thdlst (schda s) !! p = Some L /\ (forall p', 0 <= p' < p -> class_empty s p') /\
    ((exists l, tdl_lsth L = t :: l /\ s' = rotate t p l L s) \/
     (tdl_lsth L = [] /\ tdl_curruntd L = Some t /\ s' = s)).

Lemma first_runnable_spec s P p L : SQueues s P -> sda_thdlst (schda s) !! p = Some L ->
  first_runnable (tdl_lsth L) s = Ret (head (tdl_lsth L), s).
Proof.
  intros HS HL. destruct (tdl_lsth L) as [|t l] eqn:Hl; [done|]. cbn [first_runnable head].
  assert (HP : P !! t = Some (PReady p)) by (apply (in_lsth s P p L t HS HL); rewrite Hl; by left).
  destruct (sq_status _ _ HS t _ HP) as (x & Hx & _ & Hst). rewrite (bind_eq _ _ _ x s) by (by apply get_td_eq).
  unfold TDSTUS_RUN, TDSTUS_NEW in *. by replace (_ || _) with true by (destruct Hst as [-> | ->]; done).
Qed.

Lemma select_loop_spec s P : SQueues s P -> forall n p, 0 <= p -> p + Z.of_nat n = PRITY_MAX ->
  (forall p', 0 <= p' < p -> class_empty s p') ->
  wp (select_loop n p) s (fun r s' =>
    match r with
    | Some t => exists p', picked s p' t s'
    | None => (forall p', 0 <= p' < PRITY_MAX -> class_empty s p') /\ s' = s
    end).
Proof.
  intros HS. induction n as [|n IH]; intros p Hp Hn He; cbn [select_loop].
  { apply wp_ret. split; [|done]. intros p' Hp'. apply He. lia. }
  destruct (proj2 (sq_classes _ _ HS p) ltac:(lia)) as [L HL].
  apply wp_bind. rewrite (wp_det _ _ _ _ _ (get_tl_eq p L s HL)).
  apply wp_bind. rewrite (wp_det _ _ _ _ _ (first_runnable_spec s P p L HS HL)).
  destruct (tdl_lsth L) as [|t l] eqn:Hl; cbn [head].
  - apply wp_bind. rewrite (wp_det _ _ _ _ _ (get_tl_eq p L s HL)).
    destruct (tdl_curruntd L) as [c|] eqn:Hc.
    + apply wp_ret. exists p, L. split_and!; [done|done|]. right. done.
    + apply IH; [lia|lia|]. intros p' Hp'. destruct (decide (p' = p)) as [->|]; [by exists L|]. apply He. lia.
  - pose proof (fun t => in_lsth s P p L t HS HL) as HinL. destruct (sq_tl _ _ HS p L HL) as [Hnd _]. rewrite Hl in Hnd.
    assert (HP : P !! t = Some (PReady p)) by (apply HinL; rewrite Hl; by left).
    apply wp_bind. rewrite (wp_det _ _ _ _ _ (list_del_ready s P t p L HS HP HL)).
    rewrite Hl. unfold del_node. rewrite filter_ne_head by done.
    change (with_schda _ s) with (put_tl p (set_lsth l L) s).
    apply wp_bind. rewrite (wp_det _ _ _ _ _ (get_tl_eq p _ _ (tl_put_tl p _ s))). cbn [set_lsth tdl_curruntd].
    apply wp_bind. destruct (tdl_curruntd L) as [c|] eqn:Hc.
    + assert (Hfree : ~ linked s c) by (apply (unlinked_curr s P c (PCurr p) HS); [by apply (in_curr s P p L c)|eauto]).
      unfold list_add_tail_ready. apply wp_bind.
      assert (Hfree' : ~ linked (put_tl p (set_lsth l L) s) c).
      { intros [(p' & L' & HL' & Hin)|[Hw|Hx]].
        - simpl in HL'. rewrite lookup_insert in HL'. case_decide; apply Hfree; left.
          + simplify_eq. exists p', L. rewrite Hl. split; [done|]. by right.
          + by exists p', L'.
        - apply Hfree. by right; left.
        - apply Hfree. by right; right. }
      rewrite (wp_det _ _ _ _ _ (need_free_eq c _ Hfree')).
      rewrite (wp_det _ _ _ _ _ (upd_tl_put p _ _ _ (tl_put_tl p _ s))). rewrite put_tl_tl.
      apply wp_bind. rewrite (wp_det _ _ _ _ _ (upd_tl_put p _ _ _ (tl_put_tl p _ s))). rewrite put_tl_tl.
      apply wp_ret. exists p, L. split_and!; [done|done|]. left. exists l. split; [done|]. unfold rotate. by rewrite Hc.
    + apply wp_ret. apply wp_bind. rewrite (wp_det _ _ _ _ _ (upd_tl_put p _ _ _ (tl_put_tl p _ s))). rewrite put_tl_tl.
      apply wp_ret. exists p, L. split_and!; [done|done|]. left. exists l. split; [done|].
      unfold rotate. rewrite Hc. simpl. by rewrite app_nil_r.
Qed.

(** What the scheduler chooses: a thread of the first class that has one, or
    the idle thread when there is none. *)
Definition chosen (s : sys) (t : Z) (s' : sys) : Prop :=
  (exists p, picked s p t s') \/
  ((forall p, 0 <= p < PRITY_MAX -> class_empty s p) /\ sda_cpuidle (schda s) = Some t /\
   s' = with_schda (set_prityidx PRITY_MIN (schda s)) s).

Lemma krlsched_select_spec s P : SQueues s P -> wp krlsched_select_thread s (fun t s' => chosen s t s').
Proof.
  intros HS. unfold krlsched_select_thread. apply wp_bind.
  eapply wp_mono; [apply (select_loop_spec s P HS (Z.to_nat PRITY_MAX) 0); [lia|done|lia]|].
  intros [t|] s' H; [apply wp_ret; by left|]. destruct H as [He ->].
  apply wp_bind. unfold upd_schda. apply wp_modify. unfold krlsched_retn_idlethread. apply wp_bind, wp_gets.
  destruct (sq_idle _ _ HS) as [i Hi]. simpl. rewrite Hi. apply wp_ret. right. done.
Qed.

(** The queues after a choice; the chosen thread is current in its class. *)
Lemma chosen_queues s P t s' : SQueues s P -> chosen s t s' ->
  exists P', SQueues s' P' /\ (P' !! t = Some PIdle \/ exists p, P' !! t = Some (PCurr p)) /\
    thds s' = thds s /\ sems s' = sems s /\ same_cpu s s' /\ (forall w u, P' !! u = Some (PWait w) <-> P !! u = Some (PWait w)).
Proof.
  intros HS [(p & L & HL & _ & [(l & Hl & ->)|(Hl & Hc & ->)])|(_ & Hi & ->)].
  - exists (rotate_places t p L P). split; [by apply rotate_queues|]. split; [right; exists p; apply lookup_insert_eq|].
    split_and!; [done..|]. intros w u. unfold rotate_places. rewrite lookup_insert.
    assert (Ht : P !! t = Some (PReady p)) by (apply (in_lsth s P p L t HS HL); rewrite Hl; by left).
    case_decide; [subst; rewrite Ht; split; congruence|]. destruct (tdl_curruntd L) as [c|] eqn:Hc; [|done].
    assert (P !! c = Some (PCurr p)) by (by apply (in_curr s P p L c)).
    rewrite lookup_insert. case_decide; [subst; split; congruence|done].
  - exists P. split_and!; try done. right. exists p. by apply (in_curr s P p L t).
  - exists P. split_and!; try done.
    + apply (same_queues_ok s); [done|done|]. apply (sq_flgs _ _ HS).
    + left. by apply (sq_place _ _ HS t PIdle).
Qed.

(** ** Switching *)

(** The processor is in [t]: its context, its kernel stack, its address space. *)
Definition on_cpu (s : sys) (t : Z) : Prop :=
  sda_currtd (schda s) = Some t /\ cpu s = Some t /\
  exists x, thds s !! t = Some x /\ td_stus x <> TDSTUS_NEW /\ tss_rsp0 s = td_krlstktop x /\ mmu_cur s = td_mmdsc x.

Lemma switch_spec s P next prev : SQueues s P -> is_Some (thds s !! prev) -> is_Some (P !! next) ->
  wp (save_to_new_context next prev) s (fun _ s' =>
    SQueues s' P /\ on_cpu s' next /\ sems s' = sems s /\ sda_thdlst (schda s') = sda_thdlst (schda s)).
Proof.
  intros HS [xp Hxp] [q Hq]. destruct (sq_status _ _ HS next q Hq) as (x & Hx & Hok).
  unfold save_to_new_context, __to_new_context. apply wp_bind. rewrite (wp_det _ _ _ _ _ (get_td_eq prev xp s Hxp)).
  apply wp_bind, wp_modify. apply wp_bind. unfold upd_schda. apply wp_modify.
  set (s1 := with_schda _ _). assert (Hx1 : thds s1 !! next = Some x) by done.
  assert (HS1 : SQueues s1 P) by (apply (same_queues_ok s); [done|done|apply (sq_flgs _ _ HS)]).
  apply wp_bind. rewrite (wp_det _ _ _ _ _ (get_td_eq next x s1 Hx1)). apply wp_bind, wp_modify.
  set (s2 := with_cpu _ _ _ s1).
  assert (HS2 : SQueues s2 P) by (apply (same_queues_ok s1); [done|done|apply (sq_flgs _ _ HS)]).
  destruct (td_stus x =? TDSTUS_NEW) eqn:E; bool_to_prop.
  - apply wp_bind. rewrite (wp_det _ _ _ _ _ (upd_td_put next _ x s2 Hx1)). unfold retnfrom_first_sched.
    apply wp_bind. rewrite (wp_det _ _ _ _ _ (get_td_eq next _ _ (td_put_td next _ s2))). apply wp_modify.
    unfold on_cpu. split_and!; [|done|done| |done|done].
    + assert (HS3 : SQueues (put_td next (set_td_stus TDSTUS_RUN x) s2) P) by (by apply (touch_queues _ _ _ x); [| | |right]).
      apply (same_queues_ok (put_td next (set_td_stus TDSTUS_RUN x) s2)); [done|done|apply (sq_flgs _ _ HS)].
    + exists (set_td_stus TDSTUS_RUN x). split; [apply lookup_insert_eq|done].
  - apply wp_ret. unfold on_cpu. split_and!; [done|done|done| |done|done]. exists x. done.
Qed.

Lemma on_cpu_running s P t : SQueues s P -> on_cpu s t -> (P !! t = Some PIdle \/ exists p, P !! t = Some (PCurr p)) -> running s P t.
Proof. intros _ (H1 & H2 & _) H3. done. Qed.

(** Rescheduling from any state with consistent queues. *)
Definition rescheduled (s : sys) (P : gmap Z place) (s' : sys) : Prop :=
  exists P' next s1, chosen s next s1 /\ SQueues s' P' /\ running s' P' next /\ on_cpu s' next /\ sems s' = sems s /\
    sda_thdlst (schda s') = sda_thdlst (schda s1) /\
    (forall w u, P' !! u = Some (PWait w) <-> P !! u = Some (PWait w)).

Lemma krlschedul_spec s P prev : SQueues s P -> sda_currtd (schda s) = Some prev -> is_Some (thds s !! prev) ->
  wp krlschedul s (fun _ s' => rescheduled s P s').
Proof.
  intros HS Hprev Hex. unfold krlschedul, krlsched_retn_schedflgs. apply wp_bind, wp_gets.
  replace (_ =? _) with false.
  2:{ unfold NEED_START_CPUILDE_SCHED_FLGS. pose proof (sq_flgs _ _ HS). unfold NOTS_SCHED_FLGS, NEED_SCHED_FLGS in *. lia. }
  unfold krlsched_retn_currthread. apply wp_bind, wp_bind, wp_gets. rewrite Hprev. apply wp_ret.
  apply wp_bind. eapply wp_mono; [apply (krlsched_select_spec s P HS)|]. intros next s1 Hch.
  destruct (chosen_queues s P next s1 HS Hch) as (P' & HS' & Hcur & Htd & Hsem & _ & Hw).
  eapply wp_mono; [apply (switch_spec s1 P' next prev HS'); [by rewrite Htd|destruct Hcur as [-> |[p ->]]; eauto]|].
  intros ? s2 (HS2 & Hon & Hsem2 & Htl). exists P', next, s1.
  split; [done|]. split; [done|]. split; [by apply on_cpu_running|]. split; [done|].
  split; [congruence|]. split; [done|]. done.
Qed.

(** ** Exiting, joining *)

Lemma currthread_eq s c : sda_currtd (schda s) = Some c -> krlsched_retn_currthread s = Ret (c, s).
Proof. intros H. unfold krlsched_retn_currthread, mbind, M_bind, gets. by rewrite H. Qed.
Lemma idlethread_eq s i : sda_cpuidle (schda s) = Some i -> krlsched_retn_idlethread s = Ret (i, s).
Proof. intros H. unfold krlsched_retn_idlethread, mbind, M_bind, gets. by rewrite H. Qed.

Lemma krlsched_exit_eq s P c p x L : SQueues s P ->
  sda_currtd (schda s) = Some c -> P !! c = Some (PCurr p) -> thds s !! c = Some x -> sda_thdlst (schda s) !! p = Some L ->
  krlsched_exit s = Ret (tt, leave c p x L s).
Proof.
  intros HS Hc HP Hx HL.
  destruct (sq_status _ _ HS c _ HP) as (x' & Hx' & Hpx & _). rewrite Hx in Hx'. injection Hx' as <-.
  destruct (sq_tl _ _ HS p L HL) as [Hnd Hnr]. assert (HcL : tdl_curruntd L = Some c) by (by apply (in_curr s P p L c)).
  pose proof (proj1 (sq_classes _ _ HS p) (ex_intro _ L HL)) as Hp. pose proof (tl_length s P p L HS HL) as Hlen.
  assert (Hfree : ~ linked s c) by (apply (unlinked_curr s P c _ HS HP); eauto).
  destruct (sq_idle _ _ HS) as [i Hi]. assert (Hci : c <> i).
  { intros ->. apply (sq_place _ _ HS i PIdle) in Hi. congruence. }
  assert (Hlive : 1 <= live_count P).
  { rewrite <- (insert_delete_id P c _ HP), live_count_fresh by apply lookup_delete_eq. unfold live_count. simpl. lia. }
  pose proof (live_bound s P HS) as Hlb. rewrite HcL in Hnr. unfold krlsched_exit.
  erewrite bind_eq by (by apply currthread_eq). erewrite bind_eq by (by apply idlethread_eq).
  replace (c =? i) with false by lia. erewrite bind_eq by (by apply get_td_eq). rewrite Hpx. unfold PRITY_MAX in *.
  replace (_ <=? p) with false by lia. erewrite bind_eq by (by apply get_tl_eq). replace (_ <? 1) with false by lia.
  unfold krlschdclass_del_thread_addexit. erewrite bind_eq by (by apply get_td_eq). cbv zeta. rewrite Hpx.
  erewrite bind_eq by (by apply upd_tl_put). unfold upd_schda at 1. erewrite bind_eq by (unfold modify; reflexivity).
  set (s1 := with_schda _ _). assert (HL1 : sda_thdlst (schda s1) !! p = Some (set_tdl_nr (tdl_nr L -u 1) L)) by apply lookup_insert_eq.
  erewrite bind_eq by (apply get_tl_eq; exact HL1). rewrite decide_True by done.
  erewrite bind_eq by (apply upd_tl_put; exact HL1).
  assert (Hf : ~ linked (put_tl p (set_curruntd None (set_tdl_nr (tdl_nr L -u 1) L)) s1) c).
  { rewrite (linked_put_tl p (set_tdl_nr (tdl_nr L -u 1) L)) by done. unfold s1.
    change (~ linked (put_tl p (set_tdl_nr (tdl_nr L -u 1) L) s) c). by rewrite (linked_put_tl p L). }
  erewrite bind_eq by (by apply list_del_unlinked). erewrite bind_eq by (by apply upd_td_put).
  unfold list_add_exit. erewrite bind_eq by (by apply need_free_eq).
  unfold upd_schda, modify, leave, put_exit, put_td, put_nr, put_tl, s1. simpl. unfold set_thdlst, set_threadnr, set_exitlist. simpl.
  rewrite insert_insert_eq. rewrite (u64_small (tdl_nr L - 1)) by (rewrite u64max_val; lia).
  rewrite (u64_small (sda_threadnr _ - 1)) by (rewrite (sq_nr _ _ HS), u64max_val; lia). done.
Qed.

(** A new descriptor handed to the scheduler. *)
Definition add_new (t : Z) (x : thread_t) : SM unit := modify (put_td t x) ;; krlschdclass_add_thread t.

Lemma add_new_spec s P t p x L : SQueues s P ->
  thds s !! t = None -> td_priority x = p -> td_stus x = TDSTUS_NEW -> sda_thdlst (schda s) !! p = Some L ->
  Z.of_nat (size (thds s)) + 1 < 2 ^ 62 ->
  wp (add_new t x) s (fun _ s' => SQueues s' (<[t := PReady p]> P) /\ same_cpu s s' /\ sems s' = sems s /\
    scls_threadnr s' = scls_threadnr s +u 1).
Proof.
  intros HS Hn Hp Hst HL Hsz. pose proof (join_queues s P t p x L HS Hn Hp Hst HL Hsz) as HJ.
  destruct (sq_tl _ _ HS p L HL) as [_ Hnr]. pose proof (tl_length s P p L HS HL) as Hlen.
  pose proof (live_bound s P HS) as Hlb.
  assert (HP : P !! t = None).
  { destruct (P !! t) as [q|] eqn:E; [|done]. destruct (sq_status _ _ HS t q E) as (y & Hy & _). congruence. }
  assert (Hfree : ~ linked (put_td t x s) t).
  { rewrite linked_put_td, (place_linked s P t HS). intros (q & Hq & _). congruence. }
  unfold add_new. apply wp_bind, wp_modify. unfold krlschdclass_add_thread, list_add_ready.
  apply wp_bind. rewrite (wp_det _ _ _ _ _ (get_td_eq t x _ (td_put_td t x s))). rewrite Hp.
  apply wp_bind, wp_bind. rewrite (wp_det _ _ _ _ _ (need_free_eq t _ Hfree)).
  rewrite (wp_det _ _ _ _ _ (upd_tl_put p _ L (put_td t x s) HL)).
  apply wp_bind. rewrite (wp_det _ _ _ _ _ (upd_tl_put p _ _ _ (tl_put_tl p _ _))). rewrite put_tl_tl.
  apply wp_bind. unfold upd_schda. apply wp_modify. apply wp_modify.
  split_and!; [|done..]. eapply (same_queues_ok (join t p x L s)); [exact HJ| |apply (sq_flgs _ _ HS)].
  unfold same_queues, join. simpl. unfold set_lsth. simpl.
  rewrite (u64_small (tdl_nr L + 1)) by (rewrite u64max_val; destruct (tdl_curruntd L); lia).
  rewrite (u64_small (_ + 1)) by (rewrite (sq_nr _ _ HS), u64max_val; lia). done.
Qed.

(** ** Semaphores *)

Lemma put_count_queues s P w y c : SQueues s P -> sems s !! w = Some y -> 0 <= c < 2 ^ 63 ->
  SQueues (put_sem w (set_count c y) s) P.
Proof.
  intros HS Hy Hc. destruct (sq_sem _ _ HS w y Hy) as (Hnd & Hn & _).
  split; [|apply HS..| |apply HS|apply HS|apply HS|apply HS|apply HS].
  - intros t q. rewrite at_put_sem, <- (sq_place _ _ HS). destruct q; try done. simpl. case_decide; [subst|done].
    split; [eauto|]. intros (z & Hz & Hin). congruence.
  - simpl. apply forall_insert; [done|apply HS].
Qed.

Lemma no_idle_sleep s c p w x L y : no_idle_sem s -> sem_count y < 1 -> no_idle_sem (sleep c p w x L y s).
Proof.
  intros H Hc w' z Hz Hp. simpl in Hz. rewrite lookup_insert in Hz. case_decide; [|by apply (H w')].
  injection Hz as <-. simpl in Hp. lia.
Qed.

Lemma no_idle_same s s' : sems s' = sems s -> no_idle_sem s -> no_idle_sem s'.
Proof. unfold no_idle_sem. by intros ->. Qed.

Lemma rescheduled_inv s P s' : rescheduled s P s' -> no_idle_sem s -> SInv s'.
Proof.
  intros (P' & next & s1 & _ & HS' & Hrun & _ & Hsem & _) Hn. exists P', next.
  split; [done|]. split; [done|]. by apply (no_idle_same s).
Qed.

Lemma krlsem_down_spec s P c w y : SQueues s P -> running s P c -> no_idle_sem s ->
  sems s !! w = Some y -> (exists p, P !! c = Some (PCurr p)) ->
  wp (krlsem_down_try w) s (fun taken s' =>
    if taken then 1 <= sem_count y /\ s' = put_sem w (set_count (sem_count y - 1) y) s
    else sem_count y = 0 /\ SInv s' /\ in_wait s' c /\
      sems s' = <[w := set_waitlst (Kwlst (wl_tdnr (sem_waitlst y) + 1) (c :: wl_list (sem_waitlst y))) y]> (sems s)).
Proof.
  intros HS (Hcur & _ & _) Hno Hy [p HP]. destruct (sq_sem _ _ HS w y Hy) as (_ & _ & Hcnt).
  unfold krlsem_down_try. apply wp_bind. rewrite (wp_det _ _ _ _ _ (get_sem_eq w y s Hy)).
  destruct (sem_count y <? 1) eqn:E; bool_to_prop.
  - destruct (sq_status _ _ HS c _ HP) as (x & Hx & Hpx & _).
    pose proof HP as (L & HL & _)%(sq_place _ _ HS).
    apply wp_bind. unfold krlwlst_wait. rewrite (wp_det _ _ _ _ _ (krlsched_wait_eq s P c p w x L y HS Hcur HP Hx HL Hy)).
    pose proof (sleep_queues s P c p w x L y HS HP Hx HL Hy) as HS'.
    apply wp_bind. eapply wp_mono; [apply (krlschedul_spec _ _ c HS'); [done|]|].
    { exists (set_td_stus TDSTUS_WAIT x). apply lookup_insert_eq. }
    intros ? s' Hre. apply wp_ret. split; [lia|]. split; [apply (rescheduled_inv _ _ _ Hre); by apply no_idle_sleep|].
    destruct Hre as (_ & _ & _ & _ & _ & _ & _ & Hsem & _). simpl in Hsem. rewrite Hsem. split; [|done].
    exists w. eexists. rewrite Hsem. split; [apply lookup_insert_eq|]. simpl. by left.
  - apply wp_bind. rewrite (wp_det _ _ _ _ _ (upd_sem_put w _ y s Hy)). apply wp_ret. split; [lia|done].
Qed.

Lemma krlsem_take_inv s P c w y : SQueues s P -> running s P c -> no_idle_sem s -> sems s !! w = Some y -> 1 <= sem_count y ->
  SInv (put_sem w (set_count (sem_count y - 1) y) s).
Proof.
  intros HS Hrun Hno Hy Hc. destruct (sq_sem _ _ HS w y Hy) as (_ & _ & Hcnt).
  exists P, c. split; [apply put_count_queues; [done|done|lia]|]. split; [done|].
  intros w' z Hz Hp. simpl in Hz. rewrite lookup_insert in Hz. case_decide; [|by apply (Hno w')].
  injection Hz as <-. simpl. by apply (Hno w y).
Qed.

Lemma krlsem_up_spec s P c w y : SQueues s P -> running s P c -> no_idle_sem s -> sems s !! w = Some y ->
  sem_count y + 1 < 2 ^ 63 ->
  wp (krlsem_up w) s (fun _ s' => SInv s' /\ sems s' = <[w := Sem (sem_flg y) (sem_count y + 1) kwlst_t_init]> (sems s) /\
    (forall t, t ∈ wl_list (sem_waitlst y) -> in_ready s' t)).
Proof.
  intros HS Hrun Hno Hy Hc. destruct (sq_sem _ _ HS w y Hy) as (Hnd & _ & Hcnt).
  unfold krlsem_up. apply wp_bind. rewrite (wp_det _ _ _ _ _ (upd_sem_put w _ y s Hy)).
  replace (sint (sem_count y + 1)) with (sem_count y + 1) by (unfold sint; rewrite Z.mod_small by lia; lia).
  set (y1 := set_count (sem_count y + 1) y).
  assert (HS1 : SQueues (put_sem w y1 s) P) by (apply put_count_queues; [done|done|lia]).
  apply wp_bind. rewrite (wp_det _ _ _ _ _ (get_sem_eq w y1 _ (sem_put_sem w y1 s))).
  apply wp_bind, wp_die_if; [simpl; lia|]. apply wp_bind.
  eapply wp_mono; [apply (krlwlst_allup_spec _ P w y1 HS1), sem_put_sem|].
  intros ? s2 (P' & HS2 & Hsem & (Hc1 & Hc2 & Hc3 & Hc4 & Hc5) & _ & Hin & Hout).
  unfold krlsched_set_schedflgs, upd_schda. apply wp_modify. simpl in Hsem. rewrite insert_insert_eq in Hsem.
  assert (HS3 : SQueues (with_schda (set_schdflgs NEED_SCHED_FLGS (schda s2)) s2) P').
  { apply (same_queues_ok s2); [done|done|by right]. }
  split; [|split; [done|]].
  - exists P', c. split; [done|]. destruct Hrun as (Hr1 & Hr2 & Hr3). split.
    + split; [simpl; by rewrite Hc1|]. split; [simpl; by rewrite Hc2|]. simpl.
      rewrite Hout; [done|]. intros Hw. assert (P !! c = Some (PWait w)) by (by apply (in_wl s P w y c HS Hy)).
      destruct Hr3 as [?|[? ?]]; congruence.
    + intros w' z Hz Hp. simpl in Hz. rewrite Hsem, lookup_insert in Hz. case_decide; [by injection Hz as <-|by apply (Hno w')].
  - intros t Ht. destruct (Hin t Ht) as [p Hp]. apply (sq_place _ _ HS3 t (PReady p)) in Hp as (L & HL & Hl). by exists p, L.
Qed.

(** ** The clock *)

Lemma krlthd_inc_tick_spec s P c x : SQueues s P -> thds s !! c = Some x ->
  wp (krlthd_inc_tick c) s (fun _ s' => SQueues s' P /\ is_Some (thds s' !! c) /\ sems s' = sems s /\
    sda_currtd (schda s') = sda_currtd (schda s) /\ cpu s' = cpu s).
Proof.
  intros HS Hx. unfold krlthd_inc_tick. apply wp_bind. rewrite (wp_det _ _ _ _ _ (upd_td_put c _ x s Hx)).
  apply wp_bind. rewrite (wp_det _ _ _ _ _ (upd_td_put c _ _ _ (td_put_td c _ s))).
  apply wp_bind. rewrite (wp_det _ _ _ _ _ (get_td_eq c _ _ (td_put_td c _ _))).
  set (x2 := set_td_ticks _ (td_sumtick _ +u 1) _).
  set (s2 := put_td c x2 _). assert (HS2 : SQueues s2 P).
  { eapply touch_queues; [eapply (touch_queues s P c x); [done|done|done|by left]|apply td_put_td|done|by left]. }
  destruct (_ <? _).
  - apply wp_bind. rewrite (wp_det _ _ _ _ _ (upd_td_put c _ x2 s2 (td_put_td c _ _))). unfold krlsched_set_schedflgs, upd_schda.
    apply wp_modify. split; [|split; [eexists; apply lookup_insert_eq|done]].
    apply (same_queues_ok (put_td c (set_td_ticks 0 (td_sumtick x2) x2) s2)); [|done|by right].
    apply (touch_queues _ P c x2); [exact HS2|apply td_put_td|done|by left].
  - apply wp_ret. split; [done|]. split; [eexists; apply lookup_insert_eq|done].
Qed.

Lemma krlsched_chkneed_spec s P c : SQueues s P -> running s P c -> no_idle_sem s -> is_Some (thds s !! c) ->
  wp krlsched_chkneed_pmptsched s (fun _ s' => SInv s' /\ sems s' = sems s).
Proof.
  intros HS Hrun Hno Hex. pose proof (sq_flgs _ _ HS) as Hf. unfold krlsched_chkneed_pmptsched.
  apply wp_bind, wp_gets, wp_bind. destruct (_ && _) eqn:E.
  - apply wp_bind. unfold upd_schda. apply wp_modify, wp_ret, wp_bind, wp_gets. simpl.
    eapply wp_mono; [apply (krlschedul_spec _ P c); [|apply Hrun|done]|].
    { apply (same_queues_ok s); [done|done|by left]. }
    intros ? s' Hre. split; [by apply (rescheduled_inv _ _ _ Hre)|]. by destruct Hre as (_ & _ & _ & _ & _ & _ & _ & -> & _).
  - apply wp_ret, wp_bind, wp_gets. unfold NOTS_SCHED_FLGS, NEED_SCHED_FLGS, NEED_START_CPUILDE_SCHED_FLGS in *.
    replace (_ =? 2) with false by lia. apply wp_ret. split; [|done]. by exists P, c.
Qed.
