(* ===== verification/SchedSpec.v ===== *)
(** * Scheduler and semaphores: contract

    Runs of the system are sequences of actions of the running thread and of
    the clock, each undisturbed (SchedWindow interleaves them with interrupts).
    Here: every reachable state is consistent and no enabled action can halt or
    fault; semaphores keep their count and give mutual exclusion; nobody sleeps
    on an available semaphore; the choice of the next thread respects the
    priorities and is round-robin within a class. *)

From S2P Require Import Prelude Sched SchedInv SchedMoves SchedOps.

(** ** Actions *)

Inductive act :=
| ADown (w : Z)                 (** one pass of [krlsem_down] *)
| AUp (w : Z)                   (** [krlsem_up] *)
| AYield                        (** [krlschedul] *)
| AExit                         (** [krlsched_exit], then [krlschedul] *)
| ATick                         (** the clock interrupt and the check on its way out *)
| AAdd (t : Z) (x : thread_t).  (** a new descriptor is handed to the scheduler *)

Definition perform (a : act) : SM bool :=
  match a with
  | ADown w => krlsem_down_try w
  | AUp w => krlsem_up w ;; mret true
  | AYield => krlschedul ;; mret true
  | AExit => krlsched_exit ;; krlschedul ;; mret true
  | ATick => t ← krlsched_retn_currthread; krlthd_inc_tick t ;; krlsched_chkneed_pmptsched ;; mret true
  | AAdd t x => add_new t x ;; mret true
  end.

(** What the rest of the kernel respects: the idle thread neither sleeps nor
    exits, semaphores exist and do not overflow, new descriptors are fresh. *)
Definition enabled (s : sys) (a : act) : Prop :=
  match a with
  | ADown w => is_Some (sems s !! w) /\ sda_currtd (schda s) <> sda_cpuidle (schda s)
  | AUp w => exists y, sems s !! w = Some y /\ sem_count y + 1 < 2 ^ 63
  | AExit => sda_currtd (schda s) <> sda_cpuidle (schda s)
  | AYield | ATick => True
  | AAdd t x => thds s !! t = None /\ 0 <= td_priority x < PRITY_MAX /\ td_stus x = TDSTUS_NEW /\
                Z.of_nat (size (thds s)) + 1 < 2 ^ 62
  end.

(** What an action does to the semaphores. *)
Definition sem_effect (s : sys) (a : act) (r : bool) (s' : sys) : Prop :=
  forall w y, sems s !! w = Some y -> exists y', sems s' !! w = Some y' /\
    match a with
    | ADown w' => sem_count y' = sem_count y - (if decide (w = w') then if r then 1 else 0 else 0)
    | AUp w' => sem_count y' = sem_count y + (if decide (w = w') then 1 else 0)
    | _ => y' = y
    end.

Lemma running_cases s P c : SQueues s P -> running s P c ->
  is_Some (thds s !! c) /\ (sda_currtd (schda s) <> sda_cpuidle (schda s) -> exists p, P !! c = Some (PCurr p)).
Proof.
  intros HS (Hc & _ & Hq). split.
  - destruct Hq as [Hq|[p Hq]]; destruct (sq_status _ _ HS c _ Hq) as (x & Hx & _); eauto.
  - intros Hne. destruct Hq as [Hq|?]; [|done]. apply (sq_place _ _ HS c PIdle) in Hq. simpl in Hq. congruence.
Qed.

Lemma perform_spec s a : SInv s -> enabled s a -> wp (perform a) s (fun r s' => SInv s' /\ sem_effect s a r s').
Proof.
  intros (P & c & HS & Hrun & Hno) Hen. destruct (running_cases s P c HS Hrun) as [Hex Hcur].
  destruct a as [w|w| | | |t x]; simpl in *.
  - destruct Hen as [[y Hy] Hne]. eapply wp_mono; [apply (krlsem_down_spec s P c w y HS Hrun Hno Hy), Hcur, Hne|].
    intros [] s' H.
    + destruct H as [Hc ->]. split; [by apply (krlsem_take_inv s P c)|]. intros w' y' Hy'. simpl.
      destruct (decide (w' = w)) as [->|]; [rewrite lookup_insert_eq; eexists; split; [done|]; simplify_eq; done|].
      rewrite lookup_insert_ne by done. eexists. split; [done|lia].
    + destruct H as (Hc & HI & _ & Hs). split; [done|]. intros w' y' Hy'. rewrite Hs. rewrite lookup_insert. case_decide.
      * subst. eexists. split; [done|]. simplify_eq. rewrite decide_True by done. simpl. lia.
      * eexists. split; [done|]. case_decide; lia.
  - destruct Hen as (y & Hy & Hb). apply wp_bind.
    eapply wp_mono; [by apply (krlsem_up_spec s P c w y)|]. intros ? s' (HI & Hs & _). apply wp_ret. split; [done|].
    intros w' y' Hy'. rewrite Hs, lookup_insert. case_decide.
    + subst. eexists. split; [done|]. simplify_eq. by rewrite decide_True.
    + eexists. split; [done|]. case_decide; [congruence|lia].
  - apply wp_bind. eapply wp_mono; [by apply (krlschedul_spec s P c); [|apply Hrun|]|]. intros ? s' Hre. apply wp_ret.
    split; [by apply (rescheduled_inv _ _ _ Hre)|]. destruct Hre as (_ & _ & _ & _ & _ & _ & _ & Hs & _).
    intros w' y' Hy'. rewrite Hs. eauto.
  - destruct (Hcur Hen) as [p HP]. destruct (sq_status _ _ HS c _ HP) as (x & Hx & _). pose proof HP as (L & HL & _)%(sq_place _ _ HS).
    apply wp_bind. rewrite (wp_det _ _ _ _ _ (krlsched_exit_eq s P c p x L HS (proj1 Hrun) HP Hx HL)).
    pose proof (leave_queues s P c p x L HS HP Hx HL) as HS'.
    apply wp_bind. eapply wp_mono; [apply (krlschedul_spec _ _ c HS'); [apply Hrun|eexists; apply lookup_insert_eq]|].
    intros ? s' Hre. apply wp_ret. split; [by apply (rescheduled_inv _ _ _ Hre)|].
    destruct Hre as (_ & _ & _ & _ & _ & _ & _ & Hs & _). intros w' y' Hy'. rewrite Hs. simpl. eauto.
  - apply wp_bind. rewrite (wp_det _ _ _ _ _ (currthread_eq s c (proj1 Hrun))). destruct Hex as [x Hx].
    apply wp_bind. eapply wp_mono; [by apply (krlthd_inc_tick_spec s P c x)|]. intros ? s1 (HS1 & Hex1 & Hs1 & Hc1 & Hcpu1).
    apply wp_bind. eapply wp_mono; [apply (krlsched_chkneed_spec s1 P c HS1); [|by apply (no_idle_same s)|done]|].
    { destruct Hrun as (H1 & H2 & H3). split; [congruence|]. split; [congruence|done]. }
    intros ? s2 [HI Hs2]. apply wp_ret. split; [done|]. intros w' y' Hy'. rewrite Hs2, Hs1. eauto.
  - destruct Hen as (Hn & Hp & Hst & Hsz). destruct (proj2 (sq_classes _ _ HS (td_priority x)) Hp) as [L HL].
    apply wp_bind. eapply wp_mono; [by apply (add_new_spec s P t (td_priority x) x L)|].
    intros ? s' (HS' & (H1 & H2 & _) & Hs & _). apply wp_ret. split.
    + exists (<[t := PReady (td_priority x)]> P), c. split; [done|]. split; [|by apply (no_idle_same s)].
      destruct Hrun as (R1 & R2 & R3). split; [congruence|]. split; [congruence|].
      rewrite lookup_insert_ne; [done|]. intros ->. destruct Hex as [y Hy]. congruence.
    + intros w' y' Hy'. rewrite Hs. eauto.
Qed.

(** ** Runs *)

(** A configuration: the system and, for each thread inside [krlsem_down], the
    semaphore whose test it goes back to. *)
Definition conf : Type := sys * gmap Z Z.

(** An event: which thread acted, the action and its answer. *)
Definition event : Type := Z * act * bool.

Definition may (pd : gmap Z Z) (c : Z) (a : act) : Prop :=
  match pd !! c with Some w => a = ADown w \/ a = ATick | None => True end.
Definition after (pd : gmap Z Z) (c : Z) (a : act) (r : bool) : gmap Z Z :=
  match a with ADown w => if r then delete c pd else <[c := w]> pd | _ => pd end.

Inductive step : conf -> event -> conf -> Prop :=
| step_act s pd c a r s' :
    sda_currtd (schda s) = Some c -> enabled s a -> may pd c a -> perform a s = Ret (r, s') ->
    step (s, pd) (c, a, r) (s', after pd c a r).

Inductive run (s0 : sys) : list event -> conf -> Prop :=
| run_nil : run s0 [] (s0, ∅)
| run_step tr k e k' : run s0 tr k -> step k e k' -> run s0 (e :: tr) k'.

Lemma run_inv s0 tr k : SInv s0 -> run s0 tr k -> SInv k.1.
Proof.
  intros H0. induction 1 as [|tr k e k' Hr IH Hs]; [done|].
  destruct Hs as [s pd c a r s' Hc Hen Hm Hp]. simpl in *.
  pose proof (perform_spec s a IH Hen) as H. rewrite (wp_det _ _ _ _ _ Hp) in H. apply H.
Qed.

(** Who holds semaphore [w]: the newest taker first; an [up] gives back one of
    the caller's holds.  [None] when a thread raised a semaphore it does not
    hold (as an event counter is). *)
Fixpoint holders (w : Z) (tr : list event) : option (list Z) :=
  match tr with
  | [] => Some []
  | (c, a, r) :: tr' =>
      H ← holders w tr';
      match a with
      | ADown w' => if decide (w' = w /\ r = true) then Some (c :: H) else Some H
      | AUp w' => if decide (w' = w) then
                    match list_find (fun u => u = c) H with Some (i, _) => Some (delete i H) | None => None end
                  else Some H
      | _ => Some H
      end
  end.

Lemma run_count s0 w y0 : SInv s0 -> sems s0 !! w = Some y0 -> forall tr k, run s0 tr k ->
  forall H, holders w tr = Some H ->
  exists y, sems k.1 !! w = Some y /\ sem_count y + Z.of_nat (length H) = sem_count y0.
Proof.
  intros H0 Hy0. induction 1 as [|tr k e k' Hr IH Hs]; intros H HH.
  { injection HH as <-. exists y0. split; [done|]. simpl. lia. }
  pose proof (run_inv s0 tr k H0 Hr) as Hinv. destruct Hs as [s pd c a r s' Hc Hen Hm Hp]. simpl in *.
  destruct (holders w tr) as [Ht|] eqn:E; [|done]. simpl in HH. destruct (IH Ht eq_refl) as (y & Hy & Hcnt).
  pose proof (perform_spec s a Hinv Hen) as Hw. rewrite (wp_det _ _ _ _ _ Hp) in Hw. destruct Hw as [_ Heff].
  destruct (Heff w y Hy) as (y' & Hy' & He). exists y'. split; [done|].
  destruct a as [w'|w'| | | |]; simplify_eq; try done.
  - destruct (decide (w' = w /\ r = true)) as [[-> ->]|Hn]; simplify_eq.
    + rewrite decide_True in He by done. simpl. lia.
    + assert (sem_count y' = sem_count y); [|lia]. rewrite He. case_decide; [|lia]. destruct r; [|lia]. by destruct Hn.
  - destruct (decide (w' = w)) as [->|]; simplify_eq; [|rewrite decide_False in He by done; lia].
    rewrite decide_True in He by done. destruct (list_find _ Ht) as [[i u]|] eqn:Ef; simplify_eq.
    apply list_find_Some in Ef as (Hi & _). rewrite length_delete by eauto. apply lookup_lt_Some in Hi. lia.
Qed.

(** ** Round robin *)

Fixpoint select_n (n : nat) : SM (list Z) :=
  match n with
  | O => mret []
  | S n' => t ← krlsched_select_thread; l ← select_n n'; mret (t :: l)
  end.

(** The classes before [p] are empty. *)
Definition first_class (s : sys) (p : Z) (L : thrdlst_t) : Prop :=
  sda_thdlst (schda s) !! p = Some L /\ forall p', 0 <= p' < p -> class_empty s p'.

Lemma select_eq s P p L t l : SQueues s P -> first_class s p L -> tdl_lsth L = t :: l ->
  krlsched_select_thread s = Ret (t, rotate t p l L s).
Proof.
  intros HS [HL He] Hl. pose proof (krlsched_select_spec s P HS) as Hw. apply wp_run in Hw as (u & s' & Hrun & Hch).
  rewrite Hrun. pose proof (proj1 (sq_classes _ _ HS p) (ex_intro _ L HL)) as Hp.
  destruct Hch as [(p' & L' & HL' & He' & Hcase)|(Hall & _)].
  - assert (p' = p) as ->.
    { pose proof (proj1 (sq_classes _ _ HS p') (ex_intro _ L' HL')) as Hp'. destruct (decide (p' < p)).
      - destruct (He p' ltac:(lia)) as (L2 & HL2 & E1 & E2). rewrite HL' in HL2. injection HL2 as ->.
        destruct Hcase as [(l' & Hl' & _)|(_ & Hc & _)]; congruence.
      - destruct (decide (p < p')); [|lia]. destruct (He' p ltac:(lia)) as (L2 & HL2 & E1 & _). congruence. }
    assert (L' = L) as -> by congruence. destruct Hcase as [(l' & Hl' & ->)|(Hl' & _)]; [|congruence].
    assert (u = t) as -> by congruence. by assert (l' = l) as -> by congruence.
  - destruct (Hall p Hp) as (L2 & HL2 & E1 & _). congruence.
Qed.

Lemma first_class_rotate s p L t l : first_class s p L ->
  first_class (rotate t p l L s) p (Thrdlst (l ++ opt_list (tdl_curruntd L)) (Some t) (tdl_nr L)).
Proof.
  intros [HL He]. split; [apply lookup_insert_eq|]. intros p' Hp'. destruct (He p' Hp') as (L' & HL' & E).
  exists L'. split; [|done]. simpl. rewrite lookup_insert_ne by lia. done.
Qed.

(** [length q1] choices from the list [q1 ++ q2] with current thread [c]. *)
Lemma select_round p n : forall q1 q2 c s P, SQueues s P ->
  first_class s p (Thrdlst (q1 ++ q2) (Some c) n) ->
  select_n (length q1) s = Ret (q1,
    match List.rev q1 with
    | [] => s
    | e :: r => put_tl p (Thrdlst (q2 ++ c :: List.rev r) (Some e) n) s
    end).
Proof.
  induction q1 as [|t q1 IH]; intros q2 c s P HS Hf; [done|]. cbn [select_n length].
  rewrite (bind_eq _ _ _ _ _ (select_eq s P p _ t (q1 ++ q2) HS Hf eq_refl)).
  pose proof (first_class_rotate s p _ t (q1 ++ q2) Hf) as Hf'. simpl in Hf'. rewrite <- app_assoc in Hf'.
  assert (HS' : SQueues (rotate t p (q1 ++ q2) (Thrdlst ((t :: q1) ++ q2) (Some c) n) s)
                  (rotate_places t p (Thrdlst ((t :: q1) ++ q2) (Some c) n) P)) by (apply rotate_queues; [done|apply Hf|done]).
  rewrite (bind_eq _ _ _ _ _ (IH (q2 ++ [c]) t _ _ HS' Hf')).
  unfold mret, M_ret. do 2 f_equal. cbn [List.rev]. unfold rotate. simpl. rewrite <- app_assoc.
  destruct (List.rev q1) as [|e r] eqn:E; simpl.
  - assert (q1 = []) as -> by (by destruct q1 as [|a q]; [|simpl in E; apply app_eq_nil in E as [_ E]]). done.
  - rewrite put_tl_tl. rewrite List.rev_app_distr. simpl. by rewrite <- app_assoc.
Qed.

(** Choosing keeps the queues consistent. *)
Lemma select_inv s P n : SQueues s P -> exists l s' P', select_n n s = Ret (l, s') /\ SQueues s' P'.
Proof.
  revert s P. induction n as [|n IH]; intros s P HS; [by exists [], s, P|]. cbn [select_n].
  pose proof (krlsched_select_spec s P HS) as Hw. apply wp_run in Hw as (t & s1 & Hr & Hch).
  destruct (chosen_queues s P t s1 HS Hch) as (P1 & HS1 & _). destruct (IH s1 P1 HS1) as (l & s' & P' & Hl & HS').
  exists (t :: l), s', P'. split; [|done]. rewrite (bind_eq _ _ _ _ _ Hr). by rewrite (bind_eq _ _ _ _ _ Hl).
Qed.

Lemma put_tl_id p L s : sda_thdlst (schda s) !! p = Some L -> put_tl p L s = s.
Proof. intros H. unfold put_tl, with_schda, set_thdlst. rewrite insert_id by done. by destruct s as [[] ? ? ? ? ? ? ?]. Qed.

Lemma select_n_app a b s : select_n (a + b) s = (l1 ← select_n a; l2 ← select_n b; mret (l1 ++ l2)) s.
Proof.
  revert s. induction a as [|a IH]; intros s; simpl.
  - unfold mbind, M_bind. simpl. by destruct (select_n b s) as [[l s']| | |].
  - unfold mbind, M_bind, mret, M_ret in *. destruct (krlsched_select_thread s) as [[t s']| | |]; [|done..].
    rewrite IH. destruct (select_n a s') as [[l s'']| | |]; [|done..]. by destruct (select_n b s'') as [[l' s3]| | |].
Qed.

(** One round over a class with a non-empty ready list. *)
Lemma select_full_round s P p q c n : SQueues s P -> q <> [] -> first_class s p (Thrdlst q (Some c) n) ->
  select_n (S (length q)) s = Ret (q ++ [c], s).
Proof.
  intros HS Hq Hf. replace (S (length q)) with (length q + 1)%nat by lia. rewrite select_n_app.
  pose proof Hf as [HL _]. pose proof (select_round p n q [] c s P HS ltac:(by rewrite app_nil_r)) as H1.
  destruct (List.rev q) as [|e r] eqn:E.
  { apply (f_equal (@List.rev Z)) in E. rewrite List.rev_involutive in E. done. }
  rewrite (bind_eq _ _ _ _ _ H1). simpl. set (s1 := put_tl _ _ s).
  assert (Hq' : q = List.rev r ++ [e]) by (rewrite <- (List.rev_involutive q), E; done).
  assert (Hsel : krlsched_select_thread s1 = Ret (c, s)).
  { destruct (select_inv s P (length q) HS) as (l & s' & P' & Hrun & HS').
    rewrite H1 in Hrun. injection Hrun as <- <-. fold s1 in HS'.
    assert (Hf1 : first_class s1 p (Thrdlst (c :: List.rev r) (Some e) n)).
    { split; [apply lookup_insert_eq|]. intros p' Hp'. destruct (proj2 Hf p' Hp') as (L' & HL' & E'). exists L'.
      split; [|done]. simpl. rewrite lookup_insert_ne by lia. done. }
    rewrite (select_eq s1 P' p _ c (List.rev r) HS' Hf1 eq_refl). unfold rotate. simpl. unfold s1. rewrite put_tl_tl, <- Hq'.
    by rewrite put_tl_id. }
  rewrite (bind_eq _ _ _ _ _ (bind_eq _ _ _ _ _ Hsel)). done.
Qed.

(** ** Start of the scheduler *)

Definition fresh_sem (x : sem_t) : Prop := sem_waitlst x = kwlst_t_init /\ 0 <= sem_count x < 2 ^ 63.

Definition start (stk td initmm main : Z) : SM unit :=
  init_krlsched ;; new_cpuidle (Some stk) (Some td) initmm main ;; krlcpuidle_start.

(** The state the scheduler starts from, with idle thread [td] on the processor. *)
Lemma boot_queues s td x : thds s = {[td := x]} -> sda_thdlst (schda s) = tabulate (fun _ => thrdlst_t_init) PRITY_MAX ->
  sda_exitlist (schda s) = [] -> sda_threadnr (schda s) = 0 -> sda_cpuidle (schda s) = Some td ->
  sda_schdflgs (schda s) = NOTS_SCHED_FLGS -> (forall w y, sems s !! w = Some y -> fresh_sem y) ->
  SQueues s {[td := PIdle]}.
Proof.
  intros H1 H2 H3 H4 H5 H6 H7. split.
  - intros t q. rewrite lookup_singleton. destruct q as [p|p|w| |]; simpl; rewrite ?H2, ?H3, ?H5, ?lookup_tabulate.
    + case_decide; (split; [|done]); intros (L & HL & Hin); destruct (_ && _); simplify_eq; by apply elem_of_nil in Hin.
    + case_decide; (split; [|done]); intros (L & HL & Hin); destruct (_ && _); simplify_eq; done.
    + case_decide; (split; [|done]); intros (y & Hy & Hin); destruct (H7 w y Hy) as [E _]; rewrite E in Hin; by apply elem_of_nil in Hin.
    + case_decide; (split; [|done]); by intros ?%elem_of_nil.
    + case_decide; split; congruence.
  - intros t q. rewrite H1, !lookup_singleton. case_decide; [|done]. intros [= <-]. subst. exists x. done.
  - intros t y. rewrite H1, !lookup_singleton. case_decide; [by eexists|done].
  - intros p. rewrite H2, lookup_tabulate. destruct (_ && _) eqn:E; split; intros Hs; [lia|eauto|by destruct Hs|lia].
  - intros p L. rewrite H2, lookup_tabulate. destruct (_ && _); [|done]. intros [= <-]. split; [constructor|done].
  - intros w y Hy. destruct (H7 w y Hy) as [E Hc]. unfold sem_ok. rewrite E. split; [constructor|]. split; [done|done].
  - rewrite H3. constructor.
  - rewrite H4. unfold live_count. rewrite map_filter_singleton_False by (simpl; tauto). reflexivity.
  - rewrite H5. eauto.
  - rewrite H6. by left.
  - rewrite H1, map_size_singleton. lia.
Qed.

Lemma start_spec s stk td initmm main : thds s = ∅ -> (forall w y, sems s !! w = Some y -> fresh_sem y) ->
  wp (start stk td initmm main) s (fun _ s' => SInv s' /\ sda_currtd (schda s') = Some td /\ sda_cpuidle (schda s') = Some td /\
    sems s' = sems s /\ exists x, thds s' = {[td := x]}).
Proof.
  intros Ht Hsem. unfold start, init_krlsched, new_cpuidle, new_cpuidle_thread, krlthread_kernstack_init.
  apply wp_bind, wp_modify. repeat apply wp_bind. apply wp_modify. set (s1 := with_thds _ _).
  assert (H1 : thds s1 = {[td := thread_t_init td initmm]}) by (simpl; rewrite Ht; apply insert_empty).
  rewrite (wp_det _ _ _ _ _ (upd_td_put td _ _ s1 ltac:(rewrite H1; apply lookup_singleton_eq))).
  set (x2 := set_td_new _ _ _ _ _). repeat apply wp_bind.
  rewrite (wp_det _ _ _ _ _ (get_td_eq td x2 _ (td_put_td td x2 s1))). cbv zeta. apply wp_bind, wp_modify.
  match goal with |- wp (upd_td td ?f) ?s2 _ => rewrite (wp_det _ _ _ _ _ (upd_td_put td f x2 s2 (td_put_td td x2 s1))) end.
  apply wp_bind. unfold upd_schda. apply wp_modify. apply wp_bind, wp_modify, wp_ret, wp_ret.
  unfold krlcpuidle_start. apply wp_bind, wp_gets. cbn [sda_cpuidle schda with_schda set_currtd].
  match goal with |- wp (_ ← get_td td; _) ?s2 _ => set (s3 := s2) end.
  assert (H3 : exists x3, thds s3 = {[td := x3]}).
  { eexists. simpl. rewrite Ht, !insert_insert_eq, insert_empty. reflexivity. }
  destruct H3 as [x3 H3]. assert (Hx3 : thds s3 !! td = Some x3) by (rewrite H3; apply lookup_singleton_eq).
  apply wp_bind. rewrite (wp_det _ _ _ _ _ (get_td_eq td x3 s3 Hx3)). apply wp_bind, wp_modify.
  apply wp_bind. match goal with |- wp (upd_td td ?f) ?s2 _ => rewrite (wp_det _ _ _ _ _ (upd_td_put td f x3 s2 Hx3)) end.
  unfold retnfrom_first_sched. apply wp_bind.
  match goal with |- wp (get_td td) (put_td td ?x4 ?s4) _ => rewrite (wp_det _ _ _ _ _ (get_td_eq td x4 _ (td_put_td td x4 s4))) end.
  apply wp_modify. match goal with |- SInv ?s5 /\ _ => set (s5' := s5) end.
  assert (H5 : thds s5' = {[td := set_td_stus TDSTUS_RUN x3]}).
  { unfold s5'. simpl. simpl in H3. rewrite H3. apply insert_singleton_eq. }
  split; [|split; [done|]; split; [done|]; split; [done|]; by eexists].
  exists {[td := PIdle]}, td. split; [by apply (boot_queues s5' td _ H5)|]. split.
  - split; [done|]. split; [done|]. left. apply lookup_singleton_eq.
  - intros w y Hy _. destruct (Hsem w y Hy) as [E _]. by rewrite E.
Qed.

(** ** Kernel threads *)

Lemma align16_val x : 0 <= x < u64max -> align16 x = 16 * (x / 16).
Proof. intros Hx. unfold align16. apply (land_high 4); [lia|done]. Qed.

(** The stack frame a new kernel thread starts from. *)
Definition kern_frame (filerun ktop : Z) : intstkregs_t :=
  Intstkregs K_DS_IDX K_DS_IDX K_DS_IDX K_DS_IDX filerun K_CS_IDX KMOD_EFLAGS ktop 0.

(** Joining a class writes neither a frame nor a descriptor. *)
Lemma krlschdclass_frames td s : forall u s', krlschdclass_add_thread td s = Ret (u, s') -> frames s' = frames s /\ thds s' = thds s.
Proof.
  intros u s'. unfold krlschdclass_add_thread, list_add_ready, need_free, upd_tl, upd_schda, modify, get_td, mbind, M_bind.
  repeat case_match; intros; simplify_eq; done.
Qed.

Lemma kern_thread_spec s stk td initmm filerun prilg prity krlstksz :
  SInv s -> thds s !! td = None -> Z.of_nat (size (thds s)) + 1 < 2 ^ 62 ->
  0 <= prity < PRITY_MAX -> 0 <= stk -> 0x8000 <= krlstksz -> stk + krlstksz < u64max ->
  wp (krlnew_kern_thread_core (Some stk) (Some td) initmm filerun prilg prity krlstksz) s (fun r s' =>
    r = Some td /\ SInv s' /\ at_place s' td (PReady prity) /\ sems s' = sems s /\
    exists x ktop, thds s' !! td = Some x /\ td_stus x = TDSTUS_NEW /\
      ktop mod 16 = 0 /\ stk <= ctx_nextrsp x /\ ctx_nextrsp x + SZ_intstkregs_t = ktop /\ ktop < stk + krlstksz /\
      ctx_nextrip x = filerun /\ frames s' !! ctx_nextrsp x = Some (kern_frame filerun ktop)).
Proof.
  intros (P & c & HS & Hrun & Hno) Hn Hsz Hp Hstk Hks Hw. rewrite u64max_val in Hw.
  unfold krlnew_kern_thread_core. apply wp_bind, wp_modify. apply wp_bind. set (s1 := with_thds _ _).
  rewrite (wp_det _ _ _ _ _ (upd_td_put td _ _ s1 (lookup_insert_eq _ _ _))).
  set (x2 := set_td_new _ _ _ _ _). unfold krlthread_kernstack_init. repeat apply wp_bind.
  rewrite (wp_det _ _ _ _ _ (get_td_eq td x2 _ (td_put_td td x2 s1))). cbv zeta. apply wp_bind, wp_modify.
  match goal with |- wp (upd_td td ?f) ?s2 _ => rewrite (wp_det _ _ _ _ _ (upd_td_put td f x2 s2 (td_put_td td x2 s1))) end.
  cbn [td_krlstktop x2 set_td_new]. rewrite (u64_small (krlstksz - 1)), (u64_small (stk + _)) by (rewrite u64max_val; lia).
  rewrite align16_val by (rewrite u64max_val; lia). set (ktop := 16 * ((stk + (krlstksz - 1)) / 16)).
  assert (Hk : stk + krlstksz - 16 <= ktop <= stk + krlstksz - 1).
  { unfold ktop. pose proof (Z.div_mod (stk + (krlstksz - 1)) 16 ltac:(lia)).
    pose proof (Z.mod_pos_bound (stk + (krlstksz - 1)) 16 ltac:(lia)). lia. }
  unfold SZ_intstkregs_t. rewrite (u64_small (ktop - 192)) by (rewrite u64max_val; lia).
  set (x3 := set_td_stack _ _ _ _ x2).
  set (sf := Sys (schda s) (scls_threadnr s) (thds s) (sems s) (<[ktop - 192 := kern_frame filerun ktop]> (frames s)) (cpu s) (tss_rsp0 s) (mmu_cur s)).
  match goal with |- wp _ ?s4 _ => assert (E4 : s4 = put_td td x3 sf) end.
  { unfold put_td, sf, s1, with_thds. simpl. by rewrite !insert_insert_eq. }
  rewrite E4. clear E4. assert (HSf : SQueues sf P) by (apply (same_queues_ok s); [done|done|apply (sq_flgs _ _ HS)]).
  destruct (proj2 (sq_classes _ _ HS prity) Hp) as [L HL].
  pose proof (add_new_spec sf P td prity x3 L HSf Hn eq_refl eq_refl HL Hsz) as Hadd.
  unfold add_new in Hadd. apply wp_bind_inv in Hadd. rewrite (wp_det (modify (put_td td x3)) sf tt (put_td td x3 sf) _ eq_refl) in Hadd.
  apply wp_bind. pose proof (krlschdclass_frames td (put_td td x3 sf)) as Hfr.
  unfold wp in Hadd |- *. destruct (krlschdclass_add_thread td (put_td td x3 sf)) as [[u s5]| | |] eqn:Erun; try done.
  destruct Hadd as (HS5 & (H1 & H2 & _) & Hs5 & _). destruct (Hfr u s5 eq_refl) as [Hf5 Ht5].
  split; [done|]. split; [|split; [by apply (sq_place _ _ HS5), lookup_insert_eq|split; [done|]]].
  - exists (<[td := PReady prity]> P), c. split; [done|]. split; [|by apply (no_idle_same s)].
    destruct Hrun as (R1 & R2 & R3). split; [simpl in H1; congruence|]. split; [simpl in H2; congruence|].
    destruct (running_cases s P c HS (conj R1 (conj R2 R3))) as [[y Hy] _]. rewrite lookup_insert_ne; [done|congruence].
  - exists x3, ktop. rewrite Hf5, Ht5. split; [apply lookup_insert_eq|]. split; [done|].
    split; [unfold ktop; rewrite Z.mul_comm; apply Z_mod_mult|]. simpl.
    split_and!; [lia|lia|lia|done|apply lookup_insert_eq].
Qed.

(** ** Handle tables *)

Lemma null_hand_full l k : Forall is_Some l -> null_hand l k = NO_HAND.
Proof. intros H. revert k. induction H as [|o l [v ->] _ IH]; intros k; simpl; [done|apply IH]. Qed.

Lemma null_hand_first l : forall h k, l !! h = Some None -> (forall h', (h' < h)%nat -> exists o, l !! h' = Some (Some o)) ->
  null_hand l k = k + Z.of_nat h.
Proof.
  induction l as [|o l IH]; intros h k Hh Hlow; [done|]. destruct h as [|h].
  - injection Hh as ->. simpl. lia.
  - destruct (Hlow 0%nat ltac:(lia)) as (v & [= ->]). simpl. rewrite (IH h); [lia|done|].
    intros h' Hh'. apply (Hlow (S h')). lia.
Qed.

Lemma put_td_td t x y s : put_td t x (put_td t y s) = put_td t x s.
Proof. unfold put_td. simpl. by rewrite insert_insert_eq. Qed.
Lemma put_td_id t x s : thds s !! t = Some x -> put_td t x s = s.
Proof. intros H. unfold put_td, with_thds. rewrite insert_id by done. by destruct s. Qed.

Lemma handle_added s t x ondp h : thds s !! t = Some x -> length (td_handtbl x) = Z.to_nat TD_HAND_MAX ->
  td_handtbl x !! h = Some None -> (forall h', (h' < h)%nat -> exists o, td_handtbl x !! h' = Some (Some o)) ->
  exists s', krlthd_add_objnode t ondp s = Ret (Z.of_nat h, s') /\
    krlthd_retn_objnode t (Z.of_nat h) s' = Ret (Some ondp, s') /\
    (forall h' : nat, h' <> h -> (h' < Z.to_nat TD_HAND_MAX)%nat ->
       krlthd_retn_objnode t (Z.of_nat h') s' = Ret (mjoin (td_handtbl x !! h'), s')) /\
    krlthd_del_objnode t (Z.of_nat h) s' = Ret (Z.of_nat h, s).
Proof.
  intros Hx Hlen Hh Hlow. pose proof (lookup_lt_Some _ _ _ Hh) as Hlt. rewrite Hlen in Hlt. unfold TD_HAND_MAX, NO_HAND in *.
  set (x' := set_td_handtbl (<[h := Some ondp]> (td_handtbl x)) x). exists (put_td t x' s).
  assert (Hg : forall h' : nat, (h' < 8)%nat ->
            krlthd_retn_objnode t (Z.of_nat h') (put_td t x' s) = Ret (mjoin (td_handtbl x' !! h'), put_td t x' s)).
  { intros h' Hh'. unfold krlthd_retn_objnode, TD_HAND_MAX, NO_HAND. replace (_ || _) with false by lia.
    rewrite (bind_eq _ _ _ _ _ (get_td_eq t x' _ (td_put_td t x' s))). by rewrite Nat2Z.id. }
  split_and!.
  - unfold krlthd_add_objnode. rewrite (bind_eq _ _ _ _ _ (get_td_eq t x s Hx)). rewrite (null_hand_first _ h) by done.
    cbv zeta. unfold NO_HAND. replace (_ =? -1) with false by lia.
    rewrite (bind_eq _ _ _ _ _ (upd_td_put t _ x s Hx)). rewrite Z.add_0_l, Nat2Z.id. done.
  - rewrite Hg by lia. simpl. rewrite list_lookup_insert_eq by lia. done.
  - intros h' Hne Hh'. rewrite Hg by lia. simpl. by rewrite list_lookup_insert_ne.
  - unfold krlthd_del_objnode, TD_HAND_MAX, NO_HAND. replace (_ || _) with false by lia.
    rewrite (bind_eq _ _ _ _ _ (get_td_eq t x' _ (td_put_td t x' s))). rewrite Nat2Z.id. simpl.
    rewrite list_lookup_insert_eq by lia. rewrite (bind_eq _ _ _ _ _ (upd_td_put t _ x' _ (td_put_td t x' s))).
    rewrite put_td_td. unfold mret, M_ret. do 2 f_equal. replace (set_td_handtbl _ x') with x; [by apply put_td_id|].
    unfold x', set_td_handtbl. simpl. rewrite list_insert_insert_eq, list_insert_id by done. by destruct x.
Qed.
