(* ===== verification/SchedCorrect.v ===== *)
(** * Scheduler and semaphores: theorems

    The theorems of krlsched.c, krlwaitlist.c, krlsem.c and the thread
    descriptors of krlthread.c, each applied to a small system: an idle thread
    and two kernel threads that share a semaphore. *)

From S2P Require Import Prelude Sched SchedInv SchedMoves SchedOps SchedSpec.

(** ** A small system *)

Definition demo_sys0 : sys := Sys schdata_t_init 0 ∅ {[7 := Sem 0 1 kwlst_t_init]} ∅ None 0 0.
Definition final {A} (m : SM A) (s : sys) : sys := match m s with Ret (_, s') => s' | _ => s end.

Lemma wp_final_sys {A} (m : SM A) s (Q : A -> sys -> Prop) : wp m s Q -> exists a, m s = Ret (a, final m s) /\ Q a (final m s).
Proof. unfold wp, final. destruct (m s) as [[a s']| | |]; [|done..]. intros H. by exists a. Qed.

Definition demo_td (t : Z) : thread_t := thread_t_init t 5.
Definition demo_sys1 : sys := final (start 0x10000 1000 5 0x99) demo_sys0.
Definition demo_sys2 : sys := final (perform (AAdd 2000 (demo_td 2000))) demo_sys1.
Definition demo_sys3 : sys := final (perform (AAdd 3000 (demo_td 3000))) demo_sys2.
(** Thread 3000 runs. *)
Definition demo_sys4 : sys := final (perform AYield) demo_sys3.

Lemma demo_sys0_fresh w y : sems demo_sys0 !! w = Some y -> fresh_sem y.
Proof. simpl. rewrite lookup_singleton. case_decide; [|done]. intros [= <-]. split; [done|simpl; lia]. Qed.

Lemma demo1_inv : SInv demo_sys1.
Proof. destruct (wp_final_sys _ _ _ (start_spec demo_sys0 0x10000 1000 5 0x99 eq_refl demo_sys0_fresh)) as (_ & _ & H & _). exact H. Qed.

Lemma perform_inv s a : SInv s -> enabled s a -> SInv (final (perform a) s).
Proof. intros H He. destruct (wp_final_sys _ _ _ (perform_spec s a H He)) as (_ & _ & HI & _). exact HI. Qed.

Lemma demo2_inv : SInv demo_sys2.
Proof. apply perform_inv; [exact demo1_inv|]. split_and!; vm_compute; (reflexivity || congruence). Qed.
Lemma demo3_inv : SInv demo_sys3.
Proof. apply perform_inv; [exact demo2_inv|]. split_and!; vm_compute; (reflexivity || congruence). Qed.
Lemma demo4_inv : SInv demo_sys4.
Proof. apply perform_inv; [exact demo3_inv|exact I]. Qed.

Lemma perform_step s pd c a : SInv s -> sda_currtd (schda s) = Some c -> enabled s a -> may pd c a ->
  exists r, step (s, pd) (c, a, r) (final (perform a) s, after pd c a r) /\ perform a s = Ret (r, final (perform a) s).
Proof.
  intros H Hc He Hm. destruct (wp_final_sys _ _ _ (perform_spec s a H He)) as (r & Hr & _). exists r. split; [by constructor|done].
Qed.

(** ** Theorems *)

(** Starting the scheduler: [init_krlsched], the idle thread and the first
    switch establish the invariant, with the idle thread on the processor. *)
Theorem sched_started s stk td initmm main :
  thds s = ∅ -> (forall w y, sems s !! w = Some y -> fresh_sem y) ->
  wp (start stk td initmm main) s (fun _ s' => SInv s' /\ sda_currtd (schda s') = Some td /\ sda_cpuidle (schda s') = Some td).
Proof.
  intros Ht Hs. eapply wp_mono; [apply (start_spec s stk td initmm main Ht Hs)|]. intros ? s' (H1 & H2 & H3 & _). done.
Qed.

Lemma sched_started_witness : wp (start 0x10000 1000 5 0x99) demo_sys0 (fun _ s' => SInv s').
Proof.
  eapply wp_mono; [apply (sched_started demo_sys0); [reflexivity|exact demo_sys0_fresh]|]. intros ? s' [H _]. exact H.
Defined.

(** C9: mutual exclusion: when every raise of a semaphore is by a thread that
    holds it, its count plus the number of holders is the initial count in
    every reachable state; so a semaphore that starts at 1 has at most one
    holder, whatever the interleaving. *)
Theorem sem_mutual_exclusion s0 w y0 tr s pd H :
  SInv s0 -> sems s0 !! w = Some y0 -> run s0 tr (s, pd) -> holders w tr = Some H ->
  (exists y, sems s !! w = Some y /\ sem_count y + Z.of_nat (length H) = sem_count y0) /\
  (sem_count y0 = 1 -> forall c c', c ∈ H -> c' ∈ H -> c = c').
Proof.
  intros H0 Hy0 Hr HH. destruct (run_count s0 w y0 H0 Hy0 tr (s, pd) Hr H HH) as (y & Hy & Hc). split; [eauto|].
  intros H1 c c' Hin Hin'. destruct (run_inv s0 tr (s, pd) H0 Hr) as (P & cc & HS & _).
  destruct (sq_sem _ _ HS w y Hy) as (_ & _ & Hcnt). destruct H as [|h [|h' H]]; [by apply elem_of_nil in Hin| |simpl in Hc; lia].
  apply list_elem_of_singleton in Hin, Hin'. congruence.
Qed.

Definition demo_sys5 : sys := final (perform (ADown 7)) demo_sys4.

Lemma sem_mutual_exclusion_witness :
  exists r, run demo_sys4 [(3000, ADown 7, r)] (demo_sys5, after ∅ 3000 (ADown 7) r) /\
    exists y, sems demo_sys5 !! 7 = Some y /\ sem_count y + (if r then 1 else 0) = 1.
Proof.
  destruct (perform_step demo_sys4 ∅ 3000 (ADown 7) demo4_inv) as (r & Hst & _);
    [vm_compute; reflexivity|split; [vm_compute; eexists; reflexivity|vm_compute; congruence]|exact I|].
  exists r. assert (Hr : run demo_sys4 [(3000, ADown 7, r)] (demo_sys5, after ∅ 3000 (ADown 7) r)) by (econstructor; [constructor|exact Hst]).
  split; [exact Hr|].
  destruct (sem_mutual_exclusion demo_sys4 7 (Sem 0 1 kwlst_t_init) [(3000, ADown 7, r)] demo_sys5 (after ∅ 3000 (ADown 7) r)
    (if r then [3000] else []) demo4_inv) as [(y & Hy & Hc) _];
    [vm_compute; reflexivity|exact Hr|destruct r; reflexivity|].
  exists y. split; [exact Hy|]. destruct r; exact Hc.
Defined.

(** Raising a semaphore: the count goes up by one, every sleeper of the
    semaphore becomes ready and none is left asleep on it, so no wake-up is
    lost; no other semaphore changes. *)
Theorem sem_up_wakes s w y :
  SInv s -> sems s !! w = Some y -> sem_count y + 1 < 2 ^ 63 ->
  wp (krlsem_up w) s (fun _ s' => SInv s' /\
    sems s' = <[w := Sem (sem_flg y) (sem_count y + 1) kwlst_t_init]> (sems s) /\
    forall t, t ∈ wl_list (sem_waitlst y) -> in_ready s' t).
Proof. intros (P & c & HS & Hrun & Hno) Hy Hb. by apply (krlsem_up_spec s P c). Qed.

Lemma sem_up_wakes_witness : wp (krlsem_up 7) demo_sys4 (fun _ s' => SInv s').
Proof.
  eapply wp_mono; [apply (sem_up_wakes demo_sys4 7 (Sem 0 1 kwlst_t_init)); [exact demo4_inv|vm_compute; reflexivity|simpl; lia]|].
  intros ? s' [H _]. exact H.
Defined.

(** Taking a semaphore: a thread passes iff the count is positive, which
    then drops by one; otherwise it is asleep on the semaphore, the processor
    runs another thread, and the count is untouched. *)
Theorem sem_down_behaviour s w y c :
  SInv s -> sems s !! w = Some y -> sda_currtd (schda s) = Some c -> sda_cpuidle (schda s) <> Some c ->
  wp (krlsem_down_try w) s (fun taken s' => SInv s' /\
    if taken then 1 <= sem_count y /\ sems s' = <[w := set_count (sem_count y - 1) y]> (sems s) /\ sda_currtd (schda s') = Some c
    else sem_count y = 0 /\ in_wait s' c /\ sda_currtd (schda s') <> Some c /\
      exists y', sems s' !! w = Some y' /\ sem_count y' = 0 /\ c ∈ wl_list (sem_waitlst y')).
Proof.
  intros (P & c0 & HS & Hrun & Hno) Hy Hc Hi. assert (c0 = c) as -> by (destruct Hrun; congruence).
  destruct (running_cases s P c HS Hrun) as [_ Hcur].
  eapply wp_mono; [apply (krlsem_down_spec s P c w y HS Hrun Hno Hy), Hcur; congruence|].
  intros [] s' H.
  - destruct H as [H1 ->]. split; [by apply (krlsem_take_inv s P c)|]. done.
  - destruct H as (H1 & HI & Hw & Hs). split; [done|]. split; [done|]. split; [done|]. split.
    + destruct HI as (P' & c' & HS' & (R1 & _ & R3) & _). intros E. assert (c' = c) as -> by congruence.
      destruct Hw as (w' & z & Hz & Hin). apply (in_wl s' P' w' z c HS' Hz) in Hin. destruct R3 as [?|[??]]; congruence.
    + rewrite Hs, lookup_insert_eq. eexists. split; [done|]. split; [done|]. by left.
Qed.

Lemma sem_down_behaviour_witness : wp (krlsem_down_try 7) demo_sys4 (fun _ s' => SInv s').
Proof.
  eapply wp_mono; [apply (sem_down_behaviour demo_sys4 7 (Sem 0 1 kwlst_t_init) 3000);
    [exact demo4_inv|vm_compute; reflexivity|vm_compute; reflexivity|vm_compute; congruence]|].
  intros taken s' [H _]. exact H.
Defined.

(** The choice of [krlschedul]: the processor is given to a thread of the
    first priority class that has one (the head of its ready list if there is
    one, else its current thread), or to the idle thread when every class is
    empty, with that thread's kernel stack and address space loaded; the
    semaphores are untouched. *)
Theorem schedule_by_priority s :
  SInv s ->
  wp krlschedul s (fun _ s' => SInv s' /\ sems s' = sems s /\ exists next s1, chosen s next s1 /\ on_cpu s' next).
Proof.
  intros (P & c & HS & Hrun & Hno). destruct (running_cases s P c HS Hrun) as [Hex _].
  eapply wp_mono; [apply (krlschedul_spec s P c HS (proj1 Hrun) Hex)|]. intros ? s' Hre.
  split; [by apply (rescheduled_inv _ _ _ Hre)|]. destruct Hre as (P' & next & s1 & Hch & _ & _ & Hon & Hs & _).
  split; [done|]. by exists next, s1.
Qed.

Lemma schedule_by_priority_witness : wp krlschedul demo_sys3 (fun _ s' => SInv s').
Proof.
  eapply wp_mono; [apply (schedule_by_priority demo_sys3); exact demo3_inv|]. intros ? s' [H _]. exact H.
Defined.

(** C35: round robin: if the first class that has threads has current thread
    [c] and ready list [q], the next [length q + 1] choices are the threads of
    [q] in order and then [c], each once, and the scheduler is back in the
    state it started from. *)
Theorem schedule_round_robin s p q c n :
  SInv s -> q <> [] -> first_class s p (Thrdlst q (Some c) n) ->
  select_n (S (length q)) s = Ret (q ++ [c], s).
Proof. intros (P & c0 & HS & _) Hq Hf. by apply (select_full_round s P p q c n). Qed.

Lemma schedule_round_robin_witness : select_n 2 demo_sys4 = Ret ([2000; 3000], demo_sys4).
Proof.
  apply (schedule_round_robin demo_sys4 0 [2000] 3000 2); [exact demo4_inv|discriminate|].
  split; [vm_compute; reflexivity|]. intros p' Hp'. lia.
Defined.

(** A new kernel thread: with fresh memory for its stack and descriptor it
    is ready at the head of its class, the invariant holds, and the frame it
    starts from lies inside its 16-byte aligned stack and makes the first
    return from interrupt enter [filerun] on that stack in kernel mode. *)
Theorem kern_thread_created s stk td initmm filerun prilg prity usrstksz krlstksz :
  SInv s -> thds s !! td = None -> Z.of_nat (size (thds s)) + 1 < 2 ^ 62 ->
  filerun <> 0 -> prilg = PRILG_SYS \/ prilg = PRILG_USR -> 0 <= prity < PRITY_MAX -> 0 <= stk ->
  0 <= usrstksz <= DAFT_TDUSRSTKSZ -> 0 <= krlstksz <= DAFT_TDKRLSTKSZ -> stk + DAFT_TDKRLSTKSZ < u64max ->
  wp (krlnew_kern_thread (Some stk) (Some td) initmm filerun prilg prity usrstksz krlstksz) s (fun r s' =>
    r = Some td /\ SInv s' /\ at_place s' td (PReady prity) /\ sems s' = sems s /\
    exists x ktop, thds s' !! td = Some x /\ td_stus x = TDSTUS_NEW /\
      ktop mod 16 = 0 /\ stk <= ctx_nextrsp x /\ ctx_nextrsp x + SZ_intstkregs_t = ktop /\ ktop < stk + DAFT_TDKRLSTKSZ /\
      ctx_nextrip x = filerun /\ frames s' !! ctx_nextrsp x = Some (kern_frame filerun ktop)).
Proof.
  intros HI Hn Hsz Hf Hl Hp Hs Hu Hk Hw. unfold krlnew_kern_thread. replace (_ || _ || _) with false by lia.
  unfold PRILG_USR, PRILG_SYS in *. replace (_ || _) with false by (destruct Hl as [-> | ->]; lia). cbv zeta.
  replace (if krlstksz <? DAFT_TDKRLSTKSZ then DAFT_TDKRLSTKSZ else krlstksz) with DAFT_TDKRLSTKSZ by (destruct (krlstksz <? _) eqn:E; lia).
  apply kern_thread_spec; [done..|unfold DAFT_TDKRLSTKSZ; lia|done].
Qed.

Lemma kern_thread_created_witness :
  wp (krlnew_kern_thread (Some 0x20000) (Some 2000) 5 0x4000 PRILG_SYS 0 0x8000 0x4000) demo_sys1 (fun r _ => r = Some 2000).
Proof.
  eapply wp_mono; [apply (kern_thread_created demo_sys1 0x20000 2000 5 0x4000 PRILG_SYS 0 0x8000 0x4000);
    [exact demo1_inv|vm_compute; reflexivity|vm_compute; reflexivity|lia|left; reflexivity|unfold PRITY_MAX; lia|lia
    |unfold DAFT_TDUSRSTKSZ; lia|unfold DAFT_TDKRLSTKSZ; lia|vm_compute; reflexivity]|].
  intros r s' [H _]. exact H.
Defined.

(** The handle table: adding an object uses the lowest free handle and
    afterwards that handle denotes the object and every other one what it did;
    deleting the handle restores the table; a full table answers [NO_HAND] and
    changes nothing. *)
Theorem handle_roundtrip s t x ondp :
  thds s !! t = Some x -> length (td_handtbl x) = Z.to_nat TD_HAND_MAX ->
  (Forall is_Some (td_handtbl x) -> krlthd_add_objnode t ondp s = Ret (NO_HAND, s)) /\
  (forall h, td_handtbl x !! h = Some None -> (forall h', (h' < h)%nat -> exists o, td_handtbl x !! h' = Some (Some o)) ->
     exists s', krlthd_add_objnode t ondp s = Ret (Z.of_nat h, s') /\
       krlthd_retn_objnode t (Z.of_nat h) s' = Ret (Some ondp, s') /\
       (forall h' : nat, h' <> h -> (h' < Z.to_nat TD_HAND_MAX)%nat ->
          krlthd_retn_objnode t (Z.of_nat h') s' = Ret (mjoin (td_handtbl x !! h'), s')) /\
       krlthd_del_objnode t (Z.of_nat h) s' = Ret (Z.of_nat h, s)).
Proof.
  intros Hx Hlen. split.
  - intros Hall. unfold krlthd_add_objnode. rewrite (bind_eq _ _ _ _ _ (get_td_eq t x s Hx)). by rewrite null_hand_full.
  - intros h Hh Hlow. apply (handle_added s t x ondp h Hx Hlen Hh Hlow).
Qed.

Lemma handle_roundtrip_witness :
  exists s', krlthd_add_objnode 2000 77 demo_sys2 = Ret (0, s') /\ krlthd_retn_objnode 2000 0 s' = Ret (Some 77, s').
Proof.
  destruct (handle_roundtrip demo_sys2 2000 (demo_td 2000) 77) as [_ H]; [vm_compute; reflexivity|reflexivity|].
  destruct (H 0%nat) as (s' & H1 & H2 & _); [reflexivity|intros h' Hh'; lia|]. exists s'. split; [exact H1|exact H2].
Defined.
