(* ===== verification/SchedWindow.v ===== *)
(** * The scheduler under interrupts

    The kernel runs its handlers and services with interrupts on
    (hal_hwint_allocator, hal_syscl_allocator: [hal_cpuflag_sti]); only what a
    lock encloses runs undisturbed.  Here the routines of krlsched.c and
    krlsem.c are cut where they restore the interrupt flag: each piece is one
    critical section, and an interrupt may arrive between any two of them, also
    inside [krlschedul], after [krlsched_select_thread] has chosen and before
    [save_to_new_context] switches (krlsched.c:263-265).

    Every thread has a stack of the pieces it still has to run, the innermost
    call first.  The thread the processor runs starts an operation when its
    stack is empty, runs the top piece, or takes an interrupt.  The invariant
    holds in every run in which no interrupt that arrives between choice and
    switch finds a request to reschedule; the last theorem shows that
    the restriction is needed. *)

From S2P Require Import Prelude Sched SchedInv SchedMoves SchedOps SchedSpec SchedCorrect.

(** ** Critical sections *)

(** [krlsem_down] under [sem_lock]: [true] when the semaphore was taken. *)
Definition down_section (sem : Z) : SM bool :=
  x ← get_sem sem;
  if sem_count x <? 1 then krlwlst_wait sem ;; mret false
  else upd_sem sem (fun x => set_count (sem_count x - 1) x) ;; mret true.

(** [krlsem_up] under [sem_lock]. *)
Definition up_section (sem : Z) : SM unit :=
  upd_sem sem (fun x => set_count (sint (sem_count x + 1)) x) ;;
  x ← get_sem sem;
  die_if (sem_count x <? 1) "sem up err" ;;
  krlwlst_allup sem.

(** [krlsched_chkneed_pmptsched] under [sda_lock]: whether it goes on to [krlschedul]. *)
Definition check_section : SM bool :=
  d ← gets schda;
  schd ← (if (sda_schdflgs d =? NEED_SCHED_FLGS) && (sda_premptidx d =? PMPT_FLGS)
          then upd_schda (set_schdflgs NOTS_SCHED_FLGS) ;; mret 1 else mret 0);
  d ← gets schda;
  let schd := if sda_schdflgs d =? NEED_START_CPUILDE_SCHED_FLGS then 1 else schd in
  mret (schd =? 1).

(** [krlschedul] up to the switch: the two threads of the switch to come. *)
Definition sched_section : SM (option (Z * Z)) :=
  f ← krlsched_retn_schedflgs;
  if f =? NEED_START_CPUILDE_SCHED_FLGS then
    krlsched_set_schedflgs_ex NOTS_SCHED_FLGS ;;
    idle ← krlsched_retn_idlethread;
    retnfrom_first_sched idle ;; mret None
  else
    prev ← krlsched_retn_currthread;
    next ← krlsched_select_thread;
    mret (Some (next, prev)).

(** ** Pieces and moves *)

Inductive kont :=
| KTick                         (** the clock handler: [krlthd_inc_tick] *)
| KUp (w : Z)                   (** [krlsem_up]: the part under the lock *)
| KFlag                         (** [krlsched_set_schedflgs] *)
| KCheck                        (** [krlsched_chkneed_pmptsched]: the test *)
| KSched                        (** [krlschedul]: the choice *)
| KSwitch (next prev : Z)       (** [save_to_new_context(next, prev)] *)
| KDown (w : Z)                 (** [krlsem_down] from [start_step] *)
| KExit                         (** [krlsched_exit], before [krlschedul] *)
| KAdd (t : Z) (x : thread_t).  (** a new descriptor is handed to the scheduler *)

(** A piece runs without interruption; its answer is what is still to be run. *)
Definition run_kont (k : kont) : SM (list kont) :=
  match k with
  | KTick => t ← krlsched_retn_currthread; krlthd_inc_tick t ;; mret []
  | KUp w => up_section w ;; mret []
  | KFlag => krlsched_set_schedflgs ;; mret []
  | KCheck => b ← check_section; mret (if b : bool then [KSched] else [])
  | KSched => r ← sched_section; mret (match r with Some (next, prev) => [KSwitch next prev] | None => [] end)
  | KSwitch next prev => save_to_new_context next prev ;; mret []
  | KDown w => b ← down_section w; mret (if b : bool then [] else [KSched; KDown w])
  | KExit => krlsched_exit ;; mret [KSched]
  | KAdd t x => add_new t x ;; mret []
  end.

(** The pieces of an operation; the clock is an interrupt. *)
Definition pieces (a : act) : list kont :=
  match a with
  | ADown w => [KDown w]
  | AUp w => [KUp w; KFlag]
  | AYield => [KSched]
  | AExit => [KExit]
  | ATick => [KTick; KCheck]
  | AAdd t x => [KAdd t x]
  end.

(** A device handler raises a semaphore; the check on the way out. *)
Definition device_pieces (w : Z) : list kont := [KUp w; KFlag; KCheck].

(** What the rest of the kernel respects, as in [enabled]. *)
Definition allowed (s : sys) (k : kont) : bool :=
  match k with
  | KDown w => bool_decide (is_Some (sems s !! w)) && negb (bool_decide (sda_currtd (schda s) = sda_cpuidle (schda s)))
  | KUp w => match sems s !! w with Some y => sem_count y + 1 <? 2 ^ 63 | None => false end
  | KExit => negb (bool_decide (sda_currtd (schda s) = sda_cpuidle (schda s)))
  | KAdd t x => bool_decide (thds s !! t = None) && (0 <=? td_priority x) && (td_priority x <? PRITY_MAX) &&
                (td_stus x =? TDSTUS_NEW) && (Z.of_nat (size (thds s)) + 1 <? 2 ^ 62)
  | _ => true
  end.

(** The system and the stack of every thread. *)
Definition fconf : Type := sys * gmap Z (list kont).
Definition stack (K : gmap Z (list kont)) (t : Z) : list kont := default [] (K !! t).

Inductive move :=
| MStart (a : act)              (** the running thread starts an operation *)
| MClock                        (** the clock interrupts it *)
| MDevice (w : Z)               (** a device interrupts it *)
| MRun.                         (** it goes on *)

Definition fmove (m : move) : M fconf unit := fun '(s, K) =>
  match sda_currtd (schda s) with
  | None => Fault
  | Some c =>
      match m, stack K c with
      | MStart a, [] => Ret (tt, (s, <[c := pieces a]> K))
      | MStart _, _ => Fault
      | MClock, l => Ret (tt, (s, <[c := pieces ATick ++ l]> K))
      | MDevice w, l => Ret (tt, (s, <[c := device_pieces w ++ l]> K))
      | MRun, [] => Fault
      | MRun, k :: l =>
          match run_kont k s with
          | Ret (l', s') => Ret (tt, (s', <[c := l' ++ l]> K))
          | Halt e => Halt e
          | Fault => Fault
          | NoFuel => NoFuel
          end
      end
  end.

(** Between choice and switch: the switch is still to be run. *)
Definition is_switch (k : kont) : bool := match k with KSwitch _ _ => true | _ => false end.
Definition in_window (l : list kont) : bool := existsb is_switch l.

(** The check of an interrupt that arrived in the window finds a request. *)
Definition preempts (s : sys) (k : kont) (l : list kont) : bool :=
  match k with KCheck => in_window l && (sda_schdflgs (schda s) =? NEED_SCHED_FLGS) | _ => false end.

(** Whether a move is one the kernel makes. *)
Definition can (m : move) (k : fconf) : bool :=
  match sda_currtd (schda k.1) with
  | None => false
  | Some c =>
      match m, stack k.2 c with
      | MStart ATick, _ => false
      | MStart _, [] => true
      | MStart _, _ => false
      | MRun, [] => false
      | MRun, p :: _ => allowed k.1 p
      | _, _ => true
      end
  end.

(** The move is not a preemption inside the window. *)
Definition quiet (m : move) (k : fconf) : bool :=
  match m, sda_currtd (schda k.1) with
  | MRun, Some c => match stack k.2 c with p :: l => negb (preempts k.1 p l) | [] => true end
  | _, _ => true
  end.

(** Runs; [q] asks for quiet moves only. *)
Inductive frun (q : bool) (s0 : sys) : list move -> fconf -> Prop :=
| frun_nil : frun q s0 [] (s0, ∅)
| frun_move tr k m k' : frun q s0 tr k -> can m k = true -> (q = true -> quiet m k = true) ->
    fmove m k = Ret (tt, k') -> frun q s0 (tr ++ [m]) k'.

(** ** The sections make up the routines *)

(** Two programs that make the same calls in the same order. *)
Ltac same_calls := unfold gets, upd_schda, modify, mbind, M_bind, mret, M_ret; repeat case_match; simplify_eq;
  repeat match goal with u : unit |- _ => destruct u end; try done.

Lemma krlschedul_sections s : krlschedul s =
  (r ← sched_section; match r with Some (next, prev) => save_to_new_context next prev | None => mret tt end) s.
Proof. unfold krlschedul, sched_section. same_calls. Qed.

Lemma chkneed_sections s : krlsched_chkneed_pmptsched s = (b ← check_section; if b : bool then krlschedul else mret tt) s.
Proof. unfold krlsched_chkneed_pmptsched, check_section. same_calls. Qed.

Lemma down_sections w s : krlsem_down_try w s = (b ← down_section w; if b : bool then mret true else krlschedul ;; mret false) s.
Proof. unfold krlsem_down_try, down_section. same_calls. Qed.

Lemma up_sections w s : krlsem_up w s = (up_section w ;; krlsched_set_schedflgs) s.
Proof. unfold krlsem_up, up_section. same_calls. Qed.

(** ** Invariant *)

(** The pieces that need no particular place of the running thread. *)
Definition light (k : kont) : Prop := match k with KTick | KUp _ | KFlag | KCheck => True | _ => False end.

Definition runnable (P : gmap Z place) (t : Z) : Prop := P !! t = Some PIdle \/ exists p, P !! t = Some (PCurr p).

(** Where the running thread [c] is in its operation: the current thread of
    its class; or it has gone to sleep, exited or been woken, and a choice comes
    before anything that relies on its place; or between choice and switch. *)
Inductive phase (P : gmap Z place) (c : Z) (l : list kont) : Prop :=
| ph_runs : runnable P c -> in_window l = false -> phase P c l
| ph_leaves pre rest : l = pre ++ KSched :: rest -> Forall light pre -> in_window l = false -> phase P c l
| ph_window pre n rest : l = pre ++ KSwitch n c :: rest -> Forall light pre -> runnable P n -> in_window rest = false -> phase P c l.

Record WInv (s : sys) (K : gmap Z (list kont)) (P : gmap Z place) (c : Z) : Prop := {
  wi_queues : SQueues s P;
  wi_sems : no_idle_sem s;
  wi_curr : sda_currtd (schda s) = Some c;
  wi_cpu : cpu s = Some c;
  wi_td : is_Some (thds s !! c);
  wi_others : forall t, t <> c -> in_window (stack K t) = false;
  wi_phase : phase P c (stack K c)
}.

Lemma in_window_app l1 l2 : in_window (l1 ++ l2) = in_window l1 || in_window l2.
Proof. apply existsb_app. Qed.

Lemma light_no_window l : Forall light l -> in_window l = false.
Proof. induction 1 as [|k l Hk _ IH]; [done|]. by destruct k. Qed.

Lemma stack_insert K c l t : stack (<[c := l]> K) t = if decide (t = c) then l else stack K t.
Proof. unfold stack. rewrite lookup_insert. repeat case_decide; subst; done. Qed.

(** ** Pieces *)

(** What a piece that changes no thread's turn leaves. *)
Definition undisturbed (s : sys) (P : gmap Z place) (c : Z) (s' : sys) (P' : gmap Z place) : Prop :=
  SQueues s' P' /\ no_idle_sem s' /\ sda_currtd (schda s') = Some c /\ cpu s' = cpu s /\ is_Some (thds s' !! c) /\
  forall t, runnable P t -> runnable P' t.

Lemma up_section_spec s P w y : SQueues s P -> no_idle_sem s -> sems s !! w = Some y -> sem_count y + 1 < 2 ^ 63 ->
  wp (up_section w) s (fun _ s' => exists P', SQueues s' P' /\ no_idle_sem s' /\ same_cpu s s' /\ dom (thds s') = dom (thds s) /\
    forall t, runnable P t -> runnable P' t).
Proof.
  intros HS Hno Hy Hc. destruct (sq_sem _ _ HS w y Hy) as (_ & _ & Hcnt).
  unfold up_section. apply wp_bind. rewrite (wp_det _ _ _ _ _ (upd_sem_put w _ y s Hy)).
  replace (sint (sem_count y + 1)) with (sem_count y + 1) by (unfold sint; rewrite Z.mod_small by lia; lia).
  set (y1 := set_count (sem_count y + 1) y).
  assert (HS1 : SQueues (put_sem w y1 s) P) by (apply put_count_queues; [done|done|lia]).
  apply wp_bind. rewrite (wp_det _ _ _ _ _ (get_sem_eq w y1 _ (sem_put_sem w y1 s))).
  apply wp_bind, wp_die_if; [simpl; lia|].
  eapply wp_mono; [apply (krlwlst_allup_spec _ P w y1 HS1), sem_put_sem|].
  intros ? s2 (P' & HS2 & Hsem & Hcpu & Hdom & Hin & Hout). simpl in Hsem. rewrite insert_insert_eq in Hsem.
  exists P'. split; [done|]. split; [|split; [done|split; [done|]]].
  - intros w' z Hz Hp. rewrite Hsem, lookup_insert in Hz. case_decide; [by injection Hz as <-|by apply (Hno w')].
  - intros t Ht. unfold runnable. rewrite Hout; [exact Ht|]. intros Hw.
    assert (P !! t = Some (PWait w)) by (by apply (in_wl s P w y t HS Hy)). destruct Ht as [?|[? ?]]; congruence.
Qed.

Lemma check_section_spec s P : SQueues s P ->
  wp check_section s (fun b s' => SQueues s' P /\ thds s' = thds s /\ sems s' = sems s /\ cpu s' = cpu s /\
    sda_currtd (schda s') = sda_currtd (schda s) /\ (b = true -> sda_schdflgs (schda s) = NEED_SCHED_FLGS)).
Proof.
  intros HS. pose proof (sq_flgs _ _ HS) as Hf. unfold check_section. apply wp_bind, wp_gets, wp_bind.
  destruct (_ && _) eqn:E; bool_to_prop.
  - apply wp_bind. unfold upd_schda. apply wp_modify, wp_ret, wp_bind, wp_gets, wp_ret.
    split; [|split_and!; try done; intros _; lia]. apply (same_queues_ok s); [done|done|by left].
  - apply wp_ret, wp_bind, wp_gets, wp_ret. split_and!; try done.
    unfold NOTS_SCHED_FLGS, NEED_SCHED_FLGS, NEED_START_CPUILDE_SCHED_FLGS in *. by replace (_ =? 2) with false by lia.
Qed.

Lemma sched_section_spec s P c : SQueues s P -> sda_currtd (schda s) = Some c ->
  wp sched_section s (fun r s' => exists n P', r = Some (n, c) /\ SQueues s' P' /\ runnable P' n /\
    thds s' = thds s /\ sems s' = sems s /\ same_cpu s s').
Proof.
  intros HS Hc. unfold sched_section, krlsched_retn_schedflgs. apply wp_bind, wp_gets. replace (_ =? _) with false.
  2:{ unfold NEED_START_CPUILDE_SCHED_FLGS. pose proof (sq_flgs _ _ HS). unfold NOTS_SCHED_FLGS, NEED_SCHED_FLGS in *. lia. }
  apply wp_bind. rewrite (wp_det _ _ _ _ _ (currthread_eq s c Hc)).
  apply wp_bind. eapply wp_mono; [apply (krlsched_select_spec s P HS)|]. intros n s1 Hch.
  destruct (chosen_queues s P n s1 HS Hch) as (P' & HS' & Hcur & Htd & Hsem & Hcpu & _).
  apply wp_ret. by exists n, P'.
Qed.

Lemma light_spec s P c k : SQueues s P -> no_idle_sem s -> sda_currtd (schda s) = Some c -> is_Some (thds s !! c) ->
  light k -> allowed s k = true ->
  wp (run_kont k) s (fun l s' => exists P', undisturbed s P c s' P' /\
    (l = [] \/ l = [KSched] /\ k = KCheck /\ sda_schdflgs (schda s) = NEED_SCHED_FLGS)).
Proof.
  intros HS Hno Hc [x Hx] Hk Hal. destruct k as [|w| | | | | | |]; try done; cbn [run_kont].
  - apply wp_bind. rewrite (wp_det _ _ _ _ _ (currthread_eq s c Hc)). apply wp_bind.
    eapply wp_mono; [by apply (krlthd_inc_tick_spec s P c x)|]. intros ? s1 (HS1 & Hex & Hs1 & Hc1 & Hcpu1).
    apply wp_ret. exists P. split; [|by left]. split_and!; [done|by apply (no_idle_same s)|congruence|done|done|done].
  - simpl in Hal. destruct (sems s !! w) as [y|] eqn:Hy; [|done]. bool_to_prop. apply wp_bind.
    eapply wp_mono; [by apply (up_section_spec s P w y)|]. intros ? s1 (P' & HS1 & Hno1 & (H1 & H2 & _) & Hdom & Hrun).
    apply wp_ret. exists P'. split; [|by left]. split_and!; [done|done|congruence|done| |done].
    apply elem_of_dom. rewrite Hdom. apply elem_of_dom. eauto.
  - apply wp_bind. unfold krlsched_set_schedflgs, upd_schda. apply wp_modify, wp_ret. exists P. split; [|by left].
    split_and!; [|done|done|done|eauto|done]. apply (same_queues_ok s); [done|done|by right].
  - apply wp_bind. eapply wp_mono; [apply (check_section_spec s P HS)|]. intros b s1 (HS1 & Ht & Hs & Hcpu & Hc1 & Hb).
    apply wp_ret. exists P. split.
    + split_and!; [done|by apply (no_idle_same s)|congruence|done|rewrite Ht; eauto|done].
    + destruct b; [right; by split_and!; [| |apply Hb]|by left].
Qed.

(** A thread that is not the idle one, takes or sleeps. *)
Lemma not_idle_current s P c : SQueues s P -> runnable P c -> sda_currtd (schda s) = Some c ->
  sda_currtd (schda s) <> sda_cpuidle (schda s) -> exists p x L,
  P !! c = Some (PCurr p) /\ thds s !! c = Some x /\ sda_thdlst (schda s) !! p = Some L.
Proof.
  intros HS [Hi|[p HP]] Hc Hne; [apply (sq_place _ _ HS c PIdle) in Hi; simpl in Hi; congruence|].
  destruct (sq_status _ _ HS c _ HP) as (x & Hx & _). pose proof HP as (L & HL & _)%(sq_place _ _ HS). by exists p, x, L.
Qed.

Lemma down_section_spec s P c w y : SQueues s P -> no_idle_sem s -> runnable P c -> sda_currtd (schda s) = Some c ->
  sda_currtd (schda s) <> sda_cpuidle (schda s) -> sems s !! w = Some y ->
  wp (down_section w) s (fun b s' => exists P', SQueues s' P' /\ no_idle_sem s' /\ sda_currtd (schda s') = Some c /\
    cpu s' = cpu s /\ is_Some (thds s' !! c) /\ (b = true -> runnable P' c)).
Proof.
  intros HS Hno Hrun Hc Hne Hy. destruct (not_idle_current s P c HS Hrun Hc Hne) as (p & x & L & HP & Hx & HL).
  destruct (sq_sem _ _ HS w y Hy) as (_ & _ & Hcnt).
  unfold down_section. apply wp_bind. rewrite (wp_det _ _ _ _ _ (get_sem_eq w y s Hy)).
  destruct (sem_count y <? 1) eqn:E; bool_to_prop; apply wp_bind.
  - unfold krlwlst_wait. rewrite (wp_det _ _ _ _ _ (krlsched_wait_eq s P c p w x L y HS Hc HP Hx HL Hy)).
    apply wp_ret. exists (<[c := PWait w]> P). split_and!; [by apply sleep_queues|by apply no_idle_sleep|done|done| |done].
    eexists. apply lookup_insert_eq.
  - rewrite (wp_det _ _ _ _ _ (upd_sem_put w _ y s Hy)). apply wp_ret. exists P.
    split_and!; [apply put_count_queues; [done|done|lia]| |done|done|eauto|done].
    intros w' z Hz Hp. simpl in Hz. rewrite lookup_insert in Hz. case_decide; [|by apply (Hno w')].
    injection Hz as <-. simpl. by apply (Hno w y).
Qed.

Lemma exit_section_spec s P c : SQueues s P -> no_idle_sem s -> runnable P c -> sda_currtd (schda s) = Some c ->
  sda_currtd (schda s) <> sda_cpuidle (schda s) ->
  wp krlsched_exit s (fun _ s' => exists P', SQueues s' P' /\ no_idle_sem s' /\ sda_currtd (schda s') = Some c /\
    cpu s' = cpu s /\ is_Some (thds s' !! c)).
Proof.
  intros HS Hno Hrun Hc Hne. destruct (not_idle_current s P c HS Hrun Hc Hne) as (p & x & L & HP & Hx & HL).
  rewrite (wp_det _ _ _ _ _ (krlsched_exit_eq s P c p x L HS Hc HP Hx HL)). exists (<[c := PExit]> P).
  split_and!; [by apply leave_queues|by apply (no_idle_same s)|done|done|eexists; apply lookup_insert_eq].
Qed.

Lemma add_section_spec s P c t x : SQueues s P -> no_idle_sem s -> sda_currtd (schda s) = Some c -> is_Some (thds s !! c) ->
  allowed s (KAdd t x) = true ->
  wp (add_new t x) s (fun _ s' => exists P', undisturbed s P c s' P').
Proof.
  intros HS Hno Hc [xc Hxc] Hal. unfold allowed in Hal. rewrite !andb_true_iff, bool_decide_eq_true in Hal.
  destruct Hal as [[[[Hn H1] H2] Hst] Hsz].
  destruct (proj2 (sq_classes _ _ HS (td_priority x)) ltac:(lia)) as [L HL].
  assert (HPt : P !! t = None).
  { destruct (P !! t) as [q|] eqn:E; [|done]. destruct (sq_status _ _ HS t q E) as (y & Hy & _). congruence. }
  assert (Hdom : forall u s', add_new t x s = Ret (u, s') -> is_Some (thds s' !! c)).
  { intros u s' Hr. unfold add_new in Hr. erewrite bind_eq in Hr by reflexivity.
    apply krlschdclass_frames in Hr as [_ ->]. simpl. rewrite lookup_insert. case_decide; [eauto|rewrite Hxc; eauto]. }
  pose proof (add_new_spec s P t (td_priority x) x L HS Hn eq_refl ltac:(lia) HL ltac:(lia)) as Hw.
  apply wp_run in Hw as (u & s' & Hr & HS' & (C1 & C2 & _) & Hs & _). rewrite (wp_det _ _ _ _ _ Hr).
  exists (<[t := PReady (td_priority x)]> P).
  split_and!; [done|by apply (no_idle_same s)|congruence|done|by apply (Hdom u)|].
  intros v [Hv|[p Hv]]; [left|right; exists p]; rewrite lookup_insert_ne; congruence.
Qed.

(** ** Preservation *)

(** A light piece on top, outside the window or without a request in it. *)
Lemma light_phase P P' c k l l' : phase P c (k :: l) -> light k -> (forall t, runnable P t -> runnable P' t) ->
  l' = [] \/ l' = [KSched] /\ in_window l = false -> phase P' c (l' ++ l).
Proof.
  intros Hph Hk Hr Hl'. assert (Hw : in_window (l' ++ l) = in_window l) by (destruct Hl' as [->|[-> _]]; done).
  assert (Hkw : in_window (k :: l) = in_window l) by (by destruct k).
  destruct Hl' as [->|[-> Hnw]]; [|by apply (ph_leaves _ _ _ [] l)].
  destruct Hph as [Hrun Hnw|pre rest E Hf Hnw|pre n rest E Hf Hrun Hnw].
  - apply ph_runs; [by apply Hr|]. congruence.
  - destruct pre as [|k0 pre]; simpl in E; injection E as -> ->; [done|]. apply Forall_cons in Hf as [_ Hf].
    apply (ph_leaves _ _ _ pre rest); [done|done|]. congruence.
  - destruct pre as [|k0 pre]; simpl in E; injection E as -> ->; [done|]. apply Forall_cons in Hf as [_ Hf].
    by apply (ph_window _ _ _ pre n rest); [| |apply Hr|].
Qed.

(** A heavy piece on top is the choice, the switch, or runs in a current thread. *)
Lemma heavy_phase P c k l : phase P c (k :: l) -> ~ light k ->
  (k = KSched /\ in_window l = false) \/ (exists n, k = KSwitch n c /\ runnable P n /\ in_window l = false) \/
  (runnable P c /\ in_window (k :: l) = false).
Proof.
  intros Hph Hk. destruct Hph as [Hrun Hnw|pre rest E Hf Hnw|pre n rest E Hf Hrun Hnw]; [by right; right|..].
  - destruct pre as [|k0 pre]; simpl in E; injection E as -> ->; [by left|]. by apply Forall_cons in Hf as [? _].
  - destruct pre as [|k0 pre]; simpl in E; injection E as -> ->; [right; left; by exists n|]. by apply Forall_cons in Hf as [? _].
Qed.

Lemma winv_same_thread s K P c s' P' l : WInv s K P c -> SQueues s' P' -> no_idle_sem s' ->
  sda_currtd (schda s') = Some c -> cpu s' = cpu s -> is_Some (thds s' !! c) -> phase P' c l ->
  WInv s' (<[c := l]> K) P' c.
Proof.
  intros HW HS Hno Hc Hcpu Htd Hph. split; [done|done|done|rewrite Hcpu; apply HW|done|..].
  - intros t Ht. rewrite stack_insert, decide_False by done. by apply HW.
  - by rewrite stack_insert, decide_True.
Qed.

Lemma winv_run s K P c k l : WInv s K P c -> stack K c = k :: l -> allowed s k = true -> preempts s k l = false ->
  wp (run_kont k) s (fun l' s' => exists P' c', WInv s' (<[c := l' ++ l]> K) P' c').
Proof.
  intros HW Hk Hal Hpre. pose proof (wi_phase _ _ _ _ HW) as Hph. rewrite Hk in Hph.
  pose proof (wi_queues _ _ _ _ HW) as HS. pose proof (wi_sems _ _ _ _ HW) as Hno.
  pose proof (wi_curr _ _ _ _ HW) as Hc. pose proof (wi_td _ _ _ _ HW) as Htd.
  assert (Hdec : light k \/ ~ light k) by (destruct k; simpl; tauto). destruct Hdec as [Hl|Hl].
  { eapply wp_mono; [by apply (light_spec s P c k)|]. intros l' s' (P' & (H1 & H2 & H3 & H4 & H5 & H6) & Hl'). exists P', c.
    apply (winv_same_thread s K P c); try done. apply (light_phase P P' c k); [done|done|done|].
    destruct Hl' as [->|(-> & -> & Hf)]; [by left|right]. split; [done|]. simpl in Hpre. rewrite Hf in Hpre.
    by rewrite andb_true_r in Hpre. }
  destruct (heavy_phase P c k l Hph Hl) as [[-> Hnw]|[(n & -> & Hrun & Hnw)|[Hrun Hnw]]].
  - cbn [run_kont]. apply wp_bind. eapply wp_mono; [by apply (sched_section_spec s P c)|].
    intros r s' (n & P' & -> & HS' & Hn & Ht & Hs & (C1 & C2 & _)). apply wp_ret. exists P', c.
    apply (winv_same_thread s K P c); try done; [by apply (no_idle_same s)|congruence|by rewrite Ht|].
    by apply (ph_window _ _ _ [] n l).
  - cbn [run_kont]. apply wp_bind.
    eapply wp_mono; [apply (switch_spec s P n c HS Htd); destruct Hrun as [-> |[p ->]]; eauto|].
    intros ? s' (HS' & (O1 & O2 & x & Hx & _) & Hs & _). apply wp_ret. exists P, n.
    assert (Hall : forall t, in_window (stack (<[c := l]> K) t) = false).
    { intros t. rewrite stack_insert. case_decide; [done|by apply HW]. }
    split; [done|by apply (no_idle_same s)|done|done|eauto|done|]. by apply ph_runs.
  - destruct k as [|w| | | |n p|w| |t x]; try done; cbn [run_kont]; apply wp_bind.
    + eapply wp_mono; [by apply (sched_section_spec s P c)|].
      intros r s' (n & P' & -> & HS' & Hn & Ht & Hs & (C1 & C2 & _)). apply wp_ret. exists P', c.
      apply (winv_same_thread s K P c); try done; [by apply (no_idle_same s)|congruence|by rewrite Ht|].
      by apply (ph_window _ _ _ [] n l).
    + simpl in Hal. apply andb_true_iff in Hal as [[y Hy]%bool_decide_eq_true Hne%negb_true_iff%bool_decide_eq_false].
      eapply wp_mono; [by apply (down_section_spec s P c w y)|]. intros b s' (P' & H1 & H2 & H3 & H4 & H5 & H6).
      apply wp_ret. exists P', c. apply (winv_same_thread s K P c); try done.
      destruct b; [apply ph_runs; [by apply H6|done]|by apply (ph_leaves _ _ _ [] (KDown w :: l))].
    + simpl in Hal. apply negb_true_iff, bool_decide_eq_false in Hal.
      eapply wp_mono; [by apply (exit_section_spec s P c)|]. intros ? s' (P' & H1 & H2 & H3 & H4 & H5).
      apply wp_ret. exists P', c. apply (winv_same_thread s K P c); try done. by apply (ph_leaves _ _ _ [] l).
    + eapply wp_mono; [by apply (add_section_spec s P c t x)|]. intros ? s' (P' & H1 & H2 & H3 & H4 & H5 & H6).
      apply wp_ret. exists P', c. apply (winv_same_thread s K P c); try done. apply ph_runs; [by apply H6|done].
Qed.

Lemma push_phase P c pre l : Forall light pre -> phase P c l -> phase P c (pre ++ l).
Proof.
  intros Hf Hph. pose proof (light_no_window pre Hf) as Hw. assert (E : in_window (pre ++ l) = in_window l) by (by rewrite in_window_app, Hw).
  destruct Hph as [Hrun Hnw|pre' rest -> Hf' Hnw|pre' n rest -> Hf' Hrun Hnw].
  - apply ph_runs; [done|congruence].
  - apply (ph_leaves _ _ _ (pre ++ pre') rest); [by rewrite app_assoc|by apply Forall_app|congruence].
  - apply (ph_window _ _ _ (pre ++ pre') n rest); [by rewrite app_assoc|by apply Forall_app|done|done].
Qed.

Lemma winv_move s K P c m : WInv s K P c -> can m (s, K) = true -> quiet m (s, K) = true ->
  wp (fmove m) (s, K) (fun _ k' => exists P' c', WInv k'.1 k'.2 P' c').
Proof.
  intros HW Hcan Hq. pose proof (wi_curr _ _ _ _ HW) as Hc. pose proof (wi_phase _ _ _ _ HW) as Hph.
  unfold can, quiet in *. simpl in Hcan, Hq. rewrite Hc in Hcan, Hq. unfold wp, fmove. rewrite Hc.
  assert (Hpush : forall l, phase P c l -> WInv s (<[c := l]> K) P c).
  { intros l Hl. apply (winv_same_thread s K P c); try done; apply HW. }
  destruct m as [a| |w|].
  - destruct (stack K c) as [|k l] eqn:E; [|by destruct a]. exists P, c. apply Hpush. apply ph_runs; [|by destruct a].
    inversion Hph as [|pre rest E'|pre n rest E']; [done|by destruct pre..].
  - exists P, c. apply Hpush, push_phase; [|done]. by repeat constructor.
  - exists P, c. apply Hpush, push_phase; [|done]. by repeat constructor.
  - destruct (stack K c) as [|k l] eqn:E; [done|].
    pose proof (winv_run s K P c k l HW E Hcan ltac:(by apply negb_true_iff)) as H. unfold wp in H.
    by destruct (run_kont k s) as [[l' s']| | |].
Qed.

Lemma winv_run_all s0 tr k : SInv s0 -> frun true s0 tr k -> exists P c, WInv k.1 k.2 P c.
Proof.
  intros H0. induction 1 as [|tr [s K] m k' _ IH Hcan Hq Hm].
  - destruct H0 as (P & c & HS & (H1 & H2 & H3) & Hno). exists P, c. destruct (running_cases s0 P c HS (conj H1 (conj H2 H3))) as [Htd _].
    split; try done. by apply ph_runs.
  - destruct IH as (P & c & HW). pose proof (winv_move s K P c m HW Hcan (Hq eq_refl)) as Hw. by rewrite (wp_det _ _ _ _ _ Hm) in Hw.
Qed.

(** ** A preemption between choice and switch *)

(** Executes moves the kernel makes; a move it cannot make is a fault. *)
Fixpoint frun_list (q : bool) (ms : list move) : M fconf unit :=
  match ms with
  | [] => mret tt
  | m :: ms' => k ← gets id; if can m k && implb q (quiet m k) then fmove m ;; frun_list q ms' else fault
  end.

Lemma frun_list_app q s0 tr k ms k' : frun q s0 tr k -> frun_list q ms k = Ret (tt, k') -> frun q s0 (tr ++ ms) k'.
Proof.
  intros Hr. revert tr k Hr. induction ms as [|m ms IH]; intros tr k Hr H; simpl in H.
  { injection H as <-. by rewrite app_nil_r. }
  unfold gets, id, mbind, M_bind in H. destruct (can m k) eqn:Hc; [|done]. destruct (implb q (quiet m k)) eqn:Hq; [|done].
  simpl in H. destruct (fmove m k) as [[[] k1]| | |] eqn:Hm; try done.
  replace (tr ++ m :: ms) with ((tr ++ [m]) ++ ms) by (by rewrite <- app_assoc).
  apply (IH _ k1); [|done]. apply (frun_move _ _ tr k m k1); [done|done|by intros ->|done].
Qed.

Lemma frun_list_run q s0 ms k : frun_list q ms (s0, ∅) = Ret (tt, k) -> frun q s0 ms k.
Proof. apply (frun_list_app q s0 [] (s0, ∅) ms k), frun_nil. Qed.

(** An idle thread 1000 on the processor, three threads of one class, an event
    (semaphore 7) and a device (semaphore 8). *)
Definition window_sys0 : sys :=
  Sys schdata_t_init 0 ∅ (<[8 := Sem 0 0 kwlst_t_init]> {[7 := Sem 0 0 kwlst_t_init]}) ∅ None 0 0.
Definition window_sys : sys :=
  final (perform (AAdd 4000 (demo_td 4000))) (final (perform (AAdd 3000 (demo_td 3000))) (final (perform (AAdd 2000 (demo_td 2000)))
    (final (start 0x10000 1000 5 0x99) window_sys0))).



Definition window_conf (q : bool) (ms : list move) : fconf :=
  match frun_list q ms (window_sys, ∅) with Ret (_, k) => k | _ => (window_sys, ∅) end.

Lemma window_sys0_fresh w y : sems window_sys0 !! w = Some y -> fresh_sem y.
Proof. simpl. rewrite lookup_insert, lookup_singleton. repeat case_decide; intros ?; simplify_eq; (split; [done|simpl; lia]). Qed.

Lemma window_sys_inv : SInv window_sys.
Proof.
  unfold window_sys. do 3 (apply perform_inv; [|split_and!; vm_compute; (reflexivity || congruence)]).
  destruct (wp_final_sys _ _ _ (start_spec window_sys0 0x10000 1000 5 0x99 eq_refl window_sys0_fresh)) as (_ & _ & H & _). exact H.
Qed.

(** ** Theorems *)

(** C4: safety of the scheduler under interrupts: take any run in which the
    running thread starts operations (taking or raising a semaphore, yielding,
    exiting, a new thread) and clock and device interrupts arrive, nested to any
    depth, between any two critical sections, also between the choice of the
    next thread and the switch to it; the one restriction is that an interrupt
    that arrives between choice and switch finds no pending request to
    reschedule ([quiet]).  Then at every moment every thread is in exactly one
    place with the matching status and all counters are right, nobody sleeps on
    an available semaphore, the processor runs the thread the scheduler says,
    and this thread is the current one of its class whenever it is between
    operations; and every next move completes without a halt, a fault or a
    tangled list. *)
Theorem sched_run_safe s0 tr s K m :
  SInv s0 -> frun true s0 tr (s, K) -> can m (s, K) = true -> quiet m (s, K) = true ->
  (exists P, SQueues s P) /\ no_idle_sem s /\ is_Some (cpu s) /\ sda_currtd (schda s) = cpu s /\
  (forall c, cpu s = Some c -> stack K c = [] -> SInv s) /\
  exists k', fmove m (s, K) = Ret (tt, k') /\ frun true s0 (tr ++ [m]) k'.
Proof.
  intros H0 Hr Hcan Hq. destruct (winv_run_all s0 tr (s, K) H0 Hr) as (P & c & HW). simpl in HW.
  pose proof (wi_curr _ _ _ _ HW) as Hc. pose proof (wi_cpu _ _ _ _ HW) as Hcpu.
  split; [exists P; apply HW|]. split; [apply HW|]. split; [eauto|]. split; [congruence|]. split.
  - intros c' Hc' Hst. assert (c' = c) as -> by congruence. exists P, c. split; [apply HW|]. split; [|apply HW].
    split; [done|]. split; [done|]. pose proof (wi_phase _ _ _ _ HW) as Hph. rewrite Hst in Hph.
    inversion Hph as [|pre rest E|pre n rest E]; [done|by destruct pre..].
  - pose proof (winv_move s K P c m HW Hcan Hq) as Hw. apply wp_run in Hw as ([] & k' & Hm & _). exists k'.
    split; [exact Hm|]. by apply (frun_move _ _ _ (s, K)).
Qed.

(** The clock arrives between choice and switch. *)
Definition quiet_script : list move := [MStart AYield; MRun; MClock; MRun].

Lemma sched_run_safe_witness : exists k', fmove MRun (window_conf true quiet_script) = Ret (tt, k') /\
  in_window (stack (window_conf true quiet_script).2 1000) = true.
Proof.
  destruct (sched_run_safe window_sys quiet_script (window_conf true quiet_script).1 (window_conf true quiet_script).2 MRun)
    as (_ & _ & _ & _ & _ & k' & Hm & _);
    [exact window_sys_inv|apply frun_list_run; vm_compute; reflexivity|vm_compute; reflexivity|vm_compute; reflexivity|].
  exists k'. split; [rewrite <- Hm; vm_compute; reflexivity|vm_compute; reflexivity].
Defined.

