(* ===== verification/ObjIf.v ===== *)
(** * The object allocator as a service

    What address spaces use of the kernel's allocator of small objects
    ([kmsob_new], [kmsob_delete] of kmsob.c).  The allocator takes its memory from
    the page allocator, so the two share a state; holding objects must not
    interfere with holding pages.  KmsobSpec.v shows that the allocator of
    Kmsob.v meets the interface. *)

From S2P Require Import Prelude Boot PageIf.

Class ObjOps (S : Type) := {
  (** [kmsob_new(msz)]; [NULL] is 0 *)
  ob_new : Z -> M S Z;
  (** [kmsob_delete(fadrs, fsz)] *)
  ob_delete : Z -> Z -> M S bool
}.

(** The objects held: address and size asked for. *)
Abbreviation objects := (gmap Z Z).

(** For every set of objects held the page allocator keeps its promises; a new
    object is at a fresh address that is not [NULL]; an object held can be given
    back; the objects are at most a sixteenth of the 16 GiB of the linear map; they
    overlap neither each other nor the blocks of pages that clients hold. *)
Class ObjAlloc (S : Type) `{PageOps S} `{ObjOps S} := {
  ob_pages : objects -> PageAlloc S;
  ob_new_spec s P A J sz : @pg_held S _ (ob_pages J) s P A -> 0 < sz <= 2048 ->
    wp (ob_new sz) s (fun r s' =>
      (0 < r < u64max /\ J !! r = None /\ @pg_held S _ (ob_pages (<[r := sz]> J)) s' P A) \/ (r = 0 /\ s' = s));
  ob_delete_spec s P A J p sz : @pg_held S _ (ob_pages J) s P A -> J !! p = Some sz ->
    wp (ob_delete p sz) s (fun r s' => r = true /\ @pg_held S _ (ob_pages (delete p J)) s' P A);
  ob_few s P A J : @pg_held S _ (ob_pages J) s P A -> Z.of_nat (size J) < 2 ^ 30;
  ob_range s P A J p sz : @pg_held S _ (ob_pages J) s P A -> J !! p = Some sz -> KRNL_MAP_VIRTADDRESS_START <= p /\ p + sz < u64max;
  ob_apart s P A J p q sz sz' : @pg_held S _ (ob_pages J) s P A -> J !! p = Some sz -> J !! q = Some sz' -> p <> q ->
    p + sz <= q \/ q + sz' <= p;
  ob_pages_apart s P A J p sz d b : @pg_held S _ (ob_pages J) s P A -> J !! p = Some sz -> A !! d = Some b ->
    p + sz <= b.1 + KRNL_MAP_VIRTADDRESS_START \/ b.1 + KRNL_MAP_VIRTADDRESS_START + 4096 * b.2 <= p
}.
