(* ===== verification/Kmsob.v ===== *)
(** * The object allocator

    src/hal/x86/kmsob.c and include/halinc/kmsob_t.h: small objects, in 64 classes
    of 32, 64, ... 2048 bytes.  A class holds pools ([kmsob_t]); a pool is a block
    of pages cut into objects behind the pool's own header, with more blocks
    ([kmbext_t]) added when it is exhausted; a pool whose objects are all free
    gives its blocks back.

    The state adds to the page allocator's the manager, the pools and the
    extensions by virtual address.  A pointer is its address and [NULL] is 0; a
    class is its index.  The header of a free object ([freobjh_t]) lies in the
    object itself, so a free list is the sequence of the objects' addresses. *)

From S2P Require Import Prelude PhyMem DivMer Boot PageIf.

(** ** Constants *)

Definition MSCLST_MAX : Z := 5.
Definition KOBLST_MAX : Z := 64.

(** From the layout of the structures. *)
Definition sizeof_kmsob_t : Z := 368.
Definition sizeof_kmbext_t : Z := 48.
Definition sizeof_freobjh_t : Z := 32.

(** ** Data *)

Record msclst_t := Msclst { ml_msanr : Z; ml_ompnr : Z; ml_list : list Z }.
Record msomdc_t := Msomdc { mc_lst : gmap Z msclst_t; mc_kmobinlst : list Z; mc_kmobinpnr : Z }.
Record kmsob_t := Kmsob {
  so_vstat : Z;
  so_vend : Z;
  so_objsz : Z;
  so_mobjnr : Z;
  so_fobjnr : Z;
  so_frelst : list Z;
  so_mextlst : list Z;
  so_mextnr : Z;
  so_mc : msomdc_t
}.
Record kmbext_t := Kmbext { mt_vstat : Z; mt_vend : Z; mt_kmsb : Z; mt_mobjnr : Z }.
Record koblst_t := Koblst { ol_emplst : list Z; ol_cahe : Z; ol_emnr : Z; ol_sz : Z }.
Record kmsobmgrhed_t := Kmsobmgrhed { ks_msobnr : Z; ks_msobche : Z; ks_msoblst : gmap Z koblst_t }.

Definition msclst_t_init (pnr : Z) : msclst_t := Msclst 0 pnr [].
Definition msomdc_t_init : msomdc_t := Msomdc (tabulate (fun i => msclst_t_init (1 <<u i)) MSCLST_MAX) [] 0.
Definition kmsob_t_init : kmsob_t := Kmsob 0 0 0 0 0 [] [] 0 msomdc_t_init.
Definition kmbext_t_init (vstat vend kmsp : Z) : kmbext_t := Kmbext vstat vend kmsp 0.
Definition koblst_t_init (koblsz : Z) : koblst_t := Koblst [] 0 0 koblsz.
Definition kmsobmgrhed_t_init : kmsobmgrhed_t := Kmsobmgrhed 0 0 (tabulate (fun i => koblst_t_init (32 + 32 * i)) KOBLST_MAX).

Definition set_free (n : Z) (l : list Z) (m : kmsob_t) : kmsob_t :=
  Kmsob (so_vstat m) (so_vend m) (so_objsz m) (so_mobjnr m) n l (so_mextlst m) (so_mextnr m) (so_mc m).
Definition set_mobjnr (n : Z) (m : kmsob_t) : kmsob_t :=
  Kmsob (so_vstat m) (so_vend m) (so_objsz m) n (so_fobjnr m) (so_frelst m) (so_mextlst m) (so_mextnr m) (so_mc m).
Definition set_ext (n : Z) (l : list Z) (m : kmsob_t) : kmsob_t :=
  Kmsob (so_vstat m) (so_vend m) (so_objsz m) (so_mobjnr m) (so_fobjnr m) (so_frelst m) l n (so_mc m).
Definition set_mc (c : msomdc_t) (m : kmsob_t) : kmsob_t :=
  Kmsob (so_vstat m) (so_vend m) (so_objsz m) (so_mobjnr m) (so_fobjnr m) (so_frelst m) (so_mextlst m) (so_mextnr m) c.

Record kst (S : Type) := Kst {
  k_pa : S;
  k_mgr : kmsobmgrhed_t;
  k_obs : gmap Z kmsob_t;
  k_exts : gmap Z kmbext_t
}.
Arguments Kst {S} k_pa k_mgr k_obs k_exts.
Arguments k_pa {S} k.
Arguments k_mgr {S} k.
Arguments k_obs {S} k.
Arguments k_exts {S} k.

(** [retn_mscidx] *)
Definition retn_mscidx (pages : Z) : Z :=
  let pbits := search_64rlbits pages - 1 in
  if negb (Z.land pages (pages -u 1) =? 0) then pbits + 1 else pbits.

Section kmsob.
Context {S : Type} `{PageOps S}.
Abbreviation OM A := (M (kst S) A).

(** ** Accesses *)

Definition k_on_pa {A} (m : M S A) : OM A := fun s =>
  match m (k_pa s) with
  | Ret (a, pa) => Ret (a, Kst pa (k_mgr s) (k_obs s) (k_exts s))
  | Halt e => Halt e
  | Fault => Fault
  | NoFuel => NoFuel
  end.

Definition get_ob (p : Z) : OM kmsob_t := fun s => match k_obs s !! p with Some m => Ret (m, s) | None => Fault end.
Definition put_obs (f : gmap Z kmsob_t -> gmap Z kmsob_t) : OM unit := modify (fun s => Kst (k_pa s) (k_mgr s) (f (k_obs s)) (k_exts s)).
Definition upd_ob (p : Z) (f : kmsob_t -> kmsob_t) : OM unit := m ← get_ob p; put_obs <[p := f m]>.
Definition get_ext (p : Z) : OM kmbext_t := fun s => match k_exts s !! p with Some m => Ret (m, s) | None => Fault end.
Definition put_exts (f : gmap Z kmbext_t -> gmap Z kmbext_t) : OM unit := modify (fun s => Kst (k_pa s) (k_mgr s) (k_obs s) (f (k_exts s))).
Definition get_kobl (i : Z) : OM koblst_t := fun s => match ks_msoblst (k_mgr s) !! i with Some c => Ret (c, s) | None => Fault end.
Definition upd_mgrhed (f : kmsobmgrhed_t -> kmsobmgrhed_t) : OM unit := modify (fun s => Kst (k_pa s) (f (k_mgr s)) (k_obs s) (k_exts s)).
Definition upd_kobl (i : Z) (f : koblst_t -> koblst_t) : OM unit :=
  c ← get_kobl i; upd_mgrhed (fun g => Kmsobmgrhed (ks_msobnr g) (ks_msobche g) (<[i := f c]> (ks_msoblst g))).
Definition set_msobche (p : Z) : OM unit := upd_mgrhed (fun g => Kmsobmgrhed (ks_msobnr g) p (ks_msoblst g)).
Definition set_cahe (p : Z) (c : koblst_t) : koblst_t := Koblst (ol_emplst c) p (ol_emnr c) (ol_sz c).

(** ** The cached pool *)

Inductive kuc := KUC_NEWFLG | KUC_DELFLG | KUC_DSYFLG.

Definition kmsob_updata_cache (koblp kmsp : Z) (flgs : kuc) : OM unit :=
  match flgs with
  | KUC_NEWFLG | KUC_DELFLG => set_msobche kmsp ;; upd_kobl koblp (set_cahe kmsp)
  | KUC_DSYFLG =>
      g ← gets k_mgr;
      (if kmsp =? ks_msobche g then set_msobche 0 else mret tt) ;;
      c ← get_kobl koblp;
      if kmsp =? ol_cahe c then upd_kobl koblp (set_cahe 0) else mret tt
  end.

(** ** Scans *)

Definition scan_newkmsob_isok (kmsp msz : Z) : OM Z :=
  if (kmsp =? 0) || (1 >? msz) then mret 0 else
  m ← get_ob kmsp;
  mret (if msz <=? so_objsz m then kmsp else 0).

Definition scan_delkmsob_isok (kmsp fadrs fsz : Z) : OM Z :=
  if (kmsp =? 0) || (fadrs =? 0) || (1 >? fsz) then mret 0 else
  m ← get_ob kmsp;
  if (so_vstat m +u sizeof_kmsob_t <=? fadrs) && (fadrs +u fsz <=? so_vend m) && (fsz <=? so_objsz m) then mret kmsp else
  if 1 >? so_mextnr m then mret 0 else
  r ← find_first (so_mextlst m) (fun bexp =>
        x ← get_ext bexp;
        die_if (negb (mt_kmsb x =? kmsp)) "scan_delkmsob_isok err" ;;
        mret (if (mt_vstat x +u sizeof_kmbext_t <=? fadrs) && (fadrs +u fsz <=? mt_vend x) && (fsz <=? so_objsz m) then Some kmsp else None));
  mret (default 0 r).

Definition scan_nmszkmsob_isok (kmsp msz : Z) : OM bool :=
  if (kmsp =? 0) || (1 >? msz) then mret false else
  m ← get_ob kmsp;
  if (1 >? so_fobjnr m) || (1 >? so_mobjnr m) then mret false else
  if msz >? so_objsz m then mret false else
  if (so_vend m -u so_vstat m +u 1 <? PAGESIZE) || (so_vend m -u so_vstat m +u 1 <? sizeof_kmsob_t + sizeof_freobjh_t) then mret false else
  mret (negb (bool_decide (so_frelst m = []))).

Definition scan_fadrskmsob_isok (fostat vend fadrs objsz : Z) : bool :=
  if fadrs <? fostat then false else
  if (fostat <=? fadrs) && (fadrs +u objsz <=? vend) then (fadrs -u fostat) mod objsz =? 0 else false.

Definition scan_dfszkmsob_isok (kmsp fadrs fsz : Z) : OM bool :=
  if (kmsp =? 0) || (fadrs =? 0) || (1 >? fsz) then mret false else
  m ← get_ob kmsp;
  if ones64 <=? so_fobjnr m then mret false else
  if (so_vstat m <=? fadrs) && (fadrs +u fsz -u 1 <=? so_vend m) then
    mret (scan_fadrskmsob_isok (kmsp +u sizeof_kmsob_t) (so_vend m) fadrs (so_objsz m))
  else if so_mextnr m >? 0 then
    r ← find_first (so_mextlst m) (fun bextp =>
          x ← get_ext bextp;
          mret (if (mt_vstat x <=? fadrs) && (fadrs +u fsz -u 1 <=? mt_vend x)
                then Some (scan_fadrskmsob_isok (bextp +u sizeof_kmbext_t) (mt_vend x) fadrs (so_objsz m)) else None));
    mret (default false r)
  else mret false.

Definition scan_kmsob_objnr (kmsp : Z) : OM Z :=
  die_if (kmsp =? 0) "scan_kmsob_objnr err1" ;;
  m ← get_ob kmsp;
  die_if ((1 >? so_fobjnr m) && negb (bool_decide (so_frelst m = []))) "scan_kmsob_objnr err2" ;;
  mret (if 0 <? so_fobjnr m then so_fobjnr m else 0).

Definition nonnull (p : Z) : option Z := if p =? 0 then None else Some p.

(** The cached pool of the class if it fits, else the first pool that does. *)
Definition onkoblst_retn_newkmsob (koblp msz : Z) : OM Z :=
  if 1 >? msz then mret 0 else
  c ← get_kobl koblp;
  kmsp ← scan_newkmsob_isok (ol_cahe c) msz;
  if negb (kmsp =? 0) then mret kmsp else
  if 0 <? ol_emnr c then
    r ← find_first (ol_emplst c) (fun tkmsp => p ← scan_newkmsob_isok tkmsp msz; mret (nonnull p)); mret (default 0 r)
  else mret 0.

Definition onkoblst_retn_delkmsob (koblp fadrs fsz : Z) : OM Z :=
  if (fadrs =? 0) || (1 >? fsz) then mret 0 else
  c ← get_kobl koblp;
  kmsp ← scan_delkmsob_isok (ol_cahe c) fadrs fsz;
  if negb (kmsp =? 0) then mret kmsp else
  if 0 <? ol_emnr c then
    r ← find_first (ol_emplst c) (fun tkmsp => p ← scan_delkmsob_isok tkmsp fadrs fsz; mret (nonnull p)); mret (default 0 r)
  else mret 0.

Definition onmsz_retn_koblst (msz : Z) : OM (option Z) :=
  if 1 >? msz then mret None else
  find_first (seqZ 0 KOBLST_MAX) (fun kli => c ← get_kobl kli; mret (if msz <=? ol_sz c then Some kli else None)).

(** ** Pools *)

Definition kmsob_add_koblst (koblp kmsp : Z) : OM bool :=
  if kmsp =? 0 then mret false else
  m ← get_ob kmsp;
  c ← get_kobl koblp;
  if so_objsz m >? ol_sz c then mret false else
  upd_kobl koblp (fun c => Koblst (kmsp :: ol_emplst c) (ol_cahe c) (ol_emnr c +u 1) (ol_sz c)) ;;
  mret true.

(** [freobjh_t_init(...); list_add(...); so_mobjnr++; so_fobjnr++;] *)
Definition link_obj (kmsp tmpfoh : Z) : OM unit :=
  upd_ob kmsp (fun m => set_mobjnr (so_mobjnr m +u 1) (set_free (so_fobjnr m +u 1) (tmpfoh :: so_frelst m) m)).

(** The loop that cuts a block into objects, from [ap] up to [vend]; [linked] is
    what the loop does besides for an object of an extension. *)
Fixpoint cut_loop (fuel : nat) (kmsp vend ap : Z) (linked : OM unit) : OM unit :=
  if ap <? vend then
    match fuel with
    | O => nofuel
    | Datatypes.S fuel' =>
        m ← get_ob kmsp;
        (if ap +u so_objsz m <=? vend then link_obj kmsp ap ;; linked else mret tt) ;;
        cut_loop fuel' kmsp vend (ap +u so_objsz m) linked
    end
  else mret tt.

(** Enough rounds for objects of 32 bytes or more. *)
Definition cut_fuel (vstat vend : Z) : nat := Z.to_nat ((vend - vstat) / 32 + 1).

Definition _create_init_kmsob (kmsp objsz cvadrs cvadre msa relpnr : Z) : OM Z :=
  if (kmsp =? 0) || (1 >? objsz) || (cvadrs =? 0) || (cvadre =? 0) || (1 >? relpnr) then mret 0 else
  if objsz <? sizeof_freobjh_t then mret 0 else
  if cvadre -u cvadrs +u 1 <? PAGESIZE then mret 0 else
  if cvadre -u cvadrs +u 1 <=? sizeof_kmsob_t + sizeof_freobjh_t then mret 0 else
  put_obs <[kmsp := Kmsob cvadrs cvadre objsz 0 0 [] [] 0 (Msomdc (mc_lst msomdc_t_init) [msa] relpnr)]> ;;
  cut_loop (cut_fuel cvadrs cvadre) kmsp cvadre (kmsp +u sizeof_kmsob_t) (mret tt) ;;
  mret kmsp.

(** The pages of a block for objects of a size, and its first and last address. *)
Definition block_pages (objsz : Z) : Z := if 512 <? objsz then 4 else if 128 <? objsz then 2 else 1.

Definition block_range (msa relpnr : Z) : OM (Z * Z) :=
  phyadr ← k_on_pa (pg_addr msa);
  let phyade := phyadr +u (relpnr <<u 12) -u 1 in
  vadrs ← phyadr_to_viradr phyadr;
  vadre ← phyadr_to_viradr phyade;
  mret (vadrs, vadre).

Definition _create_kmsob (koblp objsz : Z) : OM Z :=
  if 1 >? objsz then mret 0 else
  '(r, relpnr) ← k_on_pa (pg_division (block_pages objsz));
  match r with
  | None => mret 0
  | Some msa =>
      die_if (relpnr =? 0) "_create_kmsob mm_division_pages fail" ;;
      '(vadrs, vadre) ← block_range msa relpnr;
      c ← get_kobl koblp;
      kmsp ← _create_init_kmsob vadrs (ol_sz c) vadrs vadre msa relpnr;
      if kmsp =? 0 then
        ok ← k_on_pa (pg_merge msa relpnr);
        die_if (negb ok) "_create_kmsob mm_merge_pages fail" ;;
        mret 0
      else
      ok ← kmsob_add_koblst koblp kmsp;
      die_if (negb ok) " _create_kmsob kmsob_add_koblst FALSE" ;;
      upd_mgrhed (fun g => Kmsobmgrhed (ks_msobnr g +u 1) (ks_msobche g) (ks_msoblst g)) ;;
      mret kmsp
  end.

Definition kmsob_new_opkmsob (kmsp msz : Z) : OM Z :=
  if (kmsp =? 0) || (1 >? msz) then mret 0 else
  ok ← scan_nmszkmsob_isok kmsp msz;
  if negb ok then mret 0 else
  m ← get_ob kmsp;
  match so_frelst m with
  | [] => fault
  | fobh :: _ =>
      upd_ob kmsp (fun m => set_free (so_fobjnr m -u 1) (filter (fun j => j <> fobh) (so_frelst m)) m) ;;
      mret fobh
  end.

Definition file_msa (i msa : Z) (c : msomdc_t) : msomdc_t :=
  Msomdc (alter (fun l => Msclst (ml_msanr l +u 1) (ml_ompnr l) (msa :: ml_list l)) i (mc_lst c)) (mc_kmobinlst c) (mc_kmobinpnr c).

Definition kmsob_extn_pages (kmsp : Z) : OM bool :=
  if kmsp =? 0 then mret false else
  m ← get_ob kmsp;
  if (ones64 <=? so_mobjnr m) || (ones64 <=? so_mextnr m) || (ones64 <=? so_fobjnr m) then mret false else
  '(r, relpnr) ← k_on_pa (pg_division (block_pages (so_objsz m)));
  match r with
  | None => mret false
  | Some msa =>
      die_if (relpnr =? 0) "kmsob_extn_pages mm_division_pages fail" ;;
      '(vadrs, vadre) ← block_range msa relpnr;
      let mscidx := retn_mscidx relpnr in
      if (MSCLST_MAX <=? mscidx) || (0 >? mscidx) then
        ok ← k_on_pa (pg_merge msa relpnr);
        die_if (negb ok) "kmsob_extn_pages mm_merge_pages fail" ;;
        mret false
      else
      upd_ob kmsp (fun m => set_mc (file_msa mscidx msa (so_mc m)) m) ;;
      put_exts <[vadrs := kmbext_t_init vadrs vadre kmsp]> ;;
      cut_loop (cut_fuel vadrs vadre) kmsp vadre (vadrs +u sizeof_kmbext_t)
        (x ← get_ext vadrs; put_exts <[vadrs := Kmbext (mt_vstat x) (mt_vend x) (mt_kmsb x) (mt_mobjnr x +u 1)]>) ;;
      upd_ob kmsp (fun m => set_ext (so_mextnr m +u 1) (vadrs :: so_mextlst m) m) ;;
      mret true
  end.

Definition kmsob_new_onkmsob (kmsp msz : Z) : OM Z :=
  if (kmsp =? 0) || (1 >? msz) then mret 0 else
  n ← scan_kmsob_objnr kmsp;
  ok ← (if n <? 1 then kmsob_extn_pages kmsp else mret true);
  if negb ok then mret 0 else kmsob_new_opkmsob kmsp msz.

Definition kmsob_new_core (msz : Z) : OM Z :=
  koblp ← onmsz_retn_koblst msz;
  match koblp with
  | None => mret 0
  | Some koblp =>
      kmsp ← onkoblst_retn_newkmsob koblp msz;
      kmsp ← (if kmsp =? 0 then c ← get_kobl koblp; _create_kmsob koblp (ol_sz c) else mret kmsp);
      if kmsp =? 0 then mret 0 else
      retptr ← kmsob_new_onkmsob kmsp msz;
      if retptr =? 0 then mret 0 else
      kmsob_updata_cache koblp kmsp KUC_NEWFLG ;;
      mret retptr
  end.

Definition kmsob_new (msz : Z) : OM Z := if (1 >? msz) || (2048 <? msz) then mret 0 else kmsob_new_core msz.

(** ** Giving an object back *)

Definition scan_freekmsob_isok (kmsp : Z) : OM Z :=
  if kmsp =? 0 then mret 0 else
  m ← get_ob kmsp;
  mret (if so_mobjnr m <? so_fobjnr m then 0 else if so_mobjnr m =? so_fobjnr m then 2 else 1).

(** [list_for_each_head_dell]: every round takes the first block off the list
    [j], or off [mc_kmobinlst] when [j] is [None]. *)
Definition msa_list (j : option Z) (m : kmsob_t) : list Z :=
  match j with Some i => default [] (ml_list <$> mc_lst (so_mc m) !! i) | None => mc_kmobinlst (so_mc m) end.
Definition msa_unlink (j : option Z) (msa : Z) (m : kmsob_t) : kmsob_t :=
  let del := filter (fun x => x <> msa) in
  let c := so_mc m in
  set_mc match j with
         | Some i => Msomdc (alter (fun l => Msclst (ml_msanr l) (ml_ompnr l) (del (ml_list l))) i (mc_lst c)) (mc_kmobinlst c) (mc_kmobinpnr c)
         | None => Msomdc (mc_lst c) (del (mc_kmobinlst c)) (mc_kmobinpnr c)
         end m.

Fixpoint merge_loop (fuel : nat) (kmsp : Z) (j : option Z) (pnr : Z) : OM unit :=
  m ← get_ob kmsp;
  match msa_list j m with
  | [] => mret tt
  | msa :: _ =>
      match fuel with
      | O => nofuel
      | Datatypes.S fuel' =>
          upd_ob kmsp (msa_unlink j msa) ;;
          ok ← k_on_pa (pg_merge msa pnr);
          die_if (negb ok) "_destroy_kmsob_core mm_merge_pages FALSE2" ;;
          merge_loop fuel' kmsp j pnr
      end
  end.

(** The pool and its extensions lie in the blocks given back: they are gone at
    the end.  The test that ends the last loop still reads the pool's header in
    the block given back by its last round. *)
Definition _destroy_kmsob_core (koblp kmsp : Z) : OM bool :=
  if kmsp =? 0 then mret false else
  m ← get_ob kmsp;
  if (1 >? mc_kmobinpnr (so_mc m)) || bool_decide (mc_kmobinlst (so_mc m) = []) then mret false else
  upd_kobl koblp (fun c => Koblst (filter (fun q => q <> kmsp) (ol_emplst c)) (ol_cahe c) (ol_emnr c -u 1) (ol_sz c)) ;;
  upd_mgrhed (fun g => Kmsobmgrhed (ks_msobnr g -u 1) (ks_msobche g) (ks_msoblst g)) ;;
  kmsob_updata_cache koblp kmsp KUC_DSYFLG ;;
  for_each (seqZ 0 MSCLST_MAX) (fun j =>
    m ← get_ob kmsp;
    match mc_lst (so_mc m) !! j with
    | Some l => if 0 <? ml_msanr l then merge_loop (length (ml_list l)) kmsp (Some j) (ml_ompnr l) else mret tt
    | None => fault
    end) ;;
  m ← get_ob kmsp;
  merge_loop (length (mc_kmobinlst (so_mc m))) kmsp None (mc_kmobinpnr (so_mc m)) ;;
  put_exts (fun g => foldr delete g (so_mextlst m)) ;;
  put_obs (delete kmsp) ;;
  mret true.

Definition _destroy_kmsob (koblp kmsp : Z) : OM bool :=
  if kmsp =? 0 then mret false else
  g ← gets k_mgr;
  c ← get_kobl koblp;
  if (1 >? ks_msobnr g) || (1 >? ol_emnr c) then mret false else
  screts ← scan_freekmsob_isok kmsp;
  die_if (screts =? 0) "_destroy_kmsob scan_freekmsob_isok rets 0" ;;
  if screts =? 1 then kmsob_updata_cache koblp kmsp KUC_DELFLG ;; mret true else
  if screts =? 2 then _destroy_kmsob_core koblp kmsp else mret false.

Definition kmsob_del_opkmsob (kmsp fadrs fsz : Z) : OM bool :=
  if (kmsp =? 0) || (fadrs =? 0) || (1 >? fsz) then mret false else
  m ← get_ob kmsp;
  if so_fobjnr m +u 1 >? so_mobjnr m then mret false else
  ok ← scan_dfszkmsob_isok kmsp fadrs fsz;
  if negb ok then mret false else
  upd_ob kmsp (fun m => set_free (so_fobjnr m +u 1) (fadrs :: so_frelst m) m) ;;
  mret true.

Definition kmsob_delete_onkmsob (kmsp fadrs fsz : Z) : OM bool :=
  if (kmsp =? 0) || (fadrs =? 0) || (1 >? fsz) then mret false else kmsob_del_opkmsob kmsp fadrs fsz.

Definition kmsob_delete_core (fadrs fsz : Z) : OM bool :=
  koblp ← onmsz_retn_koblst fsz;
  match koblp with
  | None => mret false
  | Some koblp =>
      kmsp ← onkoblst_retn_delkmsob koblp fadrs fsz;
      if kmsp =? 0 then mret false else
      rets ← kmsob_delete_onkmsob kmsp fadrs fsz;
      if negb rets then mret false else
      ok ← _destroy_kmsob koblp kmsp;
      mret ok
  end.

Definition kmsob_delete (fadrs fsz : Z) : OM bool :=
  if (fadrs =? 0) || (1 >? fsz) || (2048 <? fsz) then mret false else kmsob_delete_core fadrs fsz.
End kmsob.
