(* ===== verification/KmsobInv.v ===== *)
(** * The object allocator: invariant

    Blocks are cut into slots; the regions [Rg] say, by virtual address, which
    pool owns a block, its descriptor and its pages; [J] are the objects handed
    out, by address, with the size asked for. *)

From S2P Require Import Prelude PhyMem DivMer DivMerInv DivMerOps DivMerAlloc Boot BootSpec BootPages PageIf ObjIf Kmsob.

(** ** Slots *)

(** The objects of [sz] bytes from [ap] on that end at [vend] or below. *)
Definition slots (sz ap vend : Z) : list Z := (fun k => ap + sz * k) <$> seqZ 0 ((vend - ap) / sz).

Lemma elem_of_slots sz ap vend a : 0 < sz -> a ∈ slots sz ap vend <-> exists k, 0 <= k /\ a = ap + sz * k /\ a + sz <= vend.
Proof.
  intros Hsz. unfold slots. rewrite list_elem_of_fmap. setoid_rewrite elem_of_seqZ. split.
  - intros (k & -> & Hk). exists k. split_and!; [lia|done|]. pose proof (Z.mul_div_le (vend - ap) sz Hsz). nia.
  - intros (k & Hk & -> & Hv). exists k. split; [done|]. split; [done|].
    assert (k + 1 <= (vend - ap) / sz); [|lia]. apply Z.div_le_lower_bound; [done|]. lia.
Qed.

Lemma NoDup_slots sz ap vend : 0 < sz -> NoDup (slots sz ap vend).
Proof. intros Hsz. apply NoDup_fmap_2_strong; [|apply NoDup_seqZ]. intros x y _ _ E. nia. Qed.

Lemma slots_step sz ap vend : 0 < sz -> ap + sz <= vend -> slots sz ap vend = ap :: slots sz (ap + sz) vend.
Proof.
  intros Hsz Hv. unfold slots. replace (vend - ap) with ((vend - (ap + sz)) + 1 * sz) by lia. rewrite Z.div_add by lia.
  assert (0 <= (vend - (ap + sz)) / sz) by (apply Z.div_pos; lia).
  rewrite seqZ_step by lia. rewrite fmap_cons. replace (ap + sz * 0) with ap by lia. f_equal.
  replace (0 + 1) with (1 + 0) by lia. replace (_ + 1 - 1) with ((vend - (ap + sz)) / sz) by lia.
  rewrite <- (fmap_add_seqZ 1 0 ((vend - (ap + sz)) / sz)). rewrite <- list_fmap_compose. apply list_fmap_ext. intros _ k _. cbn. lia.
Qed.

Lemma slots_nil sz ap vend : 0 < sz -> vend < ap + sz -> slots sz ap vend = [].
Proof.
  intros Hsz Hv. unfold slots. rewrite seqZ_nil; [done|]. assert ((vend - ap) / sz < 1); [|lia]. apply Z.div_lt_upper_bound; lia.
Qed.

(** ** Pools *)

(** A region: the pool that owns it, its descriptor, its pages. *)
Abbreviation regions := (gmap Z (Z * Z * Z)).

Definition hdr (p st : Z) : Z := if decide (st = p) then sizeof_kmsob_t else sizeof_kmbext_t.

Definition slot (Rg : regions) (p sz a : Z) : Prop :=
  exists st d n, Rg !! st = Some (p, d, n) /\ a ∈ slots sz (st + hdr p st) (st + 4096 * n - 1).

(** The class of a size. *)
Definition cls (sz : Z) : Z := (sz - 1) / 32.

Record pool_ok (Rg : regions) (X : gmap Z kmbext_t) (J : objects) (i p : Z) (m : kmsob_t) : Prop := {
  po_vstat : so_vstat m = p;
  po_sz : so_objsz m = 32 + 32 * i;
  po_main : exists d, Rg !! p = Some (p, d, block_pages (so_objsz m)) /\ so_vend m = p + 4096 * block_pages (so_objsz m) - 1 /\
    mc_kmobinlst (so_mc m) = [d] /\ mc_kmobinpnr (so_mc m) = block_pages (so_objsz m);
  po_pages e d n : Rg !! e = Some (p, d, n) -> n = block_pages (so_objsz m);
  po_exts e : e ∈ so_mextlst m <-> e <> p /\ exists d n, Rg !! e = Some (p, d, n);
  po_extnr : NoDup (so_mextlst m) /\ so_mextnr m = Z.of_nat (length (so_mextlst m));
  po_ext e d n : Rg !! e = Some (p, d, n) -> e <> p -> exists k, X !! e = Some (Kmbext e (e + 4096 * n - 1) p k);
  po_mc j : 0 <= j < MSCLST_MAX -> exists l, mc_lst (so_mc m) !! j = Some l /\ ml_ompnr l = 2 ^ j /\ NoDup (ml_list l) /\
    ml_msanr l = Z.of_nat (length (ml_list l)) /\ forall d, d ∈ ml_list l <-> exists e, e <> p /\ Rg !! e = Some (p, d, 2 ^ j);
  po_frelst : NoDup (so_frelst m) /\ so_fobjnr m = Z.of_nat (length (so_frelst m));
  po_free a : a ∈ so_frelst m -> slot Rg p (so_objsz m) a;
  po_slots : exists L, NoDup L /\ so_mobjnr m = Z.of_nat (length L) /\ forall a, a ∈ L <-> slot Rg p (so_objsz m) a;
  po_used a : slot Rg p (so_objsz m) a -> a ∉ so_frelst m -> is_Some (J !! a)
}.

(** A pool depends only on its own regions, extensions and objects. *)
Lemma pool_frame Rg X J Rg' X' J' i p m : pool_ok Rg X J i p m ->
  (forall st d n, Rg' !! st = Some (p, d, n) <-> Rg !! st = Some (p, d, n)) ->
  (forall st d n, Rg !! st = Some (p, d, n) -> X' !! st = X !! st) ->
  (forall a, slot Rg p (so_objsz m) a -> is_Some (J !! a) -> is_Some (J' !! a)) -> pool_ok Rg' X' J' i p m.
Proof.
  intros HP HR HX HJ. assert (Hs : forall a, slot Rg' p (so_objsz m) a <-> slot Rg p (so_objsz m) a).
  { intros a. unfold slot. by setoid_rewrite HR. }
  destruct HP as [P1 P2 P3 P4 P5 P6 P7 P8 P9 P10 P11 P12]. split; auto.
  - destruct P3 as (d & ? & ?). exists d. by rewrite HR.
  - intros e d n. rewrite HR. apply P4.
  - intros e. rewrite P5. by setoid_rewrite HR.
  - intros e d n. rewrite HR. intros He Hne. rewrite (HX _ _ _ He). by apply (P7 _ d).
  - intros j Hj. destruct (P8 j Hj) as (l & ? & ? & ? & ? & Hl). exists l. split_and!; try done. intros d. rewrite Hl. by setoid_rewrite HR.
  - intros a Ha. by apply Hs, P10.
  - destruct P11 as (L & ? & ? & HL). exists L. split_and!; [done..|]. intros a. by rewrite Hs.
  - intros a Ha%Hs Hn. apply HJ; [done|]. by apply P12.
Qed.

(** ** The invariant *)

Section inv.
Context {S : Type}.
Implicit Types (s : kst S) (B : blocks) (J : objects) (Rg : regions).

Record KInv s B J Rg : Prop := {
  ki_blk d b : B !! d = Some b <-> exists st p n, Rg !! st = Some (p, d, n) /\ b = (st - base, n);
  ki_reg st p d n : Rg !! st = Some (p, d, n) -> (st - base) mod 4096 = 0 /\ 0x2000000 <= st - base /\ 0 < n /\ st - base + 4096 * n <= 2 ^ 34;
  ki_own st p d n : Rg !! st = Some (p, d, n) -> is_Some (k_obs s !! p);
  ki_apart st st' p p' d d' n n' : Rg !! st = Some (p, d, n) -> Rg !! st' = Some (p', d', n') -> st <> st' -> st + 4096 * n <= st' \/ st' + 4096 * n' <= st;
  ki_dom i : is_Some (ks_msoblst (k_mgr s) !! i) <-> 0 <= i < KOBLST_MAX;
  ki_cls i c : ks_msoblst (k_mgr s) !! i = Some c -> ol_sz c = 32 + 32 * i /\ NoDup (ol_emplst c) /\
    ol_emnr c = Z.of_nat (length (ol_emplst c)) /\ (ol_cahe c = 0 \/ ol_cahe c ∈ ol_emplst c);
  ki_pool i c p : ks_msoblst (k_mgr s) !! i = Some c -> p ∈ ol_emplst c -> exists m, k_obs s !! p = Some m /\ pool_ok Rg (k_exts s) J i p m;
  ki_obs p m : k_obs s !! p = Some m -> exists i c, ks_msoblst (k_mgr s) !! i = Some c /\ p ∈ ol_emplst c;
  ki_nr : ks_msobnr (k_mgr s) = Z.of_nat (size (k_obs s));
  ki_obj a sz : J !! a = Some sz -> 0 < sz <= 2048 /\
    exists p m, k_obs s !! p = Some m /\ slot Rg p (so_objsz m) a /\ a ∉ so_frelst m /\ so_objsz m = 32 + 32 * cls sz
}.

(** Every pool has an object handed out. *)
Definition busy s : Prop := forall p m, k_obs s !! p = Some m -> so_fobjnr m < so_mobjnr m.

(** ** Facts *)

Lemma base_val : base = 0xffff800000000000.
Proof. reflexivity. Qed.

(** Addresses of the linear map are few. *)
Lemma few (l : list Z) : NoDup l -> (forall a, a ∈ l -> base <= a < base + 2 ^ 34) -> Z.of_nat (length l) <= 2 ^ 34.
Proof.
  intros Hnd Hl. assert (H : (length l <= length (seqZ base (2 ^ 34)))%nat).
  { apply submseteq_length, NoDup_submseteq; [done|]. intros a Ha. apply elem_of_seqZ. by apply Hl. }
  rewrite length_seqZ in H. lia.
Qed.

Section facts.
Context {s B J Rg} (HI : KInv s B J Rg).

Lemma pool_at p m : k_obs s !! p = Some m -> exists i c, 0 <= i < 64 /\ ks_msoblst (k_mgr s) !! i = Some c /\ p ∈ ol_emplst c /\ pool_ok Rg (k_exts s) J i p m.
Proof using HI.
  intros Hp. destruct (ki_obs _ _ _ _ HI _ _ Hp) as (i & c & Hc & Hin). exists i, c.
  destruct (ki_pool _ _ _ _ HI _ _ _ Hc Hin) as (m' & Hm & HP). simplify_eq. split_and!; [apply (ki_dom _ _ _ _ HI); eauto..|done|done|done].
Qed.

Lemma slot_range p sz a : 0 < sz -> slot Rg p sz a -> exists st d n, Rg !! st = Some (p, d, n) /\ st + hdr p st <= a /\ a + sz <= st + 4096 * n - 1 /\
  (a - (st + hdr p st)) mod sz = 0.
Proof using HI.
  intros Hsz (st & d & n & Hr & (k & Hk & -> & Hv)%elem_of_slots); [|done]. exists st, d, n. split_and!; [done|nia|done|].
  replace (st + hdr p st + sz * k - (st + hdr p st)) with (k * sz) by lia. by apply Z.mod_mul; lia.
Qed.

Lemma slot_addr p sz a : 0 < sz -> slot Rg p sz a -> base + 0x2000000 <= a < base + 2 ^ 34.
Proof using HI.
  intros Hsz (st & d & n & Hr & H1 & H2 & _)%slot_range; [|done]. pose proof (ki_reg _ _ _ _ HI _ _ _ _ Hr).
  unfold hdr, sizeof_kmsob_t, sizeof_kmbext_t in H1. case_decide; lia.
Qed.

(** An address in two regions: the region is the same. *)
Lemma region_fun st st' p p' d d' n n' a : Rg !! st = Some (p, d, n) -> Rg !! st' = Some (p', d', n') ->
  st <= a < st + 4096 * n -> st' <= a < st' + 4096 * n' -> st = st'.
Proof using HI.
  intros H1 H2 Ha Ha'. destruct (decide (st = st')) as [|Hne]; [done|]. pose proof (ki_apart _ _ _ _ HI _ _ _ _ _ _ _ _ H1 H2 Hne). lia.
Qed.

Lemma hdr_pos p st : 0 < hdr p st.
Proof. unfold hdr, sizeof_kmsob_t, sizeof_kmbext_t. case_decide; lia. Qed.

Lemma slot_fun p q sz sz' a : 0 < sz -> 0 < sz' -> slot Rg p sz a -> slot Rg q sz' a -> p = q.
Proof using HI.
  intros Hs Hs' (st & d & n & Hr & H1 & H2 & _)%slot_range (st' & d' & n' & Hr' & H1' & H2' & _)%slot_range; [|done..].
  pose proof (hdr_pos p st). pose proof (hdr_pos q st').
  pose proof (region_fun _ _ _ _ _ _ _ _ a Hr Hr' ltac:(lia) ltac:(lia)) as ->. by simplify_eq.
Qed.

Lemma region_desc st st' p p' d n n' : Rg !! st = Some (p, d, n) -> Rg !! st' = Some (p', d, n') -> st = st'.
Proof using HI.
  intros H1 H2. assert (E1 : B !! d = Some (st - base, n)) by (apply (ki_blk _ _ _ _ HI); eauto).
  assert (E2 : B !! d = Some (st' - base, n')) by (apply (ki_blk _ _ _ _ HI); eauto). simplify_eq. lia.
Qed.

Lemma pool_nonzero p m : k_obs s !! p = Some m -> (p =? 0) = false.
Proof using HI.
  intros (i & c & _ & _ & _ & HP)%pool_at. destruct (po_main _ _ _ _ _ _ HP) as (d & Hr & _).
  pose proof (ki_reg _ _ _ _ HI _ _ _ _ Hr). pose proof base_val. lia.
Qed.

Lemma pool_size p m : k_obs s !! p = Some m -> 32 <= so_objsz m <= 2048.
Proof using HI. intros (i & c & Hi & _ & _ & HP)%pool_at. rewrite (po_sz _ _ _ _ _ _ HP). lia. Qed.

Lemma pools_few : Z.of_nat (size (k_obs s)) <= 2 ^ 34.
Proof using HI.
  rewrite <- size_dom. apply few; [apply NoDup_elements|]. intros p [m Hm]%elem_of_elements%elem_of_dom.
  destruct (pool_at _ _ Hm) as (i & c & _ & _ & _ & HP). destruct (po_main _ _ _ _ _ _ HP) as (d & Hr & _).
  pose proof (ki_reg _ _ _ _ HI _ _ _ _ Hr). lia.
Qed.

Lemma class_few i c : ks_msoblst (k_mgr s) !! i = Some c -> Z.of_nat (length (ol_emplst c)) <= Z.of_nat (size (k_obs s)).
Proof using HI.
  intros Hc. apply inj_le, NoDup_dom_length; [apply (ki_cls _ _ _ _ HI _ _ Hc)|]. intros p Hp.
  destruct (ki_pool _ _ _ _ HI _ _ _ Hc Hp) as (m & Hm & _). eauto.
Qed.

Lemma free_few p m : k_obs s !! p = Some m -> 0 <= so_fobjnr m <= so_mobjnr m /\ so_mobjnr m <= 2 ^ 34 /\ 0 <= so_mextnr m <= 2 ^ 34.
Proof using HI.
  intros Hm. pose proof (pool_size _ _ Hm) as Hsz. destruct (pool_at _ _ Hm) as (i & c & _ & _ & _ & HP).
  destruct (po_frelst _ _ _ _ _ _ HP) as [Hnd ->]. destruct (po_slots _ _ _ _ _ _ HP) as (L & HndL & -> & HL).
  destruct (po_extnr _ _ _ _ _ _ HP) as [HndX ->].
  assert (length (so_frelst m) <= length L)%nat.
  { apply submseteq_length, NoDup_submseteq; [done|]. intros a Ha. apply HL. by apply (po_free _ _ _ _ _ _ HP). }
  split_and!; [lia|lia| |lia|].
  - apply few; [done|]. intros a Ha%HL. apply slot_addr in Ha; lia.
  - apply few; [done|]. intros e (_ & d & n & Hr)%(po_exts _ _ _ _ _ _ HP). pose proof (ki_reg _ _ _ _ HI _ _ _ _ Hr). lia.
Qed.

(** When the counters agree every slot is free. *)
Lemma all_free i p m : pool_ok Rg (k_exts s) J i p m -> so_mobjnr m = so_fobjnr m -> forall a, slot Rg p (so_objsz m) a -> a ∈ so_frelst m.
Proof using HI.
  intros HP E a Ha. destruct (po_frelst _ _ _ _ _ _ HP) as [Hnd En]. destruct (po_slots _ _ _ _ _ _ HP) as (L & HndL & El & HL).
  assert (Hp : so_frelst m ≡ₚ L).
  { apply submseteq_length_Permutation; [|lia]. apply NoDup_submseteq; [done|]. intros x Hx. by apply HL, (po_free _ _ _ _ _ _ HP). }
  rewrite Hp. by apply HL.
Qed.
End facts.

Lemma cls_range sz : 0 < sz <= 2048 -> 0 <= cls sz < 64 /\ sz <= 32 + 32 * cls sz /\ (forall i, 0 <= i < cls sz -> 32 + 32 * i < sz).
Proof.
  intros Hsz. unfold cls. pose proof (Z.div_mod (sz - 1) 32 ltac:(lia)). pose proof (Z.mod_pos_bound (sz - 1) 32 ltac:(lia)). split_and!; [lia..|intros i Hi; lia].
Qed.
End inv.
