(* ===== verification/KmsobOps.v ===== *)
(** * The object allocator: operations on pools

    The scans find the pool of an object, a block is cut into its slots, an object
    is taken from a pool and put back; each keeps the invariant. *)

From S2P Require Import Prelude PhyMem DivMer DivMerInv DivMerOps DivMerAlloc Boot BootSpec BootPages PageIf ObjIf Kmsob KmsobInv.

Lemma find_first_pure {T A} (f : Z -> M T (option A)) (g : Z -> option A) l s :
  (forall x, x ∈ l -> f x s = Ret (g x, s)) -> find_first l f s = Ret (List.hd_error (omap g l), s).
Proof.
  induction l as [|x l IH]; intros Hf; [done|]. cbn [find_first]. rewrite (bind_eq _ _ _ _ _ (Hf x ltac:(by left))). cbn.
  destruct (g x) as [a|] eqn:E; [done|]. apply IH. intros y Hy. apply Hf. by right.
Qed.

(** A search that can only find one value. *)
Lemma hd_omap_only {A} (g : Z -> option A) (l : list Z) v x : x ∈ l -> g x = Some v -> (forall y w, y ∈ l -> g y = Some w -> w = v) -> List.hd_error (omap g l) = Some v.
Proof.
  induction l as [|y l IH]; intros Hx Hg Hall; [by apply elem_of_nil in Hx|]. cbn. destruct (g y) as [w|] eqn:E.
  - cbn. f_equal. apply (Hall y w); [by left|done].
  - apply IH; [|done|intros z w Hz; apply Hall; by right]. apply elem_of_cons in Hx as [->|Hx]; [congruence|done].
Qed.

Lemma hd_omap_none {A} (g : Z -> option A) (l : list Z) : (forall y, y ∈ l -> g y = None) -> List.hd_error (omap g l) = None.
Proof. induction l as [|y l IH]; intros H; [done|]. cbn. rewrite (H y ltac:(by left)). apply IH. intros z Hz. apply H. by right. Qed.

Section ops.
Context {S : Type} `{PageAlloc S}.
Implicit Types (s : kst S) (B : blocks) (J : objects) (Rg : regions).

(** ** Accesses *)

Lemma get_ob_eq s p m : k_obs s !! p = Some m -> get_ob p s = Ret (m, s).
Proof. intros E. unfold get_ob. by rewrite E. Qed.
Lemma get_ext_eq s p m : k_exts s !! p = Some m -> get_ext p s = Ret (m, s).
Proof. intros E. unfold get_ext. by rewrite E. Qed.
Lemma get_kobl_eq s i c : ks_msoblst (k_mgr s) !! i = Some c -> get_kobl i s = Ret (c, s).
Proof. intros E. unfold get_kobl. by rewrite E. Qed.
Lemma upd_ob_eq s p m f : k_obs s !! p = Some m -> upd_ob p f s = Ret (tt, Kst (k_pa s) (k_mgr s) (<[p := f m]> (k_obs s)) (k_exts s)).
Proof. intros E. unfold upd_ob. by rewrite (bind_eq _ _ _ _ _ (get_ob_eq _ _ _ E)). Qed.
Lemma upd_kobl_eq s i c f : ks_msoblst (k_mgr s) !! i = Some c ->
  upd_kobl i f s = Ret (tt, Kst (k_pa s) (Kmsobmgrhed (ks_msobnr (k_mgr s)) (ks_msobche (k_mgr s)) (<[i := f c]> (ks_msoblst (k_mgr s)))) (k_obs s) (k_exts s)).
Proof. intros E. unfold upd_kobl. by rewrite (bind_eq _ _ _ _ _ (get_kobl_eq _ _ _ E)). Qed.
Lemma wp_k_on_pa {A} (m : M S A) s Q : wp m (k_pa s) (fun a pa => Q a (Kst pa (k_mgr s) (k_obs s) (k_exts s))) -> wp (k_on_pa m) s Q.
Proof. unfold wp, k_on_pa. by destruct (m (k_pa s)) as [[a pa]| | |]. Qed.
Lemma k_on_pa_eq {A} (m : M S A) s a : m (k_pa s) = Ret (a, k_pa s) -> k_on_pa m s = Ret (a, s).
Proof. intros E. unfold k_on_pa. rewrite E. by destruct s. Qed.

(** ** Finding the class *)

Section scans.
Context {s B J Rg} (HI : KInv s B J Rg).

Lemma class_at i : 0 <= i < 64 -> exists c, ks_msoblst (k_mgr s) !! i = Some c /\ ol_sz c = 32 + 32 * i.
Proof using HI.
  intros Hi. destruct (proj2 (ki_dom _ _ _ _ HI i) Hi) as [c Hc]. exists c. split; [done|]. apply (ki_cls _ _ _ _ HI _ _ Hc).
Qed.

Lemma onmsz_retn_koblst_eq sz : 0 < sz <= 2048 -> onmsz_retn_koblst sz s = Ret (Some (cls sz), s).
Proof using HI.
  intros Hsz. unfold onmsz_retn_koblst. replace (1 >? sz) with false by lia.
  pose (g := fun i => if sz <=? 32 + 32 * i then Some i else None).
  rewrite (find_first_pure _ g).
  - destruct (cls_range sz Hsz) as (Hc & Hle & Hlt).
    destruct (hd_omap_seqZ g KOBLST_MAX 0) as [[_ Hn]|(d & v & -> & Hd & Hr & Hmin)]; unfold KOBLST_MAX in *.
    + specialize (Hn (cls sz) ltac:(lia)). unfold g in Hn. by replace (sz <=? 32 + 32 * cls sz) with true in Hn by lia.
    + unfold g in Hd. destruct (sz <=? 32 + 32 * d) eqn:E; [|done]. injection Hd as <-. do 3 f_equal.
      destruct (decide (d < cls sz)) as [Hl|]; [specialize (Hlt d ltac:(lia)); lia|].
      destruct (decide (cls sz < d)) as [Hl|]; [|lia]. specialize (Hmin (cls sz) ltac:(lia)). unfold g in Hmin.
      by replace (sz <=? 32 + 32 * cls sz) with true in Hmin by lia.
  - intros i Hi%elem_of_seqZ. unfold KOBLST_MAX in Hi. destruct (class_at i ltac:(lia)) as (c & Hc & Ho).
    rewrite (bind_eq _ _ _ _ _ (get_kobl_eq _ _ _ Hc)), Ho. done.
Qed.

Lemma pool_in_class i c p : ks_msoblst (k_mgr s) !! i = Some c -> p ∈ ol_emplst c -> exists m, k_obs s !! p = Some m /\ so_objsz m = 32 + 32 * i.
Proof using HI.
  intros Hc Hp. destruct (ki_pool _ _ _ _ HI _ _ _ Hc Hp) as (m & Hm & HP). exists m. split; [done|]. apply (po_sz _ _ _ _ _ _ HP).
Qed.

Lemma scan_newkmsob_eq i c p sz : ks_msoblst (k_mgr s) !! i = Some c -> p ∈ ol_emplst c -> 0 < sz <= 32 + 32 * i -> scan_newkmsob_isok p sz s = Ret (p, s).
Proof using HI.
  intros Hc Hp Hsz. destruct (pool_in_class _ _ _ Hc Hp) as (m & Hm & Ho). unfold scan_newkmsob_isok. rewrite (pool_nonzero HI _ _ Hm).
  replace (1 >? sz) with false by lia. cbn [orb]. rewrite (bind_eq _ _ _ _ _ (get_ob_eq _ _ _ Hm)), Ho. by replace (sz <=? 32 + 32 * i) with true by lia.
Qed.

(** A pool of the class, or [NULL] when it has none. *)
Lemma onkoblst_retn_newkmsob_eq sz c : 0 < sz <= 2048 -> ks_msoblst (k_mgr s) !! cls sz = Some c ->
  exists r, onkoblst_retn_newkmsob (cls sz) sz s = Ret (r, s) /\ (r ∈ ol_emplst c \/ (r = 0 /\ ol_emplst c = [])).
Proof using HI.
  intros Hsz Hc. destruct (cls_range sz Hsz) as (Hcl & Hle & _). destruct (ki_cls _ _ _ _ HI _ _ Hc) as (_ & _ & Hnr & Hca).
  unfold onkoblst_retn_newkmsob. replace (1 >? sz) with false by lia. rewrite (bind_eq _ _ _ _ _ (get_kobl_eq _ _ _ Hc)).
  destruct Hca as [Hca|Hca].
  - rewrite Hca, (bind_eq _ _ s 0 s) by done. cbn [Z.eqb negb]. destruct (ol_emplst c) as [|p l] eqn:El.
    + rewrite Hnr. cbn. eauto.
    + replace (0 <? ol_emnr c) with true by (rewrite Hnr; cbn [length]; lia).
      assert (Hp : p ∈ ol_emplst c) by (rewrite El; by left).
      destruct (pool_in_class _ _ _ Hc Hp) as (m & Hm & _).
      assert (Hf : (q ← scan_newkmsob_isok p sz; mret (nonnull q)) s = Ret (Some p, s)).
      { rewrite (bind_eq _ _ _ _ _ (scan_newkmsob_eq _ _ _ sz Hc Hp ltac:(lia))). unfold nonnull. by rewrite (pool_nonzero HI _ _ Hm). }
      exists p. split; [|left; by left]. rewrite (bind_eq _ _ s (Some p) s); [done|]. cbn [find_first]. by rewrite (bind_eq _ _ _ _ _ Hf).
  - destruct (pool_in_class _ _ _ Hc Hca) as (m & Hm & _).
    rewrite (bind_eq _ _ _ _ _ (scan_newkmsob_eq _ _ _ sz Hc Hca ltac:(lia))). rewrite (pool_nonzero HI _ _ Hm). cbn. eauto.
Qed.

(** ** Finding the pool of an object *)

Lemma obj_at a sz : J !! a = Some sz -> exists p m c, k_obs s !! p = Some m /\ ks_msoblst (k_mgr s) !! cls sz = Some c /\ p ∈ ol_emplst c /\
  pool_ok Rg (k_exts s) J (cls sz) p m /\ slot Rg p (so_objsz m) a /\ a ∉ so_frelst m /\ 0 < sz <= so_objsz m.
Proof using HI.
  intros Ha. destruct (ki_obj _ _ _ _ HI _ _ Ha) as (Hsz & p & m & Hm & Hs & Hf & Ho). destruct (pool_at HI _ _ Hm) as (i & c & _ & Hc & Hp & HP).
  pose proof (po_sz _ _ _ _ _ _ HP) as E. assert (i = cls sz) as -> by lia. destruct (cls_range sz Hsz) as (_ & ? & _).
  exists p, m, c. split_and!; [done..|lia|lia].
Qed.

Lemma region_adr st p d n : Rg !! st = Some (p, d, n) -> base < st /\ 0 < n /\ st + 4096 * n <= base + 2 ^ 34.
Proof using HI. intros Hr. pose proof (ki_reg _ _ _ _ HI _ _ _ _ Hr). lia. Qed.

Lemma small_adr x : 0 <= x <= base + 2 ^ 34 -> u64 x = x.
Proof. intros Hx. apply u64_small. rewrite u64max_val. pose proof base_val. lia. Qed.

Section object.
Context {a sz p m st d n} (Hm : k_obs s !! p = Some m) (Hsz : 0 < sz <= so_objsz m) (Hst : Rg !! st = Some (p, d, n))
  (Ha : st + hdr p st <= a) (Hv : a + so_objsz m <= st + 4096 * n - 1).

(** The tests on a region of a pool: only the object's own region passes. *)
Lemma in_region_iff e q d' n' h : Rg !! e = Some (q, d', n') -> 0 < h -> (e + h <=? a) && (a + sz <=? e + 4096 * n' - 1) = true -> e = st /\ q = p.
Proof using HI Hsz Hst Ha Hv.
  intros He Hh Hc. bool_to_prop. pose proof (hdr_pos p st).
  pose proof (region_fun HI _ _ _ _ _ _ _ _ a He Hst ltac:(lia) ltac:(lia)) as ->. by simplify_eq.
Qed.

Lemma in_region : (st + hdr p st <=? a) && (a + sz <=? st + 4096 * n - 1) = true.
Proof using Hsz Ha Hv. apply andb_true_iff. lia. Qed.

Lemma scan_delkmsob_eq q mq : k_obs s !! q = Some mq -> so_objsz mq = so_objsz m -> scan_delkmsob_isok q a sz s = Ret (if decide (q = p) then p else 0, s).
Proof using HI Hm Hsz Hst Ha Hv.
  intros Hq Eo. pose proof in_region as Hin0. destruct (region_adr _ _ _ _ Hst) as (Hb & _ & Hb'). pose proof base_val as Hbv. pose proof (hdr_pos p st) as Hh.
  destruct (pool_at HI _ _ Hq) as (i & c & _ & _ & _ & HP). destruct (po_main _ _ _ _ _ _ HP) as (d' & Hr & Hve & _ & _).
  destruct (region_adr _ _ _ _ Hr) as (Hqb & Hn' & Hqb'). unfold scan_delkmsob_isok. rewrite (pool_nonzero HI _ _ Hq).
  replace (a =? 0) with false by lia. replace (1 >? sz) with false by lia. cbn [orb]. rewrite (bind_eq _ _ _ _ _ (get_ob_eq _ _ _ Hq)).
  rewrite (po_vstat _ _ _ _ _ _ HP), Hve, Eo. unfold sizeof_kmsob_t. rewrite !small_adr by lia. replace (sz <=? so_objsz m) with true by lia. rewrite andb_true_r.
  rewrite Eo in Hr. destruct ((q + 368 <=? a) && _) eqn:E1.
  { destruct (in_region_iff q q _ _ 368 Hr ltac:(lia) E1) as [_ <-]. by rewrite decide_True. }
  destruct (po_extnr _ _ _ _ _ _ HP) as [_ Hen].
  assert (Hext : q = p -> st <> q /\ st ∈ so_mextlst mq).
  { intros ->. simplify_eq. destruct (decide (st = p)) as [->|Hne].
    - exfalso. rewrite Hst in Hr. simplify_eq. unfold hdr, sizeof_kmsob_t in Hin0. rewrite decide_True in Hin0 by done. congruence.
    - split; [done|]. apply (po_exts _ _ _ _ _ _ HP). eauto. }
  destruct (1 >? so_mextnr mq) eqn:E2.
  { rewrite decide_False; [done|]. intros Eq. destruct (Hext Eq) as [_ Hin]. destruct (so_mextlst mq); [by apply elem_of_nil in Hin|]. cbn in Hen. lia. }
  pose (g := fun e => if (e + 48 <=? a) && (a + sz <=? e + 4096 * block_pages (so_objsz m) - 1) then Some q else None).
  rewrite (bind_eq _ _ s (List.hd_error (omap g (so_mextlst mq))) s).
  - case_decide as Eq.
    + destruct (Hext Eq) as [Hne Hin]. rewrite (hd_omap_only g _ q st); [by rewrite Eq|done| |].
      * unfold g. pose proof (po_pages _ _ _ _ _ _ HP) as Hpg. subst p. rewrite <- Eo, <- (Hpg _ _ _ Hst).
        unfold hdr, sizeof_kmbext_t in Hin0. rewrite decide_False in Hin0 by done. by rewrite Hin0.
      * intros y w _. unfold g. by destruct ((y + 48 <=? a) && _); intros [= <-].
    + rewrite hd_omap_none; [done|]. intros e (Hne & d'' & n'' & He)%(po_exts _ _ _ _ _ _ HP). unfold g. destruct ((e + 48 <=? a) && _) eqn:E; [|done].
      rewrite <- Eo, <- (po_pages _ _ _ _ _ _ HP _ _ _ He) in E. by destruct (in_region_iff _ _ _ _ 48 He ltac:(lia) E).
  - apply find_first_pure. intros e (Hne & d'' & n'' & He)%(po_exts _ _ _ _ _ _ HP). destruct (po_ext _ _ _ _ _ _ HP _ _ _ He Hne) as [k Hk].
    destruct (region_adr _ _ _ _ He) as (? & ? & ?).
    rewrite (bind_eq _ _ _ _ _ (get_ext_eq _ _ _ Hk)). cbn [mt_kmsb mt_vstat mt_vend]. rewrite Z.eqb_refl. rewrite (bind_eq _ _ s tt s) by done.
    unfold g, sizeof_kmbext_t. rewrite !small_adr by lia. rewrite andb_true_r, (po_pages _ _ _ _ _ _ HP _ _ _ He), Eo. done.
Qed.

Context (Hal : (a - (st + hdr p st)) mod so_objsz m = 0).

Lemma in_body_iff e q d' n' : Rg !! e = Some (q, d', n') -> (e <=? a) && (a + sz - 1 <=? e + 4096 * n' - 1) = true -> e = st.
Proof using HI Hsz Hst Ha Hv.
  intros He Hc. bool_to_prop. pose proof (hdr_pos p st). by apply (region_fun HI _ _ _ _ _ _ _ _ a He Hst); lia.
Qed.

Lemma scan_fadrskmsob_eq : scan_fadrskmsob_isok (st + hdr p st) (st + 4096 * n - 1) a (so_objsz m) = true.
Proof using HI Hm Hst Ha Hv Hal.
  destruct (region_adr _ _ _ _ Hst) as (Hb & _ & Hb'). pose proof base_val. pose proof (hdr_pos p st). pose proof (pool_size HI _ _ Hm).
  unfold scan_fadrskmsob_isok. rewrite !small_adr by lia. replace (a <? st + hdr p st) with false by lia.
  replace (st + hdr p st <=? a) with true by lia. replace (a + so_objsz m <=? st + 4096 * n - 1) with true by lia. cbn [andb]. rewrite Hal. done.
Qed.

Lemma scan_dfszkmsob_eq : scan_dfszkmsob_isok p a sz s = Ret (true, s).
Proof using HI Hm Hsz Hst Ha Hv Hal.
  pose proof scan_fadrskmsob_eq as Hok. destruct (region_adr _ _ _ _ Hst) as (Hb & _ & Hb'). pose proof base_val as Hbv. pose proof (hdr_pos p st) as Hh.
  destruct (pool_at HI _ _ Hm) as (i & c & _ & _ & _ & HP). destruct (po_main _ _ _ _ _ _ HP) as (d' & Hr & Hve & _ & _).
  destruct (region_adr _ _ _ _ Hr) as (Hqb & Hn' & Hqb'). destruct (free_few HI _ _ Hm) as ((_ & Hf1) & Hf2 & _).
  pose proof (po_pages _ _ _ _ _ _ HP _ _ _ Hst) as En.
  unfold scan_dfszkmsob_isok. rewrite (pool_nonzero HI _ _ Hm). replace (a =? 0) with false by lia. replace (1 >? sz) with false by lia. cbn [orb].
  rewrite (bind_eq _ _ _ _ _ (get_ob_eq _ _ _ Hm)). replace (ones64 <=? so_fobjnr m) with false by (unfold ones64; rewrite u64max_val; lia).
  rewrite (po_vstat _ _ _ _ _ _ HP), Hve, <- En. unfold sizeof_kmsob_t. rewrite (small_adr (a + sz)), (small_adr (a + sz - 1)), (small_adr (p + 368)) by lia.
  destruct ((p <=? a) && _) eqn:E1.
  { rewrite <- En in Hr. pose proof (in_body_iff _ _ _ _ Hr E1) as <-. unfold hdr, sizeof_kmsob_t in Hok. rewrite decide_True in Hok by done. by rewrite Hok. }
  assert (Hne : st <> p).
  { intros ->. assert ((p <=? a) && (a + sz - 1 <=? p + 4096 * n - 1) = true) by (apply andb_true_iff; lia). congruence. }
  assert (Hin : st ∈ so_mextlst m) by (apply (po_exts _ _ _ _ _ _ HP); eauto). destruct (po_extnr _ _ _ _ _ _ HP) as [_ Hen].
  replace (so_mextnr m >? 0) with true by (rewrite Hen; destruct (so_mextlst m); [by apply elem_of_nil in Hin|cbn [length]; lia]).
  pose (g := fun e => if (e <=? a) && (a + sz - 1 <=? e + 4096 * n - 1) then Some (scan_fadrskmsob_isok (e + 48) (e + 4096 * n - 1) a (so_objsz m)) else None).
  assert (Hgst : g st = Some true).
  { unfold g. replace (st <=? a) with true by lia. replace (a + sz - 1 <=? st + 4096 * n - 1) with true by lia. cbn [andb].
    unfold hdr in Hok. rewrite decide_False in Hok by done. unfold sizeof_kmbext_t in Hok. by rewrite Hok. }
  rewrite (bind_eq _ _ s (List.hd_error (omap g (so_mextlst m))) s).
  - rewrite (hd_omap_only g _ true st); [done|done|done|]. intros e w (_ & d'' & n'' & He)%(po_exts _ _ _ _ _ _ HP) Hg.
    pose proof (po_pages _ _ _ _ _ _ HP _ _ _ He) as En'. assert (E'' : n'' = n) by lia. rewrite E'' in He. clear En' E''. pose proof Hg as Hg'. unfold g in Hg.
    destruct ((e <=? a) && _) eqn:E; [|done]. pose proof (in_body_iff _ _ _ _ He E) as ->. congruence.
  - apply find_first_pure. intros e (Hne' & d'' & n'' & He)%(po_exts _ _ _ _ _ _ HP). destruct (po_ext _ _ _ _ _ _ HP _ _ _ He Hne') as [k Hk].
    destruct (region_adr _ _ _ _ He) as (? & ? & ?). pose proof (po_pages _ _ _ _ _ _ HP _ _ _ He) as En'. assert (E'' : n'' = n) by lia. rewrite E'' in *. clear En' E''.
    rewrite (bind_eq _ _ _ _ _ (get_ext_eq _ _ _ Hk)). cbn [mt_vstat mt_vend]. unfold g, sizeof_kmbext_t.
    by rewrite (small_adr (e + 48)) by lia.
Qed.
End object.

Lemma onkoblst_retn_delkmsob_eq a sz c p m : J !! a = Some sz -> ks_msoblst (k_mgr s) !! cls sz = Some c -> p ∈ ol_emplst c ->
  k_obs s !! p = Some m -> slot Rg p (so_objsz m) a -> onkoblst_retn_delkmsob (cls sz) a sz s = Ret (p, s).
Proof using HI.
  intros Ha Hc Hp Hm Hs. pose proof (pool_size HI _ _ Hm) as Ho. destruct (ki_obj _ _ _ _ HI _ _ Ha) as (Hsz & _).
  destruct (cls_range sz Hsz) as (_ & Hle & _). pose proof (slot_addr HI _ (so_objsz m) a ltac:(lia) Hs) as Had. pose proof base_val as Hbv.
  destruct (slot_range HI _ (so_objsz m) a ltac:(lia) Hs) as (st & d & n & Hst & Hlo & Hhi & _). destruct (ki_cls _ _ _ _ HI _ _ Hc) as (_ & _ & Hnr & Hca).
  assert (Em : so_objsz m = 32 + 32 * cls sz) by (destruct (pool_in_class _ _ _ Hc Hp) as (? & ? & ?); congruence).
  assert (Hscan : forall q, q ∈ ol_emplst c -> scan_delkmsob_isok q a sz s = Ret (if decide (q = p) then p else 0, s)).
  { intros q Hq. destruct (pool_in_class _ _ _ Hc Hq) as (mq & Hmq & Eq). apply (scan_delkmsob_eq (a := a) (sz := sz) Hm ltac:(lia) Hst Hlo Hhi q mq Hmq). lia. }
  unfold onkoblst_retn_delkmsob. replace (a =? 0) with false by lia. replace (1 >? sz) with false by lia. cbn [orb].
  rewrite (bind_eq _ _ _ _ _ (get_kobl_eq _ _ _ Hc)).
  assert (Hz : forall q, ol_cahe c = 0 \/ ol_cahe c ∈ ol_emplst c -> q = ol_cahe c -> scan_delkmsob_isok q a sz s = Ret (if decide (q = p) then p else 0, s)).
  { intros q [E|E] ->; [|by apply Hscan]. rewrite E. pose proof (pool_nonzero HI _ _ Hm). rewrite decide_False by lia. done. }
  rewrite (bind_eq _ _ _ _ _ (Hz _ Hca eq_refl)). case_decide as Eq; rewrite ?(pool_nonzero HI _ _ Hm); [done|]. cbn [Z.eqb negb].
  replace (0 <? ol_emnr c) with true by (rewrite Hnr; destruct (ol_emplst c); [by apply elem_of_nil in Hp|cbn [length]; lia]).
  pose (g := fun q => if decide (q = p) then Some p else None).
  rewrite (bind_eq _ _ s (List.hd_error (omap g (ol_emplst c))) s).
  - rewrite (hd_omap_only g _ p p); [done|done|unfold g; by rewrite decide_True|]. intros q w _. unfold g. by case_decide; intros [= <-].
  - apply find_first_pure. intros q Hq. rewrite (bind_eq _ _ _ _ _ (Hscan q Hq)). unfold g, nonnull. case_decide; [|done]. by rewrite (pool_nonzero HI _ _ Hm).
Qed.

(** ** Objects taken and given back *)

Lemma slot_dec p m (Hm : k_obs s !! p = Some m) x : slot Rg p (so_objsz m) x \/ ~ slot Rg p (so_objsz m) x.
Proof using HI.
  destruct (pool_at HI _ _ Hm) as (i & c & _ & _ & _ & HP). destruct (po_slots _ _ _ _ _ _ HP) as (L & _ & _ & HL).
  rewrite <- HL. destruct (decide (x ∈ L)); tauto.
Qed.

Definition with_ob (p : Z) (m : kmsob_t) (t : kst S) : kst S := Kst (k_pa t) (k_mgr t) (<[p := m]> (k_obs t)) (k_exts t).

(** A pool whose free list changed, and the objects with it. *)
Lemma free_upd J' p m l : k_obs s !! p = Some m -> NoDup l -> (forall x, x ∈ l -> slot Rg p (so_objsz m) x) ->
  (forall x, slot Rg p (so_objsz m) x -> x ∉ l -> is_Some (J' !! x)) ->
  (forall x, ~ slot Rg p (so_objsz m) x -> J' !! x = J !! x) ->
  (forall x sz, slot Rg p (so_objsz m) x -> J' !! x = Some sz -> x ∉ l /\ 0 < sz <= 2048 /\ so_objsz m = 32 + 32 * cls sz) ->
  KInv (with_ob p (set_free (Z.of_nat (length l)) l m) s) B J' Rg.
Proof using HI.
  intros Hm Hnd Hl Hu Ho Hj. pose proof (pool_size HI _ _ Hm) as Hsz.
  assert (Hapart : forall q mq x, q <> p -> k_obs s !! q = Some mq -> slot Rg q (so_objsz mq) x -> ~ slot Rg p (so_objsz m) x).
  { intros q mq x Hne Hq Hx Hx'. apply Hne. pose proof (pool_size HI _ _ Hq). by apply (slot_fun HI q p (so_objsz mq) (so_objsz m) x); try lia. }
  pose proof HI as [I1 I2 I3 I4 I5 I6 I7 I8 I9 I10]. split; cbn [with_ob k_obs k_mgr k_exts]; try done.
  - intros st q d n Hr. destruct (decide (q = p)) as [->|Hne]; [by rewrite lookup_insert_eq|]. rewrite lookup_insert_ne by done. by apply (I3 st q d n).
  - intros i c q Hc Hq. destruct (I7 _ _ _ Hc Hq) as (mq & Hmq & HP). destruct (decide (q = p)) as [->|Hne].
    + simplify_eq. rewrite lookup_insert_eq. eexists. split; [done|]. destruct HP as [P1 P2 P3 P4 P5 P6 P7 P8 P9 P10 P11 P12]. by split.
    + rewrite lookup_insert_ne by done. exists mq. split; [done|]. apply (pool_frame _ _ _ _ _ _ _ _ _ HP); [done|done|].
      intros x Hx Hj'. by rewrite Ho by (by apply (Hapart q mq)).
  - intros q mq [[<- <-]|[Hne Hq]]%lookup_insert_Some; eauto.
  - rewrite I9. rewrite map_size_insert_Some; [done|]. by rewrite Hm.
  - intros x sz Hx. destruct (slot_dec p m Hm x) as [Hs|Hs].
    + destruct (Hj x sz Hs Hx) as (Hf & Hr & Eo). split; [done|]. exists p. eexists. rewrite lookup_insert_eq. by split_and!.
    + rewrite Ho in Hx by done. destruct (I10 _ _ Hx) as (Hr & q & mq & Hq & Hsl & Hf & Eo). split; [done|]. exists q, mq.
      destruct (decide (q = p)) as [->|Hne]; [by simplify_eq|]. by rewrite lookup_insert_ne.
Qed.

Lemma free_not_held p m a : k_obs s !! p = Some m -> a ∈ so_frelst m -> J !! a = None.
Proof using HI.
  intros Hm Ha. destruct (J !! a) as [sz|] eqn:E; [|done]. destruct (ki_obj _ _ _ _ HI _ _ E) as (_ & q & mq & Hq & Hs & Hf & _).
  destruct (pool_at HI _ _ Hm) as (i & c & _ & _ & _ & HP). pose proof (pool_size HI _ _ Hm). pose proof (pool_size HI _ _ Hq).
  pose proof (slot_fun HI _ _ (so_objsz mq) (so_objsz m) a ltac:(lia) ltac:(lia) Hs (po_free _ _ _ _ _ _ HP _ Ha)) as ->. by simplify_eq.
Qed.

Lemma kmsob_new_opkmsob_spec sz c p m a l : 0 < sz <= 2048 -> ks_msoblst (k_mgr s) !! cls sz = Some c -> p ∈ ol_emplst c ->
  k_obs s !! p = Some m -> so_frelst m = a :: l ->
  kmsob_new_opkmsob p sz s = Ret (a, with_ob p (set_free (Z.of_nat (length l)) l m) s) /\ J !! a = None /\ base < a < base + 2 ^ 34 /\
  KInv (with_ob p (set_free (Z.of_nat (length l)) l m) s) B (<[a := sz]> J) Rg.
Proof using HI.
  intros Hsz Hc Hp Hm El. destruct (cls_range sz Hsz) as (_ & Hle & _). destruct (ki_pool _ _ _ _ HI _ _ _ Hc Hp) as (m' & Hm' & HP). simplify_eq.
  pose proof (po_sz _ _ _ _ _ _ HP) as Eo. pose proof (pool_size HI _ _ Hm) as Ho. destruct (po_frelst _ _ _ _ _ _ HP) as [Hnd Hn].
  destruct (free_few HI _ _ Hm) as ((_ & Hf1) & Hf2 & _). destruct (po_main _ _ _ _ _ _ HP) as (d & Hr & Hve & _).
  destruct (region_adr _ _ _ _ Hr) as (Hb & Hbn & Hb'). pose proof base_val as Hbv.
  rewrite El in Hnd, Hn. cbn [length] in Hn. assert (Ha : a ∈ so_frelst m) by (rewrite El; by left).
  assert (Hsa : slot Rg p (so_objsz m) a) by (by apply (po_free _ _ _ _ _ _ HP)). pose proof (slot_addr HI _ (so_objsz m) a ltac:(lia) Hsa).
  pose proof Hnd as [Hal Hnd']%NoDup_cons. split_and!; [|by apply (free_not_held p m)|lia|lia|].
  - unfold kmsob_new_opkmsob. rewrite (pool_nonzero HI _ _ Hm). replace (1 >? sz) with false by lia. cbn [orb].
    rewrite (bind_eq _ _ s true s).
    + cbn [negb]. rewrite (bind_eq _ _ _ _ _ (get_ob_eq _ _ _ Hm)), El.
      rewrite (bind_eq _ _ _ _ _ (upd_ob_eq _ _ _ _ Hm)), El, filter_ne_head by done. rewrite (u64_small (so_fobjnr m - 1)) by (rewrite u64max_val; lia).
      replace (so_fobjnr m - 1) with (Z.of_nat (length l)) by lia. done.
    + unfold scan_nmszkmsob_isok. rewrite (pool_nonzero HI _ _ Hm). replace (1 >? sz) with false by lia. cbn [orb].
      rewrite (bind_eq _ _ _ _ _ (get_ob_eq _ _ _ Hm)). replace (1 >? so_fobjnr m) with false by lia. replace (1 >? so_mobjnr m) with false by lia.
      replace (sz >? so_objsz m) with false by lia. cbn [orb]. rewrite (po_vstat _ _ _ _ _ _ HP), Hve.
      replace (p + 4096 * block_pages (so_objsz m) - 1 - p) with (4096 * block_pages (so_objsz m) - 1) by lia.
      rewrite (small_adr (4096 * _ - 1)) by lia. rewrite small_adr by lia. rewrite Z.sub_add. unfold PAGESIZE, sizeof_kmsob_t, sizeof_freobjh_t.
      replace (_ || _) with false by (symmetry; apply orb_false_iff; lia). by rewrite El.
  - apply free_upd; [done|done| | | |].
    + intros x Hx. apply (po_free _ _ _ _ _ _ HP). rewrite El. by right.
    + intros x Hx Hxl. destruct (decide (x = a)) as [->|Hne]; [rewrite lookup_insert_eq; eauto|]. rewrite lookup_insert_ne by done.
      apply (po_used _ _ _ _ _ _ HP x Hx). rewrite El. by apply not_elem_of_cons.
    + intros x Hx. rewrite lookup_insert_ne; [done|]. by intros ->.
    + intros x sz' Hx [[<- <-]|[Hne Hj]]%lookup_insert_Some; [done|]. destruct (ki_obj _ _ _ _ HI _ _ Hj) as (Hs & q & mq & Hq & Hsl & Hf & E').
      pose proof (pool_size HI _ _ Hq). pose proof (slot_fun HI _ _ (so_objsz mq) (so_objsz m) x ltac:(lia) ltac:(lia) Hsl Hx) as ->. simplify_eq.
      split_and!; [|lia|lia|done]. intros Hxl. apply Hf. rewrite El. by right.
Qed.

Lemma kmsob_delete_onkmsob_spec a sz p m : J !! a = Some sz -> k_obs s !! p = Some m -> slot Rg p (so_objsz m) a -> a ∉ so_frelst m ->
  0 < sz <= so_objsz m ->
  let m' := set_free (Z.of_nat (length (a :: so_frelst m))) (a :: so_frelst m) m in
  kmsob_delete_onkmsob p a sz s = Ret (true, with_ob p m' s) /\ so_fobjnr m < so_mobjnr m /\ KInv (with_ob p m' s) B (delete a J) Rg.
Proof using HI.
  intros Hj Hm Hs Hf Hsz m'. pose proof (pool_size HI _ _ Hm) as Ho. destruct (pool_at HI _ _ Hm) as (i & c & _ & _ & _ & HP).
  destruct (po_frelst _ _ _ _ _ _ HP) as [Hnd Hn]. destruct (free_few HI _ _ Hm) as ((_ & Hf1) & Hf2 & _).
  assert (Hlt : so_fobjnr m < so_mobjnr m).
  { destruct (decide (so_mobjnr m = so_fobjnr m)) as [E|]; [|lia]. by destruct Hf; apply (all_free HI i p m HP E). }
  pose proof (slot_addr HI _ (so_objsz m) a ltac:(lia) Hs) as Had. pose proof base_val as Hbv.
  destruct (slot_range HI _ (so_objsz m) a ltac:(lia) Hs) as (st & d & n & Hst & Hlo & Hhi & Hmod).
  split_and!; [|done|].
  - unfold kmsob_delete_onkmsob, kmsob_del_opkmsob. rewrite (pool_nonzero HI _ _ Hm). replace (a =? 0) with false by lia. replace (1 >? sz) with false by lia.
    cbn [orb]. rewrite (bind_eq _ _ _ _ _ (get_ob_eq _ _ _ Hm)). rewrite (u64_small (so_fobjnr m + 1)) by (rewrite u64max_val; lia).
    replace (so_fobjnr m + 1 >? so_mobjnr m) with false by lia.
    rewrite (bind_eq _ _ _ _ _ (scan_dfszkmsob_eq (a := a) (sz := sz) Hm Hsz Hst Hlo Hhi Hmod)). cbn [negb].
    rewrite (bind_eq _ _ _ _ _ (upd_ob_eq _ _ _ _ Hm)). rewrite (u64_small (so_fobjnr m + 1)) by (rewrite u64max_val; lia). unfold m', with_ob. cbn [length].
    replace (so_fobjnr m + 1) with (Z.of_nat (Datatypes.S (length (so_frelst m)))) by lia. done.
  - apply free_upd; [done|by apply NoDup_cons| | | |].
    + intros x [->|Hx]%elem_of_cons; [done|]. by apply (po_free _ _ _ _ _ _ HP).
    + intros x Hx [Hne Hxl]%not_elem_of_cons. rewrite lookup_delete_ne by done. by apply (po_used _ _ _ _ _ _ HP).
    + intros x Hx. rewrite lookup_delete_ne; [done|]. by intros ->.
    + intros x sz' Hx [Hne Hj']%lookup_delete_Some. destruct (ki_obj _ _ _ _ HI _ _ Hj') as (Hs' & q & mq & Hq & Hsl & Hf' & E').
      pose proof (pool_size HI _ _ Hq). pose proof (slot_fun HI _ _ (so_objsz mq) (so_objsz m) x ltac:(lia) ltac:(lia) Hsl Hx) as ->. simplify_eq.
      split_and!; [|lia|lia|done]. by apply not_elem_of_cons.
Qed.
End scans.
End ops.
