(* ===== verification/KmsobPool.v ===== *)
(** * The object allocator: pools created, extended and destroyed *)

From S2P Require Import Prelude PhyMem DivMer DivMerInv DivMerOps DivMerAlloc Boot BootSpec BootPages PageIf ObjIf Kmsob KmsobInv KmsobOps.

Lemma elem_of_rev {A} (x : A) l : x ∈ rev l <-> x ∈ l.
Proof. rewrite !list_elem_of_In. symmetry. apply List.in_rev. Qed.
Lemma NoDup_rev {A} (l : list A) : NoDup l -> NoDup (rev l).
Proof. rewrite !NoDup_ListNoDup. apply List.NoDup_rev. Qed.

(** A pool with the objects [L] linked in. *)
Definition cut_ob (L : list Z) (m : kmsob_t) : kmsob_t :=
  set_mobjnr (so_mobjnr m + Z.of_nat (length L)) (set_free (so_fobjnr m + Z.of_nat (length L)) (rev L ++ so_frelst m) m).

Lemma cut_ob_nil m : cut_ob [] m = m.
Proof. destruct m. unfold cut_ob, set_mobjnr, set_free. cbn. by rewrite !Z.add_0_r. Qed.

Lemma cut_ob_cons a L m : cut_ob L (set_mobjnr (so_mobjnr m + 1) (set_free (so_fobjnr m + 1) (a :: so_frelst m) m)) = cut_ob (a :: L) m.
Proof.
  unfold cut_ob, set_mobjnr, set_free. cbn [so_mobjnr so_fobjnr so_frelst so_vstat so_vend so_objsz so_mextlst so_mextnr so_mc length rev].
  rewrite <- app_assoc. cbn [app]. f_equal; lia.
Qed.

Lemma block_pages_range sz : 1 <= block_pages sz <= 4 /\ 2 ^ Z.log2_up (block_pages sz) = block_pages sz.
Proof. unfold block_pages. by destruct (512 <? sz), (128 <? sz). Qed.

(** A block has room for an object. *)
Lemma block_fits sz h : 32 <= sz <= 2048 -> 0 <= h <= sizeof_kmsob_t -> h + sz <= 4096 * block_pages sz - 1.
Proof. unfold block_pages, sizeof_kmsob_t. destruct (512 <? sz) eqn:E1; [lia|]. destruct (128 <? sz) eqn:E2; lia. Qed.

Lemma retn_mscidx_block sz : exists j, 0 <= j < MSCLST_MAX /\ retn_mscidx (block_pages sz) = j /\ block_pages sz = 2 ^ j.
Proof. unfold block_pages. destruct (512 <? sz); [exists 2|destruct (128 <? sz); [exists 1|exists 0]]; by vm_compute. Qed.

Section pool.
Context {S : Type} `{PageAlloc S}.
Implicit Types (s : kst S) (B : blocks) (J : objects) (Rg : regions).

(** ** Cutting a block *)

Section cut.
Context (Q : gmap Z kmbext_t -> Prop) (linked : M (kst S) unit) (p vend : Z).
Context (HQ : forall s, Q (k_exts s) -> exists x', Q x' /\ linked s = Ret (tt, Kst (k_pa s) (k_mgr s) (k_obs s) x')).

Lemma cut_loop_spec fuel : forall s m ap, k_obs s !! p = Some m -> 32 <= so_objsz m <= 2048 -> 0 <= ap -> ap < vend + 2048 -> vend + 4096 < u64max ->
  (vend - ap) / 32 + 1 <= Z.of_nat fuel -> Q (k_exts s) ->
  0 <= so_mobjnr m -> so_mobjnr m + Z.of_nat (length (slots (so_objsz m) ap vend)) < u64max ->
  0 <= so_fobjnr m -> so_fobjnr m + Z.of_nat (length (slots (so_objsz m) ap vend)) < u64max ->
  exists x', Q x' /\ cut_loop fuel p vend ap linked s =
    Ret (tt, Kst (k_pa s) (k_mgr s) (<[p := cut_ob (slots (so_objsz m) ap vend) m]> (k_obs s)) x').
Proof using HQ.
  induction fuel as [|fuel IH]; intros s m ap Hm Ho Hap Hle Hv Hfu Hq Hm0 Hm1 Hf0 Hf1; cbn [cut_loop].
  - assert (vend - ap < 0 \/ 0 <= (vend - ap) / 32) as [|Hpos] by (destruct (decide (vend - ap < 0)); [by left|right; apply Z.div_pos; lia]); [|lia].
    replace (ap <? vend) with false by lia. rewrite slots_nil by lia. rewrite cut_ob_nil, insert_id by done. exists (k_exts s). split; [done|]. by destruct s.
  - destruct (ap <? vend) eqn:E; bool_to_prop.
    + rewrite (bind_eq _ _ _ _ _ (get_ob_eq _ _ _ Hm)). rewrite (u64_small (ap + so_objsz m)) by lia.
      assert (Hfu' : (vend - (ap + so_objsz m)) / 32 + 1 <= Z.of_nat fuel).
      { pose proof (Z.div_le_mono (vend - (ap + so_objsz m)) ((vend - ap) + (-1) * 32) 32 ltac:(lia) ltac:(lia)) as Hd. rewrite Z.div_add in Hd by lia. lia. }
      destruct (ap + so_objsz m <=? vend) eqn:E2; bool_to_prop.
      * rewrite slots_step in Hm1, Hf1 |- * by lia. cbn [length] in Hm1, Hf1.
        set (m1 := set_mobjnr (so_mobjnr m + 1) (set_free (so_fobjnr m + 1) (ap :: so_frelst m) m)).
        set (s1 := Kst (k_pa s) (k_mgr s) (<[p := m1]> (k_obs s)) (k_exts s)).
        assert (Hl : link_obj p ap s = Ret (tt, s1)).
        { unfold link_obj. rewrite (upd_ob_eq _ _ _ _ Hm). by rewrite !u64_small by lia. }
        destruct (HQ s1 Hq) as (x1 & Hx1 & Hk). set (s2 := Kst (k_pa s1) (k_mgr s1) (k_obs s1) x1) in Hk.
        destruct (IH s2 m1 (ap + so_objsz m)) as (x' & Hx' & Hc); try (cbn; lia).
        { by cbn; rewrite lookup_insert_eq. } { done. }
        exists x'. split; [done|]. rewrite (bind_eq _ _ s tt s2) by (by rewrite (bind_eq _ _ _ _ _ Hl)). rewrite Hc. cbn [k_pa k_mgr k_obs s2 s1].
        rewrite insert_insert_eq. unfold m1. rewrite cut_ob_cons. done.
      * rewrite slots_nil in Hm1, Hf1 |- * by lia. rewrite (bind_eq _ _ s tt s) by done.
        destruct (IH s m (ap + so_objsz m)) as (x' & Hx' & Hc); rewrite ?(slots_nil _ (ap + so_objsz m)) by lia; try (cbn; lia); try done.
        rewrite slots_nil in Hc by lia. eauto.
    + rewrite slots_nil by lia. rewrite cut_ob_nil, insert_id by done. exists (k_exts s). split; [done|]. by destruct s.
Qed.
End cut.

(** ** A new block *)

Lemma slots_few sz ap vend : 32 <= sz -> vend - ap <= 16384 -> Z.of_nat (length (slots sz ap vend)) <= 512.
Proof.
  intros Hsz Hv. unfold slots. rewrite length_fmap, length_seqZ. assert ((vend - ap) / sz < 513); [|lia]. apply Z.div_lt_upper_bound; lia.
Qed.

Lemma cut_fuel_ok st vend h : 0 <= h -> st <= vend -> (vend - (st + h)) / 32 + 1 <= Z.of_nat (cut_fuel st vend).
Proof.
  intros Hh Hv. unfold cut_fuel. assert (0 <= (vend - st) / 32) by (apply Z.div_pos; lia). rewrite Z2Nat.id by lia.
  apply Z.add_le_mono_r, Z.div_le_mono; lia.
Qed.

Lemma vir_small (s : kst S) q : 0 <= q < 2 ^ 34 -> phyadr_to_viradr q s = Ret (q + base, s).
Proof.
  intros Hq. unfold phyadr_to_viradr. replace (KRNL_MAP_PHYADDRESS_END <=? q) with false by (unfold KRNL_MAP_PHYADDRESS_END; lia).
  rewrite small_adr by (pose proof base_val; lia). done.
Qed.

Section region.
Context {s B J Rg} (HI : KInv s B J Rg) {P : Z -> Prop} {A : blocks} {pa d q n}
  (Hpg : pg_held pa P (<[d := (q, n)]> (A ∪ B))) (HAB : A ##ₘ B) (Hd : (A ∪ B) !! d = None) (Hk : krnl_block (q, n)).

Let st := q + base.
Let B' : blocks := <[d := (q, n)]> B.

Lemma new_page : page_block (q, n).
Proof using Hpg. apply (pg_block _ _ _ d _ Hpg). by rewrite lookup_insert_eq. Qed.

Lemma new_range : 0x2000000 <= q /\ 0 < n /\ q + 4096 * n <= 2 ^ 34 /\ q mod 4096 = 0.
Proof using Hpg Hk. pose proof new_page as Hp. unfold page_block, krnl_block in *. simpl in *. lia. Qed.

Lemma new_apart st' p' d' n' : Rg !! st' = Some (p', d', n') -> d' <> d /\ (st + 4096 * n <= st' \/ st' + 4096 * n' <= st).
Proof using HI Hpg HAB Hd.
  intros Hr. assert (HB : B !! d' = Some (st' - base, n')) by (apply (ki_blk _ _ _ _ HI); eauto).
  assert (HAB' : (A ∪ B) !! d' = Some (st' - base, n')) by (by apply lookup_union_Some_r).
  assert (Hne : d' <> d) by congruence. split; [done|].
  pose proof (pg_apart _ _ _ d d' (q, n) (st' - base, n') Hpg) as Hap. rewrite lookup_insert_eq, lookup_insert_ne in Hap by done.
  specialize (Hap eq_refl HAB' ltac:(done)). unfold block_apart in Hap. simpl in Hap. unfold st. lia.
Qed.

Lemma new_region_none : Rg !! st = None.
Proof using HI Hpg HAB Hd Hk.
  destruct (Rg !! st) as [[[p' d'] n']|] eqn:E; [|done]. destruct (new_apart _ _ _ _ E). pose proof (ki_reg _ _ _ _ HI _ _ _ _ E). pose proof new_range. lia.
Qed.

Lemma new_blocks : pg_held pa P (A ∪ B') /\ A ##ₘ B'.
Proof using Hpg HAB Hd.
  apply lookup_union_None in Hd as [HdA HdB]. unfold B'. split; [|by apply map_disjoint_insert_r].
  by rewrite <- insert_union_r.
Qed.

Lemma new_blk p d' b : B' !! d' = Some b <-> exists st' p' n', <[st := (p, d, n)]> Rg !! st' = Some (p', d', n') /\ b = (st' - base, n').
Proof using HI Hpg HAB Hd Hk.
  unfold B'. rewrite lookup_insert_Some. setoid_rewrite lookup_insert_Some. split.
  - intros [[<- <-]|[Hne Hb]].
    + exists st, p, n. split; [by left|]. unfold st. f_equal. lia.
    + apply (ki_blk _ _ _ _ HI) in Hb as (st' & p' & n' & Hr & ->). exists st', p', n'. split; [|done]. right. split; [|done].
      intros <-. by rewrite new_region_none in Hr.
  - intros (st' & p' & n' & [[<- [= <- <- <-]]|[Hne Hr]] & ->).
    + left. split; [done|]. unfold st. f_equal. lia.
    + right. destruct (new_apart _ _ _ _ Hr). split; [done|]. apply (ki_blk _ _ _ _ HI). eauto.
Qed.

Lemma new_reg p st' p' d' n' : <[st := (p, d, n)]> Rg !! st' = Some (p', d', n') ->
  (st' - base) mod 4096 = 0 /\ 0x2000000 <= st' - base /\ 0 < n' /\ st' - base + 4096 * n' <= 2 ^ 34.
Proof using HI Hpg HAB Hd Hk.
  intros [[<- [= <- <- <-]]|[Hne Hr]]%lookup_insert_Some; [|by apply (ki_reg _ _ _ _ HI _ _ _ _ Hr)].
  pose proof new_range. unfold st. replace (q + base - base) with q by lia. lia.
Qed.

Lemma new_reg_apart p st1 st2 p1 p2 d1 d2 n1 n2 : <[st := (p, d, n)]> Rg !! st1 = Some (p1, d1, n1) -> <[st := (p, d, n)]> Rg !! st2 = Some (p2, d2, n2) ->
  st1 <> st2 -> st1 + 4096 * n1 <= st2 \/ st2 + 4096 * n2 <= st1.
Proof using HI Hpg HAB Hd Hk.
  intros [[<- [= <- <- <-]]|[Hne1 Hr1]]%lookup_insert_Some [[<- [= <- <- <-]]|[Hne2 Hr2]]%lookup_insert_Some Hne; [done| | |].
  - apply (new_apart _ _ _ _ Hr2).
  - destruct (new_apart _ _ _ _ Hr1) as [_ ?]. lia.
  - by apply (ki_apart _ _ _ _ HI _ _ _ _ _ _ _ _ Hr1 Hr2).
Qed.

Lemma block_range_eq t : k_pa t = pa -> block_range d n t = Ret ((st, st + 4096 * n - 1), t).
Proof using Hpg Hk.
  intros Hpa. pose proof new_range as Hr. pose proof base_val as Hbv. unfold block_range.
  rewrite (bind_eq _ _ t q t). 2: { apply k_on_pa_eq. rewrite Hpa. apply (pg_addr_spec _ _ _ d q n Hpg). by rewrite lookup_insert_eq. }
  rewrite shl12. rewrite (u64_small (4096 * n)) by (rewrite u64max_val; lia). rewrite (u64_small (q + _)) by (rewrite u64max_val; lia).
  rewrite (u64_small (q + 4096 * n - 1)) by (rewrite u64max_val; lia).
  rewrite (bind_eq _ _ _ _ _ (vir_small t q ltac:(lia))). rewrite (bind_eq _ _ _ _ _ (vir_small t (q + 4096 * n - 1) ltac:(lia))).
  unfold st. by replace (q + 4096 * n - 1 + base) with (q + base + 4096 * n - 1) by lia.
Qed.

(** ** A pool created in the block *)

Definition new_ob (sz : Z) : kmsob_t :=
  cut_ob (slots sz (st + sizeof_kmsob_t) (st + 4096 * n - 1)) (Kmsob st (st + 4096 * n - 1) sz 0 0 [] [] 0 (Msomdc (mc_lst msomdc_t_init) [d] n)).

Lemma create_init_eq sz (t : kst S) : 32 <= sz <= 2048 -> n = block_pages sz ->
  _create_init_kmsob st sz st (st + 4096 * n - 1) d n t = Ret (st, Kst (k_pa t) (k_mgr t) (<[st := new_ob sz]> (k_obs t)) (k_exts t)).
Proof using Hpg Hk.
  intros Hsz Hn. pose proof base_val as Hbv. destruct new_range as (Hq & Hn0 & Hq' & _). destruct (block_pages_range sz) as [Hbp _].
  pose proof (slots_few sz (st + sizeof_kmsob_t) (st + 4096 * n - 1) ltac:(lia) ltac:(unfold sizeof_kmsob_t; lia)) as Hfew.
  unfold _create_init_kmsob. replace (st =? 0) with false by (unfold st; lia). replace (1 >? sz) with false by lia.
  replace (st + 4096 * n - 1 =? 0) with false by (unfold st; lia). replace (1 >? n) with false by lia. cbn [orb]. unfold sizeof_freobjh_t.
  replace (sz <? 32) with false by lia. replace (st + 4096 * n - 1 - st) with (4096 * n - 1) by lia.
  rewrite (small_adr (4096 * n - 1)) by lia. rewrite small_adr by lia. rewrite Z.sub_add. unfold PAGESIZE.
  replace (4096 * n <? 4096) with false by lia. replace (4096 * n <=? sizeof_kmsob_t + 32) with false by (unfold sizeof_kmsob_t; lia).
  rewrite (small_adr (st + sizeof_kmsob_t)) by (unfold st, sizeof_kmsob_t; lia).
  set (m0 := Kmsob st (st + 4096 * n - 1) sz 0 0 [] [] 0 (Msomdc (mc_lst msomdc_t_init) [d] n)).
  set (s2 := Kst (k_pa t) (k_mgr t) (<[st := m0]> (k_obs t)) (k_exts t)). rewrite (bind_eq _ _ t tt s2) by done.
  destruct (cut_loop_spec (fun x => x = k_exts t) (mret tt) st (st + 4096 * n - 1) ltac:(intros u Ht; exists (k_exts u); split; [exact Ht|by destruct u])
    (cut_fuel st (st + 4096 * n - 1)) s2 m0 (st + sizeof_kmsob_t)) as (x' & -> & Hcut); try done;
    try (cbn; rewrite ?u64max_val; unfold st, sizeof_kmsob_t in *; lia).
  - cbn. by rewrite lookup_insert_eq.
  - apply cut_fuel_ok; unfold sizeof_kmsob_t; lia.
  - rewrite (bind_eq _ _ _ _ _ Hcut). cbn [k_pa k_mgr k_obs s2]. by rewrite insert_insert_eq.
Qed.

Definition new_mgr (i : Z) (c : koblst_t) (g : kmsobmgrhed_t) : kmsobmgrhed_t :=
  Kmsobmgrhed (ks_msobnr g + 1) (ks_msobche g) (<[i := Koblst (st :: ol_emplst c) (ol_cahe c) (ol_emnr c + 1) (ol_sz c)]> (ks_msoblst g)).

Lemma new_ob_none : k_obs s !! st = None.
Proof using HI Hpg HAB Hd Hk.
  destruct (k_obs s !! st) as [m|] eqn:E; [|done]. destruct (pool_at HI _ _ E) as (i & c & _ & _ & _ & HP).
  destruct (po_main _ _ _ _ _ _ HP) as (d' & Hr & _). by rewrite new_region_none in Hr.
Qed.

Lemma new_owner st' d' n' : <[st := (st, d, n)]> Rg !! st' = Some (st, d', n') <-> st' = st /\ d' = d /\ n' = n.
Proof using HI Hpg HAB Hd Hk.
  rewrite lookup_insert_Some. split; [|intros (-> & -> & ->); by left]. intros [[<- [= <- <-]]|[Hne Hr]]; [done|].
  destruct (ki_own _ _ _ _ HI _ _ _ _ Hr) as [m Hm]. by rewrite new_ob_none in Hm.
Qed.

Lemma new_slot sz a : slot (<[st := (st, d, n)]> Rg) st sz a <-> a ∈ slots sz (st + sizeof_kmsob_t) (st + 4096 * n - 1).
Proof using HI Hpg HAB Hd Hk.
  unfold slot. setoid_rewrite new_owner. assert (Hh : hdr st st = sizeof_kmsob_t) by (unfold hdr; by rewrite decide_True). split.
  - intros (st' & d' & n' & (-> & -> & ->) & Ha). by rewrite Hh in Ha.
  - intros Ha. exists st, d, n. by rewrite Hh.
Qed.

Lemma new_pool_ok X i : 0 <= i < 64 -> n = block_pages (32 + 32 * i) -> pool_ok (<[st := (st, d, n)]> Rg) X J i st (new_ob (32 + 32 * i)).
Proof using HI Hpg HAB Hd Hk.
  intros Hi Hn. split; cbn [new_ob cut_ob set_mobjnr set_free so_vstat so_vend so_objsz so_mc so_mextlst so_mextnr so_frelst so_fobjnr so_mobjnr
    mc_lst mc_kmobinlst mc_kmobinpnr].
  - done.
  - done.
  - exists d. rewrite <- Hn. split_and!; [by apply new_owner|done|done|done].
  - intros e d' n' (_ & _ & ->)%new_owner. done.
  - intros e. split; [by intros ?%elem_of_nil|]. intros (Hne & d' & n' & (-> & _)%new_owner). done.
  - split; [apply NoDup_nil_2|done].
  - intros e d' n' (-> & _)%new_owner. done.
  - intros j Hj. exists (msclst_t_init (2 ^ j)). split_and!; [|done|apply NoDup_nil_2|done|].
    + unfold msomdc_t_init. cbn [mc_lst]. rewrite lookup_tabulate. unfold MSCLST_MAX in Hj. replace ((0 <=? j) && (j <? MSCLST_MAX)) with true by (unfold MSCLST_MAX; lia).
      rewrite Z.shiftl_1_l. rewrite u64_small; [done|]. rewrite u64max_val. pose proof (pow2_pos j ltac:(lia)). pose proof (pow2_lt j 5 ltac:(lia)). lia.
    + intros d'. split; [by intros ?%elem_of_nil|]. intros (e & Hne & (-> & _)%new_owner). done.
  - rewrite app_nil_r. split; [|rewrite length_rev; lia]. apply NoDup_rev, NoDup_slots. lia.
  - intros a Ha. rewrite app_nil_r, elem_of_rev in Ha. by apply new_slot.
  - exists (slots (32 + 32 * i) (st + sizeof_kmsob_t) (st + 4096 * n - 1)). split_and!; [apply NoDup_slots; lia|lia|]. intros a. by rewrite new_slot.
  - intros a Ha%new_slot Hn'. destruct Hn'. by rewrite app_nil_r, elem_of_rev.
Qed.

Lemma kinv_create i c : 0 <= i < 64 -> ks_msoblst (k_mgr s) !! i = Some c -> n = block_pages (32 + 32 * i) ->
  KInv (Kst pa (new_mgr i c (k_mgr s)) (<[st := new_ob (32 + 32 * i)]> (k_obs s)) (k_exts s)) B' J (<[st := (st, d, n)]> Rg).
Proof using HI Hpg HAB Hd Hk.
  intros Hi Hc Hn. pose proof HI as [I1 I2 I3 I4 I5 I6 I7 I8 I9 I10]. pose proof new_ob_none as Hno. destruct (I6 _ _ Hc) as (Hcs & Hnd & Hen & Hca).
  assert (Hst : forall j c', ks_msoblst (k_mgr s) !! j = Some c' -> st ∉ ol_emplst c').
  { intros j c' Hc' Hin. destruct (I7 _ _ _ Hc' Hin) as (m & Hm & _). congruence. }
  assert (Hrg : forall p st' d' n', p <> st -> <[st := (st, d, n)]> Rg !! st' = Some (p, d', n') <-> Rg !! st' = Some (p, d', n')).
  { intros p st' d' n' Hq. rewrite lookup_insert_Some. split; [by intros [[_ [= ? _ _]]|[_ ?]]|]. intros Hr. right. split; [|done].
    intros <-. by rewrite new_region_none in Hr. }
  assert (Hslot : forall p sz a, p <> st -> slot (<[st := (st, d, n)]> Rg) p sz a <-> slot Rg p sz a).
  { intros p sz a Hq. unfold slot. split; intros (st' & d' & n' & Hr & Ha); exists st', d', n'; (split; [|done]); by apply (Hrg p). }
  split; cbn [k_obs k_mgr k_exts new_mgr ks_msoblst ks_msobnr].
  - apply (new_blk st).
  - apply (new_reg st).
  - intros st' p d' n' [[<- [= <- <- <-]]|[Hne Hr]]%lookup_insert_Some; [by rewrite lookup_insert_eq|].
    destruct (I3 _ _ _ _ Hr) as [m Hm]. rewrite lookup_insert_ne; [eauto|]. intros <-. congruence.
  - apply (new_reg_apart st).
  - intros j. rewrite lookup_insert_is_Some. rewrite I5. unfold KOBLST_MAX. destruct (decide (i = j)) as [<-|]; [split; [lia|by left]|]. tauto.
  - intros j c' [[<- <-]|[Hne Hc']]%lookup_insert_Some; [|by apply I6]. cbn [ol_sz ol_emplst ol_emnr ol_cahe length]. split_and!; [done|apply NoDup_cons; split; [by apply (Hst i)|done]|lia|].
    destruct Hca as [|Hca]; [by left|right; by right].
  - assert (Hold : forall j c' p, ks_msoblst (k_mgr s) !! j = Some c' -> p ∈ ol_emplst c' -> exists m, <[st := new_ob (32 + 32 * i)]> (k_obs s) !! p = Some m /\
      pool_ok (<[st := (st, d, n)]> Rg) (k_exts s) J j p m).
    { intros j c' p Hc' Hq. destruct (I7 _ _ _ Hc' Hq) as (m & Hm & HP). assert (Hne : p <> st) by congruence. exists m. rewrite lookup_insert_ne by done.
      split; [done|]. apply (pool_frame _ _ _ _ _ _ _ _ _ HP); [|done|done]. intros st' d' n'. by apply Hrg. }
    intros j c' p [[<- <-]|[Hne Hc']]%lookup_insert_Some Hq; [|by apply (Hold j c')]. cbn in Hq. apply elem_of_cons in Hq as [->|Hq]; [|by apply (Hold i c)].
    rewrite lookup_insert_eq. eexists. split; [done|]. by apply new_pool_ok.
  - intros p m [[<- <-]|[Hne Hq]]%lookup_insert_Some.
    + exists i. eexists. rewrite lookup_insert_eq. split; [done|]. cbn. by left.
    + destruct (I8 _ _ Hq) as (j & c' & Hc' & Hin). destruct (decide (i = j)) as [<-|Hij].
      * exists i. eexists. rewrite lookup_insert_eq. split; [done|]. cbn. simplify_eq. by right.
      * exists j, c'. by rewrite lookup_insert_ne.
  - rewrite map_size_insert_None by done. lia.
  - intros a sz Ha. destruct (I10 _ _ Ha) as (Hs & p & m & Hq & Hsl & Hf & Eo). split; [done|]. assert (Hne : p <> st) by congruence.
    exists p, m. rewrite lookup_insert_ne by done. split_and!; [done|by apply Hslot|done|done].
Qed.

(** ** A pool extended by the block *)

Section extend.
Context {i p : Z} {m : kmsob_t} (Hm : k_obs s !! p = Some m) (HP : pool_ok Rg (k_exts s) J i p m) (Hn : n = block_pages (so_objsz m)) (Hfr : so_frelst m = []).
Context {j : Z} (Hj : 0 <= j < MSCLST_MAX) (Hnj : n = 2 ^ j) {k : Z}.

Let sl := slots (so_objsz m) (st + sizeof_kmbext_t) (st + 4096 * n - 1).
Let Rg' : regions := <[st := (p, d, n)]> Rg.

Definition ext_mc : msomdc_t :=
  Msomdc (alter (fun l => Msclst (ml_msanr l + 1) (ml_ompnr l) (d :: ml_list l)) j (mc_lst (so_mc m))) (mc_kmobinlst (so_mc m)) (mc_kmobinpnr (so_mc m)).
Definition ext_ob : kmsob_t := set_ext (so_mextnr m + 1) (st :: so_mextlst m) (cut_ob sl (set_mc ext_mc m)).
Definition ext_exts : gmap Z kmbext_t := <[st := Kmbext st (st + 4096 * n - 1) p k]> (k_exts s).

Lemma ext_not_pool : st <> p.
Proof using HI Hpg HAB Hd Hk HP.
  intros E. destruct (po_main _ _ _ _ _ _ HP) as (d' & Hr & _). rewrite <- E in Hr. by rewrite new_region_none in Hr.
Qed.

Lemma ext_region st' p' d' n' : Rg' !! st' = Some (p', d', n') <-> (st' = st /\ p' = p /\ d' = d /\ n' = n) \/ Rg !! st' = Some (p', d', n').
Proof using HI Hpg HAB Hd Hk.
  unfold Rg'. rewrite lookup_insert_Some. split; [intros [[<- [= <- <- <-]]|[_ ?]]; [by left|by right]|].
  intros [(-> & -> & -> & ->)|Hr]; [by left|right]. split; [|done]. intros <-. by rewrite new_region_none in Hr.
Qed.

Lemma ext_slot p' sz a : slot Rg' p' sz a <-> (p' = p /\ a ∈ slots sz (st + sizeof_kmbext_t) (st + 4096 * n - 1)) \/ slot Rg p' sz a.
Proof using HI Hpg HAB Hd Hk HP.
  unfold slot. setoid_rewrite ext_region. assert (Hh : hdr p st = sizeof_kmbext_t) by (unfold hdr; rewrite decide_False by apply ext_not_pool; done). split.
  - intros (st' & d' & n' & [(-> & -> & -> & ->)|Hr] & Ha); [left; by rewrite Hh in Ha|right; eauto].
  - intros [[-> Ha]|(st' & d' & n' & Hr & Ha)]; [|by exists st', d', n'; eauto]. exists st, d, n. rewrite Hh. split; [by left|done].
Qed.

Lemma ext_slot_new a : a ∈ sl -> ~ slot Rg p (so_objsz m) a.
Proof using HI Hpg HAB Hd Hk Hm.
  clear dependent j. intros Ha Hs. pose proof (pool_size HI _ _ Hm) as Hsz. apply elem_of_slots in Ha as (x & Hx & -> & Hv); [|lia].
  destruct (slot_range HI _ (so_objsz m) _ ltac:(lia) Hs) as (st' & d' & n' & Hr & Hlo & Hhi & _). destruct (new_apart _ _ _ _ Hr) as [_ Hap].
  pose proof (hdr_pos p st'). unfold sizeof_kmbext_t in *. nia.
Qed.

Lemma ext_pool_ok : pool_ok Rg' ext_exts J i p ext_ob.
Proof using HI Hpg HAB Hd Hk Hm HP Hn Hfr Hj Hnj.
  pose proof (pool_size HI _ _ Hm) as Hsz. destruct (po_extnr _ _ _ _ _ _ HP) as [Hndx Hnx]. destruct (po_frelst _ _ _ _ _ _ HP) as [_ Hf].
  rewrite Hfr in Hf. cbn in Hf. pose proof new_region_none as Hnone. unfold sl in *.
  split; cbn [ext_ob cut_ob set_ext set_mobjnr set_free set_mc ext_mc so_vstat so_vend so_objsz so_mc so_mextlst so_mextnr so_frelst so_fobjnr so_mobjnr
    mc_lst mc_kmobinlst mc_kmobinpnr].
  - apply HP.
  - apply HP.
  - destruct (po_main _ _ _ _ _ _ HP) as (d' & Hr & ?). exists d'. split; [|done]. apply ext_region. by right.
  - intros e d' n' [(_ & _ & _ & ->)|Hr]%ext_region; [done|]. by apply (po_pages _ _ _ _ _ _ HP _ _ _ Hr).
  - intros e. rewrite elem_of_cons, (po_exts _ _ _ _ _ _ HP). setoid_rewrite ext_region. split.
    + intros [->|(Hne & d' & n' & Hr)]; [split; [apply ext_not_pool|]; exists d, n; by left|]. split; [done|]. exists d', n'. by right.
    + intros (Hne & d' & n' & [(-> & _)|Hr]); [by left|right; eauto].
  - split; [|cbn [length]; lia]. apply NoDup_cons. split; [|done]. intros (_ & d' & n' & Hr)%(po_exts _ _ _ _ _ _ HP). congruence.
  - intros e d' n' Hr Hne. apply ext_region in Hr as [(-> & _ & _ & ->)|Hr]; unfold ext_exts.
    + rewrite lookup_insert_eq. eauto.
    + rewrite lookup_insert_ne by (intros <-; congruence). by apply (po_ext _ _ _ _ _ _ HP e d').
  - intros j' Hj'. destruct (po_mc _ _ _ _ _ _ HP j' Hj') as (l & Hl & Ho & Hnd & Hnr & Hin). destruct (decide (j' = j)) as [->|Hne].
    + exists (Msclst (ml_msanr l + 1) (ml_ompnr l) (d :: ml_list l)). rewrite lookup_alter_eq, Hl. cbn [ml_ompnr ml_list ml_msanr length].
      split_and!; [done|done| |lia|].
      * apply NoDup_cons. split; [|done]. intros (e & _ & Hr)%Hin. by destruct (new_apart _ _ _ _ Hr).
      * intros d'. rewrite elem_of_cons, Hin. setoid_rewrite ext_region. split.
        -- intros [->|(e & Hne & Hr)]; [exists st; split; [apply ext_not_pool|by left]|]. exists e. split; [done|by right].
        -- intros (e & Hne & [(-> & _ & -> & _)|Hr]); [by left|right; eauto].
    + exists l. rewrite lookup_alter_ne by done. split_and!; [done..|]. intros d'. rewrite Hin. setoid_rewrite ext_region. split.
      * intros (e & Hne' & Hr). exists e. split; [done|by right].
      * intros (e & Hne' & [(_ & _ & _ & E)|Hr]); [|eauto]. rewrite Hnj in E. apply pow2_inj in E; unfold MSCLST_MAX in *; lia.
  - rewrite Hfr, app_nil_r. split; [apply NoDup_rev, NoDup_slots; lia|rewrite length_rev; lia].
  - intros a. rewrite Hfr, app_nil_r, elem_of_rev. intros Ha. apply ext_slot. by left.
  - destruct (po_slots _ _ _ _ _ _ HP) as (L & HndL & HnL & HL). exists (sl ++ L). unfold sl. split_and!; [|rewrite length_app; lia|].
    + apply NoDup_app. split_and!; [apply NoDup_slots; lia| |done]. intros a Ha Ha'%HL. by apply (ext_slot_new a).
    + intros a. rewrite elem_of_app, HL, ext_slot. tauto.
  - intros a. rewrite Hfr, app_nil_r, elem_of_rev. intros [[_ Ha]|Ha]%ext_slot Hna; [done|]. apply (po_used _ _ _ _ _ _ HP a Ha). rewrite Hfr. apply not_elem_of_nil.
Qed.

Lemma kinv_extend : KInv (Kst pa (k_mgr s) (<[p := ext_ob]> (k_obs s)) ext_exts) B' J Rg'.
Proof using HI Hpg HAB Hd Hk Hm HP Hn Hfr Hj Hnj.
  pose proof HI as [I1 I2 I3 I4 I5 I6 I7 I8 I9 I10]. split; cbn [k_obs k_mgr k_exts]; try done.
  - apply (new_blk p).
  - apply (new_reg p).
  - intros st' p' d' n' [(_ & -> & _ & _)|Hr]%ext_region; [by rewrite lookup_insert_eq|].
    destruct (I3 _ _ _ _ Hr) as [m' Hm']. destruct (decide (p' = p)) as [->|Hne]; [by rewrite lookup_insert_eq|]. rewrite lookup_insert_ne by done. eauto.
  - apply (new_reg_apart p).
  - intros i' c p' Hc Hp'. destruct (I7 _ _ _ Hc Hp') as (m' & Hm' & HP'). destruct (decide (p' = p)) as [->|Hne].
    + rewrite lookup_insert_eq. eexists. split; [done|]. simplify_eq.
      assert (i' = i) as -> by (pose proof (po_sz _ _ _ _ _ _ HP); pose proof (po_sz _ _ _ _ _ _ HP'); lia). apply ext_pool_ok.
    + rewrite lookup_insert_ne by done. exists m'. split; [done|]. apply (pool_frame _ _ _ _ _ _ _ _ _ HP'); [| |done].
      * intros st' d' n'. rewrite ext_region. split; [intros [(_ & ? & _)|?]; [congruence|done]|by right].
      * intros st' d' n' Hr. unfold ext_exts. rewrite lookup_insert_ne; [done|]. intros <-. by rewrite new_region_none in Hr.
  - intros p' m' [[<- <-]|[Hne Hp']]%lookup_insert_Some; eauto.
  - rewrite I9, map_size_insert_Some; [done|]. by rewrite Hm.
  - intros a sz Ha. destruct (I10 _ _ Ha) as (Hs & p' & m' & Hp' & Hsl & Hf & Eo). split; [done|]. destruct (decide (p' = p)) as [->|Hne].
    + simplify_eq. exists p, ext_ob. rewrite lookup_insert_eq. split_and!; [done|apply ext_slot; by right| |done]. cbn. rewrite Hfr, app_nil_r, elem_of_rev.
      intros Hin. by apply (ext_slot_new a).
    + exists p', m'. rewrite lookup_insert_ne by done. split_and!; [done|apply ext_slot; by right|done|done].
Qed.
End extend.
End region.

Lemma _create_kmsob_spec s B J Rg P A i c : KInv s B J Rg -> pg_held (k_pa s) P (A ∪ B) -> A ##ₘ B -> 0 <= i < 64 -> ks_msoblst (k_mgr s) !! i = Some c ->
  wp (_create_kmsob i (32 + 32 * i)) s (fun r s' => (r = 0 /\ s' = s) \/
    exists B' Rg' m c', pg_held (k_pa s') P (A ∪ B') /\ A ##ₘ B' /\ KInv s' B' J Rg' /\ k_obs s' = <[r := m]> (k_obs s) /\ k_obs s !! r = None /\
      so_frelst m <> [] /\ ks_msoblst (k_mgr s') !! i = Some c' /\ r ∈ ol_emplst c').
Proof.
  intros HI Hpg HAB Hi Hc. pose proof base_val as Hbv. destruct (ki_cls _ _ _ _ HI _ _ Hc) as (Hcs & _ & Hen & _).
  destruct (block_pages_range (32 + 32 * i)) as [Hbp Hlg]. unfold _create_kmsob. replace (1 >? 32 + 32 * i) with false by lia.
  apply wp_bind, wp_k_on_pa. eapply wp_mono; [apply (pg_division_spec _ _ _ _ Hpg); rewrite u64max_val; lia|].
  intros r pa [(d & q & n & -> & Hn & Hd & Hk & Hpg')|[-> ->]]; [|apply wp_ret; left; by destruct s]. rewrite Hlg in Hn.
  destruct (new_range Hpg' Hk) as (Hq & Hn0 & Hq' & _). cbn beta iota. apply wp_bind, wp_die_if; [lia|].
  apply wp_bind. set (s1 := Kst pa (k_mgr s) (k_obs s) (k_exts s)). rewrite (wp_det _ _ _ _ _ (block_range_eq Hpg' Hk s1 eq_refl)). cbn beta iota.
  apply wp_bind. rewrite (wp_det _ _ _ _ _ (get_kobl_eq s1 i c Hc)), Hcs. apply wp_bind.
  set (st := q + base). pose proof (block_fits (32 + 32 * i) sizeof_kmsob_t ltac:(lia) ltac:(unfold sizeof_kmsob_t; lia)) as Hfit. rewrite <- Hn in Hfit.
  assert (Hci := create_init_eq Hpg' Hk (32 + 32 * i) s1 ltac:(lia) Hn). cbn [k_pa k_mgr k_obs k_exts s1] in Hci. fold st in Hci.
  rewrite (wp_det _ _ _ _ _ Hci). replace (st =? 0) with false by (unfold st; lia). apply wp_bind.
  set (s3 := Kst pa _ _ _). unfold kmsob_add_koblst. replace (st =? 0) with false by (unfold st; lia).
  assert (Hno : k_obs s !! st = None) by (apply (new_ob_none HI Hpg' HAB Hd Hk)).
  assert (H3 : k_obs s3 !! st = Some (new_ob (d := d) (q := q) (n := n) (32 + 32 * i))) by apply lookup_insert_eq.
  apply wp_bind. rewrite (wp_det _ _ _ _ _ (get_ob_eq _ _ _ H3)). apply wp_bind. rewrite (wp_det _ _ _ _ _ (get_kobl_eq s3 i c Hc)).
  cbn [new_ob cut_ob set_mobjnr set_free so_objsz]. rewrite Hcs. replace (32 + 32 * i >? 32 + 32 * i) with false by lia.
  apply wp_bind. rewrite (wp_det _ _ _ _ _ (upd_kobl_eq s3 i c _ Hc)). apply wp_ret. apply wp_bind, wp_die_if; [done|]. apply wp_bind, wp_modify, wp_ret. right.
  pose proof (class_few HI _ _ Hc). pose proof (pools_few HI). pose proof (ki_nr _ _ _ _ HI) as Hnr.
  destruct (new_blocks Hpg' HAB Hd) as [Hb1 Hb2]. exists (<[d := (q, n)]> B), (<[st := (st, d, n)]> Rg), (new_ob (d := d) (q := q) (n := n) (32 + 32 * i)).
  eexists. cbn [k_pa k_mgr k_obs k_exts s3 ks_msobnr ks_msobche ks_msoblst]. rewrite !u64_small by (rewrite u64max_val; lia).
  split_and!; [done|done|by apply (kinv_create HI Hpg' HAB Hd Hk i c)|done|done| |by rewrite lookup_insert_eq|by left].
  cbn. rewrite slots_step by (unfold st; lia). cbn [rev]. rewrite <- app_assoc. intros E. by apply app_nil in E as [_ ?].
Qed.

(** The blocks on the lists of a pool are few. *)
Lemma mc_few s B J Rg i p m j l : KInv s B J Rg -> pool_ok Rg (k_exts s) J i p m -> 0 <= j < MSCLST_MAX -> mc_lst (so_mc m) !! j = Some l ->
  ml_msanr l = Z.of_nat (length (ml_list l)) /\ Z.of_nat (length (ml_list l)) <= 2 ^ 34.
Proof.
  intros HI HP Hj Hl. destruct (po_mc _ _ _ _ _ _ HP j Hj) as (l' & Hl' & _ & Hnd & Hnr & Hin). simplify_eq. split; [done|].
  pose (f := fun d : Z => default 0 (fst <$> B !! d) + base).
  assert (Hf : forall d e n, Rg !! e = Some (p, d, n) -> f d = e).
  { intros d e n Hr. unfold f. rewrite (proj2 (ki_blk _ _ _ _ HI d (e - base, n))) by eauto. cbn. lia. }
  rewrite <- (length_fmap f). apply few.
  - apply NoDup_fmap_2_strong; [|done]. intros d d' (e & _ & He)%Hin (e' & _ & He')%Hin E. rewrite (Hf _ _ _ He), (Hf _ _ _ He') in E. subst e'. congruence.
  - intros a (d & -> & (e & _ & He)%Hin)%list_elem_of_fmap. rewrite (Hf _ _ _ He). pose proof (ki_reg _ _ _ _ HI _ _ _ _ He). lia.
Qed.

Lemma kmsob_extn_pages_spec s B J Rg P A p m : KInv s B J Rg -> pg_held (k_pa s) P (A ∪ B) -> A ##ₘ B -> k_obs s !! p = Some m -> so_frelst m = [] ->
  wp (kmsob_extn_pages p) s (fun r s' => (r = false /\ s' = s) \/
    (r = true /\ exists B' Rg' m', pg_held (k_pa s') P (A ∪ B') /\ A ##ₘ B' /\ KInv s' B' J Rg' /\ k_mgr s' = k_mgr s /\
       k_obs s' = <[p := m']> (k_obs s) /\ so_frelst m' <> [])).
Proof.
  intros HI Hpg HAB Hm Hfr. pose proof base_val as Hbv. destruct (pool_at HI _ _ Hm) as (i & c & Hi & _ & _ & HP).
  pose proof (pool_size HI _ _ Hm) as Hsz. destruct (free_few HI _ _ Hm) as ([Hf0 Hf1] & Hf2 & Hx0 & Hx1). destruct (block_pages_range (so_objsz m)) as [Hbp Hlg].
  destruct (retn_mscidx_block (so_objsz m)) as (j & Hj & Hmi & Hnj).
  unfold kmsob_extn_pages. rewrite (pool_nonzero HI _ _ Hm). apply wp_bind. rewrite (wp_det _ _ _ _ _ (get_ob_eq _ _ _ Hm)).
  replace (_ || _) with false by (symmetry; unfold ones64; rewrite u64max_val; apply orb_false_iff; split; [apply orb_false_iff; split|]; lia).
  apply wp_bind, wp_k_on_pa. eapply wp_mono; [apply (pg_division_spec _ _ _ _ Hpg); rewrite u64max_val; lia|].
  intros r pa [(d & q & n & -> & Hn & Hd & Hk & Hpg')|[-> ->]]; [|apply wp_ret; left; by destruct s]. rewrite Hlg in Hn.
  destruct (new_range Hpg' Hk) as (Hq & Hn0 & Hq' & _). cbn beta iota. apply wp_bind, wp_die_if; [lia|].
  apply wp_bind. set (s1 := Kst pa (k_mgr s) (k_obs s) (k_exts s)). rewrite (wp_det _ _ _ _ _ (block_range_eq Hpg' Hk s1 eq_refl)). cbn beta iota.
  rewrite Hn, Hmi, <- Hn. unfold MSCLST_MAX in *. replace ((5 <=? j) || (0 >? j)) with false by lia.
  set (st := q + base). pose proof (block_fits (so_objsz m) sizeof_kmbext_t ltac:(lia) ltac:(unfold sizeof_kmbext_t, sizeof_kmsob_t; lia)) as Hfit. rewrite <- Hn in Hfit.
  pose proof (slots_few (so_objsz m) (st + sizeof_kmbext_t) (st + 4096 * n - 1) ltac:(lia) ltac:(unfold sizeof_kmbext_t; lia)) as Hfew.
  destruct (po_mc _ _ _ _ _ _ HP j Hj) as (l & Hl & _). destruct (mc_few _ _ _ _ _ _ _ _ _ HI HP Hj Hl) as [Hml Hml'].
  assert (Efile : file_msa j d (so_mc m) = ext_mc (d := d) (m := m) (j := j)).
  { unfold file_msa, ext_mc. f_equal. apply map_eq. intros x. destruct (decide (x = j)) as [->|Hne]; [|by rewrite !lookup_alter_ne].
    rewrite !lookup_alter_eq, Hl. cbn. rewrite u64_small by (rewrite u64max_val; lia). done. }
  apply wp_bind. rewrite (wp_det _ _ _ _ _ (upd_ob_eq s1 p m _ Hm)), Efile. apply wp_bind, wp_modify. cbn [k_pa k_mgr k_obs k_exts s1].
  set (m1 := set_mc ext_mc m). set (s2 := Kst pa (k_mgr s) (<[p := m1]> (k_obs s)) _).
  destruct (cut_loop_spec (fun x => exists k, x = <[st := Kmbext st (st + 4096 * n - 1) p k]> (k_exts s))
    (x ← get_ext st; put_exts <[st := Kmbext (mt_vstat x) (mt_vend x) (mt_kmsb x) (mt_mobjnr x +u 1)]>) p (st + 4096 * n - 1)
    ltac:(intros u [k Hu]; eexists; split; [|unfold get_ext, mbind, M_bind; rewrite Hu, lookup_insert_eq; reflexivity];
      rewrite ?Hu, insert_insert_eq; eexists; reflexivity)
    (cut_fuel st (st + 4096 * n - 1)) s2 m1 (st + sizeof_kmbext_t)) as (x' & [k ->] & Hcut); try done;
    try (cbn; rewrite ?u64max_val; unfold st, sizeof_kmbext_t in *; lia).
  { cbn. by rewrite lookup_insert_eq. } { apply cut_fuel_ok; unfold sizeof_kmbext_t; lia. } { by eexists. }
  rewrite (small_adr (st + sizeof_kmbext_t)) by (unfold st, sizeof_kmbext_t; lia). apply wp_bind. rewrite (wp_det _ _ _ _ _ Hcut).
  cbn [k_pa k_mgr k_obs s2]. rewrite insert_insert_eq. apply wp_bind. set (s3 := Kst pa _ _ _).
  assert (H3 : k_obs s3 !! p = Some (cut_ob (slots (so_objsz m1) (st + sizeof_kmbext_t) (st + 4096 * n - 1)) m1)) by apply lookup_insert_eq.
  rewrite (wp_det _ _ _ _ _ (upd_ob_eq _ _ _ _ H3)). apply wp_ret. right. split; [done|]. cbn [k_pa k_mgr k_obs k_exts s3]. rewrite insert_insert_eq.
  rewrite u64_small by (cbn; rewrite u64max_val; lia). destruct (new_blocks Hpg' HAB Hd) as [Hb1 Hb2].
  exists (<[d := (q, n)]> B), (<[st := (p, d, n)]> Rg). eexists. split_and!; [done|done| |done|done|].
  - apply (kinv_extend HI Hpg' HAB Hd Hk Hm HP Hn Hfr Hj ltac:(lia)).
  - cbn. rewrite slots_step by (unfold st; lia). cbn [rev]. rewrite <- app_assoc. intros E. by apply app_nil in E as [_ ?].
Qed.
End pool.
