(* ===== verification/KmsobDestroy.v ===== *)
(** * The object allocator: an empty pool destroyed

    The blocks of the pool go back to the page allocator, the pool leaves its
    class; the other pools and every object handed out stay. *)

From S2P Require Import Prelude PhyMem DivMer DivMerInv DivMerOps DivMerAlloc Boot BootSpec BootPages PageIf ObjIf Kmsob KmsobInv KmsobOps KmsobPool.

(** [A1] is [A0] without the blocks [D]. *)
Definition wiped (D : list Z) (A0 A1 : blocks) : Prop := forall d, A1 !! d = if decide (d ∈ D) then None else A0 !! d.

Lemma wiped_nil A : wiped [] A A.
Proof. intros d. by rewrite decide_False by apply not_elem_of_nil. Qed.

Lemma wiped_app D D' A0 A1 A2 : wiped D A0 A1 -> wiped D' A1 A2 -> wiped (D ++ D') A0 A2.
Proof.
  intros H1 H2 d. rewrite H2, H1. destruct (decide (d ∈ D)) as [Hd|Hd], (decide (d ∈ D')) as [Hd'|Hd']; rewrite ?decide_True, ?decide_False by set_solver; done.
Qed.

Lemma wiped_cons d D A0 A1 : wiped D (delete d A0) A1 -> wiped (d :: D) A0 A1.
Proof.
  intros H1. apply (wiped_app [d] D _ (delete d A0)); [|done]. intros x. destruct (decide (x = d)) as [->|Hne].
  - by rewrite lookup_delete_eq, decide_True by (by left).
  - rewrite lookup_delete_ne by done. by rewrite decide_False by (by rewrite list_elem_of_singleton).
Qed.

(** The list [j] of a pool emptied. *)
Definition msa_clear (j : option Z) (m : kmsob_t) : kmsob_t :=
  let c := so_mc m in
  set_mc match j with
         | Some i => Msomdc (alter (fun l => Msclst (ml_msanr l) (ml_ompnr l) []) i (mc_lst c)) (mc_kmobinlst c) (mc_kmobinpnr c)
         | None => Msomdc (mc_lst c) [] (mc_kmobinpnr c)
         end m.

Lemma msa_clear_unlink j msa m : msa_clear j (msa_unlink j msa m) = msa_clear j m.
Proof.
  destruct j as [i|]; [|done]. unfold msa_clear, msa_unlink, set_mc. cbn. do 2 f_equal. apply map_eq. intros x.
  destruct (decide (x = i)) as [->|Hne]; [|by rewrite !lookup_alter_ne]. rewrite !lookup_alter_eq. by destruct (mc_lst (so_mc m) !! i).
Qed.

Lemma msa_clear_nil j m : msa_list j m = [] -> msa_clear j m = m.
Proof.
  destruct m as [v e o mo fo fl xl xn [ml kl kp]]. destruct j as [i|]; unfold msa_clear, msa_list, set_mc; cbn; [|by intros ->].
  intros Hl. do 2 f_equal. apply map_eq. intros x. destruct (decide (x = i)) as [->|Hne]; [|by rewrite lookup_alter_ne].
  rewrite lookup_alter_eq. destruct (ml !! i) as [[a b c]|]; [|done]. cbn in Hl |- *. by rewrite Hl.
Qed.

Lemma msa_list_unlink j msa m l : msa_list j m = msa :: l -> NoDup (msa :: l) -> msa_list j (msa_unlink j msa m) = l.
Proof.
  intros Hl Hnd. destruct j as [i|]; unfold msa_list, msa_unlink in *; cbn in *; [|by rewrite Hl, filter_ne_head].
  rewrite lookup_alter_eq. destruct (mc_lst (so_mc m) !! i) as [c|]; [|done]. cbn in *. by rewrite Hl, filter_ne_head.
Qed.

Section destroy.
Context {S : Type} `{PageAlloc S}.
Implicit Types (s : kst S) (B : blocks) (J : objects) (Rg : regions).

(** ** Giving blocks back *)

Lemma merge_loop_spec P p j pnr fuel : forall s m A0, k_obs s !! p = Some m -> (length (msa_list j m) <= fuel)%nat -> NoDup (msa_list j m) ->
  pg_held (k_pa s) P A0 -> (forall d, d ∈ msa_list j m -> exists q, A0 !! d = Some (q, pnr)) ->
  wp (merge_loop fuel p j pnr) s (fun _ s' => exists pa A1, s' = Kst pa (k_mgr s) (<[p := msa_clear j m]> (k_obs s)) (k_exts s) /\
    pg_held pa P A1 /\ wiped (msa_list j m) A0 A1).
Proof.
  induction fuel as [|fuel IH]; intros s m A0 Hm Hlen Hnd Hpg HA; cbn [merge_loop]; apply wp_bind; rewrite (wp_det _ _ _ _ _ (get_ob_eq _ _ _ Hm));
    destruct (msa_list j m) as [|d l] eqn:El.
  - apply wp_ret. exists (k_pa s), A0. rewrite msa_clear_nil, insert_id by done. split_and!; [by destruct s|done|apply wiped_nil].
  - cbn in Hlen. lia.
  - apply wp_ret. exists (k_pa s), A0. rewrite msa_clear_nil, insert_id by done. split_and!; [by destruct s|done|apply wiped_nil].
  - cbn in Hlen. apply wp_bind. rewrite (wp_det _ _ _ _ _ (upd_ob_eq _ _ _ _ Hm)). apply wp_bind, wp_k_on_pa. cbn [k_pa k_mgr k_obs k_exts].
    destruct (HA d ltac:(by left)) as [q Hq]. eapply wp_mono; [apply (pg_merge_spec _ _ _ _ _ _ Hpg Hq)|]. intros r pa [-> Hpg']. apply wp_bind, wp_die_if; [done|].
    set (m1 := msa_unlink j d m). assert (El1 : msa_list j m1 = l) by (by apply msa_list_unlink). pose proof Hnd as [Hd Hnd']%NoDup_cons.
    eapply wp_mono; [apply (IH _ m1 (delete d A0)); rewrite ?El1|].
    + cbn. by rewrite lookup_insert_eq.
    + lia.
    + done.
    + done.
    + intros x Hx. destruct (HA x ltac:(by right)) as [q' Hq']. exists q'. rewrite lookup_delete_ne; [done|]. by intros ->.
    + intros _ s' (pa' & A1 & -> & Hpg1 & Hw). exists pa', A1. cbn [k_pa k_mgr k_obs k_exts]. rewrite insert_insert_eq, El1 in *.
      unfold m1. rewrite msa_clear_unlink. split_and!; [done|done|by apply wiped_cons].
Qed.

Definition merge_list (p j : Z) : M (kst S) unit :=
  m ← get_ob p;
  match mc_lst (so_mc m) !! j with
  | Some l => if 0 <? ml_msanr l then merge_loop (length (ml_list l)) p (Some j) (ml_ompnr l) else mret tt
  | None => fault
  end.

(** The lists [js] of a pool can be given back: they are apart and held. *)
Definition lists_held (A0 : blocks) (m : kmsob_t) (js : list Z) : Prop :=
  (forall j, j ∈ js -> exists l, mc_lst (so_mc m) !! j = Some l /\ NoDup (ml_list l) /\ ml_msanr l = Z.of_nat (length (ml_list l)) /\
     forall d, d ∈ ml_list l -> exists q, A0 !! d = Some (q, ml_ompnr l)) /\
  (forall j j' l l' d, j ∈ js -> j' ∈ js -> mc_lst (so_mc m) !! j = Some l -> mc_lst (so_mc m) !! j' = Some l' -> d ∈ ml_list l -> d ∈ ml_list l' -> j = j').

Definition in_lists (m : kmsob_t) (js : list Z) (d : Z) : Prop := exists j l, j ∈ js /\ mc_lst (so_mc m) !! j = Some l /\ d ∈ ml_list l.

Lemma merge_list_spec P p j l s m A0 : k_obs s !! p = Some m -> pg_held (k_pa s) P A0 -> mc_lst (so_mc m) !! j = Some l -> NoDup (ml_list l) ->
  ml_msanr l = Z.of_nat (length (ml_list l)) -> (forall d, d ∈ ml_list l -> exists q, A0 !! d = Some (q, ml_ompnr l)) ->
  wp (merge_list p j) s (fun _ s' => exists pa A1, s' = Kst pa (k_mgr s) (<[p := msa_clear (Some j) m]> (k_obs s)) (k_exts s) /\ pg_held pa P A1 /\ wiped (ml_list l) A0 A1).
Proof.
  intros Hm Hpg Hl Hnd Hnr HA. unfold merge_list. apply wp_bind. rewrite (wp_det _ _ _ _ _ (get_ob_eq _ _ _ Hm)), Hl.
  assert (El : msa_list (Some j) m = ml_list l) by (cbn; by rewrite Hl). destruct (0 <? ml_msanr l) eqn:E; bool_to_prop.
  - eapply wp_mono; [apply (merge_loop_spec P p (Some j) (ml_ompnr l) _ s m A0); rewrite ?El; done|]. by rewrite El.
  - destruct (ml_list l) as [|d L]; [|cbn in Hnr; lia]. apply wp_ret. exists (k_pa s), A0. rewrite msa_clear_nil, insert_id by done.
    split_and!; [by destruct s|done|apply wiped_nil].
Qed.

Lemma merge_lists_spec P p js : forall s m A0, NoDup js -> k_obs s !! p = Some m -> pg_held (k_pa s) P A0 -> lists_held A0 m js ->
  wp (for_each js (merge_list p)) s (fun _ s' => exists pa A1 m' D, s' = Kst pa (k_mgr s) (<[p := m']> (k_obs s)) (k_exts s) /\ pg_held pa P A1 /\
    wiped D A0 A1 /\ (forall d, d ∈ D <-> in_lists m js d) /\ mc_kmobinlst (so_mc m') = mc_kmobinlst (so_mc m) /\
    mc_kmobinpnr (so_mc m') = mc_kmobinpnr (so_mc m) /\ so_mextlst m' = so_mextlst m).
Proof.
  induction js as [|j js IH]; intros s m A0 Hnd Hm Hpg [HA Hap]; cbn [for_each].
  { apply wp_ret. exists (k_pa s), A0, m, []. rewrite insert_id by done. split_and!; [by destruct s|done|apply wiped_nil| |done|done|done].
    intros d. split; [by intros ?%elem_of_nil|]. by intros (j & l & ?%elem_of_nil & _). }
  apply NoDup_cons in Hnd as [Hj Hnd]. destruct (HA j ltac:(by left)) as (l & Hl & Hndl & Hnr & Hd). apply wp_bind.
  eapply wp_mono; [by apply (merge_list_spec P p j l s m A0)|]. intros _ s1 (pa & A1 & -> & Hpg1 & Hw). set (m1 := msa_clear (Some j) m).
  assert (Hm1 : forall x, x ∈ js -> mc_lst (so_mc m1) !! x = mc_lst (so_mc m) !! x).
  { intros x Hx. cbn. by rewrite lookup_alter_ne by (intros ->; done). }
  eapply wp_mono; [apply (IH _ m1 A1 Hnd)|].
  - cbn. by rewrite lookup_insert_eq.
  - done.
  - split.
    + intros x Hx. rewrite Hm1 by done. destruct (HA x ltac:(by right)) as (lx & Hlx & Hndx & Hnrx & Hdx). exists lx. split_and!; [done..|].
      intros d Hdin. rewrite Hw, decide_False; [by apply Hdx|]. intros Hdl. apply Hj.
      by rewrite (Hap j x l lx d ltac:(by left) ltac:(by right) Hl Hlx Hdl Hdin).
    + intros x y lx ly d Hx Hy. rewrite !Hm1 by done. apply Hap; by right.
  - intros _ s' (pa' & A2 & m' & D & -> & Hpg2 & Hw2 & HD & Hk1 & Hk2 & Hk3). exists pa', A2, m', (ml_list l ++ D). cbn [k_pa k_mgr k_obs k_exts]. rewrite insert_insert_eq.
    split_and!; [done|done|by eapply wiped_app| |done|done|done]. intros d. rewrite elem_of_app, HD. unfold in_lists. split.
    + intros [Hdl|(x & lx & Hx & Hlx & Hdx)]; [exists j, l; split_and!; [by left|done|done]|]. exists x, lx. rewrite Hm1 in Hlx by done. split_and!; [by right|done|done].
    + intros (x & lx & [->|Hx]%elem_of_cons & Hlx & Hdx); [simplify_eq; by left|]. right. exists x, lx. by rewrite Hm1.
Qed.

(** ** The pool gone *)

Lemma lookup_foldr_delete {V} (g : gmap Z V) l x : x ∉ l -> foldr delete g l !! x = g !! x.
Proof. induction l as [|y l IH]; [done|]. intros [Hne Hl]%not_elem_of_cons. cbn. rewrite lookup_delete_ne by done. by apply IH. Qed.

Definition left_class (p : Z) (c : koblst_t) : koblst_t :=
  Koblst (filter (fun q => q <> p) (ol_emplst c)) (if p =? ol_cahe c then 0 else ol_cahe c) (ol_emnr c - 1) (ol_sz c).

Section gone.
Context {s B J Rg} (HI : KInv s B J Rg) {i p : Z} {m : kmsob_t} {c : koblst_t} (Hm : k_obs s !! p = Some m)
  (Hc : ks_msoblst (k_mgr s) !! i = Some c) (Hp : p ∈ ol_emplst c) (HP : pool_ok Rg (k_exts s) J i p m).

Lemma pool_descs (D : list Z) : (forall d, d ∈ D <-> in_lists m (seqZ 0 MSCLST_MAX) d \/ d ∈ mc_kmobinlst (so_mc m)) ->
  forall d, d ∈ D <-> exists e n, Rg !! e = Some (p, d, n).
Proof using HP.
  intros HD d. rewrite HD. destruct (po_main _ _ _ _ _ _ HP) as (d0 & Hr0 & _ & Hk & _). rewrite Hk, list_elem_of_singleton. split.
  - intros [(j & l & Hj%elem_of_seqZ & Hl & Hd)| -> ]; [|eauto]. destruct (po_mc _ _ _ _ _ _ HP j ltac:(lia)) as (l' & Hl' & _ & _ & _ & Hin). simplify_eq.
    apply Hin in Hd as (e & _ & He). eauto.
  - intros (e & n & He). destruct (decide (e = p)) as [->|Hne]; [right; congruence|]. left.
    destruct (retn_mscidx_block (so_objsz m)) as (j & Hj & _ & Hnj). destruct (po_mc _ _ _ _ _ _ HP j Hj) as (l & Hl & _ & _ & _ & Hin).
    exists j, l. split_and!; [apply elem_of_seqZ; lia|done|]. apply Hin. exists e. split; [done|]. by rewrite <- Hnj, <- (po_pages _ _ _ _ _ _ HP _ _ _ He).
Qed.

Lemma pool_lists_held A0 : B ⊆ A0 -> lists_held A0 m (seqZ 0 MSCLST_MAX).
Proof using HI HP.
  intros HB. split.
  - intros j Hj%elem_of_seqZ. destruct (po_mc _ _ _ _ _ _ HP j ltac:(lia)) as (l & Hl & Ho & Hnd & Hnr & Hin). exists l. split_and!; [done..|].
    intros d (e & _ & He)%Hin. exists (e - base). rewrite Ho. apply (lookup_weaken B); [|done]. apply (ki_blk _ _ _ _ HI). eauto.
  - intros j j' l l' d Hj%elem_of_seqZ Hj'%elem_of_seqZ Hl Hl' Hd Hd'.
    destruct (po_mc _ _ _ _ _ _ HP j ltac:(lia)) as (l1 & Hl1 & _ & _ & _ & Hin). destruct (po_mc _ _ _ _ _ _ HP j' ltac:(lia)) as (l2 & Hl2 & _ & _ & _ & Hin'). simplify_eq.
    apply Hin in Hd as (e & _ & He). apply Hin' in Hd' as (e' & _ & He'). pose proof (region_desc HI _ _ _ _ _ _ _ He He') as <-.
    assert (E : 2 ^ j = 2 ^ j') by congruence. apply pow2_inj in E; lia.
Qed.

Context (Hall : so_mobjnr m = so_fobjnr m).
Let Rg' : regions := filter (fun x => x.2.1.1 <> p) Rg.

Lemma gone_region e q d n : Rg' !! e = Some (q, d, n) <-> Rg !! e = Some (q, d, n) /\ q <> p.
Proof. unfold Rg'. rewrite map_lookup_filter_Some. done. Qed.

Lemma gone_object a sz q mq : J !! a = Some sz -> k_obs s !! q = Some mq -> slot Rg q (so_objsz mq) a -> a ∉ so_frelst mq -> q <> p.
Proof using HI Hm HP Hall. intros Ha Hq Hs Hf ->. simplify_eq. apply Hf. by apply (all_free HI i p). Qed.

Lemma kinv_destroy (pa : S) che (D : list Z) B' : (forall d, d ∈ D <-> exists e n, Rg !! e = Some (p, d, n)) -> wiped D B B' ->
  KInv (Kst pa (Kmsobmgrhed (ks_msobnr (k_mgr s) - 1) che (<[i := left_class p c]> (ks_msoblst (k_mgr s)))) (delete p (k_obs s)) (foldr delete (k_exts s) (so_mextlst m))) B' J Rg'.
Proof using HI Hm Hc Hp HP Hall.
  intros HD Hw. pose proof HI as [I1 I2 I3 I4 I5 I6 I7 I8 I9 I10]. destruct (I6 _ _ Hc) as (Hcs & Hnd & Hen & Hca).
  assert (Hcls : forall j c', ks_msoblst (k_mgr s) !! j = Some c' -> p ∈ ol_emplst c' -> j = i).
  { intros j c' Hc' Hin. destruct (I7 _ _ _ Hc' Hin) as (m' & Hm' & HP'). simplify_eq.
    pose proof (po_sz _ _ _ _ _ _ HP). pose proof (po_sz _ _ _ _ _ _ HP'). lia. }
  split; cbn [k_obs k_mgr k_exts ks_msoblst ks_msobnr].
  - intros d b. rewrite Hw. setoid_rewrite gone_region. destruct (decide (d ∈ D)) as [Hd|Hd].
    + split; [done|]. intros (e & q & n & [Hr Hne] & ->). apply HD in Hd as (e' & n' & He'). pose proof (region_desc HI _ _ _ _ _ _ _ Hr He') as <-. congruence.
    + rewrite I1. split; intros (e & q & n & Hr & ->); exists e, q, n; [|by destruct Hr]. split_and!; [done| |done]. intros ->. apply Hd, HD. eauto.
  - intros e q d n [Hr _]%gone_region. by apply (I2 e q d).
  - intros e q d n [Hr Hne]%gone_region. rewrite lookup_delete_ne by done. by apply (I3 e q d n).
  - intros e e' q q' d d' n n' [Hr _]%gone_region [Hr' _]%gone_region. by apply (I4 _ _ _ _ _ _ _ _ Hr Hr').
  - intros j. rewrite lookup_insert_is_Some, I5. unfold KOBLST_MAX. destruct (decide (i = j)) as [<-|]; [|tauto].
    split; [|by left]. intros _. apply I5. eauto.
  - intros j c' [[<- <-]|[Hne Hc']]%lookup_insert_Some; [|by apply I6]. cbn [left_class ol_sz ol_emplst ol_emnr ol_cahe].
    split_and!; [done|by apply NoDup_filter|rewrite length_filter_ne by done; lia|]. destruct (p =? ol_cahe c) eqn:E; [by left|]. bool_to_prop.
    destruct Hca as [|Hca]; [by left|right]. apply elem_of_filter_ne. split; [done|congruence].
  - intros j c' q Hc' Hq. assert (Hold : exists c0, ks_msoblst (k_mgr s) !! j = Some c0 /\ q ∈ ol_emplst c0 /\ q <> p).
    { apply lookup_insert_Some in Hc' as [[<- <-]|[Hne Hc']]; [|exists c'; split_and!; [done..|]; intros ->; by apply Hne; rewrite (Hcls j c')].
      cbn in Hq. apply elem_of_filter_ne in Hq as [??]. eauto. }
    destruct Hold as (c0 & Hc0 & Hq0 & Hne). destruct (I7 _ _ _ Hc0 Hq0) as (mq & Hmq & HPq). exists mq. rewrite lookup_delete_ne by done. split; [done|].
    apply (pool_frame _ _ _ _ _ _ _ _ _ HPq); [| |done].
    + intros e d n. rewrite gone_region. tauto.
    + intros e d n Hr. apply lookup_foldr_delete. intros (_ & d' & n' & Hr')%(po_exts _ _ _ _ _ _ HP). congruence.
  - intros q mq [Hne Hq]%lookup_delete_Some. destruct (I8 _ _ Hq) as (j & c' & Hc' & Hin). destruct (decide (j = i)) as [->|Hji].
    + exists i, (left_class p c). rewrite lookup_insert_eq. split; [done|]. simplify_eq. apply elem_of_filter_ne. done.
    + exists j, c'. by rewrite lookup_insert_ne.
  - rewrite I9, map_size_delete_Some by eauto. assert (size (k_obs s) <> 0%nat); [|lia]. intros E%map_size_empty_iff. by rewrite E in Hm.
  - intros a sz Ha. destruct (I10 _ _ Ha) as (Hs & q & mq & Hq & Hsl & Hf & Eo). split; [done|].
    pose proof (gone_object a sz q mq Ha Hq Hsl Hf) as Hne. exists q, mq. rewrite lookup_delete_ne by done. split_and!; [done| |done|done].
    destruct Hsl as (e & d & n & Hr & Hin). exists e, d, n. split; [|done]. by apply gone_region.
Qed.
End gone.

Lemma wiped_foldr D A : wiped D A (foldr delete A D).
Proof.
  induction D as [|d D IH]; [apply wiped_nil|]. intros x. cbn. destruct (decide (x = d)) as [->|Hne].
  - by rewrite lookup_delete_eq, decide_True by (by left).
  - rewrite lookup_delete_ne, IH by done. destruct (decide (x ∈ D)); [by rewrite decide_True by (by right)|]. by rewrite decide_False by (by apply not_elem_of_cons).
Qed.

Lemma wiped_union D A B A1 : A ##ₘ B -> (forall d, d ∈ D -> is_Some (B !! d)) -> wiped D (A ∪ B) A1 -> A1 = A ∪ foldr delete B D /\ A ##ₘ foldr delete B D.
Proof.
  intros HAB HD Hw. assert (Hdis : A ##ₘ foldr delete B D).
  { apply map_disjoint_spec. intros d a b Ha Hb. rewrite wiped_foldr in Hb. case_decide; [done|]. by eapply (proj1 (map_disjoint_spec A B)). }
  split; [|done]. apply map_eq. intros d. rewrite Hw. destruct (decide (d ∈ D)) as [Hd|Hd].
  - destruct (HD d Hd) as [b Hb]. symmetry. apply lookup_union_None. split; [by apply (map_disjoint_Some_r A B d b)|]. by rewrite wiped_foldr, decide_True.
  - rewrite !lookup_union. by rewrite (wiped_foldr D B d), decide_False.
Qed.

(** The cached pool forgotten. *)
Lemma updata_cache_dsy s i p c : ks_msoblst (k_mgr s) !! i = Some c ->
  exists che, kmsob_updata_cache i p KUC_DSYFLG s =
    Ret (tt, Kst (k_pa s) (Kmsobmgrhed (ks_msobnr (k_mgr s)) che (<[i := set_cahe (if p =? ol_cahe c then 0 else ol_cahe c) c]> (ks_msoblst (k_mgr s)))) (k_obs s) (k_exts s)).
Proof.
  intros Hc. unfold kmsob_updata_cache. rewrite (bind_eq _ _ s (k_mgr s) s) by done.
  set (s1 := if p =? ks_msobche (k_mgr s) then Kst (k_pa s) (Kmsobmgrhed (ks_msobnr (k_mgr s)) 0 (ks_msoblst (k_mgr s))) (k_obs s) (k_exts s) else s).
  rewrite (bind_eq _ _ s tt s1) by (unfold s1; by destruct (p =? _)).
  assert (Hs1 : exists che, s1 = Kst (k_pa s) (Kmsobmgrhed (ks_msobnr (k_mgr s)) che (ks_msoblst (k_mgr s))) (k_obs s) (k_exts s)).
  { unfold s1. destruct (p =? _); [by eexists|]. exists (ks_msobche (k_mgr s)). by destruct s as [? [] ? ?]. }
  destruct Hs1 as [che ->]. exists che. rewrite (bind_eq _ _ _ c _ (get_kobl_eq (Kst _ (Kmsobmgrhed _ _ _) _ _) i c Hc)). destruct (p =? ol_cahe c).
  - by rewrite (upd_kobl_eq _ _ _ _ (Hc : ks_msoblst (k_mgr (Kst _ (Kmsobmgrhed _ _ _) _ _)) !! i = Some c)).
  - unfold set_cahe. replace (Koblst _ _ _ _) with c by (by destruct c). by rewrite insert_id.
Qed.

Lemma _destroy_kmsob_core_spec s B J Rg P A i p m c : KInv s B J Rg -> pg_held (k_pa s) P (A ∪ B) -> A ##ₘ B -> k_obs s !! p = Some m ->
  ks_msoblst (k_mgr s) !! i = Some c -> p ∈ ol_emplst c -> pool_ok Rg (k_exts s) J i p m -> so_mobjnr m = so_fobjnr m ->
  wp (_destroy_kmsob_core i p) s (fun r s' => r = true /\ exists B' Rg', pg_held (k_pa s') P (A ∪ B') /\ A ##ₘ B' /\ KInv s' B' J Rg' /\ k_obs s' = delete p (k_obs s)).
Proof.
  intros HI Hpg HAB Hm Hc Hp HP Hall. destruct (po_main _ _ _ _ _ _ HP) as (d0 & Hr0 & _ & Hk & Hkn). destruct (block_pages_range (so_objsz m)) as [Hbp _].
  destruct (ki_cls _ _ _ _ HI _ _ Hc) as (_ & _ & Hen & _). pose proof (class_few HI _ _ Hc) as Hf1. pose proof (pools_few HI) as Hf2. pose proof (ki_nr _ _ _ _ HI) as Hnr.
  assert (Hlen : (1 <= length (ol_emplst c))%nat) by (destruct (ol_emplst c); [by apply elem_of_nil in Hp|cbn; lia]).
  unfold _destroy_kmsob_core. rewrite (pool_nonzero HI _ _ Hm). apply wp_bind. rewrite (wp_det _ _ _ _ _ (get_ob_eq _ _ _ Hm)), Hk, Hkn.
  replace (1 >? block_pages (so_objsz m)) with false by lia. rewrite bool_decide_false by done. cbn [orb].
  apply wp_bind. rewrite (wp_det _ _ _ _ _ (upd_kobl_eq _ _ _ _ Hc)). apply wp_bind, wp_modify. cbn [k_pa k_mgr k_obs k_exts ks_msobnr ks_msobche ks_msoblst].
  rewrite !u64_small by (rewrite u64max_val; lia). apply wp_bind. set (s1 := Kst (k_pa s) _ _ _).
  destruct (updata_cache_dsy s1 i p _ (lookup_insert_eq _ _ _)) as [che Hdsy]. rewrite (wp_det _ _ _ _ _ Hdsy). clear Hdsy.
  cbn [k_pa k_mgr k_obs k_exts ks_msobnr ks_msobche ks_msoblst s1 set_cahe ol_emplst ol_cahe ol_emnr ol_sz]. rewrite insert_insert_eq.
  set (mgr := Kmsobmgrhed _ che _). apply wp_bind. change (for_each (seqZ 0 MSCLST_MAX) _) with (for_each (seqZ 0 MSCLST_MAX) (merge_list p)).
  eapply wp_mono; [apply (merge_lists_spec P p (seqZ 0 MSCLST_MAX) _ m (A ∪ B)); [apply NoDup_seqZ|done|done|]|].
  { apply (pool_lists_held HI HP). by apply map_union_subseteq_r. }
  intros _ s2 (pa & A1 & m' & D & -> & Hpg1 & Hw1 & HD & Hk1 & Hk2 & Hk3). apply wp_bind. cbn [k_pa k_mgr k_obs k_exts].
  set (s2 := Kst pa _ _ _). assert (Hm2 : k_obs s2 !! p = Some m') by apply lookup_insert_eq. rewrite (wp_det _ _ _ _ _ (get_ob_eq _ _ _ Hm2)).
  apply wp_bind. assert (El : msa_list None m' = [d0]) by (cbn; congruence).
  assert (Hd0 : B !! d0 = Some (p - base, block_pages (so_objsz m))) by (apply (ki_blk _ _ _ _ HI); eauto).
  assert (Hd0D : d0 ∉ D).
  { intros (j & l & Hj%elem_of_seqZ & Hl & Hin)%HD. destruct (po_mc _ _ _ _ _ _ HP j ltac:(lia)) as (l' & Hl' & _ & _ & _ & Hin'). simplify_eq.
    apply Hin' in Hin as (e & Hne & He). by apply Hne, (region_desc HI _ _ _ _ _ _ _ He Hr0). }
  eapply wp_mono; [apply (merge_loop_spec P p None (mc_kmobinpnr (so_mc m')) _ s2 m' A1 Hm2); rewrite ?El|].
  { by rewrite Hk1, Hk. } { apply NoDup_singleton. } { done. }
  { intros d ->%list_elem_of_singleton. rewrite Hk2, Hkn. exists (p - base). rewrite Hw1, decide_False by done. by apply lookup_union_Some_r. }
  intros _ s3 (pa' & A2 & -> & Hpg2 & Hw2). apply wp_bind, wp_modify. apply wp_bind, wp_modify, wp_ret. split; [done|]. cbn [k_pa k_mgr k_obs k_exts s2].
  rewrite El in Hw2. pose proof (wiped_app _ _ _ _ _ Hw1 Hw2) as Hw. rewrite insert_insert_eq, delete_insert_eq, Hk3.
  assert (HD' : forall d, d ∈ D ++ [d0] <-> exists e n, Rg !! e = Some (p, d, n)).
  { apply (pool_descs HP). intros d. by rewrite elem_of_app, HD, Hk. }
  destruct (wiped_union _ _ _ _ HAB ltac:(intros d (e & n & He)%HD'; exists (e - base, n); apply (ki_blk _ _ _ _ HI); eauto) Hw) as [-> Hdis].
  exists (foldr delete B (D ++ [d0])). eexists. split_and!; [done|done| |done]. apply (kinv_destroy HI Hm Hc Hp HP Hall pa' che _ _ HD'), wiped_foldr.
Qed.
End destroy.
