(* ===== verification/KmsobSpec.v ===== *)
(** * The object allocator: correctness

    What [kmsob_new] and [kmsob_delete] promise, for any page allocator that meets
    PageIf.v, and the two interfaces they provide: the object allocator (ObjIf.v),
    and the page allocator as its clients still see it beside the objects. *)

From S2P Require Import Prelude PhyMem DivMer DivMerInv DivMerOps DivMerAlloc DivMerFree Marea MareaInit MareaBoot DivMerSpec Boot BootSpec BootPages PageIf Mmu MmuInv MmuOps MmuSpec MmuLife MmuCorrect ObjIf Kmsob KmsobInv KmsobOps KmsobPool KmsobDestroy.

Section spec.
Context {S : Type} `{PageAlloc S}.
Implicit Types (s : kst S) (A B : blocks) (J : objects) (Rg : regions).

(** The client holds the blocks [A] and the objects [J]. *)
Definition kheld J s (P : Z -> Prop) A : Prop :=
  exists B Rg, pg_held (k_pa s) P (A ∪ B) /\ A ##ₘ B /\ KInv s B J Rg /\ busy s.

(** ** Caching a pool *)

Lemma kinv_cache s B J Rg i c p che : KInv s B J Rg -> ks_msoblst (k_mgr s) !! i = Some c -> p ∈ ol_emplst c ->
  KInv (Kst (k_pa s) (Kmsobmgrhed (ks_msobnr (k_mgr s)) che (<[i := set_cahe p c]> (ks_msoblst (k_mgr s)))) (k_obs s) (k_exts s)) B J Rg.
Proof.
  intros HI Hc Hp. pose proof HI as [I1 I2 I3 I4 I5 I6 I7 I8 I9 I10]. destruct (I6 _ _ Hc) as (Hcs & Hnd & Hen & _).
  assert (Hl : forall j c', <[i := set_cahe p c]> (ks_msoblst (k_mgr s)) !! j = Some c' ->
    exists c0, ks_msoblst (k_mgr s) !! j = Some c0 /\ ol_emplst c' = ol_emplst c0).
  { intros j c' [[<- <-]|[_ Hc']]%lookup_insert_Some; [by exists c|by exists c']. }
  split; cbn [k_obs k_mgr k_exts ks_msoblst ks_msobnr]; try done.
  - intros j. rewrite lookup_insert_is_Some, I5. destruct (decide (i = j)) as [<-|]; [|tauto]. split; [intros _; apply I5; eauto|by left].
  - intros j c' [[<- <-]|[_ Hc']]%lookup_insert_Some; [|by apply I6]. cbn. split_and!; [done..|by right].
  - intros j c' q Hc' Hq. destruct (Hl _ _ Hc') as (c0 & Hc0 & E). rewrite E in Hq. by apply (I7 j c0 q).
  - intros q m Hq. destruct (I8 _ _ Hq) as (j & c0 & Hc0 & Hin). destruct (decide (i = j)) as [<-|Hne].
    + exists i, (set_cahe p c). rewrite lookup_insert_eq. simplify_eq. done.
    + exists j, c0. by rewrite lookup_insert_ne.
Qed.

Lemma updata_cache_set s B J Rg i c p fl : KInv s B J Rg -> ks_msoblst (k_mgr s) !! i = Some c -> p ∈ ol_emplst c -> fl <> KUC_DSYFLG ->
  wp (kmsob_updata_cache i p fl) s (fun _ s' => KInv s' B J Rg /\ k_pa s' = k_pa s /\ k_obs s' = k_obs s).
Proof.
  intros HI Hc Hp Hfl. set (s1 := Kst (k_pa s) (Kmsobmgrhed (ks_msobnr (k_mgr s)) p (ks_msoblst (k_mgr s))) (k_obs s) (k_exts s)).
  destruct fl; [| |done]; cbn [kmsob_updata_cache]; apply wp_bind, wp_modify; fold s1;
    rewrite (wp_det _ _ _ _ _ (upd_kobl_eq s1 i c _ Hc)); (split_and!; [exact (kinv_cache s B J Rg i c p p HI Hc Hp)|done|done]).
Qed.

(** ** Taking an object *)

Lemma kmsob_new_onkmsob_spec s B J Rg P A sz c p m : KInv s B J Rg -> pg_held (k_pa s) P (A ∪ B) -> A ##ₘ B -> 0 < sz <= 2048 ->
  ks_msoblst (k_mgr s) !! cls sz = Some c -> p ∈ ol_emplst c -> k_obs s !! p = Some m ->
  wp (kmsob_new_onkmsob p sz) s (fun r s' => (r = 0 /\ s' = s /\ so_frelst m = []) \/
    (base < r < base + 2 ^ 34 /\ J !! r = None /\ exists B' Rg' m', pg_held (k_pa s') P (A ∪ B') /\ A ##ₘ B' /\ KInv s' B' (<[r := sz]> J) Rg' /\
       k_mgr s' = k_mgr s /\ k_obs s' = <[p := m']> (k_obs s) /\ so_fobjnr m' < so_mobjnr m')).
Proof.
  intros HI Hpg HAB Hsz Hc Hp Hm. destruct (pool_at HI _ _ Hm) as (i & c' & _ & _ & _ & HP). destruct (po_frelst _ _ _ _ _ _ HP) as [_ Hn].
  destruct (free_few HI _ _ Hm) as ([Hf0 Hf1] & _ & _).
  assert (Htake : forall s1 B1 Rg1 m1 a l, KInv s1 B1 J Rg1 -> pg_held (k_pa s1) P (A ∪ B1) -> A ##ₘ B1 -> k_mgr s1 = k_mgr s -> k_obs s1 = <[p := m1]> (k_obs s) ->
    so_frelst m1 = a :: l -> wp (kmsob_new_opkmsob p sz) s1 (fun r s' => base < r < base + 2 ^ 34 /\ J !! r = None /\ exists B' Rg' m',
      pg_held (k_pa s') P (A ∪ B') /\ A ##ₘ B' /\ KInv s' B' (<[r := sz]> J) Rg' /\ k_mgr s' = k_mgr s /\ k_obs s' = <[p := m']> (k_obs s) /\ so_fobjnr m' < so_mobjnr m')).
  { intros s1 B1 Rg1 m1 a l HI1 Hpg1 HAB1 Hmgr Hobs El. assert (Hm1 : k_obs s1 !! p = Some m1) by (by rewrite Hobs, lookup_insert_eq).
    destruct (kmsob_new_opkmsob_spec HI1 sz c p m1 a l Hsz ltac:(by rewrite Hmgr) Hp Hm1 El) as (Heq & Hj & Ha & HI2).
    rewrite (wp_det _ _ _ _ _ Heq). split_and!; [lia|lia|done|]. exists B1, Rg1. eexists.
    split_and!; [done|done|exact HI2|done|cbn; by rewrite Hobs, insert_insert_eq|].
    destruct (pool_at HI1 _ _ Hm1) as (i1 & c1 & _ & _ & _ & HP1). destruct (po_frelst _ _ _ _ _ _ HP1) as [_ Hn1]. destruct (free_few HI1 _ _ Hm1) as ([_ Hf] & _ & _).
    rewrite El in Hn1. cbn [set_free so_fobjnr so_mobjnr length] in *. lia. }
  unfold kmsob_new_onkmsob. rewrite (pool_nonzero HI _ _ Hm). replace (1 >? sz) with false by lia. cbn [orb]. apply wp_bind.
  unfold scan_kmsob_objnr. rewrite (pool_nonzero HI _ _ Hm). apply wp_bind, wp_die_if; [done|]. apply wp_bind. rewrite (wp_det _ _ _ _ _ (get_ob_eq _ _ _ Hm)).
  apply wp_bind, wp_die_if. { destruct (so_frelst m); [by rewrite bool_decide_true, andb_false_r|]. cbn [length] in Hn. replace (1 >? so_fobjnr m) with false by lia. done. }
  apply wp_ret. apply wp_bind. destruct (so_frelst m) as [|a l] eqn:El.
  - replace (0 <? so_fobjnr m) with false by (cbn in Hn; lia). replace (0 <? 1) with true by lia.
    eapply wp_mono; [apply (kmsob_extn_pages_spec _ _ _ _ _ _ _ _ HI Hpg HAB Hm El)|]. intros r s1 [[-> ->]|(-> & B1 & Rg1 & m1 & Hpg1 & HAB1 & HI1 & Hmgr & Hobs & Hne)].
    + apply wp_ret. by left.
    + cbn [negb]. destruct (so_frelst m1) as [|a l] eqn:El1; [done|]. eapply wp_mono; [by apply (Htake s1 B1 Rg1 m1 a l)|]. intros r s' Hpost. by right.
  - cbn [length] in Hn. replace (0 <? so_fobjnr m) with true by lia. replace (so_fobjnr m <? 1) with false by lia. apply wp_ret. cbn [negb].
    eapply wp_mono; [by apply (Htake s B Rg m a l); rewrite ?insert_id|]. intros r s' Hpost. by right.
Qed.

Lemma busy_insert s s' p m : busy s -> k_obs s' = <[p := m]> (k_obs s) -> so_fobjnr m < so_mobjnr m -> busy s'.
Proof. intros Hb E Hm q mq. rewrite E. intros [[<- <-]|[_ Hq]]%lookup_insert_Some; [done|by apply (Hb q)]. Qed.

Lemma kmsob_new_spec s P A J sz : kheld J s P A -> 0 < sz <= 2048 ->
  wp (kmsob_new sz) s (fun r s' => (base < r < base + 2 ^ 34 /\ J !! r = None /\ kheld (<[r := sz]> J) s' P A) \/ (r = 0 /\ s' = s)).
Proof.
  intros (B & Rg & Hpg & HAB & HI & Hb) Hsz. destruct (cls_range sz Hsz) as (Hcl & _). destruct (class_at HI _ Hcl) as (c & Hc & Hcs).
  assert (Hgo : forall s1 B1 Rg1 c1 p m, KInv s1 B1 J Rg1 -> pg_held (k_pa s1) P (A ∪ B1) -> A ##ₘ B1 -> ks_msoblst (k_mgr s1) !! cls sz = Some c1 -> p ∈ ol_emplst c1 ->
    k_obs s1 !! p = Some m -> (so_frelst m = [] -> s1 = s) -> (forall q mq, q <> p -> k_obs s1 !! q = Some mq -> so_fobjnr mq < so_mobjnr mq) ->
    wp (retptr ← kmsob_new_onkmsob p sz; if retptr =? 0 then mret 0 else kmsob_updata_cache (cls sz) p KUC_NEWFLG ;; mret retptr) s1
      (fun r s' => (base < r < base + 2 ^ 34 /\ J !! r = None /\ kheld (<[r := sz]> J) s' P A) \/ (r = 0 /\ s' = s))).
  { intros s1 B1 Rg1 c1 p m HI1 Hpg1 HAB1 Hc1 Hp Hm Hfr Hoth. apply wp_bind.
    eapply wp_mono; [apply (kmsob_new_onkmsob_spec s1 B1 J Rg1 P A sz c1 p m HI1 Hpg1 HAB1 Hsz Hc1 Hp Hm)|].
    intros r s2 [(-> & -> & El)|(Hr & Hj & B2 & Rg2 & m2 & Hpg2 & HAB2 & HI2 & Hmgr & Hobs & Hlt)].
    - apply wp_ret. right. by rewrite Hfr.
    - pose proof base_val. replace (r =? 0) with false by lia. apply wp_bind. rewrite <- Hmgr in Hc1.
      eapply wp_mono; [by apply (updata_cache_set s2 B2 (<[r := sz]> J) Rg2 (cls sz) c1 p)|]. intros _ s3 (HI3 & Hpa & Hob). apply wp_ret. left. split_and!; [lia|lia|done|].
      exists B2, Rg2. rewrite Hpa. split_and!; [done|done|done|]. intros q mq. rewrite Hob, Hobs. intros [[<- <-]|[Hne Hq]]%lookup_insert_Some; [done|by apply (Hoth q)]. }
  unfold kmsob_new. replace ((1 >? sz) || (2048 <? sz)) with false by lia. unfold kmsob_new_core. apply wp_bind.
  rewrite (wp_det _ _ _ _ _ (onmsz_retn_koblst_eq HI sz Hsz)). cbn beta iota. apply wp_bind.
  destruct (onkoblst_retn_newkmsob_eq HI sz c Hsz Hc) as (r & Hr & Hcase). rewrite (wp_det _ _ _ _ _ Hr). apply wp_bind. destruct Hcase as [Hin|[-> Hemp]].
  - destruct (pool_in_class HI _ _ _ Hc Hin) as (m & Hm & _). pose proof (pool_nonzero HI _ _ Hm) as Hz. rewrite Hz. apply wp_ret. rewrite Hz.
    apply (Hgo s B Rg c r m); try done. intros q mq _ Hq. by apply (Hb q).
  - cbn [Z.eqb]. apply wp_bind. rewrite (wp_det _ _ _ _ _ (get_kobl_eq _ _ _ Hc)), Hcs.
    eapply wp_mono; [apply (_create_kmsob_spec s B J Rg P A (cls sz) c HI Hpg HAB Hcl Hc)|].
    intros p s1 [[-> ->]|(B1 & Rg1 & m & c1 & Hpg1 & HAB1 & HI1 & Hobs & Hno & Hfr & Hc1 & Hp)]; [apply wp_ret; by right|].
    assert (Hm : k_obs s1 !! p = Some m) by (by rewrite Hobs, lookup_insert_eq). rewrite (pool_nonzero HI1 _ _ Hm).
    apply (Hgo s1 B1 Rg1 c1 p m); try done. intros q mq Hne. rewrite Hobs, lookup_insert_ne by done. apply Hb.
Qed.

(** ** Giving an object back *)

Lemma kmsob_delete_spec s P A J a sz : kheld J s P A -> J !! a = Some sz ->
  wp (kmsob_delete a sz) s (fun r s' => r = true /\ kheld (delete a J) s' P A).
Proof.
  intros (B & Rg & Hpg & HAB & HI & Hb) Ha. destruct (obj_at HI _ _ Ha) as (p & m & c & Hm & Hc & Hp & HP & Hs & Hf & Hsz).
  destruct (ki_obj _ _ _ _ HI _ _ Ha) as (Hsz' & _). pose proof (pool_size HI _ _ Hm) as Ho.
  pose proof (slot_addr HI _ (so_objsz m) a ltac:(lia) Hs) as Had. pose proof base_val as Hbv.
  unfold kmsob_delete. replace ((a =? 0) || (1 >? sz) || (2048 <? sz)) with false by lia. unfold kmsob_delete_core. apply wp_bind.
  rewrite (wp_det _ _ _ _ _ (onmsz_retn_koblst_eq HI sz Hsz')). cbn beta iota. apply wp_bind.
  rewrite (wp_det _ _ _ _ _ (onkoblst_retn_delkmsob_eq HI a sz c p m Ha Hc Hp Hm Hs)). rewrite (pool_nonzero HI _ _ Hm). apply wp_bind.
  destruct (kmsob_delete_onkmsob_spec HI a sz p m Ha Hm Hs Hf Hsz) as (Heq & Hlt & HI1). rewrite (wp_det _ _ _ _ _ Heq). cbn [negb]. clear Heq.
  set (m1 := set_free _ _ m) in *. set (s1 := with_ob p m1 s) in *. assert (Hm1 : k_obs s1 !! p = Some m1) by apply lookup_insert_eq.
  assert (Hoth : forall q mq, q <> p -> k_obs s1 !! q = Some mq -> so_fobjnr mq < so_mobjnr mq).
  { intros q mq Hne. cbn. rewrite lookup_insert_ne by done. apply Hb. }
  assert (Hc1 : ks_msoblst (k_mgr s1) !! cls sz = Some c) by done. destruct (ki_cls _ _ _ _ HI1 _ _ Hc1) as (_ & _ & Hen & _).
  destruct (ki_pool _ _ _ _ HI1 _ _ _ Hc1 Hp) as (m1' & Hm1' & HP1). assert (m1' = m1) as -> by congruence. clear Hm1'. pose proof (ki_nr _ _ _ _ HI1) as Hnr. destruct (free_few HI1 _ _ Hm1) as ([_ Hle] & _ & _).
  assert (Hlen : (1 <= length (ol_emplst c))%nat) by (destruct (ol_emplst c); [by apply elem_of_nil in Hp|cbn; lia]). pose proof (class_few HI1 _ _ Hc1).
  assert (Hend : wp (_destroy_kmsob (cls sz) p) s1 (fun r s' => r = true /\ kheld (delete a J) s' P A)).
  { unfold _destroy_kmsob. rewrite (pool_nonzero HI1 _ _ Hm1). apply wp_bind, wp_gets. apply wp_bind. rewrite (wp_det _ _ _ _ _ (get_kobl_eq _ _ _ Hc1)).
    replace ((1 >? ks_msobnr (k_mgr s1)) || (1 >? ol_emnr c)) with false by lia. apply wp_bind. unfold scan_freekmsob_isok. rewrite (pool_nonzero HI1 _ _ Hm1).
    apply wp_bind. rewrite (wp_det _ _ _ _ _ (get_ob_eq _ _ _ Hm1)). apply wp_ret. replace (so_mobjnr m1 <? so_fobjnr m1) with false by lia.
    destruct (so_mobjnr m1 =? so_fobjnr m1) eqn:E; bool_to_prop; (apply wp_bind, wp_die_if; [done|]); cbn [Z.eqb Pos.eqb].
    - eapply wp_mono; [apply (_destroy_kmsob_core_spec s1 B (delete a J) Rg P A (cls sz) p m1 c); done|]. intros r s' (-> & B' & Rg' & Hpg' & HAB' & HI' & Hob). split; [done|].
      exists B', Rg'. split_and!; [done|done|done|]. intros q mq. rewrite Hob. intros [Hne Hq]%lookup_delete_Some. by apply (Hoth q).
    - apply wp_bind. eapply wp_mono; [by apply (updata_cache_set s1 B (delete a J) Rg (cls sz) c p)|]. intros _ s' (HI' & Hpa & Hob). apply wp_ret. split; [done|].
      exists B, Rg. rewrite Hpa. split_and!; [done|done|done|]. intros q mq. rewrite Hob. intros Hq. destruct (decide (q = p)) as [->|Hne]; [|by apply (Hoth q)]. simplify_eq. lia. }
  apply wp_bind. eapply wp_mono; [apply Hend|]. intros r s' Hpost. by apply wp_ret.
Qed.

(** ** Objects and blocks are apart *)

Lemma objects_apart s P A J a b sz sz' : kheld J s P A -> J !! a = Some sz -> J !! b = Some sz' -> a <> b -> a + sz <= b \/ b + sz' <= a.
Proof.
  intros (B & Rg & _ & _ & HI & _) Ha Hb Hne. destruct (obj_at HI _ _ Ha) as (p & m & _ & Hm & _ & _ & _ & Hs & _ & Hsz).
  destruct (obj_at HI _ _ Hb) as (q & mq & _ & Hq & _ & _ & _ & Hs' & _ & Hsz'). pose proof (pool_size HI _ _ Hm). pose proof (pool_size HI _ _ Hq).
  destruct (slot_range HI _ (so_objsz m) a ltac:(lia) Hs) as (st & d & n & Hr & Hlo & Hhi & Hmo).
  destruct (slot_range HI _ (so_objsz mq) b ltac:(lia) Hs') as (st' & d' & n' & Hr' & Hlo' & Hhi' & Hmo').
  pose proof (hdr_pos p st). pose proof (hdr_pos q st'). destruct (decide (st = st')) as [<-|Hst].
  - simplify_eq. apply Z.mod_divide in Hmo as [x Hx]; [|lia]. apply Z.mod_divide in Hmo' as [y Hy]; [|lia]. assert (x <> y) by (intros ->; lia). nia.
  - destruct (ki_apart _ _ _ _ HI _ _ _ _ _ _ _ _ Hr Hr' Hst); lia.
Qed.

Lemma object_block_apart s P A J a sz i b : kheld J s P A -> J !! a = Some sz -> A !! i = Some b -> a - base + sz <= b.1 \/ b.1 + 4096 * b.2 <= a - base.
Proof.
  intros (B & Rg & Hpg & HAB & HI & _) Ha Hi. destruct (obj_at HI _ _ Ha) as (p & m & _ & Hm & _ & _ & _ & Hs & _ & Hsz). pose proof (pool_size HI _ _ Hm).
  destruct (slot_range HI _ (so_objsz m) a ltac:(lia) Hs) as (st & d & n & Hr & Hlo & Hhi & _). pose proof (hdr_pos p st).
  assert (Hd : B !! d = Some (st - base, n)) by (apply (ki_blk _ _ _ _ HI); eauto). assert (Hne : i <> d) by (intros ->; by eapply (proj1 (map_disjoint_spec A B))).
  pose proof (pg_apart _ _ _ i d b (st - base, n) Hpg ltac:(by apply lookup_union_Some_l) ltac:(by apply lookup_union_Some_r) Hne) as Hap.
  unfold block_apart in Hap. simpl in Hap. lia.
Qed.

(** With no object handed out the allocator keeps no page. *)
Lemma no_objects s P A : kheld ∅ s P A -> k_obs s = ∅ /\ pg_held (k_pa s) P A.
Proof.
  intros (B & Rg & Hpg & HAB & HI & Hb). assert (Hno : k_obs s = ∅).
  { apply map_empty. intros p. destruct (k_obs s !! p) as [m|] eqn:Hm; [exfalso|done]. destruct (pool_at HI _ _ Hm) as (i & c & _ & _ & _ & HP).
    destruct (po_slots _ _ _ _ _ _ HP) as (L & Hnd & HL & Hin). destruct (po_frelst _ _ _ _ _ _ HP) as [_ Hf]. pose proof (Hb _ _ Hm) as Hlt.
    destruct (decide (L ⊆ so_frelst m)) as [Hsub|Hsub].
    - pose proof (submseteq_length _ _ (NoDup_submseteq _ _ Hnd Hsub)). lia.
    - apply Hsub. intros a Ha. destruct (decide (a ∈ so_frelst m)) as [|Hna]; [done|]. destruct (po_used _ _ _ _ _ _ HP a (proj1 (Hin a) Ha) Hna) as [x Hx]. done. }
  split; [done|]. replace (A ∪ B) with A in Hpg; [done|]. symmetry. replace B with (∅ : blocks); [apply map_union_empty|]. symmetry. apply map_empty. intros d.
  destruct (B !! d) as [b|] eqn:E; [|done]. apply (ki_blk _ _ _ _ HI) in E as (st & p & n & Hr & _). destruct (ki_own _ _ _ _ HI _ _ _ _ Hr) as [m Hm]. by rewrite Hno in Hm.
Qed.

(** [init_kmsob] *)
Lemma init_kheld pa P A : pg_held pa P A -> kheld ∅ (Kst pa kmsobmgrhed_t_init ∅ ∅) P A.
Proof.
  intros Hpg. exists ∅, ∅. rewrite map_union_empty. split_and!; [done|apply map_disjoint_empty_r| |done].
  assert (Hc : forall i c, ks_msoblst kmsobmgrhed_t_init !! i = Some c -> c = koblst_t_init (32 + 32 * i)).
  { intros i c. cbn [kmsobmgrhed_t_init ks_msoblst]. rewrite lookup_tabulate. by destruct (_ && _); intros [= <-]. }
  split; cbn [k_obs k_mgr k_exts]; try done.
  - intros d b. rewrite lookup_empty. split; [done|]. intros (st & p & n & Hr & _). by rewrite lookup_empty in Hr.
  - intros i. cbn [kmsobmgrhed_t_init ks_msoblst]. rewrite lookup_tabulate. unfold KOBLST_MAX. destruct (_ && _) eqn:E; split; [lia|eauto|by intros [? ?]|lia].
  - intros i c ->%Hc. cbn. split_and!; [done|apply NoDup_nil_2|done|by left].
  - intros i c p ->%Hc Hp. by apply elem_of_nil in Hp.
Qed.

(** ** The interfaces *)

#[global] Instance kst_page_ops : PageOps (kst S) := {|
  pg_division n := k_on_pa (pg_division n);
  pg_procpage := k_on_pa pg_procpage;
  pg_merge i n := k_on_pa (pg_merge i n);
  pg_fpagenr i := k_on_pa (pg_fpagenr i);
  pg_addr i := k_on_pa (pg_addr i)
|}.

#[global] Instance kst_obj_ops : ObjOps (kst S) := {| ob_new := kmsob_new; ob_delete := kmsob_delete |}.

Lemma insert_client (A B : blocks) i b : (A ∪ B) !! i = None -> A ##ₘ B -> <[i := b]> (A ∪ B) = <[i := b]> A ∪ B /\ <[i := b]> A ##ₘ B /\ A !! i = None.
Proof. intros [HA HB]%lookup_union_None HAB. split_and!; [by rewrite insert_union_l|by apply map_disjoint_insert_l|done]. Qed.

Definition kst_page_alloc J : PageAlloc (kst S).
Proof.
  refine {| pg_held := kheld J |}.
  - intros s P A pages HA Hp. pose proof HA as (B & Rg & Hpg & HAB & HI & Hb). apply wp_k_on_pa. eapply wp_mono; [by apply (pg_division_spec _ _ _ _ Hpg)|].
    intros r pa [(i & p & n & -> & Hn & Hi & Hk & Hpg')|[-> ->]]; [left|right; by destruct s]. destruct (insert_client A B i (p, n) Hi HAB) as (E & Hdis & HAi).
    exists i, p, n. split_and!; [done|done|done|done|]. exists B, Rg. rewrite <- E. split_and!; [done|done|by destruct HI|done].
  - intros s P A HA. pose proof HA as (B & Rg & Hpg & HAB & HI & Hb). apply wp_k_on_pa. eapply wp_mono; [apply (pg_procpage_spec _ _ _ Hpg)|].
    intros r pa [(i & p & -> & Hi & Hpg')|[-> ->]]; [left|right; by destruct s]. destruct (insert_client A B i (p, 1) Hi HAB) as (E & Hdis & HAi).
    exists i, p. split_and!; [done|done|]. exists B, Rg. rewrite <- E. split_and!; [done|done|by destruct HI|done].
  - intros s P A i p n HA Hi. pose proof HA as (B & Rg & Hpg & HAB & HI & Hb). apply wp_k_on_pa.
    eapply wp_mono; [apply (pg_merge_spec _ _ _ _ _ _ Hpg (lookup_union_Some_l _ _ _ _ Hi))|]. intros r pa [-> Hpg']. split; [done|].
    exists B, Rg. rewrite delete_union, (delete_id B) in Hpg' by (by eapply map_disjoint_Some_l). split_and!; [done|by apply map_disjoint_delete_l|by destruct HI|done].
  - intros s P A i p n (B & Rg & Hpg & HAB & HI & Hb) Hi. apply k_on_pa_eq, (pg_fpagenr_spec _ _ _ _ _ _ Hpg (lookup_union_Some_l _ _ _ _ Hi)).
  - intros s P A i p n (B & Rg & Hpg & HAB & HI & Hb) Hi. apply k_on_pa_eq, (pg_addr_spec _ _ _ _ _ _ Hpg (lookup_union_Some_l _ _ _ _ Hi)).
  - intros s P A i b (B & Rg & Hpg & HAB & HI & Hb) Hi. apply (pg_block _ _ _ _ _ Hpg (lookup_union_Some_l _ _ _ _ Hi)).
  - intros s P A i j b c (B & Rg & Hpg & HAB & HI & Hb) Hi Hj. apply (pg_apart _ _ _ _ _ _ _ Hpg (lookup_union_Some_l _ _ _ _ Hi) (lookup_union_Some_l _ _ _ _ Hj)).
  - intros s P A i p n k (B & Rg & Hpg & HAB & HI & Hb) Hi. apply (pg_pool _ _ _ _ _ _ _ Hpg (lookup_union_Some_l _ _ _ _ Hi)).
Defined.

(** Objects start at multiples of 16. *)
Lemma objects_few s P A J : kheld J s P A -> Z.of_nat (size J) < 2 ^ 30.
Proof.
  intros (B & Rg & _ & _ & HI & _). assert (Had : forall a, is_Some (J !! a) -> (a - base) mod 16 = 0 /\ 0x2000000 <= a - base < 2 ^ 34).
  { intros a [sz Ha]. destruct (obj_at HI _ _ Ha) as (p & m & _ & Hm & _ & _ & HP & Hs & _ & Hsz). pose proof (pool_size HI _ _ Hm) as Ho.
    pose proof (slot_addr HI _ (so_objsz m) a ltac:(lia) Hs). split; [|lia]. destruct Hs as (st & d & n & Hr & Hin).
    apply elem_of_slots in Hin as (k & _ & -> & _); [|lia]. destruct (ki_reg _ _ _ _ HI _ _ _ _ Hr) as (Hal & _). rewrite (po_sz _ _ _ _ _ _ HP).
    apply Z.mod_divide in Hal as [x Hx]; [|lia]. assert (Hh : exists h, hdr p st = 16 * h) by (unfold hdr; case_decide; [by exists 23|by exists 3]). destruct Hh as [h ->].
    replace (st + 16 * h + (32 + 32 * cls sz) * k - base) with ((256 * x + h + 2 * (1 + cls sz) * k) * 16) by lia. by apply Z.mod_mul. }
  rewrite <- size_dom. pose (l := (fun a => (a - base) / 16) <$> elements (dom J)).
  assert (Hl : (length l <= length (seqZ 0x200000 (2 ^ 30 - 0x200000)))%nat).
  { apply submseteq_length, NoDup_submseteq.
    - apply NoDup_fmap_2_strong; [|apply NoDup_elements]. intros a b Ha%elem_of_elements%elem_of_dom%Had Hb%elem_of_elements%elem_of_dom%Had E.
      pose proof (Z.div_mod (a - base) 16 ltac:(lia)). pose proof (Z.div_mod (b - base) 16 ltac:(lia)). lia.
    - intros x (a & -> & Ha%elem_of_elements%elem_of_dom%Had)%list_elem_of_fmap. apply elem_of_seqZ. pose proof (Z.div_mod (a - base) 16 ltac:(lia)). lia. }
  unfold l in Hl. rewrite length_fmap, length_seqZ in Hl. unfold size, set_size. cbn. lia.
Qed.

Lemma object_range s P A J a sz : kheld J s P A -> J !! a = Some sz -> base < a /\ a + sz <= base + 2 ^ 34.
Proof.
  intros (B & Rg & _ & _ & HI & _) Ha. destruct (obj_at HI _ _ Ha) as (p & m & _ & Hm & _ & _ & _ & Hs & _ & Hsz'). pose proof (pool_size HI _ _ Hm).
  destruct (slot_range HI _ (so_objsz m) a ltac:(lia) Hs) as (st & d & n & Hrg & Hlo & Hhi & _). pose proof (ki_reg _ _ _ _ HI _ _ _ _ Hrg). pose proof (hdr_pos p st). lia.
Qed.

#[global] Instance kst_obj_alloc : ObjAlloc (kst S).
Proof.
  refine {| ob_pages := kst_page_alloc |}.
  - intros s P A J sz HA Hsz. eapply wp_mono; [by apply (kmsob_new_spec s P A J sz)|]. intros r s' [(Hr & Hj & HA')|[-> ->]]; [left|by right].
    pose proof base_val. rewrite u64max_val. split_and!; [lia|lia|done|done].
  - intros s P A J a sz HA Ha. by apply (kmsob_delete_spec s P A J a sz).
  - intros s P A J HA. by apply (objects_few s P A J).
  - intros s P A J a sz HA Ha. pose proof (object_range s P A J a sz HA Ha). pose proof base_val. rewrite u64max_val. lia.
  - intros s P A J a b sz sz' HA Ha Hb. by apply (objects_apart s P A J).
  - intros s P A J a sz d b HA Ha Hd. pose proof (object_block_apart s P A J a sz d b HA Ha Hd). lia.
Defined.

(** ** Properties *)

(** C26: a new object.  [kmsob_new] never halts, faults or loops.  It answers [NULL]
    only without any effect; otherwise the size was between 1 and 2048 bytes and
    the object lies in the kernel's linear map, apart from every object handed out
    before and from every block of pages that a client of the page allocator
    holds, and the allocator's invariant holds with the object added. *)
Theorem kmsob_new_correct s P A J sz : kheld J s P A ->
  wp (kmsob_new sz) s (fun r s' => (r = 0 /\ s' = s) \/
    (1 <= sz <= 2048 /\ base < r /\ r + sz <= base + 2 ^ 34 /\ kheld (<[r := sz]> J) s' P A /\
     (forall b sz', J !! b = Some sz' -> r + sz <= b \/ b + sz' <= r) /\
     (forall i b, A !! i = Some b -> r - base + sz <= b.1 \/ b.1 + 4096 * b.2 <= r - base))).
Proof.
  intros HA. destruct (decide (0 < sz <= 2048)) as [Hsz|Hsz].
  - eapply wp_mono; [by apply (kmsob_new_spec s P A J sz)|]. intros r s' [(Hr & Hj & HA')|[-> ->]]; [right|by left].
    assert (Hrs : <[r := sz]> J !! r = Some sz) by apply lookup_insert_eq. split_and!; [lia|lia|lia| |done| |].
    + by apply (object_range s' P A _ _ _ HA' Hrs).
    + intros b sz' Hb. assert (Hne : r <> b) by congruence. apply (objects_apart s' P A _ _ _ _ _ HA' Hrs); [|done]. by rewrite lookup_insert_ne.
    + intros i b Hi. by apply (object_block_apart s' P A _ _ _ i b HA' Hrs).
  - unfold kmsob_new. replace ((1 >? sz) || (2048 <? sz)) with true by lia. apply wp_ret. by left.
Qed.

(** C27: giving an object back.  [kmsob_delete] of an object handed out, with the
    size it was asked for, succeeds; the other objects stay as they are.  When it
    was the last object every pool is gone and every page the object allocator
    took is back with the page allocator. *)
Theorem kmsob_delete_correct s P A J a sz : kheld J s P A -> J !! a = Some sz ->
  wp (kmsob_delete a sz) s (fun r s' => r = true /\ kheld (delete a J) s' P A /\
    (delete a J = ∅ -> k_obs s' = ∅ /\ pg_held (k_pa s') P A)).
Proof.
  intros HA Ha. eapply wp_mono; [by apply (kmsob_delete_spec s P A J a sz)|]. intros r s' [-> HA']. split_and!; [done|done|].
  intros E. rewrite E in HA'. by apply no_objects.
Qed.

(** The states that calls from [init_kmsob] on can reach, with the objects handed
    out; a client gives back only what it holds. *)
Inductive kreach (pa : S) : kst S -> objects -> Prop :=
  | kr_init : kreach pa (Kst pa kmsobmgrhed_t_init ∅ ∅) ∅
  | kr_new s J sz r s' : kreach pa s J -> kmsob_new sz s = Ret (r, s') -> r <> 0 -> kreach pa s' (<[r := sz]> J)
  | kr_null s J sz s' : kreach pa s J -> kmsob_new sz s = Ret (0, s') -> kreach pa s' J
  | kr_delete s J a sz r s' : kreach pa s J -> J !! a = Some sz -> kmsob_delete a sz s = Ret (r, s') -> kreach pa s' (delete a J).

(** Every reachable state of the object allocator is well-formed.  After any
    sequence of calls the invariant holds, the objects handed out do not overlap,
    and the next call returns. *)
Theorem kmsob_reachable pa P A s J : pg_held pa P A -> kreach pa s J ->
  kheld J s P A /\
  (forall a b sz sz', J !! a = Some sz -> J !! b = Some sz' -> a <> b -> a + sz <= b \/ b + sz' <= a) /\
  (forall sz, exists r s', kmsob_new sz s = Ret (r, s')) /\
  (forall a sz, J !! a = Some sz -> exists s', kmsob_delete a sz s = Ret (true, s')).
Proof.
  intros Hpg Hr. assert (HA : kheld J s P A).
  { induction Hr as [|s J sz r s' _ IH Hnew Hnz|s J sz s' _ IH Hnew|s J a sz r s' _ IH Ha Hdel].
    - by apply init_kheld.
    - destruct (decide (0 < sz <= 2048)) as [Hsz|Hsz].
      + pose proof (kmsob_new_spec s P A J sz IH Hsz) as Hw. rewrite (wp_det _ _ _ _ _ Hnew) in Hw. by destruct Hw as [(_ & _ & ?)|[? _]].
      + unfold kmsob_new in Hnew. replace ((1 >? sz) || (2048 <? sz)) with true in Hnew by lia. by injection Hnew as <- _.
    - destruct (decide (0 < sz <= 2048)) as [Hsz|Hsz].
      + pose proof (kmsob_new_spec s P A J sz IH Hsz) as Hw. rewrite (wp_det _ _ _ _ _ Hnew) in Hw. pose proof base_val. by destruct Hw as [(? & _)|[_ ->]]; [lia|].
      + unfold kmsob_new in Hnew. replace ((1 >? sz) || (2048 <? sz)) with true in Hnew by lia. by injection Hnew as <-.
    - pose proof (kmsob_delete_spec s P A J a sz IH Ha) as Hw. rewrite (wp_det _ _ _ _ _ Hdel) in Hw. apply Hw. }
  split_and!; [done|intros a b sz sz'; by apply (objects_apart s P A)| |].
  - intros sz. destruct (decide (0 < sz <= 2048)) as [Hsz|Hsz].
    + destruct (proj1 (wp_run _ _ _) (kmsob_new_spec s P A J sz HA Hsz)) as (r & s' & Heq & _). eauto.
    + unfold kmsob_new. replace ((1 >? sz) || (2048 <? sz)) with true by lia. by eexists _, _.
  - intros a sz Ha. destruct (proj1 (wp_run _ _ _) (kmsob_delete_spec s P A J a sz HA Ha)) as (r & s' & Heq & -> & _). eauto.
Qed.
End spec.

(** ** The small machine of DivMerSpec.v *)

Definition demo_k : kst mmst := Kst demo kmsobmgrhed_t_init ∅ ∅.

Lemma demo_k_held : kheld ∅ demo_k demo_pool ∅.
Proof. apply init_kheld, demo_held. Qed.

Abbreviation demo_obj := (result 0 (kmsob_new 100) demo_k).
Abbreviation demo_k1 := (final (kmsob_new 100) demo_k).

Lemma demo_obj_some : demo_obj =? 0 = false.
Proof. vm_compute. reflexivity. Qed.

Lemma kmsob_new_correct_witness :
  wp (kmsob_new 100) demo_k (fun r s' => r = 0 \/ (base < r /\ r + 100 <= base + 2 ^ 34)).
Proof.
  eapply wp_mono; [apply (kmsob_new_correct demo_k demo_pool ∅ ∅ 100 demo_k_held)|]. intros r s' [[-> _]|(_ & H1 & H2 & _)]; [by left|by right].
Defined.

Lemma demo_k1_held : kheld (<[demo_obj := 100]> ∅) demo_k1 demo_pool ∅.
Proof.
  pose proof (wp_result 0 _ _ _ (kmsob_new_spec demo_k demo_pool ∅ ∅ 100 demo_k_held ltac:(lia))) as [(_ & _ & HA)|[E _]]; [done|].
  pose proof demo_obj_some as Hn. by rewrite E in Hn.
Qed.

Lemma kmsob_delete_correct_witness : wp (kmsob_delete demo_obj 100) demo_k1 (fun r s' => r = true /\ k_obs s' = ∅).
Proof.
  eapply wp_mono; [apply (kmsob_delete_correct demo_k1 demo_pool ∅ _ demo_obj 100 demo_k1_held); apply lookup_insert_eq|].
  intros r s' (-> & _ & Hlast). split; [reflexivity|]. apply Hlast. apply (delete_insert_id (∅ : objects)). reflexivity.
Defined.

Lemma kmsob_reachable_witness : exists r s', kmsob_new 64 demo_k = Ret (r, s').
Proof. apply (kmsob_reachable demo demo_pool ∅ demo_k ∅); [exact demo_held|apply kr_init]. Defined.
