(* ===== verification/Kmempool.v ===== *)
(** * The kernel's memory pool

    src/kernel/krlpagempol.c and krlmm.c: [krlnew] serves sizes up to 2048 bytes
    from the object allocator and larger ones from the page allocator, filing each
    block of pages under its page count so that [krldelete] finds it again.

    The first half is the model, over any page and object allocator that meet
    PageIf.v and ObjIf.v; the second half its invariant and properties.  A pointer
    is its address and [NULL] is 0. *)

From S2P Require Import Prelude PhyMem DivMer DivMerInv DivMerOps DivMerAlloc DivMerFree Marea MareaInit MareaBoot DivMerSpec Boot BootSpec BootPages PageIf Mmu MmuInv MmuOps MmuSpec MmuLife MmuCorrect ObjIf Kmsob KmsobInv KmsobOps KmsobPool KmsobDestroy KmsobSpec.

(** ** Model *)

Definition KMEMPALCSZ_MIN : Z := 1.
Definition KMEMPALCSZ_MAX : Z := 0x400000.
Definition OBJSORPAGE : Z := 2048.
Definition PHYMSA_MAX : Z := 512.
Definition MALCSZ_MIN : Z := 0.
Definition MALCSZ_MAX : Z := 0x400000.

(** [ALIGN(x, 4)]; the constant 4 is an [int], so that the mask is sign-extended. *)
Definition OBJS_ALIGN (x : Z) : Z := Z.land (x +u 4 -u 1) (u64 (Z.lnot 3)).

Record msahead_t := Msahead { mlh_nr : Z; mlh_msalst : list Z }.
Definition msahead_t_init : msahead_t := Msahead 0 [].
Definition kmempool_t_init : gmap Z msahead_t := tabulate (fun _ => msahead_t_init) PHYMSA_MAX.

Record pst (S : Type) := Pst { p_mm : S; p_heads : gmap Z msahead_t }.
Arguments Pst {S} p_mm p_heads.
Arguments p_mm {S} p.
Arguments p_heads {S} p.

Section pool.
Context {S : Type} `{PageOps S} `{ObjOps S}.
Abbreviation PM A := (M (pst S) A).

Definition on_mm {A} (m : M S A) : PM A := fun s =>
  match m (p_mm s) with
  | Ret (a, t) => Ret (a, Pst t (p_heads s))
  | Halt e => Halt e
  | Fault => Fault
  | NoFuel => NoFuel
  end.
Definition get_head (i : Z) : PM msahead_t := fun s => match p_heads s !! i with Some h => Ret (h, s) | None => Fault end.
Definition upd_head (i : Z) (f : msahead_t -> msahead_t) : PM unit := h ← get_head i; modify (fun s => Pst (p_mm s) (<[i := f h]> (p_heads s))).

Definition pool_ret_vaddr (msa : Z) : PM Z := p ← on_mm (pg_addr msa); phyadr_to_viradr p.

(** The list a block of [relpnr] pages is filed under. *)
Definition head_index (relpnr : Z) : Z := if PHYMSA_MAX - 1 <=? relpnr then PHYMSA_MAX - 1 else relpnr.

Definition msadsc_add_kmempool (msa relpnr : Z) : PM unit :=
  die_if (1 >? relpnr) "msadsc_add_kmempool fail" ;;
  upd_head (head_index relpnr) (fun h => Msahead (mlh_nr h +u 1) (msa :: mlh_msalst h)).

Definition msadsc_del_kmempool (relpnr fradr : Z) : PM (option Z) :=
  if (1 >? relpnr) || (fradr =? 0) then mret None else
  let i := head_index relpnr in
  h ← get_head i;
  r ← find_first (mlh_msalst h) (fun tmpmsa => v ← pool_ret_vaddr tmpmsa; mret (if v =? fradr then Some tmpmsa else None));
  match r with
  | Some tmpmsa =>
      upd_head i (fun h => Msahead (mlh_nr h -u 1) (filter (fun j => j <> tmpmsa) (mlh_msalst h))) ;;
      mret (Some tmpmsa)
  | None => mret None
  end.

Definition kmempool_pages_core_new (msize : Z) : PM Z :=
  '(r, relpnr) ← on_mm (pg_division (Z.shiftr msize 12));
  match r with
  | None => mret 0
  | Some retmsa => msadsc_add_kmempool retmsa relpnr ;; pool_ret_vaddr retmsa
  end.

Definition kmempool_pages_core_delete (fradr frsz : Z) : PM bool :=
  let relpnr := Z.shiftr frsz 12 in
  r ← msadsc_del_kmempool relpnr fradr;
  match r with
  | None => mret false
  | Some retmsa => on_mm (pg_merge retmsa relpnr)
  end.

Definition kmempool_objsz_core_new (msize : Z) : PM Z := on_mm (ob_new msize).
Definition kmempool_objsz_core_delete (fradr frsz : Z) : PM bool := on_mm (ob_delete fradr frsz).

Definition kmempool_objsz_new (msize : Z) : PM Z :=
  let sz := OBJS_ALIGN msize in if sz >? OBJSORPAGE then mret 0 else kmempool_objsz_core_new sz.
Definition kmempool_objsz_delete (fradr frsz : Z) : PM bool :=
  let fsz := OBJS_ALIGN frsz in if fsz >? OBJSORPAGE then mret false else kmempool_objsz_core_delete fradr fsz.
Definition kmempool_pages_new (msize : Z) : PM Z := kmempool_pages_core_new (PAGE_ALIGN msize).
Definition kmempool_pages_delete (fradr frsz : Z) : PM bool := kmempool_pages_core_delete fradr (PAGE_ALIGN frsz).

Definition kmempool_onsize_new (msize : Z) : PM Z := if msize >? OBJSORPAGE then kmempool_pages_new msize else kmempool_objsz_new msize.
Definition kmempool_onsize_delete (fradr frsz : Z) : PM bool :=
  if frsz >? OBJSORPAGE then kmempool_pages_delete fradr frsz else kmempool_objsz_delete fradr frsz.

Definition kmempool_new (msize : Z) : PM Z :=
  if (msize <? KMEMPALCSZ_MIN) || (msize >? KMEMPALCSZ_MAX) then mret 0 else kmempool_onsize_new msize.
Definition kmempool_delete (fradr frsz : Z) : PM bool :=
  if (fradr =? 0) || (frsz <? KMEMPALCSZ_MIN) || (frsz >? KMEMPALCSZ_MAX) then mret false else kmempool_onsize_delete fradr frsz.

Definition krlnew (mmsize : Z) : PM Z := if (mmsize =? MALCSZ_MIN) || (mmsize >? MALCSZ_MAX) then mret 0 else kmempool_new mmsize.
Definition krldelete (fradr frsz : Z) : PM bool :=
  if (fradr =? 0) || (frsz =? MALCSZ_MIN) || (frsz >? MALCSZ_MAX) then mret false else kmempool_delete fradr frsz.
End pool.

(** ** Invariant *)

(** Pages of a size. *)
Definition page_count (sz : Z) : Z := (sz + 4095) / 4096.

Section inv.
Context {S : Type} {HPO : PageOps S} {HOO : ObjOps S} {HOA : ObjAlloc S}.
Implicit Types (s : pst S) (A K : blocks) (J : objects).

(** [J]: the objects handed out, of this pool and of others; [K]: the blocks of
    pages handed out by the pool; [A]: the blocks that other clients hold. *)
Record pheld J K s (P : Z -> Prop) A : Prop := {
  ph_pages : @pg_held S _ (ob_pages J) (p_mm s) P (A ∪ K);
  ph_apart : A ##ₘ K;
  ph_blk d q n : K !! d = Some (q, n) -> krnl_block (q, n) /\ exists k, 0 <= k /\ n = 2 ^ k;
  ph_dom i : is_Some (p_heads s !! i) <-> 0 <= i < PHYMSA_MAX;
  ph_head i h : p_heads s !! i = Some h -> NoDup (mlh_msalst h) /\ mlh_nr h = u64 (Z.of_nat (length (mlh_msalst h))) /\
    forall d, d ∈ mlh_msalst h <-> exists q n, K !! d = Some (q, n) /\ head_index n = i
}.

Lemma wp_on_mm {T : Type} (m : M S T) s Q : wp m (p_mm s) (fun a t => Q a (Pst t (p_heads s))) -> wp (on_mm m) s Q.
Proof. unfold wp, on_mm. by destruct (m (p_mm s)) as [[a t]| | |]. Qed.
Lemma on_mm_eq {T : Type} (m : M S T) s a : m (p_mm s) = Ret (a, p_mm s) -> on_mm m s = Ret (a, s).
Proof. intros E. unfold on_mm. rewrite E. by destruct s. Qed.
Lemma get_head_eq s i h : p_heads s !! i = Some h -> get_head i s = Ret (h, s).
Proof. intros E. unfold get_head. by rewrite E. Qed.
Lemma upd_head_eq s i h f : p_heads s !! i = Some h -> upd_head i f s = Ret (tt, Pst (p_mm s) (<[i := f h]> (p_heads s))).
Proof. intros E. unfold upd_head. by rewrite (bind_eq _ _ _ _ _ (get_head_eq _ _ _ E)). Qed.

Lemma objs_align_up x : 1 <= x <= 2048 -> x <= OBJS_ALIGN x <= 2048.
Proof.
  intros Hx. unfold OBJS_ALIGN. rewrite (u64_small (x + 4)), u64_small by (rewrite u64max_val; lia).
  change (u64 (Z.lnot 3)) with (Z.shiftl (Z.ones (64 - 2)) 2). rewrite land_high by (rewrite ?u64max_val; lia). change (2 ^ 2) with 4.
  pose proof (Z.div_mod (x + 4 - 1) 4 ltac:(lia)). pose proof (Z.mod_pos_bound (x + 4 - 1) 4 ltac:(lia)). lia.
Qed.

Lemma page_align_count x : 2048 < x <= 0x400000 -> Z.shiftr (PAGE_ALIGN x) 12 = page_count x /\ 1 <= page_count x <= 1024.
Proof.
  intros Hx. rewrite page_align_up by (rewrite ?u64max_val; lia). unfold page_count. rewrite Z.shiftr_div_pow2 by lia. change (2 ^ 12) with 4096.
  rewrite Z.mul_comm, Z.div_mul by lia. split; [done|]. pose proof (Z.div_mod (x + 4095) 4096 ltac:(lia)). pose proof (Z.mod_pos_bound (x + 4095) 4096 ltac:(lia)). lia.
Qed.

Lemma head_index_range n : 1 <= n -> 0 <= head_index n < PHYMSA_MAX.
Proof. unfold head_index, PHYMSA_MAX. intros Hn. destruct (512 - 1 <=? n) eqn:E; lia. Qed.

Section held.
Context {J K s P A} (HH : pheld J K s P A).

Lemma pool_block d q n : K !! d = Some (q, n) -> (A ∪ K) !! d = Some (q, n) /\ 0x2000000 <= q /\ 0 < n /\ q + 4096 * n <= 2 ^ 34.
Proof using HH.
  intros Hd. assert (HAK : (A ∪ K) !! d = Some (q, n)) by (apply lookup_union_Some_r; [apply HH|done]). split; [done|].
  pose proof (@pg_block _ _ (ob_pages J) _ _ _ _ _ (ph_pages _ _ _ _ _ HH) HAK) as Hb. destruct (ph_blk _ _ _ _ _ HH _ _ _ Hd) as [Hk _].
  unfold page_block, krnl_block in *. simpl in *. lia.
Qed.

Lemma pool_ret_vaddr_eq d q n : K !! d = Some (q, n) -> pool_ret_vaddr d s = Ret (q + base, s).
Proof using HH.
  intros Hd. destruct (pool_block _ _ _ Hd) as (HAK & Hq & Hn & Hb). unfold pool_ret_vaddr.
  rewrite (bind_eq _ _ s q s) by (apply on_mm_eq, (@pg_addr_spec _ _ (ob_pages J) _ _ _ _ _ _ (ph_pages _ _ _ _ _ HH) HAK)).
  unfold phyadr_to_viradr. replace (KRNL_MAP_PHYADDRESS_END <=? q) with false by (unfold KRNL_MAP_PHYADDRESS_END; lia).
  pose proof base_val. rewrite u64_small by (rewrite u64max_val; lia). done.
Qed.

(** Blocks at the same address are the same block. *)
Lemma pool_block_fun d d' q n n' : K !! d = Some (q, n) -> K !! d' = Some (q, n') -> d = d'.
Proof using HH.
  intros Hd Hd'. destruct (decide (d = d')) as [|Hne]; [done|]. destruct (pool_block _ _ _ Hd) as (H1 & _ & Hn & _). destruct (pool_block _ _ _ Hd') as (H2 & _ & Hn' & _).
  pose proof (@pg_apart _ _ (ob_pages J) _ _ _ _ _ _ _ (ph_pages _ _ _ _ _ HH) H1 H2 Hne) as Hap. unfold block_apart in Hap. simpl in Hap. lia.
Qed.

(** What the search of [msadsc_del_kmempool] finds. *)
Lemma pool_search i h v : p_heads s !! i = Some h ->
  find_first (mlh_msalst h) (fun tmpmsa => v' ← pool_ret_vaddr tmpmsa; mret (if v' =? v then Some tmpmsa else None)) s =
    Ret (List.hd_error (omap (fun d => match K !! d with Some (q, _) => if q + base =? v then Some d else None | None => None end) (mlh_msalst h)), s).
Proof using HH.
  intros Hh. apply find_first_pure. intros d (q & n & Hd & _)%(proj2 (proj2 (ph_head _ _ _ _ _ HH _ _ Hh))).
  rewrite (bind_eq _ _ _ _ _ (pool_ret_vaddr_eq _ _ _ Hd)), Hd. by destruct (q + base =? v).
Qed.
End held.

Definition with_head (i : Z) (h : msahead_t) (t : S) (s : pst S) : pst S := Pst t (<[i := h]> (p_heads s)).

(** A block filed, and a block taken off its list. *)
Lemma pheld_file J K s P A t d q n h : pheld J K s P A -> @pg_held S _ (ob_pages J) t P (<[d := (q, n)]> (A ∪ K)) -> (A ∪ K) !! d = None ->
  krnl_block (q, n) -> (exists k, 0 <= k /\ n = 2 ^ k) -> p_heads s !! head_index n = Some h ->
  pheld J (<[d := (q, n)]> K) (with_head (head_index n) (Msahead (mlh_nr h +u 1) (d :: mlh_msalst h)) t s) P A.
Proof.
  intros HH Hpg [HdA HdK]%lookup_union_None Hk Hn Hh. destruct (ph_head _ _ _ _ _ HH _ _ Hh) as (Hnd & Hnr & Hin). split; cbn [with_head p_mm p_heads].
  - by rewrite <- insert_union_r.
  - apply map_disjoint_insert_r. split; [done|apply HH].
  - intros d' q' n' [[<- [= <- <-]]|[_ Hd']]%lookup_insert_Some; [done|]. by apply (ph_blk _ _ _ _ _ HH d').
  - intros i. rewrite lookup_insert_is_Some, (ph_dom _ _ _ _ _ HH). destruct (decide (head_index n = i)) as [<-|]; [|tauto].
    split; [|by left]. intros _. apply (ph_dom _ _ _ _ _ HH). eauto.
  - intros i h' [[<- <-]|[Hne Hh']]%lookup_insert_Some; cbn [mlh_msalst mlh_nr length].
    + split_and!.
      * apply NoDup_cons. split; [|done]. intros (q' & n' & Hd & _)%Hin. congruence.
      * rewrite Hnr. unfold u64. rewrite Zplus_mod_idemp_l. f_equal. lia.
      * intros d'. rewrite elem_of_cons, Hin. setoid_rewrite lookup_insert_Some. split.
        -- intros [->|(q' & n' & Hd' & Hi)]; [exists q, n; split; [by left|done]|]. exists q', n'. split; [|done]. right. split; [congruence|done].
        -- intros (q' & n' & [[<- [= <- <-]]|[Hne Hd']] & Hi); [by left|right; eauto].
    + destruct (ph_head _ _ _ _ _ HH _ _ Hh') as (Hnd' & Hnr' & Hin'). split_and!; [done|done|]. intros d'. rewrite Hin'. setoid_rewrite lookup_insert_Some. split.
      * intros (q' & n' & Hd' & Hi). exists q', n'. split; [|done]. right. split; [congruence|done].
      * intros (q' & n' & [[<- [= <- <-]]|[_ Hd']] & Hi); [done|eauto].
Qed.

Lemma pheld_unfile J K s P A t d q n h : pheld J K s P A -> @pg_held S _ (ob_pages J) t P (delete d (A ∪ K)) -> K !! d = Some (q, n) ->
  p_heads s !! head_index n = Some h ->
  pheld J (delete d K) (with_head (head_index n) (Msahead (mlh_nr h -u 1) (filter (fun j => j <> d) (mlh_msalst h))) t s) P A.
Proof.
  intros HH Hpg Hd Hh. destruct (ph_head _ _ _ _ _ HH _ _ Hh) as (Hnd & Hnr & Hin). assert (Hdl : d ∈ mlh_msalst h) by (apply Hin; eauto).
  split; cbn [with_head p_mm p_heads].
  - rewrite delete_union, (delete_id A) in Hpg; [done|]. eapply map_disjoint_Some_r; [apply HH|done].
  - apply map_disjoint_delete_r, HH.
  - intros d' q' n' [_ Hd']%lookup_delete_Some. by apply (ph_blk _ _ _ _ _ HH d').
  - intros i. rewrite lookup_insert_is_Some, (ph_dom _ _ _ _ _ HH). destruct (decide (head_index n = i)) as [<-|]; [|tauto].
    split; [|by left]. intros _. apply (ph_dom _ _ _ _ _ HH). eauto.
  - intros i h' [[<- <-]|[Hne Hh']]%lookup_insert_Some; cbn [mlh_msalst mlh_nr].
    + split_and!; [by apply NoDup_filter|rewrite length_filter_ne by done; rewrite Hnr; unfold u64; by rewrite Zminus_mod_idemp_l|].
      intros d'. rewrite elem_of_filter_ne, Hin. setoid_rewrite lookup_delete_Some. split.
      * intros [(q' & n' & Hd' & Hi) Hne]. exists q', n'. split_and!; [congruence|done|done].
      * intros (q' & n' & [Hne Hd'] & Hi). split; [eauto|congruence].
    + destruct (ph_head _ _ _ _ _ HH _ _ Hh') as (Hnd' & Hnr' & Hin'). split_and!; [done|done|]. intros d'. rewrite Hin'. setoid_rewrite lookup_delete_Some. split.
      * intros (q' & n' & Hd' & Hi). exists q', n'. split; [|done]. split; [|done]. intros <-. congruence.
      * intros (q' & n' & [_ Hd'] & Hi). eauto.
Qed.

Lemma pheld_objects J J' K s P A t : pheld J K s P A -> @pg_held S _ (ob_pages J') t P (A ∪ K) -> pheld J' K (Pst t (p_heads s)) P A.
Proof. intros [] Hpg. by split. Qed.

Lemma krlnew_spec J K s P A sz : pheld J K s P A -> 1 <= sz <= MALCSZ_MAX ->
  wp (krlnew sz) s (fun r s' => (r = 0 /\ s' = s) \/
    (sz <= OBJSORPAGE /\ 0 < r < u64max /\ J !! r = None /\ pheld (<[r := OBJS_ALIGN sz]> J) K s' P A) \/
    (OBJSORPAGE < sz /\ exists d q, r = q + base /\ K !! d = None /\ A !! d = None /\ pheld J (<[d := (q, 2 ^ Z.log2_up (page_count sz))]> K) s' P A)).
Proof.
  unfold MALCSZ_MAX, OBJSORPAGE. intros HH Hsz. unfold krlnew, MALCSZ_MIN, MALCSZ_MAX. replace ((sz =? 0) || (sz >? 4194304)) with false by lia.
  unfold kmempool_new, KMEMPALCSZ_MIN, KMEMPALCSZ_MAX. replace ((sz <? 1) || (sz >? 4194304)) with false by lia.
  unfold kmempool_onsize_new, OBJSORPAGE. destruct (sz >? 2048) eqn:E.
  - destruct (page_align_count sz ltac:(lia)) as [Epc Hpc]. unfold kmempool_pages_new, kmempool_pages_core_new. rewrite Epc. apply wp_bind, wp_on_mm.
    eapply wp_mono; [apply (@pg_division_spec _ _ (ob_pages J) _ _ _ _ (ph_pages _ _ _ _ _ HH)); rewrite u64max_val; lia|].
    intros r t [(d & q & n & -> & Hn & Hd & Hk & Hpg)|[-> ->]]; [|apply wp_ret; left; by destruct s]. cbn beta iota.
    assert (Hn1 : 1 <= n) by (rewrite Hn; pose proof (pow2_pos (Z.log2_up (page_count sz)) (Z.log2_up_nonneg _)); lia).
    destruct (proj2 (ph_dom _ _ _ _ _ HH (head_index n)) (head_index_range n Hn1)) as [h Hh].
    assert (HH' := pheld_file J K s P A t d q n h HH Hpg Hd Hk ltac:(exists (Z.log2_up (page_count sz)); split; [apply Z.log2_up_nonneg|done]) Hh).
    apply wp_bind. unfold msadsc_add_kmempool. apply wp_bind, wp_die_if; [lia|]. rewrite (wp_det _ _ _ _ _ (upd_head_eq (Pst t (p_heads s)) _ h _ Hh)).
    cbn [p_mm p_heads]. fold (with_head (head_index n) (Msahead (mlh_nr h +u 1) (d :: mlh_msalst h)) t s).
    rewrite (wp_det _ _ _ _ _ (pool_ret_vaddr_eq HH' d q n (lookup_insert_eq _ _ _))). right. right. split; [lia|]. exists d, q. rewrite <- Hn.
    apply lookup_union_None in Hd as [HdA HdK]. done.
  - unfold kmempool_objsz_new, kmempool_objsz_core_new, OBJSORPAGE. pose proof (objs_align_up sz ltac:(lia)) as Ho. replace (OBJS_ALIGN sz >? 2048) with false by lia.
    apply wp_on_mm. eapply wp_mono; [apply (ob_new_spec _ _ _ _ _ (ph_pages _ _ _ _ _ HH)); lia|]. intros r t [(Hr & Hj & Hpg)|[-> ->]]; [right; left|left; by destruct s].
    split_and!; [lia|lia|lia|done|]. by apply (pheld_objects J).
Qed.

Lemma krldelete_pages a sz : a <> 0 -> OBJSORPAGE < sz <= MALCSZ_MAX -> krldelete a sz = kmempool_pages_core_delete (S := S) a (PAGE_ALIGN sz).
Proof.
  unfold OBJSORPAGE, MALCSZ_MAX. intros Ha Hsz. unfold krldelete, MALCSZ_MIN, MALCSZ_MAX. replace ((a =? 0) || (sz =? 0) || (sz >? 4194304)) with false by lia.
  unfold kmempool_delete, KMEMPALCSZ_MIN, KMEMPALCSZ_MAX. replace ((a =? 0) || (sz <? 1) || (sz >? 4194304)) with false by lia.
  unfold kmempool_onsize_delete, OBJSORPAGE. by replace (sz >? 2048) with true by lia.
Qed.

Lemma krldelete_objs a sz : a <> 0 -> 1 <= sz <= OBJSORPAGE -> krldelete a sz = on_mm (S := S) (ob_delete a (OBJS_ALIGN sz)).
Proof.
  unfold OBJSORPAGE. intros Ha Hsz. unfold krldelete, MALCSZ_MIN, MALCSZ_MAX. replace ((a =? 0) || (sz =? 0) || (sz >? 4194304)) with false by lia.
  unfold kmempool_delete, KMEMPALCSZ_MIN, KMEMPALCSZ_MAX. replace ((a =? 0) || (sz <? 1) || (sz >? 4194304)) with false by lia.
  unfold kmempool_onsize_delete, OBJSORPAGE. replace (sz >? 2048) with false by lia. unfold kmempool_objsz_delete, kmempool_objsz_core_delete, OBJSORPAGE.
  pose proof (objs_align_up sz ltac:(lia)). by replace (OBJS_ALIGN sz >? 2048) with false by lia.
Qed.

(** C37: what [krlnew] hands out.  For a size of 1 byte to 4 MiB it answers [NULL]
    only without effect; up to 2048 bytes it hands out a fresh object of the size
    rounded up to a multiple of 4; above, a block of the power of two of pages that
    holds the size, filed so that it can be found again.  Sizes outside the range
    are refused. *)
Theorem krlnew_correct J K s P A sz : pheld J K s P A ->
  wp (krlnew sz) s (fun r s' => (r = 0 /\ s' = s) \/
    (1 <= sz <= OBJSORPAGE /\ sz <= OBJS_ALIGN sz /\ J !! r = None /\ pheld (<[r := OBJS_ALIGN sz]> J) K s' P A) \/
    (OBJSORPAGE < sz <= MALCSZ_MAX /\ exists d q n, r = q + base /\ sz <= 4096 * n /\ krnl_block (q, n) /\ K !! d = None /\ A !! d = None /\
       pheld J (<[d := (q, n)]> K) s' P A)).
Proof.
  intros HH. destruct (decide (1 <= sz <= MALCSZ_MAX)) as [Hsz|Hsz]; unfold MALCSZ_MAX, OBJSORPAGE in *.
  - eapply wp_mono; [by apply krlnew_spec|]. unfold OBJSORPAGE. intros r s' [Hz|[(Hle & Hr & Hj & HH')|(Hgt & d & q & -> & HdK & HdA & HH')]]; [by left|right; left|right; right].
    + pose proof (objs_align_up sz ltac:(lia)). split_and!; [lia|lia|lia|done|done].
    + split; [lia|]. exists d, q. eexists. split_and!; [done| | |done|done|done].
      * destruct (page_align_count sz ltac:(lia)) as [_ Hpc]. pose proof (proj2 (Z.log2_log2_up_spec (page_count sz) ltac:(lia))).
        unfold page_count in *. pose proof (Z.div_mod (sz + 4095) 4096 ltac:(lia)). pose proof (Z.mod_pos_bound (sz + 4095) 4096 ltac:(lia)). lia.
      * apply (ph_blk _ _ _ _ _ HH' d). apply lookup_insert_eq.
  - unfold krlnew, kmempool_new, MALCSZ_MIN, MALCSZ_MAX, KMEMPALCSZ_MIN, KMEMPALCSZ_MAX. destruct ((sz =? 0) || (sz >? 4194304)) eqn:E; [apply wp_ret; by left|].
    replace ((sz <? 1) || (sz >? 4194304)) with true by lia. apply wp_ret. by left.
Qed.

Lemma krldelete_obj_spec J K s P A sz : pheld J K s P A -> forall a, 1 <= sz <= OBJSORPAGE -> a <> 0 -> J !! a = Some (OBJS_ALIGN sz) ->
  wp (krldelete a sz) s (fun r s' => r = true /\ pheld (delete a J) K s' P A).
Proof.
  intros HH.
  intros a Hsz Ha Hj. rewrite krldelete_objs by done. apply wp_on_mm. eapply wp_mono; [apply (ob_delete_spec _ _ _ _ _ _ (ph_pages _ _ _ _ _ HH) Hj)|].
  intros r t [-> Hpg]. split; [done|]. by apply (pheld_objects J).
Qed.

Lemma krldelete_pages_spec J K s P A sz : pheld J K s P A -> forall d q, OBJSORPAGE < sz <= MALCSZ_MAX -> K !! d = Some (q, page_count sz) ->
  wp (krldelete (q + base) sz) s (fun r s' => r = true /\ pheld J (delete d K) s' P A).
Proof.
  intros HH.
  intros d q Hsz Hd. pose proof base_val as Hbv. destruct (pool_block HH _ _ _ Hd) as (HAK & Hq & Hn & Hb). rewrite krldelete_pages by (done || lia).
  unfold OBJSORPAGE, MALCSZ_MAX in Hsz. destruct (page_align_count sz ltac:(lia)) as [Epc Hpc]. unfold kmempool_pages_core_delete. rewrite Epc.
  destruct (proj2 (ph_dom _ _ _ _ _ HH (head_index (page_count sz))) (head_index_range (page_count sz) ltac:(lia))) as [h Hh].
  destruct (ph_head _ _ _ _ _ HH _ _ Hh) as (Hnd & Hnr & Hin). assert (Hdl : d ∈ mlh_msalst h) by (apply Hin; eauto).
  apply wp_bind. unfold msadsc_del_kmempool. replace ((1 >? page_count sz) || (q + base =? 0)) with false by lia.
  apply wp_bind. rewrite (wp_det _ _ _ _ _ (get_head_eq _ _ _ Hh)). apply wp_bind. rewrite (wp_det _ _ _ _ _ (pool_search HH _ h (q + base) Hh)).
  rewrite (hd_omap_only _ _ d d Hdl).
  + apply wp_bind. rewrite (wp_det _ _ _ _ _ (upd_head_eq _ _ h _ Hh)). apply wp_ret, wp_on_mm. cbn [p_mm p_heads].
    eapply wp_mono; [apply (@pg_merge_spec _ _ (ob_pages J) _ _ _ _ _ _ (ph_pages _ _ _ _ _ HH) HAK)|]. intros r t [-> Hpg]. split; [done|].
    by apply (pheld_unfile J K s P A t d q (page_count sz) h).
  + rewrite Hd. by rewrite Z.eqb_refl.
  + intros d' w _ Hg. destruct (K !! d') as [[q' n']|] eqn:Ed; [|done]. destruct (q' + base =? q + base) eqn:E; [|done]. bool_to_prop. injection Hg as <-.
    assert (q' = q) as -> by lia. symmetry. by apply (pool_block_fun HH d d' q (page_count sz) n').
Qed.

(** C38: giving memory of [krlnew] back.  [krldelete] with the size asked for
    succeeds for an object, and for a block whose number of pages is a power of
    two; exactly that object or block leaves the pool. *)
Theorem krldelete_correct J K s P A sz : pheld J K s P A ->
  (forall a, 1 <= sz <= OBJSORPAGE -> a <> 0 -> J !! a = Some (OBJS_ALIGN sz) ->
     wp (krldelete a sz) s (fun r s' => r = true /\ pheld (delete a J) K s' P A)) /\
  (forall d q, OBJSORPAGE < sz <= MALCSZ_MAX -> K !! d = Some (q, page_count sz) ->
     wp (krldelete (q + base) sz) s (fun r s' => r = true /\ pheld J (delete d K) s' P A)).
Proof. intros HH. split; [by apply krldelete_obj_spec|by apply krldelete_pages_spec]. Qed.

(** Memory of another number of pages cannot be given back.  When the size
    takes fewer than 511 pages and their number is not a power of two, [krldelete]
    of any address fails without effect: [krlnew] filed the block under the
    rounded page count, [krldelete] looks under the exact one. *)
Theorem krldelete_odd_pages_fails J K s P A sz a : pheld J K s P A -> OBJSORPAGE < sz <= MALCSZ_MAX -> page_count sz < PHYMSA_MAX - 1 ->
  (forall k, 0 <= k -> page_count sz <> 2 ^ k) -> krldelete a sz s = Ret (false, s).
Proof.
  intros HH Hsz Hpc Hpow. destruct (decide (a = 0)) as [->|Ha]; [done|]. rewrite krldelete_pages by done.
  unfold OBJSORPAGE, MALCSZ_MAX, PHYMSA_MAX in *. destruct (page_align_count sz ltac:(lia)) as [Epc Hpc']. unfold kmempool_pages_core_delete. rewrite Epc.
  assert (Ei : head_index (page_count sz) = page_count sz) by (unfold head_index, PHYMSA_MAX; by replace (512 - 1 <=? page_count sz) with false by lia).
  destruct (proj2 (ph_dom _ _ _ _ _ HH (head_index (page_count sz))) (head_index_range (page_count sz) ltac:(lia))) as [h Hh].
  destruct (ph_head _ _ _ _ _ HH _ _ Hh) as (_ & _ & Hin).
  assert (Hnil : mlh_msalst h = []).
  { destruct (mlh_msalst h) as [|d l]; [done|]. destruct (proj1 (Hin d) ltac:(by left)) as (q & n & Hd & Hi). destruct (ph_blk _ _ _ _ _ HH _ _ _ Hd) as [_ (k & Hk & ->)].
    rewrite Ei in Hi. unfold head_index, PHYMSA_MAX in Hi. destruct (512 - 1 <=? 2 ^ k) eqn:E; [lia|]. by destruct (Hpow k Hk). }
  rewrite (bind_eq _ _ s None s); [done|]. unfold msadsc_del_kmempool. replace ((1 >? page_count sz) || (a =? 0)) with false by lia.
  rewrite (bind_eq _ _ _ _ _ (get_head_eq _ _ _ Hh)), Hnil. done.
Qed.
End inv.

(** ** The small machine *)

Lemma init_pheld {T} `{ObjAlloc T} (t : T) P A J : @pg_held T _ (ob_pages J) t P A -> pheld J ∅ (Pst t kmempool_t_init) P A.
Proof.
  intros Hpg. split; cbn [p_mm p_heads].
  - by rewrite map_union_empty.
  - apply map_disjoint_empty_r.
  - done.
  - intros i. unfold kmempool_t_init. rewrite lookup_tabulate. destruct (_ && _) eqn:E; split; [lia|eauto|by intros [? ?]|unfold PHYMSA_MAX in *; lia].
  - intros i h. unfold kmempool_t_init. rewrite lookup_tabulate. destruct (_ && _); [|done]. intros [= <-]. cbn. split_and!; [apply NoDup_nil_2|done|].
    intros d. split; [by intros ?%elem_of_nil|]. intros (q & n & Hd & _). by rewrite lookup_empty in Hd.
Qed.

Definition demo_p : pst (kst mmst) := Pst demo_k kmempool_t_init.

Lemma demo_p_held : pheld ∅ ∅ demo_p demo_pool ∅.
Proof. apply init_pheld. exact demo_k_held. Qed.

Lemma krlnew_correct_witness : wp (krlnew 5000) demo_p (fun r s' => (r = 0 /\ s' = demo_p) \/ exists q, r = q + base).
Proof.
  eapply wp_mono; [apply (krlnew_correct ∅ ∅ demo_p demo_pool ∅ 5000 demo_p_held)|].
  intros r s' [Hz|[(Hle & _)|(_ & d & q & n & -> & _)]]; [by left|unfold OBJSORPAGE in Hle; lia|right; by exists q].
Defined.

Abbreviation demo_p1 := (final (krlnew 8192) demo_p).
Abbreviation demo_mem := (result 0 (krlnew 8192) demo_p).

Lemma demo_mem_some : demo_mem =? 0 = false.
Proof. vm_compute. reflexivity. Qed.

Lemma demo_p1_held : exists d q, demo_mem = q + base /\ pheld ∅ (<[d := (q, page_count 8192)]> ∅) demo_p1 demo_pool ∅.
Proof.
  pose proof (wp_result 0 _ _ _ (krlnew_spec ∅ ∅ demo_p demo_pool ∅ 8192 demo_p_held ltac:(unfold MALCSZ_MAX; lia))) as [[E _]|[(Hle & _)|(_ & d & q & E & _ & _ & HH)]].
  - pose proof demo_mem_some as Hn. by rewrite E in Hn.
  - unfold OBJSORPAGE in Hle. lia.
  - exists d, q. split; [exact E|]. change (page_count 8192) with (2 ^ Z.log2_up (page_count 8192)). exact HH.
Qed.

Lemma krldelete_correct_witness : wp (krldelete demo_mem 8192) demo_p1 (fun r s' => r = true /\ pheld ∅ ∅ s' demo_pool ∅).
Proof.
  destruct demo_p1_held as (d & q & E & HH). rewrite E.
  eapply wp_mono; [apply (proj2 (krldelete_correct ∅ _ demo_p1 demo_pool ∅ 8192 HH) d q); [unfold OBJSORPAGE, MALCSZ_MAX; lia|apply lookup_insert_eq]|].
  intros r s' [-> HH']. split; [reflexivity|]. rewrite delete_insert_id in HH' by reflexivity. exact HH'.
Defined.

Lemma krldelete_odd_pages_fails_witness : krldelete (base + 0x3000000) 12288 demo_p = Ret (false, demo_p).
Proof.
  apply (krldelete_odd_pages_fails ∅ ∅ demo_p demo_pool ∅ 12288 _ demo_p_held); [unfold OBJSORPAGE, MALCSZ_MAX; lia|reflexivity|].
  intros k Hk E. change (page_count 12288) with 3 in E. destruct (decide (k <= 1)) as [Hle|Hgt].
  - assert (Hc : k = 0 \/ k = 1) by lia. destruct Hc; subst k; discriminate E.
  - pose proof (pow2_le 2 k ltac:(lia)). lia.
Defined.
