(* ===== verification/Vma.v ===== *)
(** * Virtual address spaces

    src/kernel/krlvadrsmem.c and include/knlinc/krlvadrsmem_t.h: the address space
    of a process as a list of intervals, the boxes that hold the physical pages of
    an interval, and the page fault that maps a page on first use.

    The state is that of the page tables (Mmu.v), the [virmemadrs_t], the intervals
    and the boxes by address, and the manager of the boxes.  A pointer is its
    address and [NULL] is 0; an intrusive list is the sequence of its nodes; an
    access to an address with no object is a fault.  There is one [mmadrsdsc_t],
    so that the tests of [mm] for [NULL] are not repeated.  Locks, console output,
    and fields that the code only sets, are left out. *)

From S2P Require Import Prelude PhyMem Boot PageIf Mmu ObjIf.

(** ** Constants *)

Definition USER_VIRTUAL_ADDRESS_START : Z := 0.
Definition USER_VIRTUAL_ADDRESS_END : Z := 0x00007fffffffffff.
Definition THREAD_HEAPADR_START : Z := 0x100000000.
Definition KMV_HEAP_TYPE : Z := 8.
Definition KMV_STACK_TYPE : Z := 16.
Definition KMV_BIN_TYPE : Z := 64.
Definition KMBOX_CACHE_MAX : Z := 0x1000.
Definition KMBOX_CACHE_MIN : Z := 0x40.
Definition VMAP_MIN_SIZE : Z := 4096.
Definition PML4E_P : Z := Z.shiftl 1 0.
Definition PML4E_RW : Z := Z.shiftl 1 1.
Definition PML4E_US : Z := Z.shiftl 1 2.
Definition SYSSTUSERR : Z := -1.
Definition SYSSTUSOK : Z := 0.
Definition INR_MM_ALLOC : Z := 1.
Definition INR_MM_FREE : Z := 2.
Definition EOK : Z := 0.
Definition ENOMEM : Z := 12.
Definition EACCES : Z := 13.
Definition EFAULT : Z := 14.
Definition ENOOBJ : Z := 36.
Definition EPARAM : Z := 39.

(** [ALIGN(x, 0x1000)] on 64-bit words *)
Definition VADSZ_ALIGN (x : Z) : Z := Z.land (x +u 0x1000 -u 1) (u64 (Z.lnot (0x1000 - 1))).

(** Sizes of the objects, from the layout of the structures. *)
Definition sizeof_kmvarsdsc_t : Z := 120.
Definition sizeof_kvmemcbox_t : Z := 104.
Definition sizeof_mmadrsdsc_t : Z := 456.

(** ** Data *)

Record kmvarsdsc_t := Kmvarsdsc {
  kva_maptype : Z;
  kva_flgs : Z;
  kva_limits : Z;
  kva_start : Z;
  kva_end : Z;
  kva_kvmbox : Z
}.

Definition set_range (st en : Z) (k : kmvarsdsc_t) : kmvarsdsc_t := Kmvarsdsc (kva_maptype k) (kva_flgs k) (kva_limits k) st en (kva_kvmbox k).
Definition set_kvmbox (b : Z) (k : kmvarsdsc_t) : kmvarsdsc_t := Kmvarsdsc (kva_maptype k) (kva_flgs k) (kva_limits k) (kva_start k) (kva_end k) b.

Record kvmemcbox_t := Kvmemcbox {
  kmb_cont : Z;
  kmb_flgs : Z;
  kmb_stus : Z;
  kmb_type : Z;
  kmb_msanr : Z;
  kmb_msalist : list Z
}.

Definition set_cont (c : Z) (b : kvmemcbox_t) : kvmemcbox_t := Kvmemcbox c (kmb_flgs b) (kmb_stus b) (kmb_type b) (kmb_msanr b) (kmb_msalist b).
Definition set_msas (n : Z) (l : list Z) (b : kvmemcbox_t) : kvmemcbox_t := Kvmemcbox (kmb_cont b) (kmb_flgs b) (kmb_stus b) (kmb_type b) n l.

Record kvmemcboxmgr_t := Kvmemcboxmgr {
  kbm_kmbnr : Z;
  kbm_kmbhead : list Z;
  kbm_cachenr : Z;
  kbm_cachemax : Z;
  kbm_cachemin : Z;
  kbm_cachehead : list Z
}.

Record virmemadrs_t := Virmemadrs {
  vs_list : list Z;
  vs_kmvdscnr : Z;
  vs_startkmvdsc : Z;
  vs_endkmvdsc : Z;
  vs_currkmvdsc : Z;
  vs_heapkmvdsc : Z;
  vs_stackkmvdsc : Z;
  vs_isalcstart : Z;
  vs_isalcend : Z
}.

Definition set_vs_list (l : list Z) (v : virmemadrs_t) : virmemadrs_t :=
  Virmemadrs l (vs_kmvdscnr v) (vs_startkmvdsc v) (vs_endkmvdsc v) (vs_currkmvdsc v) (vs_heapkmvdsc v) (vs_stackkmvdsc v) (vs_isalcstart v) (vs_isalcend v).
Definition set_vs_nr (n : Z) (v : virmemadrs_t) : virmemadrs_t :=
  Virmemadrs (vs_list v) n (vs_startkmvdsc v) (vs_endkmvdsc v) (vs_currkmvdsc v) (vs_heapkmvdsc v) (vs_stackkmvdsc v) (vs_isalcstart v) (vs_isalcend v).
Definition set_vs_end (p : Z) (v : virmemadrs_t) : virmemadrs_t :=
  Virmemadrs (vs_list v) (vs_kmvdscnr v) (vs_startkmvdsc v) p (vs_currkmvdsc v) (vs_heapkmvdsc v) (vs_stackkmvdsc v) (vs_isalcstart v) (vs_isalcend v).
Definition set_vs_curr (p : Z) (v : virmemadrs_t) : virmemadrs_t :=
  Virmemadrs (vs_list v) (vs_kmvdscnr v) (vs_startkmvdsc v) (vs_endkmvdsc v) p (vs_heapkmvdsc v) (vs_stackkmvdsc v) (vs_isalcstart v) (vs_isalcend v).

(** [v_file]: address and size of the file of [msd_thread], [None] when there is
    no thread; [v_copies]: the copies from it, source and destination. *)
Record vst (S : Type) := Vst {
  v_mst : mst S;
  v_vma : virmemadrs_t;
  v_kmvds : gmap Z kmvarsdsc_t;
  v_boxes : gmap Z kvmemcbox_t;
  v_mgr : kvmemcboxmgr_t;
  v_file : option (Z * Z);
  v_copies : list (Z * Z)
}.
Arguments Vst {S} v_mst v_vma v_kmvds v_boxes v_mgr v_file v_copies.
Arguments v_mst {S} v.
Arguments v_vma {S} v.
Arguments v_kmvds {S} v.
Arguments v_boxes {S} v.
Arguments v_mgr {S} v.
Arguments v_file {S} v.
Arguments v_copies {S} v.

Definition virmemadrs_t_init : virmemadrs_t := Virmemadrs [] 0 0 0 0 0 0 0 0.
Definition kmvarsdsc_t_init : kmvarsdsc_t := Kmvarsdsc 0 0 0 0 0 0.
Definition kvmemcbox_t_init : kvmemcbox_t := Kvmemcbox 0 0 0 0 0 [].
Definition kvmemcboxmgr_t_init : kvmemcboxmgr_t := Kvmemcboxmgr 0 [] 0 KMBOX_CACHE_MAX KMBOX_CACHE_MIN [].

(** 32-bit signed counters *)
Definition s32 (x : Z) : Z := (x + 2 ^ 31) mod 2 ^ 32 - 2 ^ 31.

(** The node after [x], and the node before it, in a list. *)
Fixpoint list_next (x : Z) (l : list Z) : option Z :=
  match l with
  | [] => None
  | y :: l' => if y =? x then hd_error l' else list_next x l'
  end.
Definition list_prev (x : Z) (l : list Z) : option Z := list_next x (rev l).

(** [list_add(&new->kva_list, &pos->kva_list)] *)
Fixpoint insert_after (pos new : Z) (l : list Z) : list Z :=
  match l with
  | [] => []
  | y :: l' => if y =? pos then y :: new :: l' else y :: insert_after pos new l'
  end.

Section vma.
Context {S : Type} `{PageOps S} `{ObjOps S}.
Abbreviation VM A := (M (vst S) A).

(** ** Accesses *)

Definition with_mst (m : mst S) (s : vst S) : vst S := Vst m (v_vma s) (v_kmvds s) (v_boxes s) (v_mgr s) (v_file s) (v_copies s).

Definition on_mst {A} (m : M (mst S) A) : VM A := fun s =>
  match m (v_mst s) with
  | Ret (a, m') => Ret (a, with_mst m' s)
  | Halt e => Halt e
  | Fault => Fault
  | NoFuel => NoFuel
  end.

Definition upd_vma (f : virmemadrs_t -> virmemadrs_t) : VM unit :=
  modify (fun s => Vst (v_mst s) (f (v_vma s)) (v_kmvds s) (v_boxes s) (v_mgr s) (v_file s) (v_copies s)).
Definition get_kmv (p : Z) : VM kmvarsdsc_t := fun s => match v_kmvds s !! p with Some k => Ret (k, s) | None => Fault end.
Definition put_kmvs (f : gmap Z kmvarsdsc_t -> gmap Z kmvarsdsc_t) : VM unit :=
  modify (fun s => Vst (v_mst s) (v_vma s) (f (v_kmvds s)) (v_boxes s) (v_mgr s) (v_file s) (v_copies s)).
Definition upd_kmv (p : Z) (f : kmvarsdsc_t -> kmvarsdsc_t) : VM unit := k ← get_kmv p; put_kmvs <[p := f k]>.
Definition get_box (p : Z) : VM kvmemcbox_t := fun s => match v_boxes s !! p with Some b => Ret (b, s) | None => Fault end.
Definition put_boxes (f : gmap Z kvmemcbox_t -> gmap Z kvmemcbox_t) : VM unit :=
  modify (fun s => Vst (v_mst s) (v_vma s) (v_kmvds s) (f (v_boxes s)) (v_mgr s) (v_file s) (v_copies s)).
Definition upd_box (p : Z) (f : kvmemcbox_t -> kvmemcbox_t) : VM unit := b ← get_box p; put_boxes <[p := f b]>.
Definition upd_mgr (f : kvmemcboxmgr_t -> kvmemcboxmgr_t) : VM unit :=
  modify (fun s => Vst (v_mst s) (v_vma s) (v_kmvds s) (v_boxes s) (f (v_mgr s)) (v_file s) (v_copies s)).

(** ** Intervals *)

Definition new_kmvarsdsc : VM Z :=
  kmvdc ← on_mst (on_pa (ob_new sizeof_kmvarsdsc_t));
  if kmvdc =? 0 then mret 0 else
  put_kmvs <[kmvdc := kmvarsdsc_t_init]> ;;
  mret kmvdc.

Definition del_kmvarsdsc (delkmvd : Z) : VM bool :=
  if delkmvd =? 0 then mret false else
  ok ← on_mst (on_pa (ob_delete delkmvd sizeof_kmvarsdsc_t));
  (if ok : bool then put_kmvs (delete delkmvd) else mret tt) ;;
  mret ok.

(** [list_is_last(&p->kva_list, &vma->vs_list)], [list_next_entry] and
    [list_prev_entry]: the node must be in the list. *)
Definition vs_next (p : Z) : VM (option Z) :=
  v ← gets v_vma; if decide (p ∈ vs_list v) then mret (list_next p (vs_list v)) else fault.
Definition vs_prev (p : Z) : VM (option Z) :=
  v ← gets v_vma; if decide (p ∈ vs_list v) then mret (list_prev p (vs_list v)) else fault.

Definition kvma_inituserspace_virmemadrs : VM bool :=
  kmvdc ← new_kmvarsdsc;
  if kmvdc =? 0 then mret false else
  heapkmvdc ← new_kmvarsdsc;
  if heapkmvdc =? 0 then del_kmvarsdsc kmvdc ;; mret false else
  stackkmvdc ← new_kmvarsdsc;
  if stackkmvdc =? 0 then del_kmvarsdsc kmvdc ;; del_kmvarsdsc heapkmvdc ;; mret false else
  upd_kmv kmvdc (fun k => Kmvarsdsc (kva_maptype k) (kva_flgs k) (kva_limits k)
    (USER_VIRTUAL_ADDRESS_START +u 0x1000) (USER_VIRTUAL_ADDRESS_START +u 0x1000 +u 0x4000) (kva_kvmbox k)) ;;
  upd_kmv heapkmvdc (fun k => Kmvarsdsc KMV_HEAP_TYPE (kva_flgs k) (kva_limits k) THREAD_HEAPADR_START (THREAD_HEAPADR_START +u 0x1000) (kva_kvmbox k)) ;;
  upd_kmv stackkmvdc (fun k => Kmvarsdsc KMV_STACK_TYPE (kva_flgs k) (kva_limits k)
    (PAGE_ALIGN (USER_VIRTUAL_ADDRESS_END -u 0x40000000)) USER_VIRTUAL_ADDRESS_END (kva_kvmbox k)) ;;
  upd_vma (fun v => Virmemadrs (vs_list v ++ [kmvdc; heapkmvdc; stackkmvdc]) (vs_kmvdscnr v +u 3) kmvdc stackkmvdc (vs_currkmvdsc v)
    heapkmvdc stackkmvdc USER_VIRTUAL_ADDRESS_START USER_VIRTUAL_ADDRESS_END) ;;
  mret true.

(** The result is [curr] or [NULL]. *)
Definition vma_find_kmvarsdsc_is_ok (curr start vassize : Z) : VM Z :=
  v ← gets v_vma;
  k ← get_kmv curr;
  let newend := start +u vassize in
  nx ← vs_next curr;
  match nx with
  | Some nextkmvd =>
      n ← get_kmv nextkmvd;
      if start =? 0 then mret (if kva_end k +u vassize <=? kva_start n then curr else 0)
      else mret (if (kva_end k <=? start) && (newend <=? kva_start n) then curr else 0)
  | None =>
      if start =? 0 then mret (if kva_end k +u vassize <? vs_isalcend v then curr else 0)
      else mret (if (kva_end k <=? start) && (newend <? vs_isalcend v) then curr else 0)
  end.

Definition found (p : Z) : option Z := if p =? 0 then None else Some p.

Definition vma_find_kmvarsdsc (start vassize vaslimits vastype : Z) : VM Z :=
  v ← gets v_vma;
  let newend := start +u vassize in
  if 0x1000 >? vassize then mret 0 else
  if newend >? vs_isalcend v then mret 0 else
  hit ← (if vs_currkmvdsc v =? 0 then mret None else
         kmvdcurrent ← vma_find_kmvarsdsc_is_ok (vs_currkmvdsc v) start vassize;
         if kmvdcurrent =? 0 then mret None else
         k ← get_kmv kmvdcurrent;
         mret (if (vaslimits =? kva_limits k) && (vastype =? kva_maptype k) then Some kmvdcurrent else None));
  match hit with
  | Some p => mret p
  | None =>
      r ← find_first (vs_list v) (fun curr =>
            k ← get_kmv curr;
            if (vaslimits =? kva_limits k) && (vastype =? kva_maptype k)
            then p ← vma_find_kmvarsdsc_is_ok curr start vassize; mret (found p) else mret None);
      match r with
      | Some p => mret p
      | None =>
          r ← find_first (vs_list v) (fun curr => p ← vma_find_kmvarsdsc_is_ok curr start vassize; mret (found p));
          mret (default 0 r)
      end
  end.

Definition vma_new_vadrs_core (start vassize vaslimits vastype : Z) : VM Z :=
  currkmvd ← vma_find_kmvarsdsc start vassize vaslimits vastype;
  if currkmvd =? 0 then mret 0 else
  c ← get_kmv currkmvd;
  if ((start =? 0) || (start =? kva_end c)) && (vaslimits =? kva_limits c) && (vastype =? kva_maptype c) then
    upd_kmv currkmvd (set_range (kva_start c) (kva_end c +u vassize)) ;;
    upd_vma (set_vs_curr currkmvd) ;;
    mret (kva_end c)
  else
  newkmvd ← new_kmvarsdsc;
  if newkmvd =? 0 then mret 0 else
  let st := if start =? 0 then kva_end c else start in
  upd_kmv newkmvd (fun k => Kmvarsdsc vastype (kva_flgs k) vaslimits st (st +u vassize) (kva_kvmbox k)) ;;
  upd_vma (set_vs_curr newkmvd) ;;
  upd_vma (fun v => set_vs_list (insert_after currkmvd newkmvd (vs_list v)) v) ;;
  nx ← vs_next newkmvd;
  (if bool_decide (nx = None) then upd_vma (set_vs_end newkmvd) else mret tt) ;;
  mret st.

Definition vma_new_vadrs (start vassize vaslimits vastype : Z) : VM Z :=
  if 1 >? vassize then mret 0 else
  if negb (start =? 0) && (negb (Z.land start 0xfff =? 0) || (0x1000 >? start) || (USER_VIRTUAL_ADDRESS_END <? start +u vassize)) then mret 0 else
  vma_new_vadrs_core start (VADSZ_ALIGN vassize) vaslimits vastype.

Definition kvma_initdefault_virmemadrs (start size type : Z) : VM Z :=
  if (0x1000 >=? start) || (0 >=? size) then mret 0 else vma_new_vadrs start size 0 type.

(** ** Boxes *)

Definition new_kvmemcbox : VM Z :=
  kmbox ← on_mst (on_pa (ob_new sizeof_kvmemcbox_t));
  if kmbox =? 0 then mret 0 else
  put_boxes <[kmbox := kvmemcbox_t_init]> ;;
  mret kmbox.

Definition del_kvmemcbox (del : Z) : VM bool :=
  if del =? 0 then mret false else
  ok ← on_mst (on_pa (ob_delete del sizeof_kvmemcbox_t));
  (if ok : bool then put_boxes (delete del) else mret tt) ;;
  mret ok.

(** [refcount_inc], [refcount_dec] *)
Definition box_ref (kmbox n : Z) : VM unit := upd_box kmbox (fun b => set_cont (s32 (kmb_cont b + n)) b).

Definition knl_count_kvmemcbox (kmbox : Z) : VM unit := if kmbox =? 0 then mret tt else box_ref kmbox 1.
Definition knl_decount_kvmemcbox (kmbox : Z) : VM unit := if kmbox =? 0 then mret tt else box_ref kmbox (-1).

(** [list_del(&kmb->kmb_list)]; [list_add(&kmb->kmb_list, &kbm_kmbhead)] and
    [kbm_kmbnr++]. *)
Definition box_unlink (kmb : Z) : VM unit :=
  let del := filter (fun x => x <> kmb) in
  upd_mgr (fun g => Kvmemcboxmgr (kbm_kmbnr g) (del (kbm_kmbhead g)) (kbm_cachenr g) (kbm_cachemax g) (kbm_cachemin g) (del (kbm_cachehead g))).
Definition box_use (kmb : Z) : VM unit :=
  upd_mgr (fun g => Kvmemcboxmgr (kbm_kmbnr g +u 1) (kmb :: kbm_kmbhead g) (kbm_cachenr g) (kbm_cachemax g) (kbm_cachemin g) (kbm_cachehead g)) ;;
  box_ref kmb 1.

Definition knl_get_kvmemcbox : VM Z :=
  g ← gets v_mgr;
  match (if 0 <? kbm_cachenr g then hd_error (kbm_cachehead g) else None) with
  | Some kmb =>
      box_unlink kmb ;;
      upd_mgr (fun g => Kvmemcboxmgr (kbm_kmbnr g) (kbm_kmbhead g) (kbm_cachenr g -u 1) (kbm_cachemax g) (kbm_cachemin g) (kbm_cachehead g)) ;;
      upd_box kmb (fun _ => kvmemcbox_t_init) ;;
      box_use kmb ;;
      mret kmb
  | None =>
      kmb ← new_kvmemcbox;
      die_if (kmb =? 0) "mem: knl_get_kvmemcbox() null" ;;
      box_use kmb ;;
      mret kmb
  end.

Definition knl_put_kvmemcbox (kmbox : Z) : VM bool :=
  if kmbox =? 0 then mret false else
  box_ref kmbox (-1) ;;
  b ← get_box kmbox;
  if kmb_cont b >=? 1 then mret true else
  g ← gets v_mgr;
  if kbm_cachenr g >=? kbm_cachemax g then
    box_unlink kmbox ;;
    ok ← del_kvmemcbox kmbox;
    if negb ok then mret false else
    upd_mgr (fun g => Kvmemcboxmgr (kbm_kmbnr g -u 1) (kbm_kmbhead g) (kbm_cachenr g) (kbm_cachemax g) (kbm_cachemin g) (kbm_cachehead g)) ;;
    mret true
  else
  box_unlink kmbox ;;
  upd_mgr (fun g => Kvmemcboxmgr (kbm_kmbnr g -u 1) (kbm_kmbhead g) (kbm_cachenr g +u 1) (kbm_cachemax g) (kbm_cachemin g) (kmbox :: kbm_cachehead g)) ;;
  mret true.

(** ** Pages of a box *)

(** [list_del(&msa->md_list); kmb_msanr--;] and [mm_merge_pages(...)] *)
Definition del_msa (kmbox msa : Z) : VM bool :=
  upd_box kmbox (fun b => set_msas (kmb_msanr b -u 1) (filter (fun x => x <> msa) (kmb_msalist b)) b) ;;
  n ← on_mst (on_pa (pg_fpagenr msa));
  ok ← on_mst (on_pa (pg_merge msa n));
  die_if (negb ok) "vma_del_usermsa err" ;;
  mret true.

Definition vma_del_usermsa (kmbox : Z) (msa : option Z) (phyadr : Z) : VM bool :=
  if (kmbox =? 0) || (phyadr =? 0) then mret false else
  hit ← match msa with Some m => a ← on_mst (on_pa (pg_addr m)); mret (if a =? phyadr then Some m else None) | None => mret None end;
  match hit with
  | Some m => del_msa kmbox m
  | None =>
      b ← get_box kmbox;
      r ← find_first (kmb_msalist b) (fun tmpmsa =>
            a ← on_mst (on_pa (pg_addr tmpmsa)); mret (if a =? phyadr then Some tmpmsa else None));
      match r with Some tmpmsa => del_msa kmbox tmpmsa | None => mret false end
  end.

Definition vma_new_usermsa (kmbox : Z) : VM (option Z) :=
  if kmbox =? 0 then mret None else
  '(r, _) ← on_mst (on_pa pg_procpage);
  match r with
  | None => mret None
  | Some msa =>
      upd_box kmbox (fun b => set_msas (kmb_msanr b +u 1) (msa :: kmb_msalist b) b) ;;
      mret (Some msa)
  end.

(** ** Giving addresses back *)

Definition vma_del_find_kmvarsdsc (start vassize : Z) : VM Z :=
  v ← gets v_vma;
  let newend := start +u vassize in
  if 0x1000 >? vassize then mret 0 else
  hit ← (if vs_currkmvdsc v =? 0 then mret None else
         k ← get_kmv (vs_currkmvdsc v);
         mret (if (kva_start k <=? start) && (newend <=? kva_end k) then Some (vs_currkmvdsc v) else None));
  match hit with
  | Some p => mret p
  | None =>
      r ← find_first (vs_list v) (fun curr =>
            k ← get_kmv curr; mret (if (kva_start k <=? start) && (newend <=? kva_end k) then Some curr else None));
      mret (default 0 r)
  end.

Definition vma_del_set_endcurrkmvd (del : Z) : VM unit :=
  nx ← vs_next del;
  match nx with
  | None =>
      pv ← vs_prev del;
      let prevkmvd := default 0 pv in
      upd_vma (set_vs_end prevkmvd) ;; upd_vma (set_vs_curr prevkmvd)
  | Some nextkmvd => upd_vma (set_vs_curr nextkmvd)
  end.

(** [for (vadrs = start; vadrs < end; vadrs += VMAP_MIN_SIZE)] *)
Fixpoint unmapping_loop (fuel : nat) (kmbox vadrs en : Z) (rets : bool) : VM bool :=
  if vadrs <? en then
    match fuel with
    | O => nofuel
    | Datatypes.S fuel' =>
        phyadrs ← on_mst (hal_mmu_untransform vadrs);
        rets ← (if negb (phyadrs =? 0) && negb (kmbox =? 0)
                then ok ← vma_del_usermsa kmbox None phyadrs; mret (if ok : bool then rets else false)
                else mret rets);
        unmapping_loop fuel' kmbox (vadrs +u VMAP_MIN_SIZE) en rets
    end
  else mret rets.

(** A round for each page. *)
Definition unmapping_fuel (start en : Z) : nat := Z.to_nat ((en - start) / 4096 + 1).

Definition vma_del_unmapping_phyadrs (kmvd start en : Z) : VM bool :=
  k ← get_kmv kmvd;
  unmapping_loop (unmapping_fuel start en) (kva_kvmbox k) start en true.

Definition vma_del_unmapping (kmvd start vassize : Z) : VM bool :=
  if kmvd =? 0 then mret false else vma_del_unmapping_phyadrs kmvd start (start +u vassize).

Definition vma_del_vadrs_core (start vassize : Z) : VM bool :=
  delkmvd ← vma_del_find_kmvarsdsc start vassize;
  if delkmvd =? 0 then mret false else
  k ← get_kmv delkmvd;
  let newend := start +u vassize in
  if (kva_start k =? start) && (kva_end k =? newend) then
    vma_del_unmapping delkmvd start vassize ;;
    vma_del_set_endcurrkmvd delkmvd ;;
    knl_put_kvmemcbox (kva_kvmbox k) ;;
    upd_vma (fun v => set_vs_list (filter (fun x => x <> delkmvd) (vs_list v)) v) ;;
    del_kmvarsdsc delkmvd ;;
    upd_vma (fun v => set_vs_nr (vs_kmvdscnr v -u 1) v) ;;
    mret true
  else if (kva_start k =? start) && (kva_end k >? newend) then
    upd_kmv delkmvd (set_range newend (kva_end k)) ;;
    vma_del_unmapping delkmvd start vassize ;;
    mret true
  else if (kva_start k <? start) && (kva_end k =? newend) then
    upd_kmv delkmvd (set_range (kva_start k) start) ;;
    vma_del_unmapping delkmvd start vassize ;;
    mret true
  else if (kva_start k <? start) && (kva_end k >? newend) then
    newkmvd ← new_kmvarsdsc;
    if newkmvd =? 0 then mret false else
    upd_kmv newkmvd (fun x => Kmvarsdsc (kva_maptype k) (kva_flgs x) (kva_limits k) newend (kva_end k) (kva_kvmbox x)) ;;
    upd_kmv delkmvd (set_range (kva_start k) start) ;;
    knl_count_kvmemcbox (kva_kvmbox k) ;;
    upd_kmv newkmvd (set_kvmbox (kva_kvmbox k)) ;;
    vma_del_unmapping delkmvd start vassize ;;
    upd_vma (fun v => set_vs_list (insert_after delkmvd newkmvd (vs_list v)) v) ;;
    upd_vma (fun v => set_vs_nr (vs_kmvdscnr v +u 1) v) ;;
    nx ← vs_next newkmvd;
    (if bool_decide (nx = None) then upd_vma (set_vs_end newkmvd) ;; upd_vma (set_vs_curr newkmvd) else upd_vma (set_vs_curr newkmvd)) ;;
    mret true
  else mret false.

Definition vma_del_vadrs (start vassize : Z) : VM bool :=
  if (1 >? vassize) || (start =? 0) then mret false else vma_del_vadrs_core start (VADSZ_ALIGN vassize).

(** ** The page fault *)

Definition vma_map_find_kmvarsdsc (vadrs : Z) : VM Z :=
  v ← gets v_vma;
  hit ← (if vs_currkmvdsc v =? 0 then mret None else
         k ← get_kmv (vs_currkmvdsc v);
         mret (if (kva_start k <=? vadrs) && (vadrs <? kva_end k) then Some (vs_currkmvdsc v) else None));
  match hit with
  | Some p => mret p
  | None =>
      r ← find_first (vs_list v) (fun curr =>
            k ← get_kmv curr; mret (if (kva_start k <=? vadrs) && (vadrs <? kva_end k) then Some curr else None));
      mret (default 0 r)
  end.

Definition vma_map_retn_kvmemcbox (kmvd : Z) : VM Z :=
  if kmvd =? 0 then mret 0 else
  k ← get_kmv kmvd;
  if negb (kva_kvmbox k =? 0) then mret (kva_kvmbox k) else
  kmbox ← knl_get_kvmemcbox;
  if kmbox =? 0 then mret 0 else
  upd_kmv kmvd (set_kvmbox kmbox) ;;
  mret kmbox.

Definition vma_map_msa_fault (kmbox vadrs flags : Z) : VM Z :=
  if (kmbox =? 0) || (vadrs =? 0) then mret 0 else
  usermsa ← vma_new_usermsa kmbox;
  match usermsa with
  | None => mret 0
  | Some msa =>
      phyadrs ← on_mst (on_pa (pg_addr msa));
      ok ← on_mst (hal_mmu_transform vadrs phyadrs flags);
      if Bool.eqb ok true then mret phyadrs else
      vma_del_usermsa kmbox (Some msa) phyadrs ;;
      mret 0
  end.

Definition vma_map_phyadrs (kmvd vadrs flags : Z) : VM Z :=
  k ← get_kmv kmvd;
  if kva_kvmbox k =? 0 then mret 0 else vma_map_msa_fault (kva_kvmbox k) vadrs flags.

(** The page of a program's file: only the copy is recorded. *)
Definition vma_full_textbin (kmvd vadr : Z) : VM unit :=
  k ← get_kmv kmvd;
  let vnr := Z.shiftr (vadr -u kva_start k) 12 in
  if negb (kva_maptype k =? KMV_BIN_TYPE) then mret tt else
  f ← gets v_file;
  match f with
  | None => halt "vma_full_textbin td is null"
  | Some (filevadr, filesize) =>
      die_if ((filevadr =? 0) || (filesize =? 0)) "vma_full_textbin file is null" ;;
      modify (fun s => Vst (v_mst s) (v_vma s) (v_kmvds s) (v_boxes s) (v_mgr s) (v_file s)
        ((filevadr +u (vnr <<u 12), Z.land vadr (u64 (Z.lnot 0xfff))) :: v_copies s))
  end.

Definition FAULT_FLAGS : Z := Z.lor (Z.lor (Z.lor 0 PML4E_US) PML4E_RW) PML4E_P.

Definition vma_map_fairvadrs_core (vadrs : Z) : VM Z :=
  kmvd ← vma_map_find_kmvarsdsc vadrs;
  if kmvd =? 0 then mret (- EFAULT) else
  kmbox ← vma_map_retn_kvmemcbox kmvd;
  if kmbox =? 0 then mret (- ENOOBJ) else
  phyadrs ← vma_map_phyadrs kmvd vadrs FAULT_FLAGS;
  if phyadrs =? 0 then mret (- ENOMEM) else
  vma_full_textbin kmvd vadrs ;;
  mret EOK.

Definition vma_map_fairvadrs (vadrs : Z) : VM Z :=
  if (0x1000 >? vadrs) || (USER_VIRTUAL_ADDRESS_END <? vadrs) then mret (- EPARAM) else vma_map_fairvadrs_core vadrs.

Definition krluserspace_accessfailed (fairvadrs : Z) : VM Z :=
  if USER_VIRTUAL_ADDRESS_END <? fairvadrs then mret (- EACCES) else
  ret ← vma_map_fairvadrs fairvadrs;
  (if ret =? - EPARAM then halt "vma_map_fairvadrs EPARM"
   else if ret =? - ENOOBJ then halt "vma_map_fairvadrs ENOOBJ"
   else if ret =? - ENOMEM then halt "vma_map_fairvadrs ENOMEM" else mret tt) ;;
  mret ret.

(** The branch of [hal_fault_allocator] for a page fault (exception 14); its
    message is translated. *)
Definition hal_page_fault (fairvadrs : Z) : VM unit :=
  r ← krluserspace_accessfailed fairvadrs;
  die_if (negb (r =? 0)) "page fault".

(** ** Creating and destroying *)

(** [mmadrsdsc_t_init] resets the page tables, the intervals and [msd_thread]. *)
Definition new_mmadrsdsc : VM Z :=
  mm ← on_mst (on_pa (ob_new sizeof_mmadrsdsc_t));
  if mm =? 0 then mret 0 else
  on_mst (upd_mmu (fun _ => mmudsc_t_init)) ;;
  upd_vma (fun _ => virmemadrs_t_init) ;;
  modify (fun s => Vst (v_mst s) (v_vma s) (v_kmvds s) (v_boxes s) (v_mgr s) None (v_copies s)) ;;
  kvma_inituserspace_virmemadrs ;;
  on_mst hal_mmu_init ;;
  mret mm.

Definition del_mmadrsdsc (mm : Z) : VM bool :=
  if mm =? 0 then mret false else
  ok ← on_mst hal_mmu_clean;
  if negb ok then mret false else on_mst (on_pa (ob_delete mm sizeof_mmadrsdsc_t)).

(** ** The check of the intervals *)

Definition vma_chk_one_kmva (chkkmva : Z) : VM unit :=
  die_if (chkkmva =? 0) "vma_chk_one_kmva chkkmva NULL" ;;
  v ← gets v_vma;
  for_each (vs_list v) (fun head =>
    if head =? chkkmva then mret tt else
    c ← get_kmv chkkmva;
    h ← get_kmv head;
    die_if (((kva_start c >? kva_start h) && (kva_end c <? kva_end h)) ||
            ((kva_start c <? kva_start h) && (kva_end c >? kva_end h)) ||
            ((kva_start c >? kva_start h) && (kva_start c <? kva_end h)) ||
            ((kva_start c <? kva_start h) && (kva_end c >? kva_start h))) "vma_chk_one_kmva err").

Definition vma_check_kmva : VM unit := v ← gets v_vma; for_each (vs_list v) vma_chk_one_kmva.

(** ** The services (krlsvemm.c) *)

Definition krlsve_core_mallocblk (blksz : Z) : VM Z := vma_new_vadrs 0 blksz 0 KMV_HEAP_TYPE.
Definition krlsve_core_mfreeblk (fradr blksz : Z) : VM Z :=
  ok ← vma_del_vadrs fradr blksz; mret (if ok : bool then SYSSTUSOK else SYSSTUSERR).
Definition krlsve_mallocblk (blksz : Z) : VM Z := krlsve_core_mallocblk blksz.
Definition krlsve_mfreeblk (fradr blksz : Z) : VM Z := if fradr =? 0 then mret SYSSTUSERR else krlsve_core_mfreeblk fradr blksz.
Definition krlsvetabl_mallocblk (inr parmv1 : Z) : VM Z := if negb (inr =? INR_MM_ALLOC) then mret SYSSTUSERR else krlsve_mallocblk parmv1.
Definition krlsvetabl_mfreeblk (inr parmv1 parmv2 : Z) : VM Z := if negb (inr =? INR_MM_FREE) then mret SYSSTUSERR else krlsve_mfreeblk parmv1 parmv2.
End vma.
