(* ===== verification/VmaInv.v ===== *)
(** * Virtual address spaces: invariant

    The parts of a well-formed address space, each on the data it is about: the
    intervals ([VIv]), the boxes ([VBx]), and the page tables with the pages and
    objects held ([VSp]).  The ghost [U] gives for every mapped page of the space
    its descriptor, its frame and the box that holds it. *)

From S2P Require Import Prelude PhyMem Boot BootSpec BootPages PageIf Mmu MmuInv MmuOps MmuSpec MmuLife MmuCorrect ObjIf Vma.

Abbreviation intervals := (gmap Z kmvarsdsc_t).
Abbreviation upages := (gmap Z (Z * Z * Z)).

(** ** Intervals *)

Definition inside (k : kmvarsdsc_t) (x : Z) : Prop := kva_start k <= x < kva_end k.
Definition covered (g : intervals) (x : Z) : Prop := exists p k, g !! p = Some k /\ inside k x.

Definition before (g : intervals) (p q : Z) : Prop := forall k k', g !! p = Some k -> g !! q = Some k' -> kva_end k <= kva_start k'.

Record range_ok (k : kmvarsdsc_t) : Prop := {
  ro_lo : 0x1000 <= kva_start k;
  ro_al : kva_start k mod 4096 = 0;
  ro_ne : kva_start k < kva_end k;
  ro_hi : kva_end k <= USER_VIRTUAL_ADDRESS_END;
  ro_end : kva_end k mod 4096 = 0 \/ kva_end k = USER_VIRTUAL_ADDRESS_END
}.

(** The list holds the intervals in the order of their addresses. *)
Record VIv (g : intervals) (v : virmemadrs_t) : Prop := {
  vi_nodup : NoDup (vs_list v);
  vi_dom p : p ∈ vs_list v <-> is_Some (g !! p);
  vi_sorted : StronglySorted (before g) (vs_list v);
  vi_range p k : g !! p = Some k -> p <> 0 /\ range_ok k;
  vi_alc : vs_isalcend v = USER_VIRTUAL_ADDRESS_END;
  vi_curr : vs_currkmvdsc v = 0 \/ vs_currkmvdsc v ∈ vs_list v;
  vi_end : vs_endkmvdsc v = default 0 (last (vs_list v))
}.

(** ** Boxes *)

(** The intervals that share a box. *)
Definition refs (g : intervals) (b : Z) : Z := Z.of_nat (size (filter (fun x => kva_kvmbox x.2 = b) g)).

(** The list of pages of a box. *)
Definition box_ok (U : upages) (b : Z) (x : kvmemcbox_t) : Prop :=
  NoDup (kmb_msalist x) /\ kmb_msanr x = u64 (Z.of_nat (length (kmb_msalist x))) /\ forall d, d ∈ kmb_msalist x <-> exists n p, U !! n = Some (d, p, b).

(** [cnt] counts the references that the space has to each box. *)
Record VBx (cnt : Z -> Z) (U : upages) (bx : gmap Z kvmemcbox_t) (mg : kvmemcboxmgr_t) : Prop := {
  vb_lists : NoDup (kbm_kmbhead mg ++ kbm_cachehead mg);
  vb_dom b : is_Some (bx !! b) <-> b ∈ kbm_kmbhead mg \/ b ∈ kbm_cachehead mg;
  vb_null b : is_Some (bx !! b) -> b <> 0;
  vb_nr : kbm_kmbnr mg = u64 (Z.of_nat (length (kbm_kmbhead mg)));
  vb_cache : kbm_cachenr mg = Z.of_nat (length (kbm_cachehead mg)) /\ kbm_cachenr mg <= KMBOX_CACHE_MAX /\ kbm_cachemax mg = KMBOX_CACHE_MAX;
  vb_live b : b <> 0 -> 0 < cnt b -> b ∈ kbm_kmbhead mg;
  vb_cont b x : bx !! b = Some x -> 0 < cnt b -> kmb_cont x = cnt b /\ box_ok U b x
}.

(** Every mapped page is in an interval that has the page's box. *)
Definition mapped (g : intervals) (U : upages) : Prop :=
  forall n d p b, U !! n = Some (d, p, b) -> b <> 0 /\ exists q k, g !! q = Some k /\ inside k (4096 * n) /\ kva_kvmbox k = b.

(** ** Page tables, pages and objects *)

Definition frames_of (U : upages) : gmap Z Z := (fun x => x.1.2) <$> U.

(** The blocks of others [O] and the mapped pages. *)
Definition with_pages (O : blocks) (U : upages) (OU : blocks) : Prop :=
  (forall d b, OU !! d = Some b <-> O !! d = Some b \/ exists n p x, U !! n = Some (d, p, x) /\ b = (p, 1)) /\
  (forall d b n p x, O !! d = Some b -> U !! n <> Some (d, p, x)) /\
  (forall n n' d p p' x x', U !! n = Some (d, p, x) -> U !! n' = Some (d, p', x') -> n = n').

Section inv.
Context {S : Type} {HPO : PageOps S} {HOO : ObjOps S} {HOA : ObjAlloc S}.
Implicit Types (s : vst S) (m : mst S) (J : objects) (O : blocks) (U : upages) (g : intervals).

Definition VSp m (P : Z -> Prop) O J U (F : gmap Z Z) (R : Z) : Prop :=
  exists OU, @space S _ (ob_pages J) m P OU R F /\ with_pages O U OU.

(** The objects of the space and of others. *)
Definition vobjs g (bx : gmap Z kvmemcbox_t) J : objects := ((fun _ => sizeof_kmvarsdsc_t) <$> g) ∪ (((fun _ => sizeof_kvmemcbox_t) <$> bx) ∪ J).

Record VInv s (P : Z -> Prop) O J U (R : Z) : Prop := {
  iv_iv : VIv (v_kmvds s) (v_vma s);
  iv_bx : VBx (refs (v_kmvds s)) U (v_boxes s) (v_mgr s);
  iv_map : mapped (v_kmvds s) U;
  iv_sp : VSp (v_mst s) P O (vobjs (v_kmvds s) (v_boxes s) J) U (frames_of U) R;
  iv_ob1 p : is_Some (v_kmvds s !! p) -> v_boxes s !! p = None /\ J !! p = None;
  iv_ob2 p : is_Some (v_boxes s !! p) -> J !! p = None
}.

(** ** The page allocator behind the page tables *)

Definition set_pa (pa : S) m : mst S := Mst pa (m_words m) (m_mmu m) (m_cr3 m) (m_pml4 m).

Lemma minv_pa (H1 H2 : PageAlloc S) X m P O O' Tab E pa : @MInv S _ H1 X m P O Tab E ->
  (forall A, @pg_held S _ H1 (m_pa m) P A -> split_blocks A O Tab -> exists A', @pg_held S _ H2 pa P A' /\ split_blocks A' O' Tab) ->
  @MInv S _ H2 X (set_pa pa m) P O' Tab E.
Proof. intros [(A & HA & Hs) ? ? ? ? ? ? ? ? ? ? ? ? ? ?] Hnew. split; try done. exact (Hnew A HA Hs). Qed.

Lemma space_pa (H1 H2 : PageAlloc S) m P O O' R F pa : @space S _ H1 m P O R F ->
  (forall Tab A, @pg_held S _ H1 (m_pa m) P A -> split_blocks A O Tab -> exists A', @pg_held S _ H2 pa P A' /\ split_blocks A' O' Tab) ->
  @space S _ H2 (set_pa pa m) P O' R F.
Proof. intros (Tab & E & i & HI & HR & HF) Hnew. exists Tab, E, i. split_and!; [|done|done]. apply (minv_pa H1 H2 _ _ _ O); [done|apply Hnew]. Qed.

Lemma set_pa_frame P O R pa m : mframe P O R m (set_pa pa m).
Proof. by split. Qed.

(** A frame for more blocks of others is one for fewer. *)
Lemma mframe_weaken P O O' R m m' : O ⊆ O' -> mframe P O' R m m' -> mframe P O R m m'.
Proof.
  intros HO [W ? ? ? ?]. split; [|done..]. intros x [Hx|[(j & b & Hj & Hb)|Hx]]; apply W; [by left| |by right; right].
  right. left. exists j, b. split; [|done]. by apply (lookup_weaken O O').
Qed.

Lemma on_pa_run {T} (m : M S T) (t : mst S) (Q : T -> mst S -> Prop) : wp m (m_pa t) (fun a pa => Q a (set_pa pa t)) -> wp (on_pa m) t Q.
Proof. apply wp_on_pa. Qed.

Lemma with_pages_sub O U OU : with_pages O U OU -> O ⊆ OU.
Proof. intros [H1 _]. apply map_subseteq_spec. intros d b Hd. apply H1. by left. Qed.

Lemma set_pa_id m : set_pa (m_pa m) m = m.
Proof. by destruct m. Qed.

(** ** Changes of the intervals *)

Lemma refs_add g p k b : g !! p = None -> refs (<[p := k]> g) b = refs g b + (if decide (kva_kvmbox k = b) then 1 else 0).
Proof.
  intros Hp. unfold refs. destruct (decide (kva_kvmbox k = b)) as [E|E].
  - rewrite map_filter_insert_True by done. rewrite map_size_insert_None; [lia|]. apply map_lookup_filter_None. by left.
  - rewrite map_filter_insert_False by done. rewrite delete_id by done. lia.
Qed.

Lemma refs_delete g p k b : g !! p = Some k -> refs (delete p g) b = refs g b - (if decide (kva_kvmbox k = b) then 1 else 0).
Proof. intros Hp. rewrite <- (insert_delete_id g p k Hp) at 2. rewrite refs_add by apply lookup_delete_eq. lia. Qed.

Lemma refs_put g p k k' b : g !! p = Some k ->
  refs (<[p := k']> g) b = refs g b - (if decide (kva_kvmbox k = b) then 1 else 0) + (if decide (kva_kvmbox k' = b) then 1 else 0).
Proof. intros Hp. rewrite <- insert_delete_eq, refs_add by apply lookup_delete_eq. by rewrite (refs_delete g p k b Hp). Qed.

Lemma refs_pos g p k : g !! p = Some k -> 0 < refs g (kva_kvmbox k).
Proof.
  intros Hp. unfold refs. assert (size (filter (fun x => kva_kvmbox x.2 = kva_kvmbox k) g) <> 0%nat); [|lia].
  intros E%map_size_empty_iff. assert (Hl : filter (fun x => kva_kvmbox x.2 = kva_kvmbox k) g !! p = Some k) by (by apply map_lookup_filter_Some). by rewrite E in Hl.
Qed.

Lemma refs_nonneg g b : 0 <= refs g b.
Proof. unfold refs. lia. Qed.

Lemma vbx_ext cnt cnt' U bx mg : (forall b, b <> 0 -> cnt' b = cnt b) -> VBx cnt U bx mg -> VBx cnt' U bx mg.
Proof.
  intros Hc [B1 B2 B3 B4 B5 B6 B7]. split; try done.
  - intros b Hb. rewrite Hc by done. by apply B6.
  - intros b x Hb. rewrite Hc by (apply B3; eauto). by apply B7.
Qed.

Lemma vobjs_add g bx J p k : vobjs (<[p := k]> g) bx J = <[p := sizeof_kmvarsdsc_t]> (vobjs g bx J).
Proof. unfold vobjs. by rewrite fmap_insert, insert_union_l. Qed.

Lemma vobjs_put g bx J p k k' : g !! p = Some k -> vobjs (<[p := k']> g) bx J = vobjs g bx J.
Proof. intros Hp. unfold vobjs. f_equal. rewrite fmap_insert. apply insert_id. by rewrite lookup_fmap, Hp. Qed.

Lemma vobjs_interval g bx J p k : g !! p = Some k -> vobjs g bx J !! p = Some sizeof_kmvarsdsc_t.
Proof. intros Hp. apply lookup_union_Some_l. by rewrite lookup_fmap, Hp. Qed.

Lemma vobjs_none g bx J p : vobjs g bx J !! p = None -> g !! p = None /\ bx !! p = None /\ J !! p = None.
Proof. unfold vobjs. rewrite !lookup_union_None, !lookup_fmap, !fmap_None. tauto. Qed.

(** The state with other intervals. *)
Definition set_iv (g : intervals) (v : virmemadrs_t) s : vst S := Vst (v_mst s) v g (v_boxes s) (v_mgr s) (v_file s) (v_copies s).

(** An interval keeps its box and the pages mapped in it. *)
Lemma vinv_put s P O J U R p k k' v' : VInv s P O J U R -> v_kmvds s !! p = Some k -> kva_kvmbox k' = kva_kvmbox k -> VIv (<[p := k']> (v_kmvds s)) v' ->
  (forall n x, U !! n = Some x -> inside k (4096 * n) -> inside k' (4096 * n)) -> VInv (set_iv (<[p := k']> (v_kmvds s)) v' s) P O J U R.
Proof.
  intros [I1 I2 I3 I4 I5 I6] Hp Hb HV Hin. split; cbn [set_iv v_kmvds v_vma v_boxes v_mgr v_mst]; try done.
  - apply (vbx_ext (refs (v_kmvds s))); [|done]. intros b _. rewrite (refs_put _ _ k) by done. rewrite Hb. lia.
  - intros n d x b Hn. destruct (I3 _ _ _ _ Hn) as (Hb0 & q & kq & Hq & Hi & Hqb). split; [done|]. destruct (decide (q = p)) as [->|Hne].
    + simplify_eq. exists p, k'. rewrite lookup_insert_eq. split_and!; [done|by apply (Hin n _ Hn)|done].
    + exists q, kq. by rewrite lookup_insert_ne.
  - by rewrite (vobjs_put _ _ _ _ k).
  - intros q. destruct (decide (p = q)) as [<-|Hne]; [intros _; apply I5; eauto|]. rewrite lookup_insert_ne by done. apply I5.
Qed.

(** A new interval, without a box. *)
Lemma vinv_add s P O J U R p k' v' m' : VInv s P O J U R -> vobjs (v_kmvds s) (v_boxes s) J !! p = None -> kva_kvmbox k' = 0 -> VIv (<[p := k']> (v_kmvds s)) v' ->
  VSp m' P O (<[p := sizeof_kmvarsdsc_t]> (vobjs (v_kmvds s) (v_boxes s) J)) U (frames_of U) R -> VInv (set_iv (<[p := k']> (v_kmvds s)) v' (with_mst m' s)) P O J U R.
Proof.
  intros [I1 I2 I3 I4 I5 I6] (Hg & Hbx & HJ)%vobjs_none Hb HV Hsp. split; cbn [set_iv with_mst v_kmvds v_vma v_boxes v_mgr v_mst]; try done.
  - apply (vbx_ext (refs (v_kmvds s))); [|done]. intros b Hb0. rewrite refs_add by done. rewrite decide_False by congruence. lia.
  - intros n d x b Hn. destruct (I3 _ _ _ _ Hn) as (Hb0 & q & kq & Hq & Hi & Hqb). split; [done|]. exists q, kq. rewrite lookup_insert_ne by congruence. done.
  - by rewrite vobjs_add.
  - intros q. destruct (decide (p = q)) as [<-|Hne]; [done|]. rewrite lookup_insert_ne by done. apply I5.
Qed.
End inv.
