(* ===== verification/VmaSpace.v ===== *)
(** * Virtual address spaces: pages, objects and page tables together

    What each call to the page tables, to the page allocator and to the object
    allocator does to the pages and objects that an address space holds. *)

From S2P Require Import Prelude PhyMem Boot BootSpec BootPages PageIf Mmu MmuInv MmuOps MmuSpec MmuLife MmuCorrect ObjIf Vma VmaInv.

Lemma split_insert A O Tab d p n : split_blocks A O Tab -> A !! d = None -> split_blocks (<[d := (p, n)]> A) (<[d := (p, n)]> O) Tab.
Proof.
  intros [H1 H2] Hd. assert (HT : forall a q, Tab !! a <> Some (d, q)).
  { intros a q Ha. assert (E : A !! d = Some (q, 1)) by (apply H1; right; by exists a). congruence. }
  split.
  - intros j b. rewrite !lookup_insert_Some, H1. split.
    + intros [[-> <-]|[Hne [Hj|Ht]]]; [left; by left|left; by right|by right].
    + intros [[[-> <-]|[Hne Hj]]|(a & Ha & Hb)]; [by left|right; split; [done|by left]|]. right. split; [|right; by exists a]. intros <-. by apply (HT a b.1).
  - intros j b a q [[<- <-]|[Hne Hj]]%lookup_insert_Some; [apply HT|]. by apply (H2 j b).
Qed.

Lemma split_delete A O Tab d b : split_blocks A O Tab -> O !! d = Some b -> split_blocks (delete d A) (delete d O) Tab.
Proof.
  intros [H1 H2] Hd. split.
  - intros j c. rewrite !lookup_delete_Some, H1. split.
    + intros [Hne [Hj|Ht]]; [left; done|by right].
    + intros [[Hne Hj]|(a & Ha & Hc)]; [split; [done|by left]|]. split; [|right; by exists a]. intros <-. by apply (H2 d b a c.1).
  - intros j c a q [_ Hj]%lookup_delete_Some. by apply (H2 j c).
Qed.

Section space.
Context {S : Type} {HPO : PageOps S} {HOO : ObjOps S} {HOA : ObjAlloc S}.
Implicit Types (m : mst S) (J : objects) (O : blocks) (U : upages) (F : gmap Z Z).

Lemma page_block_adr p : page_block (p, 1) -> page_adr p.
Proof. unfold page_block, page_adr. simpl. lia. Qed.

Section held.
Context {m P O J U F R} (HS : VSp m P O J U F R).

Lemma sp_block n d p b : U !! n = Some (d, p, b) -> exists A, @pg_held S _ (ob_pages J) (m_pa m) P A /\ A !! d = Some (p, 1).
Proof using HS.
  intros Hn. destruct HS as (OU & (Tab & E & i & HI & _ & _) & HO & _). destruct (@mi_held _ _ (ob_pages J) _ _ _ _ _ _ HI) as (A & HA & Hs & _).
  exists A. split; [done|]. apply Hs. left. apply HO. right. by exists n, p, b.
Qed.

Lemma sp_adr n d p b : U !! n = Some (d, p, b) -> page_adr p.
Proof using HS. intros (A & HA & Hd)%sp_block. by apply page_block_adr, (@pg_block _ _ (ob_pages J) _ _ _ _ _ HA Hd). Qed.

Lemma sp_pg_addr n d p b : U !! n = Some (d, p, b) -> on_pa (pg_addr d) m = Ret (p, m).
Proof using HS.
  intros (A & HA & Hd)%sp_block. rewrite (on_pa_eq _ _ _ _ (@pg_addr_spec _ _ (ob_pages J) _ _ _ _ _ _ HA Hd)). by destruct m.
Qed.

Lemma sp_pg_fpagenr n d p b : U !! n = Some (d, p, b) -> on_pa (pg_fpagenr d) m = Ret (1, m).
Proof using HS.
  intros (A & HA & Hd)%sp_block. rewrite (on_pa_eq _ _ _ _ (@pg_fpagenr_spec _ _ (ob_pages J) _ _ _ _ _ _ HA Hd)). by destruct m.
Qed.

(** A frame backs one page. *)
Lemma sp_frame_inj n n' d d' p b b' : U !! n = Some (d, p, b) -> U !! n' = Some (d', p, b') -> n = n'.
Proof using HS.
  intros Hn Hn'. pose proof HS as (OU & (Tab & E & i & HI & _ & _) & HO & _ & Hinj). destruct (@mi_held _ _ (ob_pages J) _ _ _ _ _ _ HI) as (A & HA & Hs & _).
  assert (HA1 : A !! d = Some (p, 1)) by (apply Hs; left; apply HO; right; by exists n, p, b).
  assert (HA2 : A !! d' = Some (p, 1)) by (apply Hs; left; apply HO; right; by exists n', p, b').
  destruct (decide (d = d')) as [->|Hne]; [by apply (Hinj _ _ _ _ _ _ _ Hn Hn')|].
  pose proof (@pg_apart _ _ (ob_pages J) _ _ _ _ _ _ _ HA HA1 HA2 Hne) as Hap. unfold block_apart in Hap. simpl in Hap. lia.
Qed.

(** A page taken for the virtual page [n]. *)
Lemma sp_take : wp (on_pa pg_procpage) m (fun r m' => mframe P O R m m' /\ ((r = (None, 0) /\ m' = m) \/
  exists d p, r = (Some d, 1) /\ page_adr p /\ forall n b, U !! n = None -> VSp m' P O J (<[n := (d, p, b)]> U) F R)).
Proof using HS.
  pose proof HS as (OU & Hsp & HO & HO2 & Hinj). pose proof Hsp as (Tab & E & i & HI & HR & HF). destruct (@mi_held _ _ (ob_pages J) _ _ _ _ _ _ HI) as (A & HA & Hs).
  apply on_pa_run. eapply wp_mono; [apply (@pg_procpage_spec _ _ (ob_pages J) _ _ _ HA)|]. intros r pa [(d & p & -> & Hd & HA')|[-> ->]].
  2: { rewrite set_pa_id. split; [done|]. by left. }
  split; [apply set_pa_frame|]. right. exists d, p. split_and!; [done|apply page_block_adr, (@pg_block _ _ (ob_pages J) _ _ _ d _ HA'), lookup_insert_eq|].
  intros n b Hn. assert (HOd : OU !! d = None).
  { destruct (OU !! d) as [c|] eqn:Ed; [|done]. assert (A !! d = Some c) by (apply Hs; by left). congruence. }
  exists (<[d := (p, 1)]> OU). split.
  - exists Tab, E, i. split_and!; [|done|done]. apply (minv_pa (ob_pages J) (ob_pages J) _ _ _ OU); [done|]. intros A0 HA0 Hs0.
    exists (<[d := (p, 1)]> A). split; [done|]. by apply split_insert.
  - split_and!.
    + intros d' c. rewrite lookup_insert_Some, HO. setoid_rewrite lookup_insert_Some. split.
      * intros [[<- <-]|[Hne [Hd'|(n' & q & x & Hn' & ->)]]]; [right; exists n, p, b; split; [by left|done]|by left|].
        right. exists n', q, x. split; [|done]. right. split; [congruence|done].
      * intros [Hd'|(n' & q & x & [[<- [= <- <- <-]]|[Hne Hn']] & ->)]; [right|by left|right].
        -- split; [|by left]. intros <-. assert (OU !! d = Some c) by (apply HO; by left). congruence.
        -- split; [|right; by exists n', q, x]. intros <-. assert (OU !! d = Some (q, 1)) by (apply HO; right; by exists n', q, x). congruence.
    + intros d' c n' q x Hd' [[<- [= <- <- <-]]|[_ Hn']]%lookup_insert_Some; [|by apply (HO2 d' c n' q x)].
      assert (OU !! d = Some c) by (apply HO; by left). congruence.
    + assert (Hnew : forall n' q x, U !! n' = Some (d, q, x) -> False).
      { intros n' q x Hn'. assert (OU !! d = Some (q, 1)) by (apply HO; right; by exists n', q, x). congruence. }
      intros n1 n2 d' p1 p2 x1 x2 [[<- [= <- <- <-]]|[_ Hn1]]%lookup_insert_Some [[<- [= <- <-]]|[_ Hn2]]%lookup_insert_Some; [done| | |].
      * by destruct (Hnew _ _ _ Hn2).
      * subst. by destruct (Hnew _ _ _ Hn1).
      * by apply (Hinj _ _ _ _ _ _ _ Hn1 Hn2).
Qed.

(** The page of the virtual page [n] given back. *)
Lemma sp_give n d p b : U !! n = Some (d, p, b) -> wp (on_pa (pg_merge d 1)) m (fun r m' => r = true /\ mframe P O R m m' /\ VSp m' P O J (delete n U) F R).
Proof using HS.
  intros Hn. pose proof HS as (OU & Hsp & HO & HO2 & Hinj). pose proof Hsp as (Tab & E & i & HI & HR & HF).
  destruct (@mi_held _ _ (ob_pages J) _ _ _ _ _ _ HI) as (A & HA & Hs). assert (HOd : OU !! d = Some (p, 1)) by (apply HO; right; by exists n, p, b).
  assert (HAd : A !! d = Some (p, 1)) by (apply Hs; by left). apply on_pa_run. eapply wp_mono; [apply (@pg_merge_spec _ _ (ob_pages J) _ _ _ _ _ _ HA HAd)|].
  intros r pa [-> HA']. split_and!; [done|apply set_pa_frame|]. exists (delete d OU). split.
  - exists Tab, E, i. split_and!; [|done|done]. apply (minv_pa (ob_pages J) (ob_pages J) _ _ _ OU); [done|]. intros A0 HA0 Hs0.
    exists (delete d A). split; [done|]. by apply (split_delete _ _ _ _ (p, 1)).
  - split_and!.
    + intros d' c. rewrite lookup_delete_Some, HO. setoid_rewrite lookup_delete_Some. split.
      * intros [Hne [Hd'|(n' & q & x & Hn' & ->)]]; [by left|]. right. exists n', q, x. split; [|done]. split; [|done]. intros <-. congruence.
      * intros [Hd'|(n' & q & x & [Hne Hn'] & ->)].
        -- split; [|by left]. intros <-. by apply (HO2 d c n p b).
        -- split; [|right; by exists n', q, x]. intros <-. apply Hne. by apply (Hinj _ _ _ _ _ _ _ Hn Hn').
    + intros d' c n' q x Hd' [_ Hn']%lookup_delete_Some. by apply (HO2 d' c n' q x).
    + intros n1 n2 d' p1 p2 x1 x2 [_ Hn1]%lookup_delete_Some [_ Hn2]%lookup_delete_Some. by apply (Hinj _ _ _ _ _ _ _ Hn1 Hn2).
Qed.

(** ** Page tables *)

Lemma sp_unmap v : uaddr v -> wp (hal_mmu_untransform v) m (fun r m' =>
  mframe P O R m m' /\ r = default 0 (F !! (v / 4096)) /\ VSp m' P O J U (delete (v / 4096) F) R).
Proof using HS.
  intros Hv. pose proof HS as (OU & Hsp & HO). eapply wp_mono; [apply (@unmap_step _ _ (ob_pages J) _ _ _ _ _ _ Hsp Hv)|].
  intros r m' (Hf & -> & Hsp'). split_and!; [|done|by exists OU]. apply (mframe_weaken P O OU); [by apply (with_pages_sub O U)|done].
Qed.

Lemma sp_map v p f : uaddr v -> page_adr p -> flags_ok f -> wp (hal_mmu_transform v p f) m (fun r m' => mframe P O R m m' /\
  ((r = true /\ VSp m' P O J U (<[v / 4096 := p]> F) R) \/ (r = false /\ VSp m' P O J U F R))).
Proof using HS.
  intros Hv Hp Hf. pose proof HS as (OU & Hsp & HO). eapply wp_mono; [apply (@map_step _ _ (ob_pages J) _ _ _ _ _ _ _ _ Hsp Hv Hp Hf)|].
  intros r m' (Hfr & Hr). split; [apply (mframe_weaken P O OU); [by apply (with_pages_sub O U)|done]|].
  destruct Hr as [[-> Hsp']|(-> & Hsp' & _)]; [left|right]; (split; [done|by exists OU]).
Qed.

Lemma sp_walk u : uaddr u -> hw_walk (m_words m) R u = translate F u.
Proof using HS. intros Hu. destruct HS as (OU & Hsp & _). by apply (@space_walk _ _ (ob_pages J) m P OU). Qed.

(** ** Objects *)

Lemma sp_few : Z.of_nat (size J) < 2 ^ 30.
Proof using HS.
  destruct HS as (OU & (Tab & E & i & HI & _) & _). destruct (@mi_held _ _ (ob_pages J) _ _ _ _ _ _ HI) as (A & HA & _). by apply (ob_few _ _ _ _ HA).
Qed.

Lemma sp_new sz : 0 < sz <= 2048 -> wp (on_pa (ob_new sz)) m (fun r m' => mframe P O R m m' /\ ((r = 0 /\ m' = m) \/
  (0 < r < u64max /\ J !! r = None /\ VSp m' P O (<[r := sz]> J) U F R))).
Proof using HS.
  intros Hsz. pose proof HS as (OU & Hsp & HO). pose proof Hsp as (Tab & E & i & HI & HR & HF). destruct (@mi_held _ _ (ob_pages J) _ _ _ _ _ _ HI) as (A & HA & Hs).
  apply on_pa_run. eapply wp_mono; [apply (ob_new_spec _ _ _ _ _ HA Hsz)|]. intros r pa [(Hr & Hj & HA')|[-> ->]].
  2: { rewrite set_pa_id. split; [done|]. by left. }
  split; [apply set_pa_frame|]. right. split_and!; [lia|lia|done|]. exists OU. split; [|done]. exists Tab, E, i. split_and!; [|done|done].
  apply (minv_pa (ob_pages J) (ob_pages (<[r := sz]> J)) _ _ _ OU); [done|]. intros A0 HA0 Hs0. by exists A.
Qed.

Lemma sp_delete a sz : J !! a = Some sz -> wp (on_pa (ob_delete a sz)) m (fun r m' => r = true /\ mframe P O R m m' /\ VSp m' P O (delete a J) U F R).
Proof using HS.
  intros Ha. pose proof HS as (OU & Hsp & HO). pose proof Hsp as (Tab & E & i & HI & HR & HF). destruct (@mi_held _ _ (ob_pages J) _ _ _ _ _ _ HI) as (A & HA & Hs).
  apply on_pa_run. eapply wp_mono; [apply (ob_delete_spec _ _ _ _ _ _ HA Ha)|]. intros r pa [-> HA']. split_and!; [done|apply set_pa_frame|].
  exists OU. split; [|done]. exists Tab, E, i. split_and!; [|done|done]. apply (minv_pa (ob_pages J) (ob_pages (delete a J)) _ _ _ OU); [done|]. intros A0 HA0 Hs0. by exists A.
Qed.
End held.
End space.
