(* ===== verification/VmaIv.v ===== *)
(** * Virtual address spaces: the list of intervals

    The list stays sorted and disjoint when an interval changes within its gap,
    when one is added in a gap and when one is removed; what that does to the
    addresses covered. *)

From S2P Require Import Prelude PhyMem Boot BootSpec BootPages PageIf Mmu MmuInv MmuOps MmuSpec MmuLife MmuCorrect ObjIf Vma VmaInv.

(** ** Sorted lists *)

Lemma ss_mid {A} (R : relation A) l1 x l2 :
  StronglySorted R (l1 ++ x :: l2) <-> StronglySorted R (l1 ++ l2) /\ (forall y, y ∈ l1 -> R y x) /\ (forall y, y ∈ l2 -> R x y).
Proof.
  rewrite !StronglySorted_app. split.
  - intros (H1 & H2 & H3). apply StronglySorted_inv in H3 as [H3 H4]. rewrite Forall_forall in H4.
    split_and!; [intros a b Ha Hb; apply H1; [done|by right]|done|done|intros y Hy; apply H1; [done|by left]|done].
  - intros ((H1 & H2 & H3) & H4 & H5). split_and!; [|done|].
    + intros a b Ha [->|Hb]%elem_of_cons; [by apply H4|by apply H1].
    + apply SSorted_cons; [done|]. by apply Forall_forall.
Qed.

Lemma ss_mono {A} (R R' : relation A) l : (forall x y, x ∈ l -> y ∈ l -> R x y -> R' x y) -> StronglySorted R l -> StronglySorted R' l.
Proof.
  induction l as [|x l IH]; intros HR Hs; [constructor|]. apply StronglySorted_inv in Hs as [Hs Hx]. rewrite Forall_forall in Hx. apply SSorted_cons.
  - apply IH; [|done]. intros a b Ha Hb. apply HR; by right.
  - apply Forall_forall. intros y Hy. apply HR; [by left|by right|by apply Hx].
Qed.

Lemma list_next_split l1 p l2 : NoDup (l1 ++ p :: l2) -> list_next p (l1 ++ p :: l2) = hd_error l2.
Proof.
  induction l1 as [|x l1 IH]; intros Hnd; cbn; [by rewrite Z.eqb_refl|]. apply NoDup_cons in Hnd as [Hx Hnd].
  replace (x =? p) with false; [by apply IH|]. symmetry. apply Z.eqb_neq. intros ->. apply Hx. set_solver.
Qed.

Lemma list_prev_split l1 p l2 : NoDup (l1 ++ p :: l2) -> list_prev p (l1 ++ p :: l2) = last l1.
Proof.
  intros Hnd. unfold list_prev. assert (E : rev (l1 ++ p :: l2) = rev l2 ++ p :: rev l1) by (by rewrite rev_app_distr; cbn [rev]; rewrite <- app_assoc).
  rewrite E, list_next_split.
  - destruct (decide (l1 = [])) as [->|Hne]; [done|]. destruct (exists_last Hne) as (l & y & ->). by rewrite rev_app_distr, last_snoc.
  - rewrite <- E. rewrite NoDup_ListNoDup in *. by apply List.NoDup_rev.
Qed.

Lemma insert_after_split l1 p new l2 : NoDup (l1 ++ p :: l2) -> insert_after p new (l1 ++ p :: l2) = l1 ++ p :: new :: l2.
Proof.
  induction l1 as [|x l1 IH]; intros Hnd; cbn; [by rewrite Z.eqb_refl|]. apply NoDup_cons in Hnd as [Hx Hnd].
  replace (x =? p) with false; [by rewrite IH|]. symmetry. apply Z.eqb_neq. intros ->. apply Hx. set_solver.
Qed.

(** ** The intervals around one *)

Section around.
Context {g : intervals} {v : virmemadrs_t} (HV : VIv g v).

Lemma iv_lookup p : p ∈ vs_list v -> exists k, g !! p = Some k.
Proof using HV. intros [k Hk]%(vi_dom _ _ HV). eauto. Qed.

Lemma iv_split p : p ∈ vs_list v -> exists l1 l2, vs_list v = l1 ++ p :: l2.
Proof using HV. apply list_elem_of_split. Qed.

Section at_p.
Context {l1 p l2 k} (El : vs_list v = l1 ++ p :: l2) (Hp : g !! p = Some k).

Lemma iv_left q kq : q ∈ l1 -> g !! q = Some kq -> kva_end kq <= kva_start k.
Proof using HV El Hp. pose proof (vi_sorted _ _ HV) as Hs. rewrite El, ss_mid in Hs. destruct Hs as (_ & Hl & _). intros Hq Hkq. by apply (Hl q Hq). Qed.

Lemma iv_right q kq : q ∈ l2 -> g !! q = Some kq -> kva_end k <= kva_start kq.
Proof using HV El Hp. pose proof (vi_sorted _ _ HV) as Hs. rewrite El, ss_mid in Hs. destruct Hs as (_ & _ & Hr). intros Hq Hkq. by apply (Hr q Hq). Qed.

(** The first interval on the right has the lowest start there. *)
Lemma iv_right_hd q kq r kr : hd_error l2 = Some q -> g !! q = Some kq -> r ∈ l2 -> g !! r = Some kr -> kva_start kq <= kva_start kr.
Proof using HV El.
  intros Hh Hq Hr Hkr. destruct l2 as [|x l]; [done|]. cbn in Hh. injection Hh as ->. apply elem_of_cons in Hr as [->|Hr]; [simplify_eq; lia|].
  pose proof (vi_sorted _ _ HV) as Hs. rewrite El in Hs. apply StronglySorted_app in Hs as (_ & _ & Hs). apply StronglySorted_inv in Hs as [Hs _].
  apply StronglySorted_inv in Hs as [_ Hs]. rewrite Forall_forall in Hs. pose proof (Hs r Hr kq kr Hq Hkr). destruct (vi_range _ _ HV _ _ Hq) as [_ []]. lia.
Qed.

Lemma iv_in_split q : q ∈ vs_list v <-> q ∈ l1 \/ q = p \/ q ∈ l2.
Proof using El. clear HV Hp. rewrite El, elem_of_app, elem_of_cons. done. Qed.

Lemma iv_nodup_split : NoDup (l1 ++ p :: l2) /\ p ∉ l1 /\ p ∉ l2 /\ NoDup (l1 ++ l2).
Proof using HV El.
  pose proof (vi_nodup _ _ HV) as Hnd. rewrite El in Hnd. split; [done|]. apply NoDup_app in Hnd as (H1 & H2 & H3). apply NoDup_cons in H3 as [H3 H4].
  split_and!; [intros Hin; by apply (H2 p Hin); left|done|]. apply NoDup_app. split_and!; [done|intros x Hx Hx'; apply (H2 x Hx); by right|done].
Qed.
End at_p.

(** No two intervals cover an address. *)
Lemma iv_fun p q k k' x : g !! p = Some k -> g !! q = Some k' -> inside k x -> inside k' x -> p = q.
Proof using HV.
  intros Hp Hq Hx Hx'. destruct (decide (p = q)) as [|Hne]; [done|]. assert (Hpl : p ∈ vs_list v) by (apply (vi_dom _ _ HV); eauto).
  assert (Hql : q ∈ vs_list v) by (apply (vi_dom _ _ HV); eauto). destruct (iv_split p Hpl) as (l1 & l2 & El). destruct (proj1 (iv_in_split El q) Hql) as [Hq1|[Eq|Hq2]]; [|congruence|].
  - pose proof (iv_left El Hp q k' Hq1 Hq). unfold inside in *. lia.
  - pose proof (iv_right El Hp q k' Hq2 Hq). unfold inside in *. lia.
Qed.

(** ** Changes *)

(** An interval changes within the gap between its neighbours. *)
Lemma viv_put v' l1 p l2 k k' : vs_list v = l1 ++ p :: l2 -> g !! p = Some k -> range_ok k' ->
  (forall q kq, q ∈ l1 -> g !! q = Some kq -> kva_end kq <= kva_start k') -> (forall q kq, q ∈ l2 -> g !! q = Some kq -> kva_end k' <= kva_start kq) ->
  vs_list v' = vs_list v -> vs_isalcend v' = vs_isalcend v -> vs_endkmvdsc v' = vs_endkmvdsc v -> (vs_currkmvdsc v' = 0 \/ vs_currkmvdsc v' ∈ vs_list v) ->
  VIv (<[p := k']> g) v'.
Proof using HV.
  intros El Hp Hk' Hl Hr E1 E2 E3 Hc. destruct (iv_nodup_split El) as (_ & Hn1 & Hn2 & _). split; rewrite ?E1, ?E2, ?E3; try apply HV; try done.
  - intros q. rewrite lookup_insert_is_Some, (vi_dom _ _ HV). destruct (decide (p = q)) as [<-|]; [|tauto]. split; [by left|]. intros _. eauto.
  - pose proof (vi_sorted _ _ HV) as Hs. rewrite El in *. apply ss_mid in Hs as (Hs & _). apply ss_mid. split_and!.
    + apply (ss_mono (before g)); [|done]. intros x y Hx Hy Hb kx ky. rewrite !lookup_insert_ne by (intros <-; by (apply elem_of_app in Hx || idtac; apply elem_of_app in Hy || idtac; destruct Hx, Hy)). apply Hb.
    + intros q Hq kq kp. rewrite lookup_insert_ne, lookup_insert_eq by (intros <-; done). intros Hkq [= <-]. by apply (Hl q).
    + intros q Hq kp kq. rewrite lookup_insert_eq, lookup_insert_ne by (intros <-; done). intros [= <-] Hkq. by apply (Hr q).
  - intros q kq [[<- <-]|[_ Hq]]%lookup_insert_Some; [|by apply HV]. split; [apply (vi_range _ _ HV _ _ Hp)|done].
Qed.

(** An interval is added after [p]. *)
Lemma viv_add v' l1 p l2 new k' : vs_list v = l1 ++ p :: l2 -> g !! new = None -> new <> 0 -> range_ok k' ->
  (forall q kq, q ∈ l1 ++ [p] -> g !! q = Some kq -> kva_end kq <= kva_start k') -> (forall q kq, q ∈ l2 -> g !! q = Some kq -> kva_end k' <= kva_start kq) ->
  vs_list v' = l1 ++ p :: new :: l2 -> vs_isalcend v' = vs_isalcend v -> vs_endkmvdsc v' = default 0 (last (vs_list v')) ->
  vs_currkmvdsc v' ∈ vs_list v' -> VIv (<[new := k']> g) v'.
Proof using HV.
  intros El Hnew Hn0 Hk' Hl Hr E1 E2 E3 Hc. assert (Hnl : new ∉ vs_list v) by (rewrite (vi_dom _ _ HV), Hnew; by intros [? ?]).
  assert (Ed : l1 ++ p :: new :: l2 = (l1 ++ [p]) ++ new :: l2) by (by rewrite <- app_assoc). assert (Ed' : vs_list v = (l1 ++ [p]) ++ l2) by (by rewrite <- app_assoc).
  split.
  - rewrite E1, Ed. pose proof (vi_nodup _ _ HV) as Hnd. rewrite Ed' in Hnd, Hnl. apply NoDup_app in Hnd as (N1 & N2 & N3). apply NoDup_app.
    split_and!; [done|intros x Hx [->|Hx']%elem_of_cons; [apply Hnl, elem_of_app; by left|by apply (N2 x)]|].
    apply NoDup_cons. split; [intros Hin; apply Hnl, elem_of_app; by right|done].
  - intros q. rewrite E1, lookup_insert_is_Some. rewrite <- (vi_dom _ _ HV), El, !elem_of_app, !elem_of_cons. destruct (decide (new = q)) as [<-|Hne]; [tauto|].
    split; [|tauto]. intros [?|[?|[?|?]]]; [tauto..|by destruct Hne|tauto].
  - rewrite E1, Ed. apply ss_mid. rewrite <- Ed'. split_and!.
    + apply (ss_mono (before g)); [|apply HV]. intros x y Hx Hy Hb kx ky. rewrite !lookup_insert_ne by (intros <-; done). apply Hb.
    + intros q Hq kq kp. rewrite lookup_insert_ne, lookup_insert_eq by (intros <-; apply Hnl; rewrite Ed'; apply elem_of_app; by left). intros Hkq [= <-]. by apply (Hl q).
    + intros q Hq kp kq. rewrite lookup_insert_eq, lookup_insert_ne by (intros <-; apply Hnl; rewrite Ed'; apply elem_of_app; by right). intros [= <-] Hkq. by apply (Hr q).
  - intros q kq [[<- <-]|[_ Hq]]%lookup_insert_Some; [done|by apply HV].
  - rewrite E2. apply HV.
  - by right.
  - done.
Qed.

(** An interval is removed. *)
Lemma viv_del v' l1 p l2 : vs_list v = l1 ++ p :: l2 -> vs_list v' = l1 ++ l2 -> vs_isalcend v' = vs_isalcend v ->
  vs_endkmvdsc v' = default 0 (last (vs_list v')) -> (vs_currkmvdsc v' = 0 \/ vs_currkmvdsc v' ∈ vs_list v') -> VIv (delete p g) v'.
Proof using HV.
  intros El E1 E2 E3 Hc. destruct (iv_nodup_split El) as (_ & Hn1 & Hn2 & Hnd). split; try done.
  - by rewrite E1.
  - intros q. rewrite E1. destruct (decide (q = p)) as [->|Hne].
    + rewrite lookup_delete_eq. split; [by intros [?|?]%elem_of_app|by intros [? ?]].
    + rewrite lookup_delete_ne, <- (vi_dom _ _ HV), El by done. rewrite !elem_of_app, elem_of_cons. tauto.
  - rewrite E1. pose proof (vi_sorted _ _ HV) as Hs. rewrite El in Hs. apply ss_mid in Hs as (Hs & _). apply (ss_mono (before g)); [|done].
    intros x y Hx Hy Hb kx ky Hkx Hky. apply lookup_delete_Some in Hkx as [_ Hkx]. apply lookup_delete_Some in Hky as [_ Hky]. by apply Hb.
  - intros q kq [_ Hq]%lookup_delete_Some. by apply HV.
  - rewrite E2. apply HV.
Qed.
End around.

(** ** Addresses covered *)

Lemma covered_put g p k' x : covered (<[p := k']> g) x <-> inside k' x \/ exists q kq, q <> p /\ g !! q = Some kq /\ inside kq x.
Proof.
  unfold covered. setoid_rewrite lookup_insert_Some. split.
  - intros (q & kq & [[<- <-]|[Hne Hq]] & Hx); [by left|]. right. exists q, kq. done.
  - intros [Hx|(q & kq & Hne & Hq & Hx)]; [exists p, k'; split; [by left|done]|]. exists q, kq. split; [by right|done].
Qed.

Lemma covered_at g p k x : g !! p = Some k -> covered g x <-> inside k x \/ exists q kq, q <> p /\ g !! q = Some kq /\ inside kq x.
Proof. intros Hp. rewrite <- (insert_id g p k Hp) at 1. apply covered_put. Qed.

Lemma covered_delete g p x : covered (delete p g) x <-> exists q kq, q <> p /\ g !! q = Some kq /\ inside kq x.
Proof.
  unfold covered. setoid_rewrite lookup_delete_Some. split; intros (q & kq & H); exists q, kq.
  - destruct H as [[Hne Hq] Hx]. done.
  - destruct H as (Hne & Hq & Hx). done.
Qed.
