(* ===== verification/VmaAlloc.v ===== *)
(** * Virtual address spaces: addresses handed out

    [vma_new_vadrs]: the search finds an interval with room after it whenever there
    is one, and the interval found is extended or followed by a new one. *)

From S2P Require Import Prelude PhyMem DivMer DivMerInv DivMerOps DivMerAlloc Boot BootSpec BootPages PageIf Mmu MmuInv MmuOps MmuSpec MmuLife MmuCorrect ObjIf Kmsob KmsobInv KmsobOps Vma VmaInv VmaSpace VmaIv.

Lemma hd_omap_some {A} (g : Z -> option A) (l : list Z) v : List.hd_error (omap g l) = Some v -> exists x, x ∈ l /\ g x = Some v.
Proof.
  induction l as [|y l IH]; [done|]. cbn. destruct (g y) as [w|] eqn:E; [intros [= ->]; exists y; split; [by left|done]|].
  intros (x & Hx & Hg)%IH. exists x. split; [by right|done].
Qed.

Lemma hd_omap_none_inv {A} (g : Z -> option A) (l : list Z) : List.hd_error (omap g l) = None -> forall x, x ∈ l -> g x = None.
Proof.
  induction l as [|y l IH]; [by intros _ x ?%elem_of_nil|]. cbn. destruct (g y) as [w|] eqn:E; [done|].
  intros Hn x [->|Hx]%elem_of_cons; [done|by apply IH].
Qed.

Section access.
Context {S : Type} {HPO : PageOps S} {HOO : ObjOps S} {HOA : ObjAlloc S}.
Implicit Types (s : vst S).

Lemma get_kmv_eq s p k : v_kmvds s !! p = Some k -> get_kmv p s = Ret (k, s).
Proof. intros E. unfold get_kmv. by rewrite E. Qed.
Lemma upd_kmv_eq s p k f : v_kmvds s !! p = Some k ->
  upd_kmv p f s = Ret (tt, Vst (v_mst s) (v_vma s) (<[p := f k]> (v_kmvds s)) (v_boxes s) (v_mgr s) (v_file s) (v_copies s)).
Proof. intros E. unfold upd_kmv. by rewrite (bind_eq _ _ _ _ _ (get_kmv_eq _ _ _ E)). Qed.
Lemma get_box_eq s p b : v_boxes s !! p = Some b -> get_box p s = Ret (b, s).
Proof. intros E. unfold get_box. by rewrite E. Qed.
Lemma upd_box_eq s p b f : v_boxes s !! p = Some b ->
  upd_box p f s = Ret (tt, Vst (v_mst s) (v_vma s) (v_kmvds s) (<[p := f b]> (v_boxes s)) (v_mgr s) (v_file s) (v_copies s)).
Proof. intros E. unfold upd_box. by rewrite (bind_eq _ _ _ _ _ (get_box_eq _ _ _ E)). Qed.
Lemma wp_on_mst {T} (m : M (mst S) T) s Q : wp m (v_mst s) (fun a t => Q a (with_mst t s)) -> wp (on_mst m) s Q.
Proof. unfold wp, on_mst. by destruct (m (v_mst s)) as [[a t]| | |]. Qed.
Lemma on_mst_eq {T} (m : M (mst S) T) s a : m (v_mst s) = Ret (a, v_mst s) -> on_mst m s = Ret (a, s).
Proof. intros E. unfold on_mst. rewrite E. by destruct s. Qed.
Lemma with_mst_id s : with_mst (v_mst s) s = s.
Proof. by destruct s. Qed.

Lemma vs_next_eq s l1 p l2 : VIv (v_kmvds s) (v_vma s) -> vs_list (v_vma s) = l1 ++ p :: l2 -> vs_next p s = Ret (hd_error l2, s).
Proof.
  intros HV El. destruct (iv_nodup_split HV El) as (Hnd & _). unfold vs_next. rewrite (bind_eq _ _ s (v_vma s) s) by done. rewrite decide_True.
  - by rewrite El, list_next_split.
  - rewrite El. apply elem_of_app. right. by left.
Qed.
End access.

Section alloc.
Context {S : Type} {HPO : PageOps S} {HOO : ObjOps S} {HOA : ObjAlloc S}.
Implicit Types (s : vst S) (J : objects) (O : blocks) (U : upages).

(** ** The search *)

(** Where the new addresses start after an interval, and the first address that
    they must leave free. *)
Definition place (start : Z) (k : kmvarsdsc_t) : Z := if start =? 0 then kva_end k else start.
Definition room (g : intervals) (nx : option Z) : Z :=
  match nx with Some q => default 0 (kva_start <$> g !! q) | None => USER_VIRTUAL_ADDRESS_END - 1 end.

Definition okb s (start size p : Z) : bool :=
  match v_kmvds s !! p with
  | Some k => (kva_end k <=? place start k) && (place start k + size <=? room (v_kmvds s) (list_next p (vs_list (v_vma s))))
  | None => false
  end.

Section search.
Context {s} (HV : VIv (v_kmvds s) (v_vma s)) {start size : Z} (Hst : 0 <= start) (Hsz : 0x1000 <= size) (Hen : start + size <= USER_VIRTUAL_ADDRESS_END).

Lemma user_small x : 0 <= x <= 2 * USER_VIRTUAL_ADDRESS_END -> u64 x = x.
Proof. unfold USER_VIRTUAL_ADDRESS_END. intros Hx. apply u64_small. rewrite u64max_val. lia. Qed.

Lemma is_ok_eq p : p ∈ vs_list (v_vma s) -> vma_find_kmvarsdsc_is_ok p start size s = Ret (if okb s start size p then p else 0, s).
Proof using HV Hst Hsz Hen.
  intros Hp. destruct (iv_lookup HV p Hp) as [k Hk]. destruct (iv_split HV p Hp) as (l1 & l2 & El). destruct (iv_nodup_split HV El) as (Hnd & _).
  destruct (vi_range _ _ HV _ _ Hk) as [_ [R1 R2 R3 R4 R5]]. unfold vma_find_kmvarsdsc_is_ok. rewrite (bind_eq _ _ s (v_vma s) s) by done.
  rewrite (bind_eq _ _ _ _ _ (get_kmv_eq _ _ _ Hk)), (bind_eq _ _ _ _ _ (vs_next_eq _ _ _ _ HV El)). unfold okb. rewrite Hk, El, list_next_split by done.
  unfold place. rewrite !user_small by lia. destruct (hd_error l2) as [q|] eqn:Eq; cbn [room].
  - assert (Hq : q ∈ vs_list (v_vma s)) by (rewrite El; destruct l2; [done|]; injection Eq as ->; apply elem_of_app; right; right; by left).
    destruct (iv_lookup HV q Hq) as [kq Hkq]. rewrite (bind_eq _ _ _ _ _ (get_kmv_eq _ _ _ Hkq)), Hkq. cbn [fmap option_fmap option_map default].
    destruct (start =? 0) eqn:E0; [|done]. by rewrite Z.leb_refl.
  - rewrite (vi_alc _ _ HV). destruct (start =? 0) eqn:E0.
    + rewrite Z.leb_refl. cbn [andb]. by replace (kva_end k + size <? USER_VIRTUAL_ADDRESS_END) with (kva_end k + size <=? USER_VIRTUAL_ADDRESS_END - 1) by lia.
    + by replace (start + size <? USER_VIRTUAL_ADDRESS_END) with (start + size <=? USER_VIRTUAL_ADDRESS_END - 1) by lia.
Qed.

(** The search finds an interval with room, and fails only when there is none. *)
Lemma find_eq lim ty : exists r, vma_find_kmvarsdsc start size lim ty s = Ret (r, s) /\
  ((r = 0 /\ forall p, p ∈ vs_list (v_vma s) -> okb s start size p = false) \/ (r ∈ vs_list (v_vma s) /\ okb s start size r = true)).
Proof using HV Hst Hsz Hen.
  assert (Hnz : forall p, p ∈ vs_list (v_vma s) -> (p =? 0) = false).
  { intros p Hp. destruct (iv_lookup HV p Hp) as [k Hk]. destruct (vi_range _ _ HV _ _ Hk). lia. }
  unfold vma_find_kmvarsdsc. rewrite (bind_eq _ _ s (v_vma s) s) by done. replace (0x1000 >? size) with false by lia.
  rewrite (user_small (start + size)) by lia. rewrite (vi_alc _ _ HV). replace (start + size >? USER_VIRTUAL_ADDRESS_END) with false by lia.
  assert (Hhit : exists h, (if vs_currkmvdsc (v_vma s) =? 0 then mret None else
      kmvdcurrent ← vma_find_kmvarsdsc_is_ok (vs_currkmvdsc (v_vma s)) start size;
      if kmvdcurrent =? 0 then mret None else
      k ← get_kmv kmvdcurrent;
      mret (if (lim =? kva_limits k) && (ty =? kva_maptype k) then Some kmvdcurrent else None)) s = Ret (h, s) /\
    forall p, h = Some p -> p ∈ vs_list (v_vma s) /\ okb s start size p = true).
  { destruct (vs_currkmvdsc (v_vma s) =? 0) eqn:E0; [by exists None|]. destruct (vi_curr _ _ HV) as [Hc|Hc]; [lia|].
    rewrite (bind_eq _ _ _ _ _ (is_ok_eq _ Hc)). destruct (okb s start size (vs_currkmvdsc (v_vma s))) eqn:Eo; [|by exists None].
    rewrite E0. destruct (iv_lookup HV _ Hc) as [k Hk]. rewrite (bind_eq _ _ _ _ _ (get_kmv_eq _ _ _ Hk)).
    destruct ((lim =? kva_limits k) && (ty =? kva_maptype k)); [|by exists None]. eexists. split; [done|]. by intros p [= <-]. }
  destruct Hhit as (h & Hh & Hhp). rewrite (bind_eq _ _ _ _ _ Hh). destruct h as [p|]; [exists p; split; [done|right; by apply Hhp]|].
  pose (f1 := fun p => if default false ((fun k => (lim =? kva_limits k) && (ty =? kva_maptype k)) <$> v_kmvds s !! p) && okb s start size p then Some p else None).
  rewrite (bind_eq _ _ s (List.hd_error (omap f1 (vs_list (v_vma s)))) s).
  2: { apply find_first_pure. intros p Hp. destruct (iv_lookup HV p Hp) as [k Hk]. rewrite (bind_eq _ _ _ _ _ (get_kmv_eq _ _ _ Hk)). unfold f1. rewrite Hk. cbn [fmap option_fmap option_map default].
       destruct ((lim =? kva_limits k) && (ty =? kva_maptype k)); [|done]. rewrite (bind_eq _ _ _ _ _ (is_ok_eq _ Hp)). unfold found.
       destruct (okb s start size p); [by rewrite (Hnz p Hp)|done]. }
  destruct (List.hd_error (omap f1 (vs_list (v_vma s)))) as [p|] eqn:E1.
  { apply hd_omap_some in E1 as (x & Hx & Hf). unfold f1 in Hf. destruct (_ && okb s start size x) eqn:E; [|done]. injection Hf as ->.
    apply andb_true_iff in E as [_ E]. exists p. split; [done|]. by right. }
  pose (f2 := fun p => if okb s start size p then Some p else None).
  rewrite (bind_eq _ _ s (List.hd_error (omap f2 (vs_list (v_vma s)))) s).
  2: { apply find_first_pure. intros p Hp. rewrite (bind_eq _ _ _ _ _ (is_ok_eq _ Hp)). unfold found, f2. destruct (okb s start size p); [by rewrite (Hnz p Hp)|done]. }
  destruct (List.hd_error (omap f2 (vs_list (v_vma s)))) as [p|] eqn:E2.
  - apply hd_omap_some in E2 as (x & Hx & Hf). unfold f2 in Hf. destruct (okb s start size x) eqn:E; [|done]. injection Hf as ->. exists p. split; [done|]. by right.
  - exists 0. split; [done|]. left. split; [done|]. intros p Hp. pose proof (hd_omap_none_inv _ _ E2 p Hp) as Hn. unfold f2 in Hn. by destruct (okb s start size p).
Qed.
End search.

(** ** The interval found is extended, or followed by a new one *)

Lemma new_kmvarsdsc_spec s P O J U F R : VSp (v_mst s) P O J U F R ->
  wp new_kmvarsdsc s (fun r s' => (r = 0 /\ s' = s) \/
    (exists m', 0 < r < u64max /\ J !! r = None /\ VSp m' P O (<[r := sizeof_kmvarsdsc_t]> J) U F R /\ mframe P O R (v_mst s) m' /\
       s' = set_iv (<[r := kmvarsdsc_t_init]> (v_kmvds s)) (v_vma s) (with_mst m' s))).
Proof.
  intros HS. unfold new_kmvarsdsc. apply wp_bind, wp_on_mst. eapply wp_mono; [apply (sp_new HS); unfold sizeof_kmvarsdsc_t; lia|].
  intros r m' (Hf & [[-> ->]|(Hr & Hj & HS')]); [apply wp_ret; left; by rewrite with_mst_id|]. replace (r =? 0) with false by lia.
  apply wp_bind, wp_modify, wp_ret. right. exists m'. by split_and!; try lia.
Qed.

(** What the search promises of the interval found. *)
Lemma okb_facts s p start size : VIv (v_kmvds s) (v_vma s) -> p ∈ vs_list (v_vma s) -> okb s start size p = true -> 0x1000 <= size -> 0 <= start -> start mod 4096 = 0 ->
  exists l1 l2 k, vs_list (v_vma s) = l1 ++ p :: l2 /\ v_kmvds s !! p = Some k /\ range_ok k /\ kva_end k <= place start k /\ place start k mod 4096 = 0 /\
    place start k + size <= USER_VIRTUAL_ADDRESS_END /\ (forall q kq, q ∈ l2 -> v_kmvds s !! q = Some kq -> place start k + size <= kva_start kq).
Proof.
  intros HV Hp Hok Hsz Hst Hal. destruct (iv_lookup HV p Hp) as [k Hk]. destruct (iv_split HV p Hp) as (l1 & l2 & El). destruct (iv_nodup_split HV El) as (Hnd & _).
  destruct (vi_range _ _ HV _ _ Hk) as [_ Hro]. unfold okb in Hok. rewrite Hk, El, list_next_split in Hok by done. apply andb_true_iff in Hok as [H1 H2]. bool_to_prop.
  assert (Hhi : place start k + size <= USER_VIRTUAL_ADDRESS_END /\ forall q kq, q ∈ l2 -> v_kmvds s !! q = Some kq -> place start k + size <= kva_start kq).
  { destruct (hd_error l2) as [q|] eqn:Eq; cbn [room] in H2.
    - assert (Hq : q ∈ l2) by (destruct l2; [done|]; injection Eq as ->; by left). assert (Hql : q ∈ vs_list (v_vma s)) by (rewrite El; apply elem_of_app; right; by right).
      destruct (iv_lookup HV q Hql) as [kq Hkq]. rewrite Hkq in H2. cbn in H2. destruct (vi_range _ _ HV _ _ Hkq) as [_ []]. split; [lia|].
      intros r kr Hr Hkr. pose proof (iv_right_hd HV El q kq r kr Eq Hkq Hr Hkr). lia.
    - destruct l2; [|done]. split; [lia|]. by intros q kq ?%elem_of_nil. }
  destruct Hhi as [Hhi Hr]. exists l1, l2, k. split_and!; try done. unfold place in *. destruct (start =? 0) eqn:E; [|done]. destruct (ro_end _ Hro) as [|Ee]; [done|lia].
Qed.

(** The addresses from [r] on, [size] of them, were free and are the space's now. *)
Record alloc_ok s s' (P : Z -> Prop) O J U (R r start size : Z) : Prop := {
  ao_inv : VInv s' P O J U R;
  ao_al : r mod 4096 = 0;
  ao_lo : 0x1000 <= r;
  ao_start : start <> 0 -> r = start;
  ao_hi : r + size <= USER_VIRTUAL_ADDRESS_END;
  ao_free x : r <= x < r + size -> ~ covered (v_kmvds s) x;
  ao_cov x : covered (v_kmvds s') x <-> covered (v_kmvds s) x \/ r <= x < r + size;
  ao_frame : mframe P O R (v_mst s) (v_mst s')
}.

Section core.
Context {s P O J U R} (HI : VInv s P O J U R) {start size : Z} (Hst : 0 <= start) (Hal : start mod 4096 = 0)
  (Hsz : size mod 4096 = 0) (Hs0 : 0x1000 <= size).

Section found.
Context {p l1 l2 k} (El : vs_list (v_vma s) = l1 ++ p :: l2) (Hk : v_kmvds s !! p = Some k) (Hro : range_ok k) (Hpl : kva_end k <= place start k)
  (Hpa : place start k mod 4096 = 0) (Hhi : place start k + size <= USER_VIRTUAL_ADDRESS_END)
  (Hr : forall q kq, q ∈ l2 -> v_kmvds s !! q = Some kq -> place start k + size <= kva_start kq).

(** The addresses chosen are free. *)
Lemma place_free q kq x : v_kmvds s !! q = Some kq -> place start k <= x < place start k + size -> ~ inside kq x.
Proof using HI El Hk Hpl Hr Hro Hs0 Hhi.
  intros Hq Hx Hin. assert (Hql : q ∈ vs_list (v_vma s)) by (apply (vi_dom _ _ (iv_iv _ _ _ _ _ _ HI)); eauto). unfold inside in Hin.
  destruct (proj1 (iv_in_split El q) Hql) as [H1|[->|H2]].
  - pose proof (iv_left (iv_iv _ _ _ _ _ _ HI) El Hk q kq H1 Hq). destruct Hro. lia.
  - simplify_eq. lia.
  - pose proof (Hr q kq H2 Hq). lia.
Qed.

Lemma place_end_mod : (place start k + size) mod 4096 = 0.
Proof using Hpa Hsz. rewrite Z.add_mod, Hpa, Hsz by lia. done. Qed.

Lemma extend_ok : place start k = kva_end k -> let k' := set_range (kva_start k) (kva_end k + size) k in
  alloc_ok s (set_iv (<[p := k']> (v_kmvds s)) (set_vs_curr p (v_vma s)) s) P O J U R (kva_end k) start size.
Proof using HI El Hk Hro Hpl Hpa Hhi Hr Hs0 Hsz Hst.
  intros Ep k'. pose proof (iv_iv _ _ _ _ _ _ HI) as HV. pose proof place_free as Hfree. pose proof place_end_mod as Hem. rewrite Ep in *. destruct Hro as [R1 R2 R3 R4 R5].
  assert (Hcov : forall x, covered (<[p := k']> (v_kmvds s)) x <-> covered (v_kmvds s) x \/ kva_end k <= x < kva_end k + size).
  { intros x. rewrite covered_put, (covered_at _ p k) by done. unfold inside. cbn. split; [|intros [[?|?]|?]; [left; lia|by right|left; lia]].
    intros [Hx|Hq]; [|left; by right]. destruct (decide (x < kva_end k)); [left; left; lia|right; lia]. }
  split; [| |lia| |lia| |done|done].
  - apply (vinv_put s P O J U R p k k'); [done|done|done| |].
    + apply (viv_put HV _ l1 p l2 k k'); try done.
      * split; cbn; lia.
      * intros q kq Hq Hkq. cbn. by apply (iv_left HV El Hk q kq).
      * right. rewrite El. apply elem_of_app. right. by left.
    + intros n x _. unfold inside. cbn. lia.
  - done.
  - intros Hne. unfold place in Ep. by replace (start =? 0) with false in Ep by lia.
  - intros x Hx (q & kq & Hq & Hin). by apply (Hfree q kq x).
Qed.

Lemma follow_ok new m' lim ty : vobjs (v_kmvds s) (v_boxes s) J !! new = None -> 0 < new -> mframe P O R (v_mst s) m' ->
  VSp m' P O (<[new := sizeof_kmvarsdsc_t]> (vobjs (v_kmvds s) (v_boxes s) J)) U (frames_of U) R ->
  let k' := Kmvarsdsc ty 0 lim (place start k) (place start k + size) 0 in
  let v1 := set_vs_list (l1 ++ p :: new :: l2) (set_vs_curr new (v_vma s)) in
  alloc_ok s (set_iv (<[new := k']> (v_kmvds s)) (if bool_decide (hd_error l2 = None) then set_vs_end new v1 else v1) (with_mst m' s)) P O J U R (place start k) start size.
Proof using HI El Hk Hro Hpl Hpa Hhi Hr Hs0 Hsz Hst.
  intros Hno Hn0 Hf Hsp k' v1. pose proof (iv_iv _ _ _ _ _ _ HI) as HV. destruct (vobjs_none _ _ _ _ Hno) as (Hnew & _). pose proof Hro as [R1 R2 R3 R4 R5].
  set (v2 := if bool_decide _ then _ else _). assert (Hv2 : vs_list v2 = l1 ++ p :: new :: l2 /\ vs_isalcend v2 = vs_isalcend (v_vma s) /\ vs_currkmvdsc v2 = new /\
    vs_endkmvdsc v2 = default 0 (last (vs_list v2))).
  { unfold v2. destruct (bool_decide (hd_error l2 = None)) eqn:E; bool_to_prop; cbn.
    - destruct l2; [|done]. split_and!; try done. by rewrite last_app_cons.
    - destruct l2 as [|y l]; [done|]. split_and!; try done. rewrite (vi_end _ _ HV), El. by rewrite !last_app_cons. }
  destruct Hv2 as (V1 & V2 & V3 & V4).
  split; [|done|lia| |done| | |done].
  - apply vinv_add; [done|done|done| |done]. apply (viv_add HV _ l1 p l2 new k'); try done; try lia.
    + split; cbn; [lia|done|lia|lia|left; apply place_end_mod].
    + intros q kq [Hq| ->%list_elem_of_singleton ]%elem_of_app Hkq; cbn; [|simplify_eq; lia]. pose proof (iv_left HV El Hk q kq Hq Hkq). lia.
    + rewrite V3, V1. apply elem_of_app. right. right. by left.
  - intros Hne. unfold place. by replace (start =? 0) with false by lia.
  - intros x Hx (q & kq & Hq & Hin). by apply (place_free q kq x).
  - intros x. cbn [set_iv v_kmvds]. rewrite covered_put. unfold inside at 1. cbn. split.
    + intros [Hx|(q & kq & _ & Hq & Hin)]; [right; lia|left; by exists q, kq].
    + intros [(q & kq & Hq & Hin)|Hx]; [right; exists q, kq; split_and!; [congruence|done|done]|left; lia].
Qed.
End found.

Lemma vma_new_vadrs_core_spec lim ty : start + size <= USER_VIRTUAL_ADDRESS_END ->
  wp (vma_new_vadrs_core start size lim ty) s (fun r s' => (r = 0 /\ s' = s) \/ alloc_ok s s' P O J U R r start size).
Proof using HI Hst Hal Hsz Hs0.
  intros Hen. pose proof (iv_iv _ _ _ _ _ _ HI) as HV. unfold vma_new_vadrs_core. apply wp_bind.
  destruct (find_eq HV Hst Hs0 Hen lim ty) as (p & Hf & Hp). rewrite (wp_det _ _ _ _ _ Hf). destruct Hp as [[-> _]|[Hp Hok]]; [apply wp_ret; by left|].
  destruct (okb_facts s p start size HV Hp Hok Hs0 Hst Hal) as (l1 & l2 & k & El & Hk & Hro & Hpl & Hpa & Hhi & Hr). pose proof Hro as [R1 R2 R3 R4 R5].
  destruct (vi_range _ _ HV _ _ Hk) as [Hp0 _]. replace (p =? 0) with false by lia. apply wp_bind. rewrite (wp_det _ _ _ _ _ (get_kmv_eq _ _ _ Hk)).
  destruct (((start =? 0) || (start =? kva_end k)) && (lim =? kva_limits k) && (ty =? kva_maptype k)) eqn:E.
  - apply andb_true_iff in E as [[E _]%andb_true_iff _]. assert (Ep : place start k = kva_end k) by (unfold place; destruct (start =? 0) eqn:E0; [done|lia]).
    apply wp_bind. rewrite (wp_det _ _ _ _ _ (upd_kmv_eq _ _ _ _ Hk)). rewrite user_small by lia. apply wp_bind, wp_modify, wp_ret. right.
    exact (extend_ok El Hk Hro Hpl Hpa Hhi Hr Ep).
  - apply wp_bind. eapply wp_mono; [apply (new_kmvarsdsc_spec s P O _ U (frames_of U) R (iv_sp _ _ _ _ _ _ HI))|].
    intros new s1 [[-> ->]|(m' & Hnew & Hno & Hsp & Hfr & ->)]; [apply wp_ret; by left|]. replace (new =? 0) with false by lia.
    destruct (vobjs_none _ _ _ _ Hno) as (Hg & _). apply wp_bind. rewrite (wp_det _ _ _ _ _ (upd_kmv_eq _ new kmvarsdsc_t_init _ (lookup_insert_eq _ _ _))).
    cbn [set_iv with_mst v_mst v_vma v_kmvds v_boxes v_mgr v_file v_copies]. rewrite insert_insert_eq. cbn [kmvarsdsc_t_init kva_flgs kva_kvmbox].
    fold (place start k). rewrite (user_small (place start k + size)) by (unfold place in *; destruct (start =? 0); lia).
    set (k' := Kmvarsdsc _ _ _ _ _ _). apply wp_bind, wp_modify. apply wp_bind, wp_modify. cbn [v_mst v_vma v_kmvds v_boxes v_mgr v_file v_copies vs_list set_vs_curr].
    destruct (iv_nodup_split HV El) as (Hnd & _). rewrite El, insert_after_split by done.
    pose proof (follow_ok El Hk Hro Hpl Hpa Hhi Hr new m' lim ty Hno ltac:(lia) Hfr Hsp) as Hok'. cbn zeta in Hok'. fold k' in Hok'.
    apply wp_bind. unfold vs_next. apply wp_bind, wp_gets. cbn [v_vma vs_list set_vs_list].
    assert (Hnl : NoDup ((l1 ++ [p]) ++ new :: l2)).
    { pose proof (vi_nodup _ _ (iv_iv _ _ _ _ _ _ (ao_inv _ _ _ _ _ _ _ _ _ _ Hok'))) as Hnd2. revert Hnd2. cbn [set_iv v_vma].
      assert (Hlv : forall b : bool, vs_list (if b then set_vs_end new (set_vs_list (l1 ++ p :: new :: l2) (set_vs_curr new (v_vma s))) else set_vs_list (l1 ++ p :: new :: l2) (set_vs_curr new (v_vma s))) = l1 ++ p :: new :: l2) by (by intros []).
      rewrite Hlv, <- app_assoc. done. }
    rewrite decide_True by (apply elem_of_app; right; right; by left). apply wp_ret.
    replace (l1 ++ p :: new :: l2) with ((l1 ++ [p]) ++ new :: l2) in * by (by rewrite <- app_assoc). rewrite list_next_split by done.
    apply wp_bind. destruct (bool_decide (hd_error l2 = None)) eqn:Eh; [apply wp_modify|apply wp_ret]; apply wp_ret; right; exact Hok'.
Qed.

(** Sizes that end beyond the user half are refused. *)
Lemma vma_new_vadrs_core_refuse lim ty : start + size < u64max -> USER_VIRTUAL_ADDRESS_END < start + size -> vma_new_vadrs_core start size lim ty s = Ret (0, s).
Proof using HI Hst Hs0.
  intros Hw He. unfold vma_new_vadrs_core. rewrite (bind_eq _ _ s 0 s); [done|]. unfold vma_find_kmvarsdsc. rewrite (bind_eq _ _ s (v_vma s) s) by done.
  replace (0x1000 >? size) with false by lia. rewrite u64_small by lia. rewrite (vi_alc _ _ (iv_iv _ _ _ _ _ _ HI)).
  by replace (start + size >? USER_VIRTUAL_ADDRESS_END) with true by lia.
Qed.
End core.

(** Rounding up to pages. *)
Definition page_up (sz : Z) : Z := 4096 * ((sz + 4095) / 4096).

Lemma page_up_bounds sz : sz <= page_up sz < sz + 4096 /\ page_up sz mod 4096 = 0.
Proof.
  unfold page_up. pose proof (Z.div_mod (sz + 4095) 4096 ltac:(lia)). pose proof (Z.mod_pos_bound (sz + 4095) 4096 ltac:(lia)).
  split; [lia|]. rewrite Z.mul_comm. by apply Z.mod_mul.
Qed.

Lemma page_up_pos sz : 1 <= sz -> 0x1000 <= page_up sz.
Proof. intros Hsz. unfold page_up. pose proof (Z.div_le_mono 4096 (sz + 4095) 4096 ltac:(lia) ltac:(lia)) as Hd. change (4096 / 4096) with 1 in Hd. lia. Qed.

Lemma vadsz_align sz : 0 <= sz < u64max -> VADSZ_ALIGN sz = if sz + 4095 <? u64max then page_up sz else 0.
Proof.
  intros Hsz. destruct (sz + 4095 <? u64max) eqn:E; [apply page_align_up; lia|]. unfold VADSZ_ALIGN. rewrite u64max_val in *.
  replace (u64 (u64 (sz + 4096) - 1)) with (sz + 4095 - u64max).
  - change (u64 (Z.lnot (4096 - 1))) with (Z.shiftl (Z.ones (64 - 12)) 12). rewrite land_high by (rewrite ?u64max_val; lia). rewrite u64max_val.
    change (2 ^ 12) with 4096. rewrite Z.div_small by lia. done.
  - unfold u64. rewrite Zminus_mod_idemp_l. rewrite u64max_val. replace (sz + 4096 - 1) with (sz + 4095 - 18446744073709551616 + 1 * 18446744073709551616) by lia.
    rewrite Z.mod_add by lia. rewrite Z.mod_small by lia. done.
Qed.

Lemma land_fff x : Z.land x 0xfff = x mod 4096.
Proof. apply (Z.land_ones x 12). lia. Qed.

(** The whole call; sizes are rounded up to pages. *)
Lemma vma_new_vadrs_spec s P O J U R start sz lim ty : VInv s P O J U R -> 0 <= start < u64max -> 0 <= sz < u64max ->
  (start <> 0 -> start + page_up sz < u64max) ->
  wp (vma_new_vadrs start sz lim ty) s (fun r s' => (r = 0 /\ s' = s) \/ (sz <> 0 /\ alloc_ok s s' P O J U R r start (page_up sz))).
Proof.
  intros HI Hst Hsz Hw. unfold vma_new_vadrs. destruct (1 >? sz) eqn:E1; [apply wp_ret; by left|]. rewrite land_fff.
  destruct (_ && _) eqn:E2; [apply wp_ret; by left|]. rewrite vadsz_align by done. destruct (page_up_bounds sz) as [[Hb1 Hb2] Hb3].
  assert (Hal : start mod 4096 = 0) by (destruct (decide (start = 0)) as [->|]; [done|lia]).
  destruct (sz + 4095 <? u64max) eqn:E3.
  - assert (Hp0 : 0x1000 <= page_up sz) by (apply page_up_pos; lia).
    assert (Hw' : start + page_up sz < u64max).
    { destruct (decide (start = 0)) as [->|]; [|by apply Hw]. rewrite u64max_val in *. unfold page_up.
      pose proof (Z.div_mod (sz + 4095) 4096 ltac:(lia)). pose proof (Z.mod_pos_bound (sz + 4095) 4096 ltac:(lia)). lia. }
    destruct (decide (start + page_up sz <= USER_VIRTUAL_ADDRESS_END)) as [Hen|Hen].
    + eapply wp_mono; [apply (vma_new_vadrs_core_spec (start := start) (size := page_up sz) HI ltac:(lia) Hal Hb3 Hp0 lim ty Hen)|]. intros r s' [?|Hok]; [by left|right]. split; [lia|done].
    + rewrite (wp_det _ _ _ _ _ (vma_new_vadrs_core_refuse (start := start) (size := page_up sz) HI ltac:(lia) Hp0 lim ty Hw' ltac:(lia))). by left.
  - unfold vma_new_vadrs_core, vma_find_kmvarsdsc. apply wp_bind, wp_bind, wp_gets. apply wp_ret. apply wp_ret. by left.
Qed.
End alloc.
