(* ===== verification/VmaBox.v ===== *)
(** * Virtual address spaces: boxes

    The pages of a box, the count of the intervals that share it, and the cache of
    unused boxes. *)

From S2P Require Import Prelude PhyMem DivMer DivMerInv DivMerOps DivMerAlloc Boot BootSpec BootPages PageIf Mmu MmuInv MmuOps MmuSpec MmuLife MmuCorrect ObjIf Kmsob KmsobInv KmsobOps Vma VmaInv VmaSpace VmaIv VmaAlloc.

(** The pages outside of a range of addresses. *)
Definition drop_pages (a e : Z) (U : upages) : upages := filter (fun x => ~ (a <= 4096 * x.1 < e)) U.

Lemma drop_lookup a e U n x : drop_pages a e U !! n = Some x <-> U !! n = Some x /\ ~ (a <= 4096 * n < e).
Proof. apply map_lookup_filter_Some. Qed.

Lemma drop_none a e U : e <= a -> drop_pages a e U = U.
Proof. intros He. apply map_filter_id. intros n x _. cbn. lia. Qed.

Lemma drop_step a e U : a mod 4096 = 0 -> a < e -> drop_pages (a + 4096) e (delete (a / 4096) U) = drop_pages a e U.
Proof.
  intros Ha He. apply map_eq. intros n. apply option_eq. intros x. rewrite !drop_lookup, lookup_delete_Some.
  pose proof (Z.div_mod a 4096 ltac:(lia)). rewrite Ha in *. split; [intros [[Hne Hn] Hr]; split; [done|lia]|].
  intros [Hn Hr]. split_and!; [|done|lia]. intros <-. apply Hr. lia.
Qed.

Lemma frames_delete n U : frames_of (delete n U) = delete n (frames_of U).
Proof. apply fmap_delete. Qed.
Lemma uframes_lookup n U : frames_of U !! n = (fun x => x.1.2) <$> U !! n.
Proof. apply lookup_fmap. Qed.
Lemma frames_insert n d p b U : frames_of (<[n := (d, p, b)]> U) = <[n := p]> (frames_of U).
Proof. apply fmap_insert. Qed.

Lemma drop_translate a e U u : translate (frames_of (drop_pages a e U)) u =
  if decide (a <= 4096 * (u / 4096) < e) then None else translate (frames_of U) u.
Proof.
  unfold translate. rewrite !uframes_lookup. case_decide as Hr.
  - destruct (drop_pages a e U !! (u / 4096)) as [x|] eqn:E; [|done]. apply drop_lookup in E as [_ E]. done.
  - do 2 f_equal. apply option_eq. intros x. rewrite drop_lookup. tauto.
Qed.

(** Boxes of the same addresses are the same objects. *)
Definition same_boxes (bx bx' : gmap Z kvmemcbox_t) : Prop := forall b, is_Some (bx' !! b) <-> is_Some (bx !! b).

Lemma same_boxes_insert bx b x y : bx !! b = Some x -> same_boxes bx (<[b := y]> bx).
Proof. intros Hb c. rewrite lookup_insert_is_Some. destruct (decide (b = c)) as [<-|]; [|tauto]. rewrite Hb. split; [by eauto|by left]. Qed.

Lemma vobjs_boxes g bx bx' J : same_boxes bx bx' -> vobjs g bx' J = vobjs g bx J.
Proof.
  intros Hs. unfold vobjs. do 2 f_equal. apply map_eq. intros b. rewrite !lookup_fmap. specialize (Hs b).
  destruct (bx' !! b), (bx !! b); [done| | |done]; cbn; [by destruct (proj1 Hs ltac:(eauto))|by destruct (proj2 Hs ltac:(eauto))].
Qed.

Section counts.
Context {cnt : Z -> Z} {U : upages} {bx : gmap Z kvmemcbox_t} {mg : kvmemcboxmgr_t} (HB : VBx cnt U bx mg).

Lemma bx_live b : b <> 0 -> 0 < cnt b -> exists x, bx !! b = Some x /\ kmb_cont x = cnt b /\ box_ok U b x.
Proof using HB.
  intros Hb Hc. destruct (proj2 (vb_dom _ _ _ _ HB b)) as [x Hx]; [left; by apply HB|]. exists x. split; [done|]. by apply (vb_cont _ _ _ _ HB).
Qed.

(** A box changes, with the count of its references and its pages. *)
Lemma vbx_change cnt' U' b x : is_Some (bx !! b) -> (b ∈ kbm_kmbhead mg \/ cnt' b <= 0) -> (0 < cnt' b -> kmb_cont x = cnt' b /\ box_ok U' b x) ->
  (forall c, c <> b -> c <> 0 -> cnt' c = cnt c) -> (forall c y, c <> b -> box_ok U c y -> box_ok U' c y) -> VBx cnt' U' (<[b := x]> bx) mg.
Proof using HB.
  intros Hb Hl Hx Hc Ho. pose proof HB as [B1 B2 B3 B4 B5 B6 B7]. split; try done.
  - intros c. rewrite <- B2. destruct Hb as [y Hy]. by rewrite (same_boxes_insert _ _ _ x Hy c).
  - intros c Hcx. apply B3. destruct Hb as [y Hy]. by rewrite (same_boxes_insert _ _ _ x Hy c) in Hcx.
  - intros c Hc0 Hcc. destruct (decide (c = b)) as [->|Hne]; [destruct Hl; [done|lia]|]. apply B6; [done|]. by rewrite <- Hc.
  - intros c y [[<- <-]|[Hne Hcy]]%lookup_insert_Some; [done|]. rewrite Hc by (done || (apply B3; eauto)). intros Hcc. destruct (B7 _ _ Hcy Hcc) as [? ?].
    split; [done|]. by apply Ho.
Qed.

(** A page leaves its box. *)
Lemma vbx_page_gone n d p b x : U !! n = Some (d, p, b) -> bx !! b = Some x -> 0 < cnt b ->
  (forall n' p' b', U !! n' = Some (d, p', b') -> n' = n) ->
  VBx cnt (delete n U) (<[b := set_msas (kmb_msanr x -u 1) (filter (fun y => y <> d) (kmb_msalist x)) x]> bx) mg.
Proof using HB.
  intros Hn Hb Hc Hinj. pose proof HB as [B1 B2 B3 B4 B5 B6 B7]. destruct (B7 _ _ Hb Hc) as (Hct & Hnd & Hnr & Hin).
  assert (Hd : d ∈ kmb_msalist x) by (apply Hin; by exists n, p). apply vbx_change; [eauto|left; apply B6; [apply B3; eauto|done]| |done|].
  - intros _. split; [done|]. split_and!; cbn.
    + by apply NoDup_filter.
    + pose proof (length_filter_ne d (kmb_msalist x) Hnd Hd). rewrite Hnr. unfold u64. rewrite Zminus_mod_idemp_l. f_equal. lia.
    + intros e. rewrite elem_of_filter_ne, Hin. setoid_rewrite lookup_delete_Some. split.
      * intros [(n' & q & Hn') Hne]. exists n', q. split; [|done]. intros <-. congruence.
      * intros (n' & q & Hne & Hn'). split; [by exists n', q|]. intros ->. apply Hne. symmetry. by apply (Hinj n' q b).
  - intros c y Hcb (N1 & N2 & N3). split_and!; [done|done|]. intros e. rewrite N3. split; intros (n' & q & Hn'); exists n', q.
    + apply lookup_delete_Some. split; [|done]. intros <-. congruence.
    + by apply lookup_delete_Some in Hn' as [_ Hn'].
Qed.

(** A page joins a box. *)
Lemma vbx_page_new n d p b x : U !! n = None -> bx !! b = Some x -> 0 < cnt b -> (forall n' p' b', U !! n' <> Some (d, p', b')) ->
  VBx cnt (<[n := (d, p, b)]> U) (<[b := set_msas (kmb_msanr x +u 1) (d :: kmb_msalist x) x]> bx) mg.
Proof using HB.
  intros Hn Hb Hc Hnew. pose proof HB as [B1 B2 B3 B4 B5 B6 B7]. destruct (B7 _ _ Hb Hc) as (Hct & Hnd & Hnr & Hin).
  apply vbx_change; [eauto|left; apply B6; [apply B3; eauto|done]| |done|].
  - intros _. split; [done|]. split_and!; cbn.
    + apply NoDup_cons. split; [|done]. intros (n' & q & Hn')%Hin. by apply (Hnew n' q b).
    + rewrite Hnr. unfold u64. rewrite Zplus_mod_idemp_l. f_equal. lia.
    + intros e. rewrite elem_of_cons, Hin. setoid_rewrite lookup_insert_Some. split.
      * intros [->|(n' & q & Hn')]; [exists n, p; by left|]. exists n', q. right. split; [congruence|done].
      * intros (n' & q & [[_ [= -> _]]|[_ Hn']]); [by left|]. right. by exists n', q.
  - intros c y Hcb (N1 & N2 & N3). split_and!; [done|done|]. intros e. rewrite N3. split; intros (n' & q & Hn'); exists n', q.
    + apply lookup_insert_Some. right. split; [congruence|done].
    + apply lookup_insert_Some in Hn' as [[_ [= _ _ ->]]|[_ Hn']]; [done|done].
Qed.
End counts.

Section boxes.
Context {S : Type} {HPO : PageOps S} {HOO : ObjOps S} {HOA : ObjAlloc S}.
Implicit Types (s : vst S) (J : objects) (O : blocks) (U : upages).

(** The state with other page tables and boxes. *)
Definition set_bx (m : mst S) (bx : gmap Z kvmemcbox_t) (mg : kvmemcboxmgr_t) s : vst S := Vst m (v_vma s) (v_kmvds s) bx mg (v_file s) (v_copies s).

Lemma set_bx_id s : set_bx (v_mst s) (v_boxes s) (v_mgr s) s = s.
Proof. by destruct s. Qed.

(** A descriptor backs one page. *)
Lemma sp_desc_inj m P O J U F R n n' d p p' b b' : VSp m P O J U F R -> U !! n = Some (d, p, b) -> U !! n' = Some (d, p', b') -> n' = n.
Proof. intros (OU & _ & _ & _ & Hinj) Hn Hn'. by apply (Hinj _ _ _ _ _ _ _ Hn' Hn). Qed.

(** ** The pages of a box *)

Lemma del_msa_spec s cnt P O J U F R n d p b : VSp (v_mst s) P O J U F R -> VBx cnt U (v_boxes s) (v_mgr s) -> U !! n = Some (d, p, b) -> b <> 0 -> 0 < cnt b ->
  wp (del_msa b d) s (fun r s' => r = true /\ exists m' bx', s' = set_bx m' bx' (v_mgr s) s /\ mframe P O R (v_mst s) m' /\ same_boxes (v_boxes s) bx' /\
    VSp m' P O J (delete n U) F R /\ VBx cnt (delete n U) bx' (v_mgr s)).
Proof.
  intros HS HB Hn Hb0 Hc. destruct (bx_live HB b Hb0 Hc) as (x & Hb & _). unfold del_msa. apply wp_bind. rewrite (wp_det _ _ _ _ _ (upd_box_eq _ _ _ _ Hb)).
  apply wp_bind, wp_on_mst. rewrite (wp_det _ _ _ _ _ (sp_pg_fpagenr HS _ _ _ _ Hn)). cbn [v_mst]. apply wp_bind, wp_on_mst. cbn [with_mst v_mst].
  eapply wp_mono; [apply (sp_give HS _ _ _ _ Hn)|]. intros r m' (-> & Hf & HS'). apply wp_bind, wp_die_if; [done|]. apply wp_ret. split; [done|].
  do 2 eexists. split_and!; [done|done|by apply (same_boxes_insert _ _ x)|done|]. apply (vbx_page_gone HB _ _ p _ x); try done.
  intros n' p' b' Hn'. by apply (sp_desc_inj _ _ _ _ _ _ _ _ _ _ _ _ _ _ HS Hn Hn').
Qed.

(** The descriptor of a frame is found in the box. *)
Lemma vma_del_usermsa_spec s cnt P O J U F R n d p b msa : VSp (v_mst s) P O J U F R -> VBx cnt U (v_boxes s) (v_mgr s) -> U !! n = Some (d, p, b) -> b <> 0 -> 0 < cnt b ->
  msa = None \/ msa = Some d ->
  wp (vma_del_usermsa b msa p) s (fun r s' => r = true /\ exists m' bx', s' = set_bx m' bx' (v_mgr s) s /\ mframe P O R (v_mst s) m' /\ same_boxes (v_boxes s) bx' /\
    VSp m' P O J (delete n U) F R /\ VBx cnt (delete n U) bx' (v_mgr s)).
Proof.
  intros HS HB Hn Hb0 Hc Hm. pose proof (sp_adr HS _ _ _ _ Hn) as [_ Hp]. unfold vma_del_usermsa. replace ((b =? 0) || (p =? 0)) with false by lia.
  assert (Hdel := del_msa_spec s cnt P O J U F R n d p b HS HB Hn Hb0 Hc). destruct Hm as [->| ->].
  - apply wp_bind, wp_ret. destruct (bx_live HB b Hb0 Hc) as (x & Hb & _ & Hnd & _ & Hin).
    apply wp_bind. rewrite (wp_det _ _ _ _ _ (get_box_eq _ _ _ Hb)). apply wp_bind.
    rewrite (wp_det _ _ (Some d) s); [done|]. pose (look := fun e => default None ((fun y => if decide (y = e) then Some d else None) <$> Some d)).
    rewrite (find_first_pure _ look).
    + rewrite (hd_omap_only _ _ d d); [done|apply Hin; by exists n, p|by cbn; rewrite decide_True|]. intros y w _. unfold look. cbn. case_decide; by intros [= <-].
    + intros e (n' & q & Hn')%Hin. rewrite (bind_eq _ _ s q s); [|apply on_mst_eq; by apply (sp_pg_addr HS _ _ _ _ Hn')]. unfold look. cbn. do 2 f_equal.
      destruct (q =? p) eqn:E.
      * apply Z.eqb_eq in E as ->. pose proof (sp_frame_inj HS _ _ _ _ _ _ _ Hn Hn') as <-. simplify_eq. by rewrite decide_True.
      * rewrite decide_False; [done|]. intros <-. pose proof (sp_desc_inj _ _ _ _ _ _ _ _ _ _ _ _ _ _ HS Hn Hn') as ->. simplify_eq. lia.
  - apply wp_bind, wp_bind. rewrite (wp_det _ _ p s); [|apply on_mst_eq; by apply (sp_pg_addr HS _ _ _ _ Hn)]. apply wp_ret. by rewrite Z.eqb_refl.
Qed.

(** ** Unmapping a range *)

(** What unmapping the pages from [a] to [e] does. *)
Definition unmapped s s' cnt (P : Z -> Prop) O J U R a e : Prop :=
  exists m' bx', s' = set_bx m' bx' (v_mgr s) s /\ mframe P O R (v_mst s) m' /\ same_boxes (v_boxes s) bx' /\
    VSp m' P O J (drop_pages a e U) (frames_of (drop_pages a e U)) R /\ VBx cnt (drop_pages a e U) bx' (v_mgr s).

Lemma unmapping_loop_spec fuel b cnt P O J R e rets : e <= USER_VIRTUAL_ADDRESS_END -> (b <> 0 -> 0 < cnt b) -> forall s U a, 
  VSp (v_mst s) P O J U (frames_of U) R -> VBx cnt U (v_boxes s) (v_mgr s) -> 0 <= a -> a mod 4096 = 0 -> e - a <= 4096 * Z.of_nat fuel ->
  (forall n d p c, U !! n = Some (d, p, c) -> a <= 4096 * n < e -> c = b /\ c <> 0) ->
  wp (unmapping_loop fuel b a e rets) s (fun r s' => r = rets /\ unmapped s s' cnt P O J U R a e).
Proof.
  intros He Hb. induction fuel as [|fuel IH]; intros s U a HS HB Ha Hal Hfu Hin; cbn [unmapping_loop].
  { replace (a <? e) with false by lia. apply wp_ret. split; [done|]. exists (v_mst s), (v_boxes s). rewrite drop_none by lia. by rewrite set_bx_id. }
  destruct (a <? e) eqn:E.
  2: { apply wp_ret. split; [done|]. exists (v_mst s), (v_boxes s). rewrite drop_none by lia. by rewrite set_bx_id. }
  assert (Hdiv : a = 4096 * (a / 4096)) by (pose proof (Z.div_mod a 4096 ltac:(lia)); lia).
  apply wp_bind, wp_on_mst. eapply wp_mono; [apply (sp_unmap HS); unfold uaddr, USER_VIRTUAL_ADDRESS_END in *; lia|].
  intros q m1 (Hf1 & -> & HS1). rewrite uframes_lookup. rewrite user_small by (unfold USER_VIRTUAL_ADDRESS_END, VMAP_MIN_SIZE in *; lia). unfold VMAP_MIN_SIZE.
  assert (Hmid : mframe P O R (v_mst s) m1) by done.
  destruct (U !! (a / 4096)) as [[[d p] c]|] eqn:EU; cbn.
  - destruct (Hin _ _ _ _ EU ltac:(lia)) as [-> Hb0]. pose proof (sp_adr HS _ _ _ _ EU) as [_ Hp].
    replace (negb (p =? 0) && negb (b =? 0)) with true by lia. apply wp_bind, wp_bind. rewrite <- frames_delete in HS1.
    eapply wp_mono; [apply (vma_del_usermsa_spec (with_mst m1 s) cnt P O J U _ R _ _ _ _ None HS1 HB EU Hb0 (Hb Hb0)); by left|].
    intros r s2 (-> & m2 & bx2 & -> & Hf2 & Hsb & HS2 & HB2). apply wp_ret.
    eapply wp_mono; [apply (IH (set_bx m2 bx2 (v_mgr s) s) (delete (a / 4096) U) (a + 4096) HS2 HB2); [lia|rewrite Z.add_mod, Hal by lia; done|lia|]|].
    + intros n d' p' c' [_ Hn]%lookup_delete_Some Hr. apply (Hin _ _ _ _ Hn). lia.
    + intros r s3 (-> & m3 & bx3 & -> & Hf3 & Hsb3 & HS3 & HB3). split; [done|]. exists m3, bx3. rewrite drop_step in * by lia. split_and!; [done| | |done|done].
      * etrans; [done|]. by etrans.
      * intros x. by rewrite (Hsb3 x), (Hsb x).
  - apply wp_bind, wp_ret. rewrite <- frames_delete, delete_id in HS1 by done.
    eapply wp_mono; [apply (IH (with_mst m1 s) U (a + 4096) HS1 HB); [lia|rewrite Z.add_mod, Hal by lia; done|lia|]|].
    + intros n d' p' c' Hn Hr. apply (Hin _ _ _ _ Hn). lia.
    + intros r s3 (-> & m3 & bx3 & -> & Hf3 & Hsb3 & HS3 & HB3). split; [done|]. exists m3, bx3.
      assert (Ed : drop_pages (a + 4096) e U = drop_pages a e U) by (rewrite <- (drop_step a e U) by lia; by rewrite delete_id).
      rewrite Ed in *. split_and!; [done| |done|done|done]. by etrans.
Qed.

(** ** The count of a box *)

Lemma s32_small x : 0 <= x < 2 ^ 31 -> s32 x = x.
Proof. intros Hx. unfold s32. rewrite Z.mod_small by lia. lia. Qed.

Definition at_box (b c : Z) : Z := if decide (c = b) then 1 else 0.

Lemma knl_count_eq s cnt cnt' U b : VBx cnt U (v_boxes s) (v_mgr s) -> (b <> 0 -> 0 < cnt b < 2 ^ 30) -> (forall c, c <> 0 -> cnt' c = cnt c + at_box b c) ->
  exists bx', knl_count_kvmemcbox b s = Ret (tt, set_bx (v_mst s) bx' (v_mgr s) s) /\ same_boxes (v_boxes s) bx' /\ VBx cnt' U bx' (v_mgr s).
Proof.
  intros HB Hb Hc. unfold knl_count_kvmemcbox. destruct (b =? 0) eqn:E0.
  - exists (v_boxes s). split_and!; [by rewrite set_bx_id|done|]. apply (vbx_ext cnt); [|done]. intros c Hc0. rewrite Hc by done. unfold at_box. rewrite decide_False by lia. lia.
  - destruct (bx_live HB b ltac:(lia) ltac:(apply Hb; lia)) as (x & Hx & Hct & Hok). specialize (Hb ltac:(lia)). unfold box_ref. rewrite (upd_box_eq _ _ _ _ Hx).
    eexists. split_and!; [done|by apply (same_boxes_insert _ _ x)|]. pose proof (Hc b ltac:(lia)) as Hcb. unfold at_box in Hcb. rewrite decide_True in Hcb by done.
    apply (vbx_change HB); [eauto|left; apply HB; lia| | |done].
    + intros _. cbn. rewrite s32_small by lia. split; [lia|done].
    + intros c Hne Hc0. rewrite Hc by done. unfold at_box. rewrite decide_False by done. lia.
Qed.

(** A list without an element. *)
Definition without (b : Z) (l : list Z) : list Z := filter (fun x => x <> b) l.

(** A box without references leaves the list of those in use. *)
Lemma vbx_unuse cnt U bx mg b : VBx cnt U bx mg -> b ∈ kbm_kmbhead mg -> cnt b <= 0 ->
  without b (kbm_cachehead mg) = kbm_cachehead mg /\
  VBx cnt U (delete b bx) (Kvmemcboxmgr (kbm_kmbnr mg -u 1) (without b (kbm_kmbhead mg)) (kbm_cachenr mg) (kbm_cachemax mg) (kbm_cachemin mg) (kbm_cachehead mg)) /\
  (kbm_cachenr mg < kbm_cachemax mg ->
   VBx cnt U bx (Kvmemcboxmgr (kbm_kmbnr mg -u 1) (without b (kbm_kmbhead mg)) (kbm_cachenr mg +u 1) (kbm_cachemax mg) (kbm_cachemin mg) (b :: kbm_cachehead mg))).
Proof.
  intros [B1 B2 B3 B4 (B5 & B5' & B5'') B6 B7] Hb Hc. apply NoDup_app in B1 as (N1 & N2 & N3). assert (Hbc : b ∉ kbm_cachehead mg) by (by apply N2).
  assert (Hnr : u64 (kbm_kmbnr mg - 1) = u64 (Z.of_nat (length (without b (kbm_kmbhead mg))))).
  { unfold without. rewrite length_filter_ne, B4 by done. unfold u64. by rewrite Zminus_mod_idemp_l. }
  assert (Hlive : forall c, c <> 0 -> 0 < cnt c -> c ∈ without b (kbm_kmbhead mg)) by (intros c Hc0 Hcc; apply elem_of_filter_ne; split; [by apply B6|intros ->; lia]).
  assert (Hnd : NoDup (without b (kbm_kmbhead mg))) by (by apply NoDup_filter).
  split_and!; [by apply filter_ne_notin| |].
  - split; cbn; try done.
    + apply NoDup_app. split_and!; [done| |done]. intros c [Hcm _]%elem_of_filter_ne. by apply N2.
    + intros c. rewrite lookup_delete_is_Some, B2. unfold without. rewrite elem_of_filter_ne. destruct (decide (c = b)) as [->|Hne]; [tauto|].
      split; [intros [_ [?|?]]; [left|right]; done|]. intros [[? _]|?]; (split; [congruence|]); [by left|by right].
    + intros c [_ Hcb]%lookup_delete_is_Some. by apply B3.
    + intros c y [_ Hcy]%lookup_delete_Some. by apply B7.
  - intros Hlt. split; cbn; try done.
    + apply NoDup_app. split_and!; [done| |by apply NoDup_cons]. intros c [Hcm Hne]%elem_of_filter_ne [->|Hcc]%elem_of_cons; [done|]. by apply (N2 c).
    + intros c. rewrite B2. unfold without. rewrite elem_of_filter_ne, elem_of_cons. destruct (decide (c = b)) as [->|Hne]; [tauto|].
      split; [intros [?|?]; [by left|right; by right]|]. intros [[? _]|[?|?]]; [by left|done|by right].
    + rewrite u64_small by (rewrite u64max_val; unfold KMBOX_CACHE_MAX in *; lia). split_and!; [lia|lia|done].
Qed.

Lemma knl_put_spec s cnt cnt' P O J U F R b : VSp (v_mst s) P O J U F R -> VBx cnt U (v_boxes s) (v_mgr s) -> (b <> 0 -> 0 < cnt b < 2 ^ 30 /\ J !! b = Some sizeof_kvmemcbox_t) ->
  (forall c, c <> 0 -> cnt' c = cnt c - at_box b c) ->
  wp (knl_put_kvmemcbox b) s (fun _ s' => exists m' bx' mg', s' = set_bx m' bx' mg' s /\ mframe P O R (v_mst s) m' /\ VBx cnt' U bx' mg' /\
    ((same_boxes (v_boxes s) bx' /\ VSp m' P O J U F R) \/ (same_boxes (delete b (v_boxes s)) bx' /\ b <> 0 /\ is_Some (v_boxes s !! b) /\ VSp m' P O (delete b J) U F R))).
Proof.
  intros HS HB Hb Hc. unfold knl_put_kvmemcbox. destruct (b =? 0) eqn:E0.
  { apply wp_ret. exists (v_mst s), (v_boxes s), (v_mgr s). split_and!; [by rewrite set_bx_id|done| |by left]. apply (vbx_ext cnt); [|done].
    intros c Hc0. rewrite Hc by done. unfold at_box. rewrite decide_False by lia. lia. }
  destruct (Hb ltac:(lia)) as [Hcb HJ]. destruct (bx_live HB b ltac:(lia) ltac:(lia)) as (x & Hx & Hct & Hok). unfold box_ref. apply wp_bind.
  rewrite (wp_det _ _ _ _ _ (upd_box_eq _ _ _ _ Hx)). rewrite Hct, s32_small by lia. set (x' := set_cont _ x). set (bx' := <[b := x']> (v_boxes s)).
  assert (Hsb : same_boxes (v_boxes s) bx') by (by apply (same_boxes_insert _ _ x)). assert (Hcb' : cnt' b = cnt b - 1) by (rewrite Hc by lia; unfold at_box; by rewrite decide_True).
  assert (Hhd : b ∈ kbm_kmbhead (v_mgr s)) by (apply HB; lia).
  assert (HB' : VBx cnt' U bx' (v_mgr s)).
  { apply (vbx_change HB); [eauto|by left| | |done]; [intros _; cbn; split; [lia|done]|]. intros c Hne Hc0. rewrite Hc by done. unfold at_box. rewrite decide_False by done. lia. }
  apply wp_bind. rewrite (wp_det _ _ _ _ _ (get_box_eq (Vst (v_mst s) (v_vma s) (v_kmvds s) bx' (v_mgr s) (v_file s) (v_copies s)) b x' (lookup_insert_eq _ _ _))).
  cbn [x' kmb_cont set_cont]. destruct (cnt b + -1 >=? 1) eqn:E1.
  { apply wp_ret. exists (v_mst s), bx', (v_mgr s). split_and!; [done|done|done|by left]. }
  apply wp_bind, wp_gets. cbn [v_mgr]. destruct (vbx_unuse cnt' U bx' (v_mgr s) b HB' Hhd ltac:(lia)) as (Hdc & HB1 & HB2). unfold without in Hdc, HB1, HB2.
  pose proof (vb_cache _ _ _ _ HB') as (C1 & C2 & C3). destruct (kbm_cachenr (v_mgr s) >=? kbm_cachemax (v_mgr s)) eqn:E2.
  - apply wp_bind, wp_modify. cbn [v_mgr v_mst v_vma v_kmvds v_boxes v_file v_copies]. rewrite Hdc. apply wp_bind. unfold del_kvmemcbox. rewrite E0. apply wp_bind, wp_on_mst. cbn [v_mst].
    eapply wp_mono; [apply (sp_delete HS _ _ HJ)|]. intros r m' (-> & Hf & HS'). apply wp_bind, wp_modify, wp_ret. cbn [negb]. apply wp_bind, wp_modify, wp_ret.
    cbn [with_mst v_mgr v_mst v_vma v_kmvds v_boxes v_file v_copies kbm_kmbnr kbm_kmbhead kbm_cachenr kbm_cachemax kbm_cachemin kbm_cachehead].
    exists m', (delete b bx'). eexists. split_and!; [done|done|exact HB1|right]. split_and!; [|lia|eauto|done].
    intros c. rewrite !lookup_delete_is_Some. by rewrite (Hsb c).
  - apply wp_bind, wp_modify. cbn [v_mgr v_mst v_vma v_kmvds v_boxes v_file v_copies]. rewrite Hdc. apply wp_bind, wp_modify, wp_ret.
    cbn [v_mgr v_mst v_vma v_kmvds v_boxes v_file v_copies kbm_kmbnr kbm_kmbhead kbm_cachenr kbm_cachemax kbm_cachemin kbm_cachehead].
    exists (v_mst s), bx'. eexists. split_and!; [done|done|apply HB2; lia|by left].
Qed.

(** The counts are small. *)
Lemma refs_few g bx J m P O U F R b : VSp m P O (vobjs g bx J) U F R -> refs g b < 2 ^ 30.
Proof.
  intros HS. pose proof (sp_few HS) as Hf. assert (H1 : (size (filter (fun x => kva_kvmbox x.2 = b) g) <= size g)%nat) by (apply map_subseteq_size, map_filter_subseteq).
  assert (H2 : (size g <= size (vobjs g bx J))%nat).
  { unfold vobjs. rewrite <- (map_size_fmap (fun _ : kmvarsdsc_t => sizeof_kmvarsdsc_t) g). apply map_subseteq_size, map_union_subseteq_l. }
  unfold refs. lia.
Qed.
End boxes.
