(* ===== verification/VmaFree.v ===== *)
(** * Virtual address spaces: addresses given back

    [vma_del_vadrs]: the interval that holds the range is found, the pages of the
    range are unmapped and released, and the interval is removed, shortened at
    either end, or split in two that share the box. *)

From S2P Require Import Prelude PhyMem DivMer DivMerInv DivMerOps DivMerAlloc Boot BootSpec BootPages PageIf Mmu MmuInv MmuOps MmuSpec MmuLife MmuCorrect ObjIf Kmsob KmsobInv KmsobOps Vma VmaInv VmaSpace VmaIv VmaAlloc VmaBox.

Section free.
Context {S : Type} {HPO : PageOps S} {HOO : ObjOps S} {HOA : ObjAlloc S}.
Implicit Types (s : vst S) (J : objects) (O : blocks) (U : upages).

(** ** Searching an interval, the current one first *)

Lemma curr_search_eq s (t : kmvarsdsc_t -> bool) : VIv (v_kmvds s) (v_vma s) -> exists r,
  (hit ← (if vs_currkmvdsc (v_vma s) =? 0 then mret None else
         k ← get_kmv (vs_currkmvdsc (v_vma s));
         mret (if t k then Some (vs_currkmvdsc (v_vma s)) else None));
   match hit with
   | Some p => mret p
   | None =>
       r ← find_first (vs_list (v_vma s)) (fun curr => k ← get_kmv curr; mret (if t k then Some curr else None));
       mret (default 0 r)
   end) s = Ret (r, s) /\ ((r = 0 /\ forall p k, v_kmvds s !! p = Some k -> t k = false) \/ exists k, v_kmvds s !! r = Some k /\ t k = true).
Proof.
  intros HV. pose (look := fun p => if default false (t <$> v_kmvds s !! p) then Some p else None).
  assert (Hl : forall p, p ∈ vs_list (v_vma s) -> (k ← get_kmv p; mret (if t k then Some p else None)) s = Ret (look p, s)).
  { intros p Hp. destruct (iv_lookup HV p Hp) as [k Hk]. rewrite (bind_eq _ _ _ _ _ (get_kmv_eq _ _ _ Hk)). unfold look. by rewrite Hk. }
  assert (Hlook : forall p q, p ∈ vs_list (v_vma s) -> look p = Some q -> exists k, v_kmvds s !! q = Some k /\ t k = true).
  { intros p q Hp. destruct (iv_lookup HV p Hp) as [k Hk]. unfold look. rewrite Hk. cbn. destruct (t k) eqn:Et; [|done]. intros [= <-]. eauto. }
  pose (h := if vs_currkmvdsc (v_vma s) =? 0 then None else look (vs_currkmvdsc (v_vma s))).
  rewrite (bind_eq _ _ s h s).
  2: { unfold h. destruct (_ =? 0) eqn:E; [done|]. destruct (vi_curr _ _ HV) as [|Hc]; [lia|]. by apply Hl. }
  destruct h as [p|] eqn:Eh; unfold h in Eh.
  { exists p. split; [done|]. right. destruct (_ =? 0) eqn:E; [done|]. destruct (vi_curr _ _ HV) as [|Hc]; [lia|]. by apply (Hlook _ _ Hc). }
  rewrite (bind_eq _ _ s (List.hd_error (omap look (vs_list (v_vma s)))) s) by (by apply find_first_pure).
  destruct (List.hd_error (omap look (vs_list (v_vma s)))) as [p|] eqn:E1.
  - apply hd_omap_some in E1 as (x & Hx & Hf). exists p. split; [done|]. right. by apply (Hlook x).
  - exists 0. split; [done|]. left. split; [done|]. intros p k Hk. assert (Hp : p ∈ vs_list (v_vma s)) by (apply (vi_dom _ _ HV); eauto).
    pose proof (hd_omap_none_inv _ _ E1 p Hp) as Hn. unfold look in Hn. rewrite Hk in Hn. cbn in Hn. by destruct (t k).
Qed.

Lemma del_find_eq s start size : VIv (v_kmvds s) (v_vma s) -> 0x1000 <= size -> 0 <= start -> start + size < u64max -> exists r, vma_del_find_kmvarsdsc start size s = Ret (r, s) /\
  ((r = 0 /\ forall p k, v_kmvds s !! p = Some k -> ~ (kva_start k <= start /\ start + size <= kva_end k)) \/
   exists k, v_kmvds s !! r = Some k /\ kva_start k <= start /\ start + size <= kva_end k).
Proof.
  intros HV Hsz Hst Hw. destruct (curr_search_eq s (fun k => (kva_start k <=? start) && (start +u size <=? kva_end k)) HV) as (r & Hr & Hc).
  exists r. unfold vma_del_find_kmvarsdsc. rewrite (bind_eq _ _ s (v_vma s) s) by done. replace (0x1000 >? size) with false by lia. split; [exact Hr|].
  rewrite u64_small in Hc by lia. destruct Hc as [[-> Hn]|(k & Hk & Ht)]; [left|right].
  - split; [done|]. intros p k Hk. specialize (Hn p k Hk). cbn beta in Hn. lia.
  - exists k. split; [done|]. cbn beta in Ht. lia.
Qed.

Lemma vma_del_unmapping_spec s p kk cnt P O J U R a size : v_kmvds s !! p = Some kk -> p <> 0 -> 0 <= a -> a mod 4096 = 0 -> 0 <= size -> a + size <= USER_VIRTUAL_ADDRESS_END ->
  (kva_kvmbox kk <> 0 -> 0 < cnt (kva_kvmbox kk)) -> VSp (v_mst s) P O J U (frames_of U) R -> VBx cnt U (v_boxes s) (v_mgr s) ->
  (forall n d q c, U !! n = Some (d, q, c) -> a <= 4096 * n < a + size -> c = kva_kvmbox kk /\ c <> 0) ->
  wp (vma_del_unmapping p a size) s (fun _ s' => unmapped s s' cnt P O J U R a (a + size)).
Proof.
  intros Hk Hp0 Ha Hal Hsz He Hc HS HB Hin. unfold vma_del_unmapping, vma_del_unmapping_phyadrs. replace (p =? 0) with false by lia. rewrite user_small by lia.
  apply wp_bind. rewrite (wp_det _ _ _ _ _ (get_kmv_eq _ _ _ Hk)). eapply wp_mono; [apply (unmapping_loop_spec _ _ cnt P O J R _ true He Hc s U a HS HB Ha Hal); [|done]|by intros r s' [_ H]].
  unfold unmapping_fuel. pose proof (Z.div_mod (a + size - a) 4096 ltac:(lia)). pose proof (Z.mod_pos_bound (a + size - a) 4096 ltac:(lia)).
  pose proof (Z.div_pos (a + size - a) 4096 ltac:(lia) ltac:(lia)). lia.
Qed.

(** ** The intervals afterwards *)

(** The range from [a] to [e] was the space's and is free now. *)
Record free_ok s s' (P : Z -> Prop) O J U (R a e : Z) : Prop := {
  fo_inv : VInv s' P O J (drop_pages a e U) R;
  fo_was x : a <= x < e -> covered (v_kmvds s) x;
  fo_cov x : covered (v_kmvds s') x <-> covered (v_kmvds s) x /\ ~ (a <= x < e);
  fo_frame : mframe P O R (v_mst s) (v_mst s')
}.

(** The space after its pages in a range were unmapped. *)
Lemma vinv_unmap s1 s2 v' cnt P O J U R a e : unmapped s1 s2 cnt P O (vobjs (v_kmvds s1) (v_boxes s1) J) U R a e -> (forall b, b <> 0 -> refs (v_kmvds s1) b = cnt b) ->
  VIv (v_kmvds s1) v' -> mapped (v_kmvds s1) (drop_pages a e U) -> (forall p, is_Some (v_kmvds s1 !! p) -> v_boxes s1 !! p = None /\ J !! p = None) ->
  (forall p, is_Some (v_boxes s1 !! p) -> J !! p = None) -> VInv (set_iv (v_kmvds s1) v' s2) P O J (drop_pages a e U) R.
Proof.
  intros (m' & bx' & -> & _ & Hsb & HS & HB) Hc HV Hm H1 H2. split; cbn [set_iv set_bx v_kmvds v_vma v_boxes v_mgr v_mst]; try done.
  - by apply (vbx_ext cnt).
  - by rewrite (vobjs_boxes _ (v_boxes s1)).
  - intros p Hp. destruct (H1 p Hp) as [Hb HJ]. split; [|done]. destruct (bx' !! p) eqn:E; [|done]. destruct (proj1 (Hsb p)) as [y Hy]; [eauto|congruence].
  - intros p Hp. apply H2. by apply Hsb.
Qed.

Lemma vobjs_box g bx J b : g !! b = None -> is_Some (bx !! b) -> vobjs g bx J !! b = Some sizeof_kvmemcbox_t.
Proof.
  intros Hg [x Hx]. unfold vobjs. rewrite lookup_union_r by (by rewrite lookup_fmap, Hg). apply lookup_union_Some_l. by rewrite lookup_fmap, Hx.
Qed.

Lemma vobjs_del_box g bx J b : g !! b = None -> J !! b = None -> vobjs g (delete b bx) J = delete b (vobjs g bx J).
Proof. intros Hg HJ. unfold vobjs. rewrite fmap_delete, !delete_union. rewrite (delete_id (_ <$> g)) by (by rewrite lookup_fmap, Hg). by rewrite (delete_id J). Qed.

Lemma vobjs_del g bx J p : bx !! p = None -> J !! p = None -> vobjs (delete p g) bx J = delete p (vobjs g bx J).
Proof. intros Hb HJ. unfold vobjs. rewrite fmap_delete, !delete_union. rewrite (delete_id (_ <$> bx)) by (by rewrite lookup_fmap, Hb). by rewrite (delete_id J). Qed.

Section range.
Context {s P O J U R} (HI : VInv s P O J U R) {a e : Z} (Ha : a mod 4096 = 0) (He : e mod 4096 = 0) (Hae : a < e)
  {p l1 l2 k} (El : vs_list (v_vma s) = l1 ++ p :: l2) (Hk : v_kmvds s !! p = Some k) (Hst : kva_start k <= a) (Hen : e <= kva_end k).

Let HV : VIv (v_kmvds s) (v_vma s) := iv_iv _ _ _ _ _ _ HI.

Lemma range_bounds : 0x1000 <= a /\ e <= USER_VIRTUAL_ADDRESS_END /\ p <> 0.
Proof using HI Hk Hst Hen. destruct (vi_range _ _ HV _ _ Hk) as [Hp [R1 R2 R3 R4 R5]]. lia. Qed.

Lemma range_pages n d q c : U !! n = Some (d, q, c) -> a <= 4096 * n < e -> c = kva_kvmbox k /\ c <> 0.
Proof using HI Hk Hst Hen.
  intros Hn Hr. destruct (iv_map _ _ _ _ _ _ HI _ _ _ _ Hn) as (Hc0 & r & kr & Hkr & Hi & <-). split; [|done].
  assert (r = p) as -> by (apply (iv_fun HV r p kr k (4096 * n)); try done; unfold inside; lia). by simplify_eq.
Qed.

Lemma range_was x : a <= x < e -> covered (v_kmvds s) x.
Proof using Hk Hst Hen. clear HV. intros Hx. exists p, k. unfold inside. split; [done|lia]. Qed.

Lemma range_cov x : covered (v_kmvds s) x /\ ~ (a <= x < e) <-> (inside k x /\ ~ (a <= x < e)) \/ exists q kq, q <> p /\ v_kmvds s !! q = Some kq /\ inside kq x.
Proof using HI Hk Hst Hen.
  rewrite (covered_at _ p k) by done. split; [tauto|]. intros [[? ?]|(q & kq & Hne & Hq & Hx)]; [tauto|]. split; [right; by exists q, kq|].
  intros Hr. apply Hne, (iv_fun HV q p kq k x); try done. unfold inside. lia.
Qed.

Lemma range_box : kva_kvmbox k <> 0 -> 0 < refs (v_kmvds s) (kva_kvmbox k).
Proof using Hk. clear HV. intros _. by apply (refs_pos _ p). Qed.

(** A page that stays is in the part of its interval that stays. *)
Lemma range_mapped g' : (forall q kq, q <> p -> v_kmvds s !! q = Some kq -> g' !! q = Some kq) ->
  (forall x, inside k x -> ~ (a <= x < e) -> exists q kq, g' !! q = Some kq /\ inside kq x /\ kva_kvmbox kq = kva_kvmbox k) -> mapped g' (drop_pages a e U).
Proof using HI Hk.
  intros Hg Hk'. intros n d q c [Hn Hr]%drop_lookup. destruct (iv_map _ _ _ _ _ _ HI _ _ _ _ Hn) as (Hc0 & r & kr & Hkr & Hi & Hb). split; [done|].
  destruct (decide (r = p)) as [->|Hne]; [|exists r, kr; split_and!; [by apply Hg|done|done]]. simplify_eq.
  destruct (Hk' (4096 * n) Hi Hr) as (r & kr & H1 & H2 & H3). by exists r, kr.
Qed.

(** ** The interval is shortened *)

Lemma shrink_spec st' en' : let k' := set_range st' en' k in range_ok k' -> kva_start k <= st' -> en' <= kva_end k -> (forall x, inside k' x <-> inside k x /\ ~ (a <= x < e)) ->
  wp (upd_kmv p (set_range st' en') ;; vma_del_unmapping p a (e - a) ;; mret true) s (fun r s' => r = true /\ free_ok s s' P O J U R a e).
Proof using HI Ha Hae El Hk Hst Hen.
  intros k' Hro H1 H2 Hin. pose proof range_bounds as (B1 & B2 & B3). apply wp_bind. rewrite (wp_det _ _ _ _ _ (upd_kmv_eq _ _ _ _ Hk)). fold k'.
  set (s1 := Vst _ _ _ _ _ _ _). assert (Hp1 : v_kmvds s1 !! p = Some k') by apply lookup_insert_eq. apply wp_bind.
  assert (Hobj : vobjs (v_kmvds s1) (v_boxes s1) J = vobjs (v_kmvds s) (v_boxes s) J) by (by apply (vobjs_put _ _ _ _ k)).
  eapply wp_mono; [apply (vma_del_unmapping_spec s1 p k' (refs (v_kmvds s)) P O (vobjs (v_kmvds s1) (v_boxes s1) J) U R a (e - a) Hp1); try lia|].
  - exact range_box.
  - rewrite Hobj. apply (iv_sp _ _ _ _ _ _ HI).
  - apply (iv_bx _ _ _ _ _ _ HI).
  - intros n d q c Hn Hr. apply (range_pages n d q c Hn). lia.
  - intros r0 s2 Hu. replace (a + (e - a)) with e in Hu by lia. apply wp_ret. split; [done|].
    assert (HI2 : VInv (set_iv (v_kmvds s1) (v_vma s) s2) P O J (drop_pages a e U) R).
    { apply (vinv_unmap s1 s2 _ _ _ _ _ _ _ _ _ Hu).
      - intros b _. cbn [s1 v_kmvds]. rewrite (refs_put _ _ k) by done. cbn. lia.
      - apply (viv_put HV _ l1 p l2 k k'); try done; [| |apply HV].
        + intros q kq Hq Hkq. pose proof (iv_left HV El Hk q kq Hq Hkq). cbn. lia.
        + intros q kq Hq Hkq. pose proof (iv_right HV El Hk q kq Hq Hkq). cbn. lia.
      - apply range_mapped; [intros q kq Hne Hq; cbn; by rewrite lookup_insert_ne|]. intros x Hx Hr. exists p, k'. split_and!; [done|by apply Hin|done].
      - intros q [kq Hq]. apply (iv_ob1 _ _ _ _ _ _ HI). cbn in Hq. apply lookup_insert_Some in Hq as [[<- _]|[_ Hq]]; eauto.
      - apply (iv_ob2 _ _ _ _ _ _ HI). }
    pose proof Hu as (m' & bx' & E2 & Hf & _). subst s2. split; [exact HI2|apply range_was| |done].
    intros x. cbn [set_bx v_kmvds s1]. rewrite covered_put, range_cov, Hin. done.
Qed.

(** ** The interval is removed *)

Lemma set_endcurr_eq s1 : v_kmvds s1 = v_kmvds s -> v_vma s1 = v_vma s -> exists v',
  vma_del_set_endcurrkmvd p s1 = Ret (tt, set_iv (v_kmvds s1) v' s1) /\ vs_list v' = vs_list (v_vma s) /\ vs_isalcend v' = vs_isalcend (v_vma s) /\
  vs_endkmvdsc v' = default 0 (last (l1 ++ l2)) /\ (vs_currkmvdsc v' = 0 \/ vs_currkmvdsc v' ∈ l1 ++ l2).
Proof using HI El.
  intros Eg Ev. destruct (iv_nodup_split HV El) as (Hnd & _). unfold vma_del_set_endcurrkmvd. rewrite (bind_eq _ _ s1 (hd_error l2) s1).
  2: { apply (vs_next_eq s1 l1 p l2); [by rewrite Eg, Ev|by rewrite Ev]. }
  destruct l2 as [|q l]; cbn [hd_error].
  - rewrite (bind_eq _ _ s1 (last l1) s1).
    2: { unfold vs_prev. rewrite (bind_eq _ _ s1 (v_vma s1) s1) by done. rewrite Ev, El, decide_True by (apply elem_of_app; right; by left). by rewrite list_prev_split. }
    eexists. split; [reflexivity|]. cbn. rewrite Ev, app_nil_r. split_and!; [done|done|done|]. destruct (last l1) as [y|] eqn:Ey; [right|by left]. cbn. by apply last_Some_elem_of.
  - eexists. split; [reflexivity|]. cbn. rewrite Ev. split_and!; [done|done| |right; apply elem_of_app; right; by left].
    rewrite (vi_end _ _ HV), El. rewrite !last_app_cons. by destruct l.
Qed.

(** The space without the interval. *)
Lemma vinv_remove s1 m' bx' mg' v' : unmapped s s1 (refs (v_kmvds s)) P O (vobjs (v_kmvds s) (v_boxes s) J) U R a e -> a = kva_start k -> e = kva_end k ->
  vs_list v' = l1 ++ l2 -> vs_isalcend v' = vs_isalcend (v_vma s) -> vs_endkmvdsc v' = default 0 (last (l1 ++ l2)) -> (vs_currkmvdsc v' = 0 \/ vs_currkmvdsc v' ∈ l1 ++ l2) ->
  VBx (refs (delete p (v_kmvds s))) (drop_pages a e U) bx' mg' -> (forall c, is_Some (bx' !! c) -> is_Some (v_boxes s !! c)) ->
  VSp m' P O (vobjs (delete p (v_kmvds s)) bx' J) (drop_pages a e U) (frames_of (drop_pages a e U)) R -> mframe P O R (v_mst s) m' ->
  free_ok s (Vst m' v' (delete p (v_kmvds s)) bx' mg' (v_file s) (v_copies s)) P O J U R a e.
Proof using HI El Hk Hst Hen.
  intros Hu Ea Ee V1 V2 V3 V4 HB Hbx HS Hf. split; [|apply range_was| |done].
  - split; cbn [v_kmvds v_vma v_boxes v_mgr v_mst]; try done.
    + apply (viv_del HV _ l1 p l2); try done; rewrite V1; done.
    + apply range_mapped; [intros q kq Hne Hq; by rewrite lookup_delete_ne|]. intros x Hx Hr. destruct Hr. unfold inside in Hx. lia.
    + intros q [kq [Hne Hq]%lookup_delete_Some]. destruct (iv_ob1 _ _ _ _ _ _ HI q ltac:(eauto)) as [Hb HJ]. split; [|done].
      destruct (bx' !! q) eqn:E; [|done]. destruct (Hbx q) as [y Hy]; [eauto|congruence].
    + intros q Hq. by apply (iv_ob2 _ _ _ _ _ _ HI), Hbx.
  - intros x. cbn [v_kmvds]. rewrite covered_delete, range_cov. split; [by right|]. intros [[Hx Hr]|?]; [|done]. destruct Hr. unfold inside in Hx. lia.
Qed.

Lemma remove_interval_spec : a = kva_start k -> e = kva_end k ->
  wp (vma_del_unmapping p a (e - a) ;;
      vma_del_set_endcurrkmvd p ;;
      knl_put_kvmemcbox (kva_kvmbox k) ;;
      upd_vma (fun v => set_vs_list (filter (fun x => x <> p) (vs_list v)) v) ;;
      del_kmvarsdsc p ;;
      upd_vma (fun v => set_vs_nr (vs_kmvdscnr v -u 1) v) ;;
      mret true) s (fun r s' => r = true /\ free_ok s s' P O J U R a e).
Proof using HI Ha He Hae El Hk Hst Hen.
  intros Ea Ee. pose proof range_bounds as (B1 & B2 & B3). pose proof (iv_sp _ _ _ _ _ _ HI) as HS0. apply wp_bind.
  eapply wp_mono; [apply (vma_del_unmapping_spec s p k (refs (v_kmvds s)) P O (vobjs (v_kmvds s) (v_boxes s) J) U R a (e - a) Hk); try lia|].
  { exact range_box. } { done. } { apply (iv_bx _ _ _ _ _ _ HI). } { intros n d q c Hn Hr. apply (range_pages n d q c Hn). lia. }
  intros r0 s1 Hu. replace (a + (e - a)) with e in Hu by lia. pose proof Hu as (m1 & bx1 & E1 & Hf1 & Hsb1 & HS1 & HB1). apply wp_bind.
  destruct (set_endcurr_eq s1) as (v' & Hv & V1 & V2 & V3 & V4); [by subst|by subst|]. rewrite (wp_det _ _ _ _ _ Hv). apply wp_bind.
  assert (Hbox : forall b, is_Some (v_boxes s !! b) -> v_kmvds s !! b = None /\ J !! b = None).
  { intros b Hb. split; [|by apply (iv_ob2 _ _ _ _ _ _ HI)]. destruct (v_kmvds s !! b) eqn:E; [|done]. destruct (iv_ob1 _ _ _ _ _ _ HI b ltac:(eauto)) as [Hn _]. rewrite Hn in Hb. by destruct Hb. }
  destruct (iv_ob1 _ _ _ _ _ _ HI p ltac:(eauto)) as [Hpb HpJ].
  eapply wp_mono; [apply (knl_put_spec _ (refs (v_kmvds s)) (refs (delete p (v_kmvds s))) P O (vobjs (v_kmvds s) (v_boxes s) J) (drop_pages a e U) (frames_of (drop_pages a e U)) R)|].
  { subst s1. exact HS1. } { subst s1. exact HB1. }
  { intros Hb0. pose proof (range_box Hb0) as Hpos. split; [split; [done|by apply (refs_few _ _ _ _ _ _ _ _ _ _ HS0)]|].
    destruct (bx_live (iv_bx _ _ _ _ _ _ HI) _ Hb0 Hpos) as (x & Hx & _). apply vobjs_box; [apply Hbox; eauto|eauto]. }
  { intros c _. rewrite (refs_delete _ _ k) by done. unfold at_box. by destruct (decide (kva_kvmbox k = c)), (decide (c = kva_kvmbox k)); congruence. }
  intros r1 s2 (m2 & bx2 & mg2 & -> & Hf2 & HB2 & HS2). subst s1. cbn [set_iv set_bx v_mst v_boxes] in Hf2, HS2.
  assert (HS2' : VSp m2 P O (vobjs (v_kmvds s) bx2 J) (drop_pages a e U) (frames_of (drop_pages a e U)) R /\ forall c, is_Some (bx2 !! c) -> is_Some (v_boxes s !! c)).
  { destruct HS2 as [[Hsb HS2]|(Hsb & Hb0 & Hb & HS2)].
    - split; [rewrite (vobjs_boxes _ _ _ _ Hsb), (vobjs_boxes _ _ _ _ Hsb1); done|]. intros c Hc. by apply Hsb1, Hsb.
    - apply Hsb1, Hbox in Hb as [Hb HJb]. split.
      + by rewrite (vobjs_boxes _ _ _ _ Hsb), vobjs_del_box, (vobjs_boxes _ _ _ _ Hsb1).
      + intros c [_ Hc]%Hsb%lookup_delete_is_Some. by apply Hsb1. }
  destruct HS2' as [HS2' Hbx2]. apply wp_bind, wp_modify. apply wp_bind. unfold del_kmvarsdsc. replace (p =? 0) with false by lia. apply wp_bind, wp_on_mst. cbn [set_bx set_iv v_mst].
  eapply wp_mono; [apply (sp_delete HS2' p _ (vobjs_interval _ _ _ _ k Hk))|]. intros r2 m3 (-> & Hf3 & HS3). apply wp_bind, wp_modify, wp_ret. apply wp_bind, wp_modify, wp_ret. split; [done|].
  destruct (iv_nodup_split HV El) as (Hnd & _). cbn [with_mst set_bx set_iv v_mst v_vma v_kmvds v_boxes v_mgr v_file v_copies].
  rewrite V1, El, filter_ne_app by done. apply (vinv_remove _ _ _ _ _ Hu Ea Ee); try done.
  - rewrite vobjs_del; [done| |done]. destruct (bx2 !! p) eqn:E; [|done]. destruct (Hbx2 p) as [y Hy]; [eauto|congruence].
  - etrans; [done|]. by etrans.
Qed.

(** ** The interval is split *)

(** The two parts, the second at [new]. *)
Section parts.
Context (new : Z) (Hnew : v_kmvds s !! new = None) (Hn0 : new <> 0) (Hlt : kva_start k < a) (Hgt : e < kva_end k).
Let k1 := set_range (kva_start k) a k.
Let k2 := Kmvarsdsc (kva_maptype k) 0 (kva_limits k) e (kva_end k) (kva_kvmbox k).
Let g' := <[new := k2]> (<[p := k1]> (v_kmvds s)).

Lemma parts_ne : p <> new.
Proof using Hk Hnew. clear HV. congruence. Qed.

Lemma parts_refs c : refs g' c = refs (v_kmvds s) c + at_box (kva_kvmbox k) c.
Proof using Hk Hnew.
  clear HV. unfold g'. rewrite refs_add by (rewrite lookup_insert_ne; [done|apply parts_ne]). rewrite (refs_put _ _ k) by done. cbn. unfold at_box.
  destruct (decide (kva_kvmbox k = c)), (decide (c = kva_kvmbox k)); first [congruence|lia].
Qed.

Lemma parts_iv v' : vs_list v' = l1 ++ p :: new :: l2 -> vs_isalcend v' = vs_isalcend (v_vma s) -> vs_endkmvdsc v' = default 0 (last (vs_list v')) -> vs_currkmvdsc v' = new ->
  VIv g' v'.
Proof using HI Ha He Hae El Hk Hst Hen Hnew Hn0 Hlt Hgt.
  intros V1 V2 V3 V4. destruct (vi_range _ _ HV _ _ Hk) as [Hp0 [R1 R2 R3 R4 R5]].
  assert (HV1 : VIv (<[p := k1]> (v_kmvds s)) (v_vma s)).
  { apply (viv_put HV _ l1 p l2 k k1); try done; [split; cbn; lia| | |apply HV].
    - intros q kq Hq Hkq. pose proof (iv_left HV El Hk q kq Hq Hkq). cbn. lia.
    - intros q kq Hq Hkq. pose proof (iv_right HV El Hk q kq Hq Hkq). cbn. lia. }
  apply (viv_add HV1 v' l1 p l2 new k2); try done.
  - rewrite lookup_insert_ne; [done|apply parts_ne].
  - split; cbn; lia.
  - intros q kq Hq [[<- <-]|[Hne Hkq]]%lookup_insert_Some; [cbn; lia|]. apply elem_of_app in Hq as [Hq|Hq%list_elem_of_singleton]; [|congruence].
    pose proof (iv_left HV El Hk q kq Hq Hkq). cbn. lia.
  - intros q kq Hq [[<- <-]|[Hne Hkq]]%lookup_insert_Some; [|by apply (iv_right HV El Hk q kq Hq)].
    by destruct (iv_nodup_split HV El) as (_ & _ & Hn2 & _).
  - rewrite V4, V1. apply elem_of_app. right. right. by left.
Qed.

Lemma parts_mapped : mapped g' (drop_pages a e U).
Proof using HI Hk Hnew Hlt Hgt Hae.
  apply range_mapped.
  - intros q kq Hne Hq. unfold g'. rewrite !lookup_insert_ne by congruence. done.
  - intros x Hx Hr. destruct (decide (x < a)).
    + exists p, k1. unfold g'. rewrite lookup_insert_ne, lookup_insert_eq by (symmetry; apply parts_ne). split_and!; [done| |done]. unfold inside in *. cbn. lia.
    + exists new, k2. unfold g'. rewrite lookup_insert_eq. split_and!; [done| |done]. unfold inside in *. cbn. lia.
Qed.

Lemma parts_cov x : covered g' x <-> covered (v_kmvds s) x /\ ~ (a <= x < e).
Proof using HI Hk Hst Hen Hnew Hlt Hgt Hae.
  rewrite range_cov. unfold g'. rewrite covered_put. unfold inside at 1 3. cbn [k2 kva_start kva_end]. split.
  - intros [Hx|(q & kq & Hne & [[<- <-]|[Hqp Hq]]%lookup_insert_Some & Hx)]; [left; lia|left; unfold inside in Hx; cbn in Hx; lia|]. right. by exists q, kq.
  - intros [[Hx Hr]|(q & kq & Hne & Hq & Hx)].
    + destruct (decide (x < a)); [|left; lia]. right. exists p, k1. rewrite lookup_insert_eq. split_and!; [apply parts_ne|done|]. unfold inside. cbn. lia.
    + right. exists q, kq. rewrite lookup_insert_ne by done. split_and!; [congruence|done|done].
Qed.
End parts.

Lemma split_intervals_spec : kva_start k < a -> e < kva_end k ->
  wp (newkmvd ← new_kmvarsdsc;
      if newkmvd =? 0 then mret false else
      upd_kmv newkmvd (fun x => Kmvarsdsc (kva_maptype k) (kva_flgs x) (kva_limits k) e (kva_end k) (kva_kvmbox x)) ;;
      upd_kmv p (set_range (kva_start k) a) ;;
      knl_count_kvmemcbox (kva_kvmbox k) ;;
      upd_kmv newkmvd (set_kvmbox (kva_kvmbox k)) ;;
      vma_del_unmapping p a (e - a) ;;
      upd_vma (fun v => set_vs_list (insert_after p newkmvd (vs_list v)) v) ;;
      upd_vma (fun v => set_vs_nr (vs_kmvdscnr v +u 1) v) ;;
      nx ← vs_next newkmvd;
      (if bool_decide (nx = None) then upd_vma (set_vs_end newkmvd) ;; upd_vma (set_vs_curr newkmvd) else upd_vma (set_vs_curr newkmvd)) ;;
      mret true) s (fun r s' => (r = false /\ s' = s) \/ (r = true /\ free_ok s s' P O J U R a e)).
Proof using HI Ha He Hae El Hk Hst Hen.
  intros Hlt Hgt. pose proof range_bounds as (B1 & B2 & B3). pose proof (iv_sp _ _ _ _ _ _ HI) as HS0. apply wp_bind.
  eapply wp_mono; [apply (new_kmvarsdsc_spec s P O _ U (frames_of U) R HS0)|]. intros new s1 [[-> ->]|(m1 & Hn & Hno & HS1 & Hf1 & ->)]; [apply wp_ret; by left|].
  replace (new =? 0) with false by lia. destruct (vobjs_none _ _ _ _ Hno) as (Hnew & Hnb & HnJ). pose proof (parts_ne new Hnew) as Hpn.
  apply wp_bind. rewrite (wp_det _ _ _ _ _ (upd_kmv_eq _ new kmvarsdsc_t_init _ (lookup_insert_eq _ _ _))).
  cbn [set_iv with_mst v_mst v_vma v_kmvds v_boxes v_mgr v_file v_copies kmvarsdsc_t_init kva_flgs kva_kvmbox]. rewrite insert_insert_eq. apply wp_bind.
  set (k20 := Kmvarsdsc _ _ _ _ _ _). rewrite (wp_det _ _ _ _ _ (upd_kmv_eq (Vst m1 (v_vma s) (<[new := k20]> (v_kmvds s)) (v_boxes s) (v_mgr s) (v_file s) (v_copies s)) p k _ ltac:(cbn; by rewrite lookup_insert_ne))).
  cbn [v_mst v_vma v_kmvds v_boxes v_mgr v_file v_copies]. set (k1 := set_range (kva_start k) a k). apply wp_bind.
  set (k2 := Kmvarsdsc (kva_maptype k) 0 (kva_limits k) e (kva_end k) (kva_kvmbox k)). set (g' := <[new := k2]> (<[p := k1]> (v_kmvds s))).
  set (s2 := Vst _ _ _ _ _ _ _). destruct (knl_count_eq s2 (refs (v_kmvds s)) (refs g') U (kva_kvmbox k)) as (bx2 & Hc2 & Hsb2 & HB2).
  { apply (iv_bx _ _ _ _ _ _ HI). } { intros Hb0. split; [by apply range_box|by apply (refs_few _ _ _ _ _ _ _ _ _ _ HS0)]. } { intros c _. by apply parts_refs. }
  rewrite (wp_det _ _ _ _ _ Hc2). apply wp_bind.
  change (set_bx (v_mst s2) bx2 (v_mgr s2) s2) with (Vst m1 (v_vma s) (<[p := k1]> (<[new := k20]> (v_kmvds s))) bx2 (v_mgr s) (v_file s) (v_copies s)).
  rewrite (wp_det _ _ _ _ _ (upd_kmv_eq (Vst m1 (v_vma s) (<[p := k1]> (<[new := k20]> (v_kmvds s))) bx2 (v_mgr s) (v_file s) (v_copies s)) new k20 _ ltac:(cbn; by rewrite lookup_insert_ne, lookup_insert_eq))).
  cbn [v_mst v_vma v_kmvds v_boxes v_mgr v_file v_copies]. assert (Eg : <[new := set_kvmbox (kva_kvmbox k) k20]> (<[p := k1]> (<[new := k20]> (v_kmvds s))) = g').
  { rewrite insert_insert_ne, insert_insert_eq by done. apply insert_insert_ne. done. }
  rewrite Eg. clear Hc2 Eg. cbn [s2 v_boxes v_mgr] in Hsb2, HB2. clear s2. set (s3 := Vst m1 (v_vma s) g' bx2 (v_mgr s) (v_file s) (v_copies s)). apply wp_bind.
  assert (Hobj : vobjs (v_kmvds s3) (v_boxes s3) J = <[new := sizeof_kmvarsdsc_t]> (vobjs (v_kmvds s) (v_boxes s) J)).
  { cbn [s3 v_kmvds v_boxes]. rewrite (vobjs_boxes _ _ _ _ Hsb2). unfold g'. by rewrite vobjs_add, (vobjs_put _ _ _ p k). }
  assert (Hp3 : v_kmvds s3 !! p = Some k1) by (cbn [s3 v_kmvds]; unfold g'; rewrite lookup_insert_ne, lookup_insert_eq by done; done).
  eapply wp_mono; [apply (vma_del_unmapping_spec s3 p k1 (refs g') P O (vobjs (v_kmvds s3) (v_boxes s3) J) U R a (e - a) Hp3); try lia|].
  { intros _. apply (refs_pos _ p k1). exact Hp3. } { by rewrite Hobj. } { done. } { intros n d q c Hq Hr. apply (range_pages n d q c Hq). lia. }
  intros r0 s4 Hu. replace (a + (e - a)) with e in Hu by lia. pose proof Hu as (m4 & bx4 & E4 & Hf4 & _).
  assert (Hfin : forall v', vs_list v' = l1 ++ p :: new :: l2 -> vs_isalcend v' = vs_isalcend (v_vma s) -> vs_endkmvdsc v' = default 0 (last (vs_list v')) -> vs_currkmvdsc v' = new ->
    free_ok s (set_iv g' v' s4) P O J U R a e).
  { intros v' V1 V2 V3 V4. split; [|apply range_was|by apply parts_cov|subst s4; cbn; by etrans].
    apply (vinv_unmap s3 s4 v' (refs g')); [exact Hu|done|apply parts_iv; done || lia|by apply parts_mapped| |].
    - intros q [kq Hq]. assert (Hb2 : forall q, v_boxes s !! q = None -> bx2 !! q = None) by (intros q0 Hq0; destruct (bx2 !! q0) eqn:E; [|done]; destruct (proj1 (Hsb2 q0)) as [y Hy]; [eauto|congruence]).
      cbn in Hq. apply lookup_insert_Some in Hq as [[<- _]|[_ Hq]]; [split; [by apply Hb2|done]|].
      assert (Hqs : is_Some (v_kmvds s !! q)) by (apply lookup_insert_Some in Hq as [[<- _]|[_ Hq]]; eauto). destruct (iv_ob1 _ _ _ _ _ _ HI q Hqs). split; [by apply Hb2|done].
    - intros q Hq. apply (iv_ob2 _ _ _ _ _ _ HI). by apply Hsb2. }
  destruct (iv_nodup_split HV El) as (Hnd & _). subst s4. cbn [set_bx s3 v_mst v_vma v_kmvds v_boxes v_mgr v_file v_copies] in *.
  do 2 apply wp_bind, wp_modify. cbn [set_bx s3 v_mst v_vma v_kmvds v_boxes v_mgr v_file v_copies]. rewrite El, insert_after_split by done. apply wp_bind. unfold vs_next. apply wp_bind, wp_gets.
  cbn [v_vma vs_list set_vs_list set_vs_nr]. rewrite decide_True by (apply elem_of_app; right; right; by left). apply wp_ret.
  assert (Hnl : NoDup ((l1 ++ [p]) ++ new :: l2)).
  { rewrite <- app_assoc. apply (NoDup_Permutation_proper _ (new :: l1 ++ p :: l2)); [cbn; rewrite (Permutation_middle (l1 ++ [p]) l2 new) at 1 || idtac|].
    - change ([p] ++ new :: l2) with (p :: new :: l2). rewrite Permutation_swap. by rewrite <- Permutation_middle.
    - apply NoDup_cons. rewrite <- El. split; [|apply HV]. rewrite (vi_dom _ _ HV), Hnew. by intros [? ?]. }
  replace (l1 ++ p :: new :: l2) with ((l1 ++ [p]) ++ new :: l2) in * by (by rewrite <- app_assoc). rewrite list_next_split by done.
  apply wp_bind. destruct (bool_decide (hd_error l2 = None)) eqn:Eh; bool_to_prop.
  - apply wp_bind, wp_modify, wp_modify, wp_ret. right. split; [done|]. apply Hfin; cbn; try done. destruct l2; [|done]. by rewrite last_snoc.
  - apply wp_modify, wp_ret. right. split; [done|]. apply Hfin; cbn; try done. rewrite (vi_end _ _ HV), El. destruct l2; [done|]. by rewrite !last_app_cons.
Qed.
End range.

(** No interval holds the whole range, or the one that does must be split. *)
Definition refused s (a e : Z) : Prop := forall p k, v_kmvds s !! p = Some k -> kva_start k <= a -> e <= kva_end k -> kva_start k < a /\ e < kva_end k.

Lemma vma_del_vadrs_core_spec s P O J U R start size : VInv s P O J U R -> 0 <= start -> start mod 4096 = 0 -> size mod 4096 = 0 -> 0x1000 <= size -> start + size < u64max ->
  wp (vma_del_vadrs_core start size) s (fun r s' => (r = false /\ s' = s /\ refused s start (start + size)) \/ (r = true /\ free_ok s s' P O J U R start (start + size))).
Proof.
  intros HI Hst Hal Hsz Hs0 Hw. pose proof (iv_iv _ _ _ _ _ _ HI) as HV. unfold vma_del_vadrs_core. apply wp_bind.
  destruct (del_find_eq s start size HV Hs0 Hst Hw) as (p & Hf & Hp). rewrite (wp_det _ _ _ _ _ Hf). destruct Hp as [[-> Hno]|(k & Hk & H1 & H2)].
  { apply wp_ret. left. split_and!; [done|done|]. intros q kq Hq Ha He. by destruct (Hno q kq Hq). }
  destruct (vi_range _ _ HV _ _ Hk) as [Hp0 _]. replace (p =? 0) with false by lia. apply wp_bind. rewrite (wp_det _ _ _ _ _ (get_kmv_eq _ _ _ Hk)). rewrite u64_small by lia.
  assert (Hpl : p ∈ vs_list (v_vma s)) by (apply (vi_dom _ _ HV); eauto). destruct (iv_split HV p Hpl) as (l1 & l2 & El).
  assert (Hem : (start + size) mod 4096 = 0) by (rewrite Z.add_mod, Hal, Hsz by lia; done). assert (Hae : start < start + size) by lia.
  remember (start + size) as e eqn:Ee. assert (size = e - start) as -> by lia.
  destruct ((kva_start k =? start) && (kva_end k =? e)) eqn:C1.
  { eapply wp_mono; [apply (remove_interval_spec HI Hal Hem Hae El Hk H1 H2); lia|]. intros r s' [-> Hok]. by right. }
  destruct (vi_range _ _ HV _ _ Hk) as [_ [R1 R2 R3 R4 R5]].
  destruct ((kva_start k =? start) && (kva_end k >? e)) eqn:C2.
  { eapply wp_mono; [apply (shrink_spec HI Hal Hae El Hk H1 H2 e (kva_end k))|]; [split; cbn; lia|lia|lia|intros x; unfold inside; cbn; lia|]. intros r s' [-> Hok]. by right. }
  destruct ((kva_start k <? start) && (kva_end k =? e)) eqn:C3.
  { eapply wp_mono; [apply (shrink_spec HI Hal Hae El Hk H1 H2 (kva_start k) start)|]; [split; cbn; lia|lia|lia|intros x; unfold inside; cbn; lia|]. intros r s' [-> Hok]. by right. }
  replace ((kva_start k <? start) && (kva_end k >? e)) with true by lia.
  eapply wp_mono; [apply (split_intervals_spec HI Hal Hem Hae El Hk H1 H2); lia|]. intros r s' [[-> ->]|[-> Hok]]; [left|by right]. split_and!; [done|done|].
  intros q kq Hq Hqa Hqe. assert (q = p) as -> by (apply (iv_fun HV q p kq k start); try done; unfold inside; lia). simplify_eq. lia.
Qed.

(** The whole call, seen through the processor as well. *)
Lemma vma_del_vadrs_spec s P O J U R start sz : VInv s P O J U R -> 0 <= start < u64max -> 0 <= sz < u64max -> start mod 4096 = 0 -> start + page_up sz < u64max ->
  wp (vma_del_vadrs start sz) s (fun r s' =>
    (r = false /\ s' = s /\ (sz = 0 \/ start = 0 \/ refused s start (start + page_up sz))) \/
    (r = true /\ sz <> 0 /\ free_ok s s' P O J U R start (start + page_up sz) /\
     (forall u, uaddr u -> hw_walk (m_words (v_mst s')) R u =
        if decide (start <= 4096 * (u / 4096) < start + page_up sz) then None else hw_walk (m_words (v_mst s)) R u))).
Proof.
  intros HI Hst Hsz Hal Hw. unfold vma_del_vadrs. destruct ((1 >? sz) || (start =? 0)) eqn:E1; [apply wp_ret; left; split_and!; [done|done|lia]|].
  destruct (page_up_bounds sz) as [[Hb1 Hb2] Hb3]. rewrite vadsz_align by done. destruct (sz + 4095 <? u64max) eqn:E3.
  - assert (Hp0 : 0x1000 <= page_up sz) by (apply page_up_pos; lia).
    eapply wp_mono; [apply (vma_del_vadrs_core_spec s P O J U R start (page_up sz) HI); (done || lia)|].
    intros r s' [(-> & -> & Hr)|[-> Hok]]; [left; by eauto|right]. split_and!; [done|lia|done|]. intros u Hu.
    rewrite (sp_walk (iv_sp _ _ _ _ _ _ (fo_inv _ _ _ _ _ _ _ _ _ Hok)) u Hu), (sp_walk (iv_sp _ _ _ _ _ _ HI) u Hu). by apply drop_translate.
  - exfalso. unfold page_up in *. rewrite u64max_val in *. pose proof (Z.div_mod (sz + 4095) 4096 ltac:(lia)). pose proof (Z.mod_pos_bound (sz + 4095) 4096 ltac:(lia)). lia.
Qed.
End free.
