(* ===== verification/VmaFault.v ===== *)
(** * Virtual address spaces: the page fault

    [vma_map_fairvadrs]: the first access to a page of an interval gives the
    interval a box, takes a page for it and maps it.  The machine halts where the
    code does, so that the statements are about both ends of a run. *)

From S2P Require Import Prelude PhyMem DivMer DivMerInv DivMerOps DivMerAlloc Boot BootSpec BootPages PageIf Mmu MmuInv MmuOps MmuSpec MmuLife MmuCorrect ObjIf Kmsob KmsobInv KmsobOps Vma VmaInv VmaSpace VmaIv VmaAlloc VmaBox VmaFree.

Definition no_box_msg : string := "mem: knl_get_kvmemcbox() null".

Section fault.
Context {S : Type} {HPO : PageOps S} {HOO : ObjOps S} {HOA : ObjAlloc S}.
Implicit Types (s : vst S) (J : objects) (O : blocks) (U : upages).

(** ** A box for the interval *)

Section fresh_box.
Context (cnt cnt' : Z -> Z) (b : Z) (Hc : forall c, c <> 0 -> cnt' c = cnt c + at_box b c).

Lemma fresh_box_ne c : c <> b -> c <> 0 -> cnt' c = cnt c.
Proof using Hc. intros Hcb Hc0. rewrite Hc by done. unfold at_box. rewrite decide_False by done. lia. Qed.

Lemma fresh_box_live l : (forall c, c <> 0 -> 0 < cnt c -> c ∈ l) -> forall c, c <> 0 -> 0 < cnt' c -> c ∈ b :: l.
Proof using Hc. intros Hl c Hc0 Hcc. rewrite elem_of_cons. destruct (decide (c = b)) as [->|Hcb]; [by left|]. right. apply Hl; [done|]. by rewrite <- fresh_box_ne. Qed.

Lemma fresh_box_ok U bx mg : VBx cnt U bx mg -> b <> 0 -> cnt b = 0 -> (forall n d p c, U !! n = Some (d, p, c) -> 0 < cnt c) ->
  forall c x, <[b := set_cont 1 kvmemcbox_t_init]> bx !! c = Some x -> 0 < cnt' c -> kmb_cont x = cnt' c /\ box_ok U c x.
Proof using Hc.
  intros [B1 B2 B3 B4 B5 B6 B7] Hbn Hb0 Hpg c x [[<- <-]|[Hcb Hx]]%lookup_insert_Some.
  - intros _. cbn. rewrite Hc by done. unfold at_box. rewrite decide_True by done. split; [lia|]. split_and!; [constructor|done|]. intros d. split; [by intros ?%elem_of_nil|].
    intros (n & p & Hn). specialize (Hpg _ _ _ _ Hn). lia.
  - rewrite fresh_box_ne by (done || apply B3; eauto). by apply B7.
Qed.
End fresh_box.

(** A fresh box, from the cache or from the object allocator. *)
Lemma vbx_use_cached cnt cnt' U bx mg b l : VBx cnt U bx mg -> kbm_cachehead mg = b :: l -> (forall n d p c, U !! n = Some (d, p, c) -> 0 < cnt c) ->
  (forall c, c <> 0 -> cnt' c = cnt c + at_box b c) -> cnt b = 0 -> 
  VBx cnt' U (<[b := set_cont 1 kvmemcbox_t_init]> bx) (Kvmemcboxmgr (kbm_kmbnr mg +u 1) (b :: kbm_kmbhead mg) (kbm_cachenr mg -u 1) (kbm_cachemax mg) (kbm_cachemin mg) l).
Proof.
  intros HB El Hpg Hc Hb0. pose proof HB as [B1 B2 B3 B4 (B5 & B5' & B5'') B6 B7]. rewrite El in *. assert (Hb : is_Some (bx !! b)) by (apply B2; right; by left). pose proof (B3 b Hb) as Hbn.
  pose proof Hb as [y Hy]. split; cbn; try done.
  - by rewrite <- Permutation_middle in B1.
  - intros c. rewrite (same_boxes_insert bx b y _ Hy c), B2. rewrite !elem_of_cons. tauto.
  - intros c Hcx. apply B3. by rewrite (same_boxes_insert bx b y _ Hy c) in Hcx.
  - rewrite B4. unfold u64. rewrite Zplus_mod_idemp_l. f_equal. lia.
  - cbn in B5. rewrite u64_small by (rewrite u64max_val; unfold KMBOX_CACHE_MAX in *; lia). split_and!; [lia|lia|done].
  - by apply (fresh_box_live cnt cnt' b).
  - by apply (fresh_box_ok cnt cnt' b Hc U bx mg).
Qed.

Lemma vbx_use_new cnt cnt' U bx mg b : VBx cnt U bx mg -> bx !! b = None -> b <> 0 -> (forall n d p c, U !! n = Some (d, p, c) -> 0 < cnt c) ->
  (forall c, c <> 0 -> cnt' c = cnt c + at_box b c) -> cnt b = 0 ->
  VBx cnt' U (<[b := set_cont 1 kvmemcbox_t_init]> bx) (Kvmemcboxmgr (kbm_kmbnr mg +u 1) (b :: kbm_kmbhead mg) (kbm_cachenr mg) (kbm_cachemax mg) (kbm_cachemin mg) (kbm_cachehead mg)).
Proof.
  intros HB Hb Hbn Hpg Hc Hb0. pose proof HB as [B1 B2 B3 B4 (B5 & B5' & B5'') B6 B7].
  split; cbn; try done.
  - apply NoDup_cons. split; [|done]. rewrite elem_of_app, <- B2, Hb. by intros [? ?].
  - intros c. rewrite lookup_insert_is_Some', B2, elem_of_cons. split; [intros [->|[?|?]]; tauto|]. intros [[->|?]|?]; tauto.
  - intros c [<-|[_ Hcb]]%lookup_insert_is_Some; [done|by apply B3].
  - rewrite B4. unfold u64. rewrite Zplus_mod_idemp_l. f_equal. lia.
  - by apply (fresh_box_live cnt cnt' b).
  - by apply (fresh_box_ok cnt cnt' b Hc U bx mg).
Qed.

(** What [knl_get_kvmemcbox] gives: the box, and the objects with it. *)
Definition got_box s P O J U F R (cnt : Z -> Z) (r : Z) s' : Prop :=
  r <> 0 /\ cnt r = 0 /\ exists m' bx' mg', s' = set_bx m' bx' mg' s /\ mframe P O R (v_mst s) m' /\
    (forall cnt', (forall c, c <> 0 -> cnt' c = cnt c + at_box r c) -> VBx cnt' U bx' mg') /\
    ((same_boxes (v_boxes s) bx' /\ VSp m' P O J U F R) \/
     (exists x, J !! r = None /\ bx' = <[r := x]> (v_boxes s) /\ VSp m' P O (<[r := sizeof_kvmemcbox_t]> J) U F R)).

Lemma knl_get_spec s P O J U F R cnt : VSp (v_mst s) P O J U F R -> VBx cnt U (v_boxes s) (v_mgr s) -> (forall n d p c, U !! n = Some (d, p, c) -> 0 < cnt c) ->
  (forall c, 0 <= cnt c) -> (forall b, is_Some (v_boxes s !! b) -> is_Some (J !! b)) ->
  wph knl_get_kvmemcbox s (got_box s P O J U F R cnt) (fun e => e = no_box_msg /\ kbm_cachehead (v_mgr s) = []).
Proof.
  intros HS HB Hpg Hc0 HJ. pose proof HB as [B1 B2 B3 B4 (B5 & B5' & B5'') B6 B7]. unfold knl_get_kvmemcbox. apply wph_bind. rewrite (wph_det _ _ (v_mgr s) s) by done.
  destruct (kbm_cachehead (v_mgr s)) as [|b l] eqn:El.
  - replace (if 0 <? kbm_cachenr (v_mgr s) then hd_error [] else None) with (@None Z) by (by destruct (0 <? _)). apply wph_bind. unfold new_kvmemcbox. apply wph_bind, wph_wp, wp_on_mst.
    eapply wp_mono; [apply (sp_new HS sizeof_kvmemcbox_t); unfold sizeof_kvmemcbox_t; lia|]. intros r m' (Hf & [[-> ->]|(Hr & HJr & HS')]).
    + cbn. split; done.
    + replace (r =? 0) with false by lia. apply wph_wp, wp_bind, wp_modify, wp_ret. apply wph_wp, wp_bind, wp_die_if; [lia|]. apply wp_bind. unfold box_use, box_ref.
      apply wp_bind, wp_modify. cbn [with_mst v_mst v_vma v_kmvds v_boxes v_mgr v_file v_copies].
      rewrite (wp_det _ _ _ _ _ (upd_box_eq _ r kvmemcbox_t_init _ (lookup_insert_eq _ _ _))). apply wp_ret. cbn [v_mst v_vma v_kmvds v_boxes v_mgr v_file v_copies].
      rewrite insert_insert_eq. assert (Hbn : v_boxes s !! r = None) by (destruct (v_boxes s !! r) eqn:E; [|done]; destruct (HJ r) as [? ?]; [eauto|congruence]).
      assert (Hcr : cnt r = 0).
      { destruct (decide (0 < cnt r)) as [Hp|]; [|specialize (Hc0 r); lia]. apply B6 in Hp; [|lia]. destruct (proj2 (B2 r)) as [? ?]; [by left|congruence]. }
      split; [lia|]. split; [done|]. exists m'. do 2 eexists. split_and!; [reflexivity|done| |right; eexists; split_and!; [done|reflexivity|done]].
      intros cnt' Hc'. apply (vbx_use_new cnt); (done || lia).
  - cbn in B5. replace (0 <? kbm_cachenr (v_mgr s)) with true by lia. cbn [hd_error]. apply wph_wp. unfold box_unlink. apply wp_bind, wp_modify.
    assert (Hb : is_Some (v_boxes s !! b)) by (apply B2; right; by left). pose proof Hb as [y Hy]. apply NoDup_app in B1 as (N1 & N2 & N3).
    assert (Hbh : b ∉ kbm_kmbhead (v_mgr s)) by (intros Hin; apply (N2 b Hin); by left).
    apply wp_bind, wp_modify. cbn [v_mst v_vma v_kmvds v_boxes v_mgr v_file v_copies kbm_kmbnr kbm_kmbhead kbm_cachenr kbm_cachemax kbm_cachemin kbm_cachehead].
    rewrite El, (filter_ne_head b l N3), (filter_ne_notin b) by done. apply wp_bind. rewrite (wp_det _ _ _ _ _ (upd_box_eq (Vst _ _ _ (v_boxes s) _ _ _) b y _ Hy)).
    cbn [v_mst v_vma v_kmvds v_boxes v_mgr v_file v_copies]. apply wp_bind. unfold box_use, box_ref. apply wp_bind, wp_modify.
    cbn [v_mst v_vma v_kmvds v_boxes v_mgr v_file v_copies kbm_kmbnr kbm_kmbhead kbm_cachenr kbm_cachemax kbm_cachemin kbm_cachehead].
    rewrite (wp_det _ _ _ _ _ (upd_box_eq _ b kvmemcbox_t_init _ (lookup_insert_eq _ _ _))). apply wp_ret. cbn [v_mst v_vma v_kmvds v_boxes v_mgr v_file v_copies]. rewrite insert_insert_eq.
    assert (Hcb : cnt b = 0) by (destruct (decide (0 < cnt b)) as [Hp|]; [|specialize (Hc0 b); lia]; apply B6 in Hp; [done|by apply B3]).
    split; [by apply B3|]. split; [done|]. exists (v_mst s). do 2 eexists. split_and!; [reflexivity|done| |left; split; [by apply (same_boxes_insert _ _ y)|done]].
    intros cnt' Hc'. by apply (vbx_use_cached cnt).
Qed.

Lemma set_kvmbox_id k : set_kvmbox (kva_kvmbox k) k = k.
Proof. by destruct k. Qed.

Lemma vobjs_add_box g bx J b x : g !! b = None -> vobjs g (<[b := x]> bx) J = <[b := sizeof_kvmemcbox_t]> (vobjs g bx J).
Proof. intros Hg. unfold vobjs. rewrite fmap_insert, <- insert_union_l, <- insert_union_r; [done|]. by rewrite lookup_fmap, Hg. Qed.

Lemma vobjs_of_box g bx J b : is_Some (bx !! b) -> is_Some (vobjs g bx J !! b).
Proof. intros [x Hx]. unfold vobjs. rewrite !lookup_union_is_Some, !lookup_fmap, Hx. right. left. eauto. Qed.

(** The interval has a box now. *)
Lemma vinv_box s P O J U R p k r m' bx' mg' : VInv s P O J U R -> v_kmvds s !! p = Some k -> kva_kvmbox k = 0 -> r <> 0 -> refs (v_kmvds s) r = 0 ->
  (forall cnt', (forall c, c <> 0 -> cnt' c = refs (v_kmvds s) c + at_box r c) -> VBx cnt' U bx' mg') ->
  (let J0 := vobjs (v_kmvds s) (v_boxes s) J in
   (same_boxes (v_boxes s) bx' /\ VSp m' P O J0 U (frames_of U) R) \/
   (exists x, J0 !! r = None /\ bx' = <[r := x]> (v_boxes s) /\ VSp m' P O (<[r := sizeof_kvmemcbox_t]> J0) U (frames_of U) R)) ->
  VInv (Vst m' (v_vma s) (<[p := set_kvmbox r k]> (v_kmvds s)) bx' mg' (v_file s) (v_copies s)) P O J U R.
Proof.
  intros HI Hp Hk0 Hr Hr0 HB HS. pose proof HI as [I1 I2 I3 I4 I5 I6]. assert (Hpl : p ∈ vs_list (v_vma s)) by (apply (vi_dom _ _ I1); eauto).
  destruct (iv_split I1 p Hpl) as (l1 & l2 & El). split; cbn [v_kmvds v_vma v_boxes v_mgr v_mst].
  - apply (viv_put I1 _ l1 p l2 k); try done; [|by apply (iv_left I1 El Hp)|by apply (iv_right I1 El Hp)|apply I1]. destruct (vi_range _ _ I1 _ _ Hp) as [_ [? ? ? ? ?]]. by split.
  - apply HB. intros c Hc. rewrite (refs_put _ _ k) by done. cbn. rewrite Hk0, decide_False by done. unfold at_box. destruct (decide (r = c)), (decide (c = r)); first [congruence|lia].
  - intros n d q b Hn. destruct (I3 _ _ _ _ Hn) as (Hb0 & t & kt & Ht & Hi & Hb). split; [done|]. exists t, kt. rewrite lookup_insert_ne by congruence. done.
  - rewrite (vobjs_put _ _ _ _ k) by done. destruct HS as [[Hsb HS]|(x & Hno & -> & HS)]; [by rewrite (vobjs_boxes _ _ _ _ Hsb)|].
    destruct (vobjs_none _ _ _ _ Hno) as (Hg & _). by rewrite vobjs_add_box.
  - intros t [kt Ht]. assert (Hts : is_Some (v_kmvds s !! t)) by (apply lookup_insert_Some in Ht as [[<- _]|[_ Ht]]; eauto). destruct (I5 t Hts) as [Hb HJ]. split; [|done].
    destruct HS as [[Hsb _]|(x & Hno & -> & _)].
    + destruct (bx' !! t) eqn:E; [|done]. destruct (proj1 (Hsb t)) as [y Hy]; [eauto|congruence].
    + rewrite lookup_insert_ne; [done|]. intros <-. destruct (vobjs_none _ _ _ _ Hno) as (Hg & _). rewrite Hg in Hts. by destruct Hts.
  - intros b Hb. destruct HS as [[Hsb _]|(x & Hno & -> & _)]; [by apply I6, Hsb|]. apply lookup_insert_is_Some in Hb as [<-|[_ Hb]]; [|by apply I6].
    by destruct (vobjs_none _ _ _ _ Hno) as (_ & _ & HJ).
Qed.

Lemma retn_box_spec s P O J U R p k : VInv s P O J U R -> v_kmvds s !! p = Some k ->
  wph (vma_map_retn_kvmemcbox p) s (fun r s' => r <> 0 /\ v_kmvds s' = <[p := set_kvmbox r k]> (v_kmvds s) /\ VInv s' P O J U R /\ mframe P O R (v_mst s) (v_mst s') /\
      v_vma s' = v_vma s /\ v_file s' = v_file s /\ v_copies s' = v_copies s)
    (fun e => e = no_box_msg /\ kva_kvmbox k = 0 /\ kbm_cachehead (v_mgr s) = []).
Proof.
  intros HI Hp. pose proof HI as [I1 I2 I3 I4 I5 I6]. destruct (vi_range _ _ I1 _ _ Hp) as [Hp0 _]. unfold vma_map_retn_kvmemcbox. replace (p =? 0) with false by lia.
  apply wph_bind. rewrite (wph_det _ _ _ _ _ _ (get_kmv_eq _ _ _ Hp)). destruct (kva_kvmbox k =? 0) eqn:E0; cbn [negb].
  - apply wph_bind. eapply wph_mono; [apply (knl_get_spec s P O _ U (frames_of U) R (refs (v_kmvds s)) I4 I2)| |by intros e [-> ->]; split_and!; [done|lia|done]].
    + intros n d q c Hn. destruct (I3 _ _ _ _ Hn) as (_ & t & kt & Ht & _ & <-). by apply (refs_pos _ t).
    + apply refs_nonneg.
    + apply vobjs_of_box.
    + intros r s' (Hr & Hr0 & m' & bx' & mg' & -> & Hf & HB & HS). replace (r =? 0) with false by lia. apply wph_wp, wp_bind.
      rewrite (wp_det _ _ _ _ _ (upd_kmv_eq (set_bx m' bx' mg' s) p k _ Hp)). apply wp_ret. cbn [set_bx v_mst v_vma v_kmvds v_boxes v_mgr v_file v_copies].
      split_and!; try done. apply (vinv_box s); (done || lia).
  - apply wph_wp, wp_ret. split_and!; try done; [lia|]. by rewrite set_kvmbox_id, insert_id.
Qed.

(** ** A page for the address *)

(** The space with its pages changed in boxes that stay. *)
Lemma vinv_pages s P O J U U' R m' bx' : VInv s P O J U R -> same_boxes (v_boxes s) bx' -> VBx (refs (v_kmvds s)) U' bx' (v_mgr s) -> mapped (v_kmvds s) U' ->
  VSp m' P O (vobjs (v_kmvds s) (v_boxes s) J) U' (frames_of U') R -> VInv (set_bx m' bx' (v_mgr s) s) P O J U' R.
Proof.
  intros [I1 I2 I3 I4 I5 I6] Hsb HB Hm HS. split; cbn [set_bx v_kmvds v_vma v_boxes v_mgr v_mst]; try done.
  - by rewrite (vobjs_boxes _ _ _ _ Hsb).
  - intros q Hq. destruct (I5 q Hq) as [Hb HJ]. split; [|done]. destruct (bx' !! q) eqn:E; [|done]. destruct (proj1 (Hsb q)) as [y Hy]; [eauto|congruence].
  - intros q Hq. by apply I6, Hsb.
Qed.

Lemma inside_page k v : range_ok k -> inside k v -> inside k (4096 * (v / 4096)).
Proof.
  intros [R1 R2 R3 R4 R5] [H1 H2]. pose proof (Z.div_mod v 4096 ltac:(lia)). pose proof (Z.mod_pos_bound v 4096 ltac:(lia)). split; [|lia].
  pose proof (Z.div_mod (kva_start k) 4096 ltac:(lia)). pose proof (Z.div_le_mono (kva_start k) v 4096 ltac:(lia) H1). lia.
Qed.

Lemma fault_flags_ok : flags_ok FAULT_FLAGS.
Proof. unfold flags_ok. by vm_compute. Qed.

Lemma map_phyadrs_spec s P O J U R p k v : VInv s P O J U R -> v_kmvds s !! p = Some k -> kva_kvmbox k <> 0 -> inside k v -> U !! (v / 4096) = None ->
  wp (vma_map_phyadrs p v FAULT_FLAGS) s (fun r s' => exists m' bx', s' = set_bx m' bx' (v_mgr s) s /\ mframe P O R (v_mst s) m' /\
    ((r = 0 /\ VInv s' P O J U R) \/ (r <> 0 /\ exists d, VInv s' P O J (<[v / 4096 := (d, r, kva_kvmbox k)]> U) R))).
Proof.
  intros HI Hp Hb0 Hv HU. pose proof HI as [I1 I2 I3 I4 I5 I6]. set (b := kva_kvmbox k) in *. destruct (vi_range _ _ I1 _ _ Hp) as [Hp0 Hro]. pose proof Hro as [R1 R2 R3 R4 R5].
  assert (Hvu : uaddr v) by (unfold uaddr, inside, USER_VIRTUAL_ADDRESS_END in *; lia). assert (Hv0 : v <> 0) by (unfold inside in Hv; lia).
  unfold vma_map_phyadrs. apply wp_bind. rewrite (wp_det _ _ _ _ _ (get_kmv_eq _ _ _ Hp)). fold b. replace (b =? 0) with false by lia.
  unfold vma_map_msa_fault. replace ((b =? 0) || (v =? 0)) with false by lia. apply wp_bind. unfold vma_new_usermsa. replace (b =? 0) with false by lia.
  apply wp_bind, wp_on_mst. eapply wp_mono; [apply (sp_take I4)|]. intros r m1 (Hf1 & [[-> ->]|(d & q & -> & Hq & HS1)]).
  { do 2 apply wp_ret. exists (v_mst s), (v_boxes s). rewrite with_mst_id, set_bx_id. split_and!; [done|done|by left]. }
  specialize (HS1 (v / 4096) b HU). set (U' := <[v / 4096 := (d, q, b)]> U) in *. assert (HUn : U' !! (v / 4096) = Some (d, q, b)) by apply lookup_insert_eq.
  pose proof (refs_pos _ _ _ Hp) as Hpos. fold b in Hpos. destruct (bx_live I2 b Hb0 Hpos) as (x & Hx & _).
  apply wp_bind. rewrite (wp_det _ _ _ _ _ (upd_box_eq (with_mst m1 s) b x _ Hx)). apply wp_ret. cbn [with_mst v_mst v_vma v_kmvds v_boxes v_mgr v_file v_copies].
  set (bx1 := <[b := _]> (v_boxes s)). assert (Hsb1 : same_boxes (v_boxes s) bx1) by (by apply (same_boxes_insert _ _ x)).
  assert (HB1 : VBx (refs (v_kmvds s)) U' bx1 (v_mgr s)).
  { apply (vbx_page_new I2); try done. intros n' p' b' Hn'. assert (v / 4096 = n') as Hn; [|congruence].
    apply (sp_desc_inj _ _ _ _ _ _ _ n' (v / 4096) d p' q b' b HS1); [|done]. unfold U'. rewrite lookup_insert_ne; [done|congruence]. }
  change (Vst m1 (v_vma s) (v_kmvds s) bx1 (v_mgr s) (v_file s) (v_copies s)) with (set_bx m1 bx1 (v_mgr s) s). set (s1 := set_bx m1 bx1 (v_mgr s) s).
  apply wp_bind. rewrite (wp_det _ _ _ _ _ (on_mst_eq (on_pa (pg_addr d)) s1 q (sp_pg_addr HS1 _ _ _ _ HUn))).
  apply wp_bind, wp_on_mst. eapply wp_mono; [apply (sp_map HS1 v q FAULT_FLAGS Hvu Hq fault_flags_ok)|]. intros ok m2 (Hf2 & Hok).
  assert (Hf12 : mframe P O R (v_mst s) m2) by (by etrans). destruct Hq as [_ Hq]. destruct Hok as [[-> HS2]|[-> HS2]]; cbn [Bool.eqb].
  - apply wp_ret. exists m2, bx1. split_and!; [done|done|right]. split; [lia|]. exists d. apply (vinv_pages s P O J U U' R m2 bx1 HI Hsb1 HB1).
    + intros n d' q' b' [[<- [= <- <- <-]]|[_ Hn]]%lookup_insert_Some; [|by apply (I3 n d' q')]. split; [done|]. exists p, k. split_and!; [done|by apply inside_page|done].
    + unfold U' in *. by rewrite frames_insert.
  - apply wp_bind. eapply wp_mono; [apply (vma_del_usermsa_spec (with_mst m2 s1) (refs (v_kmvds s)) P O _ U' _ R _ d q b (Some d) HS2 HB1 HUn Hb0 Hpos); by right|].
    intros r s3 (-> & m3 & bx3 & -> & Hf3 & Hsb3 & HS3 & HB3). apply wp_ret. exists m3, bx3. unfold U' in HS3, HB3. rewrite delete_insert_id in HS3, HB3 by done.
    split_and!; [done|by etrans|left]. split; [done|]. apply (vinv_pages s P O J U U R m3 bx3 HI); try done. intros c. etrans; [apply Hsb3|apply Hsb1].
Qed.

(** ** The fault *)

Lemma map_find_eq s v : VIv (v_kmvds s) (v_vma s) -> exists r, vma_map_find_kmvarsdsc v s = Ret (r, s) /\
  ((r = 0 /\ ~ covered (v_kmvds s) v) \/ exists k, v_kmvds s !! r = Some k /\ inside k v).
Proof.
  intros HV. destruct (curr_search_eq s (fun k => (kva_start k <=? v) && (v <? kva_end k)) HV) as (r & Hr & Hc). exists r.
  unfold vma_map_find_kmvarsdsc. rewrite (bind_eq _ _ s (v_vma s) s) by done. split; [exact Hr|]. destruct Hc as [[-> Hn]|(k & Hk & Ht)]; [left|right].
  - split; [done|]. intros (p & k & Hk & Hi). specialize (Hn p k Hk). cbn beta in Hn. unfold inside in Hi. lia.
  - exists k. split; [done|]. cbn beta in Ht. unfold inside. lia.
Qed.

(** The copy from the file: the page of the file at the same distance from its
    start as the page of the address has from the start of the interval. *)
Definition bin_copy s (k : kmvarsdsc_t) (v : Z) : list (Z * Z) :=
  match v_file s with
  | Some (f, _) => if kva_maptype k =? KMV_BIN_TYPE then [(u64 (f + (4096 * (v / 4096) - kva_start k)), 4096 * (v / 4096))] else []
  | None => []
  end.

Definition no_file s (k : kmvarsdsc_t) : Prop := kva_maptype k = KMV_BIN_TYPE /\ forall f sz, v_file s = Some (f, sz) -> f = 0 \/ sz = 0.

Lemma textbin_spec s p k v : v_kmvds s !! p = Some k -> range_ok k -> inside k v ->
  wph (vma_full_textbin p v) s (fun _ s' => s' = Vst (v_mst s) (v_vma s) (v_kmvds s) (v_boxes s) (v_mgr s) (v_file s) (bin_copy s k v ++ v_copies s)) (fun _ => no_file s k).
Proof.
  intros Hp Hro Hv. pose proof Hro as [R1 R2 R3 R4 R5]. unfold vma_full_textbin, bin_copy, no_file. apply wph_bind. rewrite (wph_det _ _ _ _ _ _ (get_kmv_eq _ _ _ Hp)).
  destruct (kva_maptype k =? KMV_BIN_TYPE) eqn:Et; cbn [negb].
  2: { apply wph_wp, wp_ret. destruct s as [m vm g bx mg [[f sz]|] cp]; done. }
  apply wph_bind. rewrite (wph_det _ _ (v_file s) s) by done. destruct (v_file s) as [[f sz]|] eqn:Ef; [|apply wph_halt; split; [lia|done]].
  apply wph_bind, wph_die_if; [intros Hz; split; [lia|]; intros f' sz' [= <- <-]; lia|]. intros _. apply wph_wp, wp_modify. cbn [app]. rewrite Ef.
  assert (Hvb : 0 <= v < 2 ^ 47) by (unfold inside, USER_VIRTUAL_ADDRESS_END in *; lia).
  assert (E1 : Z.land v (u64 (Z.lnot 4095)) = 4096 * (v / 4096)).
  { change (u64 (Z.lnot 4095)) with (Z.shiftl (Z.ones (64 - 12)) 12). rewrite land_high by (rewrite ?u64max_val; lia). change (2 ^ 12) with 4096. lia. }
  assert (E2 : Z.shiftr (u64 (v - kva_start k)) 12 <<u 12 = 4096 * (v / 4096) - kva_start k).
  { rewrite (user_small (v - kva_start k)) by (unfold inside, USER_VIRTUAL_ADDRESS_END in *; lia). rewrite Z.shiftr_div_pow2 by lia. change (2 ^ 12) with 4096.
    pose proof (Z.div_mod (kva_start k) 4096 ltac:(lia)) as Hd. rewrite R2 in Hd. replace (v - kva_start k) with (v + (- (kva_start k / 4096)) * 4096) by lia.
    rewrite Z.div_add by lia. rewrite Z.shiftl_mul_pow2 by lia. change (2 ^ 12) with 4096. pose proof (inside_page k v Hro Hv) as [Hi1 Hi2].
    rewrite u64_small; [lia|]. rewrite u64max_val. pose proof (Z.div_mod v 4096 ltac:(lia)). pose proof (Z.mod_pos_bound v 4096 ltac:(lia)). lia. }
  by rewrite E1, E2.
Qed.

(** What a fault leaves as it was. *)
Definition fault_frame s s' (P : Z -> Prop) O R : Prop :=
  mframe P O R (v_mst s) (v_mst s') /\ v_vma s' = v_vma s /\ v_file s' = v_file s /\ forall x, covered (v_kmvds s') x <-> covered (v_kmvds s) x.

(** The whole call. *)
Lemma vma_map_fairvadrs_spec s P O J U R v : VInv s P O J U R -> 0 <= v < u64max -> U !! (v / 4096) = None ->
  wph (vma_map_fairvadrs v) s (fun r s' =>
      (r = - EPARAM /\ s' = s /\ ~ (0x1000 <= v <= USER_VIRTUAL_ADDRESS_END)) \/
      (r = - EFAULT /\ s' = s /\ ~ covered (v_kmvds s) v) \/
      (r = - ENOMEM /\ covered (v_kmvds s) v /\ fault_frame s s' P O R /\ VInv s' P O J U R) \/
      (r = EOK /\ fault_frame s s' P O R /\ exists q k d p b, v_kmvds s !! q = Some k /\ inside k v /\ VInv s' P O J (<[v / 4096 := (d, p, b)]> U) R /\
        (forall u, uaddr u -> hw_walk (m_words (v_mst s')) R u = if decide (u / 4096 = v / 4096) then Some (p + u mod 4096) else hw_walk (m_words (v_mst s)) R u) /\
        (forall n x, U !! n = Some x -> x.1.2 <> p) /\ v_copies s' = bin_copy s k v ++ v_copies s))
    (fun e => exists q k, v_kmvds s !! q = Some k /\ inside k v /\ ((e = no_box_msg /\ kva_kvmbox k = 0 /\ kbm_cachehead (v_mgr s) = []) \/ no_file s k)).
Proof.
  intros HI Hv HU. unfold vma_map_fairvadrs. destruct ((0x1000 >? v) || (USER_VIRTUAL_ADDRESS_END <? v)) eqn:E1; [apply wph_wp, wp_ret; left; split_and!; [done|done|lia]|].
  unfold vma_map_fairvadrs_core. apply wph_bind. destruct (map_find_eq s v (iv_iv _ _ _ _ _ _ HI)) as (q & Hf & Hq). rewrite (wph_det _ _ _ _ _ _ Hf).
  destruct Hq as [[-> Hn]|(k & Hk & Hin)]; [apply wph_wp, wp_ret; right; by left|]. destruct (vi_range _ _ (iv_iv _ _ _ _ _ _ HI) _ _ Hk) as [Hq0 Hro].
  replace (q =? 0) with false by lia. apply wph_bind. eapply wph_mono; [apply (retn_box_spec s P O J U R q k HI Hk)| |intros e He; exists q, k; split_and!; [done|done|by left]].
  intros b s1 (Hb0 & Hg1 & HI1 & Hf1 & Hv1 & Hfl1 & Hcp1). replace (b =? 0) with false by lia.
  assert (Hk1 : v_kmvds s1 !! q = Some (set_kvmbox b k)) by (rewrite Hg1; apply lookup_insert_eq).
  assert (Hcov : forall x, covered (v_kmvds s1) x <-> covered (v_kmvds s) x) by (intros x; rewrite Hg1, covered_put, (covered_at _ q k) by done; done).
  assert (Hc : covered (v_kmvds s) v) by (by exists q, k). apply wph_bind, wph_wp. eapply wp_mono; [apply (map_phyadrs_spec s1 P O J U R q _ v HI1 Hk1 Hb0 Hin HU)|].
  intros p s2 (m2 & bx2 & -> & Hf2 & Hp). assert (Hff : mframe P O R (v_mst s) m2) by (by etrans).
  destruct Hp as [[-> HI2]|(Hp0 & d & HI2)]; [apply wph_wp, wp_ret; right; right; left; by split_and!|]. replace (p =? 0) with false by lia. apply wph_bind.
  assert (Hro1 : range_ok (set_kvmbox b k)) by (destruct Hro; by split).
  eapply wph_mono; [apply (textbin_spec (set_bx m2 bx2 (v_mgr s1) s1) q (set_kvmbox b k) v Hk1 Hro1 Hin)| |intros e [He1 He2]; exists q, k; split_and!; [done|done|right; split; [done|by rewrite <- Hfl1]]].
  intros _ s3 ->. apply wph_wp, wp_ret. right. right. right. cbn [set_bx v_mst v_vma v_kmvds v_boxes v_mgr v_file v_copies] in *.
  split_and!; [done|by split_and!|]. exists q, k, d, p, b. split_and!; [done|done|destruct HI2; by split| | |].
  - intros u Hu. pose proof (sp_walk (iv_sp _ _ _ _ _ _ HI2) u Hu) as Hw. cbn [set_bx v_mst] in Hw. rewrite Hw, (sp_walk (iv_sp _ _ _ _ _ _ HI) u Hu). unfold translate. rewrite frames_insert.
    case_decide as Hd; [rewrite Hd, lookup_insert_eq|rewrite lookup_insert_ne by congruence]; done.
  - intros n [[d' p'] b'] Hn Hp. cbn in Hp. subst p'. assert (n = v / 4096) as ->; [|congruence].
    apply (sp_frame_inj (iv_sp _ _ _ _ _ _ HI2) _ _ d' d p b' b); [|apply lookup_insert_eq]. rewrite lookup_insert_ne; [done|congruence].
  - unfold bin_copy. cbn [set_bx v_file]. by rewrite Hfl1, Hcp1.
Qed.

(** An access outside of the intervals halts the machine. *)
Lemma stray_access_halts s P O J U R v : VInv s P O J U R -> 0x1000 <= v <= USER_VIRTUAL_ADDRESS_END -> ~ covered (v_kmvds s) v -> hal_page_fault v s = Halt "page fault".
Proof.
  intros HI Hv Hn. destruct (map_find_eq s v (iv_iv _ _ _ _ _ _ HI)) as (q & Hf & Hq). destruct Hq as [[-> _]|(k & Hk & Hin)]; [|destruct Hn; by exists q, k].
  unfold hal_page_fault, krluserspace_accessfailed. replace (USER_VIRTUAL_ADDRESS_END <? v) with false by lia. rewrite (bind_eq _ _ s (- EFAULT) s); [done|].
  rewrite (bind_eq _ _ s (- EFAULT) s); [done|]. unfold vma_map_fairvadrs. replace ((0x1000 >? v) || (USER_VIRTUAL_ADDRESS_END <? v)) with false by lia.
  unfold vma_map_fairvadrs_core. by rewrite (bind_eq _ _ _ _ _ Hf).
Qed.
End fault.
