(* ===== verification/VmaCorrect.v ===== *)
(** * Virtual address spaces: creation and runs

    A new space is well-formed, the services and page faults keep it so, and the
    kernel's own check of the intervals passes.  The instance is the kernel's own
    object and page allocator. *)

From S2P Require Import Prelude PhyMem DivMer DivMerInv DivMerOps DivMerAlloc Boot BootSpec BootPages PageIf Mmu MmuInv MmuOps MmuSpec MmuLife MmuCorrect ObjIf Kmsob KmsobInv KmsobOps KmsobPool KmsobDestroy KmsobSpec Vma VmaInv VmaSpace VmaIv VmaAlloc VmaBox VmaFree VmaFault.

Section create.
Context {S : Type} {HPO : PageOps S} {HOO : ObjOps S} {HOA : ObjAlloc S}.
Implicit Types (s : vst S) (J : objects) (O : blocks).

(** ** Creation *)

(** The pages [O] and the objects [J] are held. *)
Definition oheld (pa : S) (P : Z -> Prop) O J : Prop := @pg_held S _ (ob_pages J) pa P O.

(** The state with another allocator state and other intervals. *)
Definition set_paiv (pa : S) (g : intervals) s : vst S := Vst (set_pa pa (v_mst s)) (v_vma s) g (v_boxes s) (v_mgr s) (v_file s) (v_copies s).

Lemma set_paiv_id s : set_paiv (m_pa (v_mst s)) (v_kmvds s) s = s.
Proof. unfold set_paiv. rewrite set_pa_id. by destruct s. Qed.

Lemma new_kmv_held pa g s P O J : oheld pa P O J ->
  wp new_kmvarsdsc (set_paiv pa g s) (fun r s' => (r = 0 /\ s' = set_paiv pa g s) \/
    exists pa', 0 < r /\ J !! r = None /\ s' = set_paiv pa' (<[r := kmvarsdsc_t_init]> g) s /\ oheld pa' P O (<[r := sizeof_kmvarsdsc_t]> J)).
Proof.
  intros HA. unfold new_kmvarsdsc. apply wp_bind, wp_on_mst, on_pa_run. eapply wp_mono; [apply (ob_new_spec _ _ _ _ _ HA); unfold sizeof_kmvarsdsc_t; lia|].
  intros r pa' [(Hr & Hj & HA')|[-> ->]]; [|apply wp_ret; by left]. replace (r =? 0) with false by lia.
  apply wp_bind, wp_modify, wp_ret. right. exists pa'. split_and!; [lia|done|done|done].
Qed.

Lemma del_kmv_held pa g s P O J p : oheld pa P O J -> J !! p = Some sizeof_kmvarsdsc_t -> p <> 0 ->
  wp (del_kmvarsdsc p) (set_paiv pa g s) (fun _ s' => exists pa', s' = set_paiv pa' (delete p g) s /\ oheld pa' P O (delete p J)).
Proof.
  intros HA Hj Hp. unfold del_kmvarsdsc. replace (p =? 0) with false by lia. apply wp_bind, wp_on_mst, on_pa_run. eapply wp_mono; [apply (ob_delete_spec _ _ _ _ _ _ HA Hj)|].
  intros r pa' [-> HA']. apply wp_bind, wp_modify, wp_ret. by exists pa'.
Qed.

Lemma upd_kmv_paiv pa g s p k f : g !! p = Some k -> upd_kmv p f (set_paiv pa g s) = Ret (tt, set_paiv pa (<[p := f k]> g) s).
Proof. intros Hp. apply (upd_kmv_eq (set_paiv pa g s) p k f Hp). Qed.

Definition text_iv : kmvarsdsc_t := Kmvarsdsc 0 0 0 0x1000 0x5000 0.
Definition heap_iv : kmvarsdsc_t := Kmvarsdsc KMV_HEAP_TYPE 0 0 THREAD_HEAPADR_START (THREAD_HEAPADR_START + 0x1000) 0.
Definition stack_iv : kmvarsdsc_t := Kmvarsdsc KMV_STACK_TYPE 0 0 0x7fffc0000000 USER_VIRTUAL_ADDRESS_END 0.

Definition first_ivs (a b c : Z) : intervals := <[c := stack_iv]> (<[b := heap_iv]> (<[a := text_iv]> ∅)).
Definition first_vma (a b c : Z) : virmemadrs_t := Virmemadrs [a; b; c] 3 a c 0 b c USER_VIRTUAL_ADDRESS_START USER_VIRTUAL_ADDRESS_END.

Lemma first_ivs_eq a b c k1 k2 k3 : a <> b -> a <> c -> b <> c ->
  <[c := stack_iv]> (<[b := heap_iv]> (<[a := text_iv]> (<[c := k1]> (<[b := k2]> (<[a := k3]> ∅))))) = first_ivs a b c.
Proof.
  intros Hab Hac Hbc. apply map_eq. intros x. unfold first_ivs. destruct (decide (x = a)), (decide (x = b)), (decide (x = c)); subst; by simplify_map_eq.
Qed.

(** The three first intervals, or none. *)
Lemma init_ivs_spec pa s P O J : oheld pa P O J -> vs_list (v_vma s) = [] -> vs_kmvdscnr (v_vma s) = 0 -> vs_currkmvdsc (v_vma s) = 0 ->
  wp kvma_inituserspace_virmemadrs (set_paiv pa ∅ s) (fun r s' => exists pa', (r = false /\ s' = set_paiv pa' ∅ s /\ oheld pa' P O J) \/
    (r = true /\ exists a b c, 0 < a /\ 0 < b /\ 0 < c /\ a <> b /\ a <> c /\ b <> c /\ J !! a = None /\ J !! b = None /\ J !! c = None /\
       s' = set_iv (first_ivs a b c) (first_vma a b c) (set_paiv pa' ∅ s) /\
       oheld pa' P O (<[c := sizeof_kmvarsdsc_t]> (<[b := sizeof_kmvarsdsc_t]> (<[a := sizeof_kmvarsdsc_t]> J))))).
Proof.
  intros HA Hl Hn Hcu. unfold kvma_inituserspace_virmemadrs. apply wp_bind.
  eapply wp_mono; [by apply new_kmv_held|]. intros a s1 [[-> ->]|(pa1 & Ha & Hja & -> & HA1)].
  { apply wp_ret. exists pa. by left. }
  replace (a =? 0) with false by lia. apply wp_bind. eapply wp_mono; [by apply new_kmv_held|]. intros b s2 [[-> ->]|(pa2 & Hb & Hjb & -> & HA2)].
  { apply wp_bind. eapply wp_mono; [apply (del_kmv_held _ _ _ P O _ a HA1); [apply lookup_insert_eq|lia]|]. intros _ s2 (pa2 & -> & HA2). apply wp_ret. exists pa2. left.
    rewrite delete_insert_id in HA2 by done. by rewrite delete_insert_id. }
  replace (b =? 0) with false by lia. apply lookup_insert_None in Hjb as [Hjb Hab]. apply wp_bind. eapply wp_mono; [by apply new_kmv_held|].
  intros c s3 [[-> ->]|(pa3 & Hc & Hjc & -> & HA3)].
  { apply wp_bind. eapply wp_mono; [apply (del_kmv_held _ _ _ P O _ a HA2); [rewrite lookup_insert_ne by done; apply lookup_insert_eq|lia]|]. intros _ s3 (pa3 & -> & HA3).
    apply wp_bind. eapply wp_mono; [apply (del_kmv_held _ _ _ P O _ b HA3); [rewrite lookup_delete_ne by done; apply lookup_insert_eq|lia]|]. intros _ s4 (pa4 & -> & HA4). apply wp_ret.
    exists pa4. left. rewrite (delete_insert_ne _ a b), (delete_insert_id J a), (delete_insert_id J b) in HA4 by done.
    by rewrite (delete_insert_ne _ a b), (delete_insert_id ∅ a), (delete_insert_id ∅ b). }
  replace (c =? 0) with false by lia. apply lookup_insert_None in Hjc as [Hjc Hbc]. apply lookup_insert_None in Hjc as [Hjc Hac].
  do 3 (apply wp_bind; erewrite wp_det by (apply upd_kmv_paiv; by simplify_map_eq)).
  change (PAGE_ALIGN (USER_VIRTUAL_ADDRESS_END -u 0x40000000)) with 0x7fffc0000000. change (THREAD_HEAPADR_START +u 0x1000) with (THREAD_HEAPADR_START + 0x1000).
  change (USER_VIRTUAL_ADDRESS_START +u 0x1000 +u 0x4000) with 0x5000. change (USER_VIRTUAL_ADDRESS_START +u 0x1000) with 0x1000.
  cbn [kmvarsdsc_t_init kva_flgs kva_limits kva_kvmbox kva_maptype]. fold text_iv heap_iv stack_iv. rewrite first_ivs_eq by done.
  apply wp_bind, wp_modify, wp_ret. exists pa3. right. split; [done|]. exists a, b, c. split_and!; try done.
  unfold set_iv, set_paiv, first_vma. cbn. by rewrite Hl, Hn, Hcu.
Qed.

Lemma vobjs_other g bx J r sz : g !! r = None -> bx !! r = None -> vobjs g bx (<[r := sz]> J) = <[r := sz]> (vobjs g bx J).
Proof. intros Hg Hb. unfold vobjs. rewrite <- !insert_union_r; [done|by rewrite lookup_fmap, Hg|by rewrite lookup_fmap, Hb]. Qed.

(** Before a space is made: objects and pages are held, the boot tables are there
    and no box is in use. *)
Record ready s (P : Z -> Prop) O J : Prop := {
  rd_held : oheld (m_pa (v_mst s)) P O (vobjs ∅ (v_boxes s) J);
  rd_root : boot_root P (v_mst s);
  rd_ivs : v_kmvds s = ∅;
  rd_box : VBx (fun _ => 0) ∅ (v_boxes s) (v_mgr s);
  rd_obj p : is_Some (v_boxes s !! p) -> J !! p = None
}.

Lemma first_viv a b c : 0 < a -> 0 < b -> 0 < c -> a <> b -> a <> c -> b <> c -> VIv (first_ivs a b c) (first_vma a b c).
Proof.
  intros Ha Hb Hc Hab Hac Hbc. unfold first_ivs. split; cbn [vs_list vs_isalcend vs_currkmvdsc vs_endkmvdsc first_vma]; try done.
  - repeat (apply NoDup_cons; split; [set_solver|]). constructor.
  - intros p. rewrite !lookup_insert_is_Some', !elem_of_cons, elem_of_nil, lookup_empty. split; [intros [->|[->|[->|[]]]]; tauto|]. intros [->|[->|[->|[? [=]]]]]; tauto.
  - repeat (apply SSorted_cons); [constructor| | |]; repeat (apply Forall_cons; split); try apply Forall_nil; try done; intros k k' Hk Hk'; simplify_map_eq; done.
  - intros p k. rewrite !lookup_insert_Some. intros [[<- <-]|[_ [[<- <-]|[_ [[<- <-]|[_ Hp]]]]]]; [..|by rewrite lookup_empty in Hp]; (split; [lia|]); split; cbn; try done; by left + by right.
  - by left.
Qed.

Lemma first_refs a b c x : a <> b -> a <> c -> b <> c -> x <> 0 -> refs (first_ivs a b c) x = 0.
Proof. intros Hab Hac Hbc Hx. unfold first_ivs. rewrite !refs_add by (by simplify_map_eq). cbn. rewrite !decide_False by done. done. Qed.

Definition first_addrs (x : Z) : Prop :=
  0x1000 <= x < 0x5000 \/ THREAD_HEAPADR_START <= x < THREAD_HEAPADR_START + 0x1000 \/ 0x7fffc0000000 <= x < USER_VIRTUAL_ADDRESS_END.

Lemma first_covered a b c x : a <> b -> a <> c -> b <> c -> covered (first_ivs a b c) x <-> first_addrs x.
Proof.
  intros Hab Hac Hbc. unfold first_ivs, covered, first_addrs. setoid_rewrite lookup_insert_Some. setoid_rewrite lookup_insert_Some. setoid_rewrite lookup_insert_Some. split.
  - intros (p & k & [[<- <-]|[_ [[<- <-]|[_ [[<- <-]|[_ Hp]]]]]] & Hi); [right; by right|right; by left|by left|by rewrite lookup_empty in Hp].
  - intros [Hx|[Hx|Hx]]; [exists a, text_iv|exists b, heap_iv|exists c, stack_iv]; (split; [|done]); [right; split; [done|right; split; [done|by left]]|right; split; [done|by left]|by left].
Qed.

Lemma new_mmadrsdsc_spec s P O J : ready s P O J ->
  wp new_mmadrsdsc s (fun r s' => (r = 0 /\ s' = s) \/
    (0 < r /\ J !! r = None /\
      (vs_list (v_vma s') = [] \/ mud_tdirearr (m_mmu (v_mst s')) = 0 \/
       exists R, VInv s' P O (<[r := sizeof_mmadrsdsc_t]> J) ∅ R /\ (forall x, covered (v_kmvds s') x <-> first_addrs x) /\
         (forall u, uaddr u -> hw_walk (m_words (v_mst s')) R u = None) /\
         (forall y, 256 <= y < 512 -> m_words (v_mst s') !! (R + 8 * y) = m_words (v_mst s) !! (m_pml4 (v_mst s) + 8 * y))))).
Proof.
  intros [HA Hroot Hg HB Hbj]. unfold new_mmadrsdsc. apply wp_bind, wp_on_mst, on_pa_run. eapply wp_mono; [apply (ob_new_spec _ _ _ _ _ HA); unfold sizeof_mmadrsdsc_t; lia|].
  intros r pa [(Hr & Hj & HA')|[-> ->]]; [|apply wp_ret; left; rewrite set_pa_id; by rewrite with_mst_id]. replace (r =? 0) with false by lia.
  destruct (vobjs_none _ _ _ _ Hj) as (_ & Hrb & HrJ). rewrite <- vobjs_other in HA' by done. set (J' := <[r := sizeof_mmadrsdsc_t]> J) in *.
  apply wp_bind, wp_on_mst, wp_modify. do 2 apply wp_bind, wp_modify. cbn [with_mst set_pa v_mst v_vma v_kmvds v_boxes v_mgr v_file v_copies m_pa m_words m_mmu m_cr3 m_pml4].
  set (m0 := Mst pa _ _ _ _). set (s0 := Vst m0 _ _ _ _ _ _). assert (Es0 : s0 = set_paiv pa ∅ s0) by (unfold s0, set_paiv; cbn; by rewrite Hg).
  rewrite Es0. apply wp_bind. eapply wp_mono; [by apply (init_ivs_spec pa s0 P O _ HA')|]. intros ok s1 (pa1 & Hs1).
  assert (Hroot1 : forall pa, boot_root P (set_pa pa m0)) by (intros pa2; destruct Hroot; by split). assert (Hfd : fresh_dsc mmudsc_t_init) by (by intros []).
  assert (HJb : forall q, is_Some (v_boxes s !! q) -> J' !! q = None) by (intros q Hq; unfold J'; rewrite lookup_insert_ne; [by apply Hbj|]; intros <-; rewrite Hrb in Hq; by destruct Hq).
  destruct Hs1 as [(-> & -> & HA1)|(-> & a & b & c & Ha & Hb & Hc & Hab & Hac & Hbc & Ja & Jb & Jc & -> & HA1)].
  - apply wp_bind, wp_on_mst. eapply wp_mono; [apply (@hal_mmu_init_spec _ _ (ob_pages _) (set_pa pa1 m0) P O HA1 Hfd (Hroot1 pa1))|].
    intros ok m2 _. apply wp_ret. right. split_and!; [lia|done|]. by left.
  - apply wp_bind, wp_on_mst. eapply wp_mono; [apply (@hal_mmu_init_spec _ _ (ob_pages _) (set_pa pa1 m0) P O HA1 Hfd (Hroot1 pa1))|].
    intros ok m2 [[-> ->]|(-> & i & R & HI & HN)]; apply wp_ret; right; (split_and!; [lia|done|right]); [by left|right]. exists R.
    assert (Hsp : VSp m2 P O (vobjs (first_ivs a b c) (v_boxes s) J') ∅ (frames_of ∅) R).
    { exists O. split; [|split_and!; [|done|done]].
      - exists {[(LT, 0) := (i, R)]}, ∅, i. split_and!; [|by rewrite lookup_singleton_eq|intros k; by rewrite !lookup_empty]. unfold first_ivs. by rewrite !vobjs_add.
      - intros d x. split; [by left|]. intros [?|(n & q & y & Hn & _)]; [done|by rewrite lookup_empty in Hn]. }
    destruct (vobjs_none _ _ _ _ Ja) as (_ & Jab & JaJ). destruct (vobjs_none _ _ _ _ Jb) as (_ & Jbb & JbJ). destruct (vobjs_none _ _ _ _ Jc) as (_ & Jcb & JcJ).
    split_and!.
    + split; cbn [with_mst set_iv set_paiv s0 v_mst v_vma v_kmvds v_boxes v_mgr]; try done.
      * by apply first_viv.
      * apply (vbx_ext (fun _ => 0)); [|done]. intros x Hx. by apply first_refs.
      * intros q [k Hq]. unfold first_ivs in Hq. rewrite !lookup_insert_Some, lookup_empty in Hq. naive_solver.
    + intros x. by apply first_covered.
    + intros u Hu. etrans; [exact (sp_walk Hsp u Hu)|]. unfold translate. by rewrite uframes_lookup, lookup_empty.
    + intros y Hy. by apply (ns_kern _ _ _ _ _ HN).
Qed.
(** ** What each operation does *)

Implicit Types U : upages.

(** Making an address space.  [new_mmadrsdsc] returns; [NULL] means no effect.
    Otherwise, when the intervals and the root table could be had, the space is
    well-formed: it covers exactly the first program pages, the first heap page and
    the stack, maps nothing in the user half, and its root table has the kernel's
    entries in the kernel half. *)
Theorem space_created s P O J : ready s P O J ->
  wp new_mmadrsdsc s (fun r s' => (r = 0 /\ s' = s) \/
    (0 < r /\ J !! r = None /\
      (vs_list (v_vma s') = [] \/ mud_tdirearr (m_mmu (v_mst s')) = 0 \/
       exists R, VInv s' P O (<[r := sizeof_mmadrsdsc_t]> J) ∅ R /\ (forall x, covered (v_kmvds s') x <-> first_addrs x) /\
         (forall u, uaddr u -> hw_walk (m_words (v_mst s')) R u = None) /\
         (forall y, 256 <= y < 512 -> m_words (v_mst s') !! (R + 8 * y) = m_words (v_mst s) !! (m_pml4 (v_mst s) + 8 * y))))).
Proof. apply new_mmadrsdsc_spec. Qed.

(** C24: handing out addresses.  [vma_new_vadrs] on a well-formed space returns, for
    sizes whose end does not wrap around.  [NULL] means no effect.  Otherwise the
    range it answers, the size rounded up to pages, starts at a page, where it was
    asked to start if it was, and lies in the user half; no address of it was
    covered by an interval before, all of it is now, and nothing else changed:
    the space is well-formed and the page tables and the memory of others are
    untouched. *)
Theorem vma_alloc_correct s P O J U R start sz lim ty : VInv s P O J U R -> 0 <= start < u64max -> 0 <= sz < u64max ->
  (start <> 0 -> start + page_up sz < u64max) ->
  wp (vma_new_vadrs start sz lim ty) s (fun r s' => (r = 0 /\ s' = s) \/ (sz <> 0 /\ alloc_ok s s' P O J U R r start (page_up sz))).
Proof. apply vma_new_vadrs_spec. Qed.

(** C22: giving addresses back.  [vma_del_vadrs] on a well-formed space returns, for a
    range that starts at a page and does not wrap around.  [FALSE] means no effect,
    and that no interval holds the range, or that the range is in the middle of one
    and no descriptor could be had for the second part.  Otherwise exactly the
    addresses of the range are free now, its pages are unmapped and released with
    their descriptors, every other page stays mapped to its frame, and the space is
    well-formed: the intervals sorted and disjoint, the boxes counted by their
    intervals. *)
Theorem vma_free_correct s P O J U R start sz : VInv s P O J U R -> 0 <= start < u64max -> 0 <= sz < u64max -> start mod 4096 = 0 -> start + page_up sz < u64max ->
  wp (vma_del_vadrs start sz) s (fun r s' =>
    (r = false /\ s' = s /\ (sz = 0 \/ start = 0 \/ refused s start (start + page_up sz))) \/
    (r = true /\ sz <> 0 /\ free_ok s s' P O J U R start (start + page_up sz) /\
     (forall u, uaddr u -> hw_walk (m_words (v_mst s')) R u =
        if decide (start <= 4096 * (u / 4096) < start + page_up sz) then None else hw_walk (m_words (v_mst s)) R u))).
Proof. apply vma_del_vadrs_spec. Qed.

(** C23: the page fault.  On a well-formed space and an address whose page is not
    mapped, [vma_map_fairvadrs] answers [EPARAM] for an address outside of the user
    half and [EFAULT] for one in no interval, both without effect; [ENOMEM] leaves
    every mapping as it was; [EOK] has mapped the page, to a frame that backs no
    other page of the space, and no other translation changed; a page of a
    program's interval is filled from the right place of its file.  In each case
    the space is well-formed and covers the same addresses.  The machine halts only
    when no box can be had for the interval, or when the interval is a program's
    and there is no file. *)
Theorem page_fault_correct s P O J U R v : VInv s P O J U R -> 0 <= v < u64max -> U !! (v / 4096) = None ->
  wph (vma_map_fairvadrs v) s (fun r s' =>
      (r = - EPARAM /\ s' = s /\ ~ (0x1000 <= v <= USER_VIRTUAL_ADDRESS_END)) \/
      (r = - EFAULT /\ s' = s /\ ~ covered (v_kmvds s) v) \/
      (r = - ENOMEM /\ covered (v_kmvds s) v /\ fault_frame s s' P O R /\ VInv s' P O J U R) \/
      (r = EOK /\ fault_frame s s' P O R /\ exists q k d p b, v_kmvds s !! q = Some k /\ inside k v /\ VInv s' P O J (<[v / 4096 := (d, p, b)]> U) R /\
        (forall u, uaddr u -> hw_walk (m_words (v_mst s')) R u = if decide (u / 4096 = v / 4096) then Some (p + u mod 4096) else hw_walk (m_words (v_mst s)) R u) /\
        (forall n x, U !! n = Some x -> x.1.2 <> p) /\ v_copies s' = bin_copy s k v ++ v_copies s))
    (fun e => exists q k, v_kmvds s !! q = Some k /\ inside k v /\ ((e = no_box_msg /\ kva_kvmbox k = 0 /\ kbm_cachehead (v_mgr s) = []) \/ no_file s k)).
Proof. apply vma_map_fairvadrs_spec. Qed.

(** ** Runs *)

Lemma for_each_pure {T A} (l : list A) (f : A -> M T unit) t : (forall x, x ∈ l -> f x t = Ret (tt, t)) -> for_each l f t = Ret (tt, t).
Proof. induction l as [|x l IH]; intros Hf; [done|]. cbn. rewrite (bind_eq _ _ _ _ _ (Hf x ltac:(by left))). apply IH. intros y Hy. apply Hf. by right. Qed.

(** The kernel's own check of the intervals passes. *)
Lemma check_passes s : VIv (v_kmvds s) (v_vma s) -> vma_check_kmva s = Ret (tt, s).
Proof.
  intros HV. unfold vma_check_kmva. rewrite (bind_eq _ _ s (v_vma s) s) by done. apply for_each_pure. intros p Hp. destruct (iv_lookup HV p Hp) as [k Hk].
  destruct (vi_range _ _ HV _ _ Hk) as [Hp0 [R1 R2 R3 R4 R5]]. unfold vma_chk_one_kmva. replace (p =? 0) with false by lia. rewrite (bind_eq _ _ s tt s) by done.
  rewrite (bind_eq _ _ s (v_vma s) s) by done. apply for_each_pure. intros q Hq. destruct (q =? p) eqn:E; [done|]. destruct (iv_lookup HV q Hq) as [k' Hk'].
  rewrite (bind_eq _ _ _ _ _ (get_kmv_eq _ _ _ Hk)), (bind_eq _ _ _ _ _ (get_kmv_eq _ _ _ Hk')). destruct (vi_range _ _ HV _ _ Hk') as [_ [Q1 Q2 Q3 Q4 Q5]].
  destruct (iv_split HV p Hp) as (l1 & l2 & El). assert (Hap : kva_end k' <= kva_start k \/ kva_end k <= kva_start k').
  { destruct (proj1 (iv_in_split El q) Hq) as [H1|[H1|H1]]; [left; by apply (iv_left HV El Hk q)|lia|right; by apply (iv_right HV El Hk q)]. }
  replace (_ || _ || _ || _) with false by lia. done.
Qed.

(** A refused free has no effect, whatever the arguments. *)
Definition accepts (m : M (vst S) bool) : Prop := forall s r s', m s = Ret (r, s') -> r = true.
Lemma accepts_bind {A} (m : M (vst S) A) f : (forall x, accepts (f x)) -> accepts (mbind f m).
Proof. intros Hf s r s' H. unfold mbind, M_bind in H. destruct (m s) as [[x s1]| | |]; [|done..]. by eapply Hf. Qed.
Lemma accepts_true : accepts (mret true).
Proof. by intros s r s' [= <- _]. Qed.

Lemma get_kmv_reads p : stable (fun s => s) (get_kmv p).
Proof. intros s k s'. unfold get_kmv. destruct (_ !! p); [|done]. by intros [= _ <-]. Qed.
Lemma del_find_reads a sz : stable (fun s => s) (vma_del_find_kmvarsdsc a sz).
Proof. unfold vma_del_find_kmvarsdsc. repeat (stable_step || apply get_kmv_reads). Qed.

Lemma free_refused s s' P O J U R a sz r : VInv s P O J U R -> krlsve_mfreeblk a sz s = Ret (r, s') -> r <> SYSSTUSOK -> s' = s.
Proof.
  intros HI Hr Hne. unfold krlsve_mfreeblk, krlsve_core_mfreeblk in Hr. destruct (a =? 0); [by injection Hr|]. apply bind_inv in Hr as (ok & s1 & Hd & Hr).
  destruct ok; injection Hr as <- <-; [done|]. clear Hne. unfold vma_del_vadrs in Hd. destruct (_ || _); [by injection Hd|]. unfold vma_del_vadrs_core in Hd.
  apply bind_inv in Hd as (p & s2 & Hp & Hd). apply del_find_reads in Hp as ->. destruct (p =? 0); [by injection Hd|]. apply bind_inv in Hd as (k & s2 & Hk & Hd). apply get_kmv_reads in Hk as ->.
  assert (Hacc : forall m, accepts m -> m s = Ret (false, s1) -> s1 = s) by (intros m Hm Hx; by apply Hm in Hx).
  repeat (destruct (_ && _); [try (revert Hd; apply Hacc; repeat (apply accepts_bind; intros ?); apply accepts_true)|]); [|by injection Hd].
  apply bind_inv in Hd as (n & s2 & Hn & Hd). pose proof (new_kmvarsdsc_spec s P O _ U (frames_of U) R (iv_sp _ _ _ _ _ _ HI)) as Hspec. rewrite (wp_det _ _ _ _ _ Hn) in Hspec.
  destruct Hspec as [[-> ->]|(m' & Hn0 & _)]; [by injection Hd|]. replace (n =? 0) with false in Hd by lia. exfalso.
  assert (false = true) as [=]. revert Hd. match goal with |- ?m s2 = _ -> _ => assert (Hm : accepts m) by (repeat (apply accepts_bind; intros ?); apply accepts_true) end. apply Hm.
Qed.

(** A step of a process: a service call or a page fault that returns.  A free that the
    service accepts is page-aligned and does not wrap around. *)
Inductive vstep (R : Z) : vst S -> vst S -> Prop :=
  | step_alloc s s' sz r : 0 <= sz < u64max -> krlsve_mallocblk sz s = Ret (r, s') -> vstep R s s'
  | step_free s s' a sz r : 0 <= a -> 0 <= sz -> (r = SYSSTUSOK -> a mod 4096 = 0 /\ a + page_up sz < u64max) -> krlsve_mfreeblk a sz s = Ret (r, s') -> vstep R s s'
  | step_fault s s' v r : 0 <= v < u64max -> hw_walk (m_words (v_mst s)) R v = None -> krluserspace_accessfailed v s = Ret (r, s') -> vstep R s s'.

Lemma malloc_spec s P O J U R sz : VInv s P O J U R -> 0 <= sz < u64max ->
  wp (krlsve_mallocblk sz) s (fun _ s' => VInv s' P O J U R /\ mframe P O R (v_mst s) (v_mst s')).
Proof.
  intros HI Hsz. eapply wp_mono; [apply (vma_new_vadrs_spec s P O J U R 0 sz 0 KMV_HEAP_TYPE HI); [by rewrite u64max_val|done|done]|].
  intros r s' [[_ ->]|[_ [HI' _ _ _ _ _ _ Hf]]]; done.
Qed.

Lemma mfree_spec s P O J U R a sz : VInv s P O J U R -> 0 <= a -> 0 <= sz -> a mod 4096 = 0 -> a + page_up sz < u64max ->
  wp (krlsve_mfreeblk a sz) s (fun _ s' => (exists U', VInv s' P O J U' R) /\ mframe P O R (v_mst s) (v_mst s')).
Proof.
  intros HI Ha Hsz Hal Hw. unfold krlsve_mfreeblk, krlsve_core_mfreeblk. destruct (a =? 0) eqn:E; [apply wp_ret; split; [by eauto|done]|]. destruct (page_up_bounds sz) as [[Hb1 Hb2] _].
  apply wp_bind. eapply wp_mono; [apply (vma_del_vadrs_spec s P O J U R a sz HI); lia|].
  intros r s' [(-> & -> & _)|(-> & _ & [HI' _ _ Hf] & _)]; apply wp_ret; (split; [by eauto|done]).
Qed.

Lemma fault_spec s P O J U R v r s' : VInv s P O J U R -> 0 <= v < u64max -> hw_walk (m_words (v_mst s)) R v = None -> krluserspace_accessfailed v s = Ret (r, s') ->
  (exists U', VInv s' P O J U' R) /\ mframe P O R (v_mst s) (v_mst s').
Proof.
  intros HI Hv Hw Hr. unfold krluserspace_accessfailed in Hr. destruct (USER_VIRTUAL_ADDRESS_END <? v) eqn:E; [injection Hr as <- <-; split; [by eauto|done]|].
  assert (HU : U !! (v / 4096) = None).
  { rewrite (sp_walk (iv_sp _ _ _ _ _ _ HI) v) in Hw by (unfold uaddr, USER_VIRTUAL_ADDRESS_END in *; lia). unfold translate in Hw. rewrite uframes_lookup in Hw. by destruct (U !! (v / 4096)). }
  pose proof (vma_map_fairvadrs_spec s P O J U R v HI Hv HU) as Hspec. unfold wph in Hspec. unfold mbind, M_bind in Hr.
  destruct (vma_map_fairvadrs v s) as [[x s1]| | |] eqn:Ev; try done. assert (s1 = s') as ->.
  { destruct (x =? - EPARAM); [done|]. destruct (x =? - ENOOBJ); [done|]. destruct (x =? - ENOMEM); [done|]. by injection Hr. }
  destruct Hspec as [(_ & -> & _)|[(_ & -> & _)|[(_ & _ & [Hf _] & HI')|(_ & [Hf _] & q & k & d & p & b & _ & _ & HI' & _)]]]; (split; [by eauto|done]).
Qed.

(** C25: an address space stays well-formed.  Over every run of memory services and page
    faults in which each free that the service accepts has a page-aligned address and
    a range that does not wrap around (the code does not test this; the lemmas at the end
    of the file show what other frees do), the space is well-formed afterwards, the
    kernel's own check of the intervals passes, the kernel half and the memory of others
    are untouched, an allocation returns, and so does such a free. *)
Theorem space_stays_well_formed s s' P O J U R : VInv s P O J U R -> rtc (vstep R) s s' ->
  (exists U', VInv s' P O J U' R) /\ mframe P O R (v_mst s) (v_mst s') /\ vma_check_kmva s' = Ret (tt, s') /\
  (forall sz, 0 <= sz < u64max -> exists r t, krlsve_mallocblk sz s' = Ret (r, t)) /\
  (forall a sz, 0 <= a -> 0 <= sz -> a mod 4096 = 0 -> a + page_up sz < u64max -> exists r t, krlsve_mfreeblk a sz s' = Ret (r, t)).
Proof.
  intros HI Hrun. assert (Hinv : (exists U', VInv s' P O J U' R) /\ mframe P O R (v_mst s) (v_mst s')).
  { revert U HI. induction Hrun as [s|s s1 s' Hstep _ IH]; intros U HI; [split; [by eauto|done]|]. assert (H1 : (exists U', VInv s1 P O J U' R) /\ mframe P O R (v_mst s) (v_mst s1)).
    { destruct Hstep as [s s1 sz r Hsz Hr|s s1 a sz r Ha Hsz Hacc Hr|s s1 v r Hv Hw Hr].
      - pose proof (malloc_spec s P O J U R sz HI Hsz) as Hs. rewrite (wp_det _ _ _ _ _ Hr) in Hs. destruct Hs. eauto.
      - destruct (decide (r = SYSSTUSOK)) as [Hok|Hne]; [|rewrite (free_refused s s1 P O J U R a sz r HI Hr Hne); split; [by eauto|done]].
        destruct (Hacc Hok) as [Hal Hw]. pose proof (mfree_spec s P O J U R a sz HI Ha Hsz Hal Hw) as Hs. by rewrite (wp_det _ _ _ _ _ Hr) in Hs.
      - by apply (fault_spec s P O J U R v r). }
    destruct H1 as [[U1 HI1] Hf1]. destruct (IH U1 HI1) as [HI2 Hf2]. split; [done|]. by etrans. }
  destruct Hinv as [[U' HI'] Hf]. split_and!; [by eauto|done|apply check_passes, (iv_iv _ _ _ _ _ _ HI')| |].
  - intros sz Hsz. destruct (proj1 (wp_run _ _ _) (malloc_spec s' P O J U' R sz HI' Hsz)) as (r & t & Heq & _). eauto.
  - intros a sz Ha Hsz Hal Hw. destruct (proj1 (wp_run _ _ _) (mfree_spec s' P O J U' R a sz HI' Ha Hsz Hal Hw)) as (r & t & Heq & _). eauto.
Qed.
End create.

(** ** The small machine of DivMerSpec.v *)

Definition demo_v : vst (kst mmst) := Vst (Mst demo_k demo_words mmudsc_t_init 0x1000 0x1000) virmemadrs_t_init ∅ ∅ kvmemcboxmgr_t_init None [].

Lemma demo_v_ready : ready demo_v demo_pool ∅ ∅.
Proof.
  split; [|destruct demo_boot_root as [B1 B2 B3 B4]; by split|done| |by intros p [x Hx]].
  - replace (vobjs ∅ (v_boxes demo_v) ∅) with (∅ : objects); [exact demo_k_held|]. unfold vobjs. cbn [demo_v v_boxes]. by rewrite !fmap_empty, !(left_id_L ∅ (∪)).
  - split; cbn [demo_v v_boxes v_mgr kvmemcboxmgr_t_init kbm_kmbhead kbm_cachehead]; try done; [by apply NoDup_nil|intros b|by intros b [x Hx]]. split; [by intros [x Hx]|]. by intros [?%elem_of_nil|?%elem_of_nil].
Qed.

Abbreviation demo_mm := (result 0 new_mmadrsdsc demo_v).
Abbreviation demo_vs := (final new_mmadrsdsc demo_v).

Lemma demo_vs_made : (0 <? demo_mm) = true /\ vs_list (v_vma demo_vs) <> [] /\ mud_tdirearr (m_mmu (v_mst demo_vs)) <> 0.
Proof. vm_compute. split_and!; congruence. Qed.

Lemma demo_vs_ok : exists R, VInv demo_vs demo_pool ∅ (<[demo_mm := sizeof_mmadrsdsc_t]> ∅) ∅ R /\ forall x, covered (v_kmvds demo_vs) x <-> first_addrs x.
Proof.
  destruct demo_vs_made as (H1 & H2 & H3). destruct (wp_result 0 _ _ _ (new_mmadrsdsc_spec demo_v demo_pool ∅ ∅ demo_v_ready)) as [[E _]|(_ & _ & [H|[H|(R & HI & Hc & _)]])].
  - exfalso. rewrite E in H1. discriminate H1.
  - destruct (H2 H).
  - destruct (H3 H).
  - exists R. split; [exact HI|exact Hc].
Qed.

Lemma space_created_witness : wp new_mmadrsdsc demo_v (fun r s' => r = 0 \/ vs_list (v_vma s') = [] \/ mud_tdirearr (m_mmu (v_mst s')) = 0 \/ covered (v_kmvds s') THREAD_HEAPADR_START).
Proof.
  eapply wp_mono; [apply (space_created demo_v demo_pool ∅ ∅ demo_v_ready)|]. intros r s' [[-> _]|(_ & _ & [H|[H|(R & _ & Hc & _)]])]; [by left|right; by left|right; right; by left|].
  right. right. right. apply Hc. right. left. unfold THREAD_HEAPADR_START. lia.
Defined.

Lemma vma_alloc_correct_witness : wp (vma_new_vadrs 0 0x2800 0 KMV_HEAP_TYPE) demo_vs (fun r s' => r = 0 \/ (r mod 4096 = 0 /\ ~ first_addrs r /\ covered (v_kmvds s') (r + 0x2fff))).
Proof.
  destruct demo_vs_ok as (R & HI & Hc). eapply wp_mono; [apply (vma_alloc_correct demo_vs demo_pool ∅ _ ∅ R 0 0x2800 0 KMV_HEAP_TYPE HI); rewrite ?u64max_val; lia|].
  intros r s' [[-> _]|[_ [_ Hal _ _ _ Hfree Hcov _]]]; [by left|right]. change (page_up 0x2800) with 0x3000 in *. split_and!; [done| |apply Hcov; right; lia].
  intros Hf. apply (Hfree r); [lia|]. by apply Hc.
Defined.

Lemma vma_free_correct_witness : wp (vma_del_vadrs 0x2000 0x1000) demo_vs (fun r s' => r = false \/ (covered (v_kmvds s') 0x1000 /\ ~ covered (v_kmvds s') 0x2abc /\ covered (v_kmvds s') 0x3000)).
Proof.
  destruct demo_vs_ok as (R & HI & Hc). eapply wp_mono; [apply (vma_free_correct demo_vs demo_pool ∅ _ ∅ R 0x2000 0x1000 HI); rewrite ?u64max_val; vm_compute; intuition congruence|].
  intros r s' [(-> & _)|(_ & _ & [_ _ Hcov _] & _)]; [by left|right]. change (0x2000 + page_up 0x1000) with 0x3000 in *.
  split_and!; [apply (proj2 (Hcov _)); split; [apply (proj2 (Hc _)); left|]; lia|intros Hx; apply (proj1 (Hcov _)) in Hx as [_ Hx]; lia|].
  apply (proj2 (Hcov _)). split; [apply (proj2 (Hc _)); left|]; lia.
Defined.

Lemma page_fault_correct_witness : wph (vma_map_fairvadrs 0x100000123) demo_vs (fun r s' => r = - EPARAM \/ r = - EFAULT \/ r = - ENOMEM \/ (r = EOK /\ covered (v_kmvds s') 0x100000123)) (fun _ => True).
Proof.
  destruct demo_vs_ok as (R & HI & Hc). eapply wph_mono; [apply (page_fault_correct demo_vs demo_pool ∅ _ ∅ R 0x100000123 HI); [rewrite u64max_val; lia|done]| |done].
  intros r s' [(-> & _)|[(-> & _)|[(-> & _)|(-> & (_ & _ & _ & Hcov) & q & k & d & p & b & Hk & Hin & _)]]]; [by left|right; by left|right; right; by left|right; right; right].
  split; [done|]. apply Hcov. exists q, k. split; [exact Hk|exact Hin].
Defined.

(** Three pages are allocated and the middle one is given back. *)
Abbreviation demo_grown := (final (krlsve_mallocblk 0x3000) demo_vs).
Abbreviation demo_freed := (final (krlsve_mfreeblk (THREAD_HEAPADR_START + 0x1000) 0x1000) demo_grown).
Lemma run_final {T A} (d : A) (m : M T A) t : (match m t with Ret _ => true | _ => false end) = true -> m t = Ret (result d m t, final m t).
Proof. unfold result, final. by destruct (m t) as [[a t']| | |]. Qed.
Lemma demo_run : krlsve_mallocblk 0x3000 demo_vs = Ret (result 1 (krlsve_mallocblk 0x3000) demo_vs, demo_grown) /\
  krlsve_mfreeblk (THREAD_HEAPADR_START + 0x1000) 0x1000 demo_grown = Ret (result 1 (krlsve_mfreeblk (THREAD_HEAPADR_START + 0x1000) 0x1000) demo_grown, demo_freed) /\
  result 1 (krlsve_mfreeblk (THREAD_HEAPADR_START + 0x1000) 0x1000) demo_grown = SYSSTUSOK /\ length (vs_list (v_vma demo_freed)) = 4%nat.
Proof. split_and!; [apply run_final; vm_compute; reflexivity|apply run_final; vm_compute; reflexivity|vm_compute; reflexivity|vm_compute; reflexivity]. Qed.

Lemma space_stays_well_formed_witness : vma_check_kmva demo_freed = Ret (tt, demo_freed).
Proof.
  destruct demo_vs_ok as (R & HI & _), demo_run as (E1 & E2 & _). apply (space_stays_well_formed demo_vs demo_freed demo_pool ∅ _ ∅ R HI).
  eapply rtc_l; [eapply (step_alloc R _ _ 0x3000); [rewrite u64max_val; lia|exact E1]|]. apply rtc_once. eapply (step_free R _ _ (THREAD_HEAPADR_START + 0x1000) 0x1000); [done|done| |exact E2].
  intros _. split; [reflexivity|by vm_compute].
Defined.

(** ** Outside of the preconditions *)

(** A range that wraps around: a process that gives back [2^64 - 0x80000000] bytes
    from the start of its heap is answered 0, and its heap begins at [0x80000000]
    afterwards, although nothing there was handed out. *)
Lemma wrapped_free_grows_heap :
  let run := krlsve_mallocblk 0x3000 ;; krlsve_mfreeblk THREAD_HEAPADR_START (2 ^ 64 - 0x80000000) in
  result 1 run demo_vs = 0 /\ kva_start <$> v_kmvds (final run demo_vs) !! vs_heapkmvdsc (v_vma demo_vs) = Some 0x80000000.
Proof. vm_compute. split; reflexivity. Qed.

(** An address inside a page: after a free from the middle of the first page of the heap,
    which is answered 0, an interval ends inside of a page, and the space is not
    well-formed. *)
Lemma unaligned_free_breaks_space :
  let run := krlsve_mallocblk 0x3000 ;; krlsve_mfreeblk (THREAD_HEAPADR_START + 0x800) 0x1000 in
  result 1 run demo_vs = 0 /\ kva_end <$> v_kmvds (final run demo_vs) !! vs_heapkmvdsc (v_vma demo_vs) = Some (THREAD_HEAPADR_START + 0x800) /\
  forall P O J U R, ~ VInv (final run demo_vs) P O J U R.
Proof.
  cbv zeta. set (t := final _ demo_vs). assert (E : kva_end <$> v_kmvds t !! vs_heapkmvdsc (v_vma demo_vs) = Some (THREAD_HEAPADR_START + 0x800)) by (vm_compute; reflexivity).
  split_and!; [vm_compute; reflexivity|exact E|]. intros P O J U R HI. clearbody t. destruct (v_kmvds t !! _) as [k|] eqn:Ek; [|done]. injection E as E.
  destruct (vi_range _ _ (iv_iv _ _ _ _ _ _ HI) _ _ Ek) as [_ [_ _ _ _ [H|H]]]; rewrite E in H; discriminate H.
Qed.

(** The count of the intervals goes down for an interval it never counted. *)
Lemma interval_count_drifts :
  let run := vma_new_vadrs 0x200000000 0x1000 0 KMV_HEAP_TYPE ;; vma_del_vadrs 0x200000000 0x1000 in
  result false run demo_vs = true /\ vs_kmvdscnr (v_vma (final run demo_vs)) = 2 /\ length (vs_list (v_vma (final run demo_vs))) = 3%nat.
Proof. vm_compute. split_and!; reflexivity. Qed.
