(* ===== verification/Bytes.v ===== *)
(** * Byte buffers

    Memory and disk blocks as lists of bytes with 64-bit little-endian words in
    them: what the drivers do through pointers to packed structures.  Offsets and
    lengths are integers. *)

From stdpp Require Export list_numbers.
From S2P Require Import Prelude.

Definition blen (l : list Z) : Z := Z.of_nat (length l).
Definition zeros (n : Z) : list Z := replicate (Z.to_nat n) 0.
(** [n] bytes from [off] on, and a run of bytes put at [off] *)
Definition slice (l : list Z) (off n : Z) : list Z := take (Z.to_nat n) (drop (Z.to_nat off) l).
Definition splice (l : list Z) (off : Z) (bs : list Z) : list Z :=
  take (Z.to_nat off) l ++ bs ++ drop (Z.to_nat (off + blen bs)) l.
Definition le64 (v : Z) : list Z := Z_to_little_endian 8 8 v.
Definition rd64 (l : list Z) (off : Z) : Z := little_endian_to_Z 8 (slice l off 8).
Definition wr64 (l : list Z) (off v : Z) : list Z := splice l off (le64 v).

Create HintDb bytes.

Section bytes.
Implicit Types (l bs : list Z).

Lemma blen_nonneg l : 0 <= blen l.
Proof. unfold blen. lia. Qed.
Lemma blen_app l bs : blen (l ++ bs) = blen l + blen bs.
Proof. unfold blen. rewrite length_app. lia. Qed.
Lemma blen_nil : blen [] = 0.
Proof. done. Qed.
Lemma blen_cons x l : blen (x :: l) = 1 + blen l.
Proof. unfold blen. cbn [length]. lia. Qed.
Lemma blen_zeros n : 0 <= n -> blen (zeros n) = n.
Proof. intros Hn. unfold blen, zeros. rewrite length_replicate. lia. Qed.
Lemma blen_le64 v : blen (le64 v) = 8.
Proof. unfold blen, le64. by rewrite length_Z_to_little_endian. Qed.
Lemma blen_slice l off n : 0 <= off -> 0 <= n -> off + n <= blen l -> blen (slice l off n) = n.
Proof. unfold blen, slice. intros. rewrite length_take, length_drop. lia. Qed.
Lemma blen_splice l off bs : 0 <= off -> off + blen bs <= blen l -> blen (splice l off bs) = blen l.
Proof. unfold blen, splice. intros. rewrite !length_app, length_take, length_drop. unfold blen. lia. Qed.
Lemma blen_wr64 l off v : 0 <= off -> off + 8 <= blen l -> blen (wr64 l off v) = blen l.
Proof. intros. apply blen_splice; rewrite ?blen_le64; lia. Qed.

(** ** Slices of updated buffers *)

Lemma slice_lookup l off n i : 0 <= off -> slice l off n !! i = if (Z.of_nat i <? n) then l !! (Z.to_nat off + i)%nat else None.
Proof.
  intros Hoff. unfold slice. destruct (Z.of_nat i <? n) eqn:E.
  - rewrite lookup_take_lt by lia. by rewrite lookup_drop.
  - rewrite lookup_take_ge by lia. done.
Qed.

Lemma splice_lookup l off bs i : 0 <= off -> off + blen bs <= blen l ->
  splice l off bs !! i = if (off <=? Z.of_nat i) && (Z.of_nat i <? off + blen bs) then bs !! (i - Z.to_nat off)%nat else l !! i.
Proof.
  unfold splice, blen. intros Hoff Hl. assert (Ht : length (take (Z.to_nat off) l) = Z.to_nat off) by (rewrite length_take; lia).
  destruct ((off <=? Z.of_nat i) && _) eqn:E.
  - rewrite lookup_app_r, Ht by lia. rewrite lookup_app_l by lia. done.
  - destruct (decide (i < Z.to_nat off)%nat).
    + rewrite lookup_app_l by lia. by rewrite lookup_take_lt.
    + rewrite lookup_app_r, Ht by lia. rewrite lookup_app_r by lia. rewrite lookup_drop. f_equal. lia.
Qed.

Lemma slice_splice_same l off bs n : 0 <= off -> off + blen bs <= blen l -> n = blen bs -> slice (splice l off bs) off n = bs.
Proof.
  intros Hoff Hl ->. apply list_eq. intros i. rewrite slice_lookup by done. destruct (Z.of_nat i <? blen bs) eqn:E.
  - rewrite splice_lookup by done. replace ((off <=? _) && _) with true by lia. f_equal. lia.
  - symmetry. apply lookup_ge_None. unfold blen in E. lia.
Qed.

Lemma slice_splice_other l off bs o n : 0 <= off -> off + blen bs <= blen l -> 0 <= o -> o + n <= off \/ off + blen bs <= o ->
  slice (splice l off bs) o n = slice l o n.
Proof.
  intros Hoff Hl Ho Hd. apply list_eq. intros i. rewrite !slice_lookup by done. destruct (Z.of_nat i <? n) eqn:E; [|done].
  rewrite splice_lookup by done. by replace ((off <=? _) && _) with false by lia.
Qed.

Lemma slice_app l o n m : 0 <= o -> 0 <= n -> 0 <= m -> slice l o (n + m) = slice l o n ++ slice l (o + n) m.
Proof.
  intros Ho Hn Hm. unfold slice. rewrite Z2Nat.inj_add by done. rewrite <- take_take_drop, drop_drop. do 2 f_equal. f_equal. lia.
Qed.

Lemma slice_slice l o n p m : 0 <= o -> 0 <= p -> p + m <= n -> slice (slice l o n) p m = slice l (o + p) m.
Proof.
  intros Ho Hp Hm. apply list_eq. intros i. rewrite !slice_lookup by lia. destruct (Z.of_nat i <? m) eqn:E; [|done].
  replace (Z.of_nat (Z.to_nat p + i) <? n) with true by lia. f_equal. lia.
Qed.

Lemma slice_full l n : n = blen l -> slice l 0 n = l.
Proof. intros ->. unfold slice, blen. rewrite Nat2Z.id. rewrite drop_0. by apply firstn_all. Qed.

Lemma slice_prefix l bs n : n = blen l -> slice (l ++ bs) 0 n = l.
Proof. intros ->. unfold slice, blen. rewrite Nat2Z.id, drop_0. apply take_app_length. Qed.

Lemma splice_full l bs : blen bs = blen l -> splice l 0 bs = bs.
Proof. intros E. unfold splice. cbn [take app Z.to_nat]. rewrite E. unfold blen. rewrite drop_ge by lia. apply app_nil_r. Qed.

Lemma slice_zeros n o m : 0 <= o -> 0 <= m -> o + m <= n -> slice (zeros n) o m = zeros m.
Proof. intros. unfold slice, zeros. rewrite drop_replicate, take_replicate. f_equal. lia. Qed.

Lemma splice_zeros n off m : 0 <= off -> 0 <= m -> off + m <= n -> splice (zeros n) off (zeros m) = zeros n.
Proof.
  intros. unfold splice. rewrite blen_zeros by done. unfold zeros. rewrite take_replicate, drop_replicate, <- !replicate_add. f_equal. lia.
Qed.

Lemma splice_splice l off a b : 0 <= off -> off + blen b <= blen l -> blen a = blen b -> splice (splice l off a) off b = splice l off b.
Proof.
  intros Ho Hl Hab. apply list_eq. intros i. rewrite !splice_lookup by (rewrite ?blen_splice; lia).
  destruct ((off <=? _) && _) eqn:E; [done|]. rewrite Hab. by rewrite E.
Qed.

Lemma zeros_app a b : 0 <= a -> 0 <= b -> zeros (a + b) = zeros a ++ zeros b.
Proof. intros. unfold zeros. rewrite <- replicate_add. f_equal. lia. Qed.

(** Writing what is there changes nothing. *)
Lemma splice_id l off bs : 0 <= off -> off + blen bs <= blen l -> slice l off (blen bs) = bs -> splice l off bs = l.
Proof.
  intros Ho Hl E. apply list_eq. intros i. rewrite splice_lookup by done. destruct ((off <=? _) && _) eqn:Ei; [|done].
  rewrite <- E, slice_lookup by done. replace (Z.of_nat (i - Z.to_nat off) <? blen bs) with true by lia. f_equal. lia.
Qed.

(** Writing a run and what follows it writes the run. *)
Lemma splice_suffix l off bs : 0 <= off -> off + blen bs <= blen l -> splice l off (bs ++ drop (Z.to_nat (off + blen bs)) l) = splice l off bs.
Proof.
  intros Ho Hl. unfold splice. rewrite <- app_assoc. do 2 f_equal. rewrite (drop_ge _ (Z.to_nat (off + blen (bs ++ _)))); [apply app_nil_r|].
  rewrite blen_app. unfold blen in *. rewrite length_drop. lia.
Qed.

(** Adjacent runs are one run. *)
Lemma splice_app l off a b : 0 <= off -> off + blen a + blen b <= blen l -> splice (splice l off a) (off + blen a) b = splice l off (a ++ b).
Proof.
  intros Ho Hl. pose proof (blen_nonneg a). pose proof (blen_nonneg b). apply list_eq. intros i.
  rewrite !splice_lookup by (rewrite ?blen_splice, ?blen_app by lia; lia). rewrite blen_app.
  destruct ((off + blen a <=? Z.of_nat i) && (Z.of_nat i <? off + blen a + blen b)) eqn:E1.
  - replace ((off <=? Z.of_nat i) && (Z.of_nat i <? off + (blen a + blen b))) with true by lia. unfold blen in *.
    rewrite lookup_app_r by lia. f_equal. lia.
  - destruct ((off <=? Z.of_nat i) && (Z.of_nat i <? off + blen a)) eqn:E2.
    + replace ((off <=? Z.of_nat i) && (Z.of_nat i <? off + (blen a + blen b))) with true by lia. unfold blen in *. by rewrite lookup_app_l by lia.
    + by replace ((off <=? Z.of_nat i) && (Z.of_nat i <? off + (blen a + blen b))) with false by lia.
Qed.

(** ** Words *)

Lemma rd64_range l off : Forall (fun b => 0 <= b < 256) l -> 0 <= off -> off + 8 <= blen l -> 0 <= rd64 l off < u64max.
Proof.
  intros Hl Ho Hb. pose proof (little_endian_to_Z_bound 8 (slice l off 8) ltac:(lia)) as Hr. unfold rd64.
  assert (E : Z.of_nat (length (slice l off 8)) = 8) by (apply blen_slice; lia). rewrite E in Hr. apply Hr. unfold slice. by apply Forall_take, Forall_drop.
Qed.

Lemma rd64_wr64_same l off v : 0 <= off -> off + 8 <= blen l -> 0 <= v < u64max -> rd64 (wr64 l off v) off = v.
Proof.
  intros. unfold rd64, wr64. rewrite slice_splice_same by (rewrite ?blen_le64; lia). unfold le64.
  rewrite little_endian_to_Z_to_little_endian by lia. by apply Z.mod_small.
Qed.

Lemma rd64_splice_other l off bs o : 0 <= off -> off + blen bs <= blen l -> 0 <= o -> o + 8 <= off \/ off + blen bs <= o ->
  rd64 (splice l off bs) o = rd64 l o.
Proof. intros. unfold rd64. by rewrite slice_splice_other. Qed.

Lemma rd64_wr64_other l off v o : 0 <= off -> off + 8 <= blen l -> 0 <= o -> o + 8 <= off \/ off + 8 <= o -> rd64 (wr64 l off v) o = rd64 l o.
Proof. intros. apply rd64_splice_other; rewrite ?blen_le64; done. Qed.

Lemma slice_wr64_other l off v o n : 0 <= off -> off + 8 <= blen l -> 0 <= o -> o + n <= off \/ off + 8 <= o -> slice (wr64 l off v) o n = slice l o n.
Proof. intros. apply slice_splice_other; rewrite ?blen_le64; done. Qed.

Lemma rd64_zeros n o : 0 <= o -> o + 8 <= n -> rd64 (zeros n) o = 0.
Proof. intros. unfold rd64. by rewrite slice_zeros by lia. Qed.

Lemma wr64_zeros n o : 0 <= o -> o + 8 <= n -> wr64 (zeros n) o 0 = zeros n.
Proof. intros. apply (splice_zeros n o 8); lia. Qed.

(** Words inside a slice. *)
Lemma rd64_slice l o n p : 0 <= o -> 0 <= p -> p + 8 <= n -> rd64 (slice l o n) p = rd64 l (o + p).
Proof. intros. unfold rd64. by rewrite slice_slice. Qed.

(** ** Single bytes *)

Lemma splice_one l off v : 0 <= off -> off + 1 <= blen l -> splice l off [v] = <[Z.to_nat off := v]> l.
Proof.
  intros Ho Hl. apply list_eq. intros i. rewrite splice_lookup by (rewrite ?blen_cons, ?blen_nil; lia). rewrite list_lookup_insert. unfold blen in *. cbn [length].
  destruct ((off <=? Z.of_nat i) && _) eqn:E.
  - assert (i = Z.to_nat off) as -> by lia. rewrite decide_True by lia. by rewrite Nat.sub_diag.
  - rewrite decide_False by lia. done.
Qed.
End bytes.

#[export] Hint Rewrite blen_app blen_cons blen_nil blen_le64 : bytes.
#[export] Hint Rewrite blen_zeros using lia : bytes.

(** Notes the lengths of the updated buffers in the goal, from the buffers that they
    update; a buffer's length is a hypothesis [blen l = n]. *)
Ltac lens :=
  repeat match goal with
    | H : blen ?l = ?n |- context [wr64 ?l ?o ?v] =>
        lazymatch goal with
        | _ : blen (wr64 l o v) = n |- _ => fail
        | _ => assert (blen (wr64 l o v) = n) by (rewrite blen_wr64 by lia; exact H)
        end
    | H : blen ?l = ?n |- context [splice ?l ?o ?bs] =>
        lazymatch goal with
        | _ : blen (splice l o bs) = n |- _ => fail
        | _ => assert (blen (splice l o bs) = n) by (rewrite blen_splice by (autorewrite with bytes; lia); exact H)
        end
    end.

(** Reads fields of an updated buffer. *)
Ltac fields :=
  lens;
  repeat first [ rewrite rd64_wr64_same by lia | rewrite rd64_wr64_other by lia | rewrite slice_wr64_other by lia
               | rewrite rd64_splice_other by (autorewrite with bytes; lia) | rewrite slice_splice_other by (autorewrite with bytes; lia) ].
