(* ===== verification/MemIf.v ===== *)
(** * The kernel's memory pool as a service

    What drivers and the device table use of [krlnew] and [krldelete]: memory at a
    fresh address that overlaps none handed out before, and memory given back with
    the size it was asked for.  The pool of Kmempool.v meets the interface. *)

From S2P Require Import Prelude PhyMem DivMer Boot BootPages PageIf ObjIf MmuCorrect KmsobInv KmsobSpec Kmempool.

Class MemOps (S : Type) := {
  (** [krlnew(mmsize)]; [NULL] is 0 *)
  mem_new : Z -> M S Z;
  (** [krldelete(fradr, frsz)] *)
  mem_delete : Z -> Z -> M S bool
}.

(** Sizes that can be given back: objects, and powers of two of pages. *)
Definition good_size (sz : Z) : Prop := 1 <= sz <= OBJSORPAGE \/ (OBJSORPAGE < sz <= MALCSZ_MAX /\ exists k, 0 <= k /\ page_count sz = 2 ^ k).

(** [mem_own s J]: the memory [J] (address, size asked for) is handed out. *)
Class MemAlloc (S : Type) `{MemOps S} := {
  mem_own : S -> gmap Z Z -> Prop;
  mem_new_spec s J sz : mem_own s J -> 1 <= sz <= MALCSZ_MAX ->
    wp (mem_new sz) s (fun r s' => (r = 0 /\ s' = s) \/ (J !! r = None /\ mem_own s' (<[r := sz]> J)));
  mem_delete_spec s J a sz : mem_own s J -> J !! a = Some sz -> good_size sz ->
    wp (mem_delete a sz) s (fun r s' => r = true /\ mem_own s' (delete a J));
  mem_range s J a sz : mem_own s J -> J !! a = Some sz -> base <= a /\ 1 <= sz /\ a + sz < u64max;
  mem_apart s J a b sz sz' : mem_own s J -> J !! a = Some sz -> J !! b = Some sz' -> a <> b -> a + sz <= b \/ b + sz' <= a
}.

Section pool.
Context {S : Type} {HPO : PageOps S} {HOO : ObjOps S} {HOA : ObjAlloc S}.

#[global] Instance pool_mem_ops : MemOps (pst S) := {| mem_new := krlnew; mem_delete := krldelete |}.

(** What stands behind a piece of memory handed out: an object, or a block of pages. *)
Definition backed (J : objects) (K : blocks) (a sz : Z) : Prop :=
  (1 <= sz <= OBJSORPAGE /\ J !! a = Some (OBJS_ALIGN sz)) \/
  (OBJSORPAGE < sz <= MALCSZ_MAX /\ exists d q, a = q + base /\ K !! d = Some (q, 2 ^ Z.log2_up (page_count sz))).

Definition pool_own (s : pst S) (L : gmap Z Z) : Prop :=
  exists J K P A, pheld J K s P A /\ forall a sz, L !! a = Some sz -> backed J K a sz.

Lemma page_count_pos sz : OBJSORPAGE < sz -> 1 <= page_count sz /\ sz <= 4096 * page_count sz.
Proof.
  unfold OBJSORPAGE, page_count. intros H. pose proof (Z.div_mod (sz + 4095) 4096 ltac:(lia)). pose proof (Z.mod_pos_bound (sz + 4095) 4096 ltac:(lia)). lia.
Qed.

Lemma count_rounded sz : OBJSORPAGE < sz -> sz <= 4096 * 2 ^ Z.log2_up (page_count sz).
Proof. intros [Hp Hs]%page_count_pos. pose proof (proj2 (Z.log2_log2_up_spec (page_count sz) ltac:(lia))). lia. Qed.

Section held.
Context {J : objects} {K : blocks} {s : pst S} {P : Z -> Prop} {A : blocks} (HH : pheld J K s P A).

Lemma held_block d b : K !! d = Some b -> (A ∪ K) !! d = Some b.
Proof using HH. intros Hd. apply lookup_union_Some_r; [apply HH|done]. Qed.

Lemma backed_range a sz : backed J K a sz -> base <= a /\ 1 <= sz /\ a + sz < u64max.
Proof using HH.
  unfold backed, OBJSORPAGE. intros [[Hsz Ha]|[Hsz (d & q & -> & Hd)]].
  - pose proof (ob_range _ _ _ _ _ _ (ph_pages _ _ _ _ _ HH) Ha). pose proof (objs_align_up sz ltac:(lia)). lia.
  - destruct (pool_block HH _ _ _ Hd) as (_ & Hq & _ & Hb). pose proof (count_rounded sz ltac:(unfold OBJSORPAGE; lia)). pose proof base_val. rewrite u64max_val. lia.
Qed.

Lemma backed_apart a b sz sz' : backed J K a sz -> backed J K b sz' -> a <> b -> a + sz <= b \/ b + sz' <= a.
Proof using HH.
  unfold backed, OBJSORPAGE. pose proof (ph_pages _ _ _ _ _ HH) as Hpg.
  intros [[Hsz Ha]|[Hsz (d & q & -> & Hd)]] [[Hsz' Hb]|[Hsz' (d' & q' & -> & Hd')]] Hne.
  - pose proof (objs_align_up sz ltac:(lia)). pose proof (objs_align_up sz' ltac:(lia)). pose proof (ob_apart _ _ _ _ _ _ _ _ Hpg Ha Hb Hne). lia.
  - pose proof (objs_align_up sz ltac:(lia)). pose proof (count_rounded sz' ltac:(unfold OBJSORPAGE; lia)).
    pose proof (ob_pages_apart _ _ _ _ _ _ _ _ Hpg Ha (held_block _ _ Hd')) as Hap. cbn [fst snd] in Hap. lia.
  - pose proof (objs_align_up sz' ltac:(lia)). pose proof (count_rounded sz ltac:(unfold OBJSORPAGE; lia)).
    pose proof (ob_pages_apart _ _ _ _ _ _ _ _ Hpg Hb (held_block _ _ Hd)) as Hap. cbn [fst snd] in Hap. lia.
  - assert (d <> d') by (intros ->; congruence). pose proof (@pg_apart _ _ (ob_pages J) _ _ _ _ _ _ _ Hpg (held_block _ _ Hd) (held_block _ _ Hd') ltac:(done)) as Hap.
    pose proof (count_rounded sz ltac:(unfold OBJSORPAGE; lia)). pose proof (count_rounded sz' ltac:(unfold OBJSORPAGE; lia)).
    unfold block_apart in Hap. cbn [fst snd] in Hap. lia.
Qed.
End held.

Lemma backed_obj J K a sz p sz' : J !! p = None -> backed J K a sz -> backed (<[p := sz']> J) K a sz.
Proof. intros Hp [[Hsz Ha]|Hb]; [left|by right]. split; [done|]. rewrite lookup_insert_ne; [done|congruence]. Qed.
Lemma backed_blk J K a sz d b : K !! d = None -> backed J K a sz -> backed J (<[d := b]> K) a sz.
Proof. intros Hp [Hb|[Hsz (d' & q & -> & Hd)]]; [by left|right]. split; [done|]. exists d', q. rewrite lookup_insert_ne; [done|congruence]. Qed.

(** Memory taken from the pool joins the memory handed out. *)
Lemma pool_own_insert s' L J K P A r sz : pheld J K s' P A -> backed J K r sz -> (forall a sz, L !! a = Some sz -> backed J K a sz) ->
  pool_own s' (<[r := sz]> L).
Proof. intros HH Hr HL. exists J, K, P, A. split; [done|]. intros a sz' [[<- <-]|[_ Ha]]%lookup_insert_Some; [done|by apply HL]. Qed.

Lemma pool_new_spec s L sz : pool_own s L -> 1 <= sz <= MALCSZ_MAX ->
  wp (krlnew sz) s (fun r s' => (r = 0 /\ s' = s) \/ (L !! r = None /\ pool_own s' (<[r := sz]> L))).
Proof.
  intros HO Hsz. pose proof HO as (J & K & P & A & HH & HL). eapply wp_mono; [by apply (krlnew_spec J K s P A)|].
  intros r s' [Hz|[(Hle & Hr & Hj & HH')|(Hgt & d & q & -> & HdK & HdA & HH')]]; [by left|right|right].
  - split.
    + destruct (L !! r) as [x|] eqn:E; [|done]. exfalso. apply HL in E. assert (Hb : backed (<[r := OBJS_ALIGN sz]> J) K r x) by (by apply backed_obj).
      destruct E as [[_ E]|[Hx (d & q & -> & Hd)]]; [congruence|].
      pose proof (objs_align_up sz ltac:(unfold OBJSORPAGE in *; lia)). pose proof (count_rounded x ltac:(lia)). unfold OBJSORPAGE in *.
      pose proof (ob_pages_apart _ _ _ _ _ _ _ _ (ph_pages _ _ _ _ _ HH') (lookup_insert_eq J (q + base) _) (held_block HH' _ _ Hd)) as Hap. cbn [fst snd] in Hap. lia.
    + apply (pool_own_insert s' L (<[r := OBJS_ALIGN sz]> J) K P A); [done| |].
      * left. split; [lia|apply lookup_insert_eq].
      * intros a x Ha. apply backed_obj; [done|by apply HL].
  - set (n := 2 ^ Z.log2_up (page_count sz)) in *. assert (Hnew : backed J (<[d := (q, n)]> K) (q + base) sz) by (right; split; [lia|]; exists d, q; by rewrite lookup_insert_eq).
    split.
    + destruct (L !! (q + base)) as [x|] eqn:E; [|done]. exfalso. apply HL in E. destruct E as [[Hx Hj]|[Hx (d' & q' & Eq & Hd')]].
      * pose proof (objs_align_up x ltac:(unfold OBJSORPAGE in *; lia)). pose proof (count_rounded sz ltac:(lia)). unfold OBJSORPAGE in *.
        pose proof (ob_pages_apart _ _ _ _ _ _ _ _ (ph_pages _ _ _ _ _ HH') Hj (held_block HH' _ _ (lookup_insert_eq K d (q, n)))) as Hap. cbn [fst snd] in Hap. lia.
      * assert (q' = q) as -> by lia. assert (Hne : d <> d') by congruence. rewrite <- (lookup_insert_ne K d d' (q, n) Hne) in Hd'.
        by pose proof (pool_block_fun HH' d d' q _ _ (lookup_insert_eq K d (q, n)) Hd').
    + apply (pool_own_insert s' L J (<[d := (q, n)]> K) P A); [done|done|]. intros a x Ha. apply backed_blk; [done|by apply HL].
Qed.

Lemma pool_delete_spec s L a sz : pool_own s L -> L !! a = Some sz -> good_size sz ->
  wp (krldelete a sz) s (fun r s' => r = true /\ pool_own s' (delete a L)).
Proof.
  intros (J & K & P & A & HH & HL) Ha Hg. pose proof (HL _ _ Ha) as Hb. pose proof (backed_range HH _ _ Hb) as (Ha0 & _).
  destruct Hb as [[Hsz Hj]|[Hsz (d & q & -> & Hd)]].
  - eapply wp_mono; [apply (krldelete_obj_spec J K s P A sz HH a); [done|pose proof base_val; lia|done]|]. intros r s' [-> HH']. split; [done|].
    exists (delete a J), K, P, A. split; [done|]. intros b x [Hne Hx]%lookup_delete_Some. destruct (HL _ _ Hx) as [[H1 H2]|H2]; [left|by right].
    split; [done|]. by rewrite lookup_delete_ne.
  - destruct Hg as [Hle|[_ (k & Hk & Ek)]]; [lia|]. rewrite Ek, Z.log2_up_pow2, <- Ek in Hd by done.
    eapply wp_mono; [apply (krldelete_pages_spec J K s P A sz HH d q); done|]. intros r s' [-> HH']. split; [done|].
    exists J, (delete d K), P, A. split; [done|]. intros b x [Hne Hx]%lookup_delete_Some. destruct (HL _ _ Hx) as [H2|[H1 (d' & q' & -> & Hd')]]; [by left|right].
    split; [done|]. exists d', q'. split; [done|]. rewrite lookup_delete_ne; [done|]. intros <-. congruence.
Qed.

#[global] Instance pool_mem_alloc : MemAlloc (pst S).
Proof.
  refine {| mem_own := pool_own |}.
  - apply pool_new_spec.
  - apply pool_delete_spec.
  - intros s L a sz (J & K & P & A & HH & HL) Ha. by apply (backed_range HH), HL.
  - intros s L a b sz sz' (J & K & P & A & HH & HL) Ha Hb. by apply (backed_apart HH); apply HL.
Defined.
End pool.

Lemma demo_p_own : pool_own demo_p ∅.
Proof. exists ∅, ∅, demo_pool, ∅. split; [exact demo_p_held|]. intros a sz E. by rewrite lookup_empty in E. Qed.
