(* ===== verification/Rfs.v ===== *)
(** * The RAM file system

    src/drivers/drvrfs.c: one directory of single-block files on a device that is a
    piece of the kernel's memory, and the request packets (objnode_t of
    krlobjnode_t.h) that reach the driver.

    Memory is kept as byte buffers by start address: what [krlnew] handed out, and
    the callers' strings and buffers.  A pointer is a buffer and an offset into it;
    an access outside every buffer is a [Fault], and so is copying inside one
    buffer.  The device's memory is kept apart from the buffers as blocks of 4096
    bytes by address: memory handed out by [krlnew] does not overlap.  What fresh
    memory contains is arbitrary: byte [i] of the [k]-th allocation is [junk k i].

    Strings are the bytes from a pointer to the end of its buffer; the string
    functions answer [None] where the code would run past that end.  Locks and list
    links of the driver's structures are left out. *)

From S2P Require Import Prelude Bytes MemIf.
#[local] Open Scope Z_scope.

(** ** Request packets *)

Record objnode_t := Objnode {
  on_flgs : Z; on_stus : Z; on_opercode : Z; on_objtype : Z; on_objadr : Z; on_acsflgs : Z; on_acsstus : Z; on_currops : Z;
  on_len : Z; on_ioctrd : Z; on_buf : Z; on_bufcurops : Z; on_bufsz : Z; on_count : Z; on_fname : Z; on_finode : Z
}.
(** The functions that set one field *)
Definition set_opercode (v : Z) (n : objnode_t) : objnode_t :=
  Objnode (on_flgs n) (on_stus n) v (on_objtype n) (on_objadr n) (on_acsflgs n) (on_acsstus n) (on_currops n) (on_len n) (on_ioctrd n) (on_buf n) (on_bufcurops n) (on_bufsz n) (on_count n) (on_fname n) (on_finode n).
Definition set_finode (v : Z) (n : objnode_t) : objnode_t :=
  Objnode (on_flgs n) (on_stus n) (on_opercode n) (on_objtype n) (on_objadr n) (on_acsflgs n) (on_acsstus n) (on_currops n) (on_len n) (on_ioctrd n) (on_buf n) (on_bufcurops n) (on_bufsz n) (on_count n) (on_fname n) v.

(** ** Constants and layout *)

Definition DFCERRSTUS : Z := -1.
Definition DFCOKSTUS : Z := 0.
Definition FSYS_ALCBLKSZ : Z := 0x1000.
Definition FSMM_BLK : Z := 0x400000.
Definition DR_NM_MAX : Z := 104.
Definition FBLKS_MAX : Z := 32.
Definition RDR_NUL_TYPE : Z := 0.
Definition RDR_DIR_TYPE : Z := 1.
Definition RDR_FIL_TYPE : Z := 2.
Definition RDR_DEL_TYPE : Z := 5.
Definition FMD_NUL_TYPE : Z := 0.
Definition FMD_DIR_TYPE : Z := 1.
Definition FMD_FIL_TYPE : Z := 2.
Definition FSDEV_IOCTRCD_DELFILE : Z := 5.
Definition FSDEV_OPENFLG_NEWFILE : Z := 1.
Definition FSDEV_OPENFLG_OPEFILE : Z := 2.

(** Offsets of the fields of [rfsdir_t] (128 bytes) *)
Definition rdr_stus : Z := 0.
Definition rdr_type : Z := 8.
Definition rdr_blknr : Z := 16.
Definition rdr_name : Z := 24.
Definition sizeof_rfsdir_t : Z := 128.
(** of [filblks_t] (16 bytes) *)
Definition fb_blkstart : Z := 0.
Definition fb_blknr : Z := 8.
(** of [rfssublk_t] (216 bytes) *)
Definition rsb_mgic : Z := 8.
Definition rsb_vec : Z := 16.
Definition rsb_flg : Z := 24.
Definition rsb_stus : Z := 32.
Definition rsb_sz : Z := 40.
Definition rsb_sblksz : Z := 48.
Definition rsb_dblksz : Z := 56.
Definition rsb_bmpbks : Z := 64.
Definition rsb_bmpbknr : Z := 72.
Definition rsb_fsysallblk : Z := 80.
Definition rsb_rootdir : Z := 88.
Definition sizeof_rfssublk_t : Z := 216.
(** and of [fimgrhd_t] (632 bytes) *)
Definition fmd_stus : Z := 0.
Definition fmd_type : Z := 8.
Definition fmd_flg : Z := 16.
Definition fmd_sfblk : Z := 24.
Definition fmd_acss : Z := 32.
Definition fmd_newtime : Z := 40.
Definition fmd_acstime : Z := 48.
Definition fmd_fileallbk : Z := 56.
Definition fmd_filesz : Z := 64.
Definition fmd_fileifstbkoff : Z := 72.
Definition fmd_fileiendbkoff : Z := 80.
Definition fmd_curfwritebk : Z := 88.
Definition fmd_curfinwbkoff : Z := 96.
Definition fmd_fleblk (i : Z) : Z := 104 + 16 * i.
Definition fmd_linkpblk : Z := 616.
Definition fmd_linknblk : Z := 624.

(** ** State *)

Record rfsdevext_t := Rfsdevext { rde_flg : Z; rde_stus : Z; rde_mstart : Z; rde_msize : Z; rde_ext : Z }.
Definition rfsdevext_t_init : rfsdevext_t := Rfsdevext 0 0 0 0 0.
Definition sizeof_rfsdevext_t : Z := 64.

(** The memory pool, the buffers, the number of allocations made, the device's
    extension ([dev_extdata]; [None] is [NULL]) and its blocks.  [r_denied] counts the
    allocations of buffers that the pool refused; no code reads it. *)
Record rst (S : Type) := Rst {
  r_mm : S; r_mem : gmap Z (list Z); r_fresh : nat; r_denied : nat; r_ext : option rfsdevext_t; r_disk : gmap Z (list Z)
}.
Arguments Rst {S} r_mm r_mem r_fresh r_denied r_ext r_disk.
Arguments r_mm {S} r.
Arguments r_mem {S} r.
Arguments r_fresh {S} r.
Arguments r_denied {S} r.
Arguments r_ext {S} r.
Arguments r_disk {S} r.

Definition with_mem {S} (m : gmap Z (list Z)) (s : rst S) : rst S := Rst (r_mm s) m (r_fresh s) (r_denied s) (r_ext s) (r_disk s).
Definition with_disk {S} (d : gmap Z (list Z)) (s : rst S) : rst S := Rst (r_mm s) (r_mem s) (r_fresh s) (r_denied s) (r_ext s) d.

(** ** Strings *)

(** [rfs_strcmp]: 1 when equal *)
Fixpoint rfs_strcmp (str_s str_d : list Z) : option Z :=
  match str_s, str_d with
  | s :: str_s', d :: str_d' => if negb (s =? d) then Some 0 else if s =? 0 then Some 1 else rfs_strcmp str_s' str_d'
  | _, _ => None
  end.

Fixpoint rfs_strlen (str_s : list Z) : option Z :=
  match str_s with
  | s :: str_s' => if s =? 0 then Some 0 else (fun n => n + 1) <$> rfs_strlen str_s'
  | [] => None
  end.

(** The length copied and the destination's bytes afterwards. *)
Fixpoint rfs_strcpy (str_s str_d : list Z) : option (Z * list Z) :=
  match str_s, str_d with
  | s :: str_s', _ :: str_d' =>
      if s =? 0 then Some (0, s :: str_d') else '(n, d) ← rfs_strcpy str_s' str_d'; Some (n + 1, s :: d)
  | _, _ => None
  end.

(** The loop of [rfs_chkfilepath] from [chp[i]] on. *)
Fixpoint chkfilepath_loop (chp : list Z) (i : Z) : option Z :=
  match chp with
  | c :: chp' =>
      if c =? 47 then Some 3 else if DR_NM_MAX <=? i then Some 4
      else if (c =? 0) && (1 <? i) then Some 0 else chkfilepath_loop chp' (i + 1)
  | [] => None
  end.

Definition rfs_chkfilepath (fname : list Z) : option Z :=
  match fname with
  | c :: chp => if negb (c =? 47) then Some 2 else chkfilepath_loop chp 1
  | [] => None
  end.

Section rfs.
Context {S : Type} `{MemOps S} (junk : nat -> nat -> Z).
Abbreviation RM A := (M (rst S) A).
Abbreviation ptr := (prod Z Z).

(** ** Memory *)

Definition on_mem {A} (m : M S A) : RM A := fun s =>
  match m (r_mm s) with
  | Ret (a, t) => Ret (a, Rst t (r_mem s) (r_fresh s) (r_denied s) (r_ext s) (r_disk s))
  | Halt e => Halt e
  | Fault => Fault
  | NoFuel => NoFuel
  end.

(** The result of a string function *)
Definition str {A} (o : option A) : RM A := match o with Some a => mret a | None => fault end.

Definition get_buf (b : Z) : RM (list Z) := fun s => match r_mem s !! b with Some l => Ret (l, s) | None => Fault end.
Definition put_buf (b : Z) (l : list Z) : RM unit := modify (fun s => with_mem (<[b := l]> (r_mem s)) s).
(** [n] bytes from [off] on lie in the buffer *)
Definition in_buf (l : list Z) (off n : Z) : bool := (0 <=? off) && (0 <=? n) && (off + n <=? blen l).
Definition load (b off n : Z) : RM (list Z) := l ← get_buf b; if in_buf l off n then mret (slice l off n) else fault.
Definition store (b off : Z) (bs : list Z) : RM unit :=
  l ← get_buf b; if in_buf l off (blen bs) then put_buf b (splice l off bs) else fault.

(** The word at field [f] of the structure at [p] *)
Definition get (p : ptr) (f : Z) : RM Z := bs ← load p.1 (p.2 + f) 8; mret (little_endian_to_Z 8 bs).
Definition set (p : ptr) (f v : Z) : RM unit := store p.1 (p.2 + f) (le64 v).
Definition string_at (p : ptr) : RM (list Z) := l ← get_buf p.1; if in_buf l p.2 1 then mret (drop (Z.to_nat p.2) l) else fault.

Definition hal_memset (b v n : Z) : RM unit := store b 0 (replicate (Z.to_nat n) v).
Definition hal_memcpy (src dst : ptr) (n : Z) : RM unit :=
  if src.1 =? dst.1 then fault else bs ← load src.1 src.2 n; store dst.1 dst.2 bs.

Definition new_buf (bufsz : Z) : RM Z :=
  b ← on_mem (mem_new bufsz);
  if b =? 0 then modify (fun s => Rst (r_mm s) (r_mem s) (r_fresh s) (r_denied s + 1)%nat (r_ext s) (r_disk s)) ;; mret 0 else
  modify (fun s => Rst (r_mm s) (<[b := junk (r_fresh s) <$> seq 0 (Z.to_nat bufsz)]> (r_mem s)) (r_fresh s + 1)%nat (r_denied s) (r_ext s) (r_disk s)) ;;
  mret b.
Definition del_buf (buf bufsz : Z) : RM unit :=
  ok ← on_mem (mem_delete buf bufsz);
  die_if (negb ok) "del buf err" ;;
  modify (fun s => with_mem (delete buf (r_mem s)) s).

(** ** The structures *)

Definition rfsdir_t_init (p : ptr) : RM unit :=
  set p rdr_stus 0 ;; set p rdr_type RDR_NUL_TYPE ;; set p rdr_blknr 0 ;; store p.1 (p.2 + rdr_name) (zeros DR_NM_MAX).
Definition filblks_t_init (p : ptr) : RM unit := set p fb_blkstart 0 ;; set p fb_blknr 0.
(** [krlspinlock_init] clears the first four bytes. *)
Definition rfssublk_t_init (p : ptr) : RM unit :=
  store p.1 p.2 (zeros 4) ;;
  set p rsb_mgic 0x142422 ;; set p rsb_vec 1 ;; set p rsb_flg 0 ;; set p rsb_stus 0 ;; set p rsb_sz sizeof_rfssublk_t ;;
  set p rsb_sblksz 1 ;; set p rsb_dblksz FSYS_ALCBLKSZ ;; set p rsb_bmpbks 1 ;; set p rsb_bmpbknr 0 ;; set p rsb_fsysallblk 0 ;;
  rfsdir_t_init (p.1, p.2 + rsb_rootdir).
Definition fimgrhd_t_init (p : ptr) : RM unit :=
  set p fmd_stus 0 ;; set p fmd_type FMD_NUL_TYPE ;; set p fmd_flg 0 ;; set p fmd_sfblk 0 ;; set p fmd_acss 0 ;;
  set p fmd_newtime 0 ;; set p fmd_acstime 0 ;; set p fmd_fileallbk 0 ;; set p fmd_filesz 0 ;; set p fmd_fileifstbkoff 0x200 ;;
  set p fmd_fileiendbkoff 0 ;; set p fmd_curfwritebk 0 ;; set p fmd_curfinwbkoff 0 ;;
  for_each (seqZ 0 FBLKS_MAX) (fun i => filblks_t_init (p.1, p.2 + fmd_fleblk i)) ;;
  set p fmd_linkpblk 0 ;; set p fmd_linknblk 0.

(** ** The device *)

Definition new_rfsdevext_mmblk (blksz : Z) : RM Z :=
  blkp ← on_mem (mem_new blksz);
  rfsexp ← on_mem (mem_new sizeof_rfsdevext_t);
  if (blkp =? 0) || (rfsexp =? 0) then mret DFCERRSTUS else
  modify (fun s => Rst (r_mm s) (r_mem s) (r_fresh s + 1)%nat (r_denied s) (Some (Rfsdevext 0 0 blkp blksz 0))
    (list_to_map ((fun i => (blkp + FSYS_ALCBLKSZ * i, junk (r_fresh s) <$> seq (Z.to_nat (FSYS_ALCBLKSZ * i)) 4096)) <$> seqZ 0 (blksz / FSYS_ALCBLKSZ)))) ;;
  mret DFCOKSTUS.

Definition ret_rfsdevext : RM rfsdevext_t := fun s => match r_ext s with Some e => Ret (e, s) | None => Fault end.
(** The address of a block; [NULL] is 0 *)
Definition ret_rfsdevblk (blknr : Z) : RM Z :=
  e ← ret_rfsdevext;
  let blkp := rde_mstart e +u blknr * FSYS_ALCBLKSZ in
  mret (if (rde_mstart e +u rde_msize e) <=? blkp then 0 else blkp).
Definition ret_rfsdevmaxblknr : RM Z := e ← ret_rfsdevext; mret (rde_msize e / FSYS_ALCBLKSZ).

(** A block of the device, and memory copied to and from it *)
Definition get_blk (p : Z) : RM (list Z) := fun s => match r_disk s !! p with Some l => Ret (l, s) | None => Fault end.
Definition put_blk (p : Z) (l : list Z) : RM unit := _ ← get_blk p; modify (fun s => with_disk (<[p := l]> (r_disk s)) s).

Definition read_rfsdevblk (rdadr blknr : Z) : RM Z :=
  p ← ret_rfsdevblk blknr;
  if p =? 0 then mret DFCERRSTUS else
  l ← get_blk p; store rdadr 0 l ;; mret DFCOKSTUS.
Definition write_rfsdevblk (weadr blknr : Z) : RM Z :=
  p ← ret_rfsdevblk blknr;
  if p =? 0 then mret DFCERRSTUS else
  l ← load weadr 0 FSYS_ALCBLKSZ; put_blk p l ;; mret DFCOKSTUS.

(** ** The superblock and the bitmap *)

Definition get_superblk : RM Z :=
  buf ← new_buf FSYS_ALCBLKSZ;
  if buf =? 0 then mret 0 else
  hal_memset buf 0 FSYS_ALCBLKSZ ;;
  r ← read_rfsdevblk buf 0;
  if r =? DFCERRSTUS then del_buf buf FSYS_ALCBLKSZ ;; mret 0 else mret buf.

Definition del_superblk (sbp : Z) : RM unit :=
  r ← write_rfsdevblk sbp 0;
  die_if (r =? DFCERRSTUS) "del superblk err" ;;
  del_buf sbp FSYS_ALCBLKSZ.

Definition get_bitmapblk : RM Z :=
  sbp ← get_superblk;
  if sbp =? 0 then mret 0 else
  buf ← new_buf FSYS_ALCBLKSZ;
  if buf =? 0 then mret 0 else
  hal_memset buf 0 FSYS_ALCBLKSZ ;;
  bmp ← get (sbp, 0) rsb_bmpbks;
  r ← read_rfsdevblk buf bmp;
  if r =? DFCERRSTUS then del_buf buf FSYS_ALCBLKSZ ;; del_superblk sbp ;; mret 0 else
  del_superblk sbp ;; mret buf.

Definition del_bitmapblk (bitmap : Z) : RM unit :=
  sbp ← get_superblk;
  die_if (sbp =? 0) "del superblk err" ;;
  bmp ← get (sbp, 0) rsb_bmpbks;
  r ← write_rfsdevblk bitmap bmp;
  if r =? DFCERRSTUS then del_superblk sbp ;; halt "del superblk err1" else
  del_superblk sbp ;;
  del_buf bitmap FSYS_ALCBLKSZ.

Definition rfs_new_blk : RM Z :=
  bitmap ← get_bitmapblk;
  if bitmap =? 0 then mret 0 else
  r ← find_first (seqZ 2 (FSYS_ALCBLKSZ - 2)) (fun blknr =>
        c ← load bitmap blknr 1; if bool_decide (c = [0]) then store bitmap blknr [1] ;; mret (Some blknr) else mret None);
  del_bitmapblk bitmap ;;
  mret (default 0 r).

Definition rfs_del_blk (blknr : Z) : RM unit :=
  die_if (blknr >? FSYS_ALCBLKSZ) "rfs del blk err" ;;
  bitmap ← get_bitmapblk;
  die_if (bitmap =? 0) "rfs del blk err1" ;;
  store bitmap blknr [0] ;;
  del_bitmapblk bitmap.

(** ** The root directory *)

Definition get_rootdir : RM Z :=
  sbp ← get_superblk;
  if sbp =? 0 then mret 0 else
  buf ← new_buf sizeof_rfsdir_t;
  if buf =? 0 then del_superblk sbp ;; mret 0 else
  hal_memcpy (sbp, rsb_rootdir) (buf, 0) sizeof_rfsdir_t ;;
  del_superblk sbp ;; mret buf.

Definition del_rootdir (rdir : Z) : RM unit := del_buf rdir sizeof_rfsdir_t.

Definition get_rootdirfile_blk : RM Z :=
  rtdir ← get_rootdir;
  if rtdir =? 0 then mret 0 else
  buf ← new_buf FSYS_ALCBLKSZ;
  if buf =? 0 then del_rootdir rtdir ;; mret 0 else
  hal_memset buf 0 FSYS_ALCBLKSZ ;;
  nr ← get (rtdir, 0) rdr_blknr;
  r ← read_rfsdevblk buf nr;
  if r =? DFCERRSTUS then del_buf buf FSYS_ALCBLKSZ ;; del_rootdir rtdir ;; mret 0 else
  del_rootdir rtdir ;; mret buf.

Definition del_rootdirfile_blk (blkp : Z) : RM unit :=
  nr ← get (blkp, 0) fmd_sfblk;
  r ← write_rfsdevblk blkp nr;
  die_if (r =? DFCERRSTUS) "del_rootfile_blk err" ;;
  del_buf blkp FSYS_ALCBLKSZ.

(** [for (; dirp < maxchkp; dirp++)]: the offset of the first file entry of the name
    in the directory block at [b], from offset [off] on.  An entry takes 128 bytes, so
    33 rounds leave a block of 4096 bytes. *)
Fixpoint dir_search (fuel : nat) (b off : Z) (fname : list Z) : RM (option Z) :=
  match fuel with
  | O => nofuel
  | Datatypes.S fuel' =>
      if (b +u off) <? (b +u FSYS_ALCBLKSZ -u 1) then
        ty ← get (b, off) rdr_type;
        if ty =? RDR_FIL_TYPE then
          nm ← string_at (b, off + rdr_name);
          c ← str (rfs_strcmp nm fname);
          if c =? 1 then mret (Some off) else dir_search fuel' b (off + sizeof_rfsdir_t) fname
        else dir_search fuel' b (off + sizeof_rfsdir_t) fname
      else mret None
  end.
Definition dir_fuel : nat := 33.

(** The directory has no entries: [curfwritebk == fleblk[0].fb_blkstart && curfinwbkoff == fileifstbkoff] *)
Definition dir_empty (fmp : Z) : RM bool :=
  cw ← get (fmp, 0) fmd_curfwritebk; fs ← get (fmp, fmd_fleblk 0) fb_blkstart;
  if cw =? fs then co ← get (fmp, 0) fmd_curfinwbkoff; io ← get (fmp, 0) fmd_fileifstbkoff; mret (co =? io) else mret false.

(** ** Paths *)

(** The status and what [buf], an array of [DR_NM_MAX] bytes cleared before, holds
    afterwards; the caller's path is a string in memory, [NULL] is 0. *)
Definition rfs_ret_fname (fpath : Z) : RM (Z * list Z) :=
  let buf := zeros DR_NM_MAX in
  if fpath =? 0 then mret (6, buf) else
  p ← string_at (fpath, 0);
  stus ← str (rfs_chkfilepath p);
  if negb (stus =? 0) then mret (stus, buf) else
  '(_, d) ← str (rfs_strcpy (drop 1 p) buf);
  mret (0, d).

(** ** Files *)

Definition rfs_chkfileisindev (fname : list Z) : RM Z :=
  ch ← str (rfs_strlen fname);
  if (ch <? 1) || (DR_NM_MAX <=? ch) then mret 4 else
  rdblkp ← get_rootdirfile_blk;
  if rdblkp =? 0 then mret 2 else
  ty ← get (rdblkp, 0) fmd_type;
  rets ← (if negb (ty =? FMD_DIR_TYPE) then mret 3 else
          e ← dir_empty rdblkp;
          if (e : bool) then mret 0 else
          off ← get (rdblkp, 0) fmd_fileifstbkoff;
          r ← dir_search dir_fuel rdblkp off fname;
          mret (match r with Some _ => 1 | None => 0 end));
  del_rootdirfile_blk rdblkp ;;
  mret rets.

Definition rfs_new_dirfileblk (fname : list Z) (flgtype : Z) : RM Z :=
  if negb (flgtype =? RDR_FIL_TYPE) then mret DFCERRSTUS else
  buf ← new_buf FSYS_ALCBLKSZ;
  if buf =? 0 then mret DFCERRSTUS else
  hal_memset buf 0 FSYS_ALCBLKSZ ;;
  fblk ← rfs_new_blk;
  if fblk =? 0 then del_buf buf FSYS_ALCBLKSZ ;; mret DFCERRSTUS else
  rdirblk ← get_rootdirfile_blk;
  if rdirblk =? 0 then del_buf buf FSYS_ALCBLKSZ ;; mret DFCERRSTUS else
  off ← get (rdirblk, 0) fmd_curfinwbkoff;
  rets ← (if (rdirblk +u FSYS_ALCBLKSZ) <=? (rdirblk +u off) then mret DFCERRSTUS else
          set (rdirblk, off) rdr_stus 0 ;;
          set (rdirblk, off) rdr_type flgtype ;;
          set (rdirblk, off) rdr_blknr fblk ;;
          old ← string_at (rdirblk, off + rdr_name);
          '(_, new) ← str (rfs_strcpy fname old);
          store rdirblk (off + rdr_name) new ;;
          sz ← get (rdirblk, 0) fmd_filesz;
          set (rdirblk, 0) fmd_filesz (sz +u sizeof_rfsdir_t) ;;
          co ← get (rdirblk, 0) fmd_curfinwbkoff;
          set (rdirblk, 0) fmd_curfinwbkoff (co +u sizeof_rfsdir_t) ;;
          fimgrhd_t_init (buf, 0) ;;
          set (buf, 0) fmd_type FMD_FIL_TYPE ;;
          set (buf, 0) fmd_sfblk fblk ;;
          set (buf, 0) fmd_curfwritebk fblk ;;
          set (buf, 0) fmd_curfinwbkoff 0x200 ;;
          set (buf, fmd_fleblk 0) fb_blkstart fblk ;;
          set (buf, fmd_fleblk 0) fb_blknr 1 ;;
          r ← write_rfsdevblk buf fblk;
          mret (if r =? DFCERRSTUS then DFCERRSTUS else DFCOKSTUS));
  del_rootdirfile_blk rdirblk ;;
  del_buf buf FSYS_ALCBLKSZ ;;
  mret rets.

Definition rfs_new_file (fname : Z) : RM Z :=
  '(st, fne) ← rfs_ret_fname fname;
  if negb (st =? 0) then mret DFCERRSTUS else
  c ← rfs_chkfileisindev fne;
  if negb (c =? 0) then mret DFCERRSTUS else
  rfs_new_dirfileblk fne RDR_FIL_TYPE.

Definition del_dirfileblk_core (fname : list Z) : RM Z :=
  rblkp ← get_rootdirfile_blk;
  if rblkp =? 0 then mret 5 else
  ty ← get (rblkp, 0) fmd_type;
  rets ← (if negb (ty =? FMD_DIR_TYPE) then mret 4 else
          e ← dir_empty rblkp;
          if (e : bool) then mret 3 else
          off ← get (rblkp, 0) fmd_fileifstbkoff;
          r ← dir_search dir_fuel rblkp off fname;
          match r with
          | Some dirp =>
              nr ← get (rblkp, dirp) rdr_blknr;
              rfs_del_blk nr ;;
              rfsdir_t_init (rblkp, dirp) ;;
              set (rblkp, dirp) rdr_type RDR_DEL_TYPE ;;
              mret 0
          | None => mret 1
          end);
  del_rootdirfile_blk rblkp ;;
  mret rets.

Definition rfs_del_dirfileblk (fname flgtype val : Z) : RM Z :=
  if negb (flgtype =? RDR_FIL_TYPE) || negb (val =? 0) then mret DFCERRSTUS else
  '(st, fne) ← rfs_ret_fname fname;
  if negb (st =? 0) then mret DFCERRSTUS else
  r ← del_dirfileblk_core fne;
  mret (if negb (r =? 0) then DFCERRSTUS else DFCOKSTUS).

Definition rfs_del_file (fname flg : Z) : RM Z :=
  if negb (flg =? 0) then mret DFCERRSTUS else rfs_del_dirfileblk fname RDR_FIL_TYPE 0.

(** The opened file's block in a buffer, or [NULL] *)
Definition rfs_openfileblk (fname : Z) : RM Z :=
  '(st, fne) ← rfs_ret_fname fname;
  if negb (st =? 0) then mret 0 else
  rblkp ← get_rootdirfile_blk;
  if rblkp =? 0 then mret 0 else
  ty ← get (rblkp, 0) fmd_type;
  rets ← (if negb (ty =? FMD_DIR_TYPE) then mret 0 else
          e ← dir_empty rblkp;
          if (e : bool) then mret 0 else
          off ← get (rblkp, 0) fmd_fileifstbkoff;
          r ← dir_search dir_fuel rblkp off fne;
          match r with
          | Some dirp =>
              buf ← new_buf FSYS_ALCBLKSZ;
              if buf =? 0 then mret 0 else
              nr ← get (rblkp, dirp) rdr_blknr;
              r ← read_rfsdevblk buf nr;
              if r =? DFCERRSTUS then del_buf buf FSYS_ALCBLKSZ ;; mret 0 else
              fty ← get (buf, 0) fmd_type;
              fio ← get (buf, 0) fmd_fileifstbkoff;
              if (fty =? FMD_NUL_TYPE) || negb (fio =? 0x200) then del_buf buf FSYS_ALCBLKSZ ;; mret 0 else mret buf
          | None => mret 0
          end);
  del_rootdirfile_blk rblkp ;;
  mret rets.

Definition rfs_closefileblk (fblkp : Z) : RM Z :=
  nr ← get (fblkp, 0) fmd_sfblk;
  _ ← write_rfsdevblk fblkp nr;
  del_buf fblkp FSYS_ALCBLKSZ ;;
  mret DFCOKSTUS.

(** [fmd_sfblk != fmd_curfwritebk || fmd_curfwritebk != fmd_fleblk[0].fb_blkstart] *)
Definition not_first_block (fmp : Z) : RM bool :=
  sf ← get (fmp, 0) fmd_sfblk; cw ← get (fmp, 0) fmd_curfwritebk;
  if negb (sf =? cw) then mret true else fs ← get (fmp, fmd_fleblk 0) fb_blkstart; mret (negb (cw =? fs)).

Definition rfs_writefileblk (fmp buf len : Z) : RM Z :=
  e ← not_first_block fmp;
  if (e : bool) then mret DFCERRSTUS else
  co ← get (fmp, 0) fmd_curfinwbkoff;
  if FSYS_ALCBLKSZ <=? (co +u len) then mret DFCERRSTUS else
  hal_memcpy (buf, 0) (fmp, co) len ;;
  sz ← get (fmp, 0) fmd_filesz;
  set (fmp, 0) fmd_filesz (sz +u len) ;;
  co' ← get (fmp, 0) fmd_curfinwbkoff;
  set (fmp, 0) fmd_curfinwbkoff (co' +u len) ;;
  nr ← get (fmp, 0) fmd_curfwritebk;
  _ ← write_rfsdevblk fmp nr;
  mret DFCOKSTUS.

Definition rfs_readfileblk (fmp buf len : Z) : RM Z :=
  e ← not_first_block fmp;
  if (e : bool) then mret DFCERRSTUS else
  io ← get (fmp, 0) fmd_fileifstbkoff;
  if (FSYS_ALCBLKSZ -u io) <? len then mret DFCERRSTUS else
  hal_memcpy (fmp, io) (buf, 0) len ;;
  mret DFCOKSTUS.

(** ** Formatting *)

Definition create_superblk : RM bool :=
  buf ← new_buf FSYS_ALCBLKSZ;
  if buf =? 0 then mret false else
  hal_memset buf 0 FSYS_ALCBLKSZ ;;
  rfssublk_t_init (buf, 0) ;;
  mx ← ret_rfsdevmaxblknr;
  set (buf, 0) rsb_fsysallblk mx ;;
  r ← write_rfsdevblk buf 0;
  if r =? DFCERRSTUS then mret false else
  del_buf buf FSYS_ALCBLKSZ ;; mret true.

Definition create_bitmap : RM bool :=
  sbp ← get_superblk;
  if sbp =? 0 then mret false else
  buf ← new_buf FSYS_ALCBLKSZ;
  if buf =? 0 then mret false else
  bitmapblk ← get (sbp, 0) rsb_bmpbks;
  devmaxblk ← get (sbp, 0) rsb_fsysallblk;
  rets ← (if devmaxblk >? FSYS_ALCBLKSZ then mret false else
          hal_memset buf 1 FSYS_ALCBLKSZ ;;
          for_each (seqZ 2 (devmaxblk - 2)) (fun bi => store buf bi [0]) ;;
          r ← write_rfsdevblk buf bitmapblk;
          mret (negb (r =? DFCERRSTUS)));
  del_superblk sbp ;;
  del_buf buf FSYS_ALCBLKSZ ;;
  mret rets.

Definition create_rootdir : RM bool :=
  sbp ← get_superblk;
  if sbp =? 0 then mret false else
  buf ← new_buf FSYS_ALCBLKSZ;
  rets ← (if buf =? 0 then mret false else
          hal_memset buf 0 FSYS_ALCBLKSZ ;;
          blk ← rfs_new_blk;
          rets ← (if blk =? 0 then mret false else
                  store sbp (rsb_rootdir + rdr_name) [47] ;;
                  set (sbp, rsb_rootdir) rdr_type RDR_DIR_TYPE ;;
                  set (sbp, rsb_rootdir) rdr_blknr blk ;;
                  fimgrhd_t_init (buf, 0) ;;
                  set (buf, 0) fmd_type FMD_DIR_TYPE ;;
                  set (buf, 0) fmd_sfblk blk ;;
                  set (buf, 0) fmd_curfwritebk blk ;;
                  set (buf, 0) fmd_curfinwbkoff 0x200 ;;
                  set (buf, fmd_fleblk 0) fb_blkstart blk ;;
                  set (buf, fmd_fleblk 0) fb_blknr 1 ;;
                  r ← write_rfsdevblk buf blk;
                  mret (negb (r =? DFCERRSTUS)));
          del_buf buf FSYS_ALCBLKSZ ;;
          mret rets);
  del_superblk sbp ;;
  mret rets.

Definition rfs_fmat : RM unit :=
  ok ← create_superblk; die_if (negb ok) "create superblk err" ;;
  ok ← create_bitmap; die_if (negb ok) "create bitmap err" ;;
  ok ← create_rootdir; die_if (negb ok) "create rootdir err".
Definition init_rfs : RM unit := rfs_fmat.

(** ** The driver's operations *)

(** Each takes the request packet and returns its status and the packet afterwards. *)
Definition rfs_open_file (obp : objnode_t) : RM (Z * objnode_t) :=
  if on_fname obp =? 0 then mret (DFCERRSTUS, obp) else
  fmdp ← rfs_openfileblk (on_fname obp);
  if fmdp =? 0 then mret (DFCERRSTUS, obp) else mret (DFCOKSTUS, set_finode fmdp obp).

Definition rfs_close_file (obp : objnode_t) : RM (Z * objnode_t) :=
  if on_finode obp =? 0 then mret (DFCERRSTUS, obp) else r ← rfs_closefileblk (on_finode obp); mret (r, obp).

Definition rfs_read_file (obp : objnode_t) : RM (Z * objnode_t) :=
  if (on_finode obp =? 0) || (on_buf obp =? 0) || negb (on_bufsz obp =? FSYS_ALCBLKSZ) then mret (DFCERRSTUS, obp) else
  r ← rfs_readfileblk (on_finode obp) (on_buf obp) (on_len obp); mret (r, obp).

Definition rfs_write_file (obp : objnode_t) : RM (Z * objnode_t) :=
  if (on_finode obp =? 0) || (on_buf obp =? 0) || negb (on_bufsz obp =? FSYS_ALCBLKSZ) then mret (DFCERRSTUS, obp) else
  r ← rfs_writefileblk (on_finode obp) (on_buf obp) (on_len obp); mret (r, obp).

Definition rfs_open (obp : objnode_t) : RM (Z * objnode_t) :=
  if on_acsflgs obp =? FSDEV_OPENFLG_OPEFILE then rfs_open_file obp else
  if on_acsflgs obp =? FSDEV_OPENFLG_NEWFILE then r ← rfs_new_file (on_fname obp); mret (r, obp) else
  mret (DFCERRSTUS, obp).
Definition rfs_close (obp : objnode_t) : RM (Z * objnode_t) := rfs_close_file obp.
Definition rfs_read (obp : objnode_t) : RM (Z * objnode_t) := rfs_read_file obp.
Definition rfs_write (obp : objnode_t) : RM (Z * objnode_t) := rfs_write_file obp.
Definition rfs_ioctrl (obp : objnode_t) : RM (Z * objnode_t) :=
  if on_ioctrd obp =? FSDEV_IOCTRCD_DELFILE then r ← rfs_del_file (on_fname obp) 0; mret (r, obp) else mret (DFCERRSTUS, obp).
(** [rfs_lseek], [rfs_dev_start], [rfs_dev_stop], [rfs_set_powerstus], [rfs_enum_dev],
    [rfs_flush], [rfs_shutdown] *)
Definition rfs_not_supported (obp : objnode_t) : RM (Z * objnode_t) := mret (DFCERRSTUS, obp).
End rfs.
