(* ===== verification/RfsMem.v ===== *)
(** * RAM file system: buffers and blocks

    The state of the driver as the buffers [m] in memory and the blocks [d] of the
    device, and rules that run its primitives step by step: each says what [m] and
    [d] are after the step. *)

From S2P Require Import Prelude Bytes Boot BootPages KmsobInv Kmempool MemIf Rfs.
#[local] Open Scope Z_scope.

Lemma good_block : good_size FSYS_ALCBLKSZ.
Proof. right. split; [done|]. by exists 0. Qed.
Lemma good_small sz : 1 <= sz <= 2048 -> good_size sz.
Proof. by left. Qed.

Section rules.
Context {S : Type} {HMO : MemOps S} {HMA : MemAlloc S} (junk : nat -> nat -> Z).
(** The device: [N] blocks from address [ms] on. *)
Context (ms N : Z).
Implicit Types (s : rst S) (m d : gmap Z (list Z)) (F : gmap Z Z) (b i : Z) (l : list Z).

(** The address of a block of the device *)
Definition bk (i : Z) : Z := ms + FSYS_ALCBLKSZ * i.

Definition geometry : Prop := 0 < ms /\ bk N < u64max /\ 3 <= N <= FSYS_ALCBLKSZ.

Definition disk_ok d : Prop := forall i, 0 <= i < N -> exists l, d !! bk i = Some l /\ blen l = FSYS_ALCBLKSZ.

(** Buffers at addresses of the kernel are memory of the pool; [F] is the memory
    of others. *)
Definition rowned F s : Prop :=
  exists J, mem_own (r_mm s) J /\ F ⊆ J /\ forall a l, r_mem s !! a = Some l -> base <= a -> J !! a = Some (blen l) /\ F !! a = None.

(** The state; at least [k] allocations have been refused so far. *)
Record St k F m d s : Prop := {
  st_den : (k <= r_denied s)%nat;
  st_owned : rowned F s;
  st_ext : exists e, r_ext s = Some e /\ rde_mstart e = ms /\ rde_msize e = FSYS_ALCBLKSZ * N;
  st_disk : disk_ok d;
  st_mem : r_mem s = m;
  st_dev : r_disk s = d
}.

Lemma St_mem k F m d s b l l' : St k F m d s -> m !! b = Some l -> blen l' = blen l -> St k F (<[b := l']> m) d (with_mem (<[b := l']> (r_mem s)) s).
Proof.
  intros [Hden (J & HJ & HF & Hm) He Hd <- <-] Hb Hl. split; cbn [r_mem r_ext r_disk r_mm r_denied with_mem]; [done| |done..].
  exists J. split_and!; [done|done|]. cbn [r_mem with_mem]. intros a x [[<- <-]|[Hne Ha]]%lookup_insert_Some; [|by apply Hm].
  intros Hk. rewrite Hl. by apply Hm.
Qed.

Lemma St_weaken k k' F m d s : St k F m d s -> (k' <= k)%nat -> St k' F m d s.
Proof. intros [H1 H2 H3 H4 H5 H6] Hk. split; [lia|done..]. Qed.

Lemma disk_ok_insert d i l : disk_ok d -> blen l = FSYS_ALCBLKSZ -> disk_ok (<[bk i := l]> d).
Proof.
  intros Hd Hl j Hj. destruct (decide (bk j = bk i)) as [->|Hne]; [exists l; by rewrite lookup_insert_eq|].
  destruct (Hd j Hj) as (x & Hx & Hlx). exists x. by rewrite lookup_insert_ne.
Qed.

Lemma bk_inj i j : bk i = bk j -> i = j.
Proof. unfold bk, FSYS_ALCBLKSZ. lia. Qed.

(** ** Loads and stores *)

Section step.
Context {k : nat} {F : gmap Z Z} {m d : gmap Z (list Z)} {s : rst S} (HS : St k F m d s) {E : string -> Prop}.

Lemma get_buf_eq b l : m !! b = Some l -> get_buf b s = Ret (l, s).
Proof using HS. intros Hb. unfold get_buf. rewrite (st_mem _ _ _ _ _ HS). by rewrite Hb. Qed.

Lemma load_eq b l off n : m !! b = Some l -> 0 <= off -> 0 <= n -> off + n <= blen l -> load b off n s = Ret (slice l off n, s).
Proof using HS.
  intros Hb Ho Hn Hl. unfold load. rewrite (bind_eq _ _ _ _ _ (get_buf_eq _ _ Hb)). unfold in_buf. by replace ((0 <=? off) && (0 <=? n) && (off + n <=? blen l)) with true by lia.
Qed.

Lemma get_eq b l o f : m !! b = Some l -> 0 <= o + f -> o + f + 8 <= blen l -> get (b, o) f s = Ret (rd64 l (o + f), s).
Proof using HS. intros Hb Ho Hl. unfold get. cbn [fst snd]. by rewrite (bind_eq _ _ _ _ _ (load_eq b l (o + f) 8 Hb Ho ltac:(lia) Hl)). Qed.

Lemma string_at_eq b l o : m !! b = Some l -> 0 <= o < blen l -> string_at (b, o) s = Ret (drop (Z.to_nat o) l, s).
Proof using HS.
  intros Hb Ho. unfold string_at. cbn [fst snd]. rewrite (bind_eq _ _ _ _ _ (get_buf_eq _ _ Hb)). unfold in_buf.
  by replace ((0 <=? o) && (0 <=? 1) && (o + 1 <=? blen l)) with true by lia.
Qed.

Lemma h_get b l o f (Q : Z -> rst S -> Prop) : m !! b = Some l -> 0 <= o + f -> o + f + 8 <= blen l -> Q (rd64 l (o + f)) s -> wph (get (b, o) f) s Q E.
Proof using HS. intros Hb Ho Hl HQ. by rewrite (wph_det _ _ _ _ _ _ (get_eq b l o f Hb Ho Hl)). Qed.

Lemma h_store b l off bs (Q : unit -> rst S -> Prop) : m !! b = Some l -> 0 <= off -> off + blen bs <= blen l ->
  (forall s', St k F (<[b := splice l off bs]> m) d s' -> Q tt s') -> wph (store b off bs) s Q E.
Proof using HS.
  intros Hb Ho Hl HQ. unfold store. apply wph_bind. rewrite (wph_det _ _ _ _ _ _ (get_buf_eq _ _ Hb)). pose proof (blen_nonneg bs). unfold in_buf.
  replace ((0 <=? off) && (0 <=? blen bs) && (off + blen bs <=? blen l)) with true by lia. unfold put_buf. apply HQ. apply (St_mem k F m d s b l); [done|done|].
  by apply blen_splice.
Qed.

Lemma h_set b l o f v (Q : unit -> rst S -> Prop) : m !! b = Some l -> 0 <= o + f -> o + f + 8 <= blen l ->
  (forall s', St k F (<[b := wr64 l (o + f) v]> m) d s' -> Q tt s') -> wph (set (b, o) f v) s Q E.
Proof using HS. intros Hb Ho Hl HQ. unfold set. apply (h_store b l); [done|done|rewrite blen_le64; cbn [snd]; lia|done]. Qed.

(** Storing what is there changes nothing. *)
Lemma h_set_same b l o f v (Q : unit -> rst S -> Prop) : m !! b = Some l -> 0 <= o + f -> o + f + 8 <= blen l -> slice l (o + f) 8 = le64 v ->
  (forall s', St k F m d s' -> Q tt s') -> wph (set (b, o) f v) s Q E.
Proof using HS.
  intros Hb Ho Hl Hv HQ. apply (h_set b l); [done|done|done|]. unfold wr64. rewrite splice_id; [|done|by rewrite blen_le64|by rewrite blen_le64]. by rewrite insert_id.
Qed.

Lemma h_memset b l v (Q : unit -> rst S -> Prop) : m !! b = Some l -> blen l = FSYS_ALCBLKSZ ->
  (forall s', St k F (<[b := replicate 4096 v]> m) d s' -> Q tt s') -> wph (hal_memset b v FSYS_ALCBLKSZ) s Q E.
Proof using HS.
  intros Hb Hl HQ. unfold hal_memset. change (Z.to_nat FSYS_ALCBLKSZ) with 4096%nat.
  assert (Hr : blen (replicate 4096 v) = 4096) by (unfold blen; by rewrite length_replicate).
  apply (h_store b l); [done|lia|rewrite Hr, Hl; done|]. rewrite splice_full by (rewrite Hr, Hl; done). done.
Qed.

Lemma h_memcpy b l o b' l' o' n (Q : unit -> rst S -> Prop) : m !! b = Some l -> m !! b' = Some l' -> b <> b' ->
  0 <= n -> 0 <= o -> o + n <= blen l -> 0 <= o' -> o' + n <= blen l' ->
  (forall s', St k F (<[b' := splice l' o' (slice l o n)]> m) d s' -> Q tt s') -> wph (hal_memcpy (b, o) (b', o') n) s Q E.
Proof using HS.
  intros Hb Hb' Hne Hn Ho Hl Ho' Hl' HQ. unfold hal_memcpy. cbn [fst snd]. replace (b =? b') with false by lia.
  apply wph_bind. rewrite (wph_det _ _ _ _ _ _ (load_eq b l o n Hb Ho Hn Hl)). apply (h_store b' l'); [done|done|by rewrite blen_slice|done].
Qed.

(** ** Allocation *)

Lemma h_new_buf sz (Q : Z -> rst S -> Prop) : 1 <= sz <= MALCSZ_MAX -> (forall s', St (k + 1) F m d s' -> Q 0 s') ->
  (forall b l s', m !! b = None -> base <= b -> b + sz < u64max -> blen l = sz -> St k F (<[b := l]> m) d s' -> Q b s') -> wph (new_buf junk sz) s Q E.
Proof using HS.
  intros Hsz H0 HQ. destruct HS as [Hden (J & HJ & HF & Hm) He Hd <- <-]. unfold new_buf. apply wph_bind. unfold wph, on_mem. pose proof (mem_new_spec (r_mm s) J sz HJ Hsz) as Hnew.
  unfold wp in Hnew. destruct (mem_new sz (r_mm s)) as [[b t]| | |] eqn:En; [|done..]. destruct Hnew as [[-> ->]|[HJb HJ']].
  { cbn. apply H0. split; cbn; [lia|by exists J|done..]. }
  destruct (mem_range _ _ b sz HJ' (lookup_insert_eq _ _ _)) as (Hb & _ & Hbs). pose proof base_val. replace (b =? 0) with false by lia. cbn.
  apply (HQ b (junk (r_fresh s) <$> seq 0 (Z.to_nat sz))); [|done|done|unfold blen; rewrite length_fmap, length_seq; lia|].
  - destruct (r_mem s !! b) as [x|] eqn:Ex; [|done]. destruct (Hm _ _ Ex Hb). congruence.
  - split; cbn; [done| |done..]. exists (<[b := sz]> J). split_and!; [done|by apply insert_subseteq_r; [eapply lookup_weaken_None|]|].
    cbn. intros a x [[<- <-]|[Hne Ha]]%lookup_insert_Some Hk.
    + rewrite lookup_insert_eq. split; [f_equal; unfold blen; rewrite length_fmap, length_seq; lia|by eapply lookup_weaken_None].
    + rewrite lookup_insert_ne by done. by apply Hm.
Qed.

Lemma h_del_buf b l sz (Q : unit -> rst S -> Prop) : m !! b = Some l -> blen l = sz -> base <= b -> good_size sz ->
  (forall s', St k F (delete b m) d s' -> Q tt s') -> wph (del_buf b sz) s Q E.
Proof using HS.
  intros Hb Hl Hkb Hg HQ. destruct HS as [Hden (J & HJ & HF & Hm) He Hd <- <-]. destruct (Hm _ _ Hb Hkb) as [HJb HFb]. rewrite Hl in HJb.
  unfold del_buf. apply wph_bind. unfold wph, on_mem. pose proof (mem_delete_spec (r_mm s) J b sz HJ HJb Hg) as Hdel.
  unfold wp in Hdel. destruct (mem_delete b sz (r_mm s)) as [[r t]| | |]; [|done..]. destruct Hdel as [-> HJ'].
  apply HQ. split; cbn; [done| |done..]. exists (delete b J). split_and!; [done| |].
  - apply map_subseteq_spec. intros a x Ha. rewrite lookup_delete_ne by congruence. by eapply lookup_weaken.
  - cbn. intros a x [Hne Ha]%lookup_delete_Some Hka. rewrite lookup_delete_ne by done. by apply Hm.
Qed.

(** ** Blocks of the device *)

Lemma ret_rfsdevblk_eq (HG : geometry) i : 0 <= i < N -> ret_rfsdevblk i s = Ret (bk i, s).
Proof using HS.
  intros Hi. destruct HS as [_ _ (e & He & E1 & E2) _ _ _]. destruct HG as (Hms & Hend & HN). unfold ret_rfsdevblk, ret_rfsdevext.
  unfold mbind, M_bind. rewrite He, E1, E2. unfold bk, FSYS_ALCBLKSZ in *. rewrite !u64_small by lia. replace (i * 4096) with (4096 * i) by lia.
  by replace (ms + 4096 * N <=? ms + 4096 * i) with false by lia.
Qed.

Lemma h_read (HG : geometry) b l i x (Q : Z -> rst S -> Prop) : m !! b = Some l -> blen l = FSYS_ALCBLKSZ -> 0 <= i < N -> d !! bk i = Some x ->
  (forall s', blen x = FSYS_ALCBLKSZ -> St k F (<[b := x]> m) d s' -> Q DFCOKSTUS s') -> wph (read_rfsdevblk b i) s Q E.
Proof using HS.
  intros Hb Hl Hi Hx HQ. destruct (st_disk _ _ _ _ _ HS i Hi) as (x' & Hx' & Hlx). rewrite Hx in Hx'. injection Hx' as <-.
  unfold read_rfsdevblk. apply wph_bind. rewrite (wph_det _ _ _ _ _ _ (ret_rfsdevblk_eq HG i Hi)).
  replace (bk i =? 0) with false by (destruct HG; unfold bk, FSYS_ALCBLKSZ; lia). apply wph_bind. unfold wph at 1, get_blk. rewrite (st_dev _ _ _ _ _ HS), Hx.
  apply wph_bind. apply (h_store b l); [done|lia|lia|]. rewrite splice_full by lia. intros s' HS'. by apply HQ.
Qed.

Lemma h_write (HG : geometry) b l i (Q : Z -> rst S -> Prop) : m !! b = Some l -> blen l = FSYS_ALCBLKSZ -> 0 <= i < N ->
  (forall s', St k F m (<[bk i := l]> d) s' -> Q DFCOKSTUS s') -> wph (write_rfsdevblk b i) s Q E.
Proof using HS.
  intros Hb Hl Hi HQ. destruct (st_disk _ _ _ _ _ HS i Hi) as (x & Hx & Hlx). unfold write_rfsdevblk. apply wph_bind.
  rewrite (wph_det _ _ _ _ _ _ (ret_rfsdevblk_eq HG i Hi)). replace (bk i =? 0) with false by (destruct HG; unfold bk, FSYS_ALCBLKSZ; lia).
  apply wph_bind. rewrite (wph_det _ _ _ _ _ _ (load_eq b l 0 FSYS_ALCBLKSZ Hb ltac:(lia) ltac:(done) ltac:(lia))).
  rewrite slice_full by done. apply wph_bind. unfold put_blk, get_blk, wph at 1, mbind, M_bind. rewrite (st_dev _ _ _ _ _ HS), Hx.
  apply HQ. pose proof HS as [Hk Ho He Hd Hm Hdd]. split; cbn; [done|done|done|by apply disk_ok_insert|done|by rewrite Hdd].
Qed.
End step.
End rules.
