(* ===== verification/RfsBlk.v ===== *)
(** * RAM file system: superblock and bitmap

    Taking the superblock, the bitmap and the root directory into buffers and
    writing them back; the block allocator. *)

From S2P Require Import Prelude Bytes Boot BootPages KmsobInv Kmempool MemIf Rfs RfsMem.
#[local] Open Scope Z_scope.

(** The only halts: no memory for the superblock when the bitmap is written back or
    read for a deletion. *)
Definition oom (e : string) : Prop := e = "del superblk err"%string \/ e = "rfs del blk err1"%string.

(** Repeated writes to one buffer *)
Ltac fold_ins H := repeat rewrite insert_insert_eq in H.

Section blk.
Context {S : Type} {HMO : MemOps S} {HMA : MemAlloc S} (junk : nat -> nat -> Z).
Context (ms N : Z) (HG : geometry ms N).
Implicit Types (s : rst S) (m d : gmap Z (list Z)) (F : gmap Z Z) (b i : Z) (l : list Z).
Abbreviation bk := (bk ms).
Abbreviation St := (St ms N).

Lemma blk0 : bk 0 = ms.
Proof. unfold RfsMem.bk. lia. Qed.
Lemma in0 : 0 <= 0 < N.
Proof using HG. destruct HG. lia. Qed.
Lemma in1 : 0 <= 1 < N.
Proof using HG. destruct HG. lia. Qed.

Lemma addr_nz b : base <= b -> (b =? 0) = false.
Proof. pose proof base_val. lia. Qed.

Section step.
Context {k : nat} {F : gmap Z Z} {m d : gmap Z (list Z)} {s : rst S} (HS : St k F m d s) {E : string -> Prop}.

Lemma block_len i l : 0 <= i < N -> d !! bk i = Some l -> blen l = FSYS_ALCBLKSZ.
Proof using HS. intros Hi Hl. destruct (st_disk _ _ _ _ _ _ _ HS i Hi) as (x & Hx & Hlx). congruence. Qed.

Lemma h_get_superblk x (Q : Z -> rst S -> Prop) : d !! bk 0 = Some x -> (forall s', St (k + 1) F m d s' -> Q 0 s') ->
  (forall b s', m !! b = None -> base <= b -> St k F (<[b := x]> m) d s' -> Q b s') -> wph (get_superblk junk) s Q E.
Proof using HS HG.
  intros Hx H0 HQ. unfold get_superblk. apply wph_bind. apply (h_new_buf junk ms N HS); [done|exact H0|].
  intros b l s1 Hb Hk _ Hl HS1. rewrite (addr_nz b Hk). apply wph_bind. apply (h_memset ms N HS1 b l); [apply lookup_insert_eq|done|]. intros s2 HS2. fold_ins HS2.
  apply wph_bind. apply (h_read ms N HS2 HG b (replicate 4096 0) 0 x); [apply lookup_insert_eq|done|apply in0|done|]. intros s3 _ HS3. fold_ins HS3. by apply HQ.
Qed.

Lemma h_del_superblk b l (Q : unit -> rst S -> Prop) : m !! b = Some l -> blen l = FSYS_ALCBLKSZ -> base <= b ->
  (forall s', St k F (delete b m) (<[bk 0 := l]> d) s' -> Q tt s') -> wph (del_superblk b) s Q E.
Proof using HS HG.
  intros Hb Hl Hk HQ. unfold del_superblk. apply wph_bind. apply (h_write ms N HS HG b l); [done|done|apply in0|]. intros s1 HS1.
  apply wph_bind. apply wph_die_if; [done|]. intros _. apply (h_del_buf ms N HS1 b l); [done|done|done|apply good_block|done].
Qed.

(** The superblock written back unchanged. *)
Lemma h_del_superblk_same b x m0 (Q : unit -> rst S -> Prop) : m = <[b := x]> m0 -> m0 !! b = None -> d !! bk 0 = Some x -> base <= b ->
  (forall s', St k F m0 d s' -> Q tt s') -> wph (del_superblk b) s Q E.
Proof using HS HG.
  intros Em Hb Hx Hk HQ. apply (h_del_superblk b x); [rewrite Em; apply lookup_insert_eq|by apply (block_len 0 x in0)|done|].
  rewrite Em, delete_insert_id by done. rewrite insert_id by done. done.
Qed.
End step.

Section bitmap.
Context {k : nat} {F : gmap Z Z} {m d : gmap Z (list Z)} {s : rst S} (HS : St k F m d s) (E : string -> Prop).
Context (x y : list Z) (Hx : d !! bk 0 = Some x) (Hbm : rd64 x rsb_bmpbks = 1) (Hy : d !! bk 1 = Some y).

Lemma h_get_bitmapblk (Q : Z -> rst S -> Prop) : (forall m' s', m ⊆ m' -> St (k + 1) F m' d s' -> Q 0 s') ->
  (forall b s', m !! b = None -> base <= b -> St k F (<[b := y]> m) d s' -> Q b s') -> wph (get_bitmapblk junk) s Q E.
Proof using HS HG Hx Hbm Hy.
  intros H0 HQ. unfold get_bitmapblk. apply wph_bind. apply (h_get_superblk HS x); [done|by intros s' HS'; apply (H0 m)|]. intros sb s1 Hsb Hk HS1. rewrite (addr_nz sb Hk).
  apply wph_bind. apply (h_new_buf junk ms N HS1); [done|by intros s' HS'; apply (H0 (<[sb := x]> m)); [apply insert_subseteq|]|]. intros b l s2 Hb Hkb _ Hl HS2. rewrite (addr_nz b Hkb).
  apply lookup_insert_None in Hb as [Hb Hne].
  apply wph_bind. apply (h_memset ms N HS2 b l); [apply lookup_insert_eq|done|]. intros s3 HS3. fold_ins HS3. pose proof (block_len HS 0 x in0 Hx) as Hlx.
  apply wph_bind. rewrite (wph_det _ _ _ _ _ _ (get_eq ms N HS3 sb x 0 rsb_bmpbks ltac:(by rewrite lookup_insert_ne, lookup_insert_eq) ltac:(done) ltac:(rewrite Hlx; done))).
  rewrite Z.add_0_l, Hbm. apply wph_bind. apply (h_read ms N HS3 HG b (replicate 4096 0) 1 y); [apply lookup_insert_eq|done|apply in1|done|]. intros s4 _ HS4. fold_ins HS4.
  cbn. apply wph_bind. rewrite insert_insert_ne in HS4 by done. apply (h_del_superblk_same HS4 sb x (<[b := y]> m)); [done|by rewrite lookup_insert_ne|done|done|].
  intros s5 HS5. by apply HQ.
Qed.
End bitmap.

Lemma h_del_bitmapblk k F m d s (E : string -> Prop) x b l (Q : unit -> rst S -> Prop) : St k F m d s -> d !! bk 0 = Some x -> rd64 x rsb_bmpbks = 1 ->
  m !! b = Some l -> blen l = FSYS_ALCBLKSZ -> base <= b -> (forall e, oom e -> E e) ->
  (forall s', St k F (delete b m) (<[bk 1 := l]> d) s' -> Q tt s') -> wph (del_bitmapblk junk b) s Q E.
Proof using HG.
  intros HS Hx Hbm Hb Hl Hk HE HQ. unfold del_bitmapblk. apply wph_bind. apply (h_get_superblk HS x); [done| |].
  { intros s' HS'. apply wph_bind, wph_die_if; [|done]. intros _. apply HE. by left. }
  intros sb s1 Hsb Hks HS1. apply wph_bind, wph_die_if; [by rewrite (addr_nz sb Hks)|]. intros _. pose proof (block_len HS 0 x in0 Hx) as Hlx.
  assert (Hne : sb <> b) by congruence.
  apply wph_bind. rewrite (wph_det _ _ _ _ _ _ (get_eq ms N HS1 sb x 0 rsb_bmpbks ltac:(by rewrite lookup_insert_eq) ltac:(done) ltac:(rewrite Hlx; done))).
  rewrite Z.add_0_l, Hbm. apply wph_bind. apply (h_write ms N HS1 HG b l); [by rewrite lookup_insert_ne|done|apply in1|]. intros s2 HS2. cbn.
  apply wph_bind. apply (h_del_superblk_same HS2 sb x m); [done|done| |done|].
  { rewrite lookup_insert_ne; [done|]. intros ?%bk_inj. done. }
  intros s3 HS3. apply (h_del_buf ms N HS3 b l); [done|done|done|apply good_block|done].
Qed.

(** ** Blocks *)

(** The first free block of a bitmap *)
Definition first_free (y : list Z) (i : Z) : Prop := 2 <= i < FSYS_ALCBLKSZ /\ y !! Z.to_nat i = Some 0 /\ forall j, 2 <= j < i -> y !! Z.to_nat j <> Some 0.
Definition no_free (y : list Z) : Prop := forall j, 2 <= j < FSYS_ALCBLKSZ -> y !! Z.to_nat j <> Some 0.

Lemma slice_one (l : list Z) i v : 0 <= i -> slice l i 1 = [v] <-> l !! Z.to_nat i = Some v.
Proof.
  intros Hi. split.
  - intros E. pose proof (slice_lookup l i 1 0 Hi) as H. rewrite E in H. cbn in H. by rewrite Nat.add_0_r in H.
  - intros Hl. unfold slice. rewrite (drop_S l v _ Hl). cbn. done.
Qed.

Lemma h_scan k F m d s E b y n (Q : option Z -> rst S -> Prop) : forall a, St k F m d s -> m !! b = Some y -> blen y = FSYS_ALCBLKSZ -> 0 <= a -> a + n <= FSYS_ALCBLKSZ ->
  ((forall j, a <= j < a + n -> y !! Z.to_nat j <> Some 0) -> Q None s) ->
  (forall i s', a <= i < a + n -> y !! Z.to_nat i = Some 0 -> (forall j, a <= j < i -> y !! Z.to_nat j <> Some 0) ->
     St k F (<[b := <[Z.to_nat i := 1]> y]> m) d s' -> Q (Some i) s') ->
  wph (find_first (seqZ a n) (fun blknr => c ← load b blknr 1; if bool_decide (c = [0]) then store b blknr [1] ;; mret (Some blknr) else mret None)) s Q E.
Proof.
  assert (exists c, Z.to_nat n = c) as [c Hc] by eauto. revert n Hc. induction c as [|c IH]; intros n Hc a HS Hb Hy Ha Han HN HQ.
  { rewrite seqZ_nil by lia. apply HN. lia. }
  rewrite seqZ_step by lia. cbn [find_first]. apply wph_bind, wph_bind. rewrite (wph_det _ _ _ _ _ _ (load_eq ms N HS b y a 1 Hb Ha ltac:(lia) ltac:(lia))).
  destruct (bool_decide (slice y a 1 = [0])) eqn:Ec; bool_to_prop; rewrite slice_one in Ec by done.
  - apply wph_bind. apply (h_store ms N HS b y); [done|done|rewrite blen_cons, blen_nil; lia|]. intros s' HS'. rewrite splice_one in HS' by lia.
    apply HQ; [lia|done|lia|done].
  - apply (IH (n - 1)); [lia|done|done|done|lia|lia| |].
    + intros Hnone. apply HN. intros j Hj. destruct (decide (j = a)) as [->|]; [done|]. apply Hnone. lia.
    + intros i s' Hi H1 H2 HS'. apply HQ; [lia|done| |done]. intros j Hj. destruct (decide (j = a)) as [->|]; [done|]. apply H2. lia.
Qed.

Section alloc.
Context {k : nat} {F : gmap Z Z} {m d : gmap Z (list Z)} {s : rst S} (HS : St k F m d s) {E : string -> Prop} (HE : forall e, oom e -> E e).
Context (x y : list Z) (Hx : d !! bk 0 = Some x) (Hbm : rd64 x rsb_bmpbks = 1) (Hy : d !! bk 1 = Some y).

Lemma h_rfs_new_blk (Q : Z -> rst S -> Prop) : (forall m' s', m ⊆ m' -> St (k + 1) F m' d s' -> Q 0 s') -> (forall s', no_free y -> St k F m d s' -> Q 0 s') ->
  (forall i s', first_free y i -> St k F m (<[bk 1 := <[Z.to_nat i := 1]> y]> d) s' -> Q i s') -> wph (rfs_new_blk junk) s Q E.
Proof using HS HG HE Hx Hbm Hy.
  intros H0 Hn HQ. pose proof (block_len HS 1 y in1 Hy) as Hly. unfold rfs_new_blk. apply wph_bind. apply (h_get_bitmapblk HS E x y); [done|done|done|done|].
  intros b s1 Hb Hk HS1. rewrite (addr_nz b Hk). apply wph_bind. apply (h_scan k F (<[b := y]> m) d s1 E b y); [done|apply lookup_insert_eq|done|lia|done| |].
  - intros Hnone. apply wph_bind. eapply (h_del_bitmapblk k F _ d s1 E x b y); [done|done|done|apply lookup_insert_eq|done|done|done|].
    intros s2 HS2. rewrite delete_insert_id, (insert_id d) in HS2 by done. apply Hn; [|done]. intros j Hj. apply Hnone. unfold FSYS_ALCBLKSZ in *. lia.
  - intros i s2 Hi Hi0 Hmin HS2. fold_ins HS2. apply wph_bind. eapply (h_del_bitmapblk k F _ d s2 E x b (<[Z.to_nat i := 1]> y)); [done|done|done|apply lookup_insert_eq| |done|done|].
    { unfold blen. rewrite length_insert. done. }
    intros s3 HS3. rewrite delete_insert_id in HS3 by done. change (default 0 (Some i)) with i. apply HQ; [|done]. unfold first_free, FSYS_ALCBLKSZ in *. split_and!; [lia|lia|done|done].
Qed.

Lemma h_rfs_del_blk i (Q : unit -> rst S -> Prop) : 0 <= i < FSYS_ALCBLKSZ ->
  (forall s', St k F m (<[bk 1 := <[Z.to_nat i := 0]> y]> d) s' -> Q tt s') -> wph (rfs_del_blk junk i) s Q E.
Proof using HS HG HE Hx Hbm Hy.
  intros Hi HQ. pose proof (block_len HS 1 y in1 Hy) as Hly. unfold rfs_del_blk. apply wph_bind, wph_die_if; [unfold FSYS_ALCBLKSZ in *; lia|]. intros _.
  apply wph_bind. apply (h_get_bitmapblk HS E x y); [done|done|done| |].
  { intros m' s' _ _. apply wph_bind, wph_die_if; [|done]. intros _. apply HE. by right. }
  intros b s1 Hb Hk HS1. apply wph_bind, wph_die_if; [by rewrite (addr_nz b Hk)|]. intros _. apply wph_bind.
  apply (h_store ms N HS1 b y); [apply lookup_insert_eq|lia|rewrite blen_cons, blen_nil; lia|]. intros s2 HS2. rewrite splice_one in HS2 by lia. fold_ins HS2.
  eapply (h_del_bitmapblk k F _ d s2 E x b (<[Z.to_nat i := 0]> y)); [done|done|done|apply lookup_insert_eq| |done|done|].
  { unfold blen. rewrite length_insert. done. }
  intros s3 HS3. rewrite delete_insert_id in HS3 by done. by apply HQ.
Qed.
End alloc.

(** ** The root directory's block *)

Section root.
Context {k : nat} {F : gmap Z Z} {m d : gmap Z (list Z)} {s : rst S} (HS : St k F m d s) {E : string -> Prop}.
Context (x : list Z) (Hx : d !! bk 0 = Some x).

Lemma h_get_rootdir (Q : Z -> rst S -> Prop) : (forall s', St (k + 1) F m d s' -> Q 0 s') ->
  (forall b s', m !! b = None -> base <= b -> St k F (<[b := slice x rsb_rootdir sizeof_rfsdir_t]> m) d s' -> Q b s') -> wph (get_rootdir junk) s Q E.
Proof using HS HG Hx.
  intros H0 HQ. pose proof (block_len HS 0 x in0 Hx) as Hlx. unfold get_rootdir. apply wph_bind. apply (h_get_superblk HS x); [done|exact H0|]. intros sb s1 Hsb Hk HS1. rewrite (addr_nz sb Hk).
  apply wph_bind. apply (h_new_buf junk ms N HS1); [done| |].
  { intros s2 HS2. cbn. apply wph_bind. apply (h_del_superblk_same HS2 sb x m); [done|done|done|done|]. done. }
  intros b l s2 Hb Hkb _ Hl HS2. rewrite (addr_nz b Hkb). apply lookup_insert_None in Hb as [Hb Hne].
  apply wph_bind. apply (h_memcpy ms N HS2 sb x rsb_rootdir b l 0); [by rewrite lookup_insert_ne, lookup_insert_eq|apply lookup_insert_eq|done|done|done|rewrite Hlx; done|done|rewrite Hl; done|].
  intros s3 HS3. fold_ins HS3. rewrite splice_full in HS3 by (rewrite blen_slice; [done|done|done|rewrite Hlx; done]).
  apply wph_bind. rewrite insert_insert_ne in HS3 by done. apply (h_del_superblk_same HS3 sb x (<[b := slice x rsb_rootdir sizeof_rfsdir_t]> m)); [done|by rewrite lookup_insert_ne|done|done|].
  intros s4 HS4. by apply HQ.
Qed.

Context (rb : Z) (z : list Z) (Hrb : rd64 x (rsb_rootdir + rdr_blknr) = rb) (Hin : 0 <= rb < N) (Hz : d !! bk rb = Some z).

Lemma h_get_rootdirfile_blk (Q : Z -> rst S -> Prop) : (forall s', St (k + 1) F m d s' -> Q 0 s') ->
  (forall b s', m !! b = None -> base <= b -> b + FSYS_ALCBLKSZ < u64max -> St k F (<[b := z]> m) d s' -> Q b s') -> wph (get_rootdirfile_blk junk) s Q E.
Proof using HS HG Hx Hrb Hin Hz.
  intros H0 HQ. pose proof (block_len HS 0 x in0 Hx) as Hlx. unfold get_rootdirfile_blk. apply wph_bind. apply h_get_rootdir; [done|]. intros rt s1 Hrt Hk HS1. rewrite (addr_nz rt Hk).
  set (rd := slice x rsb_rootdir sizeof_rfsdir_t) in *. assert (Hlr : blen rd = 128) by (apply blen_slice; [done|done|rewrite Hlx; done]).
  apply wph_bind. apply (h_new_buf junk ms N HS1); [done| |].
  { intros s2 HS2. cbn. apply wph_bind. apply (h_del_buf ms N HS2 rt rd); [apply lookup_insert_eq|done|done|apply good_small; done|]. intros s3 HS3. rewrite delete_insert_id in HS3 by done. by apply H0. }
  intros b l s2 Hb Hkb Hbs Hl HS2. rewrite (addr_nz b Hkb). apply lookup_insert_None in Hb as [Hb Hne].
  apply wph_bind. apply (h_memset ms N HS2 b l); [apply lookup_insert_eq|done|]. intros s3 HS3. fold_ins HS3.
  apply wph_bind. rewrite (wph_det _ _ _ _ _ _ (get_eq ms N HS3 rt rd 0 rdr_blknr ltac:(by rewrite lookup_insert_ne, lookup_insert_eq) ltac:(done) ltac:(rewrite Hlr; done))).
  unfold rd at 1. rewrite rd64_slice by done. rewrite Z.add_0_l, Hrb.
  apply wph_bind. apply (h_read ms N HS3 HG b (replicate 4096 0) rb z); [apply lookup_insert_eq|done|done|done|]. intros s4 _ HS4. fold_ins HS4.
  cbn. apply wph_bind. apply (h_del_buf ms N HS4 rt rd); [by rewrite lookup_insert_ne, lookup_insert_eq|done|done|apply good_small; done|].
  intros s5 HS5. rewrite insert_insert_ne, delete_insert_id in HS5; [|by rewrite lookup_insert_ne|done]. by apply HQ.
Qed.
End root.

Lemma h_del_rootdirfile_blk k F m d s E b l rb (Q : unit -> rst S -> Prop) : St k F m d s -> m !! b = Some l -> blen l = FSYS_ALCBLKSZ -> base <= b ->
  rd64 l fmd_sfblk = rb -> 0 <= rb < N -> (forall s', St k F (delete b m) (<[bk rb := l]> d) s' -> Q tt s') -> wph (del_rootdirfile_blk b) s Q E.
Proof using HG.
  intros HS Hb Hl Hk Hrb Hin HQ. unfold del_rootdirfile_blk. apply wph_bind.
  rewrite (wph_det _ _ _ _ _ _ (get_eq ms N HS b l 0 fmd_sfblk Hb ltac:(done) ltac:(rewrite Hl; done))). rewrite Z.add_0_l, Hrb.
  apply wph_bind. apply (h_write ms N HS HG b l); [done|done|done|]. intros s1 HS1. apply wph_bind, wph_die_if; [done|]. intros _.
  apply (h_del_buf ms N HS1 b l); [done|done|done|apply good_block|done].
Qed.
End blk.
