(* ===== verification/RfsDir.v ===== *)
(** * RAM file system: directory and file blocks

    What the bytes of the root directory's block and of a file's block mean, and how
    the driver's updates of them change the meaning. *)

From S2P Require Import Prelude Bytes Boot BootPages KmsobInv Kmempool MemIf Rfs RfsMem RfsBlk.
#[local] Open Scope Z_scope.

(** ** Names *)

(** The names that a path can give: 1 to 102 bytes, no slash, no terminator. *)
Definition good_name (nm : list Z) : Prop := nm <> [] /\ blen nm <= DR_NM_MAX - 2 /\ Forall (fun c => c <> 0 /\ c <> 47) nm.
(** A terminated name, with whatever follows in memory *)
Definition cstr (nm r : list Z) : list Z := nm ++ 0 :: r.

Definition no_nul (nm : list Z) : Prop := Forall (fun c => c <> 0) nm.

Lemma good_no_nul nm : good_name nm -> no_nul nm.
Proof. intros (_ & _ & H). eapply Forall_impl; [exact H|]. by intros c [? _]. Qed.

Lemma strcmp_eq a : forall b r r', no_nul a -> no_nul b -> rfs_strcmp (cstr a r) (cstr b r') = Some (if decide (a = b) then 1 else 0).
Proof.
  unfold cstr. induction a as [|c a IH]; intros [|e b] r r' Ha Hb; cbn [app rfs_strcmp].
  - done.
  - apply Forall_cons in Hb as [He _]. by replace (0 =? e) with false by lia.
  - apply Forall_cons in Ha as [Hc _]. by replace (c =? 0) with false by lia.
  - apply Forall_cons in Ha as [Hc Ha]. apply Forall_cons in Hb as [He Hb]. destruct (c =? e) eqn:E; bool_to_prop; cbn [negb].
    + subst e. replace (c =? 0) with false by lia. rewrite IH by done. do 2 f_equal. repeat case_decide; congruence.
    + rewrite decide_False by congruence. done.
Qed.

Lemma strlen_eq a r : no_nul a -> rfs_strlen (cstr a r) = Some (blen a).
Proof.
  unfold cstr. induction a as [|c a IH]; intros Ha; cbn [app rfs_strlen]; [done|]. apply Forall_cons in Ha as [Hc Ha].
  replace (c =? 0) with false by lia. rewrite IH by done. cbn. rewrite blen_cons. f_equal. lia.
Qed.

Lemma strcpy_eq a r : forall old, no_nul a -> blen a < blen old -> rfs_strcpy (cstr a r) old = Some (blen a, cstr a (drop (Datatypes.S (length a)) old)).
Proof.
  unfold cstr. induction a as [|c a IH]; intros [|o old] Ha Hl; rewrite ?blen_nil, ?blen_cons in Hl; try (pose proof (blen_nonneg a); lia); try lia; cbn [app rfs_strcpy length].
  - cbn. by rewrite drop_0.
  - apply Forall_cons in Ha as [Hc Ha]. replace (c =? 0) with false by lia. rewrite IH by (done || lia). cbn. rewrite blen_cons. do 2 f_equal. lia.
Qed.

(** ** Paths *)

Lemma chkfilepath_loop_eq nm r : forall i, Forall (fun c => c <> 0 /\ c <> 47) nm -> 1 <= i -> i + blen nm < DR_NM_MAX -> (nm = [] -> 1 < i) ->
  chkfilepath_loop (cstr nm r) i = Some 0.
Proof.
  unfold cstr, DR_NM_MAX. induction nm as [|c nm IH]; intros i Hn Hi Hl Hne; cbn [app chkfilepath_loop].
  - unfold DR_NM_MAX. rewrite blen_nil in Hl. specialize (Hne eq_refl). replace (0 =? 47) with false by lia. replace (104 <=? i) with false by lia. cbn. by replace (1 <? i) with true by lia.
  - apply Forall_cons in Hn as [[Hc H47] Hn]. rewrite blen_cons in Hl. pose proof (blen_nonneg nm). replace (c =? 47) with false by lia. unfold DR_NM_MAX. replace (104 <=? i) with false by lia.
    replace (c =? 0) with false by lia. apply IH; [done|lia|lia|lia].
Qed.

Lemma chkfilepath_good nm r : good_name nm -> rfs_chkfilepath (47 :: cstr nm r) = Some 0.
Proof.
  intros (Hne & Hl & Hn). cbn. unfold DR_NM_MAX in *. destruct nm as [|c nm]; [done|].
  apply chkfilepath_loop_eq; [done|lia|unfold DR_NM_MAX; lia|done].
Qed.

(** The longest prefix without a terminator: what a string pointer denotes. *)
Fixpoint c_prefix (l : list Z) : list Z := match l with [] => [] | c :: l' => if c =? 0 then [] else c :: c_prefix l' end.

(** ** Directory entries *)

Inductive ent := Live (nm : list Z) (blk : Z) | Dead.

Definition slot (j : Z) : Z := 0x200 + sizeof_rfsdir_t * j.

Definition ent_at (z : list Z) (off : Z) (e : ent) : Prop :=
  match e with
  | Live nm blk => good_name nm /\ rd64 z (off + rdr_type) = RDR_FIL_TYPE /\ rd64 z (off + rdr_blknr) = blk /\
      slice z (off + rdr_name) (blen nm + 1) = nm ++ [0]
  | Dead => rd64 z (off + rdr_type) = RDR_DEL_TYPE
  end.

(** Block [z] is the root directory at block [rb] with the entries [E]. *)
Record dir_ok (z : list Z) (rb : Z) (E : list ent) : Prop := {
  dk_len : blen z = FSYS_ALCBLKSZ;
  dk_type : rd64 z fmd_type = FMD_DIR_TYPE;
  dk_sf : rd64 z fmd_sfblk = rb;
  dk_cw : rd64 z fmd_curfwritebk = rb;
  dk_fs : rd64 z (fmd_fleblk 0) = rb;
  dk_ifst : rd64 z fmd_fileifstbkoff = 0x200;
  dk_cur : rd64 z fmd_curfinwbkoff = slot (Z.of_nat (length E));
  dk_max : (length E <= 28)%nat;
  dk_ent j e : E !! j = Some e -> ent_at z (slot (Z.of_nat j)) e;
  dk_rest j : Z.of_nat (length E) <= j < 28 -> rd64 z (slot j + rdr_type) = RDR_NUL_TYPE
}.

(** The first live entry of a name: its index and its block. *)
Fixpoint dir_find (nm : list Z) (E : list ent) (j : Z) : option (Z * Z) :=
  match E with
  | [] => None
  | Live n b :: E' => if decide (n = nm) then Some (j, b) else dir_find nm E' (j + 1)
  | Dead :: E' => dir_find nm E' (j + 1)
  end.

Lemma dir_find_some nm E : forall j k b, dir_find nm E j = Some (k, b) -> j <= k /\ E !! Z.to_nat (k - j) = Some (Live nm b).
Proof.
  induction E as [|e E IH]; intros j k b; cbn [dir_find]; [done|]. destruct e as [n b'|].
  - case_decide as Hn; [intros [= <- <-]; subst; rewrite Z.sub_diag; done|]. intros [Hle H]%IH. split; [lia|].
    replace (Z.to_nat (k - j)) with (Datatypes.S (Z.to_nat (k - (j + 1)))) by lia. done.
  - intros [Hle H]%IH. split; [lia|]. replace (Z.to_nat (k - j)) with (Datatypes.S (Z.to_nat (k - (j + 1)))) by lia. done.
Qed.

Lemma dir_find_none nm E : forall j, dir_find nm E j = None -> forall k b, E !! k <> Some (Live nm b).
Proof.
  induction E as [|e E IH]; intros j; cbn [dir_find]; [done|]. destruct e as [n b'|].
  - case_decide as Hn; [done|]. intros H [|k] b; cbn; [congruence|]. by apply (IH (j + 1)).
  - intros H [|k] b; cbn; [congruence|]. by apply (IH (j + 1)).
Qed.

Lemma dir_find_app nm b E : forall j, dir_find nm E j = None -> dir_find nm (E ++ [Live nm b]) j = Some (j + Z.of_nat (length E), b).
Proof.
  induction E as [|e E IH]; intros j; cbn [dir_find app length].
  - intros _. rewrite decide_True by done. do 2 f_equal. lia.
  - destruct e as [n b'|]; [case_decide; [done|]|]; intros Hn; rewrite IH by done; do 2 f_equal; lia.
Qed.

Lemma drop_slice (z : list Z) o n : 0 <= o -> 0 <= n -> drop (Z.to_nat o) z = slice z o n ++ drop (Z.to_nat (o + n)) z.
Proof. intros Ho Hn. unfold slice. rewrite <- (take_drop (Z.to_nat n) (drop (Z.to_nat o) z)) at 1. rewrite drop_drop. do 2 f_equal. lia. Qed.

Section search.
Context {S : Type} {HMO : MemOps S} {HMA : MemAlloc S} (ms N : Z).
Context {c : nat} {F : gmap Z Z} {m d : gmap Z (list Z)} {s : rst S} (HS : St ms N c F m d s).
Context (b : Z) (z : list Z) (rb : Z) (E : list ent) (Hb : m !! b = Some z) (HD : dir_ok z rb E) (Hlo : 0 <= b) (Hhi : b + FSYS_ALCBLKSZ < u64max).

Lemma dir_search_eq nm r : no_nul nm -> forall k fuel j, 0 <= j -> j + Z.of_nat k = 28 -> (k < fuel)%nat ->
  dir_search fuel b (slot j) (cstr nm r) s = Ret ((fun p => slot p.1) <$> dir_find nm (drop (Z.to_nat j) E) j, s).
Proof using HS Hb HD Hlo Hhi.
  intros Hnm. pose proof (dk_len _ _ _ HD) as Hlz. unfold FSYS_ALCBLKSZ in *. induction k as [|k IH]; intros [|fuel] j Hj Hk Hf; try lia; cbn [dir_search].
  - unfold FSYS_ALCBLKSZ, slot, sizeof_rfsdir_t. rewrite !u64_small by (rewrite ?u64_small by lia; lia).
    replace (b + (512 + 128 * j) <? b + 4096 - 1) with false by lia. rewrite drop_ge; [done|]. pose proof (dk_max _ _ _ HD). lia.
  - assert (Hin : 512 <= slot j /\ slot j + 128 <= 4096) by (unfold slot, sizeof_rfsdir_t; lia). unfold FSYS_ALCBLKSZ. rewrite !u64_small by (rewrite ?u64_small by lia; lia).
    replace (b + slot j <? b + 4096 - 1) with true by lia.
    rewrite (bind_eq _ _ _ _ _ (get_eq ms N HS b z (slot j) rdr_type Hb ltac:(unfold rdr_type; lia) ltac:(unfold rdr_type; lia))).
    assert (Hnext : slot j + sizeof_rfsdir_t = slot (j + 1)) by (unfold slot; lia). specialize (IH fuel (j + 1) ltac:(lia) ltac:(lia) ltac:(lia)). rewrite Hnext.
    destruct (decide (Z.to_nat j < length E)%nat) as [Hlt|Hge].
    + destruct (lookup_lt_is_Some_2 E _ Hlt) as [e He]. pose proof (dk_ent _ _ _ HD _ _ He) as Hat. rewrite Z2Nat.id in Hat by done.
      rewrite (drop_S _ _ _ He). replace (Datatypes.S (Z.to_nat j)) with (Z.to_nat (j + 1)) by lia. destruct e as [n bl|]; cbn [ent_at dir_find] in *.
      * destruct Hat as (Hgn & Ht & _ & Hn). rewrite Ht, Z.eqb_refl. pose proof (good_no_nul _ Hgn) as Hnn. destruct Hgn as (_ & Hln & _). unfold DR_NM_MAX in Hln.
        rewrite (bind_eq _ _ _ _ _ (string_at_eq ms N HS b z (slot j + rdr_name) Hb ltac:(unfold rdr_name; lia))).
        rewrite (drop_slice z (slot j + rdr_name) (blen n + 1)) by (unfold rdr_name; pose proof (blen_nonneg n); lia). rewrite Hn, <- app_assoc.
        change ([0] ++ ?t) with (0 :: t). fold (cstr n (drop (Z.to_nat (slot j + rdr_name + (blen n + 1))) z)). rewrite strcmp_eq by done. cbn [str].
        case_decide as Hdec; cbn; [done|]. apply IH.
      * rewrite Hat. cbn. apply IH.
    + rewrite (dk_rest _ _ _ HD j) by lia. cbn. rewrite IH. rewrite !drop_ge by lia. done.
Qed.

Lemma dir_search_full nm r : no_nul nm -> dir_search dir_fuel b 0x200 (cstr nm r) s = Ret ((fun p => slot p.1) <$> dir_find nm E 0, s).
Proof using HS Hb HD Hlo Hhi. intros Hnm. change 0x200 with (slot 0). rewrite (dir_search_eq nm r Hnm 28 dir_fuel 0) by (unfold dir_fuel; lia). by rewrite drop_0. Qed.

Lemma dir_empty_eq : dir_empty b s = Ret (bool_decide (E = []), s).
Proof using HS Hb HD.
  pose proof (dk_len _ _ _ HD) as Hlz. unfold dir_empty. rewrite (bind_eq _ _ _ _ _ (get_eq ms N HS b z 0 fmd_curfwritebk Hb ltac:(done) ltac:(rewrite Hlz; done))).
  rewrite (bind_eq _ _ _ _ _ (get_eq ms N HS b z (fmd_fleblk 0) fb_blkstart Hb ltac:(done) ltac:(rewrite Hlz; done))).
  change (0 + fmd_curfwritebk) with fmd_curfwritebk. change (fmd_fleblk 0 + fb_blkstart) with (fmd_fleblk 0). rewrite (dk_cw _ _ _ HD), (dk_fs _ _ _ HD), Z.eqb_refl.
  rewrite (bind_eq _ _ _ _ _ (get_eq ms N HS b z 0 fmd_curfinwbkoff Hb ltac:(done) ltac:(rewrite Hlz; done))).
  rewrite (bind_eq _ _ _ _ _ (get_eq ms N HS b z 0 fmd_fileifstbkoff Hb ltac:(done) ltac:(rewrite Hlz; done))).
  change (0 + fmd_curfinwbkoff) with fmd_curfinwbkoff. change (0 + fmd_fileifstbkoff) with fmd_fileifstbkoff. rewrite (dk_cur _ _ _ HD), (dk_ifst _ _ _ HD).
  unfold mret, M_ret. do 2 f_equal. destruct E as [|e E']; [done|]. rewrite bool_decide_false by done. unfold slot, sizeof_rfsdir_t. cbn [length]. lia.
Qed.
End search.

(** ** Updates of blocks *)

#[local] Opaque rd64 wr64 slice splice zeros.

(** All the constants of the layout *)
Ltac layout :=
  unfold FSYS_ALCBLKSZ, DR_NM_MAX, sizeof_rfsdir_t, rdr_stus, rdr_type, rdr_blknr, rdr_name, fb_blkstart, fb_blknr, fmd_type, fmd_sfblk, fmd_filesz, fmd_fileifstbkoff,
    fmd_fileiendbkoff, fmd_linkpblk, fmd_linknblk, fmd_curfwritebk, fmd_curfinwbkoff, fmd_fleblk, RDR_NUL_TYPE, RDR_FIL_TYPE, RDR_DEL_TYPE, FMD_DIR_TYPE, FMD_FIL_TYPE in *.

(** An entry written at [off], and one cleared. *)
Definition put_entry (z : list Z) (off blk : Z) (nm : list Z) : list Z :=
  splice (wr64 (wr64 (wr64 z (off + rdr_stus) 0) (off + rdr_type) RDR_FIL_TYPE) (off + rdr_blknr) blk) (off + rdr_name) (nm ++ [0]).
Definition clear_entry (z : list Z) (off : Z) : list Z :=
  splice (wr64 (wr64 (wr64 z (off + rdr_stus) 0) (off + rdr_type) RDR_NUL_TYPE) (off + rdr_blknr) 0) (off + rdr_name) (zeros DR_NM_MAX).

Lemma ent_at_frame z z' off e : (forall o n, off <= o -> 0 <= n -> o + n <= off + 128 -> slice z' o n = slice z o n) -> ent_at z off e -> ent_at z' off e.
Proof.
  intros Hf. Transparent rd64. unfold ent_at, good_name, rd64. Opaque rd64. destruct e as [nm blk|].
  - intros ((Hne & Hl & Hn) & H1 & H2 & H3). pose proof (blen_nonneg nm). layout. rewrite !Hf by lia. done.
  - layout. by rewrite Hf by lia.
Qed.

Lemma dir_ok_append z rb E nm blk v : dir_ok z rb E -> (length E < 28)%nat -> good_name nm -> 0 <= blk < u64max ->
  dir_ok (wr64 (wr64 (put_entry z (slot (Z.of_nat (length E))) blk nm) fmd_filesz v) fmd_curfinwbkoff (slot (Z.of_nat (length E)) + sizeof_rfsdir_t)) rb (E ++ [Live nm blk]).
Proof.
  intros HD HE Hgn Hblk. pose proof Hgn as (_ & Hln & _). pose proof (blen_nonneg nm). pose proof u64max_val. destruct HD as [Hl H1 H2 H3 H4 H5 H6 _ H8 H9].
  assert (Hs : 512 <= slot (Z.of_nat (length E)) /\ slot (Z.of_nat (length E)) + 128 <= 4096) by (unfold slot, sizeof_rfsdir_t; lia).
  set (o := slot (Z.of_nat (length E))) in *. unfold put_entry. layout. split; layout.
  - lens. lia.
  - by fields.
  - by fields.
  - by fields.
  - by fields.
  - by fields.
  - fields. rewrite length_app. cbn. unfold o, slot, sizeof_rfsdir_t. lia.
  - rewrite length_app. cbn. lia.
  - intros j e Hj. apply lookup_app_Some in Hj as [Hj|[Hge Hj]].
    + apply (ent_at_frame z); [|by apply H8]. apply lookup_lt_Some in Hj. intros p n Hp Hn Hpn. assert (Ho : slot (Z.of_nat j) + 128 <= o) by (unfold o, slot, sizeof_rfsdir_t; lia).
      assert (512 <= slot (Z.of_nat j)) by (unfold slot, sizeof_rfsdir_t; lia). by fields.
    + apply list_lookup_singleton_Some in Hj as [Hj0 <-]. replace (Z.of_nat j) with (Z.of_nat (length E)) by lia. fold o. unfold ent_at. layout.
      split_and!; [done|by fields|by fields|]. fields. apply slice_splice_same; autorewrite with bytes; lia.
  - intros j Hj. rewrite length_app in Hj. cbn in Hj. assert (Ho : o + 128 <= slot j) by (unfold o, slot, sizeof_rfsdir_t; lia).
    assert (slot j + 128 <= 4096) by (unfold slot, sizeof_rfsdir_t; lia). fields. apply H9. lia.
Qed.

Lemma dir_ok_delete z rb E j : dir_ok z rb E -> (j < length E)%nat ->
  dir_ok (wr64 (clear_entry z (slot (Z.of_nat j))) (slot (Z.of_nat j) + rdr_type) RDR_DEL_TYPE) rb (<[j := Dead]> E).
Proof.
  intros [Hl H1 H2 H3 H4 H5 H6 H7 H8 H9] Hj. pose proof u64max_val.
  assert (Hs : 512 <= slot (Z.of_nat j) /\ slot (Z.of_nat j) + 128 <= 4096) by (unfold slot, sizeof_rfsdir_t; lia).
  set (o := slot (Z.of_nat j)) in *. unfold clear_entry. layout. split; layout; rewrite ?length_insert.
  - lens. lia.
  - by fields.
  - by fields.
  - by fields.
  - by fields.
  - by fields.
  - by fields.
  - done.
  - intros k e. rewrite list_lookup_insert_Some. intros [(-> & <- & _)|[Hne Hk]].
    + fold o. unfold ent_at. layout. by fields.
    + apply (ent_at_frame z); [|by apply H8]. apply lookup_lt_Some in Hk. intros p n Hp Hn Hpn. assert (Ho : slot (Z.of_nat k) + 128 <= o \/ o + 128 <= slot (Z.of_nat k)) by (unfold o, slot, sizeof_rfsdir_t; lia).
      assert (512 <= slot (Z.of_nat k)) by (unfold slot, sizeof_rfsdir_t; lia). by fields.
  - intros k Hk. assert (Ho : o + 128 <= slot k) by (unfold o, slot, sizeof_rfsdir_t; lia). assert (slot k + 128 <= 4096) by (unfold slot, sizeof_rfsdir_t; lia). fields. by apply H9.
Qed.

(** ** File blocks *)

(** Block [f], at block number [blk], is a file of contents [data]; what follows the
    contents is zero. *)
Record file_ok (f : list Z) (blk : Z) (data : list Z) : Prop := {
  fk_len : blen f = FSYS_ALCBLKSZ;
  fk_type : rd64 f fmd_type = FMD_FIL_TYPE;
  fk_sf : rd64 f fmd_sfblk = blk;
  fk_cw : rd64 f fmd_curfwritebk = blk;
  fk_fs : rd64 f (fmd_fleblk 0) = blk;
  fk_ifst : rd64 f fmd_fileifstbkoff = 0x200;
  fk_cur : rd64 f fmd_curfinwbkoff = 0x200 + blen data;
  fk_size : rd64 f fmd_filesz = blen data;
  fk_max : 0x200 + blen data < FSYS_ALCBLKSZ;
  fk_data : slice f 0x200 (FSYS_ALCBLKSZ - 0x200) = data ++ zeros (FSYS_ALCBLKSZ - 0x200 - blen data)
}.

(** A header made on a cleared block, of a file or of a directory. *)
Definition new_header (ty blk : Z) : list Z :=
  wr64 (wr64 (wr64 (wr64 (wr64 (wr64 (wr64 (zeros 4096) fmd_fileifstbkoff 0x200) fmd_type ty) fmd_sfblk blk) fmd_curfwritebk blk) fmd_curfinwbkoff 0x200)
    (fmd_fleblk 0 + fb_blkstart) blk) (fmd_fleblk 0 + fb_blknr) 1.

Lemma zero_block : blen (zeros 4096) = 4096 /\ (forall o, 0 <= o -> o + 8 <= 4096 -> rd64 (zeros 4096) o = 0) /\
  (forall o n, 0 <= o -> 0 <= n -> o + n <= 4096 -> slice (zeros 4096) o n = zeros n).
Proof. split_and!; [by apply blen_zeros|intros; by apply rd64_zeros|intros; by apply slice_zeros]. Qed.

Lemma new_header_file blk : 0 <= blk < u64max -> file_ok (new_header FMD_FIL_TYPE blk) blk [].
Proof.
  intros Hblk. pose proof u64max_val. unfold new_header. pose proof zero_block as (Hl & Hr & Hz). set (y := zeros 4096) in *. clearbody y. split; layout; rewrite ?blen_nil; try solve [fields; lia].
  - fields. by apply Hr.
  - fields. by apply Hz.
Qed.

Lemma new_header_dir blk : 0 <= blk < u64max -> dir_ok (new_header FMD_DIR_TYPE blk) blk [].
Proof.
  intros Hblk. pose proof u64max_val. unfold new_header. pose proof zero_block as (Hl & Hr & _). set (y := zeros 4096) in *. clearbody y. split; layout; try solve [fields; unfold slot, sizeof_rfsdir_t; cbn [length]; lia].
  - intros j e Hj. done.
  - intros j Hj. cbn in Hj. assert (slot j = 512 + 128 * j) as -> by done. fields. apply Hr; lia.
Qed.

(** Contents appended. *)
Lemma file_ok_write f blk data bs : file_ok f blk data -> 0x200 + blen data + blen bs < FSYS_ALCBLKSZ ->
  file_ok (wr64 (wr64 (splice f (0x200 + blen data) bs) fmd_filesz (blen data + blen bs)) fmd_curfinwbkoff (0x200 + blen data + blen bs)) blk (data ++ bs).
Proof.
  intros [Hl H1 H2 H3 H4 H5 H6 H7 H8 H9] Hmax. pose proof u64max_val. pose proof (blen_nonneg data). pose proof (blen_nonneg bs). split; layout; rewrite ?blen_app; try solve [fields; lia].
  fields.
  replace (4096 - 512) with (blen data + (blen bs + (4096 - 512 - (blen data + blen bs)))) at 1 by lia. rewrite slice_app by lia. rewrite slice_splice_other by lia. rewrite slice_app by lia.
  rewrite slice_splice_same by lia. rewrite slice_splice_other by lia.
  replace (4096 - 512) with (blen data + (4096 - 512 - blen data)) in H9 at 1 by lia. rewrite slice_app in H9 by lia.
  apply app_inj_1 in H9 as [E1 E2]; [|pose proof (blen_slice f 512 (blen data) ltac:(lia) ltac:(lia) ltac:(lia)); unfold blen in *; lia].
  rewrite E1, <- app_assoc. do 2 f_equal.
  assert (E3 := f_equal (fun l => slice l (blen bs) (4096 - 512 - (blen data + blen bs))) E2). cbn beta in E3. rewrite slice_slice in E3 by lia. rewrite slice_zeros in E3 by lia. exact E3.
Qed.

(** What a read of [len] bytes finds *)
Lemma file_ok_read f blk data len : file_ok f blk data -> 0 <= len <= FSYS_ALCBLKSZ - 0x200 ->
  slice f 0x200 len = slice (data ++ zeros (FSYS_ALCBLKSZ - 0x200 - blen data)) 0 len.
Proof. intros [_ _ _ _ _ _ _ _ _ H9] Hlen. rewrite <- H9, slice_slice by lia. done. Qed.
