(* ===== verification/RfsOps.v ===== *)
(** * RAM file system: the invariant and the operations

    The invariant of a formatted device, and what creating, deleting, opening,
    reading, writing and closing do to it. *)

From S2P Require Import Prelude Bytes Boot BootPages KmsobInv Kmempool MemIf Rfs RfsMem RfsBlk RfsDir.
#[local] Open Scope Z_scope.

(** The abstract file system: the directory's entries and the contents of blocks. *)
Record afs := Afs { a_ents : list ent; a_data : gmap Z (list Z) }.

Definition live (E : list ent) (j : nat) (nm : list Z) (blk : Z) : Prop := E !! j = Some (Live nm blk).

(** Blocks [d] of a device of [N] blocks at [ms] hold the file system [A] with its
    root directory at block [rb].  Every live entry has a block of its own, marked in
    the bitmap, and a name of its own. *)
Record FsInv (ms N rb : Z) (d : gmap Z (list Z)) (x y z : list Z) (A : afs) : Prop := {
  fi_sb : d !! bk ms 0 = Some x;
  fi_bmp : rd64 x rsb_bmpbks = 1;
  fi_root : rd64 x (rsb_rootdir + rdr_blknr) = rb;
  fi_rb : 2 <= rb < N;
  fi_map : d !! bk ms 1 = Some y;
  fi_out i : N <= i < FSYS_ALCBLKSZ -> y !! Z.to_nat i <> Some 0;
  fi_rbused : y !! Z.to_nat rb <> Some 0;
  fi_dir : d !! bk ms rb = Some z;
  fi_ents : dir_ok z rb (a_ents A);
  fi_live j nm blk : live (a_ents A) j nm blk -> 2 <= blk < N /\ blk <> rb /\ y !! Z.to_nat blk <> Some 0 /\
    exists f data, d !! bk ms blk = Some f /\ a_data A !! blk = Some data /\ file_ok f blk data;
  fi_inj j j' nm nm' blk blk' : live (a_ents A) j nm blk -> live (a_ents A) j' nm' blk' -> nm = nm' \/ blk = blk' -> j = j'
}.

Section ops.
Context {S : Type} {HMO : MemOps S} {HMA : MemAlloc S} (junk : nat -> nat -> Z).
Context (ms N : Z) (HG : geometry ms N).
Implicit Types (s : rst S) (m d : gmap Z (list Z)) (F : gmap Z Z) (b i : Z) (l : list Z).
Abbreviation bk := (bk ms).
Abbreviation St := (St ms N).

(** ** Paths *)

(** What a buffer holds from its start on: a terminated path of a good name *)
Definition path_to (nm : list Z) (l : list Z) : Prop := good_name nm /\ exists r, l = 47 :: cstr nm r.
Definition fne (nm : list Z) : list Z := cstr nm (zeros (DR_NM_MAX - 1 - blen nm)).

Lemma ret_fname_eq k F m d s p l nm : St k F m d s -> m !! p = Some l -> p <> 0 -> path_to nm l -> rfs_ret_fname p s = Ret ((0, fne nm), s).
Proof.
  intros HS Hp Hp0 (Hg & r & ->). unfold rfs_ret_fname. replace (p =? 0) with false by lia.
  rewrite (bind_eq _ _ _ _ _ (string_at_eq ms N HS p _ 0 Hp ltac:(rewrite blen_cons; pose proof (blen_nonneg (cstr nm r)); lia))).
  change (drop (Z.to_nat 0) (47 :: cstr nm r)) with (47 :: cstr nm r). rewrite chkfilepath_good by done. cbn [str].
  unfold mbind at 1, M_bind at 1. cbn [mret M_ret]. change (negb (0 =? 0)) with false. cbn iota. change (drop 1 (47 :: cstr nm r)) with (cstr nm r).
  pose proof Hg as (_ & Hl & _). unfold DR_NM_MAX in *. rewrite strcpy_eq; [|by apply good_no_nul|rewrite blen_zeros; lia].
  transitivity (Ret (0, cstr nm (drop (Datatypes.S (length nm)) (zeros 104)), s)); [reflexivity|]. unfold fne, zeros. rewrite drop_replicate.
  do 5 f_equal. unfold blen, DR_NM_MAX. lia.
Qed.

(** ** Looking a name up *)

Section found.
Context {k : nat} {F : gmap Z Z} {m d : gmap Z (list Z)} {s : rst S} (HS : St k F m d s) {E : string -> Prop}.
Context {rb : Z} {x y z : list Z} {A : afs} (HI : FsInv ms N rb d x y z A).

Lemma root_in : 0 <= rb < N.
Proof using HI. pose proof (fi_rb _ _ _ _ _ _ _ _ HI). lia. Qed.

Lemma h_root (Q : Z -> rst S -> Prop) : (forall s', St (k + 1) F m d s' -> Q 0 s') ->
  (forall b s', m !! b = None -> base <= b -> b + FSYS_ALCBLKSZ < u64max -> St k F (<[b := z]> m) d s' -> Q b s') -> wph (get_rootdirfile_blk junk) s Q E.
Proof using HS HI HG.
  intros H0 HQ. pose proof root_in. destruct HI as [Hx Hbm Hr _ _ _ _ Hz _ _ _]. by apply (h_get_rootdirfile_blk junk ms N HG HS x Hx rb z).
Qed.

(** The directory written back unchanged. *)
Lemma h_unroot b m0 (Q : unit -> rst S -> Prop) : m = <[b := z]> m0 -> m0 !! b = None -> base <= b ->
  (forall s', St k F m0 d s' -> Q tt s') -> wph (del_rootdirfile_blk b) s Q E.
Proof using HS HI HG.
  intros Em Hb Hk HQ. pose proof root_in. destruct HI as [_ _ _ _ _ _ _ Hz Hd _ _].
  apply (h_del_rootdirfile_blk ms N HG k F m d s E b z rb); [done|rewrite Em; apply lookup_insert_eq|apply Hd|done|apply Hd|done|].
  rewrite Em, delete_insert_id by done. rewrite insert_id by done. done.
Qed.
End found.

(** ** How updates of blocks change the file system *)

Section updates.
Context {rb : Z} {d : gmap Z (list Z)} {x y z : list Z} {A : afs} (HI : FsInv ms N rb d x y z A).

Lemma bk_ne i j : i <> j -> bk i <> bk j.
Proof. intros Hne E%bk_inj. done. Qed.

(** A block marked as used *)
Lemma FsInv_mark i : FsInv ms N rb (<[bk 1 := <[Z.to_nat i := 1]> y]> d) x (<[Z.to_nat i := 1]> y) z A.
Proof using HI.
  assert (Hm : forall j, y !! j <> Some 0 -> <[Z.to_nat i := 1]> y !! j <> Some 0).
  { intros j Hj E. apply list_lookup_insert_Some in E as [(_ & E & _)|[_ E]]; [done|by apply Hj]. }
  destruct HI as [H1 H2 H3 H4 H5 H6 H7 H8 H9 H10 H11]. split; [rewrite lookup_insert_ne by (by apply bk_ne); done|done|done|done|apply lookup_insert_eq| | | |done| |done].
  - intros j Hj. by apply Hm, H6.
  - by apply Hm.
  - rewrite lookup_insert_ne by (apply bk_ne; lia). done.
  - intros j nm blk Hj. destruct (H10 j nm blk Hj) as (Hb & Hne & Hu & f & data & Hf). split_and!; [lia|lia|done|by apply Hm|]. exists f, data. rewrite lookup_insert_ne by (apply bk_ne; lia). done.
Qed.

(** The contents of a block that is no part of the file system's own structures *)
Lemma FsInv_put blk f data : 2 <= blk < N -> blk <> rb -> file_ok f blk data -> FsInv ms N rb (<[bk blk := f]> d) x y z (Afs (a_ents A) (<[blk := data]> (a_data A))).
Proof using HI.
  intros Hb Hne Hf. destruct HI as [H1 H2 H3 H4 H5 H6 H7 H8 H9 H10 H11]. split; cbn [a_ents a_data];
    [rewrite lookup_insert_ne by (apply bk_ne; lia); done|done|done|done|rewrite lookup_insert_ne by (apply bk_ne; lia); done|done|done|rewrite lookup_insert_ne by (by apply bk_ne); done|done| |done].
  intros j nm b' Hj. destruct (H10 j nm b' Hj) as (Hb' & Hne' & Hu & f' & data' & Hf'). split_and!; [lia|lia|done|done|].
  destruct (decide (b' = blk)) as [->|Hbb]; [exists f, data; by rewrite !lookup_insert_eq|]. exists f', data'. rewrite !lookup_insert_ne by (done || by apply bk_ne). done.
Qed.

Lemma free_block i : first_free y i -> 2 <= i < N /\ i <> rb /\ forall j nm, ~ live (a_ents A) j nm i.
Proof using HI.
  intros ((Hlo & Hhi) & Hz & _). assert (i < N) by (destruct (decide (i < N)); [done|]; destruct (fi_out _ _ _ _ _ _ _ _ HI i); [lia|done]).
  split_and!; [lia|lia| |].
  - intros ->. by apply (fi_rbused _ _ _ _ _ _ _ _ HI).
  - intros j nm Hj. destruct (fi_live _ _ _ _ _ _ _ _ HI _ _ _ Hj) as (_ & _ & Hu & _). done.
Qed.

(** A file added: its block, marked, and its entry in the directory *)
Lemma FsInv_create i nm z' f : first_free y i -> dir_find nm (a_ents A) 0 = None -> dir_ok z' rb (a_ents A ++ [Live nm i]) -> file_ok f i [] ->
  FsInv ms N rb (<[bk rb := z']> (<[bk i := f]> (<[bk 1 := <[Z.to_nat i := 1]> y]> d))) x (<[Z.to_nat i := 1]> y) z' (Afs (a_ents A ++ [Live nm i]) (<[i := []]> (a_data A))).
Proof using HI.
  intros Hff Hnone Hz' Hf. pose proof (free_block i Hff) as (Hi & Hirb & Hfresh). destruct Hff as ((Hlo & Hhi) & Hy0 & _).
  pose proof (FsInv_mark i) as [H1 H2 H3 H4 H5 H6 H7 H8 H9 H10 H11].
  assert (Hup : forall j nm' b, live (a_ents A ++ [Live nm i]) j nm' b -> live (a_ents A) j nm' b \/ (j = length (a_ents A) /\ nm' = nm /\ b = i)).
  { intros j nm' b. unfold live. rewrite lookup_app_Some. intros [?|[Hj E]]; [by left|right]. apply list_lookup_singleton_Some in E as [E [= <- <-]]. split; [lia|done]. }
  split; cbn [a_ents a_data].
  - rewrite !lookup_insert_ne in * by (apply bk_ne; lia). done.
  - done.
  - done.
  - done.
  - rewrite !lookup_insert_ne by (apply bk_ne; lia). apply lookup_insert_eq.
  - done.
  - done.
  - apply lookup_insert_eq.
  - done.
  - intros j nm' b [Hj|(-> & -> & ->)]%Hup.
    + destruct (H10 j nm' b Hj) as (Hb & Hne & Hu & f' & data' & Hf1 & Hf2 & Hf3). assert (b <> i) by (intros ->; by apply (Hfresh j nm')).
      split_and!; [lia|lia|done|done|]. exists f', data'. rewrite !lookup_insert_ne in * by (done || (apply bk_ne; lia)). done.
    + split_and!; [lia|lia|done| |].
      * intros E. apply list_lookup_insert_Some in E as [(_ & E & _)|[E _]]; done.
      * exists f, []. rewrite (lookup_insert_ne _ (bk rb)) by (apply bk_ne; lia). by rewrite !lookup_insert_eq.
  - intros j j' n1 n2 b1 b2 [Hj|(-> & -> & ->)]%Hup [Hj'|(-> & -> & ->)]%Hup Heq; [by apply (H11 j j' n1 n2 b1 b2)| | |done].
    + destruct Heq as [->| ->]; [|by destruct (Hfresh j n1)]. by destruct (dir_find_none nm (a_ents A) 0 Hnone j b1).
    + destruct Heq as [<-|<-]; [|by destruct (Hfresh j' n2)]. by destruct (dir_find_none nm (a_ents A) 0 Hnone j' b2).
Qed.

(** A file removed *)
Lemma FsInv_delete j nm i z' : live (a_ents A) j nm i -> dir_ok z' rb (<[j := Dead]> (a_ents A)) ->
  FsInv ms N rb (<[bk rb := z']> (<[bk 1 := <[Z.to_nat i := 0]> y]> d)) x (<[Z.to_nat i := 0]> y) z' (Afs (<[j := Dead]> (a_ents A)) (delete i (a_data A))).
Proof using HI.
  intros Hlive Hz'. destruct HI as [H1 H2 H3 H4 H5 H6 H7 H8 H9 H10 H11]. destruct (H10 j nm i Hlive) as (Hi & Hirb & _ & _).
  assert (Hup : forall j' nm' b, live (<[j := Dead]> (a_ents A)) j' nm' b -> live (a_ents A) j' nm' b /\ j' <> j).
  { intros j' nm' b. unfold live. rewrite list_lookup_insert_Some. intros [(_ & E & _)|[Hne E]]; [done|]. split; [done|congruence]. }
  assert (Hm : forall k, k <> i -> 0 <= k -> y !! Z.to_nat k <> Some 0 -> <[Z.to_nat i := 0]> y !! Z.to_nat k <> Some 0) by (intros k Hk Hk0 Hy; rewrite list_lookup_insert_ne by lia; done).
  split; cbn [a_ents a_data].
  - rewrite !lookup_insert_ne by (apply bk_ne; lia). done.
  - done.
  - done.
  - done.
  - rewrite lookup_insert_ne by (apply bk_ne; lia). apply lookup_insert_eq.
  - intros k Hk. apply Hm; [lia|lia|by apply H6].
  - apply Hm; [lia|lia|done].
  - apply lookup_insert_eq.
  - done.
  - intros j' nm' b [Hj Hne]%Hup. destruct (H10 j' nm' b Hj) as (Hb & Hbr & Hu & f & data & Hf1 & Hf2 & Hf3).
    assert (b <> i) by (intros ->; by destruct (Hne (H11 j' j nm' nm i i Hj Hlive ltac:(by right)))).
    split_and!; [lia|lia|done|apply Hm; [done|lia|done]|]. exists f, data. rewrite !lookup_insert_ne by (apply bk_ne; lia). by rewrite lookup_delete_ne.
  - intros j1 j2 n1 n2 b1 b2 [Hj1 _]%Hup [Hj2 _]%Hup. by apply (H11 j1 j2 n1 n2).
Qed.
End updates.
End ops.
