(* ===== verification/RfsFiles.v ===== *)
(** * RAM file system: operations on files

    Each operation run from a state that satisfies the invariant. *)

From S2P Require Import Prelude Bytes Boot BootPages KmsobInv Kmempool MemIf Rfs RfsMem RfsBlk RfsDir RfsOps.
#[local] Open Scope Z_scope.

Section files.
Context {S : Type} {HMO : MemOps S} {HMA : MemAlloc S} (junk : nat -> nat -> Z).
Context (ms N : Z) (HG : geometry ms N).
Implicit Types (s : rst S) (m d : gmap Z (list Z)) (F : gmap Z Z) (b i : Z) (l : list Z).
Abbreviation bk := (bk ms).
Abbreviation St := (St ms N).
Abbreviation FsInv := (FsInv ms N).

(** A word of the header of the block in buffer [b] *)
Ltac hfield HS b z Hlen := apply wph_bind; apply (h_get ms N HS b z); [try apply lookup_insert_eq; try done|done|rewrite Hlen; done|]; rewrite ?Z.add_0_l.

Lemma fne_strlen nm : good_name nm -> rfs_strlen (fne nm) = Some (blen nm).
Proof. intros Hg. by apply strlen_eq, good_no_nul. Qed.

(** ** The search, as the three operations on names run it *)

Section scan.
Context {k : nat} {F : gmap Z Z} {m d : gmap Z (list Z)} {s : rst S} (HS : St k F m d s) {E : string -> Prop}.
Context {A : Type} (b : Z) (z : list Z) (rb : Z) (ents : list ent) (Hb : m !! b = Some z) (HD : dir_ok z rb ents) (Hlo : base <= b) (Hhi : b + FSYS_ALCBLKSZ < u64max).

(** [if (type is not DIR) r1; if (no entries) r2; search; then K] *)
Lemma h_scan_dir nm (r1 r2 : A) (K : option Z -> M (rst S) A) (Q : A -> rst S -> Prop) : no_nul nm ->
  (ents = [] -> Q r2 s) -> (ents <> [] -> wph (K ((fun p => slot p.1) <$> dir_find nm ents 0)) s Q E) ->
  wph (if negb (rd64 z fmd_type =? FMD_DIR_TYPE) then mret r1 else
       e ← dir_empty b;
       if (e : bool) then mret r2 else
       off ← get (b, 0) fmd_fileifstbkoff;
       r ← dir_search dir_fuel b off (fne nm);
       K r) s Q E.
Proof using HS Hb HD Hlo Hhi.
  intros Hn H2 HK. pose proof base_val. pose proof (dk_len _ _ _ HD) as Hl. rewrite (dk_type _ _ _ HD). change (negb (FMD_DIR_TYPE =? FMD_DIR_TYPE)) with false. cbn iota.
  apply wph_bind. rewrite (wph_det _ _ _ _ _ _ (dir_empty_eq ms N HS b z rb ents Hb HD)). case_bool_decide as He; [by apply H2|].
  hfield HS b z Hl. rewrite (dk_ifst _ _ _ HD). apply wph_bind. unfold fne. rewrite (wph_det _ _ _ _ _ _ (dir_search_full ms N HS b z rb ents Hb HD ltac:(lia) Hhi nm _ Hn)). by apply HK.
Qed.
End scan.

Section names.
Context {k : nat} {F : gmap Z Z} {m d : gmap Z (list Z)} {s : rst S} (HS : St k F m d s) {E : string -> Prop} (HE : forall e, oom e -> E e).
Context {rb : Z} {x y z : list Z} {A : afs} (HI : FsInv rb d x y z A) {nm : list Z} (Hnm : good_name nm).

Lemma h_chkfileisindev (Q : Z -> rst S -> Prop) : (forall s', St (k + 1) F m d s' -> Q 2 s') ->
  (forall s', St k F m d s' -> Q (match dir_find nm (a_ents A) 0 with Some _ => 1 | None => 0 end) s') -> wph (rfs_chkfileisindev junk (fne nm)) s Q E.
Proof using HS HI HG Hnm.
  intros H2 HQ. unfold rfs_chkfileisindev. rewrite fne_strlen by done. cbn [str]. apply wph_bind. apply (wph_det (mret (blen nm)) s (blen nm) s _ _ eq_refl).
  pose proof Hnm as (Hne & Hle & _). assert (1 <= blen nm) by (destruct nm; [done|]; rewrite blen_cons; pose proof (blen_nonneg l); lia).
  unfold DR_NM_MAX in *. replace ((blen nm <? 1) || (104 <=? blen nm)) with false by lia. apply wph_bind. apply (h_root junk ms N HG HS HI); [by apply H2|].
  intros b s1 Hb Hk Hhi HS1. rewrite (addr_nz b Hk).
  pose proof (fi_ents _ _ _ _ _ _ _ _ HI) as HD. hfield HS1 b z (dk_len _ _ _ HD). apply wph_bind.
  apply (h_scan_dir HS1 b z rb (a_ents A) (lookup_insert_eq _ _ _) HD Hk Hhi nm); [by apply good_no_nul| |].
  - intros He. apply wph_bind. apply (h_unroot ms N HG HS1 HI b m); [done|done|done|]. intros s2 HS2. specialize (HQ s2 HS2). by rewrite He in HQ.
  - intros _. apply wph_bind. apply (h_unroot ms N HG HS1 HI b m); [done|done|done|]. intros s2 HS2. specialize (HQ s2 HS2). by destruct (dir_find nm (a_ents A) 0).
Qed.

(** Opening: the file's block in a fresh buffer, or [NULL]. *)
Lemma h_openfileblk p l (Q : Z -> rst S -> Prop) : m !! p = Some l -> p <> 0 -> path_to nm l -> (forall s', St (k + 1) F m d s' -> Q 0 s') ->
  (forall s', dir_find nm (a_ents A) 0 = None -> St k F m d s' -> Q 0 s') ->
  (forall b j blk f data s', dir_find nm (a_ents A) 0 = Some (j, blk) -> m !! b = None -> base <= b -> d !! bk blk = Some f -> a_data A !! blk = Some data -> file_ok f blk data ->
     St k F (<[b := f]> m) d s' -> Q b s') -> wph (rfs_openfileblk junk p) s Q E.
Proof using HS HI HG Hnm.
  intros Hp Hp0 Hpath H0 HN HQ. unfold rfs_openfileblk. apply wph_bind. rewrite (wph_det _ _ _ _ _ _ (ret_fname_eq ms N k F m d s p l nm HS Hp Hp0 Hpath)).
  change (negb (0 =? 0)) with false. cbn iota. apply wph_bind. apply (h_root junk ms N HG HS HI); [by apply H0|]. intros r s1 Hr Hk Hhi HS1. rewrite (addr_nz r Hk).
  pose proof (fi_ents _ _ _ _ _ _ _ _ HI) as HD. hfield HS1 r z (dk_len _ _ _ HD). apply wph_bind.
  apply (h_scan_dir HS1 r z rb (a_ents A) (lookup_insert_eq _ _ _) HD Hk Hhi nm); [by apply good_no_nul| |].
  { intros He. apply wph_bind. apply (h_unroot ms N HG HS1 HI r m); [done|done|done|]. intros s2 HS2. apply HN; [by rewrite He|done]. }
  intros _. destruct (dir_find nm (a_ents A) 0) as [[j blk]|] eqn:Ef; cbn [fmap option_fmap option_map fst].
  2:{ apply wph_bind. apply (h_unroot ms N HG HS1 HI r m); [done|done|done|]. intros s2 HS2. by apply HN. }
  destruct (dir_find_some _ _ _ _ _ Ef) as [Hj Hat]. rewrite Z.sub_0_r in Hat. destruct (fi_live _ _ _ _ _ _ _ _ HI _ _ _ Hat) as (Hblk & _ & _ & f & data & Hf & Hdata & Hok).
  pose proof (dk_ent _ _ _ HD _ _ Hat) as (_ & _ & Hnr & _). rewrite Z2Nat.id in Hnr by done. pose proof (lookup_lt_Some _ _ _ Hat) as Hlt. pose proof (dk_max _ _ _ HD) as Hmax.
  apply wph_bind. apply (h_new_buf junk ms N HS1); [done| |].
  { intros s2 HS2. change (0 =? 0) with true. cbn iota. apply wph_ret. apply wph_bind. apply (h_unroot ms N HG HS2 HI r m); [done|done|done|]. intros s3 HS3. by apply H0. }
  intros b l' s2 Hb Hkb _ Hl' HS2. rewrite (addr_nz b Hkb). apply lookup_insert_None in Hb as [Hb Hne].
  assert (Hrz : <[b := l']> (<[r := z]> m) !! r = Some z) by (by rewrite lookup_insert_ne, lookup_insert_eq).
  apply wph_bind. apply (h_get ms N HS2 r z); [done|unfold slot, sizeof_rfsdir_t, rdr_blknr; lia|rewrite (dk_len _ _ _ HD); unfold FSYS_ALCBLKSZ, slot, sizeof_rfsdir_t, rdr_blknr; lia|].
  rewrite Hnr. apply wph_bind. apply (h_read ms N HS2 HG b l' blk f); [apply lookup_insert_eq|done|lia|done|]. intros s3 _ HS3. fold_ins HS3.
  change (DFCOKSTUS =? DFCERRSTUS) with false. cbn iota. hfield HS3 b f (fk_len _ _ _ Hok). hfield HS3 b f (fk_len _ _ _ Hok). rewrite (fk_type _ _ _ Hok), (fk_ifst _ _ _ Hok).
  change ((FMD_FIL_TYPE =? FMD_NUL_TYPE) || negb (512 =? 512)) with false. cbn iota. apply wph_ret.
  apply wph_bind. rewrite insert_insert_ne in HS3 by done. apply (h_unroot ms N HG HS3 HI r (<[b := f]> m)); [done|by rewrite lookup_insert_ne|done|]. intros s4 HS4. by apply (HQ b j blk f data).
Qed.
End names.

(** ** New headers *)

Lemma h_fimgrhd_init k F m d s E b (Q : unit -> rst S -> Prop) : St k F m d s -> m !! b = Some (zeros 4096) ->
  (forall s', St k F (<[b := wr64 (zeros 4096) fmd_fileifstbkoff 0x200]> m) d s' -> Q tt s') -> wph (fimgrhd_t_init (b, 0)) s Q E.
Proof.
  intros HS Hb HQ. pose proof zero_block as (Hl & _ & Hz). pose proof (blen_wr64 (zeros 4096) fmd_fileifstbkoff 0x200 ltac:(done) ltac:(by rewrite Hl)) as HlW. rewrite Hl in HlW.
  assert (HW : forall o, 0 <= o -> o + 8 <= 4096 -> o + 8 <= 72 \/ 80 <= o -> slice (wr64 (zeros 4096) fmd_fileifstbkoff 0x200) o 8 = le64 0).
  { intros o Ho Ho' Hd. rewrite slice_wr64_other by (rewrite ?Hl; unfold fmd_fileifstbkoff; lia). rewrite Hz by lia. done. }
  assert (Hz8 : forall o, 0 <= o -> o + 8 <= 4096 -> slice (zeros 4096) o 8 = le64 0) by (intros; by rewrite Hz by lia).
  remember (zeros 4096) as y eqn:Ey. clear Ey Hz. remember (wr64 y fmd_fileifstbkoff 0x200) as W eqn:EW. unfold fimgrhd_t_init.
  do 9 (apply wph_bind; apply (h_set_same ms N HS b y); [done|done|rewrite Hl; done|by apply Hz8|]; clear dependent s; intros s HS).
  apply wph_bind. apply (h_set ms N HS b y); [done|done|rewrite Hl; done|]. clear dependent s. intros s HS. rewrite Z.add_0_l, <- EW in HS.
  assert (HbW : <[b := W]> m !! b = Some W) by apply lookup_insert_eq.
  do 3 (apply wph_bind; apply (h_set_same ms N HS b W); [done|done|rewrite HlW; done|apply HW; layout; lia|]; clear dependent s; intros s HS).
  apply wph_bind. eapply wph_mono; [apply (wph_for_each (St k F (<[b := W]> m) d)); [exact HS|]| |done].
  - clear dependent s. intros i s Hi%elem_of_seqZ HS. unfold FBLKS_MAX in Hi. unfold filblks_t_init. cbn [fst snd]. rewrite Z.add_0_l.
    apply wph_bind. apply (h_set_same ms N HS b W); [done|unfold fmd_fleblk, fb_blkstart; lia|rewrite HlW; unfold fmd_fleblk, fb_blkstart; lia|apply HW; unfold fmd_fleblk, fb_blkstart; lia|].
    clear dependent s. intros s HS. apply (h_set_same ms N HS b W); [done|unfold fmd_fleblk, fb_blknr; lia|rewrite HlW; unfold fmd_fleblk, fb_blknr; lia|apply HW; unfold fmd_fleblk, fb_blknr; lia|].
    done.
  - cbn beta. clear dependent s. intros _ s HS. apply wph_bind. apply (h_set_same ms N HS b W); [done|done|rewrite HlW; done|apply HW; layout; lia|]. clear dependent s. intros s HS.
    apply (h_set_same ms N HS b W); [done|done|rewrite HlW; done|apply HW; layout; lia|done].
Qed.

(** The header of a new file or directory, as both creations build it. *)
Lemma h_make_header {A : Type} k F m d s E b ty blk (K : M (rst S) A) (Q : A -> rst S -> Prop) : St k F m d s -> m !! b = Some (zeros 4096) ->
  (forall s', St k F (<[b := new_header ty blk]> m) d s' -> wph K s' Q E) ->
  wph (fimgrhd_t_init (b, 0) ;; set (b, 0) fmd_type ty ;; set (b, 0) fmd_sfblk blk ;; set (b, 0) fmd_curfwritebk blk ;; set (b, 0) fmd_curfinwbkoff 0x200 ;;
       set (b, fmd_fleblk 0) fb_blkstart blk ;; set (b, fmd_fleblk 0) fb_blknr 1 ;; K) s Q E.
Proof.
  intros HS Hb HQ. apply wph_bind. apply (h_fimgrhd_init k F m d s); [done|done|]. clear dependent s. intros s HS. unfold new_header in HQ.
  pose proof zero_block as (Hl & _ & _). assert (HlW : blen (wr64 (zeros 4096) fmd_fileifstbkoff 512) = 4096) by (rewrite blen_wr64; [done|done|by rewrite Hl]).
  remember (wr64 (zeros 4096) fmd_fileifstbkoff 0x200) as W eqn:EW. clear EW Hb.
  do 6 (apply wph_bind; eapply (h_set ms N HS); [apply lookup_insert_eq|done|layout; lens; lia|]; clear dependent s; intros s HS; fold_ins HS; rewrite ?Z.add_0_l in HS).
  by apply HQ.
Qed.

(** ** Creating a file *)

Section create.
Context {k : nat} {F : gmap Z Z} {m d : gmap Z (list Z)} {s : rst S} (HS : St k F m d s) {E : string -> Prop} (HE : forall e, oom e -> E e).
Context {rb : Z} {x y z : list Z} {A : afs} (HI : FsInv rb d x y z A) {nm : list Z} (Hnm : good_name nm).

(** The entry written into the directory's block at [b] and the file's header at [buf]. *)
Lemma h_write_entry {B : Type} b buf fblk (K : M (rst S) B) (Q : B -> rst S -> Prop) : let off := slot (Z.of_nat (length (a_ents A))) in
  (length (a_ents A) < 28)%nat -> 0 <= fblk < u64max -> m !! b = Some z -> m !! buf = Some (zeros 4096) -> b <> buf ->
  (forall z' s', dir_ok z' rb (a_ents A ++ [Live nm fblk]) -> St k F (<[buf := new_header FMD_FIL_TYPE fblk]> (<[b := z']> m)) d s' -> wph K s' Q E) ->
  wph (set (b, off) rdr_stus 0 ;; set (b, off) rdr_type RDR_FIL_TYPE ;; set (b, off) rdr_blknr fblk ;;
       old ← string_at (b, off + rdr_name);
       '(_, new) ← str (rfs_strcpy (fne nm) old);
       store b (off + rdr_name) new ;;
       sz ← get (b, 0) fmd_filesz;
       set (b, 0) fmd_filesz (sz +u sizeof_rfsdir_t) ;;
       co ← get (b, 0) fmd_curfinwbkoff;
       set (b, 0) fmd_curfinwbkoff (co +u sizeof_rfsdir_t) ;;
       fimgrhd_t_init (buf, 0) ;; set (buf, 0) fmd_type FMD_FIL_TYPE ;; set (buf, 0) fmd_sfblk fblk ;; set (buf, 0) fmd_curfwritebk fblk ;;
       set (buf, 0) fmd_curfinwbkoff 0x200 ;; set (buf, fmd_fleblk 0) fb_blkstart fblk ;; set (buf, fmd_fleblk 0) fb_blknr 1 ;; K) s Q E.
Proof using HS HI Hnm.
  intros off Hlen Hf Hb Hbuf Hne HQ. pose proof (fi_ents _ _ _ _ _ _ _ _ HI) as HD. pose proof (dk_len _ _ _ HD) as Hl. pose proof Hnm as (_ & Hln & _). pose proof (blen_nonneg nm). pose proof u64max_val.
  assert (Hoff : 512 <= off /\ off + 128 <= 4096) by (unfold off, slot, sizeof_rfsdir_t; lia).
  apply wph_bind. apply (h_set ms N HS b z); [done|layout; lia|layout; lia|]. clear s HS. intros s HS.
  do 2 (apply wph_bind; eapply (h_set ms N HS); [apply lookup_insert_eq|layout; lia|layout; lens; lia|]; clear s HS; intros s HS; fold_ins HS).
  set (z3 := wr64 (wr64 (wr64 z (off + rdr_stus) 0) (off + rdr_type) RDR_FIL_TYPE) (off + rdr_blknr) fblk) in *.
  assert (Hl3 : blen z3 = 4096) by (unfold z3; layout; lens; lia).
  apply wph_bind. rewrite (wph_det _ _ _ _ _ _ (string_at_eq ms N HS b z3 (off + rdr_name) (lookup_insert_eq _ _ _) ltac:(layout; lia))).
  unfold fne. rewrite strcpy_eq; [|by apply good_no_nul|unfold blen in *; rewrite length_drop; layout; lia]. apply wph_bind, wph_ret.
  set (new := cstr nm _). assert (Hnew : new = (nm ++ [0]) ++ drop (Z.to_nat (off + rdr_name + blen (nm ++ [0]))) z3).
  { unfold new, cstr. rewrite drop_drop, <- app_assoc. cbn [app]. do 3 f_equal. autorewrite with bytes. unfold blen. layout. lia. }
  assert (Hln' : blen new = 4096 - (off + rdr_name)).
  { rewrite Hnew. autorewrite with bytes. unfold blen in *. rewrite length_drop. layout. lia. }
  apply wph_bind. apply (h_store ms N HS b z3); [apply lookup_insert_eq|layout; lia|lia|]. clear s HS. intros s HS. fold_ins HS.
  assert (Ez : splice z3 (off + rdr_name) new = put_entry z off fblk nm).
  { unfold put_entry. fold z3. rewrite Hnew. apply splice_suffix; [layout; lia|autorewrite with bytes; layout; lia]. }
  rewrite Ez in HS. assert (Hlz : blen (put_entry z off fblk nm) = 4096) by (rewrite <- Ez, blen_splice; [done|layout; lia|lia]).
  apply wph_bind. eapply (h_get ms N HS); [apply lookup_insert_eq|done|rewrite Hlz; done|]. rewrite Z.add_0_l.
  apply wph_bind. eapply (h_set ms N HS); [apply lookup_insert_eq|done|rewrite Hlz; done|]. clear s HS. intros s HS. fold_ins HS. rewrite Z.add_0_l in HS.
  assert (Hco : forall v, rd64 (wr64 (put_entry z off fblk nm) fmd_filesz v) fmd_curfinwbkoff = off).
  { intros v. rewrite rd64_wr64_other by (layout; lia). unfold put_entry. fold z3. rewrite rd64_splice_other by (autorewrite with bytes; layout; lia). unfold z3. layout. fields. apply (dk_cur _ _ _ HD). }
  apply wph_bind. eapply (h_get ms N HS); [apply lookup_insert_eq|done|rewrite blen_wr64, Hlz by (rewrite ?Hlz; done); done|]. rewrite Z.add_0_l, Hco.
  apply wph_bind. eapply (h_set ms N HS); [apply lookup_insert_eq|done|rewrite blen_wr64, Hlz by (rewrite ?Hlz; done); done|]. clear s HS. intros s HS. fold_ins HS.
  rewrite Z.add_0_l, (u64_small (off + sizeof_rfsdir_t)) in HS by (layout; lia).
  eapply h_make_header; [exact HS|by rewrite lookup_insert_ne|]. clear s HS. intros s HS. eapply HQ; [|exact HS]. by apply dir_ok_append.
Qed.
End create.

Section create_file.
Context {k : nat} {F : gmap Z Z} {m d : gmap Z (list Z)} {s : rst S} (HS : St k F m d s) {E : string -> Prop} (HE : forall e, oom e -> E e).
Context {rb : Z} {x y z : list Z} {A : afs} (HI : FsInv rb d x y z A) {nm : list Z} (Hnm : good_name nm).

(** Why a file could not be created: memory was refused, there is no free block, or
    the directory has had its 28 entries. *)
Definition no_room (s' : rst S) : Prop := (k < r_denied s')%nat \/ no_free y \/ (28 <= length (a_ents A))%nat.

Lemma short_of_memory F' m' d' s' : St (k + 1) F' m' d' s' -> no_room s' /\ St k F' m' d' s'.
Proof using. intros HS'. split; [left; pose proof (st_den _ _ _ _ _ _ _ HS'); lia|]. eapply St_weaken; [done|lia]. Qed.

Lemma h_new_dirfileblk (Q : Z -> rst S -> Prop) : dir_find nm (a_ents A) 0 = None ->
  (forall m' d' y' s', no_room s' -> m ⊆ m' -> St k F m' d' s' -> FsInv rb d' x y' z A -> Q DFCERRSTUS s') ->
  (forall i d' y' z' s', first_free y i -> St k F m d' s' -> FsInv rb d' x y' z' (Afs (a_ents A ++ [Live nm i]) (<[i := []]> (a_data A))) -> Q DFCOKSTUS s') ->
  wph (rfs_new_dirfileblk junk (fne nm) RDR_FIL_TYPE) s Q E.
Proof using HS HI HE HG Hnm.
  intros Hnone Hfail Hok. unfold rfs_new_dirfileblk. change (negb (RDR_FIL_TYPE =? RDR_FIL_TYPE)) with false. cbn iota.
  apply wph_bind. apply (h_new_buf junk ms N HS); [done| |].
  { intros s1 [Hr HS1]%short_of_memory. by apply (Hfail m d y). }
  intros buf l s1 Hbuf Hkb _ Hl HS1. rewrite (addr_nz buf Hkb). apply wph_bind. apply (h_memset ms N HS1 buf l); [apply lookup_insert_eq|done|]. intros s2 HS2. fold_ins HS2.
  change (replicate 4096 0) with (zeros 4096) in HS2. set (m1 := <[buf := zeros 4096]> m) in *. assert (Hb1 : m1 !! buf = Some (zeros 4096)) by apply lookup_insert_eq.
  assert (Hsub : forall m', m1 ⊆ m' -> m ⊆ delete buf m').
  { intros m' Hm'. apply map_subseteq_spec. intros a v Ha. rewrite lookup_delete_ne by congruence. eapply lookup_weaken; [|done]. unfold m1. rewrite lookup_insert_ne by congruence. done. }
  assert (Hbl : forall m', m1 ⊆ m' -> m' !! buf = Some (zeros 4096)) by (intros; by eapply lookup_weaken).
  apply wph_bind. destruct HI as [Hx Hbm Hrt Hrb Hy _ _ Hz HD _ _]. apply (h_rfs_new_blk junk ms N HG HS2 HE x y); [done|done|done| | |].
  { intros m' s3 Hm' HS3. change (0 =? 0) with true. cbn iota. apply wph_bind. apply (h_del_buf ms N HS3 buf (zeros 4096)); [by apply Hbl|done|done|apply good_block|].
    intros s4 [Hr HS4]%short_of_memory. apply (Hfail (delete buf m') d y); [done|by apply Hsub|done|done]. }
  { intros s3 Hnf HS3. change (0 =? 0) with true. cbn iota. apply wph_bind. apply (h_del_buf ms N HS3 buf (zeros 4096)); [done|done|done|apply good_block|].
    intros s4 HS4. apply (Hfail (delete buf m1) d y); [by right; left|by apply Hsub|done|done]. }
  intros i s3 Hff HS3. pose proof (free_block ms N HI i Hff) as (Hi & Hirb & _). replace (i =? 0) with false by lia.
  pose proof (FsInv_mark ms N HI i) as HI1. set (d1 := <[bk 1 := <[Z.to_nat i := 1]> y]> d) in *.
  apply wph_bind. apply (h_root junk ms N HG HS3 HI1).
  { intros s4 HS4. change (0 =? 0) with true. cbn iota. apply wph_bind. apply (h_del_buf ms N HS4 buf (zeros 4096)); [done|done|done|apply good_block|].
    intros s5 [Hr HS5]%short_of_memory. eapply (Hfail (delete buf m1) d1); [done|by apply Hsub|done|exact HI1]. }
  intros b s4 Hb Hk Hhi HS4. rewrite (addr_nz b Hk). assert (Hne : b <> buf) by congruence. set (m2 := <[b := z]> m1) in *.
  assert (Hb2 : m2 !! b = Some z) by apply lookup_insert_eq. assert (Hbf2 : m2 !! buf = Some (zeros 4096)) by (unfold m2; by rewrite lookup_insert_ne).
  apply wph_bind. apply (h_get ms N HS4 b z); [done|done|rewrite (dk_len _ _ _ HD); done|]. rewrite Z.add_0_l, (dk_cur _ _ _ HD). set (off := slot _).
  assert (Hback : forall z' h, delete buf (delete b (<[buf := h]> (<[b := z']> m2))) = m).
  { intros z' h. apply map_eq. intros a. unfold m2, m1. destruct (decide (a = buf)) as [->|]; [by simplify_map_eq|]. destruct (decide (a = b)) as [->|]; [|by simplify_map_eq].
    rewrite lookup_delete_ne, lookup_delete_eq by done. unfold m1 in Hb. by rewrite lookup_insert_ne in Hb. }
  pose proof base_val as Hbv. pose proof u64max_val as Hu. pose proof (dk_max _ _ _ HD) as Hmax. assert (HN : N <= 4096) by apply HG.
  assert (Eoff : off = 512 + 128 * Z.of_nat (length (a_ents A))) by done.
  unfold FSYS_ALCBLKSZ in Hhi. rewrite (u64_small (b + FSYS_ALCBLKSZ)), (u64_small (b + off)) by (unfold FSYS_ALCBLKSZ; lia). destruct (b + FSYS_ALCBLKSZ <=? b + off) eqn:Efull; bool_to_prop; unfold FSYS_ALCBLKSZ in Efull.
  - apply wph_bind, wph_ret. apply wph_bind. apply (h_unroot ms N HG HS4 HI1 b m1); [done|done|done|]. intros s5 HS5.
    apply wph_bind. apply (h_del_buf ms N HS5 buf (zeros 4096)); [done|done|done|apply good_block|]. intros s6 HS6.
    eapply (Hfail (delete buf m1) d1); [right; right; lia|by apply Hsub|done|exact HI1].
  - apply wph_bind. apply (h_write_entry HS4 HI1 Hnm b buf i); [lia|lia|done|done|done|]. intros z' s5 HD' HS5.
    apply wph_bind. assert (Hf : file_ok (new_header FMD_FIL_TYPE i) i []) by (apply new_header_file; lia).
    apply (h_write ms N HS5 HG buf (new_header FMD_FIL_TYPE i)); [apply lookup_insert_eq|apply Hf|lia|]. intros s6 HS6. apply wph_ret. change (DFCOKSTUS =? DFCERRSTUS) with false. cbn iota.
    apply wph_bind. eapply (h_del_rootdirfile_blk ms N HG k F _ _ s6 E b z' rb); [exact HS6|by rewrite lookup_insert_ne, lookup_insert_eq|apply HD'|done|apply HD'|lia|]. intros s7 HS7.
    apply wph_bind. eapply (h_del_buf ms N HS7 buf (new_header FMD_FIL_TYPE i)); [by rewrite lookup_delete_ne, lookup_insert_eq|apply Hf|done|apply good_block|]. intros s8 HS8.
    rewrite Hback in HS8. eapply (Hok i _ _ z' s8); [done|exact HS8|]. by apply (FsInv_create ms N HI).
Qed.
End create_file.

Section named.
Context {k : nat} {F : gmap Z Z} {m d : gmap Z (list Z)} {s : rst S} (HS : St k F m d s) {E : string -> Prop} (HE : forall e, oom e -> E e).
Context {rb : Z} {x y z : list Z} {A : afs} (HI : FsInv rb d x y z A) {nm : list Z} (Hnm : good_name nm).
Context (p : Z) (l : list Z) (Hp : m !! p = Some l) (Hp0 : p <> 0) (Hpath : path_to nm l).

(** The whole of [rfs_new_file] *)
Lemma h_new_file (Q : Z -> rst S -> Prop) :
  (forall m' d' y' s', dir_find nm (a_ents A) 0 <> None \/ no_room (k := k) (y := y) (A := A) s' -> m ⊆ m' -> St k F m' d' s' -> FsInv rb d' x y' z A -> Q DFCERRSTUS s') ->
  (forall i d' y' z' s', dir_find nm (a_ents A) 0 = None -> first_free y i -> St k F m d' s' -> FsInv rb d' x y' z' (Afs (a_ents A ++ [Live nm i]) (<[i := []]> (a_data A))) -> Q DFCOKSTUS s') ->
  wph (rfs_new_file junk p) s Q E.
Proof using HS HI HE HG Hnm Hp Hp0 Hpath.
  intros Hfail Hok. unfold rfs_new_file. apply wph_bind. rewrite (wph_det _ _ _ _ _ _ (ret_fname_eq ms N k F m d s p l nm HS Hp Hp0 Hpath)).
  change (negb (0 =? 0)) with false. cbn iota. apply wph_bind. apply (h_chkfileisindev HS HI Hnm).
  { intros s1 [Hr HS1]%(short_of_memory (y := y) (A := A)). apply wph_ret. eapply (Hfail m d); [right; exact Hr|done|done|exact HI]. }
  intros s1 HS1. destruct (dir_find nm (a_ents A) 0) as [q|] eqn:Ef.
  { apply wph_ret. eapply (Hfail m d); [by left|done|done|exact HI]. }
  change (negb (0 =? 0)) with false. cbn iota. apply (h_new_dirfileblk HS1 HE HI Hnm); [done| |].
  - intros m' d' y' s' Hr. eapply Hfail. by right.
  - intros i d' y' z' s'. by eapply Hok.
Qed.

(** The whole of [rfs_del_file] *)
Lemma h_del_file (Q : Z -> rst S -> Prop) :
  (forall s', dir_find nm (a_ents A) 0 = None \/ (k < r_denied s')%nat -> St k F m d s' -> Q DFCERRSTUS s') ->
  (forall j i d' y' z' s', dir_find nm (a_ents A) 0 = Some (j, i) -> St k F m d' s' ->
     FsInv rb d' x y' z' (Afs (<[Z.to_nat j := Dead]> (a_ents A)) (delete i (a_data A))) -> Q DFCOKSTUS s') ->
  wph (rfs_del_file junk p 0) s Q E.
Proof using HS HI HE HG Hnm Hp Hp0 Hpath.
  intros Hfail Hok. unfold rfs_del_file, rfs_del_dirfileblk. change (negb (0 =? 0)) with false. change (negb (RDR_FIL_TYPE =? RDR_FIL_TYPE) || negb (0 =? 0)) with false. cbn iota.
  apply wph_bind. rewrite (wph_det _ _ _ _ _ _ (ret_fname_eq ms N k F m d s p l nm HS Hp Hp0 Hpath)). change (negb (0 =? 0)) with false. cbn iota.
  apply wph_bind. unfold del_dirfileblk_core. apply wph_bind. apply (h_root junk ms N HG HS HI).
  { intros s1 HS1. apply wph_ret, wph_ret. apply Hfail; [right; pose proof (st_den _ _ _ _ _ _ _ HS1); lia|]. eapply St_weaken; [done|lia]. }
  intros b s1 Hb Hk Hhi HS1. rewrite (addr_nz b Hk). pose proof HI as [Hx Hbm Hrt Hrb Hy _ _ Hz HD Hlive _]. pose proof (dk_len _ _ _ HD) as Hlz. hfield HS1 b z Hlz. apply wph_bind.
  apply (h_scan_dir HS1 b z rb (a_ents A) (lookup_insert_eq _ _ _) HD Hk Hhi nm); [by apply good_no_nul| |].
  { intros He. apply wph_bind. apply (h_unroot ms N HG HS1 HI b m); [done|done|done|]. intros s2 HS2. apply wph_ret, wph_ret, Hfail; [left; by rewrite He|done]. }
  intros _. destruct (dir_find nm (a_ents A) 0) as [[j i]|] eqn:Ef; cbn [fmap option_fmap option_map fst].
  2:{ apply wph_bind. apply (h_unroot ms N HG HS1 HI b m); [done|done|done|]. intros s2 HS2. apply wph_ret, wph_ret, Hfail; [by left|done]. }
  destruct (dir_find_some _ _ _ _ _ Ef) as [Hj Hat]. rewrite Z.sub_0_r in Hat. destruct (Hlive _ _ _ Hat) as (Hi & _ & _).
  pose proof (dk_ent _ _ _ HD _ _ Hat) as (_ & _ & Hnr & _). rewrite Z2Nat.id in Hnr by done. pose proof (lookup_lt_Some _ _ _ Hat) as Hlt. pose proof (dk_max _ _ _ HD) as Hmax.
  assert (Hoff : 512 <= slot j /\ slot j + 128 <= 4096) by (unfold slot, sizeof_rfsdir_t; lia). unfold FSYS_ALCBLKSZ in Hlz.
  apply wph_bind. apply (h_get ms N HS1 b z); [apply lookup_insert_eq|layout; lia|layout; lia|]. rewrite Hnr.
  apply wph_bind. apply (h_rfs_del_blk junk ms N HG HS1 HE x y); [done|done|done|destruct HG; lia|]. clear s1 HS1. intros s1 HS1.
  apply wph_bind. unfold rfsdir_t_init. cbn [fst snd].
  do 3 (apply wph_bind; eapply (h_set ms N HS1); [apply lookup_insert_eq|layout; lia|layout; lens; lia|]; clear s1 HS1; intros s1 HS1; fold_ins HS1).
  eapply (h_store ms N HS1); [apply lookup_insert_eq|layout; lia|rewrite blen_zeros by done; layout; lens; lia|]. clear s1 HS1. intros s1 HS1. fold_ins HS1. fold (clear_entry z (slot j)) in HS1.
  assert (Hlc : blen (clear_entry z (slot j)) = 4096) by (unfold clear_entry; layout; lens; lia).
  apply wph_bind. eapply (h_set ms N HS1); [apply lookup_insert_eq|layout; lia|layout; lia|]. clear s1 HS1. intros s1 HS1. fold_ins HS1.
  assert (HD' := dir_ok_delete z rb (a_ents A) (Z.to_nat j) HD Hlt). rewrite Z2Nat.id in HD' by done.
  apply wph_ret, wph_bind. eapply (h_del_rootdirfile_blk ms N HG k F _ _ s1 E b _ rb); [exact HS1|apply lookup_insert_eq|apply HD'|done|apply HD'|lia|].
  intros s2 HS2. rewrite delete_insert_id in HS2 by done. apply wph_ret, wph_ret. eapply (Hok j i); [done|exact HS2|]. by apply (FsInv_delete ms N HI (Z.to_nat j) nm i).
Qed.
End named.

(** ** Open files *)

Section handles.
Context {k : nat} {F : gmap Z Z} {m d : gmap Z (list Z)} {s : rst S} (HS : St k F m d s) {E : string -> Prop}.
Context (h : Z) (f : list Z) (blk : Z) (data : list Z) (Hh : m !! h = Some f) (Hf : file_ok f blk data) (Hblk : 2 <= blk < N).

Lemma h_first_block (Q : bool -> rst S -> Prop) : Q false s -> wph (not_first_block h) s Q E.
Proof using HS Hh Hf.
  intros HQ. pose proof (fk_len _ _ _ Hf) as Hl. unfold not_first_block. hfield HS h f Hl. hfield HS h f Hl. rewrite (fk_sf _ _ _ Hf), (fk_cw _ _ _ Hf), Z.eqb_refl. cbn [negb].
  hfield HS h f Hl. change (fmd_fleblk 0 + fb_blkstart) with (fmd_fleblk 0). rewrite (fk_fs _ _ _ Hf), Z.eqb_refl. done.
Qed.

(** [len] bytes of a buffer appended; refused when they would fill the block. *)
Lemma h_writefileblk buf bs len (Q : Z -> rst S -> Prop) : 0 <= len -> 0x200 + blen data + len < u64max ->
  (FSYS_ALCBLKSZ <= 0x200 + blen data + len -> Q DFCERRSTUS s) ->
  (0x200 + blen data + len < FSYS_ALCBLKSZ -> m !! buf = Some bs /\ buf <> h /\ len <= blen bs) ->
  (forall f' s', 0x200 + blen data + len < FSYS_ALCBLKSZ -> file_ok f' blk (data ++ slice bs 0 len) -> St k F (<[h := f']> m) (<[bk blk := f']> d) s' -> Q DFCOKSTUS s') ->
  wph (rfs_writefileblk h buf len) s Q E.
Proof using HS HG Hh Hf Hblk.
  intros Hlen Hwrap Herr Hbuf Hok. pose proof (fk_len _ _ _ Hf) as Hl. pose proof (blen_nonneg data). unfold rfs_writefileblk. apply wph_bind, h_first_block.
  hfield HS h f Hl. rewrite (fk_cur _ _ _ Hf). rewrite (u64_small (512 + blen data + len)) by lia. destruct (FSYS_ALCBLKSZ <=? _) eqn:Ec; bool_to_prop; [by apply wph_ret, Herr|].
  destruct (Hbuf Ec) as (Hb & Hne & Hbl). unfold FSYS_ALCBLKSZ in Hl, Ec. pose proof u64max_val. assert (Hsl : blen (slice bs 0 len) = len) by (apply blen_slice; lia).
  apply wph_bind. apply (h_memcpy ms N HS buf bs 0 h f); [done|done|done|done|lia|lia|lia|lia|]. clear s HS Herr. intros s HS.
  assert (Hl1 : blen (splice f (512 + blen data) (slice bs 0 len)) = 4096) by (rewrite blen_splice; lia).
  apply wph_bind. eapply (h_get ms N HS); [apply lookup_insert_eq|done|rewrite Hl1; done|]. rewrite Z.add_0_l.
  replace (rd64 (splice f (512 + blen data) (slice bs 0 len)) fmd_filesz) with (blen data) by (rewrite rd64_splice_other by (unfold fmd_filesz; lia); symmetry; apply Hf).
  rewrite (u64_small (blen data + len)) by lia. apply wph_bind. eapply (h_set ms N HS); [apply lookup_insert_eq|done|rewrite Hl1; done|]. clear s HS. intros s HS. fold_ins HS. rewrite Z.add_0_l in HS.
  assert (Hl2 : blen (wr64 (splice f (512 + blen data) (slice bs 0 len)) fmd_filesz (blen data + len)) = 4096) by (rewrite blen_wr64; [done|done|rewrite Hl1; done]).
  apply wph_bind. eapply (h_get ms N HS); [apply lookup_insert_eq|done|rewrite Hl2; done|]. rewrite Z.add_0_l.
  replace (rd64 (wr64 (splice f (512 + blen data) (slice bs 0 len)) fmd_filesz (blen data + len)) fmd_curfinwbkoff) with (512 + blen data)
    by (rewrite rd64_wr64_other, rd64_splice_other by (rewrite ?Hl1; unfold fmd_filesz, fmd_curfinwbkoff; lia); symmetry; apply Hf).
  rewrite (u64_small (512 + blen data + len)) by lia. apply wph_bind. eapply (h_set ms N HS); [apply lookup_insert_eq|done|rewrite Hl2; done|]. clear s HS. intros s HS. fold_ins HS. rewrite Z.add_0_l in HS.
  pose proof (file_ok_write f blk data (slice bs 0 len) Hf ltac:(unfold FSYS_ALCBLKSZ; lia)) as Hf'. rewrite Hsl in Hf'. set (f' := wr64 (wr64 _ _ _) _ _) in *.
  apply wph_bind. eapply (h_get ms N HS); [apply lookup_insert_eq|done|rewrite (fk_len _ _ _ Hf'); done|]. rewrite Z.add_0_l, (fk_cw _ _ _ Hf').
  apply wph_bind. apply (h_write ms N HS HG h f'); [apply lookup_insert_eq|apply Hf'|lia|]. intros s' HS'. by apply (Hok f').
Qed.

Lemma h_readfileblk buf bs len (Q : Z -> rst S -> Prop) : (FSYS_ALCBLKSZ - 0x200 < len -> Q DFCERRSTUS s) ->
  (len <= FSYS_ALCBLKSZ - 0x200 -> 0 <= len /\ m !! buf = Some bs /\ buf <> h /\ len <= blen bs) ->
  (forall s', len <= FSYS_ALCBLKSZ - 0x200 -> St k F (<[buf := splice bs 0 (slice (data ++ zeros (FSYS_ALCBLKSZ - 0x200 - blen data)) 0 len)]> m) d s' -> Q DFCOKSTUS s') ->
  wph (rfs_readfileblk h buf len) s Q E.
Proof using HS Hh Hf.
  intros Herr Hbuf Hok. pose proof (fk_len _ _ _ Hf) as Hl. unfold rfs_readfileblk. apply wph_bind, h_first_block. hfield HS h f Hl. rewrite (fk_ifst _ _ _ Hf).
  rewrite u64_small by done. destruct (FSYS_ALCBLKSZ - 512 <? len) eqn:Ec; bool_to_prop; [by apply wph_ret, Herr|]. destruct (Hbuf Ec) as (Hlen & Hb & Hne & Hbl). unfold FSYS_ALCBLKSZ in *.
  apply wph_bind. apply (h_memcpy ms N HS h f 512 buf bs 0); [done|done|done|done|lia|lia|lia|lia|]. intros s' HS'. apply wph_ret. rewrite (file_ok_read f blk data len Hf) in HS' by done. by apply Hok.
Qed.

Lemma h_closefileblk (Q : Z -> rst S -> Prop) : base <= h -> (forall s', St k F (delete h m) (<[bk blk := f]> d) s' -> Q DFCOKSTUS s') -> wph (rfs_closefileblk h) s Q E.
Proof using HS HG Hh Hf Hblk.
  intros Hk HQ. pose proof (fk_len _ _ _ Hf) as Hl. unfold rfs_closefileblk. hfield HS h f Hl. rewrite (fk_sf _ _ _ Hf). apply wph_bind. apply (h_write ms N HS HG h f); [done|done|lia|]. intros s1 HS1.
  apply wph_bind. apply (h_del_buf ms N HS1 h f); [done|done|done|apply good_block|]. intros s2 HS2. by apply HQ.
Qed.
End handles.
End files.
