(* ===== verification/RfsFmat.v ===== *)
(** * RAM file system: formatting

    [rfs_fmat] turns a device of any contents into an empty file system. *)

From S2P Require Import Prelude Bytes Boot BootPages KmsobInv Kmempool MemIf Rfs RfsMem RfsBlk RfsDir RfsOps RfsFiles.
#[local] Open Scope Z_scope.

(** The halts of formatting *)
Definition fmat_err (e : string) : Prop :=
  oom e \/ e = "create superblk err"%string \/ e = "create bitmap err"%string \/ e = "create rootdir err"%string.

Section fmat.
Context {S : Type} {HMO : MemOps S} {HMA : MemAlloc S} (junk : nat -> nat -> Z).
Context (ms N : Z) (HG : geometry ms N).
Implicit Types (s : rst S) (m d : gmap Z (list Z)) (F : gmap Z Z) (b i : Z) (l : list Z).
Abbreviation bk := (bk ms).
Abbreviation St := (St ms N).
Abbreviation FsInv := (FsInv ms N).

Ltac sblayout :=
  unfold rsb_mgic, rsb_vec, rsb_flg, rsb_stus, rsb_sz, rsb_sblksz, rsb_dblksz, rsb_bmpbks, rsb_bmpbknr, rsb_fsysallblk, rsb_rootdir, sizeof_rfssublk_t in *; layout.

(** A fresh superblock: where the bitmap is and how many blocks there are. *)
Definition sb_ok (x : list Z) : Prop := blen x = FSYS_ALCBLKSZ /\ rd64 x rsb_bmpbks = 1 /\ rd64 x rsb_fsysallblk = N.

Lemma maxblk_eq k F m d s : St k F m d s -> ret_rfsdevmaxblknr s = Ret (N, s).
Proof.
  intros [_ _ (e & He & _ & E2) _ _ _]. unfold ret_rfsdevmaxblknr, ret_rfsdevext, mbind, M_bind. rewrite He, E2. unfold FSYS_ALCBLKSZ. by rewrite Z.mul_comm, Z.div_mul.
Qed.

Section step.
Context {k : nat} {F : gmap Z Z} {m d : gmap Z (list Z)} {s : rst S} (HS : St k F m d s) {E : string -> Prop} (HE : forall e, oom e -> E e).

Lemma h_create_superblk (Q : bool -> rst S -> Prop) : (forall s', Q false s') ->
  (forall x s', sb_ok x -> St k F m (<[bk 0 := x]> d) s' -> Q true s') -> wph (create_superblk junk) s Q E.
Proof using HS HG.
  intros H0 HQ. pose proof u64max_val. assert (HN : 3 <= N <= 4096) by apply HG. unfold create_superblk. apply wph_bind. apply (h_new_buf junk ms N HS); [done|intros; apply wph_ret, H0|].
  intros b l s1 Hb Hk _ Hl HS1. rewrite (addr_nz b Hk). apply wph_bind. apply (h_memset ms N HS1 b l); [apply lookup_insert_eq|done|]. clear HS1 s1. intros s1 HS1. fold_ins HS1.
  pose proof zero_block as (Hlz & _ & _). change (replicate 4096 0) with (zeros 4096) in HS1. remember (zeros 4096) as y eqn:Ey. clear Ey.
  apply wph_bind. unfold rfssublk_t_init, rfsdir_t_init. cbn [fst snd].
  apply wph_bind. eapply (h_store ms N HS1); [apply lookup_insert_eq|done|rewrite blen_zeros by done; lia|]. clear s1 HS1. intros s1 HS1. fold_ins HS1.
  assert (Hl0 : blen (splice y 0 (zeros 4)) = 4096) by (rewrite blen_splice; rewrite ?blen_zeros by done; lia). remember (splice y 0 (zeros 4)) as y0 eqn:Ey. clear Ey Hlz y.
  do 10 (apply wph_bind; eapply (h_set ms N HS1); [apply lookup_insert_eq|done|sblayout; lens; lia|]; clear s1 HS1; intros s1 HS1; fold_ins HS1).
  do 3 (apply wph_bind; eapply (h_set ms N HS1); [apply lookup_insert_eq|done|sblayout; lens; lia|]; clear s1 HS1; intros s1 HS1; fold_ins HS1).
  eapply (h_store ms N HS1); [apply lookup_insert_eq|done|rewrite blen_zeros by done; sblayout; lens; lia|]. clear s1 HS1. intros s1 HS1. fold_ins HS1.
  apply wph_bind. rewrite (wph_det _ _ _ _ _ _ (maxblk_eq _ _ _ _ _ HS1)).
  apply wph_bind. eapply (h_set ms N HS1); [apply lookup_insert_eq|done|sblayout; lens; lia|]. clear s1 HS1. intros s1 HS1. fold_ins HS1. cbn [fst snd] in HS1. rewrite ?Z.add_0_l in HS1.
  match type of HS1 with RfsMem.St _ _ _ _ (<[b := ?X]> m) _ _ => assert (Hsb : sb_ok X) by (unfold sb_ok; sblayout; lens; split_and!; [done|by fields|by fields]); remember X as x eqn:Ex; clear Ex end.
  apply wph_bind. apply (h_write ms N HS1 HG b x); [apply lookup_insert_eq|apply Hsb|apply (in0 ms N HG)|]. clear s1 HS1. intros s1 HS1. cbn.
  apply wph_bind. apply (h_del_buf ms N HS1 b x); [apply lookup_insert_eq|apply Hsb|done|apply good_block|]. clear s1 HS1. intros s1 HS1. rewrite delete_insert_id in HS1 by done.
  apply wph_ret. by apply (HQ x).
Qed.
End step.

(** The loop that marks blocks as free *)
Lemma h_clear_bits k F m d E b n (Q : unit -> rst S -> Prop) : forall a s y, St k F m d s -> m !! b = Some y -> blen y = FSYS_ALCBLKSZ -> 0 <= a -> a + n <= FSYS_ALCBLKSZ -> 0 <= n ->
  (forall y' s', blen y' = FSYS_ALCBLKSZ -> (forall j, 0 <= j < FSYS_ALCBLKSZ -> y' !! Z.to_nat j = if (a <=? j) && (j <? a + n) then Some 0 else y !! Z.to_nat j) -> St k F (<[b := y']> m) d s' -> Q tt s') ->
  wph (for_each (seqZ a n) (fun bi => store b bi [0])) s Q E.
Proof.
  assert (exists c, Z.to_nat n = c) as [c Hc] by eauto. revert n Hc m. induction c as [|c IH]; intros n Hc m a s y HS Hb Hl Ha Han Hn HQ.
  { rewrite seqZ_nil by lia. apply wph_ret. apply (HQ y); [done| |by rewrite insert_id]. intros j Hj. by replace ((a <=? j) && (j <? a + n)) with false by lia. }
  rewrite seqZ_step by lia. cbn [for_each]. apply wph_bind. unfold FSYS_ALCBLKSZ in *. apply (h_store ms N HS b y); [done|done|rewrite blen_cons, blen_nil; lia|]. clear s HS. intros s HS.
  rewrite splice_one in HS by lia. eapply (IH (n - 1)); [lia|exact HS|apply lookup_insert_eq|unfold blen; rewrite length_insert; done|lia|lia|lia|].
  intros y' s' Hl' Hy' HS'. fold_ins HS'. apply (HQ y'); [done| |done]. intros j Hj. rewrite Hy' by done.
  destruct (decide (j = a)) as [->|Hne].
  - replace ((a + 1 <=? a) && (a <? a + 1 + (n - 1))) with false by lia. replace ((a <=? a) && (a <? a + n)) with true by lia. rewrite list_lookup_insert_eq; [done|]. unfold blen in Hl. lia.
  - rewrite list_lookup_insert_ne by lia. by replace ((a + 1 <=? j) && (j <? a + 1 + (n - 1))) with ((a <=? j) && (j <? a + n)) by lia.
Qed.

(** A fresh bitmap: block 2 and those after it, up to the device's end, are free. *)
Definition map_ok (y : list Z) : Prop := blen y = FSYS_ALCBLKSZ /\ forall j, 0 <= j < FSYS_ALCBLKSZ -> y !! Z.to_nat j = Some (if (2 <=? j) && (j <? N) then 0 else 1).

Lemma h_create_bitmap k F m d s (E : string -> Prop) x (Q : bool -> rst S -> Prop) : St k F m d s -> d !! bk 0 = Some x -> sb_ok x -> (forall s', Q false s') ->
  (forall y s', map_ok y -> St k F m (<[bk 1 := y]> d) s' -> Q true s') -> wph (create_bitmap junk) s Q E.
Proof using HG.
  intros HS Hx (Hlx & Hbm & HN) H0 HQ. assert (HNr : 3 <= N <= FSYS_ALCBLKSZ) by apply HG. unfold create_bitmap. apply wph_bind. apply (h_get_superblk junk ms N HG HS x); [done|intros; apply wph_ret, H0|].
  intros sb s1 Hsb Hk HS1. rewrite (addr_nz sb Hk). apply wph_bind. apply (h_new_buf junk ms N HS1); [done|intros; apply wph_ret, H0|].
  intros b l s2 Hb Hkb _ Hl HS2. rewrite (addr_nz b Hkb). apply lookup_insert_None in Hb as [Hb Hne]. set (m1 := <[sb := x]> m) in *.
  assert (Hsb2 : forall l, <[b := l]> m1 !! sb = Some x) by (intros; unfold m1; by rewrite lookup_insert_ne, lookup_insert_eq).
  apply wph_bind. apply (h_get ms N HS2 sb x); [done|done|rewrite Hlx; done|]. rewrite Z.add_0_l, Hbm.
  apply wph_bind. apply (h_get ms N HS2 sb x); [done|done|rewrite Hlx; done|]. rewrite Z.add_0_l, HN.
  apply wph_bind. replace (N >? FSYS_ALCBLKSZ) with false by lia. apply wph_bind. apply (h_memset ms N HS2 b l); [apply lookup_insert_eq|done|]. clear s2 HS2. intros s2 HS2. fold_ins HS2.
  apply wph_bind. eapply (h_clear_bits _ _ _ _ _ b); [exact HS2|apply lookup_insert_eq|done|lia|lia|lia|]. clear s2 HS2. intros y s2 Hly Hy HS2. fold_ins HS2.
  assert (HM : map_ok y).
  { split; [done|]. intros j Hj. rewrite Hy by done. replace (2 + (N - 2)) with N by lia. destruct ((2 <=? j) && (j <? N)); [done|]. apply lookup_replicate_2. unfold FSYS_ALCBLKSZ in Hj. lia. }
  apply wph_bind. apply (h_write ms N HS2 HG b y); [apply lookup_insert_eq|done|apply (in1 ms N HG)|]. clear s2 HS2. intros s2 HS2. apply wph_ret. change (negb (DFCOKSTUS =? DFCERRSTUS)) with true.
  apply wph_bind. unfold m1 in HS2. rewrite insert_insert_ne in HS2 by done. apply (h_del_superblk_same ms N HG HS2 sb x (<[b := y]> m)); [done|by rewrite lookup_insert_ne| |done|].
  { rewrite lookup_insert_ne; [done|]. by intros ?%bk_inj. }
  clear s2 HS2. intros s2 HS2. apply wph_bind. apply (h_del_buf ms N HS2 b y); [apply lookup_insert_eq|done|done|apply good_block|]. clear s2 HS2. intros s2 HS2. rewrite delete_insert_id in HS2 by done.
  by apply (HQ y).
Qed.

(** The root directory goes to block 2. *)
Lemma h_create_rootdir k F m d s (E : string -> Prop) x y (Q : bool -> rst S -> Prop) : (forall e, oom e -> E e) -> St k F m d s -> d !! bk 0 = Some x -> sb_ok x ->
  d !! bk 1 = Some y -> map_ok y -> (forall s', Q false s') ->
  (forall d' x' y' z' s', FsInv 2 d' x' y' z' (Afs [] ∅) -> y' = <[2%nat := 1]> y -> St k F m d' s' -> Q true s') -> wph (create_rootdir junk) s Q E.
Proof using HG.
  intros HE HS Hx (Hlx & Hbm & HN) Hy (Hly & Hmap) H0 HQ. assert (HNr : 3 <= N <= FSYS_ALCBLKSZ) by apply HG. pose proof u64max_val. unfold FSYS_ALCBLKSZ in Hlx, Hly.
  unfold create_rootdir. apply wph_bind. apply (h_get_superblk junk ms N HG HS x); [done|intros; apply wph_ret, H0|].
  intros sb s1 Hsb Hk HS1. rewrite (addr_nz sb Hk).
  (* what failures end with: the superblock written back, no matter what *)
  assert (Hend : forall m' d' s' l, m' !! sb = Some l -> blen l = 4096 -> St k F m' d' s' -> wph (del_superblk sb ;; mret false) s' Q E).
  { intros m' d' s' l Hm Hl HS'. apply wph_bind. apply (h_del_superblk ms N HG HS' sb l); [done|done|done|]. intros s2 _. apply wph_ret, H0. }
  apply wph_bind. apply (h_new_buf junk ms N HS1); [done| |].
  { intros s2 HS2. apply wph_bind, wph_ret. apply (Hend (<[sb := x]> m) d s2 x); [apply lookup_insert_eq|done|]. eapply St_weaken; [done|lia]. }
  intros b l s2 Hb Hkb _ Hl HS2. rewrite (addr_nz b Hkb). apply lookup_insert_None in Hb as [Hb Hne]. set (m1 := <[sb := x]> m) in *.
  apply wph_bind. apply wph_bind. apply (h_memset ms N HS2 b l); [apply lookup_insert_eq|done|]. clear s2 HS2. intros s2 HS2. fold_ins HS2. change (replicate 4096 0) with (zeros 4096) in HS2.
  set (m2 := <[b := zeros 4096]> m1) in *. assert (Hsb2 : m2 !! sb = Some x) by (unfold m2, m1; by rewrite lookup_insert_ne, lookup_insert_eq).
  assert (Hb2 : m2 !! b = Some (zeros 4096)) by apply lookup_insert_eq.
  assert (Hfail : forall m' d' s', m2 ⊆ m' -> St k F m' d' s' -> wph (del_buf b FSYS_ALCBLKSZ ;; mret false) s' (fun r s'' => wph (del_superblk sb ;; mret r) s'' Q E) E).
  { intros m' d' s' Hm HS'. apply wph_bind. apply (h_del_buf ms N HS' b (zeros 4096)); [by eapply lookup_weaken|done|done|apply good_block|]. intros s3 HS3. apply wph_ret.
    apply (Hend (delete b m') d' s3 x); [|done|done]. rewrite lookup_delete_ne by done. by eapply lookup_weaken. }
  apply wph_bind. apply (h_rfs_new_blk junk ms N HG HS2 HE x y); [done|done|done| | |].
  { intros m' s3 Hm HS3. change (0 =? 0) with true. cbn iota. apply wph_bind, wph_ret. apply (Hfail m' d); [done|]. eapply St_weaken; [done|lia]. }
  { intros s3 Hnf _. exfalso. apply (Hnf 2); [done|]. rewrite Hmap by done. by replace ((2 <=? 2) && (2 <? N)) with true by lia. }
  intros i s3 Hff HS3. assert (i = 2) as ->.
  { destruct Hff as ((Hlo & Hhi) & _ & Hmin). destruct (decide (i = 2)) as [|Hn]; [done|]. exfalso. apply (Hmin 2); [lia|]. rewrite Hmap by done. by replace ((2 <=? 2) && (2 <? N)) with true by lia. }
  clear Hfail Hend. change (2 =? 0) with false. cbn iota. change (Z.to_nat 2) with 2%nat in HS3. set (y1 := <[2%nat := 1]> y) in *. set (d1 := <[bk 1 := y1]> d) in *.
  apply wph_bind. apply wph_bind. apply (h_store ms N HS3 sb x); [done|done|rewrite blen_cons, blen_nil; sblayout; lia|]. clear s3 HS3. intros s3 HS3.
  assert (Hl1 : blen (splice x (rsb_rootdir + rdr_name) [47]) = 4096) by (rewrite blen_splice; rewrite ?blen_cons, ?blen_nil; sblayout; lia).
  do 2 (apply wph_bind; eapply (h_set ms N HS3); [apply lookup_insert_eq|done|sblayout; lens; lia|]; clear s3 HS3; intros s3 HS3; fold_ins HS3).
  match type of HS3 with RfsMem.St _ _ _ _ (<[sb := ?X]> _) _ _ => set (x1 := X) in * end.
  assert (Hx1 : blen x1 = 4096 /\ rd64 x1 rsb_bmpbks = 1 /\ rd64 x1 (rsb_rootdir + rdr_blknr) = 2).
  { unfold x1. sblayout. lens. split_and!; [done| |by fields]. rewrite !rd64_wr64_other by lia. rewrite rd64_splice_other by (rewrite ?blen_cons, ?blen_nil; lia). done. }
  destruct Hx1 as (Hlx1 & Hbm1 & Hrt1). clearbody x1.
  eapply h_make_header; [exact HS3|by rewrite lookup_insert_ne|]. clear s3 HS3. intros s3 HS3. set (z := new_header FMD_DIR_TYPE 2) in *.
  assert (HD : dir_ok z 2 []) by (apply new_header_dir; lia). clearbody z.
  apply wph_bind. apply (h_write ms N HS3 HG b z); [apply lookup_insert_eq|apply HD|lia|]. clear s3 HS3. intros s3 HS3. apply wph_ret. change (negb (DFCOKSTUS =? DFCERRSTUS)) with true.
  apply wph_bind. apply (h_del_buf ms N HS3 b z); [apply lookup_insert_eq|apply HD|done|apply good_block|]. clear s3 HS3. intros s3 HS3. apply wph_ret.
  apply wph_bind. apply (h_del_superblk ms N HG HS3 sb x1); [by rewrite !lookup_delete_ne, lookup_insert_ne, lookup_insert_eq|done|done|]. clear s3 HS3. intros s3 HS3.
  apply wph_ret. eapply (HQ _ x1 y1 z); [|done|].
  2:{ replace m with (delete sb (delete b (<[b := z]> (<[sb := x1]> m2)))); [exact HS3|]. apply map_eq. intros a. unfold m2, m1.
      destruct (decide (a = sb)) as [->|]; [by simplify_map_eq|]. destruct (decide (a = b)) as [->|]; by simplify_map_eq. }
  unfold d1. split; cbn [a_ents a_data].
  - apply lookup_insert_eq.
  - done.
  - done.
  - lia.
  - rewrite !(lookup_insert_ne _ (bk _) (bk 1)) by (by intros ?%bk_inj). apply lookup_insert_eq.
  - intros j Hj. unfold y1. rewrite list_lookup_insert_ne by lia. rewrite Hmap by lia. by replace ((2 <=? j) && (j <? N)) with false by lia.
  - unfold y1. change (Z.to_nat 2) with 2%nat. rewrite list_lookup_insert_eq; [done|]. unfold blen in Hly. lia.
  - rewrite lookup_insert_ne by (by intros ?%bk_inj). apply lookup_insert_eq.
  - done.
  - intros j nm blk Hj. done.
  - intros j j' nm nm' blk blk' Hj. done.
Qed.

Lemma h_rfs_fmat k F m d s (Q : unit -> rst S -> Prop) : St k F m d s ->
  (forall d' x y z s', FsInv 2 d' x y z (Afs [] ∅) -> (forall j, 3 <= j < N -> y !! Z.to_nat j = Some 0) -> St k F m d' s' -> Q tt s') -> wph (rfs_fmat junk) s Q fmat_err.
Proof using HG.
  intros HS HQ. assert (HNr : 3 <= N <= FSYS_ALCBLKSZ) by apply HG. unfold rfs_fmat. apply wph_bind. apply (h_create_superblk HS).
  { intros s1. apply wph_bind, wph_die_if; [|done]. intros _. right. by left. }
  intros x s1 Hx HS1. apply wph_bind, wph_die_if; [done|]. intros _. apply wph_bind. apply (h_create_bitmap _ _ _ _ _ _ x _ HS1); [apply lookup_insert_eq|done| |].
  { intros s2. apply wph_bind, wph_die_if; [|done]. intros _. right. right. by left. }
  intros y s2 Hy HS2. apply wph_bind, wph_die_if; [done|]. intros _. apply wph_bind. apply (h_create_rootdir _ _ _ _ _ _ x y _ (fun e He => or_introl He) HS2); [|done|apply lookup_insert_eq|done| |].
  { rewrite lookup_insert_ne by (by intros ?%bk_inj). apply lookup_insert_eq. }
  { intros s3. apply wph_die_if; [|done]. intros _. right. right. by right. }
  intros d' x' y' z' s3 HI -> HS3. apply wph_die_if; [done|]. intros _. eapply HQ; [exact HI| |exact HS3].
  intros j Hj. destruct Hy as [_ Hmap]. rewrite list_lookup_insert_ne by lia. rewrite Hmap by (unfold FSYS_ALCBLKSZ in *; lia). by replace ((2 <=? j) && (j <? N)) with true by lia.
Qed.
End fmat.
