(* ===== verification/RfsCorrect.v ===== *)
(** * RAM file system: correctness

    The driver refines an abstract file system of named files and open handles;
    formatting makes an empty file system of any device. *)

From S2P Require Import Prelude Bytes Boot BootPages KmsobInv Kmempool MemIf Rfs RfsMem RfsBlk RfsDir RfsOps RfsFiles RfsFmat.
#[local] Open Scope Z_scope.

(** ** The abstract file system *)

(** Open files: handle, block and contents at the time of the last access.  A handle
    is a copy of its file: handles of one file do not see each other's writes, and
    closing one writes its copy back. *)
Abbreviation handles := (gmap Z (Z * list Z)).

Inductive fs_act :=
  | ACreate (nm : list Z) | AOpen (nm : list Z) | ADelete (nm : list Z)
  | AWrite (h : Z) (bs : list Z) | ARead (h len : Z) | AClose (h : Z).

Inductive fs_out := ONone | OHandle (h : Z) | OData (bs : list Z).

(** The room for the contents of a file *)
Definition file_max : Z := FSYS_ALCBLKSZ - 0x200.

(** When an operation may be refused; [denied]: the system has no memory left, [full]:
    the device has no free block. *)
Definition fs_fails (denied full : Prop) (A : afs) (H : handles) (a : fs_act) : Prop :=
  match a with
  | ACreate nm => dir_find nm (a_ents A) 0 <> None \/ (28 <= length (a_ents A))%nat \/ full \/ denied
  | AOpen nm | ADelete nm => dir_find nm (a_ents A) 0 = None \/ denied
  | AWrite h bs => exists blk data, H !! h = Some (blk, data) /\ file_max <= blen data + blen bs
  | ARead h len => file_max < len
  | AClose _ => False
  end.

Inductive fs_step (denied full : Prop) (A : afs) (H : handles) : fs_act -> Z -> fs_out -> afs -> handles -> Prop :=
  | fs_create nm i : dir_find nm (a_ents A) 0 = None -> (forall j n, ~ live (a_ents A) j n i) ->
      fs_step denied full A H (ACreate nm) DFCOKSTUS ONone (Afs (a_ents A ++ [Live nm i]) (<[i := []]> (a_data A))) H
  | fs_open nm j blk data h : dir_find nm (a_ents A) 0 = Some (j, blk) -> a_data A !! blk = Some data -> H !! h = None ->
      fs_step denied full A H (AOpen nm) DFCOKSTUS (OHandle h) A (<[h := (blk, data)]> H)
  | fs_delete nm j blk : dir_find nm (a_ents A) 0 = Some (j, blk) ->
      fs_step denied full A H (ADelete nm) DFCOKSTUS ONone (Afs (<[Z.to_nat j := Dead]> (a_ents A)) (delete blk (a_data A))) H
  | fs_write h blk data bs : H !! h = Some (blk, data) -> blen data + blen bs < file_max ->
      fs_step denied full A H (AWrite h bs) DFCOKSTUS ONone (Afs (a_ents A) (<[blk := data ++ bs]> (a_data A))) (<[h := (blk, data ++ bs)]> H)
  | fs_read h blk data len : H !! h = Some (blk, data) -> len <= file_max ->
      fs_step denied full A H (ARead h len) DFCOKSTUS (OData (slice (data ++ zeros (file_max - blen data)) 0 len)) A H
  | fs_close h blk data : H !! h = Some (blk, data) ->
      fs_step denied full A H (AClose h) DFCOKSTUS ONone (Afs (a_ents A) (<[blk := data]> (a_data A))) (delete h H)
  | fs_refuse a : fs_fails denied full A H a -> fs_step denied full A H a DFCERRSTUS ONone A H.

Section correct.
Context {S : Type} {HMO : MemOps S} {HMA : MemAlloc S} (junk : nat -> nat -> Z).
Context (ms N rb : Z).
Implicit Types (s : rst S) (F : gmap Z Z) (H : handles) (A : afs).

(** ** The concrete state of a file system *)

(** Driver state [s], with the device of [N] blocks at [ms] and the memory [F] of
    others, holds the file system [A] with the open handles [H]. *)
Record fsys F H A s : Prop := {
  fy_geo : geometry ms N;
  fy_st : St ms N (r_denied s) F (r_mem s) (r_disk s) s;
  fy_inv : exists x y z, FsInv ms N rb (r_disk s) x y z A;
  fy_hand h blk data : H !! h = Some (blk, data) -> base <= h /\ 2 <= blk < N /\ blk <> rb /\ exists f, r_mem s !! h = Some f /\ file_ok f blk data
}.

(** No block is free. *)
Definition fs_full s : Prop := exists y, r_disk s !! bk ms 1 = Some y /\ no_free y.

(** The request packet [n] asks for [a]: the fields the operation reads, and the path
    or the buffer they point to; a caller's buffer is no handle. *)
Definition asks H s (n : objnode_t) (a : fs_act) : Prop :=
  match a with
  | ACreate nm => on_acsflgs n = FSDEV_OPENFLG_NEWFILE /\ on_fname n <> 0 /\ exists l, r_mem s !! on_fname n = Some l /\ path_to nm l
  | AOpen nm => on_acsflgs n = FSDEV_OPENFLG_OPEFILE /\ on_fname n <> 0 /\ exists l, r_mem s !! on_fname n = Some l /\ path_to nm l
  | ADelete nm => on_ioctrd n = FSDEV_IOCTRCD_DELFILE /\ on_fname n <> 0 /\ exists l, r_mem s !! on_fname n = Some l /\ path_to nm l
  | AWrite h bs => on_finode n = h /\ on_bufsz n = FSYS_ALCBLKSZ /\ on_buf n <> 0 /\ H !! on_buf n = None /\ is_Some (H !! h) /\
      exists l, r_mem s !! on_buf n = Some l /\ 0 <= on_len n <= blen l /\ blen l = FSYS_ALCBLKSZ /\ bs = slice l 0 (on_len n)
  | ARead h len => on_finode n = h /\ on_bufsz n = FSYS_ALCBLKSZ /\ on_buf n <> 0 /\ H !! on_buf n = None /\ is_Some (H !! h) /\ on_len n = len /\ 0 <= len /\
      exists l, r_mem s !! on_buf n = Some l /\ blen l = FSYS_ALCBLKSZ
  | AClose h => on_finode n = h /\ is_Some (H !! h)
  end.

(** The driver's operation for an action *)
Definition serve (a : fs_act) (n : objnode_t) : M (rst S) (Z * objnode_t) :=
  match a with
  | ACreate _ | AOpen _ => rfs_open junk n
  | ADelete _ => rfs_ioctrl junk n
  | AWrite _ _ => rfs_write n
  | ARead _ _ => rfs_read n
  | AClose _ => rfs_close n
  end.

(** What the caller gets: the packet afterwards, and its buffer. *)
Definition delivers s (n : objnode_t) (o : fs_out) (n' : objnode_t) s' : Prop :=
  match o with
  | ONone => n' = n
  | OHandle h => n' = set_finode h n /\ r_mem s !! h = None
  | OData bs => n' = n /\ exists l, r_mem s !! on_buf n = Some l /\ r_mem s' !! on_buf n = Some (splice l 0 bs)
  end.

(** Memory that is neither a handle nor the buffer read into stays as it is. *)
Definition others_kept H s (n : objnode_t) (o : fs_out) s' : Prop :=
  forall a l, r_mem s !! a = Some l -> H !! a = None -> (forall bs, o = OData bs -> a <> on_buf n) -> r_mem s' !! a = Some l.

(** The outcome of a request *)
Definition served F H A s (a : fs_act) (n : objnode_t) (rn : Z * objnode_t) s' : Prop :=
  exists o A' H', fs_step (r_denied s < r_denied s')%nat (fs_full s) A H a rn.1 o A' H' /\ fsys F H' A' s' /\ delivers s n o rn.2 s' /\ others_kept H s n o s' /\
    (r_denied s <= r_denied s')%nat.

(** *** From the rules' states back to [fsys] *)

Lemma fsys_refold k F H A s m d x y z : geometry ms N -> St ms N k F m d s -> FsInv ms N rb d x y z A ->
  (forall h blk data, H !! h = Some (blk, data) -> base <= h /\ 2 <= blk < N /\ blk <> rb /\ exists f, m !! h = Some f /\ file_ok f blk data) -> fsys F H A s.
Proof.
  intros HG HS HI HH. pose proof HS as [H1 H2 H3 H4 <- <-]. split; [done| |by exists x, y, z|done]. split; done.
Qed.

Section one.
Context {F : gmap Z Z} {H : handles} {A : afs} {s : rst S} (HF : fsys F H A s).

(** Handles survive when memory only grows. *)
Lemma handles_grow m' h blk data : r_mem s ⊆ m' -> H !! h = Some (blk, data) -> base <= h /\ 2 <= blk < N /\ blk <> rb /\ exists f, m' !! h = Some f /\ file_ok f blk data.
Proof using HF.
  intros Hm Hh. destruct (fy_hand _ _ _ _ HF _ _ _ Hh) as (H1 & H2 & H3 & f & H4 & H5). split_and!; [done|lia|lia|done|]. exists f. split; [by eapply lookup_weaken|done].
Qed.

Lemma refused k m' d' x y z a n s' : St ms N k F m' d' s' -> FsInv ms N rb d' x y z A -> r_mem s ⊆ m' -> fs_fails (r_denied s < r_denied s')%nat (fs_full s) A H a ->
  (r_denied s <= k)%nat -> served F H A s a n (DFCERRSTUS, n) s'.
Proof using HF.
  intros HS HI Hm Hf Hk. pose proof (fy_geo _ _ _ _ HF) as HG. exists ONone, A, H. split_and!; [by apply fs_refuse| |done| |pose proof (st_den _ _ _ _ _ _ _ HS); lia].
  - apply (fsys_refold k F H A s' m' d' x y z); [done|done|done|]. intros h blk data. by apply handles_grow.
  - intros b l Hb _ _. rewrite (st_mem _ _ _ _ _ _ _ HS). by eapply lookup_weaken.
Qed.

Lemma create_served n nm : asks H s n (ACreate nm) -> wph (serve (ACreate nm) n) s (served F H A s (ACreate nm) n) oom.
Proof using HF.
  intros (Hfl & Hp0 & l & Hp & Hpath). pose proof HF as [HG HS (x & y & z & HI) HH]. unfold serve, rfs_open. rewrite Hfl. cbn [Z.eqb Pos.eqb FSDEV_OPENFLG_NEWFILE FSDEV_OPENFLG_OPEFILE].
  change (FSDEV_OPENFLG_NEWFILE =? FSDEV_OPENFLG_OPEFILE) with false. change (FSDEV_OPENFLG_NEWFILE =? FSDEV_OPENFLG_NEWFILE) with true. cbn iota.
  apply wph_bind. apply (h_new_file junk ms N HG HS (fun e He => He) HI (proj1 Hpath) _ l Hp Hp0 Hpath).
  - intros m' d' y' s' Hr Hm HS' HI'. apply wph_ret. apply (refused (r_denied s) m' d' x y' z); [done|done|done| |done]. cbn. destruct Hr as [Hr|[Hr|[Hr|Hr]]]; [by left|by right; right; right| |by right; left].
    right. right. left. exists y. split; [apply (fi_map _ _ _ _ _ _ _ _ HI)|done].
  - intros i d' y' z' s' Hn Hff HS' HI'. apply wph_ret. exists ONone. eexists _, H. split_and!; [|by apply (fsys_refold (r_denied s) F H _ s' (r_mem s) d' x y' z')|done| |apply HS'].
    + apply fs_create; [done|]. apply (free_block ms N HI i Hff).
    + intros b l' Hb _ _. by rewrite (st_mem _ _ _ _ _ _ _ HS').
Qed.

Lemma delete_served n nm : asks H s n (ADelete nm) -> wph (serve (ADelete nm) n) s (served F H A s (ADelete nm) n) oom.
Proof using HF.
  intros (Hfl & Hp0 & l & Hp & Hpath). pose proof HF as [HG HS (x & y & z & HI) HH]. unfold serve, rfs_ioctrl. rewrite Hfl, Z.eqb_refl.
  apply wph_bind. apply (h_del_file junk ms N HG HS (fun e He => He) HI (proj1 Hpath) _ l Hp Hp0 Hpath).
  - intros s' Hr HS'. apply wph_ret. by apply (refused (r_denied s) (r_mem s) (r_disk s) x y z).
  - intros j i d' y' z' s' Hn HS' HI'. apply wph_ret. exists ONone. eexists _, H. split_and!; [by eapply fs_delete|by apply (fsys_refold (r_denied s) F H _ s' (r_mem s) d' x y' z')|done| |apply HS'].
    intros b l' Hb _ _. by rewrite (st_mem _ _ _ _ _ _ _ HS').
Qed.

Lemma open_served n nm : asks H s n (AOpen nm) -> wph (serve (AOpen nm) n) s (served F H A s (AOpen nm) n) oom.
Proof using HF.
  intros (Hfl & Hp0 & l & Hp & Hpath). pose proof HF as [HG HS (x & y & z & HI) HH]. unfold serve, rfs_open. rewrite Hfl, Z.eqb_refl. unfold rfs_open_file.
  replace (on_fname n =? 0) with false by lia. apply wph_bind. apply (h_openfileblk junk ms N HG HS HI (proj1 Hpath) _ l); [done|done|done| | |].
  - intros s' HS'. change (0 =? 0) with true. cbn iota. apply wph_ret. eapply (refused _ (r_mem s) (r_disk s) x y z); [done|done|done| |lia]. right. pose proof (st_den _ _ _ _ _ _ _ HS'). lia.
  - intros s' Hn HS'. change (0 =? 0) with true. cbn iota. apply wph_ret. eapply (refused _ (r_mem s) (r_disk s) x y z); [done|done|done| |done]. by left.
  - intros b j blk f data s' Hn Hb Hk Hf Hdata Hok HS'. rewrite (addr_nz b Hk). apply wph_ret. assert (HbH : H !! b = None).
    { destruct (H !! b) as [[blk' data']|] eqn:E; [|done]. destruct (HH _ _ _ E) as (_ & _ & _ & f' & Hf' & _). congruence. }
    exists (OHandle b), A, (<[b := (blk, data)]> H). split_and!; [by eapply fs_open| |done| |apply HS'].
    + apply (fsys_refold (r_denied s) F _ A s' (<[b := f]> (r_mem s)) (r_disk s) x y z); [done|done|done|]. intros h blk' data' [[<- [= <- <-]]|[Hne Hh]]%lookup_insert_Some.
      * destruct (dir_find_some _ _ _ _ _ Hn) as [Hj Hat]. destruct (fi_live _ _ _ _ _ _ _ _ HI _ _ _ Hat) as (Hblk & Hne & _). split_and!; [done|lia|lia|done|]. exists f. by rewrite lookup_insert_eq.
      * apply handles_grow; [|done]. by apply insert_subseteq.
    + intros a l' Ha _ _. rewrite (st_mem _ _ _ _ _ _ _ HS'). rewrite lookup_insert_ne; [done|congruence].
Qed.

Lemma write_served n h bs : asks H s n (AWrite h bs) -> wph (serve (AWrite h bs) n) s (served F H A s (AWrite h bs) n) oom.
Proof using HF.
  intros (Hfi & Hsz & Hb0 & HbH & [[blk data] Hh] & l & Hl & Hlen & Hll & ->). pose proof HF as [HG HS (x & y & z & HI) HH]. destruct (HH _ _ _ Hh) as (Hk & Hblk & Hbr & f & Hf & Hok).
  unfold serve, rfs_write, rfs_write_file. rewrite Hfi, Hsz, (addr_nz h Hk), Z.eqb_refl. replace (on_buf n =? 0) with false by lia. cbn [orb negb].
  pose proof (fk_max _ _ _ Hok) as Hmax. pose proof (blen_nonneg data). pose proof u64max_val. assert (Hbl : blen (slice l 0 (on_len n)) = on_len n) by (apply blen_slice; lia).
  unfold FSYS_ALCBLKSZ in Hll, Hmax. apply wph_bind. apply (h_writefileblk ms N HG HS h f blk data Hf Hok Hblk (on_buf n) l (on_len n)); [lia|lia| | |].
  - intros Hov. apply wph_ret. apply (refused (r_denied s) (r_mem s) (r_disk s) x y z); [done|done|done| |done]. exists blk, data. split; [done|]. rewrite Hbl. unfold file_max. lia.
  - intros _. split_and!; [done| |lia]. intros E. congruence.
  - intros f' s' Hfit Hok' HS'. apply wph_ret. exists ONone. eexists _, _. split_and!; [eapply fs_write; [done|rewrite Hbl; unfold file_max; lia]| |done| |apply HS'].
    + eapply fsys_refold; [done|exact HS'|by apply (FsInv_put ms N HI)|]. intros h' blk' data' [[<- [= <- <-]]|[Hne Hh']]%lookup_insert_Some.
      * split_and!; [done|lia|lia|done|]. exists f'. by rewrite lookup_insert_eq.
      * destruct (HH _ _ _ Hh') as (G1 & G2 & G3 & f2 & G4 & G5). split_and!; [done|lia|lia|done|]. exists f2. by rewrite lookup_insert_ne.
    + intros a l' Ha Hna _. rewrite (st_mem _ _ _ _ _ _ _ HS'). rewrite lookup_insert_ne; [done|congruence].
Qed.

Lemma read_served n h len : asks H s n (ARead h len) -> wph (serve (ARead h len) n) s (served F H A s (ARead h len) n) oom.
Proof using HF.
  intros (Hfi & Hsz & Hb0 & HbH & [[blk data] Hh] & Hlen & Hpos & l & Hl & Hll). pose proof HF as [HG HS (x & y & z & HI) HH]. destruct (HH _ _ _ Hh) as (Hk & Hblk & Hbr & f & Hf & Hok).
  unfold serve, rfs_read, rfs_read_file. rewrite Hfi, Hsz, Hlen, (addr_nz h Hk), Z.eqb_refl. replace (on_buf n =? 0) with false by lia. cbn [orb negb].
  apply wph_bind. apply (h_readfileblk ms N HS h f blk data Hf Hok (on_buf n) l len).
  - intros Hov. apply wph_ret. by apply (refused (r_denied s) (r_mem s) (r_disk s) x y z).
  - unfold FSYS_ALCBLKSZ in *. intros Hle. split_and!; [done|done| |lia]. intros E. congruence.
  - intros s' Hle HS'. apply wph_ret. eexists (OData _), A, H. split_and!; [by eapply fs_read| |split; [done|]| |apply HS'].
    + eapply fsys_refold; [done|exact HS'|exact HI|]. intros h' blk' data' Hh'. destruct (HH _ _ _ Hh') as (G1 & G2 & G3 & f2 & G4 & G5). split_and!; [done|lia|lia|done|]. exists f2.
      rewrite lookup_insert_ne; [done|congruence].
    + exists l. split; [done|]. rewrite (st_mem _ _ _ _ _ _ _ HS'). apply lookup_insert_eq.
    + intros a l' Ha _ Hna. rewrite (st_mem _ _ _ _ _ _ _ HS'). rewrite lookup_insert_ne; [done|]. specialize (Hna _ eq_refl). congruence.
Qed.

Lemma close_served n h : asks H s n (AClose h) -> wph (serve (AClose h) n) s (served F H A s (AClose h) n) oom.
Proof using HF.
  intros (Hfi & [[blk data] Hh]). pose proof HF as [HG HS (x & y & z & HI) HH]. destruct (HH _ _ _ Hh) as (Hk & Hblk & Hbr & f & Hf & Hok).
  unfold serve, rfs_close, rfs_close_file. rewrite Hfi, (addr_nz h Hk). apply wph_bind. apply (h_closefileblk ms N HG HS h f blk data Hf Hok Hblk); [done|].
  intros s' HS'. apply wph_ret. exists ONone. eexists _, _. split_and!; [by eapply fs_close| |done| |apply HS'].
  - eapply fsys_refold; [done|exact HS'|by apply (FsInv_put ms N HI)|]. intros h' blk' data' [Hne Hh']%lookup_delete_Some.
    destruct (HH _ _ _ Hh') as (G1 & G2 & G3 & f2 & G4 & G5). split_and!; [done|lia|lia|done|]. exists f2. by rewrite lookup_delete_ne.
  - intros a l' Ha Hna _. rewrite (st_mem _ _ _ _ _ _ _ HS'). rewrite lookup_delete_ne; [done|congruence].
Qed.

Lemma rfs_serves a n : asks H s n a -> wph (serve a n) s (served F H A s a n) oom.
Proof using HF.
  destruct a; [apply create_served|apply open_served|apply delete_served|apply write_served|apply read_served|apply close_served].
Qed.
End one.
End correct.

(** ** Paths *)

Lemma chkfilepath_loop_total q r : forall i, no_nul q -> 1 <= i -> (q = [] -> 1 < i) ->
  exists st, chkfilepath_loop (cstr q r) i = Some st /\ st ∈ [0; 3; 4] /\ (st = 0 <-> Forall (fun c => c <> 47) q /\ i + blen q < DR_NM_MAX).
Proof.
  unfold cstr, DR_NM_MAX. induction q as [|c q IH]; intros i Hn Hi Hne; cbn [app chkfilepath_loop]; unfold DR_NM_MAX.
  - specialize (Hne eq_refl). replace (0 =? 47) with false by lia. rewrite blen_nil, Z.add_0_r. destruct (104 <=? i) eqn:E; bool_to_prop.
    + exists 4. split_and!; [done|set_solver|]. split; [done|lia].
    + replace (1 <? i) with true by lia. exists 0. split_and!; [done|set_solver|]. split; [|done]. intros _. split; [by apply Forall_nil|done].
  - apply Forall_cons in Hn as [Hc Hn]. rewrite blen_cons. pose proof (blen_nonneg q). destruct (c =? 47) eqn:E47; bool_to_prop.
    { exists 3. split_and!; [done|set_solver|]. split; [done|]. intros [Hf _]. apply Forall_cons in Hf as [Hf _]. lia. }
    destruct (104 <=? i) eqn:E; bool_to_prop.
    { exists 4. split_and!; [done|set_solver|]. split; [done|lia]. }
    replace (c =? 0) with false by lia. cbn [andb]. destruct (IH (i + 1) Hn ltac:(lia) ltac:(lia)) as (st & H1 & H2 & H3). exists st. split_and!; [done|done|]. rewrite H3, Forall_cons.
    split; intros [Ha Hb]; (split; [|lia]); [by split; [lia|]|apply Ha].
Qed.

Lemma chkfilepath_total p r : no_nul p -> p <> [47] ->
  exists st, rfs_chkfilepath (cstr p r) = Some st /\ st ∈ [0; 2; 3; 4] /\ (st = 0 <-> exists nm, p = 47 :: nm /\ good_name nm).
Proof.
  intros Hn Hp. destruct p as [|c q]; unfold cstr; cbn [app rfs_chkfilepath].
  { change (negb (0 =? 47)) with true. exists 2. split_and!; [done|set_solver|]. split; [done|by intros (nm & E & _)]. }
  destruct (c =? 47) eqn:E; bool_to_prop; cbn [negb].
  - subst c. apply Forall_cons in Hn as [_ Hn]. assert (Hq : q <> []) by congruence. destruct (chkfilepath_loop_total q r 1 Hn ltac:(lia) ltac:(done)) as (st & H1 & H2 & H3).
    exists st. split_and!; [done|set_solver|]. rewrite H3. unfold good_name, DR_NM_MAX. split.
    + intros [Hf Hl]. exists q. split_and!; [done|done|lia|]. apply Forall_and. done.
    + intros (nm & [= <-] & _ & Hl & Hf). apply Forall_and in Hf as [_ Hf]. split; [done|lia].
  - exists 2. split_and!; [done|set_solver|]. split; [done|]. intros (nm & [= -> _] & _). done.
Qed.

Section paths.
Context {S : Type} {HMO : MemOps S} {HMA : MemAlloc S} (junk : nat -> nat -> Z) (ms N rb : Z).

(** A path that names no file is refused before anything else happens. *)
Lemma bad_path_spec (F : gmap Z Z) (H : handles) A (s : rst S) n p r : fsys ms N rb F H A s -> on_fname n <> 0 -> r_mem s !! on_fname n = Some (cstr p r) -> no_nul p -> p <> [47] ->
  (forall nm, p = 47 :: nm -> ~ good_name nm) ->
  (on_acsflgs n = FSDEV_OPENFLG_NEWFILE \/ on_acsflgs n = FSDEV_OPENFLG_OPEFILE -> rfs_open junk n s = Ret ((DFCERRSTUS, n), s)) /\
  (on_ioctrd n = FSDEV_IOCTRCD_DELFILE -> rfs_ioctrl junk n s = Ret ((DFCERRSTUS, n), s)).
Proof.
  intros HF Hp0 Hp Hn Hroot Hbad. destruct (chkfilepath_total p r Hn Hroot) as (st & Hst & _ & Hz).
  assert (Hnz : st <> 0) by (intros E; apply Hz in E as (nm & E1 & E2); by apply (Hbad nm)).
  assert (Hr : rfs_ret_fname (on_fname n) s = Ret ((st, zeros DR_NM_MAX), s)).
  { unfold rfs_ret_fname. replace (on_fname n =? 0) with false by lia. unfold cstr in Hp.
    rewrite (bind_eq _ _ _ _ _ (string_at_eq ms N (fy_st _ _ _ _ _ _ _ HF) _ _ 0 Hp ltac:(rewrite blen_app, blen_cons; pose proof (blen_nonneg p); pose proof (blen_nonneg r); lia))).
    fold (cstr p r). change (drop (Z.to_nat 0) (cstr p r)) with (cstr p r). rewrite Hst. cbn [str]. unfold mbind, M_bind, mret, M_ret. by replace (negb (st =? 0)) with true by lia. }
  split.
  - intros Hfl. unfold rfs_open. destruct Hfl as [-> | ->].
    + change (FSDEV_OPENFLG_NEWFILE =? FSDEV_OPENFLG_OPEFILE) with false. change (FSDEV_OPENFLG_NEWFILE =? FSDEV_OPENFLG_NEWFILE) with true. cbn iota.
      unfold rfs_new_file. rewrite (bind_eq _ _ s DFCERRSTUS s); [done|]. rewrite (bind_eq _ _ _ _ _ Hr). by replace (negb (st =? 0)) with true by lia.
    + rewrite Z.eqb_refl. unfold rfs_open_file. replace (on_fname n =? 0) with false by lia. rewrite (bind_eq _ _ s 0 s); [done|].
      unfold rfs_openfileblk. rewrite (bind_eq _ _ _ _ _ Hr). by replace (negb (st =? 0)) with true by lia.
  - intros Hio. unfold rfs_ioctrl. rewrite Hio, Z.eqb_refl. rewrite (bind_eq _ _ s DFCERRSTUS s); [done|]. unfold rfs_del_file, rfs_del_dirfileblk.
    change (negb (0 =? 0)) with false. change (negb (RDR_FIL_TYPE =? RDR_FIL_TYPE) || false) with false. cbn iota. rewrite (bind_eq _ _ _ _ _ Hr). by replace (negb (st =? 0)) with true by lia.
Qed.

(** ** Making the device *)

Lemma disk_of_map b N' (g : Z -> list Z) i : 0 <= i < N' ->
  (list_to_map ((fun i => (b + FSYS_ALCBLKSZ * i, g i)) <$> seqZ 0 N') : gmap Z (list Z)) !! bk b i = Some (g i).
Proof.
  intros Hi. apply elem_of_list_to_map_1.
  - rewrite <- list_fmap_compose. apply NoDup_fmap_2; [|apply NoDup_seqZ]. intros x y E. unfold compose in E. cbn in E. unfold FSYS_ALCBLKSZ in E. lia.
  - apply list_elem_of_fmap. exists i. split; [done|]. apply elem_of_seqZ. lia.
Qed.

(** One allocation of memory that is not a buffer *)
Lemma h_mem_new F (s : rst S) sz (Q : Z -> rst S -> Prop) E : rowned F s -> 1 <= sz <= MALCSZ_MAX -> Q 0 s ->
  (forall b t, F !! b = None -> base <= b -> b + sz < u64max -> rowned (<[b := sz]> F) (Rst t (r_mem s) (r_fresh s) (r_denied s) (r_ext s) (r_disk s)) ->
     Q b (Rst t (r_mem s) (r_fresh s) (r_denied s) (r_ext s) (r_disk s))) -> wph (on_mem (mem_new sz)) s Q E.
Proof.
  intros (J & HJ & HF & Hm) Hsz H0 HQ. unfold wph, on_mem. pose proof (mem_new_spec (r_mm s) J sz HJ Hsz) as Hnew. unfold wp in Hnew.
  destruct (mem_new sz (r_mm s)) as [[b t]| | |]; [|done..]. destruct Hnew as [[-> ->]|[HJb HJ']]; [by destruct s|].
  destruct (mem_range _ _ b sz HJ' (lookup_insert_eq _ _ _)) as (Hb & _ & Hbs). assert (HFb : F !! b = None) by (by eapply lookup_weaken_None).
  apply HQ; [done|done|done|]. exists (<[b := sz]> J). split_and!; [done|by apply insert_mono|]. cbn. intros a l Ha Hk. destruct (Hm a l Ha Hk) as [H1 H2].
  rewrite !lookup_insert_ne by congruence. done.
Qed.

(** The device made: its block and its extension are memory of others from now on. *)
Lemma h_new_rfsdevext F (s : rst S) N' (Q : Z -> rst S -> Prop) E : rowned F s -> 3 <= N' <= 1024 ->
  (forall F' s', F ⊆ F' -> rowned F' s' -> r_mem s' = r_mem s -> Q DFCERRSTUS s') ->
  (forall b e s', F !! b = None -> F !! e = None -> e <> b -> geometry b N' ->
     St b N' (r_denied s) (<[e := sizeof_rfsdevext_t]> (<[b := FSYS_ALCBLKSZ * N']> F)) (r_mem s) (r_disk s') s' -> Q DFCOKSTUS s') ->
  wph (new_rfsdevext_mmblk junk (FSYS_ALCBLKSZ * N')) s Q E.
Proof.
  intros HO HN Herr Hok. unfold FSYS_ALCBLKSZ in *. unfold new_rfsdevext_mmblk. apply wph_bind. apply (h_mem_new F); [done|unfold MALCSZ_MAX; lia| |].
  { apply wph_bind. apply (h_mem_new F); [done|done|by apply (Herr F)|]. intros e t He Hk _ HO'. cbn. eapply Herr; [|exact HO'|done]. by apply insert_subseteq. }
  intros b t Hb Hk Hbs HO1. apply wph_bind. apply (h_mem_new (<[b := 4096 * N']> F)); [done|done| |].
  { rewrite (addr_nz b Hk). cbn. eapply Herr; [|exact HO1|done]. by apply insert_subseteq. }
  cbn [r_mem r_fresh r_denied r_ext r_disk]. intros e t' He Hke _ HO2. apply lookup_insert_None in He as [He Hne]. rewrite (addr_nz b Hk), (addr_nz e Hke). cbn [orb]. apply wph_bind. unfold wph, modify.
  pose proof base_val. apply (Hok b e); [done|done|done|unfold geometry, bk, FSYS_ALCBLKSZ; lia|]. split; cbn [r_mem r_fresh r_denied r_ext r_disk]; [done| |by eexists| |done|done].
  - destruct HO2 as (J & HJ & HF & Hm). by exists J.
  - intros i Hi. eexists. split; [|].
    + apply (disk_of_map b _ (fun i => junk (r_fresh s) <$> seq (Z.to_nat (FSYS_ALCBLKSZ * i)) 4096)). unfold FSYS_ALCBLKSZ. rewrite Z.mul_comm, Z.div_mul by lia. done.
    + unfold blen. rewrite length_fmap, length_seq. done.
Qed.
End paths.
