(* ===== verification/RfsSpec.v ===== *)
(** * RAM file system: theorems *)

From S2P Require Import Prelude Bytes Boot BootPages PageIf MmuCorrect KmsobInv Kmempool MemIf Rfs RfsMem RfsBlk RfsDir RfsOps RfsFiles RfsFmat RfsCorrect.
#[local] Open Scope Z_scope.

(** A request packet: flags, control code, path, handle, buffer and length *)
Definition req (fl ioc p h buf len : Z) : objnode_t := Objnode 0 0 0 0 0 fl 0 0 len ioc buf 0 FSYS_ALCBLKSZ 0 p h.

Section theorems.
Context {S : Type} {HMO : MemOps S} {HMA : MemAlloc S} (junk : nat -> nat -> Z).
Context (ms N rb : Z).
Implicit Types (s : rst S) (F : gmap Z Z) (H : handles) (A : afs).
Abbreviation fsys := (fsys ms N rb).

(** C16: the driver implements the abstract file system.  Every request that a caller
    may make - create, open, delete, read, write, close - returns with a status, an
    output and a state that a step of the abstract file system allows, and the
    invariant of the device, of the memory and of the open handles holds again.  It
    is refused only for the reasons that the abstract step names.  The only halts are
    those for lack of memory while the bitmap is read or written back. *)
Theorem rfs_refines F H A s a n : fsys F H A s -> asks H s n a -> wph (serve junk a n) s (served ms N rb F H A s a n) oom.
Proof. intros HF. by apply rfs_serves. Qed.

(** Formatting.  Whatever the device contained, [rfs_fmat] leaves an empty file
    system on it with its root directory at block 2 and every later block free; the
    caller's memory is as before.  It halts only with the messages for lack of memory. *)
Theorem rfs_fmat_correct k F m d s : geometry ms N -> St ms N k F m d s ->
  wph (rfs_fmat junk) s (fun _ s' => RfsCorrect.fsys ms N 2 F ∅ (Afs [] ∅) s' /\ r_mem s' = m /\
    exists y, r_disk s' !! bk ms 1 = Some y /\ forall j, 3 <= j < N -> y !! Z.to_nat j = Some 0) fmat_err.
Proof.
  intros HG HS. apply (h_rfs_fmat junk ms N HG k F m d s _ HS). intros d' x y z s' HI Hy HS'. split_and!.
  - eapply fsys_refold; [done|exact HS'|exact HI|]. intros h blk data E. by rewrite lookup_empty in E.
  - apply HS'.
  - exists y. split; [|done]. rewrite (st_dev _ _ _ _ _ _ _ HS'). apply (fi_map _ _ _ _ _ _ _ _ HI).
Qed.

(** Paths that name no file.  A path is good when it is a slash and a name of 1 to
    102 bytes without a slash; any other path but the root's is refused by create, open
    and delete with no effect at all. *)
Theorem bad_path_refused F H A s n p r : fsys F H A s -> on_fname n <> 0 -> r_mem s !! on_fname n = Some (cstr p r) -> no_nul p -> p <> [47] ->
  (forall nm, p = 47 :: nm -> ~ good_name nm) ->
  (on_acsflgs n = FSDEV_OPENFLG_NEWFILE \/ on_acsflgs n = FSDEV_OPENFLG_OPEFILE -> rfs_open junk n s = Ret ((DFCERRSTUS, n), s)) /\
  (on_ioctrd n = FSDEV_IOCTRCD_DELFILE -> rfs_ioctrl junk n s = Ret ((DFCERRSTUS, n), s)).
Proof. apply bad_path_spec. Qed.

(** ** Writing and reading back *)

(** Create, open, write, close, open again and read, stopping where a step is refused. *)
Definition write_and_read (p wbuf rbuf len : Z) : M (rst S) (option (Z * Z * Z)) :=
  '(r1, _) ← rfs_open junk (req FSDEV_OPENFLG_NEWFILE 0 p 0 0 0);
  if r1 =? DFCERRSTUS then mret None else
  '(r2, n2) ← rfs_open junk (req FSDEV_OPENFLG_OPEFILE 0 p 0 0 0);
  if r2 =? DFCERRSTUS then mret None else
  '(r3, _) ← rfs_write (req 0 0 p (on_finode n2) wbuf len);
  '(r4, _) ← rfs_close (req 0 0 p (on_finode n2) 0 0);
  '(r5, n5) ← rfs_open junk (req FSDEV_OPENFLG_OPEFILE 0 p 0 0 0);
  if r5 =? DFCERRSTUS then mret None else
  '(r6, _) ← rfs_read (req 0 0 p (on_finode n5) rbuf len);
  mret (Some (r3, r4, r6)).

(** A buffer of the caller *)
Definition caller_buf H s (a : Z) (l : list Z) : Prop := a <> 0 /\ H !! a = None /\ r_mem s !! a = Some l.

Lemma caller_keeps P1 P2 H A s a0 r n n' o A' H' s' a l : fs_step P1 P2 A H a0 r o A' H' -> delivers s n o n' s' -> others_kept H s n o s' ->
  (forall bs, o = OData bs -> a <> on_buf n) -> caller_buf H s a l -> caller_buf H' s' a l.
Proof.
  intros Hst Hd Ho Hne (H0 & Hn & Hm). split_and!; [done| |by apply Ho]. destruct Hst; cbn in Hd; try done.
  - rewrite lookup_insert_ne; [done|]. intros ->. destruct Hd. congruence.
  - rewrite lookup_insert_ne; [done|]. congruence.
  - rewrite lookup_delete_ne; [done|]. congruence.
Qed.

(** One request of a sequence *)
Lemma wph_serve {B} F H A s a n (K : Z * objnode_t -> M (rst S) B) (Q : B -> rst S -> Prop) : fsys F H A s -> asks H s n a ->
  (forall r n' o A' H' s', fs_step (r_denied s < r_denied s')%nat (fs_full ms s) A H a r o A' H' -> fsys F H' A' s' -> delivers s n o n' s' ->
     (forall b l, (forall bs, o = OData bs -> b <> on_buf n) -> caller_buf H s b l -> caller_buf H' s' b l) -> (r_denied s <= r_denied s')%nat -> wph (K (r, n')) s' Q oom) ->
  wph (serve junk a n ≫= K) s Q oom.
Proof.
  intros HF Ha HK. apply wph_bind. eapply wph_mono; [by apply (rfs_serves junk ms N rb HF a)| |done]. intros [r n'] s' (o & A' & H' & Hst & HF' & Hd & Ho & Hden). cbn [fst snd] in *.
  apply (HK r n' o A' H' s'); [done|done|done| |done]. intros b l Hne Hb. by eapply caller_keeps.
Qed.

(** C18: what is written is read back.  With a good path and two buffers of a block, the
    sequence create, open, write, close, open, read either stops because a step was
    refused - the name exists, the directory or the device is full, or memory was
    refused - or every step succeeds and the reader's buffer starts with the bytes
    written. *)
Theorem write_read_roundtrip F H A s p wbuf rbuf len nm lp lw lr : fsys F H A s -> caller_buf H s p lp -> path_to nm lp ->
  caller_buf H s wbuf lw -> caller_buf H s rbuf lr -> blen lw = FSYS_ALCBLKSZ -> blen lr = FSYS_ALCBLKSZ -> 0 <= len < file_max ->
  wph (write_and_read p wbuf rbuf len) s (fun r s' =>
    match r with
    | None => dir_find nm (a_ents A) 0 <> None \/ (28 <= length (a_ents A))%nat \/ fs_full ms s \/ (r_denied s < r_denied s')%nat
    | Some st => st = (DFCOKSTUS, DFCOKSTUS, DFCOKSTUS) /\ r_mem s' !! rbuf = Some (splice lr 0 (slice lw 0 len)) /\
        exists A' H', fsys F H' A' s' /\ exists j blk, dir_find nm (a_ents A') 0 = Some (j, blk) /\ a_data A' !! blk = Some (slice lw 0 len)
    end) oom.
Proof.
  intros HF Hp Hpath Hw Hr Hlw Hlr [Hlen0 Hlen]. unfold file_max, FSYS_ALCBLKSZ in *. assert (Hbs : blen (slice lw 0 len) = len) by (apply blen_slice; lia). unfold write_and_read.
  apply (wph_serve F H A s (ACreate nm) (req FSDEV_OPENFLG_NEWFILE 0 p 0 0 0)); [done|split_and!; [done|apply Hp|exists lp; split; [apply Hp|done]]|].
  intros r1 n1 o1 A1 H1 s1 Hst1 HF1 _ Hk1 Hd1. inversion Hst1 as [nm' i Hnew Hfresh| | | | | |a Hf1]; subst; cbn iota beta; [|by apply wph_ret].
  change (DFCOKSTUS =? DFCERRSTUS) with false. cbn iota. apply Hk1 in Hp, Hw, Hr; [|done..]. clear Hk1.
  set (A1 := Afs (a_ents A ++ [Live nm i]) (<[i := []]> (a_data A))) in *. assert (Hfind : dir_find nm (a_ents A1) 0 = Some (Z.of_nat (length (a_ents A)), i)) by (apply (dir_find_app nm i (a_ents A) 0 Hnew)).
  apply (wph_serve F H1 A1 s1 (AOpen nm) (req FSDEV_OPENFLG_OPEFILE 0 p 0 0 0)); [done|split_and!; [done|apply Hp|exists lp; split; [apply Hp|done]]|].
  intros r2 n2 o2 A2 H2 s2 Hst2 HF2 Hdl2 Hk2 Hd2. inversion Hst2 as [|nm' j blk data h Hf2 Hdata Hh0| | | | |a Hf2]; subst; cbn iota beta.
  2:{ apply wph_ret. destruct Hf2 as [Hf2|Hf2]; [congruence|]. right. right. right. lia. }
  cbn in Hdl2. destruct Hdl2 as [-> Hhf]. change (DFCOKSTUS =? DFCERRSTUS) with false. cbn iota. apply Hk2 in Hp, Hw, Hr; [|done..]. clear Hk2. cbn [set_finode on_finode].
  rewrite Hfind in Hf2. injection Hf2 as <- <-. unfold A1 in Hdata. cbn [a_data] in Hdata. rewrite lookup_insert_eq in Hdata. injection Hdata as <-.
  set (H2 := <[h := (i, [])]> H1) in *. assert (Hh2 : H2 !! h = Some (i, [])) by apply lookup_insert_eq.
  apply (wph_serve F H2 A1 s2 (AWrite h (slice lw 0 len)) (req 0 0 p h wbuf len)); [done| |].
  { split_and!; [done|done|apply Hw|apply Hw|by eexists|]. exists lw. unfold FSYS_ALCBLKSZ. split_and!; [apply Hw|cbn; lia|cbn; lia|done|done]. }
  intros r3 n3 o3 A3 H3 s3 Hst3 HF3 _ Hk3 Hd3. inversion Hst3 as [| | |h' blk data bs Hh Hfit| | |a Hf3]; subst; cbn iota beta.
  2:{ destruct Hf3 as (blk & data & Hh & Hov). rewrite Hh2 in Hh. injection Hh as <- <-. rewrite blen_nil, Hbs in Hov. unfold file_max, FSYS_ALCBLKSZ in Hov. lia. }
  rewrite Hh2 in Hh. injection Hh as <- <-. cbn [app] in *. apply Hk3 in Hp, Hw, Hr; [|done..]. clear Hk3.
  match type of HF3 with RfsCorrect.fsys _ _ _ _ ?X ?Y _ => set (H3 := X) in *; set (A3 := Y) in * end. assert (Hh3 : H3 !! h = Some (i, slice lw 0 len)) by apply lookup_insert_eq.
  apply (wph_serve F H3 A3 s3 (AClose h) (req 0 0 p h 0 0)); [done|split; [done|by eexists]|].
  intros r4 n4 o4 A4 H4 s4 Hst4 HF4 _ Hk4 Hd4. inversion Hst4 as [| | | | |h' blk data Hh|a Hf4]; subst; cbn iota beta; [|done].
  rewrite Hh3 in Hh. injection Hh as <- <-. apply Hk4 in Hp, Hr; [|done..]. clear Hk4.
  match type of HF4 with RfsCorrect.fsys _ _ _ _ ?X ?Y _ => set (H4 := X) in *; set (A4 := Y) in * end. assert (Hfind4 : dir_find nm (a_ents A4) 0 = Some (Z.of_nat (length (a_ents A)), i)) by exact Hfind.
  apply (wph_serve F H4 A4 s4 (AOpen nm) (req FSDEV_OPENFLG_OPEFILE 0 p 0 0 0)); [done|split_and!; [done|apply Hp|exists lp; split; [apply Hp|done]]|].
  intros r5 n5 o5 A5 H5 s5 Hst5 HF5 Hdl5 Hk5 Hd5. inversion Hst5 as [|nm' j blk data h5 Hf5 Hdata Hh5| | | | |a Hf5]; subst; cbn iota beta.
  2:{ apply wph_ret. destruct Hf5 as [Hf5|Hf5]; [congruence|]. right. right. right. lia. }
  cbn in Hdl5. destruct Hdl5 as [-> _]. change (DFCOKSTUS =? DFCERRSTUS) with false. cbn iota. apply Hk5 in Hr; [|done]. clear Hk5. cbn [set_finode on_finode].
  rewrite Hfind4 in Hf5. injection Hf5 as <- <-. assert (Hd4' : a_data A4 !! i = Some (slice lw 0 len)) by apply lookup_insert_eq. rewrite Hd4' in Hdata. injection Hdata as <-.
  set (H5 := <[h5 := _]> H4) in *. assert (Hh5' : H5 !! h5 = Some (i, slice lw 0 len)) by apply lookup_insert_eq.
  apply (wph_serve F H5 A4 s5 (ARead h5 len) (req 0 0 p h5 rbuf len)); [done| |].
  { split_and!; [done|done|apply Hr|apply Hr|by eexists|done|done|]. exists lr. split; [apply Hr|done]. }
  intros r6 n6 o6 A6 H6 s6 Hst6 HF6 Hdl6 _ _. inversion Hst6 as [| | | |h' blk data len' Hh Hle| |a Hf6]; subst; cbn iota beta.
  2:{ unfold fs_fails, file_max, FSYS_ALCBLKSZ in Hf6. lia. }
  rewrite Hh5' in Hh. injection Hh as <- <-. cbn in Hdl6. destruct Hdl6 as (_ & l6 & Hl6 & Hres). destruct Hr as (_ & _ & Hr). rewrite Hr in Hl6. injection Hl6 as <-.
  rewrite slice_prefix in Hres by done. apply wph_ret. split_and!; [done|done|]. exists A4, H5. split; [done|]. by exists (Z.of_nat (length (a_ents A))), i.
Qed.
End theorems.

(** ** A small device *)

(** Memory handed out from ever higher addresses, never twice. *)
#[global] Instance bump_ops : MemOps Z := {|
  mem_new sz := fun next => if next + sz <? base + 2 ^ 40 then Ret (next, next + sz) else Ret (0, next);
  mem_delete a sz := fun next => Ret (true, next)
|}.

Definition bump_own (next : Z) (J : gmap Z Z) : Prop :=
  base <= next /\ (forall a sz, J !! a = Some sz -> base <= a /\ 1 <= sz /\ a + sz <= next /\ a + sz < u64max) /\
  (forall a b sz sz', J !! a = Some sz -> J !! b = Some sz' -> a <> b -> a + sz <= b \/ b + sz' <= a).

#[global] Instance bump_alloc : MemAlloc Z.
Proof.
  refine {| mem_own := bump_own |}.
  - intros next J sz (Hn & HJ & Hap) Hsz. unfold wp. cbn. destruct (next + sz <? base + 2 ^ 40) eqn:E; [right|by left]. bool_to_prop. pose proof base_val. pose proof u64max_val.
    assert (HJn : J !! next = None) by (destruct (J !! next) as [x|] eqn:Ex; [|done]; destruct (HJ _ _ Ex); lia). split; [done|]. split_and!; [lia| |].
    + intros a x [[<- <-]|[_ Ha]]%lookup_insert_Some; [lia|]. destruct (HJ _ _ Ha). lia.
    + intros a b x x' [[<- <-]|[Hna Ha]]%lookup_insert_Some [[<- <-]|[Hnb Hb]]%lookup_insert_Some Hne; [done| | |by apply (Hap a b)].
      * destruct (HJ _ _ Hb). lia.
      * destruct (HJ _ _ Ha). lia.
  - intros next J a sz (Hn & HJ & Hap) Ha _. unfold wp. cbn. split; [done|]. split_and!; [done| |].
    + intros b x [_ Hb]%lookup_delete_Some. by apply HJ.
    + intros b c x x' [_ Hb]%lookup_delete_Some [_ Hc]%lookup_delete_Some. by apply Hap.
  - intros next J a sz (_ & HJ & _) Ha. destruct (HJ _ _ Ha). lia.
  - intros next J a b sz sz' (_ & _ & Hap) Ha Hb. by apply Hap.
Defined.

Definition no_junk (k i : nat) : Z := 0.
(** The paths [/a], [a] and [/b], a buffer to write and one to read into, in a program's memory *)
Definition demo_buffers : gmap Z (list Z) := {[ 0x1000 := [47; 97; 0]; 0x2000 := replicate 4096 7; 0x4000 := replicate 4096 0; 0x5000 := [97; 0]; 0x6000 := [47; 98; 0] ]}.
Definition demo_start : Z := base + 0x3000000.
(** Five cleared blocks *)
Definition demo_blocks : gmap Z (list Z) := list_to_map ((fun i => (demo_start + FSYS_ALCBLKSZ * i, replicate 4096 0)) <$> seqZ 0 5).
Definition demo_dev : rst Z := Rst (base + 0x4000000) demo_buffers 0 0 (Some (Rfsdevext 0 0 demo_start (FSYS_ALCBLKSZ * 5) 0)) demo_blocks.

Lemma demo_geometry : geometry demo_start 5.
Proof. unfold geometry, bk, demo_start, FSYS_ALCBLKSZ. pose proof base_val. pose proof u64max_val. lia. Qed.

Lemma demo_dev_ok : St demo_start 5 0 ∅ demo_buffers demo_blocks demo_dev.
Proof.
  split; [done| |by eexists| |done|done].
  - exists ∅. split_and!; [|done|].
    + split_and!; [cbn; pose proof base_val; lia| |]; intros a; intros; by rewrite lookup_empty in *.
    + intros a l Ha Hk. pose proof base_val. unfold demo_dev, demo_buffers in Ha. cbn [r_mem] in Ha.
      do 4 (apply lookup_insert_Some in Ha as [[<- _]|[_ Ha]]; [lia|]). apply lookup_singleton_Some in Ha as [<- _]. lia.
  - intros i Hi. exists (replicate 4096 0). split; [|done]. apply (disk_of_map demo_start 5 (fun _ => replicate 4096 0)). lia.
Qed.

Lemma rfs_fmat_correct_witness : wph (rfs_fmat no_junk) demo_dev (fun _ s' => fsys demo_start 5 2 ∅ ∅ (Afs [] ∅) s' /\ r_mem s' = demo_buffers /\
  exists y, r_disk s' !! bk demo_start 1 = Some y /\ forall j, 3 <= j < 5 -> y !! Z.to_nat j = Some 0) fmat_err.
Proof. exact (rfs_fmat_correct no_junk demo_start 5 0 ∅ demo_buffers demo_blocks demo_dev demo_geometry demo_dev_ok). Defined.

Definition returns {T A} (m : M T A) (s : T) : bool := match m s with Ret _ => true | _ => false end.

Lemma wph_final {T A} (m : M T A) s Q E : wph m s Q E -> returns m s = true -> exists a, Q a (final m s).
Proof. unfold wph, returns, final. destruct (m s) as [[a s']| | |]; [eauto|done..]. Qed.

Abbreviation demo_fs := (final (rfs_fmat no_junk) demo_dev).

Lemma demo_formats : returns (rfs_fmat no_junk) demo_dev = true.
Proof. vm_compute. reflexivity. Qed.

Lemma demo_fs_ok : fsys demo_start 5 2 ∅ ∅ (Afs [] ∅) demo_fs /\ r_mem demo_fs = demo_buffers.
Proof.
  destruct (wph_final _ _ _ _ (h_rfs_fmat no_junk demo_start 5 demo_geometry 0 ∅ demo_buffers demo_blocks demo_dev
    (fun _ s' => fsys demo_start 5 2 ∅ ∅ (Afs [] ∅) s' /\ r_mem s' = demo_buffers) demo_dev_ok
    ltac:(intros d' x y z s' HI Hy HS'; split; [eapply fsys_refold; [exact demo_geometry|exact HS'|exact HI|]; intros h blk data E; by rewrite lookup_empty in E|apply HS'])) demo_formats) as [[] H]. exact H.
Qed.

Lemma demo_caller a l : a <> 0 -> demo_buffers !! a = Some l -> caller_buf ∅ demo_fs a l.
Proof. intros Ha Hl. split_and!; [done|apply lookup_empty|]. rewrite (proj2 demo_fs_ok). exact Hl. Qed.

Lemma demo_path : path_to [97] [47; 97; 0].
Proof. split; [|by exists []]. split_and!; [done|done|]. apply Forall_cons. split; [lia|by apply Forall_nil]. Qed.

Definition demo_create : objnode_t := req FSDEV_OPENFLG_NEWFILE 0 0x1000 0 0 0.

Lemma rfs_refines_witness : wph (serve no_junk (ACreate [97]) demo_create) demo_fs (served demo_start 5 2 ∅ ∅ (Afs [] ∅) demo_fs (ACreate [97]) demo_create) oom.
Proof.
  apply (rfs_refines no_junk demo_start 5 2 ∅ ∅ (Afs [] ∅) demo_fs (ACreate [97]) demo_create (proj1 demo_fs_ok)).
  split_and!; [reflexivity|discriminate|]. exists [47; 97; 0]. split; [apply (demo_caller 0x1000 [47; 97; 0]); [discriminate|reflexivity]|exact demo_path].
Defined.

Lemma write_read_roundtrip_witness : wph (write_and_read no_junk 0x1000 0x2000 0x4000 100) demo_fs (fun r s' =>
  match r with
  | None => dir_find [97] [] 0 <> None \/ (28 <= 0)%nat \/ fs_full demo_start demo_fs \/ (r_denied demo_fs < r_denied s')%nat
  | Some st => st = (DFCOKSTUS, DFCOKSTUS, DFCOKSTUS) /\ r_mem s' !! 0x4000 = Some (splice (replicate 4096 0) 0 (slice (replicate 4096 7) 0 100)) /\
      exists A' H', fsys demo_start 5 2 ∅ H' A' s' /\ exists j blk, dir_find [97] (a_ents A') 0 = Some (j, blk) /\ a_data A' !! blk = Some (slice (replicate 4096 7) 0 100)
  end) oom.
Proof.
  apply (write_read_roundtrip no_junk demo_start 5 2 ∅ ∅ (Afs [] ∅) demo_fs 0x1000 0x2000 0x4000 100 [97] [47; 97; 0] (replicate 4096 7) (replicate 4096 0) (proj1 demo_fs_ok));
    [apply demo_caller; [discriminate|reflexivity]|exact demo_path|apply demo_caller; [discriminate|reflexivity]|apply demo_caller; [discriminate|reflexivity]|reflexivity|reflexivity|].
  unfold file_max, FSYS_ALCBLKSZ. lia.
Defined.

Definition demo_bad : objnode_t := req FSDEV_OPENFLG_OPEFILE FSDEV_IOCTRCD_DELFILE 0x5000 0 0 0.

(** The path [a] does not start with a slash. *)
Lemma bad_path_refused_witness : rfs_open no_junk demo_bad demo_fs = Ret ((DFCERRSTUS, demo_bad), demo_fs) /\ rfs_ioctrl no_junk demo_bad demo_fs = Ret ((DFCERRSTUS, demo_bad), demo_fs).
Proof.
  destruct (bad_path_refused no_junk demo_start 5 2 ∅ ∅ (Afs [] ∅) demo_fs demo_bad [97] [] (proj1 demo_fs_ok)) as [H1 H2]; [discriminate| | |discriminate|discriminate|].
  - apply (demo_caller 0x5000 [97; 0]); [discriminate|reflexivity].
  - apply Forall_cons. split; [lia|by apply Forall_nil].
  - split; [apply H1; right; reflexivity|apply H2; reflexivity].
Defined.

(** ** Runs on the small device *)

(** The whole sequence succeeds. *)
Lemma demo_roundtrip_runs : result None (rfs_fmat no_junk ;; write_and_read no_junk 0x1000 0x2000 0x4000 100) demo_dev = Some (DFCOKSTUS, DFCOKSTUS, DFCOKSTUS).
Proof. vm_compute. reflexivity. Qed.

(** [/a] is opened, deleted and its block given to [/b]; 100 bytes are written to [/b].
    Closing the handle of [/a] then puts the old, empty contents of [/a] into [/b]. *)
Definition stale_close : M (rst Z) (list Z * list Z) :=
  _ ← rfs_new_file no_junk 0x1000; ha ← rfs_openfileblk no_junk 0x1000; _ ← rfs_del_file no_junk 0x1000 0;
  _ ← rfs_new_file no_junk 0x6000; hb ← rfs_openfileblk no_junk 0x6000; _ ← rfs_writefileblk hb 0x2000 100; _ ← rfs_closefileblk hb;
  h1 ← rfs_openfileblk no_junk 0x6000; before ← load h1 0x200 2;
  _ ← rfs_closefileblk ha;
  h2 ← rfs_openfileblk no_junk 0x6000; after ← load h2 0x200 2;
  mret (before, after).

Lemma stale_close_overwrites : result ([], []) (rfs_fmat no_junk ;; stale_close) demo_dev = ([7; 7], [0; 0]).
Proof. vm_compute. reflexivity. Qed.

(** The check of the root's path runs past its terminator. *)
Lemma root_path_overrun : rfs_chkfilepath [47; 0] = None.
Proof. reflexivity. Qed.

(** Entries of deleted files are not used again: once 28 files have been created no
    other one can be, whatever has been deleted. *)
Lemma directory_full {S} {HMO : MemOps S} {HMA : MemAlloc S} (junk : nat -> nat -> Z) ms N rb F H A (s : rst S) nm n : fsys ms N rb F H A s ->
  (28 <= length (a_ents A))%nat -> asks H s n (ACreate nm) -> wph (serve junk (ACreate nm) n) s (fun rn _ => rn.1 = DFCERRSTUS) oom.
Proof.
  intros HF Hfull Ha. eapply wph_mono; [by apply (rfs_serves junk ms N rb HF (ACreate nm) n)| |done].
  intros rn s' (o & A' & H' & Hst & HF' & _). inversion Hst as [nm' i Hn Hfr E1 E2 E3 E4 E5| | | | | |]; subst; [|done].
  destruct (fy_inv _ _ _ _ _ _ _ HF') as (x & y & z & HI). pose proof (dk_max _ _ _ (fi_ents _ _ _ _ _ _ _ _ HI)) as Hm. cbn in Hm. rewrite length_app in Hm. cbn in Hm. lia.
Qed.
