(* ===== verification/Intr.v ===== *)
(** * Interrupt controller, timer chip and descriptor tables

    src/hal/x86/i8259.c, halgdtidt.c, the set-up part of halintupt.c, the port
    accesses of drivers/drvtick.c and, as data, which C function each entry point of
    kernel.asm calls and with which number.

    The chips are modelled as their data sheets describe them: what a byte written to
    a port does depends on the step of the initialisation sequence.  A descriptor is a
    record of its packed fields; the processor's reading of gates and segments is
    given by functions of its own.  An entry point is the name of its label, and [adr]
    is the address that the linker gives it. *)

From S2P Require Import Prelude.

(** ** Ports *)

Definition ICW1 : Z := 0x11.
Definition ZICW2 : Z := 0x20.
Definition SICW2 : Z := 0x28.
Definition ZICW3 : Z := 0x04.
Definition SICW3 : Z := 0x02.
Definition ICW4 : Z := 0x01.
Definition ZIOPT : Z := 0x20.
Definition ZIOPT1 : Z := 0x21.
Definition SIOPT : Z := 0xA0.
Definition SIOPT1 : Z := 0xA1.
Definition _INTM_CTL : Z := 0x20.
Definition _INTM_CTLMASK : Z := 0x21.
Definition _INTS_CTL : Z := 0xA0.
Definition _INTS_CTLMASK : Z := 0xA1.
Definition _EOI : Z := 0x20.
Definition PTIPROT1 : Z := 0x40.
Definition PTIPROTM : Z := 0x43.
Definition TIMEMODE : Z := 0x34.
Definition TIMEJISU : Z := 1194000.
Definition HZ : Z := 1000.
Definition HZLL : Z := Z.land (TIMEJISU / HZ) 0xff.
Definition HZHH : Z := Z.land (Z.shiftr (TIMEJISU / HZ) 8) 0xff.

Definition u8 (x : Z) : Z := Z.land x 0xff.
Definition u16 (x : Z) : Z := Z.land x 0xffff.
Definition u32 (x : Z) : Z := Z.land x 0xffffffff.

(** An interrupt controller 8259A: the command words, the mask, the requests in
    service and the step of the initialisation (0: none is under way, else the number
    of the command word that comes next). *)
Record i8259a := I8259a { pic_icw1 : Z; pic_icw2 : Z; pic_icw3 : Z; pic_icw4 : Z; pic_imr : Z; pic_isr : Z; pic_step : Z }.

(** A byte for the even port: ICW1 has bit 4; a command word of the form 001xxxxx, bits 3
    and 4 clear, is the unspecific end of interrupt, which clears the request in
    service with the highest priority, the lowest bit. *)
Definition pic_command (v : Z) (p : i8259a) : i8259a :=
  if Z.testbit v 4 then I8259a v (pic_icw2 p) (pic_icw3 p) (pic_icw4 p) 0 (pic_isr p) 2
  else if Z.land v 0xf8 =? 0x20 then I8259a (pic_icw1 p) (pic_icw2 p) (pic_icw3 p) (pic_icw4 p) (pic_imr p) (Z.land (pic_isr p) (pic_isr p - 1)) (pic_step p)
  else p.

(** A byte for the odd port: the next command word of the sequence, else the mask.  ICW3
    comes unless bit 1 of ICW1 says that there is one chip only, ICW4 when bit 0 says so. *)
Definition pic_data (v : Z) (p : i8259a) : i8259a :=
  let last := if Z.testbit (pic_icw1 p) 0 then 4 else 0 in
  if pic_step p =? 2 then I8259a (pic_icw1 p) v (pic_icw3 p) (pic_icw4 p) (pic_imr p) (pic_isr p) (if Z.testbit (pic_icw1 p) 1 then last else 3)
  else if pic_step p =? 3 then I8259a (pic_icw1 p) (pic_icw2 p) v (pic_icw4 p) (pic_imr p) (pic_isr p) last
  else if pic_step p =? 4 then I8259a (pic_icw1 p) (pic_icw2 p) (pic_icw3 p) v (pic_imr p) (pic_isr p) 0
  else I8259a (pic_icw1 p) (pic_icw2 p) (pic_icw3 p) (pic_icw4 p) v (pic_isr p) 0.

(** Counter 0 of the timer chip 8254: its control word, the count being written and
    whether its low byte has been written (access mode 3: low byte, then high byte). *)
Record i8254 := I8254 { pit_ctl : Z; pit_count : Z; pit_low : option Z }.
Definition pit_control (v : Z) (t : i8254) : i8254 := if Z.shiftr v 6 =? 0 then I8254 v (pit_count t) None else t.
Definition pit_data (v : Z) (t : i8254) : i8254 :=
  match pit_low t with
  | None => I8254 (pit_ctl t) (pit_count t) (Some v)
  | Some lo => I8254 (pit_ctl t) (Z.lor lo (Z.shiftl v 8)) None
  end.

Record chips := Chips { c_master : i8259a; c_slave : i8259a; c_timer : i8254 }.
Notation CM := (M chips).
Definition on_master (f : i8259a -> i8259a) (c : chips) : chips := Chips (f (c_master c)) (c_slave c) (c_timer c).
Definition on_slave (f : i8259a -> i8259a) (c : chips) : chips := Chips (c_master c) (f (c_slave c)) (c_timer c).
Definition on_timer (f : i8254 -> i8254) (c : chips) : chips := Chips (c_master c) (c_slave c) (f (c_timer c)).

Definition out_u8_p (port val : Z) : CM unit := modify (fun c =>
  if port =? _INTM_CTL then on_master (pic_command val) c
  else if port =? _INTM_CTLMASK then on_master (pic_data val) c
  else if port =? _INTS_CTL then on_slave (pic_command val) c
  else if port =? _INTS_CTLMASK then on_slave (pic_data val) c
  else if port =? PTIPROT1 then on_timer (pit_data val) c
  else if port =? PTIPROTM then on_timer (pit_control val) c
  else c).
(** The source reads the two masks only. *)
Definition in_u8 (port : Z) : CM Z := gets (fun c => pic_imr (if port =? _INTM_CTLMASK then c_master c else c_slave c)).

(** ** i8259.c and drvtick.c *)

Definition init_i8259 : CM unit :=
  out_u8_p ZIOPT ICW1 ;;
  out_u8_p SIOPT ICW1 ;;
  out_u8_p ZIOPT1 ZICW2 ;;
  out_u8_p SIOPT1 SICW2 ;;
  out_u8_p ZIOPT1 ZICW3 ;;
  out_u8_p SIOPT1 SICW3 ;;
  out_u8_p ZIOPT1 ICW4 ;;
  out_u8_p SIOPT1 ICW4 ;;
  out_u8_p ZIOPT1 0xff ;;
  out_u8_p SIOPT1 0xff.

Definition i8259_send_eoi : CM unit :=
  out_u8_p _INTM_CTL _EOI ;;
  out_u8_p _INTS_CTL _EOI.

(** [line] is a [u32_t]; a shift of the [int] 1 by 32 or more is undefined, and the
    callers give at most 16. *)
Definition i8259_enabled_line (line : Z) : CM unit :=
  if line <? 8 then
    amtmp ← in_u8 _INTM_CTLMASK;
    out_u8_p _INTM_CTLMASK (Z.land amtmp (u8 (Z.lnot (Z.shiftl 1 line))))
  else
    astmp ← in_u8 _INTM_CTLMASK;
    out_u8_p _INTM_CTLMASK (Z.land astmp (u8 (Z.lnot (Z.shiftl 1 2)))) ;;
    astmp ← in_u8 _INTS_CTLMASK;
    out_u8_p _INTS_CTLMASK (Z.land astmp (u8 (Z.lnot (Z.shiftl 1 (line - 8))))).

Definition i8259_disable_line (line : Z) : CM unit :=
  if line <? 8 then
    amtmp ← in_u8 _INTM_CTLMASK;
    out_u8_p _INTM_CTLMASK (Z.lor amtmp (u8 (Z.shiftl 1 line)))
  else
    astmp ← in_u8 _INTM_CTLMASK;
    out_u8_p _INTM_CTLMASK (Z.lor astmp (u8 (Z.shiftl 1 2))) ;;
    astmp ← in_u8 _INTS_CTLMASK;
    out_u8_p _INTS_CTLMASK (Z.lor astmp (u8 (Z.shiftl 1 (line - 8)))).

(** The result is what is stored through [svline]. *)
Definition i8259_save_disableline (line : Z) : CM Z :=
  altmp ← in_u8 _INTM_CTLMASK;
  let intftmp := altmp in
  altmp ← in_u8 _INTS_CTLMASK;
  let intftmp := Z.lor (u32 (Z.shiftl intftmp 8)) altmp in
  i8259_disable_line line ;;
  mret intftmp.

Definition i8259_rest_enabledline (svline line : Z) : CM unit :=
  let intftmp := u32 svline in
  out_u8_p _INTS_CTLMASK (Z.land intftmp 0xff) ;;
  out_u8_p _INTM_CTLMASK (u8 (Z.shiftr intftmp 8)).

Definition init_8254 : CM unit :=
  out_u8_p PTIPROTM TIMEMODE ;;
  out_u8_p PTIPROT1 HZLL ;;
  out_u8_p PTIPROT1 HZHH.

(** Chips with every register 0 *)
Definition no_chips : chips := Chips (I8259a 0 0 0 0 0 0 0) (I8259a 0 0 0 0 0 0 0) (I8254 0 0 None).

(** ** Descriptor tables *)

Definition IDTMAX : Z := 256.
Definition GDTMAX : Z := 10.
Definition K_CS_IDX : Z := 0x08.
Definition K_DS_IDX : Z := 0x10.
Definition U_CS_IDX : Z := 0x1b.
Definition U_DS_IDX : Z := 0x23.
Definition PRIVILEGE_KRNL : Z := 0.
Definition PRIVILEGE_USER : Z := 3.
Definition SELECTOR_KERNEL_CS : Z := 0x08.
Definition DA_64 : Z := 0x2000.
Definition DA_DPL3 : Z := 0x60.
Definition DA_DRW : Z := 0x92.
Definition DA_CR : Z := 0x9A.
Definition DA_386TSS : Z := 0x89.
Definition DA_386IGate : Z := 0x8E.
Definition sizeof_x64tss_t : Z := 104.
Definition sizeof_gate_t : Z := 16.
Definition sizeof_descriptor_t : Z := 8.

Record gate_t := Gate { offset_low : Z; selector : Z; dcount : Z; attr : Z; offset_high : Z; offset_high_h : Z; offset_resv : Z }.
Record descriptor_t := Descriptor { limit_low : Z; base_low : Z; base_mid : Z; attr1 : Z; limit_high_attr2 : Z; base_high : Z }.

(** The entry points of kernel.asm; [hxi_hwint n] is the label with the number [n]. *)
Inductive inthandler_t :=
  | exc_divide_error | exc_single_step_exception | exc_nmi | exc_breakpoint_exception | exc_overflow | exc_bounds_check | exc_inval_opcode
  | exc_copr_not_available | exc_double_fault | exc_copr_seg_overrun | exc_inval_tss | exc_segment_not_present | exc_stack_exception
  | exc_general_protection | exc_page_fault | exc_copr_error | exc_alignment_check | exc_machine_check | exc_simd_fault
  | hxi_exc_general_intpfault | hxi_hwint (n : Z)
  | hxi_apic_ipi_schedul | hxi_apic_svr | hxi_apic_timer | hxi_apic_thermal | hxi_apic_performonitor | hxi_apic_lint0 | hxi_apic_lint1 | hxi_apic_error
  | exi_sys_call.
#[global] Instance inthandler_eq_dec : EqDecision inthandler_t.
Proof. solve_decision. Defined.

(** The tables and the registers that hold their addresses and limits; [tr] is the task
    register, [cs] and [ds] the selectors that the loading of the table puts into the
    segment registers. *)
Record tabs := Tabs {
  x64_idt : list gate_t; x64_gdt : list descriptor_t; x64_igdt_reg : Z * Z; x64_iidt_reg : Z * Z;
  gdtr : Z * Z; idtr : Z * Z; tr : Z; cs : Z; ds : Z
}.
Notation TM := (M tabs).

Definition with_idt (x : list gate_t) (t : tabs) : tabs := Tabs x (x64_gdt t) (x64_igdt_reg t) (x64_iidt_reg t) (gdtr t) (idtr t) (tr t) (cs t) (ds t).
Definition with_gdt (x : list descriptor_t) (t : tabs) : tabs := Tabs (x64_idt t) x (x64_igdt_reg t) (x64_iidt_reg t) (gdtr t) (idtr t) (tr t) (cs t) (ds t).

Section tables.
Context (adr : inthandler_t -> Z) (adr_idt adr_gdt adr_tss : Z).

Definition idt_gate (desc_type : Z) (handler : inthandler_t) (privilege : Z) : gate_t :=
  let base := adr handler in
  Gate (u16 (Z.land base 0xFFFF)) SELECTOR_KERNEL_CS 0 (u8 (Z.lor desc_type (Z.shiftl privilege 5)))
    (u16 (Z.land (Z.shiftr base 16) 0xFFFF)) (u32 (Z.land (Z.shiftr base 32) 0xffffffff)) 0.

(** [vector] is a [u8_t] and the table has 256 entries. *)
Definition set_idt_desc (vector desc_type : Z) (handler : inthandler_t) (privilege : Z) : TM unit :=
  modify (fun t => with_idt (<[Z.to_nat (u8 vector) := idt_gate desc_type handler privilege]> (x64_idt t)) t).

Definition set_iidtr (idtptr : Z) : TM unit :=
  modify (fun t => Tabs (x64_idt t) (x64_gdt t) (x64_igdt_reg t) (u16 (sizeof_gate_t * IDTMAX - 1), idtptr) (gdtr t) (idtr t) (tr t) (cs t) (ds t)).

Definition seg_descriptor (base limit attribute : Z) : descriptor_t :=
  Descriptor (Z.land limit 0x0FFFF) (Z.land base 0x0FFFF) (Z.land (Z.shiftr base 16) 0x0FF) (u8 (Z.land attribute 0xFF))
    (u8 (Z.lor (Z.land (Z.shiftr limit 16) 0x0F) (Z.land (Z.shiftr attribute 8) 0xF0))) (u8 (Z.land (Z.shiftr base 24) 0x0FF)).

Definition set_descriptor (i base limit attribute : Z) : TM unit :=
  modify (fun t => with_gdt (<[Z.to_nat i := seg_descriptor (u32 base) (u32 limit) (u16 attribute)]> (x64_gdt t)) t).

(** The entry behind [i] is written as two words: its first four bytes are the fields
    [limit_low] and [base_low], its other fields are 0. *)
Definition set_x64tss_descriptor (i base limit attribute : Z) : TM unit :=
  modify (fun t => with_gdt (<[Z.to_nat i := seg_descriptor base (u32 limit) (u16 attribute)]> (x64_gdt t)) t) ;;
  let x64tssb_h := u32 (Z.land (Z.shiftr base 32) 0xffffffff) in
  modify (fun t => with_gdt (<[Z.to_nat (i + 1) := Descriptor (u16 x64tssb_h) (Z.shiftr x64tssb_h 16) 0 0 0 0]> (x64_gdt t)) t).

Definition load_x64_gdt : TM unit := modify (fun t => Tabs (x64_idt t) (x64_gdt t) (x64_igdt_reg t) (x64_iidt_reg t) (x64_igdt_reg t) (idtr t) (tr t) 8 0x10).
Definition load_x64_idt : TM unit := modify (fun t => Tabs (x64_idt t) (x64_gdt t) (x64_igdt_reg t) (x64_iidt_reg t) (gdtr t) (x64_iidt_reg t) (tr t) (cs t) (ds t)).
Definition load_x64_tr (trindx : Z) : TM unit := modify (fun t => Tabs (x64_idt t) (x64_gdt t) (x64_igdt_reg t) (x64_iidt_reg t) (gdtr t) (idtr t) trindx (cs t) (ds t)).

(** [CPUCORE_MAX] is 1: the loop over the processors has one round. *)
Definition init_descriptor : TM unit :=
  set_descriptor 0 0 0 0 ;;
  set_descriptor 1 0 0 (Z.lor DA_CR DA_64) ;;
  set_descriptor 2 0 0 (Z.lor DA_DRW DA_64) ;;
  set_descriptor 3 0 0 (Z.lor (Z.lor DA_CR DA_64) DA_DPL3) ;;
  set_descriptor 4 0 0 (Z.lor (Z.lor DA_DRW DA_64) DA_DPL3) ;;
  set_x64tss_descriptor 6 adr_tss (sizeof_x64tss_t - 1) DA_386TSS ;;
  modify (fun t => Tabs (x64_idt t) (x64_gdt t) (u16 (sizeof_descriptor_t * GDTMAX - 1), adr_gdt) (x64_iidt_reg t) (gdtr t) (idtr t) (tr t) (cs t) (ds t)) ;;
  load_x64_gdt ;;
  load_x64_tr 0x30.

(** The calls of [set_idt_desc] behind the loop, in the order of the source: vector, entry
    point, privilege.  The type is [DA_386IGate] in all of them. *)
Definition INT_VECTOR_IRQ0 : Z := 0x20.
Definition INT_VECTOR_IRQ8 : Z := 0x28.
Definition idt_calls : list (Z * inthandler_t * Z) := [
  (0x0, exc_divide_error, PRIVILEGE_KRNL);
  (0x1, exc_single_step_exception, PRIVILEGE_KRNL);
  (0x2, exc_nmi, PRIVILEGE_KRNL);
  (0x3, exc_breakpoint_exception, PRIVILEGE_USER);
  (0x4, exc_overflow, PRIVILEGE_USER);
  (0x5, exc_bounds_check, PRIVILEGE_KRNL);
  (0x6, exc_inval_opcode, PRIVILEGE_KRNL);
  (0x7, exc_copr_not_available, PRIVILEGE_KRNL);
  (0x8, exc_double_fault, PRIVILEGE_KRNL);
  (0x9, exc_copr_seg_overrun, PRIVILEGE_KRNL);
  (0xA, exc_inval_tss, PRIVILEGE_KRNL);
  (0xB, exc_segment_not_present, PRIVILEGE_KRNL);
  (0xC, exc_stack_exception, PRIVILEGE_KRNL);
  (0xD, exc_general_protection, PRIVILEGE_KRNL);
  (0xE, exc_page_fault, PRIVILEGE_KRNL);
  (0x10, exc_copr_error, PRIVILEGE_KRNL);
  (0x11, exc_alignment_check, PRIVILEGE_KRNL);
  (0x12, exc_machine_check, PRIVILEGE_KRNL);
  (0x13, exc_simd_fault, PRIVILEGE_KRNL);
  (INT_VECTOR_IRQ0 + 0, hxi_hwint 0, PRIVILEGE_KRNL);
  (INT_VECTOR_IRQ0 + 1, hxi_hwint 1, PRIVILEGE_KRNL);
  (INT_VECTOR_IRQ0 + 2, hxi_hwint 2, PRIVILEGE_KRNL);
  (INT_VECTOR_IRQ0 + 3, hxi_hwint 3, PRIVILEGE_KRNL);
  (INT_VECTOR_IRQ0 + 4, hxi_hwint 4, PRIVILEGE_KRNL);
  (INT_VECTOR_IRQ0 + 5, hxi_hwint 5, PRIVILEGE_KRNL);
  (INT_VECTOR_IRQ0 + 6, hxi_hwint 6, PRIVILEGE_KRNL);
  (INT_VECTOR_IRQ0 + 7, hxi_hwint 7, PRIVILEGE_KRNL);
  (INT_VECTOR_IRQ8 + 0, hxi_hwint 8, PRIVILEGE_KRNL);
  (INT_VECTOR_IRQ8 + 1, hxi_hwint 9, PRIVILEGE_KRNL);
  (INT_VECTOR_IRQ8 + 2, hxi_hwint 10, PRIVILEGE_KRNL);
  (INT_VECTOR_IRQ8 + 3, hxi_hwint 11, PRIVILEGE_KRNL);
  (INT_VECTOR_IRQ8 + 4, hxi_hwint 12, PRIVILEGE_KRNL);
  (INT_VECTOR_IRQ8 + 5, hxi_hwint 13, PRIVILEGE_KRNL);
  (INT_VECTOR_IRQ8 + 6, hxi_hwint 14, PRIVILEGE_KRNL);
  (INT_VECTOR_IRQ8 + 7, hxi_hwint 15, PRIVILEGE_KRNL);
  (INT_VECTOR_IRQ8 + 8, hxi_hwint 16, PRIVILEGE_KRNL);
  (INT_VECTOR_IRQ8 + 9, hxi_hwint 17, PRIVILEGE_KRNL);
  (INT_VECTOR_IRQ8 + 10, hxi_hwint 18, PRIVILEGE_KRNL);
  (INT_VECTOR_IRQ8 + 11, hxi_hwint 19, PRIVILEGE_KRNL);
  (INT_VECTOR_IRQ8 + 12, hxi_hwint 20, PRIVILEGE_KRNL);
  (INT_VECTOR_IRQ8 + 13, hxi_hwint 21, PRIVILEGE_KRNL);
  (INT_VECTOR_IRQ8 + 14, hxi_hwint 22, PRIVILEGE_KRNL);
  (INT_VECTOR_IRQ8 + 15, hxi_hwint 23, PRIVILEGE_KRNL);
  (0xe0, hxi_apic_ipi_schedul, PRIVILEGE_KRNL);
  (0xef, hxi_apic_svr, PRIVILEGE_KRNL);
  (0xf0, hxi_apic_timer, PRIVILEGE_KRNL);
  (0xf1, hxi_apic_thermal, PRIVILEGE_KRNL);
  (0xf2, hxi_apic_performonitor, PRIVILEGE_KRNL);
  (0xf3, hxi_apic_lint0, PRIVILEGE_KRNL);
  (0xf4, hxi_apic_lint1, PRIVILEGE_KRNL);
  (0xf5, hxi_apic_error, PRIVILEGE_KRNL);
  (0xFF, exi_sys_call, PRIVILEGE_USER)].

Definition init_idt_descriptor : TM unit :=
  for_each (seqZ 0 256) (fun intindx => set_idt_desc intindx DA_386IGate hxi_exc_general_intpfault PRIVILEGE_KRNL) ;;
  for_each idt_calls (fun '(vector, handler, privilege) => set_idt_desc vector DA_386IGate handler privilege) ;;
  set_iidtr adr_idt ;;
  load_x64_idt.
End tables.

(** ** Interrupt descriptors *)

(** The fields that the source uses: counts of interrupts, of nested ones and of handlers,
    and the handlers. *)
Record intfltdsc_t := Intfltdsc { i_indx : Z; i_deep : Z; i_sernr : Z; i_serlist : list Z }.
Definition intfltdsc_t_init : intfltdsc_t := Intfltdsc 0 0 0 [].

(** The state of the hardware layer for interrupts: the tables, the chips and [machintflt] *)
Record hwst := Hwst { h_tabs : tabs; h_chips : chips; h_ints : gmap Z intfltdsc_t }.
Definition on_tabs {A} (m : TM A) : M hwst A := fun h =>
  match m (h_tabs h) with Ret (a, t) => Ret (a, Hwst t (h_chips h) (h_ints h)) | Halt e => Halt e | Fault => Fault | NoFuel => NoFuel end.
Definition on_hchips {A} (m : CM A) : M hwst A := fun h =>
  match m (h_chips h) with Ret (a, c) => Ret (a, Hwst (h_tabs h) c (h_ints h)) | Halt e => Halt e | Fault => Fault | NoFuel => NoFuel end.

Definition init_intfltdsc : M hwst unit :=
  for_each (seqZ 0 IDTMAX) (fun i => modify (fun h => Hwst (h_tabs h) (h_chips h) (<[i := intfltdsc_t_init]> (h_ints h)))).

Definition init_halintupt (adr : inthandler_t -> Z) (adr_idt adr_gdt adr_tss : Z) : M hwst unit :=
  on_tabs (init_descriptor adr_gdt adr_tss) ;;
  on_tabs (init_idt_descriptor adr adr_idt) ;;
  init_intfltdsc ;;
  on_hchips init_i8259.

(** ** The processor's reading *)

Definition gate_present (g : gate_t) : bool := Z.testbit (attr g) 7.
Definition gate_dpl (g : gate_t) : Z := Z.land (Z.shiftr (attr g) 5) 3.
(** Bits 0 to 4: 14 is an interrupt gate. *)
Definition gate_type (g : gate_t) : Z := Z.land (attr g) 0x1f.
Definition gate_offset (g : gate_t) : Z := offset_low g + Z.shiftl (offset_high g) 16 + Z.shiftl (offset_high_h g) 32.

(** Where vector [v] leads: the code selector and the address; [None] is a general
    protection fault.  [soft] is the privilege level of the program when it is an [INT]
    instruction of that program. *)
Definition enter (t : tabs) (v : Z) (soft : option Z) : option (Z * Z) :=
  if (idtr t).1 <? sizeof_gate_t * v + 15 then None else
  g ← x64_idt t !! Z.to_nat v;
  let allowed := match soft with None => true | Some cpl => cpl <=? gate_dpl g end in
  if gate_present g && (gate_type g =? 14) && allowed then Some (selector g, gate_offset g) else None.

Definition seg_present (x : descriptor_t) : bool := Z.testbit (attr1 x) 7.
Definition seg_dpl (x : descriptor_t) : Z := Z.land (Z.shiftr (attr1 x) 5) 3.
(** Bits 0 to 4: 0x1a is readable code, 0x12 writable data, 9 an available task segment. *)
Definition seg_type (x : descriptor_t) : Z := Z.land (attr1 x) 0x1f.
Definition seg_long (x : descriptor_t) : bool := Z.testbit (limit_high_attr2 x) 5.
Definition seg_base (x : descriptor_t) : Z := base_low x + Z.shiftl (base_mid x) 16 + Z.shiftl (base_high x) 24.
Definition seg_limit (x : descriptor_t) : Z := limit_low x + Z.shiftl (Z.land (limit_high_attr2 x) 0xf) 16.
(** A system descriptor takes two entries. *)
Definition tss_base (x y : descriptor_t) : Z := seg_base x + Z.shiftl (limit_low y + Z.shiftl (base_low y) 16) 32.

Definition seg_of (t : tabs) (sel : Z) : option descriptor_t :=
  if (gdtr t).1 <? sizeof_descriptor_t * Z.shiftr sel 3 + 7 then None else x64_gdt t !! Z.to_nat (Z.shiftr sel 3).

(** ** What an entry point of kernel.asm does *)

(** The C function that it calls, the number that it passes, and whether it expects that
    the processor has pushed an error code. *)
Inductive way := ToFault (n : Z) (ecode : bool) | ToHwint (n : Z) | ToService.
Definition stub (h : inthandler_t) : way :=
  match h with
  | exc_divide_error => ToFault 0 false
  | exc_single_step_exception => ToFault 1 false
  | exc_nmi => ToFault 2 false
  | exc_breakpoint_exception => ToFault 3 false
  | exc_overflow => ToFault 4 false
  | exc_bounds_check => ToFault 5 false
  | exc_inval_opcode => ToFault 6 false
  | exc_copr_not_available => ToFault 7 false
  | exc_double_fault => ToFault 8 true
  | exc_copr_seg_overrun => ToFault 9 false
  | exc_inval_tss => ToFault 10 true
  | exc_segment_not_present => ToFault 11 true
  | exc_stack_exception => ToFault 12 true
  | exc_general_protection => ToFault 13 true
  | exc_page_fault => ToFault 14 true
  | exc_copr_error => ToFault 16 false
  | exc_alignment_check => ToFault 17 true
  | exc_machine_check => ToFault 18 false
  | exc_simd_fault => ToFault 19 false
  | hxi_exc_general_intpfault => ToFault 256 false
  | hxi_hwint n => ToHwint (INT_VECTOR_IRQ0 + n)
  | hxi_apic_ipi_schedul => ToHwint 0xe0
  | hxi_apic_svr => ToHwint 0xef
  | hxi_apic_timer => ToHwint 0xf0
  | hxi_apic_thermal => ToHwint 0xf1
  | hxi_apic_performonitor => ToHwint 0xf2
  | hxi_apic_lint0 => ToHwint 0xf3
  | hxi_apic_lint1 => ToHwint 0xf4
  | hxi_apic_error => ToHwint 0xf5
  | exi_sys_call => ToService
  end.
#[global] Instance way_eq_dec : EqDecision way.
Proof. solve_decision. Defined.
