(* ===== verification/Kbd.v ===== *)
(** * The keyboard

    The data of src/drivers/drvuart.c and drvuart_t.h: the key codes, the table from
    scan codes to key codes, the keyboard's buffer and what the interrupt handler
    puts into it.  The driver's functions are in Device.v, with the other drivers'. *)

From Stdlib Require Import Ascii.
From S2P Require Import Prelude Bytes Intr.
#[local] Open Scope Z_scope.

Definition KB_DATA_REG : Z := 0x60.
Definition MAP_COLS : Z := 3.
Definition NR_SCAN_CODES : Z := 0x80.
Definition FLAG_EXT : Z := 0x0100.
Definition SEM_FLG_MUTEX : Z := 0.
Definition sizeof_kboard_t : Z := 232.

Module Keys.
Definition ESC : Z := 0x01 + FLAG_EXT.
Definition TAB : Z := 0x02 + FLAG_EXT.
Definition ENTER : Z := 0x03 + FLAG_EXT.
Definition BACKSPACE : Z := 0x04 + FLAG_EXT.
Definition GUI_L : Z := 0x05 + FLAG_EXT.
Definition GUI_R : Z := 0x06 + FLAG_EXT.
Definition APPS : Z := 0x07 + FLAG_EXT.
Definition SHIFT_L : Z := 0x08 + FLAG_EXT.
Definition SHIFT_R : Z := 0x09 + FLAG_EXT.
Definition CTRL_L : Z := 0x0A + FLAG_EXT.
Definition CTRL_R : Z := 0x0B + FLAG_EXT.
Definition ALT_L : Z := 0x0C + FLAG_EXT.
Definition ALT_R : Z := 0x0D + FLAG_EXT.
Definition CAPS_LOCK : Z := 0x0E + FLAG_EXT.
Definition NUM_LOCK : Z := 0x0F + FLAG_EXT.
Definition SCROLL_LOCK : Z := 0x10 + FLAG_EXT.
Definition F1 : Z := 0x11 + FLAG_EXT.
Definition F2 : Z := 0x12 + FLAG_EXT.
Definition F3 : Z := 0x13 + FLAG_EXT.
Definition F4 : Z := 0x14 + FLAG_EXT.
Definition F5 : Z := 0x15 + FLAG_EXT.
Definition F6 : Z := 0x16 + FLAG_EXT.
Definition F7 : Z := 0x17 + FLAG_EXT.
Definition F8 : Z := 0x18 + FLAG_EXT.
Definition F9 : Z := 0x19 + FLAG_EXT.
Definition F10 : Z := 0x1A + FLAG_EXT.
Definition F11 : Z := 0x1B + FLAG_EXT.
Definition F12 : Z := 0x1C + FLAG_EXT.
Definition PRINTSCREEN : Z := 0x1D + FLAG_EXT.
Definition PAUSEBREAK : Z := 0x1E + FLAG_EXT.
Definition INSERT : Z := 0x1F + FLAG_EXT.
Definition DELETE : Z := 0x20 + FLAG_EXT.
Definition HOME : Z := 0x21 + FLAG_EXT.
Definition END : Z := 0x22 + FLAG_EXT.
Definition PAGEUP : Z := 0x23 + FLAG_EXT.
Definition PAGEDOWN : Z := 0x24 + FLAG_EXT.
Definition UP : Z := 0x25 + FLAG_EXT.
Definition DOWN : Z := 0x26 + FLAG_EXT.
Definition LEFT : Z := 0x27 + FLAG_EXT.
Definition RIGHT : Z := 0x28 + FLAG_EXT.
Definition POWER : Z := 0x29 + FLAG_EXT.
Definition SLEEP : Z := 0x2A + FLAG_EXT.
Definition WAKE : Z := 0x2B + FLAG_EXT.
Definition PAD_SLASH : Z := 0x2C + FLAG_EXT.
Definition PAD_STAR : Z := 0x2D + FLAG_EXT.
Definition PAD_MINUS : Z := 0x2E + FLAG_EXT.
Definition PAD_PLUS : Z := 0x2F + FLAG_EXT.
Definition PAD_ENTER : Z := 0x30 + FLAG_EXT.
Definition PAD_DOT : Z := 0x31 + FLAG_EXT.
Definition PAD_0 : Z := 0x32 + FLAG_EXT.
Definition PAD_1 : Z := 0x33 + FLAG_EXT.
Definition PAD_2 : Z := 0x34 + FLAG_EXT.
Definition PAD_3 : Z := 0x35 + FLAG_EXT.
Definition PAD_4 : Z := 0x36 + FLAG_EXT.
Definition PAD_5 : Z := 0x37 + FLAG_EXT.
Definition PAD_6 : Z := 0x38 + FLAG_EXT.
Definition PAD_7 : Z := 0x39 + FLAG_EXT.
Definition PAD_8 : Z := 0x3A + FLAG_EXT.
Definition PAD_9 : Z := 0x3B + FLAG_EXT.
Definition PAD_UP : Z := PAD_8.
Definition PAD_DOWN : Z := PAD_2.
Definition PAD_LEFT : Z := PAD_4.
Definition PAD_RIGHT : Z := PAD_6.
Definition PAD_HOME : Z := PAD_7.
Definition PAD_END : Z := PAD_1.
Definition PAD_PAGEUP : Z := PAD_9.
Definition PAD_PAGEDOWN : Z := PAD_3.
Definition PAD_INS : Z := PAD_0.
Definition PAD_MID : Z := PAD_5.
Definition PAD_DEL : Z := PAD_DOT.

(** A character constant *)
Definition chr (c : Ascii.ascii) : Z := Z.of_N (Ascii.N_of_ascii c).
#[local] Arguments chr c%_char_scope.

(** A row has the codes without and with the shift key and after the prefix [0xE0]. *)
Definition keymap : list Z := [
  (* 0x00 *) 0; 0; 0;
  (* 0x01 *) ESC; ESC; 0;
  (* 0x02 *) chr "1"; chr "!"; 0;
  (* 0x03 *) chr "2"; chr "@"; 0;
  (* 0x04 *) chr "3"; chr "#"; 0;
  (* 0x05 *) chr "4"; chr "$"; 0;
  (* 0x06 *) chr "5"; chr "%"; 0;
  (* 0x07 *) chr "6"; chr "^"; 0;
  (* 0x08 *) chr "7"; chr "&"; 0;
  (* 0x09 *) chr "8"; chr "*"; 0;
  (* 0x0A *) chr "9"; chr "("; 0;
  (* 0x0B *) chr "0"; chr ")"; 0;
  (* 0x0C *) chr "-"; chr "_"; 0;
  (* 0x0D *) chr "="; chr "+"; 0;
  (* 0x0E *) BACKSPACE; BACKSPACE; 0;
  (* 0x0F *) TAB; TAB; 0;
  (* 0x10 *) chr "q"; chr "Q"; 0;
  (* 0x11 *) chr "w"; chr "W"; 0;
  (* 0x12 *) chr "e"; chr "E"; 0;
  (* 0x13 *) chr "r"; chr "R"; 0;
  (* 0x14 *) chr "t"; chr "T"; 0;
  (* 0x15 *) chr "y"; chr "Y"; 0;
  (* 0x16 *) chr "u"; chr "U"; 0;
  (* 0x17 *) chr "i"; chr "I"; 0;
  (* 0x18 *) chr "o"; chr "O"; 0;
  (* 0x19 *) chr "p"; chr "P"; 0;
  (* 0x1A *) chr "["; chr "{"; 0;
  (* 0x1B *) chr "]"; chr "}"; 0;
  (* 0x1C *) ENTER; ENTER; PAD_ENTER;
  (* 0x1D *) CTRL_L; CTRL_L; CTRL_R;
  (* 0x1E *) chr "a"; chr "A"; 0;
  (* 0x1F *) chr "s"; chr "S"; 0;
  (* 0x20 *) chr "d"; chr "D"; 0;
  (* 0x21 *) chr "f"; chr "F"; 0;
  (* 0x22 *) chr "g"; chr "G"; 0;
  (* 0x23 *) chr "h"; chr "H"; 0;
  (* 0x24 *) chr "j"; chr "J"; 0;
  (* 0x25 *) chr "k"; chr "K"; 0;
  (* 0x26 *) chr "l"; chr "L"; 0;
  (* 0x27 *) chr ";"; chr ":"; 0;
  (* 0x28 *) chr "'"; chr "034"; 0;
  (* 0x29 *) chr "`"; chr "~"; 0;
  (* 0x2A *) SHIFT_L; SHIFT_L; 0;
  (* 0x2B *) chr "\"; chr "|"; 0;
  (* 0x2C *) chr "z"; chr "Z"; 0;
  (* 0x2D *) chr "x"; chr "X"; 0;
  (* 0x2E *) chr "c"; chr "C"; 0;
  (* 0x2F *) chr "v"; chr "V"; 0;
  (* 0x30 *) chr "b"; chr "B"; 0;
  (* 0x31 *) chr "n"; chr "N"; 0;
  (* 0x32 *) chr "m"; chr "M"; 0;
  (* 0x33 *) chr ","; chr "<"; 0;
  (* 0x34 *) chr "."; chr ">"; 0;
  (* 0x35 *) chr "/"; chr "?"; PAD_SLASH;
  (* 0x36 *) SHIFT_R; SHIFT_R; 0;
  (* 0x37 *) chr "*"; chr "*"; 0;
  (* 0x38 *) ALT_L; ALT_L; ALT_R;
  (* 0x39 *) chr " "; chr " "; 0;
  (* 0x3A *) CAPS_LOCK; CAPS_LOCK; 0;
  (* 0x3B *) F1; F1; 0;
  (* 0x3C *) F2; F2; 0;
  (* 0x3D *) F3; F3; 0;
  (* 0x3E *) F4; F4; 0;
  (* 0x3F *) F5; F5; 0;
  (* 0x40 *) F6; F6; 0;
  (* 0x41 *) F7; F7; 0;
  (* 0x42 *) F8; F8; 0;
  (* 0x43 *) F9; F9; 0;
  (* 0x44 *) F10; F10; 0;
  (* 0x45 *) NUM_LOCK; NUM_LOCK; 0;
  (* 0x46 *) SCROLL_LOCK; SCROLL_LOCK; 0;
  (* 0x47 *) PAD_HOME; chr "7"; HOME;
  (* 0x48 *) PAD_UP; chr "8"; UP;
  (* 0x49 *) PAD_PAGEUP; chr "9"; PAGEUP;
  (* 0x4A *) PAD_MINUS; chr "-"; 0;
  (* 0x4B *) PAD_LEFT; chr "4"; LEFT;
  (* 0x4C *) PAD_MID; chr "5"; 0;
  (* 0x4D *) PAD_RIGHT; chr "6"; RIGHT;
  (* 0x4E *) PAD_PLUS; chr "+"; 0;
  (* 0x4F *) PAD_END; chr "1"; END;
  (* 0x50 *) PAD_DOWN; chr "2"; DOWN;
  (* 0x51 *) PAD_PAGEDOWN; chr "3"; PAGEDOWN;
  (* 0x52 *) PAD_INS; chr "0"; INSERT;
  (* 0x53 *) PAD_DOT; chr "."; DELETE;
  (* 0x54 *) 0; 0; 0;
  (* 0x55 *) 0; 0; 0;
  (* 0x56 *) 0; 0; 0;
  (* 0x57 *) F11; F11; 0;
  (* 0x58 *) F12; F12; 0;
  (* 0x59 *) 0; 0; 0;
  (* 0x5A *) 0; 0; 0;
  (* 0x5B *) 0; 0; GUI_L;
  (* 0x5C *) 0; 0; GUI_R;
  (* 0x5D *) 0; 0; APPS;
  (* 0x5E *) 0; 0; 0;
  (* 0x5F *) 0; 0; 0;
  (* 0x60 *) 0; 0; 0;
  (* 0x61 *) 0; 0; 0;
  (* 0x62 *) 0; 0; 0;
  (* 0x63 *) 0; 0; 0;
  (* 0x64 *) 0; 0; 0;
  (* 0x65 *) 0; 0; 0;
  (* 0x66 *) 0; 0; 0;
  (* 0x67 *) 0; 0; 0;
  (* 0x68 *) 0; 0; 0;
  (* 0x69 *) 0; 0; 0;
  (* 0x6A *) 0; 0; 0;
  (* 0x6B *) 0; 0; 0;
  (* 0x6C *) 0; 0; 0;
  (* 0x6D *) 0; 0; 0;
  (* 0x6E *) 0; 0; 0;
  (* 0x6F *) 0; 0; 0;
  (* 0x70 *) 0; 0; 0;
  (* 0x71 *) 0; 0; 0;
  (* 0x72 *) 0; 0; 0;
  (* 0x73 *) 0; 0; 0;
  (* 0x74 *) 0; 0; 0;
  (* 0x75 *) 0; 0; 0;
  (* 0x76 *) 0; 0; 0;
  (* 0x77 *) 0; 0; 0;
  (* 0x78 *) 0; 0; 0;
  (* 0x79 *) 0; 0; 0;
  (* 0x7A *) 0; 0; 0;
  (* 0x7B *) 0; 0; 0;
  (* 0x7C *) 0; 0; 0;
  (* 0x7D *) 0; 0; 0;
  (* 0x7E *) 0; 0; 0;
  (* 0x7F *) 0; 0; 0
].
End Keys.

(** The code of a key; [None] is an index out of the table. *)
Definition kbd_map_code (scan cols : Z) : option Z := Keys.keymap !! Z.to_nat (scan * cols).

(** [kb_sem] is a semaphore of Sched.v under the keyboard's address; [kb_list], which
    nothing uses, and the lock are left out. *)
Record kboard_t := Kboard { kb_flg : Z; kb_stus : Z; kb_btail : Z; kb_buff : list Z }.

(** [kb_buff] has 64 halfwords; [sizeof(initp->kb_buff[64])] is the size of one of them,
    so one is cleared. *)
Definition kboard_t_init (initp : kboard_t) : kboard_t := Kboard 0 0 0 (<[0%nat := 0]> (kb_buff initp)).

(** The keyboards by address, the global of the driver, the byte in the output register
    of the keyboard controller, and the strings that the driver has given to [kprint]. *)
Record kbdst := Kbdst { kbds : gmap Z kboard_t; kbd_dowup_stat : Z; kb_data : Z; kb_printed : list (list Z) }.
Definition kbdst_init : kbdst := Kbdst ∅ 0 0 [].

Definition set_buff (b0 b1 b2 : Z) (k : kboard_t) : kboard_t :=
  Kboard (kb_flg k) (kb_stus k) (kb_btail k) (<[2%nat := b2]> (<[1%nat := b1]> (<[0%nat := b0]> (kb_buff k)))).

(** The keyboard and [kbd_dowup_stat] afterwards *)
Definition kbd_write_scan (ikbd : kboard_t) (dowup scan : Z) : option (kboard_t * Z) :=
  '(ikbd, dowup) ← (if Z.land scan 0x80 =? 0 then c ← kbd_map_code scan 3; Some (set_buff scan 0 c ikbd, 1) else Some (ikbd, dowup));
  if Z.land scan 0x80 =? 0x80 then c ← kbd_map_code (Z.land scan 0x7f) 3; Some (set_buff 0 scan c ikbd, 2) else Some (ikbd, dowup).

(** The bytes of the buffer *)
Definition le16 (v : Z) : list Z := [Z.land v 0xff; Z.land (Z.shiftr v 8) 0xff].
Definition buff_bytes (k : kboard_t) : list Z := kb_buff k ≫= le16.
