(* ===== verification/Device.v ===== *)
(** * Devices and drivers

    src/kernel/krldevice.c, krlobjnode.c and krlintupt.c, the registration of the
    drivers in drivers/drvrfs.c, drvtick.c and drvuart.c, the functions of the serial
    driver, which serves the keyboard, and what of hal/x86/halintupt.c they use: the
    table of devices, the request packets, and the way from a request to the driver's
    function.

    Devices, drivers, packets and interrupt descriptors are records kept by address;
    [NULL] is 0.  A function pointer is the name of the function.  The file system
    driver works on the state of Rfs.v, the accesses to the timer and the interrupt
    controller on the chips of Intr.v.  Locks are left out. *)

From S2P Require Import Prelude Bytes Intr Sched MemIf Rfs Kbd.
#[local] Open Scope Z_scope.

(** ** Constants *)

Definition UART_DEVICE : Z := 15.
Definition FILESYS_DEVICE : Z := 30.
Definition SYSTICK_DEVICE : Z := 31.
Definition DEVICE_MAX : Z := 34.
Definition IOIF_CODE_OPEN : Z := 0.
Definition IOIF_CODE_CLOSE : Z := 1.
Definition IOIF_CODE_READ : Z := 2.
Definition IOIF_CODE_WRITE : Z := 3.
Definition IOIF_CODE_LSEEK : Z := 4.
Definition IOIF_CODE_IOCTRL : Z := 5.
Definition IOIF_CODE_MAX : Z := 12.
Definition DEVFLG_SHARE : Z := 2.
Definition DEVSTS_NORML : Z := 1.
Definition DIDFIL_IDN : Z := 1.
Definition OBJN_TY_DEV : Z := 1.
Definition OBJN_TY_FIL : Z := 2.
Definition sizeof_device_t : Z := 448.
Definition sizeof_driver_t : Z := 288.
Definition sizeof_objnode_t : Z := 224.
Definition sizeof_intserdsc_t : Z := 72.

(** ** Data *)

Record devid_t := Devid { dev_mtype : Z; dev_stype : Z; dev_nr : Z }.
#[global] Instance devid_eq_dec : EqDecision devid_t.
Proof. solve_decision. Defined.

(** [dev_extdata] is the keyboard's; the file system driver's is [r_ext] of Rfs.v. *)
Record device_t := Device {
  dev_count : Z; dev_stus : Z; dev_flgs : Z; dev_id : devid_t; dev_intlnenr : Z; dev_intserlst : list Z;
  dev_rqlist : list Z; dev_rqlnr : Z; dev_drv : Z; dev_extdata : Z; dev_name : string
}.

(** The functions that the dispatch tables point to *)
Inductive drivcallfun_t :=
  | Fdefault | Frfs_open | Frfs_close | Frfs_read | Frfs_write | Frfs_ioctrl | Frfs_none | Fsystick_open | Fsystick_close | Fsystick_none
  | Fuart_open | Fuart_close | Fuart_read | Fuart_write | Fuart_none.

Record driver_t := Driver {
  drv_stuts : Z; drv_flg : Z; drv_id : Z; drv_count : Z; drv_dipfun : list drivcallfun_t; drv_alldevlist : list Z; drv_name : string
}.

Record devtlst_t := Devtlst { dtl_type : Z; dtl_nr : Z; dtl_list : list Z }.
Record devtable_t := Devtable {
  devt_devlist : list Z; devt_drvlist : list Z; devt_devnr : Z; devt_drvnr : Z; devt_devclsl : gmap Z devtlst_t
}.

Inductive inthandle := Hsystick | Huart.
Record intserdsc_t := Intserdsc { s_flg : Z; s_intfltp : Z; s_device : Z; s_handle : inthandle }.

(** The state: the scheduler's, the file system driver's (which has the memory), the
    device table and the records by address. *)
Record dst (S : Type) := Dst {
  d_sys : sys; d_rfs : rst S; d_tab : devtable_t; d_devs : gmap Z device_t; d_drvs : gmap Z driver_t; d_nodes : gmap Z objnode_t;
  d_ints : gmap Z intfltdsc_t; d_sers : gmap Z intserdsc_t; d_chips : chips; d_kbd : kbdst
}.
Arguments Dst {S} d_sys d_rfs d_tab d_devs d_drvs d_nodes d_ints d_sers d_chips d_kbd.
Arguments d_sys {S} d.
Arguments d_rfs {S} d.
Arguments d_tab {S} d.
Arguments d_devs {S} d.
Arguments d_drvs {S} d.
Arguments d_nodes {S} d.
Arguments d_ints {S} d.
Arguments d_sers {S} d.
Arguments d_chips {S} d.
Arguments d_kbd {S} d.

Section setters.
Context {S : Type}.
Definition with_sys (x : sys) (d : dst S) : dst S := Dst x (d_rfs d) (d_tab d) (d_devs d) (d_drvs d) (d_nodes d) (d_ints d) (d_sers d) (d_chips d) (d_kbd d).
Definition with_rfs (x : rst S) (d : dst S) : dst S := Dst (d_sys d) x (d_tab d) (d_devs d) (d_drvs d) (d_nodes d) (d_ints d) (d_sers d) (d_chips d) (d_kbd d).
Definition with_tab (x : devtable_t) (d : dst S) : dst S := Dst (d_sys d) (d_rfs d) x (d_devs d) (d_drvs d) (d_nodes d) (d_ints d) (d_sers d) (d_chips d) (d_kbd d).
Definition with_devs (x : gmap Z device_t) (d : dst S) : dst S := Dst (d_sys d) (d_rfs d) (d_tab d) x (d_drvs d) (d_nodes d) (d_ints d) (d_sers d) (d_chips d) (d_kbd d).
Definition with_drvs (x : gmap Z driver_t) (d : dst S) : dst S := Dst (d_sys d) (d_rfs d) (d_tab d) (d_devs d) x (d_nodes d) (d_ints d) (d_sers d) (d_chips d) (d_kbd d).
Definition with_nodes (x : gmap Z objnode_t) (d : dst S) : dst S := Dst (d_sys d) (d_rfs d) (d_tab d) (d_devs d) (d_drvs d) x (d_ints d) (d_sers d) (d_chips d) (d_kbd d).
Definition with_ints (x : gmap Z intfltdsc_t) (y : gmap Z intserdsc_t) (d : dst S) : dst S := Dst (d_sys d) (d_rfs d) (d_tab d) (d_devs d) (d_drvs d) (d_nodes d) x y (d_chips d) (d_kbd d).
Definition with_chips (x : chips) (d : dst S) : dst S := Dst (d_sys d) (d_rfs d) (d_tab d) (d_devs d) (d_drvs d) (d_nodes d) (d_ints d) (d_sers d) x (d_kbd d).
Definition with_kbd (x : kbdst) (d : dst S) : dst S := Dst (d_sys d) (d_rfs d) (d_tab d) (d_devs d) (d_drvs d) (d_nodes d) (d_ints d) (d_sers d) (d_chips d) x.
End setters.

Definition set_dev_count (v : Z) (x : device_t) : device_t := Device v (dev_stus x) (dev_flgs x) (dev_id x) (dev_intlnenr x) (dev_intserlst x) (dev_rqlist x) (dev_rqlnr x) (dev_drv x) (dev_extdata x) (dev_name x).
Definition set_dev_drv (v : Z) (x : device_t) : device_t := Device (dev_count x) (dev_stus x) (dev_flgs x) (dev_id x) (dev_intlnenr x) (dev_intserlst x) (dev_rqlist x) (dev_rqlnr x) v (dev_extdata x) (dev_name x).
Definition set_dev_rq (l : list Z) (n : Z) (x : device_t) : device_t := Device (dev_count x) (dev_stus x) (dev_flgs x) (dev_id x) (dev_intlnenr x) (dev_intserlst x) l n (dev_drv x) (dev_extdata x) (dev_name x).
Definition set_dev_int (l : list Z) (n : Z) (x : device_t) : device_t := Device (dev_count x) (dev_stus x) (dev_flgs x) (dev_id x) n l (dev_rqlist x) (dev_rqlnr x) (dev_drv x) (dev_extdata x) (dev_name x).
Definition set_dev_ident (fl st : Z) (id : devid_t) (nm : string) (x : device_t) : device_t := Device (dev_count x) st fl id (dev_intlnenr x) (dev_intserlst x) (dev_rqlist x) (dev_rqlnr x) (dev_drv x) (dev_extdata x) nm.
Definition set_dev_ext (v : Z) (x : device_t) : device_t := Device (dev_count x) (dev_stus x) (dev_flgs x) (dev_id x) (dev_intlnenr x) (dev_intserlst x) (dev_rqlist x) (dev_rqlnr x) (dev_drv x) v (dev_name x).
Definition set_drv_fun (l : list drivcallfun_t) (nm : string) (x : driver_t) : driver_t := Driver (drv_stuts x) (drv_flg x) (drv_id x) (drv_count x) l (drv_alldevlist x) nm.
Definition set_drv_devs (l : list Z) (x : driver_t) : driver_t := Driver (drv_stuts x) (drv_flg x) (drv_id x) (drv_count x) (drv_dipfun x) l (drv_name x).

(** ** Initial values *)

Definition devtlst_t_init (dtype : Z) : devtlst_t := Devtlst dtype 0 [].
Definition devtable_t_init : devtable_t := Devtable [] [] 0 0 (tabulate devtlst_t_init DEVICE_MAX).
Definition devid_t_init (mty sty nr : Z) : devid_t := Devid mty sty nr.
Definition device_t_init : device_t := Device 0 0 0 (devid_t_init 0 0 0) 0 [] [] 0 0 0 "".
Definition krlretn_driverid (dverp : Z) : Z := dverp.
Definition driver_t_init (initp : Z) : driver_t := Driver 0 0 (krlretn_driverid initp) 0 (replicate (Z.to_nat IOIF_CODE_MAX) Fdefault) [] "".
Definition objnode_t_init : objnode_t := Objnode 0 0 (-1) 0 0 0 0 0 0 0 0 0 0 0 0 0.
Definition intserdsc_t_init (flg intfltp device : Z) (handle : inthandle) : intserdsc_t := Intserdsc flg intfltp device handle.

(** [testfile] is the address of the string constant of the self-test. *)
Section devices.
Context {S : Type} `{MemOps S} (junk : nat -> nat -> Z) (testfile : Z).
Abbreviation DM A := (M (dst S) A).

Definition on_sys {A} (m : M sys A) : DM A := fun d =>
  match m (d_sys d) with Ret (a, t) => Ret (a, with_sys t d) | Halt e => Halt e | Fault => Fault | NoFuel => NoFuel end.
Definition on_chips {A} (m : CM A) : DM A := fun d =>
  match m (d_chips d) with Ret (a, t) => Ret (a, with_chips t d) | Halt e => Halt e | Fault => Fault | NoFuel => NoFuel end.
Definition on_rfs {A} (m : M (rst S) A) : DM A := fun d =>
  match m (d_rfs d) with Ret (a, t) => Ret (a, with_rfs t d) | Halt e => Halt e | Fault => Fault | NoFuel => NoFuel end.

Definition get_dev (a : Z) : DM device_t := fun d => match d_devs d !! a with Some x => Ret (x, d) | None => Fault end.
Definition get_drv (a : Z) : DM driver_t := fun d => match d_drvs d !! a with Some x => Ret (x, d) | None => Fault end.
Definition get_node (a : Z) : DM objnode_t := fun d => match d_nodes d !! a with Some x => Ret (x, d) | None => Fault end.
Definition upd_dev (a : Z) (f : device_t -> device_t) : DM unit := x ← get_dev a; modify (fun d => with_devs (<[a := f x]> (d_devs d)) d).
Definition upd_drv (a : Z) (f : driver_t -> driver_t) : DM unit := x ← get_drv a; modify (fun d => with_drvs (<[a := f x]> (d_drvs d)) d).
Definition upd_node (a : Z) (f : objnode_t -> objnode_t) : DM unit := x ← get_node a; modify (fun d => with_nodes (<[a := f x]> (d_nodes d)) d).
Definition get_kbd (a : Z) : DM kboard_t := fun d => match kbds (d_kbd d) !! a with Some x => Ret (x, d) | None => Fault end.
Definition put_kbd (a : Z) (x : kboard_t) (dowup : Z) : DM unit :=
  modify (fun d => with_kbd (Kbdst (<[a := x]> (kbds (d_kbd d))) dowup (kb_data (d_kbd d)) (kb_printed (d_kbd d))) d).
Definition upd_tab (f : devtable_t -> devtable_t) : DM unit := modify (fun d => with_tab (f (d_tab d)) d).
Definition get_cls (ty : Z) : DM devtlst_t := fun d => match devt_devclsl (d_tab d) !! ty with Some c => Ret (c, d) | None => Fault end.

(** [krlnew], [krldelete] of a descriptor *)
Definition new_dsc (sz : Z) : DM Z := on_rfs (on_mem (mem_new sz)).
Definition del_dsc (a sz : Z) : DM bool := on_rfs (on_mem (mem_delete a sz)).

(** ** Request packets *)

(** A packet's semaphore is kept under the packet's address. *)

Definition krlnew_objnode : DM Z :=
  ondp ← new_dsc sizeof_objnode_t;
  if ondp =? 0 then mret 0 else
  modify (fun d => with_nodes (<[ondp := objnode_t_init]> (d_nodes d)) d) ;;
  on_sys (modify (fun s => with_sems (<[ondp := krlsem_t_init]> (sems s)) s)) ;;
  mret ondp.

Definition krldel_objnode (onodep : Z) : DM bool :=
  ok ← del_dsc onodep sizeof_objnode_t;
  if negb ok then halt "krldel_objnode err" else
  modify (fun d => with_nodes (delete onodep (d_nodes d)) d) ;;
  on_sys (modify (fun s => with_sems (delete onodep (sems s)) s)) ;;
  mret true.

(** ** Descriptors *)

Definition new_driver_dsc : DM Z :=
  dp ← new_dsc sizeof_driver_t;
  if dp =? 0 then mret 0 else modify (fun d => with_drvs (<[dp := driver_t_init dp]> (d_drvs d)) d) ;; mret dp.
Definition del_driver_dsc (drvp : Z) : DM Z :=
  ok ← del_dsc drvp sizeof_driver_t;
  if negb ok then mret DFCERRSTUS else modify (fun d => with_drvs (delete drvp (d_drvs d)) d) ;; mret DFCOKSTUS.
Definition new_device_dsc : DM Z :=
  dp ← new_dsc sizeof_device_t;
  if dp =? 0 then mret 0 else modify (fun d => with_devs (<[dp := device_t_init]> (d_devs d)) d) ;; mret dp.
Definition del_device_dsc (devp : Z) : DM Z :=
  ok ← del_dsc devp sizeof_device_t;
  if negb ok then mret DFCERRSTUS else modify (fun d => with_devs (delete devp (d_devs d)) d) ;; mret DFCOKSTUS.

(** ** The table *)

Definition krlcmp_devid (sdidp cdidp : devid_t) : bool :=
  if negb (dev_mtype sdidp =? dev_mtype cdidp) then false else
  if negb (dev_stype sdidp =? dev_stype cdidp) then false else
  if negb (dev_nr sdidp =? dev_nr cdidp) then false else true.

(** The largest number in a class, as the loop of [krlnew_devid] computes it. *)
Fixpoint max_devnr (l : list Z) (devidnr : Z) : DM Z :=
  match l with
  | [] => mret devidnr
  | a :: l' => x ← get_dev a; max_devnr l' (if devidnr <? dev_nr (dev_id x) then dev_nr (dev_id x) else devidnr)
  end.

(** The status and the number that the id gets, if any. *)
Definition krlnew_devid (devid : devid_t) : DM (Z * devid_t) :=
  let devmty := dev_mtype devid in
  if DEVICE_MAX <=? devmty then mret (DFCERRSTUS, devid) else
  c ← get_cls devmty;
  if negb (devmty =? dtl_type c) then mret (DFCERRSTUS, devid) else
  if bool_decide (dtl_list c = []) then mret (DFCOKSTUS, Devid devmty (dev_stype devid) 0) else
  devidnr ← max_devnr (dtl_list c) 0;
  mret (DFCOKSTUS, Devid devmty (dev_stype devid) devidnr).

Definition krldriver_add_system (drvp : Z) : DM Z :=
  upd_tab (fun t => Devtable (devt_devlist t) (drvp :: devt_drvlist t) (devt_devnr t) (devt_drvnr t +u 1) (devt_devclsl t)) ;; mret DFCOKSTUS.

(** The device of an id among those of a list *)
Definition find_devid (l : list Z) (id : devid_t) : DM (option Z) :=
  find_first l (fun a => x ← get_dev a; mret (if krlcmp_devid id (dev_id x) then Some a else None)).

Definition krldev_add_driver (devp drvp : Z) : DM Z :=
  if (devp =? 0) || (drvp =? 0) then mret DFCERRSTUS else
  x ← get_dev devp; v ← get_drv drvp;
  r ← find_devid (drv_alldevlist v) (dev_id x);
  match r with
  | Some _ => mret DFCERRSTUS
  | None =>
      upd_drv drvp (fun v => set_drv_devs (devp :: drv_alldevlist v) v) ;;
      upd_dev devp (set_dev_drv drvp) ;;
      mret DFCOKSTUS
  end.

(** The type is read through [devp] before [devp] is compared with [NULL]. *)
Definition krlnew_device (devp : Z) : DM Z :=
  x ← get_dev devp;
  let devmty := dev_mtype (dev_id x) in
  if devp =? 0 then mret DFCERRSTUS else
  if dev_drv x =? 0 then mret DFCERRSTUS else
  if DEVICE_MAX <=? devmty then mret DFCERRSTUS else
  c ← get_cls devmty;
  if negb (devmty =? dtl_type c) then mret DFCERRSTUS else
  r ← find_devid (dtl_list c) (dev_id x);
  match r with
  | Some _ => mret DFCERRSTUS
  | None =>
      upd_tab (fun t => Devtable (devp :: devt_devlist t) (devt_drvlist t) (devt_devnr t +u 1) (devt_drvnr t)
        (<[devmty := Devtlst (dtl_type c) (dtl_nr c +u 1) (devp :: dtl_list c)]> (devt_devclsl t))) ;;
      mret DFCOKSTUS
  end.

(** The device of an id; the id is a structure in the caller's memory, [None] is [NULL]. *)
Definition krlonidfl_retn_device (dfname : option devid_t) (flgs : Z) : DM Z :=
  match dfname with
  | None => mret 0
  | Some didp =>
      if negb (flgs =? DIDFIL_IDN) then mret 0 else
      let devmty := dev_mtype didp in
      if DEVICE_MAX <=? devmty then mret 0 else
      c ← get_cls devmty;
      if negb (devmty =? dtl_type c) then mret 0 else
      r ← find_devid (dtl_list c) didp;
      mret (default 0 r)
  end.

Definition krldev_inc_devcount (devp : Z) : DM Z :=
  x ← get_dev devp;
  if ones64 <=? dev_count x then mret DFCERRSTUS else upd_dev devp (set_dev_count (dev_count x +u 1)) ;; mret DFCOKSTUS.
Definition krldev_dec_devcount (devp : Z) : DM Z :=
  x ← get_dev devp;
  if dev_count x <? 1 then mret DFCERRSTUS else upd_dev devp (set_dev_count (dev_count x -u 1)) ;; mret DFCOKSTUS.

(** ** Requests queued at a device *)

Definition krldev_add_request (devp request : Z) : DM Z :=
  upd_dev devp (fun x => set_dev_rq (dev_rqlist x ++ [request]) (dev_rqlnr x +u 1) x) ;; mret DFCOKSTUS.

Definition krldev_complete_request (devp request : Z) : DM Z :=
  if (devp =? 0) || (request =? 0) then mret DFCERRSTUS else
  x ← get_dev devp;
  die_if (dev_rqlnr x <? 1) "krldev_complete_request err devp->dev_rqlnr<1" ;;
  upd_dev devp (fun x => set_dev_rq (filter (fun a => a <> request) (dev_rqlist x)) (dev_rqlnr x -u 1) x) ;;
  on_sys (krlsem_up request) ;;
  mret DFCOKSTUS.

(** The status and the packet found; [retreq] is not [NULL]. *)
Definition krldev_retn_request (devp iocode : Z) : DM (Z * Z) :=
  if IOIF_CODE_MAX <=? iocode then mret (DFCERRSTUS, 0) else
  x ← get_dev devp;
  r ← find_first (dev_rqlist x) (fun a => n ← get_node a; mret (if on_opercode n =? iocode then Some a else None));
  mret (match r with Some a => (DFCOKSTUS, a) | None => (DFCERRSTUS, 0) end).

(** One pass of [krlsem_down] in it: [None] when the thread sleeps. *)
Definition krldev_wait_request (devp request : Z) : DM (option Z) :=
  if (devp =? 0) || (request =? 0) then mret (Some DFCERRSTUS) else
  taken ← on_sys (krlsem_down_try request);
  mret (if taken : bool then Some DFCOKSTUS else None).

(** The six parameters of a packet; a caller that passes [NULL] for one does not use it. *)
Definition krldev_retn_rqueparm (request : Z) : DM (option (Z * Z * Z * Z * Z * Z)) :=
  if request =? 0 then mret None else
  n ← get_node request; mret (Some (on_buf n, on_currops n, on_len n, on_ioctrd n, on_bufcurops n, on_bufsz n)).

(** ** Interrupt handlers *)

Definition hal_retn_intfltdsc (irqnr : Z) : option Z := if IDTMAX <? irqnr then None else Some irqnr.

Definition hal_add_ihandle (irq serdscp : Z) : DM bool := fun d =>
  match d_ints d !! irq with
  | None => Fault
  | Some i => Ret (true, with_ints (<[irq := Intfltdsc (i_indx i) (i_deep i) (i_sernr i +u 1) (serdscp :: i_serlist i)]> (d_ints d)) (d_sers d) d)
  end.

Definition hal_enable_intline (ifdnr : Z) : DM Z :=
  if (ifdnr <? 20) || (36 <? ifdnr) then mret DFCERRSTUS else
  on_chips (i8259_enabled_line (ifdnr - 20)) ;;
  mret DFCOKSTUS.
Definition hal_disable_intline (ifdnr : Z) : DM Z :=
  if (ifdnr <? 20) || (36 <? ifdnr) then mret DFCERRSTUS else
  on_chips (i8259_disable_line (ifdnr - 20)) ;;
  mret DFCOKSTUS.
Definition krlenable_intline (ifdnr : Z) : DM Z := hal_enable_intline ifdnr.
Definition krldisable_intline (ifdnr : Z) : DM Z := hal_disable_intline ifdnr.

Definition krladd_irqhandle (device : Z) (handle : inthandle) (phyiline : Z) : DM Z :=
  if device =? 0 then mret 0 else
  match hal_retn_intfltdsc phyiline with
  | None => mret 0
  | Some intp =>
      serdscp ← new_dsc sizeof_intserdsc_t;
      if serdscp =? 0 then mret 0 else
      modify (fun d => with_ints (d_ints d) (<[serdscp := intserdsc_t_init 0 intp device handle]> (d_sers d)) d) ;;
      ok ← hal_add_ihandle intp serdscp;
      if negb ok then
        r ← del_dsc serdscp sizeof_intserdsc_t; die_if (negb r) "krladd_irqhandle ERR" ;; mret 0
      else mret serdscp
  end.

Definition krlnew_devhandle (devp : Z) (handle : inthandle) (phyiline : Z) : DM Z :=
  sdp ← krladd_irqhandle devp handle phyiline;
  if sdp =? 0 then mret DFCERRSTUS else
  upd_dev devp (fun x => set_dev_int (sdp :: dev_intserlst x) (dev_intlnenr x +u 1) x) ;;
  mret DFCOKSTUS.

(** ** Dispatch *)

(** An operation of the file system driver on the packet at [node] *)
Definition rfs_call (f : objnode_t -> M (rst S) (Z * objnode_t)) (node : Z) : DM Z :=
  n ← get_node node; '(r, n') ← on_rfs (f n); upd_node node (fun _ => n') ;; mret r.

Definition systick_open (devp : Z) : DM Z := krldev_inc_devcount devp ;; mret DFCOKSTUS.
Definition systick_close (devp : Z) : DM Z := krldev_dec_devcount devp ;; mret DFCOKSTUS.

(** *** The serial driver, which serves the keyboard *)

(** What the new memory holds *)
Definition new_words (n : Z) : DM (list Z) :=
  k ← on_rfs (gets r_fresh);
  on_rfs (modify (fun s => Rst (r_mm s) (r_mem s) (r_fresh s + 1)%nat (r_denied s) (r_ext s) (r_disk s))) ;;
  mret ((fun i => u16 (junk k i)) <$> seq 0 (Z.to_nat n)).

(** [init_i8042] has no statements. *)
Definition init_kboard (dev : Z) : DM unit :=
  ext ← new_dsc sizeof_kboard_t;
  if ext =? 0 then mret tt else
  old ← new_words 64;
  upd_dev dev (set_dev_ext ext) ;;
  on_sys (modify (fun s => with_sems (<[ext := krlsem_t_init]> (sems s)) s)) ;;
  on_sys (krlsem_set_sem ext SEM_FLG_MUTEX 0) ;;
  d ← gets (fun d => kbd_dowup_stat (d_kbd d));
  put_kbd ext (kboard_t_init (Kboard 0 0 0 old)) d.

Definition read_keybd : DM Z := scan ← gets (fun d => kb_data (d_kbd d)); mret (u8 scan).

(** [dev_extdata] is read before [devp] is compared with [NULL]. *)
Definition uart_handle (ift_nr devp : Z) : DM Z :=
  idev ← get_dev devp;
  let ikbd := dev_extdata idev in
  if (devp =? 0) || (ikbd =? 0) then mret DFCERRSTUS else
  scan ← read_keybd;
  k ← get_kbd ikbd; st ← gets (fun d => kbd_dowup_stat (d_kbd d));
  match kbd_write_scan k st scan with None => fault | Some (k', st') => put_kbd ikbd k' st' end ;;
  on_sys (krlsem_up ikbd) ;;
  mret DFCOKSTUS.

Definition uart_open (devp : Z) : DM Z := krldev_inc_devcount devp.
Definition uart_close (devp : Z) : DM Z := krldev_dec_devcount devp.

(** The function after [krlsem_down] *)
Definition read_rest (kbd retbuf len : Z) : DM Z :=
  k ← get_kbd kbd;
  let sz := if 6 <? len then 6 else len in
  on_rfs (store retbuf 0 (take (Z.to_nat sz) (buff_bytes k))) ;;
  mret DFCOKSTUS.
(** The function with one pass of [krlsem_down]: [None] when the thread sleeps in it; it
    goes on with another pass when it runs again. *)
Definition uart_read_try (devp iopack : Z) : DM (option Z) :=
  x ← get_dev devp;
  r ← krldev_retn_rqueparm iopack;
  match r with
  | None => mret (Some DFCERRSTUS)
  | Some (retbuf, _, len, _, _, _) =>
      taken ← on_sys (krlsem_down_try (dev_extdata x));
      if taken : bool then r ← read_rest (dev_extdata x) retbuf len; mret (Some r) else mret None
  end.
(** A call that returns in its first pass *)
Definition uart_read (devp iopack : Z) : DM Z :=
  r ← uart_read_try devp iopack; match r with Some z => mret z | None => fun _ => NoFuel end.

(** [kprint] gets the characters up to the terminator. *)
Definition uart_write (devp iopack : Z) : DM Z :=
  r ← krldev_retn_rqueparm iopack;
  match r with
  | None => mret DFCERRSTUS
  | Some (retbuf, _, len, _, _, _) =>
      p ← on_rfs (string_at (retbuf, 0)); n ← on_rfs (str (rfs_strlen p));
      modify (fun d => with_kbd (Kbdst (kbds (d_kbd d)) (kbd_dowup_stat (d_kbd d)) (kb_data (d_kbd d)) (kb_printed (d_kbd d) ++ [take (Z.to_nat n) p])) d) ;;
      mret DFCOKSTUS
  end.

Definition call_fun (f : drivcallfun_t) (devp node : Z) : DM Z :=
  match f with
  | Fdefault | Fsystick_none | Fuart_none => mret DFCERRSTUS
  | Frfs_none => rfs_call rfs_not_supported node
  | Frfs_open => rfs_call (rfs_open junk) node
  | Frfs_close => rfs_call rfs_close node
  | Frfs_read => rfs_call rfs_read node
  | Frfs_write => rfs_call rfs_write node
  | Frfs_ioctrl => rfs_call (rfs_ioctrl junk) node
  | Fsystick_open => systick_open devp
  | Fsystick_close => systick_close devp
  | Fuart_open => uart_open devp
  | Fuart_close => uart_close devp
  | Fuart_read => uart_read devp node
  | Fuart_write => uart_write devp node
  end.

Definition krldev_call_driver (devp iocode node : Z) : DM Z :=
  if (devp =? 0) || (IOIF_CODE_MAX <=? iocode) then mret DFCERRSTUS else
  x ← get_dev devp;
  let drvp := dev_drv x in
  if drvp =? 0 then mret DFCERRSTUS else
  v ← get_drv drvp;
  match drv_dipfun v !! Z.to_nat iocode with Some f => call_fun f devp node | None => fault end.

Definition krldev_io (nodep : Z) : DM Z :=
  n ← get_node nodep;
  if (negb (on_objtype n =? OBJN_TY_DEV) && negb (on_objtype n =? OBJN_TY_FIL)) || (on_objadr n =? 0) then mret DFCERRSTUS else
  if (on_opercode n <? 0) || (IOIF_CODE_MAX <=? on_opercode n) then mret DFCERRSTUS else
  krldev_call_driver (on_objadr n) (on_opercode n) nodep.

(** ** The drivers' entries *)

Definition rfs_set_driver (v : driver_t) : driver_t :=
  set_drv_fun [Frfs_open; Frfs_close; Frfs_read; Frfs_write; Frfs_none; Frfs_ioctrl; Frfs_none; Frfs_none; Frfs_none; Frfs_none; Frfs_none; Frfs_none] "rfsdrv" v.
Definition rfs_set_device (x : device_t) : device_t := set_dev_ident DEVFLG_SHARE DEVSTS_NORML (Devid FILESYS_DEVICE 0 0) "rfs" x.
Definition systick_set_driver (v : driver_t) : driver_t :=
  set_drv_fun ([Fsystick_open; Fsystick_close] ++ replicate 10 Fsystick_none) "systick0drv" v.
Definition systick_set_device (x : device_t) : device_t := set_dev_ident DEVFLG_SHARE DEVSTS_NORML (Devid SYSTICK_DEVICE 0 0) "systick0" x.
Definition uart_set_driver (v : driver_t) : driver_t :=
  set_drv_fun ([Fuart_open; Fuart_close; Fuart_read; Fuart_write] ++ replicate 8 Fuart_none) "uartdrv" v.
Definition uart0_set_device (x : device_t) : device_t := set_dev_ident DEVFLG_SHARE DEVSTS_NORML (Devid UART_DEVICE 0 0) "uart0" x.

(** A device made, given its driver and put into the table; [pre] is what the driver
    does between.  The entries start so. *)
Definition register (drvp : Z) (setv : driver_t -> driver_t) (setd : device_t -> device_t) (pre : DM Z) (K : Z -> DM Z) : DM Z :=
  if drvp =? 0 then mret DFCERRSTUS else
  devp ← new_device_dsc;
  if devp =? 0 then mret DFCERRSTUS else
  upd_drv drvp setv ;; upd_dev devp setd ;;
  r ← pre;
  if r =? DFCERRSTUS then del_device_dsc devp ;; mret DFCERRSTUS else
  r ← krldev_add_driver devp drvp;
  if r =? DFCERRSTUS then del_device_dsc devp ;; mret DFCERRSTUS else
  r ← krlnew_device devp;
  if r =? DFCERRSTUS then del_device_dsc devp ;; mret DFCERRSTUS else
  K devp.

(** *** The self-tests of the file system driver *)

(** They print what they read; a read is a load of the field. *)
Definition test_rfs_superblk : DM unit := on_rfs (
  sbp ← get_superblk junk;
  for_each [rsb_mgic; rsb_vec; rsb_sblksz; rsb_dblksz; rsb_bmpbks; rsb_fsysallblk; rsb_rootdir + rdr_blknr; rsb_rootdir + rdr_type] (fun f => _ ← get (sbp, 0) f; mret tt) ;;
  del_superblk sbp).

Definition test_rfs_bitmap : DM unit := on_rfs (
  buf ← new_buf junk FSYS_ALCBLKSZ;
  die_if (buf =? 0) "chkbitmap err" ;;
  hal_memset buf 0 FSYS_ALCBLKSZ ;;
  r ← read_rfsdevblk buf 1;
  die_if (r =? DFCERRSTUS) "chkbitmap err1" ;;
  _ ← load buf 0 FSYS_ALCBLKSZ;
  del_buf buf FSYS_ALCBLKSZ).

Definition test_rfs_rootdir : DM unit := on_rfs (
  dr ← get_rootdir junk;
  buf ← new_buf junk FSYS_ALCBLKSZ;
  die_if (buf =? 0) "testdir err" ;;
  hal_memset buf 0 FSYS_ALCBLKSZ ;;
  nr ← get (dr, 0) rdr_blknr;
  r ← read_rfsdevblk buf nr;
  die_if (r =? DFCERRSTUS) "testdir1 err1" ;;
  for_each [fmd_type; fmd_filesz; fmd_fileifstbkoff; fmd_fileiendbkoff; fmd_fleblk 0 + fb_blkstart; fmd_fleblk 0 + fb_blknr] (fun f => _ ← get (buf, 0) f; mret tt) ;;
  del_buf buf FSYS_ALCBLKSZ ;;
  del_rootdir dr).

Definition test_packet (rwbuf : Z) (n : objnode_t) : objnode_t :=
  Objnode (on_flgs n) (on_stus n) (on_opercode n) (on_objtype n) (on_objadr n) FSDEV_OPENFLG_NEWFILE (on_acsstus n) (on_currops n) 512 FSDEV_IOCTRCD_DELFILE rwbuf
    (on_bufcurops n) FSYS_ALCBLKSZ (on_count n) testfile (on_finode n).
Definition set_openfile (n : objnode_t) : objnode_t :=
  Objnode (on_flgs n) (on_stus n) (on_opercode n) (on_objtype n) (on_objadr n) FSDEV_OPENFLG_OPEFILE (on_acsstus n) (on_currops n) (on_len n) (on_ioctrd n) (on_buf n)
    (on_bufcurops n) (on_bufsz n) (on_count n) (on_fname n) (on_finode n).

(** The packet and the buffer are not given back. *)
Definition test_fsys : DM unit :=
  rwbuf ← on_rfs (new_buf junk FSYS_ALCBLKSZ);
  die_if (rwbuf =? 0) "rwbuf is NULL" ;;
  on_rfs (hal_memset rwbuf 0xff FSYS_ALCBLKSZ) ;;
  ondp ← krlnew_objnode;
  die_if (ondp =? 0) "ondp is NULL" ;;
  upd_node ondp (test_packet rwbuf) ;;
  r ← rfs_call (rfs_open junk) ondp; die_if (r =? DFCERRSTUS) "新建文件错误" ;;
  upd_node ondp set_openfile ;;
  r ← rfs_call (rfs_open junk) ondp; die_if (r =? DFCERRSTUS) "打开文件错误" ;;
  r ← rfs_call rfs_write ondp; die_if (r =? DFCERRSTUS) "写入文件错误" ;;
  on_rfs (hal_memset rwbuf 0 FSYS_ALCBLKSZ) ;;
  r ← rfs_call rfs_read ondp; die_if (r =? DFCERRSTUS) "读取文件错误" ;;
  r ← rfs_call rfs_close ondp; die_if (r =? DFCERRSTUS) "关闭文件错误" ;;
  cb ← on_rfs (load rwbuf 0 512); die_if (negb (bool_decide (Forall (fun c => c = 0xff) cb))) "检查文件内容错误" ;;
  r ← rfs_call (rfs_ioctrl junk) ondp; die_if (r =? DFCERRSTUS) "删除文件错误" ;;
  upd_node ondp set_openfile ;;
  _ ← rfs_call (rfs_open junk) ondp;
  mret tt.

Definition rfs_entry (drvp : Z) : DM Z :=
  register drvp rfs_set_driver rfs_set_device (on_rfs (new_rfsdevext_mmblk junk FSMM_BLK)) (fun _ =>
    on_rfs (init_rfs junk) ;; test_rfs_superblk ;; test_rfs_bitmap ;; test_rfs_rootdir ;; test_fsys ;; mret DFCOKSTUS).

Definition systick_entry (drvp : Z) : DM Z :=
  register drvp systick_set_driver systick_set_device (mret DFCOKSTUS) (fun devp =>
    r ← krlnew_devhandle devp Hsystick 0x20;
    if r =? DFCERRSTUS then mret DFCERRSTUS else
    on_chips init_8254 ;;
    r ← krlenable_intline 20;
    if r =? DFCERRSTUS then mret DFCERRSTUS else mret DFCOKSTUS).

Definition uart_entry (drvp : Z) : DM Z :=
  register drvp uart_set_driver uart0_set_device (mret DFCOKSTUS) (fun devp =>
    r ← krlnew_devhandle devp Huart 0x21;
    if r =? DFCERRSTUS then mret DFCERRSTUS else
    init_kboard devp ;;
    r ← krlenable_intline 21;
    if r =? DFCERRSTUS then mret DFCERRSTUS else mret DFCOKSTUS).
Definition uart_exit (drvp : Z) : DM Z := mret DFCERRSTUS.

Inductive drventry_t := Esystick | Erfs | Euart.
Definition run_entry (e : drventry_t) (drvp : Z) : DM Z :=
  match e with Esystick => systick_entry drvp | Erfs => rfs_entry drvp | Euart => uart_entry drvp end.

Definition krlrun_driverentry (drventry : drventry_t) : DM Z :=
  drvp ← new_driver_dsc;
  if drvp =? 0 then mret DFCERRSTUS else
  r ← run_entry drventry drvp;
  if r =? DFCERRSTUS then mret DFCERRSTUS else
  r ← krldriver_add_system drvp;
  if r =? DFCERRSTUS then mret DFCERRSTUS else mret DFCOKSTUS.

Definition osdrvetytabl : list drventry_t := [Esystick; Erfs; Euart].
Definition init_krldriver : DM unit :=
  for_each osdrvetytabl (fun e => r ← krlrun_driverentry e; die_if (r =? DFCERRSTUS) "init driver err").
Definition init_krldevice : DM unit := upd_tab (fun _ => devtable_t_init).
End devices.
