(* ===== verification/DeviceSpec.v ===== *)
(** * Devices and drivers: the table

    The invariant of the device table; registration, lookup and the choice of device
    numbers. *)

From S2P Require Import Prelude Bytes Intr Sched MemIf Rfs Kbd Device.
#[local] Open Scope Z_scope.

Section table.
Context {S : Type} {HMO : MemOps S}.
Implicit Types (d : dst S) (id : devid_t) (a : Z).

(** The device at [a] is in the table under [id]. *)
Definition registered d a id : Prop :=
  exists c x, devt_devclsl (d_tab d) !! dev_mtype id = Some c /\ a ∈ dtl_list c /\ d_devs d !! a = Some x /\ dev_id x = id.

(** A class of devices: its type and count, and devices of the type, with drivers and
    ids of their own. *)
Record cls_ok d (ty : Z) (c : devtlst_t) : Prop := {
  co_type : dtl_type c = ty;
  co_nr : dtl_nr c = u64 (Z.of_nat (length (dtl_list c)));
  co_nodup : NoDup (dtl_list c);
  co_dev a : a ∈ dtl_list c -> a <> 0 /\ exists x, d_devs d !! a = Some x /\ dev_mtype (dev_id x) = ty /\ dev_drv x <> 0 /\ 0 <= dev_nr (dev_id x);
  co_ids a b x y : a ∈ dtl_list c -> b ∈ dtl_list c -> d_devs d !! a = Some x -> d_devs d !! b = Some y -> dev_id x = dev_id y -> a = b
}.

Record DevInv d : Prop := {
  di_dom ty : is_Some (devt_devclsl (d_tab d) !! ty) <-> 0 <= ty < DEVICE_MAX;
  di_cls ty c : devt_devclsl (d_tab d) !! ty = Some c -> cls_ok d ty c;
  di_list a : a ∈ devt_devlist (d_tab d) <-> exists ty c, devt_devclsl (d_tab d) !! ty = Some c /\ a ∈ dtl_list c;
  di_nodup : NoDup (devt_devlist (d_tab d));
  di_nr : devt_devnr (d_tab d) = u64 (Z.of_nat (length (devt_devlist (d_tab d))))
}.

Lemma cmp_devid_spec (x y : devid_t) : krlcmp_devid x y = bool_decide (x = y).
Proof.
  destruct x as [a b c], y as [a' b' c']. unfold krlcmp_devid. cbn [dev_mtype dev_stype dev_nr].
  destruct (a =? a') eqn:E1, (b =? b') eqn:E2, (c =? c') eqn:E3; bool_to_prop; cbn [negb]; symmetry; (apply bool_decide_eq_true || apply bool_decide_eq_false); congruence.
Qed.

Lemma get_dev_eq a x d : d_devs d !! a = Some x -> get_dev a d = Ret (x, d).
Proof. intros E. unfold get_dev. by rewrite E. Qed.
Lemma get_cls_eq ty c d : devt_devclsl (d_tab d) !! ty = Some c -> get_cls ty d = Ret (c, d).
Proof. intros E. unfold get_cls. by rewrite E. Qed.

(** The search for an id in a class *)
Lemma find_devid_spec d l id : (forall a, a ∈ l -> exists x, d_devs d !! a = Some x) ->
  exists r, find_devid l id d = Ret (r, d) /\
    match r with
    | Some a => a ∈ l /\ exists x, d_devs d !! a = Some x /\ dev_id x = id
    | None => forall a x, a ∈ l -> d_devs d !! a = Some x -> dev_id x <> id
    end.
Proof.
  intros Hl. unfold find_devid. induction l as [|a l IH]; cbn [find_first].
  { exists None. split; [done|]. by intros a x ?%elem_of_nil. }
  destruct (Hl a ltac:(by left)) as [x Hx].
  rewrite (bind_eq _ _ d (if krlcmp_devid id (dev_id x) then Some a else None) d) by (by rewrite (bind_eq _ _ _ _ _ (get_dev_eq a x d Hx))).
  rewrite cmp_devid_spec. case_bool_decide as E.
  - exists (Some a). split; [done|]. split; [by left|]. by exists x.
  - destruct IH as (r & Hr & Hspec); [intros b Hb; apply Hl; by right|]. exists r. split; [done|]. destruct r as [b|].
    + destruct Hspec as [Hb ?]. split; [by right|done].
    + intros b y [->|Hb]%elem_of_cons Hy; [congruence|]. by apply (Hspec b).
Qed.

Lemma class_devs d ty c a : DevInv d -> devt_devclsl (d_tab d) !! ty = Some c -> a ∈ dtl_list c -> exists x, d_devs d !! a = Some x.
Proof. intros HI Hc Ha. destruct (co_dev _ _ _ (di_cls _ HI _ _ Hc) _ Ha) as (_ & x & Hx & _). by exists x. Qed.

Lemma find_registered d c id : DevInv d -> devt_devclsl (d_tab d) !! dev_mtype id = Some c ->
  exists r, find_devid (dtl_list c) id d = Ret (r, d) /\ match r with Some a => registered d a id /\ a <> 0 | None => forall a, ~ registered d a id end.
Proof.
  intros HI Hc. destruct (find_devid_spec d (dtl_list c) id) as (r & Hr & Hs); [intros a; by apply (class_devs d (dev_mtype id))|]. exists r. split; [done|]. destruct r as [a|].
  - destruct Hs as (Ha & x & Hx & Hid). split; [by exists c, x|]. by apply (co_dev _ _ _ (di_cls _ HI _ _ Hc) a Ha).
  - intros a (c' & x & Hc' & Ha & Hx & Hid). rewrite Hc in Hc'. injection Hc' as <-. by apply (Hs a x).
Qed.

(** The initial table *)
Lemma init_DevInv d : d_tab d = devtable_t_init -> DevInv d.
Proof.
  intros E. assert (Hc : forall ty c, devt_devclsl (d_tab d) !! ty = Some c -> c = devtlst_t_init ty /\ 0 <= ty < DEVICE_MAX).
  { intros ty c. rewrite E. unfold devtable_t_init. cbn [devt_devclsl]. rewrite lookup_tabulate. destruct ((0 <=? ty) && (ty <? DEVICE_MAX)) eqn:Eb; [|done]. intros [= <-]. split; [done|lia]. }
  split.
  - intros ty. split; [intros [c H]; by apply Hc in H as [_ ?]|]. intros Hty. rewrite E. cbn. rewrite lookup_tabulate. replace ((0 <=? ty) && (ty <? DEVICE_MAX)) with true by lia. eauto.
  - intros ty c H. apply Hc in H as [-> _]. split; cbn; [done|done|apply NoDup_nil_2|by intros a ?%elem_of_nil|by intros a b x y ?%elem_of_nil].
  - intros a. rewrite E. cbn. split; [by intros ?%elem_of_nil|]. intros (ty & c & H & Ha). rewrite lookup_tabulate in H. destruct ((0 <=? ty) && (ty <? DEVICE_MAX)); [|done]. injection H as <-. by apply elem_of_nil in Ha.
  - rewrite E. apply NoDup_nil_2.
  - by rewrite E.
Qed.

Lemma lookup_spec d id : DevInv d -> 0 <= dev_mtype id ->
  exists a, krlonidfl_retn_device (Some id) DIDFIL_IDN d = Ret (a, d) /\ ((a <> 0 /\ registered d a id) \/ (a = 0 /\ forall b, ~ registered d b id)).
Proof.
  intros HI Hty. unfold krlonidfl_retn_device. change (negb (DIDFIL_IDN =? DIDFIL_IDN)) with false. cbn iota. destruct (DEVICE_MAX <=? dev_mtype id) eqn:E; bool_to_prop.
  { exists 0. split; [done|]. right. split; [done|]. intros b (c & x & Hc & _). assert (Hd : 0 <= dev_mtype id < DEVICE_MAX) by (apply (di_dom _ HI); by exists c). lia. }
  destruct (proj2 (di_dom _ HI (dev_mtype id)) ltac:(lia)) as [c Hc]. rewrite (bind_eq _ _ _ _ _ (get_cls_eq _ _ _ Hc)). rewrite (co_type _ _ _ (di_cls _ HI _ _ Hc)), Z.eqb_refl. cbn [negb].
  destruct (find_registered d c id HI Hc) as (r & Hr & Hs). rewrite (bind_eq _ _ _ _ _ Hr). exists (default 0 r). split; [done|]. destruct r as [a|]; [left|by right]. by destruct Hs.
Qed.

Lemma registered_fun d a b id : DevInv d -> registered d a id -> registered d b id -> a = b.
Proof.
  intros HI (c & x & Hc & Ha & Hx & Ex) (c' & y & Hc' & Hb & Hy & Ey). rewrite Hc in Hc'. injection Hc' as <-. apply (co_ids _ _ _ (di_cls _ HI _ _ Hc) a b x y); [done|done|done|done|congruence].
Qed.

(** The table with a device added *)
Definition added d devp (x : device_t) (c : devtlst_t) : dst S :=
  with_tab (Devtable (devp :: devt_devlist (d_tab d)) (devt_drvlist (d_tab d)) (devt_devnr (d_tab d) +u 1) (devt_drvnr (d_tab d))
    (<[dev_mtype (dev_id x) := Devtlst (dtl_type c) (dtl_nr c +u 1) (devp :: dtl_list c)]> (devt_devclsl (d_tab d)))) d.

Lemma added_DevInv d devp x c : DevInv d -> d_devs d !! devp = Some x -> devp <> 0 -> dev_drv x <> 0 -> 0 <= dev_nr (dev_id x) -> devt_devclsl (d_tab d) !! dev_mtype (dev_id x) = Some c ->
  (forall a, ~ registered d a (dev_id x)) -> DevInv (added d devp x c).
Proof.
  intros HI Hx H0 Hdrv Hnr Hc Hno. pose proof (di_cls _ HI _ _ Hc) as Hok.
  assert (Hnew : forall ty c', devt_devclsl (d_tab d) !! ty = Some c' -> devp ∉ dtl_list c').
  { intros ty c' Hc' Hin. destruct (co_dev _ _ _ (di_cls _ HI _ _ Hc') _ Hin) as (_ & y & Hy & Hty & _). rewrite Hx in Hy. injection Hy as <-. subst ty. apply (Hno devp). by exists c', x. }
  split; cbn [added d_tab with_tab devt_devlist devt_devnr devt_devclsl].
  - intros ty. rewrite lookup_insert_is_Some, (di_dom _ HI). split; [intros [<-|[_ ?]]; [apply (di_dom _ HI); by exists c|done]|]. intros ?. destruct (decide (dev_mtype (dev_id x) = ty)); [by left|by right].
  - intros ty c' [[<- <-]|[Hne Hc']]%lookup_insert_Some; [|by destruct (di_cls _ HI _ _ Hc')]. split; cbn [dtl_type dtl_nr dtl_list].
    + apply Hok.
    + rewrite (co_nr _ _ _ Hok). unfold u64. rewrite Zplus_mod_idemp_l. f_equal. cbn [length]. lia.
    + apply NoDup_cons. split; [by apply (Hnew _ _ Hc)|apply Hok].
    + intros a [->|Ha]%elem_of_cons; [|by apply (co_dev _ _ _ Hok)]. split; [done|]. by exists x.
    + intros a b y y' [->|Ha]%elem_of_cons [->|Hb]%elem_of_cons Hy Hy' Eid; [done| | |by apply (co_ids _ _ _ Hok a b y y')].
      * cbn in Hy. rewrite Hx in Hy. injection Hy as <-. destruct (Hno b). exists c, y'. done.
      * cbn in Hy'. rewrite Hx in Hy'. injection Hy' as <-. destruct (Hno a). exists c, y. done.
  - intros a. rewrite elem_of_cons, (di_list _ HI). setoid_rewrite lookup_insert_Some. split.
    + intros [->|(ty & c' & Hc' & Ha)]; [eexists _, _; split; [by left|]; by left|]. destruct (decide (ty = dev_mtype (dev_id x))) as [->|Hne].
      * rewrite Hc in Hc'. injection Hc' as <-. eexists _, _. split; [by left|]. by right.
      * exists ty, c'. split; [right; done|done].
    + intros (ty & c' & [[<- <-]|[Hne Hc']] & Ha); cbn [dtl_list] in Ha.
      * apply elem_of_cons in Ha as [->|Ha]; [by left|right]. by exists (dev_mtype (dev_id x)), c.
      * right. by exists ty, c'.
  - apply NoDup_cons. split; [|apply HI]. intros (ty & c' & Hc' & Ha)%(di_list _ HI). by apply (Hnew _ _ Hc').
  - rewrite (di_nr _ HI). unfold u64. rewrite Zplus_mod_idemp_l. f_equal. cbn [length]. lia.
Qed.

Lemma new_device_spec d devp x : DevInv d -> d_devs d !! devp = Some x -> devp <> 0 -> dev_drv x <> 0 -> 0 <= dev_mtype (dev_id x) < DEVICE_MAX -> 0 <= dev_nr (dev_id x) ->
  (exists a, registered d a (dev_id x) /\ krlnew_device devp d = Ret (DFCERRSTUS, d)) \/
  (exists c, (forall a, ~ registered d a (dev_id x)) /\ devt_devclsl (d_tab d) !! dev_mtype (dev_id x) = Some c /\ krlnew_device devp d = Ret (DFCOKSTUS, added d devp x c) /\ DevInv (added d devp x c)).
Proof.
  intros HI Hx H0 Hdrv Hty Hnr. unfold krlnew_device. rewrite (bind_eq _ _ _ _ _ (get_dev_eq devp x d Hx)). replace (devp =? 0) with false by lia. replace (dev_drv x =? 0) with false by lia.
  replace (DEVICE_MAX <=? dev_mtype (dev_id x)) with false by lia. destruct (proj2 (di_dom _ HI (dev_mtype (dev_id x))) Hty) as [c Hc]. rewrite (bind_eq _ _ _ _ _ (get_cls_eq _ _ _ Hc)).
  rewrite (co_type _ _ _ (di_cls _ HI _ _ Hc)), Z.eqb_refl. cbn [negb]. destruct (find_registered d c (dev_id x) HI Hc) as (r & Hr & Hs). rewrite (bind_eq _ _ _ _ _ Hr). destruct r as [a|].
  - left. exists a. split; [apply Hs|done].
  - right. exists c. split_and!; [done|done| |by apply added_DevInv]. unfold added. rewrite (co_type _ _ _ (di_cls _ HI _ _ Hc)). done.
Qed.

Lemma added_registered d devp x c a id : DevInv d -> d_devs d !! devp = Some x -> devt_devclsl (d_tab d) !! dev_mtype (dev_id x) = Some c ->
  registered (added d devp x c) a id <-> (a = devp /\ id = dev_id x) \/ registered d a id.
Proof.
  intros HI Hx Hc. unfold registered. cbn [added d_tab with_tab devt_devclsl d_devs]. setoid_rewrite lookup_insert_Some. split.
  - intros (c' & y & [[Et <-]|[Hne Hc']] & Ha & Hy & <-); [|right; by exists c', y]. cbn [dtl_list] in Ha. apply elem_of_cons in Ha as [->|Ha].
    + left. rewrite Hx in Hy. by injection Hy as <-.
    + right. exists c, y. rewrite <- Et. done.
  - intros [[-> ->]|(c' & y & Hc' & Ha & Hy & <-)].
    + eexists _, x. split_and!; [by left|cbn; by left|done|done].
    + destruct (decide (dev_mtype (dev_id x) = dev_mtype (dev_id y))) as [Et|Hne].
      * rewrite <- Et, Hc in Hc'. injection Hc' as <-. eexists _, y. split_and!; [by left|cbn; by right|done|done].
      * exists c', y. split_and!; [by right|done|done|done].
Qed.

(** ** Device numbers *)

Lemma max_devnr_spec d l : forall n, (forall a, a ∈ l -> exists x, d_devs d !! a = Some x) ->
  exists r, max_devnr l n d = Ret (r, d) /\ n <= r /\ (r = n \/ exists a x, a ∈ l /\ d_devs d !! a = Some x /\ dev_nr (dev_id x) = r) /\
    forall a x, a ∈ l -> d_devs d !! a = Some x -> dev_nr (dev_id x) <= r.
Proof.
  induction l as [|a l IH]; intros n Hl; cbn [max_devnr].
  { exists n. split_and!; [done|lia|by left|]. by intros a x ?%elem_of_nil. }
  destruct (Hl a ltac:(by left)) as [x Hx]. rewrite (bind_eq _ _ _ _ _ (get_dev_eq a x d Hx)). set (n' := if n <? dev_nr (dev_id x) then dev_nr (dev_id x) else n).
  destruct (IH n') as (r & Hr & Hle & Hor & Hmax); [intros b Hb; apply Hl; by right|]. exists r. split; [done|]. assert (Hn' : n <= n' /\ dev_nr (dev_id x) <= n' /\ (n' = n \/ n' = dev_nr (dev_id x))) by (unfold n'; destruct (n <? _) eqn:E; lia).
  split_and!; [lia| |].
  - destruct Hor as [->|(b & y & Hb & Hy & Er)]; [|right; exists b, y; split_and!; [by right|done|done]]. destruct Hn' as (_ & _ & [->| ->]); [by left|right]. exists a, x. split_and!; [by left|done|done].
  - intros b y [->|Hb]%elem_of_cons Hy; [rewrite Hx in Hy; injection Hy as <-; lia|]. by apply (Hmax b).
Qed.

(** ** States with the same table *)

(** The table depends on the identity and the driver of the devices in it. *)
Definition same_devs d d' : Prop := d_tab d' = d_tab d /\
  forall ty c a x, devt_devclsl (d_tab d) !! ty = Some c -> a ∈ dtl_list c -> d_devs d !! a = Some x -> exists x', d_devs d' !! a = Some x' /\ dev_id x' = dev_id x /\ dev_drv x' = dev_drv x.

Lemma same_devs_eq d d' : d_tab d' = d_tab d -> d_devs d' = d_devs d -> same_devs d d'.
Proof. intros Et Ed. split; [done|]. intros ty c a x _ _ Hx. exists x. by rewrite Ed. Qed.

Lemma same_devs_registered d d' a id : DevInv d -> same_devs d d' -> registered d' a id <-> registered d a id.
Proof.
  intros HI [Et Hd]. unfold registered. rewrite Et. split.
  - intros (c & x & Hc & Ha & Hx & Ex). destruct (class_devs d _ c a HI Hc Ha) as [z Hz]. destruct (Hd _ c a z Hc Ha Hz) as (x' & Hx' & E1 & _). exists c, z. split_and!; [done|done|done|congruence].
  - intros (c & x & Hc & Ha & Hx & Ex). destruct (Hd _ c a x Hc Ha Hx) as (x' & Hx' & E1 & _). exists c, x'. split_and!; [done|done|done|congruence].
Qed.

Lemma same_devs_DevInv d d' : DevInv d -> same_devs d d' -> DevInv d'.
Proof.
  intros HI [Et Hd]. split; rewrite ?Et; [apply HI| |apply HI|apply HI|apply HI]. intros ty c Hc. destruct (di_cls _ HI ty c Hc) as [H1 H2 H3 H4 H5]. split; [done|done|done| |].
  - intros a Ha. destruct (H4 a Ha) as (H0 & x & Hx & Hty & Hdv & Hnr). destruct (Hd ty c a x Hc Ha Hx) as (x' & Hx' & E1 & E2). split; [done|]. exists x'. rewrite E1, E2. done.
  - intros a b x y Ha Hb Hx Hy E. destruct (class_devs d ty c a HI Hc Ha) as [za Hza]. destruct (class_devs d ty c b HI Hc Hb) as [zb Hzb].
    destruct (Hd ty c a za Hc Ha Hza) as (xa & Hxa & Ea & _). destruct (Hd ty c b zb Hc Hb Hzb) as (xb & Hxb & Eb & _). apply (H5 a b za zb); [done|done|done|done|congruence].
Qed.

(** The table of devices.  A device with a driver whose id nobody uses is put into
    the table: afterwards it is found under its id, every other id is found as before,
    and the table stays well-formed.  When the id is in use the registration is refused
    without effect. *)
Theorem device_registration d devp x : DevInv d -> d_devs d !! devp = Some x -> devp <> 0 -> dev_drv x <> 0 -> 0 <= dev_mtype (dev_id x) < DEVICE_MAX -> 0 <= dev_nr (dev_id x) ->
  ((exists a, registered d a (dev_id x)) -> krlnew_device devp d = Ret (DFCERRSTUS, d)) /\
  ((forall a, ~ registered d a (dev_id x)) -> exists d', krlnew_device devp d = Ret (DFCOKSTUS, d') /\ DevInv d' /\
     krlonidfl_retn_device (Some (dev_id x)) DIDFIL_IDN d' = Ret (devp, d') /\
     forall id, id <> dev_id x -> 0 <= dev_mtype id -> exists a, krlonidfl_retn_device (Some id) DIDFIL_IDN d = Ret (a, d) /\ krlonidfl_retn_device (Some id) DIDFIL_IDN d' = Ret (a, d')).
Proof.
  intros HI Hx H0 Hdrv Hty Hnr. destruct (new_device_spec d devp x HI Hx H0 Hdrv Hty Hnr) as [(a & Ha & E)|(c & Hno & Hc & E & HI')]; [split; [done|]; intros Hn; by destruct (Hn a)|].
  split; [intros [a Ha]; by destruct (Hno a)|]. intros _. exists (added d devp x c). pose proof (fun a id => added_registered d devp x c a id HI Hx Hc) as Hreg.
  assert (Hown : registered (added d devp x c) devp (dev_id x)) by (apply Hreg; by left). split_and!; [done|done| |].
  - destruct (lookup_spec _ (dev_id x) HI' ltac:(lia)) as (b & -> & [[_ Hb]|[_ Hb]]); [|by destruct (Hb devp)]. by rewrite (registered_fun _ _ _ _ HI' Hb Hown).
  - intros id Hne Hid. destruct (lookup_spec _ id HI Hid) as (a & Ea & Ha). exists a. split; [done|]. destruct (lookup_spec _ id HI' Hid) as (b & -> & Hb). do 2 f_equal.
    destruct Ha as [[Ha0 Ha]|[-> Ha]], Hb as [[Hb0 Hb]|[-> Hb]]; [| | |done].
    + apply Hreg in Hb as [[_ ?]|Hb]; [done|]. by apply (registered_fun d b a id).
    + destruct (Hb a). apply Hreg. by right.
    + apply Hreg in Hb as [[_ ?]|Hb]; [done|]. by destruct (Ha b).
Qed.

(** The number that [krlnew_devid] proposes is in use.  When a class has devices and
    they share the subtype asked for, [krlnew_devid] answers with the largest number in
    use instead of the next one, and a device that takes it cannot be registered. *)
Theorem new_devid_taken d id c : DevInv d -> 0 <= dev_mtype id < DEVICE_MAX -> devt_devclsl (d_tab d) !! dev_mtype id = Some c -> dtl_list c <> [] ->
  (forall a x, a ∈ dtl_list c -> d_devs d !! a = Some x -> dev_stype (dev_id x) = dev_stype id) ->
  exists id', krlnew_devid id d = Ret ((DFCOKSTUS, id'), d) /\ (exists a, registered d a id') /\
    forall devp x, d_devs d !! devp = Some x -> dev_id x = id' -> devp <> 0 -> dev_drv x <> 0 -> krlnew_device devp d = Ret (DFCERRSTUS, d).
Proof.
  intros HI Hty Hc Hne Hst. destruct (max_devnr_spec d (dtl_list c) 0) as (r & Hr & Hr0 & Hor & Hmax); [intros a; by apply (class_devs d (dev_mtype id))|].
  assert (Hw : exists a x, a ∈ dtl_list c /\ d_devs d !! a = Some x /\ dev_nr (dev_id x) = r).
  { destruct Hor as [->|?]; [|done]. destruct (dtl_list c) as [|a l] eqn:El; [done|]. assert (Ha : a ∈ dtl_list c) by (rewrite El; by left).
    destruct (co_dev _ _ _ (di_cls _ HI _ _ Hc) a Ha) as (_ & x & Hx & _ & _ & Hnn). exists a, x. rewrite El in Ha. split_and!; [done|done|]. specialize (Hmax a x Ha Hx). lia. }
  destruct Hw as (a & x & Ha & Hx & Enr). destruct (co_dev _ _ _ (di_cls _ HI _ _ Hc) a Ha) as (_ & y & Hy & Hmt & _). rewrite Hx in Hy. injection Hy as <-.
  assert (Eid : dev_id x = Devid (dev_mtype id) (dev_stype id) r) by (specialize (Hst a x Ha Hx); destruct (dev_id x); cbn in *; congruence).
  exists (Devid (dev_mtype id) (dev_stype id) r). assert (Hreg : registered d a (Devid (dev_mtype id) (dev_stype id) r)) by (by exists c, x). split_and!; [|by exists a|].
  - unfold krlnew_devid. replace (DEVICE_MAX <=? dev_mtype id) with false by lia. rewrite (bind_eq _ _ _ _ _ (get_cls_eq _ _ _ Hc)), (co_type _ _ _ (di_cls _ HI _ _ Hc)), Z.eqb_refl. cbn [negb].
    rewrite bool_decide_false by done. by rewrite (bind_eq _ _ _ _ _ Hr).
  - intros devp z Hz Ez H0 Hdrv. destruct (new_device_spec d devp z HI Hz H0 Hdrv) as [(b & _ & ->)|(c' & Hno & _)]; [by rewrite Ez|rewrite Ez; cbn; lia|done|]. rewrite Ez in Hno. by destruct (Hno a).
Qed.
End table.

(** ** A table with one device *)

Definition demo_timer : device_t := systick_set_device (set_dev_drv 0x30 device_t_init).
Definition demo_files : device_t := rfs_set_device (set_dev_drv 0x40 device_t_init).
(** Another timer, with the number of the first *)
Definition demo_timer2 : device_t := systick_set_device (set_dev_drv 0x30 device_t_init).
Definition demo_empty : dst unit :=
  Dst (Sys schdata_t_init 0 ∅ ∅ ∅ None 0 0) (Rst tt ∅ 0 0 None ∅) devtable_t_init {[0x10 := demo_timer; 0x11 := demo_files; 0x12 := demo_timer2]} ∅ ∅ ∅ ∅ no_chips kbdst_init.
Definition demo_table : dst unit := added demo_empty 0x10 demo_timer (devtlst_t_init SYSTICK_DEVICE).

Lemma demo_none (a : Z) id : ~ registered demo_empty a id.
Proof.
  intros (c & x & Hc & Ha & _). cbn in Hc. rewrite lookup_tabulate in Hc. destruct (_ && _); [|done]. injection Hc as <-. by apply elem_of_nil in Ha.
Qed.
Lemma demo_table_ok : DevInv demo_table.
Proof. apply added_DevInv; [by apply init_DevInv|done|done|done|done|done|]. intros a. apply demo_none. Qed.

Lemma device_registration_witness : exists d', krlnew_device 0x11 demo_table = Ret (DFCOKSTUS, d') /\ DevInv d' /\ krlonidfl_retn_device (Some (dev_id demo_files)) DIDFIL_IDN d' = Ret (0x11, d').
Proof.
  destruct (device_registration demo_table 0x11 demo_files demo_table_ok) as [_ H]; [done|done|done|done|done|]. destruct H as (d' & H1 & H2 & H3 & _).
  - intros a [[_ E]|Ha]%added_registered; [discriminate E|by apply demo_none in Ha|by apply init_DevInv|done|done].
  - by exists d'.
Defined.

Lemma new_devid_taken_witness : krlnew_devid (Devid SYSTICK_DEVICE 0 7) demo_table = Ret ((DFCOKSTUS, Devid SYSTICK_DEVICE 0 0), demo_table) /\ krlnew_device 0x12 demo_table = Ret (DFCERRSTUS, demo_table).
Proof.
  destruct (new_devid_taken demo_table (Devid SYSTICK_DEVICE 0 7) (Devtlst SYSTICK_DEVICE 1 [0x10]) demo_table_ok) as (id' & H1 & _ & H3); [done|done|done| |].
  - intros a x ->%list_elem_of_singleton. change (d_devs demo_table !! 0x10) with (Some demo_timer). by intros [= <-].
  - assert (E : krlnew_devid (Devid SYSTICK_DEVICE 0 7) demo_table = Ret ((DFCOKSTUS, Devid SYSTICK_DEVICE 0 0), demo_table)) by (vm_compute; reflexivity).
    split; [exact E|]. rewrite E in H1. injection H1 as <-. by apply (H3 0x12 demo_timer2).
Defined.
