(* ===== verification/Service.v ===== *)
(** * Kernel services: files, devices and handles

    src/kernel/krlsveopen.c, krlsveclose.c, krlsveread.c, krlsvewrite.c,
    krlsveioctrl.c, krlsvelseek.c and the parts of krlsvethread.c that ask about the
    current thread: what a program reaches through a system call, on top of the
    handle table of its thread (Sched.v), the device table and the request packets
    (Device.v) and the drivers.

    An argument is a 64-bit value; a handle is signed.  The caller's memory is the
    memory of Rfs.v.  What [open] prints is left out. *)

From S2P Require Import Prelude Bytes Sched MemIf Rfs Device.
#[local] Open Scope Z_scope.

Definition SYSSTUSERR : Z := -1.
Definition SYSSTUSOK : Z := 0.
Definition FILE_TY_MASK : Z := 0xf.
Definition FILE_TY_FILE : Z := 0.
Definition FILE_TY_DEV : Z := 1.
Definition RWO_FLG_MASK : Z := 0xff.
Definition RWO_FLG_BITS : Z := 4.
Definition NF_FLG : Z := 4.
Definition INR_TD_EXIT : Z := 4.
Definition INR_TD_HAND : Z := 5.
Definition INR_TD_RSTATS : Z := 6.
Definition INR_TD_SSTATS : Z := 7.
Definition INR_FS_OPEN : Z := 8.
Definition INR_FS_CLOSE : Z := 9.
Definition INR_FS_READ : Z := 10.
Definition INR_FS_WRITE : Z := 11.
Definition INR_FS_IOCTRL : Z := 12.
Definition INR_FS_LSEEK : Z := 13.
Definition INR_TD_TICK : Z := 15.

(** The parameters in the stack frame of a call *)
Record stkparame_t := Stkparame { parmv1 : Z; parmv2 : Z; parmv3 : Z; parmv4 : Z }.

(** A request: the fields of the packet that a service sets *)
Definition set_open (ty adr : Z) (n : objnode_t) : objnode_t :=
  Objnode (on_flgs n) (on_stus n) IOIF_CODE_OPEN ty adr (on_acsflgs n) (on_acsstus n) (on_currops n) (on_len n) (on_ioctrd n) (on_buf n) (on_bufcurops n) (on_bufsz n) (on_count n) (on_fname n) (on_finode n).
Definition set_acsflgs (v : Z) (n : objnode_t) : objnode_t :=
  Objnode (on_flgs n) (on_stus n) (on_opercode n) (on_objtype n) (on_objadr n) v (on_acsstus n) (on_currops n) (on_len n) (on_ioctrd n) (on_buf n) (on_bufcurops n) (on_bufsz n) (on_count n) (on_fname n) (on_finode n).
Definition set_fname (v : Z) (n : objnode_t) : objnode_t :=
  Objnode (on_flgs n) (on_stus n) (on_opercode n) (on_objtype n) (on_objadr n) (on_acsflgs n) (on_acsstus n) (on_currops n) (on_len n) (on_ioctrd n) (on_buf n) (on_bufcurops n) (on_bufsz n) (on_count n) v (on_finode n).
Definition set_transfer (code buf len flgs : Z) (n : objnode_t) : objnode_t :=
  Objnode (on_flgs n) (on_stus n) code (on_objtype n) (on_objadr n) flgs (on_acsstus n) (on_currops n) len (on_ioctrd n) buf (on_bufcurops n) 0x1000 (on_count n) (on_fname n) (on_finode n).
Definition set_control (buf iocode flgs : Z) (n : objnode_t) : objnode_t :=
  Objnode (on_flgs n) (on_stus n) IOIF_CODE_IOCTRL (on_objtype n) (on_objadr n) flgs (on_acsstus n) (on_currops n) (on_len n) iocode buf (on_bufcurops n) (on_bufsz n) (on_count n) (on_fname n) (on_finode n).

Section services.
Context {S : Type} `{MemOps S} (junk : nat -> nat -> Z).
Abbreviation DM A := (M (dst S) A).

(** [krlsve_open_device], [krlsve_close_device], [krlsve_read_device],
    [krlsve_write_device], [krlsve_ioctrl_device]: one body. *)
Definition sve_device (ondep : Z) : DM Z :=
  n ← get_node ondep;
  if on_objadr n =? 0 then mret SYSSTUSERR else
  r ← krldev_io junk ondep;
  if r =? DFCERRSTUS then mret SYSSTUSERR else mret SYSSTUSOK.

(** ** Open *)

(** [res_step] of [krlsve_core_open] *)
Definition open_res_step (tdp rethd ondp : Z) : DM Z :=
  (if negb (rethd =? NO_HAND) then
     r ← on_sys (krlthd_del_objnode tdp rethd); die_if (r =? NO_HAND) "open api td del objnode err"
   else mret tt) ;;
  ok ← krldel_objnode ondp; die_if (negb ok) "open api del objnode err" ;;
  mret NO_HAND.

(** [op_dev_step] *)
Definition open_dev_step (tdp file : Z) : DM Z :=
  mty ← on_rfs (get (file, 0) 0); sty ← on_rfs (get (file, 0) 8); nr ← on_rfs (get (file, 0) 16);
  devp ← krlonidfl_retn_device (Some (Devid mty sty nr)) DIDFIL_IDN;
  if devp =? 0 then mret NO_HAND else
  ondp ← krlnew_objnode;
  if ondp =? 0 then mret NO_HAND else
  upd_node ondp (set_open OBJN_TY_DEV devp) ;;
  rethd ← on_sys (krlthd_add_objnode tdp ondp);
  if rethd =? NO_HAND then open_res_step tdp rethd ondp else
  r ← sve_device ondp;
  if r =? SYSSTUSERR then open_res_step tdp rethd ondp else mret rethd.

(** [op_fil_step] *)
Definition open_fil_step (tdp file flgs : Z) : DM Z :=
  devp ← krlonidfl_retn_device (Some (Devid FILESYS_DEVICE 0 0)) DIDFIL_IDN;
  if devp =? 0 then mret NO_HAND else
  ondp ← krlnew_objnode;
  if ondp =? 0 then mret NO_HAND else
  upd_node ondp (set_open OBJN_TY_FIL devp) ;;
  if Z.land (Z.shiftr flgs RWO_FLG_BITS) RWO_FLG_MASK =? NF_FLG then
    upd_node ondp (fun n => set_fname file (set_acsflgs FSDEV_OPENFLG_NEWFILE n)) ;;
    r ← sve_device ondp;
    if r =? SYSSTUSERR then open_res_step tdp NO_HAND ondp else
    ok ← krldel_objnode ondp; die_if (negb ok) "NEWFILE api del objnode err" ;;
    mret 0
  else
    upd_node ondp (fun n => set_fname file (set_acsflgs FSDEV_OPENFLG_OPEFILE n)) ;;
    rethd ← on_sys (krlthd_add_objnode tdp ondp);
    if rethd =? NO_HAND then open_res_step tdp rethd ondp else
    r ← sve_device ondp;
    if r =? SYSSTUSERR then halt "open sve die^^^^^^" else mret rethd.

Definition krlsve_core_open (file flgs stus : Z) : DM Z :=
  tdp ← on_sys krlsched_retn_currthread;
  if Z.land flgs FILE_TY_MASK =? FILE_TY_DEV then open_dev_step tdp file else
  if Z.land flgs FILE_TY_MASK =? FILE_TY_FILE then open_fil_step tdp file flgs else
  mret NO_HAND.

Definition krlsve_open (file flgs stus : Z) : DM Z := if file =? 0 then mret SYSSTUSERR else krlsve_core_open file flgs stus.

(** ** Operations on an open handle *)

(** The packet of a handle of the current thread, when it is one of a device or file,
    with [req] applied to it; [use] goes on with thread and packet. *)
Definition with_handle (fhand : Z) (req : objnode_t -> objnode_t) (use : Z -> Z -> DM Z) : DM Z :=
  tdp ← on_sys krlsched_retn_currthread;
  r ← on_sys (krlthd_retn_objnode tdp fhand);
  match r with
  | None => mret SYSSTUSERR
  | Some onp =>
      n ← get_node onp;
      if (on_objtype n =? OBJN_TY_DEV) || (on_objtype n =? OBJN_TY_FIL) then upd_node onp req ;; use tdp onp else mret SYSSTUSERR
  end.

Definition krlsve_core_close (fhand : Z) : DM Z :=
  with_handle fhand (set_opercode IOIF_CODE_CLOSE) (fun tdp ondp =>
    r ← sve_device ondp;
    if r =? SYSSTUSERR then mret SYSSTUSERR else
    r ← on_sys (krlthd_del_objnode tdp fhand); die_if (r =? NO_HAND) "close api td del objnode err" ;;
    ok ← krldel_objnode ondp; die_if (negb ok) "close api del objnode err" ;;
    mret SYSSTUSOK).
Definition krlsve_close (fhand : Z) : DM Z :=
  if (fhand <? 0) || (TD_HAND_MAX <=? fhand) then mret SYSSTUSERR else krlsve_core_close fhand.

Definition krlsve_core_read (fhand buf len flgs : Z) : DM Z :=
  with_handle fhand (set_transfer IOIF_CODE_READ buf len flgs) (fun _ onp => sve_device onp).
Definition krlsve_read (fhand buf len flgs : Z) : DM Z :=
  if (fhand =? NO_HAND) || (buf =? 0) || (len <? 1) then mret SYSSTUSERR else krlsve_core_read fhand buf len flgs.

Definition krlsve_core_write (fhand buf len flgs : Z) : DM Z :=
  with_handle fhand (set_transfer IOIF_CODE_WRITE buf len flgs) (fun _ onp => sve_device onp).
Definition krlsve_write (fhand buf len flgs : Z) : DM Z :=
  if (fhand <=? NO_HAND) || (TD_HAND_MAX <=? fhand) || (buf =? 0) || (len =? 0) then mret SYSSTUSERR else krlsve_core_write fhand buf len flgs.

Definition krlsve_core_ioctrl (fhand buf iocode flgs : Z) : DM Z :=
  with_handle fhand (set_control buf iocode flgs) (fun _ onp => sve_device onp).
Definition krlsve_ioctrl (fhand buf iocode flgs : Z) : DM Z :=
  if fhand =? NO_HAND then mret SYSSTUSERR else krlsve_core_ioctrl fhand buf iocode flgs.

Definition krlsve_lseek (fhand lofset flgs : Z) : DM Z := mret SYSSTUSERR.

(** ** The current thread *)

Definition krlsve_retn_threadhand (tname : Z) : DM Z :=
  if tname =? 0 then tdp ← on_sys krlsched_retn_currthread; t ← on_sys (get_td tdp); mret (sint (td_id t)) else mret SYSSTUSERR.
Definition krlsve_retn_threadstats (thand scode data buf : Z) : DM Z := mret SYSSTUSERR.
Definition krlsve_set_threadstats (thand scode data buf : Z) : DM Z := mret SYSSTUSERR.
Definition krlsve_thread_tick (id : Z) : DM Z := on_sys krlthd_curr_sumtick.

(** Leaving: the thread goes to the list of exited threads and another one runs. *)
Definition krlsve_core_exit_thread : DM unit := on_sys krlsched_exit ;; on_sys krlschedul.
Definition krlsve_exit_thread : DM Z := krlsve_core_exit_thread ;; mret SYSSTUSOK.

(** ** The entries of the service table *)

Definition krlsvetabl_open (inr : Z) (k : stkparame_t) : DM Z := if negb (inr =? INR_FS_OPEN) then mret SYSSTUSERR else krlsve_open (parmv1 k) (parmv2 k) (parmv3 k).
Definition krlsvetabl_close (inr : Z) (k : stkparame_t) : DM Z := if negb (inr =? INR_FS_CLOSE) then mret SYSSTUSERR else krlsve_close (sint (parmv1 k)).
Definition krlsvetabl_read (inr : Z) (k : stkparame_t) : DM Z := if negb (inr =? INR_FS_READ) then mret SYSSTUSERR else krlsve_read (sint (parmv1 k)) (parmv2 k) (parmv3 k) (parmv4 k).
Definition krlsvetabl_write (inr : Z) (k : stkparame_t) : DM Z := if negb (inr =? INR_FS_WRITE) then mret SYSSTUSERR else krlsve_write (sint (parmv1 k)) (parmv2 k) (parmv3 k) (parmv4 k).
Definition krlsvetabl_ioctrl (inr : Z) (k : stkparame_t) : DM Z := if negb (inr =? INR_FS_IOCTRL) then mret SYSSTUSERR else krlsve_ioctrl (sint (parmv1 k)) (parmv2 k) (parmv3 k) (parmv4 k).
Definition krlsvetabl_lseek (inr : Z) (k : stkparame_t) : DM Z := if negb (inr =? INR_FS_LSEEK) then mret SYSSTUSERR else krlsve_lseek (sint (parmv1 k)) (parmv2 k) (parmv3 k).
Definition krlsvetabl_retn_threadhand (inr : Z) (k : stkparame_t) : DM Z := if negb (inr =? INR_TD_HAND) then mret SYSSTUSERR else krlsve_retn_threadhand (parmv1 k).
Definition krlsvetabl_retn_threadstats (inr : Z) (k : stkparame_t) : DM Z := if negb (inr =? INR_TD_RSTATS) then mret SYSSTUSERR else krlsve_retn_threadstats (sint (parmv1 k)) (parmv2 k) (parmv3 k) (parmv4 k).
Definition krlsvetabl_set_threadstats (inr : Z) (k : stkparame_t) : DM Z := if negb (inr =? INR_TD_SSTATS) then mret SYSSTUSERR else krlsve_set_threadstats (sint (parmv1 k)) (parmv2 k) (parmv3 k) (parmv4 k).
Definition krlsvetabl_tick (inr : Z) (k : stkparame_t) : DM Z := if negb (inr =? INR_TD_TICK) then mret SYSSTUSERR else r ← krlsve_thread_tick (parmv1 k); mret (sint r).
Definition krlsvetabl_exit_thread (inr : Z) (k : stkparame_t) : DM Z := if negb (inr =? INR_TD_EXIT) then mret SYSSTUSERR else krlsve_exit_thread.
End services.
