(* ===== verification/ServiceInv.v ===== *)
(** * Kernel services: the invariant

    The handle tables of the threads, the request packets and the file system
    together, and what each step of a service does to them. *)

From S2P Require Import Prelude Bytes Intr Boot BootPages KmsobInv Kmempool MemIf Sched SchedInv SchedMoves SchedOps Rfs RfsMem RfsBlk RfsDir RfsOps RfsFiles RfsCorrect Device DeviceSpec Service.
#[local] Open Scope Z_scope.

(** An open handle: its packet, the driver's handle and the path it was opened with *)
Record fdesc := Fdesc { fd_node : Z; fd_file : Z; fd_path : Z }.

(** The handles of all threads, by thread and handle *)
Abbreviation fdtable := (gmap (Z * Z) fdesc).

Definition rfs_funs : list drivcallfun_t := drv_dipfun (rfs_set_driver (driver_t_init 0)).
Definition hand_list (T : fdtable) (t : Z) : list (option Z) := (fun i => fd_node <$> T !! (t, i)) <$> seqZ 0 TD_HAND_MAX.

Section inv.
Context {S : Type} {HMO : MemOps S} {HMA : MemAlloc S} (junk : nat -> nat -> Z).
Context (ms N rb devp cur : Z).
Implicit Types (d : dst S) (F : gmap Z Z) (H : handles) (A : afs) (T : fdtable).

Definition packet_of d (f : fdesc) : Prop :=
  exists n, d_nodes d !! fd_node f = Some n /\ on_objtype n = OBJN_TY_FIL /\ on_objadr n = devp /\ on_finode n = fd_file f /\ on_fname n = fd_path f.

(** The file system device is in the table, with its driver. *)
Record dev_ready d : Prop := {
  dr_tab : DevInv d;
  dr_reg : registered d devp (Devid FILESYS_DEVICE 0 0);
  dr_drv : exists x v, d_devs d !! devp = Some x /\ dev_drv x <> 0 /\ d_drvs d !! dev_drv x = Some v /\ drv_dipfun v = rfs_funs
}.

(** The handle tables hold the packets of [T], and thread [cur] runs. *)
Record tables_ok T (y : sys) : Prop := {
  tk_cur : sda_currtd (schda y) = Some cur;
  tk_run : is_Some (thds y !! cur);
  tk_tbl t x : thds y !! t = Some x -> td_handtbl x = hand_list T t;
  tk_dom t i f : T !! (t, i) = Some f -> is_Some (thds y !! t) /\ 0 <= i < TD_HAND_MAX
}.

(** Every open handle has a packet and a driver's handle of its own. *)
Record SvInv F H A T d : Prop := {
  sv_fs : fsys ms N rb F H A (d_rfs d);
  sv_dev : dev_ready d;
  sv_tables : tables_ok T (d_sys d);
  sv_packet k f : T !! k = Some f -> packet_of d f /\ is_Some (H !! fd_file f) /\ F !! fd_node f = Some sizeof_objnode_t;
  sv_own k k' f f' : T !! k = Some f -> T !! k' = Some f' -> fd_node f = fd_node f' \/ fd_file f = fd_file f' -> k = k'
}.

(** ** Frames *)

Lemma dev_ready_frame d d' : d_tab d' = d_tab d -> d_devs d' = d_devs d -> d_drvs d' = d_drvs d -> dev_ready d -> dev_ready d'.
Proof.
  intros E1 E2 E3 [H1 H2 H3]. split.
  - destruct H1 as [G1 G2 G3 G4 G5]. split; rewrite E1; try done. intros ty c Hc. destruct (G2 _ _ Hc) as [C1 C2 C3 C4 C5]. split; rewrite ?E2; done.
  - unfold registered in *. by rewrite E1, E2.
  - by rewrite E2, E3.
Qed.

Section one.
Context {F : gmap Z Z} {H : handles} {A : afs} {T : fdtable} {d : dst S} (HI : SvInv F H A T d).

Lemma SvInv_nodes g : (forall k f, T !! k = Some f -> packet_of (with_nodes g d) f) -> SvInv F H A T (with_nodes g d).
Proof using HI.
  intros Hg. destruct HI as [H1 H2 H3 H4 H5]. split; [done|by apply (dev_ready_frame d)|done| |done]. intros k f Hf. split; [by apply (Hg k)|by apply (H4 k)].
Qed.

Lemma node_other p n : F !! p = None \/ (forall k f, T !! k = Some f -> fd_node f <> p) -> SvInv F H A T (with_nodes (<[p := n]> (d_nodes d)) d).
Proof using HI.
  intros Hp. apply SvInv_nodes. intros k f Hf. destruct (sv_packet _ _ _ _ _ HI _ _ Hf) as ((n' & Hn & Hr) & _ & HF). exists n'. split; [|done]. cbn.
  rewrite lookup_insert_ne; [done|]. destruct Hp as [Hp|Hp]; [congruence|]. intros E. by apply (Hp k f Hf).
Qed.

(** A packet keeps its object, its handle and its path. *)
Definition same_packet (n n' : objnode_t) : Prop := on_objtype n' = on_objtype n /\ on_objadr n' = on_objadr n /\ on_finode n' = on_finode n /\ on_fname n' = on_fname n.

Lemma node_same p n n' : d_nodes d !! p = Some n -> same_packet n n' -> SvInv F H A T (with_nodes (<[p := n']> (d_nodes d)) d).
Proof using HI.
  intros Hp (E1 & E2 & E3 & E4). apply SvInv_nodes. intros k f Hf. destruct (sv_packet _ _ _ _ _ HI _ _ Hf) as ((m & Hm & Hr) & _). destruct (decide (fd_node f = p)) as [<-|Hne].
  - rewrite Hp in Hm. injection Hm as <-. exists n'. cbn. rewrite lookup_insert_eq, E1, E2, E3, E4. done.
  - exists m. cbn. by rewrite lookup_insert_ne.
Qed.

(** The driver has run: handles other than those of [T] may have come and gone. *)
Lemma SvInv_rfs H' A' s' : fsys ms N rb F H' A' s' -> (forall k f, T !! k = Some f -> is_Some (H' !! fd_file f)) -> SvInv F H' A' T (with_rfs s' d).
Proof using HI.
  intros HF HH. destruct HI as [H1 H2 H3 H4 H5]. split; [done|by apply (dev_ready_frame d)|done| |done]. intros k f Hf. destruct (H4 _ _ Hf) as (G1 & _ & G2). split_and!; [done|by apply (HH k)|done].
Qed.
End one.

(** ** Packets made and given back *)

(** The memory has no room for a packet. *)
Definition packet_refused d : Prop := exists t, mem_new sizeof_objnode_t (r_mm (d_rfs d)) = Ret (0, t).

Lemma fsys_frame F F' H A (s : rst S) t : fsys ms N rb F H A s -> rowned F' (Rst t (r_mem s) (r_fresh s) (r_denied s) (r_ext s) (r_disk s)) ->
  fsys ms N rb F' H A (Rst t (r_mem s) (r_fresh s) (r_denied s) (r_ext s) (r_disk s)).
Proof. intros [H1 H2 H3 H4] HO. split; [done| |done|done]. destruct H2 as [G1 G2 G3 G4 G5 G6]. split; done. Qed.

(** The driver's state with another state of the memory *)
Definition with_mm (t : S) (s : rst S) : rst S := Rst t (r_mem s) (r_fresh s) (r_denied s) (r_ext s) (r_disk s).

Lemma new_dsc_cases F d sz : rowned F (d_rfs d) -> 1 <= sz <= MALCSZ_MAX ->
  ((exists t, mem_new sz (r_mm (d_rfs d)) = Ret (0, t)) /\ new_dsc sz d = Ret (0, d)) \/
  (exists b t, F !! b = None /\ base <= b /\ new_dsc sz d = Ret (b, with_rfs (with_mm t (d_rfs d)) d) /\ rowned (<[b := sz]> F) (with_mm t (d_rfs d))).
Proof.
  intros HO Hsz. pose proof HO as (J & HJ & _). pose proof (mem_new_spec (r_mm (d_rfs d)) J sz HJ Hsz) as Hnew.
  pose proof (h_mem_new F (d_rfs d) sz (fun b s => b = 0 \/ (F !! b = None /\ base <= b /\ rowned (<[b := sz]> F) s)) (fun _ => False) HO Hsz ltac:(by left) ltac:(by right)) as Hm.
  unfold new_dsc, on_rfs, on_mem, wph, wp in *. destruct (mem_new sz (r_mm (d_rfs d))) as [[b t]| | |]; [|done..]. fold (with_mm t (d_rfs d)) in *. cbn [fst snd] in *.
  destruct Hnew as [[-> ->]|[HJb HJ']].
  - left. split; [by eexists|]. by destruct d as [? []].
  - destruct (mem_range _ _ b sz HJ' (lookup_insert_eq _ _ _)) as (Hk & _). pose proof base_val. destruct Hm as [->|(H1 & H2 & H3)]; [lia|]. right. by exists b, t.
Qed.

Lemma h_new_objnode F H A T d (Q : Z -> dst S -> Prop) E : SvInv F H A T d -> (packet_refused d -> Q 0 d) ->
  (forall p d', p <> 0 -> F !! p = None -> SvInv (<[p := sizeof_objnode_t]> F) H A T d' -> d_nodes d' !! p = Some objnode_t_init -> d_sys d' = with_sems (<[p := krlsem_t_init]> (sems (d_sys d))) (d_sys d) ->
     r_mem (d_rfs d') = r_mem (d_rfs d) -> r_denied (d_rfs d') = r_denied (d_rfs d) -> r_disk (d_rfs d') = r_disk (d_rfs d) -> Q p d') -> wph krlnew_objnode d Q E.
Proof.
  intros HI H0 HQ. pose proof (st_owned _ _ _ _ _ _ _ (fy_st _ _ _ _ _ _ _ (sv_fs _ _ _ _ _ HI))) as HO. unfold krlnew_objnode. apply wph_bind.
  destruct (new_dsc_cases F d sizeof_objnode_t HO ltac:(done)) as [[Hno E0]|(b & t & Hb & Hk & E0 & HO')]; rewrite (wph_det _ _ _ _ _ _ E0).
  { apply wph_ret. by apply H0. }
  rewrite (addr_nz b Hk). apply HQ; cbn; [pose proof base_val; lia|done| |apply lookup_insert_eq|done..]. pose proof HI as [H1 H2 H3 H4 H5].
  split; cbn; [by apply (fsys_frame F)|by apply (dev_ready_frame d)|by destruct H3| |done]. intros k f Hf. destruct (H4 _ _ Hf) as ((n & Hn & Hr) & G2 & G3).
  assert (fd_node f <> b) by congruence. split_and!; [|done|by rewrite lookup_insert_ne]. exists n. cbn. by rewrite lookup_insert_ne.
Qed.

Lemma del_dsc_eq F d a sz : rowned F (d_rfs d) -> F !! a = Some sz -> good_size sz ->
  exists t, del_dsc a sz d = Ret (true, with_rfs (with_mm t (d_rfs d)) d) /\ rowned (delete a F) (with_mm t (d_rfs d)).
Proof.
  intros (J & HJ & HF & Hm) Ha Hg. pose proof (mem_delete_spec (r_mm (d_rfs d)) J a sz HJ (lookup_weaken _ _ _ _ Ha HF) Hg) as Hd. unfold del_dsc, on_rfs, on_mem, wp in *.
  destruct (mem_delete a sz (r_mm (d_rfs d))) as [[b t]| | |]; [|done..]. destruct Hd as [-> HJ']. exists t. split; [done|]. exists (delete a J). split_and!; [done|by apply delete_mono|]. cbn.
  intros c l Hc Hk. destruct (Hm c l Hc Hk) as [G1 G2]. assert (c <> a) by congruence. rewrite !lookup_delete_ne; done.
Qed.

Lemma h_del_objnode F H A T d p (Q : bool -> dst S -> Prop) E : SvInv F H A T d -> F !! p = Some sizeof_objnode_t -> (forall k f, T !! k = Some f -> fd_node f <> p) ->
  (forall d', SvInv (delete p F) H A T d' -> r_mem (d_rfs d') = r_mem (d_rfs d) -> r_denied (d_rfs d') = r_denied (d_rfs d) -> Q true d') -> wph (krldel_objnode p) d Q E.
Proof.
  intros HI Hp Hnot HQ. pose proof (st_owned _ _ _ _ _ _ _ (fy_st _ _ _ _ _ _ _ (sv_fs _ _ _ _ _ HI))) as HO. unfold krldel_objnode. apply wph_bind.
  destruct (del_dsc_eq F d p sizeof_objnode_t HO Hp ltac:(by left)) as (t & E0 & HO'). rewrite (wph_det _ _ _ _ _ _ E0). cbn [negb]. apply HQ; [|done..]. pose proof HI as [H1 H2 H3 H4 H5].
  split; cbn; [by apply (fsys_frame F)|by apply (dev_ready_frame d)|by destruct H3| |done]. intros k f Hf. destruct (H4 _ _ Hf) as ((n & Hn & Hr) & G2 & G3). specialize (Hnot k f Hf).
  split_and!; [|done|by rewrite lookup_delete_ne]. exists n. cbn. by rewrite lookup_delete_ne.
Qed.

(** ** Handle tables *)

Lemma hand_lookup T t k : hand_list T t !! k = if decide (k < 8)%nat then Some (fd_node <$> T !! (t, Z.of_nat k)) else None.
Proof.
  unfold hand_list. rewrite list_lookup_fmap. case_decide as Hk.
  - rewrite lookup_seqZ_lt by (unfold TD_HAND_MAX; lia). cbn. by rewrite Z.add_0_l.
  - rewrite lookup_seqZ_ge by (unfold TD_HAND_MAX; lia). done.
Qed.
Lemma hand_length T t : length (hand_list T t) = 8%nat.
Proof. unfold hand_list. by rewrite length_fmap, length_seqZ. Qed.

(** One entry changed *)
Lemma hand_list_upd T T' t i v : 0 <= i < TD_HAND_MAX -> fd_node <$> T' !! (t, i) = v -> (forall j, j <> i -> T' !! (t, j) = T !! (t, j)) ->
  <[Z.to_nat i := v]> (hand_list T t) = hand_list T' t.
Proof.
  unfold TD_HAND_MAX. intros Hi Hv Hj. apply list_eq. intros k. rewrite hand_lookup. case_decide as Hk; [|by rewrite lookup_ge_None, length_insert, hand_length; lia].
  destruct (decide (k = Z.to_nat i)) as [->|Hne].
  - rewrite list_lookup_insert_eq by (rewrite hand_length; lia). rewrite Z2Nat.id by lia. by rewrite Hv.
  - rewrite list_lookup_insert_ne by done. rewrite hand_lookup, decide_True by done. rewrite Hj by lia. done.
Qed.
Lemma hand_list_other T T' t : (forall j, T' !! (t, j) = T !! (t, j)) -> hand_list T' t = hand_list T t.
Proof. intros Hj. apply list_fmap_ext. intros k i _. by rewrite Hj. Qed.

Lemma null_hand_cases (l : list (option Z)) : forall k, 0 <= k ->
  (null_hand l k = NO_HAND /\ forall i, (i < length l)%nat -> exists o, l !! i = Some (Some o)) \/
  (exists i, null_hand l k = k + Z.of_nat i /\ l !! i = Some None /\ forall j, (j < i)%nat -> exists o, l !! j = Some (Some o)).
Proof.
  induction l as [|[o|] l IH]; intros k Hk; cbn [null_hand length].
  - left. split; [done|lia].
  - destruct (IH (k + 1) ltac:(lia)) as [[E Hall]|(i & E & Hi & Hlow)].
    + left. split; [done|]. intros [|i] Hi; [by exists o|]. apply Hall. lia.
    + right. exists (Datatypes.S i). split_and!; [lia|done|]. intros [|j] Hj; [by exists o|]. apply Hlow. lia.
  - right. exists 0%nat. split_and!; [lia|done|lia].
Qed.

(** [fd] is the lowest free handle of the thread. *)
Definition lowest_free T fd : Prop := 0 <= fd < TD_HAND_MAX /\ T !! (cur, fd) = None /\ forall i, 0 <= i < fd -> is_Some (T !! (cur, i)).
Definition hands_full T : Prop := forall i, 0 <= i < TD_HAND_MAX -> is_Some (T !! (cur, i)).

Section hands.
Context {T : fdtable} {y : sys} (HT : tables_ok T y).

Lemma curr_eq : krlsched_retn_currthread y = Ret (cur, y).
Proof using HT. unfold krlsched_retn_currthread, gets. unfold mbind, M_bind. by rewrite (tk_cur _ _ HT). Qed.

Lemma retn_hand fd : krlthd_retn_objnode cur fd y = Ret (fd_node <$> T !! (cur, fd), y).
Proof using HT.
  unfold krlthd_retn_objnode, TD_HAND_MAX, NO_HAND. destruct ((8 <=? fd) || (fd <=? -1)) eqn:E.
  - destruct (T !! (cur, fd)) as [f|] eqn:Ef; [|done]. destruct (tk_dom _ _ HT _ _ _ Ef) as [_ Hd]. unfold TD_HAND_MAX in Hd. lia.
  - destruct (tk_run _ _ HT) as [x Hx]. rewrite (bind_eq _ _ _ _ _ (get_td_eq cur x y Hx)), (tk_tbl _ _ HT _ _ Hx), hand_lookup, decide_True by lia. cbn. by rewrite Z2Nat.id by lia.
Qed.

Lemma table_set x T' i v : thds y !! cur = Some x -> 0 <= i < TD_HAND_MAX -> fd_node <$> T' !! (cur, i) = v -> (forall k, k <> (cur, i) -> T' !! k = T !! k) ->
  tables_ok T' (put_td cur (set_td_handtbl (<[Z.to_nat i := v]> (td_handtbl x)) x) y).
Proof using HT.
  intros Hx Hi Hv Hk. destruct HT as [H1 H2 H3 H4]. split; cbn.
  - done.
  - rewrite lookup_insert_eq. by eexists.
  - intros t z [[<- <-]|[Hne Hz]]%lookup_insert_Some; cbn.
    + rewrite (H3 _ _ Hx). apply hand_list_upd; [done|done|]. intros j Hj. apply Hk. congruence.
    + rewrite (H3 _ _ Hz). symmetry. apply hand_list_other. intros j. apply Hk. congruence.
  - intros t j f Hf. destruct (decide ((t, j) = (cur, i))) as [[= -> ->]|Hne].
    + split; [|done]. rewrite lookup_insert_eq. by eexists.
    + rewrite Hk in Hf by done. destruct (H4 _ _ _ Hf) as [G1 G2]. split; [|done]. destruct (decide (t = cur)) as [->|Ht]; [rewrite lookup_insert_eq; by eexists|by rewrite lookup_insert_ne].
Qed.

Lemma add_hand p : (hands_full T /\ krlthd_add_objnode cur p y = Ret (NO_HAND, y)) \/
  (exists fd y', lowest_free T fd /\ krlthd_add_objnode cur p y = Ret (fd, y') /\ forall f, fd_node f = p -> tables_ok (<[(cur, fd) := f]> T) y').
Proof using HT.
  destruct (tk_run _ _ HT) as [x Hx]. pose proof (tk_tbl _ _ HT _ _ Hx) as Ex. unfold krlthd_add_objnode. rewrite (bind_eq _ _ _ _ _ (get_td_eq cur x y Hx)). cbv zeta.
  assert (Hsome : forall i o, 0 <= i < TD_HAND_MAX -> td_handtbl x !! Z.to_nat i = Some (Some o) -> is_Some (T !! (cur, i))).
  { unfold TD_HAND_MAX. intros i o Hi. rewrite Ex, hand_lookup, decide_True by lia. rewrite Z2Nat.id by lia. destruct (T !! (cur, i)); [by eexists|done]. }
  destruct (null_hand_cases (td_handtbl x) 0 ltac:(lia)) as [[E Hall]|(i & E & Hi & Hlow)]; rewrite E.
  - left. split; [|done]. intros i Hi. destruct (Hall (Z.to_nat i)) as [o Ho]; [rewrite Ex, hand_length; unfold TD_HAND_MAX in Hi; lia|]. by apply (Hsome i o).
  - right. unfold NO_HAND. rewrite Z.add_0_l. replace (Z.of_nat i =? -1) with false by lia. rewrite Ex, hand_lookup in Hi. case_decide as Hi8; [|done].
    exists (Z.of_nat i). eexists. split_and!; [| |].
    + unfold lowest_free, TD_HAND_MAX. split_and!; [lia|lia|by destruct (T !! (cur, Z.of_nat i))|]. intros j Hj. destruct (Hlow (Z.to_nat j) ltac:(lia)) as [o Ho]. apply (Hsome j o); [unfold TD_HAND_MAX; lia|done].
    + rewrite (bind_eq _ _ _ _ _ (upd_td_put cur _ x y Hx)). done.
    + intros f <-. apply table_set; [done|unfold TD_HAND_MAX; lia|by rewrite lookup_insert_eq|]. intros k Hk. by rewrite lookup_insert_ne.
Qed.

Lemma del_hand fd f : T !! (cur, fd) = Some f -> exists y', krlthd_del_objnode cur fd y = Ret (fd, y') /\ tables_ok (delete (cur, fd) T) y'.
Proof using HT.
  intros Hf. destruct (tk_dom _ _ HT _ _ _ Hf) as [_ Hd]. destruct (tk_run _ _ HT) as [x Hx]. pose proof (tk_tbl _ _ HT _ _ Hx) as Ex. unfold krlthd_del_objnode. unfold TD_HAND_MAX in *. unfold NO_HAND.
  replace ((8 <=? fd) || (fd <=? -1)) with false by lia. rewrite (bind_eq _ _ _ _ _ (get_td_eq cur x y Hx)). rewrite Ex, hand_lookup, decide_True, Z2Nat.id, Hf by lia. cbn.
  eexists. split; [rewrite (bind_eq _ _ _ _ _ (upd_td_put cur _ x y Hx)); done|]. apply table_set; [done|unfold TD_HAND_MAX; lia|by rewrite lookup_delete_eq|]. intros k Hk. by rewrite lookup_delete_ne.
Qed.
End hands.

(** ** A request to the file system driver *)

Definition opcode (a : fs_act) : Z :=
  match a with ACreate _ | AOpen _ => IOIF_CODE_OPEN | ADelete _ => IOIF_CODE_IOCTRL | AWrite _ _ => IOIF_CODE_WRITE | ARead _ _ => IOIF_CODE_READ | AClose _ => IOIF_CODE_CLOSE end.

Lemma wph_on_rfs {B} (m : M (rst S) B) d (Q : B -> dst S -> Prop) E : wph m (d_rfs d) (fun b s' => Q b (with_rfs s' d)) E -> wph (on_rfs m) d Q E.
Proof. unfold wph, on_rfs. by destruct (m (d_rfs d)) as [[b s']| | |]. Qed.
Lemma on_sys_eq {B} (m : M sys B) d b y' : m (d_sys d) = Ret (b, y') -> on_sys m d = Ret (b, with_sys y' d).
Proof. unfold on_sys. by intros ->. Qed.
Lemma with_sys_id d : with_sys (d_sys d) d = d.
Proof. by destruct d. Qed.
Lemma upd_node_eq p f n d : d_nodes d !! p = Some n -> upd_node p f d = Ret (tt, with_nodes (<[p := f n]> (d_nodes d)) d).
Proof. intros Hn. unfold upd_node, get_node, modify, mbind, M_bind. by rewrite Hn. Qed.
Lemma get_node_eq p n d : d_nodes d !! p = Some n -> get_node p d = Ret (n, d).
Proof. unfold get_node. by intros ->. Qed.

Lemma device_found d : dev_ready d -> devp <> 0 /\ krlonidfl_retn_device (Some (Devid FILESYS_DEVICE 0 0)) DIDFIL_IDN d = Ret (devp, d).
Proof.
  intros [HD HR _]. destruct (lookup_spec d (Devid FILESYS_DEVICE 0 0) HD ltac:(done)) as (a & E & [[Ha Hreg]|[_ Hno]]); [|by destruct (Hno devp)].
  by rewrite (registered_fun _ _ _ _ HD HR Hreg).
Qed.

Lemma h_rfs_call F H A d p n a (Q : Z -> dst S -> Prop) (E : string -> Prop) : fsys ms N rb F H A (d_rfs d) -> d_nodes d !! p = Some n -> asks H (d_rfs d) n a -> (forall e, oom e -> E e) ->
  (forall r n' o A' H' s', fs_step (r_denied (d_rfs d) < r_denied s')%nat (fs_full ms (d_rfs d)) A H a r o A' H' -> fsys ms N rb F H' A' s' -> delivers (d_rfs d) n o n' s' ->
     others_kept H (d_rfs d) n o s' -> (r_denied (d_rfs d) <= r_denied s')%nat -> Q r (with_nodes (<[p := n']> (d_nodes d)) (with_rfs s' d))) -> wph (rfs_call (serve junk a) p) d Q E.
Proof.
  intros Hfs Hn Hask HE HQ. unfold rfs_call. apply wph_bind. rewrite (wph_det _ _ _ _ _ _ (get_node_eq p n d Hn)). apply wph_bind, wph_on_rfs.
  eapply wph_mono; [by apply (rfs_serves junk ms N rb Hfs)| |done]. intros [r n'] s' (o & A' & H' & Hst & HF & Hdl & Hok & Hden). cbn [fst snd] in *.
  apply wph_bind. rewrite (wph_det _ _ _ _ _ _ (upd_node_eq p _ n (with_rfs s' d) Hn)). apply wph_ret. by eapply HQ.
Qed.

Lemma h_sve_device F H A d p n a (Q : Z -> dst S -> Prop) (E : string -> Prop) : fsys ms N rb F H A (d_rfs d) -> dev_ready d -> d_nodes d !! p = Some n -> on_objtype n = OBJN_TY_FIL -> on_objadr n = devp ->
  on_opercode n = opcode a -> asks H (d_rfs d) n a -> (forall e, oom e -> E e) ->
  (forall r n' o A' H' s', fs_step (r_denied (d_rfs d) < r_denied s')%nat (fs_full ms (d_rfs d)) A H a r o A' H' -> fsys ms N rb F H' A' s' -> delivers (d_rfs d) n o n' s' ->
     others_kept H (d_rfs d) n o s' -> (r_denied (d_rfs d) <= r_denied s')%nat -> Q r (with_nodes (<[p := n']> (d_nodes d)) (with_rfs s' d))) -> wph (sve_device junk p) d Q E.
Proof.
  intros Hfs Hdev Hn Hty Had Hop Hask HE HQ. destruct (device_found _ Hdev) as [H0 _]. destruct (dr_drv _ Hdev) as (x & v & Hx & Hd0 & Hv & Hfun).
  assert (Hf : exists f, rfs_funs !! Z.to_nat (opcode a) = Some f /\ call_fun junk f devp p = rfs_call (serve junk a) p) by (destruct a; eexists; split; reflexivity).
  destruct Hf as (f & Hf & Ecall). unfold sve_device. apply wph_bind. rewrite (wph_det _ _ _ _ _ _ (get_node_eq p n d Hn)), Had. replace (devp =? 0) with false by lia.
  apply wph_bind. unfold krldev_io. apply wph_bind. rewrite (wph_det _ _ _ _ _ _ (get_node_eq p n d Hn)), Hty, Had, Hop. replace (devp =? 0) with false by lia.
  assert (Hc : 0 <= opcode a < IOIF_CODE_MAX) by (by destruct a). replace (_ || false) with false by done. replace (_ || _) with false by lia.
  unfold krldev_call_driver. replace (_ || _) with false by lia. apply wph_bind. rewrite (wph_det _ _ _ _ _ _ (get_dev_eq devp x d Hx)). replace (dev_drv x =? 0) with false by lia.
  apply wph_bind. unfold get_drv. unfold wph at 1. rewrite Hv, Hfun, Hf, Ecall. eapply h_rfs_call; [exact Hfs|exact Hn|exact Hask|done|].
  intros r n' o A' H' s' Hst HF Hdl Hok Hden. specialize (HQ r n' o A' H' s' Hst HF Hdl Hok Hden). assert (Hr : r = DFCOKSTUS \/ r = DFCERRSTUS) by (destruct Hst; auto).
  destruct Hr as [-> | ->]; apply wph_ret; exact HQ.
Qed.
End inv.
