(* ===== verification/ServiceSpec.v ===== *)
(** * Kernel services: theorems

    The file services refine an abstract interface of handles on the abstract file
    system of RfsCorrect.v. *)

From S2P Require Import Prelude Bytes Intr Boot BootPages MmuCorrect KmsobInv Kmempool MemIf Sched SchedInv SchedMoves SchedOps Rfs Kbd RfsMem RfsBlk RfsDir RfsOps RfsFiles RfsCorrect RfsSpec Device DeviceSpec Service ServiceInv.
#[local] Open Scope Z_scope.

(** ** The abstract interface *)

Inductive sv_act :=
  | SCreate (nm : list Z) | SOpen (nm : list Z) (path : Z) | SDelete (fd : Z) (nm : list Z)
  | SWrite (fd : Z) (bs : list Z) | SRead (fd len : Z) | SClose (fd : Z).

(** What an action on an open handle asks of the file system *)
Definition sv_request (f : fdesc) (a : sv_act) : option fs_act :=
  match a with
  | SDelete _ nm => Some (ADelete nm)
  | SWrite _ bs => Some (AWrite (fd_file f) bs)
  | SRead _ len => Some (ARead (fd_file f) len)
  | _ => None
  end.
Definition sv_handle (a : sv_act) : option Z :=
  match a with SDelete fd _ | SWrite fd _ | SRead fd _ | SClose fd => Some fd | _ => None end.

(** [nomem]: there is no memory for a packet. *)
Inductive sv_step (denied full nomem : Prop) (cur : Z) (A : afs) (H : handles) (T : fdtable) : sv_act -> Z -> fs_out -> afs -> handles -> fdtable -> Prop :=
  | sv_create nm r o A' H' : fs_step denied full A H (ACreate nm) r o A' H' -> sv_step denied full nomem cur A H T (SCreate nm) r o A' H' T
  | sv_open nm path fd p h A' H' : fs_step denied full A H (AOpen nm) DFCOKSTUS (OHandle h) A' H' -> lowest_free cur T fd ->
      sv_step denied full nomem cur A H T (SOpen nm path) fd (OHandle h) A' H' (<[(cur, fd) := Fdesc p h path]> T)
  | sv_use fd f a q r o A' H' : sv_handle a = Some fd -> T !! (cur, fd) = Some f -> sv_request f a = Some q -> fs_step denied full A H q r o A' H' ->
      sv_step denied full nomem cur A H T a r o A' H' T
  | sv_close fd f o A' H' : T !! (cur, fd) = Some f -> fs_step denied full A H (AClose (fd_file f)) DFCOKSTUS o A' H' ->
      sv_step denied full nomem cur A H T (SClose fd) SYSSTUSOK o A' H' (delete (cur, fd) T)
  | sv_bad_handle a fd : sv_handle a = Some fd -> T !! (cur, fd) = None -> sv_step denied full nomem cur A H T a SYSSTUSERR ONone A H T
  | sv_no_handle nm path : hands_full cur T -> sv_step denied full nomem cur A H T (SOpen nm path) NO_HAND ONone A H T
  | sv_no_packet a : sv_handle a = None -> nomem -> sv_step denied full nomem cur A H T a NO_HAND ONone A H T.

(** ** Calls *)

Inductive sv_call :=
  | COpen (file flgs stus : Z) | CClose (fd : Z) | CRead (fd buf len flgs : Z) | CWrite (fd buf len flgs : Z) | CIoctrl (fd buf iocode flgs : Z).

Definition die_msg : string := "open sve die^^^^^^".

Section refine.
Context {S : Type} {HMO : MemOps S} {HMA : MemAlloc S} (junk : nat -> nat -> Z).
Context (ms N rb devp cur : Z).
Implicit Types (d : dst S) (F : gmap Z Z) (H : handles) (A : afs) (T : fdtable).
Abbreviation SvInv := (SvInv ms N rb devp cur).

Definition perform (c : sv_call) : M (dst S) Z :=
  match c with
  | COpen file flgs stus => krlsve_open junk file flgs stus
  | CClose fd => krlsve_close junk fd
  | CRead fd buf len flgs => krlsve_read junk fd buf len flgs
  | CWrite fd buf len flgs => krlsve_write junk fd buf len flgs
  | CIoctrl fd buf iocode flgs => krlsve_ioctrl junk fd buf iocode flgs
  end.

(** The buffer of a call *)
Definition call_buf (c : sv_call) : Z := match c with CRead _ buf _ _ | CWrite _ buf _ _ => buf | _ => 0 end.

Definition new_flag (flgs : Z) : bool := Z.land (Z.shiftr flgs RWO_FLG_BITS) RWO_FLG_MASK =? NF_FLG.
Definition path_at (s : rst S) (p : Z) (nm : list Z) : Prop := p <> 0 /\ exists l, r_mem s !! p = Some l /\ path_to nm l.
(** A buffer of one block of the caller's memory *)
Definition block_at H (s : rst S) (p : Z) (l : list Z) : Prop := p <> 0 /\ H !! p = None /\ r_mem s !! p = Some l /\ blen l = FSYS_ALCBLKSZ.

(** The call [c] asks for [a]. *)
Definition calls H T (s : rst S) (c : sv_call) (a : sv_act) : Prop :=
  match a with
  | SCreate nm => exists p fl st, c = COpen p fl st /\ Z.land fl FILE_TY_MASK = FILE_TY_FILE /\ new_flag fl = true /\ path_at s p nm
  | SOpen nm p => exists fl st, c = COpen p fl st /\ Z.land fl FILE_TY_MASK = FILE_TY_FILE /\ new_flag fl = false /\ path_at s p nm
  | SDelete fd nm => exists buf fl, c = CIoctrl fd buf FSDEV_IOCTRCD_DELFILE fl /\ forall f, T !! (cur, fd) = Some f -> path_at s (fd_path f) nm
  | SWrite fd bs => exists buf len fl l, c = CWrite fd buf len fl /\ block_at H s buf l /\ 1 <= len <= FSYS_ALCBLKSZ /\ bs = slice l 0 len
  | SRead fd len => exists buf fl l, c = CRead fd buf len fl /\ block_at H s buf l /\ 1 <= len
  | SClose fd => c = CClose fd
  end.

(** What the caller sees of memory: the bytes read, and no other change. *)
Definition visible H (s : rst S) (buf : Z) (o : fs_out) (s' : rst S) : Prop :=
  (forall bs, o = OData bs -> exists l, r_mem s !! buf = Some l /\ r_mem s' !! buf = Some (splice l 0 bs)) /\
  (forall a l, r_mem s !! a = Some l -> H !! a = None -> (forall bs, o = OData bs -> a <> buf) -> r_mem s' !! a = Some l).

Definition handled F H A T d (c : sv_call) (a : sv_act) (r : Z) d' : Prop :=
  exists o A' H' T' F', sv_step (r_denied (d_rfs d) < r_denied (d_rfs d'))%nat (fs_full ms (d_rfs d)) (packet_refused d) cur A H T a r o A' H' T' /\
    SvInv F' H' A' T' d' /\ visible H (d_rfs d) (call_buf c) o (d_rfs d') /\ (r_denied (d_rfs d) <= r_denied (d_rfs d'))%nat.

Definition sv_err (a : sv_act) (e : string) : Prop := oom e \/ (e = die_msg /\ exists nm p, a = SOpen nm p).

Section one.
Context {F : gmap Z Z} {H : handles} {A : afs} {T : fdtable} {d : dst S} (HI : SvInv F H A T d).

Lemma visible_same buf s' : r_mem s' = r_mem (d_rfs d) -> visible H (d_rfs d) buf ONone s'.
Proof using. intros E. split; [done|]. intros a l Ha _ _. by rewrite E. Qed.

Lemma unchanged c a r : sv_step (r_denied (d_rfs d) < r_denied (d_rfs d))%nat (fs_full ms (d_rfs d)) (packet_refused d) cur A H T a r ONone A H T -> handled F H A T d c a r d.
Proof using HI. intros Hst. exists ONone, A, H, T, F. split_and!; [done|done|by apply visible_same|done]. Qed.

Lemma fs_step_keeps P1 P2 q r o A' H' h : fs_step P1 P2 A H q r o A' H' -> (forall h, q <> AClose h) -> is_Some (H !! h) -> is_Some (H' !! h).
Proof using.
  intros Hst Hq Hh. destruct Hst; try done.
  - rewrite lookup_insert_is_Some'. by right.
  - rewrite lookup_insert_is_Some'. by right.
  - by destruct (Hq h0).
Qed.

(** The lookup of a handle *)
Lemma h_with_handle fd req use (Q : Z -> dst S -> Prop) E :
  match T !! (cur, fd) with
  | None => Q SYSSTUSERR d
  | Some f => forall n, d_nodes d !! fd_node f = Some n -> on_objtype n = OBJN_TY_FIL -> on_objadr n = devp -> on_finode n = fd_file f -> on_fname n = fd_path f ->
      wph (use cur (fd_node f)) (with_nodes (<[fd_node f := req n]> (d_nodes d)) d) Q E
  end -> wph (with_handle fd req use) d Q E.
Proof using HI.
  intros HQ. pose proof (sv_tables _ _ _ _ _ _ _ _ _ _ HI) as HT. unfold with_handle. apply wph_bind. rewrite (wph_det _ _ _ _ _ _ (on_sys_eq _ _ _ _ (curr_eq _ HT))), with_sys_id.
  apply wph_bind. rewrite (wph_det _ _ _ _ _ _ (on_sys_eq _ _ _ _ (retn_hand _ HT fd))), with_sys_id. destruct (T !! (cur, fd)) as [f|] eqn:Ef; cbn [fmap option_fmap option_map]; [|by apply wph_ret].
  destruct (sv_packet _ _ _ _ _ _ _ _ _ _ HI _ _ Ef) as ((n & Hn & H1 & H2 & H3 & H4) & _). apply wph_bind. rewrite (wph_det _ _ _ _ _ _ (get_node_eq _ n d Hn)), H1.
  change ((OBJN_TY_FIL =? OBJN_TY_DEV) || (OBJN_TY_FIL =? OBJN_TY_FIL)) with true. cbn iota. apply wph_bind. rewrite (wph_det _ _ _ _ _ _ (upd_node_eq _ _ n d Hn)). by apply HQ.
Qed.

(** ** Reading, writing and deleting *)

Lemma use_handled c a fd f q req : sv_handle a = Some fd -> T !! (cur, fd) = Some f -> sv_request f a = Some q ->
  (forall n, same_packet n (req n) /\ on_opercode (req n) = opcode q) ->
  (forall n, on_finode n = fd_file f -> on_fname n = fd_path f -> asks H (d_rfs d) (req n) q /\ (forall bs P1 P2 r A' H', fs_step P1 P2 A H q r (OData bs) A' H' -> on_buf (req n) = call_buf c)) ->
  wph (with_handle fd req (fun _ onp => sve_device junk onp)) d (handled F H A T d c a) (sv_err a).
Proof using HI.
  intros Hfd Hf Hq Hreq Hask. apply h_with_handle. rewrite Hf. intros n Hn Hty Hadr Hfi Hfn. destruct (Hreq n) as [Hsame Hop]. destruct (Hask n Hfi Hfn) as [Ha Hb]. pose proof Hsame as (E1 & E2 & E3 & E4).
  assert (HI1 : SvInv F H A T (with_nodes (<[fd_node f := req n]> (d_nodes d)) d)) by (by eapply node_same).
  eapply (h_sve_device junk ms N rb devp _ _ _ _ _ (req n) q); [apply (sv_fs _ _ _ _ _ _ _ _ _ _ HI1)|apply (sv_dev _ _ _ _ _ _ _ _ _ _ HI1)|apply lookup_insert_eq|congruence|congruence|done|done|by left|]. cbn [d_nodes d_rfs with_nodes with_rfs].
  intros r n' o A' H' s' Hst HF Hdl Hk Hden. exists o, A', H', T, F. split_and!.
  - by eapply sv_use.
  - assert (Hne : forall h, q <> AClose h) by (destruct a; cbn in Hq; by simplify_eq). assert (Hn' : same_packet (req n) n').
    { destruct Hst; cbn in Hdl; try (by destruct Hne with h); try (subst n'; done); try (destruct Hdl as [-> _]; done). destruct a; cbn in Hq; done. }
    rewrite insert_insert_eq. apply (node_same ms N rb devp cur (d := with_rfs s' d)) with (n := n); [|done|].
    + apply (SvInv_rfs ms N rb devp cur HI); [done|]. intros k f' Hf'. eapply fs_step_keeps; [done|done|]. by apply (sv_packet _ _ _ _ _ _ _ _ _ _ HI k).
    + destruct Hn' as (G1 & G2 & G3 & G4). unfold same_packet. split_and!; congruence.
  - split.
    + intros bs ->. cbn in Hdl. destruct Hdl as (_ & l & G1 & G2). rewrite <- (Hb _ _ _ _ _ _ Hst). by exists l.
    + intros b l G1 G2 G3. apply Hk; [done|done|]. intros bs ->. rewrite (Hb _ _ _ _ _ _ Hst). by apply (G3 bs).
  - done.
Qed.

(** A handle that is not open *)
Lemma bad_handle_handled c a fd req use : sv_handle a = Some fd -> T !! (cur, fd) = None -> wph (with_handle fd req use) d (handled F H A T d c a) (sv_err a).
Proof using HI. intros Hfd Hf. apply h_with_handle. rewrite Hf. apply unchanged. by eapply sv_bad_handle. Qed.
Lemma bad_handle_early c a fd : sv_handle a = Some fd -> ~ 0 <= fd < TD_HAND_MAX -> wph (mret SYSSTUSERR) d (handled F H A T d c a) (sv_err a).
Proof using HI.
  intros Hfd Hr. apply wph_ret, unchanged. eapply sv_bad_handle; [done|]. destruct (T !! (cur, fd)) as [f|] eqn:E; [|done]. by destruct (tk_dom _ _ _ (sv_tables _ _ _ _ _ _ _ _ _ _ HI) _ _ _ E).
Qed.

Lemma write_handled c fd bs : calls H T (d_rfs d) c (SWrite fd bs) -> wph (perform c) d (handled F H A T d c (SWrite fd bs)) (sv_err (SWrite fd bs)).
Proof using HI.
  intros (buf & len & fl & l & -> & (Hb0 & HbH & Hl & Hll) & Hlen & ->). cbn [perform]. unfold krlsve_write. unfold NO_HAND. destruct ((fd <=? -1) || (TD_HAND_MAX <=? fd)) eqn:E.
  { cbn [orb]. apply (bad_handle_early _ _ fd); [done|lia]. }
  replace (false || (buf =? 0) || (len =? 0)) with false by lia. unfold krlsve_core_write. destruct (T !! (cur, fd)) as [f|] eqn:Ef; [|by apply (bad_handle_handled _ _ fd)].
  eapply (use_handled _ _ fd f); [done|done|done|done|]. intros n Hfi _. split; [|intros bs ? ? ? ? ? Hst; by inversion Hst]. destruct (sv_packet _ _ _ _ _ _ _ _ _ _ HI _ _ Ef) as (_ & Hh & _).
  cbn. split_and!; [done|done|done|done|done|]. exists l. split_and!; [done|lia|rewrite Hll; lia|done|done].
Qed.

Lemma read_handled c fd len : calls H T (d_rfs d) c (SRead fd len) -> wph (perform c) d (handled F H A T d c (SRead fd len)) (sv_err (SRead fd len)).
Proof using HI.
  intros (buf & fl & l & -> & (Hb0 & HbH & Hl & Hll) & Hlen). cbn [perform]. unfold krlsve_read. unfold NO_HAND. destruct (fd =? -1) eqn:E.
  { cbn [orb]. apply (bad_handle_early _ _ fd); [done|unfold TD_HAND_MAX; lia]. }
  replace (false || (buf =? 0) || (len <? 1)) with false by lia. unfold krlsve_core_read. destruct (T !! (cur, fd)) as [f|] eqn:Ef; [|by apply (bad_handle_handled _ _ fd)].
  eapply (use_handled _ _ fd f); [done|done|done|done|]. intros n Hfi _. split; [|done]. destruct (sv_packet _ _ _ _ _ _ _ _ _ _ HI _ _ Ef) as (_ & Hh & _).
  cbn. split_and!; [done|done|done|done|done|done|lia|]. by exists l.
Qed.

Lemma delete_handled c fd nm : calls H T (d_rfs d) c (SDelete fd nm) -> wph (perform c) d (handled F H A T d c (SDelete fd nm)) (sv_err (SDelete fd nm)).
Proof using HI.
  intros (buf & fl & -> & Hp). cbn [perform]. unfold krlsve_ioctrl. unfold NO_HAND. destruct (fd =? -1) eqn:E.
  { apply (bad_handle_early _ _ fd); [done|unfold TD_HAND_MAX; lia]. }
  unfold krlsve_core_ioctrl. destruct (T !! (cur, fd)) as [f|] eqn:Ef; [|by apply (bad_handle_handled _ _ fd)]. destruct (Hp f eq_refl) as (Hp0 & l & Hl & Hpath).
  eapply (use_handled _ _ fd f); [done|done|done|done|]. intros n _ Hfn. split; [|intros bs ? ? ? ? ? Hst; by inversion Hst]. cbn. rewrite Hfn. split_and!; [done|done|]. by exists l.
Qed.

(** ** Closing *)

(** A handle leaves the table together with the driver's handle behind it. *)
Lemma SvInv_close fd f A' H' s' y' : T !! (cur, fd) = Some f -> fsys ms N rb F H' A' s' -> (forall h, h <> fd_file f -> is_Some (H !! h) -> is_Some (H' !! h)) ->
  tables_ok cur (delete (cur, fd) T) y' -> SvInv F H' A' (delete (cur, fd) T) (with_sys y' (with_rfs s' d)).
Proof using HI.
  intros Hf HF HH HT. pose proof HI as [H1 H2 H3 H4 H5]. split; cbn; [done|by apply (dev_ready_frame _ d)|done| |].
  - intros k f' [Hne Hf']%lookup_delete_Some. destruct (H4 _ _ Hf') as (G1 & G2 & G3). split_and!; [done| |done]. apply HH; [|done]. intros E. apply Hne. apply (H5 _ _ f f'); [done|done|]. right. by symmetry.
  - intros k k' f1 f2 [_ Hf1]%lookup_delete_Some [_ Hf2]%lookup_delete_Some. by apply (H5 k k').
Qed.

Lemma close_handled c fd : calls H T (d_rfs d) c (SClose fd) -> wph (perform c) d (handled F H A T d c (SClose fd)) (sv_err (SClose fd)).
Proof using HI.
  intros ->. cbn [perform]. unfold krlsve_close. destruct ((fd <? 0) || (TD_HAND_MAX <=? fd)) eqn:E; [apply (bad_handle_early _ _ fd); [done|lia]|].
  unfold krlsve_core_close. destruct (T !! (cur, fd)) as [f|] eqn:Ef; [|by apply (bad_handle_handled _ _ fd)]. apply h_with_handle. rewrite Ef. intros n Hn Hty Hadr Hfi Hfn.
  assert (HI1 : SvInv F H A T (with_nodes (<[fd_node f := set_opercode IOIF_CODE_CLOSE n]> (d_nodes d)) d)) by (by eapply node_same).
  destruct (sv_packet _ _ _ _ _ _ _ _ _ _ HI _ _ Ef) as (_ & Hh & HFp). apply wph_bind.
  eapply (h_sve_device junk ms N rb devp _ _ _ _ _ (set_opercode IOIF_CODE_CLOSE n) (AClose (fd_file f))); [apply (sv_fs _ _ _ _ _ _ _ _ _ _ HI1)|apply (sv_dev _ _ _ _ _ _ _ _ _ _ HI1)|apply lookup_insert_eq|done|done|done|done|by left|]. cbn [d_nodes d_rfs with_nodes with_rfs].
  intros r n' o A' H' s' Hst HF Hdl Hk Hden. inversion Hst as [| | | | |h blk data Hhd|a Hf1]; subst; [|done]. cbn in Hdl. subst n'. change (DFCOKSTUS =? SYSSTUSERR) with false. cbn iota.
  destruct (del_hand cur (sv_tables _ _ _ _ _ _ _ _ _ _ HI) fd f Ef) as (y' & Ey & HT'). apply wph_bind.
  match goal with |- wph _ ?D _ _ => rewrite (wph_det _ D _ _ _ _ (on_sys_eq _ D _ _ Ey)) end. unfold NO_HAND. replace (fd =? -1) with false by lia. apply wph_bind, wph_ret, wph_bind.
  set (H' := delete (fd_file f) H) in *. assert (HI2 : SvInv F H' (Afs (a_ents A) (<[blk:=data]> (a_data A))) (delete (cur, fd) T) (with_sys y' (with_rfs s' d))).
  { apply (SvInv_close fd f); [done|done| |done]. intros h Hne Hs. unfold H'. by rewrite lookup_delete_ne. }
  assert (Hnot : forall k f', delete (cur, fd) T !! k = Some f' -> fd_node f' <> fd_node f).
  { intros k f' [Hne Hf']%lookup_delete_Some En. apply Hne. apply (sv_own _ _ _ _ _ _ _ _ _ _ HI _ _ f f'); [done|done|by left]. }
  rewrite insert_insert_eq. eapply h_del_objnode; [apply (node_other _ _ _ _ _ HI2 (fd_node f) (set_opercode IOIF_CODE_CLOSE n)); by right|done|done|]. intros d' HI3 Hm Hd. apply wph_bind, wph_ret, wph_ret. cbn [negb die_if].
  exists ONone, (Afs (a_ents A) (<[blk:=data]> (a_data A))), H', (delete (cur, fd) T), (delete (fd_node f) F). cbn in Hm, Hd. rewrite Hd. split_and!; [by eapply sv_close|done| |done].
  split; [done|]. intros b l G1 G2 G3. rewrite Hm. apply Hk; done.
Qed.

(** ** Creating and opening *)

(** The start of [krlsve_open] on a path *)
Lemma h_open p fl st (Q : Z -> dst S -> Prop) E : p <> 0 -> Z.land fl FILE_TY_MASK = FILE_TY_FILE -> (packet_refused d -> Q NO_HAND d) ->
  (forall q d', q <> 0 -> F !! q = None -> SvInv (<[q := sizeof_objnode_t]> F) H A T d' -> d_nodes d' !! q = Some (set_fname p (set_acsflgs (if new_flag fl then FSDEV_OPENFLG_NEWFILE else FSDEV_OPENFLG_OPEFILE) (set_open OBJN_TY_FIL devp objnode_t_init))) ->
     d_sys d' = with_sems (<[q := krlsem_t_init]> (sems (d_sys d))) (d_sys d) -> r_mem (d_rfs d') = r_mem (d_rfs d) -> r_denied (d_rfs d') = r_denied (d_rfs d) -> r_disk (d_rfs d') = r_disk (d_rfs d) ->
     wph (if new_flag fl then
            r ← sve_device junk q; if r =? SYSSTUSERR then open_res_step cur NO_HAND q else ok ← krldel_objnode q; die_if (negb ok) "NEWFILE api del objnode err" ;; mret 0
          else
            rethd ← on_sys (krlthd_add_objnode cur q);
            if rethd =? NO_HAND then open_res_step cur rethd q else r ← sve_device junk q; if r =? SYSSTUSERR then halt die_msg else mret rethd) d' Q E) ->
  wph (krlsve_open junk p fl st) d Q E.
Proof using HI.
  intros Hp Hfl H0 HQ. unfold krlsve_open. replace (p =? 0) with false by lia. unfold krlsve_core_open. apply wph_bind.
  rewrite (wph_det _ _ _ _ _ _ (on_sys_eq _ _ _ _ (curr_eq _ (sv_tables _ _ _ _ _ _ _ _ _ _ HI)))), with_sys_id, Hfl. change (FILE_TY_FILE =? FILE_TY_DEV) with false. change (FILE_TY_FILE =? FILE_TY_FILE) with true. cbn iota.
  unfold open_fil_step. destruct (device_found _ _ (sv_dev _ _ _ _ _ _ _ _ _ _ HI)) as [Hd0 Hdev]. apply wph_bind. rewrite (wph_det _ _ _ _ _ _ Hdev). replace (devp =? 0) with false by lia. apply wph_bind.
  eapply h_new_objnode; [exact HI|by intros; apply wph_ret, H0|]. intros q d1 Hq HFq HI1 Hn1 Hsys Hmem Hden Hdisk. replace (q =? 0) with false by lia. apply wph_bind.
  rewrite (wph_det _ _ _ _ _ _ (upd_node_eq q _ _ d1 Hn1)). fold (new_flag fl). assert (Hnot : forall k f, T !! k = Some f -> fd_node f <> q).
  { intros k f Hf. destruct (sv_packet _ _ _ _ _ _ _ _ _ _ HI _ _ Hf) as (_ & _ & HFf). congruence. }
  destruct (new_flag fl) eqn:En; apply wph_bind; rewrite (wph_det _ _ _ _ _ _ (upd_node_eq q _ _ (with_nodes _ d1) (lookup_insert_eq _ _ _)));
    (apply HQ; cbn [d_nodes with_nodes d_rfs d_sys]; [done|done| |apply lookup_insert_eq|done..]; rewrite insert_insert_eq; apply (node_other _ _ _ _ _ HI1); by right).
Qed.

Lemma not_open q : F !! q = None -> forall k f, T !! k = Some f -> fd_node f <> q.
Proof using HI. intros Hq k f Hf. destruct (sv_packet _ _ _ _ _ _ _ _ _ _ HI _ _ Hf) as (_ & _ & HFf). congruence. Qed.

(** The end of a call that gives its packet back *)
Lemma h_drop q D r msg o A' H' c a E : F !! q = None -> SvInv (<[q := sizeof_objnode_t]> F) H' A' T D ->
  sv_step (r_denied (d_rfs d) < r_denied (d_rfs D))%nat (fs_full ms (d_rfs d)) (packet_refused d) cur A H T a r o A' H' T ->
  visible H (d_rfs d) (call_buf c) o (d_rfs D) -> (r_denied (d_rfs d) <= r_denied (d_rfs D))%nat ->
  wph (ok ← krldel_objnode q; die_if (negb ok) msg ;; mret r) D (handled F H A T d c a) E.
Proof using HI.
  intros Hq HI' Hst Hv Hd. apply wph_bind. eapply h_del_objnode; [done|apply lookup_insert_eq|by apply not_open|]. intros d' HI2 Hm Hden. apply wph_bind, wph_ret, wph_ret.
  eexists o, A', H', T, _. rewrite Hden. split_and!; [done|done| |done]. unfold visible in *. by rewrite Hm.
Qed.

(** The packet of a call in flight, after the driver has run *)
Lemma in_flight q d1 n' H' A' s' : F !! q = None -> SvInv (<[q := sizeof_objnode_t]> F) H A T d1 -> fsys ms N rb (<[q := sizeof_objnode_t]> F) H' A' s' ->
  (forall h, is_Some (H !! h) -> is_Some (H' !! h)) -> SvInv (<[q := sizeof_objnode_t]> F) H' A' T (with_nodes (<[q := n']> (d_nodes d1)) (with_rfs s' d1)).
Proof using HI.
  intros Hq HI1 HF HH. assert (HI2 : SvInv (<[q := sizeof_objnode_t]> F) H' A' T (with_rfs s' d1)).
  { apply (SvInv_rfs _ _ _ _ _ HI1); [done|]. intros k f Hf. apply HH. by apply (sv_packet _ _ _ _ _ _ _ _ _ _ HI k). }
  apply (node_other _ _ _ _ _ HI2). right. by apply not_open.
Qed.

Lemma create_handled c nm : calls H T (d_rfs d) c (SCreate nm) -> wph (perform c) d (handled F H A T d c (SCreate nm)) (sv_err (SCreate nm)).
Proof using HI.
  intros (p & fl & st & -> & Hfl & Hnew & Hp0 & l & Hl & Hpath). cbn [perform]. apply h_open; [done|done|intros; apply unchanged; by apply sv_no_packet|].
  rewrite Hnew. intros q d1 Hq HFq HI1 Hn1 Hsys Hmem Hden Hdisk. apply wph_bind.
  eapply (h_sve_device junk ms N rb devp _ _ _ _ _ _ (ACreate nm)); [apply (sv_fs _ _ _ _ _ _ _ _ _ _ HI1)|apply (sv_dev _ _ _ _ _ _ _ _ _ _ HI1)|exact Hn1|done|done|done| |by left|].
  { split_and!; [done|done|]. exists l. by rewrite Hmem. }
  intros r n' o A' H' s' Hst HF Hdl Hk Hle. assert (HI2 := in_flight q d1 n' H' A' s' HFq HI1 HF (fun h => fs_step_keeps _ _ _ r o A' H' h Hst ltac:(done))).
  assert (Hv : visible H (d_rfs d) 0 o s').
  { split; [intros bs ->; inversion Hst|]. intros b x Hb Hnb _. apply Hk; [by rewrite Hmem|done|]. intros bs ->. inversion Hst. }
  assert (Efull : fs_full ms (d_rfs d1) = fs_full ms (d_rfs d)) by (unfold fs_full; by rewrite Hdisk). rewrite Hden, Efull in Hst. rewrite Hden in Hle.
  assert (Hr : r = DFCOKSTUS \/ r = DFCERRSTUS) by (destruct Hst; auto).
  destruct Hr as [-> | ->]; [change (DFCOKSTUS =? SYSSTUSERR) with false|change (DFCERRSTUS =? SYSSTUSERR) with true; unfold open_res_step; cbn [negb]; apply wph_bind, wph_ret]; cbn iota;
    (eapply h_drop; [done|exact HI2|by apply sv_create|exact Hv|done]).
Qed.

(** A handle joins the table with its packet and the driver's handle. *)
Lemma SvInv_open q d1 n fd h path H' A' s' y' : F !! q = None -> SvInv (<[q := sizeof_objnode_t]> F) H A T d1 -> fsys ms N rb (<[q := sizeof_objnode_t]> F) H' A' s' ->
  (forall h, is_Some (H !! h) -> is_Some (H' !! h)) -> H !! h = None -> is_Some (H' !! h) -> on_objtype n = OBJN_TY_FIL -> on_objadr n = devp -> on_finode n = h -> on_fname n = path ->
  tables_ok cur (<[(cur, fd) := Fdesc q h path]> T) y' -> T !! (cur, fd) = None ->
  SvInv (<[q := sizeof_objnode_t]> F) H' A' (<[(cur, fd) := Fdesc q h path]> T) (with_nodes (<[q := n]> (d_nodes d1)) (with_rfs s' (with_sys y' d1))).
Proof using HI.
  intros Hq HI1 HF HH Hh0 Hh E1 E2 E3 E4 HT Hfd. pose proof (in_flight q d1 n H' A' s' Hq HI1 HF HH) as [H1 H2 H3 H4 H5].
  assert (Hown : forall k f, T !! k = Some f -> fd_node f <> q /\ fd_file f <> h).
  { intros k f Hf. split; [by apply (not_open q Hq k)|]. intros <-. destruct (sv_packet _ _ _ _ _ _ _ _ _ _ HI _ _ Hf) as (_ & [z Hz] & _). congruence. }
  split; [done|by apply (dev_ready_frame _ (with_nodes (<[q := n]> (d_nodes d1)) (with_rfs s' d1)))|done| |].
  - intros k f [[<- <-]|[Hne Hf]]%lookup_insert_Some; [|by apply (H4 k)]. cbn [fd_node fd_file]. split_and!; [|done|apply lookup_insert_eq]. exists n. cbn. rewrite lookup_insert_eq. done.
  - intros k k' f f' [[<- <-]|[Hne Hf]]%lookup_insert_Some [[<- <-]|[Hne' Hf']]%lookup_insert_Some Hor; [done| | |by apply (H5 k k' f f')].
    + destruct (Hown _ _ Hf') as [G1 G2]. cbn in Hor. by destruct Hor.
    + destruct (Hown _ _ Hf) as [G1 G2]. cbn in Hor. by destruct Hor.
Qed.

Lemma h_open_file p fl st nm (Q : Z -> dst S -> Prop) (E : string -> Prop) : Z.land fl FILE_TY_MASK = FILE_TY_FILE -> new_flag fl = false -> path_at (d_rfs d) p nm ->
  (forall r d', handled F H A T d (COpen p fl st) (SOpen nm p) r d' -> Q r d') -> (forall e, oom e -> E e) -> E die_msg ->
  wph (krlsve_open junk p fl st) d Q E.
Proof using HI.
  intros Hfl Hnew (Hp0 & l & Hl & Hpath) HQ HE Hdie. apply h_open; [done|done|intros; by apply HQ, unchanged, sv_no_packet|].
  rewrite Hnew. intros q d1 Hq HFq HI1 Hn1 Hsys Hmem Hden Hdisk. apply wph_bind. destruct (add_hand cur (sv_tables _ _ _ _ _ _ _ _ _ _ HI1) q) as [[Hfull Ea]|(fd & y' & Hlow & Ea & HT)];
    rewrite (wph_det _ _ _ _ _ _ (on_sys_eq _ _ _ _ Ea)).
  { rewrite with_sys_id. change (NO_HAND =? NO_HAND) with true. unfold open_res_step. cbn [negb]. apply wph_bind, wph_ret. eapply wph_mono; [eapply (h_drop q d1 NO_HAND _ ONone A H (COpen p fl st) (SOpen nm p) E)|done|done].
    - done.
    - done.
    - by apply sv_no_handle.
    - by apply visible_same.
    - by rewrite Hden. }
  destruct Hlow as (Hrange & Hfree & Hlow). replace (fd =? NO_HAND) with false by (unfold NO_HAND; lia). apply wph_bind.
  eapply (h_sve_device junk ms N rb devp _ _ _ (with_sys y' d1) _ _ (AOpen nm)); [apply (sv_fs _ _ _ _ _ _ _ _ _ _ HI1)|by apply (dev_ready_frame _ d1), (sv_dev _ _ _ _ _ _ _ _ _ _ HI1)|exact Hn1|done|done|done| |done|].
  { split_and!; [done|done|]. exists l. cbn. by rewrite Hmem. }
  cbn [d_rfs d_nodes with_sys with_nodes with_rfs]. intros r n' o A' H' s' Hst HF Hdl Hk Hle.
  assert (Hkeep : forall h, is_Some (H !! h) -> is_Some (H' !! h)) by (intros h; by apply (fs_step_keeps _ _ _ r o A' H' h Hst)).
  assert (Efull : fs_full ms (d_rfs d1) = fs_full ms (d_rfs d)) by (unfold fs_full; by rewrite Hdisk). rewrite Hden, Efull in Hst. rewrite Hden in Hle.
  inversion Hst as [|nm' j blk data h Hf Hdata Hh0| | | | |a Hf]; subst r o A' H'; [|change (DFCERRSTUS =? SYSSTUSERR) with true; by apply wph_halt].
  change (DFCOKSTUS =? SYSSTUSERR) with false. cbn iota. apply wph_ret, HQ. cbn in Hdl. destruct Hdl as [-> _]. eexists (OHandle h), A, _, _, _. split_and!.
  - by apply (sv_open _ _ _ _ _ _ _ _ _ fd q h).
  - apply (SvInv_open q d1 _ fd h p); try done; [by rewrite lookup_insert_eq; eexists|by apply HT].
  - split; [done|]. intros b x Hb Hnb _. apply Hk; [by rewrite Hmem|done|done].
  - done.
Qed.

Lemma open_handled c nm p : calls H T (d_rfs d) c (SOpen nm p) -> wph (perform c) d (handled F H A T d c (SOpen nm p)) (sv_err (SOpen nm p)).
Proof using HI. intros (fl & st & -> & Hfl & Hnew & Hp). cbn [perform]. eapply h_open_file; [done|done|done|done|by left|]. right. split; [done|by eexists _, _]. Qed.

Lemma sve_handles c a : calls H T (d_rfs d) c a -> wph (perform c) d (handled F H A T d c a) (sv_err a).
Proof using HI. destruct a; [apply create_handled|apply open_handled|apply delete_handled|apply write_handled|apply read_handled|apply close_handled]. Qed.
End one.

(** The services implement files with handles.  A call to open, create, read, write,
    delete or close, by a thread of any set of threads with any open handles, returns
    what a step of the abstract interface allows: the lowest free handle, the status of
    the file system, an error for a handle that is not open; the handle tables, the
    packets, the file system and the memory fit together again afterwards, and the
    caller sees the bytes it read and no other change.  It halts only for lack of
    memory, or in an open. *)
Theorem sve_refines F H A T d c a : SvInv F H A T d -> calls H T (d_rfs d) c a -> wph (perform c) d (handled F H A T d c a) (sv_err a).
Proof. intros HI. by apply sve_handles. Qed.

(** C36: opening a file that does not exist stops the machine.  The call returns only when
    the thread has no handle left or there is no memory for a packet. *)
Theorem open_missing_halts F H A T d p fl st nm : SvInv F H A T d -> Z.land fl FILE_TY_MASK = FILE_TY_FILE -> new_flag fl = false -> path_at (d_rfs d) p nm ->
  dir_find nm (a_ents A) 0 = None ->
  wph (krlsve_open junk p fl st) d (fun r _ => r = NO_HAND /\ (hands_full cur T \/ packet_refused d)) (fun e => e = die_msg \/ oom e).
Proof.
  intros HI Hfl Hnew Hp Hno. eapply (h_open_file HI); [done|done|done| |by right|by left]. intros r d' (o & A' & H' & T' & F' & Hst & _).
  inversion Hst as [|nm' path fd q h A1 H1 Hfs| | | |nm' path Hfull|a Ha Hmem]; subst; [|done|done|by split; [|left]|by split; [|right]].
  inversion Hfs as [|? ? ? ? ? Hf| | | | |]; subst. congruence.
Qed.
End refine.

(** ** A system with one thread and one device *)

Definition demo_thread : thread_t := thread_t_init 1 0.
Definition demo_sched : sys := Sys (set_currtd (Some 1) schdata_t_init) 0 {[1 := demo_thread]} ∅ ∅ None 0 0.
Definition demo_table0 : dst Z := Dst demo_sched demo_fs devtable_t_init {[0x11 := demo_files]} {[0x40 := rfs_set_driver (driver_t_init 0x40)]} ∅ ∅ ∅ no_chips kbdst_init.
Definition demo_system : dst Z := added demo_table0 0x11 demo_files (devtlst_t_init FILESYS_DEVICE).

Lemma demo_system_ok : SvInv demo_start 5 2 0x11 1 ∅ ∅ (Afs [] ∅) ∅ demo_system.
Proof.
  assert (HD : DevInv demo_table0) by (by apply init_DevInv). assert (Hnone : forall a, ~ registered demo_table0 a (dev_id demo_files)).
  { intros a (c & x & Hc & Ha & _). cbn in Hc. rewrite lookup_tabulate in Hc. destruct (_ && _); [|done]. injection Hc as <-. by apply elem_of_nil in Ha. }
  split.
  - apply demo_fs_ok.
  - split.
    + apply added_DevInv; done.
    + apply added_registered; [done|done|done|by left].
    + exists demo_files, (rfs_set_driver (driver_t_init 0x40)). done.
  - split; [done|by eexists| |].
    + intros t x Hx. cbn in Hx. apply lookup_singleton_Some in Hx as [<- <-]. reflexivity.
    + intros t i f E. by rewrite lookup_empty in E.
  - intros k f E. by rewrite lookup_empty in E.
  - intros k k' f f' E. by rewrite lookup_empty in E.
Qed.

Lemma demo_path_at : path_at demo_fs 0x1000 [97].
Proof. split; [done|]. exists [47; 97; 0]. split; [by apply (demo_caller 0x1000 [47; 97; 0])|exact demo_path]. Qed.

(** The thread creates [/a]. *)
Lemma sve_refines_witness : wph (perform no_junk (COpen 0x1000 0x40 0)) demo_system (handled demo_start 5 2 0x11 1 ∅ ∅ (Afs [] ∅) ∅ demo_system (COpen 0x1000 0x40 0) (SCreate [97])) (sv_err (SCreate [97])).
Proof.
  apply (sve_refines no_junk demo_start 5 2 0x11 1 ∅ ∅ (Afs [] ∅) ∅ demo_system (COpen 0x1000 0x40 0) (SCreate [97]) demo_system_ok).
  exists 0x1000, 0x40, 0. split_and!; [reflexivity|reflexivity|reflexivity|exact demo_path_at].
Defined.

Lemma open_missing_halts_witness : wph (krlsve_open no_junk 0x1000 0 0) demo_system (fun r _ => r = NO_HAND /\ (hands_full 1 ∅ \/ packet_refused demo_system)) (fun e => e = die_msg \/ oom e).
Proof. exact (open_missing_halts no_junk demo_start 5 2 0x11 1 ∅ ∅ (Afs [] ∅) ∅ demo_system 0x1000 0 0 [97] demo_system_ok eq_refl eq_refl demo_path_at eq_refl). Defined.

(** Create, open, write, close, open, read and look at the first two bytes *)
Definition demo_calls : M (dst Z) (list Z) :=
  r1 ← krlsve_open no_junk 0x1000 0x40 0; fd ← krlsve_open no_junk 0x1000 0 0; r2 ← krlsve_write no_junk fd 0x2000 100 0; r3 ← krlsve_close no_junk fd;
  fd' ← krlsve_open no_junk 0x1000 0 0; r4 ← krlsve_read no_junk fd' 0x4000 100 0; r5 ← krlsve_read no_junk 7 0x4000 100 0; bs ← on_rfs (load 0x4000 0 2);
  mret ([r1; fd; r2; r3; fd'; r4; r5] ++ bs).
Lemma demo_calls_run : result [] demo_calls demo_system = [0; 0; 0; 0; 0; 0; -1; 7; 7].
Proof. vm_compute. reflexivity. Qed.

(** The machine stops when a missing file is opened. *)
Lemma demo_open_halts : krlsve_open no_junk 0x1000 0 0 demo_system = Halt die_msg.
Proof. vm_compute. reflexivity. Qed.
