(* ===== verification/SelfTest.v ===== *)
(** * The file system driver's self-test

    [test_fsys] of src/drivers/drvrfs.c: the last test that the driver's entry runs. *)

From S2P Require Import Prelude Bytes Intr Boot BootPages MmuCorrect KmsobInv Kmempool MemIf Sched Rfs Kbd RfsMem RfsBlk RfsDir RfsOps RfsFiles RfsCorrect RfsSpec Device DeviceSpec Service ServiceInv.
#[local] Open Scope Z_scope.

(** The messages of a test that found no memory, or no room for its file *)
Definition test_err (e : string) : Prop := oom e \/ e ∈ ["rwbuf is NULL"; "ondp is NULL"; "新建文件错误"; "打开文件错误"; "删除文件错误"]%string.

Ltac test_msg := right; repeat first [apply list_elem_of_here | apply list_elem_of_further].

Section selftest.
Context {S : Type} {HMO : MemOps S} {HMA : MemAlloc S} (junk : nat -> nat -> Z) (testfile : Z).
Context (ms N rb : Z).
Implicit Types (d : dst S) (s : rst S) (F : gmap Z Z) (H : handles) (A : afs).
Abbreviation fsys := (fsys ms N rb).

(** ** Buffers *)

Lemma h_fresh_buf F H A s (Q : Z -> rst S -> Prop) E : fsys F H A s -> (forall s', Q 0 s') ->
  (forall b l s', base <= b -> H !! b = None -> blen l = FSYS_ALCBLKSZ -> fsys F H A s' -> r_mem s' = <[b := l]> (r_mem s) -> r_mem s !! b = None -> Q b s') -> wph (new_buf junk FSYS_ALCBLKSZ) s Q E.
Proof.
  intros HF H0 HQ. pose proof HF as [HG HS (x & y & z & HI) HH]. apply (h_new_buf junk ms N HS); [done|intros; apply H0|]. intros b l s' Hb Hk _ Hl HS'. apply (HQ b l); [done| |done| |apply HS'|done].
  - destruct (H !! b) as [[blk data]|] eqn:Eh; [|done]. destruct (HH _ _ _ Eh) as (_ & _ & _ & f & Hf & _). congruence.
  - eapply fsys_refold; [done|exact HS'|exact HI|]. intros h blk data Hh. destruct (HH _ _ _ Hh) as (G1 & G2 & G3 & f & G4 & G5). split_and!; [done|lia|lia|done|]. exists f. split; [|done].
    rewrite lookup_insert_ne; [done|congruence].
Qed.

Lemma h_fill F H A s b l v (Q : unit -> rst S -> Prop) E : fsys F H A s -> caller_buf H s b l -> blen l = FSYS_ALCBLKSZ ->
  (forall s', fsys F H A s' -> r_mem s' = <[b := replicate 4096 v]> (r_mem s) -> Q tt s') -> wph (hal_memset b v FSYS_ALCBLKSZ) s Q E.
Proof.
  intros HF (Hb0 & HbH & Hb) Hl HQ. pose proof HF as [HG HS (x & y & z & HI) HH]. apply (h_memset ms N HS b l); [done|done|]. intros s' HS'. apply HQ; [|apply HS'].
  eapply fsys_refold; [done|exact HS'|exact HI|]. intros h blk data Hh. destruct (HH _ _ _ Hh) as (G1 & G2 & G3 & f & G4 & G5). split_and!; [done|lia|lia|done|]. exists f. split; [|done].
  rewrite lookup_insert_ne; [done|congruence].
Qed.

Lemma h_objnode F H A d (Q : Z -> dst S -> Prop) E : fsys F H A (d_rfs d) -> Q 0 d ->
  (forall p t, p <> 0 -> F !! p = None -> fsys (<[p := sizeof_objnode_t]> F) H A (with_mm t (d_rfs d)) ->
     Q p (with_sys (with_sems (<[p := krlsem_t_init]> (sems (d_sys d))) (d_sys d)) (with_nodes (<[p := objnode_t_init]> (d_nodes d)) (with_rfs (with_mm t (d_rfs d)) d)))) ->
  wph krlnew_objnode d Q E.
Proof.
  intros HF H0 HQ. pose proof (st_owned _ _ _ _ _ _ _ (fy_st _ _ _ _ _ _ _ HF)) as HO. unfold krlnew_objnode. apply wph_bind.
  destruct (new_dsc_cases F d sizeof_objnode_t HO ltac:(done)) as [[Hno E0]|(b & t & Hb & Hk & E0 & HO')]; rewrite (wph_det _ _ _ _ _ _ E0); [by apply wph_ret|].
  rewrite (addr_nz b Hk). apply HQ; [pose proof base_val; lia|done|]. by apply (fsys_frame ms N rb F).
Qed.

Lemma dir_find_dead nm (l : list ent) : forall k, dir_find nm l k = None -> dir_find nm (l ++ [Dead]) k = None.
Proof. induction l as [|e l IH]; intros k; cbn [dir_find app]; [done|]. destruct e; [destruct (decide _); [done|]|]; apply IH. Qed.

(** One request of the test, with the message for its failure *)
Lemma h_test_step F H A d p n a msg (K : M (dst S) unit) (Q : unit -> dst S -> Prop) : fsys F H A (d_rfs d) -> d_nodes d !! p = Some n -> asks H (d_rfs d) n a ->
  (forall P1 P2, fs_fails P1 P2 A H a -> test_err msg) ->
  (forall n' o A' H' d' P1 P2, fs_step P1 P2 A H a DFCOKSTUS o A' H' -> fsys F H' A' (d_rfs d') -> delivers (d_rfs d) n o n' (d_rfs d') -> d_nodes d' !! p = Some n' ->
     (forall b l, (forall bs, o = OData bs -> b <> on_buf n) -> caller_buf H (d_rfs d) b l -> caller_buf H' (d_rfs d') b l) -> wph K d' Q test_err) ->
  wph (r ← rfs_call (serve junk a) p; die_if (r =? DFCERRSTUS) msg ;; K) d Q test_err.
Proof.
  intros HF Hn Ha Hmsg HK. apply wph_bind. apply (h_rfs_call junk ms N rb F H A d p n a); [done|done|done|by left|]. intros r n' o A' H' s' Hst HF' Hdl Hk _.
  assert (Hr : r = DFCOKSTUS \/ (r = DFCERRSTUS /\ fs_fails (r_denied (d_rfs d) < r_denied s')%nat (fs_full ms (d_rfs d)) A H a)) by (destruct Hst; auto). destruct Hr as [->|[-> Hf]].
  - change (DFCOKSTUS =? DFCERRSTUS) with false. apply wph_bind, wph_ret. eapply HK; [done|done|exact Hdl|apply lookup_insert_eq|]. intros b l Hb. cbn. by eapply caller_keeps.
  - change (DFCERRSTUS =? DFCERRSTUS) with true. apply wph_bind, wph_halt. by eapply Hmsg.
Qed.

(** The packet of the test once the file is open *)
Definition opened_packet (b h : Z) (n : objnode_t) : Prop :=
  on_finode n = h /\ on_buf n = b /\ on_bufsz n = FSYS_ALCBLKSZ /\ on_len n = 512 /\ on_ioctrd n = FSDEV_IOCTRCD_DELFILE /\ on_fname n = testfile.

(** From the open file on: write, clear the buffer, read, close, compare, delete. *)
Definition test_rest_m (rwbuf ondp : Z) : M (dst S) unit :=
  r ← rfs_call rfs_write ondp; die_if (r =? DFCERRSTUS) "写入文件错误" ;;
  on_rfs (hal_memset rwbuf 0 FSYS_ALCBLKSZ) ;;
  r ← rfs_call rfs_read ondp; die_if (r =? DFCERRSTUS) "读取文件错误" ;;
  r ← rfs_call rfs_close ondp; die_if (r =? DFCERRSTUS) "关闭文件错误" ;;
  cb ← on_rfs (load rwbuf 0 512); die_if (negb (bool_decide (Forall (fun c => c = 0xff) cb))) "检查文件内容错误" ;;
  r ← rfs_call (rfs_ioctrl junk) ondp; die_if (r =? DFCERRSTUS) "删除文件错误" ;;
  upd_node ondp set_openfile ;;
  _ ← rfs_call (rfs_open junk) ondp;
  mret tt.

(** The file deleted and asked for once more *)
Lemma test_end F H A nm i D p l n d : dir_find nm (a_ents A) 0 = None -> fsys F H (Afs (a_ents A ++ [Live nm i]) D) (d_rfs d) -> d_nodes d !! p = Some n ->
  on_ioctrd n = FSDEV_IOCTRCD_DELFILE -> on_fname n = testfile -> caller_buf H (d_rfs d) testfile l -> path_to nm l ->
  wph (r ← rfs_call (rfs_ioctrl junk) p; die_if (r =? DFCERRSTUS) "删除文件错误" ;; upd_node p set_openfile ;; _ ← rfs_call (rfs_open junk) p; mret tt) d
    (fun _ d' => exists A', fsys F H A' (d_rfs d') /\ dir_find nm (a_ents A') 0 = None /\ a_ents A' = a_ents A ++ [Dead]) test_err.
Proof.
  intros Hnew HF Hn E5 E6 Hp Hpath. eapply (h_test_step _ _ _ _ p n (ADelete nm)); [exact HF|exact Hn| |intros; test_msg|].
  { rewrite <- E6 in Hp. split_and!; [done|apply Hp|]. exists l. split; [apply Hp|done]. }
  intros n1 o1 A1 H1 d1 P1 P2 Hst1 HF1 Hdl1 Hn1 Hk1. inversion Hst1 as [| |? j blk Hf| | | |]; subst A1 H1 o1. cbn in Hdl1. subst n1. apply Hk1 in Hp; [|done]. cbn [a_ents a_data] in *.
  rewrite (dir_find_app nm i (a_ents A) 0 Hnew) in Hf. injection Hf as <- <-. rewrite Z.add_0_l, Nat2Z.id in HF1. rewrite insert_app_r_alt, Nat.sub_diag in HF1 by done. cbn [insert list_insert] in HF1.
  apply wph_bind. rewrite (wph_det _ _ _ _ _ _ (upd_node_eq p _ _ d1 Hn1)). apply wph_bind. apply dir_find_dead in Hnew.
  eapply (h_rfs_call junk ms N rb _ _ _ _ _ _ (AOpen nm)); [exact HF1|apply lookup_insert_eq| |by left|].
  { rewrite <- E6 in Hp. split_and!; [done|apply Hp|]. exists l. split; [apply Hp|done]. }
  intros r n2 o A2 H2 s2 Hst2 HF2 _ _ _. inversion Hst2 as [|? j blk data h Hf| | | | |]; subst A2 H2 o; [cbn [a_ents] in Hf; congruence|]. apply wph_ret. eexists. split_and!; [exact HF2|done|done].
Qed.

Lemma test_rest F H A nm i h b p l n d : dir_find nm (a_ents A) 0 = None -> H !! h = None ->
  fsys F (<[h := (i, [])]> H) (Afs (a_ents A ++ [Live nm i]) (<[i := []]> (a_data A))) (d_rfs d) -> d_nodes d !! p = Some n -> opened_packet b h n ->
  testfile <> b -> caller_buf (<[h := (i, [])]> H) (d_rfs d) testfile l -> path_to nm l -> caller_buf (<[h := (i, [])]> H) (d_rfs d) b (replicate 4096 0xff) ->
  wph (test_rest_m b p) d (fun _ d' => exists A', fsys F H A' (d_rfs d') /\ dir_find nm (a_ents A') 0 = None /\ a_ents A' = a_ents A ++ [Dead]) test_err.
Proof.
  intros Hnew Hh HF Hn (E1 & E2 & E3 & E4 & E5 & E6) Hne Hp Hpath Hb. set (ff := replicate 512 0xff). unfold test_rest_m.
  assert (Hff : slice (replicate 4096 0xff) 0 512 = ff) by done. assert (Hbl : blen ff = 512) by done. assert (Hbl' : blen (replicate 4096 0xff) = FSYS_ALCBLKSZ) by done.
  eapply (h_test_step _ _ _ _ p n (AWrite h ff)); [exact HF|done| | |].
  { rewrite <- Hff. split_and!; [done|done|rewrite E2; apply Hb|rewrite E2; apply Hb|rewrite lookup_insert_eq; by eexists|]. eexists. rewrite E2, E4. split_and!; [apply Hb|lia|by rewrite Hbl'|done|done]. }
  { intros P1 P2 (blk & data & Eh & Hov). rewrite lookup_insert_eq in Eh. injection Eh as <- <-. rewrite Hbl, blen_nil in Hov. by unfold file_max, FSYS_ALCBLKSZ in Hov. }
  intros n1 o1 A1 H1 d1 P1 P2 Hst1 HF1 Hdl1 Hn1 Hk1. inversion Hst1 as [| | |? blk data ? Eh Hfit| | |]; subst A1 H1 o1. rewrite lookup_insert_eq in Eh. injection Eh as <- <-. cbn in Hdl1. subst n1. apply Hk1 in Hp, Hb; [|done..]. clear Hk1.
  rewrite insert_insert_eq in HF1, Hp, Hb. cbn [app a_ents a_data] in *. apply wph_bind, wph_on_rfs. eapply h_fill; [exact HF1|exact Hb|done|]. intros s2 HF2 Em2.
  assert (Hp2 : caller_buf (<[h := (i, ff)]> H) s2 testfile l) by (destruct Hp as (G1 & G2 & G3); split_and!; [done|done|by rewrite Em2, lookup_insert_ne]).
  assert (Hb2 : caller_buf (<[h := (i, ff)]> H) s2 b (replicate 4096 0)) by (destruct Hb as (G1 & G2 & G3); split_and!; [done|done|by rewrite Em2, lookup_insert_eq]).
  eapply (h_test_step _ _ _ _ p n (ARead h 512)); [exact HF2|exact Hn1| |by intros P3 P4 Hf|].
  { split_and!; [done|done|rewrite E2; apply Hb2|rewrite E2; apply Hb2|rewrite lookup_insert_eq; by eexists|done|done|]. rewrite E2. eexists. split; [apply Hb2|done]. }
  intros n3 o3 A3 G3 d3 P3 P4 Hst3 HF3 Hdl3 Hn3 Hk3. inversion Hst3 as [| | | |? blk2 data2 ? Eh Hle| |]; subst A3 G3 o3. rewrite lookup_insert_eq in Eh. injection Eh as <- <-. rewrite slice_prefix in Hdl3 by done.
  apply Hk3 in Hp2; [|intros ? _; by rewrite E2]. clear Hk3. unfold delivers in Hdl3. destruct Hdl3 as (-> & l3 & Hl3 & Hm3). rewrite E2 in Hl3, Hm3. cbn [d_rfs with_rfs] in Hl3. destruct Hb2 as (Hb0 & HbH & Hb2). rewrite Hb2 in Hl3. injection Hl3 as <-.
  eapply (h_test_step _ _ _ _ p n (AClose h)); [exact HF3|exact Hn3|split; [done|rewrite lookup_insert_eq; by eexists]|done|].
  intros n4 o4 A4 G4 d4 P5 P6 Hst4 HF4 Hdl4 Hn4 Hk4. inversion Hst4 as [| | | | |? blk3 data3 Eh|]; subst A4 G4 o4. rewrite lookup_insert_eq in Eh. injection Eh as <- <-. cbn in Hdl4. subst n4. rewrite delete_insert_id in HF4, Hk4 by done.
  apply Hk4 in Hp2; [|done]. destruct (Hk4 b _ ltac:(done) (conj Hb0 (conj HbH Hm3))) as (_ & HbH4 & Hb4). clear Hk4.
  apply wph_bind, wph_on_rfs. rewrite (wph_det _ _ _ _ _ _ (load_eq ms N (fy_st _ _ _ _ _ _ _ HF4) b _ 0 512 Hb4 ltac:(lia) ltac:(lia) ltac:(by rewrite blen_splice))).
  replace (slice _ 0 512) with ff by (symmetry; by apply slice_splice_same). rewrite bool_decide_true by (by apply Forall_replicate). apply wph_bind, wph_ret.
  eapply (test_end F H A nm i); [done|exact HF4|exact Hn4|done|done|exact Hp2|done].
Qed.

(** What the test leaves: the file is gone, its directory entry is used up. *)
Definition test_done F H A (nm : list Z) d' : Prop :=
  exists F' A', F ⊆ F' /\ fsys F' H A' (d_rfs d') /\ dir_find nm (a_ents A') 0 = None /\ a_ents A' = a_ents A ++ [Dead].

Lemma test_fsys_spec F H A d nm l : fsys F H A (d_rfs d) -> caller_buf H (d_rfs d) testfile l -> path_to nm l ->
  wph (test_fsys junk testfile) d (fun _ => test_done F H A nm) test_err.
Proof.
  intros HF Hp Hpath. unfold test_fsys. apply wph_bind, wph_on_rfs. apply (h_fresh_buf F H A); [done| |].
  { intros s'. apply wph_bind, wph_die_if; [intros _; test_msg|done]. }
  intros b lb s1 Hk HbH Hlb HF1 Em1 Hb0. rewrite (addr_nz b Hk). apply wph_bind, wph_ret, wph_bind, wph_on_rfs.
  assert (Hp1 : caller_buf H s1 testfile l) by (destruct Hp as (G1 & G2 & G3); split_and!; [done|done|]; rewrite Em1, lookup_insert_ne; [done|congruence]).
  assert (Hb1 : caller_buf H s1 b lb) by (split_and!; [pose proof base_val; lia|done|by rewrite Em1, lookup_insert_eq]).
  assert (Hne : testfile <> b) by (destruct Hp as (_ & _ & G); congruence).
  apply (h_fill F H A s1 b lb 0xff); [done|done|done|]. intros s2 HF2 Em2. apply wph_bind. apply (h_objnode F H A); [done| |].
  { change (0 =? 0) with true. apply wph_bind, wph_halt. test_msg. }
  cbn [d_rfs with_rfs]. intros p t Hp0 HFp HF3. replace (p =? 0) with false by lia. apply wph_bind, wph_ret, wph_bind.
  assert (Hp3 : caller_buf H (with_mm t s2) testfile l) by (destruct Hp1 as (G1 & G2 & G3); split_and!; [done|done|]; cbn; rewrite Em2, lookup_insert_ne; done).
  assert (Hb3 : caller_buf H (with_mm t s2) b (replicate 4096 0xff)) by (destruct Hb1 as (G1 & G2 & G3); split_and!; [done|done|]; cbn; by rewrite Em2, lookup_insert_eq).
  rewrite (wph_det _ _ _ _ _ _ (upd_node_eq p _ objnode_t_init _ (lookup_insert_eq _ _ _))).
  apply (h_test_step (<[p := sizeof_objnode_t]> F) H A _ p (test_packet testfile b objnode_t_init) (ACreate nm)); [done|apply lookup_insert_eq| |intros; test_msg|].
  { split_and!; [done|apply Hp3|]. exists l. split; [apply Hp3|done]. }
  intros n1 o1 A1 H1 d1 P1 P2 Hst1 HF4 Hdl1 Hn1 Hk1. inversion Hst1 as [? i Hnew Hfresh| | | | | |]; subst A1 H1 o1. cbn in Hdl1. subst n1. apply Hk1 in Hp3, Hb3; [|done..]. clear Hk1.
  apply wph_bind. rewrite (wph_det _ _ _ _ _ _ (upd_node_eq p _ _ d1 Hn1)). set (A1 := Afs (a_ents A ++ [Live nm i]) (<[i := []]> (a_data A))) in *.
  assert (Hfind : dir_find nm (a_ents A1) 0 = Some (Z.of_nat (length (a_ents A)), i)) by (apply (dir_find_app nm i (a_ents A) 0 Hnew)).
  eapply (h_test_step _ H A1 _ p _ (AOpen nm)); [exact HF4|apply lookup_insert_eq| |intros; test_msg|].
  { split_and!; [done|apply Hp3|]. exists l. split; [apply Hp3|done]. }
  intros n2 o2 A2 H2 d2 Q1 Q2 Hst2 HF5 Hdl2 Hn2 Hk2. inversion Hst2 as [|? j blk data h Hf Hdata Hh0| | | | |]; subst A2 H2 o2. cbn in Hdl2. destruct Hdl2 as [-> _]. apply Hk2 in Hp3, Hb3; [|done..]. clear Hk2.
  rewrite Hfind in Hf. injection Hf as <- <-. unfold A1 in Hdata. cbn [a_data] in Hdata. rewrite lookup_insert_eq in Hdata. injection Hdata as <-.
  eapply wph_mono; [eapply (test_rest (<[p := sizeof_objnode_t]> F) H A nm i h b p); [done|done|exact HF5|exact Hn2|done|done|exact Hp3|done|exact Hb3]| |done].
  intros _ d' (A' & HF' & Hno & Hents). exists (<[p := sizeof_objnode_t]> F), A'. split_and!; [by apply insert_subseteq|done|done|done].
Qed.
End selftest.

Section theorem.
Context {S : Type} {HMO : MemOps S} {HMA : MemAlloc S} (junk : nat -> nat -> Z) (testfile : Z) (ms N rb : Z).

(** The self-test of the driver.  On any file system, with the name of the test file
    readable, [test_fsys] reads back what it wrote: it never reports wrong contents, nor
    a failed write, read or close.  It halts only when memory, the name or room for the
    file is not to be had.  When it returns the file is gone, the files and handles of
    others are as before, and one entry of the directory is used up. *)
Theorem selftest_passes (F : gmap Z Z) H A (d : dst S) nm l : fsys ms N rb F H A (d_rfs d) -> caller_buf H (d_rfs d) testfile l -> path_to nm l ->
  wph (test_fsys junk testfile) d (fun _ => test_done ms N rb F H A nm) test_err.
Proof. apply test_fsys_spec. Qed.
End theorem.

Definition demo_before : dst Z := Dst (Sys schdata_t_init 0 ∅ ∅ ∅ None 0 0) demo_fs devtable_t_init ∅ ∅ ∅ ∅ ∅ no_chips kbdst_init.

Lemma selftest_passes_witness : wph (test_fsys no_junk 0x1000) demo_before (fun _ => test_done demo_start 5 2 ∅ ∅ (Afs [] ∅) [97]) test_err.
Proof. exact (selftest_passes no_junk 0x1000 demo_start 5 2 ∅ ∅ (Afs [] ∅) demo_before [97] [47; 97; 0] (proj1 demo_fs_ok) (demo_caller 0x1000 [47; 97; 0] ltac:(discriminate) eq_refl) demo_path). Defined.

(** On the small device it returns. *)
Lemma demo_selftest_runs : returns (test_fsys no_junk 0x1000) demo_before = true.
Proof. vm_compute. reflexivity. Qed.
