(* ===== verification/Kernel.v ===== *)
(** * The kernel: interrupts, time, programs and the service table

    src/hal/x86/halintupt.c (the ways into the kernel), src/kernel/krltime.c,
    krlservice.c and krlglobal.c (the table of services), the rest of krlsvethread.c
    and krlthread.c (user threads), the file lookup of src/hal/x86/halplatform.c and
    the clock's interrupt handler of src/drivers/drvtick.c, over one state in which
    all components share the kernel's memory.

    The address spaces share the page allocator with the memory pool, the words of
    the page tables, the interval and box descriptors and the manager of boxes; a
    space has its page-table descriptor, its intervals and its thread of its own.  An
    operation of Vma.v runs on a space by way of [on_space].  [cmos] is the clock
    chip: the byte in each of its registers. *)

From S2P Require Import Prelude Bytes Intr PhyMem Boot PageIf Mmu ObjIf Vma Kmempool MemIf Sched Rfs Device Service.
#[local] Open Scope Z_scope.

Definition INR_MAX : Z := 0x10.
Definition INR_TD_EXEL : Z := 3.
Definition INR_TIME : Z := 14.
Definition CMOS_SEC_ADR : Z := 0.
Definition CMOS_MIN_ADR : Z := 2.
Definition CMOS_HOUR_ADR : Z := 4.
Definition CMOS_DAY_ADR : Z := 7.
Definition CMOS_MON_ADR : Z := 8.
Definition CMOS_YEAR_ADR : Z := 9.
Definition THREAD_NAME_MAX : Z := 64.
Definition sizeof_thread_t : Z := 328.
Definition UMOD_EFLAGS : Z := 0x1202.
Definition APPRUN_START_VITRUALADDR : Z := 0x100000.
Definition MDC_ENDGIC : Z := 0xaaffaaffaaffaaff.
Definition MDC_RVGIC : Z := 0xffaaffaaffaaffaa.

(** ** Data *)

Record ktime_t := Ktime { kt_year : Z; kt_mon : Z; kt_day : Z; kt_date : Z; kt_hour : Z; kt_min : Z; kt_sec : Z }.
Definition ktime_t_init : ktime_t := Ktime 0 0 0 0 0 0 0.

(** A file of the boot image: offset, size and the bytes of its name field *)
Record fhdsc_t := Fhdsc { fhd_intsfsoff : Z; fhd_frealsz : Z; fhd_name : list Z }.
Record mlosrddsc_t := Mlosrddsc { mdc_endgic : Z; mdc_rv : Z; mdc_fhdnr : Z; mdc_filnr : Z; mdc_files : list fhdsc_t }.

(** What an address space has of its own; [msd_thread] 0 is [NULL]. *)
Record mmadrsdsc_t := Mmadrsdsc { msd_mmu : mmudsc_t; msd_virmemadrs : virmemadrs_t; msd_thread : Z }.

(** [k_names]: the program names of the threads, without the terminator;
    [k_imgadr]: the virtual address of the boot image. *)
Record knl (S : Type) := Knl {
  k_dev : dst (pst S); k_time : ktime_t; k_words : gmap Z Z; k_cr3 : Z; k_pml4 : Z; k_spaces : gmap Z mmadrsdsc_t;
  k_kmvds : gmap Z kmvarsdsc_t; k_boxes : gmap Z kvmemcbox_t; k_mgr : kvmemcboxmgr_t; k_copies : list (Z * Z);
  k_names : gmap Z (list Z); k_image : mlosrddsc_t; k_imgadr : Z
}.
Arguments Knl {S} k_dev k_time k_words k_cr3 k_pml4 k_spaces k_kmvds k_boxes k_mgr k_copies k_names k_image k_imgadr.
Arguments k_dev {S} k.
Arguments k_time {S} k.
Arguments k_words {S} k.
Arguments k_cr3 {S} k.
Arguments k_pml4 {S} k.
Arguments k_spaces {S} k.
Arguments k_kmvds {S} k.
Arguments k_boxes {S} k.
Arguments k_mgr {S} k.
Arguments k_copies {S} k.
Arguments k_names {S} k.
Arguments k_image {S} k.
Arguments k_imgadr {S} k.

Section setters.
Context {S : Type}.
Definition with_dev (x : dst (pst S)) (k : knl S) : knl S :=
  Knl x (k_time k) (k_words k) (k_cr3 k) (k_pml4 k) (k_spaces k) (k_kmvds k) (k_boxes k) (k_mgr k) (k_copies k) (k_names k) (k_image k) (k_imgadr k).
Definition with_time (x : ktime_t) (k : knl S) : knl S :=
  Knl (k_dev k) x (k_words k) (k_cr3 k) (k_pml4 k) (k_spaces k) (k_kmvds k) (k_boxes k) (k_mgr k) (k_copies k) (k_names k) (k_image k) (k_imgadr k).
Definition with_spaces (x : gmap Z mmadrsdsc_t) (k : knl S) : knl S :=
  Knl (k_dev k) (k_time k) (k_words k) (k_cr3 k) (k_pml4 k) x (k_kmvds k) (k_boxes k) (k_mgr k) (k_copies k) (k_names k) (k_image k) (k_imgadr k).
Definition with_names (x : gmap Z (list Z)) (k : knl S) : knl S :=
  Knl (k_dev k) (k_time k) (k_words k) (k_cr3 k) (k_pml4 k) (k_spaces k) (k_kmvds k) (k_boxes k) (k_mgr k) (k_copies k) x (k_image k) (k_imgadr k).
End setters.

(** ** Files of the boot image *)

(** [*b - *a] at the first place where the strings differ or end *)
Fixpoint strcmpl (a b : list Z) : option Z :=
  match a, b with
  | x :: a', y :: b' => if negb (y =? 0) && negb (x =? 0) && (y =? x) then strcmpl a' b' else Some (y - x)
  | _, _ => None
  end.

Fixpoint find_file (fname : list Z) (l : list fhdsc_t) : option (option fhdsc_t) :=
  match l with
  | [] => Some None
  | f :: l' => match strcmpl fname (fhd_name f) with None => None | Some c => if c =? 0 then Some (Some f) else find_file fname l' end
  end.

(** [None]: a string runs out of its memory.  The header counts the files. *)
Definition get_fileinfo (fname : list Z) (mrddadrs : mlosrddsc_t) : option (option fhdsc_t) :=
  if negb (mdc_endgic mrddadrs =? MDC_ENDGIC) || negb (mdc_rv mrddadrs =? MDC_RVGIC) || (mdc_fhdnr mrddadrs <? 2) || (mdc_filnr mrddadrs <? 2) then Some None
  else find_file fname (take (Z.to_nat (mdc_fhdnr mrddadrs)) (mdc_files mrddadrs)).

(** Address and size; the callers start from 0, which stays when there is no file. *)
Definition get_file_rvadrandsz (fname : option (list Z)) (imgadr : Z) (img : mlosrddsc_t) : option (Z * Z) :=
  match fname with
  | None => Some (0, 0)
  | Some nm => match get_fileinfo nm img with
               | None => None
               | Some None => Some (0, 0)
               | Some (Some f) => Some (fhd_intsfsoff f +u imgadr, fhd_frealsz f)
               end
  end.

(** [krlstrlen] and [krlstrcpy] of a string; [None] when it does not end *)
Fixpoint cstring (l : list Z) : option (list Z) :=
  match l with [] => None | c :: l' => if c =? 0 then Some [] else (fun s => c :: s) <$> cstring l' end.
Definition str_bytes (s : string) : list Z := (fun c => Z.of_N (Ascii.N_of_ascii c)) <$> String.list_ascii_of_string s.

(** ** Time *)

Definition bcd_to_bin (val : Z) : Z := Z.land val 0xf + Z.shiftr val 4 * 10.

Section kernel.
Context {S : Type} {HPO : PageOps S} {HOO : ObjOps S} (junk : nat -> nat -> Z) (cmos : Z -> Z) (initmmadrsdsc : Z).
Abbreviation KM A := (M (knl S) A).

Definition on_dev {A} (m : M (dst (pst S)) A) : KM A := fun k =>
  match m (k_dev k) with Ret (a, d) => Ret (a, with_dev d k) | Halt e => Halt e | Fault => Fault | NoFuel => NoFuel end.

Definition get_space (mm : Z) : KM mmadrsdsc_t := fun k => match k_spaces k !! mm with Some x => Ret (x, k) | None => Fault end.

(** The file of a name, which is looked up when an operation on a space starts; a name that
    runs out of its memory is a fault. *)
Definition file_of (fname : option (list Z)) : KM (Z * Z) := fun k =>
  match get_file_rvadrandsz fname (k_imgadr k) (k_image k) with Some r => Ret (r, k) | None => Fault end.

(** Space [x] as a state of Vma.v, and the state afterwards *)
Definition vst_of (x : mmadrsdsc_t) (file : option (Z * Z)) (k : knl S) : vst S :=
  Vst (Mst (p_mm (r_mm (d_rfs (k_dev k)))) (k_words k) (msd_mmu x) (k_cr3 k) (k_pml4 k)) (msd_virmemadrs x) (k_kmvds k) (k_boxes k) (k_mgr k) file (k_copies k).
Definition put_mm (t : S) (d : dst (pst S)) : dst (pst S) :=
  with_rfs (Rst (Pst t (p_heads (r_mm (d_rfs d)))) (r_mem (d_rfs d)) (r_fresh (d_rfs d)) (r_denied (d_rfs d)) (r_ext (d_rfs d)) (r_disk (d_rfs d))) d.
Definition put_vst (v : vst S) (k : knl S) : knl S :=
  Knl (put_mm (m_pa (v_mst v)) (k_dev k)) (k_time k) (m_words (v_mst v)) (m_cr3 (v_mst v)) (k_pml4 k) (k_spaces k) (v_kmvds v) (v_boxes v) (v_mgr v) (v_copies v) (k_names k) (k_image k) (k_imgadr k).

(** Run [m] on [x]: result, the space afterwards and the state afterwards *)
Definition run_space {A} (x : mmadrsdsc_t) (file : option (Z * Z)) (m : M (vst S) A) : KM (A * mmadrsdsc_t) := fun k =>
  match m (vst_of x file k) with
  | Ret (a, v) => Ret ((a, Mmadrsdsc (m_mmu (v_mst v)) (v_vma v) (msd_thread x)), put_vst v k)
  | Halt e => Halt e | Fault => Fault | NoFuel => NoFuel
  end.

Definition on_space {A} (mm : Z) (m : M (vst S) A) : KM A :=
  x ← get_space mm;
  file ← (if msd_thread x =? 0 then mret None else nm ← gets (fun k => k_names k !! msd_thread x); f ← file_of nm; mret (Some f));
  '(a, x') ← run_space x file m;
  modify (fun k => with_spaces (<[mm := x']> (k_spaces k)) k) ;;
  mret a.

(** [new_mmadrsdsc], which initialises the space it allocates *)
Definition new_space : KM Z :=
  '(mm, x) ← run_space (Mmadrsdsc mmudsc_t_init virmemadrs_t_init 0) None new_mmadrsdsc;
  if mm =? 0 then mret 0 else modify (fun k => with_spaces (<[mm := x]> (k_spaces k)) k) ;; mret mm.
Definition del_space (mm : Z) : KM bool :=
  ok ← on_space mm (del_mmadrsdsc mm);
  (if ok : bool then modify (fun k => with_spaces (delete mm (k_spaces k)) k) else mret tt) ;; mret ok.

(** ** Interrupts *)

Definition CMOS_READ (adr : Z) : KM Z := mret (cmos adr).

Definition krlupdate_times_from_cmos : KM unit :=
  sec ← CMOS_READ CMOS_SEC_ADR; min ← CMOS_READ CMOS_MIN_ADR; hour ← CMOS_READ CMOS_HOUR_ADR; day ← CMOS_READ CMOS_DAY_ADR; mon ← CMOS_READ CMOS_MON_ADR; year ← CMOS_READ CMOS_YEAR_ADR;
  modify (fun k => with_time (Ktime (bcd_to_bin year) (bcd_to_bin mon) (bcd_to_bin day) (kt_date (k_time k)) (bcd_to_bin hour) (bcd_to_bin min) (bcd_to_bin sec)) k).
Definition krlupdate_times (year mon day date hour min sec : Z) : KM unit := modify (with_time (Ktime year mon day date hour min sec)).
Definition init_ktime : KM unit := modify (with_time ktime_t_init).

Definition systick_handle (ift_nr devp : Z) : KM Z :=
  t ← on_dev (on_sys krlsched_retn_currthread); on_dev (on_sys (krlthd_inc_tick t)) ;; krlupdate_times_from_cmos ;; mret DFCOKSTUS.
Definition run_handle (h : inthandle) (ifdnr device : Z) : KM Z := match h with Hsystick => systick_handle ifdnr device | Huart => on_dev (uart_handle ifdnr device) end.

(** A handler descriptor; a fault when there is none *)
Definition get_ser (a : Z) : KM intserdsc_t := fun k => match d_sers (k_dev k) !! a with Some x => Ret (x, k) | None => Fault end.
Definition get_int (irq : Z) : KM intfltdsc_t := fun k => match d_ints (k_dev k) !! irq with Some x => Ret (x, k) | None => Fault end.
Definition upd_int (irq : Z) (f : intfltdsc_t -> intfltdsc_t) : KM unit :=
  i ← get_int irq; modify (fun k => with_dev (with_ints (<[irq := f i]> (d_ints (k_dev k))) (d_sers (k_dev k)) (k_dev k)) k).

Definition hal_run_intflthandle (ifdnr : Z) : KM unit :=
  match hal_retn_intfltdsc ifdnr with
  | None => halt "hal_run_intfdsc err"
  | Some ifdscp =>
      i ← get_int ifdscp;
      for_each (i_serlist i) (fun a => isdscp ← get_ser a; _ ← run_handle (s_handle isdscp) ifdnr (s_device isdscp); mret tt)
  end.

Definition hal_do_hwint (intnumb krnlsframp : Z) : KM unit :=
  die_if ((IDTMAX <? intnumb) || (krnlsframp =? 0)) "hal_do_hwint fail" ;;
  match hal_retn_intfltdsc intnumb with
  | None => halt "hal_do_hwint ifdscp NULL"
  | Some ifdscp =>
      upd_int ifdscp (fun i => Intfltdsc (i_indx i +u 1) (i_deep i) (i_sernr i) (i_serlist i)) ;;
      upd_int ifdscp (fun i => Intfltdsc (i_indx i) (i_deep i +u 1) (i_sernr i) (i_serlist i)) ;;
      hal_run_intflthandle intnumb ;;
      upd_int ifdscp (fun i => Intfltdsc (i_indx i) (i_deep i -u 1) (i_sernr i) (i_serlist i))
  end.

Definition hal_hwint_eoi : KM unit := on_dev (on_chips i8259_send_eoi).

Definition hal_hwint_allocator (intnumb krnlsframp : Z) : KM unit :=
  hal_hwint_eoi ;;
  hal_do_hwint intnumb krnlsframp ;;
  on_dev (on_sys krlsched_chkneed_pmptsched).

Definition krl_curr_mmadrsdsc : KM Z := t ← on_dev (on_sys krlsched_retn_currthread); x ← on_dev (on_sys (get_td t)); mret (td_mmdsc x).

(** [cr2]: the address of the fault; the message for a page fault is translated. *)
Definition hal_fault_allocator (faultnumb cr2 : Z) : KM unit :=
  if faultnumb =? 14 then mm ← krl_curr_mmadrsdsc; on_space mm (hal_page_fault cr2)
  else
    _ ← on_dev krlsve_exit_thread; mret tt.

(** ** User threads *)

Definition set_td_user (mm prilg prity ktop kstart utop ustart : Z) (t : thread_t) : thread_t :=
  Thread (td_flgs t) (td_stus t) (td_id t) (td_tick t) (td_sumtick t) prilg prity ktop kstart utop ustart mm (ctx_nextrip t) (ctx_nextrsp t) (td_handtbl t).

Definition read_string (p : Z) : KM (option (list Z)) := if p =? 0 then mret None else l ← on_dev (on_rfs (string_at (p, 0))); mret (Some l).
Definition set_name (t : Z) (nm : list Z) : KM unit := modify (fun k => with_names (<[t := nm ++ [0]]> (k_names k)) k).

(** The name is kept in the descriptor when it fits, else in memory of its own. *)
Definition thread_name (thread name : Z) : KM unit :=
  s ← read_string name;
  match s with
  | None => set_name thread (str_bytes "unkown thread")
  | Some l =>
      match cstring l with
      | None => fault
      | Some nm =>
          if blen nm <? THREAD_NAME_MAX - 1 then set_name thread nm else
          vadr ← on_dev (new_dsc (blen nm + 1));
          if vadr =? 0 then mret tt else set_name thread nm
      end
  end.

Definition krlnew_user_thread_core (name filerun prilg prity usrstksz krlstksz : Z) : KM Z :=
  mm ← new_space;
  if mm =? 0 then mret 0 else
  x ← get_space mm;
  if vs_stackkmvdsc (msd_virmemadrs x) =? 0 then del_space mm ;; mret 0 else
  stk ← gets (fun k => k_kmvds k !! vs_stackkmvdsc (msd_virmemadrs x));
  match stk with
  | None => fault
  | Some kv =>
      let usrstkadr := kva_start kv in
      let usrstktop := kva_end kv in
      if negb (USER_VIRTUAL_ADDRESS_END =? usrstktop) then del_space mm ;; mret 0 else
      if (usrstktop -u usrstkadr) <? usrstksz then del_space mm ;; mret 0 else
      krlstkadr ← on_dev (new_dsc krlstksz);
      if krlstkadr =? 0 then del_space mm ;; mret 0 else
      ret_td ← on_dev (new_dsc sizeof_thread_t);
      if ret_td =? 0 then on_dev (del_dsc krlstkadr krlstksz) ;; del_space mm ;; mret 0 else
      on_dev (on_sys (modify (fun s => with_thds (<[ret_td := thread_t_init ret_td initmmadrsdsc]> (thds s)) s))) ;;
      thread_name ret_td name ;;
      modify (fun k => with_spaces (alter (fun x => Mmadrsdsc (msd_mmu x) (msd_virmemadrs x) ret_td) mm (k_spaces k)) k) ;;
      on_dev (on_sys (
        upd_td ret_td (set_td_user mm prilg prity (krlstkadr +u (krlstksz -u 1)) krlstkadr usrstktop usrstkadr) ;;
        krlthread_userstack_init ret_td filerun UMOD_EFLAGS ;;
        krlschdclass_add_thread ret_td)) ;;
      mret ret_td
  end.

Definition knl_new_kern_thread_core (name filerun prilg prity krlstksz : Z) : KM Z :=
  krlstkadr ← on_dev (new_dsc krlstksz);
  if krlstkadr =? 0 then mret 0 else
  ret_td ← on_dev (new_dsc sizeof_thread_t);
  if ret_td =? 0 then on_dev (del_dsc krlstkadr krlstksz) ;; mret 0 else
  thread_name ret_td name ;;
  r ← on_dev (on_sys (krlnew_kern_thread_core (Some krlstkadr) (Some ret_td) initmmadrsdsc filerun prilg prity krlstksz));
  mret (default 0 r).

Definition krlnew_thread (name filerun flg prilg prity usrstksz krlstksz : Z) : KM Z :=
  if (filerun =? 0) || (DAFT_TDUSRSTKSZ <? usrstksz) || (DAFT_TDKRLSTKSZ <? krlstksz) then mret 0 else
  if (negb (prilg =? PRILG_USR) && negb (prilg =? PRILG_SYS)) || (PRITY_MAX <=? prity) then mret 0 else
  let tustksz := if usrstksz <? DAFT_TDUSRSTKSZ then DAFT_TDUSRSTKSZ else usrstksz in
  let tkstksz := if krlstksz <? DAFT_TDKRLSTKSZ then DAFT_TDKRLSTKSZ else krlstksz in
  if KERNTHREAD_FLG =? flg then knl_new_kern_thread_core name filerun prilg prity tkstksz else
  if USERTHREAD_FLG =? flg then krlnew_user_thread_core name filerun prilg prity tustksz tkstksz else
  mret 0.

Definition krlthread_execvl (thread filename : Z) : KM Z :=
  if (thread =? 0) || (filename =? 0) then mret 0 else
  nm ← read_string filename;
  '(retadr, filelen) ← file_of nm;
  if (retadr =? 0) || (filelen =? 0) then mret 0 else
  t ← on_dev (on_sys (get_td thread));
  if td_mmdsc t =? initmmadrsdsc then mret 0 else
  if THREAD_HEAPADR_START <=? (0x100000 +u filelen) then mret 0 else
  vadr ← on_space (td_mmdsc t) (kvma_initdefault_virmemadrs APPRUN_START_VITRUALADDR filelen KMV_BIN_TYPE);
  if vadr =? 0 then mret 0 else mret thread.

Definition krlsve_core_exel_thread (file flgs : Z) : KM Z :=
  nm ← read_string file;
  '(retadr, filelen) ← file_of nm;
  if (retadr =? 0) || (filelen =? 0) then mret SYSSTUSERR else
  t ← krlnew_thread file APPRUN_START_VITRUALADDR USERTHREAD_FLG PRILG_USR PRITY_MIN DAFT_TDUSRSTKSZ DAFT_TDKRLSTKSZ;
  t ← krlthread_execvl t file;
  if t =? 0 then mret SYSSTUSERR else
  x ← on_dev (on_sys (get_td t)); mret (sint (td_id x)).
Definition krlsve_exel_thread (file flgs : Z) : KM Z := krlsve_core_exel_thread file flgs.
Definition krlsvetabl_exel_thread (inr : Z) (p : stkparame_t) : KM Z := if negb (inr =? INR_TD_EXEL) then mret SYSSTUSERR else krlsve_exel_thread (parmv1 p) (parmv2 p).

(** ** The other services *)

(** Seven words at the caller's address *)
Definition krlsve_time (time : Z) : KM Z :=
  if time =? 0 then mret SYSSTUSERR else
  t ← gets k_time;
  on_dev (on_rfs (
    set (time, 0) 0 (kt_year t) ;; set (time, 0) 8 (kt_mon t) ;; set (time, 0) 16 (kt_day t) ;; set (time, 0) 24 (kt_date t) ;;
    set (time, 0) 32 (kt_hour t) ;; set (time, 0) 40 (kt_min t) ;; set (time, 0) 48 (kt_sec t))) ;;
  mret SYSSTUSOK.
Definition krlsvetabl_time (inr : Z) (p : stkparame_t) : KM Z := if negb (inr =? INR_TIME) then mret SYSSTUSERR else krlsve_time (parmv1 p).

(** A memory service, in the space of the current thread *)
Definition in_space (m : M (vst S) Z) : KM Z :=
  mm ← krl_curr_mmadrsdsc; r ← on_space mm m; mret (sint r).
Definition svetabl_mallocblk (inr : Z) (p : stkparame_t) : KM Z := if negb (inr =? INR_MM_ALLOC) then mret SYSSTUSERR else in_space (krlsve_mallocblk (parmv1 p)).
Definition svetabl_mfreeblk (inr : Z) (p : stkparame_t) : KM Z :=
  if negb (inr =? INR_MM_FREE) then mret SYSSTUSERR else
  if parmv1 p =? 0 then mret SYSSTUSERR else in_space (krlsve_mfreeblk (parmv1 p) (parmv2 p)).

(** ** The table *)

Definition svc (f : Z -> stkparame_t -> M (dst (pst S)) Z) : option (Z -> stkparame_t -> KM Z) := Some (fun inr p => on_dev (f inr p)).
Definition osservicetab : list (option (Z -> stkparame_t -> KM Z)) :=
  [ None; Some svetabl_mallocblk; Some svetabl_mfreeblk; Some krlsvetabl_exel_thread; svc krlsvetabl_exit_thread; svc krlsvetabl_retn_threadhand;
    svc krlsvetabl_retn_threadstats; svc krlsvetabl_set_threadstats; svc (krlsvetabl_open junk); svc (krlsvetabl_close junk); svc (krlsvetabl_read junk);
    svc (krlsvetabl_write junk); svc (krlsvetabl_ioctrl junk); svc krlsvetabl_lseek; Some krlsvetabl_time; svc krlsvetabl_tick ].

Definition krlservice (inr : Z) (sframe : stkparame_t) : KM Z :=
  if INR_MAX <=? inr then mret SYSSTUSERR else
  match osservicetab !! Z.to_nat inr with
  | None => fault
  | Some None => mret SYSSTUSERR
  | Some (Some f) => f inr sframe
  end.
Definition hal_syscl_allocator (inr : Z) (krnlsframp : stkparame_t) : KM Z := krlservice inr krnlsframp.
End kernel.
