(* ===== verification/KernelSpec.v ===== *)
(** * The kernel: theorems

    The ways into the kernel: the service table, the clock interrupt and the faults
    of a program, against the specifications of the components they reach. *)

From S2P Require Import Prelude Bytes Intr PhyMem Boot BootPages PageIf Mmu MmuCorrect ObjIf Vma DivMer Kmsob KmsobInv KmsobSpec Kmempool MemIf Sched SchedInv SchedMoves SchedOps SchedSpec SchedCorrect Rfs Kbd RfsMem RfsBlk RfsDir RfsOps RfsFiles RfsCorrect RfsSpec Device DeviceSpec Service ServiceInv ServiceSpec Kernel.
#[local] Open Scope Z_scope.

Section kernel.
Context {S : Type} {HPO : PageOps S} {HOO : ObjOps S} (junk : nat -> nat -> Z) (cmos : Z -> Z) (initmm : Z).
Implicit Types (k : knl S) (d : dst (pst S)).

(** ** Runs of one component *)

Lemma wph_on_dev {A} (m : M (dst (pst S)) A) k (Q : A -> knl S -> Prop) E : wph m (k_dev k) (fun a d' => Q a (with_dev d' k)) E -> wph (on_dev m) k Q E.
Proof. unfold wph, on_dev. by destruct (m (k_dev k)) as [[a d']| | |]. Qed.
Lemma wp_on_dev {A} (m : M (dst (pst S)) A) k (Q : A -> knl S -> Prop) : wp m (k_dev k) (fun a d' => Q a (with_dev d' k)) -> wp (on_dev m) k Q.
Proof. unfold wp, on_dev. by destruct (m (k_dev k)) as [[a d']| | |]. Qed.
Lemma on_dev_sys_eq {A} (m : M sys A) k a y' : m (d_sys (k_dev k)) = Ret (a, y') -> on_dev (on_sys m) k = Ret (a, with_dev (with_sys y' (k_dev k)) k).
Proof. unfold on_dev, on_sys. by intros ->. Qed.
Lemma with_dev_id k : with_dev (k_dev k) k = k.
Proof. by destruct k. Qed.

(** ** The service table *)

(** The service of each number *)
Definition service (inr : Z) (p : stkparame_t) : M (knl S) Z :=
  match inr with
  | 1 => in_space (krlsve_mallocblk (parmv1 p))
  | 2 => if parmv1 p =? 0 then mret SYSSTUSERR else in_space (krlsve_mfreeblk (parmv1 p) (parmv2 p))
  | 3 => krlsve_exel_thread initmm (parmv1 p) (parmv2 p)
  | 4 => on_dev krlsve_exit_thread
  | 5 => on_dev (krlsve_retn_threadhand (parmv1 p))
  | 8 => on_dev (krlsve_open junk (parmv1 p) (parmv2 p) (parmv3 p))
  | 9 => on_dev (krlsve_close junk (sint (parmv1 p)))
  | 10 => on_dev (krlsve_read junk (sint (parmv1 p)) (parmv2 p) (parmv3 p) (parmv4 p))
  | 11 => on_dev (krlsve_write junk (sint (parmv1 p)) (parmv2 p) (parmv3 p) (parmv4 p))
  | 12 => on_dev (krlsve_ioctrl junk (sint (parmv1 p)) (parmv2 p) (parmv3 p) (parmv4 p))
  | 14 => krlsve_time (parmv1 p)
  | 15 => on_dev (r ← krlsve_thread_tick (parmv1 p); mret (sint r))
  | _ => mret SYSSTUSERR
  end.

Lemma service_numbers (P : Z -> Prop) : (forall inr, INR_MAX <= inr -> P inr) -> P 0 -> P 1 -> P 2 -> P 3 -> P 4 -> P 5 -> P 6 -> P 7 -> P 8 -> P 9 -> P 10 -> P 11 -> P 12 -> P 13 -> P 14 -> P 15 ->
  forall inr, 0 <= inr -> P inr.
Proof.
  unfold INR_MAX. intros Hbig ? ? ? ? ? ? ? ? ? ? ? ? ? ? ? ? inr Hpos. destruct (decide (16 <= inr)) as [Hb|Hs]; [by apply Hbig|].
  assert (Hc : inr ∈ seqZ 0 16) by (apply elem_of_seqZ; lia). change (seqZ 0 16) with [0;1;2;3;4;5;6;7;8;9;10;11;12;13;14;15] in Hc.
  repeat (apply elem_of_cons in Hc as [->|Hc]; [done|]). by apply elem_of_nil in Hc.
Qed.

(** The numbers 1 to 15 reach the service they name: the test of the number in each entry
    agrees with its place in the table.  Every other number is refused without effect. *)
Lemma service_dispatch_spec inr p k : 0 <= inr -> krlservice junk initmm inr p k = service inr p k.
Proof.
  revert inr. apply service_numbers; try (destruct k; reflexivity). intros inr Hb. unfold krlservice. replace (INR_MAX <=? inr) with true by lia. unfold INR_MAX in Hb.
  destruct inr as [|q|q]; [lia| |lia]. destruct q as [q|q|]; [| |lia]; (destruct q as [q|q|]; [| |lia]); (destruct q as [q|q|]; [| |lia]); (destruct q as [q|q|]; [reflexivity|reflexivity|lia]).
Qed.

(** ** The clock interrupt *)

Lemma upd_int_eq irq f i k : d_ints (k_dev k) !! irq = Some i ->
  upd_int irq f k = Ret (tt, with_dev (with_ints (<[irq := f i]> (d_ints (k_dev k))) (d_sers (k_dev k)) (k_dev k)) k).
Proof. intros Hi. unfold upd_int, get_int, modify, mbind, M_bind. by rewrite Hi. Qed.

(** The time that the clock chip shows; nothing sets the day of the week. *)
Definition clock_time (t : ktime_t) : ktime_t :=
  Ktime (bcd_to_bin (cmos CMOS_YEAR_ADR)) (bcd_to_bin (cmos CMOS_MON_ADR)) (bcd_to_bin (cmos CMOS_DAY_ADR)) (kt_date t)
    (bcd_to_bin (cmos CMOS_HOUR_ADR)) (bcd_to_bin (cmos CMOS_MIN_ADR)) (bcd_to_bin (cmos CMOS_SEC_ADR)).

(** The kernel after the interrupt on [irq]: the scheduler's state, the time and the count *)
Definition after_tick irq (i : intfltdsc_t) (y : sys) k : knl S :=
  with_time (clock_time (k_time k)) (with_dev (with_ints (<[irq := Intfltdsc (i_indx i +u 1) (i_deep i) (i_sernr i) (i_serlist i)]> (d_ints (k_dev k))) (d_sers (k_dev k)) (with_sys y (k_dev k))) k).

(** The kernel after the end of interrupt: each controller has taken its request of the
    highest priority out of service. *)
Definition served (p : i8259a) : i8259a := I8259a (pic_icw1 p) (pic_icw2 p) (pic_icw3 p) (pic_icw4 p) (pic_imr p) (Z.land (pic_isr p) (pic_isr p - 1)) (pic_step p).
Definition eoi_done k : knl S :=
  let c := d_chips (k_dev k) in with_dev (with_chips (Chips (served (c_master c)) (served (c_slave c)) (c_timer c)) (k_dev k)) k.

(** The handler of the clock is the only one on [irq]. *)
Definition clock_on irq (i : intfltdsc_t) k : Prop :=
  0 <= irq <= IDTMAX /\ d_ints (k_dev k) !! irq = Some i /\ 0 <= i_deep i < u64max /\ exists a x, i_serlist i = [a] /\ d_sers (k_dev k) !! a = Some x /\ s_handle x = Hsystick.

Lemma tick_run k y : SchedSpec.perform ATick (d_sys (k_dev k)) = Ret (true, y) -> exists c y1,
  krlsched_retn_currthread (d_sys (k_dev k)) = Ret (c, d_sys (k_dev k)) /\ krlthd_inc_tick c (d_sys (k_dev k)) = Ret (tt, y1) /\ krlsched_chkneed_pmptsched y1 = Ret (tt, y).
Proof.
  intros H. cbn [SchedSpec.perform] in H. apply bind_inv in H as (c & y0 & H1 & H). apply bind_inv in H as ([] & y1 & H2 & H). apply bind_inv in H as ([] & y2 & H3 & H). injection H as <-.
  assert (y0 = d_sys (k_dev k)) as ->. { unfold krlsched_retn_currthread, gets, mbind, M_bind in H1. destruct (sda_currtd _); [|done]. by injection H1. }
  by exists c, y1.
Qed.

Lemma systick_handle_eq c y1 nr dev k : krlsched_retn_currthread (d_sys (k_dev k)) = Ret (c, d_sys (k_dev k)) -> krlthd_inc_tick c (d_sys (k_dev k)) = Ret (tt, y1) ->
  systick_handle cmos nr dev k = Ret (DFCOKSTUS, with_time (clock_time (k_time k)) (with_dev (with_sys y1 (k_dev k)) k)).
Proof.
  intros H1 H2. unfold systick_handle. rewrite (bind_eq _ _ _ _ _ (on_dev_sys_eq _ k _ _ H1)). rewrite with_sys_id, with_dev_id. rewrite (bind_eq _ _ _ _ _ (on_dev_sys_eq _ k _ _ H2)). done.
Qed.

(** An interrupt that has one handler: the kernel when the handler starts and when it has
    returned *)
Definition entered irq (i : intfltdsc_t) k : knl S :=
  with_dev (with_ints (<[irq := Intfltdsc (i_indx i +u 1) (i_deep i +u 1) (i_sernr i) (i_serlist i)]> (d_ints (k_dev k))) (d_sers (k_dev k)) (k_dev k)) k.
Definition finished irq (i : intfltdsc_t) k : knl S :=
  with_dev (with_ints (<[irq := Intfltdsc (i_indx i +u 1) (i_deep i) (i_sernr i) (i_serlist i)]> (d_ints (k_dev k))) (d_sers (k_dev k)) (k_dev k)) k.
(** [h] for device [devp] is the only handler on [irq]. *)
Definition handler_on irq (i : intfltdsc_t) (h : inthandle) (devp : Z) k : Prop :=
  0 <= irq <= IDTMAX /\ d_ints (k_dev k) !! irq = Some i /\ 0 <= i_deep i < u64max /\ exists a x, i_serlist i = [a] /\ d_sers (k_dev k) !! a = Some x /\ s_handle x = h /\ s_device x = devp.

Lemma do_hwint_run irq i h devp fr r k k3 : handler_on irq i h devp k -> fr <> 0 -> run_handle cmos h irq devp (entered irq i k) = Ret (r, k3) ->
  d_ints (k_dev k3) = d_ints (k_dev (entered irq i k)) -> hal_do_hwint cmos irq fr k = Ret (tt, finished irq i k3).
Proof.
  intros (Hirq & Hi & Hdeep & a & x & Hl & Hx & Hh & Hdv) Hfr Hr H3. unfold hal_do_hwint. replace ((IDTMAX <? irq) || (fr =? 0)) with false by lia. cbn [die_if].
  assert (Hret : hal_retn_intfltdsc irq = Some irq) by (unfold hal_retn_intfltdsc; by replace (IDTMAX <? irq) with false by lia).
  rewrite (bind_eq _ _ k tt k) by done. rewrite Hret. rewrite (bind_eq _ _ _ _ _ (upd_int_eq irq _ i k Hi)).
  erewrite bind_eq by (apply upd_int_eq; apply lookup_insert_eq). cbn [k_dev with_dev d_ints d_sers with_ints]. rewrite insert_insert_eq.
  set (i2 := Intfltdsc (i_indx i +u 1) (i_deep i +u 1) (i_sernr i) (i_serlist i)).
  assert (Hrun : hal_run_intflthandle cmos irq (entered irq i k) = Ret (tt, k3)).
  { unfold hal_run_intflthandle. rewrite Hret. rewrite (bind_eq _ _ _ i2 (entered irq i k)) by (unfold get_int; cbn; by rewrite lookup_insert_eq). cbn [i_serlist i2]. rewrite Hl. cbn [for_each].
    rewrite (bind_eq _ _ _ tt k3); [done|]. rewrite (bind_eq _ _ _ x (entered irq i k)) by (unfold get_ser; cbn; by rewrite Hx). rewrite Hh, Hdv. by rewrite (bind_eq _ _ _ _ _ Hr). }
  match goal with |- ?m ?K = _ => change (m (entered irq i k) = Ret (tt, finished irq i k3)) end. rewrite (bind_eq _ _ _ _ _ Hrun).
  rewrite (upd_int_eq irq _ i2) by (rewrite H3; cbn; apply lookup_insert_eq). unfold finished, i2. cbn [i_indx i_deep i_sernr i_serlist].
  replace (i_deep i +u 1 -u 1) with (i_deep i); [done|]. unfold u64, u64max in *. rewrite Zminus_mod_idemp_l, Z.add_simpl_r, Z.mod_small by lia. done.
Qed.

Lemma do_hwint_eq irq i fr c y1 k : clock_on irq i k -> fr <> 0 -> krlsched_retn_currthread (d_sys (k_dev k)) = Ret (c, d_sys (k_dev k)) -> krlthd_inc_tick c (d_sys (k_dev k)) = Ret (tt, y1) ->
  hal_do_hwint cmos irq fr k = Ret (tt, after_tick irq i y1 k).
Proof.
  intros (Hirq & Hi & Hdeep & a & x & Hl & Hx & Hh) Hfr H1 H2.
  rewrite (do_hwint_run irq i Hsystick (s_device x) fr DFCOKSTUS k (with_time (clock_time (k_time k)) (with_dev (with_sys y1 (k_dev (entered irq i k))) (entered irq i k))));
    [|split_and!; [lia|lia|done|lia|lia|by exists a, x]|done|exact (systick_handle_eq c y1 irq (s_device x) (entered irq i k) H1 H2)|done].
  unfold finished, after_tick. cbn [k_dev with_dev with_time with_sys with_ints d_ints d_sers entered]. by rewrite insert_insert_eq.
Qed.

Lemma timer_interrupt_run irq i fr k y : clock_on irq i k -> fr <> 0 -> SchedSpec.perform ATick (d_sys (k_dev k)) = Ret (true, y) ->
  hal_hwint_allocator cmos irq fr k = Ret (tt, after_tick irq i y (eoi_done k)).
Proof.
  intros Hc Hfr (c & y1 & H1 & H2 & H3)%tick_run. unfold hal_hwint_allocator. rewrite (bind_eq _ _ k tt (eoi_done k)) by done.
  rewrite (bind_eq _ _ _ _ _ (do_hwint_eq irq i fr c y1 (eoi_done k) Hc Hfr H1 H2)).
  by rewrite (on_dev_sys_eq krlsched_chkneed_pmptsched (after_tick irq i y1 (eoi_done k)) tt y H3).
Qed.

(** C10: the clock interrupt.  On the line that has the clock's handler, whatever the
    scheduler's state and whichever thread it finds running, the interrupt returns; the
    controllers have been told its end, the scheduler has made the clock's step of its contract (a tick for the running thread
    and, when its time is up, a switch), its invariant holds again, the time is what
    the clock chip shows, and nothing else has changed. *)
Theorem timer_interrupt irq i fr k : clock_on irq i k -> fr <> 0 -> SInv (d_sys (k_dev k)) ->
  exists y, hal_hwint_allocator cmos irq fr k = Ret (tt, after_tick irq i y (eoi_done k)) /\ SchedSpec.perform ATick (d_sys (k_dev k)) = Ret (true, y) /\ SInv y.
Proof.
  intros Hc Hfr HI. pose proof (perform_spec (d_sys (k_dev k)) ATick HI I) as Hw. unfold wp in Hw. destruct (SchedSpec.perform ATick (d_sys (k_dev k))) as [[r y]| | |] eqn:E; [|done..]. destruct Hw as [HI' _].
  assert (r = true) as ->. { cbn [SchedSpec.perform] in E. apply bind_inv in E as (? & ? & _ & E). apply bind_inv in E as (? & ? & _ & E). apply bind_inv in E as (? & ? & _ & E). by injection E. }
  exists y. split_and!; [by apply timer_interrupt_run|done|done].
Qed.

(** ** Faults *)

(** A fault of a program other than a page fault ends its thread and nothing more: when
    the thread is not the idle thread, the handler returns, the scheduler has made the
    exit step of its contract (the thread leaves, another one runs), its invariant holds
    again, and nothing else has changed. *)
Theorem fault_ends_thread n cr2 k : n <> 14 -> SInv (d_sys (k_dev k)) -> sda_currtd (schda (d_sys (k_dev k))) <> sda_cpuidle (schda (d_sys (k_dev k))) ->
  exists y, hal_fault_allocator n cr2 k = Ret (tt, with_dev (with_sys y (k_dev k)) k) /\ SchedSpec.perform AExit (d_sys (k_dev k)) = Ret (true, y) /\ SInv y.
Proof.
  intros Hn HI Hcur. pose proof (perform_spec (d_sys (k_dev k)) AExit HI Hcur) as Hw. unfold wp in Hw. destruct (SchedSpec.perform AExit (d_sys (k_dev k))) as [[r y]| | |] eqn:E; [|done..]. destruct Hw as [HI' _].
  cbn [SchedSpec.perform] in E. apply bind_inv in E as ([] & y1 & E1 & E). apply bind_inv in E as ([] & y2 & E2 & E). injection E as <- <-. exists y2. split_and!; [|done|done].
  unfold hal_fault_allocator. replace (n =? 14) with false by lia. rewrite (bind_eq _ _ k SYSSTUSOK (with_dev (with_sys y2 (k_dev k)) k)); [done|].
  unfold on_dev, krlsve_exit_thread, krlsve_core_exit_thread, on_sys, mbind, M_bind. rewrite E1. cbn [d_sys with_sys]. by rewrite E2.
Qed.
End kernel.

(** ** File services through the table, on the kernel's own memory pool *)

Section files.
Context {S : Type} {HPO : PageOps S} {HOO : ObjOps S} {HOA : ObjAlloc S} (junk : nat -> nat -> Z) (initmm ms N rb devp cur : Z).
Implicit Types (k : knl S).

(** A number and a frame carry a call; a handle is passed as its 64-bit pattern, and what
    the service does not read may be anything. *)
Definition carries (c : sv_call) (inr : Z) (p : stkparame_t) : Prop :=
  match c with
  | COpen file flgs stus => inr = INR_FS_OPEN /\ parmv1 p = file /\ parmv2 p = flgs /\ parmv3 p = stus
  | CClose fd => inr = INR_FS_CLOSE /\ parmv1 p = u64 fd
  | CRead fd buf len flgs => inr = INR_FS_READ /\ parmv1 p = u64 fd /\ parmv2 p = buf /\ parmv3 p = len /\ parmv4 p = flgs
  | CWrite fd buf len flgs => inr = INR_FS_WRITE /\ parmv1 p = u64 fd /\ parmv2 p = buf /\ parmv3 p = len /\ parmv4 p = flgs
  | CIoctrl fd buf iocode flgs => inr = INR_FS_IOCTRL /\ parmv1 p = u64 fd /\ parmv2 p = buf /\ parmv3 p = iocode /\ parmv4 p = flgs
  end.
Definition call_hand (c : sv_call) : Z := match c with COpen _ _ _ => 0 | CClose fd | CRead fd _ _ _ | CWrite fd _ _ _ | CIoctrl fd _ _ _ => fd end.

Lemma sint_u64 x : - 2 ^ 63 <= x < 2 ^ 63 -> sint (u64 x) = x.
Proof. intros H. unfold sint, u64, u64max. rewrite Zplus_mod_idemp_l, Z.mod_small by lia. lia. Qed.

Lemma carried_service c inr p k : - 2 ^ 63 <= call_hand c < 2 ^ 63 -> carries c inr p -> krlservice junk initmm inr p k = on_dev (perform junk c) k.
Proof.
  intros Hh Hc. rewrite service_dispatch_spec by (destruct c; cbn in Hc; destruct_and?; by subst inr). destruct p as [v1 v2 v3 v4].
  destruct c; cbn in Hh, Hc; destruct_and?; subst; unfold INR_FS_OPEN, INR_FS_CLOSE, INR_FS_READ, INR_FS_WRITE, INR_FS_IOCTRL; cbn [service parmv1 parmv2 parmv3 parmv4]; by rewrite ?sint_u64 by done.
Qed.

(** A call for a file, through the service table, is a step of the abstract interface of
    handles on files, and no other part of the kernel changes. *)
Lemma file_service F H A T k c a inr p : SvInv ms N rb devp cur F H A T (k_dev k) -> calls cur H T (d_rfs (k_dev k)) c a -> - 2 ^ 63 <= call_hand c < 2 ^ 63 -> carries c inr p ->
  wph (hal_syscl_allocator junk initmm inr p) k
    (fun r k' => handled ms N rb devp cur F H A T (k_dev k) c a r (k_dev k') /\ k' = with_dev (k_dev k') k) (sv_err a).
Proof.
  intros HI Hc Hh Hp. unfold hal_syscl_allocator, wph. rewrite (carried_service c inr p k Hh Hp). pose proof (sve_handles junk ms N rb devp cur HI c a Hc) as Hw.
  unfold wph, on_dev in *. destruct (perform junk c (k_dev k)) as [[r d']| | |]; [|done..]. by split.
Qed.
End files.

(** ** A kernel with three threads, a file system and the clock *)

Definition demo_rfs : rst (pst (kst mmst)) := Rst demo_p demo_buffers 0 0 (Some (Rfsdevext 0 0 demo_start (FSYS_ALCBLKSZ * 5) 0)) (r_disk demo_fs).
Definition demo_dst0 : dst (pst (kst mmst)) :=
  Dst demo_sys4 demo_rfs devtable_t_init {[0x11 := demo_files]} {[0x40 := rfs_set_driver (driver_t_init 0x40)]} ∅
    {[0x20 := Intfltdsc 0 0 1 [0x70]]} {[0x70 := Intserdsc 0 0x20 0x12 Hsystick]} (Chips (I8259a ICW1 0x20 4 1 0xfe 1 0) (I8259a ICW1 0x28 2 1 0xff 0 0) (I8254 TIMEMODE 1194 None)) kbdst_init.
Definition demo_kernel : knl (kst mmst) :=
  Knl (added demo_dst0 0x11 demo_files (devtlst_t_init FILESYS_DEVICE)) ktime_t_init ∅ 0 0 ∅ ∅ ∅ kvmemcboxmgr_t_init [] ∅ (Mlosrddsc 0 0 0 0 []) 0.
(** The clock chip shows 2024-05-17 12:34:56. *)
Definition demo_cmos (r : Z) : Z := if r =? 0 then 0x56 else if r =? 2 then 0x34 else if r =? 4 then 0x12 else if r =? 7 then 0x17 else if r =? 8 then 0x05 else 0x24.

Lemma demo_kernel_sys : d_sys (k_dev demo_kernel) = demo_sys4.
Proof. unfold demo_kernel, added, with_tab, demo_dst0. cbn [k_dev d_sys]. reflexivity. Qed.

Lemma demo_clock : clock_on 0x20 (Intfltdsc 0 0 1 [0x70]) demo_kernel.
Proof. split_and!; [done|done|done|done|done|]. by eexists _, _. Qed.

Lemma timer_interrupt_witness : exists y, hal_hwint_allocator demo_cmos 0x20 0x8000 demo_kernel = Ret (tt, after_tick demo_cmos 0x20 (Intfltdsc 0 0 1 [0x70]) y (eoi_done demo_kernel)) /\ SInv y.
Proof.
  destruct (timer_interrupt demo_cmos 0x20 (Intfltdsc 0 0 1 [0x70]) 0x8000 demo_kernel demo_clock) as (y & H1 & _ & H2); [discriminate|rewrite demo_kernel_sys; exact demo4_inv|]. exists y. split; [exact H1|exact H2].
Defined.
Lemma demo_clock_time : clock_time demo_cmos ktime_t_init = Ktime 24 5 17 0 12 34 56.
Proof. reflexivity. Qed.

Lemma fault_ends_thread_witness : exists y, hal_fault_allocator 13 0 demo_kernel = Ret (tt, with_dev (with_sys y (k_dev demo_kernel)) demo_kernel) /\ SInv y.
Proof.
  destruct (fault_ends_thread 13 0 demo_kernel) as (y & H1 & _ & H2); [discriminate|rewrite demo_kernel_sys; exact demo4_inv|rewrite demo_kernel_sys; vm_compute; discriminate|]. exists y. split; [exact H1|exact H2].
Defined.

(** Any contents of the device that are a file system *)
Lemma demo_disk_ok D rb A : disk_ok demo_start 5 D -> (exists x y z, FsInv demo_start 5 rb D x y z A) ->
  fsys demo_start 5 rb ∅ ∅ A (Rst demo_p demo_buffers 0 0 (Some (Rfsdevext 0 0 demo_start (FSYS_ALCBLKSZ * 5) 0)) D).
Proof.
  intros Hd HI. split; [exact demo_geometry| |exact HI|intros h blk data E; by rewrite lookup_empty in E]. split; cbn [r_denied r_mem r_disk r_ext]; [apply le_n| |by eexists|exact Hd|reflexivity|reflexivity].
  exists ∅. split_and!; [exact demo_p_own|done|]. cbn [r_mem]. intros a l Ha Hk. exfalso. pose proof base_val. unfold demo_buffers in Ha.
  do 4 (apply lookup_insert_Some in Ha as [[<- _]|[_ Ha]]; [lia|]). apply lookup_singleton_Some in Ha as [<- _]. lia.
Qed.
Lemma demo_rfs_ok : fsys demo_start 5 2 ∅ ∅ (Afs [] ∅) demo_rfs.
Proof. unfold demo_rfs. destruct demo_fs_ok as [[_ [_ _ _ Hd _ _] HI _] _]. apply demo_disk_ok; [exact Hd|exact HI]. Qed.

Lemma demo_kernel_ok : SvInv demo_start 5 2 0x11 3000 ∅ ∅ (Afs [] ∅) ∅ (k_dev demo_kernel).
Proof.
  assert (HD : DevInv demo_dst0) by (by apply init_DevInv). assert (Hnone : forall a, ~ registered demo_dst0 a (dev_id demo_files)).
  { intros a (c & x & Hc & Ha & _). cbn in Hc. rewrite lookup_tabulate in Hc. destruct (_ && _); [|done]. injection Hc as <-. by apply elem_of_nil in Ha. }
  split; [exact demo_rfs_ok| |rewrite demo_kernel_sys| |].
  - split.
    + apply added_DevInv; done.
    + apply added_registered; [done|done|done|by left].
    + exists demo_files, (rfs_set_driver (driver_t_init 0x40)). done.
  - assert (Ht : map_Forall (fun _ x => td_handtbl x = replicate 8 None) (thds demo_sys4)) by (apply (bool_decide_unpack _); vm_compute; exact I).
    split; [vm_compute; reflexivity|apply (bool_decide_unpack _); vm_compute; exact I| |].
    + intros t x Hx. rewrite (Ht t x Hx). reflexivity.
    + intros t i f E. by rewrite lookup_empty in E.
  - intros k f E. by rewrite lookup_empty in E.
  - intros k k' f f' E. by rewrite lookup_empty in E.
Qed.
