(* ===== verification/IntrSpec.v ===== *)
(** * Interrupt controller and descriptor tables: theorems

    What the processor does with each vector and each selector after the set-up, and
    which request lines are open after any calls that open lines. *)

From S2P Require Import Prelude Intr Bytes Sched MemIf Rfs Device.
#[local] Open Scope Z_scope.

(** ** Fields of a packed word *)

Lemma land_mod x k : 0 <= k -> Z.land x (2 ^ k - 1) = x mod 2 ^ k.
Proof. intros Hk. rewrite <- Z.land_ones by done. f_equal. rewrite Z.ones_equiv. lia. Qed.
Lemma u8_mod x : u8 x = x mod 2 ^ 8.
Proof. apply (land_mod x 8). done. Qed.
Lemma u16_mod x : u16 x = x mod 2 ^ 16.
Proof. apply (land_mod x 16). done. Qed.
Lemma u32_mod x : u32 x = x mod 2 ^ 32.
Proof. apply (land_mod x 32). done. Qed.

(** ** The interrupt table *)

Section tables.
Context (adr : inthandler_t -> Z) (adr_idt adr_gdt adr_tss : Z).

(** All calls of [set_idt_desc], and the last of them for a vector *)
Definition all_calls : list (Z * inthandler_t * Z) := ((fun i => (i, hxi_exc_general_intpfault, PRIVILEGE_KRNL)) <$> seqZ 0 256) ++ idt_calls.
Fixpoint last_call (calls : list (Z * inthandler_t * Z)) (v : Z) (d : option (inthandler_t * Z)) : option (inthandler_t * Z) :=
  match calls with [] => d | (w, h, p) :: l => last_call l v (if w =? v then Some (h, p) else d) end.

Definition put_gate (idt : list gate_t) (c : Z * inthandler_t * Z) : list gate_t :=
  let '(w, h, p) := c in <[Z.to_nat (u8 w) := idt_gate adr DA_386IGate h p]> idt.

Lemma for_each_app {S A} (l1 l2 : list A) (f : A -> M S unit) s : for_each (l1 ++ l2) f s = (for_each l1 f ;; for_each l2 f) s.
Proof. revert s. induction l1 as [|x l1 IH]; intros s; [done|]. cbn [for_each app]. unfold mbind, M_bind in *. destruct (f x s) as [[[] s']| | |]; [apply IH|done..]. Qed.

Lemma set_calls calls t :
  for_each calls (fun '(v, h, p) => set_idt_desc adr v DA_386IGate h p) t = Ret (tt, with_idt (foldl put_gate (x64_idt t) calls) t).
Proof. revert t. induction calls as [|[[v h] p] l IH]; intros t; [by destruct t|]. cbn [for_each foldl]. rewrite (bind_eq _ _ t tt (with_idt (put_gate (x64_idt t) (v, h, p)) t)) by done. by rewrite IH. Qed.

Lemma set_general l t :
  for_each l (fun i => set_idt_desc adr i DA_386IGate hxi_exc_general_intpfault PRIVILEGE_KRNL) t =
  for_each ((fun i => (i, hxi_exc_general_intpfault, PRIVILEGE_KRNL)) <$> l) (fun '(v, h, p) => set_idt_desc adr v DA_386IGate h p) t.
Proof. revert t. induction l as [|i l IH]; intros t; [done|]. cbn [for_each fmap list_fmap]. unfold mbind, M_bind. apply IH. Qed.

(** What a table read shows is the last call for the vector. *)
Lemma calls_lookup calls v : 0 <= v < 256 -> Forall (fun c => 0 <= c.1.1 < 256) calls -> forall idt d, length idt = 256%nat ->
  (forall h p, d = Some (h, p) -> idt !! Z.to_nat v = Some (idt_gate adr DA_386IGate h p)) ->
  forall h p, last_call calls v d = Some (h, p) -> foldl put_gate idt calls !! Z.to_nat v = Some (idt_gate adr DA_386IGate h p).
Proof.
  intros Hv Hc. induction Hc as [|[[w h'] p'] l Hw _ IH]; intros idt d Hlen Hd h p E; [by apply Hd|]. cbn [last_call foldl put_gate fst] in *.
  assert (Hu : u8 w = w) by (rewrite u8_mod; apply Z.mod_small; lia). rewrite Hu.
  apply (IH _ (if w =? v then Some (h', p') else d)); [by rewrite length_insert| |done]. intros h1 p1. destruct (Z.eqb_spec w v) as [->|Hne].
  - intros [= -> ->]. apply list_lookup_insert_eq. lia.
  - intros H1. rewrite list_lookup_insert_ne by lia. by apply Hd.
Qed.

Definition idt_after (t : tabs) : tabs :=
  Tabs (foldl put_gate (x64_idt t) all_calls) (x64_gdt t) (x64_igdt_reg t) (4095, adr_idt) (gdtr t) (4095, adr_idt) (tr t) (cs t) (ds t).

Lemma init_idt_eq t : init_idt_descriptor adr adr_idt t = Ret (tt, idt_after t).
Proof.
  unfold init_idt_descriptor. unfold mbind at 1, M_bind at 1. rewrite set_general, set_calls. unfold mbind at 1, M_bind at 1. rewrite set_calls. cbn -[foldl]. unfold idt_after, with_idt, all_calls. cbn -[foldl idt_calls seqZ fmap].
  rewrite foldl_app. reflexivity.
Qed.

(** ** Gates as the processor reads them *)

Lemma gate_offset_eq h p : 0 <= adr h < u64max -> gate_offset (idt_gate adr DA_386IGate h p) = adr h.
Proof.
  intros Hh. unfold gate_offset, idt_gate. cbn [offset_low offset_high offset_high_h]. change 0xFFFF with (2 ^ 16 - 1). change 0xffffffff with (2 ^ 32 - 1).
  rewrite !u16_mod, u32_mod, !land_mod, !Z.shiftr_div_pow2, !Z.shiftl_mul_pow2, !Zmod_mod by done. unfold u64max in Hh. change (2 ^ 64) with 18446744073709551616 in Hh.
  change (2 ^ 16) with 65536. change (2 ^ 32) with 4294967296. Z.to_euclidean_division_equations. lia.
Qed.

(** Where a vector should lead, and which vectors a program may raise *)
Definition pushes_code (v : Z) : bool := (v =? 8) || ((10 <=? v) && (v <=? 14)) || (v =? 17).
Definition expected (v : Z) : way :=
  if (v <=? 14) || ((16 <=? v) && (v <=? 19)) then ToFault v (pushes_code v)
  else if ((0x20 <=? v) && (v <? 0x38)) || (v =? 0xe0) || ((0xef <=? v) && (v <=? 0xf5)) then ToHwint v
  else if v =? 0xff then ToService else ToFault 256 false.
Definition user_vector (v : Z) : bool := (v =? 3) || (v =? 4) || (v =? 0xff).

Definition call_ok (v : Z) : bool :=
  match last_call all_calls v None with
  | Some (h, p) => bool_decide (stub h = expected v) && (p =? if user_vector v then 3 else 0) && (if (0x20 <=? v) && (v <? 0x38) then bool_decide (h = hxi_hwint (v - 0x20)) else true)
  | None => false
  end.
Lemma calls_ok v : 0 <= v < 256 -> call_ok v = true.
Proof.
  intros Hv. assert (H : forallb call_ok (seqZ 0 256) = true) by (vm_compute; reflexivity). rewrite forallb_forall in H. apply H. apply list_elem_of_In, elem_of_seqZ. lia.
Qed.
Lemma calls_range : Forall (fun c : Z * inthandler_t * Z => 0 <= c.1.1 < 256) all_calls.
Proof. apply (bool_decide_unpack _). vm_compute. exact I. Qed.

(** The entry point of a vector *)
Definition entry_of (v : Z) : inthandler_t := match last_call all_calls v None with Some (h, _) => h | None => hxi_exc_general_intpfault end.

Lemma enter_after t v soft : length (x64_idt t) = 256%nat -> (forall h, 0 <= adr h < u64max) -> 0 <= v < 256 ->
  enter (idt_after t) v soft = if match soft with None => true | Some cpl => cpl <=? (if user_vector v then 3 else 0) end then Some (SELECTOR_KERNEL_CS, adr (entry_of v)) else None.
Proof.
  intros Hlen Hadr Hv. pose proof (calls_ok v Hv) as Hok. unfold call_ok in Hok. destruct (last_call all_calls v None) as [[h p]|] eqn:E; [|done].
  apply andb_true_iff in Hok as [[_ Hp]%andb_true_iff _]. apply Z.eqb_eq in Hp. unfold enter, entry_of. rewrite E. cbn [idtr idt_after x64_idt fst].
  replace (4095 <? sizeof_gate_t * v + 15) with false by (unfold sizeof_gate_t; lia).
  rewrite (calls_lookup all_calls v Hv calls_range (x64_idt t) None Hlen ltac:(done) h p E). cbn [mbind option_bind]. rewrite gate_offset_eq by done. rewrite Hp.
  destruct (user_vector v); (destruct soft as [cpl|]; reflexivity).
Qed.

(** C29: the interrupt table.  After [init_idt_descriptor] the processor finds for each of
    the 256 vectors a present interrupt gate of the kernel's code segment: it goes to the
    entry point that passes the vector's own number to the handler of faults or of device
    interrupts (256 for the vectors that nothing uses), that enters the services at 0xff,
    and that expects an error code on the stack exactly for the exceptions that push one.
    A program can raise the breakpoint, the overflow and the service vector with an
    instruction, and no other. *)
Theorem idt_complete t : length (x64_idt t) = 256%nat -> (forall h, 0 <= adr h < u64max) ->
  exists t', init_idt_descriptor adr adr_idt t = Ret (tt, t') /\
    forall v, 0 <= v < 256 -> exists h, stub h = expected v /\ enter t' v None = Some (SELECTOR_KERNEL_CS, adr h) /\
      forall cpl, 0 <= cpl <= 3 -> enter t' v (Some cpl) = if (cpl =? 0) || user_vector v then Some (SELECTOR_KERNEL_CS, adr h) else None.
Proof.
  intros Hlen Hadr. exists (idt_after t). split; [apply init_idt_eq|]. intros v Hv. exists (entry_of v).
  pose proof (calls_ok v Hv) as Hok. unfold call_ok in Hok. unfold entry_of at 1. destruct (last_call all_calls v None) as [[h p]|] eqn:E; [|done].
  apply andb_true_iff in Hok as [[Hs _]%andb_true_iff _]. apply bool_decide_eq_true in Hs. split; [done|]. split; [by rewrite enter_after|].
  intros cpl Hcpl. rewrite enter_after by done. replace (cpl <=? (if user_vector v then 3 else 0)) with ((cpl =? 0) || user_vector v); [done|]. destruct (user_vector v); lia.
Qed.

(** ** Segments *)

Definition gdt_after (t : tabs) : tabs :=
  let hi := u32 (Z.land (Z.shiftr adr_tss 32) 0xffffffff) in
  Tabs (x64_idt t) (<[7%nat := Descriptor (u16 hi) (Z.shiftr hi 16) 0 0 0 0]> (<[6%nat := seg_descriptor adr_tss 103 DA_386TSS]>
    (<[4%nat := seg_descriptor 0 0 0x20f2]> (<[3%nat := seg_descriptor 0 0 0x20fa]> (<[2%nat := seg_descriptor 0 0 0x2092]> (<[1%nat := seg_descriptor 0 0 0x209a]> (<[0%nat := seg_descriptor 0 0 0]> (x64_gdt t))))))))
    (79, adr_gdt) (x64_iidt_reg t) (79, adr_gdt) (idtr t) 0x30 8 0x10.
Lemma init_gdt_eq t : init_descriptor adr_gdt adr_tss t = Ret (tt, gdt_after t).
Proof. reflexivity. Qed.

Lemma tss_base_eq : 0 <= adr_tss < u64max ->
  tss_base (seg_descriptor adr_tss 103 DA_386TSS) (let hi := u32 (Z.land (Z.shiftr adr_tss 32) 0xffffffff) in Descriptor (u16 hi) (Z.shiftr hi 16) 0 0 0 0) = adr_tss.
Proof.
  intros H. unfold tss_base, seg_base, seg_descriptor. cbn [base_low base_mid base_high limit_low]. change 0xFFFF with (2 ^ 16 - 1). change 0xFF with (2 ^ 8 - 1). change 0xffffffff with (2 ^ 32 - 1).
  rewrite !u32_mod, !u16_mod, u8_mod, !land_mod, !Z.shiftr_div_pow2, !Z.shiftl_mul_pow2, !Zmod_mod by done. unfold u64max in H. change (2 ^ 64) with 18446744073709551616 in H.
  change (2 ^ 8) with 256. change (2 ^ 16) with 65536. change (2 ^ 24) with 16777216. change (2 ^ 32) with 4294967296. Z.to_euclidean_division_equations. lia.
Qed.

(** The segments.  After [init_descriptor] the selectors that the kernel and its threads
    use name what they should: present 64-bit code and writable data of level 0 for the
    kernel and of level 3 for programs, and the task register names the task segment at
    its full 64-bit address with its limit. *)
Theorem segments_ok t : length (x64_gdt t) = 10%nat -> 0 <= adr_tss < u64max ->
  exists t', init_descriptor adr_gdt adr_tss t = Ret (tt, t') /\ cs t' = K_CS_IDX /\ ds t' = K_DS_IDX /\
    (forall sel ty lvl, (sel, ty, lvl) ∈ [(K_CS_IDX, 0x1a, 0); (K_DS_IDX, 0x12, 0); (U_CS_IDX, 0x1a, 3); (U_DS_IDX, 0x12, 3)] ->
       exists x, seg_of t' sel = Some x /\ seg_present x = true /\ seg_type x = ty /\ seg_dpl x = lvl /\ seg_long x = true) /\
    exists x y, seg_of t' (tr t') = Some x /\ seg_of t' (tr t' + 8) = Some y /\ seg_present x = true /\ seg_type x = 9 /\ seg_limit x = sizeof_x64tss_t - 1 /\ tss_base x y = adr_tss.
Proof.
  intros Hlen Htss. exists (gdt_after t). destruct t as [idt gdt ? ? ? ? ? ? ?]. cbn in Hlen. do 10 (destruct gdt as [|? gdt]; [done|]). destruct gdt; [|done].
  split; [apply init_gdt_eq|]. split_and!; [done|done| |].
  - intros sel ty lvl H. repeat (apply elem_of_cons in H as [H|H]; [injection H as -> -> ->; by eexists|]). by apply elem_of_nil in H.
  - eexists _, _. split_and!; [reflexivity|reflexivity|reflexivity|reflexivity|reflexivity|by apply tss_base_eq].
Qed.
End tables.

(** ** Request lines *)

(** A request on line [l] passes the masks; lines 8 to 15 come through line 2 of the first
    controller.  The vector is the base of the controller and the line. *)
Definition open_line (c : chips) (l : Z) : bool :=
  if l <? 8 then negb (Z.testbit (pic_imr (c_master c)) l) else negb (Z.testbit (pic_imr (c_master c)) 2) && negb (Z.testbit (pic_imr (c_slave c)) (l - 8)).
Definition line_vector (c : chips) (l : Z) : Z :=
  if l <? 8 then Z.land (pic_icw2 (c_master c)) 0xf8 + l else Z.land (pic_icw2 (c_slave c)) 0xf8 + (l - 8).

(** The command words have been given: vectors from 0x20 and 0x28, the second controller
    on line 2, the mode of this processor. *)
Definition set_up (base icw3 : Z) (p : i8259a) : Prop := pic_step p = 0 /\ pic_icw1 p = ICW1 /\ pic_icw2 p = base /\ pic_icw3 p = icw3 /\ pic_icw4 p = ICW4.

(** Exactly the lines [E] have been opened; opening one above 7 opens line 2 as well. *)
Definition opened (E : list Z) (i : Z) : Prop := i ∈ E \/ (i = 2 /\ Exists (fun l => 8 <= l) E).
#[global] Instance opened_dec E i : Decision (opened E i) := _.
Record lines (c : chips) (E : list Z) : Prop := {
  lines_master : set_up 0x20 4 (c_master c);
  lines_slave : set_up 0x28 2 (c_slave c);
  lines_low i : 0 <= i < 8 -> Z.testbit (pic_imr (c_master c)) i = negb (bool_decide (opened E i));
  lines_high i : 0 <= i < 8 -> Z.testbit (pic_imr (c_slave c)) i = negb (bool_decide (i + 8 ∈ E))
}.

Definition masked (m : Z) (p : i8259a) : i8259a := I8259a (pic_icw1 p) (pic_icw2 p) (pic_icw3 p) (pic_icw4 p) m (pic_isr p) 0.
Lemma mask_write base icw3 m p : set_up base icw3 p -> pic_data m p = masked m p /\ set_up base icw3 (masked m p).
Proof. intros (H0 & H). unfold pic_data. rewrite H0. by split; [|split]. Qed.

Lemma low_bit i : 0 <= i < 8 -> forall x, Z.testbit (u8 x) i = Z.testbit x i.
Proof. intros Hi x. unfold u8. rewrite Z.land_spec. change 0xff with (Z.ones 8). rewrite Z.ones_spec_low by lia. apply andb_true_r. Qed.
Lemma open_bit a l i : 0 <= l -> 0 <= i < 8 -> Z.testbit (Z.land a (u8 (Z.lnot (Z.shiftl 1 l)))) i = Z.testbit a i && negb (i =? l).
Proof. intros Hl Hi. rewrite Z.land_spec, low_bit, Z.lnot_spec, Z.shiftl_1_l, Z.pow2_bits_eqb by lia. by rewrite Z.eqb_sym. Qed.
Lemma close_bit a l i : 0 <= l -> 0 <= i < 8 -> Z.testbit (Z.lor a (u8 (Z.shiftl 1 l))) i = Z.testbit a i || (i =? l).
Proof. intros Hl Hi. rewrite Z.lor_spec, low_bit, Z.shiftl_1_l, Z.pow2_bits_eqb by lia. by rewrite Z.eqb_sym. Qed.

Lemma ff_bit i : 0 <= i < 8 -> Z.testbit 0xff i = true.
Proof. intros Hi. change 0xff with (Z.ones 8). by rewrite Z.ones_spec_low. Qed.

Lemma init_i8259_eq c : exists c', init_i8259 c = Ret (tt, c') /\ lines c' [].
Proof.
  exists (Chips (I8259a ICW1 ZICW2 ZICW3 ICW4 0xff (pic_isr (c_master c)) 0) (I8259a ICW1 SICW2 SICW3 ICW4 0xff (pic_isr (c_slave c)) 0) (c_timer c)).
  split; [reflexivity|]. split; [done|done| |]; cbn [c_master c_slave pic_imr]; intros i Hi; rewrite ff_bit by done.
  - rewrite bool_decide_eq_false_2; [done|]. by intros [?%elem_of_nil|[_ ?%Exists_nil]].
  - rewrite bool_decide_eq_false_2; [done|]. apply not_elem_of_nil.
Qed.

Lemma enabled_line_eq c E l : lines c E -> 0 <= l <= 16 -> exists c', i8259_enabled_line l c = Ret (tt, c') /\ lines c' (l :: E).
Proof.
  intros [Hm Hs Hlo Hhi] Hl. unfold i8259_enabled_line. destruct (Z.ltb_spec l 8) as [Hl8|Hl8].
  - destruct (mask_write _ _ (Z.land (pic_imr (c_master c)) (u8 (Z.lnot (Z.shiftl 1 l)))) _ Hm) as [Ew Hw].
    exists (on_master (pic_data (Z.land (pic_imr (c_master c)) (u8 (Z.lnot (Z.shiftl 1 l))))) c). split; [reflexivity|]. unfold on_master. rewrite Ew. split; [done|done| |]; cbn [c_master c_slave pic_imr masked]; intros i Hi.
    + rewrite open_bit, Hlo by lia. rewrite <- negb_orb. f_equal. apply eq_bool_prop_intro. unfold opened. rewrite orb_True, !bool_decide_spec, Is_true_true, Z.eqb_eq, elem_of_cons, Exists_cons. intuition lia.
    + rewrite Hhi by done. f_equal. apply bool_decide_ext. rewrite elem_of_cons. intuition lia.
  - destruct (mask_write _ _ (Z.land (pic_imr (c_master c)) (u8 (Z.lnot (Z.shiftl 1 2)))) _ Hm) as [Ew Hw].
    destruct (mask_write _ _ (Z.land (pic_imr (c_slave c)) (u8 (Z.lnot (Z.shiftl 1 (l - 8))))) _ Hs) as [Ew' Hw'].
    exists (on_slave (pic_data (Z.land (pic_imr (c_slave c)) (u8 (Z.lnot (Z.shiftl 1 (l - 8)))))) (on_master (pic_data (Z.land (pic_imr (c_master c)) (u8 (Z.lnot (Z.shiftl 1 2))))) c)).
    split; [reflexivity|]. unfold on_master, on_slave. cbn [c_master c_slave c_timer]. rewrite Ew, Ew'. split; [done|done| |]; cbn [c_master c_slave pic_imr masked]; intros i Hi.
    + rewrite open_bit, Hlo by lia. rewrite <- negb_orb. f_equal. apply eq_bool_prop_intro. unfold opened. rewrite orb_True, !bool_decide_spec, Is_true_true, Z.eqb_eq, elem_of_cons, Exists_cons. intuition lia.
    + rewrite open_bit, Hhi by lia. rewrite <- negb_orb. f_equal. apply eq_bool_prop_intro. rewrite orb_True, !bool_decide_spec, Is_true_true, Z.eqb_eq, elem_of_cons. intuition lia.
Qed.

Lemma lines_open c E l : lines c E -> 0 <= l < 16 -> open_line c l = bool_decide (opened E l) /\ line_vector c l = 0x20 + l.
Proof.
  intros [(_ & _ & Hm & _) (_ & _ & Hs & _) Hlo Hhi] Hl. unfold open_line, line_vector. rewrite Hm, Hs. destruct (Z.ltb_spec l 8) as [Hl8|Hl8].
  - rewrite Hlo, negb_involutive by lia. done.
  - rewrite Hlo, Hhi, !negb_involutive by lia. replace (l - 8 + 8) with l by lia. split; [|change (Z.land 0x28 0xf8) with 0x28; lia]. apply eq_bool_prop_intro. unfold opened.
    rewrite andb_True, !bool_decide_spec. rewrite Exists_exists. split; [tauto|]. intros [H|[H _]]; [|lia]. split; [right|done]. split; [done|]. by exists l.
Qed.

(** ** From a device to the entry point *)

Section path.
Context {S : Type} {HM : MemOps S} (adr : inthandler_t -> Z) (adr_idt adr_gdt adr_tss : Z).
Implicit Types (d : dst S).

Lemma enable_lines ns : Forall (fun n => 20 <= n <= 36) ns -> forall d E, lines (d_chips d) E ->
  exists c', for_each ns (fun n => r ← krlenable_intline n; die_if (r =? DFCERRSTUS) "line") d = Ret (tt, with_chips c' d) /\ lines c' (reverse ((fun n => n - 20) <$> ns) ++ E).
Proof.
  induction 1 as [|n ns Hn _ IH]; intros d E HE.
  - exists (d_chips d). split; [by destruct d|done].
  - destruct (enabled_line_eq _ _ (n - 20) HE ltac:(lia)) as (c1 & E1 & H1). destruct (IH (with_chips c1 d) _ H1) as (c' & E2 & H2). exists c'. split.
    + cbn [for_each]. rewrite (bind_eq _ _ d tt (with_chips c1 d)); [exact E2|]. unfold krlenable_intline, hal_enable_intline. replace ((n <? 20) || (36 <? n)) with false by lia.
      rewrite (bind_eq _ _ d DFCOKSTUS (with_chips c1 d)); [done|]. unfold on_chips, mbind, M_bind. by rewrite E1.
    + cbn [fmap list_fmap]. rewrite reverse_cons, <- app_assoc. exact H2.
Qed.

Lemma ints_init h l : exists g, for_each l (fun i => modify (fun h => Hwst (h_tabs h) (h_chips h) (<[i := intfltdsc_t_init]> (h_ints h)))) h = Ret (tt, Hwst (h_tabs h) (h_chips h) g) /\
  forall i, (i ∈ l \/ h_ints h !! i = Some intfltdsc_t_init) -> g !! i = Some intfltdsc_t_init.
Proof.
  revert h. induction l as [|i l IH]; intros h.
  - exists (h_ints h). split; [by destruct h|]. intros i [Hi%elem_of_nil|Hi]; done.
  - destruct (IH (Hwst (h_tabs h) (h_chips h) (<[i := intfltdsc_t_init]> (h_ints h)))) as (g & E & Hg). exists g. split; [exact E|]. intros j [[->|Hj]%elem_of_cons|Hj]; apply Hg; cbn [h_ints].
    + right. by rewrite lookup_insert_eq.
    + by left.
    + right. destruct (decide (i = j)) as [->|]; [by rewrite lookup_insert_eq|by rewrite lookup_insert_ne].
Qed.

Definition tabs_after (t : tabs) : tabs := idt_after adr adr_idt (gdt_after adr_gdt adr_tss t).

Lemma init_halintupt_eq h : exists c g, init_halintupt adr adr_idt adr_gdt adr_tss h = Ret (tt, Hwst (tabs_after (h_tabs h)) c g) /\ lines c [] /\ (forall i, 0 <= i < IDTMAX -> g !! i = Some intfltdsc_t_init).
Proof.
  destruct (init_i8259_eq (h_chips h)) as (c & Ec & Hc). destruct (ints_init (Hwst (tabs_after (h_tabs h)) (h_chips h) (h_ints h)) (seqZ 0 IDTMAX)) as (g & Eg & Hg). exists c, g.
  split_and!; [|done|intros i Hi; apply Hg; left; apply elem_of_seqZ; lia]. unfold init_halintupt. unfold mbind at 1, M_bind at 1. unfold on_tabs at 1. rewrite init_gdt_eq.
  unfold mbind at 1, M_bind at 1. unfold on_tabs at 1. cbn [h_tabs h_chips h_ints]. rewrite init_idt_eq. unfold mbind at 1, M_bind at 1, init_intfltdsc. unfold tabs_after in Eg. rewrite Eg. cbn [h_tabs h_chips h_ints].
  unfold on_hchips. cbn [h_chips]. by rewrite Ec.
Qed.

(** C11: device interrupts, from the chip to the handler.  After the set-up of the hardware
    layer every line is closed and every interrupt descriptor is fresh.  When drivers
    then open lines through the kernel, the lines open are exactly the ones asked for
    (and line 2 when one comes from the second controller); and a request on line [l]
    is delivered at vector 0x20 + l, whose gate goes to the entry point that calls
    [hal_hwint_allocator] with this vector, under which the drivers put their handlers. *)
Theorem irq_reaches_handler h ns : length (x64_idt (h_tabs h)) = 256%nat -> (forall x, 0 <= adr x < u64max) -> Forall (fun n => 20 <= n <= 36) ns ->
  exists h', init_halintupt adr adr_idt adr_gdt adr_tss h = Ret (tt, h') /\
    (forall l, 0 <= l < 16 -> open_line (h_chips h') l = false) /\ (forall i, 0 <= i < IDTMAX -> h_ints h' !! i = Some intfltdsc_t_init) /\
    forall d, d_chips d = h_chips h' ->
      exists c, for_each ns (fun n => r ← krlenable_intline n; die_if (r =? DFCERRSTUS) "line") d = Ret (tt, with_chips c d) /\
        forall l, 0 <= l < 16 -> open_line c l = bool_decide (l + 20 ∈ ns \/ (l = 2 /\ Exists (fun n => 28 <= n) ns)) /\
          line_vector c l = 0x20 + l /\ enter (h_tabs h') (line_vector c l) None = Some (SELECTOR_KERNEL_CS, adr (hxi_hwint l)) /\ stub (hxi_hwint l) = ToHwint (0x20 + l).
Proof.
  intros Hlen Hadr Hns. destruct (init_halintupt_eq h) as (c0 & g & E & Hc0 & Hg). eexists. split; [exact E|]. cbn [h_chips h_tabs h_ints]. split_and!; [|exact Hg|].
  - intros l Hl. destruct (lines_open c0 [] l Hc0 Hl) as [-> _]. apply bool_decide_eq_false_2. by intros [?%elem_of_nil|[_ ?%Exists_nil]].
  - intros d Hd. rewrite <- Hd in Hc0. destruct (enable_lines ns Hns d [] Hc0) as (c & E2 & Hc). exists c. split; [exact E2|]. intros l Hl. destruct (lines_open c _ l Hc Hl) as [-> Hv]. rewrite Hv. split_and!; [|done| |done].
    + apply bool_decide_ext. unfold opened. rewrite app_nil_r, !Exists_exists. setoid_rewrite elem_of_reverse. setoid_rewrite list_elem_of_fmap. split.
      * intros [(n & -> & Hn)|(H1 & x & (n & -> & Hn) & Hx)]; [left; by replace (n - 20 + 20) with n by lia|right]. split; [done|]. exists n. split; [done|lia].
      * intros [H|(H1 & n & Hn & Hx)]; [left; exists (l + 20); split; [lia|done]|right]. split; [done|]. exists (n - 20). split; [by exists n|lia].
    + unfold tabs_after. rewrite enter_after by (done || lia). cbn. do 3 f_equal. pose proof (calls_ok (0x20 + l) ltac:(lia)) as Hok. unfold call_ok in Hok. unfold entry_of. destruct (last_call _ _ _) as [[x p]|]; [|done].
      apply andb_true_iff in Hok as [_ Hx]. replace ((0x20 <=? 0x20 + l) && (0x20 + l <? 0x38)) with true in Hx by lia. apply bool_decide_eq_true in Hx as ->. f_equal. lia.
Qed.
End path.

(** ** Closing lines, saving and restoring the masks *)

Lemma lor_low a b k : 0 <= k -> 0 <= b < 2 ^ k -> Z.lor (a * 2 ^ k) b = a * 2 ^ k + b.
Proof.
  intros Hk Hb. rewrite <- Z.shiftl_mul_pow2 by done. assert (Hz : Z.land (Z.shiftl a k) b = 0).
  { rewrite <- (Z.mod_small b (2 ^ k)) by done. rewrite <- Z.land_ones by done. apply Z.bits_inj'. intros n Hn. rewrite !Z.land_spec, Z.shiftl_spec, Z.bits_0 by done.
    destruct (decide (n < k)) as [Hl|Hl]; [by rewrite (Z.testbit_neg_r a) by lia|]. by rewrite Z.ones_spec_high, !andb_false_r by lia. }
  rewrite <- Z.lxor_lor by done. symmetry. by apply Z.add_nocarry_lxor.
Qed.

(** The masks come back as they were, whatever the lines closed in between. *)
Lemma save_restore c c1 sv l : set_up 0x20 4 (c_master c) -> set_up 0x28 2 (c_slave c) -> 0 <= pic_imr (c_master c) < 256 -> 0 <= pic_imr (c_slave c) < 256 ->
  i8259_save_disableline l c = Ret (sv, c1) -> i8259_rest_enabledline sv l c1 = Ret (tt, c).
Proof.
  intros (Hm0 & Hm) (Hs0 & Hs) Hbm Hbs E. destruct c as [[a1 a2 a3 a4 mm ai a0] [b1 b2 b3 b4 ms bi b0] tm]. cbn in Hm0, Hs0, Hbm, Hbs. subst a0 b0.
  assert (Hsv : sv = Z.lor (u32 (Z.shiftl mm 8)) ms /\ exists m' s', c1 = Chips (I8259a a1 a2 a3 a4 m' ai 0) (I8259a b1 b2 b3 b4 s' bi 0) tm).
  { unfold i8259_save_disableline, i8259_disable_line in E. destruct (l <? 8) in E; injection E as <- <-; (split; [done|]); by eexists _, _. }
  destruct Hsv as [-> (m' & s' & ->)].
  assert (Hu : u32 (Z.lor (u32 (Z.shiftl mm 8)) ms) = Z.shiftl mm 8 + ms).
  { rewrite (u32_mod (Z.shiftl mm 8)), Z.shiftl_mul_pow2 by done. change (2 ^ 8) with 256. change (2 ^ 32) with 4294967296. rewrite (Z.mod_small (mm * 256)) by lia.
    assert (El : Z.lor (mm * 256) ms = mm * 256 + ms) by (apply (lor_low mm ms 8); lia).
    rewrite El, u32_mod. change (2 ^ 32) with 4294967296. apply Z.mod_small. lia. }
  unfold i8259_rest_enabledline. rewrite Hu. change 0xff with (2 ^ 8 - 1). rewrite land_mod, u8_mod, Z.shiftr_div_pow2, Z.shiftl_mul_pow2 by done.
  change (2 ^ 8) with 256. replace ((mm * 256 + ms) mod 256) with ms by (rewrite Z.add_comm, Z_mod_plus_full, Z.mod_small; lia). replace ((mm * 256 + ms) / 256) with mm by (rewrite Z.add_comm, Z_div_plus_full, Z.div_small; lia).
  rewrite (Z.mod_small mm 256) by lia. reflexivity.
Qed.

(** Closing one line of the second controller closes line 2, and so all of its lines. *)
Lemma disable_closes_all c l : set_up 0x20 4 (c_master c) -> set_up 0x28 2 (c_slave c) -> 8 <= l <= 16 ->
  wp (i8259_disable_line l) c (fun _ c' => forall l', 8 <= l' < 16 -> open_line c' l' = false).
Proof.
  intros Hm Hs Hl. destruct (mask_write _ _ (Z.lor (pic_imr (c_master c)) (u8 (Z.shiftl 1 2))) _ Hm) as [Ew Hw]. unfold i8259_disable_line. replace (l <? 8) with false by lia.
  unfold wp, out_u8_p, in_u8, gets, modify, mbind, M_bind. cbn [Z.eqb Pos.eqb _INTM_CTL _INTM_CTLMASK _INTS_CTL _INTS_CTLMASK]. intros l' Hl'. unfold open_line. replace (l' <? 8) with false by lia. unfold on_slave, on_master.
  cbn [c_master c_slave]. rewrite Ew. cbn [pic_imr masked]. by rewrite close_bit, orb_true_r by lia.
Qed.

(** ** Examples *)

(** Entry points 16 bytes apart in the kernel's half *)
Definition demo_adr (h : inthandler_t) : Z := u64 (0xffff800002000000 + 16 * match stub h with ToFault n _ => n | ToHwint n => 0x200 + n | ToService => 0x400 end).
Definition demo_tabs : tabs := Tabs (replicate 256 (Gate 0 0 0 0 0 0 0)) (replicate 10 (Descriptor 0 0 0 0 0 0)) (0, 0) (0, 0) (0, 0) (0, 0) 0 0 0.

Lemma demo_adr_ok h : 0 <= demo_adr h < u64max.
Proof. apply u64_range. Qed.

Lemma idt_complete_witness : exists t', init_idt_descriptor demo_adr 0xffff800002010000 demo_tabs = Ret (tt, t') /\
  exists h, stub h = ToFault 14 true /\ enter t' 14 None = Some (8, demo_adr h) /\ enter t' 14 (Some 3) = None.
Proof.
  destruct (idt_complete demo_adr 0xffff800002010000 demo_tabs eq_refl demo_adr_ok) as (t' & E & H). exists t'. split; [exact E|].
  destruct (H 14 ltac:(lia)) as (h & Hs & He & Hu). exists h. split; [exact Hs|]. split; [exact He|]. exact (Hu 3 ltac:(lia)).
Defined.

Lemma segments_ok_witness : exists t', init_descriptor 0xffff800002011000 0xffff800002012000 demo_tabs = Ret (tt, t') /\
  exists x, seg_of t' U_CS_IDX = Some x /\ seg_dpl x = 3.
Proof.
  destruct (segments_ok 0xffff800002011000 0xffff800002012000 demo_tabs eq_refl ltac:(by vm_compute)) as (t' & E & _ & _ & H & _). exists t'. split; [exact E|].
  destruct (H U_CS_IDX 0x1a 3) as (x & Hx & _ & _ & Hd & _); [by do 2 right; left|]. exists x. split; [exact Hx|exact Hd].
Defined.

Lemma irq_reaches_handler_witness : exists h', init_halintupt demo_adr 0 0 0 (Hwst demo_tabs no_chips ∅) = Ret (tt, h') /\
  forall d : dst Z, d_chips d = h_chips h' ->
    exists c, for_each [20; 21] (fun n => r ← krlenable_intline n; die_if (r =? DFCERRSTUS) "line") d = Ret (tt, with_chips c d) /\
      open_line c 1 = true /\ open_line c 3 = false /\ enter (h_tabs h') (line_vector c 1) None = Some (8, demo_adr (hxi_hwint 1)).
Proof.
  destruct (irq_reaches_handler (S := Z) demo_adr 0 0 0 (Hwst demo_tabs no_chips ∅) [20; 21] eq_refl demo_adr_ok) as (h' & E & _ & _ & H); [repeat constructor; lia|].
  exists h'. split; [exact E|]. intros d Hd. destruct (H d Hd) as (c & Ec & Hl). exists c. split; [exact Ec|].
  destruct (Hl 1 ltac:(lia)) as (H1 & _ & Hv & _). destruct (Hl 3 ltac:(lia)) as (H3 & _). rewrite H1, H3. split; [reflexivity|]. split; [reflexivity|exact Hv].
Defined.

(** The timer counts down from 1194: about a thousand interrupts in a second. *)
Lemma timer_count c : wp init_8254 c (fun _ c' => c_timer c' = I8254 TIMEMODE 1194 None).
Proof. reflexivity. Qed.
