(* ===== verification/KbdSpec.v ===== *)
(** * The keyboard: theorems

    The interrupt handler of the serial driver, the reader that sleeps until a key
    comes, and what a burst of keys leaves. *)

From S2P Require Import Prelude Bytes Intr Boot PhyMem PageIf ObjIf Kmsob Kmempool Sched SchedInv SchedMoves SchedOps SchedSpec SchedCorrect MemIf Rfs RfsMem RfsSpec Kbd Device DeviceSpec ServiceInv Kernel KernelSpec.
#[local] Open Scope Z_scope.

(** ** Scan codes *)

(** The key of a scan code, whether pressed or released *)
Definition key_of (scan : Z) : Z := default 0 (kbd_map_code (scan mod 128) MAP_COLS).
(** What the handler puts into the buffer: the code of a pressed key, the code of a
    released key, the key. *)
Definition key_words (scan : Z) : list Z := if scan <? 128 then [scan; 0; key_of scan] else [0; scan; key_of scan].

Definition scan_ok (scan : Z) : bool :=
  (if scan <? 128 then (Z.land scan 0x80 =? 0) && bool_decide (kbd_map_code scan 3 = Some (key_of scan))
   else (Z.land scan 0x80 =? 0x80) && bool_decide (kbd_map_code (Z.land scan 0x7f) 3 = Some (key_of scan))).
Lemma scan_ok_all : forallb scan_ok (seqZ 0 256) = true.
Proof. vm_compute. reflexivity. Qed.
Lemma scan_codes scan : 0 <= scan < 256 -> scan_ok scan = true.
Proof. intros H. pose proof scan_ok_all as E. rewrite forallb_forall in E. apply E, list_elem_of_In, elem_of_seqZ. lia. Qed.

Lemma write_scan_spec k st scan : 0 <= scan < 256 -> (3 <= length (kb_buff k))%nat ->
  exists k', kbd_write_scan k st scan = Some (k', if scan <? 128 then 1 else 2) /\ kb_buff k' = key_words scan ++ drop 3 (kb_buff k).
Proof.
  intros Hs Hl. pose proof (scan_codes scan Hs) as Hok. unfold scan_ok in Hok. unfold kbd_write_scan, key_words.
  destruct (kb_buff k) as [|a [|b [|c r]]] eqn:Eb; cbn [length] in Hl; [lia..|].
  destruct (scan <? 128); apply andb_true_iff in Hok as [E1 E2]; apply bool_decide_eq_true in E2; apply Z.eqb_eq in E1; rewrite E1; cbn -[Z.land]; rewrite E2;
    (eexists; split; [reflexivity|]; cbn; by rewrite Eb).
Qed.

(** ** The driver *)

Section keyboard.
Context {S : Type} {HMO : MemOps S}.
Implicit Types (d : dst S).

Lemma wp_on_sys {A} (m : M sys A) d (Q : A -> dst S -> Prop) : wp m (d_sys d) (fun a s => Q a (with_sys s d)) -> wp (on_sys m) d Q.
Proof. unfold wp, on_sys. by destruct (m (d_sys d)) as [[a s]| | |]. Qed.

(** Device [devp] is the keyboard at [a], with the words [bf] in its buffer and the
    semaphore [y]. *)
Record keyboard (devp a : Z) (bf : list Z) (y : sem_t) d : Prop := {
  kb_dev : exists x, d_devs d !! devp = Some x /\ dev_extdata x = a;
  kb_adr : devp <> 0 /\ a <> 0;
  kb_rec : exists k, kbds (d_kbd d) !! a = Some k /\ kb_buff k = bf;
  kb_len : length bf = 64%nat;
  kb_sem : sems (d_sys d) !! a = Some y
}.

(** The state with [scan] in the register of the controller *)
Definition key_event (scan : Z) d : dst S := with_kbd (Kbdst (kbds (d_kbd d)) (kbd_dowup_stat (d_kbd d)) scan (kb_printed (d_kbd d))) d.

(** Everything but the scheduler and the keyboards *)
Definition same_rest d d' : Prop := d' = with_sys (d_sys d') (with_kbd (d_kbd d') d).

Lemma handle_spec devp a bf y d nr : SInv (d_sys d) -> keyboard devp a bf y d -> sem_count y + 1 < 2 ^ 63 -> 0 <= kb_data (d_kbd d) < 256 ->
  wp (uart_handle nr devp) d (fun r d' => r = DFCOKSTUS /\ SInv (d_sys d') /\ same_rest d d' /\ kb_data (d_kbd d') = kb_data (d_kbd d) /\
    keyboard devp a (key_words (kb_data (d_kbd d)) ++ drop 3 bf) (Sem (sem_flg y) (sem_count y + 1) kwlst_t_init) d' /\
    sems (d_sys d') = <[a := Sem (sem_flg y) (sem_count y + 1) kwlst_t_init]> (sems (d_sys d)) /\
    forall t, t ∈ wl_list (sem_waitlst y) -> in_ready (d_sys d') t).
Proof.
  intros HI [(x & Hx & Ex) [H1 H2] (k & Hk & Ek) Hl Hy] Hc Hd. set (scan := kb_data (d_kbd d)) in *.
  assert (Hu : u8 scan = scan) by (unfold u8; change 0xff with (Z.ones 8); rewrite Z.land_ones by lia; apply Z.mod_small; lia).
  destruct (write_scan_spec k (kbd_dowup_stat (d_kbd d)) scan Hd ltac:(rewrite Ek, Hl; lia)) as (k' & Hw & Ek').
  unfold uart_handle. apply wp_bind. rewrite (wp_det _ _ _ _ _ (get_dev_eq devp x d Hx)), Ex. replace ((devp =? 0) || (a =? 0)) with false by lia.
  unfold read_keybd. apply wp_bind, wp_bind, wp_gets, wp_ret. fold scan. rewrite Hu. apply wp_bind. rewrite (wp_det _ d k d) by (unfold get_kbd; by rewrite Hk).
  apply wp_bind, wp_gets. rewrite Hw. apply wp_bind. unfold put_kbd. apply wp_modify, wp_bind, wp_on_sys.
  eapply wp_mono; [apply (sem_up_wakes (d_sys d) a y HI Hy Hc)|]. intros [] s' (HI' & Hs' & Hready). apply wp_ret. split_and!; [done|done|by destruct d|done| |done|done].
  split; cbn; [by exists x|done| |by rewrite length_app, length_drop, Hl; unfold key_words; destruct (scan <? 128)|by rewrite Hs', lookup_insert_eq].
  exists k'. by rewrite lookup_insert_eq, Ek', Ek.
Qed.

(** The packet at [p] asks for [len] bytes into buffer [b], which has the bytes [l]. *)
Definition request (p b len : Z) (l : list Z) d : Prop :=
  p <> 0 /\ (exists n, d_nodes d !! p = Some n /\ on_buf n = b /\ on_len n = len) /\ r_mem (d_rfs d) !! b = Some l /\ 0 <= len /\ Z.min 6 len <= blen l.

(** The bytes that a read of [len] bytes delivers *)
Definition key_bytes (bf : list Z) (len : Z) : list Z := take (Z.to_nat (Z.min 6 len)) (bf ≫= le16).

Lemma rqueparm_eq p b len l d : request p b len l d -> exists o i bo sz, krldev_retn_rqueparm p d = Ret (Some (b, o, len, i, bo, sz), d).
Proof.
  intros (Hp & (n & Hn & <- & <-) & _). do 4 eexists. unfold krldev_retn_rqueparm. replace (p =? 0) with false by lia.
  rewrite (bind_eq _ _ d n d) by (unfold get_node; by rewrite Hn). done.
Qed.

Lemma blen_key_bytes bf len : length bf = 64%nat -> 0 <= len -> blen (key_bytes bf len) = Z.min 6 len.
Proof.
  intros Hl Hn. unfold blen, key_bytes. rewrite length_take. assert (E : length (bf ≫= le16) = (2 * length bf)%nat).
  { clear. induction bf as [|v bf IH]; [done|]. cbn. rewrite IH. lia. } rewrite E. lia.
Qed.

(** The state after a read: a key less is counted, and the buffer has its bytes. *)
Definition delivered a y b l (bs : list Z) d : dst S :=
  with_sys (put_sem a (set_count (sem_count y - 1) y) (d_sys d)) (with_rfs (with_mem (<[b := splice l 0 bs]> (r_mem (d_rfs d))) (d_rfs d)) d).

Lemma read_ready devp a bf y p b len l d : keyboard devp a bf y d -> request p b len l d -> 1 <= sem_count y ->
  uart_read_try devp p d = Ret (Some DFCOKSTUS, delivered a y b l (key_bytes bf len) d).
Proof.
  intros [(x & Hx & Ex) _ (k & Hk & Ek) Hl Hy] Hr Hc. unfold uart_read_try. destruct (rqueparm_eq _ _ _ _ _ Hr) as (o & i & bo & sz & Eq). rewrite (bind_eq _ _ _ _ _ (get_dev_eq devp x d Hx)), (bind_eq _ _ _ _ _ Eq), Ex.
  destruct Hr as (_ & _ & Hb & Hn & Hlen). assert (Hd : krlsem_down_try a (d_sys d) = Ret (true, put_sem a (set_count (sem_count y - 1) y) (d_sys d))).
  { unfold krlsem_down_try, get_sem, upd_sem, put_sem, mbind, M_bind. rewrite Hy. replace (sem_count y <? 1) with false by lia. by rewrite Hy. }
  rewrite (bind_eq _ _ _ _ _ (on_sys_eq _ _ _ _ Hd)). cbv iota. set (d1 := with_sys _ d). assert (Hs : read_rest a b len d1 = Ret (DFCOKSTUS, delivered a y b l (key_bytes bf len) d)).
  { unfold read_rest. rewrite (bind_eq _ _ d1 k d1) by (unfold get_kbd; cbn; by rewrite Hk). replace (if 6 <? len then 6 else len) with (Z.min 6 len) by (destruct (6 <? len) eqn:E; lia).
    unfold buff_bytes. rewrite Ek. fold (key_bytes bf len). assert (E : store b 0 (key_bytes bf len) (d_rfs d1) = Ret (tt, with_mem (<[b := splice l 0 (key_bytes bf len)]> (r_mem (d_rfs d))) (d_rfs d))).
    { unfold store, get_buf, put_buf, modify, mbind, M_bind, in_buf. cbn [d_rfs d1 with_sys]. rewrite Hb, (blen_key_bytes bf len Hl Hn). by replace (_ && _) with true by lia. }
    rewrite (bind_eq _ _ d1 tt (with_rfs (with_mem (<[b := splice l 0 (key_bytes bf len)]> (r_mem (d_rfs d))) (d_rfs d)) d1)) by (unfold on_rfs; by rewrite E). by destruct d. }
  by rewrite (bind_eq _ _ _ _ _ Hs).
Qed.

Lemma read_asleep devp a bf y p b len l c d : SInv (d_sys d) -> keyboard devp a bf y d -> request p b len l d -> sem_count y = 0 ->
  sda_currtd (schda (d_sys d)) = Some c -> sda_cpuidle (schda (d_sys d)) <> Some c ->
  wp (uart_read_try devp p) d (fun r d' => r = None /\ SInv (d_sys d') /\ d' = with_sys (d_sys d') d /\ sda_currtd (schda (d_sys d')) <> Some c /\
    exists y', keyboard devp a bf y' d' /\ sem_count y' = 0 /\ c ∈ wl_list (sem_waitlst y')).
Proof.
  intros HI [(x & Hx & Ex) Hne Hk Hl Hy] Hr Hc Hcur Hidle. unfold uart_read_try. destruct (rqueparm_eq _ _ _ _ _ Hr) as (o & i & bo & sz & Eq). apply wp_bind. rewrite (wp_det _ _ _ _ _ (get_dev_eq devp x d Hx)). apply wp_bind.
  rewrite (wp_det _ _ _ _ _ Eq), Ex. apply wp_bind, wp_on_sys. eapply wp_mono; [by apply (sem_down_behaviour (d_sys d) a y c)|].
  intros [] s' (HI' & H); [lia|]. destruct H as (_ & _ & Hcur' & y' & Hy' & Hc' & Hin). apply wp_ret. split_and!; [done|done|done|done|]. exists y'. split_and!; [|done|done].
  split; cbn; [by exists x|done|done|done|done].
Qed.
Lemma key_bytes_words scan bf len : key_bytes (key_words scan ++ bf) len = take (Z.to_nat (Z.min 6 len)) (key_words scan ≫= le16).
Proof.
  unfold key_bytes. rewrite bind_app. assert (E : length (key_words scan ≫= le16) = 6%nat) by (unfold key_words; by destruct (scan <? 128)).
  rewrite take_app_le by (rewrite E; lia). done.
Qed.

(** ** A burst of keys *)

(** The interrupts for a list of scan codes, and reads one after the other, with the bytes
    that each finds in the buffer *)
Definition keys (devp : Z) (ss : list Z) : M (dst S) unit :=
  for_each ss (fun s => modify (key_event s) ;; _ ← uart_handle 0x21 devp; mret tt).
Fixpoint reads (n : nat) (devp p b len : Z) : M (dst S) (list (list Z)) :=
  match n with
  | O => mret []
  | Datatypes.S n => _ ← uart_read devp p; bs ← on_rfs (load b 0 (Z.min 6 len)); rest ← reads n devp p b len; mret (bs :: rest)
  end.

Lemma keys_spec devp a ss s : forall d bf y, SInv (d_sys d) -> keyboard devp a bf y d -> sem_count y + Z.of_nat (length (ss ++ [s])) < 2 ^ 63 -> Forall (fun s => 0 <= s < 256) (ss ++ [s]) ->
  wp (keys devp (ss ++ [s])) d (fun _ d' => SInv (d_sys d') /\ d_nodes d' = d_nodes d /\ d_rfs d' = d_rfs d /\
    exists y', keyboard devp a (key_words s ++ drop 3 bf) y' d' /\ sem_count y' = sem_count y + Z.of_nat (length (ss ++ [s]))).
Proof.
  unfold keys. induction ss as [|s0 ss IH]; intros d bf y HI HK Hc Hall; cbn [app for_each length] in *; apply Forall_cons in Hall as [Hs Hall];
    apply wp_bind, wp_bind, wp_modify, wp_bind; (eapply wp_mono; [apply (handle_spec devp a bf y (key_event _ d)); [done|by destruct HK|lia|done]|]);
    intros r d1 (_ & HI1 & Hrest & _ & HK1 & _); apply wp_ret; cbn [d_kbd kb_data key_event with_kbd] in HK1.
  - apply wp_ret. split_and!; [done|by rewrite Hrest|by rewrite Hrest|]. eexists. split; [exact HK1|done].
  - eapply wp_mono; [apply (IH d1 _ _ HI1 HK1); [cbn [sem_count]; lia|done]|]. intros [] d2 (HI2 & En & Er & y2 & HK2 & Ec). split_and!; [done|by rewrite En, Hrest|by rewrite Er, Hrest|].
    exists y2. split; [|cbn [sem_count] in Ec; lia]. rewrite skipn_app, skipn_all2 in HK2 by (unfold key_words; by destruct (s0 <? 128)).
    replace (3 - length (key_words s0))%nat with 0%nat in HK2 by (unfold key_words; by destruct (s0 <? 128)). by rewrite drop_0, app_nil_l in HK2.
Qed.

Lemma reads_spec devp a bf p b len n : forall d y l, keyboard devp a bf y d -> request p b len l d -> sem_count y = Z.of_nat n ->
  exists d' y', reads n devp p b len d = Ret (replicate n (key_bytes bf len), d') /\ keyboard devp a bf y' d' /\ sem_count y' = 0.
Proof.
  induction n as [|n IH]; intros d y l HK HR Hc; cbn [reads replicate]; [exists d, y; split_and!; [done|done|lia]|].
  pose proof (read_ready devp a bf y p b len l d HK HR ltac:(lia)) as E. set (d1 := delivered a y b l (key_bytes bf len) d) in E.
  rewrite (bind_eq _ _ d DFCOKSTUS d1) by (unfold uart_read; by rewrite (bind_eq _ _ _ _ _ E)).
  pose proof (kb_len _ _ _ _ _ HK) as Hl. destruct HR as (Hp & Hn & Hb & Hlen & Hsz). pose proof (blen_key_bytes bf len Hl Hlen) as Hbl.
  assert (Hld : on_rfs (load b 0 (Z.min 6 len)) d1 = Ret (key_bytes bf len, d1)).
  { unfold on_rfs, load, get_buf, mbind, M_bind, in_buf. cbn [d_rfs d1 delivered with_sys with_rfs r_mem with_mem]. rewrite lookup_insert_eq, blen_splice by lia.
    replace (_ && _) with true by lia. cbn. rewrite slice_splice_same by lia. by destruct d. }
  rewrite (bind_eq _ _ _ _ _ Hld). destruct (IH d1 (set_count (sem_count y - 1) y) (splice l 0 (key_bytes bf len))) as (d2 & y2 & Er & HK2 & Hc2).
  - destruct HK as [Hd Ha Hk _ Hy]. split; [done|done|done|done|]. cbn. by rewrite lookup_insert_eq.
  - split_and!; [done|done|cbn; by rewrite lookup_insert_eq|done|rewrite blen_splice; lia].
  - cbn [sem_count set_count]. lia.
  - rewrite (bind_eq _ _ _ _ _ Er). by exists d2, y2.
Qed.

(** A burst of keys.  The keyboard has one place for a key and counts the interrupts:
    when keys come faster than they are read, as many reads return at once as there were
    interrupts, and each of them delivers the last key; the others are lost.  After them
    no key is counted any more. *)
Theorem keyboard_burst devp a bf y p b len l ss s d : SInv (d_sys d) -> keyboard devp a bf y d -> request p b len l d -> sem_count y = 0 ->
  Z.of_nat (length (ss ++ [s])) < 2 ^ 63 -> Forall (fun s => 0 <= s < 256) (ss ++ [s]) ->
  exists d' d'' y', keys devp (ss ++ [s]) d = Ret (tt, d') /\ SInv (d_sys d') /\
    reads (length (ss ++ [s])) devp p b len d' = Ret (replicate (length (ss ++ [s])) (take (Z.to_nat (Z.min 6 len)) (key_words s ≫= le16)), d'') /\
    keyboard devp a (key_words s ++ drop 3 bf) y' d'' /\ sem_count y' = 0.
Proof.
  intros HI HK HR Hc Hn Hall. destruct (proj1 (wp_run _ _ _) (keys_spec devp a ss s d bf y HI HK ltac:(lia) Hall)) as ([] & d' & E & HI' & En & Er & y1 & HK1 & Hc1).
  assert (HR1 : request p b len l d') by (unfold request; rewrite En, Er; exact HR).
  destruct (reads_spec devp a _ p b len (length (ss ++ [s])) d' y1 l HK1 HR1 ltac:(lia)) as (d'' & y' & Ers & HK2 & Hc2). exists d', d'', y'. rewrite <- (key_bytes_words s (drop 3 bf) len). done.
Qed.
End keyboard.

(** ** The keyboard in the kernel *)

Section kernel.
Context {S : Type} {HPO : PageOps S} {HOO : ObjOps S} (cmos : Z -> Z).
Implicit Types (k : knl S).

(** The state when the controller raises the interrupt for [scan] *)
Definition key_down (scan : Z) k : knl S := with_dev (key_event scan (k_dev k)) k.

Lemma chkneed_spec s : SInv s -> wp krlsched_chkneed_pmptsched s (fun _ s' => SInv s' /\ sems s' = sems s).
Proof. intros (P & c & HS & Hrun & Hno). by apply (krlsched_chkneed_spec s P c), (running_cases s P c). Qed.

Lemma key_interrupt scan irq i fr devp a bf y k : handler_on irq i Huart devp k -> fr <> 0 -> SInv (d_sys (k_dev k)) -> keyboard devp a bf y (k_dev k) -> sem_count y + 1 < 2 ^ 63 -> 0 <= scan < 256 ->
  wp (hal_hwint_allocator cmos irq fr) (key_down scan k) (fun _ k' => SInv (d_sys (k_dev k')) /\
    keyboard devp a (key_words scan ++ drop 3 bf) (Sem (sem_flg y) (sem_count y + 1) kwlst_t_init) (k_dev k') /\
    d_nodes (k_dev k') = d_nodes (k_dev k) /\ d_rfs (k_dev k') = d_rfs (k_dev k)).
Proof.
  intros Hon Hfr HI HK Hc Hs. unfold hal_hwint_allocator. set (k0 := eoi_done (key_down scan k)). apply wp_bind. rewrite (wp_det _ _ tt k0) by done.
  assert (HK0 : keyboard devp a bf y (k_dev (entered irq i k0))) by (destruct HK; by split).
  pose proof (handle_spec devp a bf y (k_dev (entered irq i k0)) irq HI HK0 Hc Hs) as Hw.
  apply wp_run in Hw as (r & d' & Er & _ & HI' & Hrest & _ & HK' & _).
  assert (Eh : run_handle cmos Huart irq devp (entered irq i k0) = Ret (r, with_dev d' (entered irq i k0))) by (cbn [run_handle]; unfold on_dev; by rewrite Er).
  apply wp_bind. rewrite (wp_det _ _ _ _ _ (do_hwint_run cmos irq i Huart devp fr r k0 _ Hon Hfr Eh ltac:(rewrite Hrest; done))).
  apply wp_on_dev, wp_on_sys. eapply wp_mono; [apply (chkneed_spec (d_sys d')); done|]. intros [] s' [HIs Es]. split_and!; [done| |by rewrite Hrest|by rewrite Hrest].
  destruct HK' as [Hd Ha Hk Hl Hy]. split; [done|done|done|done|]. cbn. by rewrite Es.
Qed.

(** Between [k] and [k'] nobody has used the keyboard, the packet or the buffer. *)
Definition untouched (devp a p b : Z) k k' : Prop :=
  d_devs (k_dev k') !! devp = d_devs (k_dev k) !! devp /\ kbds (d_kbd (k_dev k')) !! a = kbds (d_kbd (k_dev k)) !! a /\ sems (d_sys (k_dev k')) !! a = sems (d_sys (k_dev k)) !! a /\
  d_nodes (k_dev k') !! p = d_nodes (k_dev k) !! p /\ r_mem (d_rfs (k_dev k')) !! b = r_mem (d_rfs (k_dev k)) !! b.

(** C12: a thread that reads from the keyboard when no key has come goes to sleep and the
    processor is given to another one; the interrupt of the next key, through the kernel's
    interrupt path, leaves no thread asleep at the keyboard; and when the reader runs
    again, its call returns with the scan code and the code of that key in its buffer,
    as far as its length allows. *)
Theorem keyboard_reader devp a bf y p b len l c irq i k : SInv (d_sys (k_dev k)) -> keyboard devp a bf y (k_dev k) -> request p b len l (k_dev k) -> handler_on irq i Huart devp k ->
  sem_count y = 0 -> sda_currtd (schda (d_sys (k_dev k))) = Some c -> sda_cpuidle (schda (d_sys (k_dev k))) <> Some c ->
  wp (on_dev (uart_read_try devp p)) k (fun r k1 => r = None /\ in_wait (d_sys (k_dev k1)) c /\ sda_currtd (schda (d_sys (k_dev k1))) <> Some c /\
    forall scan fr, 0 <= scan < 256 -> fr <> 0 -> wp (hal_hwint_allocator cmos irq fr) (key_down scan k1) (fun _ k2 =>
      SInv (d_sys (k_dev k2)) /\ (exists y2, sems (d_sys (k_dev k2)) !! a = Some y2 /\ wl_list (sem_waitlst y2) = []) /\
      forall k3, untouched devp a p b k2 k3 -> exists k4, on_dev (uart_read devp p) k3 = Ret (DFCOKSTUS, k4) /\
        r_mem (d_rfs (k_dev k4)) !! b = Some (splice l 0 (take (Z.to_nat (Z.min 6 len)) (key_words scan ≫= le16))))).
Proof.
  intros HI HK HR Hon Hc Hcur Hidle. apply wp_on_dev. eapply wp_mono; [by apply (read_asleep devp a bf y p b len l c)|].
  intros r d1 (-> & HI1 & Ed1 & Hcur1 & y1 & HK1 & Hc1 & Hin). split_and!; [done|exists a, y1; split; [apply HK1|done]|done|]. intros scan fr Hs Hfr.
  assert (Hon1 : handler_on irq i Huart devp (with_dev d1 k)) by (rewrite Ed1; exact Hon). assert (HR1 : request p b len l d1) by (rewrite Ed1; exact HR).
  eapply wp_mono; [apply (key_interrupt scan irq i fr devp a bf y1 (with_dev d1 k)); [done|done|done|done|lia|done]|].
  intros [] k2 (HI2 & HK2 & En2 & Er2). split_and!; [done|eexists; split; [apply HK2|done]|]. intros k3 (U1 & U2 & U3 & U4 & U5).
  assert (HK3 : keyboard devp a (key_words scan ++ drop 3 bf) (Sem (sem_flg y1) (sem_count y1 + 1) kwlst_t_init) (k_dev k3)) by (destruct HK2; split; rewrite ?U1, ?U2, ?U3; done).
  assert (HR3 : request p b len l (k_dev k3)) by (unfold request; rewrite U4, U5, En2, Er2; exact HR1).
  pose proof (read_ready devp a _ _ p b len l (k_dev k3) HK3 HR3 ltac:(cbn; lia)) as E. eexists. unfold uart_read, on_dev.
  rewrite (bind_eq _ _ _ _ _ E). split; [reflexivity|]. cbn. by rewrite lookup_insert_eq, key_bytes_words.
Qed.
End kernel.

(** ** A keyboard whose semaphore nobody holds, and a thread that reads two bytes *)

Definition demo_packet : objnode_t := Objnode 0 0 IOIF_CODE_READ OBJN_TY_DEV 0x15 0 0 0 2 0 0x2000 0 0x1000 0 0 0.
Definition demo_kbd_dst : dst (pst (kst mmst)) :=
  Dst demo_sys5 (Rst demo_p {[0x2000 := zeros 8]} 0 0 None ∅) devtable_t_init {[0x15 := uart0_set_device (set_dev_ext 7 (set_dev_drv 0x50 device_t_init))]} ∅ {[0x60 := demo_packet]}
    {[0x21 := Intfltdsc 0 0 1 [0x71]]} {[0x71 := Intserdsc 0 0x21 0x15 Huart]} no_chips (Kbdst {[7 := Kboard 0 0 0 (replicate 64 0)]} 0 0 []).
Definition demo_kbd_kernel : knl (kst mmst) := with_dev demo_kbd_dst demo_kernel.

Lemma demo5_inv : SInv demo_sys5.
Proof. apply perform_inv; [exact demo4_inv|]. split; [vm_compute; eexists; reflexivity|vm_compute; congruence]. Qed.
Lemma demo5_sem : sems demo_sys5 !! 7 = Some (Sem 0 0 kwlst_t_init).
Proof. vm_compute. reflexivity. Qed.
Lemma demo_keyboard : keyboard 0x15 7 (replicate 64 0) (Sem 0 0 kwlst_t_init) demo_kbd_dst.
Proof. split; [eexists; split; reflexivity|split; lia|eexists; split; reflexivity|reflexivity|exact demo5_sem]. Qed.
Lemma demo_request : request 0x60 0x2000 2 (zeros 8) demo_kbd_dst.
Proof. split_and!; [lia|eexists; split_and!; reflexivity|reflexivity|lia|vm_compute; congruence]. Qed.

Lemma keyboard_reader_witness : exists k1, on_dev (uart_read_try 0x15 0x60) demo_kbd_kernel = Ret (None, k1) /\
  wp (hal_hwint_allocator demo_cmos 0x21 1) (key_down 0x1e k1) (fun _ k2 => exists k4, on_dev (uart_read 0x15 0x60) k2 = Ret (DFCOKSTUS, k4) /\ r_mem (d_rfs (k_dev k4)) !! 0x2000 = Some [0x1e; 0; 0; 0; 0; 0; 0; 0]).
Proof.
  destruct (proj1 (wp_run _ _ _) (keyboard_reader demo_cmos 0x15 7 (replicate 64 0) (Sem 0 0 kwlst_t_init) 0x60 0x2000 2 (zeros 8) 3000 0x21 (Intfltdsc 0 0 1 [0x71]) demo_kbd_kernel
    demo5_inv demo_keyboard demo_request ltac:(split_and!; [lia|vm_compute; congruence|reflexivity|vm_compute; congruence|reflexivity|eexists _, _; split_and!; reflexivity]) eq_refl ltac:(vm_compute; reflexivity) ltac:(vm_compute; congruence)))
    as (r & k1 & E & -> & _ & _ & H).
  exists k1. split; [exact E|]. eapply wp_mono; [apply (H 0x1e 1); lia|]. intros [] k2 (_ & _ & Hr). destruct (Hr k2) as (k4 & E4 & M4); [by split_and!|]. exists k4. split; [exact E4|]. exact M4.
Defined.

Lemma keyboard_burst_witness : exists d' d'', keys 0x15 [0x1e; 0x9e; 0x30] demo_kbd_dst = Ret (tt, d') /\ reads 3 0x15 0x60 0x2000 2 d' = Ret ([[0x30; 0]; [0x30; 0]; [0x30; 0]], d'').
Proof.
  destruct (keyboard_burst 0x15 7 (replicate 64 0) (Sem 0 0 kwlst_t_init) 0x60 0x2000 2 (zeros 8) [0x1e; 0x9e] 0x30 demo_kbd_dst demo5_inv demo_keyboard demo_request eq_refl) as (d' & d'' & y' & H1 & _ & H2 & _);
    [vm_compute; reflexivity|cbn; repeat constructor; lia|]. exists d', d''. split; [exact H1|exact H2].
Defined.
