(* ===== verification/KbdEntry.v ===== *)
(** * The keyboard: the driver's entry

    What [uart_entry] leaves: the device in the table, its handler on the interrupt,
    the keyboard ready to be read. *)

From S2P Require Import Prelude Bytes Intr PhyMem Boot BootPages PageIf ObjIf MmuCorrect DivMer Kmsob KmsobInv KmsobSpec Kmempool Sched SchedInv SchedMoves SchedOps SchedSpec SchedCorrect MemIf Rfs RfsMem Kbd Device DeviceSpec ServiceInv IntrSpec KbdSpec.
#[local] Open Scope Z_scope.

(** A new semaphore *)
Lemma new_sem_inv s w f : SInv s -> sems s !! w = None -> SInv (put_sem w (Sem f 0 kwlst_t_init) s).
Proof.
  intros (P & c & HS & Hrun & Hno) Hw. exists P, c. split_and!; [|done|].
  - destruct HS as [Hp Hst Ht Hcl Htl Hsem Hex Hnr Hid Hf Hsz]. split; try done.
    + intros t q. rewrite at_put_sem. rewrite <- Hp. destruct q as [?|?|w'| |]; [done|done| |done|done]. case_decide as E; [|done]. subst w'. cbn. rewrite Hw. split; [by intros ?%elem_of_nil|by intros (? & ? & _)].
    + intros w' x Hx'. cbn in Hx'. apply lookup_insert_Some in Hx' as [[<- <-]|[_ Hx]]; [|by apply (Hsem w')]. split_and!; [apply NoDup_nil_2|done|cbn; lia|cbn; lia].
  - intros w' x Hx'. cbn in Hx'. apply lookup_insert_Some in Hx' as [[<- <-]|[_ Hx]]; [done|by apply (Hno w')].
Qed.

Section entry.
Context {S : Type} `{HMA : MemAlloc S} (junk : nat -> nat -> Z).
Implicit Types (d : dst S).

Lemma wp_on_rfs {A} (m : M (rst S) A) d (Q : A -> dst S -> Prop) : wp m (d_rfs d) (fun a s => Q a (with_rfs s d)) -> wp (on_rfs m) d Q.
Proof. unfold wp, on_rfs. by destruct (m (d_rfs d)) as [[a s]| | |]. Qed.

(** The state with the pool [t] *)
Definition with_pool (t : S) d : dst S := with_rfs (Rst t (r_mem (d_rfs d)) (r_fresh (d_rfs d)) (r_denied (d_rfs d)) (r_ext (d_rfs d)) (r_disk (d_rfs d))) d.

Lemma wp_new_dsc sz J d (Q : Z -> dst S -> Prop) : mem_own (r_mm (d_rfs d)) J -> 1 <= sz <= MALCSZ_MAX -> Q 0 d ->
  (forall a t, a <> 0 -> J !! a = None -> mem_own t (<[a := sz]> J) -> Q a (with_pool t d)) -> wp (new_dsc sz) d Q.
Proof.
  intros HO Hsz H0 HQ. unfold new_dsc. apply wp_on_rfs. unfold wp, on_mem. pose proof (mem_new_spec (r_mm (d_rfs d)) J sz HO Hsz) as Hn. unfold wp in Hn.
  destruct (mem_new sz (r_mm (d_rfs d))) as [[a t]| | |]; [|done..]. destruct Hn as [[-> ->]|[Ha Ht]]; [by destruct d as [? [] ? ? ? ? ? ? ? ?]|].
  apply HQ; [|done|done]. pose proof (mem_range t _ a sz Ht (lookup_insert_eq _ _ _)). pose proof base_val. lia.
Qed.

Lemma upd_dev_eq a f x d : d_devs d !! a = Some x -> upd_dev a f d = Ret (tt, with_devs (<[a := f x]> (d_devs d)) d).
Proof. intros E. unfold upd_dev. by rewrite (bind_eq _ _ _ _ _ (get_dev_eq a x d E)). Qed.
Lemma upd_drv_eq a f x d : d_drvs d !! a = Some x -> upd_drv a f d = Ret (tt, with_drvs (<[a := f x]> (d_drvs d)) d).
Proof. intros E. unfold upd_drv, get_drv, modify, mbind, M_bind. by rewrite E. Qed.

(** ** The pieces of the entry *)

Lemma kboard_spec J devp x d (Q : unit -> dst S -> Prop) : mem_own (r_mm (d_rfs d)) J -> (forall a, is_Some (sems (d_sys d) !! a) -> is_Some (J !! a)) -> SInv (d_sys d) ->
  devp <> 0 -> d_devs d !! devp = Some x -> Q tt d ->
  (forall a bf d', SInv (d_sys d') -> keyboard devp a bf (Sem SEM_FLG_MUTEX 0 kwlst_t_init) d' -> head bf = Some 0 ->
     d_tab d' = d_tab d -> d_devs d' = <[devp := set_dev_ext a x]> (d_devs d) -> d_ints d' = d_ints d -> d_sers d' = d_sers d -> d_chips d' = d_chips d -> Q tt d') ->
  wp (init_kboard junk devp) d Q.
Proof.
  intros HO Hs HI H0 Hx Hno HQ. unfold init_kboard. apply wp_bind, (wp_new_dsc _ J); [done|unfold sizeof_kboard_t, MALCSZ_MAX; lia|done|]. intros a t Ha HJ _.
  replace (a =? 0) with false by lia. unfold new_words. apply wp_bind, wp_bind, wp_on_rfs, wp_gets, wp_bind, wp_on_rfs, wp_modify, wp_ret.
  set (ws := _ <$> seq 0 (Z.to_nat 64)). assert (Hl : length ws = 64%nat) by (unfold ws; by rewrite length_fmap, length_seq). clearbody ws.
  apply wp_bind. match goal with |- wp _ ?D _ => rewrite (wp_det _ D _ _ _ (upd_dev_eq devp _ x D Hx)) end.
  apply wp_bind, wp_on_sys, wp_modify, wp_bind, wp_on_sys. unfold krlsem_set_sem, upd_sem, wp. cbn [d_sys with_sys sems with_sems]. rewrite lookup_insert_eq.
  apply (HQ a (<[0%nat := 0]> ws)); cbn; [|split|by destruct ws|done..].
  - rewrite insert_insert_eq. apply (new_sem_inv (d_sys d) a SEM_FLG_MUTEX HI). destruct (sems (d_sys d) !! a) eqn:E; [|done]. destruct (Hs a ltac:(by eexists)). congruence.
  - exists (set_dev_ext a x). cbn. by rewrite lookup_insert_eq.
  - done.
  - eexists. cbn. by rewrite lookup_insert_eq.
  - by rewrite length_insert.
  - cbn. by rewrite lookup_insert_eq.
Qed.

Definition uart_id : devid_t := Devid UART_DEVICE 0 0.
(** The device as it is put into the table *)
Definition uart_device (drvp : Z) : device_t := set_dev_drv drvp (uart0_set_device device_t_init).

(** [register] up to the driver's own part *)
Lemma uart_register J drvp v d K (Q : Z -> dst S -> Prop) : mem_own (r_mm (d_rfs d)) J -> (forall a, is_Some (d_devs d !! a) -> is_Some (J !! a)) -> DevInv d ->
  drvp <> 0 -> d_drvs d !! drvp = Some v -> drv_alldevlist v = [] -> (forall a, ~ registered d a uart_id) -> Q DFCERRSTUS d ->
  (forall devp t d', devp <> 0 -> J !! devp = None -> mem_own (r_mm (d_rfs d')) (<[devp := t]> J) -> DevInv d' -> registered d' devp uart_id -> d_devs d' !! devp = Some (uart_device drvp) ->
     d_sys d' = d_sys d -> d_ints d' = d_ints d -> d_sers d' = d_sers d -> d_chips d' = d_chips d -> wp (K devp) d' Q) ->
  wp (register drvp uart_set_driver uart0_set_device (mret DFCOKSTUS) K) d Q.
Proof.
  intros HO Hdom HI H0 Hv Hl Hno Herr HK. unfold register. replace (drvp =? 0) with false by lia. unfold new_device_dsc. apply wp_bind, wp_bind, (wp_new_dsc _ J); [done|unfold sizeof_device_t, MALCSZ_MAX; lia|by apply wp_ret|].
  intros devp t Hd HJ HO'. replace (devp =? 0) with false by lia. apply wp_bind, wp_modify, wp_ret. replace (devp =? 0) with false by lia.
  assert (Hfree : d_devs d !! devp = None) by (destruct (d_devs d !! devp) eqn:E; [|done]; destruct (Hdom devp ltac:(by eexists)); congruence).
  apply wp_bind. match goal with |- wp _ ?D _ => rewrite (wp_det _ D _ _ _ (upd_drv_eq drvp _ v D Hv)) end.
  apply wp_bind. match goal with |- wp _ ?D _ => rewrite (wp_det _ D _ _ _ (upd_dev_eq devp _ device_t_init D ltac:(cbn; apply lookup_insert_eq))) end.
  apply wp_bind, wp_ret. change (DFCOKSTUS =? DFCERRSTUS) with false. cbn iota. cbn [d_devs with_devs with_drvs d_drvs with_pool with_rfs]. rewrite insert_insert_eq.
  match goal with |- wp _ ?D _ => set (d1 := D) end.
  set (v1 := uart_set_driver v). set (x1 := uart0_set_device device_t_init).
  set (d2 := with_devs (<[devp := uart_device drvp]> (d_devs d1)) (with_drvs (<[drvp := set_drv_devs [devp] v1]> (d_drvs d1)) d1)).
  assert (Hadd : krldev_add_driver devp drvp d1 = Ret (DFCOKSTUS, d2)).
  { unfold krldev_add_driver. replace ((devp =? 0) || (drvp =? 0)) with false by lia. rewrite (bind_eq _ _ d1 x1 d1) by (apply get_dev_eq; cbn; apply lookup_insert_eq).
    rewrite (bind_eq _ _ d1 v1 d1) by (unfold get_drv; cbn; by rewrite lookup_insert_eq). change (drv_alldevlist v1) with (drv_alldevlist v). rewrite Hl. rewrite (bind_eq _ _ d1 None d1) by done.
    rewrite (bind_eq _ _ _ _ _ (upd_drv_eq drvp _ v1 d1 ltac:(cbn; apply lookup_insert_eq))). erewrite bind_eq by (apply (upd_dev_eq devp _ x1); cbn; apply lookup_insert_eq).
    change (drv_alldevlist v1) with (drv_alldevlist v). by rewrite Hl. }
  apply wp_bind. rewrite (wp_det _ _ _ _ _ Hadd). change (DFCOKSTUS =? DFCERRSTUS) with false. cbn iota.
  assert (Hsame : same_devs d d2). { split; [done|]. intros ty c a x Hc Ha Hx. exists x. split; [|done]. cbn. rewrite !lookup_insert_ne; [done|congruence..]. }
  assert (HI2 : DevInv d2) by (by apply (same_devs_DevInv d)). assert (Hx2 : d_devs d2 !! devp = Some (uart_device drvp)) by (cbn; apply lookup_insert_eq).
  destruct (new_device_spec d2 devp (uart_device drvp) HI2 Hx2 Hd H0 ltac:(cbn; unfold UART_DEVICE, DEVICE_MAX; lia) ltac:(done)) as [(a & Ha & _)|(c & _ & Hc & Enew & HI3)].
  { apply (same_devs_registered d d2 a uart_id HI Hsame) in Ha. by destruct (Hno a). }
  apply wp_bind. rewrite (wp_det _ _ _ _ _ Enew). change (DFCOKSTUS =? DFCERRSTUS) with false. cbn iota.
  apply (HK devp sizeof_device_t); [done|done|done|done|apply added_registered; [done|done|done|by left]|done..].
Qed.

(** The driver's handler is the first on the keyboard's interrupt. *)
Definition handler_added (i : intfltdsc_t) (devp : Z) d : Prop := exists ser,
  d_ints d !! 0x21 = Some (Intfltdsc (i_indx i) (i_deep i) (i_sernr i +u 1) (ser :: i_serlist i)) /\ d_sers d !! ser = Some (Intserdsc 0 0x21 devp Huart).

Lemma devhandle_spec J i devp x d (Q : Z -> dst S -> Prop) : mem_own (r_mm (d_rfs d)) J -> devp <> 0 -> d_devs d !! devp = Some x -> d_ints d !! 0x21 = Some i -> Q DFCERRSTUS d ->
  (forall ser t d', mem_own (r_mm (d_rfs d')) (<[ser := t]> J) -> J !! ser = None -> handler_added i devp d' -> d_sys d' = d_sys d -> d_tab d' = d_tab d -> d_chips d' = d_chips d ->
     d_devs d' = <[devp := set_dev_int (ser :: dev_intserlst x) (dev_intlnenr x +u 1) x]> (d_devs d) -> Q DFCOKSTUS d') ->
  wp (krlnew_devhandle devp Huart 0x21) d Q.
Proof.
  intros HO H0 Hx Hi Herr HQ. unfold krlnew_devhandle, krladd_irqhandle. replace (devp =? 0) with false by lia. change (hal_retn_intfltdsc 0x21) with (Some 0x21). cbn iota.
  apply wp_bind, wp_bind, (wp_new_dsc _ J); [done|unfold sizeof_intserdsc_t, MALCSZ_MAX; lia|by apply wp_ret, wp_ret|]. intros ser t Hs HJ HO'. replace (ser =? 0) with false by lia. apply wp_bind, wp_modify, wp_bind.
  unfold hal_add_ihandle, wp at 1. cbn [d_ints with_ints with_pool with_rfs]. rewrite Hi. cbn [negb]. apply wp_ret. replace (ser =? 0) with false by lia.
  apply wp_bind. match goal with |- wp _ ?D _ => rewrite (wp_det _ D _ _ _ (upd_dev_eq devp _ x D Hx)) end. apply wp_ret. apply (HQ ser sizeof_intserdsc_t); [done|done| |done..].
  exists ser. cbn. by rewrite !lookup_insert_eq.
Qed.

(** What a successful start leaves: the device in the table, its handler, line 1 open, and
    a keyboard if there was memory for its record *)
Definition uart_started (i : intfltdsc_t) (E : list Z) d : Prop := exists devp, registered d devp uart_id /\ handler_added i devp d /\ lines (d_chips d) (1 :: E) /\
  ((exists x, d_devs d !! devp = Some x /\ dev_extdata x = 0) \/ (exists a bf, keyboard devp a bf (Sem SEM_FLG_MUTEX 0 kwlst_t_init) d /\ head bf = Some 0)).

(** The end of the entry, from the state [d3] that differs from [d1] in the keyboard's device *)
Lemma enable_spec i E devp x x1 d1 d3 : DevInv d1 -> registered d1 devp uart_id -> d_devs d1 !! devp = Some x1 -> lines (d_chips d1) E -> SInv (d_sys d3) -> d_tab d3 = d_tab d1 ->
  d_devs d3 = <[devp := x]> (d_devs d1) -> dev_id x = dev_id x1 -> dev_drv x = dev_drv x1 -> handler_added i devp d3 -> d_chips d3 = d_chips d1 ->
  dev_extdata x = 0 \/ (exists a bf, keyboard devp a bf (Sem SEM_FLG_MUTEX 0 kwlst_t_init) d3 /\ head bf = Some 0) ->
  wp (r ← krlenable_intline 21; if r =? DFCERRSTUS then mret DFCERRSTUS else mret DFCOKSTUS) d3 (fun r d' => SInv (d_sys d') /\ DevInv d' /\ (r = DFCERRSTUS \/ (r = DFCOKSTUS /\ uart_started i E d'))).
Proof.
  intros HD1 Hreg Hx1 HE HI3 Et Ed Eid Edr Hh Ec Hk. destruct (enabled_line_eq (d_chips d3) E 1) as (c' & Ec' & HE'); [by rewrite Ec|lia|].
  assert (El : krlenable_intline 21 d3 = Ret (DFCOKSTUS, with_chips c' d3)) by (change (krlenable_intline 21 d3) with (match i8259_enabled_line 1 (d_chips d3) with Ret (_, t) => Ret (DFCOKSTUS, with_chips t d3) | Halt e => Halt e | Fault => Fault | NoFuel => NoFuel end); by rewrite Ec').
  assert (Hsm : same_devs d1 (with_chips c' d3)).
  { split; [done|]. intros ty c a z Hc Ha Hz. cbn. rewrite Ed. destruct (decide (a = devp)) as [->|Hne]; [|exists z; by rewrite lookup_insert_ne]. exists x. rewrite lookup_insert_eq. rewrite Hx1 in Hz. by injection Hz as <-. }
  apply wp_bind. rewrite (wp_det _ _ _ _ _ El). change (DFCOKSTUS =? DFCERRSTUS) with false. cbn iota. apply wp_ret.
  split_and!; [done|by apply (same_devs_DevInv d1)|]. right. split; [done|]. exists devp. split_and!; [by apply (same_devs_registered d1)|done|done|].
  destruct Hk as [Hk|(a & bf & [K1 K2 K3 K4 K5] & Hb)]; [left; exists x; cbn; rewrite Ed; by rewrite lookup_insert_eq|right; by exists a, bf].
Qed.

(** C13: the keyboard's driver at start-up.  With a free driver record, the entry leaves
    the scheduler and the device table consistent; when it reports success, the device is
    found under its id, its handler is the first one called for interrupt 0x21, line 1 of
    the interrupt controllers is open and every other line as before, and the device is a
    keyboard with no key counted -- unless there was no memory for the keyboard's record,
    which the entry does not report. *)
Theorem uart_entry_registers J drvp v i E d : mem_own (r_mm (d_rfs d)) J -> (forall a, is_Some (d_devs d !! a) \/ is_Some (sems (d_sys d) !! a) -> is_Some (J !! a)) -> SInv (d_sys d) -> DevInv d ->
  drvp <> 0 -> d_drvs d !! drvp = Some v -> drv_alldevlist v = [] -> (forall a, ~ registered d a uart_id) -> d_ints d !! 0x21 = Some i -> lines (d_chips d) E ->
  wp (uart_entry junk drvp) d (fun r d' => SInv (d_sys d') /\ DevInv d' /\
    (r = DFCERRSTUS \/ (r = DFCOKSTUS /\ uart_started i E d'))).
Proof.
  intros HO Hdom HI HD H0 Hv Hl Hno Hi HE. unfold uart_entry. apply (uart_register J drvp v); [done|auto|done|done|done|done|done|by split_and!; [..|left]|].
  intros devp t d1 Hp HJ HO1 HD1 Hreg Hx1 Es1 Ei1 _ Ec1. apply wp_bind, (devhandle_spec (<[devp := t]> J) i devp (uart_device drvp)); [done|done|done|by rewrite Ei1| |].
  { apply wp_ret. rewrite Es1. split_and!; [done|done|by left]. }
  intros ser t' d2 HO2 HJ2 Hh2 Es2 Et2 Ec2 Ed2. change (DFCOKSTUS =? DFCERRSTUS) with false. cbn iota. set (x2 := set_dev_int _ _ _) in Ed2.
  apply wp_bind, (kboard_spec (<[ser := t']> (<[devp := t]> J)) devp x2); [done| |by rewrite Es2, Es1|done|by rewrite Ed2, lookup_insert_eq| |].
  - intros a Ha. rewrite Es2, Es1 in Ha. destruct (Hdom a (or_intror Ha)) as [z Hz]. destruct (decide (a = ser)) as [->|]; [rewrite lookup_insert_eq; by eexists|]. rewrite lookup_insert_ne by done. rewrite lookup_insert_ne by congruence. by eexists.
  - apply (enable_spec i E devp x2 (uart_device drvp) d1); [done|done|done|by rewrite Ec1|by rewrite Es2, Es1|done|done|done|done|done|done|by left].
  - intros a bf d3 HI3 HK3 Hb Et3 Ed3 Ei3 Eser3 Ec3. apply (enable_spec i E devp (set_dev_ext a x2) (uart_device drvp) d1); [done|done|done|by rewrite Ec1|done|by rewrite Et3|by rewrite Ed3, Ed2, insert_insert_eq|done|done| |by rewrite Ec3|right; by exists a, bf].
    destruct Hh2 as (sr & G1 & G2). exists sr. by rewrite Ei3, Eser3.
Qed.
End entry.

(** ** A kernel with nothing but its idle thread *)

Definition idle_sys : sys := final (start 0x10000 1000 5 0x99) (Sys schdata_t_init 0 ∅ ∅ ∅ None 0 0).
Definition idle_chips : chips := Chips (I8259a ICW1 ZICW2 ZICW3 ICW4 0xff 0 0) (I8259a ICW1 SICW2 SICW3 ICW4 0xff 0 0) (I8254 0 0 None).
Definition idle_dst : dst (pst (kst mmst)) :=
  Dst idle_sys (Rst demo_p ∅ 0 0 None ∅) devtable_t_init ∅ {[0x50 := driver_t_init 0x50]} ∅ {[0x21 := intfltdsc_t_init]} ∅ idle_chips kbdst_init.

Lemma idle_sys_inv : SInv idle_sys.
Proof. destruct (wp_final_sys _ _ _ (start_spec (Sys schdata_t_init 0 ∅ ∅ ∅ None 0 0) 0x10000 1000 5 0x99 eq_refl ltac:(intros w y Hy; cbn in Hy; by rewrite lookup_empty in Hy))) as (_ & _ & H & _). exact H. Qed.
Lemma idle_sems : sems idle_sys = ∅.
Proof. vm_compute. reflexivity. Qed.
Lemma idle_lines : lines idle_chips [].
Proof. destruct (init_i8259_eq no_chips) as (c & E & H). vm_compute in E. injection E as <-. exact H. Qed.

Lemma uart_entry_registers_witness : wp (uart_entry (fun _ _ => 0) 0x50) idle_dst (fun r d' => SInv (d_sys d') /\ DevInv d' /\ (r = DFCERRSTUS \/ (r = DFCOKSTUS /\ uart_started intfltdsc_t_init [] d'))).
Proof.
  apply (uart_entry_registers (fun _ _ => 0) ∅ 0x50 (driver_t_init 0x50) intfltdsc_t_init [] idle_dst); [exact demo_p_own| |exact idle_sys_inv|by apply init_DevInv|lia|reflexivity|reflexivity| |reflexivity|exact idle_lines].
  - intros a [[x Hx]|[x Hx]]; cbn in Hx; [|rewrite idle_sems in Hx]; by rewrite lookup_empty in Hx.
  - intros a (c & x & Hc & Ha & _). cbn in Hc. vm_compute in Hc. injection Hc as <-. by apply elem_of_nil in Ha.
Defined.

(** The entry does succeed here, and an interrupt on the line then reaches the keyboard. *)
Lemma idle_uart_runs : result [] (r1 ← krlrun_driverentry (fun _ _ => 0) 0 Euart; devp ← krlonidfl_retn_device (Some uart_id) DIDFIL_IDN; modify (key_event 0x1e) ;; r2 ← uart_handle 0x21 devp;
    x ← get_dev devp; k ← get_kbd (dev_extdata x); mret ([r1; r2] ++ take 3 (kb_buff k))) idle_dst = [DFCOKSTUS; DFCOKSTUS; 0x1e; 0; 97].
Proof. vm_compute. reflexivity. Qed.
