(* ===== verification/Print.v ===== *)
(** * Formatted printing

    src/hal/x86/halprint.c: [numberk], [strcopyk] and [vsprintfk], which fill a buffer
    of 512 bytes on the stack of [kprint] and [printfk].

    The state is what has been written to the buffer so far.  A byte behind its end,
    like one in front of the array of digits in [numberk], is a fault.  A string is
    the list of its bytes without the terminator, and [str_at] gives the string at
    an address.

    The reference takes a format apart into items and the text of a number from the
    decimal and hexadecimal printing of the Standard Library. *)

From Stdlib Require DecimalString HexadecimalString DecimalN HexadecimalN.
From S2P Require Import Prelude.

Definition BUFSZ : Z := 512.
Definition STRBUF : Z := 36.
Notation PM := (M (list Z)).

(** [*p++ = c] *)
Definition put (c : Z) : PM unit := fun buf => if Z.of_nat (length buf) <? BUFSZ then Ret (tt, buf ++ [c]) else Fault.

(** The bytes of 0123456789abcdef *)
Definition digit_char (d : Z) : Z := if d <? 10 then 48 + d else 87 + d.

(** The loop [do *--p = ... while (n /= base)]: [ds] is what stands between [p] and the
    terminator in the last place of [strbuf]. *)
Fixpoint number_loop (fuel : nat) (n base : Z) (ds : list Z) : outcome (list Z) :=
  match fuel with
  | O => NoFuel
  | Datatypes.S fuel' =>
      if STRBUF - 1 <=? Z.of_nat (length ds) then Fault else
      let ds := digit_char (n mod base) :: ds in
      let n := n / base in
      if n =? 0 then Ret ds else number_loop fuel' n base ds
  end.
Definition number_fuel : nat := 64.

Definition numberk (n base : Z) : PM unit := fun buf =>
  match (if n =? 0 then Ret [48] else number_loop number_fuel n base []) with
  | Ret ds => for_each ds put buf
  | Halt e => Halt e | Fault => Fault | NoFuel => NoFuel
  end.

Definition strcopyk (str_s : list Z) : PM unit := for_each str_s put.

Section print.
Context (str_at : Z -> option (list Z)).

(** A conversion that is none of [x], [d] and [s] is dropped; what follows the percent
    sign is read again. *)
Fixpoint vsprintfk (fmt args : list Z) : PM unit :=
  match fmt with
  | [] => put 0
  | c :: fmt' =>
      if negb (c =? 37) then put c ;; vsprintfk fmt' args else
      match fmt' with
      | f :: r =>
          if f =? 120 then match args with a :: args' => numberk a 16 ;; vsprintfk r args' | [] => fault end
          else if f =? 100 then match args with a :: args' => numberk a 10 ;; vsprintfk r args' | [] => fault end
          else if f =? 115 then
            match args with
            | a :: args' => match str_at a with Some s => strcopyk s ;; vsprintfk r args' | None => fault end
            | [] => fault
            end
          else vsprintfk fmt' args
      | [] => vsprintfk fmt' args
      end
  end.

End print.

(** ** Reference: numbers *)

Definition text_bytes (s : string) : list Z := (fun c => Z.of_N (Ascii.N_of_ascii c)) <$> String.list_ascii_of_string s.
Definition decimal (n : Z) : list Z := text_bytes (DecimalString.NilZero.string_of_uint (N.to_uint (Z.to_N n))).
Definition hexadecimal (n : Z) : list Z := text_bytes (HexadecimalString.NilZero.string_of_uint (N.to_hex_uint (Z.to_N n))).

(** ** Reference: formats *)

(** A character; %x, %d and %s; a percent sign in front of anything else, which prints nothing *)
Inductive item := IChar (c : Z) | IHex | IDec | IStr | IPercent.

Definition item_bytes (i : item) : list Z :=
  match i with IChar c => [c] | IHex => [37; 120] | IDec => [37; 100] | IStr => [37; 115] | IPercent => [37] end.
(** The format that consists of the items *)
Definition format (its : list item) : list Z := mjoin (item_bytes <$> its).

(** The items can be told apart in the format. *)
Fixpoint items_ok (its : list item) : Prop :=
  match its with
  | [] => True
  | IChar c :: r => c <> 37 /\ items_ok r
  | IPercent :: r => match r with IChar c :: _ => c <> 120 /\ c <> 100 /\ c <> 115 | _ => True end /\ items_ok r
  | _ :: r => items_ok r
  end.

Section text.
Context (str_at : Z -> option (list Z)).

(** Their text; each conversion takes the next argument. *)
Fixpoint items_text (its : list item) (args : list Z) : option (list Z) :=
  match its, args with
  | [], _ => Some []
  | IChar c :: r, _ => cons c <$> items_text r args
  | IPercent :: r, _ => items_text r args
  | IHex :: r, a :: args' => app (hexadecimal a) <$> items_text r args'
  | IDec :: r, a :: args' => app (decimal a) <$> items_text r args'
  | IStr :: r, a :: args' => s ← str_at a; app s <$> items_text r args'
  | _ :: _, [] => None
  end.

(** The format describes the text [out] for the arguments. *)
Definition renders (fmt args out : list Z) : Prop :=
  exists its, format its = fmt /\ items_ok its /\ items_text its args = Some out.
End text.

(** Every format consists of items. *)
Lemma format_total fmt : exists its, format its = fmt /\ items_ok its.
Proof.
  remember (length fmt) as n eqn:Hn. revert fmt Hn. induction n as [n IH] using (well_founded_induction Nat.lt_wf_0). intros fmt ->.
  destruct fmt as [|c r]; [by exists []|]. destruct (decide (c = 37)) as [->|Hc].
  - destruct (IH (length r) ltac:(cbn; lia) r eq_refl) as (its & E & Hok). destruct r as [|f r'].
    { exists (IPercent :: its). cbn [format fmap list_fmap mjoin list_join item_bytes app]. split; [by rewrite <- E|]. destruct its as [|[] ?]; try done. }
    destruct (decide (f = 120 \/ f = 100 \/ f = 115)) as [Hf|Hf].
    + destruct (IH (length r') ltac:(cbn; lia) r' eq_refl) as (its' & E' & Hok'). destruct Hf as [->|[->| ->]]; [exists (IHex :: its')|exists (IDec :: its')|exists (IStr :: its')]; (split; [by rewrite <- E'|done]).
    + exists (IPercent :: its). split; [by rewrite <- E|]. split; [|done]. destruct its as [|[c| | | |] its]; try done. injection E as -> _. tauto.
  - destruct (IH (length r) ltac:(cbn; lia) r eq_refl) as (its & E & Hok). exists (IChar c :: its). split; [by rewrite <- E|done].
Qed.

(** ** Numbers *)

Definition value (base : Z) (ds : list Z) : Z := foldl (fun v d => v * base + d) 0 ds.

Definition dec_cons (d : Z) : Decimal.uint -> Decimal.uint :=
  match d with
  | 1 => Decimal.D1 | 2 => Decimal.D2 | 3 => Decimal.D3 | 4 => Decimal.D4 | 5 => Decimal.D5
  | 6 => Decimal.D6 | 7 => Decimal.D7 | 8 => Decimal.D8 | 9 => Decimal.D9 | _ => Decimal.D0
  end.
Definition hex_cons (d : Z) : Hexadecimal.uint -> Hexadecimal.uint :=
  match d with
  | 1 => Hexadecimal.D1 | 2 => Hexadecimal.D2 | 3 => Hexadecimal.D3 | 4 => Hexadecimal.D4 | 5 => Hexadecimal.D5
  | 6 => Hexadecimal.D6 | 7 => Hexadecimal.D7 | 8 => Hexadecimal.D8 | 9 => Hexadecimal.D9 | 10 => Hexadecimal.Da
  | 11 => Hexadecimal.Db | 12 => Hexadecimal.Dc | 13 => Hexadecimal.Dd | 14 => Hexadecimal.De | 15 => Hexadecimal.Df | _ => Hexadecimal.D0
  end.

(** One case per digit *)
Lemma digit_cases n d : 0 <= d < n -> d ∈ seqZ 0 n.
Proof. intros. by apply elem_of_seqZ. Qed.
Ltac each_digit H := apply digit_cases in H; cbv in H; repeat (apply elem_of_cons in H as [->|H]); [..|by apply elem_of_nil in H].

Lemma dec_value ds acc : Forall (fun d => 0 <= d < 10) ds ->
  Z.pos (Pos.of_uint_acc (foldr dec_cons Decimal.Nil ds) acc) = foldl (fun v d => v * 10 + d) (Z.pos acc) ds.
Proof.
  intros H. revert acc. induction H as [|d ds Hd _ IH]; intros acc; [done|]. cbn [foldr foldl].
  each_digit Hd; cbn [dec_cons Pos.of_uint_acc]; rewrite IH; f_equal; lia.
Qed.
Lemma hex_value ds acc : Forall (fun d => 0 <= d < 16) ds ->
  Z.pos (Pos.of_hex_uint_acc (foldr hex_cons Hexadecimal.Nil ds) acc) = foldl (fun v d => v * 16 + d) (Z.pos acc) ds.
Proof.
  intros H. revert acc. induction H as [|d ds Hd _ IH]; intros acc; [done|]. cbn [foldr foldl].
  each_digit Hd; cbn [hex_cons Pos.of_hex_uint_acc]; rewrite IH; f_equal; lia.
Qed.

(** A number's digits, without zeros in front, are those of the Standard Library. *)
Lemma decimal_digits ds : Forall (fun d => 0 <= d < 10) ds -> ds <> [] -> head ds <> Some 0 -> decimal (value 10 ds) = digit_char <$> ds.
Proof.
  intros H Hne Hhd. unfold decimal. set (u := foldr dec_cons Decimal.Nil ds).
  assert (Hu : N.to_uint (Z.to_N (value 10 ds)) = u).
  { destruct ds as [|d ds]; [done|]. apply Forall_cons in H as [Hd H]. assert (E : Z.to_N (value 10 (d :: ds)) = N.of_uint u /\ Decimal.unorm u = u).
    { unfold value. cbn [foldl]. rewrite Z.mul_0_l, Z.add_0_l. unfold u. cbn [foldr]. each_digit Hd; [by destruct Hhd|..].
      all: (split; [|reflexivity]); rewrite <- (dec_value ds _ H); reflexivity. }
    destruct E as [E1 E2]. rewrite E1, DecimalN.Unsigned.to_of. exact E2. }
  rewrite Hu. unfold u. clear u Hu. destruct ds as [|d ds]; [done|]. clear Hne Hhd.
  assert (Hs : forall ds, Forall (fun d => 0 <= d < 10) ds -> text_bytes (DecimalString.NilEmpty.string_of_uint (foldr dec_cons Decimal.Nil ds)) = digit_char <$> ds).
  { clear. induction 1 as [|d ds Hd _ IH]; [done|]. cbn [foldr fmap list_fmap]. rewrite <- IH. each_digit Hd; reflexivity. }
  rewrite <- (Hs (d :: ds) H). apply Forall_cons in H as [Hd _]. cbn [foldr]. each_digit Hd; reflexivity.
Qed.
Lemma hexadecimal_digits ds : Forall (fun d => 0 <= d < 16) ds -> ds <> [] -> head ds <> Some 0 -> hexadecimal (value 16 ds) = digit_char <$> ds.
Proof.
  intros H Hne Hhd. unfold hexadecimal. set (u := foldr hex_cons Hexadecimal.Nil ds).
  assert (Hu : N.to_hex_uint (Z.to_N (value 16 ds)) = u).
  { destruct ds as [|d ds]; [done|]. apply Forall_cons in H as [Hd H]. assert (E : Z.to_N (value 16 (d :: ds)) = N.of_hex_uint u /\ Hexadecimal.unorm u = u).
    { unfold value. cbn [foldl]. rewrite Z.mul_0_l, Z.add_0_l. unfold u. cbn [foldr]. each_digit Hd; [by destruct Hhd|..].
      all: (split; [|reflexivity]); rewrite <- (hex_value ds _ H); reflexivity. }
    destruct E as [E1 E2]. rewrite E1, HexadecimalN.Unsigned.to_of. exact E2. }
  rewrite Hu. unfold u. clear u Hu. destruct ds as [|d ds]; [done|]. clear Hne Hhd.
  assert (Hs : forall ds, Forall (fun d => 0 <= d < 16) ds -> text_bytes (HexadecimalString.NilEmpty.string_of_uint (foldr hex_cons Hexadecimal.Nil ds)) = digit_char <$> ds).
  { clear. induction 1 as [|d ds Hd _ IH]; [done|]. cbn [foldr fmap list_fmap]. rewrite <- IH. each_digit Hd; reflexivity. }
  rewrite <- (Hs (d :: ds) H). apply Forall_cons in H as [Hd _]. cbn [foldr]. each_digit Hd; reflexivity.
Qed.

(** The loop in front of characters that are there already *)
Lemma number_loop_spec fuel n base cs : 2 <= base <= 16 -> 0 < n < base ^ Z.of_nat fuel -> Z.of_nat fuel + Z.of_nat (length cs) <= STRBUF - 1 ->
  exists ds, number_loop fuel n base cs = Ret ((digit_char <$> ds) ++ cs) /\ value base ds = n /\ (0 < length ds <= fuel)%nat /\ Forall (fun d => 0 <= d < base) ds /\ head ds <> Some 0.
Proof.
  intros Hb. revert n cs. induction fuel as [|fuel IH]; intros n cs Hn Hl; [cbn in Hn; lia|]. cbn [number_loop]. replace (STRBUF - 1 <=? Z.of_nat (length cs)) with false by lia.
  pose proof (Z.mod_pos_bound n base ltac:(lia)) as Hm. pose proof (Z.div_mod n base ltac:(lia)) as Hdm. rewrite Nat2Z.inj_succ, Z.pow_succ_r in Hn by lia.
  assert (Hd : 0 <= n / base < base ^ Z.of_nat fuel) by (split; [apply Z.div_pos; lia|apply Z.div_lt_upper_bound; lia]).
  destruct (Z.eqb_spec (n / base) 0) as [Hz|Hz].
  - exists [n mod base]. split; [done|]. split; [unfold value; cbn; lia|]. split_and!; cbn; [lia|lia|by apply Forall_singleton|]. intros [= H]. nia.
  - destruct (IH (n / base) (digit_char (n mod base) :: cs) ltac:(lia) ltac:(cbn [length]; lia)) as (ds & E & Hv & Hlen & Hf & Hhd). exists (ds ++ [n mod base]).
    split; [by rewrite fmap_app, <- app_assoc|]. split_and!.
    + unfold value. rewrite foldl_app. fold (value base ds). rewrite Hv. cbn. lia.
    + rewrite length_app. cbn. lia.
    + rewrite length_app. cbn. lia.
    + apply Forall_app. split; [done|]. by apply Forall_singleton.
    + destruct ds; [cbn in Hlen; lia|exact Hhd].
Qed.

(** More fuel changes nothing. *)
Lemma number_loop_more fuel k n base ds r : number_loop fuel n base ds = Ret r -> number_loop (fuel + k) n base ds = Ret r.
Proof.
  revert n ds. induction fuel as [|fuel IH]; intros n ds; [done|]. cbn [number_loop Nat.add]. destruct (STRBUF - 1 <=? _); [done|]. destruct (n / base =? 0); [done|]. apply IH.
Qed.

(** [numberk] writes the digits of the number: at most 20, so that the array of 36 bytes is
    never left, the first of them 0 only for 0. *)
Lemma numberk_digits n base : base = 10 \/ base = 16 -> 0 <= n < u64max ->
  exists ds, (numberk n base = fun buf => for_each (digit_char <$> ds) put buf) /\ value base ds = n /\ (0 < length ds <= 20)%nat /\
    Forall (fun d => 0 <= d < base) ds /\ (n = 0 /\ ds = [0] \/ head ds <> Some 0).
Proof.
  intros Hb Hn. unfold numberk. destruct (Z.eqb_spec n 0) as [->|Hz].
  - exists [0]. split_and!; [reflexivity|reflexivity|cbn; lia|cbn; lia|apply Forall_singleton; lia|by left].
  - assert (Hbig : u64max <= base ^ 20) by (destruct Hb as [-> | ->]; by vm_compute).
    destruct (number_loop_spec 20 n base []) as (ds & E & Hv & Hl & Hf & Hh); [lia|change (Z.of_nat 20) with 20; lia|cbn; unfold STRBUF; lia|].
    rewrite app_nil_r in E. apply (number_loop_more 20 44) in E. change (20 + 44)%nat with number_fuel in E. rewrite E. exists ds. split_and!; [done|done|lia|lia|done|by right].
Qed.

Lemma chars_range ds : Forall (fun d => 0 <= d < 10) ds -> Forall (fun c => 48 <= c < 58) (digit_char <$> ds).
Proof. intros H. apply Forall_fmap. eapply Forall_impl; [exact H|]. cbn. intros d Hd. unfold digit_char. by replace (d <? 10) with true by lia; lia. Qed.

Lemma decimal_spec n : 0 <= n < u64max ->
  (numberk n 10 = fun buf => for_each (decimal n) put buf) /\ (0 < length (decimal n) <= 20)%nat /\ Forall (fun c => 48 <= c < 58) (decimal n).
Proof.
  intros Hn. destruct (numberk_digits n 10 ltac:(by left) Hn) as (ds & E & Hv & Hl & Hf & Hh).
  assert (Hd : decimal n = digit_char <$> ds).
  { destruct Hh as [[-> ->]|Hh]; [reflexivity|]. rewrite <- Hv. apply decimal_digits; [done|by destruct ds; [cbn in Hl; lia|]|done]. }
  rewrite Hd, length_fmap. split_and!; [done|lia|lia|]. by apply chars_range.
Qed.
Lemma hexadecimal_spec n : 0 <= n < u64max -> numberk n 16 = fun buf => for_each (hexadecimal n) put buf.
Proof.
  intros Hn. destruct (numberk_digits n 16 ltac:(by right) Hn) as (ds & E & Hv & Hl & Hf & Hh). rewrite E.
  destruct Hh as [[-> ->]|Hh]; [reflexivity|]. rewrite <- Hv, hexadecimal_digits; [done|done|by destruct ds; [cbn in Hl; lia|]|done].
Qed.

(** ** The buffer *)

Definition room (buf l : list Z) : bool := Z.of_nat (length buf) + Z.of_nat (length l) <=? BUFSZ.

Lemma put_all l buf : Z.of_nat (length buf) <= BUFSZ -> for_each l put buf = if room buf l then Ret (tt, buf ++ l) else Fault.
Proof.
  unfold room. revert buf. induction l as [|c l IH]; intros buf Hb.
  - cbn [length for_each]. rewrite app_nil_r. by replace (_ <=? BUFSZ) with true by lia.
  - cbn [for_each]. unfold mbind, M_bind, put at 1. destruct (Z.ltb_spec (Z.of_nat (length buf)) BUFSZ) as [Hl|Hl]; [|cbn [length]; by replace (_ <=? BUFSZ) with false by lia].
    rewrite IH by (rewrite length_app; cbn [length]; lia). rewrite length_app, <- app_assoc. cbn [length app].
    replace (Z.of_nat (length buf + 1) + Z.of_nat (length l)) with (Z.of_nat (length buf) + Z.of_nat (Datatypes.S (length l))) by lia. done.
Qed.

Section exact.
Context (str_at : Z -> option (list Z)).

(** Writing one piece and then the rest *)
Lemma piece (m m' : PM unit) l out buf : Z.of_nat (length buf) <= BUFSZ -> (m buf = if room buf l then Ret (tt, buf ++ l) else Fault) ->
  (forall b, Z.of_nat (length b) <= BUFSZ -> m' b = if room b (out ++ [0]) then Ret (tt, b ++ out ++ [0]) else Fault) ->
  (m ;; m') buf = if room buf ((l ++ out) ++ [0]) then Ret (tt, buf ++ (l ++ out) ++ [0]) else Fault.
Proof.
  intros Hb Hm Hm'. unfold mbind, M_bind. rewrite Hm. unfold room in *. rewrite !length_app. cbn [length].
  destruct (Z.leb_spec (Z.of_nat (length buf) + Z.of_nat (length l)) BUFSZ) as [Hl|Hl].
  - rewrite Hm' by (rewrite length_app; lia). rewrite !length_app. cbn [length].
    replace (Z.of_nat (length buf + length l) + Z.of_nat (length out + 1)) with (Z.of_nat (length buf) + Z.of_nat (length l + length out + 1)) by lia. by rewrite <- !app_assoc.
  - by replace (_ <=? BUFSZ) with false by lia.
Qed.

(** A percent sign that starts no conversion prints nothing. *)
Lemma percent_dropped its args buf : items_ok (IPercent :: its) -> vsprintfk str_at (37 :: format its) args buf = vsprintfk str_at (format its) args buf.
Proof.
  intros [Hn _]. destruct its as [|[c| | | |] its]; cbn [format fmap list_fmap mjoin list_join item_bytes app] in *; try done.
  destruct Hn as (H1 & H2 & H3). cbn [vsprintfk Z.eqb Pos.eqb negb]. by rewrite !(proj2 (Z.eqb_neq _ _)) by done.
Qed.

Lemma vsprintfk_spec its : forall args out, items_ok its -> items_text str_at its args = Some out -> Forall (fun a => 0 <= a < u64max) args -> forall buf, Z.of_nat (length buf) <= BUFSZ ->
  vsprintfk str_at (format its) args buf = if room buf (out ++ [0]) then Ret (tt, buf ++ out ++ [0]) else Fault.
Proof.
  induction its as [|i its IH]; intros args out Hok E Ha buf Hb.
  { injection E as <-. cbn [format fmap list_fmap mjoin list_join vsprintfk]. unfold put, room. cbn [length app].
    destruct (Z.ltb_spec (Z.of_nat (length buf)) BUFSZ); [by replace (_ <=? BUFSZ) with true by lia|by replace (_ <=? BUFSZ) with false by lia]. }
  change (format (i :: its)) with (item_bytes i ++ format its). destruct i as [c| | | |]; cbn [item_bytes app items_text] in *.
  - destruct Hok as [Hc Hok]. apply fmap_Some in E as (o & E & ->). cbn [vsprintfk]. rewrite (proj2 (Z.eqb_neq _ _) Hc). cbn [negb].
    change (c :: o) with ([c] ++ o). apply piece; [done| |intros b Hb'; by apply IH]. unfold put, room. cbn [length].
    destruct (Z.ltb_spec (Z.of_nat (length buf)) BUFSZ); [by replace (_ <=? BUFSZ) with true by lia|by replace (_ <=? BUFSZ) with false by lia].
  - destruct args as [|a args]; [done|]. apply fmap_Some in E as (o & E & ->). apply Forall_cons in Ha as [Ha Has]. cbn [vsprintfk Z.eqb Pos.eqb negb].
    apply piece; [done| |intros b Hb'; by apply IH]. rewrite (hexadecimal_spec a Ha). by apply put_all.
  - destruct args as [|a args]; [done|]. apply fmap_Some in E as (o & E & ->). apply Forall_cons in Ha as [Ha Has]. cbn [vsprintfk Z.eqb Pos.eqb negb].
    apply piece; [done| |intros b Hb'; by apply IH]. rewrite (proj1 (decimal_spec a Ha)). by apply put_all.
  - destruct args as [|a args]; [done|]. apply bind_Some in E as (s & Es & E). apply fmap_Some in E as (o & E & ->). apply Forall_cons in Ha as [_ Has]. cbn [vsprintfk Z.eqb Pos.eqb negb]. rewrite Es.
    apply piece; [done|by apply put_all|intros b Hb'; by apply IH].
  - rewrite (percent_dropped its args buf Hok). apply IH; [apply Hok|done..].
Qed.
End exact.

Lemma demo_number : numberk 48879 16 [] = Ret (tt, text_bytes "beef").
Proof. reflexivity. Qed.

(** C31: formatting and the buffer.  For every format, taken apart into characters and
    conversions, with arguments for all conversions, [vsprintfk] writes exactly the text
    they describe and its terminator: the characters as they are, 64-bit numbers in
    decimal or hexadecimal as the Standard Library prints them, strings byte for byte, and
    nothing for a percent sign in front of another character.  It stays inside of the 512
    bytes if and only if the text has fewer than 512 bytes. *)
Theorem print_exact str_at its args out : items_ok its -> items_text str_at its args = Some out -> Forall (fun a => 0 <= a < u64max) args ->
  vsprintfk str_at (format its) args [] = if (length out <? 512)%nat then Ret (tt, out ++ [0]) else Fault.
Proof.
  intros Hok Hr Ha. rewrite (vsprintfk_spec str_at its args out Hok Hr Ha []) by done. unfold room, BUFSZ. rewrite length_app. cbn [length app].
  destruct (Nat.ltb_spec (length out) 512); [by replace (_ <=? 512) with true by lia|by replace (_ <=? 512) with false by lia].
Qed.
(** A format with two numbers and a string *)
Lemma print_exact_witness : vsprintfk (fun a => if a =? 5 then Some (text_bytes "ok") else None) (text_bytes "n=%d;%x %s%!") [407; 48879; 5] [] = Ret (tt, text_bytes "n=407;beef ok!" ++ [0]).
Proof.
  apply (print_exact (fun a => if a =? 5 then Some (text_bytes "ok") else None) [IChar 110; IChar 61; IDec; IChar 59; IHex; IChar 32; IStr; IPercent; IChar 33] [407; 48879; 5] (text_bytes "n=407;beef ok!"));
    [vm_compute; intuition congruence|reflexivity|]. repeat constructor; by vm_compute.
Defined.
