(* ===== verification/Console.v ===== *)
(** * The console on the frame buffer

    src/hal/x86/bdvideo.c, and [kprint] and [printfk] of halprint.c: text in UTF-8 is
    decoded, and the glyphs of the boot image's font are drawn pixel by pixel, into a
    buffer or directly into the memory of the screen.

    The memory of screen and buffer is a finite map from addresses to bytes; a store
    to another address is a fault.  What the boot image holds is given: [font] is
    the array of glyphs and [img_byte] its bytes.  [hal_background] prints and
    printing calls [hal_background] at the end of the screen, so that the routines
    take the other one as an argument and [hal_background] has a depth as its fuel.
    [BGAMODE] also has the registers of the graphics card. *)

From S2P Require Import Prelude Intr Boot Kernel Print.

Definition VBEMODE : Z := 1.
Definition BGAMODE : Z := 3.
Definition VBE_DISPI_INDEX_XRES : Z := 1.
Definition VBE_DISPI_INDEX_YRES : Z := 2.
Definition VBE_DISPI_INDEX_VIRT_WIDTH : Z := 6.
Definition VBE_DISPI_INDEX_VIRT_HEIGHT : Z := 7.
Definition VBE_DISPI_INDEX_X_OFFSET : Z := 8.
Definition VBE_DISPI_INDEX_Y_OFFSET : Z := 9.
Definition sizeof_bmfhead_t : Z := 14.
Definition sizeof_bitminfo_t : Z := 40.
Definition BGRA (r g b : Z) : Z := Z.lor (Z.lor (Z.shiftl r 16) (Z.shiftl g 8)) b.

(** ** Data *)

(** The functions that [gh_opfun] points to, by mode; before the set-up there are none. *)
Inductive dftghops_t := OpNone | OpBga | OpVbe.

Record dftgraph_t := Dftgraph {
  gh_mode : Z; gh_x : Z; gh_y : Z; gh_framphyadr : Z; gh_fvrmphyadr : Z; gh_fvrmsz : Z; gh_onepixbits : Z; gh_onepixbyte : Z; gh_vbemodenr : Z;
  gh_bank : Z; gh_curdipbnk : Z; gh_nextbnk : Z; gh_banksz : Z; gh_fontadr : Z; gh_fontsz : Z; gh_fnthight : Z; gh_nxtcharsx : Z; gh_nxtcharsy : Z;
  gh_linesz : Z; gh_deffontpx : Z; gh_chardxw : Z; gh_flush : Z; gh_opfun : dftghops_t
}.

(** Width in bytes, height and width in pixels, and the bits, line by line *)
Record fntdata_t := Fntdata { fntwxbyte : Z; fnthx : Z; fntwx : Z; fntchmap : list Z }.

(** What the boot loader says of the screen *)
Record ghparm := Ghparm {
  gp_mode : Z; gp_x : Z; gp_y : Z; gp_framphyadr : Z; gp_onepixbits : Z; gp_vbemodenr : Z; gp_bank : Z; gp_curdipbnk : Z; gp_nextbnk : Z; gp_banksz : Z;
  gp_fvrmphyadr : Z; gp_fvrmsz : Z; gp_bfontpadr : Z; gp_bfontsz : Z
}.

(** [g_regs]: the registers of the card; [g_idx]: the one that its index port selects *)
Record gst := Gst { g_dev : dftgraph_t; g_mem : gmap Z Z; g_regs : gmap Z Z; g_idx : Z }.
Notation GM := (M gst).

Definition with_gdev (d : dftgraph_t) (g : gst) : gst := Gst d (g_mem g) (g_regs g) (g_idx g).
Definition with_gmem (m : gmap Z Z) (g : gst) : gst := Gst (g_dev g) m (g_regs g) (g_idx g).
Definition set_cursor (x y : Z) (d : dftgraph_t) : dftgraph_t :=
  Dftgraph (gh_mode d) (gh_x d) (gh_y d) (gh_framphyadr d) (gh_fvrmphyadr d) (gh_fvrmsz d) (gh_onepixbits d) (gh_onepixbyte d) (gh_vbemodenr d)
    (gh_bank d) (gh_curdipbnk d) (gh_nextbnk d) (gh_banksz d) (gh_fontadr d) (gh_fontsz d) (gh_fnthight d) x y (gh_linesz d) (gh_deffontpx d) (gh_chardxw d) (gh_flush d) (gh_opfun d).
Definition set_fontpx (p : Z) (d : dftgraph_t) : dftgraph_t :=
  Dftgraph (gh_mode d) (gh_x d) (gh_y d) (gh_framphyadr d) (gh_fvrmphyadr d) (gh_fvrmsz d) (gh_onepixbits d) (gh_onepixbyte d) (gh_vbemodenr d)
    (gh_bank d) (gh_curdipbnk d) (gh_nextbnk d) (gh_banksz d) (gh_fontadr d) (gh_fontsz d) (gh_fnthight d) (gh_nxtcharsx d) (gh_nxtcharsy d) (gh_linesz d) p (gh_chardxw d) (gh_flush d) (gh_opfun d).
Definition set_dxw (a b : Z) (d : dftgraph_t) : dftgraph_t :=
  Dftgraph (gh_mode d) (gh_x d) (gh_y d) (gh_framphyadr d) (gh_fvrmphyadr d) (gh_fvrmsz d) (gh_onepixbits d) (gh_onepixbyte d) (gh_vbemodenr d)
    (gh_bank d) (gh_curdipbnk d) (gh_nextbnk d) (gh_banksz d) (gh_fontadr d) (gh_fontsz d) (gh_fnthight d) (gh_nxtcharsx d) (gh_nxtcharsy d) (gh_linesz d) (gh_deffontpx d) a b (gh_opfun d).
Definition set_opfun (o : dftghops_t) (d : dftgraph_t) : dftgraph_t :=
  Dftgraph (gh_mode d) (gh_x d) (gh_y d) (gh_framphyadr d) (gh_fvrmphyadr d) (gh_fvrmsz d) (gh_onepixbits d) (gh_onepixbyte d) (gh_vbemodenr d)
    (gh_bank d) (gh_curdipbnk d) (gh_nextbnk d) (gh_banksz d) (gh_fontadr d) (gh_fontsz d) (gh_fnthight d) (gh_nxtcharsx d) (gh_nxtcharsy d) (gh_linesz d) (gh_deffontpx d) (gh_chardxw d) (gh_flush d) o.
Definition set_banks (cur nxt : Z) (d : dftgraph_t) : dftgraph_t :=
  Dftgraph (gh_mode d) (gh_x d) (gh_y d) (gh_framphyadr d) (gh_fvrmphyadr d) (gh_fvrmsz d) (gh_onepixbits d) (gh_onepixbyte d) (gh_vbemodenr d)
    (gh_bank d) cur nxt (gh_banksz d) (gh_fontadr d) (gh_fontsz d) (gh_fnthight d) (gh_nxtcharsx d) (gh_nxtcharsy d) (gh_linesz d) (gh_deffontpx d) (gh_chardxw d) (gh_flush d) (gh_opfun d).
Definition upd_gdev (f : dftgraph_t -> dftgraph_t) : GM unit := modify (fun g => with_gdev (f (g_dev g)) g).

(** ** Memory *)

Definition store8 (a v : Z) : GM unit := fun g =>
  match g_mem g !! a with Some _ => Ret (tt, with_gmem (<[a := u8 v]> (g_mem g)) g) | None => Fault end.
Definition load8 (a : Z) : GM Z := fun g => match g_mem g !! a with Some v => Ret (v, g) | None => Fault end.
Definition store32 (a v : Z) : GM unit := for_each [0; 1; 2; 3] (fun k => store8 (a + k) (Z.shiftr v (8 * k))).
(** Three bytes of a pixel of 24 bits *)
Definition store24 (a v : Z) : GM unit := for_each [0; 1; 2] (fun k => store8 (a + k) (Z.shiftr v (8 * k))).
Definition copy64 (s d : Z) : GM unit := for_each [0; 1; 2; 3; 4; 5; 6; 7] (fun k => v ← load8 (s + k); store8 (d + k) v).

(** ** The two modes *)

Definition bga_write_reg (index data : Z) : GM unit := modify (fun g => Gst (g_dev g) (g_mem g) (<[index := data]> (g_regs g)) index).
Definition bga_read_reg (index : Z) : GM Z := fun g => Ret (default 0 (g_regs g !! index), Gst (g_dev g) (g_mem g) (g_regs g) index).

(** A pixel at [(x + y * gh_x)] from [base]; [pixadr] is the address of a pixel. *)
Definition pixel_index (d : dftgraph_t) (x y : Z) : Z := x +u (y * gh_x d).
Definition vbe_writepix (pix x y : Z) : GM unit :=
  d ← gets g_dev;
  if gh_onepixbits d =? 24 then store24 (u64 (pixel_index d x y * 3) +u gh_fvrmphyadr d) pix
  else store32 (gh_fvrmphyadr d +u (4 * pixel_index d x y)) pix.
Definition vbe_dxwritepix (pix x y : Z) : GM unit :=
  d ← gets g_dev;
  if gh_onepixbits d =? 24 then store24 (u64 (pixel_index d x y * 3) +u gh_framphyadr d) pix
  else store32 (gh_framphyadr d +u (4 * pixel_index d x y)) pix.
Definition bga_writepix (pix x y : Z) : GM unit := vbe_writepix pix x y.
Definition bga_dxwritepix (pix x y : Z) : GM unit :=
  d ← gets g_dev;
  if gh_onepixbits d =? 24 then store24 (u64 (pixel_index d x y * 3 * gh_curdipbnk d) +u gh_framphyadr d) pix
  else store32 (gh_framphyadr d +u (gh_x d * gh_y d * gh_onepixbyte d * gh_curdipbnk d) +u (4 * pixel_index d x y)) pix.

(** [for (; i < e; i += 8) d[j] = s[j], j++] *)
Definition copy_words (s d e : Z) : GM unit := for_each (seqZ 0 ((e + 7) / 8)) (fun j => copy64 (s +u (8 * j)) (d +u (8 * j))).
Definition frame_bytes (d : dftgraph_t) : Z := u64 (gh_x d * gh_y d * gh_onepixbyte d).
Definition vbe_flush : GM unit := d ← gets g_dev; copy_words (gh_fvrmphyadr d) (gh_framphyadr d) (frame_bytes d).

Definition ret_vramadr_inbnk (d : dftgraph_t) : Z := gh_framphyadr d +u (gh_x d * gh_y d * gh_onepixbyte d * gh_nextbnk d).
Definition bga_disp_nxtbank : GM unit :=
  d ← gets g_dev;
  bga_write_reg VBE_DISPI_INDEX_VIRT_HEIGHT (u16 (gh_y d * gh_nextbnk d + 1)) ;;
  bga_write_reg VBE_DISPI_INDEX_Y_OFFSET (u16 (gh_y d * gh_nextbnk d)) ;;
  upd_gdev (fun d => let n := gh_nextbnk d +u 1 in set_banks (gh_nextbnk d) (if gh_bank d <? n then 0 else n) d).
Definition bga_flush : GM unit :=
  d ← gets g_dev;
  copy_words (gh_fvrmphyadr d) (ret_vramadr_inbnk d) (frame_bytes d) ;;
  bga_disp_nxtbank.

Definition bga_set_xy (x y : Z) : GM Z := bga_write_reg VBE_DISPI_INDEX_XRES (u16 x) ;; bga_write_reg VBE_DISPI_INDEX_YRES (u16 y) ;; mret 0.
Definition bga_set_vwh (vwt vhi : Z) : GM Z := bga_write_reg VBE_DISPI_INDEX_VIRT_WIDTH (u16 vwt) ;; bga_write_reg VBE_DISPI_INDEX_VIRT_HEIGHT (u16 vhi) ;; mret 0.
Definition bga_set_xyoffset (xoff yoff : Z) : GM Z := bga_write_reg VBE_DISPI_INDEX_X_OFFSET (u16 xoff) ;; bga_write_reg VBE_DISPI_INDEX_Y_OFFSET (u16 yoff) ;; mret 0.
Definition bga_get_xy : GM (Z * Z) := x ← bga_read_reg VBE_DISPI_INDEX_XRES; y ← bga_read_reg VBE_DISPI_INDEX_YRES; mret (x, y).
Definition bga_get_vwh : GM (Z * Z) := x ← bga_read_reg VBE_DISPI_INDEX_VIRT_WIDTH; y ← bga_read_reg VBE_DISPI_INDEX_VIRT_HEIGHT; mret (x, y).
Definition bga_get_xyoffset : GM (Z * Z) := x ← bga_read_reg VBE_DISPI_INDEX_X_OFFSET; y ← bga_read_reg VBE_DISPI_INDEX_Y_OFFSET; mret (x, y).

(** The calls through the function table *)
Definition write_pixcolor (x y pix : Z) : GM unit :=
  o ← gets (fun g => gh_opfun (g_dev g)); match o with OpNone => fault | OpBga => bga_writepix pix (u32 x) (u32 y) | OpVbe => vbe_writepix pix (u32 x) (u32 y) end.
Definition drxw_pixcolor (x y pix : Z) : GM unit :=
  o ← gets (fun g => gh_opfun (g_dev g)); match o with OpNone => fault | OpBga => bga_dxwritepix pix (u32 x) (u32 y) | OpVbe => vbe_dxwritepix pix (u32 x) (u32 y) end.
Definition flush_videoram : GM unit :=
  o ← gets (fun g => gh_opfun (g_dev g)); match o with OpNone => fault | OpBga => bga_flush | OpVbe => vbe_flush end.

Definition fill_graph (pix : Z) : GM unit :=
  d ← gets g_dev;
  for_each (seqZ 0 (gh_y d)) (fun y => for_each (seqZ 0 (gh_x d)) (fun x => write_pixcolor x y pix)) ;;
  flush_videoram.
(** The sums are taken not to wrap around. *)
Definition fill_rect (pix x y tx ty : Z) : GM unit :=
  for_each (seqZ y ty) (fun i => for_each (seqZ x tx) (fun j => write_pixcolor j i pix)).

Definition slou_sreen (hy : Z) : GM unit :=
  '(x, y) ← bga_get_xyoffset;
  '(ofx, ofy) ← bga_get_vwh;
  let y := y +u hy in
  let ofy := ofy +u hy in
  _ ← bga_set_vwh ofx ofy; _ ← bga_set_xyoffset x y; mret tt.

Definition set_deffontpx (setpx : Z) : GM Z := bkpx ← gets (fun g => gh_deffontpx (g_dev g)); upd_gdev (set_fontpx setpx) ;; mret bkpx.
Definition set_ncharsxy (x y : Z) : GM unit := upd_gdev (set_cursor x y).
Definition set_charsdxwflush (chardxw flush : Z) : GM unit := upd_gdev (set_dxw chardxw flush).

(** ** Decoding *)

(** Code point and length; [None] is a read behind the end of [buf]. *)
Definition next_bits (tmpuc b : Z) : Z := Z.lor (u32 (Z.shiftl tmpuc 6)) (Z.land b 0x3f).
Definition utf8_to_unicode (buf : list Z) (i : nat) : option (Z * Z) :=
  let byte k := buf !! (i + k)%nat in
  uhd ← byte 0%nat;
  if uhd <? 0x80 then Some (Z.land uhd 0x7f, 1)
  else if (0xc0 <=? uhd) && (uhd <=? 0xdf) then
    b2 ← byte 1%nat;
    Some (next_bits (Z.land uhd 0x1f) b2, 2)
  else if (0xe0 <=? uhd) && (uhd <=? 0xef) then
    b2 ← byte 1%nat; b3 ← byte 2%nat;
    Some (next_bits (next_bits (Z.land uhd 0x0f) b2) b3, 3)
  else if (0xf0 <=? uhd) && (uhd <=? 0xf7) then
    b2 ← byte 1%nat; b3 ← byte 2%nat; b4 ← byte 3%nat;
    Some (next_bits (next_bits (next_bits (Z.land uhd 0x7) b2) b3) b4, 4)
  else if (0xf8 <=? uhd) && (uhd <=? 0xfb) then
    b2 ← byte 1%nat; b3 ← byte 2%nat; b4 ← byte 3%nat; b5 ← byte 4%nat;
    Some (next_bits (next_bits (next_bits (next_bits (Z.land uhd 0x3) b2) b3) b4) b5, 5)
  else if (0xfc <=? uhd) && (uhd <=? 0xfd) then
    b2 ← byte 1%nat; b3 ← byte 2%nat; b4 ← byte 3%nat; b5 ← byte 4%nat; b6 ← byte 5%nat;
    Some (next_bits (next_bits (next_bits (next_bits (next_bits (Z.land uhd 0x1) b2) b3) b4) b5) b6, 6)
  else Some (0, 0).

(** ** Drawing *)

Section draw.
Context (font : Z -> option fntdata_t) (wr : Z -> Z -> Z -> GM unit) (pix : Z).

(** [for (bi = 7; bi >= 0; bi--)] over [bits]; the result is [x]. *)
Fixpoint draw_bits (bits : list Z) (bitmap chwx wpx wpy x y : Z) : GM Z :=
  match bits with
  | [] => mret x
  | bi :: bits' =>
      if chwx <=? x then mret x else
      (if Z.land (Z.shiftr bitmap bi) 1 =? 1 then wr (u32 (wpx + x)) (u32 (wpy + y)) pix else mret tt) ;;
      draw_bits bits' bitmap chwx wpx wpy (x + 1) y
  end.

(** [for (btyi = 0; btyi < linb; btyi++)] over [bytes] *)
Fixpoint draw_row (bytes : list Z) (f : fntdata_t) (hx wpx wpy x y : Z) : GM unit :=
  match bytes with
  | [] => mret tt
  | btyi :: bytes' =>
      match fntchmap f !! Z.to_nat (hx * fntwxbyte f + btyi) with
      | None => fault
      | Some bitmap =>
          x ← (if bitmap =? 0 then mret (x + 8) else draw_bits [7; 6; 5; 4; 3; 2; 1; 0] bitmap (fntwx f) wpx wpy x y);
          draw_row bytes' f hx wpx wpy x y
      end
  end.

(** [for (hx = 0; hx < chhx; hx++)]; [y] goes up with [hx]. *)
Fixpoint draw_rows (rows : list Z) (f : fntdata_t) (wpx wpy y : Z) : GM unit :=
  match rows with
  | [] => mret tt
  | hx :: rows' => draw_row (seqZ 0 (fntwxbyte f)) f hx wpx wpy 0 y ;; draw_rows rows' f wpx wpy (y + 1)
  end.

(** The next line, or the first one; the result says whether it is the first one. *)
Definition next_line (d : dftgraph_t) : Z * bool :=
  if (gh_y d -u gh_fnthight d) <? (gh_nxtcharsy d +u gh_linesz d) then (0, true) else (gh_nxtcharsy d +u gh_linesz d, false).

(** [put_pixonechar] and [drxput_pixonechar] are the same text with [write_pixcolor] and
    [drxw_pixcolor]. *)
Definition pixonechar (background : GM unit) (unicode : Z) : GM unit :=
  d ← gets g_dev;
  if unicode =? 10 then
    let '(y, top) := next_line d in
    upd_gdev (set_cursor 0 y) ;;
    if top then background else mret tt
  else
    match font unicode with
    | None => fault
    | Some f =>
        (if (gh_x d -u fntwx f) <? (gh_nxtcharsx d +u fntwx f) then upd_gdev (set_cursor 0 (next_line d).1) else mret tt) ;;
        d ← gets g_dev;
        draw_rows (seqZ 0 (fnthx f)) f (u32 (gh_nxtcharsx d)) (u32 (gh_nxtcharsy d)) 0 ;;
        upd_gdev (fun d => set_cursor (gh_nxtcharsx d +u fntwx f) (gh_nxtcharsy d) d)
    end.
End draw.

Definition put_pixonechar (font : Z -> option fntdata_t) (background : GM unit) (unicode pix : Z) : GM unit := pixonechar font write_pixcolor pix background unicode.
Definition drxput_pixonechar (font : Z -> option fntdata_t) (background : GM unit) (unicode pix : Z) : GM unit := pixonechar font drxw_pixcolor pix background unicode.

(** ** Text *)

Section text.
Context (font : Z -> option fntdata_t) (str_at : Z -> option (list Z)).

(** The loop stands still on a byte that starts no character. *)
Fixpoint gstr_loop (fuel : nat) (background : GM unit) (buf : list Z) (chinx : nat) (pix : Z) : GM unit :=
  match fuel with
  | O => nofuel
  | Datatypes.S fuel' =>
      match buf !! chinx with
      | None => fault
      | Some c =>
          if c =? 0 then mret tt else
          match utf8_to_unicode buf chinx with
          | None => fault
          | Some (uc, chretnext) =>
              w ← gets (fun g => gh_chardxw (g_dev g));
              (if w =? 1 then put_pixonechar font background uc pix else drxput_pixonechar font background uc pix) ;;
              gstr_loop fuel' background buf (chinx + Z.to_nat chretnext) pix
          end
      end
  end.

Definition gstr_write (background : GM unit) (buf : list Z) : GM unit :=
  pix ← gets (fun g => gh_deffontpx (g_dev g));
  gstr_loop (length buf) background buf 0 pix ;;
  f ← gets (fun g => gh_flush (g_dev g));
  if f =? 1 then flush_videoram else mret tt.

Definition kprint (background : GM unit) (fmt args : list Z) : GM unit := fun g =>
  match vsprintfk str_at fmt args [] with
  | Ret (_, buf) => gstr_write background buf g
  | Halt e => Halt e | Fault => Fault | NoFuel => NoFuel
  end.
Definition printfk (background : GM unit) (fmt args : list Z) : GM unit := kprint background fmt args.

(** ** Pictures of the boot image *)

Context (img : mlosrddsc_t) (imgadr : Z) (img_byte : Z -> option Z) (version : list Z) (threadnr freepages cpumode memsz : Z).

Definition img_pixel (a : Z) : option Z := b ← img_byte a; g ← img_byte (a + 1); r ← img_byte (a + 2); Some (BGRA r g b).

(** Lines [jhi] down to [jlo], columns [ilo] up to [ihi] - 1; [k] counts the pixels. *)
Definition draw_picture (wr : Z -> Z -> Z -> GM unit) (name err : string) (jhi jlo ilo ihi : Z) : GM unit :=
  match get_file_rvadrandsz (Some (str_bytes name ++ [0])) imgadr img with
  | None => fault
  | Some (fadr, fsz) =>
      die_if ((fadr =? 0) || (fsz =? 0)) err ;;
      let bmdp := fadr +u sizeof_bmfhead_t +u sizeof_bitminfo_t in
      for_each (seqZ 0 (jhi - jlo + 1)) (fun l => for_each (seqZ ilo (ihi - ilo)) (fun i =>
        match img_pixel (bmdp + 3 * (l * (ihi - ilo) + (i - ilo))) with None => fault | Some pix => wr i (jhi - l) pix end))
  end.

Definition fill_fullbitmap (bmfname : string) : GM unit := draw_picture write_pixcolor bmfname "not bitmap file err" 768 0 0 1024 ;; flush_videoram.

(** [die] passes the time. *)
Definition hal_logo : GM unit := draw_picture drxw_pixcolor "logo.bmp" "logoerr" 617 153 402 622.

Definition version_fmt1 : list Z := str_bytes "系统存在进程:%d个 系统空闲内存大小:%dMB" ++ [10].
Definition version_fmt2 : list Z := str_bytes "系统处理器工作模式:%d位 系统物理内存大小:%dMB" ++ [10].
Definition hal_dspversion (kp : list Z -> list Z -> GM unit) : GM unit :=
  bkpx ← set_deffontpx (BGRA 0xff 0 0);
  kp version [] ;;
  kp version_fmt1 [threadnr; Z.shiftr (freepages <<u 12) 20] ;;
  kp version_fmt2 [cpumode; Z.shiftr memsz 20] ;;
  _ ← set_deffontpx bkpx; mret tt.

Fixpoint hal_background (depth : nat) : GM unit :=
  match depth with
  | O => nofuel
  | Datatypes.S depth' =>
      draw_picture drxw_pixcolor "desktop1.bmp" "Cosmos background fail" 768 0 0 1024 ;;
      hal_dspversion (kprint (hal_background depth'))
  end.

(** ** Set-up *)

Definition init_dftgraph (p : ghparm) : GM unit :=
  fram ← phyadr_to_viradr (gp_framphyadr p);
  fvrm ← phyadr_to_viradr (gp_fvrmphyadr p);
  fontadr ← phyadr_to_viradr (gp_bfontpadr p);
  upd_gdev (fun _ => Dftgraph (gp_mode p) (gp_x p) (gp_y p) fram fvrm (gp_fvrmsz p) (gp_onepixbits p) (gp_onepixbits p / 8) (gp_vbemodenr p)
    (gp_bank p) (gp_curdipbnk p) (gp_nextbnk p) (gp_banksz p) fontadr (gp_bfontsz p) 16 0 0 (16 + 4) (BGRA 0xff 0xff 0xff) 0 0 OpNone).
Definition init_bga : GM unit := upd_gdev (fun d => if negb (gh_mode d =? BGAMODE) then d else set_opfun OpBga d).
Definition init_vbe : GM unit := upd_gdev (fun d => if negb (gh_mode d =? VBEMODE) then d else set_opfun OpVbe d).

Definition bdvideo_msg : list Z := str_bytes "图形显示初始化成功" ++ [10].
Definition init_bdvideo (depth : nat) (p : ghparm) : GM unit :=
  init_dftgraph p ;;
  init_bga ;;
  init_vbe ;;
  fill_graph (BGRA 0 0 0) ;;
  set_charsdxwflush 0 0 ;;
  hal_background depth ;;
  kprint (hal_background depth) bdvideo_msg [].
End text.
