(* ===== verification/ConsoleSpec.v ===== *)
(** * The console: theorems

    Decoding against the UTF-8 encoding, glyphs against the bits of the font, and text:
    printing ends and stores into the frame buffers only. *)

From S2P Require Import Prelude Intr IntrSpec Boot Kernel Print Console.
#[local] Open Scope Z_scope.

(** ** UTF-8 *)

(** The encoding of a code point, up to six bytes *)
Definition cont (u : Z) : Z := 0x80 + u mod 64.
Definition utf8 (u : Z) : list Z :=
  if u <? 0x80 then [u]
  else if u <? 0x800 then [0xc0 + u / 64; cont u]
  else if u <? 0x10000 then [0xe0 + u / 64 / 64; cont (u / 64); cont u]
  else if u <? 0x200000 then [0xf0 + u / 64 / 64 / 64; cont (u / 64 / 64); cont (u / 64); cont u]
  else if u <? 0x4000000 then [0xf8 + u / 64 / 64 / 64 / 64; cont (u / 64 / 64 / 64); cont (u / 64 / 64); cont (u / 64); cont u]
  else [0xfc + u / 64 / 64 / 64 / 64 / 64; cont (u / 64 / 64 / 64 / 64); cont (u / 64 / 64 / 64); cont (u / 64 / 64); cont (u / 64); cont u].

Lemma next_bits_eq t b : 0 <= t < 2 ^ 26 -> next_bits t (cont b) = t * 64 + b mod 64.
Proof.
  intros Ht. unfold next_bits, cont. rewrite u32_mod, Z.shiftl_mul_pow2 by done. change 0x3f with (2 ^ 6 - 1). rewrite land_mod by done.
  replace ((128 + b mod 64) mod 2 ^ 6) with (b mod 64) by (change (2 ^ 6) with 64; Z.to_euclidean_division_equations; lia). change (2 ^ 26) with 67108864 in Ht.
  rewrite Z.mod_small by (change (2 ^ 6) with 64; change (2 ^ 32) with 4294967296; lia). apply lor_low; [done|]. apply Z.mod_pos_bound. done.
Qed.
Lemma lead_bits h k q : 0 <= k -> h mod 2 ^ k = 0 -> 0 <= q < 2 ^ k -> Z.land (h + q) (2 ^ k - 1) = q.
Proof. intros Hk Hh Hq. rewrite land_mod by done. pose proof (pow2_pos k Hk). rewrite <- Zplus_mod_idemp_l, Hh, Z.add_0_l. by apply Z.mod_small. Qed.

Lemma byte_at (pre l post : list Z) k b : l !! k = Some b -> (pre ++ l ++ post) !! (length pre + k)%nat = Some b.
Proof. intros H. rewrite lookup_app_r by lia. replace (length pre + k - length pre)%nat with k by lia. by apply lookup_app_l_Some. Qed.

Ltac quotients u n :=
  match n with
  | O => idtac
  | Datatypes.S ?m =>
      let H1 := fresh in let H2 := fresh in
      pose proof (Z.div_mod u 64 ltac:(lia)) as H1; pose proof (Z.mod_pos_bound u 64 ltac:(lia)) as H2; quotients (u / 64) m
  end.

(** Decides the comparisons of the lead byte, then undoes the shifts. *)
Ltac settle := repeat match goal with |- context [if ?c then _ else _] => first [replace c with true by lia|replace c with false by lia]; cbv iota end.
Ltac decode_tail k h :=
  rewrite (lead_bits h k) by (done || (cbn; lia)); repeat (match goal with |- context [next_bits ?t (cont ?b)] => lazymatch t with context [next_bits] => fail | _ => rewrite (next_bits_eq t b) by (cbn; lia) end end); f_equal; apply f_equal2; [lia|done].

Lemma utf8_decodes pre u post : 0 <= u < 2 ^ 31 -> utf8_to_unicode (pre ++ utf8 u ++ post) (length pre) = Some (u, Z.of_nat (length (utf8 u))).
Proof.
  intros Hu. change (2 ^ 31) with 2147483648 in Hu. quotients u 5%nat. unfold utf8, utf8_to_unicode.
  destruct (Z.ltb_spec u 0x80); [|destruct (Z.ltb_spec u 0x800); [|destruct (Z.ltb_spec u 0x10000); [|destruct (Z.ltb_spec u 0x200000); [|destruct (Z.ltb_spec u 0x4000000)]]]].
  - rewrite (byte_at _ _ _ 0 u) by done. cbn [mbind option_bind]. settle. change 0x7f with (2 ^ 7 - 1). rewrite land_mod by done. rewrite Z.mod_small by lia. done.
  - erewrite (byte_at _ _ _ 0) by reflexivity. cbn [mbind option_bind]. settle. do 1 (erewrite byte_at by reflexivity; cbn [mbind option_bind]). decode_tail 5 0xc0.
  - erewrite (byte_at _ _ _ 0) by reflexivity. cbn [mbind option_bind]. settle. do 2 (erewrite byte_at by reflexivity; cbn [mbind option_bind]). decode_tail 4 0xe0.
  - erewrite (byte_at _ _ _ 0) by reflexivity. cbn [mbind option_bind]. settle. do 3 (erewrite byte_at by reflexivity; cbn [mbind option_bind]). decode_tail 3 0xf0.
  - erewrite (byte_at _ _ _ 0) by reflexivity. cbn [mbind option_bind]. settle. do 4 (erewrite byte_at by reflexivity; cbn [mbind option_bind]). decode_tail 2 0xf8.
  - erewrite (byte_at _ _ _ 0) by reflexivity. cbn [mbind option_bind]. settle. do 5 (erewrite byte_at by reflexivity; cbn [mbind option_bind]). decode_tail 1 0xfc.
Qed.

(** C33: decoding undoes encoding: for every code point below 2^31, wherever its bytes stand
    in a string, [utf8_to_unicode] gives the code point and the number of its bytes. *)
Theorem utf8_roundtrip pre u post : 0 <= u < 2 ^ 31 -> utf8_to_unicode (pre ++ utf8 u ++ post) (length pre) = Some (u, Z.of_nat (length (utf8 u))).
Proof. exact (utf8_decodes pre u post). Qed.

(** ** Frame buffers *)

Definition bpp (d : dftgraph_t) : Z := if gh_onepixbits d =? 24 then 3 else 4.

(** [base .. ] has memory for [n] lines of the screen; [region] is the screen itself. *)
Definition lines (d : dftgraph_t) (m : gmap Z Z) (base n : Z) : Prop :=
  0 <= base /\ base + bpp d * (gh_x d * n) < u64max /\ forall a, base <= a < base + bpp d * (gh_x d * n) -> is_Some (m !! a).
Definition region (d : dftgraph_t) (m : gmap Z Z) (base : Z) : Prop := lines d m base (gh_y d).

(** A screen in the mode of the firmware with the cursor on a line of text *)
Record Scr (d : dftgraph_t) (m : gmap Z Z) : Prop := {
  scr_op : gh_opfun d = OpVbe;
  scr_bits : gh_onepixbits d = 24 \/ gh_onepixbits d = 32;
  scr_byte : gh_onepixbyte d = bpp d;
  scr_x : 1024 <= gh_x d < 2 ^ 15;
  scr_y : 768 <= gh_y d < 2 ^ 15;
  scr_text : gh_fnthight d = 16 /\ gh_linesz d = 20;
  scr_cx : 0 <= gh_nxtcharsx d <= gh_x d;
  scr_cy : 0 <= gh_nxtcharsy d <= gh_y d - 16 /\ gh_nxtcharsy d mod 20 = 0;
  scr_buf : region d m (gh_fvrmphyadr d);
  scr_frame : region d m (gh_framphyadr d)
}.

(** The pixel that the byte at [a] belongs to *)
Definition column (d : dftgraph_t) (base a : Z) : Z := ((a - base) / bpp d) mod gh_x d.
Definition row (d : dftgraph_t) (base a : Z) : Z := ((a - base) / bpp d) / gh_x d.

(** [m'] is [m] with the pixels in [P] set to [pix]. *)
Definition painted (d : dftgraph_t) (base pix : Z) (P : Z -> Z -> bool) (m m' : gmap Z Z) : Prop :=
  forall a, m' !! a = if (base <=? a) && P (column d base a) (row d base a) then Some (u8 (Z.shiftr pix (8 * ((a - base) mod bpp d)))) else m !! a.

Lemma bpp_range d : 3 <= bpp d <= 4.
Proof. unfold bpp. destruct (_ =? _); lia. Qed.

Lemma painted_none d base pix P m : (forall x y, P x y = false) -> painted d base pix P m m.
Proof. intros HP a. by rewrite HP, andb_false_r. Qed.
Lemma painted_trans d base pix P Q m m1 m2 : painted d base pix P m m1 -> painted d base pix Q m1 m2 -> painted d base pix (fun x y => P x y || Q x y) m m2.
Proof. intros H1 H2 a. rewrite (H2 a), (H1 a). destruct (base <=? a), (P _ _), (Q _ _); done. Qed.
Lemma painted_ext d base pix P Q m m' : painted d base pix P m m' -> (forall x y, P x y = Q x y) -> painted d base pix Q m m'.
Proof. intros H HPQ a. by rewrite (H a), HPQ. Qed.
Lemma painted_lines d base pix P m m' b n : painted d base pix P m m' -> lines d m b n -> lines d m' b n.
Proof. intros H (H1 & H2 & H3). split_and!; [done|done|]. intros a Ha. rewrite (H a). destruct (_ && _); [done|]. by apply H3. Qed.
Lemma painted_Scr d base pix P m m' : painted d base pix P m m' -> Scr d m -> Scr d m'.
Proof. intros H []. split; try done; by eapply painted_lines. Qed.

(** The bytes of one pixel *)
Lemma pixel_bytes d base a x y : 1 <= gh_x d -> 0 <= x < gh_x d -> 0 <= y ->
  (base <= a /\ column d base a = x /\ row d base a = y) <-> (let p := base + bpp d * (x + y * gh_x d) in p <= a < p + bpp d).
Proof.
  intros HX Hx Hy. pose proof (bpp_range d). unfold column, row. cbv zeta. set (o := a - base). split.
  - intros (Ha & Hc & Hr). pose proof (Z.div_mod (o / bpp d) (gh_x d) ltac:(lia)) as E1. rewrite Hc, Hr in E1. pose proof (Z.div_mod o (bpp d) ltac:(lia)) as E2.
    pose proof (Z.mod_pos_bound o (bpp d) ltac:(lia)). rewrite E1 in E2. unfold o in *. lia.
  - intros Hp. assert (Ho : 0 <= o) by (unfold o; nia). assert (Eo : o / bpp d = x + y * gh_x d) by (symmetry; apply Z.div_unique with (o - bpp d * (x + y * gh_x d)); unfold o; lia).
    split; [unfold o in Ho; lia|]. rewrite Eo. split; [rewrite Z.mod_add, Z.mod_small by lia; lia|rewrite Z.div_add, Z.div_small by lia; lia].
Qed.

(** ** Stores *)

Lemma store_bytes n : forall a v g k0, (forall k, 0 <= k < Z.of_nat n -> is_Some (g_mem g !! (a + (k0 + k)))) -> 0 <= k0 ->
  wp (for_each (seqZ k0 (Z.of_nat n)) (fun k => store8 (a + k) (Z.shiftr v (8 * k)))) g
     (fun _ g' => exists m', g' = with_gmem m' g /\ forall b, m' !! b = if (a + k0 <=? b) && (b <? a + k0 + Z.of_nat n) then Some (u8 (Z.shiftr v (8 * (b - a)))) else g_mem g !! b).
Proof.
  induction n as [|n IH]; intros a v g k0 Hm Hk0.
  - apply wp_ret. exists (g_mem g). split; [by destruct g|]. intros b. by replace (_ && _) with false by lia.
  - rewrite Nat2Z.inj_succ, seqZ_cons by lia. cbn [for_each]. destruct (Hm 0 ltac:(lia)) as [w Hw]. rewrite Z.add_0_r in Hw.
    apply wp_bind. unfold wp at 1, store8 at 1. rewrite Hw. replace (Z.pred (Z.succ (Z.of_nat n))) with (Z.of_nat n) by lia. replace (Z.succ k0) with (k0 + 1) by lia.
    eapply wp_mono.
    + apply IH; [|lia]. intros k Hk. cbn [g_mem with_gmem]. replace (a + (k0 + 1 + k)) with (a + (k0 + (k + 1))) by lia. destruct (decide (a + k0 = a + (k0 + (k + 1)))) as [->|Hne]; [by rewrite lookup_insert_eq|rewrite lookup_insert_ne by done; apply Hm; lia].
    + intros _ g' (m' & -> & Hb). exists m'. split; [done|]. intros b. rewrite Hb. cbn [g_mem with_gmem].
      destruct (decide (b = a + k0)) as [->|Hne].
      * replace ((a + (k0 + 1) <=? a + k0) && (a + k0 <? a + (k0 + 1) + Z.of_nat n)) with false by lia. replace ((a + k0 <=? a + k0) && (a + k0 <? a + k0 + Z.succ (Z.of_nat n))) with true by lia.
        rewrite lookup_insert_eq. by replace (a + k0 - a) with k0 by lia.
      * rewrite lookup_insert_ne by done. replace ((a + k0 <=? b) && (b <? a + k0 + Z.succ (Z.of_nat n))) with ((a + (k0 + 1) <=? b) && (b <? a + (k0 + 1) + Z.of_nat n)) by lia. done.
Qed.

(** One pixel, in the buffer or on the screen *)
Section pixel.
Context (base_of : dftgraph_t -> Z) (wr : Z -> Z -> Z -> GM unit).
Class Writes := {
  writes_region d m : Scr d m -> region d m (base_of d);
  writes_eq x y pix g : gh_opfun (g_dev g) = OpVbe -> wr x y pix g =
    (let d := g_dev g in
     if gh_onepixbits d =? 24 then store24 (u64 (pixel_index d (u32 x) (u32 y) * 3) +u base_of d) pix g
     else store32 (base_of d +u (4 * pixel_index d (u32 x) (u32 y))) pix g)
}.
Context {HW : Writes}.

Lemma u32_small x : 0 <= x < 2 ^ 32 -> u32 x = x.
Proof. intros Hx. rewrite u32_mod. by apply Z.mod_small. Qed.

Lemma pixel_in_lines n x y pix g : Scr (g_dev g) (g_mem g) -> lines (g_dev g) (g_mem g) (base_of (g_dev g)) n -> n < 2 ^ 15 -> 0 <= x < gh_x (g_dev g) -> 0 <= y < n ->
  wp (wr x y pix) g (fun _ g' => exists m', g' = with_gmem m' g /\ painted (g_dev g) (base_of (g_dev g)) pix (fun px py => (px =? x) && (py =? y)) (g_mem g) m').
Proof.
  intros HS (Hb0 & Hb1 & Hb) HY Hx Hy. set (d := g_dev g) in *. pose proof (scr_x _ _ HS) as HX. pose proof (bpp_range d) as Hp.
  change (2 ^ 15) with 32768 in *. assert (Hrow : (y + 1) * gh_x d <= gh_x d * n) by nia. assert (Hxy : 0 <= x + y * gh_x d /\ bpp d * (x + y * gh_x d) + bpp d <= bpp d * (gh_x d * n)) by nia.
  assert (Hsm : bpp d * (gh_x d * n) < 4 * 32768 * 32768) by nia.
  set (p := base_of d + bpp d * (x + y * gh_x d)).
  assert (E : wr x y pix g = for_each (seqZ 0 (Z.of_nat (Z.to_nat (bpp d)))) (fun k => store8 (p + k) (Z.shiftr pix (8 * k))) g).
  { rewrite writes_eq by (by apply (scr_op _ _ HS)). cbv zeta. fold d. unfold pixel_index. rewrite !u32_small by (change (2 ^ 32) with 4294967296; lia).
    rewrite (u64_small (x + y * gh_x d)) by (rewrite u64max_val; nia). unfold p, bpp in *. destruct (gh_onepixbits d =? 24).
    - rewrite (u64_small (_ * 3)) by (rewrite u64max_val; lia). rewrite u64_small by lia. rewrite (Z.add_comm _ (base_of d)), (Z.mul_comm _ 3). reflexivity.
    - rewrite u64_small by lia. reflexivity. }
  unfold wp. rewrite E. fold (wp (for_each (seqZ 0 (Z.of_nat (Z.to_nat (bpp d)))) (fun k => store8 (p + k) (Z.shiftr pix (8 * k)))) g (fun _ g' => exists m', g' = with_gmem m' g /\ painted d (base_of d) pix (fun px py => (px =? x) && (py =? y)) (g_mem g) m')).
  eapply wp_mono; [apply store_bytes; [|lia]|].
  - intros k Hk. apply Hb. unfold p. lia.
  - intros _ g' (m' & -> & Hm'). exists m'. split; [done|]. intros a. rewrite Hm'. pose proof (pixel_bytes d (base_of d) a x y ltac:(lia) Hx ltac:(lia)) as Hpb. cbv zeta in Hpb. fold p in Hpb.
    rewrite Z2Nat.id by lia. rewrite Z.add_0_r.
    destruct (decide (p <= a < p + bpp d)) as [Hin|Hout].
    + replace ((p <=? a) && (a <? p + bpp d)) with true by lia. apply Hpb in Hin as Hin'. destruct Hin' as (Ha & Hc & Hr). replace ((base_of d <=? a) && ((column d (base_of d) a =? x) && (row d (base_of d) a =? y))) with true by lia.
      do 4 f_equal. apply Z.mod_unique with (x + y * gh_x d); unfold p in Hin |- *; lia.
    + replace ((p <=? a) && (a <? p + bpp d)) with false by lia. replace ((base_of d <=? a) && ((column d (base_of d) a =? x) && (row d (base_of d) a =? y))) with false; [done|].
      symmetry. apply not_true_iff_false. intros H. apply Hout, Hpb. lia.
Qed.
Lemma pixel_painted x y pix g : Scr (g_dev g) (g_mem g) -> 0 <= x < gh_x (g_dev g) -> 0 <= y < gh_y (g_dev g) ->
  wp (wr x y pix) g (fun _ g' => exists m', g' = with_gmem m' g /\ painted (g_dev g) (base_of (g_dev g)) pix (fun px py => (px =? x) && (py =? y)) (g_mem g) m').
Proof. intros HS. apply (pixel_in_lines (gh_y (g_dev g))); [done|by apply writes_region|apply (scr_y _ _ HS)]. Qed.
End pixel.

(** ** Glyphs *)

Section glyph.
Context (base_of : dftgraph_t -> Z) (wr : Z -> Z -> Z -> GM unit) {HW : Writes base_of wr} (pix : Z).
Implicit Types (g : gst).

(** What a piece of drawing does: nothing but paint the pixels [P]. *)
Definition draws (P : Z -> Z -> bool) g g' : Prop :=
  exists m', g' = with_gmem m' g /\ painted (g_dev g) (base_of (g_dev g)) pix P (g_mem g) m'.
Lemma draws_trans P Q R g g1 g2 : draws P g g1 -> draws Q g1 g2 -> (forall x y, P x y || Q x y = R x y) -> draws R g g2.
Proof. intros (m1 & -> & H1) (m2 & -> & H2) HR. exists m2. split; [done|]. eapply painted_ext; [by eapply painted_trans|done]. Qed.
Lemma draws_none P g : (forall x y, P x y = false) -> draws P g g.
Proof. intros H. exists (g_mem g). split; [by destruct g|by apply painted_none]. Qed.
Lemma draws_dev P g g' : draws P g g' -> g_dev g' = g_dev g.
Proof. by intros (m' & -> & _). Qed.
Lemma draws_Scr P g g' : draws P g g' -> Scr (g_dev g) (g_mem g) -> Scr (g_dev g') (g_mem g').
Proof. intros (m' & -> & H) HS. by eapply painted_Scr. Qed.

Lemma bit_test b i : 0 <= i -> (Z.land (Z.shiftr b i) 1 =? 1) = Z.testbit b i.
Proof. intros Hi. change 1 with (2 ^ 1 - 1) at 1. rewrite land_mod, Z.testbit_odd by done. change (2 ^ 1) with 2. rewrite Zmod_odd. by destruct (Z.odd _). Qed.

(** [7; 6; ..; 0] is [down 8]. *)
Fixpoint down (n : nat) : list Z := match n with O => [] | Datatypes.S n' => Z.of_nat n' :: down n' end.

Lemma draw_bits_spec n : forall bitmap w wpx wpy x y g, Scr (g_dev g) (g_mem g) -> 0 <= wpx -> wpx + w <= gh_x (g_dev g) -> 0 <= wpy + y < gh_y (g_dev g) -> 0 <= x ->
  wp (draw_bits wr pix (down n) bitmap w wpx wpy x y) g (fun x' g' => x' = (if w <=? x then x else Z.min (x + Z.of_nat n) w) /\
    draws (fun px py => (py =? wpy + y) && (x <=? px - wpx) && (px - wpx <? Z.min (x + Z.of_nat n) w) && Z.testbit bitmap (Z.of_nat n - 1 - (px - wpx - x))) g g').
Proof.
  induction n as [|n IH]; intros bitmap w wpx wpy x y g HS Hpx Hw Hy Hx; cbn [down draw_bits].
  - apply wp_ret. split; [destruct (Z.leb_spec w x); lia|]. apply draws_none. intros px py. destruct (Z.leb_spec x (px - wpx)), (Z.ltb_spec (px - wpx) (Z.min (x + Z.of_nat 0) w)); rewrite ?andb_false_r; cbn; (done || lia).
  - destruct (Z.leb_spec w x) as [Hwx|Hwx].
    + apply wp_ret. split; [done|]. apply draws_none. intros px py. destruct (Z.leb_spec x (px - wpx)), (Z.ltb_spec (px - wpx) (Z.min (x + Z.of_nat (Datatypes.S n)) w)); rewrite ?andb_false_r; cbn; (done || lia).
    + pose proof (scr_x _ _ HS) as HX. pose proof (scr_y _ _ HS) as HY. change (2 ^ 15) with 32768 in *. apply wp_bind.
      eapply (wp_mono _ _ (fun _ g' => draws (fun px py => (px =? wpx + x) && (py =? wpy + y) && Z.testbit bitmap (Z.of_nat n)) g g')).
      * rewrite bit_test by lia. destruct (Z.testbit bitmap (Z.of_nat n)).
        -- rewrite !u32_small by (change (2 ^ 32) with 4294967296; lia). eapply wp_mono; [apply (pixel_painted base_of wr); [done|lia|lia]|]. intros _ g' (m' & -> & Hm'). exists m'. split; [done|]. eapply painted_ext; [exact Hm'|]. intros px py. by rewrite andb_true_r.
        -- apply wp_ret, draws_none. intros px py. by rewrite andb_false_r.
      * intros _ g1 H1. pose proof (draws_dev _ _ _ H1) as Hd. eapply wp_mono; [apply IH; rewrite ?Hd; [rewrite <- Hd; by eapply draws_Scr|done|done|done|lia]|].
        intros x' g2 (-> & H2). split; [destruct (Z.leb_spec w (x + 1)); lia|]. eapply draws_trans; [exact H1|exact H2|]. intros px py. cbv beta. rewrite Nat2Z.inj_succ.
        replace (Z.of_nat n - 1 - (px - wpx - (x + 1))) with (Z.succ (Z.of_nat n) - 1 - (px - wpx - x)) by lia. destruct (decide (px = wpx + x)) as [->|Hne].
        -- replace (Z.succ (Z.of_nat n) - 1 - (wpx + x - wpx - x)) with (Z.of_nat n) by lia. replace (x + 1 <=? wpx + x - wpx) with false by lia. replace (x <=? wpx + x - wpx) with true by lia.
           replace (wpx + x - wpx <? Z.min (x + Z.succ (Z.of_nat n)) w) with true by lia. rewrite Z.eqb_refl. destruct (py =? wpy + y), (Z.testbit _ _); done.
        -- replace (px =? wpx + x) with false by lia. cbn [andb orb]. replace (x + 1 <=? px - wpx) with (x <=? px - wpx) by lia. by replace (x + 1 + Z.of_nat n) with (x + Z.succ (Z.of_nat n)) by lia.
Qed.

(** A glyph that fits its array *)
Definition glyph_ok (f : fntdata_t) : Prop := 0 <= fntwx f <= 16 /\ 0 <= fnthx f <= 16 /\ 0 <= fntwxbyte f /\ fnthx f * fntwxbyte f <= Z.of_nat (length (fntchmap f)).
(** The bit of line [r] and column [c] *)
Definition glyph_bit (f : fntdata_t) (r c : Z) : bool := Z.testbit (fntchmap f !!! Z.to_nat (r * fntwxbyte f + c / 8)) (7 - c mod 8).

Lemma draw_row_spec n f hx wpx wpy x y : forall b g, Scr (g_dev g) (g_mem g) -> glyph_ok f -> 0 <= hx < fnthx f -> 0 <= b -> b + Z.of_nat n = fntwxbyte f -> 0 <= wpx -> wpx + fntwx f <= gh_x (g_dev g) -> 0 <= wpy + y < gh_y (g_dev g) ->
  (x = 8 * b \/ (fntwx f <= x /\ fntwx f <= 8 * b)) ->
  wp (draw_row wr pix (seqZ b (Z.of_nat n)) f hx wpx wpy x y) g (fun _ g' =>
    draws (fun px py => (py =? wpy + y) && (8 * b <=? px - wpx) && (px - wpx <? Z.min (8 * fntwxbyte f) (fntwx f)) && glyph_bit f hx (px - wpx)) g g').
Proof.
  revert x. induction n as [|n IH]; intros x b g HS Hf Hhx Hb Hn Hpx Hw Hy Hxb.
  - apply wp_ret, draws_none. intros px py. destruct (Z.leb_spec (8 * b) (px - wpx)), (Z.ltb_spec (px - wpx) (Z.min (8 * fntwxbyte f) (fntwx f))); rewrite ?andb_false_r; cbn; (done || lia).
  - rewrite Nat2Z.inj_succ, seqZ_cons by lia. cbn [draw_row]. replace (Z.pred (Z.succ (Z.of_nat n))) with (Z.of_nat n) by lia. replace (Z.succ b) with (b + 1) by lia.
    destruct Hf as (Hf1 & Hf2 & Hf3 & Hf4). assert (Hin : (Z.to_nat (hx * fntwxbyte f + b) < length (fntchmap f))%nat) by nia.
    destruct (lookup_lt_is_Some_2 _ _ Hin) as [bitmap Eb]. rewrite Eb. apply wp_bind.
    assert (Hbit : forall c, 8 * b <= c < 8 * b + 8 -> Z.testbit bitmap (7 - (c - 8 * b)) = glyph_bit f hx c).
    { intros c Hc. unfold glyph_bit. assert (Ec : c / 8 = b) by (symmetry; apply Z.div_unique with (c - 8 * b); lia). rewrite Ec, (list_lookup_total_correct _ _ _ Eb). f_equal. pose proof (Z.div_mod c 8 ltac:(lia)). lia. }
    eapply (wp_mono _ _ (fun x' g' => (x' = 8 * (b + 1) \/ (fntwx f <= x' /\ fntwx f <= 8 * (b + 1))) /\
      draws (fun px py => (py =? wpy + y) && (8 * b <=? px - wpx) && (px - wpx <? Z.min (8 * (b + 1)) (fntwx f)) && glyph_bit f hx (px - wpx)) g g')).
    + destruct (Z.eqb_spec bitmap 0) as [->|Hnz].
      * apply wp_ret. split; [lia|]. apply draws_none. intros px py. destruct (Z.leb_spec (8 * b) (px - wpx)), (Z.ltb_spec (px - wpx) (Z.min (8 * (b + 1)) (fntwx f))); rewrite ?andb_false_r; try done.
        rewrite <- Hbit by lia. rewrite Z.bits_0. by rewrite ?andb_false_r.
      * eapply wp_mono; [apply (draw_bits_spec 8); [done|done|done|done|lia]|]. intros x' g' (-> & Hd). change (Z.of_nat 8) with 8 in *. split; [destruct (Z.leb_spec (fntwx f) x); lia|].
        destruct Hd as (m' & -> & Hm'). exists m'. split; [done|]. eapply painted_ext; [exact Hm'|]. intros px py. cbv beta. destruct Hxb as [->|Hxb].
        -- replace (8 * b + 8) with (8 * (b + 1)) by lia. destruct (Z.leb_spec (8 * b) (px - wpx)), (Z.ltb_spec (px - wpx) (Z.min (8 * (b + 1)) (fntwx f))); rewrite ?andb_false_r; try done. rewrite <- Hbit by lia. done.
        -- rewrite <- !andb_assoc, (andb_assoc (x <=? _)), (andb_assoc (8 * b <=? _)). replace ((x <=? px - wpx) && (px - wpx <? Z.min (x + 8) (fntwx f))) with false by lia.
           by replace ((8 * b <=? px - wpx) && (px - wpx <? Z.min (8 * (b + 1)) (fntwx f))) with false by lia.
    + intros x' g1 (Hx' & H1). pose proof (draws_dev _ _ _ H1) as Hd. eapply wp_mono; [apply IH; rewrite ?Hd; [rewrite <- Hd; by eapply draws_Scr|done|done|lia|lia|done|done|done|done]|].
      intros [] g2 H2. eapply draws_trans; [exact H1|exact H2|]. intros px py. cbv beta. destruct (py =? wpy + y), (glyph_bit f hx (px - wpx)); rewrite ?andb_false_r; try done. cbn [andb]. rewrite !andb_true_r. lia.
Qed.

(** The pixels of a glyph at a place *)
Definition glyph_at (f : fntdata_t) (wpx wpy px py : Z) : bool :=
  (0 <=? py - wpy) && (py - wpy <? fnthx f) && (0 <=? px - wpx) && (px - wpx <? Z.min (8 * fntwxbyte f) (fntwx f)) && glyph_bit f (py - wpy) (px - wpx).

Lemma draw_rows_spec n f wpx wpy : forall h g, Scr (g_dev g) (g_mem g) -> glyph_ok f -> 0 <= h -> h + Z.of_nat n = fnthx f -> 0 <= wpx -> wpx + fntwx f <= gh_x (g_dev g) -> 0 <= wpy -> wpy + fnthx f <= gh_y (g_dev g) ->
  wp (draw_rows wr pix (seqZ h (Z.of_nat n)) f wpx wpy h) g (fun _ g' => draws (fun px py => (h <=? py - wpy) && glyph_at f wpx wpy px py) g g').
Proof.
  induction n as [|n IH]; intros h g HS Hf Hh Hn Hpx Hw Hpy Hy.
  - apply wp_ret, draws_none. intros px py. unfold glyph_at. destruct (Z.leb_spec h (py - wpy)), (Z.ltb_spec (py - wpy) (fnthx f)); rewrite ?andb_false_r; cbn; (done || lia).
  - rewrite Nat2Z.inj_succ, seqZ_cons by lia. cbn [draw_rows]. replace (Z.pred (Z.succ (Z.of_nat n))) with (Z.of_nat n) by lia. replace (Z.succ h) with (h + 1) by lia. apply wp_bind.
    pose proof Hf as (_ & _ & Hb & _). rewrite <- (Z2Nat.id (fntwxbyte f)) at 1 by done. eapply wp_mono; [apply draw_row_spec; [done|done|lia|lia|lia|done|done|lia|lia]|].
    intros [] g1 H1. pose proof (draws_dev _ _ _ H1) as Hd. eapply wp_mono; [apply IH; rewrite ?Hd; [rewrite <- Hd; by eapply draws_Scr|done|lia|lia|done|done|done|done]|].
    intros [] g2 H2. eapply draws_trans; [exact H1|exact H2|]. intros px py. cbv beta. unfold glyph_at. destruct (decide (py = wpy + h)) as [->|Hne].
    + replace (wpy + h - wpy) with h by lia. destruct (glyph_bit f h (px - wpx)); rewrite ?andb_false_r; [|done]. rewrite !andb_true_r. lia.
    + replace (py =? wpy + h) with false by lia. cbn [andb orb]. replace (h + 1 <=? py - wpy) with (h <=? py - wpy) by lia. done.
Qed.
End glyph.

(** ** Characters *)

#[global] Instance write_pixcolor_writes : Writes gh_fvrmphyadr write_pixcolor.
Proof.
  split.
  - intros d m HS. exact (scr_buf _ _ HS).
  - intros x y pix g Ho. unfold write_pixcolor, vbe_writepix, gets, mbind, M_bind. rewrite Ho. by destruct (gh_onepixbits (g_dev g) =? 24).
Qed.
#[global] Instance drxw_pixcolor_writes : Writes gh_framphyadr drxw_pixcolor.
Proof.
  split.
  - intros d m HS. exact (scr_frame _ _ HS).
  - intros x y pix g Ho. unfold drxw_pixcolor, vbe_dxwritepix, gets, mbind, M_bind. rewrite Ho. by destruct (gh_onepixbits (g_dev g) =? 24).
Qed.

(** The next line of text, and the place of a glyph of width [w] *)
Definition line_below (d : dftgraph_t) : Z := if gh_y d - 16 <? gh_nxtcharsy d + 20 then 0 else gh_nxtcharsy d + 20.
Definition place (d : dftgraph_t) (w : Z) : Z * Z := if gh_x d - w <? gh_nxtcharsx d + w then (0, line_below d) else (gh_nxtcharsx d, gh_nxtcharsy d).
(** Pixels of text lines before the cursor *)
Definition pot (d : dftgraph_t) : Z := gh_nxtcharsy d / 20 * gh_x d + gh_nxtcharsx d.

Lemma next_line_eq d m : Scr d m -> next_line d = (line_below d, gh_y d - 16 <? gh_nxtcharsy d + 20).
Proof.
  intros HS. destruct (scr_text _ _ HS) as [H1 H2]. destruct (scr_cy _ _ HS) as [Hy _]. pose proof (scr_y _ _ HS) as HY. change (2 ^ 15) with 32768 in HY. unfold next_line, line_below. rewrite H1, H2.
  rewrite !u64_small by (rewrite u64max_val; lia). by destruct (_ <? _).
Qed.
Lemma cursor_Scr d m x y : Scr d m -> 0 <= x <= gh_x d -> 0 <= y <= gh_y d - 16 /\ y mod 20 = 0 -> Scr (set_cursor x y d) m.
Proof. intros [] Hx Hy. by split. Qed.
Lemma line_below_ok d m : Scr d m -> 0 <= line_below d <= gh_y d - 16 /\ line_below d mod 20 = 0.
Proof.
  intros HS. destruct (scr_cy _ _ HS) as [Hy Hm]. pose proof (scr_y _ _ HS) as HY. unfold line_below. destruct (Z.ltb_spec (gh_y d - 16) (gh_nxtcharsy d + 20)); [split; [lia|done]|]. split; [lia|]. rewrite <- Zplus_mod_idemp_l, Hm. done.
Qed.
Lemma line_below_pot d m : Scr d m -> line_below d / 20 <= gh_nxtcharsy d / 20 + 1.
Proof.
  intros HS. destruct (scr_cy _ _ HS) as [Hy Hm]. pose proof (Z.div_mod (gh_nxtcharsy d) 20 ltac:(lia)). unfold line_below. destruct (Z.ltb_spec (gh_y d - 16) (gh_nxtcharsy d + 20)); [change (0 / 20) with 0; lia|].
  apply Z.eq_le_incl. symmetry. apply Z.div_unique with 0; lia.
Qed.

Lemma place_ok d m w : Scr d m -> 0 <= w <= 16 -> 0 <= (place d w).1 /\ (place d w).1 + w <= gh_x d /\ (0 <= (place d w).2 <= gh_y d - 16 /\ (place d w).2 mod 20 = 0) /\
  (place d w).2 / 20 * gh_x d + ((place d w).1 + w) <= pot d + 48.
Proof.
  intros HS Hw. pose proof (scr_cx _ _ HS). pose proof (scr_cy _ _ HS) as Hcy. pose proof (scr_x _ _ HS). pose proof (line_below_ok _ _ HS). pose proof (line_below_pot _ _ HS). unfold place, pot.
  destruct (Z.ltb_spec (gh_x d - w) (gh_nxtcharsx d + w)); cbn [fst snd]; (split_and!; [lia|lia|lia|lia|lia|]); [|lia]. nia.
Qed.

Section chars.
Context (font : Z -> option fntdata_t) (base_of : dftgraph_t -> Z) (wr : Z -> Z -> Z -> GM unit) {HW : Writes base_of wr}.
Context (Hcur : forall x y d, base_of (set_cursor x y d) = base_of d).
Implicit Types (g : gst).

Lemma char_spec pix bg uc f g : Scr (g_dev g) (g_mem g) -> uc <> 10 -> font uc = Some f -> glyph_ok f ->
  wp (pixonechar font wr pix bg uc) g (fun _ g' => let d := g_dev g in let '(x, y) := place d (fntwx f) in
    exists m', g' = with_gmem m' (with_gdev (set_cursor (x + fntwx f) y d) g) /\ painted d (base_of d) pix (glyph_at f x y) (g_mem g) m').
Proof.
  intros HS Huc Hf Hok. set (d := g_dev g) in *. pose proof Hok as (Hw & Hh & _). pose proof (place_ok d _ (fntwx f) HS Hw) as (Hx & Hxw & Hy & _).
  pose proof (scr_cx _ _ HS). pose proof (scr_x _ _ HS) as HX. pose proof (scr_y _ _ HS) as HY. change (2 ^ 15) with 32768 in *.
  unfold pixonechar. apply wp_bind, wp_gets. fold d. replace (uc =? 10) with false by lia. rewrite Hf.
  rewrite !u64_small by (rewrite u64max_val; lia). rewrite (next_line_eq d _ HS). cbn [fst]. apply wp_bind.
  eapply (wp_mono _ _ (fun _ g' => g' = with_gdev (set_cursor (place d (fntwx f)).1 (place d (fntwx f)).2 d) g)).
  { unfold place. destruct (_ <? _); cbn [fst snd]; [apply wp_modify; done|apply wp_ret]. unfold d. by destruct g as [[] ? ? ?]. }
  intros _ g1 ->. destruct (place d (fntwx f)) as [x y]. cbn [fst snd] in *. apply wp_bind, wp_gets. cbn [g_dev with_gdev gh_nxtcharsx gh_nxtcharsy set_cursor].
  assert (HS1 : Scr (set_cursor x y d) (g_mem g)) by (apply cursor_Scr; [done|lia|lia]).
  rewrite !u32_small by (change (2 ^ 32) with 4294967296; lia). apply wp_bind. rewrite <- (Z2Nat.id (fnthx f)) at 1 by lia.
  eapply wp_mono; [apply (draw_rows_spec base_of wr); [exact HS1|done|lia|lia|lia|exact Hxw|lia|cbn; lia]|].
  intros [] g2 (m' & -> & Hm'). cbn [g_dev g_mem with_gdev with_gmem] in *. apply wp_modify. exists m'. split.
  - rewrite u64_small by (cbn; rewrite u64max_val; lia). reflexivity.
  - rewrite Hcur in Hm'. intros a. specialize (Hm' a). cbv beta in Hm'. rewrite Hm'. unfold glyph_at, column, row, bpp. cbn [gh_x gh_onepixbits set_cursor]. by destruct (0 <=? _ - y).
Qed.

(** A line feed that does not leave the screen *)
Lemma newline_spec pix bg g (Q : unit -> gst -> Prop) : Scr (g_dev g) (g_mem g) -> let d := g_dev g in
  (gh_nxtcharsy d + 20 <= gh_y d - 16 -> Q tt (with_gdev (set_cursor 0 (gh_nxtcharsy d + 20) d) g)) ->
  (gh_y d - 16 < gh_nxtcharsy d + 20 -> wp bg (with_gdev (set_cursor 0 0 d) g) Q) -> wp (pixonechar font wr pix bg 10) g Q.
Proof.
  intros HS d H1 H2. unfold pixonechar. apply wp_bind, wp_gets. fold d. cbn [Z.eqb Pos.eqb]. rewrite (next_line_eq d _ HS). apply wp_bind, wp_modify. fold d. unfold line_below.
  destruct (Z.ltb_spec (gh_y d - 16) (gh_nxtcharsy d + 20)) as [Hl|Hl]; [by apply H2|apply wp_ret; by apply H1].
Qed.
End chars.

(** C32: glyphs.  In VBE mode, a character other than a line feed, drawn into the buffer or directly on
    the screen, sets exactly the pixels whose bits are set in its glyph, at the cursor or,
    when it does not fit, on the next line (the first one behind the last), to the colour
    of the text; no other byte of memory changes, and the cursor stands behind it. *)
Theorem char_painted font (direct : bool) pix bg uc f g : Scr (g_dev g) (g_mem g) -> uc <> 10 -> font uc = Some f -> glyph_ok f ->
  wp (if direct then drxput_pixonechar font bg uc pix else put_pixonechar font bg uc pix) g (fun _ g' => let d := g_dev g in let '(x, y) := place d (fntwx f) in
    exists m', g' = with_gmem m' (with_gdev (set_cursor (x + fntwx f) y d) g) /\
      painted d (if direct then gh_framphyadr d else gh_fvrmphyadr d) pix (glyph_at f x y) (g_mem g) m').
Proof. intros HS Huc Hf Hok. destruct direct; [exact (char_spec font gh_framphyadr drxw_pixcolor (fun _ _ _ => eq_refl) pix bg uc f g HS Huc Hf Hok)|exact (char_spec font gh_fvrmphyadr write_pixcolor (fun _ _ _ => eq_refl) pix bg uc f g HS Huc Hf Hok)]. Qed.

(** ** Text *)

Definition text (us : list Z) : list Z := mjoin (utf8 <$> us).
(** The font has a glyph for [u]; a line feed needs none. *)
Definition has_glyph (font : Z -> option fntdata_t) (u : Z) : Prop := exists f, font u = Some f /\ glyph_ok f.
Definition in_font (font : Z -> option fntdata_t) (u : Z) : Prop := 0 < u < 0x10000 /\ (u <> 10 -> has_glyph font u).
(** Room on the screen that the text takes at most, and the room before the last line *)
Definition cost1 (X u : Z) : Z := if u =? 10 then X else 48.
Definition cost (X : Z) (us : list Z) : Z := foldr (fun u c => cost1 X u + c) 0 us.
Definition limit (d : dftgraph_t) : Z := gh_x d * ((gh_y d - 36) / 20).

(** The device is the same but for the cursor. *)
Definition same_dev (d d' : dftgraph_t) : Prop := set_cursor 0 0 d' = set_cursor 0 0 d.
Lemma same_dev_x d d' : same_dev d d' -> gh_x d' = gh_x d /\ gh_y d' = gh_y d /\ gh_chardxw d' = gh_chardxw d /\ gh_flush d' = gh_flush d /\ gh_deffontpx d' = gh_deffontpx d.
Proof. intros H. split_and!; [exact (f_equal gh_x H)|exact (f_equal gh_y H)|exact (f_equal gh_chardxw H)|exact (f_equal gh_flush H)|exact (f_equal gh_deffontpx H)]. Qed.
Lemma same_dev_trans d1 d2 d3 : same_dev d1 d2 -> same_dev d2 d3 -> same_dev d1 d3.
Proof. unfold same_dev. congruence. Qed.

(** A screen for the background picture, of which the lines 768 down to 0 are drawn: 769
    lines, one more than a screen of 768 lines has; and for flushing, which copies words
    of 8 bytes *)
Record Con (d : dftgraph_t) (m : gmap Z Z) : Prop := {
  con_scr :> Scr d m;
  con_spare : lines d m (gh_framphyadr d) 769;
  con_words : (bpp d * (gh_x d * gh_y d)) mod 8 = 0
}.
Definition Ok (g : gst) : Prop := Con (g_dev g) (g_mem g).

Lemma painted_Con d base pix P m m' : painted d base pix P m m' -> Con d m -> Con d m'.
Proof. intros H []. split; [by eapply painted_Scr|by eapply painted_lines|done]. Qed.
Lemma cursor_Con d m x y : Con d m -> 0 <= x <= gh_x d -> 0 <= y <= gh_y d - 16 /\ y mod 20 = 0 -> Con (set_cursor x y d) m.
Proof. intros [] Hx Hy. split; [by apply cursor_Scr|done|done]. Qed.

Lemma cost1_nonneg X u : 0 <= X -> 0 <= cost1 X u.
Proof. unfold cost1. destruct (u =? 10); lia. Qed.
Lemma cost_nonneg X us : 0 <= X -> 0 <= cost X us.
Proof. intros HX. induction us as [|u us IH]; [done|]. cbn [cost foldr]. pose proof (cost1_nonneg X u HX). unfold cost in IH. lia. Qed.

Section text.
Context (font : Z -> option fntdata_t).
Implicit Types (g : gst).

(** What a background must do, and when one is not needed *)
Definition bg_ok (bg : GM unit) : Prop := forall g, Ok g -> gh_nxtcharsx (g_dev g) = 0 -> gh_nxtcharsy (g_dev g) = 0 -> wp bg g (fun _ g' => Ok g' /\ same_dev (g_dev g) (g_dev g')).
Definition after (c : Z) g g' : Prop := Ok g' /\ same_dev (g_dev g) (g_dev g') /\ (pot (g_dev g) + c <= limit (g_dev g) -> pot (g_dev g') <= pot (g_dev g) + c).

Lemma one_spec base_of wr {HW : Writes base_of wr} (Hcur : forall x y d, base_of (set_cursor x y d) = base_of d) pix bg uc g : Ok g -> (uc <> 10 -> has_glyph font uc) ->
  bg_ok bg \/ pot (g_dev g) + cost1 (gh_x (g_dev g)) uc <= limit (g_dev g) ->
  wp (pixonechar font wr pix bg uc) g (fun _ g' => after (cost1 (gh_x (g_dev g)) uc) g g').
Proof.
  intros HS Huc Hbg. unfold cost1 in *. destruct (Z.eqb_spec uc 10) as [->|Hne].
  - destruct (scr_cy _ _ HS) as [Hy Hm]. pose proof (scr_x _ _ HS) as HX. pose proof (scr_y _ _ HS) as HY. pose proof (scr_cx _ _ HS) as Hx.
    apply newline_spec; [exact (con_scr _ _ HS)| |]; intros Hl.
    + split_and!; [apply cursor_Con; [done|lia|split; [lia|rewrite <- Zplus_mod_idemp_l, Hm; done]]|done|]. intros _. unfold pot. cbn [g_dev with_gdev gh_nxtcharsx gh_nxtcharsy gh_x set_cursor].
      replace ((gh_nxtcharsy (g_dev g) + 20) / 20) with (gh_nxtcharsy (g_dev g) / 20 + 1); [lia|]. pose proof (Z.div_mod (gh_nxtcharsy (g_dev g)) 20 ltac:(lia)). apply Z.div_unique with 0; lia.
    + assert (Hbot : limit (g_dev g) < pot (g_dev g) + gh_x (g_dev g)).
      { unfold limit, pot. pose proof (Z.div_mod (gh_nxtcharsy (g_dev g)) 20 ltac:(lia)). pose proof (Z.div_mod (gh_y (g_dev g) - 36) 20 ltac:(lia)). pose proof (Z.mod_pos_bound (gh_y (g_dev g) - 36) 20 ltac:(lia)).
        assert ((gh_y (g_dev g) - 36) / 20 <= gh_nxtcharsy (g_dev g) / 20) by lia. nia. }
      destruct Hbg as [Hbg|Hbg]; [|lia]. eapply wp_mono; [apply Hbg; [apply cursor_Con; [done|lia|split; [lia|done]]|done|done]|]. cbn [g_dev with_gdev]. intros _ g' [H1 H2]. split_and!; [done|exact H2|lia].
  - destruct (Huc Hne) as (f & Hf & Hok). eapply wp_mono; [apply (char_spec font base_of wr Hcur); [exact (con_scr _ _ HS)|done|done|done]|]. cbv zeta. intros [] g'. pose proof Hok as (Hw & _). pose proof (place_ok (g_dev g) _ (fntwx f) HS Hw) as (Hx & Hxw & Hy & Hp).
    destruct (place (g_dev g) (fntwx f)) as [x y]. cbn [fst snd] in *. intros (m' & -> & Hm'). split_and!; [|done|intros _; unfold pot at 1; cbn; lia].
    apply (painted_Con _ (base_of (g_dev g)) pix (glyph_at f x y) (g_mem g)); [exact Hm'|]. apply cursor_Con; [done|lia|done].
Qed.

Lemma utf8_first u : 0 < u -> exists c l, utf8 u = c :: l /\ c <> 0.
Proof.
  intros Hu. assert (0 <= u / 64) by (apply Z.div_pos; lia). assert (0 <= u / 64 / 64) by (apply Z.div_pos; lia). assert (0 <= u / 64 / 64 / 64) by (apply Z.div_pos; lia).
  assert (0 <= u / 64 / 64 / 64 / 64) by (apply Z.div_pos; lia). assert (0 <= u / 64 / 64 / 64 / 64 / 64) by (apply Z.div_pos; lia).
  unfold utf8. repeat (destruct (_ <? _); [eexists _, _; split; [reflexivity|lia]|]). eexists _, _. split; [reflexivity|lia].
Qed.

Lemma text_cons u us : text (u :: us) = utf8 u ++ text us.
Proof. done. Qed.
Lemma text_app us vs : text (us ++ vs) = text us ++ text vs.
Proof. unfold text. by rewrite fmap_app, join_app. Qed.

Lemma pot_nonneg g : Ok g -> 0 <= pot (g_dev g).
Proof. intros HS. destruct (scr_cy _ _ HS) as [Hy _]. pose proof (scr_cx _ _ HS). pose proof (scr_x _ _ HS). assert (0 <= gh_nxtcharsy (g_dev g) / 20) by (apply Z.div_pos; lia). unfold pot. nia. Qed.

Lemma after_trans c c' g g1 g2 : 0 <= c' -> after c g g1 -> after c' g1 g2 -> after (c + c') g g2.
Proof.
  intros Hc (H1 & H2 & H3) (H4 & H5 & H6). split_and!; [done|by eapply same_dev_trans|]. intros Hl. destruct (same_dev_x _ _ H2) as (HX & HY & _). assert (El : limit (g_dev g1) = limit (g_dev g)) by (unfold limit; by rewrite HX, HY). lia.
Qed.

(** The loop over characters, up to what follows them *)
Lemma loop_prefix us rest bg pix : forall fuel pre g, Forall (in_font font) us -> Ok g -> bg_ok bg \/ pot (g_dev g) + cost (gh_x (g_dev g)) us <= limit (g_dev g) ->
  exists g', after (cost (gh_x (g_dev g)) us) g g' /\
    gstr_loop font (length us + fuel) bg (pre ++ text us ++ rest) (length pre) pix g = gstr_loop font fuel bg (pre ++ text us ++ rest) (length (pre ++ text us)) pix g'.
Proof.
  induction us as [|u us IH]; intros fuel pre g Hus HS Hbg.
  - exists g. split; [split_and!; [done|done|cbn; lia]|]. by rewrite app_nil_r.
  - apply Forall_cons in Hus as [[Hu Hgl] Hus]. destruct (utf8_first u ltac:(lia)) as (c & l & Ec & Hc). cbn [length Nat.add gstr_loop]. rewrite text_cons, <- !app_assoc.
    assert (Hl : (pre ++ utf8 u ++ text us ++ rest) !! length pre = Some c) by (rewrite lookup_app_r, Nat.sub_diag by lia; by rewrite Ec). rewrite Hl.
    replace (c =? 0) with false by lia. rewrite utf8_decodes by (change (2 ^ 31) with 2147483648; lia). rewrite Nat2Z.id. rewrite (bind_eq _ _ g (gh_chardxw (g_dev g)) g) by done. cbn [cost foldr] in Hbg |- *. fold (cost (gh_x (g_dev g)) us) in Hbg |- *.
    pose proof (scr_x _ _ HS) as HX. pose proof (cost_nonneg (gh_x (g_dev g)) us ltac:(lia)) as Hcn. assert (Hbg1 : bg_ok bg \/ pot (g_dev g) + cost1 (gh_x (g_dev g)) u <= limit (g_dev g)) by (destruct Hbg; [by left|right; lia]).
    assert (H1 : wp (if gh_chardxw (g_dev g) =? 1 then put_pixonechar font bg u pix else drxput_pixonechar font bg u pix) g (fun _ g' => after (cost1 (gh_x (g_dev g)) u) g g')).
    { destruct (_ =? 1); [apply (one_spec gh_fvrmphyadr write_pixcolor (fun _ _ _ => eq_refl))|apply (one_spec gh_framphyadr drxw_pixcolor (fun _ _ _ => eq_refl))]; done. }
    apply wp_run in H1 as ([] & g1 & E1 & H1). rewrite (bind_eq _ _ _ _ _ E1). pose proof H1 as (HS1 & Hsame & Hpot). destruct (same_dev_x _ _ Hsame) as (EX & EY & _).
    destruct (IH fuel (pre ++ utf8 u) g1 Hus HS1) as (g2 & H2 & E2).
    + destruct Hbg as [Hbg|Hbg]; [by left|right]. rewrite EX. unfold limit in *. rewrite EX, EY. lia.
    + exists g2. split; [rewrite EX in H2; by eapply after_trans|]. rewrite length_app, <- !app_assoc in E2. rewrite E2. by rewrite !length_app, Nat.add_assoc.
Qed.

Lemma loop_spec us fuel post bg pix g : Forall (in_font font) us -> (length us < fuel)%nat -> Ok g -> bg_ok bg \/ pot (g_dev g) + cost (gh_x (g_dev g)) us <= limit (g_dev g) ->
  wp (gstr_loop font fuel bg (text us ++ 0 :: post) 0 pix) g (fun _ g' => after (cost (gh_x (g_dev g)) us) g g').
Proof.
  intros Hus Hfuel HS Hbg. replace fuel with (length us + Datatypes.S (fuel - length us - 1))%nat by lia. destruct (loop_prefix us (0 :: post) bg pix (Datatypes.S (fuel - length us - 1)) [] g Hus HS Hbg) as (g' & H & E).
  unfold wp. cbn [app length] in E. rewrite E. cbn [gstr_loop]. rewrite lookup_app_r, Nat.sub_diag by lia. exact H.
Qed.

(** A loop that has not ended has not ended with less fuel either. *)
Lemma loop_less bg buf pix k : forall fuel i g, gstr_loop font fuel bg buf i pix g <> NoFuel -> gstr_loop font (fuel + k) bg buf i pix g = gstr_loop font fuel bg buf i pix g.
Proof.
  induction fuel as [|fuel IH]; intros i g H; [done|]. cbn [gstr_loop Nat.add] in *. destruct (buf !! i) as [c|]; [|done]. destruct (c =? 0); [done|]. destruct (utf8_to_unicode buf i) as [[uc n]|]; [|done].
  unfold mbind, M_bind, gets in *. match goal with |- match ?x with _ => _ end = _ => destruct x as [[[] g1]| | |] end; [by apply IH|done..].
Qed.

(** ** Flushing *)

(** Memory that keeps its addresses *)
Definition kept g g' : Prop := exists m', g' = with_gmem m' g /\ forall a, is_Some (g_mem g !! a) -> is_Some (m' !! a).
Lemma kept_Ok g g' : kept g g' -> Ok g -> Ok g'.
Proof. intros (m' & -> & Hm) [[] H1 H2]. 
  assert (Hl : forall b n, lines (g_dev g) (g_mem g) b n -> lines (g_dev g) m' b n) by (intros b n (? & ? & ?); split_and!; eauto). split; [|by apply Hl|done]. split; try done; by apply Hl.
Qed.

Lemma copy64_kept g0 s d g : kept g0 g -> (forall k, 0 <= k < 8 -> is_Some (g_mem g0 !! (s + k)) /\ is_Some (g_mem g0 !! (d + k))) -> wp (copy64 s d) g (fun _ g' => kept g0 g').
Proof.
  intros Hk Hm. apply (wp_for_each_inv (kept g0)); [done|]. intros k g1 Hin (m1 & -> & Hm1). assert (Hk8 : 0 <= k < 8) by (repeat (apply elem_of_cons in Hin as [->|Hin]; [lia|]); by apply elem_of_nil in Hin).
  destruct (Hm k Hk8) as [Hs Hd]. destruct (Hm1 _ Hs) as [v Hv], (Hm1 _ Hd) as [w Hw]. unfold wp, mbind, M_bind, load8. cbn [g_mem with_gmem]. rewrite Hv. unfold store8. cbn [g_mem with_gmem]. rewrite Hw.
  exists (<[d + k := u8 v]> m1). split; [done|]. intros a Ha. destruct (decide (d + k = a)) as [->|Hne]; [by rewrite lookup_insert_eq|rewrite lookup_insert_ne by done; by apply Hm1].
Qed.

Lemma flush_spec g : Ok g -> wp flush_videoram g (fun _ g' => kept g g').
Proof.
  intros HS. unfold flush_videoram. apply wp_bind, wp_gets. rewrite (scr_op _ _ HS). unfold vbe_flush. apply wp_bind, wp_gets. set (d := g_dev g).
  pose proof (scr_x _ _ HS) as HX. pose proof (scr_y _ _ HS) as HY. change (2 ^ 15) with 32768 in *. pose proof (bpp_range d) as Hp. destruct (scr_buf _ _ HS) as (Hb0 & Hb1 & Hb2), (scr_frame _ _ HS) as (Hf0 & Hf1 & Hf2). fold d in HX, HY, Hb0, Hb1, Hb2, Hf0, Hf1, Hf2.
  assert (Hfb : frame_bytes d = bpp d * (gh_x d * gh_y d)). { pose proof (scr_byte _ _ HS) as Hby. fold d in Hby. unfold frame_bytes. rewrite Hby. assert (Hxy : 0 <= gh_x d * gh_y d <= 32768 * 32768) by nia. rewrite u64_small by (rewrite u64max_val; nia). lia. }
  apply (wp_for_each_inv (kept g)); [exists (g_mem g); split; [by destruct g|done]|]. intros j g1 Hj%elem_of_seqZ Hk. rewrite Hfb in Hj.
  pose proof (Z.div_mod (bpp d * (gh_x d * gh_y d) + 7) 8 ltac:(lia)). pose proof (Z.mod_pos_bound (bpp d * (gh_x d * gh_y d) + 7) 8 ltac:(lia)).
  pose proof (con_words _ _ HS) as H8. fold d in H8. pose proof (Z.div_mod (bpp d * (gh_x d * gh_y d)) 8 ltac:(lia)).
  assert (Hj8 : 8 * j + 8 <= bpp d * (gh_x d * gh_y d)) by lia. rewrite !u64_small by lia. apply copy64_kept; [done|]. intros k Hk8. split; [apply Hb2; lia|apply Hf2; lia].
Qed.

Context (str_at : Z -> option (list Z)).

Lemma text_length us : (length us <= length (text us))%nat.
Proof.
  induction us as [|u us IH]; [done|]. rewrite text_cons, length_app. assert (1 <= length (utf8 u))%nat by (unfold utf8; repeat (destruct (_ <? _); [cbn; lia|]); cbn; lia). cbn. lia.
Qed.

Lemma gstr_write_spec us bg g : Forall (in_font font) us -> Ok g -> bg_ok bg \/ pot (g_dev g) + cost (gh_x (g_dev g)) us <= limit (g_dev g) ->
  wp (gstr_write font bg (text us ++ [0])) g (fun _ g' => after (cost (gh_x (g_dev g)) us) g g').
Proof.
  intros Hus HS Hbg. unfold gstr_write. apply wp_bind, wp_gets. apply wp_bind. eapply wp_mono.
  - apply (loop_spec us _ []); [done| |done|done]. rewrite length_app. pose proof (text_length us). cbn. lia.
  - intros [] g1 H1. apply wp_bind, wp_gets. destruct (_ =? 1); [|by apply wp_ret]. destruct H1 as (H1 & H2 & H3). eapply wp_mono; [by apply flush_spec|]. intros [] g2 Hk. pose proof (kept_Ok _ _ Hk H1). destruct Hk as (m' & -> & _). by split_and!.
Qed.

Lemma kprint_spec fmt args us bg g : renders str_at fmt args (text us) -> Forall (fun a => 0 <= a < u64max) args -> Forall (in_font font) us -> (length (text us) < 512)%nat -> Ok g ->
  bg_ok bg \/ pot (g_dev g) + cost (gh_x (g_dev g)) us <= limit (g_dev g) -> wp (kprint font str_at bg fmt args) g (fun _ g' => after (cost (gh_x (g_dev g)) us) g g').
Proof.
  intros (its & <- & Hok & Hr) Ha Hus Hl HS Hbg. unfold wp, kprint. rewrite (vsprintfk_spec str_at its args (text us) Hok Hr Ha []) by done. unfold room. rewrite length_app. cbn [length app]. replace (_ <=? BUFSZ) with true by (unfold BUFSZ; lia).
  by apply gstr_write_spec.
Qed.
End text.

(** ** A byte that starts no character *)

(** Continuation bytes and the two bytes that UTF-8 never uses *)
Definition stray (b : Z) : Prop := 0x80 <= b < 0xc0 \/ b = 0xfe \/ b = 0xff.

Lemma stray_decodes buf i b : buf !! i = Some b -> stray b -> utf8_to_unicode buf i = Some (0, 0).
Proof. intros Hb Hs. unfold stray in Hs. unfold utf8_to_unicode. rewrite Nat.add_0_r, Hb. cbn [mbind option_bind]. settle. done. Qed.

Lemma stray_spec font bg buf i b pix : has_glyph font 0 -> buf !! i = Some b -> stray b -> forall fuel g, Ok g -> gstr_loop font fuel bg buf i pix g = NoFuel.
Proof.
  intros Hfont Hb Hs. induction fuel as [|fuel IH]; intros g HS; [done|]. cbn [gstr_loop]. rewrite Hb. assert (Hz : b <> 0) by (unfold stray in Hs; lia). replace (b =? 0) with false by lia. rewrite (stray_decodes _ _ _ Hb Hs).
  rewrite (bind_eq _ _ g (gh_chardxw (g_dev g)) g) by done. change (i + Z.to_nat 0)%nat with (i + 0)%nat. rewrite Nat.add_0_r.
  assert (Hone : wp (if gh_chardxw (g_dev g) =? 1 then put_pixonechar font bg 0 pix else drxput_pixonechar font bg 0 pix) g (fun _ g' => Ok g')).
  { destruct Hfont as (f & Hf & Hok). pose proof Hok as (Hw & _). pose proof (place_ok (g_dev g) _ (fntwx f) HS Hw) as (Hx & Hxw & Hy & _).
    assert (Hmono : forall base_of m', painted (g_dev g) base_of pix (glyph_at f (place (g_dev g) (fntwx f)).1 (place (g_dev g) (fntwx f)).2) (g_mem g) m' -> Con (set_cursor ((place (g_dev g) (fntwx f)).1 + fntwx f) (place (g_dev g) (fntwx f)).2 (g_dev g)) m').
    { intros bo m' Hm'. eapply painted_Con; [exact Hm'|]. apply cursor_Con; [done|lia|done]. }
    destruct (gh_chardxw (g_dev g) =? 1).
    - eapply wp_mono; [apply (char_spec font gh_fvrmphyadr write_pixcolor (fun _ _ _ => eq_refl)); [exact (con_scr _ _ HS)|done|exact Hf|done]|]. cbv zeta. intros [] g'. destruct (place (g_dev g) (fntwx f)) as [x y]. intros (m' & -> & Hm'). by apply (Hmono (gh_fvrmphyadr (g_dev g))).
    - eapply wp_mono; [apply (char_spec font gh_framphyadr drxw_pixcolor (fun _ _ _ => eq_refl)); [exact (con_scr _ _ HS)|done|exact Hf|done]|]. cbv zeta. intros [] g'. destruct (place (g_dev g) (fntwx f)) as [x y]. intros (m' & -> & Hm'). by apply (Hmono (gh_framphyadr (g_dev g))). }
  apply wp_run in Hone as ([] & g' & E & HS'). rewrite (bind_eq _ _ _ _ _ E). by apply IH.
Qed.

(** A byte that starts no character.  However long it runs, the loop of [gstr_write]
    does not end once it reaches a continuation byte outside of a character (or 0xfe or
    0xff): it draws the glyph of 0 for ever.  Any program that can print can thereby
    stop the machine. *)
Theorem stray_byte_hangs font bg us b post pix g : has_glyph font 0 -> Forall (in_font font) us -> Ok g -> bg_ok bg -> stray b ->
  forall fuel, gstr_loop font fuel bg (text us ++ b :: post) 0 pix g = NoFuel.
Proof.
  intros Hfont Hus HS Hbg Hs fuel. destruct (loop_prefix font us (b :: post) bg pix fuel [] g Hus HS (or_introl Hbg)) as (g' & (HS' & _) & E). cbn [app length] in E.
  rewrite (stray_spec font bg (text us ++ b :: post) (length (text us)) b pix Hfont) in E; [|by rewrite lookup_app_r, Nat.sub_diag by lia|done|done].
  destruct (gstr_loop font fuel bg (text us ++ b :: post) 0 pix g) as [r|e| |] eqn:El; [..|done]; exfalso; (rewrite Nat.add_comm, loop_less in E by (by rewrite El)); congruence.
Qed.

(** ** The background *)

Definition newlines (us : list Z) : Z := Z.of_nat (length (filter (fun u => u = 10) us)).
Lemma cost_bound X us : 48 <= X -> cost X us <= X * newlines us + 48 * Z.of_nat (length us).
Proof.
  intros HX. unfold newlines. induction us as [|u us IH]; [cbn; lia|]. cbn [cost foldr length]. fold (cost X us). rewrite filter_cons. unfold cost1. destruct (Z.eqb_spec u 10) as [->|Hne].
  - rewrite decide_True by done. cbn [length]. lia.
  - rewrite decide_False by done. lia.
Qed.
Lemma cost_app X us vs : cost X (us ++ vs) = cost X us + cost X vs.
Proof. unfold cost. induction us as [|u us IH]; [done|]. cbn [app foldr]. lia. Qed.

Lemma text_ascii l : Forall (fun c => 0 <= c < 128) l -> text l = l.
Proof. induction 1 as [|c l Hc _ IH]; [done|]. rewrite text_cons, IH. unfold utf8. by replace (c <? 0x80) with true by lia. Qed.

Section render.
Context (str_at : Z -> option (list Z)).
(** Characters in front of other items *)
Lemma plain_items l its args out : Forall (fun c => c <> 37) l -> items_ok its -> items_text str_at its args = Some out ->
  format ((IChar <$> l) ++ its) = l ++ format its /\ items_ok ((IChar <$> l) ++ its) /\ items_text str_at ((IChar <$> l) ++ its) args = Some (l ++ out).
Proof.
  intros Hl Hok Ht. induction Hl as [|c l Hc _ (E1 & E2 & E3)]; [done|]. split_and!; [|done|].
  - change (format ((IChar <$> c :: l) ++ its)) with (c :: format ((IChar <$> l) ++ its)). by rewrite E1.
  - cbn [fmap list_fmap app items_text]. by rewrite E3.
Qed.
Lemma render_plain l : Forall (fun c => c <> 37) l -> renders str_at l [] l.
Proof. intros Hl. destruct (plain_items l [] [] [] Hl) as (E1 & E2 & E3); [done|done|]. exists ((IChar <$> l) ++ []). rewrite E1, E3, !app_nil_r. split_and!; [done|by rewrite app_nil_r in E2|done]. Qed.
Lemma render_two l1 l2 l3 a b : Forall (fun c => c <> 37) l1 -> Forall (fun c => c <> 37) l2 -> Forall (fun c => c <> 37) l3 ->
  renders str_at (l1 ++ 37 :: 100 :: l2 ++ 37 :: 100 :: l3) [a; b] (l1 ++ decimal a ++ l2 ++ decimal b ++ l3).
Proof.
  intros H1 H2 H3. destruct (plain_items l3 [] [] [] H3) as (A1 & A2 & A3); [done|done|]. rewrite !app_nil_r in *.
  destruct (plain_items l2 (IDec :: (IChar <$> l3)) [b] (decimal b ++ l3) H2) as (B1 & B2 & B3); [done|cbn [items_text]; by rewrite A3|].
  destruct (plain_items l1 (IDec :: (IChar <$> l2) ++ IDec :: (IChar <$> l3)) [a; b] (decimal a ++ l2 ++ decimal b ++ l3) H1) as (C1 & C2 & C3); [done|cbn [items_text]; by rewrite B3|].
  exists ((IChar <$> l1) ++ IDec :: (IChar <$> l2) ++ IDec :: (IChar <$> l3)). split; [|done]. rewrite C1.
  change (format (IDec :: (IChar <$> l2) ++ IDec :: (IChar <$> l3))) with (37 :: 100 :: format ((IChar <$> l2) ++ IDec :: (IChar <$> l3))). rewrite B1.
  change (format (IDec :: (IChar <$> l3))) with (37 :: 100 :: format (IChar <$> l3)). by rewrite A1.
Qed.
End render.

(** Decoding a whole text *)
Fixpoint decode (fuel : nat) (buf : list Z) (i : nat) : list Z :=
  match fuel with
  | O => []
  | Datatypes.S fuel' => match utf8_to_unicode buf i with Some (u, n) => u :: decode fuel' buf (i + Z.to_nat n) | None => [] end
  end.
Definition chars (s : string) : list Z := decode (length (str_bytes s)) (str_bytes s) 0.
Definition fmt1 : list Z * list Z * list Z := Eval vm_compute in (chars "系统存在进程:", chars "个 系统空闲内存大小:", chars "MB" ++ [10]).
Definition fmt2 : list Z * list Z * list Z := Eval vm_compute in (chars "系统处理器工作模式:", chars "位 系统物理内存大小:", chars "MB" ++ [10]).
Definition filled (f : list Z * list Z * list Z) (a b : Z) : list Z := f.1.1 ++ decimal a ++ f.1.2 ++ decimal b ++ f.2.
Definition fmt_bytes (f : list Z * list Z * list Z) : list Z := text f.1.1 ++ 37 :: 100 :: text f.1.2 ++ 37 :: 100 :: text f.2.

Lemma fmt1_eq : version_fmt1 = fmt_bytes fmt1.
Proof. vm_compute. reflexivity. Qed.
Lemma fmt2_eq : version_fmt2 = fmt_bytes fmt2.
Proof. vm_compute. reflexivity. Qed.

(** The parts of a format are text of the font without a percent sign, 32 characters at
    most, and one line feed. *)
Definition fmt_ok (f : list Z * list Z * list Z) : bool :=
  let l := f.1.1 ++ f.1.2 ++ f.2 in
  forallb (fun u => (0 <? u) && (u <? 0x10000)) l && forallb (fun c => negb (c =? 37)) (text l) && (Z.of_nat (length l) <=? 32) && (newlines l =? 1) && (Z.of_nat (length (text l)) <=? 128).
Lemma fmt1_ok : fmt_ok fmt1 = true.
Proof. vm_compute. reflexivity. Qed.
Lemma fmt2_ok : fmt_ok fmt2 = true.
Proof. vm_compute. reflexivity. Qed.

Lemma forallb_Forall_Z (p : Z -> bool) (P : Z -> Prop) l : (forall x, p x = true -> P x) -> forallb p l = true -> Forall P l.
Proof. intros Hp. induction l as [|x l IH]; [by constructor|]. cbn [forallb]. intros [H1 H2]%andb_true_iff. constructor; auto. Qed.

(** The characters of the two formats and the digits *)
Definition version_chars : list Z := fmt1.1.1 ++ fmt1.1.2 ++ fmt1.2 ++ fmt2.1.1 ++ fmt2.1.2 ++ fmt2.2 ++ seqZ 48 10.

Lemma fmt_in_font font f : fmt_ok f = true -> Forall (fun u => u <> 10 -> has_glyph font u) (f.1.1 ++ f.1.2 ++ f.2) -> Forall (in_font font) (f.1.1 ++ f.1.2 ++ f.2).
Proof.
  intros Hf Hg. unfold fmt_ok in Hf. repeat (apply andb_true_iff in Hf as [Hf _]). apply (forallb_Forall_Z _ (fun u => 0 < u < 0x10000)) in Hf; [|lia].
  apply Forall_and. done.
Qed.

Lemma filled_spec str_at font f a b X : fmt_ok f = true -> Forall (in_font font) (f.1.1 ++ f.1.2 ++ f.2) -> Forall (has_glyph font) (seqZ 48 10) -> 0 <= a < u64max -> 0 <= b < u64max -> 1024 <= X ->
  renders str_at (fmt_bytes f) [a; b] (text (filled f a b)) /\ Forall (in_font font) (filled f a b) /\ (length (text (filled f a b)) < 512)%nat /\ cost X (filled f a b) <= 5 * X.
Proof.
  intros Hf HF HD Ha Hb HX. unfold fmt_ok in Hf. repeat (apply andb_true_iff in Hf as [Hf ?]). rename H2 into Hpc, H1 into Hlen, H0 into Hnl, H into Htl. clear Hf.
  apply (forallb_Forall_Z _ (fun c => c <> 37)) in Hpc; [|lia].
  rewrite !text_app, !Forall_app in Hpc. rewrite !Forall_app in HF. destruct Hpc as (P1 & P2 & P3), HF as (F1 & F2 & F3).
  destruct (decimal_spec a Ha) as (_ & La & Ra). destruct (decimal_spec b Hb) as (_ & Lb & Rb).
  assert (HR : forall l, Forall (fun c => 48 <= c < 58) l -> Forall (in_font font) l).
  { intros l Hl'. eapply Forall_impl; [exact Hl'|]. cbv beta. intros c Hc. split; [lia|]. intros _. rewrite Forall_forall in HD. apply HD, elem_of_seqZ. lia. }
  assert (Ta : text (decimal a) = decimal a) by (apply text_ascii; eapply Forall_impl; [exact Ra|cbn; lia]). assert (Tb : text (decimal b) = decimal b) by (apply text_ascii; eapply Forall_impl; [exact Rb|cbn; lia]).
  unfold filled, fmt_bytes. split_and!.
  - rewrite !text_app, Ta, Tb. by apply render_two.
  - rewrite !Forall_app. split_and!; try done; by apply HR.
  - rewrite !text_app, !length_app, Ta, Tb. rewrite !text_app, !length_app in Htl. lia.
  - pose proof (cost_bound X (f.1.1 ++ f.1.2 ++ f.2) ltac:(lia)) as Hcb. rewrite !cost_app in *.
    assert (Hd : forall n, Forall (fun c => 48 <= c < 58) (decimal n) -> (length (decimal n) <= 20)%nat -> cost X (decimal n) <= 960).
    { intros n Hr Hl. pose proof (cost_bound X (decimal n) ltac:(lia)) as Hc. replace (newlines (decimal n)) with 0 in Hc; [lia|]. unfold newlines. replace (filter (fun u => u = 10) (decimal n)) with (@nil Z); [done|].
      clear Hc Hl. induction Hr as [|c l Hc _ IH]; [done|]. rewrite filter_cons_False by lia. done. }
    pose proof (Hd a Ra ltac:(lia)). pose proof (Hd b Rb ltac:(lia)). assert (newlines (f.1.1 ++ f.1.2 ++ f.2) = 1) by lia. rewrite H1 in Hcb. lia.
Qed.

Lemma text_short font us : Forall (in_font font) us -> (length (text us) <= 3 * length us)%nat.
Proof.
  induction 1 as [|u us [Hu _] _ IH]; [done|]. rewrite text_cons, length_app. cbn [length].
  assert (length (utf8 u) <= 3)%nat by (unfold utf8; destruct (u <? 128); [apply Nat.leb_le; done|]; destruct (u <? 2048); [apply Nat.leb_le; done|]; replace (u <? 0x10000) with true by lia; apply Nat.leb_le; done). lia.
Qed.

Section background.
Context (font : Z -> option fntdata_t) (str_at : Z -> option (list Z)).
Context (img : mlosrddsc_t) (imgadr : Z) (img_byte : Z -> option Z) (version : list Z) (threadnr freepages cpumode memsz : Z).
Implicit Types (g : gst).

(** The boot image has the picture and is readable for 769 of its lines, which is one more
    than the file has; the text of the version is short, the font has the characters that
    are printed with the background, and the numbers are words. *)
Record image_ok : Prop := {
  image_file : exists fadr fsz, get_file_rvadrandsz (Some (str_bytes "desktop1.bmp" ++ [0])) imgadr img = Some (fadr, fsz) /\ fadr <> 0 /\ fsz <> 0 /\
    forall k, 0 <= k < 769 * 1024 * 3 -> is_Some (img_byte (fadr +u sizeof_bmfhead_t +u sizeof_bitminfo_t + k));
  image_version : exists vs, version = text vs /\ Forall (in_font font) vs /\ Forall (fun c => c <> 37) version /\ (length vs <= 128)%nat /\ newlines vs <= 6;
  image_glyphs : Forall (fun u => u <> 10 -> has_glyph font u) version_chars;
  image_words : 0 <= threadnr < u64max /\ 0 <= cpumode < u64max /\ 0 <= memsz < u64max
}.
Context (Himg : image_ok).

Lemma painted_kept pix P g m' : painted (g_dev g) (gh_framphyadr (g_dev g)) pix P (g_mem g) m' -> kept g (with_gmem m' g).
Proof. intros H. exists m'. split; [done|]. intros a Ha. rewrite (H a). by destruct (_ && _). Qed.
Lemma kept_trans g g1 g2 : kept g g1 -> kept g1 g2 -> kept g g2.
Proof. intros (m1 & -> & H1) (m2 & -> & H2). exists m2. split; [done|]. intros a Ha. by apply H2, H1. Qed.
Lemma kept_refl g : kept g g.
Proof. exists (g_mem g). split; [by destruct g|done]. Qed.
Lemma kept_dev g g' : kept g g' -> g_dev g' = g_dev g.
Proof. by intros (m' & -> & _). Qed.

Lemma picture_spec g : Ok g -> wp (draw_picture img imgadr img_byte drxw_pixcolor "desktop1.bmp" "Cosmos background fail" 768 0 0 1024) g (fun _ g' => kept g g').
Proof.
  intros HS. destruct (image_file Himg) as (fadr & fsz & E & H1 & H2 & Hbytes). unfold draw_picture. rewrite E. apply wp_bind, wp_die_if; [lia|].
  apply (wp_for_each_inv (kept g)); [apply kept_refl|]. intros l g1 Hl%elem_of_seqZ Hk1. apply (wp_for_each_inv (kept g)); [done|]. intros i g2 Hi%elem_of_seqZ Hk2.
  set (k := 3 * (l * (1024 - 0) + (i - 0))). assert (Hk : 0 <= k /\ k + 2 < 769 * 1024 * 3) by (unfold k; lia). unfold img_pixel.
  destruct (Hbytes k ltac:(lia)) as [b Eb], (Hbytes (k + 1) ltac:(lia)) as [gr Eg], (Hbytes (k + 2) ltac:(lia)) as [r Er]. rewrite Z.add_assoc in Eg, Er. rewrite Eb, Eg, Er. cbn [mbind option_bind].
  pose proof (kept_Ok _ _ Hk2 HS) as HS2. pose proof (scr_x _ _ HS2). eapply wp_mono; [apply (pixel_in_lines gh_framphyadr drxw_pixcolor 769); [exact (con_scr _ _ HS2)|exact (con_spare _ _ HS2)|done|lia|lia]|].
  intros [] g3 (m' & -> & Hm'). eapply kept_trans; [exact Hk2|]. by eapply painted_kept.
Qed.

Lemma fontpx_Ok p g : Ok g -> Ok (with_gdev (set_fontpx p (g_dev g)) g).
Proof. intros [[] H1 H2]. split; [by split|done|done]. Qed.

Lemma version_spec X : 1024 <= X -> exists vs, renders str_at version [] (text vs) /\ Forall (in_font font) vs /\ (length (text vs) < 512)%nat /\ cost X vs <= 12 * X.
Proof.
  intros HX. destruct (image_version Himg) as (vs & -> & Hf & Hpc & Hl & Hn). exists vs. split_and!; [|done| |].
  - by apply render_plain.
  - pose proof (text_short font vs Hf). lia.
  - pose proof (cost_bound X vs ltac:(lia)). assert (X * newlines vs <= X * 6) by (apply Z.mul_le_mono_nonneg_l; lia). lia.
Qed.

Lemma shift20_range x : 0 <= x < u64max -> 0 <= Z.shiftr x 20 < u64max.
Proof. intros Hx. rewrite Z.shiftr_div_pow2 by done. split; [apply Z.div_pos; lia|apply Z.div_lt_upper_bound; lia]. Qed.

Lemma version_glyphs : Forall (in_font font) (fmt1.1.1 ++ fmt1.1.2 ++ fmt1.2) /\ Forall (in_font font) (fmt2.1.1 ++ fmt2.1.2 ++ fmt2.2) /\ Forall (has_glyph font) (seqZ 48 10).
Proof.
  pose proof (image_glyphs Himg) as H. unfold version_chars in H. rewrite !Forall_app in H. destruct H as (A1 & A2 & A3 & B1 & B2 & B3 & D).
  split_and!; [apply fmt_in_font; [exact fmt1_ok|by rewrite !Forall_app]|apply fmt_in_font; [exact fmt2_ok|by rewrite !Forall_app]|].
  apply Forall_forall. intros u Hu. rewrite Forall_forall in D. apply (D u Hu). apply elem_of_seqZ in Hu. lia.
Qed.

(** One level is deep enough: the version is printed from the top and stays on the screen. *)
Lemma background_spec depth : bg_ok (hal_background font str_at img imgadr img_byte version threadnr freepages cpumode memsz (Datatypes.S depth)).
Proof.
  intros g HS Hx0 Hy0. cbn [hal_background]. apply wp_bind. eapply wp_mono; [by apply picture_spec|]. intros [] g0 Hk. pose proof (kept_Ok _ _ Hk HS) as HS0. pose proof (kept_dev _ _ Hk) as Ed.
  unfold hal_dspversion, set_deffontpx. apply wp_bind. apply wp_bind, wp_gets, wp_bind, wp_modify, wp_ret. set (d := g_dev g0) in *.
  pose proof (fontpx_Ok (BGRA 0xff 0 0) g0 HS0) as HS1. fold d in HS1. set (g1 := with_gdev (set_fontpx (BGRA 0xff 0 0) d) g0) in *. set (X := gh_x (g_dev g1)).
  pose proof (scr_x _ _ HS1) as HX. pose proof (scr_y _ _ HS1) as HY. fold X in HX. change (2 ^ 15) with 32768 in *.
  assert (Hlim : 36 * X <= limit (g_dev g1)). { unfold limit. fold X. assert (36 <= (gh_y (g_dev g1) - 36) / 20) by (apply Z.div_le_lower_bound; lia). nia. }
  assert (Hp0 : pot (g_dev g1) = 0). { unfold pot. change (gh_nxtcharsy (g_dev g1)) with (gh_nxtcharsy d). change (gh_nxtcharsx (g_dev g1)) with (gh_nxtcharsx d). rewrite Ed, Hx0, Hy0. done. }
  destruct (version_spec X ltac:(lia)) as (vs & Rv & Fv & Lv & Cv). destruct (image_words Himg) as (W1 & W2 & W3). destruct version_glyphs as (G1 & G2 & GD).
  destruct (filled_spec str_at font fmt1 threadnr (Z.shiftr (freepages <<u 12) 20) X fmt1_ok G1 GD W1 (shift20_range _ (u64_range _)) ltac:(lia)) as (R1 & F1 & L1 & C1).
  destruct (filled_spec str_at font fmt2 cpumode (Z.shiftr memsz 20) X fmt2_ok G2 GD W2 (shift20_range _ W3) ltac:(lia)) as (R2 & F2 & L2 & C2). rewrite <- fmt1_eq in R1. rewrite <- fmt2_eq in R2.
  pose proof (cost_nonneg X vs ltac:(lia)). pose proof (cost_nonneg X (filled fmt1 threadnr (Z.shiftr (freepages <<u 12) 20)) ltac:(lia)). pose proof (cost_nonneg X (filled fmt2 cpumode (Z.shiftr memsz 20)) ltac:(lia)).
  apply wp_bind. eapply wp_mono; [apply (kprint_spec font str_at _ _ vs); [exact Rv|by apply Forall_nil|done|done|done|right; fold X; lia]|]. intros [] g2 (S2 & D2 & P2). destruct (same_dev_x _ _ D2) as (X2 & Y2 & _). fold X in X2, P2. rewrite Hp0 in P2.
  assert (E2 : limit (g_dev g2) = limit (g_dev g1)) by (unfold limit; by rewrite X2, Y2).
  apply wp_bind. eapply wp_mono; [apply (kprint_spec font str_at _ _ (filled fmt1 threadnr (Z.shiftr (freepages <<u 12) 20))); [exact R1|repeat constructor; (apply W1 || apply shift20_range, u64_range)|done|done|done|right; rewrite E2, X2; lia]|].
  intros [] g3 (S3 & D3 & P3). destruct (same_dev_x _ _ D3) as (X3 & Y3 & _). assert (E3 : limit (g_dev g3) = limit (g_dev g1)) by (unfold limit; by rewrite X3, Y3, X2, Y2). rewrite X2 in P3.
  apply wp_bind. eapply wp_mono; [apply (kprint_spec font str_at _ _ (filled fmt2 cpumode (Z.shiftr memsz 20))); [exact R2|repeat constructor; (apply W2 || by apply shift20_range)|done|done|done|right; rewrite E3, X3, X2; lia]|].
  intros [] g4 (S4 & D4 & _). apply wp_bind, wp_bind, wp_gets, wp_bind, wp_modify, wp_ret, wp_ret. split; [by apply fontpx_Ok|].
  pose proof (same_dev_trans _ _ _ (same_dev_trans _ _ _ D2 D3) D4) as Hd. unfold same_dev in Hd |- *. cbn [g_dev with_gdev]. rewrite <- Ed. fold d.
  change (set_cursor 0 0 (set_fontpx (gh_deffontpx d) (g_dev g4))) with (set_fontpx (gh_deffontpx d) (set_cursor 0 0 (g_dev g4))). rewrite Hd. unfold g1. cbn [g_dev with_gdev]. fold d. by destruct d.
Qed.

(** The device that the set-up makes of the loader's data *)
Definition screen_of (p : ghparm) : dftgraph_t :=
  Dftgraph (gp_mode p) (gp_x p) (gp_y p) (gp_framphyadr p +u KRNL_MAP_VIRTADDRESS_START) (gp_fvrmphyadr p +u KRNL_MAP_VIRTADDRESS_START) (gp_fvrmsz p) (gp_onepixbits p) (gp_onepixbits p / 8) (gp_vbemodenr p)
    (gp_bank p) (gp_curdipbnk p) (gp_nextbnk p) (gp_banksz p) (gp_bfontpadr p +u KRNL_MAP_VIRTADDRESS_START) (gp_bfontsz p) 16 0 0 20 (BGRA 0xff 0xff 0xff) 0 0 OpVbe.
Definition low_adr (a : Z) : Prop := a < KRNL_MAP_PHYADDRESS_END.

Lemma phy_to_vir {S} a (s : S) (Q : Z -> S -> Prop) : low_adr a -> Q (a +u KRNL_MAP_VIRTADDRESS_START) s -> wp (phyadr_to_viradr a) s Q.
Proof. intros Ha HQ. unfold phyadr_to_viradr. unfold low_adr in Ha. by replace (KRNL_MAP_PHYADDRESS_END <=? a) with false by lia. Qed.

Lemma buf_kept pix P g m' : painted (g_dev g) (gh_fvrmphyadr (g_dev g)) pix P (g_mem g) m' -> kept g (with_gmem m' g).
Proof. intros H. exists m'. split; [done|]. intros a Ha. rewrite (H a). by destruct (_ && _). Qed.

Lemma fill_spec pix g : Ok g -> wp (fill_graph pix) g (fun _ g' => kept g g').
Proof.
  intros HS. unfold fill_graph. apply wp_bind, wp_gets. apply wp_bind. eapply (wp_mono _ _ (fun _ g' => kept g g')).
  - apply (wp_for_each_inv (kept g)); [apply kept_refl|]. intros y g1 Hy%elem_of_seqZ Hk1. apply (wp_for_each_inv (kept g)); [done|]. intros x g2 Hx%elem_of_seqZ Hk2. pose proof (kept_dev _ _ Hk2) as E2.
    eapply wp_mono; [apply (pixel_painted gh_fvrmphyadr write_pixcolor); [exact (con_scr _ _ (kept_Ok _ _ Hk2 HS))|rewrite E2; lia|rewrite E2; lia]|]. intros [] g3 (m' & -> & Hm'). eapply kept_trans; [exact Hk2|]. by eapply buf_kept.
  - intros [] g1 Hk1. eapply wp_mono; [apply flush_spec; by eapply kept_Ok|]. intros [] g2 Hk2. by eapply kept_trans.
Qed.

Definition bd_chars : list Z := Eval vm_compute in chars "图形显示初始化成功" ++ [10].
Lemma bd_eq : Forall (fun u => u <> 10 -> has_glyph font u) bd_chars -> renders str_at bdvideo_msg [] (text bd_chars) /\ Forall (in_font font) bd_chars /\ (length (text bd_chars) < 512)%nat.
Proof.
  intros Hg. split; [assert (E : bdvideo_msg = text bd_chars) by (vm_compute; reflexivity); rewrite E; apply render_plain; apply (forallb_Forall_Z (fun c => negb (c =? 37))); [lia|vm_compute; reflexivity]|].
  split; [|apply Nat.ltb_lt; reflexivity]. apply Forall_and. split; [|done]. apply (forallb_Forall_Z (fun u => (0 <? u) && (u <? 0x10000))); [lia|reflexivity].
Qed.

(** The set-up makes a screen on which printing is safe. *)
Lemma init_bdvideo_spec p g : gp_mode p = VBEMODE -> low_adr (gp_framphyadr p) -> low_adr (gp_fvrmphyadr p) -> low_adr (gp_bfontpadr p) -> Con (screen_of p) (g_mem g) -> Forall (fun u => u <> 10 -> has_glyph font u) bd_chars ->
  wp (init_bdvideo font str_at img imgadr img_byte version threadnr freepages cpumode memsz 1 p) g (fun _ g' => Ok g').
Proof.
  intros Hm H1 H2 H3 HS Hbd. unfold init_bdvideo, init_dftgraph. apply wp_bind. apply wp_bind, phy_to_vir; [done|]. apply wp_bind, phy_to_vir; [done|]. apply wp_bind, phy_to_vir; [done|]. apply wp_modify.
  apply wp_bind, wp_modify. apply wp_bind, wp_modify. cbn [g_dev with_gdev gh_mode]. rewrite Hm. cbn [Z.eqb Pos.eqb VBEMODE BGAMODE negb gh_mode].
  match goal with |- wp _ ?G _ => set (g1 := G) end. assert (HS1 : Ok g1). { unfold Ok, g1. cbn [g_dev g_mem with_gdev]. destruct HS as [[] ? ?]. split; [by split|done|done]. }
  assert (Hx1 : gh_nxtcharsx (g_dev g1) = 0 /\ gh_nxtcharsy (g_dev g1) = 0) by done. clearbody g1. apply wp_bind. eapply wp_mono; [by apply fill_spec|]. intros [] g2 Hk. pose proof (kept_Ok _ _ Hk HS1) as HS2. pose proof (kept_dev _ _ Hk) as E2.
  apply wp_bind, wp_modify. set (g3 := with_gdev (set_dxw 0 0 (g_dev g2)) g2). assert (HS3 : Ok g3) by (destruct HS2 as [[] ? ?]; split; [by split|done|done]).
  apply wp_bind. eapply wp_mono; [apply background_spec; [done|cbn; rewrite E2; apply Hx1|cbn; rewrite E2; apply Hx1]|]. intros [] g4 [HS4 _]. destruct (bd_eq Hbd) as (Hr & Hf & Hl).
  eapply wp_mono; [apply (kprint_spec font str_at bdvideo_msg [] bd_chars); [done|by apply Forall_nil|done|done|done|left; apply background_spec]|]. by intros [] g5 (H & _).
Qed.

(** The spare line is needed: where the memory of the frame ends with line 767, the first
    pixel of the background is stored behind it. *)
Lemma background_leaves_frame depth g : Scr (g_dev g) (g_mem g) -> gh_y (g_dev g) = 768 ->
  g_mem g !! (gh_framphyadr (g_dev g) + bpp (g_dev g) * (gh_x (g_dev g) * 768)) = None ->
  hal_background font str_at img imgadr img_byte version threadnr freepages cpumode memsz (Datatypes.S depth) g = Fault.
Proof.
  intros HS Ey Hn. destruct (image_file Himg) as (fadr & fsz & E & H1 & H2 & Hbytes). cbn [hal_background]. unfold mbind at 1, M_bind at 1. unfold draw_picture. rewrite E.
  replace ((fadr =? 0) || (fsz =? 0)) with false by lia. rewrite (bind_eq _ _ g tt g) by done.
  change (seqZ 0 (768 - 0 + 1)) with (0 :: seqZ 1 768). change (seqZ 0 (1024 - 0)) with (0 :: seqZ 1 1023). cbn [for_each]. unfold mbind, M_bind. unfold img_pixel at 1.
  destruct (Hbytes 0 ltac:(lia)) as [b Eb], (Hbytes 1 ltac:(lia)) as [gr Eg], (Hbytes 2 ltac:(lia)) as [r Er]. rewrite Z.add_0_r in Eb. change (3 * (0 * (1024 - 0) + (0 - 0))) with 0. rewrite Z.add_0_r, Eb, Eg, Er. cbn [mbind option_bind].
  pose proof (scr_x _ _ HS) as HX. destruct (scr_frame _ _ HS) as (Hb0 & Hb1 & _). rewrite Ey in Hb1. change (2 ^ 15) with 32768 in *. set (d := g_dev g) in *.
  rewrite (writes_eq gh_framphyadr drxw_pixcolor) by apply (scr_op _ _ HS). cbv zeta. fold d. unfold pixel_index. rewrite !u32_small by (change (2 ^ 32) with 4294967296; lia).
  rewrite (u64_small (0 + (768 - 0) * gh_x d)) by (rewrite u64max_val; lia). unfold bpp in *. destruct (gh_onepixbits d =? 24).
  - rewrite (u64_small (_ * 3)) by (rewrite u64max_val; lia). rewrite u64_small by lia. unfold store24. cbn [for_each]. unfold mbind, M_bind, store8. rewrite Z.add_0_r.
    replace ((0 + (768 - 0) * gh_x d) * 3 + gh_framphyadr d) with (gh_framphyadr d + 3 * (gh_x d * 768)) by lia. by rewrite Hn.
  - rewrite u64_small by lia. unfold store32. cbn [for_each]. unfold mbind, M_bind, store8. rewrite Z.add_0_r.
    replace (gh_framphyadr d + 4 * (0 + (768 - 0) * gh_x d)) with (gh_framphyadr d + 4 * (gh_x d * 768)) by lia. by rewrite Hn.
Qed.

(** C30: printing is safe.  In VBE mode, on a screen of at least 1024 by 768 pixels whose bytes
    are a multiple of 8, with memory for the lines of the screen in the buffer and in the
    frame, for a line 768 in the frame also where the screen ends before it, and with 769
    readable lines of picture in the boot image, [kprint] of any format and arguments
    that give fewer than 512 bytes of UTF-8 returns, if the font has a glyph of at most
    16 by 16 pixels for each character of the text and of the version texts (code points
    below 2^16; the version text itself has at most 128 characters and 6 line feeds and
    no percent sign): the loops end, every store goes into the two frame buffers, and the cursor stands on a line of the screen
    again, also when the text runs over the end of the screen and the background is
    drawn anew. *)
Theorem console_safe fmt args us g : renders str_at fmt args (text us) -> Forall (fun a => 0 <= a < u64max) args -> Forall (in_font font) us -> (length (text us) < 512)%nat -> Ok g ->
  wp (kprint font str_at (hal_background font str_at img imgadr img_byte version threadnr freepages cpumode memsz 1) fmt args) g (fun _ g' => Ok g' /\ same_dev (g_dev g) (g_dev g')).
Proof.
  intros Hr Ha Hus Hl HS. eapply wp_mono; [apply (kprint_spec font str_at fmt args us); [done..|]; left; apply background_spec|]. by intros [] g' (H1 & H2 & _).
Qed.
End background.

(** ** Examples *)

Lemma utf8_roundtrip_witness : utf8_to_unicode ([65] ++ utf8 0x5185 ++ [66]) 1 = Some (0x5185, 3) /\ utf8 0x5185 = [0xe5; 0x86; 0x85].
Proof. split; [exact (utf8_roundtrip [65] 0x5185 [66] ltac:(by vm_compute))|reflexivity]. Defined.

(** A screen of 1024 by 768 pixels of 32 bits, with a line of memory behind the frame; the
    glyphs are blocks of 8 by 16 pixels, for the characters that are printed. *)
Definition demo_dev : dftgraph_t := Dftgraph VBEMODE 1024 768 0x10000000 0x20000000 0 32 4 0 0 0 0 0 0 0 16 0 0 20 (BGRA 0xff 0xff 0xff) 0 0 OpVbe.
Definition demo_frames : gset Z := list_to_set (seqZ 0x10000000 (4 * (1024 * 769)) ++ seqZ 0x20000000 (4 * (1024 * 768))).
Definition demo_screen : gst := Gst demo_dev (gset_to_gmap 0 demo_frames) ∅ 0.
Definition demo_glyph : fntdata_t := Fntdata 1 16 8 (replicate 16 0xff).
Definition demo_version : list Z := [67; 111; 115; 109; 111; 115; 10].
Definition demo_font (u : Z) : option fntdata_t := if bool_decide (u ∈ 0 :: 65 :: 102 :: 72 :: 105 :: demo_version ++ version_chars) then Some demo_glyph else None.
Definition demo_image : mlosrddsc_t := Mlosrddsc MDC_ENDGIC MDC_RVGIC 2 2 [Fhdsc 0x1000 0x8000 (str_bytes "font.fnt" ++ [0]); Fhdsc 0x9000 0x300000 (str_bytes "desktop1.bmp" ++ [0])].

Lemma demo_mem a : a ∈ demo_frames -> is_Some (g_mem demo_screen !! a).
Proof. intros Ha. exists 0. apply lookup_gset_to_gmap_Some. by split. Qed.
Lemma demo_lines base n : base = 0x10000000 /\ n = 769 \/ (base = 0x10000000 \/ base = 0x20000000) /\ n = 768 -> lines demo_dev (g_mem demo_screen) base n.
Proof.
  intros Hb. unfold lines. change (bpp demo_dev) with 4. change (gh_x demo_dev) with 1024. rewrite u64max_val. split_and!; [lia|lia|]. intros a Ha. apply demo_mem. unfold demo_frames. apply elem_of_list_to_set, elem_of_app. rewrite !elem_of_seqZ. lia.
Qed.
Lemma demo_Ok : Ok demo_screen.
Proof.
  split; cbn [g_dev demo_screen]; [|apply demo_lines; by left|reflexivity].
  split; cbn [g_dev demo_screen]; [reflexivity|by right|reflexivity|cbn; lia|cbn; lia|by split|cbn; lia|split; [cbn; lia|reflexivity]|apply demo_lines; right; split; [by right|done]|apply demo_lines; right; split; [by left|done]].
Qed.
Lemma demo_glyph_ok : glyph_ok demo_glyph.
Proof. unfold glyph_ok. cbn. lia. Qed.
Lemma demo_has_glyph u : bool_decide (u ∈ 0 :: 65 :: 102 :: 72 :: 105 :: demo_version ++ version_chars) = true -> has_glyph demo_font u.
Proof. intros H. exists demo_glyph. unfold demo_font. rewrite H. split; [done|exact demo_glyph_ok]. Qed.
Lemma demo_in_font l : forallb (fun u => (0 <? u) && (u <? 0x10000) && bool_decide (u ∈ 0 :: 65 :: 102 :: 72 :: 105 :: demo_version ++ version_chars)) l = true -> Forall (in_font demo_font) l.
Proof. apply forallb_Forall_Z. intros u [Hr Hu]%andb_true_iff. split; [lia|]. intros _. by apply demo_has_glyph. Qed.

Lemma char_painted_witness : wp (drxput_pixonechar demo_font nofuel 65 0xffffff) demo_screen (fun _ g' =>
  exists m', g' = with_gmem m' (with_gdev (set_cursor 8 0 demo_dev) demo_screen) /\ painted demo_dev 0x10000000 0xffffff (glyph_at demo_glyph 0 0) (g_mem demo_screen) m').
Proof. exact (char_painted demo_font true 0xffffff nofuel 65 demo_glyph demo_screen demo_Ok ltac:(discriminate) eq_refl demo_glyph_ok). Defined.

Lemma demo_image_ok : image_ok demo_font demo_image 0x40000000 (fun _ => Some 0) (text demo_version) 3 0x1000 64.
Proof.
  split.
  - exists 0x40009000, 0x300000. split_and!; [reflexivity|discriminate|discriminate|]. intros k _. by eexists.
  - exists demo_version. split_and!; [reflexivity|apply demo_in_font; reflexivity|apply (forallb_Forall_Z (fun c => negb (c =? 37))); [lia|reflexivity]|apply Nat.leb_le; reflexivity|discriminate].
  - apply (forallb_Forall_Z (fun u => bool_decide (u ∈ 0 :: 65 :: 102 :: 72 :: 105 :: demo_version ++ version_chars))); [intros u Hu _; by apply demo_has_glyph|vm_compute; reflexivity].
  - by vm_compute.
Qed.

(** The text is [ff], then a line feed. *)
Lemma console_safe_witness :
  wp (kprint demo_font (fun _ => None) (hal_background demo_font (fun _ => None) demo_image 0x40000000 (fun _ => Some 0) (text demo_version) 3 0 0x1000 64 1) [37; 120; 10] [255]) demo_screen
     (fun _ g' => Ok g' /\ same_dev (g_dev demo_screen) (g_dev g')).
Proof.
  apply (console_safe demo_font (fun _ => None) demo_image 0x40000000 (fun _ => Some 0) (text demo_version) 3 0 0x1000 64 demo_image_ok [37; 120; 10] [255] [102; 102; 10]).
  - exists [IHex; IChar 10]. split_and!; [reflexivity|done|vm_compute; reflexivity].
  - repeat constructor; by vm_compute.
  - apply demo_in_font. reflexivity.
  - apply Nat.ltb_lt. reflexivity.
  - exact demo_Ok.
Defined.

Lemma stray_byte_hangs_demo : forall fuel, gstr_loop demo_font fuel (hal_background demo_font (fun _ => None) demo_image 0x40000000 (fun _ => Some 0) (text demo_version) 3 0 0x1000 64 1) ([72; 105] ++ 0x80 :: [0]) 0 0xffffff demo_screen = NoFuel.
Proof.
  apply (stray_byte_hangs demo_font _ [72; 105] 0x80 [0] 0xffffff demo_screen).
  - by apply demo_has_glyph.
  - apply demo_in_font. reflexivity.
  - exact demo_Ok.
  - exact (background_spec demo_font (fun _ => None) demo_image 0x40000000 (fun _ => Some 0) (text demo_version) 3 0 0x1000 64 demo_image_ok 0).
  - left. lia.
Qed.
