(* ===== verification/Lib.v ===== *)
(** * The library of user programs

    src/lib/lapi*.c and lib*.c with the macros of include/libinc/lapinrentry.h, which
    put number and parameters of a call into registers and raise vector 255, and the
    entry point EXI_SCALL of include/halinc/kernel.inc, which pushes the registers in
    the order of [stkparame_t].

    The registers of the program are part of the call: those that a call does not set
    hold whatever the program left in them.  A value of type [sint_t] is its 64-bit
    pattern in a register. *)

From S2P Require Import Prelude Bytes Intr PhyMem Boot PageIf Mmu ObjIf Vma Kmempool MemIf Sched Rfs Device Service Kernel.
#[local] Open Scope Z_scope.

Definition RTC_DEVICE : Z := 22.
Definition RW_FLG : Z := 0x30.
Definition IOCTRCODE_SETTIME : Z := 1.
Definition IOCTRCODE_SET_SYNSECALM : Z := 3.
Definition sizeof_times_t : Z := 56.

(** ** Registers and the frame *)

Record regs := Regs {
  rax : Z; rbx : Z; rcx : Z; rdx : Z; rbp : Z; rsi : Z; rdi : Z; r8 : Z; r9 : Z; r10 : Z; r11 : Z; r12 : Z; r13 : Z; r14 : Z; r15 : Z;
  seg_ds : Z; seg_es : Z; seg_fs : Z; seg_gs : Z
}.
Definition set_rax (v : Z) (r : regs) : regs := Regs v (rbx r) (rcx r) (rdx r) (rbp r) (rsi r) (rdi r) (r8 r) (r9 r) (r10 r) (r11 r) (r12 r) (r13 r) (r14 r) (r15 r) (seg_ds r) (seg_es r) (seg_fs r) (seg_gs r).
Definition set_rbx (v : Z) (r : regs) : regs := Regs (rax r) v (rcx r) (rdx r) (rbp r) (rsi r) (rdi r) (r8 r) (r9 r) (r10 r) (r11 r) (r12 r) (r13 r) (r14 r) (r15 r) (seg_ds r) (seg_es r) (seg_fs r) (seg_gs r).
Definition set_rcx (v : Z) (r : regs) : regs := Regs (rax r) (rbx r) v (rdx r) (rbp r) (rsi r) (rdi r) (r8 r) (r9 r) (r10 r) (r11 r) (r12 r) (r13 r) (r14 r) (r15 r) (seg_ds r) (seg_es r) (seg_fs r) (seg_gs r).
Definition set_rdx (v : Z) (r : regs) : regs := Regs (rax r) (rbx r) (rcx r) v (rbp r) (rsi r) (rdi r) (r8 r) (r9 r) (r10 r) (r11 r) (r12 r) (r13 r) (r14 r) (r15 r) (seg_ds r) (seg_es r) (seg_fs r) (seg_gs r).
Definition set_rsi (v : Z) (r : regs) : regs := Regs (rax r) (rbx r) (rcx r) (rdx r) (rbp r) v (rdi r) (r8 r) (r9 r) (r10 r) (r11 r) (r12 r) (r13 r) (r14 r) (r15 r) (seg_ds r) (seg_es r) (seg_fs r) (seg_gs r).

(** The pushes of EXI_SCALL, in order; the last word pushed has the lowest address.  A
    segment register is pushed by way of r14, which has been cleared. *)
Definition pushed (r : regs) : list Z :=
  [rbx r; rcx r; rdx r; rbp r; rsi r; rdi r; r8 r; r9 r; r10 r; r11 r; r12 r; r13 r; r14 r; r15 r;
   u16 (seg_ds r); u16 (seg_es r); u16 (seg_fs r); u16 (seg_gs r)].
Definition frame (r : regs) : list Z := reverse (pushed r).

(** The pops, in order, with the result of the call in rax *)
Definition popped (v : Z) (fr : list Z) : option regs :=
  match fr with
  | [gs; fs; es; ds; v15; v14; v13; v12; v11; v10; v9; v8; vdi; vsi; vbp; vdx; vcx; vbx] =>
      Some (Regs v vbx vcx vdx vbp vsi vdi v8 v9 v10 v11 v12 v13 v14 v15 (u16 ds) (u16 es) (u16 fs) (u16 gs))
  | _ => None
  end.

(** The fields of [stkparame_t] that the services use, by their place in the structure:
    gs, fs, es, ds, r15 to r8 are the first twelve, parmv5 (rdi) is the next. *)
Definition stkparame (fr : list Z) : stkparame_t := Stkparame (fr !!! 17%nat) (fr !!! 16%nat) (fr !!! 15%nat) (fr !!! 13%nat).

(** ** Calls *)

Section lib.
Context {S : Type} {HPO : PageOps S} {HOO : ObjOps S} (junk : nat -> nat -> Z) (initmmadrsdsc : Z).
Abbreviation KM A := (M (knl S) A).

(** The kernel's result is in rax when the registers are popped; no service stores into
    the frame. *)
Definition exi_scall (r : regs) : KM regs :=
  let fr := frame r in
  v ← hal_syscl_allocator junk initmmadrsdsc (rax r) (stkparame fr);
  match popped (u64 v) fr with Some r' => mret r' | None => fault end.

Definition API_ENTRY_PARE1 (inr pval1 : Z) (r : regs) : KM Z := r ← exi_scall (set_rbx pval1 (set_rax inr r)); mret (rax r).
Definition API_ENTRY_PARE2 (inr pval1 pval2 : Z) (r : regs) : KM Z := r ← exi_scall (set_rcx pval2 (set_rbx pval1 (set_rax inr r))); mret (rax r).
Definition API_ENTRY_PARE3 (inr pval1 pval2 pval3 : Z) (r : regs) : KM Z := r ← exi_scall (set_rdx pval3 (set_rcx pval2 (set_rbx pval1 (set_rax inr r)))); mret (rax r).
Definition API_ENTRY_PARE4 (inr pval1 pval2 pval3 pval4 : Z) (r : regs) : KM Z :=
  r ← exi_scall (set_rsi pval4 (set_rdx pval3 (set_rcx pval2 (set_rbx pval1 (set_rax inr r))))); mret (rax r).

(** Results of type [sint_t], [hand_t] and [sysstus_t] *)
Definition signed (m : KM Z) : KM Z := v ← m; mret (sint v).

Definition api_mallocblk (blksz : Z) (r : regs) : KM Z := API_ENTRY_PARE1 INR_MM_ALLOC blksz r.
Definition api_mfreeblk (fradr blksz : Z) (r : regs) : KM Z := signed (API_ENTRY_PARE2 INR_MM_FREE fradr blksz r).
Definition api_exel_thread (file flgs : Z) (r : regs) : KM Z := signed (API_ENTRY_PARE2 INR_TD_EXEL file flgs r).
Definition api_exit_thread (r : regs) : KM unit := _ ← API_ENTRY_PARE1 INR_TD_EXIT 0 r; mret tt.
Definition api_retn_threadhand (tname : Z) (r : regs) : KM Z := signed (API_ENTRY_PARE1 INR_TD_HAND tname r).
Definition api_retn_threadstats (thand scode data buf : Z) (r : regs) : KM Z := signed (API_ENTRY_PARE4 INR_TD_RSTATS (u64 thand) scode data buf r).
Definition api_set_threadstats (thand scode data buf : Z) (r : regs) : KM Z := signed (API_ENTRY_PARE4 INR_TD_SSTATS (u64 thand) scode data buf r).
Definition api_open (file flgs stus : Z) (r : regs) : KM Z := signed (API_ENTRY_PARE3 INR_FS_OPEN file flgs stus r).
Definition api_close (fhand : Z) (r : regs) : KM Z := signed (API_ENTRY_PARE1 INR_FS_CLOSE (u64 fhand) r).
Definition api_read (fhand buf len flgs : Z) (r : regs) : KM Z := signed (API_ENTRY_PARE4 INR_FS_READ (u64 fhand) buf len flgs r).
Definition api_write (fhand buf len flgs : Z) (r : regs) : KM Z := signed (API_ENTRY_PARE4 INR_FS_WRITE (u64 fhand) buf len flgs r).
Definition api_ioctrl (fhand buf iocode flgs : Z) (r : regs) : KM Z := signed (API_ENTRY_PARE4 INR_FS_IOCTRL (u64 fhand) buf iocode flgs r).
Definition api_lseek (fhand lofset flgs : Z) (r : regs) : KM Z := signed (API_ENTRY_PARE3 INR_FS_LSEEK (u64 fhand) lofset flgs r).
Definition api_time (ttime : Z) (r : regs) : KM Z := signed (API_ENTRY_PARE1 INR_TIME ttime r).
Definition api_tick (id : Z) (r : regs) : KM Z := signed (API_ENTRY_PARE1 INR_TD_TICK id r).

(** The functions of the C library pass their arguments on. *)
Definition mallocblk (blksz : Z) (r : regs) : KM Z := api_mallocblk blksz r.
Definition mfreeblk (fradr blksz : Z) (r : regs) : KM Z := api_mfreeblk fradr blksz r.
Definition exel (file flgs : Z) (r : regs) : KM Z := api_exel_thread file flgs r.
Definition exit (r : regs) : KM unit := api_exit_thread r.
Definition pid (tname : Z) (r : regs) : KM Z := api_retn_threadhand tname r.
Definition retn_threadstats (thand scode data buf : Z) (r : regs) : KM Z := api_retn_threadstats thand scode data buf r.
Definition set_threadstats (thand scode data buf : Z) (r : regs) : KM Z := api_set_threadstats thand scode data buf r.
Definition open (file flgs stus : Z) (r : regs) : KM Z := api_open file flgs stus r.
Definition close (fhand : Z) (r : regs) : KM Z := api_close fhand r.
Definition read (fhand buf len flgs : Z) (r : regs) : KM Z := api_read fhand buf len flgs r.
Definition write (fhand buf len flgs : Z) (r : regs) : KM Z := api_write fhand buf len flgs r.
Definition ioctrl (fhand buf iocode flgs : Z) (r : regs) : KM Z := api_ioctrl fhand buf iocode flgs r.
Definition lseek (fhand lofset flgs : Z) (r : regs) : KM Z := api_lseek fhand lofset flgs r.
Definition time (ttime : Z) (r : regs) : KM Z := api_time ttime r.
Definition tick (id : Z) (r : regs) : KM Z := api_tick id r.

(** *** The clock device *)

(** The identity of the device is a variable of the function, at the address [dev] of the
    program's stack; so is the number of seconds, at [tmpsec]. *)
Definition open_clock (dev : Z) (r : regs) : KM Z :=
  on_dev (on_rfs (set (dev, 0) 0 RTC_DEVICE ;; set (dev, 0) 8 0 ;; set (dev, 0) 16 0)) ;;
  open dev (Z.lor RW_FLG FILE_TY_DEV) 0 r.

Definition settime (dev ttime : Z) (r : regs) : KM Z :=
  if ttime =? 0 then mret SYSSTUSERR else
  fd ← open_clock dev r;
  if fd =? -1 then mret SYSSTUSERR else
  _ ← ioctrl fd ttime IOCTRCODE_SETTIME 0 r; _ ← close fd r; mret SYSSTUSOK.
Definition gettime (dev ttime : Z) (r : regs) : KM Z :=
  if ttime =? 0 then mret SYSSTUSERR else
  fd ← open_clock dev r;
  if fd =? -1 then mret SYSSTUSERR else
  _ ← read fd ttime sizeof_times_t 0 r; _ ← close fd r; mret SYSSTUSOK.
Definition synsecalarm (dev tmpsec sec : Z) (r : regs) : KM Z :=
  on_dev (on_rfs (set (tmpsec, 0) 0 sec)) ;;
  if 60 <=? sec then mret SYSSTUSERR else
  fd ← open_clock dev r;
  if fd =? -1 then mret SYSSTUSERR else
  _ ← ioctrl fd tmpsec IOCTRCODE_SET_SYNSECALM 0 r; _ ← close fd r; mret SYSSTUSOK.
End lib.
