(* ===== verification/LibSpec.v ===== *)
(** * The library of user programs: theorems

    Registers across a call, the calls for files from the program's side, and the calls
    whose services do nothing. *)

From S2P Require Import Prelude Bytes Intr PhyMem Boot BootPages PageIf Mmu MmuCorrect ObjIf Vma DivMer Kmsob KmsobInv KmsobSpec Kmempool MemIf Sched SchedInv SchedMoves SchedOps SchedSpec SchedCorrect Rfs RfsMem RfsBlk RfsDir RfsOps RfsFiles RfsCorrect RfsSpec Device DeviceSpec Service ServiceInv ServiceSpec Kernel KernelSpec Lib.
#[local] Open Scope Z_scope.

(** ** Registers *)

(** A call gives every register back but rax; segment registers have 16 bits. *)
Definition returned (v : Z) (r : regs) : regs :=
  Regs v (rbx r) (rcx r) (rdx r) (rbp r) (rsi r) (rdi r) (r8 r) (r9 r) (r10 r) (r11 r) (r12 r) (r13 r) (r14 r) (r15 r) (u16 (seg_ds r)) (u16 (seg_es r)) (u16 (seg_fs r)) (u16 (seg_gs r)).

Lemma u16_idem x : u16 (u16 x) = u16 x.
Proof. unfold u16. by rewrite <- Z.land_assoc. Qed.
Lemma popped_frame v r : popped v (frame r) = Some (returned v r).
Proof. unfold frame, pushed, returned. cbn [reverse rev_append popped]. unfold reverse. cbn. by rewrite !u16_idem. Qed.
Lemma stkparame_frame r : stkparame (frame r) = Stkparame (rbx r) (rcx r) (rdx r) (rsi r).
Proof. reflexivity. Qed.

Section calls.
Context {S : Type} {HPO : PageOps S} {HOO : ObjOps S} (junk : nat -> nat -> Z) (initmm : Z).
Implicit Types (k : knl S).

(** The library function of a call *)
Definition lib_call (c : sv_call) (r : regs) : M (knl S) Z :=
  match c with
  | COpen file flgs stus => open junk initmm file flgs stus r
  | CClose fd => close junk initmm fd r
  | CRead fd buf len flgs => read junk initmm fd buf len flgs r
  | CWrite fd buf len flgs => write junk initmm fd buf len flgs r
  | CIoctrl fd buf iocode flgs => ioctrl junk initmm fd buf iocode flgs r
  end.

(** The registers at the interrupt *)
Definition call_regs (c : sv_call) (r : regs) : regs :=
  match c with
  | COpen file flgs stus => set_rdx stus (set_rcx flgs (set_rbx file (set_rax INR_FS_OPEN r)))
  | CClose fd => set_rbx (u64 fd) (set_rax INR_FS_CLOSE r)
  | CRead fd buf len flgs => set_rsi flgs (set_rdx len (set_rcx buf (set_rbx (u64 fd) (set_rax INR_FS_READ r))))
  | CWrite fd buf len flgs => set_rsi flgs (set_rdx len (set_rcx buf (set_rbx (u64 fd) (set_rax INR_FS_WRITE r))))
  | CIoctrl fd buf iocode flgs => set_rsi flgs (set_rdx iocode (set_rcx buf (set_rbx (u64 fd) (set_rax INR_FS_IOCTRL r))))
  end.

Lemma call_carried c r : carries c (rax (call_regs c r)) (stkparame (frame (call_regs c r))).
Proof. by destruct c. Qed.

(** A result goes to the program as the 64-bit pattern that the kernel leaves in rax. *)
Lemma signed_scall (r : regs) k :
  signed (x ← exi_scall junk initmm r; mret (rax x)) k =
  match hal_syscl_allocator junk initmm (rax r) (stkparame (frame r)) k with Ret (v, k') => Ret (sint (u64 v), k') | Halt e => Halt e | Fault => Fault | NoFuel => NoFuel end.
Proof. unfold signed, exi_scall, mbind, M_bind. destruct (hal_syscl_allocator _ _ _ _ k) as [[v k']| | |]; [|done..]. by rewrite popped_frame. Qed.

Lemma lib_call_eq c r k : lib_call c r k =
  match hal_syscl_allocator junk initmm (rax (call_regs c r)) (stkparame (frame (call_regs c r))) k with Ret (v, k') => Ret (sint (u64 v), k') | Halt e => Halt e | Fault => Fault | NoFuel => NoFuel end.
Proof. rewrite <- signed_scall. by destruct c. Qed.
End calls.

(** Results of the interface are small. *)
Lemma fs_result P1 P2 A H q r o A' H' : fs_step P1 P2 A H q r o A' H' -> -1 <= r <= 0.
Proof. by destruct 1. Qed.
Lemma sv_result P1 P2 P3 cur A H T a r o A' H' T' : sv_step P1 P2 P3 cur A H T a r o A' H' T' -> -1 <= r < 8.
Proof. destruct 1 as [nm r o A' H' Hs|nm path fd p h A' H' Hs [Hf _]|fd f a q r o A' H' _ _ _ Hs| | | |]; try done; [apply fs_result in Hs; lia|unfold TD_HAND_MAX in Hf; lia|apply fs_result in Hs; lia]. Qed.

Section files.
Context {S : Type} {HPO : PageOps S} {HOO : ObjOps S} {HOA : ObjAlloc S} (junk : nat -> nat -> Z) (initmm ms N rb devp cur : Z).
Implicit Types (k : knl S).

(** C17: files end to end.  A call of the library for a file, whatever the program left in
    its other registers, through the frame on the kernel's stack and the service table,
    on the handle tables, the device table, the driver and the kernel's memory pool down
    to the page allocator, is a step of the abstract interface of handles on files, with
    the result the program sees; the components fit together again afterwards, and no
    other part of the kernel changes. *)
Theorem library_calls F H A T k c a r : SvInv ms N rb devp cur F H A T (k_dev k) -> calls cur H T (d_rfs (k_dev k)) c a -> - 2 ^ 63 <= call_hand c < 2 ^ 63 ->
  wph (lib_call junk initmm c r) k
    (fun v k' => handled ms N rb devp cur F H A T (k_dev k) c a v (k_dev k') /\ k' = with_dev (k_dev k') k) (sv_err a).
Proof.
  intros HI Hc Hh. unfold wph. rewrite lib_call_eq. pose proof (file_service junk initmm ms N rb devp cur F H A T k c a _ _ HI Hc Hh (call_carried c r)) as Hw.
  unfold wph in Hw. destruct (hal_syscl_allocator junk initmm _ _ k) as [[v k']| | |]; [|done..]. destruct Hw as [Hd Hk]. split; [|done].
  replace (sint (u64 v)) with v; [done|]. destruct Hd as (o & A' & H' & T' & F' & Hs & _). apply sv_result in Hs. by rewrite sint_u64 by lia.
Qed.
End files.

(** A program at its first call *)
Definition demo_regs : regs := Regs 1 2 3 4 5 6 7 8 9 10 11 12 13 14 15 0x23 0x23 0x23 0x23.

(** The running thread creates [/a]. *)
Lemma library_calls_witness : wph (open no_junk 0 0x1000 0x40 0 demo_regs) demo_kernel
  (fun v k' => handled demo_start 5 2 0x11 3000 ∅ ∅ (Afs [] ∅) ∅ (k_dev demo_kernel) (COpen 0x1000 0x40 0) (SCreate [97]) v (k_dev k') /\ k' = with_dev (k_dev k') demo_kernel) (sv_err (SCreate [97])).
Proof.
  apply (library_calls no_junk 0 demo_start 5 2 0x11 3000 ∅ ∅ (Afs [] ∅) ∅ demo_kernel (COpen 0x1000 0x40 0) (SCreate [97]) demo_regs demo_kernel_ok); [|split; [discriminate|reflexivity]].
  exists 0x1000, 0x40, 0. split_and!; [reflexivity|reflexivity|reflexivity|]. split; [discriminate|]. exists [47; 97; 0]. split; [reflexivity|exact demo_path].
Defined.

(** ** Calls that always fail *)

(** The services of these calls do nothing: the calls fail and change nothing. *)
Lemma unanswered {S} `{PageOps S, ObjOps S} (junk : nat -> nat -> Z) initmm (k : knl S) hand x y z r :
  lseek junk initmm hand x y r k = Ret (SYSSTUSERR, k) /\ retn_threadstats junk initmm hand x y z r k = Ret (SYSSTUSERR, k) /\ set_threadstats junk initmm hand x y z r k = Ret (SYSSTUSERR, k).
Proof.
  assert (Hall : forall q, rax q = INR_FS_LSEEK \/ rax q = INR_TD_RSTATS \/ rax q = INR_TD_SSTATS -> hal_syscl_allocator junk initmm (rax q) (stkparame (frame q)) k = Ret (SYSSTUSERR, k)).
  { intros q Hq. unfold hal_syscl_allocator. rewrite service_dispatch_spec by (by destruct Hq as [->|[->| ->]]). by destruct Hq as [->|[->| ->]]. }
  unfold lseek, retn_threadstats, set_threadstats, api_lseek, api_retn_threadstats, api_set_threadstats, API_ENTRY_PARE3, API_ENTRY_PARE4.
  rewrite !signed_scall. rewrite !Hall by (cbn; auto). done.
Qed.

(** ** The clock device of the library *)

Section clock.
Context {S : Type} {HPO : PageOps S} {HOO : ObjOps S} (junk : nat -> nat -> Z) (initmm : Z).
Implicit Types (k : knl S).

(** Words stored one after the other are read back. *)
Definition clock_id (l : list Z) : list Z := wr64 (wr64 (wr64 l 0 RTC_DEVICE) 8 0) 16 0.
Definition id_stored dev l k : knl S := with_dev (with_rfs (with_mem (<[dev := clock_id l]> (r_mem (d_rfs (k_dev k)))) (d_rfs (k_dev k))) (k_dev k)) k.

Lemma lib_set_eq (s : rst (pst S)) b l f v : r_mem s !! b = Some l -> 0 <= f -> f + 8 <= blen l -> set (b, 0) f v s = Ret (tt, with_mem (<[b := wr64 l f v]> (r_mem s)) s).
Proof. intros Hb Hf Hl. unfold set, store, get_buf, put_buf, modify, mbind, M_bind, in_buf. cbn [fst snd]. rewrite Hb, blen_le64. by replace (_ && _) with true by lia. Qed.
Lemma lib_get_eq (s : rst (pst S)) b l f : r_mem s !! b = Some l -> 0 <= f -> f + 8 <= blen l -> get (b, 0) f s = Ret (rd64 l f, s).
Proof. intros Hb Hf Hl. unfold get, load, get_buf, mbind, M_bind, in_buf. cbn [fst snd]. rewrite Hb. by replace (_ && _) with true by lia. Qed.

Lemma clock_id_len l : 24 <= blen l -> blen (wr64 l 0 RTC_DEVICE) = blen l /\ blen (wr64 (wr64 l 0 RTC_DEVICE) 8 0) = blen l /\ blen (clock_id l) = blen l.
Proof.
  intros Hl. assert (H1 : blen (wr64 l 0 RTC_DEVICE) = blen l) by (apply blen_wr64; lia). assert (H2 : blen (wr64 (wr64 l 0 RTC_DEVICE) 8 0) = blen l) by (rewrite blen_wr64; lia).
  split_and!; [done|done|]. unfold clock_id. rewrite blen_wr64; lia.
Qed.
Lemma clock_id_words l : 24 <= blen l -> Devid (rd64 (clock_id l) 0) (rd64 (clock_id l) 8) (rd64 (clock_id l) 16) = Devid RTC_DEVICE 0 0.
Proof.
  intros Hl. destruct (clock_id_len l Hl) as (H1 & H2 & H3). assert (Hr : 0 <= RTC_DEVICE < u64max) by done. assert (H0 : 0 <= 0 < u64max) by done. unfold clock_id.
  rewrite (rd64_wr64_other _ 16 0 0), (rd64_wr64_other _ 8 0 0), (rd64_wr64_same l 0 RTC_DEVICE) by lia.
  rewrite (rd64_wr64_other _ 16 0 8), (rd64_wr64_same _ 8 0), (rd64_wr64_same _ 16 0) by lia. done.
Qed.

(** No clock device is in the table: opening it fails. *)
Lemma open_clock_fails dev l c r k : DevInv (k_dev k) -> (forall a, ~ registered (k_dev k) a (Devid RTC_DEVICE 0 0)) -> sda_currtd (schda (d_sys (k_dev k))) = Some c ->
  dev <> 0 -> r_mem (d_rfs (k_dev k)) !! dev = Some l -> 24 <= blen l -> open_clock junk initmm dev r k = Ret (-1, id_stored dev l k).
Proof.
  intros HD Hno Hc H0 Hb Hl. destruct (clock_id_len l Hl) as (H1 & H2 & Hw). set (k1 := id_stored dev l k).
  assert (Est : on_dev (on_rfs (set (dev, 0) 0 RTC_DEVICE ;; set (dev, 0) 8 0 ;; set (dev, 0) 16 0)) k = Ret (tt, k1)).
  { unfold on_dev, on_rfs. rewrite (bind_eq _ _ _ _ _ (lib_set_eq (d_rfs (k_dev k)) dev l 0 RTC_DEVICE Hb ltac:(lia) ltac:(lia))).
    erewrite bind_eq by (apply lib_set_eq; [apply lookup_insert_eq|lia|lia]). erewrite lib_set_eq; [|apply lookup_insert_eq|lia|lia].
    cbn [with_mem r_mem]. by rewrite !insert_insert_eq. }
  unfold open_clock. rewrite (bind_eq _ _ _ _ _ Est). unfold open, api_open, API_ENTRY_PARE3. rewrite signed_scall. unfold hal_syscl_allocator. rewrite service_dispatch_spec by done.
  assert (Hm : r_mem (d_rfs (k_dev k1)) !! dev = Some (clock_id l)) by apply lookup_insert_eq.
  assert (Eop : krlsve_open junk dev (Z.lor RW_FLG FILE_TY_DEV) 0 (k_dev k1) = Ret (-1, k_dev k1)); [|cbn; unfold on_dev; rewrite Eop; by destruct k].
  unfold krlsve_open. replace (dev =? 0) with false by lia. unfold krlsve_core_open. rewrite (bind_eq _ _ (k_dev k1) c (k_dev k1)).
  2:{ unfold on_sys, krlsched_retn_currthread, gets, mbind, M_bind. cbn [k1 id_stored k_dev with_dev d_sys with_rfs]. rewrite Hc. by destruct (k_dev k). }
  change (Z.land (Z.lor RW_FLG FILE_TY_DEV) FILE_TY_MASK =? FILE_TY_DEV) with true. cbn iota. unfold open_dev_step.
  assert (Hg : forall f, 0 <= f -> f + 8 <= blen l -> on_rfs (get (dev, 0) f) (k_dev k1) = Ret (rd64 (clock_id l) f, k_dev k1)).
  { intros f Hf Hfl. unfold on_rfs. rewrite (lib_get_eq _ dev (clock_id l) f Hm Hf ltac:(lia)). by destruct (k_dev k). }
  rewrite (bind_eq _ _ _ _ _ (Hg 0 ltac:(lia) ltac:(lia))), (bind_eq _ _ _ _ _ (Hg 8 ltac:(lia) ltac:(lia))), (bind_eq _ _ _ _ _ (Hg 16 ltac:(lia) ltac:(lia))).
  rewrite (clock_id_words l Hl).
  destruct (lookup_spec (k_dev k1) (Devid RTC_DEVICE 0 0)) as (a & Ea & [[_ Hr]|[-> _]]); [by apply (same_devs_DevInv (k_dev k)); [|apply same_devs_eq]|done|by apply (same_devs_registered (k_dev k)) in Hr; [destruct (Hno a)| |apply same_devs_eq]|]. by rewrite (bind_eq _ _ _ _ _ Ea).
Qed.

(** The clock functions of the library always fail: no driver registers a clock device.  They change nothing but
    their own variables. *)
Theorem clock_calls_fail dev l tmp lt ttime sec c r k : DevInv (k_dev k) -> (forall a, ~ registered (k_dev k) a (Devid RTC_DEVICE 0 0)) -> sda_currtd (schda (d_sys (k_dev k))) = Some c ->
  dev <> 0 -> dev <> tmp -> r_mem (d_rfs (k_dev k)) !! dev = Some l -> 24 <= blen l -> r_mem (d_rfs (k_dev k)) !! tmp = Some lt -> 8 <= blen lt -> 0 <= sec ->
  let after m k := with_dev (with_rfs (with_mem (m (r_mem (d_rfs (k_dev k)))) (d_rfs (k_dev k))) (k_dev k)) k in
  settime junk initmm dev ttime r k = Ret (SYSSTUSERR, if ttime =? 0 then k else after (insert dev (clock_id l)) k) /\
  gettime junk initmm dev ttime r k = Ret (SYSSTUSERR, if ttime =? 0 then k else after (insert dev (clock_id l)) k) /\
  synsecalarm junk initmm dev tmp sec r k = Ret (SYSSTUSERR, after (fun m => (if 60 <=? sec then m else <[dev := clock_id l]> m)) (after (insert tmp (wr64 lt 0 sec)) k)).
Proof.
  intros HD Hno Hc H0 Hne Hb Hl Ht Hlt Hsec after. split_and!; [unfold settime|unfold gettime|unfold synsecalarm].
  - destruct (ttime =? 0); [done|]. by rewrite (bind_eq _ _ _ _ _ (open_clock_fails dev l c r k HD Hno Hc H0 Hb Hl)).
  - destruct (ttime =? 0); [done|]. by rewrite (bind_eq _ _ _ _ _ (open_clock_fails dev l c r k HD Hno Hc H0 Hb Hl)).
  - set (k1 := after (insert tmp (wr64 lt 0 sec)) k). rewrite (bind_eq _ _ k tt k1) by (unfold on_dev, on_rfs; by rewrite (lib_set_eq _ tmp lt 0 sec Ht ltac:(lia) ltac:(lia))).
    destruct (60 <=? sec); [by destruct k as [[? [] ? ? ? ? ? ? ? ?]]|].
    assert (HS : same_devs (k_dev k) (k_dev k1)) by (by apply same_devs_eq).
    rewrite (bind_eq _ _ k1 (-1) (id_stored dev l k1)); [done|]. apply (open_clock_fails dev l c); [by apply (same_devs_DevInv (k_dev k))| |done|done|cbn; by rewrite lookup_insert_ne|done].
    intros a Ha. apply (same_devs_registered (k_dev k)) in Ha; [by apply (Hno a)|done|done].
Qed.
End clock.

(** A program asks for the time of the clock device. *)
Lemma demo_clock_fails : result 0 (gettime no_junk 0 0x2000 0x4000 demo_regs) demo_kernel = SYSSTUSERR.
Proof. vm_compute. reflexivity. Qed.
