(* ===== verification/Loader.v ===== *)
(** * The second-stage loader

    src/initldr/uefi/ldrkrl: bstartparm.c, fs.c, the memory and processor checks of
    chkcpmm.c, the placing of the loader in inithead.c and the graphics part that
    places the frame buffer (graph.c), with the copying loops of base/io.h.

    Memory is the byte at each physical address: the firmware maps addresses one to
    one.  The machine information block at [MBSPADR] is a record, the part that the
    kernel reads (Boot.v) inside of it; an access to the bytes at its place is a fault
    of the model, so that a theorem about a run shows that there is none.  What the
    firmware hands over ([LoaderInfo]) and the processor are parameters.  [kerror],
    [error] and the halts of [init_chkcpu] stop the machine.  [Debug] and [die] draw
    and wait only. *)

From S2P Require Import Prelude Bytes PhyMem Boot.
#[local] Open Scope Z_scope.

Definition MBSPADR : Z := 0x100000.
Definition SZ_machbstart_t : Z := 1291.
Definition MBS_MIGC : Z := 0x4c4d4f534d425350.
Definition REALDRV_PHYADR : Z := 0x1000.
Definition ILDRKRL_PHYADR : Z := 0x200000.
Definition IKSTACK_PHYADR : Z := 0x90000 - 0x10.
Definition IKSTACK_SIZE : Z := 0x1000.
Definition IMGFILE_PHYADR : Z := 0x4000000.
Definition IMGKRNL_PHYADR : Z := 0x2000000.
Definition KINITPAGE_PHYADR : Z := 0x1000000.
Definition KINITFRVM_SZ : Z := 0x400000.
Definition LDRFILEADR : Z := IMGFILE_PHYADR.
Definition MLOSDSC_OFF : Z := 0x1000.
Definition MRDDSC_ADR : Z := LDRFILEADR + 0x1000.
Definition MDC_ENDGIC : Z := 0xaaffaaffaaffaaff.
Definition MDC_RVGIC : Z := 0xffaaffaaffaaffaa.
Definition SZ_e820map_t : Z := 20.
Definition SZ_fhdsc_t : Z := 256.
Definition KINITPAGE_SZ : Z := 0x1000 * 16 + 0x2000.
Definition VBEMODE : Z := 1.
Definition BGAMODE : Z := 3.

Definition u32 (x : Z) : Z := x mod 2 ^ 32.
Definition sint64 (x : Z) : Z := (x + 2 ^ 63) mod 2 ^ 64 - 2 ^ 63.
Definition P4K_ALIGN (x : Z) : Z := Z.land (x +u 0x1000 -u 1) (u64 (Z.lnot (0x1000 - 1))).

(** ** Memory *)

Definition memory := Z -> Z.
Definition bytes (m : memory) (a n : Z) : list Z := m <$> seqZ a n.
Definition put (a : Z) (bs : list Z) (m : memory) : memory := fun x =>
  if (a <=? x) && (x <? a + blen bs) then bs !!! Z.to_nat (x - a) else m x.
Definition word (m : memory) (a n : Z) : Z := little_endian_to_Z 8 (bytes m a n).

(** ** Data *)

(** What the firmware hands over, as far as the loader reads it *)
Record LoaderInfo := Loaderinfo { FrameBase : Z; With : Z; High : Z; E820Map : Z; E820MapNR : Z }.

(** The processor: whether the ID flag can be changed, and the registers eax, ebx, ecx
    and edx that CPUID gives for a value of eax *)
Record cpu_t := Cpu { id_flag : bool; cpuid : Z -> Z * Z * Z * Z }.

Record graph_t := Graph { gh_mode : Z; gh_x : Z; gh_y : Z; gh_framphyadr : Z; gh_onepixbits : Z; gh_vbemodenr : Z }.
Definition graph_t_init : graph_t := Graph 0 0 0 0 0 0.

(** The machine information block: the fields that the kernel's memory set-up reads and
    the others that the loader writes *)
Record machb := Machb {
  mb_k : machbstart_t; mb_migc : Z; mb_kalldendpadr : Z; mb_fvrmphyadr : Z; mb_fvrmsz : Z; mb_cpumode : Z; mb_memsz : Z; mb_ghparm : graph_t
}.
Definition machbstart_zero : machbstart_t := Machbstart 0 0 0 0 0 0 0 0 0 0 0 0 0 0 0 0 0 0 0 0 0 0 0 0.

(** Memory, the block and the pointer [GLmasbp] to it *)
Record ldr := Ldr { l_mem : memory; l_mb : machb; GLmasbp : Z }.
Abbreviation LM A := (M ldr A).

Definition with_mem (m : memory) (s : ldr) : ldr := Ldr m (l_mb s) (GLmasbp s).
Definition with_mb (b : machb) (s : ldr) : ldr := Ldr (l_mem s) b (GLmasbp s).
Definition upd_mb (f : machb -> machb) : LM unit := modify (fun s => with_mb (f (l_mb s)) s).
Definition mb : LM machbstart_t := gets (fun s => mb_k (l_mb s)).

Definition set_k (f : machbstart_t -> machbstart_t) (b : machb) : machb :=
  Machb (f (mb_k b)) (mb_migc b) (mb_kalldendpadr b) (mb_fvrmphyadr b) (mb_fvrmsz b) (mb_cpumode b) (mb_memsz b) (mb_ghparm b).
Definition set_kalld (v : Z) (b : machb) : machb := Machb (mb_k b) (mb_migc b) v (mb_fvrmphyadr b) (mb_fvrmsz b) (mb_cpumode b) (mb_memsz b) (mb_ghparm b).
Definition set_fvrm (a sz : Z) (b : machb) : machb := Machb (mb_k b) (mb_migc b) (mb_kalldendpadr b) a sz (mb_cpumode b) (mb_memsz b) (mb_ghparm b).
Definition set_cpumode (v : Z) (b : machb) : machb := Machb (mb_k b) (mb_migc b) (mb_kalldendpadr b) (mb_fvrmphyadr b) (mb_fvrmsz b) v (mb_memsz b) (mb_ghparm b).
Definition set_memsz (v : Z) (b : machb) : machb := Machb (mb_k b) (mb_migc b) (mb_kalldendpadr b) (mb_fvrmphyadr b) (mb_fvrmsz b) (mb_cpumode b) v (mb_ghparm b).
Definition set_ghparm (g : graph_t) (b : machb) : machb := Machb (mb_k b) (mb_migc b) (mb_kalldendpadr b) (mb_fvrmphyadr b) (mb_fvrmsz b) (mb_cpumode b) (mb_memsz b) g.

(** Updates of the kernel's part *)
Definition kb (stk stksz img imgsz krl krlsz nx fnt fntsz e8 e8nr e8sz : Z) (b : machbstart_t) (mapsz pml4 sublen : Z) : machbstart_t :=
  Machbstart stk stksz img imgsz krl krlsz nx fnt fntsz e8 e8nr e8sz (mb_e820expadr b) (mb_e820exnr b) (mb_e820exsz b)
    (mb_memznpadr b) (mb_memznnr b) (mb_memznsz b) (mb_memmappadr b) (mb_memmapnr b) (mb_memmapsz b) mapsz pml4 sublen.
Definition set_stack (a sz : Z) (b : machbstart_t) : machbstart_t :=
  kb a sz (mb_imgpadr b) (mb_imgsz b) (mb_krlimgpadr b) (mb_krlsz b) (mb_nextwtpadr b) (mb_bfontpadr b) (mb_bfontsz b) (mb_e820padr b) (mb_e820nr b) (mb_e820sz b) b (mb_kpmapphymemsz b) (mb_pml4padr b) (mb_subpageslen b).
Definition set_img (a sz : Z) (b : machbstart_t) : machbstart_t :=
  kb (mb_krlinitstack b) (mb_krlitstacksz b) a sz (mb_krlimgpadr b) (mb_krlsz b) (mb_nextwtpadr b) (mb_bfontpadr b) (mb_bfontsz b) (mb_e820padr b) (mb_e820nr b) (mb_e820sz b) b (mb_kpmapphymemsz b) (mb_pml4padr b) (mb_subpageslen b).
Definition set_krl (a sz : Z) (b : machbstart_t) : machbstart_t :=
  kb (mb_krlinitstack b) (mb_krlitstacksz b) (mb_imgpadr b) (mb_imgsz b) a sz (mb_nextwtpadr b) (mb_bfontpadr b) (mb_bfontsz b) (mb_e820padr b) (mb_e820nr b) (mb_e820sz b) b (mb_kpmapphymemsz b) (mb_pml4padr b) (mb_subpageslen b).
Definition set_nextwt (a : Z) (b : machbstart_t) : machbstart_t :=
  kb (mb_krlinitstack b) (mb_krlitstacksz b) (mb_imgpadr b) (mb_imgsz b) (mb_krlimgpadr b) (mb_krlsz b) a (mb_bfontpadr b) (mb_bfontsz b) (mb_e820padr b) (mb_e820nr b) (mb_e820sz b) b (mb_kpmapphymemsz b) (mb_pml4padr b) (mb_subpageslen b).
Definition set_font (a sz : Z) (b : machbstart_t) : machbstart_t :=
  kb (mb_krlinitstack b) (mb_krlitstacksz b) (mb_imgpadr b) (mb_imgsz b) (mb_krlimgpadr b) (mb_krlsz b) (mb_nextwtpadr b) a sz (mb_e820padr b) (mb_e820nr b) (mb_e820sz b) b (mb_kpmapphymemsz b) (mb_pml4padr b) (mb_subpageslen b).
Definition set_e820 (a nr sz : Z) (b : machbstart_t) : machbstart_t :=
  kb (mb_krlinitstack b) (mb_krlitstacksz b) (mb_imgpadr b) (mb_imgsz b) (mb_krlimgpadr b) (mb_krlsz b) (mb_nextwtpadr b) (mb_bfontpadr b) (mb_bfontsz b) a nr sz b (mb_kpmapphymemsz b) (mb_pml4padr b) (mb_subpageslen b).
Definition set_pages (mapsz pml4 sublen : Z) (b : machbstart_t) : machbstart_t :=
  kb (mb_krlinitstack b) (mb_krlitstacksz b) (mb_imgpadr b) (mb_imgsz b) (mb_krlimgpadr b) (mb_krlsz b) (mb_nextwtpadr b) (mb_bfontpadr b) (mb_bfontsz b) (mb_e820padr b) (mb_e820nr b) (mb_e820sz b) b mapsz pml4 sublen.

(** ** Accesses *)

Definition in_block (a n : Z) : bool := (a <? MBSPADR + SZ_machbstart_t) && (MBSPADR <? a + n).
Definition load (a n : Z) : LM Z := fun s => if in_block a n then Fault else Ret (word (l_mem s) a n, s).
Definition store (a n v : Z) : LM unit := fun s => if in_block a n then Fault else Ret (tt, with_mem (put a (Z_to_little_endian n 8 v) (l_mem s)) s).

(** The two loops of [m2mcopy] over the bytes [i .. i+n-1] and [0 .. n-1] *)
Fixpoint copy_up (n : nat) (i s d : Z) : LM unit :=
  match n with O => mret tt | S n' => v ← load (s + i) 1; store (d + i) 1 v ;; copy_up n' (i + 1) s d end.
Fixpoint copy_down (n : nat) (s d : Z) : LM unit :=
  match n with O => mret tt | S n' => v ← load (s + Z.of_nat n') 1; store (d + Z.of_nat n') 1 v ;; copy_down n' s d end.
Definition m2mcopy (src dest len : Z) : LM Z :=
  if (src =? 0) || (dest =? 0) || (len <? 1) then mret 0 else
  if src =? dest then mret len else
  if src <? dest then copy_down (Z.to_nat len) src dest ;; mret len else
  copy_up (Z.to_nat len) 0 src dest ;; mret len.

Fixpoint memset_loop (n : nat) (i src val : Z) : LM unit :=
  match n with O => mret tt | S n' => store (src + i) 1 val ;; memset_loop n' (i + 1) src val end.
Definition memset (src val len : Z) : LM unit := memset_loop (Z.to_nat len) 0 src val.

(** ** Processor *)

(** The carry flag after [bt], as [setcb] gives it *)
Definition bt (n v : Z) : Z := if Z.testbit v n then 1 else 0.

Section loader.
Context (info : option LoaderInfo) (cpu : cpu_t).

Definition kerror {A} (msg : string) : LM A := halt msg.
Definition error {A} (msg : string) : LM A := halt msg.
Definition GetLoaderinfo : option LoaderInfo := info.
Definition GetMachbstart : LM Z := gets GLmasbp.

Definition chk_cpuid : Z := if id_flag cpu then 1 else 0.
Definition chk_cpu_longmode : Z :=
  let '(eax, _, _, _) := cpuid cpu 0x80000000 in
  if eax <? 0x80000001 then 0 else let '(_, _, _, edx) := cpuid cpu 0x80000001 in bt 29 edx.
Definition chk_cpu_sse : Z := let '(_, _, _, edx) := cpuid cpu 1 in bt 25 edx.
Definition chk_cpu_sse2 : Z := let '(_, _, _, edx) := cpuid cpu 1 in bt 26 edx.
Definition chk_cpu_sse3 : Z := let '(_, _, ecx, _) := cpuid cpu 1 in bt 0 ecx.
Definition chk_cpu_sse4 : Z := let '(_, _, ecx, _) := cpuid cpu 1 in bt 19 ecx.

Definition init_chkcpu : LM unit :=
  upd_mb (set_cpumode 0x40) ;;
  die_if (chk_cpuid =? 0) "Your CPU is not support CPUID sys is die!" ;;
  die_if (chk_cpu_longmode =? 0) "Your CPU is not support 64bits mode sys is die!" ;;
  upd_mb (set_cpumode 0x40) ;;
  die_if (chk_cpu_sse =? 0) "Your CPU is not support sse sys is die!" ;;
  die_if (chk_cpu_sse2 =? 0) "Your CPU is not support sse2 sys is die!" ;;
  die_if (chk_cpu_sse3 =? 0) "Your CPU is not support sse3 sys is die!" ;;
  die_if (chk_cpu_sse4 =? 0) "Your CPU is not support sse4 sys is die!".

(** ** The memory map *)

(** [e8p[i]] *)
Definition e820_at (e8p i : Z) : LM e820map_t :=
  let a := e8p + SZ_e820map_t * i in
  s ← load a 8; l ← load (a + 8) 8; t ← load (a + 16) 4; mret (E820 s l t).

(** [MemoryIsFree] and [HeadMemoryIsFree]: the loop over entries [i .. i+n-1] *)
Fixpoint free_loop (n : nat) (i emap start e : Z) : LM bool :=
  match n with
  | O => mret false
  | S n' =>
      x ← e820_at emap i;
      if (type x =? RAM_USABLE) && ((saddr x <=? start) && (e <? saddr x +u (lsize x -u 1))) then mret true
      else free_loop n' (i + 1) emap start e
  end.
Definition HeadMemoryIsFree (start size : Z) : LM bool :=
  match info with
  | None => mret false
  | Some inf => free_loop (Z.to_nat (E820MapNR inf)) 0 (E820Map inf) start (start +u size)
  end.
Definition MemoryIsFree (start size : Z) : LM bool :=
  match GetLoaderinfo with
  | None => mret false
  | Some inf => free_loop (Z.to_nat (E820MapNR inf)) 0 (E820Map inf) start (start +u size)
  end.

Definition LoaderAllocMemory (size : Z) : LM Z :=
  mbsp ← GetMachbstart;
  if (mbsp =? 0) || (size =? 0) then mret 0 else
  b ← mb;
  let start := mb_nextwtpadr b in
  free ← MemoryIsFree start size;
  if negb free then mret 0 else
  upd_mb (set_k (set_nextwt (P4K_ALIGN (start +u size)))) ;; mret start.

Fixpoint memsize_loop (n : nat) (i e8p tot : Z) : LM Z :=
  match n with
  | O => mret tot
  | S n' => x ← e820_at e8p i; memsize_loop n' (i + 1) e8p (if type x =? RAM_USABLE then tot +u lsize x else tot)
  end.
Definition get_memsize (e8p enr : Z) : LM Z := if (enr =? 0) || (e8p =? 0) then mret 0 else memsize_loop (Z.to_nat enr) 0 e8p 0.

(** The address of the entry, 0 for [NULL] *)
Fixpoint chk_loop (n : nat) (i e8p sadr len : Z) : LM Z :=
  match n with
  | O => mret 0
  | S n' =>
      x ← e820_at e8p i;
      if (type x =? RAM_USABLE) && ((saddr x <=? sadr) && (len <? saddr x +u lsize x)) then mret (e8p + SZ_e820map_t * i)
      else chk_loop n' (i + 1) e8p sadr len
  end.
Definition chk_memsize (e8p enr sadr size : Z) : LM Z :=
  if (enr =? 0) || (e8p =? 0) then mret 0 else chk_loop (Z.to_nat enr) 0 e8p sadr (sadr +u size).

(** Without [info] the fields are read through [NULL]. *)
Definition init_mem : LM unit :=
  match GetLoaderinfo with
  | None => fault
  | Some inf =>
      let arr := E820Map inf in let n := u32 (E820MapNR inf) in
      die_if (n =? 0) "no e820map" ;;
      upd_mb (set_k (set_e820 arr n (n * SZ_e820map_t))) ;;
      sz ← get_memsize arr n;
      upd_mb (set_memsz sz)
  end.

(** ** The block *)

Definition machbstart_t_init : LM unit :=
  free ← MemoryIsFree MBSPADR SZ_machbstart_t;
  if negb free then mret tt else
  free ← MemoryIsFree IMGKRNL_PHYADR 0x8000000;
  if negb free then kerror "Your computer is low on memory, the memory cannot be less than 128MB!" else
  modify (fun s => Ldr (l_mem s) (Machb (set_nextwt IMGKRNL_PHYADR machbstart_zero) MBS_MIGC 0 0 0 0 0 graph_t_init) MBSPADR).

Definition chkadr_is_ok (chkadr cksz : Z) (b : machbstart_t) : Z :=
  if negb (adrzone_is_ok (mb_krlinitstack b -u mb_krlitstacksz b) (mb_krlitstacksz b) chkadr cksz =? 0) then -1 else
  if negb (adrzone_is_ok (mb_imgpadr b) (mb_imgsz b) chkadr cksz =? 0) then -2 else
  if negb (adrzone_is_ok (mb_krlimgpadr b) (mb_krlsz b) chkadr cksz =? 0) then -3 else
  if negb (adrzone_is_ok (mb_bfontpadr b) (mb_bfontsz b) chkadr cksz =? 0) then -4 else
  if negb (adrzone_is_ok (mb_e820padr b) (mb_e820sz b) chkadr cksz =? 0) then -5 else
  if negb (adrzone_is_ok (mb_memznpadr b) (mb_memznsz b) chkadr cksz =? 0) then -6 else
  if negb (adrzone_is_ok (mb_memmappadr b) (mb_memmapsz b) chkadr cksz =? 0) then -7 else 0.

(** ** Files of the image *)

(** Signed characters; [a] is a constant of the loader, [b] an address. *)
Definition schar (c : Z) : Z := if c <? 128 then c else c - 256.
Fixpoint strcmpl (a : list Z) (b : Z) : LM Z :=
  y ← load b 1;
  match a with
  | [] => mret (schar y - 0)
  | x :: a' => if negb (y =? 0) && (x =? y) then strcmpl a' (b + 1) else mret (schar y - schar x)
  end.

(** Fields of [imgfhdsc_t] and [fhdsc_t] *)
Definition mdc_fhdbk_s (p : Z) : LM Z := load (p + 72) 8.
Definition mdc_filbk_e (p : Z) : LM Z := load (p + 112) 8.
Definition mdc_fhdnr (p : Z) : LM Z := load (p + 144) 8.
Definition mdc_filnr (p : Z) : LM Z := load (p + 152) 8.
Definition mdc_endgic (p : Z) : LM Z := load (p + 160) 8.
Definition mdc_version (p : Z) : LM Z := load (p + 168) 8.
Definition fhd_intsf_s (p : Z) : LM Z := load (p + 32) 8.
Definition fhd_freal_sz (p : Z) : LM Z := load (p + 48) 8.
Definition fhd_name (p : Z) : Z := p + 64.

(** The test of the header that four functions make *)
Definition bad_mrddsc (p : Z) : LM bool :=
  e ← mdc_endgic p; v ← mdc_version p; n ← mdc_fhdnr p; f ← mdc_filnr p;
  mret (negb (e =? MDC_ENDGIC) || negb (v =? MDC_RVGIC) || (n <? 2) || (f <? 2)).

Definition get_wt_imgfilesz : LM Z :=
  let mrddadrs := MRDDSC_ADR in
  bad ← bad_mrddsc mrddadrs; e ← mdc_filbk_e mrddadrs;
  if bad || (e <? 0x4000) then mret 0 else
  let retsz := (LDRFILEADR +u e) -u LDRFILEADR in
  upd_mb (set_k (set_img LDRFILEADR retsz)) ;; mret retsz.

(** The loop over descriptors [i .. i+n-1]; 0 when none has the name *)
Fixpoint file_loop (n : nat) (i fhdsc : Z) (fname : list Z) : LM Z :=
  match n with
  | O => mret 0
  | S n' =>
      let p := fhdsc + SZ_fhdsc_t * i in
      r ← strcmpl fname (fhd_name p);
      if r =? 0 then mret p else file_loop n' (i + 1) fhdsc fname
  end.

Definition get_fileinfo (fname : list Z) : LM Z :=
  b ← mb;
  let mrddadrs := u32 (mb_imgpadr b +u MLOSDSC_OFF) in
  bad ← bad_mrddsc mrddadrs; die_if bad "no mrddsc" ;;
  s ← mdc_fhdbk_s mrddadrs; n ← mdc_fhdnr mrddadrs;
  r ← file_loop (Z.to_nat n) 0 (s +u mb_imgpadr b) fname;
  if r =? 0 then kerror "not find file in get_fileinfo()" else mret r.

(** [*retadr] and [*retsz]; the size is left at what it was when there is no address. *)
Definition get_file_rpadrandsz (fname : list Z) (retsz : Z) : LM (Z * Z) :=
  fhdsc ← get_fileinfo fname;
  if fhdsc =? 0 then mret (0, retsz) else
  b ← mb; o ← fhd_intsf_s fhdsc;
  let padr := o +u mb_imgpadr b in
  if 0xffffffff <? padr then mret (0, retsz) else
  fsz ← fhd_freal_sz fhdsc;
  if 0xffffffff <? fsz then mret (0, retsz) else mret (padr, fsz).

Definition r_file_to_padr (f2adr : Z) (fnm : list Z) : LM Z :=
  if f2adr =? 0 then mret 0 else
  '(fpadr, sz) ← get_file_rpadrandsz fnm 0;
  if (fpadr =? 0) || (sz =? 0) then mret 0 else
  start ← LoaderAllocMemory sz;
  if (start =? 0) || negb (start =? f2adr) then mret 0 else
  b ← mb;
  if negb (chkadr_is_ok start sz b =? 0) then mret 0 else
  m2mcopy fpadr start (sint64 sz) ;; mret sz.

(** [*f2adr] is returned with the size. *)
Definition ReadFileToMemPhyAddr (f2adr : Z) (fnm : list Z) : LM (Z * Z) :=
  '(fpadr, sz) ← get_file_rpadrandsz fnm 0;
  if (fpadr =? 0) || (sz =? 0) then mret (0, f2adr) else
  start ← (if f2adr =? 0 then LoaderAllocMemory sz else free ← MemoryIsFree f2adr sz; mret (if (free : bool) then f2adr else 0));
  if start =? 0 then mret (0, f2adr) else
  b ← mb;
  if negb (chkadr_is_ok start sz b =? 0) then mret (0, f2adr) else
  m2mcopy fpadr start (sint64 sz) ;; mret (sz, start).

Definition get_filesz (filenm : list Z) : LM Z :=
  p ← get_fileinfo filenm; if p =? 0 then mret 0 else fhd_freal_sz p.

Definition ret_imgfilesz : LM Z :=
  let mrddadrs := MRDDSC_ADR in
  bad ← bad_mrddsc mrddadrs; die_if bad "no mrddsc" ;;
  e ← mdc_filbk_e mrddadrs; die_if (e <? 0x4000) "imgfile error" ;;
  mret ((LDRFILEADR +u e) -u LDRFILEADR).

(** The result: 0 for a wrong range, -1 without room, 1 when the image was moved, 2 when
    it need not be. *)
Definition move_krlimg (adr sz : Z) : LM Z :=
  if (sz <? 1) || (0xffffffff <=? adr +u sz) then mret 0 else
  b ← mb;
  let to_adr := P4K_ALIGN (adr +u sz) in
  let to_sz := sint64 (mb_imgsz b) in
  if negb (adrzone_is_ok (mb_imgpadr b) (mb_imgsz b) adr sz =? 0) then
    r ← chk_memsize (mb_e820padr b) (mb_e820nr b) to_adr (u64 to_sz);
    if r =? 0 then mret (-1) else
    m2mcopy (u32 (mb_imgpadr b)) to_adr to_sz ;;
    upd_mb (set_k (set_img to_adr (mb_imgsz b))) ;; mret 1
  else mret 2.

(** ** The parts of the set-up *)

(** "Cosmos.bin", "font.fnt", "logo.bmp" *)
Definition name_kernel : list Z := [67; 111; 115; 109; 111; 115; 46; 98; 105; 110].
Definition name_font : list Z := [102; 111; 110; 116; 46; 102; 110; 116].
Definition name_logo : list Z := [108; 111; 103; 111; 46; 98; 109; 112].

Definition init_krlfile : LM unit :=
  sz ← r_file_to_padr IMGKRNL_PHYADR name_kernel;
  die_if (sz =? 0) "r_file_to_padr error!" ;;
  upd_mb (set_k (set_krl IMGKRNL_PHYADR sz)) ;;
  upd_mb (set_kalld (IMGKRNL_PHYADR +u sz)).

Definition init_defutfont : LM unit :=
  '(sz, dfadr) ← ReadFileToMemPhyAddr 0 name_font;
  die_if (sz =? 0) "ReadFileToMemPhyAddr err" ;;
  upd_mb (set_k (set_font dfadr sz)) ;;
  upd_mb (set_kalld (dfadr +u sz)).

Definition init_krlinitstack : LM unit :=
  free ← MemoryIsFree (IKSTACK_PHYADR - IKSTACK_SIZE) IKSTACK_SIZE;
  if negb free then kerror "init_krlinitstack MemoryIsFree err" else
  r ← move_krlimg (IKSTACK_PHYADR - IKSTACK_SIZE) IKSTACK_SIZE;
  if r <? 1 then kerror "init_krlinitstack move_krlimg err" else
  upd_mb (set_k (set_stack IKSTACK_PHYADR IKSTACK_SIZE)).

Definition init_meme820 : LM unit :=
  b ← mb;
  let semp := mb_e820padr b in let senr := mb_e820nr b in let esz := u64 (senr * SZ_e820map_t) in
  demp ← LoaderAllocMemory esz;
  if demp =? 0 then kerror "init_meme820 err" else
  r ← move_krlimg demp esz;
  if r <? 1 then kerror "init_meme820 move_krlimg err" else
  m2mcopy semp demp (sint64 esz) ;;
  upd_mb (set_k (set_e820 demp senr esz)) ;;
  upd_mb (set_kalld (demp +u esz)).

(** ** Page tables *)

Definition zero_word (p i : Z) : LM unit := store (p + 8 * i) 8 0.
Fixpoint clear_loop (n : nat) (mi p pdpte : Z) : LM unit :=
  match n with O => mret tt | S n' => zero_word p mi ;; zero_word pdpte mi ;; clear_loop n' (mi + 1) p pdpte end.
(** The inner loop gives the address behind the memory mapped. *)
Fixpoint pde_loop (n : nat) (pdeii pde adr : Z) : LM Z :=
  match n with
  | O => mret adr
  | S n' => store (pde + 8 * pdeii) 8 (Z.lor (Z.lor (Z.lor (Z.lor 0 adr) KPDE_PS) KPDE_RW) KPDE_P) ;; pde_loop n' (pdeii + 1) pde (adr +u 0x200000)
  end.
Fixpoint pdpte_loop (n : nat) (pdei pdpte pde adr : Z) : LM unit :=
  match n with
  | O => mret tt
  | S n' =>
      store (pdpte + 8 * pdei) 8 (Z.lor (Z.lor pde KPDPTE_RW) KPDPTE_P) ;;
      adr ← pde_loop (Z.to_nat PGENTY_SIZE) 0 pde adr;
      pdpte_loop n' (pdei + 1) pdpte (pde +u 0x1000) adr
  end.

Definition init_bstartpages : LM unit :=
  let p := KINITPAGE_PHYADR in let pdpte := KINITPAGE_PHYADR + 0x1000 in let pde := KINITPAGE_PHYADR + 0x2000 in
  free ← MemoryIsFree KINITPAGE_PHYADR KINITPAGE_SZ;
  if negb free then kerror "init_bstartpages MemoryIsFree err" else
  r ← move_krlimg KINITPAGE_PHYADR KINITPAGE_SZ;
  if r <? 1 then kerror "init_bstartpages move_krlimg err" else
  clear_loop (Z.to_nat PGENTY_SIZE) 0 p pdpte ;;
  pdpte_loop 16 0 pdpte pde 0 ;;
  store (p + 8 * Z.land (Z.shiftr KRNL_MAP_VIRTADDRESS_START KPML4_SHIFT) 0x1ff) 8 (Z.lor (Z.lor pdpte KPML4_RW) KPML4_P) ;;
  store p 8 (Z.lor (Z.lor pdpte KPML4_RW) KPML4_P) ;;
  upd_mb (set_k (set_pages 0x400000000 KINITPAGE_PHYADR KINITPAGE_SZ)).

(** ** The screen *)

(** [gh_x] and [gh_y] are copied from 64-bit fields through [u32_t]. *)
Definition init_kinitfvram : LM unit :=
  g ← gets (fun s => mb_ghparm (l_mb s));
  let sz := if gh_mode g =? VBEMODE then u64 (gh_x g * gh_y g * (gh_onepixbits g / 8)) else KINITFRVM_SZ in
  start ← LoaderAllocMemory sz;
  if start =? 0 then mret tt else
  upd_mb (set_fvrm start sz) ;;
  memset start 0 sz.

Definition write_pixcolor (x y pix : Z) : LM unit :=
  g ← gets (fun s => mb_ghparm (l_mb s));
  if gh_onepixbits g =? 24 then
    let p24bas := u64 ((x + y * gh_x g) * 3) +u gh_framphyadr g in
    store p24bas 1 pix ;; store (p24bas + 1) 1 (Z.shiftr pix 8) ;; store (p24bas + 2) 1 (Z.shiftr pix 16)
  else store (gh_framphyadr g + 4 * (x +u (y * gh_x g))) 4 pix.

(** [ilinebc] is computed in signed 32 bits from [bi_w]. *)
Definition sint32 (x : Z) : Z := (x + 2 ^ 31) mod 2 ^ 32 - 2 ^ 31.
Definition bmp_pixel (bpixp k : Z) : LM Z :=
  b ← load (bpixp + 3 * k) 1; g ← load (bpixp + 3 * k + 1) 1; r ← load (bpixp + 3 * k + 2) 1;
  mret (Z.lor (Z.lor (Z.lor 0 (Z.shiftl r 16)) (Z.shiftl g 8)) b).
Definition bmp_print (bmfile : Z) : LM unit :=
  if bmfile =? 0 then mret tt else
  off ← load (bmfile + 10) 4; w ← load (bmfile + 14 + 4) 4;
  let ilinebc := sint32 (Z.shiftl (Z.shiftr (sint32 (sint32 w * 24 + 31)) 5) 2) in
  for_each (seqZ 0 511) (fun l =>
    for_each (seqZ 0 340) (fun k => pix ← bmp_pixel (bmfile +u off +u ilinebc * l) k; write_pixcolor (322 + k) (639 - l) pix)).

Definition logo : LM unit :=
  '(retadr, _) ← get_file_rpadrandsz name_logo 0;
  die_if (retadr =? 0) "logo getfilerpadrsz err" ;;
  bmp_print retadr.

Definition init_graph : LM unit :=
  match GetLoaderinfo with
  | None => mret tt
  | Some inf =>
      upd_mb (set_ghparm graph_t_init) ;;
      g ← gets (fun s => mb_ghparm (l_mb s));
      (if negb (gh_mode g =? BGAMODE) then upd_mb (set_ghparm (Graph VBEMODE (u32 (With inf)) (u32 (High inf)) (u32 (FrameBase inf)) 0x20 0x118)) else mret tt) ;;
      init_kinitfvram ;;
      logo
  end.

Definition init_bstartparm : LM unit :=
  match GetLoaderinfo with
  | None => mret tt
  | Some _ =>
      machbstart_t_init ;;
      init_chkcpu ;;
      init_mem ;;
      sz ← get_wt_imgfilesz; die_if (sz =? 0) "imgfilesz 0" ;;
      init_krlinitstack ;;
      init_krlfile ;;
      init_defutfont ;;
      init_meme820 ;;
      init_bstartpages ;;
      init_graph
  end.

(** ** The first stage of the image: inithead.c *)

(** "initldrkrl.bin" *)
Definition name_ldrkrl : list Z := [105; 110; 105; 116; 108; 100; 114; 107; 114; 108; 46; 98; 105; 110].

Definition find_file (fname : list Z) : LM Z :=
  let mrddadrs := MRDDSC_ADR in
  bad ← bad_mrddsc mrddadrs; die_if bad "no mrddsc in find_file()" ;;
  s ← mdc_fhdbk_s mrddadrs; n ← mdc_fhdnr mrddadrs;
  r ← file_loop (Z.to_nat n) 0 (s +u LDRFILEADR) fname;
  if r =? 0 then error "not find file" else mret r.

Definition write_ldrkrlfile : LM unit :=
  p ← find_file name_ldrkrl;
  die_if (p =? 0) "not file initldrkrl.bin" ;;
  sz ← fhd_freal_sz p;
  free ← HeadMemoryIsFree ILDRKRL_PHYADR sz;
  die_if (negb free) "not Memory space" ;;
  o ← fhd_intsf_s p;
  m2mcopy (o +u LDRFILEADR) ILDRKRL_PHYADR (sint64 sz) ;; mret tt.
End loader.
