(* ===== verification/LoaderMem.v ===== *)
(** * The loader: memory

    Bytes and words of memory under stores, the copying and clearing loops, and the page
    tables that the loader builds. *)

From S2P Require Import Prelude Bytes PhyMem Boot BootSpec BootPages Loader.
#[local] Open Scope Z_scope.

Implicit Types (m : memory) (s : ldr).

(** ** Bytes and words *)

Definition octets m : Prop := forall x, 0 <= m x < 256.
(** [m'] is [m] but for the range from [a] on of [n] bytes, where it is [f]. *)
Definition changed (a n : Z) (f : Z -> Z) m m' : Prop := forall x, m' x = if (a <=? x) && (x <? a + n) then f x else m x.
(** [m'] agrees with [m] outside of the range. *)
Definition kept (a n : Z) m m' : Prop := forall x, x < a \/ a + n <= x -> m' x = m x.

Lemma changed_kept a n f m m' : changed a n f m m' -> kept a n m m'.
Proof. intros H x Hx. rewrite H. by replace ((a <=? x) && _) with false by lia. Qed.
Lemma region_refl a n m : kept a n m m.
Proof. done. Qed.
Lemma region_trans a n m1 m2 m3 : kept a n m1 m2 -> kept a n m2 m3 -> kept a n m1 m3.
Proof. intros H1 H2 x Hx. by rewrite H2, H1. Qed.
Lemma kept_sub a n a' n' m m' : kept a' n' m m' -> a <= a' -> a' + n' <= a + n -> kept a n m m'.
Proof. intros H ? ? x Hx. apply H. lia. Qed.

Lemma bytes_agree m m' a n : (forall x, a <= x < a + n -> m' x = m x) -> bytes m' a n = bytes m a n.
Proof. intros H. unfold bytes. apply list_fmap_ext. intros i x Hx. apply lookup_seqZ in Hx. apply H. lia. Qed.
Lemma word_agree m m' a n : (forall x, a <= x < a + n -> m' x = m x) -> word m' a n = word m a n.
Proof. intros H. unfold word. by rewrite (bytes_agree m m'). Qed.
Lemma word_kept a n m m' b k : kept a n m m' -> b + k <= a \/ a + n <= b -> word m' b k = word m b k.
Proof. intros H Hd. apply word_agree. intros x Hx. apply H. lia. Qed.
Lemma bytes_kept a n m m' b k : kept a n m m' -> b + k <= a \/ a + n <= b -> bytes m' b k = bytes m b k.
Proof. intros H Hd. apply bytes_agree. intros x Hx. apply H. lia. Qed.
Lemma blen_bytes m a n : 0 <= n -> blen (bytes m a n) = n.
Proof. intros. unfold blen, bytes. rewrite length_fmap, length_seqZ. lia. Qed.

Lemma bytes_put m a bs : bytes (put a bs m) a (blen bs) = bs.
Proof.
  apply list_eq. intros i. unfold bytes. rewrite list_lookup_fmap. pose proof (blen_nonneg bs). destruct (bs !! i) as [c|] eqn:E.
  - pose proof (lookup_lt_Some _ _ _ E). rewrite lookup_seqZ_lt by (unfold blen; lia). cbn. unfold put.
    replace ((a <=? _) && _) with true by (unfold blen; lia). replace (Z.to_nat _) with i by lia. by rewrite (list_lookup_total_correct _ _ _ E).
  - apply lookup_ge_None in E. by rewrite lookup_seqZ_ge by (unfold blen; lia).
Qed.
Lemma blen_little n v : 0 <= n -> blen (Z_to_little_endian n 8 v) = n.
Proof. intros. unfold blen. rewrite length_Z_to_little_endian by done. lia. Qed.
Lemma word_put m a n v : 0 <= n -> word (put a (Z_to_little_endian n 8 v) m) a n = v mod 2 ^ (8 * n).
Proof.
  intros Hn. unfold word. rewrite <- (blen_little n v Hn) at 2. rewrite bytes_put. rewrite little_endian_to_Z_to_little_endian by lia.
  f_equal. f_equal. lia.
Qed.
Lemma put_kept a bs m : kept a (blen bs) m (put a bs m).
Proof. intros x Hx. unfold put. by replace ((a <=? x) && _) with false by lia. Qed.

Lemma octets_little n v : 0 <= n -> Forall (fun c => 0 <= c < 256) (Z_to_little_endian n 8 v).
Proof. intros Hn. apply (Z_to_little_endian_bound n 8); lia. Qed.
Lemma octets_put a bs m : Forall (fun c => 0 <= c < 256) bs -> octets m -> octets (put a bs m).
Proof.
  intros Hb Hm x. unfold put. destruct ((a <=? x) && _) eqn:E; [|apply Hm]. unfold blen in E.
  destruct (lookup_lt_is_Some_2 bs (Z.to_nat (x - a))) as [c Hc]; [lia|]. rewrite (list_lookup_total_correct _ _ _ Hc). by apply (Forall_lookup_1 _ _ _ _ Hb Hc).
Qed.
Lemma put_byte a v m x : put a (Z_to_little_endian 1 8 v) m x = if x =? a then v mod 256 else m x.
Proof.
  unfold put. change (Z_to_little_endian 1 8 v) with [Z.land v (Z.ones 8)]. rewrite Z.land_ones by lia. unfold blen. cbn [length].
  destruct (x =? a) eqn:E.
  - replace ((a <=? x) && _) with true by lia. by replace (Z.to_nat (x - a)) with 0%nat by lia.
  - by replace ((a <=? x) && _) with false by lia.
Qed.
Lemma word_byte m a : word m a 1 = m a.
Proof. unfold word, bytes. rewrite seqZ_cons by lia. rewrite seqZ_nil by lia. cbn [fmap list_fmap little_endian_to_Z]. by rewrite Z.shiftl_0_l, Z.lor_0_r. Qed.

(** ** Accesses outside of the block *)

Definition clear_of (a n : Z) : Prop := a + n <= MBSPADR \/ MBSPADR + SZ_machbstart_t <= a.
Lemma clear_of_sub a n b k : clear_of a n -> a <= b -> b + k <= a + n -> clear_of b k.
Proof. unfold clear_of. lia. Qed.
Lemma in_block_false a n : clear_of a n -> in_block a n = false.
Proof. unfold clear_of, in_block. lia. Qed.
Lemma phys_load_eq a n s : clear_of a n -> load a n s = Ret (word (l_mem s) a n, s).
Proof. intros H. unfold load. by rewrite in_block_false. Qed.
Lemma phys_store_eq a n v s : clear_of a n -> store a n v s = Ret (tt, with_mem (put a (Z_to_little_endian n 8 v) (l_mem s)) s).
Proof. intros H. unfold store. by rewrite in_block_false. Qed.

(** ** Copying *)

(** The loop upwards, with [i] bytes done of those of [m0]; nothing above has changed yet. *)
Lemma copy_up_run n i src d s m0 : octets m0 -> 0 <= i -> d < src -> clear_of src (i + Z.of_nat n) -> clear_of d (i + Z.of_nat n) ->
  changed d i (fun x => m0 (x - d + src)) m0 (l_mem s) ->
  exists m', copy_up n i src d s = Ret (tt, with_mem m' s) /\ changed d (i + Z.of_nat n) (fun x => m0 (x - d + src)) m0 m'.
Proof.
  intros Hm. revert i s. induction n as [|n IH]; intros i s Hi Hd Hs Hc Hch; cbn [copy_up].
  - exists (l_mem s). split; [by destruct s|]. by replace (i + Z.of_nat 0) with i by lia.
  - rewrite (bind_eq _ _ s (word (l_mem s) (src + i) 1) s) by (apply phys_load_eq; eapply clear_of_sub; [exact Hs|lia..]).
    rewrite word_byte. rewrite (bind_eq _ _ s tt _ (phys_store_eq (d + i) 1 _ s ltac:(eapply clear_of_sub; [exact Hc|lia..]))).
    destruct (IH (i + 1) (with_mem (put (d + i) (Z_to_little_endian 1 8 (l_mem s (src + i))) (l_mem s)) s)) as (m' & E & Hm').
    + lia.
    + done.
    + eapply clear_of_sub; [exact Hs|lia..].
    + eapply clear_of_sub; [exact Hc|lia..].
    + intros x. cbn [l_mem with_mem]. rewrite put_byte, !Hch. destruct (x =? d + i) eqn:E.
      * replace ((d <=? x) && _) with true by lia. replace ((d <=? src + i) && _) with false by lia. rewrite Z.mod_small by apply Hm. f_equal. lia.
      * destruct ((d <=? x) && (x <? d + i)) eqn:E2; [by replace ((d <=? x) && _) with true by lia|by replace ((d <=? x) && _) with false by lia].
    + exists m'. split; [exact E|]. by replace (i + Z.of_nat (S n)) with (i + 1 + Z.of_nat n) by lia.
Qed.

(** The loop downwards: the bytes above [n] are done. *)
Lemma copy_down_run n src d s m0 len : octets m0 -> src < d -> Z.of_nat n <= len -> clear_of src len -> clear_of d len ->
  changed (d + Z.of_nat n) (len - Z.of_nat n) (fun x => m0 (x - d + src)) m0 (l_mem s) ->
  exists m', copy_down n src d s = Ret (tt, with_mem m' s) /\ changed d len (fun x => m0 (x - d + src)) m0 m'.
Proof.
  intros Hm. revert s. induction n as [|n IH]; intros s Hd Hn Hs Hc Hch; cbn [copy_down].
  - exists (l_mem s). split; [by destruct s|]. by rewrite Z.add_0_r, Z.sub_0_r in Hch.
  - rewrite (bind_eq _ _ s (word (l_mem s) (src + Z.of_nat n) 1) s) by (apply phys_load_eq; eapply clear_of_sub; [exact Hs|lia..]).
    rewrite word_byte. rewrite (bind_eq _ _ s tt _ (phys_store_eq (d + Z.of_nat n) 1 _ s ltac:(eapply clear_of_sub; [exact Hc|lia..]))).
    destruct (IH (with_mem (put (d + Z.of_nat n) (Z_to_little_endian 1 8 (l_mem s (src + Z.of_nat n))) (l_mem s)) s)) as (m' & E & Hm'); [done|lia|done|done| |by exists m'].
    intros x. cbn [l_mem with_mem]. rewrite put_byte, !Hch. destruct (x =? d + Z.of_nat n) eqn:Ex.
    + replace ((d + Z.of_nat n <=? x) && _) with true by lia. replace ((_ <=? src + Z.of_nat n) && _) with false by lia. rewrite Z.mod_small by apply Hm. f_equal. lia.
    + destruct ((d + Z.of_nat (S n) <=? x) && _) eqn:E2; [by replace ((_ <=? x) && _) with true by lia|by replace ((_ <=? x) && _) with false by lia].
Qed.

Lemma m2mcopy_run src d len s : octets (l_mem s) -> src <> 0 -> d <> 0 -> 1 <= len -> clear_of src len -> clear_of d len ->
  exists m', m2mcopy src d len s = Ret (len, with_mem m' s) /\ changed d len (fun x => l_mem s (x - d + src)) (l_mem s) m'.
Proof.
  intros Hm H1 H2 Hl Hs Hc. unfold m2mcopy. replace (_ || _) with false by lia. destruct (src =? d) eqn:E.
  { exists (l_mem s). split; [by destruct s|]. intros x. destruct (_ && _); [|done]. f_equal. lia. }
  destruct (src <? d) eqn:E2.
  - destruct (copy_down_run (Z.to_nat len) src d s (l_mem s) len) as (m' & Er & Hm'); [done|lia|lia|done|done| |].
    + intros x. by replace ((_ <=? x) && _) with false by lia.
    + exists m'. by rewrite (bind_eq _ _ _ _ _ Er).
  - destruct (copy_up_run (Z.to_nat len) 0 src d s (l_mem s)) as (m' & Er & Hm'); [done|lia|lia|by rewrite Z2Nat.id by lia|by rewrite Z2Nat.id by lia| |].
    + intros x. by replace ((_ <=? x) && _) with false by lia.
    + exists m'. rewrite (bind_eq _ _ _ _ _ Er). split; [done|]. by rewrite Z2Nat.id in Hm' by lia.
Qed.

Lemma memset_loop_run n i a v s : clear_of a (i + Z.of_nat n) -> 0 <= i ->
  exists m', memset_loop n i a v s = Ret (tt, with_mem m' s) /\ changed (a + i) (Z.of_nat n) (fun _ => v mod 256) (l_mem s) m'.
Proof.
  revert i s. induction n as [|n IH]; intros i s Hc Hi; cbn [memset_loop].
  - exists (l_mem s). split; [by destruct s|]. intros x. by replace ((_ <=? x) && _) with false by lia.
  - rewrite (bind_eq _ _ s tt _ (phys_store_eq (a + i) 1 v s ltac:(eapply clear_of_sub; [exact Hc|lia..]))).
    destruct (IH (i + 1) (with_mem (put (a + i) (Z_to_little_endian 1 8 v) (l_mem s)) s)) as (m' & E & Hm'); [eapply clear_of_sub; [exact Hc|lia..]|lia|].
    exists m'. split; [exact E|]. intros x. rewrite Hm'. cbn [l_mem with_mem]. rewrite put_byte. destruct ((a + i <=? x) && (x <? a + i + Z.of_nat (S n))) eqn:E2.
    + destruct (x =? a + i) eqn:E3; [by case_match|]. by replace ((_ <=? x) && _) with true by lia.
    + replace ((_ <=? x) && _) with false by lia. by replace (x =? a + i) with false by lia.
Qed.
Lemma memset_run a v n s : 0 <= n -> clear_of a n -> exists m', memset a v n s = Ret (tt, with_mem m' s) /\ changed a n (fun _ => v mod 256) (l_mem s) m'.
Proof.
  intros Hn Hc. destruct (memset_loop_run (Z.to_nat n) 0 a v s) as (m' & E & H); [by rewrite Z2Nat.id by lia|done|]. exists m'. split; [done|].
  by rewrite Z.add_0_r, Z2Nat.id in H by lia.
Qed.

Lemma octets_changed a n f m m' : octets m -> (forall x, a <= x < a + n -> 0 <= f x < 256) -> changed a n f m m' -> octets m'.
Proof. intros Hm Hf H x. rewrite H. destruct (_ && _) eqn:E; [apply Hf; lia|apply Hm]. Qed.

(** The bytes copied *)
Lemma bytes_copied src d len m m' : changed d len (fun x => m (x - d + src)) m m' -> bytes m' d len = bytes m src len.
Proof.
  intros H. apply list_eq. intros i. unfold bytes. rewrite !list_lookup_fmap. destruct (decide (Z.of_nat i < len)).
  - rewrite !lookup_seqZ_lt by lia. cbn. f_equal. rewrite H. replace ((_ <=? _) && _) with true by lia. f_equal. lia.
  - by rewrite !lookup_seqZ_ge by lia.
Qed.

(** ** Page tables *)

Lemma lor_bound a b k : 0 <= k -> 0 <= a < 2 ^ k -> 0 <= b < 2 ^ k -> 0 <= Z.lor a b < 2 ^ k.
Proof.
  intros Hk Ha Hb. rewrite <- (Z.mod_small a (2 ^ k)), <- (Z.mod_small b (2 ^ k)), <- !Z.land_ones, <- Z.land_lor_distr_l, Z.land_ones by done.
  apply Z.mod_pos_bound. lia.
Qed.
Lemma pde_ent_word a : 0 <= a < 2 ^ 64 -> pde_ent a mod 2 ^ (8 * 8) = pde_ent a.
Proof. intros Ha. apply Z.mod_small. unfold pde_ent. change (8 * 8) with 64. repeat apply lor_bound; try done; cbv; split; discriminate || reflexivity. Qed.
Lemma tbl_ent_word a : 0 <= a < 2 ^ 64 -> tbl_ent a mod 2 ^ (8 * 8) = tbl_ent a.
Proof. intros Ha. apply Z.mod_small. unfold tbl_ent. change (8 * 8) with 64. repeat apply lor_bound; try done; cbv; split; discriminate || reflexivity. Qed.

(** A store of a word: what changes and what does not *)
Lemma store_word a v s : clear_of a 8 -> octets (l_mem s) -> exists m', store a 8 v s = Ret (tt, with_mem m' s) /\ kept a 8 (l_mem s) m' /\ word m' a 8 = v mod 2 ^ (8 * 8) /\ octets m'.
Proof.
  intros Hc Ho. eexists. split; [by apply phys_store_eq|]. split_and!; [|by apply word_put|by apply octets_put; [apply octets_little|]].
  pose proof (put_kept a (Z_to_little_endian 8 8 v) (l_mem s)) as H. by rewrite blen_little in H.
Qed.

Lemma clear_loop_run n i p q s : clear_of p 8192 -> q = p + 4096 -> 0 <= i -> i + Z.of_nat n <= 512 -> octets (l_mem s) ->
  exists m', clear_loop n i p q s = Ret (tt, with_mem m' s) /\ kept p 8192 (l_mem s) m' /\ octets m'.
Proof.
  intros Hc ->. revert i s. induction n as [|n IH]; intros i s Hi Hn Ho; cbn [clear_loop].
  { exists (l_mem s). split_and!; [by destruct s|apply region_refl|done]. }
  unfold zero_word. destruct (store_word (p + 8 * i) 0 s) as (m1 & E1 & K1 & _ & O1); [eapply clear_of_sub; [exact Hc|lia..]|done|].
  rewrite (bind_eq _ _ _ _ _ E1). destruct (store_word (p + 4096 + 8 * i) 0 (with_mem m1 s)) as (m2 & E2 & K2 & _ & O2); [eapply clear_of_sub; [exact Hc|lia..]|done|].
  rewrite (bind_eq _ _ _ _ _ E2). destruct (IH (i + 1) (with_mem m2 s)) as (m3 & E3 & K3 & O3); [lia|lia|done|]. exists m3. split_and!; [exact E3| |done].
  eapply region_trans; [eapply kept_sub; [exact K1|lia..]|]. eapply region_trans; [eapply kept_sub; [exact K2|lia..]|exact K3].
Qed.

Lemma pde_loop_run n i D a s : clear_of D 4096 -> 0 <= i -> i + Z.of_nat n <= 512 -> 0 <= a -> a + 2 ^ 21 * Z.of_nat n < 2 ^ 64 -> octets (l_mem s) ->
  exists m', pde_loop n i D a s = Ret (a + 2 ^ 21 * Z.of_nat n, with_mem m' s) /\ kept (D + 8 * i) (8 * Z.of_nat n) (l_mem s) m' /\ octets m' /\
    forall k, i <= k < i + Z.of_nat n -> word m' (D + 8 * k) 8 = pde_ent (a + 2 ^ 21 * (k - i)).
Proof.
  intros Hc. revert i a s. induction n as [|n IH]; intros i a s Hi Hn Ha Hb Ho; cbn [pde_loop].
  { exists (l_mem s). split_and!; [rewrite Z.mul_0_r, Z.add_0_r; by destruct s|apply region_refl|done|intros; lia]. }
  fold (pde_ent a). destruct (store_word (D + 8 * i) (pde_ent a) s) as (m1 & E1 & K1 & W1 & O1); [eapply clear_of_sub; [exact Hc|lia..]|done|].
  rewrite (bind_eq _ _ _ _ _ E1). rewrite u64_small by (rewrite u64max_val; lia).
  destruct (IH (i + 1) (a + 0x200000) (with_mem m1 s)) as (m2 & E2 & K2 & O2 & W2); [lia|lia|lia|lia|done|]. exists m2. split_and!.
  - rewrite E2. cbn. do 2 f_equal. lia.
  - eapply region_trans; [eapply kept_sub; [exact K1|lia..]|eapply kept_sub; [exact K2|lia..]].
  - done.
  - intros k Hk. destruct (decide (k = i)) as [->|].
    + rewrite (word_kept _ _ _ _ _ _ K2) by lia. cbn [l_mem with_mem]. rewrite W1, pde_ent_word by lia. f_equal. lia.
    + rewrite W2 by lia. f_equal. lia.
Qed.

(** The words of directory [d] of the tables at [T], and its entry in the table above *)
Definition dir_words (T d : Z) m : Prop :=
  word m (T + 4096 + 8 * d) 8 = tbl_ent (T + 8192 + 4096 * d) /\
  forall k, 0 <= k < 512 -> word m (T + 8192 + 4096 * d + 8 * k) 8 = pde_ent (2 ^ 30 * d + 2 ^ 21 * k).

Lemma pdpte_loop_run T n i s : clear_of T 73728 -> 0 <= T < 2 ^ 34 -> 0 <= i -> i + Z.of_nat n = 16 -> octets (l_mem s) -> (forall d, 0 <= d < i -> dir_words T d (l_mem s)) ->
  exists m', pdpte_loop n i (T + 4096) (T + 8192 + 4096 * i) (2 ^ 30 * i) s = Ret (tt, with_mem m' s) /\ kept (T + 4096) 69632 (l_mem s) m' /\ octets m' /\ forall d, 0 <= d < 16 -> dir_words T d m'.
Proof.
  intros Hc HT. revert i s. induction n as [|n IH]; intros i s Hi Hn Ho Hd; cbn [pdpte_loop].
  { exists (l_mem s). split_and!; [by destruct s|apply region_refl|done|intros; apply Hd; lia]. }
  fold (tbl_ent (T + 8192 + 4096 * i)). destruct (store_word (T + 4096 + 8 * i) (tbl_ent (T + 8192 + 4096 * i)) s) as (m1 & E1 & K1 & W1 & O1); [eapply clear_of_sub; [exact Hc|lia..]|done|].
  rewrite (bind_eq _ _ _ _ _ E1). change (Z.to_nat PGENTY_SIZE) with 512%nat.
  destruct (pde_loop_run 512 0 (T + 8192 + 4096 * i) (2 ^ 30 * i) (with_mem m1 s)) as (m2 & E2 & K2 & O2 & W2); [eapply clear_of_sub; [exact Hc|lia..]|lia|lia|lia|lia|done|].
  rewrite (bind_eq _ _ _ _ _ E2). rewrite u64_small by (rewrite u64max_val; lia). cbn [l_mem with_mem] in K2.
  destruct (IH (i + 1) (with_mem m2 s)) as (m3 & E3 & K3 & O3 & W3); [lia|lia|done| |].
  { cbn [l_mem with_mem]. intros d Hdi. destruct (decide (d = i)) as [->|].
    - split; [|intros k Hk; rewrite W2 by lia; f_equal; lia]. rewrite (word_kept _ _ _ _ _ _ K2) by lia. by rewrite W1, tbl_ent_word by lia.
    - destruct (Hd d ltac:(lia)) as [H1 H2]. split; [|intros k Hk]; rewrite (word_kept _ _ _ _ _ _ K2), (word_kept _ _ _ _ _ _ K1) by lia; [done|by apply H2]. }
  exists m3. split_and!; [|eapply region_trans; [eapply kept_sub; [exact K1|lia..]|]; eapply region_trans; [eapply kept_sub; [exact K2|lia..]|exact K3]|done|done].
  etransitivity; [|exact E3]. f_equal; lia.
Qed.

(** The tables as the words that the processor reads *)
Definition tables m (T : Z) : gmap Z Z := list_to_map ((fun i => (T + 8 * i, word m (T + 8 * i) 8)) <$> seqZ 0 9216).
Lemma tables_lookup m T i : 0 <= i < 9216 -> tables m T !! (T + 8 * i) = Some (word m (T + 8 * i) 8).
Proof.
  intros Hi. unfold tables. apply elem_of_list_to_map.
  - rewrite <- list_fmap_compose. apply NoDup_fmap_2; [intros x y; cbn; lia|apply NoDup_seqZ].
  - apply list_elem_of_fmap. exists i. split; [done|]. apply elem_of_seqZ. lia.
Qed.

Lemma tables_agree m m' T : (forall i, 0 <= i < 9216 -> word m' (T + 8 * i) 8 = word m (T + 8 * i) 8) -> tables m' T = tables m T.
Proof. intros H. unfold tables. apply (f_equal (fun l : list (Z * Z) => list_to_map (M := gmap Z Z) l)). apply list_fmap_ext. intros j i Hi. apply lookup_seqZ in Hi as [-> Hi]. f_equal. apply H. lia. Qed.

(** The processor's walk from the root of such tables: both windows map to the first 16 GiB. *)
Definition maps_low_memory m (T : Z) : Prop :=
  forall off, 0 <= off < 2 ^ 34 -> walk (tables m T) T off = Some off /\ walk (tables m T) T (KRNL_MAP_VIRTADDRESS_START + off) = Some off.

Lemma tables_map m T q : T = 4096 * q -> 0 <= T <= 2 ^ 34 - 73728 -> word m T 8 = tbl_ent (T + 4096) -> word m (T + 8 * 256) 8 = tbl_ent (T + 4096) ->
  (forall d, 0 <= d < 16 -> dir_words T d m) -> maps_low_memory m T.
Proof.
  intros Hq HT H0 H256 Hd off Ho. assert (Hdone : forall d, 0 <= d < 16 -> dir_done T d (tables m T)).
  { intros d Hr. destruct (Hd d Hr) as [H1 H2]. split; [|intros k Hk].
    - replace (T + 4096 + 8 * d) with (T + 8 * (512 + d)) in * by lia. rewrite tables_lookup by lia. by f_equal.
    - replace (T + 8192 + 4096 * d + 8 * k) with (T + 8 * (1024 + 512 * d + k)) by lia. rewrite tables_lookup by lia. f_equal. rewrite <- H2 by done. f_equal. lia. }
  split; [apply (walk_low _ T q)|apply (walk_window _ T q)]; [exact Hq|exact HT| |exact Hdone|exact Ho|exact Hq|exact HT| |exact Hdone|exact Ho].
  - rewrite (tables_lookup m T 0) by lia. by rewrite Z.mul_0_r, Z.add_0_r, H0.
  - rewrite (tables_lookup m T 256) by lia. by rewrite H256.
Qed.

Lemma maps_kept m m' a n T : kept a n m m' -> a + n <= T \/ T + 73728 <= a -> maps_low_memory m T -> maps_low_memory m' T.
Proof. intros Hk Hd H off Ho. rewrite (tables_agree m m' T); [by apply H|]. intros i Hi. apply (word_kept _ _ _ _ _ _ Hk). lia. Qed.
