(* ===== verification/LoaderSpec.v ===== *)
(** * The loader: theorems

    What the loader finds in the firmware's map and in the image, where it places the
    files, and what it leaves for the kernel.  The last part is the kernel's first step
    on it, which moves the image to the top of memory. *)

From S2P Require Import Prelude Bytes PhyMem DivMerOps Marea Boot BootSpec BootPages BootCorrect Loader LoaderMem.
#[local] Open Scope Z_scope.

Implicit Types (m : memory) (s : ldr).

(** ** Arithmetic *)

Lemma align_up x : 0 <= x < 2 ^ 63 -> P4K_ALIGN x = 4096 * ((x + 4095) / 4096).
Proof. intros H. change (P4K_ALIGN x) with (PAGE_ALIGN x). apply page_align_up; rewrite ?u64max_val; lia. Qed.
Lemma align_ge x : 0 <= x < 2 ^ 63 -> x <= P4K_ALIGN x < x + 4096.
Proof. intros H. rewrite align_up by done. pose proof (Z.div_mod (x + 4095) 4096 ltac:(lia)). pose proof (Z.mod_pos_bound (x + 4095) 4096 ltac:(lia)). lia. Qed.
Lemma u64_id x : 0 <= x < 2 ^ 64 -> u64 x = x.
Proof. intros. apply u64_small. by rewrite u64max_val. Qed.
Lemma u32_id x : 0 <= x < 2 ^ 32 -> u32 x = x.
Proof. intros. unfold u32. by apply Z.mod_small. Qed.
Lemma sint64_id x : 0 <= x < 2 ^ 63 -> sint64 x = x.
Proof. intros. unfold sint64. rewrite Z.mod_small; lia. Qed.
Lemma word_bound m a n : octets m -> 0 <= n -> 0 <= word m a n < 2 ^ (8 * n).
Proof.
  intros Hm Hn. pose proof (blen_bytes m a n Hn) as Hl. unfold blen in Hl. replace (8 * n) with (Z.of_nat (length (bytes m a n)) * 8) by lia.
  apply (little_endian_to_Z_bound 8); [lia|]. apply Forall_fmap, Forall_forall. intros x _. exact (Hm x).
Qed.

(** Two ranges, the second one strictly above or below the first *)
Lemma adrzone_ok a n b k : 0 <= a -> 0 <= n -> 0 <= b -> 0 <= k -> a + n < 2 ^ 64 -> b + k < 2 ^ 64 -> a + n < b \/ b + k < a -> adrzone_is_ok a n b k = 0.
Proof. intros. unfold adrzone_is_ok. rewrite !u64_id by lia. replace (_ && _) with false by lia. by replace (_ && _) with false by lia. Qed.

(** ** The memory map *)

Definition entry_at m (a i : Z) : e820map_t :=
  E820 (word m (a + SZ_e820map_t * i) 8) (word m (a + SZ_e820map_t * i + 8) 8) (word m (a + SZ_e820map_t * i + 16) 4).
Definition map_at m (a n : Z) : list e820map_t := entry_at m a <$> seqZ 0 n.

(** A usable entry holds the range from [start] to [e] and a byte more. *)
Definition fits (start e : Z) (x : e820map_t) : bool := (type x =? RAM_USABLE) && ((saddr x <=? start) && (e <? saddr x +u (lsize x -u 1))).

Lemma e820_at_eq a i s : clear_of (a + SZ_e820map_t * i) SZ_e820map_t -> e820_at a i s = Ret (entry_at (l_mem s) a i, s).
Proof.
  intros Hc. unfold e820_at, SZ_e820map_t in *. rewrite (bind_eq _ _ _ _ _ (phys_load_eq (a + 20 * i) 8 s ltac:(eapply clear_of_sub; [exact Hc|lia..]))).
  rewrite (bind_eq _ _ _ _ _ (phys_load_eq (a + 20 * i + 8) 8 s ltac:(eapply clear_of_sub; [exact Hc|lia..]))).
  by rewrite (bind_eq _ _ _ _ _ (phys_load_eq (a + 20 * i + 16) 4 s ltac:(eapply clear_of_sub; [exact Hc|lia..]))).
Qed.
Lemma map_at_cons m a i n : 0 < n -> entry_at m a <$> seqZ i n = entry_at m a i :: (entry_at m a <$> seqZ (i + 1) (n - 1)).
Proof. intros H. rewrite seqZ_cons by done. cbn. by rewrite <- Z.add_1_r, <- Z.sub_1_r. Qed.

Lemma free_loop_eq n i a start e s : 0 <= i -> clear_of a (SZ_e820map_t * (i + Z.of_nat n)) ->
  free_loop n i a start e s = Ret (existsb (fits start e) (entry_at (l_mem s) a <$> seqZ i (Z.of_nat n)), s).
Proof.
  unfold SZ_e820map_t. revert i. induction n as [|n IH]; intros i Hi Hc; cbn [free_loop]; [done|].
  rewrite (bind_eq _ _ _ _ _ (e820_at_eq a i s ltac:(unfold SZ_e820map_t; eapply clear_of_sub; [exact Hc|lia..]))). rewrite map_at_cons by lia. cbn [existsb].
  fold (fits start e (entry_at (l_mem s) a i)). destruct (fits _ _ _); [done|]. rewrite IH by (first [lia|eapply clear_of_sub; [exact Hc|lia..]]).
  cbn [orb]. by replace (Z.of_nat (S n) - 1) with (Z.of_nat n) by lia.
Qed.

Definition usable_size (tot : Z) (l : list e820map_t) : Z := foldl (fun t x => if type x =? RAM_USABLE then t +u lsize x else t) tot l.
Lemma memsize_loop_eq n i a tot s : 0 <= i -> clear_of a (SZ_e820map_t * (i + Z.of_nat n)) -> memsize_loop n i a tot s = Ret (usable_size tot (entry_at (l_mem s) a <$> seqZ i (Z.of_nat n)), s).
Proof.
  unfold SZ_e820map_t. revert i tot. induction n as [|n IH]; intros i tot Hi Hc; cbn [memsize_loop]; [done|].
  rewrite (bind_eq _ _ _ _ _ (e820_at_eq a i s ltac:(unfold SZ_e820map_t; eapply clear_of_sub; [exact Hc|lia..]))). rewrite map_at_cons by lia.
  rewrite IH by (first [lia|eapply clear_of_sub; [exact Hc|lia..]]). by replace (Z.of_nat (S n) - 1) with (Z.of_nat n) by lia.
Qed.

Lemma map_at_agree m m' a n : (forall x, a <= x < a + SZ_e820map_t * n -> m' x = m x) -> map_at m' a n = map_at m a n.
Proof.
  unfold SZ_e820map_t. intros H. unfold map_at. apply list_fmap_ext. intros j i Hi. apply lookup_seqZ in Hi as [-> Hi]. unfold entry_at, SZ_e820map_t.
  f_equal; apply word_agree; intros; apply H; lia.
Qed.
(** A copy of the map holds the same entries. *)
Lemma map_at_copied m m' a d n : changed d (SZ_e820map_t * n) (fun x => m (x - d + a)) m m' -> map_at m' d n = map_at m a n.
Proof.
  unfold SZ_e820map_t. intros H. unfold map_at. apply list_fmap_ext. intros j i Hi. apply lookup_seqZ in Hi as [-> Hi]. unfold entry_at, word, bytes, SZ_e820map_t.
  assert (Hw : forall o k, 0 <= o -> o + k <= 20 -> m' <$> seqZ (d + 20 * (0 + Z.of_nat j) + o) k = m <$> seqZ (a + 20 * (0 + Z.of_nat j) + o) k).
  { intros o k Ho Hk. apply list_eq. intros p. rewrite !list_lookup_fmap. destruct (decide (Z.of_nat p < k)).
    - rewrite !lookup_seqZ_lt by lia. cbn. f_equal. rewrite H. replace ((_ <=? _) && _) with true by lia. f_equal. lia.
    - by rewrite !lookup_seqZ_ge by lia. }
  pose proof (Hw 0 8 ltac:(lia) ltac:(lia)) as H0. rewrite !Z.add_0_r in H0. by rewrite H0, (Hw 8 8), (Hw 16 4) by lia.
Qed.

(** ** Files of an image *)

Definition hdr : Z := MRDDSC_ADR.
Definition fhdsc m (i : Z) : Z := LDRFILEADR + word m (hdr + 72) 8 + SZ_fhdsc_t * i.
Definition named m (i : Z) (fname : list Z) : Prop := bytes m (fhd_name (fhdsc m i)) (blen fname + 1) = fname ++ [0].

(** The header is that of an image of [isz] bytes with its table of descriptors inside. *)
Record image m (isz : Z) : Prop := {
  im_size : word m (hdr + 112) 8 = isz; im_least : 0x4000 <= isz; im_top : LDRFILEADR + isz < 2 ^ 32;
  im_end : word m (hdr + 160) 8 = MDC_ENDGIC; im_version : word m (hdr + 168) 8 = MDC_RVGIC;
  im_fhdnr : 2 <= word m (hdr + 144) 8; im_filnr : 2 <= word m (hdr + 152) 8;
  im_table : word m (hdr + 72) 8 + SZ_fhdsc_t * word m (hdr + 144) 8 <= isz }.
Arguments im_size {_ _} _.
Arguments im_least {_ _} _.
Arguments im_top {_ _} _.
Arguments im_end {_ _} _.
Arguments im_version {_ _} _.
Arguments im_fhdnr {_ _} _.
Arguments im_filnr {_ _} _.
Arguments im_table {_ _} _.

(** The first descriptor with the name gives offset and size of a file inside of the image. *)
Definition image_file m (isz : Z) (fname : list Z) (off sz : Z) : Prop :=
  exists i, 0 <= i < word m (hdr + 144) 8 /\ named m i fname /\ (forall j, 0 <= j < i -> ~ named m j fname) /\
    off = word m (fhdsc m i + 32) 8 /\ sz = word m (fhdsc m i + 48) 8 /\ 1 <= sz /\ off + sz <= isz.

Definition text (l : list Z) : Prop := Forall (fun c => 0 < c < 256) l.

Lemma schar_inj a b : 0 <= a < 256 -> 0 <= b < 256 -> schar a = schar b -> a = b.
Proof. unfold schar. repeat case_match; lia. Qed.

Lemma strcmpl_run fname b s : octets (l_mem s) -> text fname -> clear_of b (blen fname + 1) ->
  exists r, strcmpl fname b s = Ret (r, s) /\ (r = 0 <-> bytes (l_mem s) b (blen fname + 1) = fname ++ [0]).
Proof.
  intros Hm. revert b. induction fname as [|c l IH]; intros b Ht Hc; cbn [strcmpl].
  - rewrite (bind_eq _ _ _ _ _ (phys_load_eq b 1 s Hc)). rewrite word_byte. eexists. split; [done|]. change (blen [] + 1) with 1. unfold bytes.
    rewrite seqZ_cons, seqZ_nil by lia. cbn. pose proof (Hm b). split; [intros E; f_equal; apply schar_inj; [lia|lia|unfold schar at 2; cbn; lia]|intros [= ->]; done].
  - inversion Ht as [|? ? Hc1 Ht']; subst. rewrite blen_cons in *. pose proof (blen_nonneg l).
    rewrite (bind_eq _ _ _ _ _ (phys_load_eq b 1 s ltac:(eapply clear_of_sub; [exact Hc|lia..]))). rewrite word_byte. pose proof (Hm b) as Hb.
    unfold bytes. rewrite seqZ_cons by lia. cbn [fmap list_fmap app]. replace (Z.pred (1 + blen l + 1)) with (blen l + 1) by lia. rewrite <- Z.add_1_r.
    destruct (negb (l_mem s b =? 0) && (c =? l_mem s b)) eqn:E.
    + destruct (IH (b + 1) Ht' ltac:(eapply clear_of_sub; [exact Hc|lia..])) as (r & Er & Hr). exists r. split; [done|]. rewrite Hr. unfold bytes.
      replace (l_mem s b) with c by lia. split; [by intros ->|by intros [= ->]].
    + eexists. split; [done|]. split; [intros Ez; exfalso; assert (l_mem s b = c) by (apply schar_inj; lia); lia|intros [= E2 _]; lia].
Qed.

Lemma file_loop_run n i base fname s : octets (l_mem s) -> text fname -> blen fname < 192 -> 0 <= i -> base + SZ_fhdsc_t * (i + Z.of_nat n) <= 2 ^ 32 -> LDRFILEADR <= base ->
  (exists k, i <= k < i + Z.of_nat n /\ bytes (l_mem s) (fhd_name (base + SZ_fhdsc_t * k)) (blen fname + 1) = fname ++ [0] /\
     (forall j, i <= j < k -> bytes (l_mem s) (fhd_name (base + SZ_fhdsc_t * j)) (blen fname + 1) <> fname ++ [0]) /\
     file_loop n i base fname s = Ret (base + SZ_fhdsc_t * k, s)) \/
  ((forall j, i <= j < i + Z.of_nat n -> bytes (l_mem s) (fhd_name (base + SZ_fhdsc_t * j)) (blen fname + 1) <> fname ++ [0]) /\ file_loop n i base fname s = Ret (0, s)).
Proof.
  intros Hm Ht Hl. unfold SZ_fhdsc_t, fhd_name. revert i. induction n as [|n IH]; intros i Hi Htop Hlow; cbn [file_loop]; [right; split; [intros; lia|done]|].
  unfold SZ_fhdsc_t, fhd_name. destruct (strcmpl_run fname (base + 256 * i + 64) s Hm Ht) as (r & Er & Hr).
  { right. unfold MBSPADR, SZ_machbstart_t, LDRFILEADR, IMGFILE_PHYADR in *. lia. }
  rewrite (bind_eq _ _ _ _ _ Er). destruct (r =? 0) eqn:E0.
  - left. exists i. split_and!; [lia|lia|apply Hr; lia|intros; lia|done].
  - assert (Hne : bytes (l_mem s) (base + 256 * i + 64) (blen fname + 1) <> fname ++ [0]) by (intros H; apply Hr in H; lia).
    destruct (IH (i + 1) ltac:(lia) ltac:(lia) Hlow) as [(k & Hk & Hn & Hb & E)|[Hno E]]; [left|right].
    + exists k. split_and!; [lia|lia|done| |done]. intros j Hj. destruct (decide (j = i)) as [->|]; [done|]. apply Hb. lia.
    + split; [|done]. intros j Hj. destruct (decide (j = i)) as [->|]; [done|]. apply Hno. lia.
Qed.

Ltac hdr_clear := unfold clear_of, hdr, MRDDSC_ADR, LDRFILEADR, IMGFILE_PHYADR, MBSPADR, SZ_machbstart_t in *; lia.
Lemma hdr_load o n s : 0 <= o -> load (hdr + o) n s = Ret (word (l_mem s) (hdr + o) n, s).
Proof. intros Ho. apply phys_load_eq. hdr_clear. Qed.

Ltac hload o := rewrite (bind_eq _ _ _ _ _ (hdr_load o 8 _ ltac:(lia))).

Lemma bad_mrddsc_ok isz s : image (l_mem s) isz -> bad_mrddsc hdr s = Ret (false, s).
Proof.
  intros H. unfold bad_mrddsc, mdc_endgic, mdc_version, mdc_fhdnr, mdc_filnr. hload 160. hload 168. hload 144. hload 152.
  rewrite (im_end H), (im_version H). pose proof (im_fhdnr H). pose proof (im_filnr H). rewrite !Z.eqb_refl.
  do 2 replace (_ <? 2) with false by lia. done.
Qed.

Lemma get_wt_run isz s : image (l_mem s) isz -> get_wt_imgfilesz s = Ret (isz, with_mb (set_k (set_img LDRFILEADR isz) (l_mb s)) s).
Proof.
  intros H. unfold get_wt_imgfilesz. fold hdr. rewrite (bind_eq _ _ _ _ _ (bad_mrddsc_ok isz s H)). unfold mdc_filbk_e. hload 112.
  rewrite (im_size H). pose proof (im_least H). pose proof (im_top H). replace (_ || _) with false by lia.
  assert (HL : LDRFILEADR = 0x4000000) by done. rewrite (u64_id (LDRFILEADR + isz)), u64_id by lia. replace (LDRFILEADR + isz - LDRFILEADR) with isz by lia. done.
Qed.

Definition at_image s : Prop := mb_imgpadr (mb_k (l_mb s)) = LDRFILEADR.

Lemma get_file_run isz fname off sz s : octets (l_mem s) -> image (l_mem s) isz -> at_image s -> text fname -> blen fname < 192 -> image_file (l_mem s) isz fname off sz ->
  get_file_rpadrandsz fname 0 s = Ret ((LDRFILEADR + off, sz), s).
Proof.
  intros Hm H Ha Ht Hl (i & Hi & Hn & Hb & -> & -> & Hsz & Hin). pose proof (im_top H) as Htop. pose proof (im_table H) as Htab.
  assert (HL : LDRFILEADR = 0x4000000) by done. pose proof (word_bound (l_mem s) (hdr + 72) 8 Hm ltac:(lia)) as Hw. pose proof (word_bound (l_mem s) (fhdsc (l_mem s) i + 32) 8 Hm ltac:(lia)) as Ho.
  set (N := word (l_mem s) (hdr + 144) 8) in *. set (T := word (l_mem s) (hdr + 72) 8) in *. unfold SZ_fhdsc_t in Htab.
  unfold get_file_rpadrandsz. rewrite (bind_eq _ _ s (fhdsc (l_mem s) i) s).
  - unfold fhdsc at 1. replace (_ =? 0) with false by (unfold SZ_fhdsc_t; fold T; lia). rewrite (bind_eq _ _ s (mb_k (l_mb s)) s) by done. rewrite Ha.
    unfold fhd_intsf_s, fhd_freal_sz. rewrite (bind_eq _ _ _ _ _ (phys_load_eq (fhdsc (l_mem s) i + 32) 8 s ltac:(unfold fhdsc, SZ_fhdsc_t; fold T; hdr_clear))).
    rewrite u64_id by lia. replace (0xffffffff <? _) with false by lia.
    rewrite (bind_eq _ _ _ _ _ (phys_load_eq (fhdsc (l_mem s) i + 48) 8 s ltac:(unfold fhdsc, SZ_fhdsc_t; fold T; hdr_clear))). replace (0xffffffff <? _) with false by lia.
    unfold mret, M_ret. do 3 f_equal. lia.
  - unfold get_fileinfo. rewrite (bind_eq _ _ s (mb_k (l_mb s)) s) by done. rewrite Ha. rewrite (u64_id (LDRFILEADR + _)), u32_id by (unfold MLOSDSC_OFF; lia). fold hdr.
    change (LDRFILEADR + MLOSDSC_OFF) with hdr. rewrite (bind_eq _ _ _ _ _ (bad_mrddsc_ok isz s H)). cbn [die_if]. rewrite (bind_eq _ _ s tt s) by done.
    unfold mdc_fhdbk_s, mdc_fhdnr. hload 72. hload 144. fold T N. rewrite u64_id by lia.
    destruct (file_loop_run (Z.to_nat N) 0 (T + LDRFILEADR) fname s) as [(k & Hk & Hkn & Hkb & E)|[Hno E]]; [done|done|done|lia|unfold SZ_fhdsc_t; lia|lia| |].
    + rewrite (bind_eq _ _ _ _ _ E). replace (_ =? 0) with false by (unfold SZ_fhdsc_t; lia). unfold mret, M_ret. do 2 f_equal.
      assert (k = i) as ->; [|unfold fhdsc; fold T; lia]. unfold named, fhdsc in Hn, Hb. fold T in Hn, Hb. rewrite (Z.add_comm T) in Hkn, Hkb.
      destruct (Z.lt_trichotomy k i) as [Hlt|[?|Hgt]]; [|done|]; exfalso; [by apply (Hb k ltac:(lia))|by apply (Hkb i ltac:(lia))].
    + exfalso. apply (Hno i ltac:(lia)). unfold named, fhdsc in Hn. fold T in Hn. by rewrite (Z.add_comm T).
Qed.

(** ** A machine that the loader can start on *)

Definition cpu_ok (c : cpu_t) : Prop :=
  id_flag c = true /\ 0x80000001 <= (cpuid c 0x80000000).1.1.1 /\ Z.testbit (cpuid c 0x80000001).2 29 = true /\
  Z.testbit (cpuid c 1).2 25 = true /\ Z.testbit (cpuid c 1).2 26 = true /\ Z.testbit (cpuid c 1).1.2 0 = true /\ Z.testbit (cpuid c 1).1.2 19 = true.

(** Where the parts go: each behind the one before, on the next page *)
Definition font_adr (ksz : Z) : Z := P4K_ALIGN (IMGKRNL_PHYADR + ksz).
Definition map_adr (ksz fsz : Z) : Z := P4K_ALIGN (font_adr ksz + fsz).
Definition fvrm_adr (ksz fsz nr : Z) : Z := P4K_ALIGN (map_adr ksz fsz + SZ_e820map_t * nr).
Definition next_adr (ksz fsz nr vsz : Z) : Z := P4K_ALIGN (fvrm_adr ksz fsz nr + vsz).

Record machine (inf : LoaderInfo) m (isz koff ksz foff fsz loff lsz : Z) : Prop := {
  mc_octets : octets m;
  (** the firmware's map: where it is, and what it must offer *)
  mc_nr : 1 <= E820MapNR inf < 2 ^ 32; mc_map : 0 < E820Map inf; mc_map_clear : clear_of (E820Map inf) (SZ_e820map_t * E820MapNR inf);
  mc_map_tables : E820Map inf + SZ_e820map_t * E820MapNR inf <= KINITPAGE_PHYADR \/ KINITPAGE_PHYADR + KINITPAGE_SZ <= E820Map inf;
  mc_map_files : E820Map inf + SZ_e820map_t * E820MapNR inf < IMGKRNL_PHYADR \/ LDRFILEADR + isz < E820Map inf /\ E820Map inf + SZ_e820map_t * E820MapNR inf < 2 ^ 32;
  mc_main : existsb (fits MBSPADR 0xa000000) (map_at m (E820Map inf) (E820MapNR inf)) = true;
  mc_low : existsb (fits (IKSTACK_PHYADR - IKSTACK_SIZE) IKSTACK_PHYADR) (map_at m (E820Map inf) (E820MapNR inf)) = true;
  (** the image and its three files *)
  mc_image : image m isz;
  mc_kernel : image_file m isz name_kernel koff ksz; mc_font : image_file m isz name_font foff fsz; mc_logo : image_file m isz name_logo loff lsz;
  (** a screen of at least the logo's size, above the image and apart from the map *)
  mc_with : 662 <= With inf < 2 ^ 32; mc_high : 640 <= High inf < 2 ^ 32; mc_frame : LDRFILEADR + isz <= FrameBase inf;
  mc_frame_top : FrameBase inf + 4 * (With inf * High inf) <= 2 ^ 32;
  mc_frame_map : FrameBase inf + 4 * (With inf * High inf) <= E820Map inf \/ E820Map inf + SZ_e820map_t * E820MapNR inf <= FrameBase inf;
  (** the picture's rows are inside of its file *)
  mc_width : 0 <= word m (LDRFILEADR + loff + 18) 4 < 2 ^ 24;
  mc_rows : word m (LDRFILEADR + loff + 10) 4 + Z.shiftl (Z.shiftr (word m (LDRFILEADR + loff + 18) 4 * 24 + 31) 5) 2 * 510 + 3 * 340 <= lsz;
  (** everything fits below the image *)
  mc_room : next_adr ksz fsz (E820MapNR inf) (With inf * High inf * 4) <= LDRFILEADR
}.
Arguments mc_octets {_ _ _ _ _ _ _ _ _} _.
Arguments mc_nr {_ _ _ _ _ _ _ _ _} _.
Arguments mc_map {_ _ _ _ _ _ _ _ _} _.
Arguments mc_map_clear {_ _ _ _ _ _ _ _ _} _.
Arguments mc_map_tables {_ _ _ _ _ _ _ _ _} _.
Arguments mc_map_files {_ _ _ _ _ _ _ _ _} _.
Arguments mc_main {_ _ _ _ _ _ _ _ _} _.
Arguments mc_low {_ _ _ _ _ _ _ _ _} _.
Arguments mc_image {_ _ _ _ _ _ _ _ _} _.
Arguments mc_kernel {_ _ _ _ _ _ _ _ _} _.
Arguments mc_font {_ _ _ _ _ _ _ _ _} _.
Arguments mc_logo {_ _ _ _ _ _ _ _ _} _.
Arguments mc_with {_ _ _ _ _ _ _ _ _} _.
Arguments mc_high {_ _ _ _ _ _ _ _ _} _.
Arguments mc_frame {_ _ _ _ _ _ _ _ _} _.
Arguments mc_frame_top {_ _ _ _ _ _ _ _ _} _.
Arguments mc_frame_map {_ _ _ _ _ _ _ _ _} _.
Arguments mc_width {_ _ _ _ _ _ _ _ _} _.
Arguments mc_rows {_ _ _ _ _ _ _ _ _} _.
Arguments mc_room {_ _ _ _ _ _ _ _ _} _.

Section run.
Context (inf : LoaderInfo) (cpu : cpu_t) (m0 : memory) (isz koff ksz foff fsz loff lsz : Z).
Context (HM : machine inf m0 isz koff ksz foff fsz loff lsz) (HC : cpu_ok cpu).

Abbreviation A := (E820Map inf).
Abbreviation nr := (E820MapNR inf).
Abbreviation vsz := (With inf * High inf * 4).
Abbreviation fa := (font_adr ksz).
Abbreviation ea := (map_adr ksz fsz).
Abbreviation va := (fvrm_adr ksz fsz nr).
Abbreviation nx := (next_adr ksz fsz nr vsz).
Abbreviation T := KINITPAGE_PHYADR.

(** What the loader reads: the firmware's map and the image *)
Definition seen m : Prop := octets m /\ (forall x, A <= x < A + SZ_e820map_t * nr -> m x = m0 x) /\ (forall x, LDRFILEADR <= x < LDRFILEADR + isz -> m x = m0 x).

Lemma ksz_pos : 1 <= ksz <= isz.
Proof. destruct (mc_kernel HM) as (i & _ & _ & _ & -> & _ & H1 & H2). pose proof (word_bound m0 (fhdsc m0 i + 32) 8 (mc_octets HM) ltac:(lia)). lia. Qed.
Lemma fsz_pos : 1 <= fsz <= isz.
Proof. destruct (mc_font HM) as (i & _ & _ & _ & -> & _ & H1 & H2). pose proof (word_bound m0 (fhdsc m0 i + 32) 8 (mc_octets HM) ltac:(lia)). lia. Qed.

(** The places in order *)
Lemma places : IMGKRNL_PHYADR + ksz <= fa /\ fa + fsz <= ea /\ ea + SZ_e820map_t * nr <= va /\ va + vsz <= nx /\ nx <= LDRFILEADR /\ LDRFILEADR + isz < 2 ^ 32 /\ 0 < vsz /\ 0 < SZ_e820map_t * nr.
Proof.
  pose proof ksz_pos as Hk. pose proof fsz_pos as Hf. pose proof (mc_nr HM) as Hn. pose proof (mc_with HM) as Hw. pose proof (mc_high HM) as Hh.
  pose proof (im_top (mc_image HM)) as Ht. pose proof (mc_room HM) as Hr.
  assert (HL : LDRFILEADR = 0x4000000) by done. assert (HI : IMGKRNL_PHYADR = 0x2000000) by done. unfold SZ_e820map_t in *.
  pose proof (mc_frame HM) as Hfr. pose proof (mc_frame_top HM) as Hft. assert (Hv : 0 < vsz < 2 ^ 62) by nia.
  assert (H1 : IMGKRNL_PHYADR + ksz <= fa < IMGKRNL_PHYADR + ksz + 4096) by (apply align_ge; lia).
  assert (H2 : fa + fsz <= ea < fa + fsz + 4096) by (apply align_ge; lia). assert (H3 : ea + 20 * nr <= va < ea + 20 * nr + 4096) by (apply align_ge; unfold SZ_e820map_t; lia).
  assert (H4 : va + vsz <= nx) by (apply align_ge; lia). lia.
Qed.

(** There is a gap behind the kernel unless it fills its last page. *)
Lemma font_gap : if decide (ksz mod 4096 = 0) then fa = IMGKRNL_PHYADR + ksz else IMGKRNL_PHYADR + ksz < fa.
Proof.
  pose proof ksz_pos as Hk. pose proof places as HP. assert (HI : IMGKRNL_PHYADR = 0x2000000) by done. assert (HL : LDRFILEADR = 0x4000000) by done. pose proof (Z.div_mod ksz 4096 ltac:(lia)).
  pose proof (Z.mod_pos_bound ksz 4096 ltac:(lia)). unfold font_adr in *. rewrite align_up in * by lia. rewrite HI in *. destruct (decide _) as [E|E].
  - rewrite <- (Z.div_unique (0x2000000 + ksz + 4095) 4096 (0x2000 + ksz / 4096) 4095) by lia. lia.
  - rewrite <- (Z.div_unique (0x2000000 + ksz + 4095) 4096 (0x2000 + ksz / 4096 + 1) (ksz mod 4096 - 1)) by lia. lia.
Qed.

Ltac consts := change LDRFILEADR with 0x4000000 in *; change IMGKRNL_PHYADR with 0x2000000 in *; change KINITPAGE_PHYADR with 0x1000000 in *; change KINITPAGE_SZ with 0x12000 in *;
  change MBSPADR with 0x100000 in *; change IKSTACK_PHYADR with 0x8fff0 in *; change IKSTACK_SIZE with 0x1000 in *; change SZ_machbstart_t with 1291 in *; change SZ_e820map_t with 20 in *; change SZ_fhdsc_t with 256 in *.

(** ** Reading *)

Lemma seen_image m : seen m -> image m isz.
Proof.
  intros (_ & _ & Hs). pose proof (mc_image HM) as H. pose proof (im_least H). assert (Hw : forall o, 0 <= o <= 168 -> word m (hdr + o) 8 = word m0 (hdr + o) 8).
  { intros o Ho. apply word_agree. intros x Hx. apply Hs. unfold hdr, MRDDSC_ADR in Hx. lia. }
  destruct H. split; rewrite ?Hw by lia; assumption.
Qed.

Lemma seen_file m fname off sz : seen m -> blen fname < 192 -> image_file m0 isz fname off sz -> image_file m isz fname off sz.
Proof.
  intros (Ho & _ & Hs) Hl (i & Hi & Hn & Hb & -> & -> & H1 & H2). pose proof (mc_image HM) as H. pose proof (im_least H). pose proof (im_table H) as Ht. pose proof (blen_nonneg fname).
  pose proof (word_bound m0 (hdr + 72) 8 (mc_octets HM) ltac:(lia)) as Hw72.
  assert (Hw : forall o, 0 <= o <= 168 -> word m (hdr + o) 8 = word m0 (hdr + o) 8).
  { intros o Hr. apply word_agree. intros x Hx. apply Hs. unfold hdr, MRDDSC_ADR in Hx. lia. }
  assert (Hd : forall j, fhdsc m j = fhdsc m0 j) by (intros j; unfold fhdsc; by rewrite Hw by lia).
  assert (Hin : forall j o k, 0 <= j < word m0 (hdr + 144) 8 -> 0 <= o -> o + k <= 256 -> forall x, fhdsc m0 j + o <= x < fhdsc m0 j + o + k -> m x = m0 x).
  { intros j o k Hj Hr Hk x Hx. apply Hs. unfold fhdsc, SZ_fhdsc_t in *. lia. }
  assert (Hnm : forall j, 0 <= j < word m0 (hdr + 144) 8 -> named m j fname <-> named m0 j fname).
  { intros j Hj. unfold named, fhd_name. rewrite Hd. by rewrite (bytes_agree m0 m) by (apply (Hin j); lia). }
  exists i. rewrite Hw, Hd by lia. rewrite !(word_agree m0 m) by (apply (Hin i); lia). split_and!; try done; [lia|lia|by apply Hnm|]. intros j Hj. rewrite Hnm by lia. by apply Hb.
Qed.

Lemma MemoryIsFree_eq start size s : seen (l_mem s) -> MemoryIsFree (Some inf) start size s = Ret (existsb (fits start (start +u size)) (map_at m0 A nr), s).
Proof.
  intros (_ & Hs & _). pose proof (mc_nr HM). unfold MemoryIsFree. cbn. rewrite free_loop_eq by (first [lia|rewrite Z2Nat.id by lia; apply (mc_map_clear HM)]).
  rewrite Z2Nat.id by lia. fold (map_at (l_mem s) A nr). by rewrite (map_at_agree m0 (l_mem s)).
Qed.

Lemma fits_sub a e b f x : fits a e x = true -> a <= b -> f <= e -> fits b f x = true.
Proof. unfold fits. lia. Qed.
Lemma existsb_sub a e b f l : existsb (fits a e) l = true -> a <= b -> f <= e -> existsb (fits b f) l = true.
Proof. rewrite !existsb_exists. intros (x & Hx & Hf) ? ?. exists x. split; [done|]. by eapply fits_sub. Qed.

Lemma free_main start size s : seen (l_mem s) -> MBSPADR <= start -> 0 <= size -> start + size <= 0xa000000 -> MemoryIsFree (Some inf) start size s = Ret (true, s).
Proof.
  intros Hs H1 H2 H3. rewrite MemoryIsFree_eq by done. rewrite u64_id by (unfold MBSPADR in *; lia). by rewrite (existsb_sub _ _ _ _ _ (mc_main HM) H1 H3).
Qed.

Definition st m (b : machb) : ldr := Ldr m b MBSPADR.

Lemma alloc_run m b size : let start := mb_nextwtpadr (mb_k b) in seen m -> 1 <= size -> IMGKRNL_PHYADR <= start -> start + size <= 0xa000000 ->
  LoaderAllocMemory (Some inf) size (st m b) = Ret (start, st m (set_k (set_nextwt (P4K_ALIGN (start + size))) b)).
Proof.
  intros start Hs H1 H2 H3. unfold LoaderAllocMemory. rewrite (bind_eq _ _ (st m b) MBSPADR (st m b)) by done. replace (_ || _) with false by (unfold MBSPADR; lia).
  rewrite (bind_eq _ _ (st m b) (mb_k b) (st m b)) by done. fold start. rewrite (bind_eq _ _ (st m b) true (st m b)) by (apply free_main; consts; [done|lia..]).
  cbn [negb]. consts. rewrite (u64_id (start + size)) by lia. done.
Qed.

Lemma move_not m b adr sz : mb_imgpadr (mb_k b) = LDRFILEADR -> mb_imgsz (mb_k b) = isz -> 0 <= adr -> 1 <= sz -> adr + sz < LDRFILEADR -> move_krlimg adr sz (st m b) = Ret (2, st m b).
Proof.
  intros H1 H2 H3 H4 H5. pose proof places as HP. pose proof (im_least (mc_image HM)). consts. unfold move_krlimg. rewrite u64_id by lia. replace (_ || _) with false by lia. rewrite (bind_eq _ _ (st m b) (mb_k b) (st m b)) by done.
  rewrite H1, H2. rewrite adrzone_ok by lia. done.
Qed.

(** The block while the parts are placed *)
Definition blk (krl krlsz nxt fnt fntsz e8 mapsz pml4 sub : Z) : machbstart_t :=
  Machbstart IKSTACK_PHYADR IKSTACK_SIZE LDRFILEADR isz krl krlsz nxt fnt fntsz e8 nr (nr * SZ_e820map_t) 0 0 0 0 0 0 0 0 0 mapsz pml4 sub.

Lemma chkadr_ok krl krlsz nxt fnt fntsz start sz : IMGKRNL_PHYADR <= start -> 1 <= sz -> start + sz < LDRFILEADR -> 0 <= krl -> 0 <= krlsz -> krl + krlsz < start -> 0 <= fnt -> 0 <= fntsz -> fnt + fntsz < start ->
  chkadr_is_ok start sz (blk krl krlsz nxt fnt fntsz A 0 0 0) = 0.
Proof.
  intros. pose proof places as HP. pose proof (im_least (mc_image HM)). pose proof (mc_nr HM). pose proof (mc_map HM). pose proof (mc_map_files HM). unfold chkadr_is_ok, blk.
  cbn [mb_krlinitstack mb_krlitstacksz mb_imgpadr mb_imgsz mb_krlimgpadr mb_krlsz mb_bfontpadr mb_bfontsz mb_e820padr mb_e820sz mb_memznpadr mb_memznsz mb_memmappadr mb_memmapsz]. consts.
  rewrite (u64_id (0x8fff0 - 0x1000)) by lia. rewrite !adrzone_ok by lia. done.
Qed.

Lemma seen_changed m m' a n f : seen m -> changed a n f m m' -> (forall x, a <= x < a + n -> 0 <= f x < 256) -> A + SZ_e820map_t * nr <= a \/ a + n <= A -> LDRFILEADR + isz <= a \/ a + n <= LDRFILEADR -> seen m'.
Proof.
  intros (Ho & H1 & H2) Hc Hf Ha Hi. split_and!; [by eapply octets_changed|intros x Hx; rewrite (changed_kept _ _ _ _ _ Hc) by lia; by apply H1|].
  intros x Hx. rewrite (changed_kept _ _ _ _ _ Hc) by lia. by apply H2.
Qed.

(** ** The stages *)

Definition blockof (k : machbstart_t) (kalld fv fvsz msz : Z) (g : graph_t) : machb := Machb k MBS_MIGC kalld fv fvsz 0x40 msz g.

Lemma init_chkcpu_run m b : init_chkcpu cpu (st m b) = Ret (tt, st m (set_cpumode 0x40 b)).
Proof.
  destruct HC as (H1 & H2 & H3 & H4 & H5 & H6 & H7). unfold init_chkcpu, chk_cpuid, chk_cpu_longmode, chk_cpu_sse, chk_cpu_sse2, chk_cpu_sse3, chk_cpu_sse4, bt. rewrite H1.
  destruct (cpuid cpu 0x80000000) as [[[e1 b1] c1] d1]. destruct (cpuid cpu 0x80000001) as [[[e2 b2] c2] d2]. destruct (cpuid cpu 1) as [[[e3 b3] c3] d3]. cbn in *.
  replace (e1 <? _) with false by lia. by rewrite H3, H4, H5, H6, H7.
Qed.

Lemma seen_m0 : seen m0.
Proof. split; [apply (mc_octets HM)|done]. Qed.

(** Up to the stack: nothing in memory changes. *)
Definition head : M ldr unit :=
  machbstart_t_init (Some inf) ;; init_chkcpu cpu ;; init_mem (Some inf) ;; sz ← get_wt_imgfilesz; die_if (sz =? 0) "imgfilesz 0" ;; init_krlinitstack (Some inf).

Lemma head_run s : l_mem s = m0 -> head s = Ret (tt, st m0 (blockof (blk 0 0 IMGKRNL_PHYADR 0 0 A 0 0 0) 0 0 0 (usable_size 0 (map_at m0 A nr)) graph_t_init)).
Proof.
  intros E0. pose proof places as HP. pose proof (mc_nr HM) as Hn. pose proof (mc_map HM) as Ha. pose proof seen_m0 as Hs. assert (Hs' : seen (l_mem s)) by (by rewrite E0).
  unfold head. rewrite (bind_eq _ _ s tt (st m0 (Machb (set_nextwt IMGKRNL_PHYADR machbstart_zero) MBS_MIGC 0 0 0 0 0 graph_t_init))).
  2: { unfold machbstart_t_init. rewrite (bind_eq _ _ s true s) by (apply free_main; consts; [done|lia..]). cbn [negb].
       rewrite (bind_eq _ _ s true s) by (apply free_main; consts; [done|lia..]). cbn [negb]. unfold modify, st. by rewrite E0. }
  rewrite (bind_eq _ _ _ _ _ (init_chkcpu_run m0 _)). set (b1 := set_cpumode _ _).
  pose proof (memsize_loop_eq (Z.to_nat nr) 0 A 0 (st m0 (set_k (set_e820 A nr (nr * SZ_e820map_t)) b1)) ltac:(lia)) as Et. rewrite Z2Nat.id in Et by lia. specialize (Et (mc_map_clear HM)).
  cbn [st l_mem] in Et. fold (map_at m0 A nr) in Et. set (t := usable_size 0 (map_at m0 A nr)) in *. rewrite (bind_eq _ _ _ tt (st m0 (set_memsz t (set_k (set_e820 A nr (nr * SZ_e820map_t)) b1)))).
  2: { unfold init_mem. cbn [GetLoaderinfo]. rewrite u32_id by lia. unfold die_if. replace (nr =? 0) with false by lia. rewrite (bind_eq _ _ (st m0 b1) tt (st m0 b1)) by done.
       rewrite (bind_eq _ _ _ tt (st m0 (set_k (set_e820 A nr (nr * SZ_e820map_t)) b1))) by done. unfold get_memsize. replace (_ || _) with false by lia. by rewrite (bind_eq _ _ _ _ _ Et). }
  set (b2 := set_memsz _ _). rewrite (bind_eq _ _ _ _ _ (get_wt_run isz (st m0 b2) (mc_image HM))). pose proof (im_least (mc_image HM)). unfold die_if. replace (isz =? 0) with false by lia.
  rewrite (bind_eq _ _ _ tt _ eq_refl). set (b3 := set_k (set_img LDRFILEADR isz) b2). change (with_mb _ _) with (st m0 b3).
  unfold init_krlinitstack. rewrite (bind_eq _ _ (st m0 b3) true (st m0 b3)).
  2: { rewrite MemoryIsFree_eq by done. rewrite u64_id by (consts; lia). replace (IKSTACK_PHYADR - IKSTACK_SIZE + IKSTACK_SIZE) with IKSTACK_PHYADR by lia. by rewrite (mc_low HM). }
  cbn [negb]. rewrite (bind_eq _ _ (st m0 b3) 2 (st m0 b3)) by (apply move_not; [done|done|consts; lia..]). done.
Qed.

(** What is copied is bytes. *)
Lemma copied_octets m a d : octets m -> forall x, 0 <= m (x - d + a) < 256.
Proof. intros H x. apply H. Qed.

Lemma file_bound fname off sz m : image_file m isz fname off sz -> octets m -> 0 <= off /\ 1 <= sz /\ off + sz <= isz.
Proof. intros (i & _ & _ & _ & -> & _ & H1 & H2) Hm. pose proof (word_bound m (fhdsc m i + 32) 8 Hm ltac:(lia)). lia. Qed.

Lemma text_kernel : text name_kernel.
Proof. repeat constructor; lia. Qed.
Lemma text_font : text name_font.
Proof. repeat constructor; lia. Qed.
Lemma text_logo : text name_logo.
Proof. repeat constructor; lia. Qed.

(** A file of the image is copied to a place below the image. *)
Lemma file_copied m b fname off sz start : seen m -> image_file m0 isz fname off sz -> blen fname < 192 -> 0x1000000 <= start -> start + sz < LDRFILEADR ->
  exists m', m2mcopy (LDRFILEADR + off) start (sint64 sz) (st m b) = Ret (sz, st m' b) /\ changed start sz (fun x => m (x - start + (LDRFILEADR + off))) m m'.
Proof.
  intros Hs Hf Hl H1 H2. destruct (file_bound _ _ _ _ Hf (mc_octets HM)) as (Ho & Hz & Hin). pose proof places. rewrite sint64_id by (consts; lia).
  destruct (m2mcopy_run (LDRFILEADR + off) start sz (st m b)) as (m' & E & Hc); [apply Hs|consts; lia|consts; lia|done|right; consts; lia|right; consts; lia|]. by exists m'.
Qed.

Lemma seen_copied m m' a n f : seen m -> changed a n f m m' -> (forall x, a <= x < a + n -> 0 <= f x < 256) -> IMGKRNL_PHYADR <= a -> a + n < LDRFILEADR -> seen m'.
Proof. intros Hs Hc Hf H1 H2. pose proof (mc_map_files HM). pose proof (im_least (mc_image HM)). eapply seen_changed; [done|done|done|consts; lia|lia]. Qed.

Lemma kernel_run msz g : exists m1, init_krlfile (Some inf) (st m0 (blockof (blk 0 0 IMGKRNL_PHYADR 0 0 A 0 0 0) 0 0 0 msz g)) =
    Ret (tt, st m1 (blockof (blk IMGKRNL_PHYADR ksz fa 0 0 A 0 0 0) (IMGKRNL_PHYADR + ksz) 0 0 msz g)) /\
  changed IMGKRNL_PHYADR ksz (fun x => m0 (x - IMGKRNL_PHYADR + (LDRFILEADR + koff))) m0 m1 /\ seen m1.
Proof.
  pose proof places as HP. pose proof ksz_pos as Hk. pose proof fsz_pos as Hfz. pose proof seen_m0 as Hs. destruct (file_bound _ _ _ _ (mc_kernel HM) (mc_octets HM)) as (Ho & _ & Hin).
  set (b := blockof _ _ _ _ _ _). destruct (file_copied m0 (set_k (set_nextwt fa) b) name_kernel koff ksz IMGKRNL_PHYADR Hs (mc_kernel HM)) as (m1 & Ec & Hc); [done|done|consts; lia|].
  exists m1. split_and!; [|done|eapply seen_copied; [exact Hs|exact Hc|intros; apply (mc_octets HM)|lia|consts; lia]].
  unfold init_krlfile. rewrite (bind_eq _ _ _ ksz (st m1 (set_k (set_nextwt fa) b))).
  { unfold die_if. replace (ksz =? 0) with false by lia. rewrite (bind_eq _ _ _ tt _ eq_refl). unfold upd_mb, modify, mbind, M_bind. rewrite u64_id by (consts; lia). done. }
  unfold r_file_to_padr. replace (_ =? 0) with false by done. rewrite (bind_eq _ _ _ _ _ (get_file_run isz name_kernel koff ksz (st m0 b) (mc_octets HM) (mc_image HM) eq_refl text_kernel ltac:(done) (mc_kernel HM))).
  cbn [fst snd]. replace (_ || _) with false by (consts; lia). rewrite (bind_eq _ _ _ _ _ (alloc_run m0 b ksz Hs ltac:(lia) ltac:(cbn; lia) ltac:(cbn; consts; lia))).
  change (mb_nextwtpadr (mb_k b)) with IMGKRNL_PHYADR. replace (_ || _) with false by done. fold fa.
  rewrite (bind_eq _ _ (st m0 (set_k (set_nextwt fa) b)) (mb_k (set_k (set_nextwt fa) b)) (st m0 (set_k (set_nextwt fa) b))) by done.
  change (mb_k (set_k (set_nextwt fa) b)) with (blk 0 0 fa 0 0 A 0 0 0). rewrite chkadr_ok by (consts; lia). cbn [negb Z.eqb]. by rewrite (bind_eq _ _ _ _ _ Ec).
Qed.

Ltac block_eq := unfold with_mem, with_mb, st, set_kalld, set_fvrm, set_ghparm, set_k, set_font, set_e820, set_pages, set_nextwt, kb, blockof, blk; cbn; reflexivity.

Lemma font_run m msz kal g : ksz mod 4096 <> 0 -> seen m -> exists m', init_defutfont (Some inf) (st m (blockof (blk IMGKRNL_PHYADR ksz fa 0 0 A 0 0 0) kal 0 0 msz g)) =
    Ret (tt, st m' (blockof (blk IMGKRNL_PHYADR ksz ea fa fsz A 0 0 0) (fa + fsz) 0 0 msz g)) /\
  changed fa fsz (fun x => m (x - fa + (LDRFILEADR + foff))) m m' /\ seen m'.
Proof.
  intros Hend Hs. pose proof font_gap as Hgap. rewrite decide_False in Hgap by done. pose proof places as HP. pose proof ksz_pos as Hk. pose proof fsz_pos as Hfz. destruct (file_bound _ _ _ _ (mc_font HM) (mc_octets HM)) as (Ho & _ & Hin).
  set (b := blockof _ _ _ _ _ _). destruct (file_copied m (set_k (set_nextwt ea) b) name_font foff fsz fa Hs (mc_font HM)) as (m' & Ec & Hc); [done|consts; lia|consts; lia|].
  exists m'. split_and!; [|done|eapply seen_copied; [exact Hs|exact Hc|intros; apply Hs|consts; lia|consts; lia]].
  unfold init_defutfont. rewrite (bind_eq _ _ _ (fsz, fa) (st m' (set_k (set_nextwt ea) b))).
  { unfold die_if. replace (fsz =? 0) with false by lia. rewrite (bind_eq _ _ _ tt _ eq_refl). unfold upd_mb, modify, mbind, M_bind. rewrite u64_id by (consts; lia). unfold b. block_eq. }
  unfold ReadFileToMemPhyAddr. rewrite (bind_eq _ _ _ _ _ (get_file_run isz name_font foff fsz (st m b) (proj1 Hs) (seen_image m Hs) eq_refl text_font ltac:(done) (seen_file m name_font foff fsz Hs ltac:(done) (mc_font HM)))).
  cbn [fst snd]. replace (_ || _) with false by (consts; lia). cbn [Z.eqb]. rewrite (bind_eq _ _ _ _ _ (alloc_run m b fsz Hs ltac:(lia) ltac:(cbn; consts; lia) ltac:(cbn; consts; lia))).
  change (mb_nextwtpadr (mb_k b)) with fa. fold ea. replace (fa =? 0) with false by (consts; lia).
  rewrite (bind_eq _ _ (st m (set_k (set_nextwt ea) b)) (mb_k (set_k (set_nextwt ea) b)) (st m (set_k (set_nextwt ea) b))) by done.
  change (mb_k (set_k (set_nextwt ea) b)) with (blk IMGKRNL_PHYADR ksz ea 0 0 A 0 0 0). rewrite chkadr_ok by (consts; lia). cbn [negb Z.eqb]. by rewrite (bind_eq _ _ _ _ _ Ec).
Qed.

Lemma map_run m msz kal g : seen m -> exists m', init_meme820 (Some inf) (st m (blockof (blk IMGKRNL_PHYADR ksz ea fa fsz A 0 0 0) kal 0 0 msz g)) =
    Ret (tt, st m' (blockof (blk IMGKRNL_PHYADR ksz va fa fsz ea 0 0 0) (ea + SZ_e820map_t * nr) 0 0 msz g)) /\
  changed ea (SZ_e820map_t * nr) (fun x => m (x - ea + A)) m m' /\ seen m'.
Proof.
  intros Hs. pose proof places as HP. pose proof ksz_pos as Hk. pose proof fsz_pos as Hfz. pose proof (mc_nr HM) as Hn. pose proof (mc_map HM) as Ha. pose proof (mc_map_clear HM) as Hcl.
  set (b := blockof _ _ _ _ _ _). assert (Hesz : u64 (nr * SZ_e820map_t) = SZ_e820map_t * nr) by (consts; rewrite u64_id; lia).
  destruct (m2mcopy_run A ea (SZ_e820map_t * nr) (st m (set_k (set_nextwt va) b))) as (m' & Ec & Hc); [apply Hs|lia|consts; lia|consts; lia|done|right; consts; lia|].
  exists m'. split_and!; [|done|eapply seen_copied; [exact Hs|exact Hc|intros; apply Hs|consts; lia|consts; lia]].
  unfold init_meme820. rewrite (bind_eq _ _ (st m b) (mb_k b) (st m b)) by done. change (mb_e820nr (mb_k b)) with nr. change (mb_e820padr (mb_k b)) with A. rewrite Hesz.
  rewrite (bind_eq _ _ _ _ _ (alloc_run m b (SZ_e820map_t * nr) Hs ltac:(consts; lia) ltac:(cbn; consts; lia) ltac:(cbn; consts; lia))).
  change (mb_nextwtpadr (mb_k b)) with ea. rewrite (eq_refl : P4K_ALIGN (ea + SZ_e820map_t * nr) = va). replace (ea =? 0) with false by (consts; lia).
  rewrite (bind_eq _ _ _ _ _ (move_not m (set_k (set_nextwt va) b) ea (SZ_e820map_t * nr) eq_refl eq_refl ltac:(consts; lia) ltac:(consts; lia) ltac:(consts; lia))).
  change (2 <? 1) with false. cbv iota. rewrite sint64_id by (consts; lia). rewrite (bind_eq _ _ _ _ _ Ec). unfold upd_mb, modify, mbind, M_bind. rewrite u64_id by (consts; lia).
  rewrite (Z.mul_comm SZ_e820map_t). unfold b. block_eq.
Qed.

Lemma seen_kept m m' a n : seen m -> kept a n m m' -> octets m' -> A + SZ_e820map_t * nr <= a \/ a + n <= A -> LDRFILEADR + isz <= a \/ a + n <= LDRFILEADR -> seen m'.
Proof. intros (Ho & H1 & H2) Hc Hf Ha Hi. split_and!; [done|intros x Hx; rewrite Hc by lia; by apply H1|]. intros x Hx. rewrite Hc by lia. by apply H2. Qed.

Lemma pages_run m msz kal g : seen m -> exists m', init_bstartpages (Some inf) (st m (blockof (blk IMGKRNL_PHYADR ksz va fa fsz ea 0 0 0) kal 0 0 msz g)) =
    Ret (tt, st m' (blockof (blk IMGKRNL_PHYADR ksz va fa fsz ea 0x400000000 KINITPAGE_PHYADR KINITPAGE_SZ) kal 0 0 msz g)) /\
  kept KINITPAGE_PHYADR KINITPAGE_SZ m m' /\ maps_low_memory m' KINITPAGE_PHYADR /\ seen m'.
Proof.
  intros Hs. pose proof places as HP. pose proof (mc_map_tables HM) as Ht. set (b := blockof _ _ _ _ _ _). assert (HT : T = 0x1000000) by done.
  assert (Hcl : clear_of T 73728) by (right; consts; lia).
  destruct (clear_loop_run 512 0 T (T + 0x1000) (st m b)) as (m1 & E1 & K1 & O1); [eapply clear_of_sub; [exact Hcl|lia..]|lia|lia|lia|apply Hs|]. cbn [st l_mem] in K1.
  destruct (pdpte_loop_run T 16 0 (st m1 b)) as (m2 & E2 & K2 & O2 & D2); [done|lia|lia|lia|done|intros; lia|]. cbn [st l_mem] in K2.
  destruct (store_word (T + 8 * 256) (tbl_ent (T + 0x1000)) (st m2 b)) as (m3 & E3 & K3 & W3 & O3); [eapply clear_of_sub; [exact Hcl|lia..]|done|]. cbn [st l_mem] in K3.
  destruct (store_word T (tbl_ent (T + 0x1000)) (st m3 b)) as (m4 & E4 & K4 & W4 & O4); [eapply clear_of_sub; [exact Hcl|lia..]|done|]. cbn [st l_mem] in K4.
  assert (K : kept T KINITPAGE_SZ m m4).
  { eapply region_trans; [eapply kept_sub; [exact K1|consts; lia..]|]. eapply region_trans; [eapply kept_sub; [exact K2|consts; lia..]|].
    eapply region_trans; [eapply kept_sub; [exact K3|consts; lia..]|eapply kept_sub; [exact K4|consts; lia..]]. }
  exists m4. split_and!; [|exact K| |eapply seen_kept; [exact Hs|exact K|done|consts; lia|consts; lia]].
  - unfold init_bstartpages. rewrite (bind_eq _ _ (st m b) true (st m b)) by (apply free_main; consts; [done|lia..]). cbn [negb].
    rewrite (bind_eq _ _ (st m b) 2 (st m b)) by (apply move_not; [done|done|consts; lia..]). change (2 <? 1) with false. cbv iota. change (Z.to_nat PGENTY_SIZE) with 512%nat.
    rewrite (bind_eq _ _ (st m b) tt (st m1 b)) by exact E1. rewrite (bind_eq _ _ _ tt (st m2 b)) by exact E2. rewrite (bind_eq _ _ _ tt (st m3 b)) by exact E3. rewrite (bind_eq _ _ _ tt (st m4 b)) by exact E4. unfold upd_mb, modify, b. block_eq.
  - apply (tables_map m4 T 4096); [done|consts; lia| | |].
    + by rewrite W4, tbl_ent_word by lia.
    + rewrite (word_kept _ _ _ _ _ _ K4) by lia. by rewrite W3, tbl_ent_word by lia.
    + intros d Hd. destruct (D2 d Hd) as [H1 H2]. split; [|intros k Hk2]; rewrite (word_kept _ _ _ _ _ _ K4), (word_kept _ _ _ _ _ _ K3) by lia; [done|by apply H2].
Qed.

(** ** The screen *)

Abbreviation FB := (FrameBase inf).
Abbreviation FL := (4 * (With inf * High inf)).
Definition screen : graph_t := Graph VBEMODE (With inf) (High inf) FB 0x20 0x118.

(** The frame holds whatever the picture puts there; the rest is as it was. *)
Definition drawn m (b : machb) s : Prop := exists m', s = st m' b /\ octets m' /\ kept FB FL m m'.

Lemma pixel_drawn m b x y pix s : mb_ghparm b = screen -> drawn m b s -> 0 <= x < With inf -> 0 <= y < High inf -> wp (write_pixcolor x y pix) s (fun _ s' => drawn m b s').
Proof.
  intros Hb (m' & -> & Ho & Hk) Hx Hy. pose proof places as HP. pose proof (mc_frame HM) as Hf. pose proof (mc_frame_top HM) as Ht. pose proof (im_least (mc_image HM)).
  assert (Hin : 0 <= x + y * With inf < With inf * High inf) by nia. unfold write_pixcolor. apply wp_bind, wp_gets. cbn [st l_mb]. rewrite Hb. cbn [screen gh_onepixbits gh_framphyadr gh_x]. change (0x20 =? 24) with false. cbv iota.
  rewrite u64_id by (consts; lia). rewrite (wp_det _ _ _ _ _ (phys_store_eq (FB + 4 * (x + y * With inf)) 4 pix (st m' b) ltac:(right; consts; lia))).
  eexists. split; [done|]. split; [apply octets_put; [by apply octets_little|done]|]. eapply region_trans; [exact Hk|].
  eapply kept_sub; [apply put_kept| |]; [lia|rewrite blen_little by lia; lia].
Qed.

Lemma row_bytes w : 0 <= w < 2 ^ 24 -> sint32 (Z.shiftl (Z.shiftr (sint32 (sint32 w * 24 + 31)) 5) 2) = Z.shiftl (Z.shiftr (w * 24 + 31) 5) 2 /\ 0 <= Z.shiftl (Z.shiftr (w * 24 + 31) 5) 2.
Proof.
  intros Hw. assert (Hs : forall x, 0 <= x < 2 ^ 31 -> sint32 x = x) by (intros x Hx; unfold sint32; rewrite Z.mod_small; lia).
  rewrite (Hs w), (Hs (w * 24 + 31)) by lia. rewrite Z.shiftr_div_pow2, Z.shiftl_mul_pow2 by lia.
  pose proof (Z.div_pos (w * 24 + 31) (2 ^ 5) ltac:(lia) ltac:(lia)). pose proof (Z.div_lt_upper_bound (w * 24 + 31) (2 ^ 5) (2 ^ 24) ltac:(lia) ltac:(lia)).
  split; [apply Hs|]; lia.
Qed.

Lemma logo_run m b : seen m -> mb_ghparm b = screen -> at_image (st m b) -> wp logo (st m b) (fun _ s' => drawn m b s').
Proof.
  intros Hs Hb Hi. pose proof places as HP. pose proof (im_least (mc_image HM)). destruct (file_bound _ _ _ _ (mc_logo HM) (mc_octets HM)) as (Ho & Hz & Hin). pose proof (mc_rows HM) as Hr.
  destruct (row_bytes _ (mc_width HM)) as [Hil Hil0]. pose proof (word_bound m0 (LDRFILEADR + loff + 10) 4 (mc_octets HM) ltac:(lia)) as Hoff.
  set (L := LDRFILEADR + loff) in *. set (off := word m0 (L + 10) 4) in *. set (w := word m0 (L + 18) 4) in *. set (il := Z.shiftl (Z.shiftr (w * 24 + 31) 5) 2) in *. change (8 * 4) with 32 in Hoff.
  assert (HL : L = 0x4000000 + loff) by done. clearbody L. consts.
  unfold logo. apply wp_bind. rewrite (wp_det _ _ _ _ _ (get_file_run isz name_logo loff lsz (st m b) (proj1 Hs) (seen_image m Hs) Hi text_logo ltac:(done) (seen_file m name_logo loff lsz Hs ltac:(done) (mc_logo HM)))).
  change (LDRFILEADR + loff) with (0x4000000 + loff). rewrite <- HL. apply wp_bind, wp_die_if; [lia|]. unfold bmp_print. replace (L =? 0) with false by lia.
  assert (Hw : forall o, 0 <= o -> o + 4 <= lsz -> word m (L + o) 4 = word m0 (L + o) 4) by (intros o ? ?; apply word_agree; intros x Hx; apply (proj2 (proj2 Hs)); consts; lia).
  apply wp_bind. rewrite (wp_det _ _ _ _ _ (phys_load_eq (L + 10) 4 (st m b) ltac:(right; consts; lia))). cbn [st l_mem]. rewrite (Hw 10) by lia. fold off.
  apply wp_bind. replace (L + 14 + 4) with (L + 18) by lia. rewrite (wp_det _ _ _ _ _ (phys_load_eq (L + 18) 4 (st m b) ltac:(right; consts; lia))). cbn [st l_mem]. rewrite (Hw 18) by lia. fold w. cbv zeta. rewrite Hil. clear Hw.
  pose proof (mc_with HM). pose proof (mc_high HM).
  apply wp_for_each_inv; [exists m; split_and!; [done|apply Hs|apply region_refl]|]. intros l s1 Hl%elem_of_seqZ D1. apply wp_for_each_inv; [done|]. intros k s2 Hk%elem_of_seqZ D2.
  assert (Hbp : (L +u off +u il * l) = L + off + il * l) by (rewrite (u64_id (L + off)), u64_id by nia; lia). rewrite Hbp.
  assert (Hcl : forall o, 0 <= o <= 2 -> clear_of (L + off + il * l + 3 * k + o) 1) by (intros o ?; right; consts; nia).
  apply wp_bind. unfold bmp_pixel. apply wp_bind. rewrite (wp_det _ _ _ _ _ (phys_load_eq (L + off + il * l + 3 * k) 1 s2 ltac:(rewrite <- (Z.add_0_r (_ + 3 * k)); apply Hcl; lia))).
  apply wp_bind. rewrite (wp_det _ _ _ _ _ (phys_load_eq _ 1 s2 (Hcl 1 ltac:(lia)))). apply wp_bind. rewrite (wp_det _ _ _ _ _ (phys_load_eq _ 1 s2 (Hcl 2 ltac:(lia)))).
  apply wp_ret. apply pixel_drawn; [done|done|lia|lia].
Qed.

Lemma graph_run m msz kal : seen m -> wp (init_graph (Some inf)) (st m (blockof (blk IMGKRNL_PHYADR ksz va fa fsz ea 0x400000000 T KINITPAGE_SZ) kal 0 0 msz graph_t_init))
  (fun _ s' => exists m' m'', s' = st m'' (blockof (blk IMGKRNL_PHYADR ksz nx fa fsz ea 0x400000000 T KINITPAGE_SZ) kal va vsz msz screen) /\ octets m'' /\ changed va vsz (fun _ => 0) m m' /\ kept FB FL m' m'').
Proof.
  intros Hs. pose proof places as HP. pose proof (mc_frame HM) as Hf. pose proof (mc_frame_top HM) as Ht. pose proof (mc_with HM). pose proof (mc_high HM). pose proof (im_least (mc_image HM)). pose proof (mc_frame_map HM). assert (Hv : 1 <= vsz) by lia. pose proof ksz_pos. pose proof fsz_pos.
  unfold init_graph. cbn [GetLoaderinfo]. apply wp_bind, wp_modify, wp_bind, wp_gets. apply wp_bind. rewrite !u32_id by (consts; nia).
  set (b := blockof (blk IMGKRNL_PHYADR ksz va fa fsz ea 0x400000000 T KINITPAGE_SZ) kal 0 0 msz screen). refine (proj2 (wp_det _ _ tt (st m b) _ _) _); [unfold upd_mb, modify, b, blockof; cbn; reflexivity|]. apply wp_bind.
  unfold init_kinitfvram. apply wp_bind, wp_gets. cbn [st l_mb b blockof mb_ghparm screen gh_mode gh_x gh_y gh_onepixbits]. change (VBEMODE =? VBEMODE) with true. change (0x20 / 8) with 4. cbv iota zeta. rewrite u64_id by (consts; nia).
  apply wp_bind. fold b. rewrite (wp_det _ _ _ _ _ (alloc_run m b vsz Hs Hv ltac:(change (mb_nextwtpadr (mb_k b)) with va; consts; lia) ltac:(change (mb_nextwtpadr (mb_k b)) with va; consts; lia))). change (mb_nextwtpadr (mb_k b)) with va. rewrite (eq_refl : P4K_ALIGN (va + vsz) = nx).
  replace (va =? 0) with false by (consts; lia). apply wp_bind, wp_modify. set (b' := blockof (blk IMGKRNL_PHYADR ksz nx fa fsz ea 0x400000000 T KINITPAGE_SZ) kal va vsz msz screen).
  change (with_mb _ _) with (st m b'). destruct (memset_run va 0 vsz (st m b')) as (m' & Em & Hc); [lia|right; consts; lia|]. rewrite (wp_det _ _ _ _ _ Em). change (0 mod 256) with 0 in Hc. cbn [st l_mem] in Hc.
  assert (Hs' : seen m'). { pose proof (mc_map_files HM). eapply seen_changed; [exact Hs|exact Hc|intros; lia|consts; lia|consts; lia]. }
  eapply wp_mono; [apply (logo_run m' b' Hs' eq_refl eq_refl)|]. intros _ s' (m'' & -> & Ho & Hk). by exists m', m''.
Qed.

(** ** The whole run *)

Definition handed_over s' : Prop := exists m,
  s' = st m (blockof (blk IMGKRNL_PHYADR ksz nx fa fsz ea 0x400000000 T KINITPAGE_SZ) (ea + SZ_e820map_t * nr) va vsz (usable_size 0 (map_at m0 A nr)) screen) /\
  bytes m IMGKRNL_PHYADR ksz = bytes m0 (LDRFILEADR + koff) ksz /\ bytes m fa fsz = bytes m0 (LDRFILEADR + foff) fsz /\ map_at m ea nr = map_at m0 A nr /\
  (forall x, va <= x < va + vsz -> m x = 0) /\ bytes m LDRFILEADR isz = bytes m0 LDRFILEADR isz /\ maps_low_memory m T /\
  (forall x, (x < T \/ T + KINITPAGE_SZ <= x) -> (x < IMGKRNL_PHYADR \/ nx <= x) -> (x < FB \/ FB + FL <= x) -> m x = m0 x) /\ octets m.

Lemma bstartparm_head s : init_bstartparm (Some inf) cpu s =
  (head ≫= fun _ => init_krlfile (Some inf) ;; init_defutfont (Some inf) ;; init_meme820 (Some inf) ;; init_bstartpages (Some inf) ;; init_graph (Some inf)) s.
Proof.
  unfold init_bstartparm, head, mbind, M_bind. cbn [GetLoaderinfo].
  do 5 (match goal with |- context [match ?m ?s with Ret _ => _ | _ => _ end] => destruct (m s) as [[? ?]| | |]; [|done..] end). done.
Qed.

Lemma loader_run s : ksz mod 4096 <> 0 -> l_mem s = m0 -> wp (init_bstartparm (Some inf) cpu) s (fun _ s' => handed_over s').
Proof.
  intros Hend E0. pose proof places as HP. pose proof ksz_pos. pose proof fsz_pos. pose proof (im_least (mc_image HM)). pose proof (mc_frame HM). unfold wp. rewrite bstartparm_head. fold (wp (head ≫= fun _ => init_krlfile (Some inf) ;; init_defutfont (Some inf) ;; init_meme820 (Some inf) ;; init_bstartpages (Some inf) ;; init_graph (Some inf)) s (fun _ s' => handed_over s')).
  apply wp_bind. rewrite (wp_det _ _ _ _ _ (head_run s E0)).
  destruct (kernel_run (usable_size 0 (map_at m0 A nr)) graph_t_init) as (m1 & E1 & C1 & S1). apply wp_bind. rewrite (wp_det _ _ _ _ _ E1).
  destruct (font_run m1 (usable_size 0 (map_at m0 A nr)) (IMGKRNL_PHYADR + ksz) graph_t_init Hend S1) as (m2 & E2 & C2 & S2). apply wp_bind. rewrite (wp_det _ _ _ _ _ E2).
  destruct (map_run m2 (usable_size 0 (map_at m0 A nr)) (fa + fsz) graph_t_init S2) as (m3 & E3 & C3 & S3). apply wp_bind. rewrite (wp_det _ _ _ _ _ E3).
  destruct (pages_run m3 (usable_size 0 (map_at m0 A nr)) (ea + SZ_e820map_t * nr) graph_t_init S3) as (m4 & E4 & K4 & P4 & S4). apply wp_bind. rewrite (wp_det _ _ _ _ _ E4).
  eapply wp_mono; [apply (graph_run m4 _ _ S4)|]. intros _ s' (m5 & m6 & -> & O6 & C5 & K6). exists m6. split; [done|].
  pose proof (changed_kept _ _ _ _ _ C1) as K1. pose proof (changed_kept _ _ _ _ _ C2) as K2. pose proof (changed_kept _ _ _ _ _ C3) as K3. pose proof (changed_kept _ _ _ _ _ C5) as K5. pose proof (mc_map_files HM).
  assert (Hfar : forall a n, T + KINITPAGE_SZ <= a -> a + n <= va -> bytes m6 a n = bytes m3 a n /\ forall x, a <= x < a + n -> m6 x = m3 x).
  { intros a n ? ?. assert (Hx : forall x, a <= x < a + n -> m6 x = m3 x) by (intros x Hx; rewrite K6, K5, K4 by (consts; lia); done). split; [by apply bytes_agree|done]. }
  split_and!.
  - rewrite (proj1 (Hfar IMGKRNL_PHYADR ksz ltac:(consts; lia) ltac:(consts; lia))). rewrite (bytes_kept _ _ _ _ _ _ K3), (bytes_kept _ _ _ _ _ _ K2) by (consts; lia). by apply bytes_copied.
  - rewrite (proj1 (Hfar fa fsz ltac:(consts; lia) ltac:(consts; lia))). rewrite (bytes_kept _ _ _ _ _ _ K3) by (consts; lia). rewrite (bytes_copied _ _ _ _ _ C2). destruct (file_bound _ _ _ _ (mc_font HM) (mc_octets HM)).
    apply bytes_agree. intros x Hx. apply S1. lia.
  - rewrite (map_at_agree m3 m6) by (apply Hfar; consts; lia). rewrite (map_at_copied _ _ _ _ _ C3). apply map_at_agree, S2.
  - intros x Hx. rewrite K6 by (consts; lia). rewrite C5. by replace ((_ <=? x) && _) with true by lia.
  - transitivity (bytes m4 LDRFILEADR isz); [|apply bytes_agree, S4]. apply bytes_agree. intros x Hx. rewrite K6, K5 by (consts; lia). done.
  - eapply maps_kept; [exact K6|consts; lia|]. eapply maps_kept; [exact K5|consts; lia|done].
  - intros x Hx1 Hx2 Hx3. rewrite K6, K5, K4, K3, K2, K1 by (consts; lia). done.
  - exact O6.
Qed.
End run.

(** ** The kernel's first step *)

(** src/hal/x86/halplatform.c: [move_img2maxpadr], which [init_hal] calls between the copy
    of the machine information block and the memory discovery (halinit.c), and [m2mcopy]
    of the kernel's io.h.  The state is the loader's: memory by physical address and the
    block, of which the kernel has its own copy with the same contents
    ([init_machbstart]); addresses of the kernel's linear window are taken back to
    physical ones at each access. *)

(** The physical address behind an address of the linear window *)
Definition lin (a : Z) : Z := a -u KRNL_MAP_VIRTADDRESS_START.

Definition hal_m2mcopy (sadr dadr len : Z) : LM Z :=
  if (sadr =? 0) || (dadr =? 0) || (len <? 1) then mret 0 else
  if sadr <? dadr then copy_down (Z.to_nat len) (lin sadr) (lin dadr) ;; mret len else
  if dadr <? sadr then copy_up (Z.to_nat len) 0 (lin sadr) (lin dadr) ;; mret len else
  mret len.

Definition move_img2maxpadr : LM unit :=
  b ← mb;
  let kmapadrend := mb_kpmapphymemsz b in
  _ ← phyadr_to_viradr (mb_e820padr b);
  m ← gets l_mem;
  emp ← ret_kmaxmpadrcmpsz_e820map (map_at m (mb_e820padr b) (mb_e820nr b)) kmapadrend (mb_imgsz b);
  match emp with
  | None => halt "move_img2maxpadr1 emp not ok"
  | Some emp =>
      let imgtoadr := Z.land (saddr emp +u (lsize emp -u mb_imgsz b)) (u64 (Z.lnot 0xfff)) in
      die_if (negb (initchkadr_is_ok b imgtoadr (mb_imgsz b) =? 0)) "initchkadr_is_ok not ok" ;;
      sadr ← phyadr_to_viradr (mb_imgpadr b);
      dadr ← phyadr_to_viradr imgtoadr;
      n ← hal_m2mcopy sadr dadr (sint64 (mb_imgsz b));
      die_if (negb (n =? sint64 (mb_imgsz b))) "move_img2maxpadr1 m2mcopy not ok" ;;
      upd_mb (set_k (set_img imgtoadr (mb_imgsz b)))
  end.

(** ** The range chosen *)


(** A usable range below the end of the linear window that has room for the image *)
Definition holds_image (isz : Z) (e : e820map_t) : Prop :=
  type e = RAM_USABLE /\ saddr e + lsize e < KRNL_MAP_PHYADDRESS_END /\ isz <= lsize e.

(** The highest of them, which is not below the first entry of the map *)
Definition top_range (es : list e820map_t) (isz : Z) (e : e820map_t) : Prop :=
  e ∈ es /\ holds_image isz e /\ (forall e', e' ∈ es -> holds_image isz e' -> saddr e' <= saddr e) /\
  forall e0, es !! 0%nat = Some e0 -> saddr e0 <= saddr e.

(** The place at its upper end, on a page boundary *)
Definition img_place (isz : Z) (e : e820map_t) : Z := 4096 * ((saddr e + lsize e - isz) / 4096).

Lemma same_start es isz e e' : firmware_map es -> 0 < isz -> e ∈ es -> e' ∈ es -> isz <= lsize e -> isz <= lsize e' -> saddr e' = saddr e -> e' = e.
Proof.
  intros [_ Hap] Hi [i He]%list_elem_of_lookup [j He']%list_elem_of_lookup H1 H2 E. destruct (decide (i = j)) as [->|Hij]; [congruence|].
  destruct (Hap i j e e' Hij He He'); lia.
Qed.

Lemma scan_top isz e l : (0 < isz) -> Forall entry_ok l -> holds_image isz e ->
  (forall e', e' ∈ l -> holds_image isz e' -> saddr e' <= saddr e /\ (saddr e' = saddr e -> e' = e)) ->
  forall mx ret, mx <= saddr e -> e ∈ l \/ (ret = Some e /\ mx = saddr e) ->
  kmaxmpadrcmpsz_scan KRNL_MAP_PHYADDRESS_END isz l mx ret = Some e.
Proof.
  intros Hi Hok Hh. induction Hok as [|x l Hx Hok IH]; intros Hmax mx ret Hmx He; cbn [kmaxmpadrcmpsz_scan].
  { destruct He as [He|[-> _]]; [by apply elem_of_nil in He|done]. }
  destruct Hx as (_ & Hx1 & Hx2 & Hx3 & _). rewrite u64_small by lia.
  assert (Hl : forall e', e' ∈ l -> holds_image isz e' -> saddr e' <= saddr e /\ (saddr e' = saddr e -> e' = e)) by (intros e' He'; apply Hmax; by right).
  destruct (_ && _) eqn:E.
  - destruct (Hmax x ltac:(by left) ltac:(unfold holds_image; lia)) as [Hle Heq]. apply IH; [done|done|].
    destruct He as [[->|He]%elem_of_cons|[-> ->]]; [by right|by left|]. right. by rewrite Heq by lia.
  - apply IH; [done|done|]. destruct He as [[->|He]%elem_of_cons|He]; [|by left|by right]. exfalso.
    destruct Hh as (H1 & H2 & H3). lia.
Qed.

Lemma range_found {S} es isz e (s : S) : firmware_map es -> 0 < isz -> top_range es isz e ->
  ret_kmaxmpadrcmpsz_e820map es KRNL_MAP_PHYADDRESS_END isz s = Ret (Some e, s).
Proof.
  intros Hfw Hi (He & Hh & Hmax & Hfst). destruct es as [|e0 es]; [by apply elem_of_nil in He|]. unfold ret_kmaxmpadrcmpsz_e820map.
  rewrite (scan_top isz e (e0 :: es) Hi (proj1 Hfw) Hh).
  - destruct (proj1 (Forall_forall _ _) (proj1 Hfw) e He) as (_ & H1 & H2 & H3 & _). destruct Hh as (_ & H4 & H5).
    rewrite u64_small by lia. by replace (_ && _) with true by lia.
  - intros e' He' Hh'. split; [by apply Hmax|]. apply (same_start (e0 :: es) isz e e'); try done; [apply Hh|apply Hh'].
  - by apply Hfst.
  - by left.
Qed.

(** ** The move *)

Lemma lin_phys p : 0 <= p < KRNL_MAP_PHYADDRESS_END -> lin (p +u KRNL_MAP_VIRTADDRESS_START) = p.
Proof.
  intros Hp. unfold lin, KRNL_MAP_PHYADDRESS_END, KRNL_MAP_VIRTADDRESS_START in *. rewrite (u64_small (p + _)) by (rewrite u64max_val; lia).
  rewrite u64_small by (rewrite u64max_val; lia). lia.
Qed.

Lemma hal_copy_run p q len s : octets (l_mem s) -> 0 <= p -> p < q -> q + len < KRNL_MAP_PHYADDRESS_END -> 1 <= len -> clear_of p len -> clear_of q len ->
  exists m', hal_m2mcopy (p +u KRNL_MAP_VIRTADDRESS_START) (q +u KRNL_MAP_VIRTADDRESS_START) len s = Ret (len, with_mem m' s) /\
    changed q len (fun x => l_mem s (x - q + p)) (l_mem s) m'.
Proof.
  intros Hm Hp Hpq Hq Hl Hcp Hcq. unfold hal_m2mcopy. rewrite !lin_phys by lia. unfold KRNL_MAP_PHYADDRESS_END, KRNL_MAP_VIRTADDRESS_START in *.
  rewrite !u64_small by (rewrite u64max_val; lia). replace (_ || _) with false by lia. replace (_ <? _) with true by lia.
  destruct (copy_down_run (Z.to_nat len) p q s (l_mem s) len) as (m' & E & Hm'); [done|lia|lia|done|done| |].
  - intros x. by replace ((_ <=? x) && _) with false by lia.
  - exists m'. by rewrite (bind_eq _ _ _ _ _ E).
Qed.

Lemma place_eq isz e : entry_ok e -> 0 < isz <= lsize e ->
  Z.land (saddr e +u (lsize e -u isz)) (u64 (Z.lnot 0xfff)) = img_place isz e.
Proof.
  intros (_ & H1 & H2 & H3 & _) Hi. rewrite u64max_val in H3. rewrite (u64_small (lsize e - isz)) by (rewrite u64max_val; lia). rewrite u64_small by (rewrite u64max_val; lia).
  rewrite Z.add_sub_assoc. apply (land_high 12); [lia|rewrite u64max_val; lia].
Qed.

Lemma move_run m b es e : octets m -> map_at m (mb_e820padr (mb_k b)) (mb_e820nr (mb_k b)) = es -> 0 <= mb_e820padr (mb_k b) < KRNL_MAP_PHYADDRESS_END ->
  firmware_map es -> mb_kpmapphymemsz (mb_k b) = KRNL_MAP_PHYADDRESS_END -> let isz := mb_imgsz (mb_k b) in let p := mb_imgpadr (mb_k b) in let q := img_place isz e in
  0 < isz < 2 ^ 32 -> top_range es isz e -> initchkadr_is_ok (mb_k b) q isz = 0 -> MBSPADR + SZ_machbstart_t <= p < q ->
  exists m', move_img2maxpadr (st m b) = Ret (tt, st m' (set_k (set_img q isz) b)) /\ changed q isz (fun x => m (x - q + p)) m m'.
Proof.
  intros Hm Hes Hea Hfw Hend isz p q Hi Htop Hchk Hp. pose proof Htop as (He & (_ & Hb & Hsz) & _).
  pose proof (proj1 (Forall_forall _ _) (proj1 Hfw) e He) as Hok. pose proof (place_eq isz e Hok ltac:(lia)) as Hq. fold q in Hq.
  assert (Hqb : q + isz < KRNL_MAP_PHYADDRESS_END).
  { destruct Hok as (_ & H1 & H2 & _). unfold q, img_place. pose proof (Z.div_mod (saddr e + lsize e - isz) 4096 ltac:(lia)). pose proof (Z.mod_pos_bound (saddr e + lsize e - isz) 4096 ltac:(lia)). lia. }
  assert (Hv : forall x (s : ldr), 0 <= x < KRNL_MAP_PHYADDRESS_END -> phyadr_to_viradr x s = Ret (x +u KRNL_MAP_VIRTADDRESS_START, s)).
  { intros x s0 Hx. unfold phyadr_to_viradr. by replace (_ <=? x) with false by lia. }
  assert (HB : MBSPADR = 0x100000) by done. unfold SZ_machbstart_t in *.
  assert (Hs64 : sint64 isz = isz) by (unfold sint64; rewrite Z.mod_small by lia; lia).
  unfold move_img2maxpadr. rewrite (bind_eq _ _ (st m b) (mb_k b) (st m b)) by done. cbv zeta. rewrite (bind_eq _ _ _ _ _ (Hv _ _ Hea)).
  rewrite (bind_eq _ _ (st m b) m (st m b)) by done. rewrite Hend, Hes. fold isz. rewrite (bind_eq _ _ _ _ _ (range_found es isz e (st m b) Hfw ltac:(lia) Htop)).
  cbv beta iota. rewrite Hq, Hchk. cbn [negb Z.eqb]. rewrite (bind_eq _ _ (st m b) tt (st m b)) by done.
  fold p. rewrite (bind_eq _ _ _ _ _ (Hv p _ ltac:(lia))), (bind_eq _ _ _ _ _ (Hv q _ ltac:(lia))). rewrite Hs64.
  destruct (hal_copy_run p q isz (st m b)) as (m' & Ec & Hc); [done|lia|lia|done|lia|right; unfold SZ_machbstart_t; lia|right; unfold SZ_machbstart_t; lia|].
  exists m'. split; [|exact Hc]. rewrite (bind_eq _ _ _ _ _ Ec), Z.eqb_refl. done.
Qed.
