(* ===== verification/LoaderCorrect.v ===== *)
(** * The loader: contract

    The theorems on the loader, from the firmware's memory map to the kernel's memory
    discovery, each applied to a small machine. *)

From S2P Require Import Prelude Bytes PhyMem DivMerOps Marea Boot BootSpec BootPages BootCorrect Loader LoaderMem LoaderSpec.
#[local] Open Scope Z_scope.

(** C34: [m2mcopy] is a move of bytes: for every overlap of source and destination it
    ends, the destination holds what the source held before, and no other byte changes. *)
Theorem m2mcopy_moves src dest len s : octets (l_mem s) -> src <> 0 -> dest <> 0 -> 1 <= len -> clear_of src len -> clear_of dest len ->
  wp (m2mcopy src dest len) s (fun r s' => r = len /\ l_mb s' = l_mb s /\
    forall x, l_mem s' x = if (dest <=? x) && (x <? dest + len) then l_mem s (x - dest + src) else l_mem s x).
Proof. intros H1 H2 H3 H4 H5 H6. destruct (m2mcopy_run src dest len s H1 H2 H3 H4 H5 H6) as (m' & E & Hc). rewrite (wp_det _ _ _ _ _ E). done. Qed.

(** ** A moved image *)

Lemma stable_load a n : stable l_mb (load a n).
Proof. intros s v s'. unfold load. destruct (in_block a n); [done|]. by intros [= _ <-]. Qed.
Lemma stable_store a n v : stable l_mb (store a n v).
Proof. intros s u s'. unfold store. destruct (in_block a n); [done|]. by intros [= _ <-]. Qed.
Lemma stable_copies n : (forall i s d, stable l_mb (copy_up n i s d)) /\ (forall s d, stable l_mb (copy_down n s d)).
Proof.
  induction n as [|n [IH1 IH2]]; (split; intros; [|]); cbn [copy_up copy_down]; try apply stable_ret.
  all: apply stable_bind; [apply stable_load|intros v]; apply stable_bind; [apply stable_store|intros _]; auto.
Qed.
Lemma stable_m2mcopy s d n : stable l_mb (m2mcopy s d n).
Proof. unfold m2mcopy. repeat case_match; try apply stable_ret; apply stable_bind; try apply stable_copies; intros; apply stable_ret. Qed.
Lemma stable_chk_memsize e n a z : stable l_mb (chk_memsize e n a z).
Proof.
  unfold chk_memsize. case_match; [apply stable_ret|]. generalize (Z.to_nat n). intros k. generalize 0. induction k as [|k IH]; intros i; cbn [chk_loop]; [apply stable_ret|].
  apply stable_bind; [unfold e820_at; repeat (apply stable_bind; [apply stable_load|intros ?]); apply stable_ret|]. intros x. case_match; [apply stable_ret|apply IH].
Qed.

(** When the image lies where the memory map should go and is moved out of its way, it is
    moved to the address that the loader hands out next: the next allocation, that of the
    frame buffer's copy, which is cleared, gets the place of the image. *)
Lemma moved_image_reused inf size start s s1 s2 : LoaderAllocMemory inf size s = Ret (start, s1) -> start <> 0 -> move_krlimg start size s1 = Ret (1, s2) ->
  mb_imgpadr (mb_k (l_mb s2)) = mb_nextwtpadr (mb_k (l_mb s2)).
Proof.
  intros Ha Hs Hm. assert (Hn : mb_nextwtpadr (mb_k (l_mb s1)) = P4K_ALIGN (start +u size)).
  { unfold LoaderAllocMemory, mbind, M_bind in Ha. cbn in Ha. repeat case_match; try discriminate; injection Ha as Hst Hs1; subst; done. }
  unfold move_krlimg in Hm. case_match; [done|]. unfold mb, mbind, M_bind, gets in Hm. case_match; [|done].
  destruct (chk_memsize _ _ _ _ s1) as [[r s3]| | |] eqn:E3; [|done..]. case_match; [done|]. destruct (m2mcopy _ _ _ s3) as [[r2 s4]| | |] eqn:E4; [|done..].
  apply stable_chk_memsize in E3. apply stable_m2mcopy in E4. injection Hm as <-. cbn. by rewrite E4, E3, Hn.
Qed.

Section machine.
Context (inf : LoaderInfo) (cpu : cpu_t) (m0 : memory) (isz koff ksz foff fsz loff lsz : Z).

(** C7: the loader, from the firmware to the jump into the kernel.  On a machine with the
    memory it asks for and an image with its three files, of which the kernel has a size
    that is no multiple of a page (the loader halts on the others), it ends
    without a halt; kernel
    and font are copied to their places byte for byte, the memory map that the kernel
    will read has the firmware's entries, the frame buffer's copy is clear, the page
    tables translate the first 16 GiB at 0 and at the kernel's base, the image is as it
    was, the parts lie one behind the other below the image, and nothing else in memory
    has changed but the screen. *)
Theorem loader_correct s : machine inf m0 isz koff ksz foff fsz loff lsz -> cpu_ok cpu -> ksz mod 4096 <> 0 -> l_mem s = m0 ->
  wp (init_bstartparm (Some inf) cpu) s (fun _ s' => handed_over inf m0 isz koff ksz foff fsz s').
Proof. intros HM HC Hend E0. by apply (loader_run inf cpu m0 isz koff ksz foff fsz loff lsz). Qed.

(** A kernel that fills its last page *)
Lemma font_refused m msz kal g : machine inf m0 isz koff ksz foff fsz loff lsz -> ksz mod 4096 = 0 -> seen inf m0 isz m ->
  init_defutfont (Some inf) (st m (blockof (blk inf isz IMGKRNL_PHYADR ksz (font_adr ksz) 0 0 (E820Map inf) 0 0 0) kal 0 0 msz g)) = Halt "ReadFileToMemPhyAddr err".
Proof.
  intros HM Hend Hs. pose proof (places inf m0 isz koff ksz foff fsz loff lsz HM) as HP. pose proof (ksz_pos inf m0 isz koff ksz foff fsz loff lsz HM) as Hk. pose proof (fsz_pos inf m0 isz koff ksz foff fsz loff lsz HM) as Hfz.
  pose proof (font_gap inf m0 isz koff ksz foff fsz loff lsz HM) as Hgap. rewrite decide_True in Hgap by done. destruct (file_bound isz _ _ _ _ (mc_font HM) (mc_octets HM)) as (Ho & _ & Hin). pose proof (im_least (mc_image HM)).
  set (b := blockof _ _ _ _ _ _). set (b' := set_k (set_nextwt (map_adr ksz fsz)) b). unfold init_defutfont, mbind at 1, M_bind at 1.
  enough (ReadFileToMemPhyAddr (Some inf) 0 name_font (st m b) = Ret ((0, 0), st m b')) as -> by done.
  unfold ReadFileToMemPhyAddr. rewrite (bind_eq _ _ _ _ _ (get_file_run isz name_font foff fsz (st m b) (proj1 Hs) (seen_image inf m0 isz koff ksz foff fsz loff lsz HM m Hs) eq_refl text_font ltac:(done) (seen_file inf m0 isz koff ksz foff fsz loff lsz HM m name_font foff fsz Hs ltac:(done) (mc_font HM)))).
  cbn [fst snd]. assert (HL : LDRFILEADR = 0x4000000) by done. assert (HI : IMGKRNL_PHYADR = 0x2000000) by done. replace (_ || _) with false by lia. cbn [Z.eqb].
  rewrite (bind_eq _ _ _ _ _ (alloc_run inf m0 isz koff ksz foff fsz loff lsz HM m b fsz Hs ltac:(lia) ltac:(cbn; lia) ltac:(cbn; unfold SZ_e820map_t in *; lia))).
  change (mb_nextwtpadr (mb_k b)) with (font_adr ksz). rewrite (eq_refl : P4K_ALIGN (font_adr ksz + fsz) = map_adr ksz fsz). fold b'. replace (font_adr ksz =? 0) with false by lia.
  rewrite (bind_eq _ _ (st m b') (mb_k b') (st m b')) by done. replace (chkadr_is_ok _ _ _ =? 0) with false; [done|]. symmetry. apply Z.eqb_neq. unfold chkadr_is_ok.
  change (mb_krlimgpadr (mb_k b')) with IMGKRNL_PHYADR. change (mb_krlsz (mb_k b')) with ksz. repeat (case_match; [done|]).
  assert (E : adrzone_is_ok IMGKRNL_PHYADR ksz (font_adr ksz) fsz = -1).
  { unfold adrzone_is_ok. rewrite (u64_id (IMGKRNL_PHYADR + ksz)) by lia. by replace (_ && _) with true by lia. }
  match goal with H : negb (adrzone_is_ok IMGKRNL_PHYADR ksz _ _ =? 0) = false |- _ => rewrite E in H; discriminate H end.
Qed.

(** C40: the check of the places counts touching as overlapping: when the size of the kernel
    is a multiple of a page, the font starts right behind it, and the loader stops although
    there is room for everything. *)
Theorem aligned_kernel_halts s : machine inf m0 isz koff ksz foff fsz loff lsz -> cpu_ok cpu -> ksz mod 4096 = 0 -> l_mem s = m0 ->
  init_bstartparm (Some inf) cpu s = Halt "ReadFileToMemPhyAddr err".
Proof.
  intros HM HC Hend E0. pose proof (head_run inf cpu m0 isz koff ksz foff fsz loff lsz HM HC s E0) as Eh. destruct (kernel_run inf m0 isz koff ksz foff fsz loff lsz HM (usable_size 0 (map_at m0 (E820Map inf) (E820MapNR inf))) graph_t_init) as (m1 & E1 & _ & S1).
  rewrite bstartparm_head. unfold mbind, M_bind. rewrite Eh, E1. by rewrite (font_refused m1 _ _ _ HM Hend S1).
Qed.

(** ** From the loader to the kernel *)

(** The kernel starts on the block and on the map that the block points to. *)
Definition kernel_start (mm : mmst) (s : ldr) : bootst :=
  let b := mb_k (l_mb s) in Bootst b (map_at (l_mem s) (mb_e820padr b) (mb_e820nr b)) [] mm ∅.

Lemma ranges_gap q nr : 0 <= q < 2 ^ 30 -> 0 <= nr < 2 ^ 32 -> nr mod 256 <> 0 -> 4096 * q + nr * SZ_phymmarge_t < PAGE_ALIGN (4096 * q + nr * SZ_phymmarge_t).
Proof.
  intros Hq Hn Hm. unfold SZ_phymmarge_t. change (PAGE_ALIGN ?x) with (P4K_ALIGN x). pose proof (align_ge (4096 * q + nr * 80) ltac:(lia)) as Ha. rewrite align_up in * by lia.
  apply Z.le_neq. split; [lia|]. intros E. apply Hm, Z.mod_divide; [lia|]. set (k := _ / 4096) in E. exists (205 * (k - q) - 4 * nr). lia.
Qed.

Abbreviation es := (map_at m0 (E820Map inf) (E820MapNR inf)).
Abbreviation nx := (next_adr ksz fsz (E820MapNR inf) (With inf * High inf * 4)).

(** Room for the kernel's arrays of ranges and of [n] page descriptors below [top], the
    place of the moved image.  The array of ranges must not end on a page boundary (the
    check of the places counts touching as overlapping): the number of entries is no
    multiple of 256. *)
Definition kernel_room (n top : Z) : Prop :=
  E820MapNR inf mod 256 <> 0 /\ PAGE_ALIGN (nx + E820MapNR inf * SZ_phymmarge_t) + n * SZ_msadsc_t < top.

(** The block the kernel has after the move of the image to [top] *)
Abbreviation kernel_block top := (Machbstart IKSTACK_PHYADR IKSTACK_SIZE top isz IMGKRNL_PHYADR ksz nx (font_adr ksz) fsz (map_adr ksz fsz) (E820MapNR inf)
  (E820MapNR inf * SZ_e820map_t) 0 0 0 0 0 0 0 0 0 0x400000000 KINITPAGE_PHYADR KINITPAGE_SZ).

(** What is not free for the image and for the arrays *)
Lemma checked_place top a n : machine inf m0 isz koff ksz foff fsz loff lsz -> LDRFILEADR + isz < 2 ^ 32 -> 0 < top < 2 ^ 34 -> 0 <= n -> nx <= a -> a + n < 2 ^ 34 ->
  (E820MapNR inf * SZ_e820map_t + map_adr ksz fsz < a) -> top + isz < a \/ a + n < top ->
  initchkadr_is_ok (kernel_block top) a n = 0.
Proof.
  intros HM Hi Htop Hn Ha Hb He Hd. pose proof (places inf m0 isz koff ksz foff fsz loff lsz HM) as HP. pose proof (ksz_pos inf m0 isz koff ksz foff fsz loff lsz HM) as Hk.
  pose proof (fsz_pos inf m0 isz koff ksz foff fsz loff lsz HM) as Hf. pose proof (im_least (mc_image HM)) as Hl. pose proof (mc_nr HM).
  assert (HL : LDRFILEADR = 0x4000000) by done. assert (HI : IMGKRNL_PHYADR = 0x2000000) by done. unfold SZ_e820map_t in *.
  set (fa := font_adr ksz) in *. set (ea := map_adr ksz fsz) in *. set (va := fvrm_adr ksz fsz (E820MapNR inf)) in *. set (N := next_adr _ _ _ _) in *.
  unfold initchkadr_is_ok.
  cbn [mb_nextwtpadr mb_krlinitstack mb_krlitstacksz mb_imgpadr mb_imgsz mb_krlimgpadr mb_krlsz mb_bfontpadr mb_bfontsz mb_e820padr mb_e820sz mb_memznpadr mb_memznsz mb_memmappadr mb_memmapsz mb_e820expadr mb_e820exsz mb_kpmapphymemsz].
  rewrite (u64_id (IKSTACK_PHYADR - IKSTACK_SIZE)) by (unfold IKSTACK_PHYADR, IKSTACK_SIZE; lia). unfold IKSTACK_PHYADR, IKSTACK_SIZE.
  rewrite !adrzone_ok by lia. rewrite !u64_id by lia. cbn [negb Z.eqb]. by replace (_ <=? a + n) with false by lia.
Qed.

(** After the loader and the move of the image *)
Definition started (e : e820map_t) (s : ldr) : Prop := exists m kal fv fvsz msz g,
  s = st m (blockof (kernel_block (img_place isz e)) kal fv fvsz msz g) /\ map_at m (map_adr ksz fsz) (E820MapNR inf) = es /\
  bytes m (img_place isz e) isz = bytes m0 LDRFILEADR isz.

Lemma moved_image e s' : machine inf m0 isz koff ksz foff fsz loff lsz -> firmware_map es -> top_range es isz e -> LDRFILEADR + isz < img_place isz e ->
  handed_over inf m0 isz koff ksz foff fsz s' -> wp move_img2maxpadr s' (fun _ s2 => started e s2).
Proof.
  intros HM Hfw Htop Hplace (m & -> & _ & _ & Hmap & _ & Himg & _ & _ & Hoct). pose proof (places inf m0 isz koff ksz foff fsz loff lsz HM) as HP.
  pose proof (ksz_pos inf m0 isz koff ksz foff fsz loff lsz HM) as Hk. pose proof (fsz_pos inf m0 isz koff ksz foff fsz loff lsz HM) as Hf. pose proof (im_least (mc_image HM)) as Hi. pose proof (mc_nr HM) as Hnr.
  assert (HL : LDRFILEADR = 0x4000000) by done. assert (HI : IMGKRNL_PHYADR = 0x2000000) by done. unfold SZ_e820map_t in HP.
  assert (Hq : img_place isz e + isz < 2 ^ 34).
  { pose proof Htop as (_ & (_ & Hb & _) & _). unfold img_place, KRNL_MAP_PHYADDRESS_END in *. pose proof (Z.mul_div_le (saddr e + lsize e - isz) 4096 ltac:(lia)). lia. }
  set (b := blockof _ _ _ _ _ _).
  destruct (move_run m b es e) as (m' & E & Hc); try done.
  - unfold b. cbn. unfold KRNL_MAP_PHYADDRESS_END. lia.
  - unfold b. cbn. lia.
  - unfold b. cbn [mb_k blockof mb_imgsz blk]. apply (checked_place LDRFILEADR (img_place isz e) isz HM); try lia; unfold SZ_e820map_t; lia.
  - unfold b, MBSPADR, SZ_machbstart_t. cbn [mb_k blockof mb_imgpadr mb_imgsz blk]. lia.
  - rewrite (wp_det _ _ _ _ _ E). unfold b in *. cbn [mb_k blockof mb_imgpadr mb_imgsz blk] in *. eexists m', _, _, _, _, _. split; [reflexivity|]. split.
    + rewrite <- Hmap. apply map_at_agree. unfold SZ_e820map_t. intros x Hx. apply (changed_kept _ _ _ _ _ Hc). left. lia.
    + rewrite <- Himg. apply (bytes_copied _ _ _ _ _ Hc).
Qed.

Lemma handed_ready mm n e s : machine inf m0 isz koff ksz foff fsz loff lsz -> ksz mod 4096 <> 0 -> firmware_map es -> usable_bytes (range_of <$> es) < u64max ->
  n = Z.of_nat (length (frames (range_of <$> es))) -> 0 < n -> top_range es isz e -> LDRFILEADR + isz < img_place isz e -> kernel_room n (img_place isz e) -> started e s ->
  loader_ready (kernel_start mm s) es n.
Proof.
  intros HM Hend Hfw Hub Hn Hpos Htop Hplace [Hr1 Hr2] (m & kal & fv & fvsz & msz & g & -> & Hmap & _). pose proof (places inf m0 isz koff ksz foff fsz loff lsz HM) as HP. pose proof (ksz_pos inf m0 isz koff ksz foff fsz loff lsz HM) as Hk.
  pose proof (fsz_pos inf m0 isz koff ksz foff fsz loff lsz HM) as Hf. pose proof (mc_nr HM) as Hnr. pose proof (im_least (mc_image HM)) as Hi.
  assert (Hlen : Z.of_nat (length es) = E820MapNR inf) by (unfold map_at; rewrite length_fmap, length_seqZ; lia).
  assert (Hq : img_place isz e + isz < 2 ^ 34).
  { pose proof Htop as (_ & (_ & Hb & _) & _). unfold img_place, KRNL_MAP_PHYADDRESS_END in *. pose proof (Z.mul_div_le (saddr e + lsize e - isz) 4096 ltac:(lia)). lia. }
  set (nr := E820MapNR inf) in *. set (fa := font_adr ksz) in *. set (ea := map_adr ksz fsz) in *. set (va := fvrm_adr ksz fsz nr) in *.
  assert (HL : LDRFILEADR = 0x4000000) by done. assert (HI : IMGKRNL_PHYADR = 0x2000000) by done. unfold SZ_e820map_t in HP.
  assert (Hva : 0 <= va + With inf * High inf * 4 <= 0x4000000) by lia.
  assert (Hnx : exists q, next_adr ksz fsz nr (With inf * High inf * 4) = 4096 * q /\ 0 <= q < 2 ^ 30).
  { unfold next_adr. fold nr va. rewrite align_up by lia. eexists. split; [done|]. split; [apply Z.div_pos|apply Z.div_lt_upper_bound]; lia. }
  set (N := next_adr ksz fsz nr (With inf * High inf * 4)) in *. destruct Hnx as (q & Hnq & Hqb). pose proof (ranges_gap q nr Hqb ltac:(lia) Hr1) as Hgap. rewrite <- Hnq in Hgap. unfold SZ_phymmarge_t, SZ_msadsc_t in *.
  set (P := PAGE_ALIGN (N + nr * 80)) in *. set (top := img_place isz e) in *.
  unfold loader_ready, after_ranges. rewrite Hlen. unfold kernel_start, st, blockof. cbn [kmachbsp e820 l_mb mb_k mb_e820nr mb_e820sz mb_e820padr mb_nextwtpadr l_mem]. unfold SZ_phymmarge_t, SZ_e820map_t, SZ_msadsc_t.
  rewrite (u64_id (N + nr * 80)) by lia. fold P. unfold set_e820ex, initchkadr_is_ok, KRNL_MAP_PHYADDRESS_END.
  cbn [mb_nextwtpadr mb_krlinitstack mb_krlitstacksz mb_imgpadr mb_imgsz mb_krlimgpadr mb_krlsz mb_bfontpadr mb_bfontsz mb_e820padr mb_e820sz mb_memznpadr mb_memznsz mb_memmappadr mb_memmapsz mb_e820expadr mb_e820exsz mb_kpmapphymemsz].
  rewrite (u64_id (IKSTACK_PHYADR - IKSTACK_SIZE)) by (unfold IKSTACK_PHYADR, IKSTACK_SIZE; lia). unfold IKSTACK_PHYADR, IKSTACK_SIZE.
  rewrite !adrzone_ok by lia. rewrite !u64_id by lia. cbn [negb Z.eqb]. replace (_ <=? N + _) with false by lia. replace (_ <=? P + _) with false by lia.
  split_and!; try done; try lia.
Qed.

(** C8: from the firmware to the kernel's page descriptors.  On a machine the loader
    accepts, with a kernel whose size is no multiple of a page (otherwise the loader
    halts), a memory map without overlaps whose number of entries
    is no multiple of 256, a usable range that ends below 16 GiB, does not start below
    the first entry and has room for the image at its upper end above the place where the
    loader left it, and room below that place for the kernel's arrays (the set-up of the
    screen, which the kernel does in between and which stores into the frame buffers
    only, is left out here): after the loader, [move_img2maxpadr] ends without a halt with the image moved
    byte for byte to the top of the highest such range, and then [init_phymmarge] and
    [init_msadsc] run without a halt on the block and the map left to them; the
    descriptors are, in ascending order and once each, exactly the page frames inside of
    the usable ranges that the firmware reported. *)
Theorem boot_chain s mm n e : machine inf m0 isz koff ksz foff fsz loff lsz -> cpu_ok cpu -> ksz mod 4096 <> 0 -> l_mem s = m0 ->
  firmware_map es -> usable_bytes (range_of <$> es) < u64max -> n = Z.of_nat (length (frames (range_of <$> es))) -> 0 < n ->
  top_range es isz e -> LDRFILEADR + isz < img_place isz e -> kernel_room n (img_place isz e) ->
  wp (init_bstartparm (Some inf) cpu ;; move_img2maxpadr) s (fun _ s' =>
    mb_imgpadr (mb_k (l_mb s')) = img_place isz e /\ bytes (l_mem s') (img_place isz e) isz = bytes m0 LDRFILEADR isz /\
    wp (init_phymmarge ;; init_msadsc) (kernel_start mm s') (fun _ k =>
      mb_memmapnr (kmachbsp k) = n /\
      exists fs, n = Z.of_nat (length fs) /\ StronglySorted Z.lt fs /\ (forall f, f ∈ fs <-> usable_frame es f) /\
        forall j, 0 <= j < n -> msas (Boot.mm k) !! j = frame_msa <$> fs !! Z.to_nat j)).
Proof.
  intros HM HC Hend E0 Hfw Hub Hn Hpos Htop Hplace Hroom. apply wp_bind.
  eapply wp_mono; [exact (loader_run inf cpu m0 isz koff ksz foff fsz loff lsz HM HC s Hend E0)|]. cbn beta. intros _ s1 Hs1.
  eapply wp_mono; [exact (moved_image e s1 HM Hfw Htop Hplace Hs1)|]. cbn beta. intros _ s' Hs'. pose proof Hs' as (m & kal & fv & fvsz & msz & g & -> & _ & Himg).
  split; [done|]. split; [exact Himg|].
  eapply wp_mono; [exact (discovery_spec _ _ n (handed_ready mm n e _ HM Hend Hfw Hub Hn Hpos Htop Hplace Hroom Hs'))|]. intros _ k (H1 & fs & H2 & H3 & H4 & H5). split; [done|]. exists fs. split_and!; [done|done|done|].
  intros j Hj. rewrite H5. by replace ((0 <=? j) && _) with true by lia.
Qed.
End machine.

(** ** A machine with 192 MiB *)

(** Descriptor of a file *)
Definition demo_file (name : list Z) (off sz : Z) : list Z := zeros 32 ++ le64 off ++ zeros 8 ++ le64 sz ++ zeros 8 ++ name ++ zeros (192 - blen name).
Definition demo_hdr : list Z := zeros 72 ++ le64 0x2000 ++ zeros 32 ++ le64 0x100000 ++ zeros 24 ++ le64 3 ++ le64 3 ++ le64 MDC_ENDGIC ++ le64 MDC_RVGIC.
Definition demo_e820 (a n : Z) : list Z := le64 a ++ le64 n ++ [1; 0; 0; 0].
Definition demo_memory (ksz : Z) : memory :=
  put 0x1000 (demo_e820 0 0x9f000 ++ demo_e820 0x100000 0xbf00000) (put hdr demo_hdr
    (put (LDRFILEADR + 0x2000) (demo_file name_kernel 0x4000 ksz ++ demo_file name_font 0x6000 0x1000 ++ demo_file name_logo 0x8000 0x90000)
      (put (LDRFILEADR + 0x800a) [54; 0; 0; 0; 40; 0; 0; 0; 84; 1; 0; 0] (fun _ => 0)))).
Definition demo_info : LoaderInfo := Loaderinfo 0xe0000000 1024 768 0x1000 2.
Definition demo_cpu : cpu_t := Cpu true (fun _ => (0x80000008, 0, Z.ones 32, Z.ones 32)).

Lemma demo_octets ksz : octets (demo_memory ksz).
Proof.
  assert (H0 : forall n, Forall (fun c => 0 <= c < 256) (zeros n)) by (intros; apply Forall_replicate; lia). assert (H8 : forall v, Forall (fun c => 0 <= c < 256) (le64 v)) by (intros; apply (octets_little 8); lia).
  unfold demo_memory. do 4 (apply octets_put; [unfold demo_hdr, demo_file, demo_e820, name_kernel, name_font, name_logo; rewrite ?Forall_app; repeat split; auto; repeat constructor; lia|]). intros x. lia.
Qed.

Lemma below_two j : 0 <= j < 2 -> j = 0 \/ j = 1.
Proof. lia. Qed.
Lemma demo_files ksz : ksz = 0x1800 \/ ksz = 0x2000 ->
  image_file (demo_memory ksz) 0x100000 name_kernel 0x4000 ksz /\ image_file (demo_memory ksz) 0x100000 name_font 0x6000 0x1000 /\ image_file (demo_memory ksz) 0x100000 name_logo 0x8000 0x90000.
Proof.
  intros [-> | ->]; split_and!.
  all: [> exists 0 | exists 1 | exists 2 | exists 0 | exists 1 | exists 2].
  all: split_and!; [lia|vm_compute; reflexivity|vm_compute; reflexivity| |vm_compute; reflexivity|vm_compute; reflexivity|lia|lia].
  all: intros j Hj; first [lia|replace j with 0 by lia; vm_compute; discriminate|destruct (below_two j Hj) as [-> | ->]; vm_compute; discriminate].
Qed.

Lemma demo_image ksz : ksz = 0x1800 \/ ksz = 0x2000 -> image (demo_memory ksz) 0x100000.
Proof. intros [-> | ->]; split; vm_compute; first [reflexivity|discriminate]. Qed.

Lemma demo_machine ksz : ksz = 0x1800 \/ ksz = 0x2000 -> machine demo_info (demo_memory ksz) 0x100000 0x4000 ksz 0x6000 0x1000 0x8000 0x90000.
Proof.
  intros Hk. destruct (demo_files ksz Hk) as (F1 & F2 & F3). split; [apply demo_octets|..]; try done; try (by apply demo_image).
  all: destruct Hk as [-> | ->]; first [vm_compute; reflexivity|vm_compute; discriminate|left; vm_compute; first [reflexivity|discriminate]|right; vm_compute; first [reflexivity|discriminate]|split; vm_compute; first [reflexivity|discriminate]].
Qed.
Lemma demo_cpu_ok : cpu_ok demo_cpu.
Proof. split_and!; vm_compute; first [reflexivity|discriminate]. Qed.
Definition demo_loader (ksz : Z) : ldr := Ldr (demo_memory ksz) (Machb machbstart_zero 0 0 0 0 0 0 graph_t_init) 0.

Lemma m2mcopy_moves_witness : wp (m2mcopy 0x1000 0x1004 40) (demo_loader 0x1800) (fun r s' => r = 40 /\ l_mem s' 0x1004 = l_mem (demo_loader 0x1800) 0x1000).
Proof.
  eapply wp_mono; [apply (m2mcopy_moves 0x1000 0x1004 40 (demo_loader 0x1800)); [apply demo_octets|discriminate|discriminate|lia|left; vm_compute; discriminate|left; vm_compute; discriminate]|].
  cbn beta. intros r s' (H1 & _ & H2). split; [exact H1|]. rewrite H2. reflexivity.
Defined.

Lemma loader_correct_witness : wp (init_bstartparm (Some demo_info) demo_cpu) (demo_loader 0x1800) (fun _ s' => handed_over demo_info (demo_memory 0x1800) 0x100000 0x4000 0x1800 0x6000 0x1000 s').
Proof.
  apply (loader_correct demo_info demo_cpu (demo_memory 0x1800) 0x100000 0x4000 0x1800 0x6000 0x1000 0x8000 0x90000 (demo_loader 0x1800)); [apply demo_machine; left; reflexivity|exact demo_cpu_ok|discriminate|reflexivity].
Defined.
(** Where this machine's kernel finds its parts *)
Example demo_places : (font_adr 0x1800, map_adr 0x1800 0x1000, fvrm_adr 0x1800 0x1000 2, next_adr 0x1800 0x1000 2 0x300000) = (0x2002000, 0x2003000, 0x2004000, 0x2304000).
Proof. reflexivity. Qed.

Lemma aligned_kernel_halts_witness : init_bstartparm (Some demo_info) demo_cpu (demo_loader 0x2000) = Halt "ReadFileToMemPhyAddr err".
Proof.
  apply (aligned_kernel_halts demo_info demo_cpu (demo_memory 0x2000) 0x100000 0x4000 0x2000 0x6000 0x1000 0x8000 0x90000 (demo_loader 0x2000)); [apply demo_machine; right; reflexivity|exact demo_cpu_ok|reflexivity|reflexivity].
Defined.

Definition demo_es : list e820map_t := [E820 0 0x9f000 RAM_USABLE; E820 0x100000 0xbf00000 RAM_USABLE].
Lemma demo_es_eq : map_at (demo_memory 0x1800) 0x1000 2 = demo_es.
Proof. vm_compute. reflexivity. Qed.
Lemma demo_es_firmware : firmware_map demo_es.
Proof.
  split.
  - repeat constructor; vm_compute; congruence.
  - intros i j e e' Hij Hi Hj. unfold apart. destruct i as [|[|i]]; [injection Hi as <-..|done]; (destruct j as [|[|j]]; [injection Hj as <-..|done]); cbn; lia.
Qed.

Lemma demo_frames : 49055 = Z.of_nat (length (frames (range_of <$> demo_es))).
Proof.
  destruct (usable_sums_spec (range_of <$> demo_es)) with (a := 0) (b := 0) as [E _].
  - repeat constructor; vm_compute; congruence.
  - done.
  - done.
  - by vm_compute.
  - by vm_compute.
  - assert (E2 : usable_sums (range_of <$> demo_es) 0 0 = (0xbf9f000, 49055)) by reflexivity. rewrite E2 in E. apply (f_equal snd) in E. cbn [snd] in E. etransitivity; [exact E|apply Z.add_0_l].
Qed.

Definition demo_top : e820map_t := E820 0x100000 0xbf00000 RAM_USABLE.
Lemma demo_top_range : top_range demo_es 0x100000 demo_top.
Proof.
  split; [by right; left|]. split; [split_and!; vm_compute; (reflexivity || discriminate)|]. split; [|intros e0 [= <-]; vm_compute; discriminate].
  intros e' [->|[->|H%elem_of_nil]%elem_of_cons]%elem_of_cons _; [vm_compute; discriminate..|done].
Qed.

Lemma boot_chain_witness : wp (init_bstartparm (Some demo_info) demo_cpu ;; move_img2maxpadr) (demo_loader 0x1800) (fun _ s' =>
  mb_imgpadr (mb_k (l_mb s')) = 0xbf00000 /\
  wp (init_phymmarge ;; init_msadsc) (kernel_start empty_mm s') (fun _ k => mb_memmapnr (kmachbsp k) = 49055)).
Proof.
  eapply wp_mono; [apply (boot_chain demo_info demo_cpu (demo_memory 0x1800) 0x100000 0x4000 0x1800 0x6000 0x1000 0x8000 0x90000 (demo_loader 0x1800) empty_mm 49055 demo_top)|].
  - apply demo_machine. left. reflexivity.
  - exact demo_cpu_ok.
  - discriminate.
  - reflexivity.
  - cbn [demo_info E820Map E820MapNR]. rewrite demo_es_eq. exact demo_es_firmware.
  - cbn [demo_info E820Map E820MapNR]. rewrite demo_es_eq. vm_compute. reflexivity.
  - cbn [demo_info E820Map E820MapNR]. rewrite demo_es_eq. exact demo_frames.
  - lia.
  - cbn [demo_info E820Map E820MapNR]. rewrite demo_es_eq. exact demo_top_range.
  - vm_compute. reflexivity.
  - split; vm_compute; [discriminate|reflexivity].
  - cbn beta. intros _ s' (E & _ & H). split; [exact E|]. eapply wp_mono; [exact H|]. cbn beta. intros _ k [E2 _]. exact E2.
Defined.
